(* ===== verification/_CoqProject ===== *)
-Q . S2P
Prelude.v
Ebcdic.v
Cchh.v
Codec.v
Labels.v
LabelOps.v
VtocIo.v
Extents.v
Fmt7.v
Fmt5.v
Freespace.v
VtocProps.v
FdasdState.v
FdasdTable.v
FdasdLayout.v
FdasdList.v
FdasdInput.v
FdasdPart.v
FdasdVolume.v
FdasdVtoc.v
FdasdVtocProofs.v
FdasdConf.v
FdasdConfProofs.v
FdasdIo.v
FdasdRead.v
FdasdReadProofs.v
FdasdIoProofs.v
FdasdReread.v
FdasdSerial.v
FdasdSetup.v
FdasdMain.v
FdasdAuto.v
FdasdProps.v
Dasd.v
Dasdfmt.v
DasdfmtArgs.v
DasdfmtTracks.v
DasdfmtRun.v
DasdfmtLabels.v
DasdfmtProps.v
Zds.v
ZdsDataset.v
ZdsRead.v
ZdsTracks.v
ZdsStream.v
ZdsFile.v
ZdsOpen.v
ZdsRoot.v
ZdsProps.v
Envblk.v
EnvblkSpec.v
EnvblkTables.v
EnvblkTablesProofs.v
EnvblkImport.v
Stage3.v
Stage3Proofs.v
ParmLine.v
Editenv.v
EditenvProofs.v
EnvProps.v
Scan.v
ScanLex.v
ScanCheck.v
ScanRules.v
ScanDecide.v
ScanMenu.v
ScanBls.v
ScanBlsProofs.v
ScanSafe.v
ScanProps.v
Kmip.v
KmipTtlv.v
KmipTtlvProofs.v
KmipAttr.v
KmipAttributes.v
KmipMessage.v
KmipKey.v
KmipConn.v
KmipHeap.v
KmipProps.v
