(* ===== verification/Prelude.v ===== *)
(** * s390-tools: disks, data sets, the boot configuration, and the KMIP client

    s390-tools is a collection of programs for Linux on IBM Z.  This library
    verifies the programs and libraries for DASD disks: the label library
    libvtoc (src/libvtoc/vtoc.c with src/include/lib/vtoc.h), the partitioning
    tool fdasd (src/fdasd), the formatting tool dasdfmt (src/dasdfmt) with the
    ioctls of libdasd (src/libdasd/dasd_ioctl.c), and the library libzds
    (src/libzds/libzds.c with src/include/lib/libzds.h), which reads the data
    sets of z/OS.  Of the boot loader zipl it verifies the environment block
    (src/zipl/src/envblk.c), its editor (src/zipl/src/zipl-editenv.c) and its use
    at boot (src/zipl/boot/stage3.c), and the configuration file
    (src/zipl/src/scan.c).  Of the key management tools it verifies the client
    library for the protocol KMIP (src/libkmipclient).

    ** The program

    A volume carries a volume label (VOL1) that points to the VTOC, a track of
    labels of 140 bytes: one format 4 label that describes the VTOC, a format 5
    and, on a disk of more than 65535 tracks, a format 7 label with the free
    extents, and per partition a format 1 label, or a format 8 label with a
    format 9 label on a disk of more than 65534 cylinders.  libvtoc initialises,
    updates, reads and writes the labels.  fdasd keeps three partition records
    in a doubly linked list, sorted by track and with the free tracks behind
    each record, next to the labels; its menu, its automatic mode and its
    configuration file change both, and the labels are written at the end.

    dasdfmt asks the driver to format tracks, in steps, between a request that
    disables the device and one that enables it, and writes the labels of an
    empty volume.  libzds reads whole tracks of a disk with all their count, key
    and data areas; from the VTOC it makes a list of data sets, which can have
    parts on several volumes, extents on each, and members, and it reads the
    records of a data set or member as one stream of bytes, in frames of several
    tracks, of which it remembers positions for seeks.

    The environment block is a block of the boot map with lines NAME=VALUE, where
    the digit of a site can stand in front of the name.  zipl imports it from a
    text file, zipl-editenv changes and lists it in the installed boot map, and
    the boot loader replaces ${NAME} in the kernel command line with the value in
    the site that was selected at boot, or else with the common value.

    The configuration file of zipl has sections for boot configurations and dumps,
    menus that number sections, and a defaultboot section.  It is cut into an
    array of tokens, to which the entries of a directory (Boot Loader
    Specification) are appended as sections; if the defaultboot section asks for
    it, a menu of all sections for booting is built in a new array; the tokens
    are then checked against the rules for sections and menus.

    A KMIP message is a tree of nodes: a node has a tag and a value of one of
    eleven types, and a structure has elements, chained through the nodes
    themselves, which count their references.  libkmipclient builds requests from
    attributes and keys, encodes them with their tags, types and lengths (TTLV),
    exchanges them with a server over TLS and takes the responses apart.  Its
    interface has the attributes of the protocol versions 2.x; for a server of
    version 1.x they are translated to named attributes and back.

    ** The files

    Prelude: machine integers with their wrap-around, the results of a
    computation ([outcome]: a value, [exit] with a code, an access outside an
    object, no fuel left), C strings as byte lists, hints and tactics.

    libvtoc:
    - Ebcdic: the translation tables and loops.
    - Cchh: the disk addresses CCHH, CCHHB and TTR, tracks and blocks.
    - Codec, Labels: packed structures as byte codecs with inverse laws (the
      class [CodecLaws]), and the labels as records with their codecs.
    - LabelOps: the functions that initialise and update labels.
    - VtocIo: reading and writing labels on a device, which is a byte list with
      the permissions that [open] checks.
    - Extents: the free-extent tables, against the interface [ext_ops] with its
      laws [ExtLaws]; Fmt5 and Fmt7 discharge it for the two label formats;
      Freespace is [vtoc_set_freespace] and its refinement of a set of tracks.
    - VtocProps: the properties.

    fdasd:
    - FdasdState: partition records, the anchor, and small helpers.
    - FdasdTable: the pointer operations on the partition list and the list
      operations that they refine; FdasdLayout: the invariant of the list.
    - FdasdInput: standard input, a byte list, and the loops that ask again.
    - FdasdList: the partition table as it is printed.
    - FdasdPart, FdasdVolume: adding and removing partitions, and the invariant
      [volume] that ties list, labels and free-space label together.
    - FdasdVtoc, FdasdVtocProofs: a new VTOC, re-creating it from the list,
      partition types and the serial number.
    - FdasdConf, FdasdConfProofs: the configuration file and the automatic mode.
    - FdasdIo, FdasdIoProofs: writing the labels; FdasdRead, FdasdReadProofs:
      loading a volume; FdasdReread: loading what was written; FdasdSerial: the
      volume label; FdasdAuto: saving and loading end to end.
    - FdasdSetup: options, device checks and geometry.
    - FdasdMain: the batch modes, the menu as a step function and as a step
      relation, and the whole program.
    - FdasdProps: the properties.

    dasdfmt:
    - Dasd: the driver behind the ioctls, as a history of requests with the
      answers of a kernel that is a parameter, and a monad for programs with a
      device, input and static variables.
    - Dasdfmt: the functions of dasdfmt.c; DasdfmtArgs: its command line.
    - DasdfmtTracks: which tracks the requests of a run cover; DasdfmtRun: the
      protocol between the program and the driver; DasdfmtLabels: the labels
      that it writes.
    - DasdfmtProps: the properties.

    libzds:
    - Zds: devices, raw tracks, volume label and VTOC; memory with track images
      is a function from offsets to bytes.
    - ZdsDataset: data sets, members, extraction and merging.
    - ZdsRead: handles, the extraction of data from tracks, read and lseek.
    - ZdsTracks: the records of a track as a specification, and that the
      extraction delivers their data; ZdsStream: the tracks of a data set in
      order, and the frames; ZdsFile: the invariant of an open handle, read and
      lseek; ZdsOpen: opening, and the size of the seek buffer.
    - ZdsRoot: the shape of the data sets that are found.
    - ZdsProps: the properties.

    zipl:
    - Envblk: setting, removing and scanning of lines on the bytes of the block;
      EnvblkSpec: the list of variables that a block holds, and that the
      operations implement operations on this list.
    - EnvblkTables: hash tables of lines, import, listings and the removal of a
      site; EnvblkTablesProofs: a table holds variables, what is added is found;
      EnvblkImport: a file is imported; namespaces and listings.
    - Stage3: parsing, lookup and replacement at boot; Stage3Proofs: the lookup
      finds the variables of the block; ParmLine: the command line as a list of
      texts and names, and its expansion.
    - Editenv: the editor with its options; EditenvProofs: what a run does to a
      well-formed block.
    - EnvProps: the properties.
    - Scan: tokens and their scanner; ScanLex: every file is scanned, and lines
      give their tokens.
    - ScanCheck: sections and menus, their checks, and the automatic menu;
      ScanRules: the rules, stated over the parts of a configuration; ScanDecide:
      the check decides them; ScanMenu: what the automatic menu consists of, the
      defaultboot section, and that the new menu is accepted.
    - ScanBls: entries of a directory, paths, and the composition; ScanBlsProofs:
      what becomes of an entry; ScanSafe: the composition without entries.
    - ScanProps: the properties.

    libkmipclient:
    - Kmip: big integers in two's complement, with OpenSSL's BN functions as the
      class [BnOps] with the laws [BnLaws]; nodes as values, and the functions of
      kmip.c on them; KmipHeap: nodes
      in memory with links, reference counts and the buffers of their names and
      values, and [node_heap], which relates a node to exactly the memory of its
      tree; OpenSSL's allocation of numbers is the class [BnHeap] with the laws
      [BnHeapLaws].
    - KmipTtlv: the encoder and the decoder over a BIO (the class [BioOps], with
      [BioReadLaws] and [BioWriteLaws] for one that is a stream); KmipTtlvProofs: a
      reference encoding, that the encoder writes it and the decoder reads it, what
      the decoder does with every other input, and that both return whatever the
      BIO does.
    - KmipAttr: tags, the names of attributes, attributes, lists of them, and the
      translation between versions; KmipAttributes: what survives it, and the
      functions for attributes of one node, which discharge the interface
      [Attribute].
    - KmipMessage: request.c and response.c; KmipKey: attributes that are structures,
      and key.c.
    - KmipConn: a request over a connection, with the other side as a function.
    - KmipProps: the properties.

    ** How the code is translated

    An integer of w bits is a [Z]; a store into an object of w bits goes through
    its wrap-around function, and signed arithmetic that cannot overflow in the
    program's ranges is left exact.  A pointer into the partition list is an
    index.  A function that may end the process returns an [outcome]; [Exited n]
    is [exit(n)], [Fault] an access outside an object or a division by zero.
    Results of system calls and of other libraries (stat, ioctls, the option
    scanner, the time) are arguments.  Messages are not modelled, but what is
    computed for the printed table is.

    ** Fuel

    Loops over tables and lists are structural.  Fuel is used where the C loop
    is bounded by data: the walks over the partition list (one more than the
    three records, enough because the list invariant bounds the walk), the
    writing of empty labels (nine blocks), the bisection and the steps of
    dasdfmt (34 halvings of a 32-bit range, one step per track), the records of
    a track and the frames of a data set in libzds (every round takes at least
    eight bytes, or a track, or a byte), and the loops that read standard input;
    the chains of labels that libzds follows have the fuel that a chain without
    a cycle needs; a scan of the environment block takes at least a byte in every
    round, and the loop over the command line at least one of the bytes that are
    left, and the scanner of the configuration at least one of the file, the loops
    over its tokens at least one of these; a structure of a KMIP message has at
    most one element for every 8 bytes, and its nesting is bounded by the code; a
    walk over nodes in memory has as many steps as the tree has nodes; the theorems either show that the stated fuel is enough, or that no
    fuel is (the loops that never end at the end of the input).

    ** What is shown

    - Free space: the two extent tables implement union and difference of sets
      of tracks ([freespace_add_refines], [freespace_del_refines]).
    - Labels: they fit their structures, and what is written is read back, for
      single labels, addresses, serial numbers and for a whole volume
      ([saved_volume_is_loaded], [auto_partition_saves_disk]).
    - Partition list: the pointer operations implement insertion and removal.
    - Volume: every menu command keeps the list, the labels and the free-space
      label consistent ([menu_keeps_volume_consistent]); each command has its
      functional specification; configuration files and the automatic mode
      produce consistent volumes; the printed rows tile the disk.
    - Formatting: the format requests cover every track once they succeed, in the
      protocol of the driver; test and check runs leave the disk alone; fdasd
      loads what dasdfmt has written ([dasdfmt_then_fdasd]).
    - Data sets: reads and seeks on a handle are reads and seeks on a file with
      the contents of the data set ([dataset_is_a_file]), and the data sets that
      are found can be used ([found_datasets_are_safe]).
    - Environment: set, unset and import implement changes of a list of variables
      ([set_is_assignment]); the editor keeps the
      block well-formed ([editor_keeps_block]), unless a shorter value overruns the
      block or the name of a variable of a site its allocation; what it lists for a site is what
      the boot loader uses ([boot_uses_the_listing]), from the option of the editor
      to the command line of the kernel ([editor_set_reaches_boot],
      [boot_expands_command_line]).
    - Configuration: the scanner returns the tokens of the lines
      ([lines_are_scanned]); the checks decide the rules
      ([scan_check_decides_the_rules]); the automatic menu has all sections and is
      accepted ([automenu_is_built], [automatic_menu_is_accepted]); nothing goes
      wrong without entries ([configuration_is_safe]); entries become sections
      ([entries_become_sections]), but can leave the array without its end
      (the theorem full_entries_leave_no_end_mark).
    - KMIP: the encoder writes the reference encoding, the decoder reads it back
      ([ttlv_encode_reference], [ttlv_roundtrip]), returns for every input
      ([ttlv_decode_total]) and refuses what is cut off or nested too deep
      ([ttlv_refuses]); nodes are freed exactly and lists of elements are
      appended to as the functions on values say ([node_free_exact],
      [node_append_refines]); attributes and keys reach the other side
      ([attributes_roundtrip], [parameters_over_wire], [key_over_wire]); a request
      returns the server's response ([tls_perform_exchange]), or, whatever the
      connection does, a response to a request that was sent in full or an error
      and no connection ([tls_perform_total]).  A positive big integer
      without room for a sign arrives as a negative one ([bignum_roundtrip]).
    - Edges: which calls end the program, which requests wrap around, which
      loops do not end.

    ** Not modelled

    The text of messages and help; the release of memory (except that of KMIP
    nodes), and allocations that fail; the drivers below the ioctls; the error log
    of libzds and its requests to a z/OS system; the JSON and XML encodings and
    HTTPS of libkmipclient, which are calls of json-c, libxml2 and libcurl, and the
    set-up of its TLS connections; changes of a reference count by several threads.
    Of the rest of the repository: the other parts of the boot loader zipl, the dump
    tools and the other programs are listed in the manifest with the reason.

    ** Plan

    What could come next are the jobs that zipl makes of the checked configuration
    (job.c), the shared helpers of libutil, the users of libkmipclient in zkey, and
    the file systems on top of libzds. *)
From stdpp Require Export base list numbers option sorting strings.
From Stdlib Require Export ZArith Lia.

#[global] Open Scope Z_scope.

(** ** Machine integers

    A C integer of w bits is a [Z]; every store into a w-bit object goes
    through the wrap-around function of its width. *)

Definition u8 (x : Z) : Z := x mod 256.
Definition u16 (x : Z) : Z := x mod 65536.
Definition u32 (x : Z) : Z := x mod 4294967296.
Definition u64 (x : Z) : Z := x mod 18446744073709551616.
(** conversion to a signed 32-bit [int] (two's complement) *)
Definition s32 (x : Z) : Z := (x + 2147483648) mod 4294967296 - 2147483648.

Definition in_u8 (x : Z) : Prop := 0 <= x < 256.
Definition in_u16 (x : Z) : Prop := 0 <= x < 65536.
Definition in_u32 (x : Z) : Prop := 0 <= x < 4294967296.
Definition in_u64 (x : Z) : Prop := 0 <= x < 18446744073709551616.

Create HintDb cint.
#[export] Hint Unfold in_u8 in_u16 in_u32 in_u64 : cint.

Section Wrap.
Lemma u8_small x : 0 <= x < 256 → u8 x = x.
Proof. apply Z.mod_small. Qed.
Lemma u16_small x : 0 <= x < 65536 → u16 x = x.
Proof. apply Z.mod_small. Qed.
Lemma u32_small x : 0 <= x < 4294967296 → u32 x = x.
Proof. apply Z.mod_small. Qed.
Lemma u64_small x : 0 <= x < 18446744073709551616 → u64 x = x.
Proof. apply Z.mod_small. Qed.
Lemma u8_range x : in_u8 (u8 x).
Proof. apply Z.mod_pos_bound; lia. Qed.
Lemma u16_range x : in_u16 (u16 x).
Proof. apply Z.mod_pos_bound; lia. Qed.
Lemma u32_range x : in_u32 (u32 x).
Proof. apply Z.mod_pos_bound; lia. Qed.
Lemma u64_range x : in_u64 (u64 x).
Proof. apply Z.mod_pos_bound; lia. Qed.
Lemma s32_small x : -2147483648 <= x < 2147483648 → s32 x = x.
Proof. intros H. unfold s32. rewrite Z.mod_small; lia. Qed.
End Wrap.

#[export] Hint Resolve u8_range u16_range u32_range u64_range : cint.

(** ** Bit fields as arithmetic *)

Section Bits.
Lemma lor_mul_pow2 a b n :
  0 <= n → 0 <= b < 2 ^ n → Z.lor (a * 2 ^ n) b = a * 2 ^ n + b.
Proof.
  intros Hn Hb. symmetry. apply Z.add_nocarry_lor.
  apply Z.bits_inj'. intros k Hk. rewrite Z.land_spec, Z.bits_0.
  destruct (decide (k < n)) as [Hlt|Hge].
  - by rewrite Z.mul_pow2_bits_low.
  - destruct (decide (b = 0)) as [->|Hnz]; [by rewrite Z.bits_0, andb_false_r|].
    rewrite (Z.bits_above_log2 b), andb_false_r; [done|lia|].
    apply Z.log2_lt_pow2; [lia|].
    apply Z.lt_le_trans with (2 ^ n); [lia|]. apply Z.pow_le_mono_r; lia.
Qed.

Lemma land_15 x : Z.land x 15 = x mod 16.
Proof. change 15 with (Z.ones 4). by rewrite Z.land_ones. Qed.

Lemma land_65520 x : 0 <= x < 65536 → Z.land x 65520 = x - x mod 16.
Proof.
  intros Hx.
  assert (Hs : Z.land x 65520 + Z.land x 15 = x).
  { rewrite Z.add_nocarry_lor.
    - rewrite <- Z.land_lor_distr_r. change (Z.lor 65520 15) with (Z.ones 16).
      rewrite Z.land_ones by lia. by apply Z.mod_small.
    - rewrite Z.land_assoc, (Z.land_comm _ x), Z.land_assoc, Z.land_diag.
      rewrite <- Z.land_assoc. change (Z.land 65520 15) with 0. apply Z.land_0_r. }
  rewrite land_15 in Hs. lia.
Qed.
End Bits.

(** Drops every wrap-around whose argument is in range. *)
Ltac unwrap :=
  repeat first
    [ rewrite u8_small by lia | rewrite u16_small by lia
    | rewrite u32_small by lia | rewrite u64_small by lia
    | rewrite s32_small by lia ].

Ltac unwrap_in H :=
  repeat first
    [ rewrite u8_small in H by lia | rewrite u16_small in H by lia
    | rewrite u32_small in H by lia | rewrite u64_small in H by lia ].

(** Turns the boolean tests of the code into propositions. *)
Ltac b2p :=
  repeat match goal with
  | H : _ && _ = true |- _ => apply andb_true_iff in H; destruct H
  | H : _ || _ = false |- _ => apply orb_false_iff in H; destruct H
  | H : _ && _ = false |- _ => apply andb_false_iff in H
  | H : _ || _ = true |- _ => apply orb_true_iff in H
  | H : negb _ = true |- _ => apply negb_true_iff in H
  | H : negb _ = false |- _ => apply negb_false_iff in H
  | H : (_ =? _) = true |- _ => apply Z.eqb_eq in H
  | H : (_ =? _) = false |- _ => apply Z.eqb_neq in H
  | H : (_ <? _) = true |- _ => apply Z.ltb_lt in H
  | H : (_ <? _) = false |- _ => apply Z.ltb_ge in H
  | H : (_ <=? _) = true |- _ => apply Z.leb_le in H
  | H : (_ <=? _) = false |- _ => apply Z.leb_gt in H
  end.

(** ** Outcomes

    A function of the program returns, ends the process with [exit(rc)],
    follows a NULL pointer, or (in the model only) uses up the fuel of a loop;
    the theorems show that the last two never happen on the inputs they name. *)

Inductive outcome (A : Type) : Type :=
  | Done (a : A)
  | Exited (rc : Z)
  | Fault
  | OutOfFuel.
Arguments Done {A} _.
Arguments Exited {A} _.
Arguments Fault {A}.
Arguments OutOfFuel {A}.

#[export] Instance outcome_ret : MRet outcome := λ A a, Done a.
#[export] Instance outcome_bind : MBind outcome := λ A B k m,
  match m with
  | Done a => k a
  | Exited rc => Exited rc
  | Fault => Fault
  | OutOfFuel => OutOfFuel
  end.

(** following a pointer that may be NULL *)
Definition deref {A} (p : option A) : outcome A :=
  match p with Some a => Done a | None => Fault end.

Lemma Done_bind {A B} (a : A) (k : A → outcome B) : (Done a ≫= k) = k a.
Proof. done. Qed.

Lemma outcome_bind_Done {A B} (m : outcome A) (k : A → outcome B) b :
  (m ≫= k) = Done b ↔ ∃ a, m = Done a ∧ k a = Done b.
Proof. destruct m; simpl; naive_solver. Qed.

(** ** Bytes, characters and strings

    A [char] array is a list of byte values; [char] is unsigned on s390. *)

Definition bytes_of_string (s : string) : list Z :=
  (λ c, Z.of_N (Ascii.N_of_ascii c)) <$> String.list_ascii_of_string s.

Definition zeros (n : nat) : list Z := replicate n 0.

Definition is_byte (b : Z) : bool := (0 <=? b) && (b <? 256).
Definition bytes_ok (l : list Z) : Prop := Forall in_u8 l.

(** [toupper], [isdigit] of the C locale *)
Definition toupper (c : Z) : Z := if (97 <=? c) && (c <=? 122) then c - 32 else c.
(** [tolower] in the C locale *)
Definition tolower (c : Z) : Z := if (65 <=? c) && (c <=? 90) then c + 32 else c.
(** [isgraph]: printable and not blank *)
Definition isgraph (c : Z) : bool := (33 <=? c) && (c <=? 126).
Definition isdigit (c : Z) : bool := (48 <=? c) && (c <=? 57).

(** ** C strings

    A buffer is a byte list; the string in it ends before the first NUL. *)

Fixpoint cstr (l : list Z) : list Z :=
  match l with
  | [] => []
  | c :: l => if c =? 0 then [] else c :: cstr l
  end.

Definition strlen (l : list Z) : nat := length (cstr l).

(** the [n] bytes that [strncpy(dst, src, n)] stores *)
Definition strncpy (src : list Z) (n : nat) : list Z :=
  let s := take n (cstr src) in s ++ zeros (n - length s).

(** [memcpy(dst + off, src, length src)] *)
Definition memcpy_at (dst : list Z) (off : nat) (src : list Z) : list Z :=
  take off dst ++ src ++ drop (off + length src) dst.

(** [needle] is a prefix of [l] *)
Fixpoint prefixb (needle l : list Z) : bool :=
  match needle, l with
  | [], _ => true
  | x :: needle, y :: l => (x =? y) && prefixb needle l
  | _ :: _, [] => false
  end.

(** index of the first occurrence of [needle] *)
Fixpoint find_sub (needle l : list Z) : option nat :=
  if prefixb needle l then Some O
  else match l with
       | [] => None
       | _ :: l => S <$> find_sub needle l
       end.

(** [strstr(hay, needle)] and [strchr(hay, c)], as an index into [hay] *)
Definition strstr (hay needle : list Z) : option nat := find_sub needle (cstr hay).
Definition strchr (hay : list Z) (c : Z) : option nat := find_sub [c] (cstr hay).

(** [isspace] of the C locale *)
Definition isspace (c : Z) : bool := ((9 <=? c) && (c <=? 13)) || (c =? 32).

Fixpoint skip_while (f : Z → bool) (l : list Z) : list Z :=
  match l with
  | [] => []
  | c :: r => if f c then skip_while f r else l
  end.

(** the value of the leading decimal digits *)
Fixpoint digits_val (acc : Z) (l : list Z) : Z :=
  match l with
  | [] => acc
  | c :: r => if isdigit c then digits_val (acc * 10 + (c - 48)) r else acc
  end.

(** [strtol(s, NULL, 10)]: blanks, an optional sign, digits; the flag is
    [errno == ERANGE], the value then saturated *)
Definition strtol (s : list Z) : Z * bool :=
  let s := skip_while isspace (cstr s) in
  let '(neg, s) := match s with
                   | c :: r => if c =? 45 then (true, r) else if c =? 43 then (false, r) else (false, s)
                   | [] => (false, [])
                   end in
  let v := digits_val 0 s in
  let v := if neg : bool then - v else v in
  if v <? -9223372036854775808 then (-9223372036854775808, true)
  else if 9223372036854775807 <? v then (9223372036854775807, true)
  else (v, false).

(** [atoi], as the C library defines it: [(int) strtol(s, NULL, 10)] *)
Definition atoi (s : list Z) : Z := s32 (fst (strtol s)).

(** first character of a string, NUL at its end *)
Definition headc (l : list Z) : Z := match l with c :: _ => c | [] => 0 end.

(** [sprintf("%04x")] of a non-negative number *)
Definition hex_digit (d : Z) : Z := if d <? 10 then 48 + d else 87 + d.
Fixpoint hex_digits (fuel : nat) (x : Z) : list Z :=
  match fuel with
  | O => []
  | S fuel => (if x <? 16 then [] else hex_digits fuel (x / 16)) ++ [hex_digit (x mod 16)]
  end.
Definition hex04 (x : Z) : list Z :=
  let d := hex_digits 8 (u32 x) in replicate (4 - length d) 48 ++ d.

(** [fgets]: up to [n] bytes, ending behind a newline *)
Fixpoint fgets_loop (n : nat) (s : list Z) : list Z * list Z :=
  match n, s with
  | S n, c :: s =>
      if c =? 10 then ([c], s)
      else let '(l, r) := fgets_loop n s in (c :: l, r)
  | _, _ => ([], s)
  end.

Definition fgets (size : nat) (s : list Z) : option (list Z * list Z) :=
  match s with [] => None | _ => Some (fgets_loop (size - 1) s) end.

(** unsigned division, undefined for a divisor of zero *)
Definition udiv (a b : Z) : outcome Z := if b =? 0 then Fault else Done (a / b).

(** an [int] used as a condition *)
Definition flag (x : Z) : bool := negb (x =? 0).

Section CStrings.
Lemma cstr_no_nul l : Forall (λ c, c ≠ 0) l → cstr l = l.
Proof.
  induction 1 as [|c l Hc _ IH]; [done|]. simpl.
  apply Z.eqb_neq in Hc. by rewrite Hc, IH.
Qed.

Lemma cstr_app_nul l r : Forall (λ c, c ≠ 0) l → cstr (l ++ 0 :: r) = l.
Proof.
  induction 1 as [|c l Hc _ IH]; [done|]. simpl.
  apply Z.eqb_neq in Hc. by rewrite Hc, IH.
Qed.

Lemma cstr_Forall l : Forall (λ c, c ≠ 0) (cstr l).
Proof.
  induction l as [|c l IH]; simpl; [constructor|].
  destruct (c =? 0) eqn:E; [constructor|]. constructor; [by apply Z.eqb_neq|done].
Qed.

Lemma length_strncpy src n : length (strncpy src n) = n.
Proof.
  unfold strncpy, zeros. rewrite length_app, length_replicate, length_take. lia.
Qed.

(** With no NUL in the first [n] bytes, [strncpy] copies them. *)
Lemma strncpy_full src n :
  (n <= length src)%nat → Forall (λ c, c ≠ 0) (take n src) → strncpy src n = take n src.
Proof.
  intros Hn H. unfold strncpy.
  assert (Ht : take n (cstr src) = take n src).
  { clear Hn. revert src H. induction n as [|n IH]; intros [|c src] H; try done.
    simpl in *. inversion H as [|? ? Hc H']; subst. apply Z.eqb_neq in Hc.
    rewrite Hc. simpl. f_equal. by apply IH. }
  rewrite Ht, length_take, Nat.min_l, Nat.sub_diag by lia. apply app_nil_r.
Qed.

(** Copying as many bytes as the (bounded) string has copies the string. *)
Lemma strncpy_take src n :
  strncpy src (length (take n (cstr src))) = take n (cstr src).
Proof.
  unfold strncpy. assert (E : take (length (take n (cstr src))) (cstr src) = take n (cstr src)).
  { rewrite length_take. destruct (le_ge_dec n (length (cstr src))).
    - by rewrite Nat.min_l.
    - rewrite Nat.min_r, !take_ge by lia. done. }
  rewrite E, Nat.sub_diag. apply app_nil_r.
Qed.

Lemma length_memcpy_at dst off src :
  (off + length src <= length dst)%nat → length (memcpy_at dst off src) = length dst.
Proof.
  intros H. unfold memcpy_at. rewrite !length_app, length_take, length_drop. lia.
Qed.
End CStrings.

(** ** Lists *)

Section Lists.
Context {A : Type}.
Implicit Types l : list A.

Lemma Forall_lookup_total `{!Inhabited A} (P : A → Prop) l i :
  Forall P l → (i < length l)%nat → P (l !!! i).
Proof.
  intros H Hi. eapply Forall_lookup_1; [done|].
  by apply list_lookup_lookup_total_lt.
Qed.
End Lists.
