(* ===== verification/Ebcdic.v ===== *)
(** EBCDIC conversion of libvtoc (src/libvtoc/vtoc.c): the two translation
    tables, the encoder and the decoder with their buffers, and the round
    trips on the character sets that volume labels and data set names use. *)
From S2P Require Import Prelude.

Module Ebcdic.

Definition EBCtoASC : list Z :=
  [
   0x00; 0x01; 0x02; 0x03; 0x07; 0x09; 0x07; 0x7f;
   0x07; 0x07; 0x07; 0x0b; 0x0c; 0x0d; 0x0e; 0x0f;
   0x10; 0x11; 0x12; 0x13; 0x07; 0x0a; 0x08; 0x07;
   0x18; 0x19; 0x07; 0x07; 0x07; 0x07; 0x07; 0x07;
   0x07; 0x07; 0x1c; 0x07; 0x07; 0x0a; 0x17; 0x1b;
   0x07; 0x07; 0x07; 0x07; 0x07; 0x05; 0x06; 0x07;
   0x07; 0x07; 0x16; 0x07; 0x07; 0x07; 0x07; 0x04;
   0x07; 0x07; 0x07; 0x07; 0x14; 0x15; 0x07; 0x1a;
   0x20; 0xff; 0x83; 0x84; 0x85; 0xa0; 0x07; 0x86;
   0x87; 0xa4; 0x9b; 0x2e; 0x3c; 0x28; 0x2b; 0x7c;
   0x26; 0x82; 0x88; 0x89; 0x8a; 0xa1; 0x8c; 0x07;
   0x8d; 0xe1; 0x21; 0x24; 0x2a; 0x29; 0x3b; 0xaa;
   0x2d; 0x2f; 0x07; 0x8e; 0x07; 0x07; 0x07; 0x8f;
   0x80; 0xa5; 0x07; 0x2c; 0x25; 0x5f; 0x3e; 0x3f;
   0x07; 0x90; 0x07; 0x07; 0x07; 0x07; 0x07; 0x07;
   0x70; 0x60; 0x3a; 0x23; 0x40; 0x27; 0x3d; 0x22;
   0x07; 0x61; 0x62; 0x63; 0x64; 0x65; 0x66; 0x67;
   0x68; 0x69; 0xae; 0xaf; 0x07; 0x07; 0x07; 0xf1;
   0xf8; 0x6a; 0x6b; 0x6c; 0x6d; 0x6e; 0x6f; 0x70;
   0x71; 0x72; 0xa6; 0xa7; 0x91; 0x07; 0x92; 0x07;
   0xe6; 0x7e; 0x73; 0x74; 0x75; 0x76; 0x77; 0x78;
   0x79; 0x7a; 0xad; 0xab; 0x07; 0x07; 0x07; 0x07;
   0x5e; 0x9c; 0x9d; 0xfa; 0x07; 0x07; 0x07; 0xac;
   0xab; 0x07; 0x5b; 0x5d; 0x07; 0x07; 0x07; 0x07;
   0x7b; 0x41; 0x42; 0x43; 0x44; 0x45; 0x46; 0x47;
   0x48; 0x49; 0x07; 0x93; 0x94; 0x95; 0xa2; 0x07;
   0x7d; 0x4a; 0x4b; 0x4c; 0x4d; 0x4e; 0x4f; 0x50;
   0x51; 0x52; 0x07; 0x96; 0x81; 0x97; 0xa3; 0x98;
   0x5c; 0xf6; 0x53; 0x54; 0x55; 0x56; 0x57; 0x58;
   0x59; 0x5a; 0xfd; 0x07; 0x99; 0x07; 0x07; 0x07;
   0x30; 0x31; 0x32; 0x33; 0x34; 0x35; 0x36; 0x37;
   0x38; 0x39; 0x07; 0x07; 0x9a; 0x07; 0x07; 0x07].
Definition ASCtoEBC : list Z :=
  [
   0x00; 0x01; 0x02; 0x03; 0x37; 0x2d; 0x2e; 0x2f;
   0x16; 0x05; 0x15; 0x0b; 0x0c; 0x0d; 0x0e; 0x0f;
   0x10; 0x11; 0x12; 0x13; 0x3c; 0x15; 0x32; 0x26;
   0x18; 0x19; 0x3f; 0x27; 0x1c; 0x1d; 0x1e; 0x1f;
   0x40; 0x5a; 0x7f; 0x7b; 0x5b; 0x6c; 0x50; 0x7d;
   0x4d; 0x5d; 0x5c; 0x4e; 0x6b; 0x60; 0x4b; 0x61;
   0xf0; 0xf1; 0xf2; 0xf3; 0xf4; 0xf5; 0xf6; 0xf7;
   0xf8; 0xf9; 0x7a; 0x5e; 0x4c; 0x7e; 0x6e; 0x6f;
   0x7c; 0xc1; 0xc2; 0xc3; 0xc4; 0xc5; 0xc6; 0xc7;
   0xc8; 0xc9; 0xd1; 0xd2; 0xd3; 0xd4; 0xd5; 0xd6;
   0xd7; 0xd8; 0xd9; 0xe2; 0xe3; 0xe4; 0xe5; 0xe6;
   0xe7; 0xe8; 0xe9; 0xad; 0xe0; 0xbd; 0x5f; 0x6d;
   0x79; 0x81; 0x82; 0x83; 0x84; 0x85; 0x86; 0x87;
   0x88; 0x89; 0x91; 0x92; 0x93; 0x94; 0x95; 0x96;
   0x97; 0x98; 0x99; 0xa2; 0xa3; 0xa4; 0xa5; 0xa6;
   0xa7; 0xa8; 0xa9; 0xc0; 0x4f; 0xd0; 0xa1; 0x07;
   0x3f; 0x3f; 0x3f; 0x3f; 0x3f; 0x3f; 0x3f; 0x3f;
   0x3f; 0x3f; 0x3f; 0x3f; 0x3f; 0x3f; 0x3f; 0x3f;
   0x3f; 0x3f; 0x3f; 0x3f; 0x3f; 0x3f; 0x3f; 0x3f;
   0x3f; 0x3f; 0x3f; 0x3f; 0x3f; 0x3f; 0x3f; 0x3f;
   0x3f; 0x3f; 0x3f; 0x3f; 0x3f; 0x3f; 0x3f; 0x3f;
   0x3f; 0x3f; 0x3f; 0x3f; 0x3f; 0x3f; 0x3f; 0x3f;
   0x3f; 0x3f; 0x3f; 0x3f; 0x3f; 0x3f; 0x3f; 0x3f;
   0x3f; 0x3f; 0x3f; 0x3f; 0x3f; 0x3f; 0x3f; 0x3f;
   0x3f; 0x3f; 0x3f; 0x3f; 0x3f; 0x3f; 0x3f; 0x3f;
   0x3f; 0x3f; 0x3f; 0x3f; 0x3f; 0x3f; 0x3f; 0x3f;
   0x3f; 0x3f; 0x3f; 0x3f; 0x3f; 0x3f; 0x3f; 0x3f;
   0x3f; 0x3f; 0x3f; 0x3f; 0x3f; 0x3f; 0x3f; 0x3f;
   0x3f; 0x3f; 0x3f; 0x3f; 0x3f; 0x3f; 0x3f; 0x3f;
   0x3f; 0x3f; 0x3f; 0x3f; 0x3f; 0x3f; 0x3f; 0x3f;
   0x3f; 0x3f; 0x3f; 0x3f; 0x3f; 0x3f; 0x3f; 0x3f;
   0x3f; 0x3f; 0x3f; 0x3f; 0x3f; 0x3f; 0x3f; 0xff].

Definition asc2ebc (c : Z) : Z := ASCtoEBC !!! Z.to_nat (u8 c).
Definition ebc2asc (c : Z) : Z := EBCtoASC !!! Z.to_nat (u8 c).

(** [for (i = 0; i < l; i++) target[i] = table[(unsigned char) source[i]]]
    with two distinct buffers. *)
Definition translate (tab : Z → Z) (source target : list Z) (l : nat) : list Z :=
  fold_left (λ tgt i, <[i := tab (source !!! i)]> tgt) (seq 0 l) target.

(** The same loop when [source] and [target] are one buffer, as most callers
    pass it: each read sees the stores of the earlier rounds. *)
Definition translate_inplace (tab : Z → Z) (buf : list Z) (l : nat) : list Z :=
  fold_left (λ b i, <[i := tab (b !!! i)]> b) (seq 0 l) buf.

Definition vtoc_ebcdic_enc := translate asc2ebc.
Definition vtoc_ebcdic_dec := translate ebc2asc.
Definition vtoc_ebcdic_enc_inplace := translate_inplace asc2ebc.
Definition vtoc_ebcdic_dec_inplace := translate_inplace ebc2asc.

(** ** The loops as list functions *)

Section Loops.
Variable tab : Z → Z.

Lemma translate_snoc src tgt l :
  translate tab src tgt (S l) = <[l := tab (src !!! l)]> (translate tab src tgt l).
Proof. unfold translate. by rewrite seq_S, fold_left_app. Qed.

Lemma length_translate src tgt l : length (translate tab src tgt l) = length tgt.
Proof.
  induction l as [|l IH]; [done|].
  by rewrite translate_snoc, length_insert.
Qed.

Lemma translate_spec src tgt l :
  (l <= length src)%nat → (l <= length tgt)%nat →
  translate tab src tgt l = map tab (take l src) ++ drop l tgt.
Proof.
  induction l as [|l IH]; intros Hs Ht; [done|].
  rewrite translate_snoc, IH by lia.
  assert (Hm : length (map tab (take l src)) = l).
  { rewrite length_map, length_take. lia. }
  rewrite insert_app_r_alt by lia. rewrite Hm, Nat.sub_diag.
  destruct (drop l tgt) as [|x rest] eqn:E.
  { apply (f_equal length) in E. rewrite length_drop in E. simpl in E. lia. }
  rewrite (take_S_r src l (src !!! l)) by (by apply list_lookup_lookup_total_lt).
  rewrite map_app, <- app_assoc. simpl. f_equal. f_equal.
  replace (S l) with (l + 1)%nat by lia. by rewrite <- drop_drop, E.
Qed.

Lemma translate_inplace_snoc buf l :
  translate_inplace tab buf (S l) =
    <[l := tab (translate_inplace tab buf l !!! l)]> (translate_inplace tab buf l).
Proof. unfold translate_inplace. by rewrite seq_S, fold_left_app. Qed.

(** Round [l] reads a cell that no earlier round has written. *)
Lemma translate_inplace_alias buf l :
  (l <= length buf)%nat →
  translate_inplace tab buf l = translate tab buf buf l.
Proof.
  induction l as [|l IH]; intros Hl; [done|].
  rewrite translate_inplace_snoc, translate_snoc, IH by lia.
  do 2 f_equal. rewrite translate_spec by lia.
  rewrite lookup_total_app_r by (rewrite length_map, length_take; lia).
  rewrite length_map, length_take, Nat.min_l, Nat.sub_diag by lia.
  rewrite list_lookup_total_alt, lookup_drop, Nat.add_0_r.
  by rewrite <- list_lookup_total_alt.
Qed.
End Loops.

(** ** Character classes that survive a round trip *)

(** The characters a translated name may hold: every printable ASCII
    character but [\[], [\]] and [^], which the tables do not map back. *)
Definition roundtrip_char (c : Z) : bool :=
  (0x20 <=? c) && (c <=? 0x7e) &&
  negb ((c =? 0x5b) || (c =? 0x5d) || (c =? 0x5e)).

(** A property of all bytes is checked on the 256 of them. *)
Lemma byte_forall (f : Z → bool) :
  forallb f (seqZ 0 256) = true → ∀ c, in_u8 c → f c = true.
Proof.
  intros H c Hc. rewrite forallb_forall in H. apply H.
  apply list_elem_of_In, elem_of_seqZ. unfold in_u8 in Hc. lia.
Qed.

(** [byte_check f c] proves [f c = true] by running [f] on all bytes. *)
Ltac byte_check f c H :=
  assert (H : f c = true) by
    (apply (byte_forall f); [vm_compute; reflexivity | done]).

Lemma asc2ebc_byte c : in_u8 (asc2ebc c).
Proof.
  unfold asc2ebc. generalize (u8_range c). generalize (u8 c). intros d Hd.
  byte_check (λ c, is_byte (ASCtoEBC !!! Z.to_nat c)) d H.
  unfold is_byte in H. b2p. unfold in_u8. lia.
Qed.

Lemma ebc2asc_byte c : in_u8 (ebc2asc c).
Proof.
  unfold ebc2asc. generalize (u8_range c). generalize (u8 c). intros d Hd.
  byte_check (λ c, is_byte (EBCtoASC !!! Z.to_nat c)) d H.
  unfold is_byte in H. b2p. unfold in_u8. lia.
Qed.

#[export] Hint Resolve asc2ebc_byte ebc2asc_byte : cint.

Lemma roundtrip_char_ok c : roundtrip_char c = true → ebc2asc (asc2ebc c) = c.
Proof.
  intros H. assert (Hc : in_u8 c).
  { unfold roundtrip_char in H. b2p. unfold in_u8. lia. }
  byte_check (λ c, implb (roundtrip_char c) (ebc2asc (asc2ebc c) =? c)) c E.
  cbv beta in E. rewrite H in E. by apply Z.eqb_eq in E.
Qed.

(** The only encoded character that is a C string terminator is NUL. *)
Lemma asc2ebc_nonzero c : in_u8 c → c ≠ 0 → asc2ebc c ≠ 0.
Proof.
  intros Hc Hn.
  byte_check (λ c, implb (negb (c =? 0)) (negb (asc2ebc c =? 0))) c E.
  cbv beta in E. apply Z.eqb_neq in Hn. rewrite Hn in E.
  cbn [negb implb] in E. b2p. done.
Qed.

(** Decoding after encoding restores exactly the printable ASCII characters
    other than the three the tables disagree on. *)
Lemma ebcdic_roundtrip_printable c :
  0x20 <= c <= 0x7e → ebc2asc (asc2ebc c) = c ↔ roundtrip_char c = true.
Proof.
  intros H. assert (Hc : in_u8 c) by (unfold in_u8; lia).
  byte_check (λ c, implb ((0x20 <=? c) && (c <=? 0x7e))
            (Bool.eqb (ebc2asc (asc2ebc c) =? c) (roundtrip_char c))) c E.
  cbv beta in E.
  assert (((0x20 <=? c) && (c <=? 0x7e)) = true) as F.
  { apply andb_true_iff; split; apply Z.leb_le; lia. }
  rewrite F in E. cbn [implb] in E. apply Bool.eqb_prop in E.
  rewrite <- E. by rewrite Z.eqb_eq.
Qed.

(** A string of such characters survives the encode/decode pair, buffers
    included. *)
Lemma map_dec_enc s :
  Forall (λ c, roundtrip_char c = true) s → map ebc2asc (map asc2ebc s) = s.
Proof.
  induction 1 as [|c s Hc _ IH]; [done|].
  simpl. by rewrite IH, roundtrip_char_ok.
Qed.

End Ebcdic.
