(* ===== verification/Cchh.v ===== *)
(** Disk addresses of libvtoc (src/include/lib/vtoc.h, src/libvtoc/vtoc.c):
    the CCHH and CCHHB formats with the large-volume encoding of the cylinder
    number, the geometry, and the conversions between addresses, tracks and
    blocks. *)
From S2P Require Import Prelude.

(** [struct hd_geometry] of the kernel's block layer, as far as the code uses
    it: heads and sectors are [unsigned char], cylinders [unsigned short]. *)
Record hd_geometry := Geo {
  geo_heads : Z;
  geo_sectors : Z;
  geo_cylinders : Z;
  geo_start : Z
}.

Record ttr_t := Ttr { ttr_tt : Z; ttr_r : Z }.
Record cchhb_t := Cchhb { cchhb_cc : Z; cchhb_hh : Z; cchhb_b : Z }.
Record cchh_t := Cchh { cchh_cc : Z; cchh_hh : Z }.
Record labeldate_t := Labeldate { ld_year : Z; ld_day : Z }.
Record extent_t := Extent {
  ext_typeind : Z;
  ext_seqno : Z;
  ext_llimit : cchh_t;
  ext_ulimit : cchh_t
}.

#[export] Instance cchh_eq_dec : EqDecision cchh_t.
Proof. solve_decision. Defined.
#[export] Instance cchhb_eq_dec : EqDecision cchhb_t.
Proof. solve_decision. Defined.
#[export] Instance ttr_eq_dec : EqDecision ttr_t.
Proof. solve_decision. Defined.
#[export] Instance labeldate_eq_dec : EqDecision labeldate_t.
Proof. solve_decision. Defined.
#[export] Instance extent_eq_dec : EqDecision extent_t.
Proof. solve_decision. Defined.

Definition VTOC_START_CC : Z := 0x0.
Definition VTOC_START_HH : Z := 0x1.
Definition FIRST_USABLE_TRK : Z := 2.
Definition BIG_DISK_SIZE : Z := 0x10000.
Definition LV_COMPAT_CYL : Z := 0xFFFE.

Module Addr.

(** The store sequence of the setters: [hh = cc >> 16; hh <<= 4; hh |= hh0],
    each step truncated to the 16 bits of the field. *)
Definition encode_hh (cc hh : Z) : Z :=
  let hh0 := u16 (Z.shiftr cc 16) in
  let hh1 := u16 (Z.shiftl hh0 4) in
  Z.lor hh1 (u16 hh).

Definition vtoc_set_cchh (cc hh : Z) : cchh_t :=
  {| cchh_cc := u16 cc; cchh_hh := encode_hh (u32 cc) hh |}.

Definition vtoc_get_cyl_from_cchh (addr : cchh_t) : Z :=
  Z.lor (u32 (Z.shiftl (Z.land (cchh_hh addr) 0xFFF0) 12)) (cchh_cc addr).

Definition vtoc_get_head_from_cchh (addr : cchh_t) : Z :=
  Z.land (cchh_hh addr) 0x000F.

Definition vtoc_set_ttr (tt r : Z) : ttr_t := {| ttr_tt := u16 tt; ttr_r := u8 r |}.

Definition vtoc_set_cchhb (cc hh b : Z) : cchhb_t :=
  {| cchhb_cc := u16 cc; cchhb_hh := encode_hh (u32 cc) hh; cchhb_b := u8 b |}.

Definition vtoc_get_cyl_from_cchhb (addr : cchhb_t) : Z :=
  Z.lor (u32 (Z.shiftl (Z.land (cchhb_hh addr) 0xFFF0) 12)) (cchhb_cc addr).

Definition vtoc_get_head_from_cchhb (addr : cchhb_t) : Z :=
  Z.land (cchhb_hh addr) 0x000F.

(** uint64_t arithmetic; record zero is special, so the first block of a
    track is record 1 *)
Definition cchhb2blk (p : cchhb_t) (geo : hd_geometry) : Z :=
  u64 (vtoc_get_cyl_from_cchhb p * geo_heads geo * geo_sectors geo +
       vtoc_get_head_from_cchhb p * geo_sectors geo + cchhb_b p).

Definition cchh2blk (p : cchh_t) (geo : hd_geometry) : Z :=
  u64 (vtoc_get_cyl_from_cchh p * geo_heads geo * geo_sectors geo +
       vtoc_get_head_from_cchh p * geo_sectors geo).

(** uint32_t arithmetic *)
Definition cchh2trk (p : cchh_t) (geo : hd_geometry) : Z :=
  u32 (vtoc_get_cyl_from_cchh p * geo_heads geo + vtoc_get_head_from_cchh p).

Definition vtoc_set_extent (typeind seqno : Z) (lower upper : cchh_t) : extent_t :=
  {| ext_typeind := u8 typeind; ext_seqno := u8 seqno;
     ext_llimit := lower; ext_ulimit := upper |}.

Definition vtoc_set_date (year day : Z) : labeldate_t :=
  {| ld_year := u8 year; ld_day := u16 day |}.

(** ** The encoding as arithmetic *)

Definition cchh_ok (p : cchh_t) : Prop := in_u16 (cchh_cc p) ∧ in_u16 (cchh_hh p).
Definition cchhb_ok (p : cchhb_t) : Prop :=
  in_u16 (cchhb_cc p) ∧ in_u16 (cchhb_hh p) ∧ in_u8 (cchhb_b p).

Lemma encode_hh_val cc hh :
  0 <= cc < 2 ^ 28 → 0 <= hh < 16 → encode_hh cc hh = cc / 65536 * 16 + hh.
Proof.
  intros Hc Hh. unfold encode_hh.
  rewrite Z.shiftr_div_pow2, Z.shiftl_mul_pow2 by lia.
  change (2 ^ 16) with 65536. change (2 ^ 28) with 268435456 in Hc.
  assert (0 <= cc / 65536 < 4096).
  { split; [apply Z.div_pos; lia|]. apply Z.div_lt_upper_bound; lia. }
  rewrite (u16_small (cc / 65536)), (u16_small hh) by lia.
  rewrite u16_small by (change (2 ^ 4) with 16; lia).
  rewrite lor_mul_pow2 by (change (2 ^ 4) with 16; lia). done.
Qed.

(** The getter's decoding, on any 16-bit fields. *)
Lemma decode_cyl_val hh cc :
  in_u16 hh → in_u16 cc →
  Z.lor (u32 (Z.shiftl (Z.land hh 0xFFF0) 12)) cc = hh / 16 * 65536 + cc.
Proof.
  unfold in_u16. intros Hh Hc. rewrite land_65520 by lia.
  rewrite Z.shiftl_mul_pow2 by lia. change (2 ^ 12) with 4096.
  pose proof (Z.div_mod hh 16 ltac:(lia)) as Hdm.
  pose proof (Z.mod_pos_bound hh 16 ltac:(lia)).
  assert (0 <= hh / 16 < 4096) by (split; [apply Z.div_pos|apply Z.div_lt_upper_bound]; lia).
  rewrite u32_small by lia.
  replace ((hh - hh mod 16) * 4096) with (hh / 16 * 2 ^ 16) by lia.
  rewrite lor_mul_pow2 by (change (2 ^ 16) with 65536; lia). done.
Qed.

Lemma get_cyl_val p :
  cchh_ok p → vtoc_get_cyl_from_cchh p = cchh_hh p / 16 * 65536 + cchh_cc p.
Proof. intros [Hc Hh]. exact (decode_cyl_val _ _ Hh Hc). Qed.

Lemma get_head_val p : vtoc_get_head_from_cchh p = cchh_hh p mod 16.
Proof. apply land_15. Qed.

Lemma set_cchh_ok cc hh : 0 <= cc < 2 ^ 28 → 0 <= hh < 16 → cchh_ok (vtoc_set_cchh cc hh).
Proof.
  intros Hc Hh. split; simpl; [apply u16_range|].
  change (2 ^ 28) with 268435456 in Hc. rewrite u32_small by lia.
  rewrite encode_hh_val by (try change (2 ^ 28) with 268435456; lia).
  assert (0 <= cc / 65536 < 4096) by (split; [apply Z.div_pos|apply Z.div_lt_upper_bound]; lia).
  unfold in_u16. lia.
Qed.

(** Cylinder numbers of up to 28 bits and head numbers of up to 4 bits are
    recovered from the address. *)
Lemma cchh_cyl_head_roundtrip cc hh :
  0 <= cc < 2 ^ 28 → 0 <= hh < 16 →
  vtoc_get_cyl_from_cchh (vtoc_set_cchh cc hh) = cc ∧
  vtoc_get_head_from_cchh (vtoc_set_cchh cc hh) = hh.
Proof.
  intros Hc Hh. rewrite get_cyl_val by (by apply set_cchh_ok).
  rewrite get_head_val. simpl. change (2 ^ 28) with 268435456 in Hc.
  rewrite u32_small by lia.
  rewrite encode_hh_val by (try change (2 ^ 28) with 268435456; lia).
  split.
  - rewrite Z.div_add_l, (Z.div_small hh) by lia. unfold u16.
    pose proof (Z.div_mod cc 65536). lia.
  - rewrite Z.add_comm, Z.mod_add by lia. apply Z.mod_small. lia.
Qed.

(** Conversely every address is the encoding of its cylinder and head: the
    format has no unused bit patterns. *)
Lemma cchh_address_roundtrip p :
  cchh_ok p →
  vtoc_set_cchh (vtoc_get_cyl_from_cchh p) (vtoc_get_head_from_cchh p) = p.
Proof.
  intros Hp. pose proof Hp as [Hc Hh]. rewrite get_cyl_val, get_head_val by done.
  destruct p as [cc hh]. simpl in *. unfold in_u16 in *.
  assert (0 <= hh / 16 < 4096) by (split; [apply Z.div_pos|apply Z.div_lt_upper_bound]; lia).
  pose proof (Z.mod_pos_bound hh 16 ltac:(lia)).
  unfold vtoc_set_cchh. rewrite u32_small by lia.
  rewrite encode_hh_val by (try change (2 ^ 28) with 268435456; lia).
  f_equal.
  - unfold u16. rewrite Z.add_comm, Z.mod_add by lia. by apply Z.mod_small.
  - rewrite Z.div_add_l, (Z.div_small cc) by lia. pose proof (Z.div_mod hh 16). lia.
Qed.

(** A track number survives the trip through a CCHH address. *)
Lemma cchh2trk_of_trk geo trk :
  0 < geo_heads geo <= 16 → 0 <= trk < 2 ^ 28 →
  cchh2trk (vtoc_set_cchh (trk / geo_heads geo) (trk mod geo_heads geo)) geo = trk.
Proof.
  intros Hg Ht. unfold cchh2trk.
  pose proof (Z.mod_pos_bound trk (geo_heads geo) ltac:(lia)).
  pose proof (Z.div_mod trk (geo_heads geo) ltac:(lia)) as Hdm.
  assert (0 <= trk / geo_heads geo <= trk).
  { split; [apply Z.div_pos; lia|]. apply Z.div_le_upper_bound; nia. }
  destruct (cchh_cyl_head_roundtrip (trk / geo_heads geo) (trk mod geo_heads geo))
    as [-> ->]; [lia|lia|].
  change (2 ^ 28) with 268435456 in Ht. rewrite u32_small; nia.
Qed.

(** ** Block numbers *)

Lemma get_cylb_val p :
  cchhb_ok p → vtoc_get_cyl_from_cchhb p = cchhb_hh p / 16 * 65536 + cchhb_cc p.
Proof. intros (Hc & Hh & _). exact (decode_cyl_val _ _ Hh Hc). Qed.

Lemma cchhb_cyl_head_roundtrip cc hh b :
  0 <= cc < 2 ^ 28 → 0 <= hh < 16 →
  vtoc_get_cyl_from_cchhb (vtoc_set_cchhb cc hh b) = cc ∧
  vtoc_get_head_from_cchhb (vtoc_set_cchhb cc hh b) = hh.
Proof. apply (cchh_cyl_head_roundtrip cc hh). Qed.

(** The mixed-radix reading of a block number: cylinder, head and record. *)
Definition blk_cyl (geo : hd_geometry) (blk : Z) : Z :=
  (blk - 1) / geo_sectors geo / geo_heads geo.
Definition blk_head (geo : hd_geometry) (blk : Z) : Z :=
  (blk - 1) / geo_sectors geo mod geo_heads geo.
Definition blk_rec (geo : hd_geometry) (blk : Z) : Z :=
  (blk - 1) mod geo_sectors geo + 1.

Definition geo_ok (geo : hd_geometry) : Prop :=
  0 < geo_heads geo <= 16 ∧ 0 < geo_sectors geo < 256 ∧ in_u16 (geo_cylinders geo).

(** [cchhb2blk] numbers the records of a volume without gaps or collisions:
    cylinder, head and record can be read back from the block number. *)
Lemma cchhb2blk_decode geo cc hh b :
  geo_ok geo → 0 <= cc < 2 ^ 28 → 0 <= hh < geo_heads geo → 1 <= b <= geo_sectors geo →
  let blk := cchhb2blk (vtoc_set_cchhb cc hh b) geo in
  blk_cyl geo blk = cc ∧ blk_head geo blk = hh ∧ blk_rec geo blk = b.
Proof.
  intros (Hh0 & Hs & _) Hc Hh Hb blk. subst blk. unfold cchhb2blk.
  destruct (cchhb_cyl_head_roundtrip cc hh b) as [-> ->]; [lia|lia|].
  change (2 ^ 28) with 268435456 in Hc. simpl. rewrite u8_small by lia.
  set (H := geo_heads geo) in *. set (S := geo_sectors geo) in *.
  assert (0 <= cc * H <= 268435456 * 16) by nia.
  rewrite u64_small by nia. unfold blk_cyl, blk_head, blk_rec. fold H S.
  replace (cc * H * S + hh * S + b - 1) with ((cc * H + hh) * S + (b - 1)) by lia.
  rewrite Z.div_add_l, (Z.div_small (b - 1)), Z.add_0_r by lia.
  rewrite Z.div_add_l, (Z.div_small hh), Z.add_0_r by lia.
  rewrite (Z.add_comm (cc * H)), Z.mod_add, Z.mod_small by lia.
  rewrite (Z.add_comm _ (b - 1)), Z.mod_add, Z.mod_small by lia. lia.
Qed.

End Addr.
