(* ===== verification/Codec.v ===== *)
(** Packed C structures as fixed-size byte codecs.

    The labels of a volume are packed structures that the program moves
    between memory and disk with [read], [write] and [memcpy].  A [codec A]
    gives the byte image of an [A] on a big-endian machine together with the
    laws that make the two directions inverse; structures are built from the
    integer and array codecs with [cpair], [carray] and [ciso]. *)
From S2P Require Import Prelude.

Record codec (A : Type) := Codec {
  csize : nat;
  cenc : A → list Z;
  cdec : list Z → A;
  cvalid : A → Prop
}.
Arguments csize {A} _.
Arguments cenc {A} _ _.
Arguments cdec {A} _ _.
Arguments cvalid {A} _ _.

Class CodecLaws {A} (c : codec A) : Prop := {
  cenc_length a : cvalid c a → length (cenc c a) = csize c;
  cenc_bytes a : cvalid c a → bytes_ok (cenc c a);
  cdec_enc a : cvalid c a → cdec c (cenc c a) = a;
  cenc_dec bs : length bs = csize c → bytes_ok bs → cenc c (cdec c bs) = bs;
  cdec_valid bs : length bs = csize c → bytes_ok bs → cvalid c (cdec c bs)
}.

(** ** Integers, big-endian *)

Definition cu8 : codec Z :=
  {| csize := 1; cenc x := [x]; cdec bs := bs !!! 0%nat; cvalid := in_u8 |}.

(** [n] bytes, most significant first *)
Fixpoint be_enc (n : nat) (x : Z) : list Z :=
  match n with
  | O => []
  | S n => be_enc n (x / 256) ++ [x mod 256]
  end.

Definition be_dec (bs : list Z) : Z := fold_left (λ acc b, acc * 256 + b) bs 0.

Definition cbe (n : nat) : codec Z :=
  {| csize := n; cenc := be_enc n; cdec := be_dec;
     cvalid x := 0 <= x < 256 ^ Z.of_nat n |}.
Definition cu16 := cbe 2.
Definition cu32 := cbe 4.
Definition cu64 := cbe 8.

(** ** Arrays, pairs and structures *)

Definition cbytes (n : nat) : codec (list Z) :=
  {| csize := n; cenc l := l; cdec l := l;
     cvalid l := length l = n ∧ bytes_ok l |}.

Definition cpair {A B} (ca : codec A) (cb : codec B) : codec (A * B) :=
  {| csize := csize ca + csize cb;
     cenc p := cenc ca p.1 ++ cenc cb p.2;
     cdec bs := (cdec ca (take (csize ca) bs), cdec cb (drop (csize ca) bs));
     cvalid p := cvalid ca p.1 ∧ cvalid cb p.2 |}.

Fixpoint arr_enc {A} (c : codec A) (l : list A) : list Z :=
  match l with
  | [] => []
  | a :: l => cenc c a ++ arr_enc c l
  end.

Fixpoint arr_dec {A} (c : codec A) (n : nat) (bs : list Z) : list A :=
  match n with
  | O => []
  | S n => cdec c (take (csize c) bs) :: arr_dec c n (drop (csize c) bs)
  end.

Definition carray {A} (n : nat) (c : codec A) : codec (list A) :=
  {| csize := n * csize c;
     cenc := arr_enc c;
     cdec := arr_dec c n;
     cvalid l := length l = n ∧ Forall (cvalid c) l |}.

Definition ciso {A B} (f : A → B) (g : B → A) (c : codec A) : codec B :=
  {| csize := csize c; cenc b := cenc c (g b); cdec bs := f (cdec c bs);
     cvalid b := cvalid c (g b) |}.

Infix "⊗" := cpair (at level 35, right associativity).

(** ** Laws *)

Lemma be_enc_length n x : length (be_enc n x) = n.
Proof. revert x; induction n; intros x; simpl; [done|]. rewrite length_app, IHn. simpl. lia. Qed.

Lemma be_enc_bytes n x : bytes_ok (be_enc n x).
Proof.
  revert x; induction n; intros x; simpl; [constructor|].
  apply Forall_app; split; [apply IHn|]. constructor; [|constructor].
  unfold in_u8. apply Z.mod_pos_bound. lia.
Qed.

Lemma be_dec_snoc bs b : be_dec (bs ++ [b]) = be_dec bs * 256 + b.
Proof. unfold be_dec. by rewrite fold_left_app. Qed.

Lemma be_dec_enc n x : 0 <= x < 256 ^ Z.of_nat n → be_dec (be_enc n x) = x.
Proof.
  revert x; induction n as [|n IH]; intros x Hx.
  { simpl in *. change (256 ^ 0) with 1 in Hx. unfold be_dec; simpl. lia. }
  simpl be_enc. rewrite be_dec_snoc, IH.
  - pose proof (Z.div_mod x 256). lia.
  - rewrite Nat2Z.inj_succ, Z.pow_succ_r in Hx by lia.
    split; [apply Z.div_pos; lia|]. apply Z.div_lt_upper_bound; lia.
Qed.

Lemma be_dec_range bs : bytes_ok bs → 0 <= be_dec bs < 256 ^ Z.of_nat (length bs).
Proof.
  induction bs as [|b bs IH] using rev_ind; intros H; [done|].
  apply Forall_app in H as [Hbs Hb]. inversion Hb as [|? ? Hb' _]; subst.
  rewrite be_dec_snoc, length_app. simpl.
  replace (Z.of_nat (length bs + 1)) with (Z.succ (Z.of_nat (length bs))) by lia.
  rewrite Z.pow_succ_r by lia. specialize (IH Hbs). unfold in_u8 in Hb'. lia.
Qed.

Lemma be_enc_dec bs : bytes_ok bs → be_enc (length bs) (be_dec bs) = bs.
Proof.
  induction bs as [|b bs IH] using rev_ind; intros H; [done|].
  apply Forall_app in H as [Hbs Hb]. inversion Hb as [|? ? Hb' _]; subst.
  rewrite length_app. simpl. rewrite Nat.add_1_r. simpl.
  rewrite be_dec_snoc. unfold in_u8 in Hb'.
  rewrite Z.div_add_l, (Z.div_small b), Z.add_0_r by lia.
  rewrite (Z.add_comm _ b), Z.mod_add, Z.mod_small by lia. by rewrite IH.
Qed.

#[export] Instance cbe_laws n : CodecLaws (cbe n).
Proof.
  split; simpl.
  - intros. apply be_enc_length.
  - intros. apply be_enc_bytes.
  - intros. by apply be_dec_enc.
  - intros bs <- Hb. by apply be_enc_dec.
  - intros bs <- Hb. by apply be_dec_range.
Qed.

#[export] Instance cu16_laws : CodecLaws cu16 := cbe_laws 2.
#[export] Instance cu32_laws : CodecLaws cu32 := cbe_laws 4.
#[export] Instance cu64_laws : CodecLaws cu64 := cbe_laws 8.

#[export] Instance cu8_laws : CodecLaws cu8.
Proof.
  split; simpl; try done.
  - intros a H. constructor; [done|constructor].
  - intros [|b [|? ?]] Hl Hb; simplify_eq/=. done.
  - intros [|b [|? ?]] Hl Hb; simplify_eq/=. by inversion Hb.
Qed.

#[export] Instance cbytes_laws n : CodecLaws (cbytes n).
Proof. split; simpl; naive_solver. Qed.

Section Combinators.
Context {A B : Type} (ca : codec A) (cb : codec B).
Context `{!CodecLaws ca, !CodecLaws cb}.

Lemma bytes_ok_take n bs : bytes_ok bs → bytes_ok (take n bs).
Proof. apply Forall_take. Qed.
Lemma bytes_ok_drop n bs : bytes_ok bs → bytes_ok (drop n bs).
Proof. apply Forall_drop. Qed.

#[export] Instance cpair_laws : CodecLaws (ca ⊗ cb).
Proof.
  split; simpl.
  - intros [a b] [Ha Hb]. simpl. by rewrite length_app, !cenc_length.
  - intros [a b] [Ha Hb]. simpl. apply Forall_app; split; by apply cenc_bytes.
  - intros [a b] [Ha Hb]. simpl in *. pose proof (cenc_length a Ha) as Hl.
    rewrite <- Hl, take_app_length, drop_app_length. by rewrite !cdec_enc.
  - intros bs Hl Hb. simpl.
    rewrite !cenc_dec; rewrite ?length_take, ?length_drop;
      try (apply bytes_ok_take || apply bytes_ok_drop); try done; try lia.
    apply take_drop.
  - intros bs Hl Hb. simpl.
    split; apply cdec_valid; rewrite ?length_take, ?length_drop;
      try (apply bytes_ok_take || apply bytes_ok_drop); try done; lia.
Qed.

#[export] Instance carray_laws n : CodecLaws (carray n ca).
Proof.
  split.
  - intros l [Hn Hl]. revert n Hn. induction Hl as [|a l Ha Hl IH]; intros n Hn; simpl in *.
    { by subst. }
    destruct n as [|n]; [done|]. injection Hn as Hn.
    rewrite length_app, cenc_length, (IH n) by done. simpl. lia.
  - intros l [Hn Hl]. clear Hn. induction Hl; simpl; [constructor|].
    apply Forall_app; split; [by apply cenc_bytes|done].
  - intros l [Hn Hl]. revert n Hn. induction Hl as [|a l Ha Hl IH]; intros n Hn; simpl in *.
    { by subst. }
    destruct n as [|n]; [done|]. injection Hn as Hn. simpl.
    rewrite <- (cenc_length a Ha), take_app_length, drop_app_length.
    rewrite cdec_enc by done. f_equal. by apply IH.
  - intros bs. revert bs. induction n as [|n IH]; intros bs Hl Hb; simpl in *.
    { by apply nil_length_inv in Hl as ->. }
    rewrite IH, cenc_dec; rewrite ?length_take, ?length_drop;
      try (apply bytes_ok_take || apply bytes_ok_drop); try done; try lia.
    apply take_drop.
  - intros bs. revert bs. induction n as [|n IH]; intros bs Hl Hb; simpl in *; [by split|].
    destruct (IH (drop (csize ca) bs)) as [H1 H2];
      [rewrite length_drop; lia | by apply bytes_ok_drop |].
    split; [by rewrite H1|]. constructor; [|done].
    apply cdec_valid; [rewrite length_take; lia | by apply bytes_ok_take].
Qed.
End Combinators.
#[export] Existing Instance cpair_laws.
#[export] Existing Instance carray_laws.

Lemma ciso_laws {A B} (f : A → B) (g : B → A) (c : codec A) `{!CodecLaws c} :
  (∀ a, g (f a) = a) → (∀ b, f (g b) = b) → CodecLaws (ciso f g c).
Proof.
  intros Hgf Hfg. split; simpl.
  - intros b. apply cenc_length.
  - intros b. apply cenc_bytes.
  - intros b Hb. by rewrite cdec_enc, Hfg.
  - intros bs Hl Hb. by rewrite Hgf, cenc_dec.
  - intros bs Hl Hb. rewrite Hgf. by apply cdec_valid.
Qed.
