(* ===== verification/LabelOps.v ===== *)
(** Label operations of libvtoc (src/libvtoc/vtoc.c): initialisation and update
    of the volume label and of the format 1/8, 4, 5, 7 and 9 labels. *)
From S2P Require Import Prelude Ebcdic Cchh Codec Labels.
Import Ebcdic Addr.

Definition VOLSER_LENGTH : nat := 6.
Definition DASD_3380_TYPE : Z := 13184.
Definition DASD_3390_TYPE : Z := 13200.
Definition DASD_9345_TYPE : Z := 37701.
Definition DASD_3380_VALUE : Z := 0xbb60.
Definition DASD_3390_VALUE : Z := 0xe5a2.
Definition DASD_9345_VALUE : Z := 0xbc98.

(** the EBCDIC image of a string literal *)
Definition enc_str (s : string) : list Z := map asc2ebc (bytes_of_string s).

(** ** Field updates *)

Definition set_volid (v : volume_label_t) (x : list Z) : volume_label_t :=
  let '(VolumeLabel a b _ d e f g h i j k l m n) := v in VolumeLabel a b x d e f g h i j k l m n.
Definition set_volkey (v : volume_label_t) (x : list Z) : volume_label_t :=
  let '(VolumeLabel _ b c d e f g h i j k l m n) := v in VolumeLabel x b c d e f g h i j k l m n.
Definition set_vollbl (v : volume_label_t) (x : list Z) : volume_label_t :=
  let '(VolumeLabel a _ c d e f g h i j k l m n) := v in VolumeLabel a x c d e f g h i j k l m n.
Definition set_vl_vtoc (v : volume_label_t) (x : cchhb_t) : volume_label_t :=
  let '(VolumeLabel a b c d _ f g h i j k l m n) := v in VolumeLabel a b c d x f g h i j k l m n.

Definition set_f1_head (f : format1_label_t) (nam : list Z) (fmt : Z) (ssn : list Z)
    : format1_label_t :=
  let '(Format1 _ _ _ x3 x4 x5 x6 x7 x8 x9 x10 x11 x12 x13 x14 x15 x16 x17 x18 x19 x20
        x21 x22 x23 x24 x25 x26 x27 x28 x29 x30 x31) := f in
  Format1 nam fmt ssn x3 x4 x5 x6 x7 x8 x9 x10 x11 x12 x13 x14 x15 x16 x17 x18 x19 x20
        x21 x22 x23 x24 x25 x26 x27 x28 x29 x30 x31.
Definition set_DS1DSNAM f x := set_f1_head f x (DS1FMTID f) (DS1DSSN f).
Definition set_DS1FMTID f x := set_f1_head f (DS1DSNAM f) x (DS1DSSN f).
Definition set_DS1DSSN f x := set_f1_head f (DS1DSNAM f) (DS1FMTID f) x.
Definition set_f1_tail (f : format1_label_t) (cre : labeldate_t) (ptr : cchhb_t)
    : format1_label_t :=
  let '(Format1 x0 x1 x2 x3 _ x5 x6 x7 x8 x9 x10 x11 x12 x13 x14 x15 x16 x17 x18 x19 x20
        x21 x22 x23 x24 x25 x26 x27 x28 x29 x30 _) := f in
  Format1 x0 x1 x2 x3 cre x5 x6 x7 x8 x9 x10 x11 x12 x13 x14 x15 x16 x17 x18 x19 x20
        x21 x22 x23 x24 x25 x26 x27 x28 x29 x30 ptr.
Definition set_DS1PTRDS f x := set_f1_tail f (DS1CREDT f) x.
Definition set_DS1CREDT f x := set_f1_tail f x (DS1PTRDS f).

Definition set_f4_dscb (f : format4_label_t) (hp : cchhb_t) (rec : Z) : format4_label_t :=
  let '(Format4 x0 x1 _ _ x4 x5 x6 x7 x8 x9 x10 x11 x12 x13 x14 x15 x16 x17 x18 x19 x20
        x21 x22 x23 x24) := f in
  Format4 x0 x1 hp rec x4 x5 x6 x7 x8 x9 x10 x11 x12 x13 x14 x15 x16 x17 x18 x19 x20
        x21 x22 x23 x24.
Definition set_f4_ext_freespace (f : format4_label_t) (vtoci eflvl : Z) (efptr : cchhb_t)
    : format4_label_t :=
  let '(Format4 x0 x1 x2 x3 x4 x5 _ x7 x8 x9 x10 x11 x12 x13 x14 x15 x16 x17 _ _ x20
        x21 x22 x23 x24) := f in
  Format4 x0 x1 x2 x3 x4 x5 vtoci x7 x8 x9 x10 x11 x12 x13 x14 x15 x16 x17 eflvl efptr x20
        x21 x22 x23 x24.

(** ** Volume label *)

(** [sprintf] of 84 blanks, encoded and copied over the first 84 bytes of the
    label: [formatted_blocks] keeps its value. *)
Definition vtoc_volume_label_init (vlabel : volume_label_t) : volume_label_t :=
  let buffer := vtoc_ebcdic_enc_inplace (replicate 84 32) 84 in
  cdec cvolume_label (memcpy_at (cenc cvolume_label vlabel) 0 buffer).

Definition vtoc_volume_label_set_volser (vlabel : volume_label_t) (volser : list Z)
    : volume_label_t :=
  let i0 := strlen volser in
  let s := vtoc_ebcdic_enc_inplace (bytes_of_string "      ") VOLSER_LENGTH in
  let vlabel := set_volid vlabel s in
  let i := if (VOLSER_LENGTH <? i0)%nat then VOLSER_LENGTH else i0 in
  let s := memcpy_at (s ++ [0]) 0 (strncpy volser i) in
  let s := memcpy_at s 0 (map toupper (take i s)) in
  let s := <[VOLSER_LENGTH := 0]> s in
  let s := vtoc_ebcdic_enc_inplace s i in
  set_volid vlabel (memcpy_at (volid vlabel) 0 (strncpy s i)).

Definition vtoc_volume_label_get_volser (vlabel : volume_label_t) : list Z :=
  vtoc_ebcdic_dec (volid vlabel) (zeros 6) VOLSER_LENGTH.

Definition vtoc_volume_label_set_key (vlabel : volume_label_t) (key : list Z) : volume_label_t :=
  let s := vtoc_ebcdic_enc key (zeros 4) 4 in
  set_volkey vlabel (strncpy s 4).

Definition vtoc_volume_label_set_label (vlabel : volume_label_t) (lbl : list Z)
    : volume_label_t :=
  let s := vtoc_ebcdic_enc lbl (zeros 4) 4 in
  set_vollbl vlabel (strncpy s 4).

Definition vtoc_volume_label_get_label (vlabel : volume_label_t) : list Z :=
  vtoc_ebcdic_dec (vollbl vlabel) (zeros 4) 4.

(** ** Data set control blocks *)

Definition zero_cchh : cchh_t := Cchh 0 0.
Definition zero_cchhb : cchhb_t := Cchhb 0 0 0.
Definition zero_extent : extent_t := Extent 0 0 zero_cchh zero_cchh.

Definition vtoc_init_format4_label
    (compat_cylinders real_cylinders tracks blocks blksize dev_type : Z) : format4_label_t :=
  let lower := Cchh VTOC_START_CC VTOC_START_HH in
  let upper := Cchh VTOC_START_CC VTOC_START_HH in
  {| DS4KEYCD := replicate 44 0x04;
     DS4IDFMT := 0xf4;
     DS4HPCHR := vtoc_set_cchhb 0 0 0;
     DS4DSREC := u16 (blocks - 2);
     DS4HCCHH := vtoc_set_cchh 0 0;
     DS4NOATK := 0;
     DS4VTOCI := 0;
     DS4NOEXT := 0x01;
     DS4SMSFG := 0;
     DS4DEVAC := 0;
     DS4DEVCT :=
       {| DS4DSCYL := u16 compat_cylinders;
          DS4DSTRK := u16 tracks;
          DS4DEVTK :=
            if dev_type =? DASD_3380_TYPE then DASD_3380_VALUE
            else if dev_type =? DASD_3390_TYPE then DASD_3390_VALUE
            else if dev_type =? DASD_9345_TYPE then DASD_9345_VALUE
            else u16 (u32 (blocks * blksize));
          DS4DEVI := 0; DS4DEVL := 0; DS4DEVK := 0;
          DS4DEVFG := 0x30;
          DS4DEVTL := 0;
          DS4DEVDT := u8 blocks;
          DS4DEVDB := 0 |};
     DS4AMTIM := zeros 8;
     DS4AMCAT := zeros 3;
     DS4R2TIM := zeros 8;
     f4_res1 := zeros 5;
     DS4F6PTR := zeros 5;
     DS4VTOCE := vtoc_set_extent 0x01 0x00 lower upper;
     f4_res2 := zeros 10;
     DS4EFLVL := 0;
     DS4EFPTR := zero_cchhb;
     f4_res3 := 0;
     DS4DCYL := u32 real_cylinders;
     f4_res4 := zeros 2;
     DS4DEVF2 := 0x40;
     f4_res5 := 0 |}.

Definition zero_ds5ext : ds5ext_t := Ds5ext 0 0 0.
Definition zero_ds7ext : ds7ext_t := Ds7ext 0 0.

Definition vtoc_init_format5_label : format5_label_t :=
  {| DS5KEYID := replicate 4 0x05;
     DS5AVEXT := zero_ds5ext;
     DS5EXTAV := replicate 7 zero_ds5ext;
     DS5FMTID := 0xf5;
     DS5MAVET := replicate 18 zero_ds5ext;
     DS5PTRDS := zero_cchhb |}.

Definition vtoc_init_format7_label : format7_label_t :=
  {| DS7KEYID := replicate 4 0x07;
     DS7EXTNT := replicate 5 zero_ds7ext;
     DS7FMTID := 0xf7;
     DS7ADEXT := replicate 11 zero_ds7ext;
     f7_res1 := zeros 2;
     DS7PTRDS := zero_cchhb |}.

(** [gmtime(time(NULL))], as far as the labels use it *)
Record tm := Tm { tm_year : Z; tm_yday : Z }.

(** all fields but [DS1FMTID], which keeps its value *)
Definition vtoc_init_format_1_8_label (now : tm) (blksize : Z) (part_extent : extent_t)
    (f1 : format1_label_t) : format1_label_t :=
  {| DS1DSNAM := map asc2ebc (bytes_of_string
                   "PART    .NEW                                ");
     DS1FMTID := DS1FMTID f1;
     DS1DSSN := bytes_of_string "      ";
     DS1VOLSQ := 0x0001;
     DS1CREDT := vtoc_set_date (u8 (tm_year now)) (u16 (tm_yday now));
     DS1EXPDT := vtoc_set_date 0x63 0x016D;
     DS1NOEPV := 0x01;
     DS1NOBDB := 0x00;
     DS1FLAG1 := 0x00;
     DS1SYSCD := map asc2ebc (bytes_of_string "IBM LINUX    ");
     DS1REFD := vtoc_set_date (u8 (tm_year now)) (u16 (tm_yday now));
     DS1SMSFG := 0x00;
     DS1SCXTF := 0x00;
     DS1SCXTV := 0x0000;
     DS1DSRG1 := 0x00;
     DS1DSRG2 := 0x00;
     DS1RECFM := 0x88;
     DS1OPTCD := 0x00;
     DS1BLKL := u16 blksize;
     DS1LRECL := u16 blksize;
     DS1KEYL := 0x00;
     DS1RKP := 0x0000;
     DS1DSIND := 0x80;
     DS1SCAL1 := 0x80;
     DS1SCAL3 := zeros 3;
     DS1LSTAR := vtoc_set_ttr 0x0000 0x00;
     DS1TRBAL := 0x00;
     f1_res1 := 0;
     DS1EXT1 := part_extent;
     DS1EXT2 := zero_extent;
     DS1EXT3 := zero_extent;
     DS1PTRDS := vtoc_set_cchhb 0x0000 0x0000 0x00 |}.

Definition vtoc_init_format1_label (now : tm) (blksize : Z) (part_extent : extent_t)
    (f1 : format1_label_t) : format1_label_t :=
  set_DS1FMTID (vtoc_init_format_1_8_label now blksize part_extent f1) 0xf1.

Definition vtoc_init_format8_label (now : tm) (blksize : Z) (part_extent : extent_t)
    (f8 : format1_label_t) : format1_label_t :=
  set_DS1FMTID (vtoc_init_format_1_8_label now blksize part_extent f8) 0xf8.

Definition vtoc_update_format8_label (associated_f9 : cchhb_t) (f8 : format1_label_t)
    : format1_label_t := set_DS1PTRDS f8 associated_f9.

Definition vtoc_init_format9_label (f9 : format9_label_t) : format9_label_t :=
  {| DS9KEYID := 0x09; DS9SUBTY := 0x01; DS9NUMF9 := 1; f9_res1 := f9_res1 f9;
     DS9FMTID := 0xf9; f9_res2 := f9_res2 f9; DS9PTRDS := DS9PTRDS f9 |}.

Definition vtoc_update_format4_label (f4 : format4_label_t) (highest_f1 : cchhb_t)
    (unused_update : Z) : format4_label_t :=
  set_f4_dscb f4 highest_f1 (u16 unused_update).

(** ** Volume serial numbers *)

(** What [vtoc_volume_label_set_volser] stores: the first six characters in
    upper case and EBCDIC, padded with EBCDIC blanks. *)
Definition volser_field (volser : list Z) : list Z :=
  let s := map asc2ebc (map toupper (take VOLSER_LENGTH (cstr volser))) in
  s ++ replicate (VOLSER_LENGTH - length s) 0x40.

Lemma toupper_range c : in_u8 c → in_u8 (toupper c).
Proof. unfold toupper, in_u8. intros H. destruct (_ && _) eqn:E; b2p; lia. Qed.

Lemma toupper_nonzero c : c ≠ 0 → toupper c ≠ 0.
Proof. unfold toupper. intros H. destruct (_ && _) eqn:E; b2p; lia. Qed.

Lemma toupper_idemp c : toupper (toupper c) = toupper c.
Proof.
  unfold toupper at 2 3. destruct (_ && _) eqn:E; unfold toupper.
  - b2p. destruct (_ && _) eqn:E2; b2p; lia.
  - by rewrite E.
Qed.

Lemma encoded_no_nul s :
  Forall in_u8 s → Forall (λ c, c ≠ 0) s → Forall (λ c, c ≠ 0) (map asc2ebc (map toupper s)).
Proof.
  intros Hb Hn. induction s as [|c s IH]; [constructor|].
  inversion Hb; inversion Hn; subst. simpl. constructor; [|by apply IH].
  apply asc2ebc_nonzero; [by apply toupper_range|by apply toupper_nonzero].
Qed.

Lemma take_cstr_bytes n l :
  Forall in_u8 l → Forall in_u8 (take n (cstr l)) ∧ Forall (λ c, c ≠ 0) (take n (cstr l)).
Proof.
  intros H. split; apply Forall_take; [|apply cstr_Forall].
  induction H as [|c l Hc _ IH]; simpl; [constructor|].
  destruct (c =? 0); [constructor|by constructor].
Qed.

(** The buffer steps of the setter: the prefix of [s] that holds the serial is
    upper-cased and encoded, whatever follows it. *)
Lemma volser_buffer t rest :
  (0 < length rest)%nat → (length t + length rest = 7)%nat →
  Forall in_u8 t → Forall (λ c, c ≠ 0) t →
  strncpy (vtoc_ebcdic_enc_inplace
             (<[VOLSER_LENGTH := 0]> (map toupper t ++ rest)) (length t)) (length t)
  = map asc2ebc (map toupper t).
Proof.
  intros Hr Hl Hb Hn. unfold vtoc_ebcdic_enc_inplace, VOLSER_LENGTH.
  rewrite insert_app_r_alt by (rewrite length_map; lia).
  rewrite translate_inplace_alias, translate_spec
    by (rewrite length_app, length_map; lia).
  rewrite take_app_length' by (by rewrite length_map).
  rewrite drop_app_length' by (by rewrite length_map).
  rewrite strncpy_full; rewrite ?take_app_length'; rewrite ?length_app, ?length_map; try done; try lia.
  by apply encoded_no_nul.
Qed.

Lemma volid_set_volid v x : volid (set_volid v x) = x.
Proof. by destruct v. Qed.

Lemma set_volser_spec v volser :
  Forall in_u8 volser →
  volid (vtoc_volume_label_set_volser v volser) = volser_field volser.
Proof.
  intros Hb. unfold vtoc_volume_label_set_volser, volser_field, strlen.
  destruct (take_cstr_bytes VOLSER_LENGTH volser Hb) as [Htb Htn].
  set (t := take VOLSER_LENGTH (cstr volser)) in *.
  assert (Hi : (if (VOLSER_LENGTH <? length (cstr volser))%nat then VOLSER_LENGTH
                else length (cstr volser)) = length t).
  { subst t. rewrite length_take. unfold VOLSER_LENGTH.
    destruct (Nat.ltb_spec 6 (length (cstr volser))); lia. }
  assert (Hle : (length t <= 6)%nat) by (subst t; rewrite length_take; unfold VOLSER_LENGTH; lia).
  cbv zeta. rewrite Hi, !volid_set_volid. subst t. rewrite strncpy_take.
  set (t := take VOLSER_LENGTH (cstr volser)) in *.
  change (vtoc_ebcdic_enc_inplace (bytes_of_string "      ") VOLSER_LENGTH) with (replicate 6 0x40).
  unfold memcpy_at. rewrite !take_0, !app_nil_l.
  rewrite take_app_length, length_map, Nat.add_0_l, drop_app_length.
  rewrite volser_buffer; try done.
  - rewrite !length_map. f_equal. by rewrite drop_replicate.
  - rewrite length_drop, length_app, length_replicate. simpl. lia.
  - rewrite length_drop, length_app, length_replicate. simpl. lia.
Qed.

(** Reading the serial back gives its first six characters in upper case,
    padded with blanks. *)
Lemma volser_get_set v volser :
  Forall (λ c, roundtrip_char (toupper c) = true ∧ in_u8 c) volser →
  vtoc_volume_label_get_volser (vtoc_volume_label_set_volser v volser) =
    let s := map toupper (take VOLSER_LENGTH (cstr volser)) in
    s ++ replicate (VOLSER_LENGTH - length s) 32.
Proof.
  intros H. apply Forall_and in H as [Hr Hb].
  unfold vtoc_volume_label_get_volser. rewrite set_volser_spec by done.
  assert (Hl : length (volser_field volser) = VOLSER_LENGTH).
  { unfold volser_field. rewrite length_app, length_replicate, !length_map, length_take. lia. }
  unfold vtoc_ebcdic_dec. rewrite translate_spec by (rewrite ?Hl; done).
  rewrite <- Hl, take_ge by done. rewrite Hl. simpl. rewrite app_nil_r.
  unfold volser_field. rewrite map_app, map_dec_enc.
  - f_equal. rewrite !length_map. apply (fmap_replicate ebc2asc).
  - apply Forall_map, Forall_take. clear Hb Hl.
    induction Hr as [|c l Hc _ IH]; simpl; [constructor|].
    destruct (c =? 0); [constructor|by constructor].
Qed.

(** ** Well-formed labels *)

Lemma bytes_ok_compute l : forallb is_byte l = true → bytes_ok l.
Proof.
  intros H. apply Forall_forall. intros x Hx. rewrite forallb_forall in H.
  specialize (H x ltac:(by apply list_elem_of_In)). unfold is_byte in H. b2p. done.
Qed.

(** Names the wrapped values of the goal together with their ranges. *)
Ltac wrap_facts :=
  repeat match goal with
  | |- context [u8 ?x] => pose proof (u8_range x); generalize dependent (u8 x); intros
  | |- context [u16 ?x] => pose proof (u16_range x); generalize dependent (u16 x); intros
  | |- context [u32 ?x] => pose proof (u32_range x); generalize dependent (u32 x); intros
  end.

(** Splits the validity of a structure into the ranges of its fields. *)
Ltac label_valid :=
  cbn -[u8 u16 u32 zeros replicate vtoc_set_cchhb vtoc_set_cchh bytes_of_string];
  change (256 ^ Z.of_nat 2) with 65536; change (256 ^ Z.of_nat 4) with 4294967296;
  repeat match goal with |- _ ∧ _ => split end;
  try done;
  try (unfold bytes_ok, zeros; apply Forall_replicate; unfold in_u8; lia);
  try (apply bytes_ok_compute; vm_compute; reflexivity);
  try solve [unfold in_u8, in_u16, in_u32; repeat case_match; try done; wrap_facts;
             unfold in_u8, in_u16, in_u32 in *; lia].

Lemma vtoc_init_format4_valid cc rc tr bl bs ty :
  cvalid cformat4 (vtoc_init_format4_label cc rc tr bl bs ty).
Proof. label_valid. Qed.

Lemma vtoc_init_format5_valid : cvalid cformat5 vtoc_init_format5_label.
Proof. label_valid. all: apply Forall_replicate; label_valid. Qed.

Lemma vtoc_init_format7_valid : cvalid cformat7 vtoc_init_format7_label.
Proof. label_valid. all: apply Forall_replicate; label_valid. Qed.

Lemma vtoc_init_format_1_8_valid now blksize ext f1 :
  cvalid cextent ext → in_u8 (DS1FMTID f1) →
  cvalid cformat1 (vtoc_init_format_1_8_label now blksize ext f1).
Proof.
  destruct ext as [t n [c1 h1] [c2 h2]]. intros (Ht & Hn & (Hc1 & Hh1) & Hc2 & Hh2) Hf.
  cbn in *. label_valid.
Qed.

Lemma set_DS1FMTID_valid f x : cvalid cformat1 f → in_u8 x → cvalid cformat1 (set_DS1FMTID f x).
Proof. destruct f. intros H Hx. cbn in *. naive_solver. Qed.

Lemma vtoc_init_format1_valid now blksize ext f1 :
  cvalid cextent ext → cvalid cformat1 f1 →
  cvalid cformat1 (vtoc_init_format1_label now blksize ext f1) ∧
  cvalid cformat1 (vtoc_init_format8_label now blksize ext f1).
Proof.
  intros He Hf. assert (in_u8 (DS1FMTID f1)) by (destruct f1; apply Hf).
  split; (apply set_DS1FMTID_valid; [by apply vtoc_init_format_1_8_valid|]); unfold in_u8; lia.
Qed.
