(* ===== verification/VtocIo.v ===== *)
(** Device input and output of libvtoc (src/libvtoc/vtoc.c): reading and writing
    the volume label and the VTOC labels.  A block device is its byte content
    plus the permissions that [open] checks; a failing system call ends the
    process through [vtoc_error]. *)
From S2P Require Import Prelude Ebcdic Cchh Codec Labels LabelOps.

Record device := Device {
  dev_readable : bool;
  dev_writable : bool;
  dev_data : list Z
}.

Module VtocIo.

(** [vtoc_error] prints a message and calls [exit(1)]. *)
Definition vtoc_error {A} : outcome A := Exited 1.

(** [lseek(f, pos, SEEK_SET)] with an [unsigned long] position that becomes a
    signed [off_t] *)
Definition seek_fails (pos : Z) : bool := 9223372036854775808 <=? pos.

(** the bytes [read] delivers at an offset: fewer than asked for at the end *)
Definition dev_read (d : device) (pos : Z) (n : nat) : list Z :=
  take n (drop (Z.to_nat pos) (dev_data d)).

(** [write]: [None] when not all bytes fit on the device *)
Definition dev_write (d : device) (pos : Z) (bs : list Z) : option device :=
  if (Z.to_nat pos + length bs <=? length (dev_data d))%nat then
    Some (Device (dev_readable d) (dev_writable d)
            (memcpy_at (dev_data d) (Z.to_nat pos) bs))
  else None.

Definition vtoc_read_volume_label (d : device) (vlabel_start : Z) : outcome volume_label_t :=
  if negb (dev_readable d) then vtoc_error
  else if seek_fails vlabel_start then vtoc_error
  else
    let bs := dev_read d vlabel_start (csize cvolume_label) in
    if negb (length bs =? csize cvolume_label)%nat then vtoc_error
    else Done (cdec cvolume_label bs).

Definition vtoc_write_volume_label (d : device) (vlabel_start : Z) (vlabel : volume_label_t)
    : outcome device :=
  if negb (dev_writable d) then vtoc_error
  else if seek_fails vlabel_start then vtoc_error
  else match dev_write d vlabel_start (cenc cvolume_label vlabel) with
       | None => vtoc_error
       | Some d => Done d
       end.

(** [if (fN != NULL) read(f, fN, sizeof)]: the label, if it is wanted, and the
    file offset after it *)
Definition read_label_if {A} (c : codec A) (want : bool) (d : device) (off : Z)
    : outcome (option A * Z) :=
  if want then
    let bs := dev_read d off (csize c) in
    if negb (length bs =? csize c)%nat then vtoc_error
    else Done (Some (cdec c bs), off + Z.of_nat (csize c))
  else Done (None, off).

Definition vtoc_read_label (d : device) (position : Z) (f1 f4 f5 f7 : bool) :
    outcome (option format1_label_t * option format4_label_t *
             option format5_label_t * option format7_label_t) :=
  if negb (dev_readable d) then vtoc_error
  else if seek_fails position then vtoc_error
  else
    '(l1, off) ← read_label_if cformat1 f1 d position;
    '(l4, off) ← read_label_if cformat4 f4 d off;
    '(l5, off) ← read_label_if cformat5 f5 d off;
    '(l7, off) ← read_label_if cformat7 f7 d off;
    Done (l1, l4, l5, l7).

Definition write_label_if {A} (c : codec A) (f : option A) (d : device) (off : Z)
    : outcome (device * Z) :=
  match f with
  | None => Done (d, off)
  | Some l => match dev_write d off (cenc c l) with
              | None => vtoc_error
              | Some d => Done (d, off + Z.of_nat (csize c))
              end
  end.

Definition vtoc_write_label (d : device) (position : Z)
    (f1 : option format1_label_t) (f4 : option format4_label_t)
    (f5 : option format5_label_t) (f7 : option format7_label_t)
    (f9 : option format9_label_t) : outcome device :=
  if negb (dev_writable d) then vtoc_error
  else if seek_fails position then vtoc_error
  else
    '(d, off) ← write_label_if cformat1 f1 d position;
    '(d, off) ← write_label_if cformat4 f4 d off;
    '(d, off) ← write_label_if cformat5 f5 d off;
    '(d, off) ← write_label_if cformat7 f7 d off;
    '(d, off) ← write_label_if cformat9 f9 d off;
    Done d.

(** ** Reading back what was written *)

(** [n] bytes from [pos] on lie on the device. *)
Definition on_device (d : device) (pos : Z) (n : nat) : Prop :=
  0 <= pos ∧ (Z.to_nat pos + n <= length (dev_data d))%nat ∧ seek_fails pos = false.

Lemma dev_write_on_device d pos bs :
  on_device d pos (length bs) →
  dev_write d pos bs =
    Some (Device (dev_readable d) (dev_writable d) (memcpy_at (dev_data d) (Z.to_nat pos) bs)).
Proof. intros (_ & H & _). unfold dev_write. apply Nat.leb_le in H. by rewrite H. Qed.

Lemma memcpy_at_read_same dst off src :
  (off + length src <= length dst)%nat →
  take (length src) (drop off (memcpy_at dst off src)) = src.
Proof.
  intros H. unfold memcpy_at.
  rewrite drop_app_length' by (rewrite length_take; lia).
  by rewrite take_app_length.
Qed.

Lemma memcpy_at_read_other dst off src p n :
  (off + length src <= length dst)%nat → (p + n <= off)%nat ∨ (off + length src <= p)%nat →
  take n (drop p (memcpy_at dst off src)) = take n (drop p dst).
Proof.
  intros H Hd. apply list_eq. intros i.
  destruct (decide (i < n)%nat) as [Hi|Hi];
    [|by rewrite !lookup_take_ge by lia].
  rewrite !lookup_take_lt, !lookup_drop by done. unfold memcpy_at.
  destruct Hd as [Hd|Hd].
  - rewrite lookup_app_l by (rewrite length_take; lia). by rewrite lookup_take_lt by lia.
  - rewrite lookup_app_r by (rewrite length_take; lia). rewrite length_take, Nat.min_l by lia.
    rewrite lookup_app_r by lia. rewrite lookup_drop. f_equal. lia.
Qed.

(** A label written to a disjoint place does not disturb a read. *)
Lemma dev_read_other d d' pos bs p n :
  dev_write d pos bs = Some d' →
  0 <= pos → 0 <= p → p + Z.of_nat n <= pos ∨ pos + Z.of_nat (length bs) <= p →
  dev_read d' p n = dev_read d p n.
Proof.
  unfold dev_write. destruct (_ <=? _)%nat eqn:E; [|done]. intros [= <-] Hpos Hp Hd.
  apply Nat.leb_le in E. unfold dev_read. simpl. apply memcpy_at_read_other; lia.
Qed.

(** One label in one call, as every caller uses the two functions. *)
Definition put_label {A} (c : codec A) (d : device) (pos : Z) (l : A) : outcome device :=
  if negb (dev_writable d) then vtoc_error
  else if seek_fails pos then vtoc_error
  else match dev_write d pos (cenc c l) with
       | None => vtoc_error
       | Some d => Done d
       end.

Definition get_label {A} (c : codec A) (d : device) (pos : Z) : outcome A :=
  if negb (dev_readable d) then vtoc_error
  else if seek_fails pos then vtoc_error
  else let bs := dev_read d pos (csize c) in
       if negb (length bs =? csize c)%nat then vtoc_error else Done (cdec c bs).

Section OneCall.
Context (d : device) (pos : Z).

Ltac one_label :=
  unfold vtoc_write_label, vtoc_read_label, put_label, get_label, write_label_if, read_label_if;
  cbv zeta beta iota; rewrite ?Done_bind;
  repeat match goal with |- context [if ?b then vtoc_error else _] => destruct b; [done|] end;
  rewrite ?Done_bind; try (destruct (dev_write _ _ _); rewrite ?Done_bind); reflexivity.

Lemma write_label_1 l : vtoc_write_label d pos (Some l) None None None None = put_label cformat1 d pos l.
Proof. one_label. Qed.
Lemma write_label_4 l : vtoc_write_label d pos None (Some l) None None None = put_label cformat4 d pos l.
Proof. one_label. Qed.
Lemma write_label_5 l : vtoc_write_label d pos None None (Some l) None None = put_label cformat5 d pos l.
Proof. one_label. Qed.
Lemma write_label_7 l : vtoc_write_label d pos None None None (Some l) None = put_label cformat7 d pos l.
Proof. one_label. Qed.
Lemma write_label_9 l : vtoc_write_label d pos None None None None (Some l) = put_label cformat9 d pos l.
Proof. one_label. Qed.
Lemma read_label_1 :
  vtoc_read_label d pos true false false false = (l ← get_label cformat1 d pos; Done (Some l, None, None, None)).
Proof. one_label. Qed.
Lemma read_label_4 :
  vtoc_read_label d pos false true false false = (l ← get_label cformat4 d pos; Done (None, Some l, None, None)).
Proof. one_label. Qed.
Lemma read_label_5 :
  vtoc_read_label d pos false false true false = (l ← get_label cformat5 d pos; Done (None, None, Some l, None)).
Proof. one_label. Qed.
Lemma read_label_7 :
  vtoc_read_label d pos false false false true = (l ← get_label cformat7 d pos; Done (None, None, None, Some l)).
Proof. one_label. Qed.
End OneCall.

(** [d'] differs from [d] in the [n] bytes from [pos] on only *)
Definition written (d d' : device) (pos n : Z) : Prop :=
  dev_readable d' = dev_readable d ∧ dev_writable d' = dev_writable d ∧
  length (dev_data d') = length (dev_data d) ∧
  ∀ p k, 0 <= p → p + Z.of_nat k <= pos ∨ pos + n <= p → dev_read d' p k = dev_read d p k.

(** Reading back what was written. *)
Lemma put_get {A} (c : codec A) `{!CodecLaws c} d pos (l : A) :
  cvalid c l → dev_writable d = true → on_device d pos (csize c) →
  ∃ d', put_label c d pos l = Done d' ∧ written d d' pos (Z.of_nat (csize c)) ∧
    dev_read d' pos (csize c) = cenc c l ∧
    (dev_readable d = true → get_label c d' pos = Done l).
Proof.
  intros Hv Hw Hd. pose proof (cenc_length l Hv) as Hl. pose proof Hd as (Hp & Hle & Hs).
  pose proof (dev_write_on_device d pos (cenc c l)) as Hwr. rewrite Hl in Hwr. specialize (Hwr Hd).
  unfold put_label. rewrite Hw, Hs, Hwr. cbv iota. eexists. split; [done|]. set (d' := Device _ _ _).
  assert (E : dev_read d' pos (csize c) = cenc c l).
  { unfold dev_read, d'. simpl. rewrite <- Hl. apply memcpy_at_read_same. lia. }
  split; [|split; [done|]].
  - split; [done|]. split; [done|]. split; [simpl; apply length_memcpy_at; lia|].
    intros p n Hp0 Hdis. apply (dev_read_other d d' pos (cenc c l)); try done. by rewrite Hl.
  - intros Hr. unfold get_label. rewrite Hs. cbv zeta. rewrite E, Hl, Nat.eqb_refl. simpl. rewrite Hr. simpl.
    by rewrite cdec_enc.
Qed.

End VtocIo.
