(* ===== verification/Extents.v ===== *)
(** Free-space extent tables, the part that the format 5 and the format 7 label
    share (src/libvtoc/vtoc.c): the merge loop that follows an insertion, the
    search for an unused slot, and the reordering of the table.  The interface
    [ext_ops] names the tests and updates that differ between the two formats
    and [ExtLaws] what they promise in terms of track intervals; the results
    here are proved against the interface, the formats discharge it. *)
From S2P Require Import Prelude.

(** The format-specific expressions of the table loops. *)
Record ext_ops (E : Type) := ExtOps {
  e_zero : E;                     (* all bytes zero: [memset(ext, 0, ...)] *)
  e_unused : E → bool;            (* the slot is free *)
  e_key : E → Z;                  (* sort key: the first track *)
  e_precedes : E → E → bool;      (* extent ends where the new one starts *)
  e_join_pred : E → E → E;        (* extent extended by the new one behind it *)
  e_succeeds : E → E → bool;      (* extent starts where the new one ends *)
  e_join_succ : E → E → E         (* extent extended by the new one before it *)
}.
Arguments e_zero {E} _.
Arguments e_unused {E} _ _.
Arguments e_key {E} _ _.
Arguments e_precedes {E} _ _ _.
Arguments e_join_pred {E} _ _ _.
Arguments e_succeeds {E} _ _ _.
Arguments e_join_succ {E} _ _ _.

Module Extents.
Section Ops.
Context {E : Type} `{!Inhabited E} (ops : ext_ops E).

(** [for (i = 0; i < N; i++)]: the first unused slot is taken; an extent that
    overlaps the new one before that, or a table without unused slot, is a
    fatal error. *)
Fixpoint find_slot (overlaps : E → bool) (l : list E) (n i : nat) : outcome nat :=
  match n with
  | O => Exited 1
  | S n =>
      let ext := l !!! i in
      if overlaps ext then Exited 1
      else if e_unused ops ext then Done i
      else find_slot overlaps l n (S i)
  end.

(** The second loop: [tmp] is the slot of the new extent; a neighbour swallows
    it, becomes [tmp], and the scan starts over ([i = -1; continue]). *)
Fixpoint merge_loop (fuel : nat) (l : list E) (tmp i : nat) : outcome (list E) :=
  match fuel with
  | O => OutOfFuel
  | S fuel =>
      if (length l <=? i)%nat then Done l
      else
        let ext := l !!! i in
        let t := l !!! tmp in
        if e_unused ops ext then merge_loop fuel l tmp (S i)
        else if e_precedes ops ext t then
          merge_loop fuel (<[tmp := e_zero ops]> (<[i := e_join_pred ops ext t]> l)) i 0
        else if e_succeeds ops ext t then
          merge_loop fuel (<[tmp := e_zero ops]> (<[i := e_join_succ ops ext t]> l)) i 0
        else merge_loop fuel l tmp (S i)
  end.

(** enough for a merge of every slot and a full scan after each *)
Definition merge_fuel (l : list E) : nat := (S (length l) * S (length l))%nat.

Definition table_add (overlaps : E → bool) (new : E) (l : list E) : outcome (list E) :=
  i ← find_slot overlaps l (length l) 0;
  let l := <[i := new]> l in
  merge_loop (merge_fuel l) l i 0.

(** [reorganize]: exchange the extent at [j] into place [i] *)
Definition sort_step (i : nat) (l : list E) (j : nat) : list E :=
  let last := l !!! i in
  let ext := l !!! j in
  if ((0 <? e_key ops ext) && (e_key ops last =? 0)) ||
     ((0 <? e_key ops ext) && (e_key ops ext <? e_key ops last))
  then <[j := last]> (<[i := ext]> l)
  else l.

Definition sort_inner (l : list E) (i : nat) : list E :=
  fold_left (sort_step i) (seq i (length l - i)) l.

Definition table_reorganize (l : list E) : list E :=
  fold_left sort_inner (seq 0 (length l)) l.

End Ops.

(** ** What the tables mean *)

(** [ok] are the well-formed used extents, [lo] and [hi] the first track of an
    extent and the track behind its last. *)
Class ExtLaws {E : Type} (ops : ext_ops E) (ok : E → Prop) (lo hi : E → Z) : Prop := {
  ok_bounds e : ok e → 0 < lo e < hi e;
  ok_used e : ok e → e_unused ops e = false;
  zero_unused : e_unused ops (e_zero ops) = true;
  zero_not_ok : ¬ ok (e_zero ops);
  key_lo e : ok e → e_key ops e = lo e;
  key_zero : e_key ops (e_zero ops) = 0;
  precedes_iff e t : ok e → ok t → e_precedes ops e t = true ↔ hi e = lo t;
  succeeds_iff e t : ok e → ok t → e_succeeds ops e t = true ↔ hi t = lo e;
  join_pred_ok e t : ok e → ok t → hi e = lo t →
    ok (e_join_pred ops e t) ∧ lo (e_join_pred ops e t) = lo e ∧ hi (e_join_pred ops e t) = hi t;
  join_succ_ok e t : ok e → ok t → hi t = lo e →
    ok (e_join_succ ops e t) ∧ lo (e_join_succ ops e t) = lo t ∧ hi (e_join_succ ops e t) = hi e
}.

Section Meaning.
Context {E : Type} `{!Inhabited E} (ops : ext_ops E).
Context (ok : E → Prop) (lo hi : E → Z) `{!ExtLaws ops ok lo hi}.
Implicit Types (l : list E) (e f : E).

(** every slot is unused or holds a well-formed extent *)
Definition slots l : Prop := Forall (λ e, e = e_zero ops ∨ ok e) l.

(** [i] is a used slot *)
Definition used_at l (i : nat) e : Prop := l !! i = Some e ∧ ok e.

Definition disjoint e f : Prop := hi e <= lo f ∨ hi f <= lo e.
Definition separated e f : Prop := hi e < lo f ∨ hi f < lo e.

(** The invariant between operations: no two free extents overlap, and no two
    are adjacent (they would have been merged). *)
Definition table_wf l : Prop :=
  slots l ∧ ∀ i j e f, i ≠ j → used_at l i e → used_at l j f → separated e f.

(** the set of free tracks a table describes *)
Definition covers l (t : Z) : Prop := ∃ i e, used_at l i e ∧ lo e <= t < hi e.

Lemma separated_disjoint e f : separated e f → disjoint e f.
Proof. unfold separated, disjoint. lia. Qed.

Lemma slots_lookup l i e : slots l → l !! i = Some e → e = e_zero ops ∨ ok e.
Proof. intros H. by apply (Forall_lookup_1 _ _ _ _ H). Qed.

Lemma slots_total l i : slots l → (i < length l)%nat → l !!! i = e_zero ops ∨ ok (l !!! i).
Proof. intros H Hi. apply (Forall_lookup_total _ _ _ H Hi). Qed.

Lemma lookup_total_used l i e : l !! i = Some e → l !!! i = e.
Proof. apply list_lookup_total_correct. Qed.

Lemma slots_insert l i e : slots l → (e = e_zero ops ∨ ok e) → slots (<[i := e]> l).
Proof. intros. by apply Forall_insert. Qed.

Lemma used_insert l i e j f :
  (i < length l)%nat →
  used_at (<[i := e]> l) j f ↔ (j = i ∧ f = e ∧ ok e) ∨ (j ≠ i ∧ used_at l j f).
Proof.
  intros Hi. unfold used_at. destruct (decide (j = i)) as [->|Hne].
  - rewrite list_lookup_insert_eq by done. naive_solver.
  - rewrite list_lookup_insert_ne by done. naive_solver.
Qed.

Lemma used_lt l i e : used_at l i e → (i < length l)%nat.
Proof. intros [H _]. by apply lookup_lt_Some in H. Qed.

Lemma used_fun l i e f : used_at l i e → used_at l i f → e = f.
Proof. intros [H _] [H' _]. congruence. Qed.

(** number of used slots *)
Definition nused l : nat := length (filter (λ e, e_unused ops e = false) l).

Lemma nused_insert l i e old :
  l !! i = Some old →
  (nused (<[i := e]> l) + (if e_unused ops old then 0 else 1) =
   nused l + (if e_unused ops e then 0 else 1))%nat.
Proof.
  intros H. apply list_elem_of_split_length in H as (l1 & l2 & -> & ->).
  unfold nused. rewrite insert_app_r_alt, Nat.sub_diag by lia. simpl.
  rewrite !filter_app, !length_app. rewrite !filter_cons.
  destruct (e_unused ops old) eqn:E1, (e_unused ops e) eqn:E2;
    repeat case_decide; simpl; try congruence; lia.
Qed.

Lemma nused_le l : (nused l <= length l)%nat.
Proof. apply length_filter. Qed.

(** ** The merge loop *)

(** While the loop runs, only the extent at [tmp] may touch its neighbours. *)
Definition merging l tmp t : Prop :=
  slots l ∧ used_at l tmp t ∧
  ∀ i j e f, i ≠ j → used_at l i e → used_at l j f →
    disjoint e f ∧ (i ≠ tmp → j ≠ tmp → separated e f).

(** The slots before [i] have been compared with [tmp]. *)
Definition scanned l tmp t (i : nat) : Prop :=
  ∀ k e, (k < i)%nat → k ≠ tmp → used_at l k e → separated e t.

Lemma merging_done l tmp t :
  merging l tmp t → scanned l tmp t (length l) → table_wf l.
Proof.
  intros (Hs & Ht & Hm) Hsc. split; [done|]. intros i j e f Hne Hi Hj.
  destruct (decide (i = tmp)) as [->|Hit].
  - assert (e = t) as -> by (by eapply used_fun).
    destruct (Hsc j f) as [?|?]; [by eapply used_lt|done|done|by right|by left].
  - destruct (decide (j = tmp)) as [->|Hjt].
    + assert (f = t) as -> by (by eapply used_fun).
      apply (Hsc i e); [by eapply used_lt|done|done].
    + by apply (Hm i j).
Qed.

(** One merge: the neighbour at [i] becomes the join and [tmp] is cleared. *)
Section Step.
Context (l : list E) (tmp i : nat) (t e j : E).
Hypothesis Hm : merging l tmp t.
Hypothesis Hi : used_at l i e.
Hypothesis Hne : i ≠ tmp.
Hypothesis Hj : ok j.
Hypothesis Hcases : (hi e = lo t ∧ lo j = lo e ∧ hi j = hi t) ∨
                    (hi t = lo e ∧ lo j = lo t ∧ hi j = hi e).
Let l' := <[tmp := e_zero ops]> (<[i := j]> l).

Lemma step_used k f :
  used_at l' k f ↔ (k = i ∧ f = j) ∨ (k ≠ i ∧ k ≠ tmp ∧ used_at l k f).
Proof.
  destruct Hm as (_ & Ht & _). pose proof (used_lt _ _ _ Ht). pose proof (used_lt _ _ _ Hi).
  subst l'. rewrite used_insert by (rewrite length_insert; lia).
  rewrite used_insert by lia. pose proof zero_not_ok. naive_solver.
Qed.

Lemma step_nused : nused l = S (nused l').
Proof.
  destruct Hm as (_ & [Ht Htok] & _). destruct Hi as [Hie Heok].
  pose proof (nused_insert l i j e Hie) as H1.
  assert (Ht' : <[i:=j]> l !! tmp = Some t) by (rewrite list_lookup_insert_ne; done).
  pose proof (nused_insert (<[i:=j]> l) tmp (e_zero ops) t Ht') as H2.
  rewrite (ok_used e), (ok_used j) in H1 by done.
  rewrite (ok_used t), zero_unused in H2 by done. subst l'. lia.
Qed.

Lemma step_merging : merging l' i j.
Proof.
  pose proof Hm as (Hs & Ht & Hd). split.
  { apply slots_insert; [apply slots_insert; [done|by right]|by left]. }
  split; [apply step_used; by left|].
  assert (Hother : ∀ k f, k ≠ i → k ≠ tmp → used_at l k f → disjoint j f).
  { intros k f Hki Hkt Hk.
    destruct (Hd i k e f) as [H1 _]; try done. destruct (Hd tmp k t f) as [H2 _]; try done.
    pose proof (ok_bounds e (proj2 Hi)). pose proof (ok_bounds t (proj2 Ht)).
    pose proof (ok_bounds f (proj2 Hk)). unfold disjoint in *. lia. }
  intros k1 k2 f1 f2 Hk H1 H2. apply step_used in H1, H2.
  destruct H1 as [[-> ->]|(Ha1 & Hb1 & Hu1)], H2 as [[-> ->]|(Ha2 & Hb2 & Hu2)]; try done.
  - split; [by apply (Hother k2)|done].
  - split; [|done]. destruct (Hother k1 f1); [done..|by right|by left].
  - destruct (Hd k1 k2 f1 f2) as [H1 H2]; try done. split; [done|]. intros _ _. by apply H2.
Qed.

Lemma step_covers x : covers l' x ↔ covers l x.
Proof.
  pose proof Hm as (_ & Ht & _). unfold covers.
  pose proof (ok_bounds e (proj2 Hi)). pose proof (ok_bounds t (proj2 Ht)).
  split.
  - intros (k & f & Hk & Hx). apply step_used in Hk as [[-> ->]|(? & ? & Hu)]; [|by exists k, f].
    destruct (decide (lo e <= x < hi e)); [by exists i, e|]. exists tmp, t. split; [done|]. lia.
  - intros (k & f & Hk & Hx).
    destruct (decide (k = i)) as [->|Hki].
    { assert (f = e) as -> by (by eapply used_fun). exists i, j.
      split; [apply step_used; by left|]. lia. }
    destruct (decide (k = tmp)) as [->|Hkt].
    { assert (f = t) as -> by (by eapply used_fun). exists i, j.
      split; [apply step_used; by left|]. lia. }
    exists k, f. split; [apply step_used; by right|done].
Qed.

Lemma step_length : length l' = length l.
Proof. subst l'. by rewrite !length_insert. Qed.
End Step.

Lemma scanned_S_skip l tmp t i :
  scanned l tmp t i →
  (∀ e, i ≠ tmp → used_at l i e → separated e t) → scanned l tmp t (S i).
Proof.
  intros Hs Hi k e Hk Hne Hu. destruct (decide (k = i)) as [->|]; [by apply Hi|].
  apply (Hs k e); [lia|done|done].
Qed.

Lemma scanned_0 l tmp t : scanned l tmp t 0.
Proof. intros k e Hk. lia. Qed.

(** The loop ends within its fuel, in a well-formed table that describes the
    same tracks. *)
Lemma merge_loop_spec fuel l tmp t i :
  merging l tmp t → scanned l tmp t i →
  (nused l * S (length l) + (length l - i) < fuel)%nat →
  ∃ l', merge_loop ops fuel l tmp i = Done l' ∧ length l' = length l ∧ table_wf l' ∧
        ∀ x, covers l' x ↔ covers l x.
Proof.
  revert l tmp t i. induction fuel as [|fuel IH]; intros l tmp t i Hm Hsc Hf; [lia|].
  simpl. destruct (Nat.leb_spec (length l) i) as [Hge|Hlt].
  { exists l. split; [done|]. split; [done|]. split; [|done].
    eapply merging_done; [done|]. intros k e Hk. apply Hsc. lia. }
  pose proof Hm as (Hs & Ht & Hd).
  rewrite (lookup_total_used _ _ _ (proj1 Ht)).
  assert (Hskip : (∀ e, i ≠ tmp → used_at l i e → separated e t) →
    ∃ l', merge_loop ops fuel l tmp (S i) = Done l' ∧ length l' = length l ∧ table_wf l' ∧
        ∀ x, covers l' x ↔ covers l x).
  { intros H. apply (IH l tmp t); [done|by apply scanned_S_skip|lia]. }
  destruct (slots_total l i Hs Hlt) as [Hz|Hok].
  { rewrite Hz, zero_unused. apply Hskip. intros e _ [He Heok].
    apply lookup_total_used in He. rewrite He in Hz. subst e. by apply zero_not_ok in Heok. }
  set (e := l !!! i) in *. assert (Hu : used_at l i e) by (split; [by apply list_lookup_lookup_total_lt|done]).
  rewrite (ok_used e Hok). pose proof (ok_bounds t (proj2 Ht)) as Hbt.
  pose proof (ok_bounds e Hok) as Hbe.
  assert (Hmerge : ∀ j, ok j →
     (hi e = lo t ∧ lo j = lo e ∧ hi j = hi t) ∨ (hi t = lo e ∧ lo j = lo t ∧ hi j = hi e) →
     ∃ l', merge_loop ops fuel (<[tmp := e_zero ops]> (<[i := j]> l)) i 0 = Done l' ∧
       length l' = length l ∧ table_wf l' ∧ ∀ x, covers l' x ↔ covers l x).
  { intros j Hj Hc. assert (Hne : i ≠ tmp).
    { intros ->. assert (e = t) as Het by (by eapply used_fun). rewrite Het in *. lia. }
    pose proof (step_nused l tmp i t e j Hm Hu Hne Hj) as Hn.
    pose proof (step_length l tmp i j) as Hl.
    destruct (IH (<[tmp := e_zero ops]> (<[i := j]> l)) i j 0%nat) as (l' & H1 & H2 & H3 & H4).
    - by eapply step_merging.
    - apply scanned_0.
    - rewrite Hl. nia.
    - exists l'. split; [done|]. split; [by rewrite H2, Hl|]. split; [done|].
      intros x. rewrite H4. by eapply step_covers. }
  destruct (e_precedes ops e t) eqn:Ep.
  { apply precedes_iff in Ep; [|done|apply Ht].
    destruct (join_pred_ok e t Hok (proj2 Ht) Ep) as (? & ? & ?). apply Hmerge; [done|by left]. }
  destruct (e_succeeds ops e t) eqn:Es.
  { apply succeeds_iff in Es; [|done|apply Ht].
    destruct (join_succ_ok e t Hok (proj2 Ht) Es) as (? & ? & ?). apply Hmerge; [done|by right]. }
  apply Hskip. intros e' Hne Hu'. assert (e' = e) as -> by (by eapply used_fun).
  destruct (Hd i tmp e t) as [Hdis _]; try done.
  assert (hi e ≠ lo t). { intros Hx. apply precedes_iff in Hx; [congruence|done|apply Ht]. }
  assert (hi t ≠ lo e). { intros Hx. apply succeeds_iff in Hx; [congruence|done|apply Ht]. }
  unfold disjoint, separated in *. lia.
Qed.

(** ** Insertion *)

(** [overlaps] never fires on an unused slot or on an extent apart from the new
    one. *)
Definition overlap_sound (overlaps : E → bool) new : Prop :=
  overlaps (e_zero ops) = false ∧ ∀ e, ok e → disjoint e new → overlaps e = false.

Lemma find_slot_spec overlaps l n i :
  slots l → overlaps (e_zero ops) = false →
  (∀ k e, used_at l k e → overlaps e = false) →
  (i + n = length l)%nat →
  (∃ k, (i <= k < length l)%nat ∧ l !! k = Some (e_zero ops)) →
  ∃ k, find_slot ops overlaps l n i = Done k ∧ l !! k = Some (e_zero ops).
Proof.
  intros Hs Hz Ho. revert i. induction n as [|n IH]; intros i Hn (k & Hk & Hlk); [lia|].
  simpl. assert (Hi : (i < length l)%nat) by lia.
  pose proof (list_lookup_lookup_total_lt l i Hi) as Hl.
  destruct (slots_total l i Hs Hi) as [He|He].
  - rewrite He, Hz, zero_unused. exists i. split; [done|]. by rewrite Hl, He.
  - assert (Hu : used_at l i (l !!! i)) by done.
    rewrite (Ho _ _ Hu), (ok_used _ He). apply IH; [lia|].
    exists k. split; [|done]. split; [|lia].
    destruct (decide (k = i)) as [->|]; [|lia].
    exfalso. apply (zero_not_ok (ops := ops)). rewrite Hl in Hlk. by injection Hlk as <-.
Qed.

(** No unused slot: the operation is fatal. *)
Lemma find_slot_full overlaps l n i :
  (i + n = length l)%nat → (∀ k e, l !! k = Some e → e_unused ops e = false) →
  find_slot ops overlaps l n i = Exited 1.
Proof.
  revert i. induction n as [|n IH]; intros i Hn Hu; [done|]. simpl.
  rewrite (Hu i (l !!! i)) by (apply list_lookup_lookup_total_lt; lia).
  rewrite IH by (done || lia). by destruct (overlaps _).
Qed.

Lemma insert_new_used l k new j f :
  l !! k = Some (e_zero ops) → ok new →
  used_at (<[k := new]> l) j f ↔ (j = k ∧ f = new) ∨ (j ≠ k ∧ used_at l j f).
Proof.
  intros Hk Hn. rewrite used_insert by (by eapply lookup_lt_Some). naive_solver.
Qed.

Lemma insert_new_covers l k new x :
  l !! k = Some (e_zero ops) → ok new →
  covers (<[k := new]> l) x ↔ covers l x ∨ lo new <= x < hi new.
Proof.
  intros Hk Hn. unfold covers. split.
  - intros (j & f & Hu & Hx). apply insert_new_used in Hu as [[-> ->]|[? ?]]; [by right|..|done|done].
    left. by exists j, f.
  - intros [(j & f & Hu & Hx)|Hx].
    + exists j, f. split; [|done]. apply insert_new_used; [done..|]. right. split; [|done].
      intros ->. destruct Hu as [Hu Hok]. rewrite Hk in Hu. injection Hu as <-.
      by apply zero_not_ok in Hok.
    + exists k, new. split; [|done]. apply insert_new_used; [done..|]. by left.
Qed.

Lemma insert_new_merging l k new :
  table_wf l → l !! k = Some (e_zero ops) → ok new →
  (∀ j e, used_at l j e → disjoint e new) →
  merging (<[k := new]> l) k new.
Proof.
  intros [Hs Hw] Hk Hn Hd. split; [apply slots_insert; [done|by right]|].
  split; [by apply insert_new_used; [..|left]|].
  intros i j e f Hij Hi Hj. rewrite insert_new_used in Hi, Hj by done.
  destruct Hi as [[-> ->]|[Hik Hi]], Hj as [[-> ->]|[Hjk Hj]]; try done.
  - split; [|done]. destruct (Hd j f Hj); [by right|by left].
  - split; [|done]. by apply (Hd i e).
  - pose proof (Hw i j e f Hij Hi Hj) as H. split; [by apply separated_disjoint|done].
Qed.

(** Adding an extent that is apart from the free ones, to a table with an
    unused slot, succeeds and adds exactly its tracks. *)
Lemma table_add_spec overlaps new l :
  table_wf l → ok new → overlap_sound overlaps new →
  (∀ j e, used_at l j e → disjoint e new) →
  (∃ k, l !! k = Some (e_zero ops)) →
  ∃ l', table_add ops overlaps new l = Done l' ∧ length l' = length l ∧ table_wf l' ∧
        ∀ x, covers l' x ↔ covers l x ∨ lo new <= x < hi new.
Proof.
  intros Hw Hn Ho Hd (k0 & Hk0). unfold table_add.
  destruct (find_slot_spec overlaps l (length l) 0) as (k & -> & Hk);
    [apply Hw|apply (proj1 Ho)| |done|by exists k0; split; [split; [lia|by eapply lookup_lt_Some]|]|].
  { intros j e Hu. apply (proj2 Ho); [apply Hu|by eapply Hd]. }
  rewrite Done_bind. cbv zeta.
  destruct (merge_loop_spec (merge_fuel (<[k:=new]> l)) (<[k:=new]> l) k new 0)
    as (l' & Hl & Hlen & Hw' & Hc).
  - by apply insert_new_merging.
  - apply scanned_0.
  - unfold merge_fuel. pose proof (nused_le (<[k:=new]> l)). nia.
  - exists l'. rewrite Hl. split; [done|]. split; [by rewrite Hlen, length_insert|].
    split; [done|]. intros x. rewrite Hc. by apply insert_new_covers.
Qed.

(** An insertion without neighbours: the merge loop leaves the table alone. *)
Lemma merge_loop_noop fuel l tmp t i :
  slots l → l !!! tmp = t →
  (∀ k e, used_at l k e → e_precedes ops e t = false ∧ e_succeeds ops e t = false) →
  (length l - i < fuel)%nat →
  merge_loop ops fuel l tmp i = Done l.
Proof.
  intros Hs Ht Hn. revert i. induction fuel as [|fuel IH]; intros i Hf; [lia|]. simpl.
  destruct (Nat.leb_spec (length l) i) as [|Hlt]; [done|].
  rewrite Ht. destruct (slots_total l i Hs Hlt) as [Hz|Hok].
  { rewrite Hz, zero_unused. apply IH. lia. }
  rewrite (ok_used _ Hok).
  destruct (Hn i (l !!! i)) as [-> ->]; [split; [by apply list_lookup_lookup_total_lt|done]|].
  apply IH. lia.
Qed.

Lemma insert_new_wf l k new :
  table_wf l → l !! k = Some (e_zero ops) → ok new →
  (∀ j e, used_at l j e → separated e new) →
  table_wf (<[k := new]> l).
Proof.
  intros [Hs Hw] Hk Hn Hd. split; [apply slots_insert; [done|by right]|].
  intros i j e f Hij Hi Hj. rewrite insert_new_used in Hi, Hj by done.
  destruct Hi as [[-> ->]|[Hik Hi]], Hj as [[-> ->]|[Hjk Hj]]; try done.
  - destruct (Hd j f Hj); [by right|by left].
  - by apply (Hd i e).
  - by apply (Hw i j).
Qed.

(** ** Removal *)

(** Replacing a used extent by a part of it. *)
Lemma shrink_wf l i e e' :
  table_wf l → used_at l i e → ok e' → lo e <= lo e' → hi e' <= hi e →
  table_wf (<[i := e']> l).
Proof.
  intros [Hs Hw] Hi He' Hlo Hhi. pose proof (used_lt _ _ _ Hi) as Hlt.
  split; [apply slots_insert; [done|by right]|].
  intros j k f g Hjk Hj Hk. rewrite used_insert in Hj, Hk by done.
  destruct Hj as [(-> & -> & _)|[Hji Hj]], Hk as [(-> & -> & _)|[Hki Hk]]; try done.
  - destruct (Hw i k e g) as [?|?]; try done; unfold separated; lia.
  - destruct (Hw j i f e) as [?|?]; try done; unfold separated; lia.
  - by apply (Hw j k).
Qed.

Lemma clear_wf l i e : table_wf l → used_at l i e → table_wf (<[i := e_zero ops]> l).
Proof.
  intros [Hs Hw] Hi. pose proof (used_lt _ _ _ Hi) as Hlt.
  split; [apply slots_insert; [done|by left]|].
  intros j k f g Hjk Hj Hk. rewrite used_insert in Hj, Hk by done.
  pose proof zero_not_ok.
  destruct Hj as [(-> & -> & ?)|[Hji Hj]], Hk as [(-> & -> & ?)|[Hki Hk]]; try done.
  by apply (Hw j k).
Qed.

Lemma other_not_in l i e j f x :
  table_wf l → used_at l i e → used_at l j f → j ≠ i → lo f <= x < hi f → ¬ lo e <= x < hi e.
Proof.
  intros [_ Hw] Hi Hj Hne Hx Hx'. destruct (Hw j i f e) as [?|?]; try done; lia.
Qed.

Lemma shrink_covers l i e e' x :
  table_wf l → used_at l i e → ok e' →
  covers (<[i := e']> l) x ↔ (covers l x ∧ ¬ lo e <= x < hi e) ∨ lo e' <= x < hi e'.
Proof.
  intros Hw Hi He'. pose proof (used_lt _ _ _ Hi) as Hlt. unfold covers. split.
  - intros (j & f & Hj & Hx). rewrite used_insert in Hj by done.
    destruct Hj as [(-> & -> & _)|[Hne Hj]]; [by right|]. left.
    split; [by exists j, f|]. by eapply other_not_in.
  - intros [[(j & f & Hj & Hx) Hn]|Hx].
    + exists j, f. split; [|done]. rewrite used_insert by done. right. split; [|done].
      intros ->. assert (f = e) as -> by (by eapply used_fun). done.
    + exists i, e'. split; [|done]. rewrite used_insert by done. by left.
Qed.

Lemma clear_covers l i e x :
  table_wf l → used_at l i e →
  covers (<[i := e_zero ops]> l) x ↔ covers l x ∧ ¬ lo e <= x < hi e.
Proof.
  intros Hw Hi. pose proof (used_lt _ _ _ Hi) as Hlt. pose proof zero_not_ok. unfold covers. split.
  - intros (j & f & Hj & Hx). rewrite used_insert in Hj by done.
    destruct Hj as [(-> & -> & ?)|[Hne Hj]]; [done|].
    split; [by exists j, f|]. by eapply other_not_in.
  - intros [(j & f & Hj & Hx) Hn]. exists j, f. split; [|done].
    rewrite used_insert by done. right. split; [|done].
    intros ->. assert (f = e) as -> by (by eapply used_fun). done.
Qed.

(** ** Reordering *)

(** used extents in ascending order, unused slots last *)
Definition slot_le e f : Prop :=
  e_key ops f = 0 ∨ (0 < e_key ops e ∧ e_key ops e <= e_key ops f).

Definition table_sorted l : Prop :=
  ∀ p q, (p < q < length l)%nat → slot_le (l !!! p) (l !!! q).

Definition keys_ok l : Prop := Forall (λ e, 0 <= e_key ops e) l.

Lemma slots_keys l : slots l → keys_ok l.
Proof.
  intros H. apply (Forall_impl _ _ _ H). intros e [->|He]; [rewrite key_zero; lia|].
  rewrite key_lo by done. pose proof (ok_bounds e He). lia.
Qed.

Lemma slot_le_trans e f g : slot_le e f → slot_le f g → slot_le e g.
Proof. unfold slot_le. lia. Qed.

Lemma sort_step_cond (last ext : E) :
  0 <= e_key ops last → 0 <= e_key ops ext →
  (((0 <? e_key ops ext) && (e_key ops last =? 0)) ||
   ((0 <? e_key ops ext) && (e_key ops ext <? e_key ops last))) = true ∧ slot_le ext last ∧ ext ≠ last ∨
  (((0 <? e_key ops ext) && (e_key ops last =? 0)) ||
   ((0 <? e_key ops ext) && (e_key ops ext <? e_key ops last))) = false ∧ slot_le last ext.
Proof.
  intros Hl He. unfold slot_le. destruct (_ || _) eqn:C.
  - left. split; [done|]. b2p. destruct C as [C|C]; b2p; (split; [lia|]); intros ->; lia.
  - right. split; [done|]. b2p. destruct H as [H|H]; b2p; [|destruct H0; b2p]; lia.
Qed.

(** The places from [i] on hold nothing smaller than the places before, and
    place [i] nothing larger than the places up to [m]. *)
Definition sort_inv (i m : nat) l : Prop :=
  (∀ p q, (p < i)%nat → (p <= q < length l)%nat → slot_le (l !!! p) (l !!! q)) ∧
  (∀ k, (i <= k < m)%nat → slot_le (l !!! i) (l !!! k)).

Lemma slot_le_refl e : 0 <= e_key ops e → slot_le e e.
Proof. unfold slot_le. lia. Qed.

Lemma lookup_total_swap l i j k (x y : E) :
  (i < length l)%nat → (j < length l)%nat →
  <[j := x]> (<[i := y]> l) !!! k =
    if decide (k = j) then x else if decide (k = i) then y else l !!! k.
Proof.
  intros Hi Hj. destruct (decide (k = j)) as [->|Hkj].
  { apply list_lookup_total_insert_eq. by rewrite length_insert. }
  rewrite list_lookup_total_insert_ne by done. destruct (decide (k = i)) as [->|Hki].
  { by apply list_lookup_total_insert_eq. }
  by apply list_lookup_total_insert_ne.
Qed.

Lemma sort_step_inv i l j :
  keys_ok l → (i <= j < length l)%nat → sort_inv i j l →
  sort_step ops i l j ≡ₚ l ∧ length (sort_step ops i l j) = length l ∧
  sort_inv i (S j) (sort_step ops i l j).
Proof.
  intros Hk Hj [Hq Hp]. unfold sort_step. cbv zeta.
  assert (Hkey : ∀ k, (k < length l)%nat → 0 <= e_key ops (l !!! k)).
  { intros k Hlt. apply (Forall_lookup_total _ _ _ Hk Hlt). }
  destruct (sort_step_cond (l !!! i) (l !!! j)) as [(-> & Hle & Hne)|(-> & Hle)];
    [apply Hkey; lia|apply Hkey; lia|..].
  - assert (i ≠ j) by (intros ->; done).
    split; [apply Permutation_insert_swap; apply list_lookup_lookup_total_lt; lia|].
    split; [by rewrite !length_insert|]. split.
    + rewrite !length_insert. intros p q Hpi Hpq. rewrite !lookup_total_swap by lia.
      repeat case_decide; subst; try lia; apply Hq; lia.
    + intros k Hki. rewrite !lookup_total_swap by lia.
      repeat case_decide; subst; try lia; try done.
      * apply slot_le_refl, Hkey. lia.
      * eapply slot_le_trans; [done|]. apply Hp. lia.
  - split; [done|]. split; [done|]. split; [done|]. intros k Hki.
    destruct (decide (k = j)) as [->|]; [done|]. apply Hp. lia.
Qed.

Lemma keys_ok_perm l l' : l' ≡ₚ l → keys_ok l → keys_ok l'.
Proof. intros Hp. unfold keys_ok. by rewrite Hp. Qed.

Lemma sort_inner_loop n i j l :
  keys_ok l → (i <= j)%nat → (j + n = length l)%nat → sort_inv i j l →
  let l' := fold_left (sort_step ops i) (seq j n) l in
  l' ≡ₚ l ∧ length l' = length l ∧ sort_inv i (length l) l'.
Proof.
  revert j l. induction n as [|n IH]; intros j l Hk Hij Hn Hi; simpl.
  { replace (length l) with j by lia. done. }
  destruct (sort_step_inv i l j Hk ltac:(lia) Hi) as (Hp & Hlen & Hi').
  destruct (IH (S j) (sort_step ops i l j)) as (Hp' & Hlen' & Hi'');
    [by eapply keys_ok_perm|lia|lia|done|].
  rewrite Hlen in Hlen', Hi''. split; [by rewrite Hp'|]. done.
Qed.

Lemma sort_outer_loop n i l :
  keys_ok l → (i + n = length l)%nat → sort_inv i i l →
  let l' := fold_left (sort_inner ops) (seq i n) l in
  l' ≡ₚ l ∧ length l' = length l ∧ sort_inv (length l) (length l) l'.
Proof.
  revert i l. induction n as [|n IH]; intros i l Hk Hn Hi; simpl.
  { replace (length l) with i by lia. done. }
  destruct (sort_inner_loop (length l - i) i i l Hk ltac:(lia) ltac:(lia) Hi)
    as (Hp & Hlen & Hq & Hr).
  fold (sort_inner ops l i) in Hp, Hlen, Hq, Hr.
  destruct (IH (S i) (sort_inner ops l i)) as (Hp' & Hlen' & Hi').
  - by eapply keys_ok_perm.
  - lia.
  - split; [|intros; lia]. intros p q Hpi Hpq.
    destruct (decide (p = i)) as [->|]; [apply Hr; lia|apply Hq; lia].
  - rewrite Hlen in Hlen', Hi'. split; [by rewrite Hp'|]. done.
Qed.

(** The reordering is a permutation into ascending order with the unused slots
    last. *)
Lemma table_reorganize_spec l :
  keys_ok l →
  table_reorganize ops l ≡ₚ l ∧ table_sorted (table_reorganize ops l).
Proof.
  intros Hk. destruct (sort_outer_loop (length l) 0 l Hk) as (Hp & Hlen & Hq & _);
    [lia|split; intros; lia|].
  split; [done|]. unfold table_sorted, table_reorganize. rewrite Hlen.
  intros p q Hpq. apply Hq; lia.
Qed.

(** Well-formedness and meaning do not depend on the order of the slots. *)
Lemma covers_perm l l' x : l ≡ₚ l' → covers l x → covers l' x.
Proof.
  intros Hp (i & e & [Hi Hok] & Hx). apply list_elem_of_lookup_2 in Hi.
  rewrite Hp in Hi. apply list_elem_of_lookup_1 in Hi as [j Hj]. by exists j, e.
Qed.

#[export] Instance covers_proper : Proper ((≡ₚ) ==> eq ==> iff) covers.
Proof. intros l l' Hp x ? <-. split; by apply covers_perm. Qed.

#[export] Instance table_wf_proper : Proper ((≡ₚ) ==> iff) table_wf.
Proof.
  assert (H : ∀ l l', l ≡ₚ l' → table_wf l → table_wf l').
  { intros l l' Hp [Hs Hw]. split; [by unfold slots; rewrite <- Hp|].
    symmetry in Hp. apply Permutation_inj in Hp as (_ & g & Hg & Hl).
    intros i j e f Hij [Hi Hie] [Hj Hje]. rewrite Hl in Hi, Hj.
    apply (Hw (g i) (g j)); [|done|done]. intros Heq. by apply Hg in Heq. }
  intros l l' Hp. split; by apply H.
Qed.

Lemma table_reorganize_wf l :
  table_wf l → table_wf (table_reorganize ops l) ∧
  (∀ x, covers (table_reorganize ops l) x ↔ covers l x) ∧
  length (table_reorganize ops l) = length l ∧ table_sorted (table_reorganize ops l).
Proof.
  intros Hw. destruct (table_reorganize_spec l) as [Hp Hs]; [apply slots_keys, Hw|].
  split; [by rewrite Hp|]. split; [intros x; by rewrite Hp|].
  split; [by apply Permutation_length|done].
Qed.

End Meaning.
End Extents.
