(* ===== verification/Fmt7.v ===== *)
(** The format 7 free-space label (src/libvtoc/vtoc.c): adding and removing an
    extent and reordering the table, for volumes of more than 64K tracks. *)
From S2P Require Import Prelude Cchh Codec Labels LabelOps Extents.
Import Extents.

#[export] Instance ds7ext_inhabited : Inhabited ds7ext_t := populate zero_ds7ext.

Module Fmt7.

(** [if (i < 5) ext = &f7->DS7EXTNT[i]; else ext = &f7->DS7ADEXT[i-5];] *)
Definition f7_ext (f7 : format7_label_t) (i : nat) : ds7ext_t :=
  if (i <? 5)%nat then DS7EXTNT f7 !!! i else DS7ADEXT f7 !!! (i - 5)%nat.

(** The loops see the two arrays as one table of sixteen extents. *)
Definition f7_exts (f7 : format7_label_t) : list ds7ext_t := DS7EXTNT f7 ++ DS7ADEXT f7.

Definition f7_with (f7 : format7_label_t) (l : list ds7ext_t) : format7_label_t :=
  {| DS7KEYID := DS7KEYID f7; DS7EXTNT := take 5 l; DS7FMTID := DS7FMTID f7;
     DS7ADEXT := drop 5 l; f7_res1 := f7_res1 f7; DS7PTRDS := DS7PTRDS f7 |}.

Definition f7_ops : ext_ops ds7ext_t :=
  {| e_zero := zero_ds7ext;
     e_unused ext := u32 (e7_a ext + e7_b ext) =? 0;
     e_key := e7_a;
     e_precedes ext tmp := e7_b ext =? e7_a tmp;
     e_join_pred ext tmp := Ds7ext (e7_a ext) (e7_b tmp);
     e_succeeds ext tmp := e7_a ext =? e7_b tmp;
     e_join_succ ext tmp := Ds7ext (e7_a tmp) (e7_b ext) |}.

Definition f7_overlaps (a b : Z) (ext : ds7ext_t) : bool :=
  ((a <? e7_a ext) && (e7_a ext <? b) && (b <? e7_b ext)) ||
  ((e7_a ext <? a) && (a <? e7_b ext) && (e7_b ext <? b)).

Definition f7_table_add (a b : Z) (l : list ds7ext_t) : outcome (list ds7ext_t) :=
  table_add f7_ops (f7_overlaps a b) (Ds7ext a b) l.

Definition vtoc_update_format7_label_add (f7 : format7_label_t) (a b : Z)
    : outcome format7_label_t :=
  l ← f7_table_add a b (f7_exts f7);
  Done (f7_with f7 l).

(** [for (i = 0; i < 16; i++)] of the removal *)
Fixpoint f7_del_loop (a b : Z) (l : list ds7ext_t) (n i : nat) : outcome (list ds7ext_t) :=
  match n with
  | O => Exited 1
  | S n =>
      let ext := l !!! i in
      if (a =? e7_a ext) && (b =? e7_b ext) then
        (* fills up whole free space gap *)
        Done (<[i := zero_ds7ext]> l)
      else if (a =? e7_a ext) && (b <? e7_b ext) then
        (* left-bounded in free space gap *)
        Done (<[i := Ds7ext b (e7_b ext)]> l)
      else if (e7_a ext <? a) && (b =? e7_b ext) then
        (* right-bounded in free space gap *)
        Done (<[i := Ds7ext (e7_a ext) a]> l)
      else if (e7_a ext <? a) && (b <? e7_b ext) then
        (* partition divides free space into 2 pieces: the second one is added
           while [ext] still has its old end, then [ext] is cut *)
        l ← f7_table_add b (e7_b ext) l;
        Done (<[i := Ds7ext (e7_a (l !!! i)) a]> l)
      else if ((a <? e7_a ext) && (e7_a ext <? b)) || ((a <? e7_b ext) && (e7_b ext <? b)) then
        Exited 1
      else f7_del_loop a b l n (S i)
  end.

Definition vtoc_update_format7_label_del (f7 : format7_label_t) (a b : Z)
    : outcome format7_label_t :=
  l ← f7_del_loop a b (f7_exts f7) 16 0;
  Done (f7_with f7 l).

Definition vtoc_reorganize_FMT7_extents (f7 : format7_label_t) : format7_label_t :=
  f7_with f7 (table_reorganize f7_ops (f7_exts f7)).

(** ** The extents as intervals of tracks *)

(** A used extent; the bound keeps the 32-bit sum of the unused test from
    wrapping around. *)
Definition f7_ok (e : ds7ext_t) : Prop := 0 < e7_a e < e7_b e ∧ e7_b e < 2147483648.

#[export] Instance f7_laws : ExtLaws f7_ops f7_ok e7_a e7_b.
Proof.
  split; unfold f7_ok; simpl; try done.
  - intros e H. lia.
  - intros e H. apply Z.eqb_neq. rewrite u32_small; lia.
  - intros []. lia.
  - intros e t _ _. apply Z.eqb_eq.
  - intros e t _ _. rewrite Z.eqb_eq. lia.
  - intros e t ? ? ?. lia.
  - intros e t ? ? ?. lia.
Qed.

Notation f7_wf := (table_wf f7_ops f7_ok e7_a e7_b).
Notation f7_covers := (covers f7_ok e7_a e7_b).

(** The pointer selection of the loops is the lookup in the joined table. *)
Lemma f7_ext_lookup f7 i :
  length (DS7EXTNT f7) = 5%nat → f7_ext f7 i = f7_exts f7 !!! i.
Proof.
  intros H. unfold f7_ext, f7_exts. destruct (Nat.ltb_spec i 5).
  - by rewrite lookup_total_app_l by lia.
  - by rewrite lookup_total_app_r, H by lia.
Qed.

Lemma f7_exts_with f7 l : f7_exts (f7_with f7 l) = l.
Proof. apply take_drop. Qed.

Lemma f7_overlaps_sound a b :
  0 < a < b → b < 2147483648 →
  overlap_sound f7_ops f7_ok e7_a e7_b (f7_overlaps a b) (Ds7ext a b).
Proof.
  intros Ha Hb. unfold overlap_sound, f7_overlaps, disjoint, f7_ok. split.
  - apply orb_false_iff. simpl. split; apply not_true_iff_false; intros H; b2p; lia.
  - simpl. intros e He Hd. apply orb_false_iff.
    split; apply not_true_iff_false; intros H; b2p; lia.
Qed.

(** ** Adding *)

Lemma f7_table_add_spec a b l :
  f7_wf l → 0 < a < b → b < 2147483648 →
  (∀ x, a <= x < b → ¬ f7_covers l x) →
  (∃ k, l !! k = Some zero_ds7ext) →
  ∃ l', f7_table_add a b l = Done l' ∧ length l' = length l ∧ f7_wf l' ∧
        ∀ x, f7_covers l' x ↔ f7_covers l x ∨ a <= x < b.
Proof.
  intros Hw Ha Hb Hd Hk.
  apply (table_add_spec f7_ops f7_ok e7_a e7_b (f7_overlaps a b) (Ds7ext a b)); try done.
  - by apply f7_overlaps_sound.
  - intros j e He. unfold disjoint. simpl.
    pose proof (ok_bounds (ops := f7_ops) e (proj2 He)).
    destruct (decide (e7_b e <= a ∨ b <= e7_a e)) as [|Hn]; [done|exfalso].
    apply (Hd (Z.max a (e7_a e))); [lia|]. exists j, e. split; [done|]. lia.
Qed.

(** ** Removing *)

(** Extents other than the one that holds the range are passed over. *)
Lemma f7_del_skip a b l n i e :
  (i < length l)%nat → l !!! i = e → 0 < a < b →
  (e = zero_ds7ext ∨ (f7_ok e ∧ (e7_b e <= a ∨ b <= e7_a e))) →
  f7_del_loop a b l (S n) i = f7_del_loop a b l n (S i).
Proof.
  intros Hi He Ha Hc. simpl. rewrite He.
  assert (C : e7_a e = 0 ∧ e7_b e = 0 ∨ (0 < e7_a e < e7_b e ∧ (e7_b e <= a ∨ b <= e7_a e))).
  { destruct Hc as [->|[Hok Hd]]; [by left|right; split; [apply Hok|done]]. }
  repeat match goal with
  | |- (if ?c then _ else _) = _ => destruct c eqn:?; b2p; [exfalso; lia|]
  end. done.
Qed.

(** the outcome of the removal at the extent [e] in slot [m] *)
Definition f7_del_at (a b : Z) (l : list ds7ext_t) (m : nat) (e : ds7ext_t)
    : outcome (list ds7ext_t) :=
  if (a =? e7_a e) && (b =? e7_b e) then Done (<[m := zero_ds7ext]> l)
  else if a =? e7_a e then Done (<[m := Ds7ext b (e7_b e)]> l)
  else if b =? e7_b e then Done (<[m := Ds7ext (e7_a e) a]> l)
  else l ← f7_table_add b (e7_b e) l; Done (<[m := Ds7ext (e7_a (l !!! m)) a]> l).

Lemma f7_del_hit a b l n m e :
  l !!! m = e → e7_a e <= a → a < b → b <= e7_b e →
  f7_del_loop a b l (S n) m = f7_del_at a b l m e.
Proof.
  intros He Ha Hab Hb. simpl. unfold f7_del_at. rewrite He.
  destruct (Z.eqb_spec a (e7_a e)); destruct (Z.eqb_spec b (e7_b e)); simpl; try done.
  - destruct (Z.ltb_spec b (e7_b e)); [done|lia].
  - destruct (Z.ltb_spec (e7_a e) a); [done|lia].
  - destruct (Z.ltb_spec (e7_a e) a); [|lia]. destruct (Z.ltb_spec b (e7_b e)); [done|lia].
Qed.

Lemma f7_del_reach a b l n i m e :
  f7_wf l → used_at f7_ok l m e → 0 < a < b → e7_a e <= a → b <= e7_b e →
  (i <= m)%nat → (m < i + n)%nat →
  f7_del_loop a b l n i = f7_del_at a b l m e.
Proof.
  intros Hw Hm Hab Ha Hb. revert i. induction n as [|n IH]; intros i Hi Hn; [lia|].
  pose proof (used_lt _ _ _ _ Hm) as Hlt.
  destruct (decide (i = m)) as [->|Hne].
  { apply f7_del_hit; try done; [|lia]. apply lookup_total_used, Hm. }
  rewrite (f7_del_skip a b l n i (l !!! i)); [apply IH; lia|lia|done|done|].
  destruct (slots_total f7_ops f7_ok l i (proj1 Hw)) as [Hz|Hok]; [lia|by left|right].
  split; [done|]. destruct (proj2 Hw i m (l !!! i) e) as [?|?]; try done; try lia.
  split; [|done]. apply list_lookup_lookup_total_lt. lia.
Qed.

(** Splitting an extent: the second piece is inserted next to the uncut first
    one, which no test of the merge loop confuses with a neighbour. *)
Lemma f7_add_second_piece a b l m e :
  f7_wf l → used_at f7_ok l m e → e7_a e < a → a < b → b < e7_b e →
  (∃ k, l !! k = Some zero_ds7ext) →
  ∃ k, l !! k = Some zero_ds7ext ∧
    f7_table_add b (e7_b e) l = Done (<[k := Ds7ext b (e7_b e)]> l).
Proof.
  intros Hw Hm Ha Hab Hb (k0 & Hk0). pose proof (proj2 Hm) as [Hok Hbd].
  assert (Hsep : ∀ j f, j ≠ m → used_at f7_ok l j f → e7_b f < e7_a e ∨ e7_b e < e7_a f).
  { intros j f Hj Hf. by apply (proj2 Hw j m). }
  unfold f7_table_add, table_add.
  destruct (find_slot_spec f7_ops f7_ok e7_a e7_b (f7_overlaps b (e7_b e)) l (length l) 0)
    as (k & -> & Hk);
    [apply Hw| | |done|by exists k0; split; [split; [lia|by eapply lookup_lt_Some]|]|].
  { by apply (proj1 (f7_overlaps_sound b (e7_b e) ltac:(lia) ltac:(lia))). }
  { intros j f Hf. unfold f7_overlaps. apply orb_false_iff.
    destruct (decide (j = m)) as [->|Hj].
    - assert (f = e) as -> by (by eapply used_fun).
      split; apply not_true_iff_false; intros Ht; b2p; lia.
    - specialize (Hsep j f Hj Hf). pose proof (proj2 Hf) as [? ?].
      split; apply not_true_iff_false; intros Ht; b2p; lia. }
  exists k. split; [done|]. rewrite Done_bind. cbv zeta.
  assert (Hkl : (k < length l)%nat) by (by eapply lookup_lt_Some).
  apply (merge_loop_noop f7_ops f7_ok e7_a e7_b _ _ _ (Ds7ext b (e7_b e))).
  - apply slots_insert; [apply Hw|right]. unfold f7_ok; simpl; lia.
  - by apply list_lookup_total_insert_eq.
  - intros j f Hf. rewrite used_insert in Hf by done. simpl. rewrite !Z.eqb_neq.
    destruct Hf as [(-> & -> & _)|[Hjk Hf]]; [simpl; lia|].
    destruct (decide (j = m)) as [->|Hj].
    + assert (f = e) as -> by (by eapply used_fun). lia.
    + specialize (Hsep j f Hj Hf). pose proof (proj2 Hf) as [? ?]. lia.
  - unfold merge_fuel. lia.
Qed.

(** What a removal leaves: the tracks that were free and are not in the range. *)
Definition f7_removed (a b : Z) (l l' : list ds7ext_t) : Prop :=
  length l' = length l ∧ f7_wf l' ∧ ∀ x, f7_covers l' x ↔ f7_covers l x ∧ ¬ a <= x < b.

Lemma f7_del_split a b l m e :
  f7_wf l → used_at f7_ok l m e → e7_a e < a → a < b → b < e7_b e →
  (∃ k, l !! k = Some zero_ds7ext) →
  ∃ l', (l ← f7_table_add b (e7_b e) l; Done (<[m := Ds7ext (e7_a (l !!! m)) a]> l)) = Done l' ∧
        f7_removed a b l l'.
Proof.
  intros Hw Hm Ha Hab Hb Hk0. pose proof (proj2 Hm) as [Hok Hbd].
  destruct (f7_add_second_piece a b l m e Hw Hm Ha Hab Hb Hk0) as (k & Hk & ->).
  assert (Hkm : k ≠ m).
  { intros ->. destruct Hm as [Hm ?]. rewrite Hk in Hm. injection Hm as <-. simpl in *. lia. }
  rewrite Done_bind. eexists. split; [done|].
  rewrite list_lookup_total_insert_ne by done. rewrite (lookup_total_used _ _ _ (proj1 Hm)).
  rewrite list_insert_insert_ne by congruence.
  set (e' := Ds7ext (e7_a e) a). set (l1 := <[m := e']> l).
  assert (He' : f7_ok e') by (unfold f7_ok; simpl; lia).
  assert (Hw1 : f7_wf l1) by (eapply shrink_wf; try done; simpl; lia).
  assert (Hk1 : l1 !! k = Some zero_ds7ext) by (subst l1; by rewrite list_lookup_insert_ne).
  assert (Hnew : f7_ok (Ds7ext b (e7_b e))) by (unfold f7_ok; simpl; lia).
  pose proof (used_lt _ _ _ _ Hm) as Hlt.
  split; [subst l1; by rewrite !length_insert|]. split.
  - apply (insert_new_wf f7_ops f7_ok e7_a e7_b); try done. intros j f Hf.
    subst l1. rewrite used_insert in Hf by done.
    destruct Hf as [(-> & -> & _)|[Hj Hf]]; [left; simpl; lia|].
    destruct (proj2 Hw j m f e) as [?|?]; try done; [left|right]; simpl; lia.
  - intros x. rewrite (insert_new_covers f7_ops f7_ok e7_a e7_b) by done.
    subst l1. rewrite (shrink_covers f7_ops f7_ok e7_a e7_b l m e) by done. simpl.
    split.
    + intros [[[Hc Hn]|Hx]|Hx]; [split; [done|lia]|..]; (split; [exists m, e; split; [done|]|]; lia).
    + intros [Hc Hn]. destruct (decide (e7_a e <= x < e7_b e)); [|by left; left].
      destruct (decide (x < a)); [left; right; lia|right; lia].
Qed.

(** Removing a range that lies in one free extent (with an unused slot at hand
    when the range splits the extent) succeeds and removes exactly its tracks. *)
Lemma f7_del_spec a b l m e :
  f7_wf l → used_at f7_ok l m e → 0 < a < b → e7_a e <= a → b <= e7_b e →
  (e7_a e < a → b < e7_b e → ∃ k, l !! k = Some zero_ds7ext) →
  ∃ l', f7_del_loop a b l (length l) 0 = Done l' ∧ f7_removed a b l l'.
Proof.
  intros Hw Hm Hab Ha Hb Hk. pose proof (used_lt _ _ _ _ Hm) as Hlt.
  rewrite (f7_del_reach a b l (length l) 0 m e) by (done || lia). unfold f7_del_at.
  pose proof (proj2 Hm) as [Hok Hbd].
  destruct (Z.eqb_spec a (e7_a e)) as [->|Hne]; simpl.
  - destruct (Z.eqb_spec b (e7_b e)) as [->|Hnb]; simpl.
    + eexists. split; [done|]. split; [by rewrite length_insert|].
      split; [exact (clear_wf f7_ops f7_ok e7_a e7_b l m e Hw Hm)|].
      intros x. exact (clear_covers f7_ops f7_ok e7_a e7_b l m e x Hw Hm).
    + eexists. split; [done|]. split; [by rewrite length_insert|].
      assert (f7_ok (Ds7ext b (e7_b e))) by (unfold f7_ok; simpl; lia).
      split; [apply (shrink_wf f7_ops f7_ok e7_a e7_b l m e); try done; simpl; lia|].
      intros x. rewrite (shrink_covers f7_ops f7_ok e7_a e7_b l m e) by done. simpl.
      split; [intros [[? ?]|?]; [split; [done|lia]|split; [exists m, e; split; [done|]|]; lia]|].
      intros [Hc ?]. destruct (decide (e7_a e <= x < e7_b e)); [right; lia|by left].
  - destruct (Z.eqb_spec b (e7_b e)) as [->|Hnb]; [|apply f7_del_split; try done; [lia..|apply Hk; lia]].
    eexists. split; [done|]. split; [by rewrite length_insert|].
    assert (f7_ok (Ds7ext (e7_a e) a)) by (unfold f7_ok; simpl; lia).
    split; [apply (shrink_wf f7_ops f7_ok e7_a e7_b l m e); try done; simpl; lia|].
    intros x. rewrite (shrink_covers f7_ops f7_ok e7_a e7_b l m e) by done. simpl.
    split; [intros [[? ?]|?]; [split; [done|lia]|split; [exists m, e; split; [done|]|]; lia]|].
    intros [Hc ?]. destruct (decide (e7_a e <= x < e7_b e)); [right; lia|by left].
Qed.

(** A range that no free extent holds is refused. *)
Lemma f7_del_refuses a b l n i :
  f7_wf l → 0 < a < b → (i + n = length l)%nat →
  (∀ m e, used_at f7_ok l m e → ¬ (e7_a e <= a ∧ b <= e7_b e)) →
  f7_del_loop a b l n i = Exited 1.
Proof.
  intros Hw Hab Hn Hno. revert i Hn. induction n as [|n IH]; intros i Hn; [done|]. simpl.
  assert (Hi : (i < length l)%nat) by lia.
  assert (Hc : l !!! i = zero_ds7ext ∨ ¬ (e7_a (l !!! i) <= a ∧ b <= e7_b (l !!! i))).
  { destruct (slots_total f7_ops f7_ok l i (proj1 Hw) Hi) as [Hz|Hok]; [by left|right].
    apply (Hno i). split; [by apply list_lookup_lookup_total_lt|done]. }
  assert (Hz : l !!! i = zero_ds7ext → e7_a (l !!! i) = 0 ∧ e7_b (l !!! i) = 0) by (by intros ->).
  repeat match goal with
  | |- (if ?c then _ else _) = _ =>
      destruct c eqn:?; b2p; try (exfalso; destruct Hc as [Hc|Hc]; [apply Hz in Hc|]; lia)
  end; [done|]. apply IH. lia.
Qed.

End Fmt7.
