(* ===== verification/Fmt5.v ===== *)
(** The format 5 free-space label (src/libvtoc/vtoc.c): adding and removing an
    extent and reordering the table, for volumes of up to 64K tracks.  An extent
    is stored as first track, whole cylinders and remaining tracks, so every
    update converts between track counts and the cylinder/track pair. *)
From S2P Require Import Prelude Cchh Codec Labels LabelOps Extents.
Import Extents.

#[export] Instance ds5ext_inhabited : Inhabited ds5ext_t := populate zero_ds5ext.

Module Fmt5.

(** [i == 0]: DS5AVEXT, [0 < i < 8]: DS5EXTAV[i-1], else DS5MAVET[i-8] *)
Definition f5_ext (f5 : format5_label_t) (i : nat) : ds5ext_t :=
  if (i =? 0)%nat then DS5AVEXT f5
  else if (i <? 8)%nat then DS5EXTAV f5 !!! (i - 1)%nat
  else DS5MAVET f5 !!! (i - 8)%nat.

(** The loops see the three members as one table of 26 extents. *)
Definition f5_exts (f5 : format5_label_t) : list ds5ext_t :=
  DS5AVEXT f5 :: DS5EXTAV f5 ++ DS5MAVET f5.

Definition f5_with (f5 : format5_label_t) (l : list ds5ext_t) : format5_label_t :=
  {| DS5KEYID := DS5KEYID f5; DS5AVEXT := l !!! 0%nat; DS5EXTAV := take 7 (drop 1 l);
     DS5FMTID := DS5FMTID f5; DS5MAVET := drop 8 l; DS5PTRDS := DS5PTRDS f5 |}.

(** [ext->t + ext->fc*trk + ext->ft] *)
Definition f5_end (trk : Z) (e : ds5ext_t) : Z := e5_t e + e5_fc e * trk + e5_ft e.

Definition f5_ops (trk : Z) : ext_ops ds5ext_t :=
  {| e_zero := zero_ds5ext;
     e_unused ext := e5_t ext + e5_fc ext + e5_ft ext =? 0;
     e_key := e5_t;
     e_precedes ext tmp := f5_end trk ext =? e5_t tmp;
     e_join_pred ext tmp :=
       Ds5ext (e5_t ext)
         (u16 (e5_fc ext + (e5_fc tmp + (e5_ft tmp + e5_ft ext) / trk)))
         (u8 ((e5_ft tmp + e5_ft ext) mod trk));
     e_succeeds ext tmp := f5_end trk tmp =? e5_t ext;
     e_join_succ ext tmp :=
       Ds5ext (e5_t tmp)
         (u16 (e5_fc ext + (e5_fc tmp + (e5_ft tmp + e5_ft ext) / trk)))
         (u8 ((e5_ft tmp + e5_ft ext) mod trk)) |}.

Definition f5_overlaps (trk a b c : Z) (ext : ds5ext_t) : bool :=
  ((a <? e5_t ext) && (e5_t ext <? a + b * trk + c)) ||
  ((e5_t ext <? a) && (a <? f5_end trk ext)).

Definition f5_table_add (trk a b c : Z) (l : list ds5ext_t) : outcome (list ds5ext_t) :=
  table_add (f5_ops trk) (f5_overlaps trk a b c) (Ds5ext a b c) l.

Definition vtoc_update_format5_label_add (f5 : format5_label_t) (trk a b c : Z)
    : outcome format5_label_t :=
  l ← f5_table_add trk a b c (f5_exts f5);
  Done (f5_with f5 l).

(** the cylinder/track pair of [ext] less [b] cylinders and [c] tracks, with a
    borrow when there are not enough single tracks *)
Definition f5_shrink (trk b c : Z) (ext : ds5ext_t) (t : Z) : ds5ext_t :=
  if e5_ft ext <? c then
    Ds5ext t (u16 (e5_fc ext - (b + 1))) (u8 (e5_ft ext - (c - trk)))
  else Ds5ext t (u16 (e5_fc ext - b)) (u8 (e5_ft ext - c)).

(** [for (i = 0; i < 26; i++)] of the removal *)
Fixpoint f5_del_loop (trk a b c : Z) (l : list ds5ext_t) (n i : nat)
    : outcome (list ds5ext_t) :=
  match n with
  | O => Exited 1
  | S n =>
      let ext := l !!! i in
      if (a =? e5_t ext) && (b =? e5_fc ext) && (c =? e5_ft ext) then
        (* fills up whole free space gap *)
        Done (<[i := zero_ds5ext]> l)
      else if (a =? e5_t ext) && ((b <? e5_fc ext) || (c <? e5_ft ext)) then
        (* left-bounded in free space gap *)
        Done (<[i := f5_shrink trk b c ext (u16 (e5_t ext + b * trk + c))]> l)
      else if (e5_t ext <? a) && (f5_end trk ext =? a + b * trk + c) then
        (* right-bounded in free space gap *)
        Done (<[i := f5_shrink trk b c ext (e5_t ext)]> l)
      else if (e5_t ext <? a) && (a + b * trk + c <? f5_end trk ext) then
        (* partition divides free space into 2 pieces *)
        let x := u16 (a + b * trk + c) in
        let w := u16 (f5_end trk ext - (a + b * trk + c)) in
        let y := u16 (w / trk) in
        let z := u8 (w mod trk) in
        let ext' := Ds5ext (e5_t ext) (u16 ((a - e5_t ext) / trk)) (u8 ((a - e5_t ext) mod trk)) in
        f5_table_add trk x y z (<[i := ext']> l)
      else if (a <? e5_t ext) && (e5_t ext <? a + b * trk + c) &&
              (a + b * trk + c <? f5_end trk ext) then Exited 1
      else if (e5_t ext <? a) && (a <? f5_end trk ext) &&
              (f5_end trk ext <? a + b * trk + c) then Exited 1
      else f5_del_loop trk a b c l n (S i)
  end.

Definition vtoc_update_format5_label_del (f5 : format5_label_t) (trk a b c : Z)
    : outcome format5_label_t :=
  l ← f5_del_loop trk a b c (f5_exts f5) 26 0;
  Done (f5_with f5 l).

Definition vtoc_reorganize_FMT5_extents (f5 : format5_label_t) : format5_label_t :=
  f5_with f5 (table_reorganize (f5_ops 0) (f5_exts f5)).

Lemma f5_ext_lookup f5 i :
  length (DS5EXTAV f5) = 7%nat → f5_ext f5 i = f5_exts f5 !!! i.
Proof.
  intros H. unfold f5_ext, f5_exts. destruct i as [|i]; [done|]. simpl (S i =? 0)%nat.
  cbv iota. destruct (Nat.ltb_spec (S i) 8).
  - rewrite lookup_total_cons_ne_0 by done. rewrite lookup_total_app_l by (simpl; lia).
    f_equal. simpl. lia.
  - rewrite lookup_total_cons_ne_0 by done. rewrite lookup_total_app_r by (simpl; lia).
    f_equal. simpl. lia.
Qed.

Lemma f5_exts_with f5 l : l ≠ [] → f5_exts (f5_with f5 l) = l.
Proof.
  intros Hl. unfold f5_exts. simpl. destruct l as [|e l]; [done|]. simpl.
  rewrite drop_0. by rewrite take_drop.
Qed.

Section Trk.
Context (trk : Z).
Hypothesis Htrk : 0 < trk < 256.

(** A used extent in normal form (fewer single tracks than a cylinder has),
    within the first 64K tracks. *)
Definition f5_ok (e : ds5ext_t) : Prop :=
  0 < e5_t e ∧ 0 <= e5_fc e ∧ 0 <= e5_ft e < trk ∧
  0 < e5_fc e * trk + e5_ft e ∧ f5_end trk e <= 65536.

Lemma le_mul_trk x : 0 <= x → x <= x * trk.
Proof. intros. nia. Qed.

(** A number of tracks as cylinders and single tracks *)
Lemma split_tracks w :
  0 < w < 65536 → 0 <= w / trk < 65536 ∧ 0 <= w mod trk < trk ∧ w / trk * trk + w mod trk = w.
Proof.
  intros Hw. pose proof (Z.div_mod w trk ltac:(lia)) as Hdm.
  pose proof (Z.mod_pos_bound w trk ltac:(lia)).
  assert (0 <= w / trk) by (apply Z.div_pos; lia).
  pose proof (le_mul_trk (w / trk)). lia.
Qed.

Lemma join_ok t e1 e2 :
  f5_ok e1 → f5_ok e2 → 0 < t → t + (e5_fc e1 * trk + e5_ft e1) + (e5_fc e2 * trk + e5_ft e2) <= 65536 →
  let j := Ds5ext t (u16 (e5_fc e1 + (e5_fc e2 + (e5_ft e2 + e5_ft e1) / trk)))
             (u8 ((e5_ft e2 + e5_ft e1) mod trk)) in
  f5_ok j ∧ f5_end trk j = t + (e5_fc e1 * trk + e5_ft e1) + (e5_fc e2 * trk + e5_ft e2).
Proof.
  intros (H1 & H2 & H3 & H4 & H5) (G1 & G2 & G3 & G4 & G5) Ht Hle j. unfold f5_end in *.
  set (s := e5_ft e2 + e5_ft e1) in *.
  pose proof (Z.div_mod s trk ltac:(lia)) as Hdm.
  pose proof (Z.mod_pos_bound s trk ltac:(lia)).
  assert (0 <= s / trk) by (apply Z.div_pos; lia).
  assert (Hc : (e5_fc e1 + (e5_fc e2 + s / trk)) * trk + s mod trk =
               (e5_fc e1 * trk + e5_ft e1) + (e5_fc e2 * trk + e5_ft e2)) by (subst s; nia).
  pose proof (le_mul_trk (e5_fc e1 + (e5_fc e2 + s / trk)) ltac:(lia)).
  assert (0 <= e5_fc e1 + (e5_fc e2 + s / trk) < 65536) by lia.
  subst j. unfold f5_ok, f5_end. simpl. rewrite u16_small, u8_small by lia. lia.
Qed.

#[local] Instance f5_laws : ExtLaws (f5_ops trk) f5_ok e5_t (f5_end trk).
Proof.
  split; simpl.
  - intros e H. unfold f5_ok, f5_end in *. lia.
  - intros e H. apply Z.eqb_neq. unfold f5_ok in *. lia.
  - done.
  - unfold f5_ok. simpl. lia.
  - done.
  - done.
  - intros e t _ _. apply Z.eqb_eq.
  - intros e t _ _. apply Z.eqb_eq.
  - intros e t He Ht Heq. destruct (join_ok (e5_t e) e t) as [Hok Hend]; try done.
    + apply He.
    + destruct Ht as (_ & _ & _ & _ & Ht). unfold f5_end in *. lia.
    + split; [done|]. split; [done|]. rewrite Hend. unfold f5_end in *. lia.
  - intros e t He Ht Heq. destruct (join_ok (e5_t t) e t) as [Hok Hend]; try done.
    + apply Ht.
    + destruct He as (_ & _ & _ & _ & He). unfold f5_end in *. lia.
    + split; [done|]. split; [done|]. rewrite Hend. unfold f5_end in *. lia.
Qed.

Notation f5_wf := (table_wf (f5_ops trk) f5_ok e5_t (f5_end trk)).
Notation f5_covers := (covers f5_ok e5_t (f5_end trk)).

Lemma f5_overlaps_sound a b c :
  f5_ok (Ds5ext a b c) →
  overlap_sound (f5_ops trk) f5_ok e5_t (f5_end trk) (f5_overlaps trk a b c) (Ds5ext a b c).
Proof.
  intros Hn. unfold overlap_sound, f5_overlaps, disjoint. unfold f5_ok, f5_end in *. simpl in *.
  split.
  - apply orb_false_iff. split; apply not_true_iff_false; intros H; b2p; lia.
  - intros e He Hd. apply orb_false_iff. split; apply not_true_iff_false; intros H; b2p; lia.
Qed.

(** ** Adding *)

Lemma f5_table_add_spec a b c l :
  f5_wf l → f5_ok (Ds5ext a b c) →
  (∀ x, a <= x < a + b * trk + c → ¬ f5_covers l x) →
  (∃ k, l !! k = Some zero_ds5ext) →
  ∃ l', f5_table_add trk a b c l = Done l' ∧ length l' = length l ∧ f5_wf l' ∧
        ∀ x, f5_covers l' x ↔ f5_covers l x ∨ a <= x < a + b * trk + c.
Proof.
  intros Hw Hn Hd Hk.
  apply (table_add_spec (f5_ops trk) f5_ok e5_t (f5_end trk) _ (Ds5ext a b c)); try done.
  - by apply f5_overlaps_sound.
  - intros j e He. unfold disjoint. pose proof (ok_bounds (ops := f5_ops trk) e (proj2 He)).
    pose proof (ok_bounds (ops := f5_ops trk) _ Hn) as Hb. unfold f5_end in Hb at 1. simpl in Hb.
    change (f5_end trk (Ds5ext a b c)) with (a + b * trk + c). simpl.
    destruct (decide (f5_end trk e <= a ∨ a + b * trk + c <= e5_t e)) as [|Hno]; [done|exfalso].
    apply (Hd (Z.max a (e5_t e))); [lia|]. exists j, e. split; [done|]. lia.
Qed.

(** ** Removing *)

Section Del.
Context (a b c : Z).
(** the range [a, a + b*trk + c) in normal form *)
Hypothesis Hrange : f5_ok (Ds5ext a b c).
Let z := a + b * trk + c.

(** Two normal forms of the same number of tracks agree, and the order of the
    numbers is the lexicographic one. *)
Lemma normal_form_cmp b1 c1 b2 c2 :
  0 <= c1 < trk → 0 <= c2 < trk →
  (b1 * trk + c1 = b2 * trk + c2 ↔ b1 = b2 ∧ c1 = c2) ∧
  (b1 * trk + c1 < b2 * trk + c2 ↔ b1 < b2 ∨ (b1 = b2 ∧ c1 < c2)).
Proof.
  intros H1 H2. destruct (Z.lt_trichotomy b1 b2) as [H|[->|H]].
  - assert (b1 * trk + trk <= b2 * trk) by nia. lia.
  - lia.
  - assert (b2 * trk + trk <= b1 * trk) by nia. lia.
Qed.

(** Taking the range's tracks from either end of an extent. *)
Lemma shrink_ok e t' :
  f5_ok e → b * trk + c < e5_fc e * trk + e5_ft e →
  0 < t' → t' + (e5_fc e * trk + e5_ft e) - (b * trk + c) <= 65536 →
  f5_ok (f5_shrink trk b c e t') ∧ e5_t (f5_shrink trk b c e t') = t' ∧
  f5_end trk (f5_shrink trk b c e t') = t' + (e5_fc e * trk + e5_ft e) - (b * trk + c).
Proof.
  intros (H1 & H2 & H3 & H4 & H5) Hlt Ht Hle. pose proof Hrange as (G1 & G2 & G3 & G4 & G5).
  simpl in *. unfold f5_end in *. simpl in *.
  assert (Hb := proj1 (proj2 (normal_form_cmp b c (e5_fc e) (e5_ft e) G3 H3)) Hlt).
  pose proof (le_mul_trk (e5_fc e) H2).
  unfold f5_ok, f5_end, f5_shrink. destruct (Z.ltb_spec (e5_ft e) c); simpl.
  - rewrite u16_small, u8_small by lia.
    replace ((e5_fc e - (b + 1)) * trk) with (e5_fc e * trk - b * trk - trk) by ring. lia.
  - rewrite u16_small, u8_small by lia.
    replace ((e5_fc e - b) * trk) with (e5_fc e * trk - b * trk) by ring. lia.
Qed.

Lemma f5_del_skip l n i e :
  l !!! i = e → (e = zero_ds5ext ∨ (f5_ok e ∧ (f5_end trk e <= a ∨ z <= e5_t e))) →
  f5_del_loop trk a b c l (S n) i = f5_del_loop trk a b c l n (S i).
Proof.
  intros He Hc. simpl. rewrite He. pose proof Hrange as (G1 & G2 & G3 & G4 & G5).
  simpl in *. unfold f5_end in G5. simpl in G5. fold z in G5 |- *.
  assert (C : e5_t e = 0 ∧ e5_fc e = 0 ∧ e5_ft e = 0 ∧ f5_end trk e = 0 ∨
              (0 < e5_t e < f5_end trk e ∧ (f5_end trk e <= a ∨ z <= e5_t e))).
  { destruct Hc as [->|[Hok Hd]]; [by left|right; split; [|done]].
    apply (ok_bounds (ops := f5_ops trk) e Hok). }
  assert (a < z) by (subst z; lia).
  repeat match goal with
  | |- (if ?t then _ else _) = _ => destruct t eqn:?; b2p; [exfalso; lia|]
  end. done.
Qed.

(** the outcome of the removal at the extent [e] in slot [m] *)
Definition f5_del_at (l : list ds5ext_t) (m : nat) (e : ds5ext_t) : outcome (list ds5ext_t) :=
  if decide (a = e5_t e) then
    if decide (z = f5_end trk e) then Done (<[m := zero_ds5ext]> l)
    else Done (<[m := f5_shrink trk b c e z]> l)
  else if decide (z = f5_end trk e) then Done (<[m := f5_shrink trk b c e (e5_t e)]> l)
  else f5_table_add trk z ((f5_end trk e - z) / trk) ((f5_end trk e - z) mod trk)
         (<[m := Ds5ext (e5_t e) ((a - e5_t e) / trk) ((a - e5_t e) mod trk)]> l).

Lemma f5_del_hit l n m e :
  l !!! m = e → f5_ok e → e5_t e <= a → z <= f5_end trk e →
  f5_del_loop trk a b c l (S n) m = f5_del_at l m e.
Proof.
  intros He Hok Ha Hz. pose proof Hok as (H1 & H2 & H3 & H4 & H5).
  pose proof Hrange as (G1 & G2 & G3 & G4 & G5). simpl in G1, G2, G3, G4.
  change (f5_end trk (Ds5ext a b c)) with z in G5.
  destruct (normal_form_cmp b c (e5_fc e) (e5_ft e) G3 H3) as [Ceq Clt].
  assert (Hend : f5_end trk e = e5_t e + (e5_fc e * trk + e5_ft e)) by (unfold f5_end; lia).
  assert (Hze : z = a + (b * trk + c)) by (subst z; lia).
  simpl f5_del_loop. rewrite He. fold z. unfold f5_del_at.
  destruct (decide (a = e5_t e)) as [Hat|Hat].
  - rewrite (proj2 (Z.eqb_eq a (e5_t e)) Hat). simpl.
    destruct (decide (z = f5_end trk e)) as [Hzt|Hzt].
    + destruct (proj1 Ceq ltac:(lia)) as [-> ->]. by rewrite !Z.eqb_refl.
    + assert (Hb : b < e5_fc e ∨ (b = e5_fc e ∧ c < e5_ft e)) by (apply Clt; lia).
      destruct ((b =? e5_fc e) && (c =? e5_ft e)) eqn:E1; [b2p; lia|].
      destruct ((b <? e5_fc e) || (c <? e5_ft e)) eqn:E2; [|b2p; lia].
      rewrite <- Hat. fold z. by rewrite u16_small by lia.
  - assert (Hn : (a =? e5_t e) = false) by (by apply Z.eqb_neq). rewrite Hn. simpl.
    assert (Hlt : (e5_t e <? a) = true) by (apply Z.ltb_lt; lia). rewrite Hlt. simpl.
    destruct (decide (z = f5_end trk e)) as [Hzt|Hzt].
    + by rewrite (proj2 (Z.eqb_eq (f5_end trk e) z) (eq_sym Hzt)).
    + assert (Hn2 : (f5_end trk e =? z) = false) by (apply Z.eqb_neq; lia). rewrite Hn2.
      assert (Hlt2 : (z <? f5_end trk e) = true) by (apply Z.ltb_lt; lia). rewrite Hlt2.
      destruct (split_tracks (f5_end trk e - z) ltac:(lia)) as (S1 & S2 & _).
      destruct (split_tracks (a - e5_t e) ltac:(lia)) as (S3 & S4 & _).
      rewrite (u16_small z), (u16_small (f5_end trk e - z)) by lia.
      by rewrite !u16_small, !u8_small by lia.
Qed.

Lemma f5_del_reach l n i m e :
  f5_wf l → used_at f5_ok l m e → e5_t e <= a → z <= f5_end trk e →
  (i <= m)%nat → (m < i + n)%nat →
  f5_del_loop trk a b c l n i = f5_del_at l m e.
Proof.
  intros Hw Hm Ha Hb. revert i. induction n as [|n IH]; intros i Hi Hn; [lia|].
  pose proof (used_lt _ _ _ _ Hm) as Hlt.
  destruct (decide (i = m)) as [->|Hne].
  { apply f5_del_hit; try done; [apply lookup_total_used, Hm|apply Hm]. }
  rewrite (f5_del_skip l n i (l !!! i)); [apply IH; lia|done|].
  destruct (slots_total (f5_ops trk) f5_ok l i (proj1 Hw)) as [Hz|Hok]; [lia|by left|right].
  split; [done|]. destruct (proj2 Hw i m (l !!! i) e) as [?|?]; try done; try lia.
  split; [|done]. apply list_lookup_lookup_total_lt. lia.
Qed.

Definition f5_removed (l l' : list ds5ext_t) : Prop :=
  length l' = length l ∧ f5_wf l' ∧ ∀ x, f5_covers l' x ↔ f5_covers l x ∧ ¬ a <= x < z.

(** one extent of the table replaced by what the range leaves of one end *)
Lemma f5_shrink_removed l m e e' :
  f5_wf l → used_at f5_ok l m e → f5_ok e' →
  e5_t e <= a → z <= f5_end trk e →
  (e5_t e' = z ∧ f5_end trk e' = f5_end trk e ∧ a = e5_t e) ∨
  (e5_t e' = e5_t e ∧ f5_end trk e' = a ∧ z = f5_end trk e) →
  f5_removed l (<[m := e']> l).
Proof.
  intros Hw Hm He' Ha Hz Hc. assert (a < z) by (destruct Hrange as (_ & _ & _ & ? & _); simpl in *; lia).
  split; [by rewrite length_insert|].
  split; [apply (shrink_wf (f5_ops trk) f5_ok e5_t (f5_end trk) l m e); try done; lia|].
  intros x. rewrite (shrink_covers (f5_ops trk) f5_ok e5_t (f5_end trk) l m e) by done. split.
  - intros [[? ?]|?]; [split; [done|lia]|split; [exists m, e; split; [done|]|]; lia].
  - intros [Hc' ?]. destruct (decide (e5_t e <= x < f5_end trk e)); [right; lia|by left].
Qed.

(** the table with the extent cut before the range and the rest added again *)
Lemma f5_del_split l m e :
  f5_wf l → used_at f5_ok l m e → e5_t e < a → z < f5_end trk e →
  (∃ k, l !! k = Some zero_ds5ext) →
  ∃ l', f5_table_add trk z ((f5_end trk e - z) / trk) ((f5_end trk e - z) mod trk)
          (<[m := Ds5ext (e5_t e) ((a - e5_t e) / trk) ((a - e5_t e) mod trk)]> l) = Done l' ∧
        f5_removed l l'.
Proof.
  intros Hw Hm Ha Hz (k & Hk). pose proof (proj2 Hm) as Hok.
  pose proof Hok as (H1 & H2 & H3 & H4 & H5).
  assert (Hrz : a < z) by (destruct Hrange as (_ & _ & _ & ? & _); simpl in *; lia).
  destruct (split_tracks (f5_end trk e - z) ltac:(lia)) as (S1 & S2 & S3).
  destruct (split_tracks (a - e5_t e) ltac:(lia)) as (S4 & S5 & S6).
  set (e' := Ds5ext (e5_t e) _ _). set (l1 := <[m := e']> l).
  assert (He' : f5_ok e' ∧ f5_end trk e' = a) by (unfold f5_ok, f5_end, e'; simpl; lia).
  destruct He' as [He' Hend'].
  assert (Hw1 : f5_wf l1).
  { apply (shrink_wf (f5_ops trk) f5_ok e5_t (f5_end trk) l m e); try done; simpl; lia. }
  assert (Hcov : ∀ x, f5_covers l1 x ↔ (f5_covers l x ∧ ¬ e5_t e <= x < f5_end trk e) ∨ e5_t e <= x < a).
  { intros x. subst l1. rewrite (shrink_covers (f5_ops trk) f5_ok e5_t (f5_end trk) l m e) by done.
    by rewrite Hend'. }
  destruct (f5_table_add_spec z ((f5_end trk e - z) / trk) ((f5_end trk e - z) mod trk) l1)
    as (l' & Hadd & Hlen & Hw' & Hc').
  - done.
  - unfold f5_ok, f5_end in *. simpl. lia.
  - intros x Hx Hcx. apply Hcov in Hcx. lia.
  - exists k. subst l1. rewrite list_lookup_insert_ne; [done|].
    intros ->. destruct Hm as [Hm _]. rewrite Hk in Hm. injection Hm as <-. simpl in *. lia.
  - exists l'. split; [done|]. split; [subst l1; by rewrite Hlen, length_insert|].
    split; [done|]. intros x. rewrite Hc', Hcov. split.
    + intros [[[? ?]|?]|?]; [split; [done|lia]|..]; (split; [exists m, e; split; [done|]|]; lia).
    + intros [Hcx ?]. destruct (decide (e5_t e <= x < f5_end trk e)); [|by left; left].
      destruct (decide (x < a)); [left; right; lia|right; lia].
Qed.

(** Removing a range that lies in one free extent succeeds and removes exactly
    its tracks. *)
Lemma f5_del_spec l m e :
  f5_wf l → used_at f5_ok l m e → e5_t e <= a → z <= f5_end trk e →
  (e5_t e < a → z < f5_end trk e → ∃ k, l !! k = Some zero_ds5ext) →
  ∃ l', f5_del_loop trk a b c l (length l) 0 = Done l' ∧ f5_removed l l'.
Proof.
  intros Hw Hm Ha Hz Hk. pose proof (used_lt _ _ _ _ Hm) as Hlt.
  rewrite (f5_del_reach l (length l) 0 m e) by (done || lia). unfold f5_del_at.
  pose proof (proj2 Hm) as (H1 & H2 & H3 & H4 & H5).
  assert (Hend : f5_end trk e = e5_t e + (e5_fc e * trk + e5_ft e)) by (unfold f5_end; lia).
  assert (Hze : z = a + (b * trk + c)) by (subst z; lia).
  assert (0 < b * trk + c) by (destruct Hrange as (_ & _ & _ & ? & _); done).
  destruct (decide (a = e5_t e)) as [Hat|Hat]; destruct (decide (z = f5_end trk e)) as [Hzt|Hzt].
  - eexists. split; [done|]. split; [by rewrite length_insert|].
    split; [exact (clear_wf (f5_ops trk) f5_ok e5_t (f5_end trk) l m e Hw Hm)|].
    intros x. rewrite Hat, Hzt. exact (clear_covers (f5_ops trk) f5_ok e5_t (f5_end trk) l m e x Hw Hm).
  - destruct (shrink_ok e z) as (? & ? & ?); [apply Hm|lia..|].
    eexists. split; [done|]. eapply f5_shrink_removed; try done. left. lia.
  - destruct (shrink_ok e (e5_t e)) as (? & ? & ?); [apply Hm|lia..|].
    eexists. split; [done|]. eapply f5_shrink_removed; try done. right. lia.
  - apply f5_del_split; try done; [lia..|apply Hk; lia].
Qed.

End Del.

End Trk.
(** A range whose first track is not free is refused. *)
Lemma f5_del_refuses trk a b c l n i :
  0 < trk < 256 → table_wf (f5_ops trk) (f5_ok trk) e5_t (f5_end trk) l →
  0 < a → 0 < b * trk + c → (i + n = length l)%nat →
  (∀ m e, used_at (f5_ok trk) l m e → ¬ (e5_t e <= a < f5_end trk e)) →
  f5_del_loop trk a b c l n i = Exited 1.
Proof.
  intros Ht Hw Ha Hbc Hn Hno. revert i Hn. induction n as [|n IH]; intros i Hn; [done|]. simpl.
  assert (Hi : (i < length l)%nat) by lia. pose proof (f5_laws trk Ht) as Hlaws.
  assert (Hc : (e5_t (l !!! i) = 0 ∧ f5_end trk (l !!! i) = 0) ∨
    (0 < e5_t (l !!! i) < f5_end trk (l !!! i) ∧ ¬ (e5_t (l !!! i) <= a < f5_end trk (l !!! i)))).
  { destruct (slots_total (f5_ops trk) (f5_ok trk) l i (proj1 Hw) Hi) as [Hz|Hok]; [left; by rewrite Hz|right].
    split; [apply (ok_bounds (ops := f5_ops trk) _ Hok)|].
    apply (Hno i). split; [by apply list_lookup_lookup_total_lt|done]. }
  repeat match goal with
  | |- (if ?c then _ else _) = _ => destruct c eqn:?; b2p; try (exfalso; lia)
  end; [done..|]. apply IH. lia.
Qed.

End Fmt5.
