(* ===== verification/Freespace.v ===== *)
(** Free-space bookkeeping of a VTOC (src/libvtoc/vtoc.c, [vtoc_set_freespace]):
    one operation over the format 5 label of a small and the format 7 label of
    a large volume, and its refinement of a plain set of free tracks. *)
From S2P Require Import Prelude Cchh Codec Labels LabelOps Extents Fmt5 Fmt7.
Import Extents Fmt5 Fmt7 Addr.

Module Freespace.

Definition plus_ch : Z := 43.  (* '+' *)
Definition minus_ch : Z := 45. (* '-' *)

Definition vtoc_set_freespace (f4 : format4_label_t) (f5 : format5_label_t)
    (f7 : format7_label_t) (ch start stop cyl trk : Z)
    : outcome (format4_label_t * format5_label_t * format7_label_t) :=
  if BIG_DISK_SIZE <? u32 (cyl * trk) then
    f7 ← (if ch =? plus_ch then vtoc_update_format7_label_add f7 start (u32 (stop + 1))
          else if ch =? minus_ch then vtoc_update_format7_label_del f7 start (u32 (stop + 1))
          else Done f7);
    let f7 := vtoc_reorganize_FMT7_extents f7 in
    Done (set_f4_ext_freespace f4 0xa0 0x07 (vtoc_set_cchhb 0x0000 0x0001 0x03), f5, f7)
  else
    let x := u16 start in
    let y := u16 (u32 (stop - start + 1) / trk) in
    let z := u8 (u32 (stop - start + 1) mod trk) in
    f5 ← (if ch =? plus_ch then vtoc_update_format5_label_add f5 trk x y z
          else if ch =? minus_ch then vtoc_update_format5_label_del f5 trk x y z
          else Done f5);
    Done (f4, vtoc_reorganize_FMT5_extents f5, f7).

(** ** Abstract specification *)

(** The contract: the labels stand for a set of free tracks. *)
Definition freeset := Z → Prop.
Definition fs_add (F : freeset) (start stop : Z) : freeset := λ t, F t ∨ start <= t <= stop.
Definition fs_del (F : freeset) (start stop : Z) : freeset := λ t, F t ∧ ¬ start <= t <= stop.

Definition big_disk (cyl trk : Z) : bool := BIG_DISK_SIZE <? cyl * trk.

(** geometry limits: up to 255 tracks per cylinder, fewer than 2^31 tracks *)
Definition disk_ok (cyl trk : Z) : Prop := 0 < trk < 256 ∧ 0 <= cyl ∧ cyl * trk < 2147483648.

Definition f7_repr (f7 : format7_label_t) (F : freeset) : Prop :=
  length (DS7EXTNT f7) = 5%nat ∧ length (DS7ADEXT f7) = 11%nat ∧
  table_wf f7_ops f7_ok e7_a e7_b (f7_exts f7) ∧
  ∀ t, F t ↔ covers f7_ok e7_a e7_b (f7_exts f7) t.

Definition f5_repr (trk : Z) (f5 : format5_label_t) (F : freeset) : Prop :=
  length (DS5EXTAV f5) = 7%nat ∧ length (DS5MAVET f5) = 18%nat ∧
  table_wf (f5_ops trk) (f5_ok trk) e5_t (f5_end trk) (f5_exts f5) ∧
  ∀ t, F t ↔ covers (f5_ok trk) e5_t (f5_end trk) (f5_exts f5) t.

(** The label that is in use for this volume represents the set [F]. *)
Definition fs_repr (cyl trk : Z) (f5 : format5_label_t) (f7 : format7_label_t)
    (F : freeset) : Prop :=
  if big_disk cyl trk then f7_repr f7 F else f5_repr trk f5 F.

(** a slot is left in the table in use *)
Definition fs_room (cyl trk : Z) (f5 : format5_label_t) (f7 : format7_label_t) : Prop :=
  if big_disk cyl trk then ∃ k, f7_exts f7 !! k = Some zero_ds7ext
  else ∃ k, f5_exts f5 !! k = Some zero_ds5ext.

(** the range lies in one run of free tracks *)
Definition fs_free_range (F : freeset) (start stop : Z) : Prop :=
  ∀ t, start <= t <= stop → F t.

(** ** A covered range lies in one extent *)

Section OneExtent.
Context {E : Type} `{!Inhabited E} (ops : ext_ops E) (ok : E → Prop) (lo hi : E → Z).
Context `{!ExtLaws ops ok lo hi}.

(** Separated extents cannot share a run of consecutive tracks. *)
Lemma covered_range l a n :
  table_wf ops ok lo hi l →
  (∀ t, a <= t <= a + Z.of_nat n → covers ok lo hi l t) →
  ∃ m e, used_at ok l m e ∧ lo e <= a ∧ a + Z.of_nat n < hi e.
Proof.
  intros Hw. induction n as [|n IH]; intros Hc.
  - destruct (Hc a) as (m & e & Hm & He); [lia|]. exists m, e. split; [done|lia].
  - destruct IH as (m & e & Hm & Hlo & Hhi); [intros t Ht; apply Hc; lia|].
    destruct (Hc (a + Z.of_nat (S n))) as (m' & e' & Hm' & He'); [lia|].
    exists m, e. split; [done|]. split; [done|].
    destruct (decide (m' = m)) as [->|Hne].
    { assert (e' = e) as -> by (by eapply used_fun). lia. }
    destruct (proj2 Hw m' m e' e) as [?|?]; try done; lia.
Qed.

(** A free extent starts where the free tracks start. *)
Lemma extent_start l i e :
  table_wf ops ok lo hi l → used_at ok l i e →
  covers ok lo hi l (lo e) ∧ ¬ covers ok lo hi l (lo e - 1).
Proof.
  intros Hw Hi. pose proof (ok_bounds e (proj2 Hi)) as Hb. split.
  - exists i, e. split; [done|lia].
  - intros (j & f & Hj & Hf). destruct (decide (j = i)) as [->|Hne].
    + assert (f = e) as -> by (by eapply used_fun). lia.
    + destruct (proj2 Hw j i f e) as [?|?]; try done; lia.
Qed.

Lemma slots_free_or_full l :
  slots ops ok l → (∃ k, l !! k = Some (e_zero ops)) ∨ Forall ok l.
Proof.
  induction 1 as [|e l [->|He] _ [[k Hk]|IH]]; [by right| | | |].
  - left. by exists O.
  - left. by exists O.
  - left. by exists (S k).
  - right. by constructor.
Qed.

(** A table with more slots than there are places for an extent to start
    has a free slot. *)
Lemma room_bound l (S : list Z) :
  table_wf ops ok lo hi l → (length S < length l)%nat →
  (∀ t, covers ok lo hi l t → ¬ covers ok lo hi l (t - 1) → t ∈ S) →
  ∃ k, l !! k = Some (e_zero ops).
Proof.
  intros Hw Hlen Hst. destruct (slots_free_or_full l (proj1 Hw)) as [?|Hok]; [done|].
  assert (Hnd : NoDup (lo <$> l)).
  { apply NoDup_alt. intros i j x Hi Hj.
    apply list_lookup_fmap_Some in Hi as (e & Hx & Hi).
    apply list_lookup_fmap_Some in Hj as (f & Hy & Hj).
    destruct (decide (i = j)) as [|Hne]; [done|]. rewrite Forall_lookup in Hok.
    pose proof (Hok i e Hi) as He. pose proof (Hok j f Hj) as Hf.
    pose proof (ok_bounds e He). pose proof (ok_bounds f Hf).
    destruct (proj2 Hw i j e f) as [?|?]; try done; lia. }
  assert (Hsub : lo <$> l ⊆ S).
  { intros x Hx. apply list_elem_of_fmap in Hx as (e & -> & He).
    apply list_elem_of_lookup in He as (i & Hi).
    rewrite Forall_lookup in Hok. pose proof (Hok i e Hi) as He.
    destruct (extent_start l i e Hw (conj Hi He)) as [H1 H2]. by apply Hst. }
  pose proof (submseteq_length _ _ (NoDup_submseteq _ _ Hnd Hsub)) as Hle.
  rewrite length_fmap in Hle. lia.
Qed.
End OneExtent.

Lemma f7_repr_update f7 F l :
  f7_repr f7 F → length l = 16%nat → table_wf f7_ops f7_ok e7_a e7_b l →
  f7_repr (vtoc_reorganize_FMT7_extents (f7_with f7 l)) (covers f7_ok e7_a e7_b l).
Proof.
  intros _ Hl Hw. unfold vtoc_reorganize_FMT7_extents. rewrite f7_exts_with.
  destruct (table_reorganize_wf f7_ops f7_ok e7_a e7_b l Hw) as (Hw' & Hc & Hlen & _).
  rewrite Hl in Hlen. unfold f7_repr. simpl. rewrite length_take, length_drop.
  split; [lia|]. split; [lia|]. rewrite f7_exts_with. split; [done|].
  intros t. by rewrite Hc.
Qed.

Lemma f5_repr_update trk f5 l :
  0 < trk < 256 → length l = 26%nat →
  table_wf (f5_ops trk) (f5_ok trk) e5_t (f5_end trk) l →
  f5_repr trk (vtoc_reorganize_FMT5_extents (f5_with f5 l)) (covers (f5_ok trk) e5_t (f5_end trk) l).
Proof.
  intros Ht Hl Hw. unfold vtoc_reorganize_FMT5_extents.
  assert (Hne : l ≠ []) by (intros ->; done). rewrite f5_exts_with by done.
  change (table_reorganize (f5_ops 0) l) with (table_reorganize (f5_ops trk) l).
  pose proof (f5_laws trk Ht) as Hlaws.
  destruct (table_reorganize_wf (f5_ops trk) (f5_ok trk) e5_t (f5_end trk) l Hw)
    as (Hw' & Hc & Hlen & _).
  rewrite Hl in Hlen. unfold f5_repr. simpl DS5EXTAV. simpl DS5MAVET.
  rewrite length_take, !length_drop.
  split; [lia|]. split; [lia|]. rewrite f5_exts_with by (intros E; by rewrite E in Hlen).
  split; [done|]. intros t. by rewrite Hc.
Qed.

Lemma f7_repr_length f7 F : f7_repr f7 F → length (f7_exts f7) = 16%nat.
Proof. intros (H1 & H2 & _). unfold f7_exts. rewrite length_app. lia. Qed.

Lemma f5_repr_length trk f5 F : f5_repr trk f5 F → length (f5_exts f5) = 26%nat.
Proof. intros (H1 & H2 & _). unfold f5_exts. simpl. rewrite length_app. lia. Qed.

Lemma f7_repr_ext f7 F G : (∀ t, F t ↔ G t) → f7_repr f7 F → f7_repr f7 G.
Proof. intros H (? & ? & ? & Hc). do 3 (split; [done|]). intros t. by rewrite <- H. Qed.

Lemma f5_repr_ext trk f5 F G : (∀ t, F t ↔ G t) → f5_repr trk f5 F → f5_repr trk f5 G.
Proof. intros H (? & ? & ? & Hc). do 3 (split; [done|]). intros t. by rewrite <- H. Qed.

Lemma fs_repr_ext cyl trk f5 f7 F G :
  (∀ t, F t ↔ G t) → fs_repr cyl trk f5 f7 F → fs_repr cyl trk f5 f7 G.
Proof.
  unfold fs_repr. destruct (big_disk cyl trk); [apply f7_repr_ext|apply f5_repr_ext].
Qed.

(** The tables hold every set of free tracks with fewer than 16 runs. *)
Lemma fs_room_bound cyl trk f5 f7 F (S : list Z) :
  0 < trk < 256 → fs_repr cyl trk f5 f7 F → (length S < 16)%nat →
  (∀ t, F t → ¬ F (t - 1) → t ∈ S) → fs_room cyl trk f5 f7.
Proof.
  intros Ht Hr Hl Hst. unfold fs_repr, fs_room in *. destruct (big_disk cyl trk).
  - pose proof (f7_repr_length _ _ Hr) as H16. destruct Hr as (_ & _ & Hw & HF).
    apply (room_bound f7_ops f7_ok e7_a e7_b _ S); [done|lia|].
    intros t. rewrite <- !HF. apply Hst.
  - pose proof (f5_repr_length _ _ _ Hr) as H26. destruct Hr as (_ & _ & Hw & HF).
    pose proof (f5_laws trk Ht).
    apply (room_bound (f5_ops trk) (f5_ok trk) e5_t (f5_end trk) _ S); [done|lia|].
    intros t. rewrite <- !HF. apply Hst.
Qed.

(** ** Refinement *)

(** the arguments that [vtoc_set_freespace] computes for the format 5 label *)
Lemma f5_range_ok trk start stop :
  0 < trk < 256 → 0 < start <= stop → stop < 65536 →
  f5_ok trk (Ds5ext (u16 start) (u16 (u32 (stop - start + 1) / trk))
               (u8 (u32 (stop - start + 1) mod trk))) ∧
  u16 start = start ∧
  start + u16 (u32 (stop - start + 1) / trk) * trk + u8 (u32 (stop - start + 1) mod trk) = stop + 1.
Proof.
  intros Ht Hs Hlt. rewrite (u32_small (stop - start + 1)), (u16_small start) by lia.
  destruct (split_tracks trk Ht (stop - start + 1) ltac:(lia)) as (H1 & H2 & H3).
  rewrite u16_small, u8_small by lia. unfold f5_ok, f5_end. simpl. lia.
Qed.

Lemma set_freespace_add_big f4 f5 f7 F start stop cyl trk :
  disk_ok cyl trk → big_disk cyl trk = true → f7_repr f7 F →
  0 < start <= stop → stop < cyl * trk → (∀ t, start <= t <= stop → ¬ F t) →
  (∃ k, f7_exts f7 !! k = Some zero_ds7ext) →
  ∃ f4' f7', vtoc_set_freespace f4 f5 f7 plus_ch start stop cyl trk = Done (f4', f5, f7') ∧
    f7_repr f7' (fs_add F start stop) ∧ DS4EFLVL f4' = 0x07 ∧ DS4VTOCI f4' = 0xa0.
Proof.
  intros (Ht & Hc & Hd) Hb Hr Hs Hlt Hf Hk. unfold vtoc_set_freespace.
  rewrite u32_small by nia. unfold big_disk in Hb. rewrite Hb. simpl (plus_ch =? plus_ch).
  cbv iota. unfold vtoc_update_format7_label_add. rewrite (u32_small (stop + 1)) by lia.
  pose proof Hr as (_ & _ & Hw & HF).
  destruct (f7_table_add_spec start (stop + 1) (f7_exts f7) Hw) as (l & -> & Hlen & Hw' & Hcov);
    [lia|lia| |done|].
  { intros x Hx. rewrite <- HF. apply Hf. lia. }
  rewrite !Done_bind. eexists _, _. split; [done|]. split; [|by destruct f4].
  eapply f7_repr_ext; [|eapply f7_repr_update; [done| |done]];
    [|by rewrite Hlen, (f7_repr_length _ _ Hr)].
  intros t. rewrite Hcov, <- HF. unfold fs_add. split; (intros [?|?]; [by left|right; lia]).
Qed.

Lemma set_freespace_add_small f4 f5 f7 F start stop cyl trk :
  disk_ok cyl trk → big_disk cyl trk = false → f5_repr trk f5 F →
  0 < start <= stop → stop < cyl * trk → (∀ t, start <= t <= stop → ¬ F t) →
  (∃ k, f5_exts f5 !! k = Some zero_ds5ext) →
  ∃ f5', vtoc_set_freespace f4 f5 f7 plus_ch start stop cyl trk = Done (f4, f5', f7) ∧
    f5_repr trk f5' (fs_add F start stop).
Proof.
  intros (Ht & Hc & Hd) Hb Hr Hs Hlt Hf Hk. unfold vtoc_set_freespace.
  rewrite (u32_small (cyl * trk)) by nia. unfold big_disk in Hb. rewrite Hb.
  unfold BIG_DISK_SIZE in Hb. apply Z.ltb_ge in Hb. simpl (plus_ch =? plus_ch). cbv iota zeta.
  destruct (f5_range_ok trk start stop Ht Hs ltac:(lia)) as (Hok & Hst & Hend).
  unfold vtoc_update_format5_label_add. pose proof Hr as (_ & _ & Hw & HF).
  destruct (f5_table_add_spec trk Ht _ _ _ (f5_exts f5) Hw Hok) as (l & -> & Hlen & Hw' & Hcov);
    [|done|].
  { intros x Hx. rewrite <- HF. apply Hf. rewrite Hst in Hx. lia. }
  rewrite !Done_bind. eexists. split; [done|].
  eapply f5_repr_ext; [|eapply f5_repr_update; [done| |done]];
    [|by rewrite Hlen, (f5_repr_length _ _ _ Hr)].
  intros t. rewrite Hcov, <- HF, Hst. unfold fs_add. split; (intros [?|?]; [by left|right; lia]).
Qed.

Lemma set_freespace_del_big f4 f5 f7 F start stop cyl trk :
  disk_ok cyl trk → big_disk cyl trk = true → f7_repr f7 F →
  0 < start <= stop → stop < cyl * trk → fs_free_range F start stop →
  (∃ k, f7_exts f7 !! k = Some zero_ds7ext) →
  ∃ f4' f7', vtoc_set_freespace f4 f5 f7 minus_ch start stop cyl trk = Done (f4', f5, f7') ∧
    f7_repr f7' (fs_del F start stop) ∧ DS4EFLVL f4' = 0x07 ∧ DS4VTOCI f4' = 0xa0.
Proof.
  intros (Ht & Hc & Hd) Hb Hr Hs Hlt Hf Hk. unfold vtoc_set_freespace.
  rewrite u32_small by nia. unfold big_disk in Hb. rewrite Hb.
  change (minus_ch =? plus_ch) with false. change (minus_ch =? minus_ch) with true.
  cbv iota. unfold vtoc_update_format7_label_del. rewrite (u32_small (stop + 1)) by lia.
  pose proof Hr as (_ & _ & Hw & HF).
  destruct (covered_range f7_ops f7_ok e7_a e7_b (f7_exts f7) start (Z.to_nat (stop - start)) Hw)
    as (m & e & Hm & Hlo & Hhi); [intros t Htt; apply HF, Hf; lia|].
  rewrite <- (f7_repr_length _ _ Hr).
  destruct (f7_del_spec start (stop + 1) (f7_exts f7) m e Hw Hm) as (l & -> & Hlen & Hw' & Hcov);
    [lia..|done|].
  rewrite !Done_bind. eexists _, _. split; [done|]. split; [|by destruct f4].
  eapply f7_repr_ext; [|eapply f7_repr_update; [done| |done]];
    [|by rewrite Hlen, (f7_repr_length _ _ Hr)].
  intros t. rewrite Hcov, <- HF. unfold fs_del. split; (intros [? ?]; split; [done|lia]).
Qed.

Lemma set_freespace_del_small f4 f5 f7 F start stop cyl trk :
  disk_ok cyl trk → big_disk cyl trk = false → f5_repr trk f5 F →
  0 < start <= stop → stop < cyl * trk → fs_free_range F start stop →
  (∃ k, f5_exts f5 !! k = Some zero_ds5ext) →
  ∃ f5', vtoc_set_freespace f4 f5 f7 minus_ch start stop cyl trk = Done (f4, f5', f7) ∧
    f5_repr trk f5' (fs_del F start stop).
Proof.
  intros (Ht & Hc & Hd) Hb Hr Hs Hlt Hf Hk. unfold vtoc_set_freespace.
  rewrite (u32_small (cyl * trk)) by nia. unfold big_disk in Hb. rewrite Hb.
  unfold BIG_DISK_SIZE in Hb. apply Z.ltb_ge in Hb.
  change (minus_ch =? plus_ch) with false. change (minus_ch =? minus_ch) with true. cbv iota zeta.
  destruct (f5_range_ok trk start stop Ht Hs ltac:(lia)) as (Hok & Hst & Hend).
  unfold vtoc_update_format5_label_del. pose proof Hr as (_ & _ & Hw & HF).
  pose proof (f5_laws trk Ht) as Hlaws.
  destruct (covered_range (f5_ops trk) (f5_ok trk) e5_t (f5_end trk) (f5_exts f5) start
              (Z.to_nat (stop - start)) Hw)
    as (m & e & Hm & Hlo & Hhi); [intros t Htt; apply HF, Hf; lia|].
  rewrite <- (f5_repr_length _ _ _ Hr). rewrite Hst in *.
  destruct (f5_del_spec trk Ht _ _ _ Hok (f5_exts f5) m e Hw Hm) as (l & -> & Hlen & Hw' & Hcov);
    [lia..|done|].
  rewrite !Done_bind. eexists. split; [done|].
  eapply f5_repr_ext; [|eapply f5_repr_update; [done| |done]];
    [|by rewrite Hlen, (f5_repr_length _ _ _ Hr)].
  intros t. rewrite Hcov, <- HF. unfold fs_del. split; (intros [? ?]; split; [done|lia]).
Qed.

(** The two directions over either kind of volume. *)
Lemma set_freespace_add f4 f5 f7 F start stop cyl trk :
  disk_ok cyl trk → fs_repr cyl trk f5 f7 F → fs_room cyl trk f5 f7 →
  0 < start <= stop → stop < cyl * trk → (∀ t, start <= t <= stop → ¬ F t) →
  ∃ f4' f5' f7', vtoc_set_freespace f4 f5 f7 plus_ch start stop cyl trk = Done (f4', f5', f7') ∧
    fs_repr cyl trk f5' f7' (fs_add F start stop).
Proof.
  unfold fs_repr, fs_room. intros. destruct (big_disk cyl trk) eqn:Hb.
  - destruct (set_freespace_add_big f4 f5 f7 F start stop cyl trk) as (f4' & f7' & ? & ? & _);
      try done. by eexists f4', f5, f7'.
  - destruct (set_freespace_add_small f4 f5 f7 F start stop cyl trk) as (f5' & ? & ?); try done.
    by eexists f4, f5', f7.
Qed.

Lemma set_freespace_del f4 f5 f7 F start stop cyl trk :
  disk_ok cyl trk → fs_repr cyl trk f5 f7 F → fs_room cyl trk f5 f7 →
  0 < start <= stop → stop < cyl * trk → fs_free_range F start stop →
  ∃ f4' f5' f7', vtoc_set_freespace f4 f5 f7 minus_ch start stop cyl trk = Done (f4', f5', f7') ∧
    fs_repr cyl trk f5' f7' (fs_del F start stop).
Proof.
  unfold fs_repr, fs_room. intros. destruct (big_disk cyl trk) eqn:Hb.
  - destruct (set_freespace_del_big f4 f5 f7 F start stop cyl trk) as (f4' & f7' & ? & ? & _);
      try done. by eexists f4', f5, f7'.
  - destruct (set_freespace_del_small f4 f5 f7 F start stop cyl trk) as (f5' & ? & ?); try done.
    by eexists f4, f5', f7.
Qed.

(** Taking a range whose first track is not free ends the program. *)
Lemma set_freespace_refuses f4 f5 f7 F start stop cyl trk :
  disk_ok cyl trk → fs_repr cyl trk f5 f7 F →
  0 < start <= stop → stop < cyl * trk → ¬ F start →
  vtoc_set_freespace f4 f5 f7 minus_ch start stop cyl trk = Exited 1.
Proof.
  intros (Ht & Hc & Hd) Hr Hs Hlt HF. unfold vtoc_set_freespace, fs_repr, big_disk in *.
  rewrite (u32_small (cyl * trk)) by nia. change (minus_ch =? plus_ch) with false.
  change (minus_ch =? minus_ch) with true. cbv iota.
  destruct (BIG_DISK_SIZE <? cyl * trk) eqn:E.
  - pose proof (f7_repr_length _ _ Hr) as H16. destruct Hr as (_ & _ & Hw & HF').
    unfold vtoc_update_format7_label_del. rewrite f7_del_refuses; [done|done| |by rewrite H16|].
    + rewrite u32_small by lia. lia.
    + intros m e Hm [H1 H2]. apply HF, HF'. exists m, e. split; [done|].
      rewrite u32_small in H2 by lia. lia.
  - pose proof (f5_repr_length _ _ _ Hr) as H26. destruct Hr as (_ & _ & Hw & HF').
    unfold BIG_DISK_SIZE in E. b2p.
    destruct (f5_range_ok trk start stop Ht Hs ltac:(lia)) as (Hok & Hu & Hend).
    unfold vtoc_update_format5_label_del. rewrite f5_del_refuses; [done|done|done| | |by rewrite H26|].
    + rewrite Hu. lia.
    + lia.
    + intros m e Hm Hin. apply HF, HF'. exists m, e. split; [done|]. by rewrite Hu in Hin.
Qed.

End Freespace.
