(* ===== verification/VtocProps.v ===== *)
(** Properties of libvtoc (src/libvtoc/vtoc.c): disk addresses, character
    translation, labels on the device, and the free-space labels as sets of
    tracks. *)
From S2P Require Import Prelude Ebcdic Cchh Codec Labels LabelOps VtocIo Extents Fmt7 Fmt5 Freespace.
Import Ebcdic Addr VtocIo Extents Fmt7 Fmt5 Freespace.

Module VtocProps.

(** ** Examples *)

(** a small volume with tracks 2..14 and 30..44 free, 15 tracks per cylinder *)
Definition demo_f5 : format5_label_t :=
  f5_with vtoc_init_format5_label
    ([Ds5ext 2 0 13; Ds5ext 30 1 0] ++ replicate 24 zero_ds5ext).

(** a large volume with tracks 2..99 and 200..299 free *)
Definition demo_f7 : format7_label_t :=
  f7_with vtoc_init_format7_label
    ([Ds7ext 2 100; Ds7ext 200 300] ++ replicate 14 zero_ds7ext).

Definition demo_small : freeset := λ t, 2 <= t <= 14 ∨ 30 <= t <= 44.
Definition demo_big : freeset := λ t, 2 <= t <= 99 ∨ 200 <= t <= 299.

(** A table with two extents in front of unused slots. *)
Section TwoExtents.
Context {E : Type} `{!Inhabited E} (ops : ext_ops E) (ok : E → Prop) (lo hi : E → Z).
Context `{!ExtLaws ops ok lo hi}.

Lemma two_lookup (a b : E) n i e :
  used_at ok ([a; b] ++ replicate n (e_zero ops)) i e → (i = 0%nat ∧ e = a) ∨ (i = 1%nat ∧ e = b).
Proof.
  intros [Hi Hok]. destruct i as [|[|i]]; simpl in Hi; simplify_eq; [by left|by right|].
  apply lookup_replicate in Hi as [-> _]. by apply zero_not_ok in Hok.
Qed.

Lemma two_wf (a b : E) n :
  ok a → ok b → hi a < lo b → table_wf ops ok lo hi ([a; b] ++ replicate n (e_zero ops)).
Proof.
  intros Ha Hb Hlt. split.
  - repeat (constructor; [by right|]). apply Forall_replicate. by left.
  - intros i j e f Hij Hi Hj.
    destruct (two_lookup _ _ _ _ _ Hi) as [[-> ->]|[-> ->]], (two_lookup _ _ _ _ _ Hj) as [[-> ->]|[-> ->]];
      try done; [left|right]; done.
Qed.

Lemma two_covers (a b : E) n t :
  ok a → ok b →
  covers ok lo hi ([a; b] ++ replicate n (e_zero ops)) t ↔ lo a <= t < hi a ∨ lo b <= t < hi b.
Proof.
  intros Ha Hb. split.
  - intros (i & e & Hi & Ht). destruct (two_lookup _ _ _ _ _ Hi) as [[_ ->]|[_ ->]]; auto.
  - intros [Ht|Ht]; [exists 0%nat, a|exists 1%nat, b]; done.
Qed.
End TwoExtents.

Lemma demo_f5_repr f7 : fs_repr 100 15 demo_f5 f7 demo_small.
Proof.
  change (f5_repr 15 demo_f5 demo_small).
  assert (H1 : f5_ok 15 (Ds5ext 2 0 13)) by (unfold f5_ok, f5_end; simpl; lia).
  assert (H2 : f5_ok 15 (Ds5ext 30 1 0)) by (unfold f5_ok, f5_end; simpl; lia).
  pose proof (f5_laws 15 ltac:(lia)) as HL.
  split; [done|]. split; [done|]. unfold demo_f5. rewrite f5_exts_with by done. split.
  - by apply (two_wf (f5_ops 15) (f5_ok 15) e5_t (f5_end 15)).
  - intros t. rewrite (two_covers (f5_ops 15) (f5_ok 15) e5_t (f5_end 15)) by done.
    unfold demo_small, f5_end. simpl. lia.
Qed.

Lemma demo_f7_repr f5 : fs_repr 10000 15 f5 demo_f7 demo_big.
Proof.
  change (f7_repr demo_f7 demo_big).
  assert (H1 : f7_ok (Ds7ext 2 100)) by (unfold f7_ok; simpl; lia).
  assert (H2 : f7_ok (Ds7ext 200 300)) by (unfold f7_ok; simpl; lia).
  split; [done|]. split; [done|]. unfold demo_f7. rewrite f7_exts_with. split.
  - by apply (two_wf f7_ops f7_ok e7_a e7_b).
  - intros t. rewrite (two_covers f7_ops f7_ok e7_a e7_b) by done. unfold demo_big. simpl. lia.
Qed.

(** ** Free space *)

(** C35: [vtoc_set_freespace] with '+' returns and enters a range of tracks that
    were not free: the label in use (format 5 up to 64K tracks, format 7 above)
    stands for exactly the old free tracks and the range, given one unused slot. *)
Theorem freespace_add_refines f4 f5 f7 F start stop cyl trk :
  disk_ok cyl trk → fs_repr cyl trk f5 f7 F → fs_room cyl trk f5 f7 →
  0 < start <= stop → stop < cyl * trk → (∀ t, start <= t <= stop → ¬ F t) →
  ∃ f4' f5' f7', vtoc_set_freespace f4 f5 f7 plus_ch start stop cyl trk = Done (f4', f5', f7') ∧
    fs_repr cyl trk f5' f7' (fs_add F start stop).
Proof. apply set_freespace_add. Qed.

(** Tracks 15..29 close the gap between the two free extents of a small volume. *)
Lemma freespace_add_refines_witness :
  ∃ f4' f5' f7',
    vtoc_set_freespace (vtoc_init_format4_label 100 100 15 12 4096 DASD_3390_TYPE) demo_f5
      vtoc_init_format7_label plus_ch 15 29 100 15 = Done (f4', f5', f7') ∧
    fs_repr 100 15 f5' f7' (fs_add demo_small 15 29).
Proof.
  apply freespace_add_refines.
  - unfold disk_ok. lia.
  - apply demo_f5_repr.
  - exists 2%nat. reflexivity.
  - lia.
  - lia.
  - unfold demo_small. lia.
Defined.

(** C36: [vtoc_set_freespace] with '-' returns and removes exactly the given
    tracks when all of them are free, also when the range splits a free extent. *)
Theorem freespace_del_refines f4 f5 f7 F start stop cyl trk :
  disk_ok cyl trk → fs_repr cyl trk f5 f7 F → fs_room cyl trk f5 f7 →
  0 < start <= stop → stop < cyl * trk → fs_free_range F start stop →
  ∃ f4' f5' f7', vtoc_set_freespace f4 f5 f7 minus_ch start stop cyl trk = Done (f4', f5', f7') ∧
    fs_repr cyl trk f5' f7' (fs_del F start stop).
Proof. apply set_freespace_del. Qed.

(** Tracks 220..229 split the second free extent of a large volume. *)
Lemma freespace_del_refines_witness :
  ∃ f4' f5' f7',
    vtoc_set_freespace (vtoc_init_format4_label 10000 10000 15 12 4096 DASD_3390_TYPE)
      vtoc_init_format5_label demo_f7 minus_ch 220 229 10000 15 = Done (f4', f5', f7') ∧
    fs_repr 10000 15 f5' f7' (fs_del demo_big 220 229).
Proof.
  apply freespace_del_refines.
  - unfold disk_ok. lia.
  - apply demo_f7_repr.
  - exists 2%nat. reflexivity.
  - lia.
  - lia.
  - unfold fs_free_range, demo_big. lia.
Defined.

(** [vtoc_set_freespace] with '-' ends the program with code 1 when the
    first track of the range is not free; no label is changed. *)
Theorem freespace_del_refuses f4 f5 f7 F start stop cyl trk :
  disk_ok cyl trk → fs_repr cyl trk f5 f7 F →
  0 < start <= stop → stop < cyl * trk → ¬ F start →
  vtoc_set_freespace f4 f5 f7 minus_ch start stop cyl trk = Exited 1.
Proof. apply set_freespace_refuses. Qed.

Lemma freespace_del_refuses_witness :
  vtoc_set_freespace (vtoc_init_format4_label 100 100 15 12 4096 DASD_3390_TYPE) demo_f5
    vtoc_init_format7_label minus_ch 20 35 100 15 = Exited 1.
Proof.
  apply (freespace_del_refuses _ _ _ demo_small).
  - unfold disk_ok. lia.
  - apply demo_f5_repr.
  - lia.
  - lia.
  - unfold demo_small. lia.
Defined.

(** [vtoc_reorganize_FMT7_extents] permutes the sixteen extents into
    ascending order of their first track, with the unused slots at the end. *)
Theorem reorganize_FMT7_sorts f7 :
  Forall (λ e, 0 <= e7_a e) (f7_exts f7) →
  f7_exts (vtoc_reorganize_FMT7_extents f7) ≡ₚ f7_exts f7 ∧
  table_sorted f7_ops (f7_exts (vtoc_reorganize_FMT7_extents f7)).
Proof.
  intros H. unfold vtoc_reorganize_FMT7_extents. rewrite f7_exts_with.
  by apply (table_reorganize_spec f7_ops).
Qed.

Lemma reorganize_FMT7_sorts_witness :
  let f7 := f7_with vtoc_init_format7_label
              ([zero_ds7ext; Ds7ext 200 300; Ds7ext 2 100] ++ replicate 13 zero_ds7ext) in
  f7_exts (vtoc_reorganize_FMT7_extents f7) ≡ₚ f7_exts f7 ∧
  table_sorted f7_ops (f7_exts (vtoc_reorganize_FMT7_extents f7)) ∧
  vtoc_reorganize_FMT7_extents f7 = demo_f7.
Proof.
  intros f7. assert (H : Forall (λ e, 0 <= e7_a e) (f7_exts f7)).
  { unfold f7. rewrite f7_exts_with. do 3 (constructor; [simpl; lia|]). apply Forall_replicate. simpl. lia. }
  destruct (reorganize_FMT7_sorts f7 H) as [H1 H2]. split; [exact H1|]. split; [exact H2|]. by vm_compute.
Defined.

(** [vtoc_reorganize_FMT5_extents] does the same with the 26 extents of a
    format 5 label. *)
Theorem reorganize_FMT5_sorts f5 :
  Forall (λ e, 0 <= e5_t e) (f5_exts f5) →
  f5_exts (vtoc_reorganize_FMT5_extents f5) ≡ₚ f5_exts f5 ∧
  table_sorted (f5_ops 0) (f5_exts (vtoc_reorganize_FMT5_extents f5)).
Proof.
  intros H. unfold vtoc_reorganize_FMT5_extents.
  destruct (table_reorganize_spec (f5_ops 0) (f5_exts f5) H) as [Hp Hs].
  rewrite f5_exts_with; [done|]. intros E. rewrite E in Hp. by apply Permutation_nil in Hp.
Qed.

Lemma reorganize_FMT5_sorts_witness :
  let f5 := f5_with vtoc_init_format5_label
              ([Ds5ext 30 1 0; zero_ds5ext; Ds5ext 2 0 13] ++ replicate 23 zero_ds5ext) in
  f5_exts (vtoc_reorganize_FMT5_extents f5) ≡ₚ f5_exts f5 ∧
  table_sorted (f5_ops 0) (f5_exts (vtoc_reorganize_FMT5_extents f5)) ∧
  vtoc_reorganize_FMT5_extents f5 = demo_f5.
Proof.
  intros f5. assert (H : Forall (λ e, 0 <= e5_t e) (f5_exts f5)).
  { unfold f5. rewrite f5_exts_with by done. do 3 (constructor; [simpl; lia|]). apply Forall_replicate. simpl. lia. }
  destruct (reorganize_FMT5_sorts f5 H) as [H1 H2]. split; [exact H1|]. split; [exact H2|]. by vm_compute.
Defined.

(** A request for the first tracks of a free extent is tested with "or"
    instead of a comparison of track counts: taking 2 cylinders and 5 tracks from
    an extent of 1 cylinder and 10 tracks is not refused, and the count of whole
    cylinders wraps around to 65535. *)
Theorem format5_del_wraps :
  vtoc_update_format5_label_del
    (f5_with vtoc_init_format5_label (Ds5ext 2 1 10 :: replicate 25 zero_ds5ext)) 15 2 2 5 =
  Done (f5_with vtoc_init_format5_label (Ds5ext 37 65535 5 :: replicate 25 zero_ds5ext)).
Proof. by vm_compute. Qed.

(** ** Disk addresses *)

(** Cylinder numbers of up to 28 bits and head numbers of up to 4 bits
    survive [vtoc_set_cchh], and so do they in [vtoc_set_cchhb]. *)
Theorem address_keeps_cylinder_and_head cc hh b :
  0 <= cc < 2 ^ 28 → 0 <= hh < 16 →
  (vtoc_get_cyl_from_cchh (vtoc_set_cchh cc hh) = cc ∧
   vtoc_get_head_from_cchh (vtoc_set_cchh cc hh) = hh) ∧
  (vtoc_get_cyl_from_cchhb (vtoc_set_cchhb cc hh b) = cc ∧
   vtoc_get_head_from_cchhb (vtoc_set_cchhb cc hh b) = hh).
Proof. intros Hc Hh. split; [by apply cchh_cyl_head_roundtrip|by apply cchhb_cyl_head_roundtrip]. Qed.

Lemma address_keeps_cylinder_and_head_witness :
  (vtoc_get_cyl_from_cchh (vtoc_set_cchh 70000 14) = 70000 ∧
   vtoc_get_head_from_cchh (vtoc_set_cchh 70000 14) = 14) ∧
  (vtoc_get_cyl_from_cchhb (vtoc_set_cchhb 70000 14 3) = 70000 ∧
   vtoc_get_head_from_cchhb (vtoc_set_cchhb 70000 14 3) = 14).
Proof. apply address_keeps_cylinder_and_head; lia. Defined.

(** Every 32-bit address is the encoding of its own cylinder and head, so
    the encoding has no unused bit patterns. *)
Theorem address_is_its_encoding p :
  cchh_ok p → vtoc_set_cchh (vtoc_get_cyl_from_cchh p) (vtoc_get_head_from_cchh p) = p.
Proof. apply cchh_address_roundtrip. Qed.

Lemma address_is_its_encoding_witness :
  vtoc_set_cchh (vtoc_get_cyl_from_cchh (Cchh 0x1234 0xffef)) (vtoc_get_head_from_cchh (Cchh 0x1234 0xffef))
  = Cchh 0x1234 0xffef.
Proof. apply address_is_its_encoding. split; unfold in_u16; simpl; lia. Defined.

(** The track number of the address of a track is the track. *)
Theorem track_of_address geo trk :
  0 < geo_heads geo <= 16 → 0 <= trk < 2 ^ 28 →
  cchh2trk (vtoc_set_cchh (trk / geo_heads geo) (trk mod geo_heads geo)) geo = trk.
Proof. apply cchh2trk_of_trk. Qed.

Lemma track_of_address_witness :
  cchh2trk (vtoc_set_cchh (1000007 / 15) (1000007 mod 15)) (Geo 15 12 65534 0) = 1000007.
Proof. apply (track_of_address (Geo 15 12 65534 0)); simpl; lia. Defined.

(** [cchhb2blk] numbers the records of a volume without gaps or collisions:
    cylinder, head and record can be read off the block number. *)
Theorem block_number_decodes geo cc hh b :
  geo_ok geo → 0 <= cc < 2 ^ 28 → 0 <= hh < geo_heads geo → 1 <= b <= geo_sectors geo →
  let blk := cchhb2blk (vtoc_set_cchhb cc hh b) geo in
  blk_cyl geo blk = cc ∧ blk_head geo blk = hh ∧ blk_rec geo blk = b.
Proof. apply cchhb2blk_decode. Qed.

Lemma block_number_decodes_witness :
  let blk := cchhb2blk (vtoc_set_cchhb 70000 14 12) (Geo 15 12 65534 0) in
  blk_cyl (Geo 15 12 65534 0) blk = 70000 ∧ blk_head (Geo 15 12 65534 0) blk = 14 ∧
  blk_rec (Geo 15 12 65534 0) blk = 12.
Proof.
  apply block_number_decodes; [|simpl; lia..]. unfold geo_ok, in_u16. simpl. lia.
Defined.

(** ** Characters and serials *)

(** Decoding an encoded printable ASCII character gives it back exactly if
    it is none of '[', ']' and '^', on which the two tables disagree. *)
Theorem ebcdic_inverse_on_printable c :
  0x20 <= c <= 0x7e → ebc2asc (asc2ebc c) = c ↔ roundtrip_char c = true.
Proof. apply ebcdic_roundtrip_printable. Qed.

Lemma ebcdic_inverse_on_printable_witness :
  (ebc2asc (asc2ebc 65) = 65 ↔ roundtrip_char 65 = true) ∧
  ebc2asc (asc2ebc 0x5b) ≠ 0x5b ∧ roundtrip_char 0x5b = false.
Proof.
  split; [apply ebcdic_inverse_on_printable; lia|]. split; [by vm_compute|reflexivity].
Defined.

(** The volume serial that is read from a label is the one that was set: its
    first six characters in upper case, padded with blanks. *)
Theorem volser_roundtrip v volser :
  Forall (λ c, roundtrip_char (toupper c) = true ∧ in_u8 c) volser →
  vtoc_volume_label_get_volser (vtoc_volume_label_set_volser v volser) =
    let s := map toupper (take VOLSER_LENGTH (cstr volser)) in
    s ++ replicate (VOLSER_LENGTH - length s) 32.
Proof. apply volser_get_set. Qed.

Lemma volser_roundtrip_witness :
  vtoc_volume_label_get_volser
    (vtoc_volume_label_set_volser (cdec cvolume_label (zeros 92)) (bytes_of_string "ab12")) =
  bytes_of_string "AB12  ".
Proof.
  rewrite volser_roundtrip; [reflexivity|].
  do 4 (constructor; [split; [reflexivity|split; vm_compute; congruence]|]). constructor.
Defined.

(** ** Labels on the device *)

(** A format 1, 4, 5 or 7 label that [vtoc_write_label] wrote is read back
    unchanged by [vtoc_read_label], and no byte outside of its 140 bytes changes. *)
Theorem label_write_read d pos l1 l4 l5 l7 :
  dev_readable d = true → dev_writable d = true → on_device d pos 140 →
  cvalid cformat1 l1 → cvalid cformat4 l4 → cvalid cformat5 l5 → cvalid cformat7 l7 →
  (∃ d', vtoc_write_label d pos (Some l1) None None None None = Done d' ∧ written d d' pos 140 ∧
     vtoc_read_label d' pos true false false false = Done (Some l1, None, None, None)) ∧
  (∃ d', vtoc_write_label d pos None (Some l4) None None None = Done d' ∧ written d d' pos 140 ∧
     vtoc_read_label d' pos false true false false = Done (None, Some l4, None, None)) ∧
  (∃ d', vtoc_write_label d pos None None (Some l5) None None = Done d' ∧ written d d' pos 140 ∧
     vtoc_read_label d' pos false false true false = Done (None, None, Some l5, None)) ∧
  (∃ d', vtoc_write_label d pos None None None (Some l7) None = Done d' ∧ written d d' pos 140 ∧
     vtoc_read_label d' pos false false false true = Done (None, None, None, Some l7)).
Proof.
  intros Hr Hw Hd H1 H4 H5 H7.
  rewrite write_label_1, write_label_4, write_label_5, write_label_7.
  split; [|split; [|split]].
  - destruct (put_get cformat1 d pos l1 H1 Hw Hd) as (d' & E & Hu & _ & Hg). exists d'.
    rewrite read_label_1, (Hg Hr). done.
  - destruct (put_get cformat4 d pos l4 H4 Hw Hd) as (d' & E & Hu & _ & Hg). exists d'.
    rewrite read_label_4, (Hg Hr). done.
  - destruct (put_get cformat5 d pos l5 H5 Hw Hd) as (d' & E & Hu & _ & Hg). exists d'.
    rewrite read_label_5, (Hg Hr). done.
  - destruct (put_get cformat7 d pos l7 H7 Hw Hd) as (d' & E & Hu & _ & Hg). exists d'.
    rewrite read_label_7, (Hg Hr). done.
Qed.

(** a device of four blocks of 512 bytes *)
Definition demo_dev : device := Device true true (zeros 2048).

Lemma zero_format1_valid : cvalid cformat1 (cdec cformat1 (zeros 140)).
Proof. apply cdec_valid; [done|]. apply Forall_replicate. split; lia. Qed.

Lemma label_write_read_witness :
  ∃ d', vtoc_write_label demo_dev 512 None None (Some demo_f5) None None = Done d' ∧ written demo_dev d' 512 140 ∧
    vtoc_read_label d' 512 false false true false = Done (None, None, Some demo_f5, None).
Proof.
  assert (Hd : on_device demo_dev 512 140) by (split; [lia|]; split; [simpl; lia|reflexivity]).
  assert (H5 : cvalid cformat5 demo_f5).
  { apply (cdec_valid (c := cformat5) (cenc cformat5 demo_f5)); [reflexivity|].
    apply bytes_ok_compute. by vm_compute. }
  destruct (label_write_read demo_dev 512 (cdec cformat1 (zeros 140))
    (vtoc_init_format4_label 100 100 15 12 4096 DASD_3390_TYPE) demo_f5 vtoc_init_format7_label
    eq_refl eq_refl Hd zero_format1_valid (vtoc_init_format4_valid _ _ _ _ _ _) H5 vtoc_init_format7_valid)
    as (_ & _ & H & _). exact H.
Defined.

(** A volume label that [vtoc_write_volume_label] wrote is read back unchanged. *)
Theorem volume_label_write_read d pos vlabel :
  dev_readable d = true → dev_writable d = true → on_device d pos 92 → cvalid cvolume_label vlabel →
  ∃ d', vtoc_write_volume_label d pos vlabel = Done d' ∧ written d d' pos 92 ∧
    vtoc_read_volume_label d' pos = Done vlabel.
Proof.
  intros Hr Hw Hd Hv. destruct (put_get cvolume_label d pos vlabel Hv Hw Hd) as (d' & E & Hu & _ & Hg).
  exists d'. split; [exact E|]. split; [exact Hu|]. exact (Hg Hr).
Qed.

Lemma volume_label_write_read_witness :
  let v := vtoc_volume_label_set_volser (cdec cvolume_label (zeros 92)) (bytes_of_string "LX0150") in
  ∃ d', vtoc_write_volume_label demo_dev 1024 v = Done d' ∧ written demo_dev d' 1024 92 ∧
    vtoc_read_volume_label d' 1024 = Done v.
Proof.
  intros v. apply volume_label_write_read; [done|done| |].
  - split; [lia|]. split; [simpl; lia|reflexivity].
  - apply (cdec_valid (c := cvolume_label) (cenc cvolume_label v)); [reflexivity|].
    apply bytes_ok_compute. by vm_compute.
Defined.

(** The labels that the initializers produce fit their packed structures for
    every geometry, extent and date, and all data set control blocks have the
    same 140 bytes, so that one is read or copied as another. *)
Theorem initial_labels_valid cc rc tr bl bs ty now blksize ext f1 :
  cvalid cextent ext → cvalid cformat1 f1 →
  cvalid cformat4 (vtoc_init_format4_label cc rc tr bl bs ty) ∧
  cvalid cformat5 vtoc_init_format5_label ∧ cvalid cformat7 vtoc_init_format7_label ∧
  cvalid cformat1 (vtoc_init_format1_label now blksize ext f1) ∧
  cvalid cformat1 (vtoc_init_format8_label now blksize ext f1) ∧
  csize cformat1 = 140%nat ∧ csize cformat4 = 140%nat ∧ csize cformat5 = 140%nat ∧
  csize cformat7 = 140%nat ∧ csize cformat9 = 140%nat.
Proof.
  intros He Hf. destruct (vtoc_init_format1_valid now blksize ext f1 He Hf).
  split; [apply vtoc_init_format4_valid|]. split; [apply vtoc_init_format5_valid|].
  split; [apply vtoc_init_format7_valid|]. split; [done|]. split; [done|]. by vm_compute.
Qed.

Lemma initial_labels_valid_witness :
  let f1 := vtoc_init_format1_label {| tm_year := 124; tm_yday := 59 |} 4096
              (vtoc_set_extent 1 0 (vtoc_set_cchh 0 2) (vtoc_set_cchh 99 14)) (cdec cformat1 (zeros 140)) in
  cvalid cformat1 f1 ∧ DS1FMTID f1 = 0xf1.
Proof.
  intros f1. split; [|reflexivity].
  eapply (initial_labels_valid 100 100 15 12 4096 DASD_3390_TYPE); [|exact zero_format1_valid].
  apply (cdec_valid (c := cextent)
    (cenc cextent (vtoc_set_extent 1 0 (vtoc_set_cchh 0 2) (vtoc_set_cchh 99 14)))); [reflexivity|].
  apply bytes_ok_compute. by vm_compute.
Defined.

End VtocProps.
