(* ===== verification/FdasdState.v ===== *)
(** State of fdasd (src/fdasd/fdasd.h, src/fdasd/fdasd.c): the partition records
    with their list pointers, the anchor, and the small operations every
    command uses. *)
From S2P Require Import Prelude Ebcdic Cchh Codec Labels LabelOps.
Import Ebcdic Addr.

Definition USABLE_PARTITIONS : nat := 3.

(** [partition_info_t]: [p_next] and [p_prev] are the list pointers, as places in [t_parts] *)
Record partition_info := PartInfo {
  p_used : Z;
  p_start_trk : Z;
  p_end_trk : Z;
  p_len_trk : Z;
  p_fspace_trk : Z;
  p_f1 : format1_label_t;
  p_type : Z;
  p_next : option nat;
  p_prev : option nat
}.

Definition set_p_used (v : Z) (r : partition_info) : partition_info :=
  PartInfo v (p_start_trk r) (p_end_trk r) (p_len_trk r) (p_fspace_trk r) (p_f1 r)
    (p_type r) (p_next r) (p_prev r).
Definition set_p_start_trk (v : Z) (r : partition_info) : partition_info :=
  PartInfo (p_used r) v (p_end_trk r) (p_len_trk r) (p_fspace_trk r) (p_f1 r) (p_type
    r) (p_next r) (p_prev r).
Definition set_p_end_trk (v : Z) (r : partition_info) : partition_info :=
  PartInfo (p_used r) (p_start_trk r) v (p_len_trk r) (p_fspace_trk r) (p_f1 r)
    (p_type r) (p_next r) (p_prev r).
Definition set_p_len_trk (v : Z) (r : partition_info) : partition_info :=
  PartInfo (p_used r) (p_start_trk r) (p_end_trk r) v (p_fspace_trk r) (p_f1 r)
    (p_type r) (p_next r) (p_prev r).
Definition set_p_fspace_trk (v : Z) (r : partition_info) : partition_info :=
  PartInfo (p_used r) (p_start_trk r) (p_end_trk r) (p_len_trk r) v (p_f1 r) (p_type
    r) (p_next r) (p_prev r).
Definition set_p_f1 (v : format1_label_t) (r : partition_info) : partition_info :=
  PartInfo (p_used r) (p_start_trk r) (p_end_trk r) (p_len_trk r) (p_fspace_trk r) v
    (p_type r) (p_next r) (p_prev r).
Definition set_p_type (v : Z) (r : partition_info) : partition_info :=
  PartInfo (p_used r) (p_start_trk r) (p_end_trk r) (p_len_trk r) (p_fspace_trk r)
    (p_f1 r) v (p_next r) (p_prev r).
Definition set_p_next (v : option nat) (r : partition_info) : partition_info :=
  PartInfo (p_used r) (p_start_trk r) (p_end_trk r) (p_len_trk r) (p_fspace_trk r)
    (p_f1 r) (p_type r) v (p_prev r).
Definition set_p_prev (v : option nat) (r : partition_info) : partition_info :=
  PartInfo (p_used r) (p_start_trk r) (p_end_trk r) (p_len_trk r) (p_fspace_trk r)
    (p_f1 r) (p_type r) (p_next r) v.

(** [config_data_t]: one entry of the configuration file *)
Record config_data := ConfigData {
  c_start : Z;
  c_stop : Z;
  c_type : Z
}.

Definition set_c_start (v : Z) (r : config_data) : config_data :=
  ConfigData v (c_stop r) (c_type r).
Definition set_c_stop (v : Z) (r : config_data) : config_data :=
  ConfigData (c_start r) v (c_type r).
Definition set_c_type (v : Z) (r : config_data) : config_data :=
  ConfigData (c_start r) (c_stop r) v.

(** The fields of the anchor that hold the partition list: [t_parts] are the
    allocated records, [t_first] and [t_last] point to the ends of their list,
    [t_fspace_trk] counts the free tracks in front of the first one and
    [t_partno] gives the list position of each data set number. *)
Record ptable := PTable {
  t_partno : list Z;
  t_fspace_trk : Z;
  t_first : nat;
  t_last : nat;
  t_parts : list partition_info
}.

Definition set_t_partno (v : list Z) (r : ptable) : ptable :=
  PTable v (t_fspace_trk r) (t_first r) (t_last r) (t_parts r).
Definition set_t_fspace_trk (v : Z) (r : ptable) : ptable :=
  PTable (t_partno r) v (t_first r) (t_last r) (t_parts r).
Definition set_t_first (v : nat) (r : ptable) : ptable :=
  PTable (t_partno r) (t_fspace_trk r) v (t_last r) (t_parts r).
Definition set_t_last (v : nat) (r : ptable) : ptable :=
  PTable (t_partno r) (t_fspace_trk r) (t_first r) v (t_parts r).
Definition set_t_parts (v : list partition_info) (r : ptable) : ptable :=
  PTable (t_partno r) (t_fspace_trk r) (t_first r) (t_last r) v.

(** The fields of the anchor that only the command line sets. *)
Record anchor_options := AnchorOptions {
  o_auto_partition : Z;
  o_print_table : Z;
  o_print_volser : Z;
  o_keep_volser : Z;
  o_force_virtual : Z;
  o_force_host : Z;
  o_silent : Z;
  o_verbose : Z;
  o_option_reuse : Z;
  o_option_recreate : Z
}.

(** [fdasd_anchor_t] *)
Record fdasd_anchor := Anchor {
  a_options : anchor_options;
  a_vlabel_changed : Z;
  a_vtoc_changed : Z;
  a_big_disk : Z;
  a_devno : Z;
  a_dev_type : Z;
  a_used_partitions : Z;
  a_label_pos : Z;
  a_blksize : Z;
  a_tab : ptable;
  a_f4 : format4_label_t;
  a_f5 : format5_label_t;
  a_f7 : format7_label_t;
  a_f9 : format9_label_t;
  a_vlabel : volume_label_t;
  a_confdata : list config_data;
  a_hw_cylinders : Z;
  a_formatted_cylinders : Z
}.

Definition set_a_options (v : anchor_options) (r : fdasd_anchor) : fdasd_anchor :=
  Anchor v (a_vlabel_changed r) (a_vtoc_changed r) (a_big_disk r) (a_devno r)
    (a_dev_type r) (a_used_partitions r) (a_label_pos r) (a_blksize r) (a_tab r) (a_f4
    r) (a_f5 r) (a_f7 r) (a_f9 r) (a_vlabel r) (a_confdata r) (a_hw_cylinders r)
    (a_formatted_cylinders r).
Definition set_a_vlabel_changed (v : Z) (r : fdasd_anchor) : fdasd_anchor :=
  Anchor (a_options r) v (a_vtoc_changed r) (a_big_disk r) (a_devno r) (a_dev_type r)
    (a_used_partitions r) (a_label_pos r) (a_blksize r) (a_tab r) (a_f4 r) (a_f5 r)
    (a_f7 r) (a_f9 r) (a_vlabel r) (a_confdata r) (a_hw_cylinders r)
    (a_formatted_cylinders r).
Definition set_a_vtoc_changed (v : Z) (r : fdasd_anchor) : fdasd_anchor :=
  Anchor (a_options r) (a_vlabel_changed r) v (a_big_disk r) (a_devno r) (a_dev_type
    r) (a_used_partitions r) (a_label_pos r) (a_blksize r) (a_tab r) (a_f4 r) (a_f5 r)
    (a_f7 r) (a_f9 r) (a_vlabel r) (a_confdata r) (a_hw_cylinders r)
    (a_formatted_cylinders r).
Definition set_a_big_disk (v : Z) (r : fdasd_anchor) : fdasd_anchor :=
  Anchor (a_options r) (a_vlabel_changed r) (a_vtoc_changed r) v (a_devno r)
    (a_dev_type r) (a_used_partitions r) (a_label_pos r) (a_blksize r) (a_tab r) (a_f4
    r) (a_f5 r) (a_f7 r) (a_f9 r) (a_vlabel r) (a_confdata r) (a_hw_cylinders r)
    (a_formatted_cylinders r).
Definition set_a_devno (v : Z) (r : fdasd_anchor) : fdasd_anchor :=
  Anchor (a_options r) (a_vlabel_changed r) (a_vtoc_changed r) (a_big_disk r) v
    (a_dev_type r) (a_used_partitions r) (a_label_pos r) (a_blksize r) (a_tab r) (a_f4
    r) (a_f5 r) (a_f7 r) (a_f9 r) (a_vlabel r) (a_confdata r) (a_hw_cylinders r)
    (a_formatted_cylinders r).
Definition set_a_dev_type (v : Z) (r : fdasd_anchor) : fdasd_anchor :=
  Anchor (a_options r) (a_vlabel_changed r) (a_vtoc_changed r) (a_big_disk r) (a_devno
    r) v (a_used_partitions r) (a_label_pos r) (a_blksize r) (a_tab r) (a_f4 r) (a_f5
    r) (a_f7 r) (a_f9 r) (a_vlabel r) (a_confdata r) (a_hw_cylinders r)
    (a_formatted_cylinders r).
Definition set_a_used_partitions (v : Z) (r : fdasd_anchor) : fdasd_anchor :=
  Anchor (a_options r) (a_vlabel_changed r) (a_vtoc_changed r) (a_big_disk r) (a_devno
    r) (a_dev_type r) v (a_label_pos r) (a_blksize r) (a_tab r) (a_f4 r) (a_f5 r)
    (a_f7 r) (a_f9 r) (a_vlabel r) (a_confdata r) (a_hw_cylinders r)
    (a_formatted_cylinders r).
Definition set_a_label_pos (v : Z) (r : fdasd_anchor) : fdasd_anchor :=
  Anchor (a_options r) (a_vlabel_changed r) (a_vtoc_changed r) (a_big_disk r) (a_devno
    r) (a_dev_type r) (a_used_partitions r) v (a_blksize r) (a_tab r) (a_f4 r) (a_f5
    r) (a_f7 r) (a_f9 r) (a_vlabel r) (a_confdata r) (a_hw_cylinders r)
    (a_formatted_cylinders r).
Definition set_a_blksize (v : Z) (r : fdasd_anchor) : fdasd_anchor :=
  Anchor (a_options r) (a_vlabel_changed r) (a_vtoc_changed r) (a_big_disk r) (a_devno
    r) (a_dev_type r) (a_used_partitions r) (a_label_pos r) v (a_tab r) (a_f4 r) (a_f5
    r) (a_f7 r) (a_f9 r) (a_vlabel r) (a_confdata r) (a_hw_cylinders r)
    (a_formatted_cylinders r).
Definition set_a_tab (v : ptable) (r : fdasd_anchor) : fdasd_anchor :=
  Anchor (a_options r) (a_vlabel_changed r) (a_vtoc_changed r) (a_big_disk r) (a_devno
    r) (a_dev_type r) (a_used_partitions r) (a_label_pos r) (a_blksize r) v (a_f4 r)
    (a_f5 r) (a_f7 r) (a_f9 r) (a_vlabel r) (a_confdata r) (a_hw_cylinders r)
    (a_formatted_cylinders r).
Definition set_a_f4 (v : format4_label_t) (r : fdasd_anchor) : fdasd_anchor :=
  Anchor (a_options r) (a_vlabel_changed r) (a_vtoc_changed r) (a_big_disk r) (a_devno
    r) (a_dev_type r) (a_used_partitions r) (a_label_pos r) (a_blksize r) (a_tab r) v
    (a_f5 r) (a_f7 r) (a_f9 r) (a_vlabel r) (a_confdata r) (a_hw_cylinders r)
    (a_formatted_cylinders r).
Definition set_a_f5 (v : format5_label_t) (r : fdasd_anchor) : fdasd_anchor :=
  Anchor (a_options r) (a_vlabel_changed r) (a_vtoc_changed r) (a_big_disk r) (a_devno
    r) (a_dev_type r) (a_used_partitions r) (a_label_pos r) (a_blksize r) (a_tab r)
    (a_f4 r) v (a_f7 r) (a_f9 r) (a_vlabel r) (a_confdata r) (a_hw_cylinders r)
    (a_formatted_cylinders r).
Definition set_a_f7 (v : format7_label_t) (r : fdasd_anchor) : fdasd_anchor :=
  Anchor (a_options r) (a_vlabel_changed r) (a_vtoc_changed r) (a_big_disk r) (a_devno
    r) (a_dev_type r) (a_used_partitions r) (a_label_pos r) (a_blksize r) (a_tab r)
    (a_f4 r) (a_f5 r) v (a_f9 r) (a_vlabel r) (a_confdata r) (a_hw_cylinders r)
    (a_formatted_cylinders r).
Definition set_a_f9 (v : format9_label_t) (r : fdasd_anchor) : fdasd_anchor :=
  Anchor (a_options r) (a_vlabel_changed r) (a_vtoc_changed r) (a_big_disk r) (a_devno
    r) (a_dev_type r) (a_used_partitions r) (a_label_pos r) (a_blksize r) (a_tab r)
    (a_f4 r) (a_f5 r) (a_f7 r) v (a_vlabel r) (a_confdata r) (a_hw_cylinders r)
    (a_formatted_cylinders r).
Definition set_a_vlabel (v : volume_label_t) (r : fdasd_anchor) : fdasd_anchor :=
  Anchor (a_options r) (a_vlabel_changed r) (a_vtoc_changed r) (a_big_disk r) (a_devno
    r) (a_dev_type r) (a_used_partitions r) (a_label_pos r) (a_blksize r) (a_tab r)
    (a_f4 r) (a_f5 r) (a_f7 r) (a_f9 r) v (a_confdata r) (a_hw_cylinders r)
    (a_formatted_cylinders r).
Definition set_a_confdata (v : list config_data) (r : fdasd_anchor) : fdasd_anchor :=
  Anchor (a_options r) (a_vlabel_changed r) (a_vtoc_changed r) (a_big_disk r) (a_devno
    r) (a_dev_type r) (a_used_partitions r) (a_label_pos r) (a_blksize r) (a_tab r)
    (a_f4 r) (a_f5 r) (a_f7 r) (a_f9 r) (a_vlabel r) v (a_hw_cylinders r)
    (a_formatted_cylinders r).
Definition set_a_hw_cylinders (v : Z) (r : fdasd_anchor) : fdasd_anchor :=
  Anchor (a_options r) (a_vlabel_changed r) (a_vtoc_changed r) (a_big_disk r) (a_devno
    r) (a_dev_type r) (a_used_partitions r) (a_label_pos r) (a_blksize r) (a_tab r)
    (a_f4 r) (a_f5 r) (a_f7 r) (a_f9 r) (a_vlabel r) (a_confdata r) v
    (a_formatted_cylinders r).
Definition set_a_formatted_cylinders (v : Z) (r : fdasd_anchor) : fdasd_anchor :=
  Anchor (a_options r) (a_vlabel_changed r) (a_vtoc_changed r) (a_big_disk r) (a_devno
    r) (a_dev_type r) (a_used_partitions r) (a_label_pos r) (a_blksize r) (a_tab r)
    (a_f4 r) (a_f5 r) (a_f7 r) (a_f9 r) (a_vlabel r) (a_confdata r) (a_hw_cylinders r)
    v.

Definition a_auto_partition (anc : fdasd_anchor) : Z := o_auto_partition (a_options anc).
Definition a_print_table (anc : fdasd_anchor) : Z := o_print_table (a_options anc).
Definition a_print_volser (anc : fdasd_anchor) : Z := o_print_volser (a_options anc).
Definition a_keep_volser (anc : fdasd_anchor) : Z := o_keep_volser (a_options anc).
Definition a_force_virtual (anc : fdasd_anchor) : Z := o_force_virtual (a_options anc).
Definition a_force_host (anc : fdasd_anchor) : Z := o_force_host (a_options anc).
Definition a_silent (anc : fdasd_anchor) : Z := o_silent (a_options anc).
Definition a_verbose (anc : fdasd_anchor) : Z := o_verbose (a_options anc).
Definition a_option_reuse (anc : fdasd_anchor) : Z := o_option_reuse (a_options anc).
Definition a_option_recreate (anc : fdasd_anchor) : Z := o_option_recreate (a_options anc).
Definition a_partno (anc : fdasd_anchor) : list Z := t_partno (a_tab anc).
Definition a_fspace_trk (anc : fdasd_anchor) : Z := t_fspace_trk (a_tab anc).
Definition a_first (anc : fdasd_anchor) : nat := t_first (a_tab anc).
Definition a_last (anc : fdasd_anchor) : nat := t_last (a_tab anc).
Definition a_parts (anc : fdasd_anchor) : list partition_info := t_parts (a_tab anc).

Definition zero_format1 : format1_label_t := cdec cformat1 (zeros 140).
Definition zero_format4 : format4_label_t := cdec cformat4 (zeros 140).
Definition zero_format5 : format5_label_t := cdec cformat5 (zeros 140).
Definition zero_format7 : format7_label_t := cdec cformat7 (zeros 140).
Definition zero_format9 : format9_label_t := cdec cformat9 (zeros 140).
Definition zero_volume_label : volume_label_t := cdec cvolume_label (zeros 92).

Definition zero_part : partition_info := PartInfo 0 0 0 0 0 zero_format1 0 None None.
#[export] Instance partition_info_inhabited : Inhabited partition_info := populate zero_part.
#[export] Instance config_data_inhabited : Inhabited config_data := populate (ConfigData 0 0 0).

Module Fdasd.

(** ** Errors *)

Inductive fdasd_failure :=
  | parser_failed | unable_to_open_disk | unable_to_seek_disk | unable_to_read_disk
  | read_only_disk | unable_to_ioctl | wrong_disk_type | wrong_disk_format | disk_in_use
  | config_syntax_error | vlabel_corrupted | dsname_corrupted | malloc_failed
  | device_verification_failed | volser_not_found.

(** Every failure prints its message and ends the process with [EXIT_FAILURE]. *)
Definition fdasd_error {A} (why : fdasd_failure) : outcome A := Exited 1.

(** ** Partition types *)

Definition PARTITION_NEW : Z := 0.
Definition PARTITION_NATIVE : Z := 1.
Definition PARTITION_SWAP : Z := 2.
Definition PARTITION_RAID : Z := 3.
Definition PARTITION_LVM : Z := 4.
Definition PARTITION_GPFS : Z := 5.

Record partition_type := PType { pt_name : string; pt_dsname : string; pt_type : Z }.

Definition partition_types : list partition_type :=
  [ PType "Linux native" "NEW" PARTITION_NATIVE;
    PType "Linux native" "NATIVE" PARTITION_NATIVE;
    PType "Linux swap" "SWAP" PARTITION_SWAP;
    PType "Linux raid" "RAID" PARTITION_RAID;
    PType "Linux lvm" "LVM" PARTITION_LVM;
    PType "GPFS NSD" "GPFS" PARTITION_GPFS ].

(** first entry of the table whose DSNAME occurs in [dsname] *)
Fixpoint find_type (dsname : list Z) (l : list partition_type) : option partition_type :=
  match l with
  | [] => None
  | p :: l => match strstr dsname (bytes_of_string (pt_dsname p)) with
              | Some _ => Some p
              | None => find_type dsname l
              end
  end.

(** [None] is the error return; a NULL [dsname] stands for a native partition *)
Definition get_part_name_by_dsname (dsname : option (list Z)) : option string :=
  match dsname with
  | None => Some "Linux native"
  | Some d => pt_name <$> find_type d partition_types
  end.

Definition get_part_type_by_dsname (dsname : option (list Z)) : option Z :=
  match dsname with
  | None => Some PARTITION_NATIVE
  | Some d => pt_type <$> find_type d partition_types
  end.

(** result of [get_part_dsname_by_type]; [BadRead] is an access behind the table *)
Inductive dsname_result := DsName (s : string) | DsError | BadRead.

Definition get_part_dsname_by_type (type : Z) : dsname_result :=
  if Z.of_nat (length partition_types) <? type then DsError
  else if type =? 0 then DsName "NATIVE"
  else match partition_types !! Z.to_nat type with
       | Some p => DsName (pt_dsname p)
       | None => BadRead
       end.

Definition fdasd_partition_type (dsname : option (list Z)) : string :=
  match get_part_name_by_dsname dsname with Some n => n | None => "unknown" end.

(** ** Data set number and list position *)

Definition getpos (anc : fdasd_anchor) (dsn : nat) : Z := a_partno anc !!! dsn.

Fixpoint getdsn_loop (l : list Z) (pos i : Z) : Z :=
  match l with
  | [] => -1
  | p :: l => if p =? pos then i else getdsn_loop l pos (i + 1)
  end.
Definition getdsn (anc : fdasd_anchor) (pos : Z) : Z := getdsn_loop (a_partno anc) pos 0.

Definition setpos (anc : fdasd_anchor) (dsn : nat) (pos : Z) : fdasd_anchor :=
  set_a_tab (set_t_partno (<[dsn := pos]> (a_partno anc)) (a_tab anc)) anc.

Definition ALTERNATE_CYLINDERS_USED : Z := 0x10.

Definition get_usable_cylinders (anc : fdasd_anchor) : Z :=
  let f4 := a_f4 anc in
  let ct := DS4DEVCT f4 in
  if (DS4DSCYL ct =? LV_COMPAT_CYL) && (DS4DSCYL ct <? DS4DCYL f4) then DS4DCYL f4
  else if negb (Z.land (DS4DEVFG ct) ALTERNATE_CYLINDERS_USED =? 0)
  then u32 (DS4DSCYL ct - DS4DEVAC f4)
  else DS4DSCYL ct.

Definition get_addr_of_highest_f1_f8_label (anc : fdasd_anchor) : cchhb_t :=
  let record := u8 (a_used_partitions anc + 2) in
  let record := if a_big_disk anc =? 0 then record else u8 (record + 1) in
  let record := if LV_COMPAT_CYL <? a_formatted_cylinders anc
                then u8 (record + (a_used_partitions anc - 1)) else record in
  vtoc_set_cchhb VTOC_START_CC VTOC_START_HH record.

(** ** Volume serial *)

(** the characters a volume serial may hold *)
Definition volser_char (c : Z) : bool :=
  ((0x23 <=? c) && (c <=? 0x25)) || ((0x30 <=? c) && (c <=? 0x39)) ||
  ((0x40 <=? c) && (c <=? 0x5a)) || ((0x61 <=? c) && (c <=? 0x7a)).

Definition default_volser (devno : Z) : list Z := bytes_of_string "0X" ++ hex04 devno.

(** The buffer is compacted in place, at most six characters of it. *)
Definition fdasd_check_volser (volser : list Z) (devno : Z) : list Z :=
  let kept := map toupper (filter (λ c, volser_char c = true) (take VOLSER_LENGTH (cstr volser))) in
  match kept with
  | [] => default_volser devno
  | _ => kept
  end.

(** ** The partition list *)

Definition tget (t : ptable) (id : nat) : partition_info := t_parts t !!! id.
Definition tupd (id : nat) (g : partition_info → partition_info) (t : ptable) : ptable :=
  set_t_parts (<[id := g (tget t id)]> (t_parts t)) t.
(** the records of an anchor's list *)
Definition pget (anc : fdasd_anchor) (id : nat) : partition_info := tget (a_tab anc) id.
Definition pupd (id : nat) (g : partition_info → partition_info) (anc : fdasd_anchor) : fdasd_anchor :=
  set_a_tab (tupd id g (a_tab anc)) anc.

Definition init_table : ptable :=
  PTable (replicate 3 (-1)) 0 0 2
    [ set_p_next (Some 1%nat) zero_part;
      set_p_prev (Some 0%nat) (set_p_next (Some 2%nat) zero_part);
      set_p_prev (Some 1%nat) zero_part ].

Definition no_options : anchor_options := AnchorOptions 0 0 0 0 0 0 0 0 0 0.

Definition fdasd_initialize_anchor : fdasd_anchor :=
  {| a_options := no_options; a_vlabel_changed := 0; a_vtoc_changed := 0; a_big_disk := 0;
     a_devno := 0; a_dev_type := 0; a_used_partitions := 0; a_label_pos := 0; a_blksize := 0;
     a_tab := init_table;
     a_f4 := zero_format4; a_f5 := zero_format5; a_f7 := zero_format7;
     a_f9 := vtoc_init_format9_label zero_format9;
     a_vlabel := zero_volume_label;
     a_confdata := replicate 3 (ConfigData 0 0 0);
     a_hw_cylinders := 0; a_formatted_cylinders := 0 |}.

(** [formatted_cylinders * geo.heads - d] in unsigned arithmetic *)
Definition disk_tracks_minus (anc : fdasd_anchor) (geo : hd_geometry) (d : Z) : Z :=
  u32 (a_formatted_cylinders anc * geo_heads geo - d).

End Fdasd.
