(* ===== verification/FdasdTable.v ===== *)
(** The partition list of fdasd (src/fdasd/fdasd.c): queueing a new partition,
    dequeueing a deleted one and reordering the labels, on the doubly linked
    list as the code keeps it, and the refinement of these pointer operations
    by operations on a plain list of partitions. *)
From S2P Require Import Prelude Cchh Codec Labels LabelOps FdasdState.
Import Fdasd.

Module FdasdTable.

(** ** Pointer operations *)

(** [for (i = 1; i < USABLE_PARTITIONS; i++)]: the record in front of which the
    new one goes, and its position *)
Fixpoint enqueue_scan (n : nat) (t : ptable) (new : partition_info)
    (part_tmp : nat) (k : Z) : outcome (nat * Z) :=
  match n with
  | O => Done (part_tmp, k)
  | S n =>
      let tmp := tget t part_tmp in
      if (p_end_trk tmp =? 0) || (p_start_trk new <? p_start_trk tmp) then Done (part_tmp, k)
      else next ← deref (p_next tmp); enqueue_scan n t new next (k + 1)
  end.

(** [for (i...) { j = getpos(t, i); if (j >= k) setpos(t, i, j + d); }] *)
Definition shift_positions (k d : Z) (l : list Z) : list Z :=
  map (λ j, if k <=? j then j + d else j) l.

Definition fdasd_enqueue_new_partition (t : ptable) : outcome ptable :=
  let part_info := t_last t in
  '(part_tmp, k) ← enqueue_scan (USABLE_PARTITIONS - 1) t (tget t part_info) (t_first t) 0;
  let t := if (t_first t =? part_tmp)%nat then set_t_first part_info t else t in
  t ← (if (part_info =? part_tmp)%nat then Done t else
    last_prev ← deref (p_prev (tget t (t_last t)));
    let t := tupd last_prev (set_p_next None) t in
    let t := set_t_last last_prev t in
    let t := tupd part_info (set_p_next (Some part_tmp)) t in
    let t := tupd part_info (set_p_prev (p_prev (tget t part_tmp))) t in
    let t := tupd part_tmp (set_p_prev (Some part_info)) t in
    Done match p_prev (tget t part_info) with
         | Some q => tupd q (set_p_next (Some part_info)) t
         | None => t
         end);
  let t := tupd part_info (set_p_used 1) t in
  let t := set_t_partno (shift_positions k 1 (t_partno t)) t in
  let p := tget t part_info in
  if (t_first t =? part_info)%nat then
    if p_start_trk p =? FIRST_USABLE_TRK then
      let t := tupd part_info (set_p_fspace_trk (u64 (t_fspace_trk t - p_len_trk p))) t in
      Done (set_t_fspace_trk 0 t)
    else
      let t := tupd part_info (set_p_fspace_trk
        (u64 (t_fspace_trk t - p_len_trk p - p_start_trk p + FIRST_USABLE_TRK))) t in
      Done (set_t_fspace_trk (u64 (p_start_trk p - FIRST_USABLE_TRK)) t)
  else
    prev ← deref (p_prev p);
    let q := tget t prev in
    if p_start_trk p =? u64 (p_end_trk q + 1) then
      let t := tupd part_info (set_p_fspace_trk (u64 (p_fspace_trk q - p_len_trk p))) t in
      Done (tupd prev (set_p_fspace_trk 0) t)
    else
      let t := tupd part_info (set_p_fspace_trk
        (u64 (p_fspace_trk q - p_len_trk p - p_start_trk p + p_end_trk q + 1))) t in
      Done (tupd prev (set_p_fspace_trk (u64 (p_start_trk p - p_end_trk q - 1))) t).

(** the cleared record: pointers and type keep their value *)
Definition clear_part (p : partition_info) : partition_info :=
  PartInfo 0 0 0 0 0 zero_format1 (p_type p) (p_next p) (p_prev p).

Definition fdasd_dequeue_old_partition (t : ptable) (part_info : nat) (k : Z)
    : outcome ptable :=
  let p := tget t part_info in
  let freed := p_len_trk p + p_fspace_trk p in
  t ← (if negb (part_info =? t_first t)%nat && negb (part_info =? t_last t)%nat then
           prev ← deref (p_prev p);
           next ← deref (p_next p);
           let t := tupd prev (set_p_next (p_next p)) t in
           Done (tupd next (set_p_prev (p_prev (tget t part_info))) t)
         else Done t);
  t ← (if (part_info =? t_first t)%nat then
           next ← deref (p_next (tget t part_info));
           let t := set_t_first next t in
           let t := tupd next (set_p_prev None) t in
           Done (set_t_fspace_trk (u64 (t_fspace_trk t + freed)) t)
         else
           prev ← deref (p_prev (tget t part_info));
           Done (tupd prev (λ q, set_p_fspace_trk (u64 (p_fspace_trk q + freed)) q) t));
  let t := if (part_info =? t_last t)%nat then t else
    let t := tupd part_info (set_p_prev (Some (t_last t))) t in
    let t := tupd part_info (set_p_next None) t in
    let t := tupd (t_last t) (set_p_next (Some part_info)) t in
    set_t_last part_info t in
  let t := set_t_partno (shift_positions k (-1) (t_partno t)) t in
  Done (tupd part_info clear_part t).

(** one comparison of the bubble sort: the labels of a record and of the next
    one are exchanged when the second has the larger format identifier *)
Fixpoint reorg_pass (n : nat) (t : ptable) (part_info : nat) : outcome ptable :=
  match n with
  | O => Done t
  | S n =>
      let p := tget t part_info in
      next ← deref (p_next p);
      let q := tget t next in
      let t := if DS1FMTID (p_f1 p) <? DS1FMTID (p_f1 q) then
                   tupd next (set_p_f1 (p_f1 p)) (tupd part_info (set_p_f1 (p_f1 q)) t)
                 else t in
      reorg_pass n t next
  end.

(** [for (i = 1; i <= USABLE_PARTITIONS - 1; i++)], with [n] rounds to go *)
Fixpoint reorg_rounds (n : nat) (t : ptable) : outcome ptable :=
  match n with
  | O => Done t
  | S n' => t ← reorg_pass n t (t_first t); reorg_rounds n' t
  end.

Definition fdasd_reorganize_FMT1s (t : ptable) : outcome ptable :=
  reorg_rounds (USABLE_PARTITIONS - 1) t.

(** [part_info = t->first; for (i = 1; i < id; i++) part_info = part_info->next;] *)
Fixpoint walk (n : nat) (t : ptable) (id : nat) : outcome nat :=
  match n with
  | O => Done id
  | S n => next ← deref (p_next (tget t id)); walk n t next
  end.

(** ** The list as a list *)

(** The records [x], [y], [z] form the list, in this order. *)
Record linked (t : ptable) (x y z : nat) : Prop := {
  lk_length : length (t_parts t) = 3%nat;
  lk_perm : [x; y; z] ∈ [[0; 1; 2]; [0; 2; 1]; [1; 0; 2]; [1; 2; 0]; [2; 0; 1]; [2; 1; 0]]%nat;
  lk_first : t_first t = x;
  lk_last : t_last t = z;
  lk_next : p_next (tget t x) = Some y ∧ p_next (tget t y) = Some z ∧ p_next (tget t z) = None;
  lk_prev : p_prev (tget t x) = None ∧ p_prev (tget t y) = Some x ∧ p_prev (tget t z) = Some y
}.

(** a record without its pointers *)
Definition core (p : partition_info) : partition_info := set_p_next None (set_p_prev None p).

(** the list as the rest of the program sees it *)
Definition plist (t : ptable) (x y z : nat) : list partition_info :=
  [core (tget t x); core (tget t y); core (tget t z)].

(** Queueing on lists: [pos] is the first track behind the previous partition,
    [fs] the free tracks from there to the next one. *)
Fixpoint enq (pos fs : Z) (l : list partition_info) (new : partition_info)
    : Z * list partition_info :=
  let here l :=
    (u64 (p_start_trk new - pos),
     set_p_fspace_trk (u64 (fs - p_len_trk new - p_start_trk new + pos)) (set_p_used 1 new) :: l) in
  match l with
  | [] => here []
  | t :: r =>
      if (p_end_trk t =? 0) || (p_start_trk new <? p_start_trk t) then here l
      else let '(fs', r') := enq (p_end_trk t + 1) (p_fspace_trk t) r new in
           (fs, set_p_fspace_trk fs' t :: r')
  end.

(** position at which [enq] inserts *)
Fixpoint enq_pos (l : list partition_info) (new : partition_info) : Z :=
  match l with
  | [] => 0
  | t :: r => if (p_end_trk t =? 0) || (p_start_trk new <? p_start_trk t) then 0
              else enq_pos r new + 1
  end.

(** the order of the records after queueing the last one at position [k] *)
Definition enq_ids (k : Z) (x y z : nat) : nat * nat * nat :=
  if k =? 0 then (z, x, y) else if k =? 1 then (x, z, y) else (x, y, z).

(** Dequeueing on lists: the partition in place [j] gives its tracks to the
    free space before it and goes to the end, cleared. *)
Fixpoint deq (fs : Z) (l : list partition_info) (j : nat) : Z * list partition_info :=
  match l, j with
  | [], _ => (fs, [])
  | p :: r, O => (u64 (fs + (p_len_trk p + p_fspace_trk p)), r ++ [clear_part p])
  | t :: r, S j => let '(fs', r') := deq (p_fspace_trk t) r j in
                   (fs, set_p_fspace_trk fs' t :: r')
  end.

Definition deq_ids (j : nat) (x y z : nat) : nat * nat * nat :=
  match j with O => (y, z, x) | S O => (x, z, y) | _ => (x, y, z) end.

(** ** Refinement of the pointer operations *)

#[local] Opaque u64.

Lemma parts3 (l : list partition_info) : length l = 3%nat → ∃ a b c, l = [a; b; c].
Proof. destruct l as [|a [|b [|c [|? ?]]]]; try done. intros _. by exists a, b, c. Qed.

(** Opens the anchor and the list for each of the six orders of the records. *)
Ltac open_list H :=
  destruct H as [Hl Hp Hf Hla (Hn1 & Hn2 & Hn3) (Hq1 & Hq2 & Hq3)];
  match goal with t : ptable |- _ => destruct t end;
  simpl in Hl, Hf, Hla; unfold tget in *; simpl in *; subst;
  destruct (parts3 _ Hl) as (p0 & p1 & p2 & ->); clear Hl;
  destruct p0, p1, p2;
  rewrite !elem_of_cons, elem_of_nil in Hp;
  destruct Hp as [Hp|[Hp|[Hp|[Hp|[Hp|[Hp|[]]]]]]]; injection Hp as -> -> ->;
  simpl in *; subst.

Ltac link_done := split; simpl; try done; rewrite !elem_of_cons; tauto.

(** Equality of lists of records up to arithmetic in the fields. *)
Ltac records_eq :=
  cbv beta iota delta [core clear_part set_p_fspace_trk set_p_used set_p_prev set_p_next set_p_f1
       p_used p_start_trk p_end_trk p_len_trk p_fspace_trk p_f1 p_type p_next p_prev];
  repeat match goal with
         | |- ?x = ?x => reflexivity
         | |- u64 _ = u64 _ => apply f_equal; lia
         | |- @eq Z _ _ => lia
         | |- _ => f_equal
         end.

(** The pointer surgery of [fdasd_enqueue_new_partition] inserts the last record
    where [enq] puts it, with the free-space counters [enq] computes. *)
Lemma enqueue_refines t x y z :
  linked t x y z →
  Forall (λ p, 0 <= p_end_trk p < 18446744073709551615) (plist t x y z) →
  let k := enq_pos [core (tget t x); core (tget t y)] (core (tget t z)) in
  let '(x', y', z') := enq_ids k x y z in
  ∃ t',
    fdasd_enqueue_new_partition t = Done t' ∧ linked t' x' y' z' ∧
    (t_fspace_trk t', plist t' x' y' z') =
      enq FIRST_USABLE_TRK (t_fspace_trk t)
        [core (tget t x); core (tget t y)] (core (tget t z)) ∧
    t_partno t' = shift_positions k 1 (t_partno t).
Proof.
  intros H Hr. open_list H.
  all: unfold plist, tget in Hr; simpl in Hr; rewrite !Forall_cons in Hr; destruct Hr as (R0 & R1 & R2 & _); simpl in R0, R1, R2.
  all: unfold fdasd_enqueue_new_partition; cbn.
  all: match goal with |- context [if ?c then _ else _] => destruct c eqn:E1 end; cbn;
    [|match goal with |- context [if ?c then _ else _] => destruct c eqn:E2 end; cbn].
  all: match goal with |- context [if ?c then Done _ else _] => destruct c eqn:E3 end; cbn.
  all: eexists; (split; [reflexivity|]); (split; [link_done|]); (split; [|reflexivity]).
  all: unfold plist, tget, FIRST_USABLE_TRK in *; cbn; b2p; rewrite ?u64_small in E3 by lia; subst.
  all: rewrite ?Z.sub_diag; records_eq.
Qed.

(** [fdasd_dequeue_old_partition] removes the partition in place [j]. *)
Lemma dequeue_refines t x y z j id k :
  linked t x y z → [x; y; z] !! j = Some id →
  let '(x', y', z') := deq_ids j x y z in
  ∃ t',
    fdasd_dequeue_old_partition t id k = Done t' ∧ linked t' x' y' z' ∧
    (t_fspace_trk t', plist t' x' y' z') = deq (t_fspace_trk t) (plist t x y z) j ∧
    t_partno t' = shift_positions k (-1) (t_partno t).
Proof.
  intros H Hj. destruct j as [|[|[|j]]]; simpl in Hj; simplify_eq; simpl; open_list H.
  all: unfold fdasd_dequeue_old_partition; cbn.
  all: eexists; (split; [reflexivity|]); (split; [link_done|]); (split; [|reflexivity]).
  all: unfold plist, tget; cbn; records_eq.
Qed.

Lemma walk_spec t x y z j id :
  linked t x y z → [x; y; z] !! j = Some id → walk j t (t_first t) = Done id.
Proof.
  intros [Hl Hp Hf Hla (Hn1 & Hn2 & Hn3) _] Hj. rewrite Hf.
  destruct j as [|[|[|j]]]; simpl in Hj; simplify_eq; cbn; rewrite ?Hn1; cbn; rewrite ?Hn2; done.
Qed.

(** Updates that keep the pointers keep the list. *)
Definition keeps_links (g : partition_info → partition_info) : Prop :=
  ∀ p, p_next (g p) = p_next p ∧ p_prev (g p) = p_prev p.

Lemma linked_tupd t x y z id g :
  linked t x y z → keeps_links g → linked (tupd id g t) x y z.
Proof.
  intros [Hl Hp Hf Hla (Hn1 & Hn2 & Hn3) (Hq1 & Hq2 & Hq3)] Hg.
  assert (Hget : ∀ i, p_next (tget (tupd id g t) i) = p_next (tget t i) ∧
                      p_prev (tget (tupd id g t) i) = p_prev (tget t i)).
  { intros i. unfold tget, tupd. simpl. destruct (decide (i = id ∧ (i < length (t_parts t))%nat)) as [[-> Hi]|Hne].
    - rewrite list_lookup_total_insert_eq by done. apply Hg.
    - destruct (decide (i = id)) as [->|].
      + rewrite list_insert_ge by lia. done.
      + rewrite list_lookup_total_insert_ne by done. done. }
  split; simpl; try done; [by rewrite length_insert|..];
    repeat split; first [rewrite (proj1 (Hget _))|rewrite (proj2 (Hget _))]; done.
Qed.

Lemma linked_neq t x y z : linked t x y z → x ≠ y ∧ x ≠ z ∧ y ≠ z.
Proof.
  intros [_ Hp _ _ _ _]. rewrite !elem_of_cons, elem_of_nil in Hp.
  destruct Hp as [Hp|[Hp|[Hp|[Hp|[Hp|[Hp|[]]]]]]]; simplify_eq; done.
Qed.

Lemma linked_lt t x y z : linked t x y z → (x < 3 ∧ y < 3 ∧ z < 3)%nat.
Proof.
  intros [_ Hp _ _ _ _]. rewrite !elem_of_cons, elem_of_nil in Hp.
  destruct Hp as [Hp|[Hp|[Hp|[Hp|[Hp|[Hp|[]]]]]]]; simplify_eq; lia.
Qed.

Lemma tget_tupd_eq t id g :
  (id < length (t_parts t))%nat → tget (tupd id g t) id = g (tget t id).
Proof. intros H. unfold tget, tupd. simpl. by rewrite list_lookup_total_insert_eq. Qed.

Lemma tget_tupd_ne t id i g : i ≠ id → tget (tupd id g t) i = tget t i.
Proof. intros H. unfold tget, tupd. simpl. by rewrite list_lookup_total_insert_ne. Qed.

(** the records from [cur] on *)
Fixpoint chain (t : ptable) (cur : option nat) (ids : list nat) : Prop :=
  match ids with
  | [] => cur = None
  | j :: r => cur = Some j ∧ chain t (p_next (tget t j)) r
  end.

Lemma chain_other t t' cur ids :
  (∀ j, j ∈ ids → tget t' j = tget t j) → chain t cur ids → chain t' cur ids.
Proof.
  revert cur. induction ids as [|j ids IH]; intros cur Hj; simpl; [done|].
  intros [-> Hc]. split; [done|]. rewrite Hj by constructor. apply IH; [|done].
  intros k Hk. apply Hj. by constructor.
Qed.

(** The three records of a list. *)
Lemma linked_chain t x y z :
  linked t x y z → chain t (Some (t_first t)) [x; y; z] ∧ NoDup [x; y; z] ∧
    Forall (λ j, (j < length (t_parts t))%nat) [x; y; z].
Proof.
  intros Hlk. pose proof (linked_neq _ _ _ _ Hlk) as (Nxy & Nxz & Nyz).
  pose proof (linked_lt _ _ _ _ Hlk) as (Lx & Ly & Lz).
  destruct Hlk as [Hl _ Hf _ (Hn1 & Hn2 & Hn3) _]. rewrite Hl. split; [|split].
  - simpl. rewrite Hf, Hn1, Hn2, Hn3. done.
  - rewrite !NoDup_cons, !not_elem_of_cons.
    repeat split; try done; try apply not_elem_of_nil. constructor.
  - do 3 (constructor; [done|]). constructor.
Qed.

(** the list with its labels replaced *)
Definition with_f1s (l : list partition_info) (fs : list format1_label_t) : list partition_info :=
  zip_with (λ p f, set_p_f1 f p) l fs.

Definition fmt_desc (a b : format1_label_t) : Prop := DS1FMTID b <= DS1FMTID a.

Lemma fmt_desc3 a b c : fmt_desc a b → fmt_desc b c → StronglySorted fmt_desc [a; b; c].
Proof. unfold fmt_desc. intros ? ?. repeat constructor; unfold fmt_desc; lia. Qed.

(** The bubble sort of the labels keeps the list and the other fields, permutes
    the labels and leaves them in descending order of the format identifier, so
    the empty ones come last. *)
Lemma reorganize_FMT1s_refines t x y z :
  linked t x y z →
  ∃ t' fs,
    fdasd_reorganize_FMT1s t = Done t' ∧ linked t' x y z ∧
    plist t' x y z = with_f1s (plist t x y z) fs ∧
    fs ≡ₚ map p_f1 (plist t x y z) ∧ StronglySorted fmt_desc fs ∧
    t_fspace_trk t' = t_fspace_trk t ∧ t_partno t' = t_partno t.
Proof.
  intros H. open_list H.
  all: unfold fdasd_reorganize_FMT1s; cbn.
  all: repeat (match goal with |- context [if ?c then _ else _] => destruct c eqn:? end; cbn).
  all: b2p; eexists _, [_; _; _]; (split; [reflexivity|]); (split; [link_done|]);
       (split; [unfold plist, tget; cbn; reflexivity|]).
  all: (split; [unfold plist, tget; cbn; solve_Permutation|]).
  all: split; [|done].
  all: apply fmt_desc3; unfold fmt_desc; cbn; lia.
Qed.

End FdasdTable.
