(* ===== verification/FdasdLayout.v ===== *)
(** The layout of a volume as fdasd keeps it: the used partitions first, in
    ascending order and without overlap, and behind each of them the number of
    free tracks up to the next one.  Queueing a partition that fits into a gap
    and dequeueing a used one preserve it. *)
From S2P Require Import Prelude Cchh Codec Labels LabelOps Extents Fmt7 Fmt5 Freespace FdasdState FdasdTable.
Import Extents Fmt7 Fmt5 Freespace Fdasd FdasdTable.

Module FdasdLayout.

(** ** Layout *)

(** a record without a partition *)
Definition unused (p : partition_info) : Prop :=
  p_used p = 0 ∧ p_start_trk p = 0 ∧ p_end_trk p = 0 ∧ p_len_trk p = 0 ∧
  p_fspace_trk p = 0 ∧ p_f1 p = zero_format1.

(** [layout limit pos fs l]: the partitions of [l] lie between track [pos] and
    track [limit], and [fs] tracks are free from [pos] to the first of them. *)
Inductive layout (limit : Z) : Z → Z → list partition_info → Prop :=
  | layout_free pos l :
      pos <= limit + 1 → Forall unused l → layout limit pos (limit + 1 - pos) l
  | layout_used pos p l :
      p_used p = 1 → pos <= p_start_trk p → p_start_trk p <= p_end_trk p <= limit →
      p_len_trk p = p_end_trk p - p_start_trk p + 1 →
      layout limit (p_end_trk p + 1) (p_fspace_trk p) l →
      layout limit pos (p_start_trk p - pos) (p :: l).

(** the tracks of a partition, of all partitions, and the free ones *)
Definition in_part (p : partition_info) (t : Z) : Prop := p_start_trk p <= t <= p_end_trk p.
Definition used_tracks (l : list partition_info) (t : Z) : Prop :=
  ∃ p, p ∈ l ∧ p_used p = 1 ∧ in_part p t.
Definition free_tracks (limit : Z) (l : list partition_info) : freeset :=
  λ t, FIRST_USABLE_TRK <= t <= limit ∧ ¬ used_tracks l t.

(** [new] is a partition that overlaps none of [l] *)
Record fits (limit pos : Z) (l : list partition_info) (new : partition_info) : Prop := {
  fits_order : pos <= p_start_trk new <= p_end_trk new;
  fits_limit : p_end_trk new <= limit;
  fits_len : p_len_trk new = p_end_trk new - p_start_trk new + 1;
  fits_apart p : p ∈ l → p_used p = 1 →
    p_end_trk new < p_start_trk p ∨ p_end_trk p < p_start_trk new
}.

Section Layout.
Context (limit : Z) (Hlimit : limit < 18446744073709551615).

Lemma layout_pos pos fs l : layout limit pos fs l → pos <= limit + 1.
Proof. destruct 1; lia. Qed.

Lemma layout_fs pos fs l : layout limit pos fs l → 0 <= fs <= limit + 1 - pos.
Proof. destruct 1; lia. Qed.

Lemma layout_free_eq pos fs l :
  fs = limit + 1 - pos → pos <= limit + 1 → Forall unused l → layout limit pos fs l.
Proof. intros ->. apply layout_free. Qed.

Lemma layout_used_eq pos fs p l :
  fs = p_start_trk p - pos → p_used p = 1 → pos <= p_start_trk p →
  p_start_trk p <= p_end_trk p <= limit → p_len_trk p = p_end_trk p - p_start_trk p + 1 →
  layout limit (p_end_trk p + 1) (p_fspace_trk p) l → layout limit pos fs (p :: l).
Proof. intros ->. apply layout_used. Qed.

(** More free space in front. *)
Lemma layout_extend pos pos' fs l :
  layout limit pos' fs l → pos <= pos' → layout limit pos (fs + (pos' - pos)) l.
Proof.
  destruct 1; intros Hp.
  - apply layout_free_eq; [lia|lia|done].
  - apply layout_used_eq; [lia|done|lia|done|done|done].
Qed.

Lemma layout_app_unused pos fs l p :
  layout limit pos fs l → unused p → layout limit pos fs (l ++ [p]).
Proof.
  induction 1; intros Hp; simpl; [|by apply layout_used; auto].
  apply layout_free; [done|]. apply Forall_app. by rewrite Forall_singleton.
Qed.

Lemma clear_part_unused p : unused (clear_part p).
Proof. by repeat split. Qed.

(** Every partition lies behind [pos]. *)
Lemma layout_after pos fs l p :
  layout limit pos fs l → p ∈ l → p_used p = 1 →
  pos <= p_start_trk p <= p_end_trk p ∧ p_end_trk p <= limit ∧
  p_len_trk p = p_end_trk p - p_start_trk p + 1.
Proof.
  induction 1 as [pos l Hpos Hf|pos q l Hu Hs He Hl Hlay IH]; intros Hp Hused.
  - rewrite Forall_forall in Hf. destruct (Hf p Hp) as [Hz _]. lia.
  - apply elem_of_cons in Hp as [->|Hp]; [lia|]. specialize (IH Hp Hused). lia.
Qed.

Lemma layout_used_cons_inv pos fs p l :
  layout limit pos fs (p :: l) → p_used p = 1 →
  fs = p_start_trk p - pos ∧ pos <= p_start_trk p ∧ p_start_trk p <= p_end_trk p <= limit ∧
  p_len_trk p = p_end_trk p - p_start_trk p + 1 ∧
  layout limit (p_end_trk p + 1) (p_fspace_trk p) l.
Proof.
  inversion 1 as [? ? ? Hf|]; subst; [|done]. intros Hu.
  apply Forall_cons in Hf as [[Hz _] _]. lia.
Qed.

(** Queueing a partition that fits keeps the layout. *)
Lemma enq_layout pos fs l new :
  0 < pos → layout limit pos fs l → fits limit pos l new →
  layout limit pos (enq pos fs l new).1 (enq pos fs l new).2.
Proof.
  intros Hpos Hlay. revert new Hpos.
  induction Hlay as [pos l Hle Hf|pos p l Hu Hs He Hlen Hlay IH]; intros new Hpos [Ho Hl Hn Ha].
  - assert (Henq : enq pos (limit + 1 - pos) l new =
      (u64 (p_start_trk new - pos), set_p_fspace_trk
        (u64 (limit + 1 - pos - p_len_trk new - p_start_trk new + pos)) (set_p_used 1 new) :: l)).
    { destruct l as [|p l]; [done|]. apply Forall_cons in Hf as [(_ & _ & Hz & _) _].
      simpl. by rewrite Hz. }
    rewrite Henq. simpl. rewrite !u64_small by lia.
    apply layout_used_eq; simpl; [done|done|lia|lia|done|].
    apply layout_free_eq; [lia|lia|done].
  - simpl. rewrite (proj2 (Z.eqb_neq (p_end_trk p) 0)) by lia. simpl.
    assert (Hp := Ha p (list_elem_of_here _ _) Hu).
    destruct (p_start_trk new <? p_start_trk p) eqn:Elt; b2p.
    + simpl. rewrite !u64_small by lia.
      apply layout_used_eq; simpl; [done|done|lia|lia|done|].
      apply layout_used_eq; [lia|done|lia|done|done|done].
    + destruct (enq (p_end_trk p + 1) (p_fspace_trk p) l new) as [fs' r'] eqn:Er.
      simpl. apply layout_used_eq; simpl; [done..|].
      specialize (IH new). rewrite Er in IH. apply IH; [lia|].
      split; [lia|done|done|]. intros q Hq. apply Ha. by apply list_elem_of_further.
Qed.

(** Dequeueing a used partition keeps the layout. *)
Lemma deq_layout pos fs l j p :
  0 < pos → layout limit pos fs l → l !! j = Some p → p_used p = 1 →
  layout limit pos (deq fs l j).1 (deq fs l j).2.
Proof.
  revert pos fs j. induction l as [|q l IH]; intros pos fs [|j] Hpos Hlay Hj Hu; simplify_eq/=.
  - apply layout_used_cons_inv in Hlay as (-> & Hs & He & Hl & Hlay); [|done].
    pose proof (layout_fs _ _ _ Hlay). rewrite u64_small by lia.
    apply layout_app_unused, clear_part_unused.
    replace (p_start_trk p - pos + (p_len_trk p + p_fspace_trk p))
      with (p_fspace_trk p + (p_end_trk p + 1 - pos)) by lia.
    apply layout_extend; [done|lia].
  - assert (Hq : p_used q = 1).
    { inversion Hlay as [? ? ? Hf|]; subst; [|done].
      apply Forall_cons in Hf as [_ Hf]. rewrite Forall_forall in Hf.
      destruct (Hf p) as [Hz _]; [by eapply list_elem_of_lookup_2|]. lia. }
    apply layout_used_cons_inv in Hlay as (-> & Hs & He & Hl & Hlay); [|done].
    destruct (deq (p_fspace_trk q) l j) as [fs' r'] eqn:Er. simpl.
    apply layout_used_eq; simpl; [done..|].
    specialize (IH (p_end_trk q + 1) (p_fspace_trk q) j). rewrite Er in IH.
    apply IH; [lia|done|done|done].
Qed.

(** ** Free space *)

(** tracks in partitions, and the free tracks the counters claim *)
Definition part_tracks (l : list partition_info) : Z := foldr (λ p n, p_len_trk p + n) 0 l.
Definition free_count (fs : Z) (l : list partition_info) : Z :=
  foldr (λ p n, p_fspace_trk p + n) fs l.

(** The counters account for every track. *)
Lemma layout_account pos fs l :
  layout limit pos fs l → part_tracks l + free_count fs l = limit + 1 - pos.
Proof.
  assert (Hshift : ∀ d fs l, free_count (fs + d) l = free_count fs l + d).
  { intros d fs0 l0. induction l0 as [|q l0 IH]; simpl; lia. }
  induction 1 as [pos l Hle Hf|pos p l Hu Hs He Hlen Hlay IH].
  - induction Hf as [|q l (_ & _ & _ & H1 & H2 & _) Hf IH]; simpl; lia.
  - simpl. specialize (Hshift (p_start_trk p - pos - p_fspace_trk p) (p_fspace_trk p) l).
    replace (p_fspace_trk p + (p_start_trk p - pos - p_fspace_trk p))
      with (p_start_trk p - pos) in Hshift by lia. lia.
Qed.

(** ** Used records come first *)

Lemma layout_snoc_inv pos fs l p :
  layout limit pos fs (l ++ [p]) → unused p → layout limit pos fs l.
Proof.
  revert pos fs. induction l as [|q l IH]; intros pos fs Hlay Hp.
  - inversion Hlay as [? ? ? Hf|? ? ? Hu]; subst; [by apply layout_free|].
    destruct Hp as [Hz _]. lia.
  - simpl in Hlay. inversion Hlay as [? ? ? Hf|]; subst.
    + apply layout_free; [done|]. rewrite app_comm_cons in Hf. by apply Forall_app in Hf as [Hf _].
    + apply layout_used; [done..|]. by apply IH.
Qed.

Lemma layout_unused_all pos fs l p r :
  layout limit pos fs (l ++ p :: r) → p_used p ≠ 1 → Forall unused (p :: r).
Proof.
  revert pos fs. induction l as [|q l IH]; intros pos fs Hlay Hp; simpl in Hlay.
  - by inversion Hlay.
  - inversion Hlay as [? ? ? Hf|]; subst; [|by eapply IH].
    apply Forall_cons in Hf as [_ Hf]. by apply Forall_app in Hf as [_ Hf].
Qed.
End Layout.

(** ** Counting and permuting records *)

Definition is_used (p : partition_info) : bool := p_used p =? 1.
Definition n_used (l : list partition_info) : Z := Z.of_nat (length (filter (λ p, is_used p = true) l)).

(** a record without its free-space counter *)
Definition nofs (p : partition_info) : partition_info := set_p_fspace_trk 0 p.

Lemma n_used_cons p l : n_used (p :: l) = (if is_used p then 1 else 0) + n_used l.
Proof. unfold n_used. rewrite filter_cons. destruct (is_used p); simpl; lia. Qed.

Lemma n_used_range l : 0 <= n_used l <= Z.of_nat (length l).
Proof. unfold n_used. pose proof (length_filter (λ p, is_used p = true) l). lia. Qed.

Lemma n_used_nofs l : n_used (map nofs l) = n_used l.
Proof. induction l as [|p l IH]; [done|]. simpl. by rewrite !n_used_cons, IH. Qed.

#[export] Instance n_used_proper : Proper (Permutation ==> eq) n_used.
Proof. intros l l' H. unfold n_used. by rewrite H. Qed.

Lemma used_tracks_nofs l t : used_tracks (map nofs l) t ↔ used_tracks l t.
Proof.
  unfold used_tracks. split.
  - intros (p & Hp & ? & ?). apply list_elem_of_fmap in Hp as (q & -> & Hq). by exists q.
  - intros (p & Hp & ? & ?). exists (nofs p). split; [|done]. by apply list_elem_of_fmap_2.
Qed.

Lemma used_tracks_cons p l t :
  used_tracks (p :: l) t ↔ (p_used p = 1 ∧ in_part p t) ∨ used_tracks l t.
Proof.
  unfold used_tracks. setoid_rewrite elem_of_cons. naive_solver.
Qed.

#[export] Instance used_tracks_proper : Proper (Permutation ==> eq ==> iff) used_tracks.
Proof. intros l l' H t ? <-. unfold used_tracks. by setoid_rewrite H. Qed.

(** [enq] adds the new record and [deq] clears one; apart from the free-space
    counters the others stay as they are. *)
Lemma enq_perm pos fs l new :
  map nofs (enq pos fs l new).2 ≡ₚ map nofs (set_p_used 1 new :: l).
Proof.
  revert pos fs. induction l as [|p l IH]; intros pos fs; [done|]. simpl.
  destruct (_ || _); [done|].
  specialize (IH (p_end_trk p + 1) (p_fspace_trk p)).
  destruct (enq (p_end_trk p + 1) (p_fspace_trk p) l new) as [fs' r']. simpl in *.
  rewrite IH. apply Permutation_swap.
Qed.

Lemma deq_perm fs l j p :
  l !! j = Some p → map nofs (p :: (deq fs l j).2) ≡ₚ map nofs (clear_part p :: l).
Proof.
  revert fs j. induction l as [|q l IH]; intros fs [|j] Hj; simplify_eq/=.
  - rewrite map_app. simpl. rewrite (Permutation_app_comm (map nofs l)). simpl.
    apply Permutation_swap.
  - specialize (IH (p_fspace_trk q) j Hj). destruct (deq (p_fspace_trk q) l j) as [fs' r']. simpl in *.
    change (nofs (set_p_fspace_trk fs' q)) with (nofs q).
    rewrite (Permutation_swap (nofs q)), IH. apply Permutation_swap.
Qed.

(** A property of records that does not look at the counter. *)
Lemma Forall_nofs (P : partition_info → Prop) l :
  (∀ p, P (nofs p) ↔ P p) → Forall P (map nofs l) ↔ Forall P l.
Proof. intros H. rewrite Forall_map. apply Forall_iff. intros p. apply H. Qed.

(** The first [n_used] records are the used ones. *)
Lemma layout_nth_used limit pos fs l j :
  layout limit pos fs l → Z.of_nat j < n_used l → ∃ p, l !! j = Some p ∧ p_used p = 1.
Proof.
  intros Hlay. revert j. induction Hlay as [pos l Hle Hf|pos p l Hu Hs He Hlen Hlay IH]; intros j Hj.
  - exfalso. assert (n_used l = 0) as Hz; [|lia].
    induction Hf as [|q l [Hq _] Hf IH]; [done|]. rewrite n_used_cons in *.
    unfold is_used in *. rewrite Hq in *. simpl in *. by apply IH.
  - destruct j as [|j]; [by exists p|]. simpl. apply IH.
    rewrite n_used_cons in Hj. unfold is_used in Hj. rewrite Hu in Hj. simpl in Hj. lia.
Qed.

End FdasdLayout.
