(* ===== verification/FdasdList.v ===== *)
(** Printing the partition table of fdasd (src/fdasd/fdasd.c): the rows of the
    table and the data set names, which are decoded and encoded in place. *)
From S2P Require Import Prelude Ebcdic Cchh Codec Labels LabelOps FdasdState FdasdTable FdasdLayout.
Import Ebcdic Fdasd FdasdTable FdasdLayout.

Module FdasdList.

(** [vtoc_ebcdic_dec(f1->DS1DSNAM, f1->DS1DSNAM, 44)] and its counterpart *)
Definition name_dec (f1 : format1_label_t) : format1_label_t :=
  set_DS1DSNAM f1 (vtoc_ebcdic_dec_inplace (DS1DSNAM f1) 44).
Definition name_enc (f1 : format1_label_t) : format1_label_t :=
  set_DS1DSNAM f1 (vtoc_ebcdic_enc_inplace (DS1DSNAM f1) 44).

(** the type qualifier of a decoded data set name; the search runs over the
    label from its first field on, up to a NUL *)
Definition dsname_type (f1 : format1_label_t) : list Z :=
  let buf := cenc cformat1 f1 in
  match strstr buf (bytes_of_string "PART") with
  | Some ch => strncpy (drop (ch + 9) buf) 6 ++ [0]
  | None => bytes_of_string "error" ++ [0]
  end.

(** one line of the table: tracks in use by a partition, or unused *)
Inductive table_row :=
  | FreeRow (first last len : Z)
  | PartRow (id first last len : Z) (system : string).

Fixpoint list_loop (fuel : nat) (anc : fdasd_anchor) (part_info : option nat) (i : Z)
    : outcome (list table_row * fdasd_anchor) :=
  match fuel with
  | O => OutOfFuel
  | S fuel =>
      match part_info with
      | None => Done ([], anc)
      | Some id =>
          let i := i + 1 in
          let p := pget anc id in
          let before :=
            if (id =? a_first anc)%nat && (0 <? a_fspace_trk anc)
            then [FreeRow FIRST_USABLE_TRK (u64 (FIRST_USABLE_TRK + a_fspace_trk anc - 1)) (a_fspace_trk anc)]
            else [] in
          if negb (p_used p =? 1) then
            '(rows, anc) ← list_loop fuel anc (p_next p) i;
            Done (before ++ rows, anc)
          else
            let f1 := name_dec (p_f1 p) in
            let str := dsname_type f1 in
            let anc := pupd id (set_p_f1 (name_enc f1)) anc in
            let row := PartRow i (p_start_trk p) (p_end_trk p) (p_len_trk p)
                         (fdasd_partition_type (Some str)) in
            let after :=
              if 0 <? p_fspace_trk p
              then [FreeRow (u64 (p_end_trk p + 1)) (u64 (p_end_trk p + p_fspace_trk p)) (p_fspace_trk p)]
              else [] in
            '(rows, anc) ← list_loop fuel anc (p_next p) i;
            Done (before ++ [row] ++ after ++ rows, anc)
      end
  end.

Definition fdasd_list_partition_table (anc : fdasd_anchor) : outcome (list table_row * fdasd_anchor) :=
  list_loop (S USABLE_PARTITIONS) anc (Some (a_first anc)) 0.

(** [fdasd_show_mapping]: number and data set name of each used record; the
    name is decoded in a copy *)
Fixpoint mapping_loop (fuel : nat) (anc : fdasd_anchor) (part_info : option nat) (i : Z)
    : outcome (list (Z * list Z)) :=
  match fuel with
  | O => OutOfFuel
  | S fuel =>
      match part_info with
      | None => Done []
      | Some id =>
          let p := pget anc id in
          rows ← mapping_loop fuel anc (p_next p) (i + 1);
          if negb (p_used p =? 1) then Done rows
          else
            let dsname := vtoc_ebcdic_dec_inplace (strncpy (DS1DSNAM (p_f1 p)) 44) 44 ++ [0] in
            let dsname := if getdsn anc i <? 0 then bytes_of_string "new data set" ++ [0] else dsname in
            Done ((i + 1, cstr dsname) :: rows)
      end
  end.

Definition fdasd_show_mapping (anc : fdasd_anchor) : outcome (list (Z * list Z)) :=
  mapping_loop (S USABLE_PARTITIONS) anc (Some (a_first anc)) 0.

(** ** Relabelled records *)

(** the labels describe the same tracks *)
Definition same_ext (f g : format1_label_t) : Prop := DS1EXT1 g = DS1EXT1 f.
(** no condition on the labels *)
Definition any_label (f g : format1_label_t) : Prop := True.

#[export] Instance same_ext_preorder : PreOrder same_ext.
Proof. unfold same_ext. split; congruence. Qed.
#[export] Instance any_label_preorder : PreOrder any_label.
Proof. done. Qed.

Section Relabel.
Context {R : format1_label_t → format1_label_t → Prop} `{!PreOrder R}.

(** [q] is [p] with another label, if it is in use *)
Definition same_part (p q : partition_info) : Prop :=
  q = set_p_f1 (p_f1 q) p ∧ R (p_f1 p) (p_f1 q) ∧ (p_used p ≠ 1 → p_f1 q = p_f1 p).

#[export] Instance same_part_refl : Reflexive same_part.
Proof. intros p. split; [by destruct p|]. split; [reflexivity|done]. Qed.

#[export] Instance same_part_trans : Transitive same_part.
Proof.
  intros p q r (Q1 & Q2 & Q3) (R1 & R2 & R3). split; [|split].
  - rewrite R1, Q1. by destruct p.
  - by transitivity (p_f1 q).
  - intros Hu. rewrite R3; [by apply Q3|]. by rewrite Q1.
Qed.

Lemma same_part_core p q : same_part p q → same_part (core p) (core q).
Proof. intros (H1 & H2 & H3). split; [|done]. rewrite H1. by destruct p. Qed.

Lemma same_part_fields p q :
  same_part p q → p_used q = p_used p ∧ p_start_trk q = p_start_trk p ∧ p_end_trk q = p_end_trk p ∧
    p_len_trk q = p_len_trk p ∧ p_fspace_trk q = p_fspace_trk p.
Proof. intros (-> & _). done. Qed.

Lemma layout_relabel limit pos fs l l' :
  layout limit pos fs l → Forall2 same_part l l' → layout limit pos fs l'.
Proof.
  intros Hlay. revert l'. induction Hlay as [pos l Hle Hf|pos p l Hu Hs He Hlen Hlay IH]; intros l' H2.
  - apply layout_free; [done|]. clear Hle. revert l' H2.
    induction Hf as [|q l Hq Hf IH]; intros l' H2; inversion H2 as [|? q' ? r Hqq Hr]; subst; constructor.
    + destruct (same_part_fields _ _ Hqq) as (E1 & E2 & E3 & E4 & E5).
      destruct Hq as (F1 & F2 & F3 & F4 & F5 & F6), Hqq as (_ & _ & Hn).
      unfold unused. rewrite E1, E2, E3, E4, E5, Hn by lia. done.
    + by apply IH.
  - inversion H2 as [|? q' ? r Hqq Hr]; subst.
    destruct (same_part_fields _ _ Hqq) as (E1 & E2 & E3 & E4 & E5).
    rewrite <- E2. apply layout_used; rewrite ?E1, ?E2, ?E3, ?E4; try done.
    rewrite E5. by apply IH.
Qed.

Lemma n_used_relabel l l' : Forall2 same_part l l' → n_used l' = n_used l.
Proof.
  induction 1 as [|p q l l' Hpq H IH]; [done|]. rewrite !n_used_cons, IH. unfold is_used.
  by rewrite (proj1 (same_part_fields _ _ Hpq)).
Qed.

Lemma used_tracks_relabel l l' t : Forall2 same_part l l' → used_tracks l' t ↔ used_tracks l t.
Proof.
  induction 1 as [|p q l l' Hpq H IH]; [done|]. rewrite !used_tracks_cons, IH. unfold in_part.
  destruct (same_part_fields _ _ Hpq) as (-> & -> & -> & _). done.
Qed.

(** [t'] is [t] with other labels *)
Record relabelled (t t' : ptable) : Prop := {
  rl_partno : t_partno t' = t_partno t;
  rl_fspace : t_fspace_trk t' = t_fspace_trk t;
  rl_first : t_first t' = t_first t;
  rl_last : t_last t' = t_last t;
  rl_length : length (t_parts t') = length (t_parts t);
  rl_same i : same_part (tget t i) (tget t' i)
}.

#[export] Instance relabelled_preorder : PreOrder relabelled.
Proof.
  split.
  - intros t. split; try done.
  - intros a b c H1 H2. destruct H1, H2. split; try congruence. intros i. by transitivity (tget b i).
Qed.

Lemma relabelled_linked t t' x y z : relabelled t t' → linked t x y z → linked t' x y z.
Proof.
  intros [E1 E2 E3 E4 E5 E6] [Hl Hp Hf Hla (Hn1 & Hn2 & Hn3) (Hq1 & Hq2 & Hq3)].
  assert (Hget : ∀ i, p_next (tget t' i) = p_next (tget t i) ∧ p_prev (tget t' i) = p_prev (tget t i)).
  { intros i. destruct (E6 i) as (-> & _). done. }
  split; try congruence;
    repeat split; first [rewrite (proj1 (Hget _))|rewrite (proj2 (Hget _))]; done.
Qed.

(** the records of some pointers, without their own pointers *)
Definition recs (t : ptable) (ids : list nat) : list partition_info :=
  map (λ j, core (tget t j)) ids.

Lemma relabelled_recs t t' ids : relabelled t t' → Forall2 same_part (recs t ids) (recs t' ids).
Proof. intros H. induction ids; simpl; constructor; [|done]. apply same_part_core, H. Qed.

Lemma relabelled_plist t t' x y z :
  relabelled t t' → Forall2 same_part (plist t x y z) (plist t' x y z).
Proof. apply (relabelled_recs t t' [x; y; z]). Qed.

(** Replacing the label of a used record. *)
Lemma relabelled_tupd t id f1 :
  R (p_f1 (tget t id)) f1 → p_used (tget t id) = 1 → relabelled t (tupd id (set_p_f1 f1) t).
Proof.
  intros He Hu. split; try done; [simpl; by rewrite length_insert|].
  intros i. destruct (decide (i = id ∧ (i < length (t_parts t))%nat)) as [[-> Hi]|Hne].
  - rewrite tget_tupd_eq by done. split; [done|]. split; [done|]. intros Hn. by destruct Hn.
  - unfold tget, tupd. simpl. destruct (decide (i = id)) as [->|].
    + rewrite list_insert_ge by lia. reflexivity.
    + rewrite list_lookup_total_insert_ne by done. reflexivity.
Qed.

Lemma chain_relabelled t t' cur ids : relabelled t t' → chain t cur ids → chain t' cur ids.
Proof.
  intros H. revert cur. induction ids as [|j ids IH]; intros cur; simpl; [done|].
  intros [-> Hc]. split; [done|]. apply IH. destruct (rl_same _ _ H j) as (-> & _). exact Hc.
Qed.
End Relabel.
Arguments same_part R p q : clear implicits.
Arguments relabelled R t t' : clear implicits.

Lemma set_DS1DSNAM_ext f x : DS1EXT1 (set_DS1DSNAM f x) = DS1EXT1 f.
Proof. by destruct f. Qed.

(** ** The rows *)

(** the rows describe the tracks from [pos] to [limit] without gap or overlap *)
Fixpoint tiles (limit pos : Z) (rows : list table_row) : Prop :=
  match rows with
  | [] => pos = limit + 1
  | FreeRow a b n :: r | PartRow _ a b n _ :: r =>
      a = pos ∧ a <= b <= limit ∧ n = b - a + 1 ∧ tiles limit (b + 1) r
  end.

Lemma tiles_free limit pos fs rows b :
  0 <= fs → pos + fs <= limit + 1 → b = pos + fs - 1 → tiles limit (pos + fs) rows →
  tiles limit pos ((if 0 <? fs then [FreeRow pos b fs] else []) ++ rows).
Proof.
  intros Hfs Hle -> Ht. destruct (0 <? fs) eqn:E; b2p; simpl.
  - split; [done|]. split; [lia|]. split; [lia|].
    by replace (pos + fs - 1 + 1) with (pos + fs) by lia.
  - by replace pos with (pos + fs) by lia.
Qed.

(** The rows from a record on; the free tracks before it are printed with the
    first record of the list only. *)
Lemma list_loop_spec ids limit fuel anc cur i pos fs :
  chain (a_tab anc) cur ids → NoDup ids → a_first anc ∉ tail ids →
  (cur = Some (a_first anc) → pos = FIRST_USABLE_TRK ∧ fs = a_fspace_trk anc) →
  (length ids < fuel)%nat → 0 < pos → 0 <= limit < 9223372036854775807 →
  layout limit pos fs (recs (a_tab anc) ids) →
  ∃ rows t', list_loop fuel anc cur i = Done (rows, set_a_tab t' anc) ∧
    relabelled same_ext (a_tab anc) t' ∧
    tiles limit (if decide (cur = Some (a_first anc)) then pos else pos + fs) rows.
Proof.
  revert fuel anc cur i pos fs.
  induction ids as [|id ids IH]; intros [|fuel] anc cur i pos fs Hc Hnd Htl Hfst Hfu Hpos Hlim Hlay;
    simpl in Hfu; try lia.
  - simpl in Hc. subst. exists [], (a_tab anc). split; [by destruct anc|]. split; [reflexivity|].
    inversion Hlay. simpl. lia.
  - destruct Hc as [-> Hc]. apply NoDup_cons in Hnd as [Hid Hnd]. simpl in Htl.
    set (before := if (id =? a_first anc)%nat && (0 <? a_fspace_trk anc)
      then [FreeRow FIRST_USABLE_TRK (u64 (FIRST_USABLE_TRK + a_fspace_trk anc - 1)) (a_fspace_trk anc)]
      else []).
    pose proof (layout_fs _ _ _ _ Hlay) as Hfsr.
    assert (Hbefore : ∀ rows, tiles limit (pos + fs) rows →
      tiles limit (if decide (Some id = Some (a_first anc)) then pos else pos + fs) (before ++ rows)).
    { intros rows Hrows. unfold before. destruct (decide _) as [He|Hne].
      - destruct (Hfst He) as [-> ->]. simplify_eq. rewrite Nat.eqb_refl. simpl (true && _).
        apply tiles_free; [lia|lia| |done]. apply u64_small. unfold FIRST_USABLE_TRK in *. lia.
      - rewrite (proj2 (Nat.eqb_neq _ _)) by congruence. done. }
    assert (Hnext : p_next (tget (a_tab anc) id) ≠ Some (a_first anc)).
    { intros He. destruct ids as [|j ids]; simpl in Hc; [congruence|].
      destruct Hc as [Hc _]. rewrite Hc in He. simplify_eq. apply Htl. constructor. }
    cbn [list_loop]. fold before. change (pget anc id) with (tget (a_tab anc) id).
    destruct (decide (p_used (tget (a_tab anc) id) = 1)) as [Hu|Hu].
    + rewrite Hu. cbn [Z.eqb negb Pos.eqb].
      apply layout_used_cons_inv in Hlay as (-> & Hs & He & Hlen & Hlay); [|exact Hu].
      set (anc1 := pupd id _ anc).
      assert (Hrl : relabelled same_ext (a_tab anc) (a_tab anc1)).
      { apply (relabelled_tupd (R := same_ext)); [|done]. unfold same_ext, name_enc, name_dec; by rewrite !set_DS1DSNAM_ext. }
      destruct (IH fuel anc1 (p_next (tget (a_tab anc) id)) (i + 1) (p_end_trk (tget (a_tab anc) id) + 1)
        (p_fspace_trk (tget (a_tab anc) id))) as (rows & t' & -> & Hrl' & Ht); try done; try lia.
      * by eapply chain_relabelled.
      * intros Hin. apply Htl. destruct ids; [done|]. by constructor.
      * simpl in Hs, He. lia.
      * eapply layout_relabel; [exact Hlay|]. by apply relabelled_recs.
      * rewrite Done_bind. eexists _, t'. split; [reflexivity|]. split; [by transitivity (a_tab anc1)|].
        change (a_first anc1) with (a_first anc) in Ht. rewrite decide_False in Ht by done.
        apply Hbefore. pose proof (layout_fs _ _ _ _ Hlay) as Hfs. simpl in Hs, He, Hlen, Hfs |- *.
        split; [lia|]. split; [done|]. split; [done|].
        rewrite (u64_small (_ + 1)) by lia. apply tiles_free; try lia; try done.
        rewrite u64_small by lia. lia.
    + rewrite (proj2 (Z.eqb_neq _ _)) by done. cbn [negb].
      pose proof (layout_unused_all _ _ _ [] _ _ Hlay Hu) as Hf.
      apply Forall_cons in Hf as [_ Hf].
      destruct (IH fuel anc (p_next (tget (a_tab anc) id)) (i + 1) pos fs)
        as (rows & t' & -> & Hrl' & Ht); try done; try lia.
      * intros Hin. apply Htl. destruct ids; [done|]. by constructor.
      * inversion Hlay as [? ? ? Hf'|]; subst; [|done]. by apply layout_free.
      * rewrite Done_bind. eexists _, t'. split; [reflexivity|]. split; [done|].
        rewrite decide_False in Ht by done. by apply Hbefore.
Qed.

(** The printed table: it leaves the partitions alone, and its rows cover the
    tracks from the first usable one to the last one without gap or overlap. *)
Lemma list_partition_table_spec anc x y z limit :
  linked (a_tab anc) x y z → 0 <= limit < 9223372036854775807 →
  layout limit FIRST_USABLE_TRK (a_fspace_trk anc) (plist (a_tab anc) x y z) →
  ∃ rows t', fdasd_list_partition_table anc = Done (rows, set_a_tab t' anc) ∧
    relabelled same_ext (a_tab anc) t' ∧ tiles limit FIRST_USABLE_TRK rows.
Proof.
  intros Hlk Hlim Hlay. destruct (linked_chain _ _ _ _ Hlk) as (Hch & Hnd & _).
  assert (Hfst : a_first anc ∉ [y; z]).
  { replace (a_first anc) with x by (symmetry; apply (lk_first _ _ _ _ Hlk)). by apply NoDup_cons in Hnd as [? _]. }
  destruct (list_loop_spec [x; y; z] limit (S USABLE_PARTITIONS) anc (Some (a_first anc)) 0
    FIRST_USABLE_TRK (a_fspace_trk anc)) as (rows & t' & Hl & Hrl & Ht); try done.
  - unfold USABLE_PARTITIONS. simpl. lia.
  - exists rows, t'. rewrite decide_True in Ht by done. done.
Qed.

End FdasdList.
