(* ===== verification/FdasdInput.v ===== *)
(** Terminal input of fdasd (src/fdasd/fdasd.c): reading lines, characters,
    yes/no answers and partition boundaries from the standard input, a list of
    bytes.  The loops that ask again are shown to end on every input. *)
From S2P Require Import Prelude Cchh FdasdState.
Import Fdasd.

Module FdasdInput.

Definition LINE_LENGTH : nat := 80.

(** ** Lines *)

(** The line is what the global [line_ptr] points to afterwards: the rest of
    [line_buffer] from the first printing character on. *)
Definition read_line (stdin : list Z) : list Z * list Z :=
  match fgets LINE_LENGTH stdin with
  | None => (zeros LINE_LENGTH, stdin)
  | Some (l, stdin) =>
      (skip_while (λ c, negb (c =? 0) && negb (isgraph c)) (l ++ zeros (LINE_LENGTH - length l)), stdin)
  end.

(** [read_char] returns [*line_ptr]: the head of the line *)
Definition read_char (stdin : list Z) : list Z * list Z := read_line stdin.

Fixpoint getline (s : list Z) : list Z * list Z :=
  match s with
  | [] => ([], [])
  | c :: s => if c =? 10 then ([c], s) else let '(l, r) := getline s in (c :: l, r)
  end.

(** 0 for yes, 1 for no, -1 at the end of the input *)
Fixpoint yes_no_loop (fuel : nat) (stdin : list Z) : outcome (Z * list Z) :=
  match fuel with
  | O => OutOfFuel
  | S fuel =>
      match stdin with
      | [] => Done (-1, [])
      | _ => let '(answer, stdin) := getline stdin in
             if headc answer =? 121 then Done (0, stdin)
             else if headc answer =? 110 then Done (1, stdin)
             else yes_no_loop fuel stdin
      end
  end.
Definition yes_no (stdin : list Z) : outcome (Z * list Z) := yes_no_loop (S (length stdin)) stdin.

(** ** Numbers *)

Inductive offset := lower | upper.
#[export] Instance offset_eq_dec : EqDecision offset.
Proof. solve_decision. Defined.

(** [while (!isdigit(read_char(msg)) && *line_ptr is none of '-', '+', NUL)] *)
Fixpoint read_number_line (fuel : nat) (stdin : list Z) : outcome (list Z * list Z) :=
  match fuel with
  | O => OutOfFuel
  | S fuel =>
      let '(ptr, stdin) := read_char stdin in
      let c := headc ptr in
      if negb (isdigit c) && negb (c =? 45) && negb (c =? 43) && negb (c =? 0)
      then read_number_line fuel stdin
      else Done (ptr, stdin)
  end.

(** the size appendix: tracks for [trk] units *)
Definition appendix (geo : hd_geometry) (blksize : Z) (c trk : Z) : outcome Z :=
  let scaled f := trk ← udiv (u64 (trk * f)) blksize; udiv trk (geo_sectors geo) in
  if (c =? 99) || (c =? 67) then Done (u64 (trk * geo_heads geo))
  else if (c =? 107) || (c =? 75) then scaled 1024
  else if (c =? 109) || (c =? 77) then scaled (1024 * 1024)
  else if (c =? 103) || (c =? 71) then scaled (1024 * 1024 * 1024)
  else Done trk.

(** the selected track and [use_default] after one line *)
Definition parse_track (geo : hd_geometry) (blksize low high : Z) (base : offset)
    (use_default : bool) (ptr : list Z) : outcome (Z * bool) :=
  let c := headc ptr in
  let sign := (c =? 43) || (c =? 45) in
  if sign && bool_decide (base ≠ lower) then
    let ptr := if c =? 43 then drop 1 ptr else ptr in
    let trk := u64 (atoi ptr) in
    let use_default := use_default && negb (isdigit (headc ptr)) in
    let ptr := skip_while isdigit ptr in
    trk ← appendix geo blksize (headc ptr) trk;
    Done (u64 (trk + u64 (low - 1)), use_default)
  else if c =? 0 then
    Done (match base with lower => low | upper => high end, use_default)
  else
    let ptr := if sign then drop 1 ptr else ptr in
    Done (u64 (atoi ptr), use_default && negb (isdigit (headc ptr))).

Fixpoint read_int_loop (fuel : nat) (geo : hd_geometry) (blksize low dflt high : Z)
    (base : offset) (use_default : bool) (stdin : list Z) : outcome (Z * list Z) :=
  match fuel with
  | O => OutOfFuel
  | S fuel =>
      '(ptr, stdin) ← read_number_line (S (length stdin)) stdin;
      '(trk, use_default) ← parse_track geo blksize low high base use_default ptr;
      let trk := if use_default : bool then dflt else trk in
      if (low <=? trk) && (trk <=? high) then Done (trk, stdin)
      else read_int_loop fuel geo blksize low dflt high base use_default stdin
  end.

Definition fdasd_read_int (geo : hd_geometry) (blksize low dflt high : Z) (base : offset)
    (stdin : list Z) : outcome (Z * list Z) :=
  read_int_loop (S (length stdin)) geo blksize low dflt high base true stdin.

(** ** The input loops end *)

Lemma length_fgets_loop n s :
  (length (fgets_loop n s).1 + length (fgets_loop n s).2 = length s)%nat.
Proof.
  revert s. induction n as [|n IH]; intros [|c s]; simpl; try done.
  destruct (c =? 10); [simpl; lia|]. specialize (IH s).
  destruct (fgets_loop n s) as [l r]. simpl in *. lia.
Qed.

Lemma fgets_loop_consumes n c s : (length (fgets_loop (S n) (c :: s)).2 < length (c :: s))%nat.
Proof.
  simpl. destruct (c =? 10); [simpl; lia|]. pose proof (length_fgets_loop n s) as H.
  destruct (fgets_loop n s) as [l r]. simpl in *. lia.
Qed.

(** At the end of the input the line is empty; otherwise it consumes a byte. *)
Lemma read_line_spec stdin :
  (stdin = [] ∧ (read_line stdin).2 = [] ∧ headc (read_line stdin).1 = 0) ∨
  (length (read_line stdin).2 < length stdin)%nat.
Proof.
  destruct stdin as [|c s]; [by left|]. right. unfold read_line, fgets.
  change (LINE_LENGTH - 1)%nat with (S 78). pose proof (fgets_loop_consumes 78 c s) as H.
  destruct (fgets_loop (S 78) (c :: s)) as [l r]. exact H.
Qed.

Lemma read_number_line_total fuel stdin :
  (length stdin < fuel)%nat →
  ∃ ptr rest, read_number_line fuel stdin = Done (ptr, rest) ∧ (length rest <= length stdin)%nat ∧
    (headc ptr ≠ 0 → (length rest < length stdin)%nat).
Proof.
  revert stdin. induction fuel as [|fuel IH]; intros stdin Hf; [lia|]. simpl.
  unfold read_char. pose proof (read_line_spec stdin) as Hspec.
  destruct (read_line stdin) as [ptr rest]. simpl in Hspec.
  destruct (_ && _) eqn:E.
  - b2p. destruct Hspec as [(-> & -> & Hz)|Hlt]; [done|].
    destruct (IH rest) as (ptr' & rest' & Hr & Hle & Hne); [lia|].
    exists ptr', rest'. split; [done|]. split; [lia|]. intros Hp. specialize (Hne Hp). lia.
  - exists ptr, rest. split; [done|]. destruct Hspec as [(-> & -> & Hz)|Hlt]; split; try lia; done.
Qed.

Lemma parse_track_total geo blksize low high base ud ptr :
  0 < blksize → 0 < geo_sectors geo →
  ∃ trk ud', parse_track geo blksize low high base ud ptr = Done (trk, ud') ∧
    (headc ptr = 0 → trk = match base with lower => low | upper => high end ∧ ud' = ud).
Proof.
  intros Hb Hs. unfold parse_track, appendix, udiv.
  rewrite (proj2 (Z.eqb_neq blksize 0)), (proj2 (Z.eqb_neq (geo_sectors geo) 0)) by lia.
  destruct (headc ptr =? 0) eqn:E0.
  - apply Z.eqb_eq in E0. rewrite E0. simpl. by eexists _, _.
  - apply Z.eqb_neq in E0.
    repeat (match goal with |- context [if ?c then _ else _] => destruct c end; simpl);
      eexists _, _; (split; [reflexivity|done]).
Qed.

(** With a sensible range and default, the question ends on every input, with a
    track of the range. *)
Lemma fdasd_read_int_total geo blksize low dflt high base stdin :
  0 < blksize → 0 < geo_sectors geo → low <= dflt <= high →
  ∃ trk rest, fdasd_read_int geo blksize low dflt high base stdin = Done (trk, rest) ∧
    low <= trk <= high ∧ (length rest <= length stdin)%nat.
Proof.
  intros Hb Hs Hr. unfold fdasd_read_int. generalize true as ud.
  assert (Hf : (length stdin < S (length stdin))%nat) by lia.
  revert Hf. generalize (S (length stdin)) as fuel. intros fuel. revert stdin.
  induction fuel as [|fuel IH]; intros stdin Hf ud; [lia|]. cbn [read_int_loop].
  destruct (read_number_line_total (S (length stdin)) stdin) as (ptr & rest & -> & Hle & Hlt); [lia|].
  cbn [mbind outcome_bind].
  destruct (parse_track_total geo blksize low high base ud ptr Hb Hs) as (trk & ud' & -> & Hz).
  cbn [mbind outcome_bind].
  destruct (_ && _) eqn:E.
  - b2p. by eexists _, rest.
  - destruct (decide (headc ptr = 0)) as [H0|H0].
    + destruct (Hz H0) as [-> ->]. apply andb_false_iff in E.
      destruct ud, base; destruct E as [E|E]; b2p; lia.
    + destruct (IH rest ltac:(specialize (Hlt H0); lia) ud') as (t & r & -> & ? & ?).
      eexists t, r. split; [done|]. lia.
Qed.

Lemma length_getline s :
  s ≠ [] → (length (getline s).2 < length s)%nat.
Proof.
  induction s as [|c s IH]; [done|]. intros _. simpl. destruct (c =? 10); [simpl; lia|].
  destruct s as [|d s]; [simpl; lia|]. specialize (IH ltac:(done)).
  destruct (getline (d :: s)) as [l r]. simpl in *. lia.
Qed.

(** The question is answered with yes, no, or the end of the input. *)
Lemma yes_no_total stdin :
  ∃ rc rest, yes_no stdin = Done (rc, rest) ∧ (rc = 0 ∨ rc = 1 ∨ (rc = -1 ∧ rest = [])) ∧
    (length rest <= length stdin)%nat.
Proof.
  unfold yes_no. assert (Hf : (length stdin < S (length stdin))%nat) by lia.
  revert Hf. generalize (S (length stdin)) as fuel. intros fuel. revert stdin.
  induction fuel as [|fuel IH]; intros stdin Hf; [lia|]. cbn [yes_no_loop].
  destruct stdin as [|c s] eqn:Es; [eexists _, _; split; [done|]; auto|].
  rewrite <- Es in *. pose proof (length_getline stdin) as Hl.
  rewrite Es in Hl at 1. specialize (Hl ltac:(done)).
  destruct (getline stdin) as [a r]. simpl in Hl.
  destruct (headc a =? 121); [eexists 0, r; split; [done|]; split; [auto|lia]|].
  destruct (headc a =? 110); [eexists 1, r; split; [done|]; split; [auto|lia]|].
  destruct (IH r ltac:(lia)) as (rc & rest & -> & Hrc & Hle).
  exists rc, rest. split; [done|]. split; [done|lia].
Qed.

End FdasdInput.
