(* ===== verification/FdasdPart.v ===== *)
(** The partition commands of fdasd (src/fdasd/fdasd.c): asking for the bounds
    of a new partition, adding and deleting partitions, and what they do to the
    partition list, to the labels and to the free-space information. *)
From S2P Require Import Prelude Cchh Codec Labels LabelOps Extents Fmt7 Fmt5 Freespace FdasdState FdasdTable.
From S2P Require Import FdasdLayout FdasdList FdasdInput.
Import Addr Extents Fmt7 Fmt5 Freespace Fdasd FdasdTable FdasdLayout FdasdList FdasdInput.

Module FdasdPart.

(** the state of a command: the anchor and the rest of the standard input *)
Notation io := (fdasd_anchor * list Z)%type.

(** ** Asking for the partition data *)

Definition fdasd_get_empty_f1_label (anc : fdasd_anchor) : option nat :=
  if a_used_partitions anc <? Z.of_nat USABLE_PARTITIONS then Some (a_last anc) else None.

(** first loop of [fdasd_get_partition_data]: the default start; both loops stop
    at the last record of the list without looking at it *)
Fixpoint default_start (fuel : nat) (anc : fdasd_anchor) (part_tmp : nat) (start : Z) : outcome Z :=
  match fuel with
  | O => OutOfFuel
  | S fuel =>
      let p := pget anc part_tmp in
      match p_next p with
      | None => Done start
      | Some next =>
          default_start fuel anc next
            (if (p_start_trk p <=? start) && (start <=? p_end_trk p) then u64 (p_end_trk p + 1) else start)
      end
  end.

(** second loop: the start the user gave and the last track it leaves free *)
Fixpoint check_start (fuel : nat) (anc : fdasd_anchor) (part_tmp : nat) (start limit : Z)
    : outcome (Z * Z) :=
  match fuel with
  | O => OutOfFuel
  | S fuel =>
      match p_next (pget anc part_tmp) with
      | None => Done (start, limit)
      | Some _ =>
          let p := pget anc part_tmp in
          let '(part_tmp, start) :=
            if (p_start_trk p <=? start) && (start <=? p_end_trk p) then
              let start := u64 (p_end_trk p + 1) in
              if limit <? start then (a_first anc, FIRST_USABLE_TRK) else (part_tmp, start)
            else (part_tmp, start) in
          let p := pget anc part_tmp in
          if start <? p_start_trk p then Done (start, u64 (p_start_trk p - 1))
          else next ← deref (p_next p); check_start fuel anc next start limit
      end
  end.

(** [cc = trk / geo.heads; hh = trk - cc * geo.heads] as a disk address *)
Definition trk_cchh (geo : hd_geometry) (trk : Z) : outcome cchh_t :=
  cc ← udiv trk (geo_heads geo);
  let cc := u32 cc in
  Done (vtoc_set_cchh cc (u16 (trk - u32 (cc * geo_heads geo)))).

(** the extent of a partition; [0x81] marks a start at a cylinder boundary *)
Definition part_extent (geo : hd_geometry) (start stop : Z) : outcome extent_t :=
  llimit ← trk_cchh geo start;
  ulimit ← trk_cchh geo stop;
  cc ← udiv start (geo_heads geo);
  let hh := u16 (start - u32 (u32 cc * geo_heads geo)) in
  Done (vtoc_set_extent (if hh =? 0 then 0x81 else 0x01) 0x00 llimit ulimit).

(** loops that can visit the list twice *)
Definition list_fuel : nat := 2 * USABLE_PARTITIONS + 1.

(** [None] for the return value -1: no free tracks *)
Definition fdasd_get_partition_data (geo : hd_geometry) (st : io) (part_info : nat)
    : outcome (option extent_t * io) :=
  let '(anc, stdin) := st in
  let cyl := get_usable_cylinders anc in
  let head := DS4DSTRK (DS4DEVCT (a_f4 anc)) in
  let limit := u32 (head * cyl - 1) in
  start ← default_start list_fuel anc (a_first anc) FIRST_USABLE_TRK;
  if limit <? start then Done (None, (anc, stdin))
  else
    '(start, stdin) ← fdasd_read_int geo (a_blksize anc) start start limit lower stdin;
    '(start, limit) ← check_start list_fuel anc (a_first anc) start limit;
    '(stop, stdin) ← (if start =? limit then Done (start, stdin)
                      else fdasd_read_int geo (a_blksize anc) start limit limit upper stdin);
    let anc := pupd part_info (λ p, set_p_end_trk stop (set_p_start_trk start
                 (set_p_len_trk (u64 (stop - start + 1)) p))) anc in
    ext ← part_extent geo start stop;
    Done (Some ext, (anc, stdin)).

(** ** Adding a partition *)

Definition new_f1 (now : tm) (anc : fdasd_anchor) (ext : extent_t) (f1 : format1_label_t)
    : format1_label_t :=
  if LV_COMPAT_CYL <? a_formatted_cylinders anc
  then vtoc_init_format8_label now (a_blksize anc) ext f1
  else vtoc_init_format1_label now (a_blksize anc) ext f1.

(** [vtoc_set_freespace] on the labels of the anchor; the bounds are converted to
    its 32-bit parameters *)
Definition set_freespace (geo : hd_geometry) (ch start stop : Z) (anc : fdasd_anchor)
    : outcome fdasd_anchor :=
  '(f4, f5, f7) ← vtoc_set_freespace (a_f4 anc) (a_f5 anc) (a_f7 anc) ch (u32 start) (u32 stop)
                    (a_formatted_cylinders anc) (geo_heads geo);
  Done (set_a_f7 f7 (set_a_f5 f5 (set_a_f4 f4 anc))).

Definition on_table (g : ptable → outcome ptable) (anc : fdasd_anchor) : outcome fdasd_anchor :=
  t ← g (a_tab anc); Done (set_a_tab t anc).

Definition changed_vtoc (anc : fdasd_anchor) : fdasd_anchor :=
  set_a_vtoc_changed (s32 (a_vtoc_changed anc + 1)) anc.

Definition fdasd_add_partition (geo : hd_geometry) (now : tm) (st : io) : outcome io :=
  match fdasd_get_empty_f1_label st.1 with
  | None => Done st
  | Some part_info =>
      '(oext, (anc, stdin)) ← fdasd_get_partition_data geo st part_info;
      match oext with
      | None => Done (anc, stdin)
      | Some ext =>
          let anc := pupd part_info (λ p, set_p_f1 (new_f1 now anc ext (p_f1 p)) p) anc in
          anc ← on_table fdasd_enqueue_new_partition anc;
          let anc := set_a_used_partitions (u32 (a_used_partitions anc + 1)) anc in
          let hf1 := get_addr_of_highest_f1_f8_label anc in
          let anc := set_a_f4 (vtoc_update_format4_label (a_f4 anc) hf1 (DS4DSREC (a_f4 anc) - 1)) anc in
          let start := cchh2trk (ext_llimit ext) geo in
          let stop := cchh2trk (ext_ulimit ext) geo in
          anc ← set_freespace geo minus_ch start stop anc;
          Done (changed_vtoc anc, stdin)
      end
  end.

(** ** Deleting a partition *)

(** [while (!isdigit(part_id = read_char(...)))]: the loop never ends when the
    input does, since the end of the input reads as NUL *)
Fixpoint read_digit (fuel : nat) (stdin : list Z) : outcome (Z * list Z) :=
  match fuel with
  | O => OutOfFuel
  | S fuel =>
      let '(ptr, stdin) := read_char stdin in
      if isdigit (headc ptr) then Done (headc ptr - 48, stdin) else read_digit fuel stdin
  end.

(** the rest of [fdasd_remove_partition], for a valid partition id *)
Definition remove_part (geo : hd_geometry) (part_id : Z) (anc : fdasd_anchor) : outcome fdasd_anchor :=
  let anc := setpos anc (Z.to_nat (part_id - 1)) (-1) in
  part_info ← walk (Z.to_nat (part_id - 1)) (a_tab anc) (a_first anc);
  let ext := DS1EXT1 (p_f1 (pget anc part_info)) in
  let start := cchh2trk (ext_llimit ext) geo in
  let stop := cchh2trk (ext_ulimit ext) geo in
  anc ← on_table (λ t, fdasd_dequeue_old_partition t part_info (part_id - 1)) anc;
  let anc := set_a_used_partitions (u32 (a_used_partitions anc - 1)) anc in
  let hf1 := if a_used_partitions anc =? 0 then zero_cchhb
             else get_addr_of_highest_f1_f8_label anc in
  let anc := set_a_f4 (vtoc_update_format4_label (a_f4 anc) hf1 (DS4DSREC (a_f4 anc) + 1)) anc in
  anc ← set_freespace geo plus_ch start stop anc;
  Done (changed_vtoc anc).

Definition fdasd_remove_partition (geo : hd_geometry) (st : io) : outcome io :=
  let '(anc, stdin) := st in
  '(_, anc) ← fdasd_list_partition_table anc;
  '(part_id, stdin) ← read_digit (S (length stdin)) stdin;
  if part_id =? 0 then Done (anc, stdin)
  else if a_used_partitions anc <? part_id then Done (anc, stdin)
  else anc ← remove_part geo part_id anc; Done (anc, stdin).

(** ** The invariant of a volume *)

(** the label of a used record describes its tracks *)
Definition f1_ok (geo : hd_geometry) (p : partition_info) : Prop :=
  p_used p = 1 →
  cchh2trk (ext_llimit (DS1EXT1 (p_f1 p))) geo = p_start_trk p ∧
  cchh2trk (ext_ulimit (DS1EXT1 (p_f1 p))) geo = p_end_trk p.

(** the last track of the volume *)
Definition last_trk (geo : hd_geometry) (anc : fdasd_anchor) : Z :=
  a_formatted_cylinders anc * geo_heads geo - 1.

(** a geometry fdasd works with: up to 16 heads, track numbers below 2^28 *)
Record geometry_ok (geo : hd_geometry) (anc : fdasd_anchor) : Prop := {
  g_heads : 0 < geo_heads geo <= 16;
  g_sectors : 0 < geo_sectors geo;
  g_blksize : 0 < a_blksize anc;
  g_cyl : 0 <= a_formatted_cylinders anc;
  g_last : FIRST_USABLE_TRK <= last_trk geo anc < 2 ^ 28 - 1;
  g_usable : u32 (DS4DSTRK (DS4DEVCT (a_f4 anc)) * get_usable_cylinders anc - 1) = last_trk geo anc
}.

(** The partition list lies in the order [x], [y], [z] and describes a layout;
    the labels agree with the records; and the free-space label in use stands
    for exactly the tracks that no partition has. *)
Record volume (geo : hd_geometry) (anc : fdasd_anchor) (x y z : nat) : Prop := {
  v_linked : linked (a_tab anc) x y z;
  v_layout : layout (last_trk geo anc) FIRST_USABLE_TRK (a_fspace_trk anc) (plist (a_tab anc) x y z);
  v_count : a_used_partitions anc = n_used (plist (a_tab anc) x y z);
  v_f1 : Forall (f1_ok geo) (plist (a_tab anc) x y z);
  v_free : fs_repr (a_formatted_cylinders anc) (geo_heads geo) (a_f5 anc) (a_f7 anc)
             (free_tracks (last_trk geo anc) (plist (a_tab anc) x y z))
}.

(** ** Track addresses *)

Lemma trk_cchh_ok geo trk :
  0 < geo_heads geo <= 16 → 0 <= trk < 2 ^ 28 →
  ∃ a, trk_cchh geo trk = Done a ∧ cchh2trk a geo = trk.
Proof.
  intros Hg Ht. unfold trk_cchh, udiv. rewrite (proj2 (Z.eqb_neq _ 0)) by lia. simpl.
  eexists. split; [reflexivity|].
  pose proof (Z.mod_pos_bound trk (geo_heads geo) ltac:(lia)).
  pose proof (Z.div_mod trk (geo_heads geo) ltac:(lia)) as Hdm.
  assert (0 <= trk / geo_heads geo <= trk).
  { split; [apply Z.div_pos; lia|]. apply Z.div_le_upper_bound; nia. }
  rewrite (u32_small (trk / _)) by lia.
  rewrite (u32_small (trk / _ * _)) by lia.
  replace (trk - trk / geo_heads geo * geo_heads geo) with (trk mod geo_heads geo) by lia.
  rewrite u16_small by lia. by apply cchh2trk_of_trk.
Qed.

Lemma part_extent_ok geo start stop :
  0 < geo_heads geo <= 16 → 0 <= start < 2 ^ 28 → 0 <= stop < 2 ^ 28 →
  ∃ ext, part_extent geo start stop = Done ext ∧
    cchh2trk (ext_llimit ext) geo = start ∧ cchh2trk (ext_ulimit ext) geo = stop.
Proof.
  intros Hg Hs He. unfold part_extent.
  destruct (trk_cchh_ok geo start Hg Hs) as (a & -> & Ha).
  destruct (trk_cchh_ok geo stop Hg He) as (b & -> & Hb).
  unfold udiv. rewrite (proj2 (Z.eqb_neq _ 0)) by lia. simpl.
  eexists. split; [reflexivity|]. done.
Qed.

(** ** The two list loops *)

Fixpoint dstart (l : list partition_info) (start : Z) : Z :=
  match l with
  | [] => start
  | p :: r => dstart r (if (p_start_trk p <=? start) && (start <=? p_end_trk p)
                        then u64 (p_end_trk p + 1) else start)
  end.

(** [None]: the start lies in a partition that ends at the limit *)
Fixpoint cstart (l : list partition_info) (start limit : Z) : option (Z * Z) :=
  match l with
  | [] => Some (start, limit)
  | p :: r =>
      if (p_start_trk p <=? start) && (start <=? p_end_trk p) then
        if limit <? p_end_trk p + 1 then None else cstart r (p_end_trk p + 1) limit
      else if start <? p_start_trk p then Some (start, p_start_trk p - 1)
      else cstart r start limit
  end.

(** every record ends on the volume *)
Lemma layout_ends limit pos fs l :
  0 < pos → 0 <= limit → layout limit pos fs l → Forall (λ p, 0 <= p_end_trk p <= limit) l.
Proof.
  intros Hpos Hlim. induction 1 as [pos l Hle Hf|pos p l Hu Hs He Hlen Hlay IH].
  - eapply Forall_impl; [exact Hf|]. intros p (_ & _ & -> & _). lia.
  - constructor; [lia|]. apply IH. lia.
Qed.

Lemma dstart_range limit l s :
  0 <= limit < 18446744073709551615 → Forall (λ p, 0 <= p_end_trk p <= limit) l →
  s <= limit + 1 → s <= dstart l s <= limit + 1.
Proof.
  intros Hlim Hl. revert s. induction Hl as [|p l Hp _ IH]; intros s Hs; simpl; [lia|].
  destruct (_ && _) eqn:E; b2p; [|by apply IH].
  rewrite u64_small by lia. specialize (IH (p_end_trk p + 1) ltac:(lia)). lia.
Qed.

(** Without a restart, the loop finds a run of free tracks. *)
Lemma cstart_free limit pos fs l start s e :
  0 < pos → layout limit pos fs l → pos <= start <= limit → cstart l start limit = Some (s, e) →
  pos <= s <= e ∧ e <= limit ∧ ∀ t, s <= t <= e → ¬ used_tracks l t.
Proof.
  intros Hpos Hlay. revert start Hpos.
  induction Hlay as [pos l Hle Hf|pos p l Hu Hs He Hlen Hlay IH]; intros start Hpos Hst.
  - intros Hc. assert (Hc' : cstart l start limit = Some (start, limit)).
    { clear Hc. induction Hf as [|q l (_ & E1 & E2 & _) Hf IH]; simpl; [done|].
      rewrite E1, E2. destruct (_ && _) eqn:E; b2p; [lia|].
      destruct (start <? 0) eqn:E'; b2p; [lia|done]. }
    rewrite Hc' in Hc. simplify_eq. split; [lia|]. split; [lia|].
    intros t _ (p & Hp & Hu & _). rewrite Forall_forall in Hf. destruct (Hf p Hp) as [Hz _]. lia.
  - simpl. intros Hc.
    assert (Hafter : ∀ t, used_tracks l t → p_end_trk p < t).
    { intros t (q & Hq & Huq & Ht).
      pose proof (layout_after _ _ _ _ _ Hlay Hq Huq). unfold in_part in Ht. lia. }
    destruct (_ && _) eqn:E; [|destruct (start <? p_start_trk p) eqn:E2]; b2p.
    + destruct (limit <? p_end_trk p + 1) eqn:E3; [done|]. b2p.
      destruct (IH (p_end_trk p + 1) ltac:(lia) ltac:(lia) Hc) as (H1 & H2 & H3). split; [lia|]. split; [done|].
      intros t Ht. rewrite used_tracks_cons. intros [[_ Hin]|Hin]; [unfold in_part in Hin; lia|].
      by eapply H3.
    + simplify_eq. split; [lia|]. split; [lia|].
      intros t Ht. rewrite used_tracks_cons. intros [[_ Hin]|Hin]; [unfold in_part in Hin; lia|].
      specialize (Hafter t Hin). lia.
    + assert (p_end_trk p < start) by (destruct E; b2p; lia).
      destruct (IH start ltac:(lia) ltac:(lia) Hc) as (H1 & H2 & H3). split; [lia|]. split; [done|].
      intros t Ht. rewrite used_tracks_cons. intros [[_ Hin]|Hin]; [unfold in_part in Hin; lia|].
      by eapply H3.
Qed.

(** A start in front of all partitions stays. *)
Lemma dstart_before limit pos fs l s :
  0 < s < pos → layout limit pos fs l → dstart l s = s.
Proof.
  intros Hs Hlay. induction Hlay as [pos l Hle Hf|pos p l Hu Hst He Hlen Hlay IH].
  - induction Hf as [|q l (_ & E1 & E2 & _) Hf IH]; simpl; [done|].
    rewrite E1, E2. destruct (_ && _) eqn:E; b2p; [lia|done].
  - simpl. destruct (_ && _) eqn:E; b2p; [lia|]. apply IH. lia.
Qed.

(** The default start runs over the limit only when every track is taken. *)
Lemma dstart_full limit pos fs l :
  0 < pos → limit < 18446744073709551615 → layout limit pos fs l → limit < dstart l pos →
  ∀ t, pos <= t <= limit → used_tracks l t.
Proof.
  intros Hpos Hlim Hlay. induction Hlay as [pos l Hle Hf|pos p l Hu Hst He Hlen Hlay IH].
  - assert (Hd : dstart l pos = pos); [|rewrite Hd; lia].
    clear - Hf Hpos. induction Hf as [|q l (_ & E1 & E2 & _) Hf IH]; simpl; [done|].
    rewrite E1, E2. destruct (_ && _) eqn:E; b2p; [lia|done].
  - simpl. destruct (_ && _) eqn:E; b2p.
    + rewrite u64_small by lia. intros Hd t Ht. rewrite used_tracks_cons. unfold in_part.
      destruct (decide (t <= p_end_trk p)); [left; split; [done|lia]|right].
      apply IH; [lia|done|lia].
    + assert (Hlt : pos < p_end_trk p + 1) by lia.
      rewrite (dstart_before _ _ _ _ _ (conj Hpos Hlt) Hlay). lia.
Qed.

Lemma cstart_None limit pos fs l s :
  0 < pos <= s → layout limit pos fs l → cstart l s limit = None →
  ∃ p, p ∈ l ∧ p_used p = 1 ∧ limit <= p_end_trk p.
Proof.
  intros Hs Hlay. revert s Hs. induction Hlay as [pos l Hle Hf|pos p l Hu Hst He Hlen Hlay IH]; intros s Hs.
  - intros Hc. exfalso. revert Hc.
    induction Hf as [|q l (_ & E1 & E2 & _) Hf IH]; simpl; [done|].
    rewrite E1, E2. destruct (_ && _) eqn:E; b2p; [lia|]. destruct (s <? 0); [done|exact IH].
  - simpl. intros Hc. destruct (_ && _) eqn:E.
    + b2p. destruct (limit <? _) eqn:E2; b2p; [exists p; split; [constructor|]; split; [done|lia]|].
      destruct (IH (p_end_trk p + 1) ltac:(lia) Hc) as (q & Hq & ?). exists q. by split; [constructor|].
    + destruct (s <? _) eqn:E2; [done|]. apply andb_false_iff in E.
      destruct (IH s ltac:(destruct E; b2p; lia) Hc) as (q & Hq & ?). exists q. by split; [constructor|].
Qed.

(** When a partition reaches the last track, the start is taken back to the
    first usable track; the code gets this right when no partition begins there. *)
Definition restart_safe (limit : Z) (l : list partition_info) : Prop :=
  (∀ p, p ∈ l → p_used p = 1 → p_end_trk p < limit) ∨
  (∀ p, p ∈ l → p_used p = 1 → FIRST_USABLE_TRK < p_start_trk p).

(** the record of the new partition *)
Definition set_bounds (start stop : Z) (p : partition_info) : partition_info :=
  set_p_end_trk stop (set_p_start_trk start (set_p_len_trk (u64 (stop - start + 1)) p)).

Section Volume.
Context (geo : hd_geometry) (anc : fdasd_anchor) (x y z : nat).
Context (Hg : geometry_ok geo anc) (Hv : volume geo anc x y z).

Notation limit := (last_trk geo anc).
Notation rec i := (core (tget (a_tab anc) i)).

Lemma plist_split : plist (a_tab anc) x y z = [rec x; rec y] ++ [rec z].
Proof. done. Qed.

(** A free record is the last one. *)
Lemma last_unused : a_used_partitions anc < Z.of_nat USABLE_PARTITIONS → unused (rec z).
Proof.
  rewrite (v_count _ _ _ _ _ Hv). intros Hn. change (Z.of_nat USABLE_PARTITIONS) with 3 in Hn.
  pose proof (v_layout _ _ _ _ _ Hv) as Hl. unfold plist in Hl, Hn.
  assert (Hall : ∀ l p r, l ++ p :: r = [rec x; rec y; rec z] → p_used p ≠ 1 → unused (rec z)).
  { intros l p r Heq Hp. simpl in Heq. rewrite <- Heq in Hl.
    pose proof (layout_unused_all _ _ _ _ _ _ Hl Hp) as Hf.
    rewrite Forall_forall in Hf. apply Hf. apply (f_equal (λ l, last l)) in Heq.
    rewrite last_app_cons in Heq. by apply last_Some_elem_of. }
  destruct (decide (p_used (rec x) = 1)) as [Ex|Ex]; [|by apply (Hall [] (rec x) [rec y; rec z])].
  destruct (decide (p_used (rec y) = 1)) as [Ey|Ey]; [|by apply (Hall [rec x] (rec y) [rec z])].
  destruct (decide (p_used (rec z) = 1)) as [Ez|Ez]; [|by apply (Hall [rec x; rec y] (rec z) [])].
  rewrite !n_used_cons in Hn. unfold is_used in Hn. rewrite Ex, Ey, Ez in Hn.
  change (n_used []) with 0 in Hn. simpl in Hn. lia.
Qed.

Lemma default_start_eq s :
  default_start list_fuel anc (a_first anc) s = Done (dstart [rec x; rec y] s).
Proof.
  destruct (v_linked _ _ _ _ _ Hv) as [_ _ Hf _ (H1 & H2 & H3) _].
  unfold a_first. rewrite Hf. unfold list_fuel. simpl. unfold pget. by rewrite H1, H2, H3.
Qed.

(** One round of the second loop. *)
Lemma check_start_step fuel id n s :
  let p := tget (a_tab anc) id in
  let first := tget (a_tab anc) (a_first anc) in
  p_next p = Some n → 0 <= s → 0 <= p_start_trk p <= limit + 1 → 0 <= p_end_trk p <= limit →
  0 <= p_start_trk first <= limit + 1 →
  (p_start_trk p <= s <= p_end_trk p → limit < p_end_trk p + 1 →
   FIRST_USABLE_TRK < p_start_trk first) →
  check_start (S fuel) anc id s limit =
    if (p_start_trk p <=? s) && (s <=? p_end_trk p) then
      if limit <? p_end_trk p + 1 then Done (FIRST_USABLE_TRK, p_start_trk first - 1)
      else check_start fuel anc n (p_end_trk p + 1) limit
    else if s <? p_start_trk p then Done (s, p_start_trk p - 1)
    else check_start fuel anc n s limit.
Proof.
  intros p first Hn Hs Hps Hpe Hf Hsafe. pose proof (g_last _ _ Hg).
  cbn [check_start]. unfold pget. fold p. rewrite Hn, (u64_small (p_end_trk p + 1)) by lia.
  destruct (_ && _) eqn:E; [destruct (limit <? _) eqn:E2|]; b2p; fold first; fold p.
  - rewrite (proj2 (Z.ltb_lt _ _)) by (apply Hsafe; lia). rewrite u64_small; [done|].
    unfold FIRST_USABLE_TRK in *. specialize (Hsafe ltac:(lia) ltac:(lia)). lia.
  - rewrite (proj2 (Z.ltb_ge _ _)) by lia. by rewrite Hn.
  - destruct (s <? p_start_trk p) eqn:E3; b2p; [by rewrite u64_small by lia|]. by rewrite Hn.
Qed.

Lemma layout_starts pos fs l :
  0 < pos → layout limit pos fs l → Forall (λ p, 0 <= p_start_trk p <= limit + 1) l.
Proof.
  intros Hpos. induction 1 as [pos l Hle Hf|pos p l Hu Hs He Hlen Hlay IH].
  - eapply Forall_impl; [exact Hf|]. intros p (_ & -> & _). lia.
  - constructor; [lia|]. apply IH. lia.
Qed.

Lemma check_start_eq s :
  0 <= s →
  (cstart [rec x; rec y] s limit = None → FIRST_USABLE_TRK < p_start_trk (rec x)) →
  check_start list_fuel anc (a_first anc) s limit =
    Done (default (FIRST_USABLE_TRK, p_start_trk (rec x) - 1) (cstart [rec x; rec y] s limit)).
Proof.
  destruct (v_linked _ _ _ _ _ Hv) as [_ _ Hf _ (H1 & H2 & H3) _]. intros Hs.
  assert (Hpos : 0 < FIRST_USABLE_TRK) by done.
  pose proof (g_last _ _ Hg) as Hlim. unfold FIRST_USABLE_TRK in Hlim.
  pose proof (layout_ends limit _ _ _ Hpos ltac:(lia) (v_layout _ _ _ _ _ Hv)) as Hend.
  pose proof (layout_starts _ _ _ Hpos (v_layout _ _ _ _ _ Hv)) as Hst.
  unfold plist in Hend, Hst. rewrite !Forall_cons in Hend, Hst.
  destruct Hend as (Hx & Hy & _). destruct Hst as (Hx' & Hy' & _). simpl in Hx, Hy, Hx', Hy'.
  assert (Hfx : a_first anc = x) by exact Hf. rewrite Hfx.
  cbn [cstart core set_p_next set_p_prev p_start_trk p_end_trk]. intros Hsafe. change list_fuel with (S (S (S 4))).
  rewrite (check_start_step _ x y); rewrite ?Hfx; try done; try lia.
  2: { intros Hin Hlt. apply Hsafe. rewrite (proj2 (andb_true_iff _ _)) by lia.
       by rewrite (proj2 (Z.ltb_lt _ _)). }
  destruct (_ && _) eqn:E; [destruct (limit <? _) eqn:E2; [done|]|destruct (s <? _) eqn:E2; [done|]].
  all: b2p; rewrite (check_start_step _ y z); rewrite ?Hfx; try done; try lia.
  2,4: intros Hin Hlt; apply Hsafe; rewrite (proj2 (andb_true_iff _ _)) by lia;
       by rewrite (proj2 (Z.ltb_lt _ _)).
  all: destruct (_ && _) eqn:E';
    [destruct (limit <? p_end_trk (tget _ y) + 1) eqn:E3; [done|]|destruct (_ <? p_start_trk _) eqn:E3; [done|]].
  all: simpl; unfold pget; by rewrite H3.
Qed.

(** A start in the partition that reaches the last track goes back to the first
    usable track, whether a partition begins there or not. *)
Lemma check_start_restart fuel id n m s :
  let p := tget (a_tab anc) id in
  let first := tget (a_tab anc) (a_first anc) in
  p_next p = Some n → p_start_trk p <= s <= p_end_trk p → 0 <= p_end_trk p <= limit →
  limit < p_end_trk p + 1 → p_start_trk first <= FIRST_USABLE_TRK → p_next first = Some m →
  check_start (S fuel) anc id s limit = check_start fuel anc m FIRST_USABLE_TRK limit.
Proof.
  intros p first Hn Hs Hpe Hlim Hf Hm. pose proof (g_last _ _ Hg).
  cbn [check_start]. unfold pget. fold p. rewrite Hn, (u64_small (p_end_trk p + 1)) by lia.
  rewrite (proj2 (andb_true_iff _ _)) by lia. rewrite (proj2 (Z.ltb_lt limit _)) by done.
  fold first. rewrite (proj2 (Z.ltb_ge FIRST_USABLE_TRK _)) by done. by rewrite Hm.
Qed.

(** [x] begins at the first usable track and the start lies in [y], which
    reaches the last track: the loop returns to [x]. *)
Lemma check_start_occupied s :
  unused (rec z) → dstart [rec x; rec y] FIRST_USABLE_TRK <= s <= limit →
  cstart [rec x; rec y] s limit = None → p_start_trk (rec x) <= FIRST_USABLE_TRK →
  ∃ stop, check_start list_fuel anc (a_first anc) s limit = Done (FIRST_USABLE_TRK, stop) ∧
    FIRST_USABLE_TRK <= stop <= limit ∧ used_tracks [rec x; rec y] FIRST_USABLE_TRK.
Proof.
  intros Hz Hs Hc Hx. pose proof (v_layout _ _ _ _ _ Hv) as Hl. rewrite plist_split in Hl.
  pose proof (layout_snoc_inv _ _ _ _ _ Hl Hz) as Hl2. pose proof (g_last _ _ Hg) as Hlim.
  destruct (v_linked _ _ _ _ _ Hv) as [_ _ Hf _ (H1 & H2 & H3) _].
  assert (Hpos : 0 < FIRST_USABLE_TRK) by done.
  assert (Hlim0 : 0 <= limit < 18446744073709551615) by (unfold FIRST_USABLE_TRK in Hlim; lia).
  pose proof (dstart_range limit _ FIRST_USABLE_TRK Hlim0
    (layout_ends _ _ _ _ Hpos (proj1 Hlim0) Hl2) ltac:(lia)) as Hdr.
  assert (Hs2 : 0 < FIRST_USABLE_TRK <= s) by lia.
  destruct (cstart_None _ _ _ _ s Hs2 Hl2 Hc) as (p & Hp & Hu & He).
  assert (Hux : p_used (rec x) = 1).
  { destruct (decide (p_used (rec x) = 1)) as [|Hne]; [done|].
    pose proof (layout_unused_all _ _ _ [] _ _ Hl2 Hne) as Hf'. rewrite Forall_forall in Hf'.
    destruct (Hf' p Hp) as [Hu0 _]. lia. }
  apply layout_used_cons_inv in Hl2 as (_ & Hxs & Hxe & _ & Hly); [|exact Hux].
  cbn [dstart cstart core set_p_next set_p_prev p_start_trk p_end_trk p_fspace_trk] in Hs, Hc, Hx, Hxs, Hxe, Hly.
  set (px := tget (a_tab anc) x) in *. set (py := tget (a_tab anc) y) in *.
  (* the default start lies behind [x], so the start is in [y] *)
  rewrite (proj2 (andb_true_iff (p_start_trk px <=? FIRST_USABLE_TRK) _)) in Hs by lia.
  rewrite (u64_small (p_end_trk px + 1)) in Hs by lia.
  assert (Hsx : p_end_trk px < s).
  { destruct (_ && _) eqn:E in Hs; b2p; [|lia].
    assert (Hpx : 0 < p_end_trk px + 1) by lia.
    pose proof (layout_ends limit _ _ _ Hpx (proj1 Hlim0) Hly) as Hey.
    apply Forall_cons in Hey as [Hey _]. cbn in Hey. fold py in Hey. rewrite u64_small in Hs; lia. }
  rewrite (proj2 (andb_false_iff (p_start_trk px <=? s) _)) in Hc by (right; apply Z.leb_gt; lia).
  rewrite (proj2 (Z.ltb_ge s (p_start_trk px))) in Hc by lia.
  destruct ((p_start_trk py <=? s) && (s <=? p_end_trk py)) eqn:Ey; [|by destruct (s <? p_start_trk py)].
  destruct (limit <? p_end_trk py + 1) eqn:El; [|done]. b2p.
  assert (Huy : p_used (rec y) = 1).
  { destruct (decide (p_used (rec y) = 1)) as [|Hne]; [done|].
    pose proof (layout_unused_all _ _ _ [] _ _ Hly Hne) as Hf'. apply Forall_cons in Hf' as [(_ & Es & Ee & _) _].
    cbn in Ee. fold py in Ee. lia. }
  apply layout_used_cons_inv in Hly as (_ & Hys & Hye & _ & _); [|exact Huy]. cbn in Hys, Hye. fold py in Hys, Hye.
  assert (Hfx : a_first anc = x) by exact Hf. rewrite Hfx. change list_fuel with (S (S (S 4))).
  exists (p_start_trk py - 1). split.
  - rewrite (check_start_step _ x y); rewrite ?Hfx; fold px; try done; try lia.
    rewrite (proj2 (andb_false_iff (p_start_trk px <=? s) _)) by (right; apply Z.leb_gt; lia).
    rewrite (proj2 (Z.ltb_ge s (p_start_trk px))) by lia.
    rewrite (check_start_restart _ y z y); rewrite ?Hfx; fold px py; try done; try lia.
    rewrite (check_start_step _ y z); rewrite ?Hfx; fold px py; try done; try lia.
    rewrite (proj2 (andb_false_iff (p_start_trk py <=? FIRST_USABLE_TRK) _)) by (left; apply Z.leb_gt; lia).
    by rewrite (proj2 (Z.ltb_lt FIRST_USABLE_TRK _)) by lia.
  - split; [lia|]. exists (rec x). split; [constructor|]. split; [done|]. unfold in_part. cbn. fold px. lia.
Qed.

(** The start and the limit that the loop finds: a run of free tracks, or the
    first usable track although it is taken. *)
Lemma check_start_cases s :
  unused (rec z) → dstart [rec x; rec y] FIRST_USABLE_TRK <= s <= limit → FIRST_USABLE_TRK <= s →
  ∃ start stop, check_start list_fuel anc (a_first anc) s limit = Done (start, stop) ∧
    FIRST_USABLE_TRK <= start <= stop ∧ stop <= limit ∧
    ((∀ t, start <= t <= stop → ¬ used_tracks [rec x; rec y] t) ∨
     (start = FIRST_USABLE_TRK ∧ used_tracks [rec x; rec y] start ∧
      ¬ restart_safe limit [rec x; rec y])).
Proof.
  intros Hz Hs Hs2. pose proof (v_layout _ _ _ _ _ Hv) as Hl. rewrite plist_split in Hl.
  pose proof (layout_snoc_inv _ _ _ _ _ Hl Hz) as Hl2.
  assert (Hpos : 0 < FIRST_USABLE_TRK) by done. assert (Hs0 : 0 <= s) by lia.
  destruct (cstart [rec x; rec y] s limit) as [[s' e']|] eqn:Hc.
  { pose proof (check_start_eq s Hs0) as Heq. rewrite Hc in Heq. rewrite Heq by done.
    destruct (cstart_free _ _ _ _ _ _ _ Hpos Hl2 (conj Hs2 (proj2 Hs)) Hc) as (? & ? & ?).
    exists s', e'. split; [done|]. split; [done|]. split; [done|]. by left. }
  destruct (decide (FIRST_USABLE_TRK < p_start_trk (rec x))) as [Hx|Hx].
  - rewrite (check_start_eq s Hs0 (λ _, Hx)), Hc. eexists _, _. split; [reflexivity|]. split; [simpl in *; lia|].
    inversion Hl2 as [? ? ? Hf|]; subst.
    { apply Forall_cons in Hf as [(_ & Hx0 & _) _]. rewrite Hx0 in Hx. done. }
    split; [simpl in *; lia|]. left. intros t Ht. rewrite used_tracks_cons.
    intros [[_ Hin]|(q & Hq & Hu & Hin)]; unfold in_part in Hin; simpl in *; [lia|].
    pose proof (layout_after _ _ _ _ q ltac:(eassumption) Hq Hu). lia.
  - destruct (check_start_occupied s Hz Hs Hc ltac:(lia)) as (stop & -> & Hst & Hut).
    exists FIRST_USABLE_TRK, stop. split; [done|]. split; [lia|]. split; [lia|]. right. split; [done|].
    split; [done|]. intros [Hsafe|Hsafe].
    + destruct (cstart_None _ _ _ _ _ (conj Hpos Hs2) Hl2 Hc) as (p & Hp & Hu & He).
      specialize (Hsafe p Hp Hu). lia.
    + destruct Hut as (p & Hp & Hu & Hin). specialize (Hsafe p Hp Hu). unfold in_part in Hin. lia.
Qed.

(** [fdasd_get_partition_data] ends on every input: with -1 when every track is
    in a partition, and otherwise with the bounds and the extent of a partition
    that overlaps no other one, or that starts at the first usable track although
    this is taken. *)
Lemma get_partition_data_spec stdin :
  unused (rec z) →
  (fdasd_get_partition_data geo (anc, stdin) z = Done (None, (anc, stdin)) ∧
   ∀ t, FIRST_USABLE_TRK <= t <= limit → used_tracks [rec x; rec y] t) ∨
  (∃ start stop ext stdin',
    fdasd_get_partition_data geo (anc, stdin) z =
      Done (Some ext, (pupd z (set_bounds start stop) anc, stdin')) ∧
    FIRST_USABLE_TRK <= start <= stop ∧ stop <= limit ∧
    ((∀ t, start <= t <= stop → ¬ used_tracks [rec x; rec y] t) ∨
     (used_tracks [rec x; rec y] start ∧ ¬ restart_safe limit [rec x; rec y])) ∧
    cchh2trk (ext_llimit ext) geo = start ∧ cchh2trk (ext_ulimit ext) geo = stop).
Proof.
  intros Hz. pose proof (v_layout _ _ _ _ _ Hv) as Hl. rewrite plist_split in Hl.
  pose proof (layout_snoc_inv _ _ _ _ _ Hl Hz) as Hl2.
  assert (Hpos : 0 < FIRST_USABLE_TRK) by done.
  destruct Hg as [Hgh Hgs Hgb Hgc Hgl Hgu].
  assert (Hlim : 0 <= limit < 18446744073709551615) by (unfold FIRST_USABLE_TRK in *; lia).
  pose proof (layout_ends _ _ _ _ Hpos (proj1 Hlim) Hl2) as Hends.
  pose proof (dstart_range limit _ FIRST_USABLE_TRK Hlim Hends ltac:(lia)) as Hd.
  unfold fdasd_get_partition_data. rewrite Hgu, default_start_eq, Done_bind.
  destruct (limit <? _) eqn:E; b2p.
  { left. split; [done|]. by apply (dstart_full _ _ _ _ Hpos (proj2 Hlim) Hl2). }
  right. destruct (fdasd_read_int_total geo (a_blksize anc) (dstart [rec x; rec y] FIRST_USABLE_TRK)
    (dstart [rec x; rec y] FIRST_USABLE_TRK) limit lower stdin) as (s & r & -> & Hsr & _); try lia.
  rewrite Done_bind.
  destruct (check_start_cases s Hz ltac:(lia) ltac:(lia)) as (start & lim & -> & H1 & H2 & H3).
  rewrite Done_bind.
  assert (Hstop : ∃ stop r', (if start =? lim then Done (start, r)
    else fdasd_read_int geo (a_blksize anc) start lim lim upper r) = Done (stop, r') ∧
    start <= stop <= lim).
  { destruct (start =? lim) eqn:E2; b2p; [exists start, r; split; [done|lia]|].
    destruct (fdasd_read_int_total geo (a_blksize anc) start lim lim upper r)
      as (stop & r' & ? & ? & _); try lia. by exists stop, r'. }
  destruct Hstop as (stop & r' & -> & Hst). rewrite Done_bind.
  destruct (part_extent_ok geo start stop Hgh) as (ext & -> & He1 & He2);
    [unfold FIRST_USABLE_TRK in *; lia..|].
  exists start, stop, ext, r'. split; [done|]. split; [lia|]. split; [lia|].
  split; [|done]. destruct H3 as [H3|(-> & H3 & H4)]; [left; intros t Ht; apply H3; lia|by right].
Qed.
End Volume.

End FdasdPart.
