(* ===== verification/FdasdVolume.v ===== *)
(** Adding and deleting partitions in fdasd (src/fdasd/fdasd.c) keep the volume
    consistent: partition list, labels and free-space information always
    describe the same set of partitions. *)
From S2P Require Import Prelude Cchh Codec Labels LabelOps Extents Fmt7 Fmt5 Freespace FdasdState FdasdTable.
From S2P Require Import FdasdLayout FdasdList FdasdInput FdasdPart.
Import Addr Extents Fmt7 Fmt5 Freespace Fdasd FdasdTable FdasdLayout FdasdList FdasdInput FdasdPart.

Module FdasdVolume.

(** ** What the label updates leave alone *)

(** [f4'] describes the same device as [f4] *)
Definition same_device (f4 f4' : format4_label_t) : Prop :=
  DS4DEVCT f4' = DS4DEVCT f4 ∧ DS4DCYL f4' = DS4DCYL f4 ∧ DS4DEVAC f4' = DS4DEVAC f4.

#[export] Instance same_device_preorder : PreOrder same_device.
Proof. split; [by repeat split|]. intros a b c (? & ? & ?) (? & ? & ?). repeat split; congruence. Qed.

Lemma update_format4_same f4 hf1 n : same_device f4 (vtoc_update_format4_label f4 hf1 n).
Proof. destruct f4. by repeat split. Qed.

Lemma set_freespace_same f4 f5 f7 ch start stop cyl trk f4' f5' f7' :
  vtoc_set_freespace f4 f5 f7 ch start stop cyl trk = Done (f4', f5', f7') → same_device f4 f4'.
Proof.
  unfold vtoc_set_freespace. destruct (BIG_DISK_SIZE <? _);
    rewrite outcome_bind_Done; intros (? & _ & H); injection H as <- _ _; destruct f4; by repeat split.
Qed.

(** What the geometry conditions look at. *)
Lemma geometry_ok_frame geo anc anc' :
  a_blksize anc' = a_blksize anc → a_formatted_cylinders anc' = a_formatted_cylinders anc →
  same_device (a_f4 anc) (a_f4 anc') → geometry_ok geo anc → geometry_ok geo anc'.
Proof.
  intros Hb Hc (H1 & H2 & H3) [G1 G2 G3 G4 G5 G6].
  split; unfold last_trk, get_usable_cylinders in *; rewrite ?Hb, ?Hc, ?H1, ?H2, ?H3; done.
Qed.

(** what every command leaves alone: the size of the disk *)
Record same_disk (anc anc' : fdasd_anchor) : Prop := {
  sd_formatted : a_formatted_cylinders anc' = a_formatted_cylinders anc;
  sd_blksize : a_blksize anc' = a_blksize anc;
  sd_device : same_device (a_f4 anc) (a_f4 anc')
}.

#[export] Instance same_disk_preorder : PreOrder same_disk.
Proof.
  split; [intros a; split; reflexivity|]. intros a b c [] []. split; [congruence..|]. by transitivity (a_f4 b).
Qed.

Lemma same_disk_ok geo anc anc' : same_disk anc anc' → geometry_ok geo anc → geometry_ok geo anc'.
Proof. intros [E1 E2 E3]. by apply geometry_ok_frame. Qed.

(** ** Sets of tracks *)

Lemma used_tracks_unused_last l p t : unused p → used_tracks (l ++ [p]) t ↔ used_tracks l t.
Proof.
  intros [Hp _]. unfold used_tracks. split.
  - intros (q & Hq & Hu & Hin). apply elem_of_app in Hq as [Hq|Hq]; [by exists q|].
    apply list_elem_of_singleton in Hq as ->. lia.
  - intros (q & Hq & ?). exists q. split; [apply elem_of_app; by left|done].
Qed.

(** Where a run of free tracks can start: at the first usable track or behind a
    partition. *)
Definition run_starts (l : list partition_info) : list Z :=
  FIRST_USABLE_TRK :: map (λ p, p_end_trk p + 1) l.

Global Instance used_part_dec l t : Decision (used_tracks l t).
Proof.
  refine (cast_if (decide (Exists (λ p, p_used p = 1 ∧ p_start_trk p <= t <= p_end_trk p) l)));
    unfold used_tracks, in_part; rewrite <- Exists_exists; done.
Defined.

Lemma free_run_start limit l t :
  free_tracks limit l t → ¬ free_tracks limit l (t - 1) → t ∈ run_starts l.
Proof.
  intros [Ht Hu] Hn. unfold run_starts. rewrite elem_of_cons.
  destruct (decide (t = FIRST_USABLE_TRK)) as [|Hne]; [by left|]. right.
  destruct (decide (used_tracks l (t - 1))) as [(p & Hp & Hup & Hin)|Hnu].
  - apply list_elem_of_fmap. exists p. split; [|done]. unfold in_part in Hin.
    destruct (decide (t <= p_end_trk p)); [|lia].
    destruct Hu. exists p. split; [done|]. split; [done|]. unfold in_part. lia.
  - destruct Hn. split; [lia|done].
Qed.

(** The free-space tables always have room for the gaps between the partitions. *)
Lemma volume_room geo anc x y z :
  geometry_ok geo anc → volume geo anc x y z →
  fs_room (a_formatted_cylinders anc) (geo_heads geo) (a_f5 anc) (a_f7 anc).
Proof.
  intros Hg Hv. eapply fs_room_bound with (S := run_starts (plist (a_tab anc) x y z)).
  - pose proof (g_heads _ _ Hg). lia.
  - apply (v_free _ _ _ _ _ Hv).
  - simpl. lia.
  - intros t. apply free_run_start.
Qed.

Lemma volume_disk_ok geo anc :
  geometry_ok geo anc → disk_ok (a_formatted_cylinders anc) (geo_heads geo).
Proof.
  intros [G1 _ _ G4 G5 _]. unfold last_trk in G5. split; [lia|]. split; [done|]. lia.
Qed.

(** Other labels for the same tracks do not change the volume. *)
Lemma volume_relabelled geo anc x y z t' :
  relabelled same_ext (a_tab anc) t' → volume geo anc x y z → volume geo (set_a_tab t' anc) x y z.
Proof.
  intros Hrl [V1 V2 V3 V4 V5]. pose proof (relabelled_plist _ _ x y z Hrl) as H2.
  split; simpl.
  - by eapply relabelled_linked.
  - change (a_fspace_trk (set_a_tab t' anc)) with (t_fspace_trk t').
    rewrite (rl_fspace _ _ Hrl). eapply layout_relabel; eassumption.
  - by rewrite (n_used_relabel _ _ H2).
  - clear -V4 H2. induction H2 as [|p q l l' Hpq H IH]; [done|].
    apply Forall_cons in V4 as [Hp V4]. constructor; [|by apply IH].
    destruct (same_part_fields _ _ Hpq) as (E1 & E2 & E3 & _), Hpq as (_ & He & _).
    intros Hu. rewrite He, E2, E3. apply Hp. by rewrite <- E1.
  - eapply fs_repr_ext; [|exact V5]. intros t. unfold free_tracks.
    by rewrite (used_tracks_relabel _ _ t H2).
Qed.

(** ** Adding a partition *)

Section Add.
Context (geo : hd_geometry) (now : tm).

Lemma new_f1_ext anc ext f1 : DS1EXT1 (new_f1 now anc ext f1) = ext.
Proof. unfold new_f1. by destruct (LV_COMPAT_CYL <? _). Qed.

(** What a command did to the partitions: nothing, or one more range of tracks
    that was free before. *)
Definition added (anc anc' : fdasd_anchor) (l l' : list partition_info) : Prop :=
  anc' = anc ∨
  ∃ start stop, FIRST_USABLE_TRK <= start <= stop ∧ stop <= last_trk geo anc ∧
    (∀ t, start <= t <= stop → ¬ used_tracks l t) ∧
    (∀ t, used_tracks l' t ↔ used_tracks l t ∨ start <= t <= stop) ∧
    a_used_partitions anc' = a_used_partitions anc + 1.

Lemma keeps_links_bounds start stop : keeps_links (set_bounds start stop).
Proof. done. Qed.
Lemma keeps_links_f1 h : keeps_links (λ p, set_p_f1 (h p) p).
Proof. done. Qed.

(** the free space that is left after taking a range *)
Lemma free_tracks_del limit l l' start stop t :
  (∀ t, used_tracks l' t ↔ used_tracks l t ∨ start <= t <= stop) →
  fs_del (free_tracks limit l) start stop t ↔ free_tracks limit l' t.
Proof. intros H. unfold fs_del, free_tracks. rewrite H. tauto. Qed.

Lemma fits_new limit fs l start stop new :
  layout limit FIRST_USABLE_TRK fs l → limit < 2 ^ 28 - 1 →
  FIRST_USABLE_TRK <= start <= stop → stop <= limit →
  (∀ t, start <= t <= stop → ¬ used_tracks l t) →
  p_start_trk new = start → p_end_trk new = stop → p_len_trk new = u64 (stop - start + 1) →
  fits limit FIRST_USABLE_TRK l new.
Proof.
  intros Hlay Hlim Hs He Hfree E1 E2 E3. split; rewrite ?E1, ?E2, ?E3; [done|done| |].
  - apply u64_small. unfold FIRST_USABLE_TRK in Hs. lia.
  - intros p Hp Hu. destruct (layout_after _ _ _ _ _ Hlay Hp Hu) as (Ho & _).
    destruct (decide (stop < p_start_trk p)) as [|H1]; [by left|].
    destruct (decide (p_end_trk p < start)) as [|H2]; [by right|].
    exfalso. apply (Hfree (Z.max start (p_start_trk p))); [lia|].
    exists p. split; [done|]. split; [done|]. unfold in_part. lia.
Qed.

Lemma n_used_snoc l p : unused p → n_used (l ++ [p]) = n_used l.
Proof.
  intros [Hp _]. rewrite (Permutation_app_comm l [p]). simpl. rewrite n_used_cons.
  unfold is_used. by rewrite Hp.
Qed.

Lemma f1_ok_nofs p : f1_ok geo (nofs p) ↔ f1_ok geo p.
Proof. done. Qed.

(** Queueing on lists, seen through the four parts of the invariant. *)
Lemma enq_effect limit fs l new :
  layout limit FIRST_USABLE_TRK fs l → limit < 18446744073709551615 →
  fits limit FIRST_USABLE_TRK l new →
  let r := enq FIRST_USABLE_TRK fs l new in
  layout limit FIRST_USABLE_TRK r.1 r.2 ∧ n_used r.2 = n_used l + 1 ∧
  (Forall (f1_ok geo) l → f1_ok geo (set_p_used 1 new) → Forall (f1_ok geo) r.2) ∧
  ∀ t, used_tracks r.2 t ↔ used_tracks l t ∨ in_part new t.
Proof.
  intros Hlay Hlim Hfits r. pose proof (enq_perm FIRST_USABLE_TRK fs l new) as Hp. fold r in Hp.
  split; [by apply enq_layout|]. split; [|split].
  - rewrite <- (n_used_nofs r.2), Hp, n_used_nofs, n_used_cons. unfold is_used. simpl. lia.
  - intros Hl Hn. rewrite <- (Forall_nofs _ _ f1_ok_nofs), Hp, (Forall_nofs _ _ f1_ok_nofs).
    by constructor.
  - intros t. rewrite <- used_tracks_nofs, Hp, used_tracks_nofs, used_tracks_cons.
    unfold in_part. simpl. naive_solver.
Qed.

(** The record queued by [fdasd_enqueue_new_partition]. *)
Lemma enqueue_volume anc x y z start stop f1 :
  geometry_ok geo anc → volume geo anc x y z → unused (core (tget (a_tab anc) z)) →
  FIRST_USABLE_TRK <= start <= stop → stop <= last_trk geo anc →
  (∀ t, start <= t <= stop → ¬ used_tracks (plist (a_tab anc) x y z) t) →
  cchh2trk (ext_llimit (DS1EXT1 f1)) geo = start → cchh2trk (ext_ulimit (DS1EXT1 f1)) geo = stop →
  let t1 := tupd z (set_p_f1 f1) (tupd z (set_bounds start stop) (a_tab anc)) in
  ∃ t2 x' y' z', fdasd_enqueue_new_partition t1 = Done t2 ∧ linked t2 x' y' z' ∧
    layout (last_trk geo anc) FIRST_USABLE_TRK (t_fspace_trk t2) (plist t2 x' y' z') ∧
    n_used (plist t2 x' y' z') = n_used (plist (a_tab anc) x y z) + 1 ∧
    Forall (f1_ok geo) (plist t2 x' y' z') ∧
    (∀ t, used_tracks (plist t2 x' y' z') t ↔
          used_tracks (plist (a_tab anc) x y z) t ∨ start <= t <= stop).
Proof.
  intros Hg Hv Hz Hs He Hfree Hl Hu t1.
  pose proof (v_linked _ _ _ _ _ Hv) as Hlk. pose proof (linked_neq _ _ _ _ Hlk) as (Nxy & Nxz & Nyz).
  pose proof (linked_lt _ _ _ _ Hlk) as (_ & _ & Hz3). pose proof (lk_length _ _ _ _ Hlk) as H3.
  assert (Hlk1 : linked t1 x y z) by (apply linked_tupd; [apply linked_tupd; [done|]|]; done).
  assert (Hx : tget t1 x = tget (a_tab anc) x) by (unfold t1; by rewrite !tget_tupd_ne).
  assert (Hy : tget t1 y = tget (a_tab anc) y) by (unfold t1; by rewrite !tget_tupd_ne).
  assert (Hz1 : tget t1 z = set_p_f1 f1 (set_bounds start stop (tget (a_tab anc) z))).
  { unfold t1. rewrite !tget_tupd_eq; [done|lia|]. simpl. rewrite length_insert. lia. }
  pose proof (v_layout _ _ _ _ _ Hv) as Hlay. rewrite plist_split in Hlay.
  apply layout_snoc_inv in Hlay; [|done].
  assert (Hfree2 : ∀ t, start <= t <= stop →
    ¬ used_tracks [core (tget (a_tab anc) x); core (tget (a_tab anc) y)] t).
  { intros t Ht Hut. apply (Hfree t Ht). rewrite plist_split. by apply used_tracks_unused_last. }
  pose proof (fits_new _ _ _ start stop (core (tget t1 z)) Hlay) as Hfits.
  pose proof (g_last _ _ Hg) as Hlim. assert (Hpos : 0 < FIRST_USABLE_TRK) by done.
  pose proof (layout_ends (last_trk geo anc) _ _ _ Hpos ltac:(lia) Hlay) as Hends.
  rewrite Hz1 in Hfits. specialize (Hfits (proj2 Hlim) Hs He Hfree2 eq_refl eq_refl eq_refl).
  set (new := core (set_p_f1 f1 (set_bounds start stop (tget (a_tab anc) z)))) in *.
  pose proof (enqueue_refines t1 x y z Hlk1) as Henq. unfold plist in Henq at 1.
  rewrite Hx, Hy, Hz1 in Henq. fold new in Henq.
  destruct (enq_ids _ x y z) as [[x' y'] z'].
  destruct Henq as (t2 & Ht2 & Hlk2 & Hpl & _).
  { change [?a; ?b; new] with ([a; b] ++ [new]). apply Forall_app. split.
    - eapply Forall_impl; [exact Hends|]. simpl. intros p Hp. unfold FIRST_USABLE_TRK in *. lia.
    - apply Forall_singleton. simpl. unfold FIRST_USABLE_TRK in *. lia. }
  change (t_fspace_trk t1) with (a_fspace_trk anc) in Hpl.
  destruct (enq_effect _ _ _ new Hlay ltac:(lia) Hfits) as (L1 & L2 & L3 & L4).
  rewrite <- Hpl in L1, L2, L3, L4. cbn [fst snd] in L1, L2, L3, L4.
  exists t2, x', y', z'. split; [done|]. split; [done|]. split; [done|].
  rewrite plist_split, n_used_snoc by done. split; [done|].
  split; [apply L3; [|by intros _]|].
  - pose proof (v_f1 _ _ _ _ _ Hv) as Hf. rewrite plist_split in Hf. by apply Forall_app in Hf as [Hf _].
  - intros t. rewrite used_tracks_unused_last by done. apply L4.
Qed.

(** The free-space label after a range was taken. *)
Lemma set_freespace_minus anc x y z start stop f4 l' :
  geometry_ok geo anc → volume geo anc x y z →
  FIRST_USABLE_TRK <= start <= stop → stop <= last_trk geo anc →
  (∀ t, start <= t <= stop → ¬ used_tracks (plist (a_tab anc) x y z) t) →
  (∀ t, used_tracks l' t ↔ used_tracks (plist (a_tab anc) x y z) t ∨ start <= t <= stop) →
  ∃ f4' f5' f7', vtoc_set_freespace f4 (a_f5 anc) (a_f7 anc) minus_ch (u32 start) (u32 stop)
      (a_formatted_cylinders anc) (geo_heads geo) = Done (f4', f5', f7') ∧
    fs_repr (a_formatted_cylinders anc) (geo_heads geo) f5' f7' (free_tracks (last_trk geo anc) l').
Proof.
  intros Hg Hv Hs He Hfree Hl'. pose proof (g_last _ _ Hg) as Hlim.
  rewrite (u32_small start), (u32_small stop) by (unfold FIRST_USABLE_TRK in *; lia).
  destruct (set_freespace_del f4 _ _ _ start stop _ _ (volume_disk_ok _ _ Hg)
    (v_free _ _ _ _ _ Hv) (volume_room _ _ _ _ _ Hg Hv)) as (f4' & f5' & f7' & Hset & Hrepr).
  - unfold FIRST_USABLE_TRK in Hs. lia.
  - unfold last_trk in He. lia.
  - intros t Ht. split; [unfold FIRST_USABLE_TRK in *; lia|]. by apply Hfree.
  - exists f4', f5', f7'. split; [done|]. eapply fs_repr_ext; [|exact Hrepr].
    intros t. by apply free_tracks_del.
Qed.

Lemma restart_safe_app limit l l' : restart_safe limit (l ++ l') → restart_safe limit l.
Proof.
  intros [H|H]; [left|right]; intros p Hp; apply H; apply elem_of_app; by left.
Qed.

(** Queueing never follows a NULL pointer. *)
Lemma enqueue_done anc x y z start stop f1 :
  geometry_ok geo anc → volume geo anc x y z → FIRST_USABLE_TRK <= start <= stop →
  stop <= last_trk geo anc →
  ∃ t2, fdasd_enqueue_new_partition
          (tupd z (set_p_f1 f1) (tupd z (set_bounds start stop) (a_tab anc))) = Done t2.
Proof.
  intros Hg Hv Hs He. pose proof (v_linked _ _ _ _ _ Hv) as Hlk.
  pose proof (linked_neq _ _ _ _ Hlk) as (Nxy & Nxz & Nyz).
  pose proof (linked_lt _ _ _ _ Hlk) as (_ & _ & Hz3). pose proof (lk_length _ _ _ _ Hlk) as H3.
  set (t1 := tupd z (set_p_f1 f1) (tupd z (set_bounds start stop) (a_tab anc))).
  assert (Hlk1 : linked t1 x y z) by (apply linked_tupd; [apply linked_tupd; [done|]|]; done).
  pose proof (enqueue_refines t1 x y z Hlk1) as Henq.
  cbv zeta in Henq. destruct (enq_ids (enq_pos _ _) x y z) as [[x' y'] z'].
  destruct Henq as (t2 & -> & _); [|by exists t2].
  pose proof (g_last _ _ Hg) as Hlim. unfold FIRST_USABLE_TRK in *.
  pose proof (layout_ends (last_trk geo anc) 2 _ _ ltac:(done) ltac:(lia) (v_layout _ _ _ _ _ Hv)) as Hends.
  unfold plist, t1 in *. rewrite !tget_tupd_ne by done.
  rewrite !tget_tupd_eq; [|lia|simpl; rewrite length_insert; lia].
  rewrite !Forall_cons in Hends |- *. destruct Hends as (E1 & E2 & _). simpl in *.
  repeat (split; [lia|]). constructor.
Qed.

(** [fdasd_add_partition] keeps the volume consistent.  It returns, or it ends
    the program because it chose the taken first track. *)
Lemma add_partition_volume anc x y z stdin :
  geometry_ok geo anc → volume geo anc x y z →
  (fdasd_add_partition geo now (anc, stdin) = Exited 1 ∧
   ¬ restart_safe (last_trk geo anc) (plist (a_tab anc) x y z)) ∨
  ∃ anc' stdin' x' y' z',
    fdasd_add_partition geo now (anc, stdin) = Done (anc', stdin') ∧
    same_disk anc anc' ∧ volume geo anc' x' y' z' ∧
    added anc anc' (plist (a_tab anc) x y z) (plist (a_tab anc') x' y' z').
Proof.
  intros Hg Hv. unfold fdasd_add_partition, fdasd_get_empty_f1_label. simpl (fst _).
  destruct (a_used_partitions anc <? _) eqn:E; b2p.
  2: { right. exists anc, stdin, x, y, z. split; [done|]. split; [reflexivity|]. split; [done|]. by left. }
  pose proof (last_unused _ _ _ _ _ Hv E) as Hz.
  replace (a_last anc) with z by (symmetry; apply (lk_last _ _ _ _ (v_linked _ _ _ _ _ Hv))).
  destruct (get_partition_data_spec _ _ _ _ _ Hg Hv stdin Hz)
    as [[-> _]|(start & stop & ext & r & -> & Hs & He & Hfree & Hl & Hu)]; simpl.
  { right. exists anc, stdin, x, y, z. split; [done|]. split; [reflexivity|]. split; [done|]. by left. }
  set (anc1 := pupd z (set_bounds start stop) anc).
  set (f1 := new_f1 now anc1 ext (p_f1 (tget (a_tab anc1) z))).
  assert (Hf1 : DS1EXT1 f1 = ext) by apply new_f1_ext.
  destruct Hfree as [Hfree|[Hbad Hunsafe]].
  2: { left. split; [|intros Hr; apply Hunsafe; rewrite plist_split in Hr; exact (restart_safe_app _ _ _ Hr)].
       destruct (enqueue_done anc x y z start stop f1 Hg Hv Hs He) as (t2 & Ht2). unfold on_table.
       change (a_tab (pupd z _ anc1)) with (tupd z (set_p_f1 f1) (tupd z (set_bounds start stop) (a_tab anc))).
       rewrite Ht2, !Done_bind, Hl, Hu. unfold set_freespace.
       cbn [a_f4 a_f5 a_f7 a_formatted_cylinders set_a_f4 set_a_used_partitions set_a_tab pupd anc1].
       pose proof (g_last _ _ Hg). unfold FIRST_USABLE_TRK, last_trk in *.
       rewrite (u32_small start), (u32_small stop) by lia.
       rewrite (set_freespace_refuses _ _ _ _ start stop _ _ (volume_disk_ok _ _ Hg) (v_free _ _ _ _ _ Hv));
         [done|lia|lia|]. intros [_ Hn]. apply Hn. rewrite plist_split. by apply used_tracks_unused_last. }
  right. assert (Hfree3 : ∀ t, start <= t <= stop → ¬ used_tracks (plist (a_tab anc) x y z) t).
  { intros t Ht. rewrite plist_split, used_tracks_unused_last by done. by apply Hfree. }
  destruct (enqueue_volume anc x y z start stop f1 Hg Hv Hz Hs He Hfree3)
    as (t2 & x' & y' & z' & Ht2 & Hlk2 & L1 & L2 & L3 & L4); [by rewrite Hf1..|].
  unfold on_table.
  change (a_tab (pupd z _ anc1)) with (tupd z (set_p_f1 f1) (tupd z (set_bounds start stop) (a_tab anc))).
  rewrite Ht2, !Done_bind, Hl, Hu. unfold set_freespace. cbn [a_f4 a_f5 a_f7 a_formatted_cylinders
    set_a_f4 set_a_used_partitions set_a_tab pupd anc1].
  match goal with |- context [vtoc_set_freespace ?f4 _ _ _ _ _ _ _] =>
    destruct (set_freespace_minus anc x y z start stop f4 _ Hg Hv Hs He Hfree3 L4)
      as (f4' & f5' & f7' & Hset & Hrepr);
    pose proof (set_freespace_same _ _ _ _ _ _ _ _ _ _ _ Hset) as Hsame
  end.
  rewrite Hset, !Done_bind. cbn [fst snd].
  assert (Hcnt : u32 (a_used_partitions anc + 1) = n_used (plist t2 x' y' z')).
  { rewrite L2, <- (v_count _ _ _ _ _ Hv). apply u32_small.
    rewrite (v_count _ _ _ _ _ Hv) in *.
    pose proof (n_used_range (plist (a_tab anc) x y z)). simpl in *. lia. }
  eexists _, r, x', y', z'. split; [reflexivity|]. split; [|split; [by split|]].
  - split; [done|done|]. etrans; [apply update_format4_same|exact Hsame].
  - right. exists start, stop. split; [done|]. split; [done|]. split; [done|]. split; [done|].
    change (a_used_partitions _) with (u32 (a_used_partitions anc + 1)) at 1.
    rewrite Hcnt, L2. by rewrite (v_count _ _ _ _ _ Hv).
Qed.

End Add.

(** ** Deleting a partition *)

(** A longer wait for a digit gives the same answer. *)
Lemma read_digit_more fuel fuel' stdin d r :
  (fuel <= fuel')%nat → read_digit fuel stdin = Done (d, r) → read_digit fuel' stdin = Done (d, r).
Proof.
  revert fuel' stdin. induction fuel as [|fuel IH]; intros [|fuel'] stdin Hle Hd; try done; [lia|].
  cbn [read_digit] in *. destruct (read_char stdin) as [ptr rest].
  destruct (isdigit (headc ptr)); [done|]. apply IH; [lia|done].
Qed.

(** The fuel is enough: no digit within it means that there is none. *)
Lemma read_digit_enough fuel stdin d r :
  read_digit fuel stdin = Done (d, r) → read_digit (S (length stdin)) stdin = Done (d, r).
Proof.
  revert stdin. induction fuel as [|fuel IH]; intros stdin Hd; [done|].
  cbn [read_digit] in Hd |- *. unfold read_char in *. pose proof (read_line_spec stdin) as Hspec.
  destruct (read_line stdin) as [ptr rest]. simpl in Hspec.
  destruct (isdigit (headc ptr)) eqn:E; [done|]. apply IH in Hd.
  destruct Hspec as [(-> & -> & _)|Hlt]; [by vm_compute in Hd|].
  eapply read_digit_more; [|exact Hd]. lia.
Qed.

Lemma read_digit_range fuel stdin d r : read_digit fuel stdin = Done (d, r) → 0 <= d <= 9.
Proof.
  revert stdin. induction fuel as [|fuel IH]; intros stdin Hd; [done|].
  cbn [read_digit] in Hd. destruct (read_char stdin) as [ptr rest].
  destruct (isdigit (headc ptr)) eqn:E; [|by eapply IH]. unfold isdigit in E. b2p.
  simplify_eq. lia.
Qed.

Section Remove.
Context (geo : hd_geometry).

(** The tracks of a dequeued partition belong to no other one. *)
Lemma deq_disjoint limit pos fs l j p t :
  0 < pos → layout limit pos fs l → l !! j = Some p → p_used p = 1 →
  used_tracks (deq fs l j).2 t → ¬ in_part p t.
Proof.
  revert pos fs j. induction l as [|q l IH]; intros pos fs [|j] Hpos Hlay Hj Hu; simplify_eq/=.
  - apply layout_used_cons_inv in Hlay as (_ & _ & _ & _ & Hlay); [|done].
    rewrite used_tracks_unused_last by apply clear_part_unused.
    intros (q & Hq & Huq & Hin). pose proof (layout_after _ _ _ _ _ Hlay Hq Huq).
    unfold in_part in *. lia.
  - assert (Hp : p ∈ l) by by eapply list_elem_of_lookup_2.
    assert (Hq : p_used q = 1).
    { destruct (decide (p_used q = 1)) as [|Hne]; [done|].
      pose proof (layout_unused_all _ _ _ [] _ _ Hlay Hne) as Hf.
      apply Forall_cons in Hf as [_ Hf]. rewrite Forall_forall in Hf. destruct (Hf p Hp). lia. }
    apply layout_used_cons_inv in Hlay as (_ & Hs & He & _ & Hlay); [|done].
    pose proof (layout_after _ _ _ _ _ Hlay Hp Hu).
    specialize (IH (p_end_trk q + 1) (p_fspace_trk q) j ltac:(lia) Hlay Hj Hu).
    destruct (deq (p_fspace_trk q) l j) as [fs' r']. simpl in *.
    rewrite used_tracks_cons. intros [[_ Hin]|Hin]; [|by apply IH].
    unfold in_part in *. simpl in Hin. lia.
Qed.

(** Dequeueing on lists, seen through the four parts of the invariant. *)
Lemma deq_effect limit fs l j p :
  layout limit FIRST_USABLE_TRK fs l → limit < 18446744073709551615 →
  l !! j = Some p → p_used p = 1 →
  let r := deq fs l j in
  layout limit FIRST_USABLE_TRK r.1 r.2 ∧ n_used r.2 = n_used l - 1 ∧
  (Forall (f1_ok geo) l → Forall (f1_ok geo) r.2) ∧
  ∀ t, used_tracks r.2 t ↔ used_tracks l t ∧ ¬ in_part p t.
Proof.
  intros Hlay Hlim Hj Hu r. assert (Hpos : 0 < FIRST_USABLE_TRK) by done.
  pose proof (deq_perm fs l j p Hj) as Hp. fold r in Hp.
  pose proof (deq_disjoint limit FIRST_USABLE_TRK fs l j p) as Hdis. fold r in Hdis.
  split; [by eapply deq_layout|]. split; [|split].
  - assert (Hn : n_used (p :: r.2) = n_used (clear_part p :: l)).
    { by rewrite <- n_used_nofs, Hp, n_used_nofs. }
    rewrite !n_used_cons in Hn. unfold is_used in Hn. rewrite Hu in Hn. simpl in Hn. lia.
  - intros Hl. assert (Hf : Forall (f1_ok geo) (p :: r.2)).
    { rewrite <- (Forall_nofs _ _ (f1_ok_nofs geo)), Hp, (Forall_nofs _ _ (f1_ok_nofs geo)).
      constructor; [by intros ?|done]. }
    by apply Forall_cons in Hf as [_ Hf].
  - intros t. assert (Ht : used_tracks (p :: r.2) t ↔ used_tracks (clear_part p :: l) t).
    { by rewrite <- used_tracks_nofs, Hp, used_tracks_nofs. }
    rewrite !used_tracks_cons in Ht. simpl in Ht. specialize (Hdis t Hpos Hlay Hj Hu).
    naive_solver.
Qed.
(** The tracks of one partition become free. *)
Definition freed (l l' : list partition_info) (p : partition_info) : Prop :=
  ∀ t, used_tracks l' t ↔ used_tracks l t ∧ ¬ in_part p t.

Lemma free_tracks_add limit l l' p t :
  (∀ t, used_tracks l' t ↔ used_tracks l t ∧ ¬ in_part p t) →
  (∀ t, in_part p t → FIRST_USABLE_TRK <= t <= limit) →
  fs_add (free_tracks limit l) (p_start_trk p) (p_end_trk p) t ↔ free_tracks limit l' t.
Proof.
  intros H Hb. unfold fs_add, free_tracks. rewrite H. specialize (Hb t).
  change (p_start_trk p <= t <= p_end_trk p) with (in_part p t).
  destruct (decide (p_start_trk p <= t <= p_end_trk p)) as [Hin|Hin];
    change (p_start_trk p <= t <= p_end_trk p) with (in_part p t) in Hin; tauto.
Qed.

(** The free-space label after the tracks of a partition were given back. *)
Lemma set_freespace_plus anc x y z j p f4 l' :
  geometry_ok geo anc → volume geo anc x y z →
  plist (a_tab anc) x y z !! j = Some p → p_used p = 1 →
  (∀ t, used_tracks l' t ↔ used_tracks (plist (a_tab anc) x y z) t ∧ ¬ in_part p t) →
  ∃ f4' f5' f7', vtoc_set_freespace f4 (a_f5 anc) (a_f7 anc) plus_ch (u32 (p_start_trk p)) (u32 (p_end_trk p))
      (a_formatted_cylinders anc) (geo_heads geo) = Done (f4', f5', f7') ∧
    fs_repr (a_formatted_cylinders anc) (geo_heads geo) f5' f7' (free_tracks (last_trk geo anc) l').
Proof.
  intros Hg Hv Hj Hu Hl'. assert (Hp : p ∈ plist (a_tab anc) x y z) by by eapply list_elem_of_lookup_2.
  pose proof (layout_after _ _ _ _ _ (v_layout _ _ _ _ _ Hv) Hp Hu) as (Hb1 & Hb2 & _).
  pose proof (g_last _ _ Hg) as Hlim.
  rewrite (u32_small (p_start_trk p)), (u32_small (p_end_trk p)) by (unfold FIRST_USABLE_TRK in *; lia).
  destruct (set_freespace_add f4 _ _ _ (p_start_trk p) (p_end_trk p) _ _ (volume_disk_ok _ _ Hg)
    (v_free _ _ _ _ _ Hv) (volume_room _ _ _ _ _ Hg Hv)) as (f4' & f5' & f7' & Hset & Hrepr).
  - unfold FIRST_USABLE_TRK in Hb1. lia.
  - unfold last_trk in Hb2. lia.
  - intros t Ht [_ Hf]. apply Hf. by exists p.
  - exists f4', f5', f7'. split; [done|]. eapply fs_repr_ext; [|exact Hrepr].
    intros t. apply free_tracks_add; [done|]. unfold in_part. lia.
Qed.

(** the record that the table walk reaches *)
Lemma plist_lookup t x y z j p :
  plist t x y z !! j = Some p → ∃ id, [x; y; z] !! j = Some id ∧ p = core (tget t id).
Proof. destruct j as [|[|[|j]]]; simpl; intros; simplify_eq; eauto. Qed.

(** Deleting the partition with a valid id. *)
Lemma remove_part_volume anc x y z id :
  geometry_ok geo anc → volume geo anc x y z → 1 <= id <= a_used_partitions anc →
  ∃ anc' x' y' z' p,
    remove_part geo id anc = Done anc' ∧ same_disk anc anc' ∧ volume geo anc' x' y' z' ∧
    plist (a_tab anc) x y z !! Z.to_nat (id - 1) = Some p ∧ p_used p = 1 ∧
    freed (plist (a_tab anc) x y z) (plist (a_tab anc') x' y' z') p ∧
    a_used_partitions anc' = a_used_partitions anc - 1.
Proof.
  intros Hg Hv Hid. unfold remove_part.
  pose proof (v_count _ _ _ _ _ Hv) as Hcnt. pose proof (v_layout _ _ _ _ _ Hv) as Hlay.
  destruct (layout_nth_used _ _ _ _ (Z.to_nat (id - 1)) Hlay) as (p & Hj & Hu); [lia|].
  destruct (plist_lookup _ _ _ _ _ _ Hj) as (i & Hi & Hpi).
  set (t1 := set_t_partno (<[Z.to_nat (id - 1):=-1]> (a_partno anc)) (a_tab anc)).
  assert (Hlk : linked t1 x y z) by (destruct (v_linked _ _ _ _ _ Hv); by split).
  change (a_tab (setpos anc _ _)) with t1. change (a_first (setpos anc _ _)) with (t_first t1).
  rewrite (walk_spec _ _ _ _ _ _ Hlk Hi), Done_bind. unfold on_table.
  change (a_tab (setpos anc _ _)) with t1.
  pose proof (dequeue_refines t1 x y z _ i (id - 1) Hlk Hi) as Hdeq.
  destruct (deq_ids _ x y z) as [[x' y'] z']. destruct Hdeq as (t2 & Ht2 & Hlk2 & Hpl & _).
  change (t_fspace_trk t1) with (a_fspace_trk anc) in Hpl.
  change (plist t1 x y z) with (plist (a_tab anc) x y z) in Hpl.
  destruct (deq_effect _ _ _ _ _ Hlay ltac:(pose proof (g_last _ _ Hg); lia) Hj Hu)
    as (L1 & L2 & L3 & L4).
  rewrite <- Hpl in L1, L2, L3, L4. cbn [fst snd] in L1, L2, L3, L4.
  rewrite Ht2, !Done_bind. unfold set_freespace.
  change (pget (setpos anc _ _) i) with (tget (a_tab anc) i).
  assert (Hf1 : f1_ok geo p) by (eapply Forall_lookup_1; [apply (v_f1 _ _ _ _ _ Hv)|exact Hj]).
  destruct (Hf1 Hu) as [Hst Hen]. rewrite Hpi in Hst, Hen. cbn in Hst, Hen. rewrite Hst, Hen.
  cbn [a_f4 a_f5 a_f7 a_formatted_cylinders a_used_partitions set_a_f4 set_a_used_partitions set_a_tab setpos].
  match goal with |- context [vtoc_set_freespace ?f4 _ _ _ _ _ _ _] =>
    destruct (set_freespace_plus anc x y z _ p f4 _ Hg Hv Hj Hu L4) as (f4' & f5' & f7' & Hset & Hrepr);
    pose proof (set_freespace_same _ _ _ _ _ _ _ _ _ _ _ Hset) as Hsame
  end.
  rewrite Hpi in Hset. cbn [core set_p_next set_p_prev p_start_trk p_end_trk] in Hset.
  rewrite Hset, !Done_bind.
  assert (Hc : u32 (a_used_partitions anc - 1) = n_used (plist t2 x' y' z')).
  { rewrite L2, <- Hcnt. apply u32_small.
    pose proof (n_used_range (plist (a_tab anc) x y z)). simpl in *. lia. }
  eexists _, x', y', z', p. split; [reflexivity|]. split; [|split; [split; auto|]].
  - split; [done|done|]. etrans; [apply update_format4_same|exact Hsame].
  - apply L3. apply (v_f1 _ _ _ _ _ Hv).
  - split; [done|]. split; [done|]. split; [done|].
    change (a_used_partitions _) with (u32 (a_used_partitions anc - 1)) at 1.
    rewrite Hc, L2. by rewrite Hcnt.
Qed.

(** [fdasd_remove_partition] returns once a digit is read, and keeps the
    volume consistent: an id out of range changes no partition. *)
Lemma remove_partition_volume anc x y z stdin fuel id stdin' :
  geometry_ok geo anc → volume geo anc x y z →
  read_digit fuel stdin = Done (id, stdin') →
  ∃ anc' x' y' z',
    fdasd_remove_partition geo (anc, stdin) = Done (anc', stdin') ∧
    same_disk anc anc' ∧ volume geo anc' x' y' z' ∧
    if (1 <=? id) && (id <=? a_used_partitions anc) then
      ∃ p, plist (a_tab anc) x y z !! Z.to_nat (id - 1) = Some p ∧ p_used p = 1 ∧
        freed (plist (a_tab anc) x y z) (plist (a_tab anc') x' y' z') p ∧
        a_used_partitions anc' = a_used_partitions anc - 1
    else ∀ t, used_tracks (plist (a_tab anc') x' y' z') t ↔ used_tracks (plist (a_tab anc) x y z) t.
Proof.
  intros Hg Hv Hd. unfold fdasd_remove_partition.
  pose proof (read_digit_range _ _ _ _ Hd) as Hr. pose proof (g_last _ _ Hg) as Hlim.
  destruct (list_partition_table_spec anc x y z (last_trk geo anc) (v_linked _ _ _ _ _ Hv)
    ltac:(unfold FIRST_USABLE_TRK in Hlim; lia) (v_layout _ _ _ _ _ Hv)) as (rows & t' & -> & Hrl & _).
  rewrite Done_bind, (read_digit_enough _ _ _ _ Hd), Done_bind.
  pose proof (volume_relabelled geo anc x y z t' Hrl Hv) as Hv'.
  assert (Hg' : geometry_ok geo (set_a_tab t' anc)) by (eapply geometry_ok_frame; [..|exact Hg]; done).
  pose proof (relabelled_plist _ _ x y z Hrl) as H2.
  assert (Hut : ∀ t, used_tracks (plist t' x y z) t ↔ used_tracks (plist (a_tab anc) x y z) t).
  { intros t. exact (used_tracks_relabel _ _ _ H2). }
  change (a_used_partitions (set_a_tab t' anc)) with (a_used_partitions anc).
  destruct (id =? 0) eqn:E0; [|destruct (a_used_partitions anc <? id) eqn:E1].
  1,2: exists (set_a_tab t' anc), x, y, z; split; [done|]; split; [by split|]; split; [done|].
  1,2: b2p; destruct (_ && _) eqn:E; b2p; [lia|exact Hut].
  b2p. rewrite (proj2 (andb_true_iff _ _)) by lia.
  destruct (remove_part_volume _ _ _ _ id Hg' Hv') as (anc' & x' & y' & z' & p & -> & Hg'' & Hv'' & Hj & Hu & Hf & Hn).
  { change (a_used_partitions (set_a_tab t' anc)) with (a_used_partitions anc). lia. }
  exists anc', x', y', z'. split; [done|]. split; [destruct Hg''; by split|]. split; [done|].
  destruct (Forall2_lookup_r _ _ _ _ _ H2 Hj) as (q & Hq & Hqp).
  destruct (same_part_fields _ _ Hqp) as (E1' & E2 & E3 & _).
  exists q. split; [done|]. split; [by rewrite <- E1'|]. split; [|done].
  intros t. rewrite (Hf t). simpl. rewrite Hut. unfold in_part. by rewrite E2, E3.
Qed.
End Remove.

End FdasdVolume.
