(* ===== verification/FdasdVtoc.v ===== *)
(** The VTOC commands of fdasd (src/fdasd/fdasd.c) that need no device: creating
    a new VTOC, re-creating it from the partition list, and the changes of the
    volume serial and of a partition type. *)
From S2P Require Import Prelude Ebcdic Cchh Codec Labels LabelOps Extents Fmt7 Fmt5 Freespace FdasdState.
From S2P Require Import FdasdTable FdasdLayout FdasdList FdasdInput FdasdPart FdasdVolume.
Import Ebcdic Addr Extents Fmt7 Fmt5 Freespace Fdasd FdasdTable FdasdLayout FdasdList FdasdInput
  FdasdPart FdasdVolume.

Module FdasdVtoc.

(** ** A new VTOC *)

(** the calls of [vtoc_init_format4_label], [vtoc_init_format5_label] and
    [vtoc_init_format7_label] that every way to a new VTOC starts with *)
Definition init_f4 (geo : hd_geometry) (anc : fdasd_anchor) : format4_label_t :=
  vtoc_init_format4_label (geo_cylinders geo) (a_formatted_cylinders anc) (geo_heads geo)
    (geo_sectors geo) (a_blksize anc) (a_dev_type anc).

Definition init_labels (geo : hd_geometry) (anc : fdasd_anchor) : fdasd_anchor :=
  set_a_f7 vtoc_init_format7_label (set_a_f5 vtoc_init_format5_label (set_a_f4 (init_f4 geo anc) anc)).

(** [vtoc_set_freespace] for the whole disk behind the VTOC track *)
Definition free_whole_disk (geo : hd_geometry) (anc : fdasd_anchor) : outcome fdasd_anchor :=
  set_freespace geo plus_ch FIRST_USABLE_TRK (disk_tracks_minus anc geo 1) anc.

(** body of the loop over the records *)
Definition wipe_part (p : partition_info) : partition_info :=
  let p := set_p_f1 zero_format1 p in
  if p_used p =? 1 then
    set_p_fspace_trk 0 (set_p_len_trk 0 (set_p_end_trk 0 (set_p_start_trk 0 (set_p_used 0 p))))
  else p.

(** [while (part_info != NULL) { ...; part_info = part_info->next; }] *)
Fixpoint for_parts (fuel : nat) (g : partition_info → partition_info) (t : ptable)
    (part_info : option nat) : outcome ptable :=
  match fuel with
  | O => OutOfFuel
  | S fuel =>
      match part_info with
      | None => Done t
      | Some id => let t := tupd id g t in for_parts fuel g t (p_next (tget t id))
      end
  end.

Definition fdasd_recreate_vtoc_unconditional (geo : hd_geometry) (anc : fdasd_anchor)
    : outcome fdasd_anchor :=
  anc ← free_whole_disk geo (init_labels geo anc);
  anc ← on_table (λ t, for_parts (S USABLE_PARTITIONS) wipe_part t (Some (t_first t))) anc;
  let anc := set_a_used_partitions 0 anc in
  let anc := set_a_tab (set_t_fspace_trk (disk_tracks_minus anc geo FIRST_USABLE_TRK) (a_tab anc)) anc in
  let anc := set_a_tab (set_t_partno (replicate USABLE_PARTITIONS (-1)) (a_tab anc)) anc in
  Done (changed_vtoc anc).

Definition fdasd_recreate_vtoc (geo : hd_geometry) (st : io) : outcome io :=
  let '(anc, stdin) := st in
  '(rc, stdin) ← (if a_silent anc =? 0 then yes_no stdin else Done (0, stdin));
  if negb (rc =? 0) then Done (anc, stdin)
  else anc ← fdasd_recreate_vtoc_unconditional geo anc; Done (anc, stdin).

(** ** A VTOC from the partition list *)

(** the new label of a partition: extent, name, volume and creation date stay *)
Definition reuse_f1 (now : tm) (anc : fdasd_anchor) (old : format1_label_t) : format1_label_t :=
  let f1 := new_f1 now anc (DS1EXT1 old) zero_format1 in
  let f1 := set_DS1DSNAM f1 (strncpy (DS1DSNAM old) 44) in
  let f1 := set_DS1DSSN f1 (strncpy (DS1DSSN old) 6) in
  set_DS1CREDT f1 (DS1CREDT old).

(** the local labels [f4], [f5], [f7] of [fdasd_reuse_vtoc] *)
Notation labels := (format4_label_t * format5_label_t * format7_label_t)%type.

Definition add_free (geo : hd_geometry) (anc : fdasd_anchor) (start stop : Z) (l : labels)
    : outcome labels :=
  let '(f4, f5, f7) := l in
  vtoc_set_freespace f4 f5 f7 plus_ch (u32 start) (u32 stop) (a_formatted_cylinders anc) (geo_heads geo).

Fixpoint reuse_loop (fuel : nat) (geo : hd_geometry) (now : tm) (anc : fdasd_anchor)
    (part_info : option nat) (l : labels) : outcome (fdasd_anchor * labels) :=
  match fuel with
  | O => OutOfFuel
  | S fuel =>
      match part_info with
      | None => Done (anc, l)
      | Some id =>
          let p := pget anc id in
          if negb (p_used p =? 1) then reuse_loop fuel geo now anc (p_next p) l
          else
            let anc := pupd id (set_p_f1 (reuse_f1 now anc (p_f1 p))) anc in
            l ← (if 0 <? p_fspace_trk p
                 then add_free geo anc (u64 (p_end_trk p + 1)) (u64 (p_end_trk p + p_fspace_trk p)) l
                 else Done l);
            reuse_loop fuel geo now anc (p_next p) l
      end
  end.

Definition fdasd_reuse_vtoc (geo : hd_geometry) (now : tm) (st : io) : outcome io :=
  let '(anc, stdin) := st in
  '(rc, stdin) ← (if a_silent anc =? 0 then yes_no stdin else Done (0, stdin));
  if negb (rc =? 0) then Done (anc, stdin)
  else
    let f4 := init_f4 geo anc in
    let f4 := set_f4_dscb f4 (DS4HPCHR (a_f4 anc)) (DS4DSREC (a_f4 anc)) in
    let l := (f4, vtoc_init_format5_label, vtoc_init_format7_label) in
    l ← (if 0 <? a_fspace_trk anc
         then add_free geo anc FIRST_USABLE_TRK (u64 (FIRST_USABLE_TRK + a_fspace_trk anc - 1)) l
         else Done l);
    '(anc, (f4, f5, f7)) ← reuse_loop (S USABLE_PARTITIONS) geo now anc (Some (a_first anc)) l;
    let anc := set_a_f7 f7 (set_a_f5 f5 (set_a_f4 f4 anc)) in
    Done (changed_vtoc anc, stdin).

(** ** Volume serial *)

Definition vtoc_first : cchhb_t := vtoc_set_cchhb VTOC_START_CC VTOC_START_HH 0x01.

Definition changed_vlabel (anc : fdasd_anchor) : fdasd_anchor :=
  set_a_vlabel_changed (s32 (a_vlabel_changed anc + 1)) anc.

Definition fdasd_change_volser (st : io) : outcome io :=
  let '(anc, stdin) := st in
  let '(ptr, stdin) := read_line stdin in
  let volser := fdasd_check_volser ptr (a_devno anc) in
  let vlabel := vtoc_volume_label_set_volser (a_vlabel anc) volser in
  let anc := set_a_vlabel (set_vl_vtoc vlabel vtoc_first) anc in
  Done (changed_vtoc (changed_vlabel anc), stdin).

(** ** Partition type *)

(** the place of the type qualifier in a decoded name, if it lies in the name *)
Definition type_place (name : list Z) : option nat :=
  match find_sub (bytes_of_string "PART") name with
  | Some ch => if (ch + 15 <=? 44)%nat then Some (ch + 9)%nat else None
  | None => None
  end.

(** [while (part_type < 1 || part_type > ARRAY_SIZE(partition_types) - 1)] with
    its inner [do ... while (!isdigit(part_type))] *)
Fixpoint read_type (fuel : nat) (stdin : list Z) : outcome (Z * list Z) :=
  match fuel with
  | O => OutOfFuel
  | S fuel =>
      '(part_type, stdin) ← read_digit (S (length stdin)) stdin;
      if (part_type <? 1) || (Z.of_nat (length partition_types) - 1 <? part_type)
      then read_type fuel stdin
      else Done (part_type, stdin)
  end.

(** [snprintf(str, 7, "%-6s", dsname)] *)
Definition pad6 (s : list Z) : list Z := take 6 (s ++ replicate (6 - length s) 32).

Definition fdasd_change_part_type (st : io) : outcome io :=
  let '(anc, stdin) := st in
  '(_, anc) ← fdasd_list_partition_table anc;
  '(part_id, stdin) ← read_digit (S (length stdin)) stdin;
  if part_id =? 0 then Done (anc, stdin)
  else if a_used_partitions anc <? part_id then Done (anc, stdin)
  else
    part_info ← walk (Z.to_nat (part_id - 1)) (a_tab anc) (a_first anc);
    let anc := pupd part_info (λ p, set_p_f1 (name_dec (p_f1 p)) p) anc in
    let name := DS1DSNAM (p_f1 (pget anc part_info)) in
    let str := match type_place name with
               | Some ch => strncpy (drop ch name) 6
               | None => bytes_of_string "error" ++ [0]
               end in
    '(part_type, stdin) ← read_type (S (length stdin)) stdin;
    str ← match get_part_dsname_by_type part_type with
          | DsName s => Done (pad6 (bytes_of_string s))
          | DsError => Done str
          | BadRead => Fault
          end;
    let name := match type_place name with
                | Some ch => memcpy_at name ch (take 6 str)
                | None => name
                end in
    let anc := pupd part_info (λ p, set_p_f1 (name_enc (set_DS1DSNAM (p_f1 p) name)) p) anc in
    Done (changed_vtoc anc, stdin).

End FdasdVtoc.
