(* ===== verification/FdasdVtocProofs.v ===== *)
(** What a new or re-created VTOC of fdasd (src/fdasd/fdasd.c) describes. *)
From S2P Require Import Prelude Ebcdic Cchh Codec Labels LabelOps Extents Fmt7 Fmt5 Freespace FdasdState.
From S2P Require Import FdasdTable FdasdLayout FdasdList FdasdInput FdasdPart FdasdVolume FdasdVtoc.
Import Ebcdic Addr Extents Fmt7 Fmt5 Freespace Fdasd FdasdTable FdasdLayout FdasdList FdasdInput
  FdasdPart FdasdVolume FdasdVtoc.

Module FdasdVtocProofs.

(** ** New labels *)

Lemma table_wf_zero {E} (ops : ext_ops E) ok lo hi `{!ExtLaws ops ok lo hi} n :
  table_wf ops ok lo hi (replicate n (e_zero ops)) ∧
  ∀ t, ¬ covers ok lo hi (replicate n (e_zero ops)) t.
Proof.
  assert (Hno : ∀ i e, ¬ used_at ok (replicate n (e_zero ops)) i e).
  { intros i e [Hi Hok]. apply lookup_replicate in Hi as [-> _]. by apply zero_not_ok in Hok. }
  split; [split|].
  - apply Forall_replicate. by left.
  - intros i j e f _ H. by apply Hno in H.
  - intros t (i & e & H & _). by apply Hno in H.
Qed.

(** The initial free-space labels describe a volume without free tracks. *)
Lemma init_repr cyl trk :
  0 < trk < 256 → fs_repr cyl trk vtoc_init_format5_label vtoc_init_format7_label (λ _, False).
Proof.
  intros Ht. unfold fs_repr. destruct (big_disk cyl trk).
  - destruct (table_wf_zero f7_ops f7_ok e7_a e7_b 16) as [Hw Hc].
    split; [done|]. split; [done|]. split; [exact Hw|]. intros t. split; [done|apply Hc].
  - pose proof (f5_laws trk Ht).
    destruct (table_wf_zero (f5_ops trk) (f5_ok trk) e5_t (f5_end trk) 26) as [Hw Hc].
    split; [done|]. split; [done|]. split; [exact Hw|]. intros t. split; [done|apply Hc].
Qed.

(** The numbers of a disk: the cylinders of the geometry are those of the disk,
    or the limit value for a larger disk. *)
Record disk_geometry (geo : hd_geometry) (anc : fdasd_anchor) : Prop := {
  dg_heads : 0 < geo_heads geo <= 16;
  dg_sectors : 0 < geo_sectors geo;
  dg_blksize : 0 < a_blksize anc;
  dg_cyl : 0 <= a_formatted_cylinders anc;
  dg_last : FIRST_USABLE_TRK <= last_trk geo anc < 2 ^ 28 - 1;
  dg_compat : (geo_cylinders geo = a_formatted_cylinders anc ∧ a_formatted_cylinders anc < 65536) ∨
              (geo_cylinders geo = LV_COMPAT_CYL ∧ LV_COMPAT_CYL < a_formatted_cylinders anc)
}.

(** The format 4 label that fdasd writes gives back the number of cylinders. *)
Lemma usable_cylinders_init geo anc :
  disk_geometry geo anc →
  DS4DSTRK (DS4DEVCT (init_f4 geo anc)) = geo_heads geo ∧
  get_usable_cylinders (set_a_f4 (init_f4 geo anc) anc) = a_formatted_cylinders anc.
Proof.
  intros [Hh Hs Hb Hc Hl Hcomp]. unfold last_trk in Hl. unfold init_f4, vtoc_init_format4_label.
  cbn. split; [apply u16_small; lia|]. unfold get_usable_cylinders. cbn.
  assert (Hcyl : u32 (a_formatted_cylinders anc) = a_formatted_cylinders anc) by (apply u32_small; nia).
  rewrite Hcyl. unfold LV_COMPAT_CYL in *.
  destruct Hcomp as [[-> Hlt]|[-> Hlt]].
  - rewrite u16_small by lia. destruct (_ && _) eqn:E; b2p; [lia|]. rewrite Z.sub_0_r. apply u32_small. lia.
  - change (u16 65534) with 65534. simpl (65534 =? 65534). rewrite (proj2 (Z.ltb_lt _ _)) by done. done.
Qed.

Lemma disk_geometry_ok geo anc f4 :
  disk_geometry geo anc → same_device (init_f4 geo anc) f4 → geometry_ok geo (set_a_f4 f4 anc).
Proof.
  intros Hd Hs. apply (geometry_ok_frame geo (set_a_f4 (init_f4 geo anc) anc)); try done.
  destruct (usable_cylinders_init geo anc Hd) as [H1 H2]. destruct Hd as [G1 G2 G3 G4 G5 G6].
  split; try done. rewrite H2. cbn [a_f4 set_a_f4]. rewrite H1. unfold last_trk in *. cbn in *.
  unfold FIRST_USABLE_TRK in G5. rewrite u32_small; lia.
Qed.

(** Marking the whole disk as free. *)
Lemma free_whole_disk_spec geo anc :
  disk_geometry geo anc →
  ∃ f4 f5 f7, free_whole_disk geo (init_labels geo anc) =
      Done (set_a_f7 f7 (set_a_f5 f5 (set_a_f4 f4 anc))) ∧
    same_device (init_f4 geo anc) f4 ∧
    fs_repr (a_formatted_cylinders anc) (geo_heads geo) f5 f7
      (λ t, FIRST_USABLE_TRK <= t <= last_trk geo anc).
Proof.
  intros Hd. pose proof (disk_geometry_ok geo anc _ Hd (reflexivity _)) as Hg.
  pose proof (volume_disk_ok _ _ Hg) as Hok.
  change (a_formatted_cylinders (set_a_f4 _ anc)) with (a_formatted_cylinders anc) in Hok.
  destruct Hd as [Hh Hs Hb Hc Hl Hcomp].
  assert (Ht : 0 < geo_heads geo < 256) by lia.
  pose proof (init_repr (a_formatted_cylinders anc) (geo_heads geo) Ht) as Hr.
  unfold free_whole_disk, set_freespace, disk_tracks_minus. cbn [init_labels a_f4 a_f5 a_f7
    a_formatted_cylinders set_a_f4 set_a_f5 set_a_f7].
  unfold last_trk, FIRST_USABLE_TRK in *.
  rewrite (u32_small (a_formatted_cylinders anc * geo_heads geo - 1)) by lia.
  rewrite (u32_small (a_formatted_cylinders anc * geo_heads geo - 1)) by lia.
  change (u32 2) with 2.
  destruct (set_freespace_add (init_f4 geo anc) _ _ _ 2 (a_formatted_cylinders anc * geo_heads geo - 1)
    _ _ Hok Hr) as (f4 & f5 & f7 & Hset & Hrepr).
  - eapply fs_room_bound with (S := []); [lia|exact Hr|simpl; lia|done].
  - lia.
  - lia.
  - by intros t _ [].
  - pose proof (set_freespace_same _ _ _ _ _ _ _ _ _ _ _ Hset) as Hsame.
    exists f4, f5, f7. rewrite Hset, Done_bind. split; [by destruct anc|]. split; [done|].
    eapply fs_repr_ext; [|exact Hrepr]. intros t. unfold fs_add. tauto.
Qed.

(** ** Walking over all records *)

Lemma for_parts_spec ids g fuel t cur :
  chain t cur ids → NoDup ids → Forall (λ j, (j < length (t_parts t))%nat) ids →
  (length ids < fuel)%nat → keeps_links g →
  ∃ t', for_parts fuel g t cur = Done t' ∧
    t_partno t' = t_partno t ∧ t_fspace_trk t' = t_fspace_trk t ∧
    (∀ x y z, linked t x y z → linked t' x y z) ∧
    ∀ j, tget t' j = if decide (j ∈ ids) then g (tget t j) else tget t j.
Proof.
  revert fuel t cur. induction ids as [|id ids IH]; intros [|fuel] t cur Hc Hnd Hlt Hfu Hg;
    simpl in Hfu; try lia.
  - simpl in Hc. subst. by exists t.
  - destruct Hc as [-> Hc]. apply NoDup_cons in Hnd as [Hid Hnd].
    apply Forall_cons in Hlt as [Hl Hlt]. cbn [for_parts].
    rewrite tget_tupd_eq by done. rewrite (proj1 (Hg _)).
    destruct (IH fuel (tupd id g t) (p_next (tget t id))) as (t' & -> & E1 & E2 & E3 & E4);
      [|done| |lia|done|].
    + clear -Hc Hid. revert Hc. generalize (p_next (tget t id)). intros cur. revert cur.
      induction ids as [|j ids IH]; intros cur; simpl; [done|]. intros [-> Hc]. split; [done|].
      rewrite not_elem_of_cons in Hid. destruct Hid as [Hj Hid].
      rewrite tget_tupd_ne by congruence. by apply IH.
    + eapply Forall_impl; [exact Hlt|]. simpl. intros j. by rewrite length_insert.
    + exists t'. split; [done|]. split; [done|]. split; [done|]. split.
      * intros x y z Hlk. apply E3. by apply linked_tupd.
      * intros j. rewrite E4. destruct (decide (j = id)) as [->|Hne].
        -- rewrite decide_False by done. rewrite decide_True by constructor.
           by apply tget_tupd_eq.
        -- rewrite tget_tupd_ne by done.
           destruct (decide (j ∈ ids)); [rewrite decide_True by (by constructor); done|].
           rewrite decide_False; [done|]. rewrite not_elem_of_cons. done.
Qed.

(** ** A new VTOC *)

(** a record is in use or carries no numbers *)
Definition used_or_blank (p : partition_info) : Prop :=
  p_used p = 1 ∨
  (p_used p = 0 ∧ p_start_trk p = 0 ∧ p_end_trk p = 0 ∧ p_len_trk p = 0 ∧ p_fspace_trk p = 0).

Lemma wipe_part_unused p : used_or_blank p → unused (core (wipe_part p)).
Proof.
  unfold wipe_part, unused. intros [Hu|(Hu & H1 & H2 & H3 & H4)]; simpl; rewrite Hu; simpl; done.
Qed.

Lemma wipe_keeps_links : keeps_links wipe_part.
Proof. intros p. unfold wipe_part. simpl. by destruct (p_used p =? 1). Qed.

(** A layout without partitions. *)
Lemma unused_n_used l : Forall unused l → n_used l = 0.
Proof.
  induction 1 as [|q l [Hq _] Hf IH]; [done|]. rewrite n_used_cons, IH. unfold is_used. by rewrite Hq.
Qed.

Lemma unused_used_tracks l t : Forall unused l → ¬ used_tracks l t.
Proof.
  intros Hf (p & Hp & Hu & _). rewrite Forall_forall in Hf. destruct (Hf p Hp) as [Hz _]. lia.
Qed.

(** [fdasd_recreate_vtoc_unconditional] makes an empty volume of any list. *)
Lemma recreate_volume geo anc x y z :
  disk_geometry geo anc → linked (a_tab anc) x y z →
  Forall used_or_blank (map (tget (a_tab anc)) [x; y; z]) →
  ∃ anc', fdasd_recreate_vtoc_unconditional geo anc = Done anc' ∧
    geometry_ok geo anc' ∧ volume geo anc' x y z ∧ a_used_partitions anc' = 0 ∧
    Forall unused (plist (a_tab anc') x y z) ∧ a_partno anc' = replicate 3 (-1) ∧
    same_device (init_f4 geo anc) (a_f4 anc').
Proof.
  intros Hd Hlk Hblank. unfold fdasd_recreate_vtoc_unconditional.
  destruct (free_whole_disk_spec geo anc Hd) as (f4 & f5 & f7 & -> & Hsame & Hrepr).
  rewrite Done_bind. unfold on_table. cbn [a_tab set_a_f7 set_a_f5 set_a_f4].
  destruct (linked_chain _ _ _ _ Hlk) as (Hch & Hnd & Hlt).
  destruct (for_parts_spec [x; y; z] wipe_part (S USABLE_PARTITIONS) (a_tab anc) _ Hch Hnd Hlt
    ltac:(unfold USABLE_PARTITIONS; simpl; lia) wipe_keeps_links) as (t' & -> & E1 & E2 & E3 & E4).
  rewrite !Done_bind.
  assert (Hun : Forall unused (plist t' x y z)).
  { unfold plist. rewrite !E4, !decide_True by (rewrite !elem_of_cons; tauto).
    simpl in Hblank. rewrite !Forall_cons in Hblank. destruct Hblank as (B1 & B2 & B3 & _).
    repeat (constructor; [by apply wipe_part_unused|]). constructor. }
  pose proof (dg_last _ _ Hd) as Hlast.
  eexists. split; [reflexivity|]. split; [|split; [|by repeat (split; [done|])]].
  - eapply geometry_ok_frame; [..|exact (disk_geometry_ok geo anc f4 Hd Hsame)]; done.
  - pose proof (E3 _ _ _ Hlk) as Hlk'. split.
    + destruct Hlk'. by split.
    + apply layout_free_eq; [|unfold FIRST_USABLE_TRK, last_trk in *; cbn; lia|exact Hun].
      cbn. unfold disk_tracks_minus, last_trk, FIRST_USABLE_TRK in *. cbn. rewrite u32_small; lia.
    + symmetry. by apply unused_n_used.
    + eapply Forall_impl; [exact Hun|]. intros p [Hp _] Hu. lia.
    + eapply fs_repr_ext; [|exact Hrepr]. intros t. unfold free_tracks.
      pose proof (unused_used_tracks _ t Hun). cbn. tauto.
Qed.

(** ** A VTOC from the partition list *)

(** Behind the free tracks that [fs] counts comes the first partition. *)
Lemma layout_gap limit pos fs l t : layout limit pos fs l → used_tracks l t → pos + fs <= t.
Proof.
  intros Hlay (p & Hp & Hu & Hin). unfold in_part in Hin.
  destruct Hlay as [pos l Hle Hf|pos q l Hq Hs He Hlen Hlay].
  - rewrite Forall_forall in Hf. destruct (Hf p Hp) as [Hz _]. lia.
  - apply elem_of_cons in Hp as [->|Hp]; [lia|].
    pose proof (layout_after _ _ _ _ _ Hlay Hp Hu). lia.
Qed.

Lemma reuse_f1_ext now anc old : DS1EXT1 (reuse_f1 now anc old) = DS1EXT1 old.
Proof. unfold reuse_f1, new_f1. by destruct (LV_COMPAT_CYL <? _). Qed.

(** what the labels hold while the gaps are entered: the free tracks [F], all of
    them before [pos], in runs that start at [S] *)
Record gaps (geo : hd_geometry) (anc : fdasd_anchor) (l : labels) (F : freeset) (pos : Z)
    (S : list Z) : Prop := {
  gaps_repr : fs_repr (a_formatted_cylinders anc) (geo_heads geo) l.1.2 l.2 F;
  gaps_before t : F t → t < pos;
  gaps_starts t : F t → ¬ F (t - 1) → t ∈ S
}.

(** Entering the free tracks from [pos] on, if there are any. *)
Lemma add_gap geo anc l F pos S n :
  disk_geometry geo anc → gaps geo anc l F pos S → (length S < 16)%nat →
  0 < pos → 0 <= n → pos + n <= last_trk geo anc + 1 →
  ∃ l', (if 0 <? n then add_free geo anc (u64 pos) (u64 (pos + n - 1)) l else Done l) = Done l' ∧
    same_device l.1.1 l'.1.1 ∧
    gaps geo anc l' (λ t, F t ∨ pos <= t < pos + n) (pos + n) (pos :: S).
Proof.
  intros Hd [G1 G2 G3] HS Hpos Hn Hle. destruct (0 <? n) eqn:E; b2p.
  2: { exists l. split; [done|]. split; [reflexivity|]. split.
       - eapply fs_repr_ext; [|exact G1]. intros t. split; [by left|]. intros [?|?]; [done|lia].
       - intros t [Ht|Ht]; [|lia]. specialize (G2 t Ht). lia.
       - intros t [Ht|Ht] Hnt; [|lia]. apply elem_of_cons. right. apply G3; [done|]. tauto. }
  pose proof (disk_geometry_ok geo anc _ Hd (reflexivity _)) as Hg.
  pose proof (volume_disk_ok _ _ Hg) as Hok.
  change (a_formatted_cylinders (set_a_f4 _ anc)) with (a_formatted_cylinders anc) in Hok.
  pose proof (dg_last _ _ Hd) as Hlast. pose proof (dg_heads _ _ Hd).
  unfold FIRST_USABLE_TRK in Hlast.
  destruct l as [[f4 f5] f7]. unfold add_free. cbn [fst snd] in *.
  rewrite !u64_small, !u32_small by lia.
  destruct (set_freespace_add f4 f5 f7 F pos (pos + n - 1) _ _ Hok G1)
    as (f4' & f5' & f7' & Hset & Hrepr).
  - eapply fs_room_bound; [lia|exact G1|exact HS|exact G3].
  - lia.
  - unfold last_trk in Hle. lia.
  - intros t Ht Hf. specialize (G2 t Hf). lia.
  - exists (f4', f5', f7'). split; [done|].
    split; [exact (set_freespace_same _ _ _ _ _ _ _ _ _ _ _ Hset)|]. split; cbn [fst snd].
    + eapply fs_repr_ext; [|exact Hrepr]. intros t. unfold fs_add.
      split; (intros [?|?]; [by left|right; lia]).
    + intros t [Ht|Ht]; [|lia]. specialize (G2 t Ht). lia.
    + intros t [Ht|Ht] Hnt; apply elem_of_cons.
      * right. apply G3; [done|]. tauto.
      * left. destruct (decide (t = pos)); [done|]. destruct Hnt. right. lia.
Qed.

(** The free tracks behind a partition join those before it. *)
Lemma gap_union limit (F U : Prop) s e n t :
  s <= e → 0 <= n → e + n <= limit → (F → t < s) → (U → e + 1 + n <= t) →
  (F ∨ e + 1 <= t < e + 1 + n) ∨ (e + 1 + n <= t <= limit ∧ ¬ U) ↔
  F ∨ (s <= t <= limit ∧ ¬ (s <= t <= e ∨ U)).
Proof.
  intros Hse Hn Hl HF HU. split.
  - intros [[?|?]|[? ?]]; [by left|right|right]; (split; [lia|]); intros [?|?]; try lia; [|done].
    specialize (HU ltac:(done)). lia.
  - intros [?|[? Hnu]]; [by left; left|].
    destruct (decide (t <= e)); [destruct Hnu; left; lia|].
    destruct (decide (t < e + 1 + n)); [left; right; lia|right]. split; [lia|tauto].
Qed.


(** The loop over the partitions enters the free tracks behind each of them. *)
Lemma reuse_loop_spec geo now limit ids fuel anc cur l F pos fs S :
  disk_geometry geo anc → limit = last_trk geo anc →
  chain (a_tab anc) cur ids → NoDup ids → (length ids < fuel)%nat → 0 < pos →
  layout limit pos fs (recs (a_tab anc) ids) →
  gaps geo anc l F (pos + fs) S → (length S + length ids < 16)%nat →
  ∃ t' l', reuse_loop fuel geo now anc cur l = Done (set_a_tab t' anc, l') ∧
    relabelled same_ext (a_tab anc) t' ∧ same_device l.1.1 l'.1.1 ∧
    fs_repr (a_formatted_cylinders anc) (geo_heads geo) l'.1.2 l'.2
      (λ t, F t ∨ (pos + fs <= t <= limit ∧ ¬ used_tracks (recs (a_tab anc) ids) t)).
Proof.
  intros Hd Hlim. revert fuel anc cur l F pos fs S Hd Hlim.
  induction ids as [|id ids IH];
    intros [|fuel] anc cur l F pos fs S Hd Hlim Hc Hnd Hfu Hpos Hlay HG HS; simpl in Hfu; try lia.
  - simpl in Hc. subst cur. exists (a_tab anc), l. split; [by destruct anc|]. split; [reflexivity|].
    split; [reflexivity|]. eapply fs_repr_ext; [|exact (gaps_repr _ _ _ _ _ _ HG)].
    inversion Hlay; subst. intros t. split; [by left|]. intros [?|[? _]]; [done|lia].
  - destruct Hc as [-> Hc]. apply NoDup_cons in Hnd as [Hid Hnd].
    cbn [reuse_loop]. change (pget anc id) with (tget (a_tab anc) id). simpl in HS.
    destruct (decide (p_used (tget (a_tab anc) id) = 1)) as [Hu|Hu].
    + rewrite Hu. cbn [Z.eqb negb Pos.eqb].
      pose proof (dg_last _ _ Hd) as Hlast. unfold FIRST_USABLE_TRK in Hlast.
      apply layout_used_cons_inv in Hlay as (-> & Hs & He & Hlen & Hlay); [|exact Hu].
      cbn [p_end_trk p_start_trk p_fspace_trk p_len_trk core set_p_next set_p_prev] in Hs, He, Hlen, Hlay.
      pose proof (layout_fs _ _ _ _ Hlay) as Hfs.
      set (p := tget (a_tab anc) id) in *. set (anc1 := pupd id _ anc).
      change (layout limit (p_end_trk p + 1) (p_fspace_trk p) (recs (a_tab anc) ids)) in Hlay.
      assert (Hrl : relabelled same_ext (a_tab anc) (a_tab anc1)).
      { apply (relabelled_tupd (R := same_ext)); [|done]. apply reuse_f1_ext. }
      assert (HG' : gaps geo anc1 l F (p_end_trk p + 1) S).
      { destruct HG as [G1 G2 G3]. split; [done| |done]. intros t Ht. specialize (G2 t Ht). simpl in G2. lia. }
      assert (Hd1 : disk_geometry geo anc1) by (destruct Hd; by split).
      destruct (add_gap geo anc1 l F (p_end_trk p + 1) S (p_fspace_trk p) Hd1 HG')
        as (l1 & Hadd & Hsame & HG1); [lia|lia|lia|change (last_trk geo anc1) with (last_trk geo anc); lia|].
      replace (p_end_trk p + 1 + p_fspace_trk p - 1) with (p_end_trk p + p_fspace_trk p) in Hadd by lia.
      rewrite Hadd, Done_bind.
      assert (Hids : Forall2 (same_part same_ext) (recs (a_tab anc) ids) (recs (a_tab anc1) ids)).
      { by apply relabelled_recs. }
      destruct (IH fuel anc1 (p_next p) l1 (λ t, F t ∨ p_end_trk p + 1 <= t < p_end_trk p + 1 + p_fspace_trk p)
        (p_end_trk p + 1) (p_fspace_trk p) (p_end_trk p + 1 :: S)
        Hd1 Hlim) as (t' & l' & -> & Hrl' & Hsame' & Hrepr); try done; [..|simpl; lia|].
      * by eapply chain_relabelled.
      * lia.
      * lia.
      * eapply layout_relabel; eassumption.
      * exists t', l'. split; [done|]. split; [by transitivity (a_tab anc1)|].
        split; [by transitivity l1.1.1|]. eapply fs_repr_ext; [|exact Hrepr]. intros t. cbv beta.
        change (recs (a_tab anc) (id :: ids)) with (core p :: recs (a_tab anc) ids).
        rewrite (used_tracks_relabel _ _ _ Hids), used_tracks_cons.
        pose proof (layout_gap _ _ _ _ t Hlay) as Hgap. unfold in_part. cbn [p_end_trk p_start_trk p_used core set_p_next set_p_prev].
        assert (Hcase : F t → t < p_start_trk p).
        { intros Ht. pose proof (gaps_before _ _ _ _ _ _ HG t Ht). simpl in *. lia. }
        rewrite (gap_union limit (F t) _ (p_start_trk p)) by (done || lia).
        rewrite Z.add_sub_assoc, Z.add_simpl_l. tauto.
    + rewrite (proj2 (Z.eqb_neq _ _)) by done. cbn [negb].
      destruct (IH fuel anc (p_next (tget (a_tab anc) id)) l F pos fs S Hd Hlim)
        as (t' & l' & -> & Hrl' & Hsame' & Hrepr); try done; try lia.
      * inversion Hlay as [? ? ? Hf'|]; subst; [|done].
        apply Forall_cons in Hf' as [_ Hf']. by apply layout_free.
      * exists t', l'. split; [done|]. split; [done|]. split; [done|].
        eapply fs_repr_ext; [|exact Hrepr]. intros t. cbv beta.
        change (recs (a_tab anc) (id :: ids)) with (core (tget (a_tab anc) id) :: recs (a_tab anc) ids).
        rewrite used_tracks_cons.
        assert (Hcu : p_used (core (tget (a_tab anc) id)) ≠ 1) by done. tauto.
Qed.

(** The free tracks are those before the first partition and the gaps behind it. *)
Lemma whole_gap limit pos fs l t :
  layout limit pos fs l →
  pos <= t <= limit ∧ ¬ used_tracks l t ↔
  (False ∨ pos <= t < pos + fs) ∨ (pos + fs <= t <= limit ∧ ¬ used_tracks l t).
Proof.
  intros Hlay. pose proof (layout_gap _ _ _ _ t Hlay) as Hgap. pose proof (layout_fs _ _ _ _ Hlay). split.
  - intros [? ?]. destruct (decide (t < pos + fs)); [left; right; lia|right; split; [lia|done]].
  - intros [[[]|?]|[? ?]]; (split; [lia|]); [|done]. intros Hu. specialize (Hgap Hu). lia.
Qed.

(** the consent that a command asks for, unless it runs silently *)
Definition consent (anc : fdasd_anchor) (stdin : list Z) : outcome (Z * list Z) :=
  if a_silent anc =? 0 then yes_no stdin else Done (0, stdin).

(** [fdasd_reuse_vtoc] builds a consistent volume from the partition list alone,
    whatever the free-space labels were. *)
Lemma reuse_volume geo now anc x y z stdin stdin' :
  disk_geometry geo anc → linked (a_tab anc) x y z →
  layout (last_trk geo anc) FIRST_USABLE_TRK (a_fspace_trk anc) (plist (a_tab anc) x y z) →
  a_used_partitions anc = n_used (plist (a_tab anc) x y z) →
  Forall (f1_ok geo) (plist (a_tab anc) x y z) →
  consent anc stdin = Done (0, stdin') →
  ∃ anc', fdasd_reuse_vtoc geo now (anc, stdin) = Done (anc', stdin') ∧
    geometry_ok geo anc' ∧ volume geo anc' x y z ∧
    ∀ t, used_tracks (plist (a_tab anc') x y z) t ↔ used_tracks (plist (a_tab anc) x y z) t.
Proof.
  intros Hd Hlk Hlay Hcnt Hf1 Hyes. unfold fdasd_reuse_vtoc. fold (consent anc stdin).
  rewrite Hyes, Done_bind. simpl (negb _). cbv iota zeta.
  set (f4 := set_f4_dscb (init_f4 geo anc) (DS4HPCHR (a_f4 anc)) (DS4DSREC (a_f4 anc))).
  assert (Hsame0 : same_device (init_f4 geo anc) f4) by (unfold f4; destruct (init_f4 geo anc); done).
  pose proof (layout_fs _ _ _ _ Hlay) as Hfs. pose proof (layout_pos _ _ _ _ Hlay) as Hpos.
  assert (Ht : 0 < geo_heads geo < 256) by (pose proof (dg_heads _ _ Hd); lia).
  assert (HG : gaps geo anc (f4, vtoc_init_format5_label, vtoc_init_format7_label)
    (λ _, False) FIRST_USABLE_TRK []) by (split; [by apply init_repr|done..]).
  destruct (add_gap geo anc _ _ FIRST_USABLE_TRK [] (a_fspace_trk anc) Hd HG)
    as (l1 & Hadd & Hsame & HG1); [simpl; lia|done|lia|lia|].
  change (u64 FIRST_USABLE_TRK) with FIRST_USABLE_TRK in Hadd. rewrite Hadd, Done_bind.
  destruct (linked_chain _ _ _ _ Hlk) as (Hch & Hnd & _).
  destruct (reuse_loop_spec geo now (last_trk geo anc) [x; y; z] (S USABLE_PARTITIONS) anc (Some (a_first anc)) l1 _
    FIRST_USABLE_TRK (a_fspace_trk anc) _ Hd eq_refl Hch Hnd
    ltac:(unfold USABLE_PARTITIONS; simpl; lia) ltac:(done) Hlay HG1 ltac:(simpl; lia))
    as (t' & [[f4' f5'] f7'] & -> & Hrl & Hsame' & Hrepr). rewrite Done_bind.
  pose proof (relabelled_plist _ _ x y z Hrl) as H2.
  assert (Hv : volume geo (set_a_f7 f7' (set_a_f5 f5' (set_a_f4 f4' anc))) x y z).
  { split; try done. eapply fs_repr_ext; [|exact Hrepr]. intros t. unfold free_tracks.
    cbn [a_tab set_a_f4 set_a_f5 set_a_f7].
    change (recs (a_tab anc) [x; y; z]) with (plist (a_tab anc) x y z).
    change (last_trk geo (set_a_f7 f7' _)) with (last_trk geo anc). symmetry. by apply whole_gap. }
  pose proof (volume_relabelled geo (set_a_f7 f7' (set_a_f5 f5' (set_a_f4 f4' anc))) x y z t' Hrl Hv) as Hv'.
  eexists. split; [reflexivity|]. split; [|split; [destruct Hv'; by split|]].
  - eapply geometry_ok_frame; [..|exact (disk_geometry_ok geo anc f4' Hd ltac:(etrans; [exact Hsame0|]; etrans; [exact Hsame|exact Hsame']))]; done.
  - intros t. exact (used_tracks_relabel _ _ _ H2).
Qed.

End FdasdVtocProofs.
