(* ===== verification/FdasdConf.v ===== *)
(** The configuration file of fdasd (src/fdasd/fdasd.c): parsing it, checking its
    entries, and building the labels of the partitions it describes. *)
From S2P Require Import Prelude Ebcdic Cchh Codec Labels LabelOps Freespace FdasdState FdasdTable FdasdLayout.
From S2P Require Import FdasdList FdasdInput FdasdPart FdasdVtoc.
Import Ebcdic Addr Freespace Fdasd FdasdTable FdasdList FdasdInput FdasdPart FdasdVtoc.

Module FdasdConf.

Definition CONFIG_MAX : nat := 3.
Definition CONFIG_FILE_SIZE : nat := USABLE_PARTITIONS * LINE_LENGTH.

(** ** Parsing *)

(** [strtok] with one delimiter: leading delimiters are skipped; the rest starts
    behind the delimiter that ends the token *)
Fixpoint token_end (ch : Z) (s : list Z) : list Z * list Z :=
  match s with
  | [] => ([], [])
  | c :: r => if c =? ch then ([], r) else let '(t, r) := token_end ch r in (c :: t, r)
  end.

Definition strtok (ch : Z) (s : list Z) : option (list Z * list Z) :=
  match skip_while (λ c, c =? ch) s with
  | [] => None
  | s => Some (token_end ch s)
  end.

(** at most [max] tokens *)
Fixpoint gettoken (ch : Z) (s : list Z) (max : nat) : list (list Z) :=
  match max with
  | O => []
  | S max => match strtok ch s with
             | None => []
             | Some (t, s) => t :: gettoken ch s max
             end
  end.

(** a bound of an entry: the keyword, or a number that is not 0 *)
Definition conf_bound (token : list Z) (keyword : string) (value : Z) : outcome Z :=
  match strstr token (bytes_of_string keyword) with
  | Some _ => Done value
  | None => let '(v, erange) := strtol token in
            if erange || (u64 v =? 0) then fdasd_error config_syntax_error else Done (u64 v)
  end.

(** one entry, from the text between the brackets *)
Definition conf_entry (geo : hd_geometry) (anc : fdasd_anchor) (text : list Z) : outcome config_data :=
  match gettoken 44 text CONFIG_MAX with
  | t0 :: t1 :: rest =>
      start ← conf_bound t0 "FIRST" FIRST_USABLE_TRK;
      stop ← conf_bound t1 "LAST" (disk_tracks_minus anc geo 1);
      match get_part_type_by_dsname (head rest) with
      | None => fdasd_error config_syntax_error
      | Some type => Done (ConfigData start stop type)
      end
  | _ => fdasd_error config_syntax_error
  end.

(** [for (i = 0; i < USABLE_PARTITIONS; i++)], [n] entries to go *)
Fixpoint parse_loop (n i : nat) (geo : hd_geometry) (anc : fdasd_anchor) (c1 : list Z)
    : outcome fdasd_anchor :=
  match n with
  | O => Done anc
  | S n =>
      match strchr c1 91 with
      | None => Done anc
      | Some k =>
          let c1 := drop (k + 1) c1 in
          match strchr c1 93 with
          | None => fdasd_error config_syntax_error
          | Some k2 =>
              entry ← conf_entry geo anc (take k2 c1);
              let anc := set_a_confdata (<[i := entry]> (a_confdata anc)) anc in
              parse_loop n (S i) geo anc (drop (k2 + 1) c1)
          end
      end
  end.

(** what [open] and [read] deliver for the file *)
Inductive conf_file := ConfMissing | ConfReadError | ConfContent (bytes : list Z).

Definition fdasd_parse_conffile (geo : hd_geometry) (file : conf_file) (anc : fdasd_anchor)
    : outcome fdasd_anchor :=
  match file with
  | ConfMissing => fdasd_error unable_to_open_disk
  | ConfReadError => Done anc
  | ConfContent bytes =>
      let buffer := map toupper (take CONFIG_FILE_SIZE bytes) in
      parse_loop USABLE_PARTITIONS 0 geo anc buffer
  end.

(** ** Checking *)

Definition conf (anc : fdasd_anchor) (i : nat) : config_data := a_confdata anc !!! i.

(** free tracks behind entry [i] *)
Definition conf_fspace (anc : fdasd_anchor) (i : nat) (last_trk : Z) : Z :=
  let stop := c_stop (conf anc i) in
  if (i <? USABLE_PARTITIONS - 1)%nat && negb (c_start (conf anc (i + 1)) =? 0)
  then u64 (c_start (conf anc (i + 1)) - stop - 1)
  else u64 (last_trk - stop).

(** the assignments for entry [i] *)
Definition conf_part (anc : fdasd_anchor) (i : nat) (last_trk : Z) (p : partition_info)
    : partition_info :=
  let start := c_start (conf anc i) in
  let stop := c_stop (conf anc i) in
  set_p_fspace_trk (conf_fspace anc i last_trk)
    (set_p_type (c_type (conf anc i))
      (set_p_len_trk (u64 (stop - start + 1))
        (set_p_end_trk stop (set_p_start_trk start (set_p_used 1 p))))).

Fixpoint check_loop (n i : nat) (geo : hd_geometry) (anc : fdasd_anchor) (part_info : option nat)
    : outcome fdasd_anchor :=
  match n with
  | O => Done anc
  | S n =>
      let start := c_start (conf anc i) in
      let stop := c_stop (conf anc i) in
      if (start =? 0) || (stop =? 0) then Done anc
      else
        let last_trk := disk_tracks_minus anc geo 1 in
        if (start <? FIRST_USABLE_TRK) || (last_trk <? start) then fdasd_error config_syntax_error
        else if (stop <? FIRST_USABLE_TRK) || (last_trk <? stop) then fdasd_error config_syntax_error
        else if stop <=? start then fdasd_error config_syntax_error
        else if (0 <? i)%nat && (start <=? c_stop (conf anc (i - 1))) then fdasd_error config_syntax_error
        else if (i <? USABLE_PARTITIONS - 1)%nat && (0 <? c_start (conf anc (i + 1))) &&
                (c_start (conf anc (i + 1)) <=? stop) then fdasd_error config_syntax_error
        else
          id ← deref part_info;
          let anc := pupd id (conf_part anc i last_trk) anc in
          let anc := if (i =? 0)%nat
                     then set_a_tab (set_t_fspace_trk (u64 (start - FIRST_USABLE_TRK)) (a_tab anc)) anc
                     else anc in
          check_loop n (S i) geo anc (p_next (pget anc id))
  end.

Definition fdasd_check_conffile_input (geo : hd_geometry) (anc : fdasd_anchor) : outcome fdasd_anchor :=
  check_loop USABLE_PARTITIONS 0 geo anc (Some (a_first anc)).

(** ** Labels *)

(** [trk / geo.heads] and [trk % geo.heads] as a disk address *)
Definition divmod_cchh (geo : hd_geometry) (trk : Z) : outcome cchh_t :=
  cc ← udiv trk (geo_heads geo);
  Done (vtoc_set_cchh (u32 cc) (u16 (trk mod geo_heads geo))).

(** [strstr(dsname, ".NEW")] and [sprintf(type, ".%s", dsname)] on the decoded name;
    storing behind the end of the name is a fault *)
Definition write_type (type : Z) (f1 : format1_label_t) : outcome format1_label_t :=
  let f1 := name_dec f1 in
  place ← deref (strstr (cenc cformat1 f1) (bytes_of_string ".NEW"));
  dsname ← match get_part_dsname_by_type type with
           | DsName s => Done (bytes_of_string s)
           | _ => Fault
           end;
  let text := 46 :: dsname ++ [0] in
  if (44 <? place + length text)%nat then Fault
  else Done (name_enc (set_DS1DSNAM f1 (memcpy_at (DS1DSNAM f1) place text))).

(** the loop body for a used record *)
Definition conf_label (geo : hd_geometry) (now : tm) (id : nat) (anc : fdasd_anchor)
    : outcome fdasd_anchor :=
  let p := pget anc id in
  llimit ← divmod_cchh geo (p_start_trk p);
  ulimit ← divmod_cchh geo (p_end_trk p);
  let ext := vtoc_set_extent (if vtoc_get_head_from_cchh llimit =? 0 then 0x81 else 0x01) 0x00
               llimit ulimit in
  let anc := pupd id (set_p_f1 (new_f1 now anc ext (p_f1 p))) anc in
  let anc := set_a_used_partitions (u32 (a_used_partitions anc + 1)) anc in
  let hf1 := get_addr_of_highest_f1_f8_label anc in
  let anc := set_a_f4 (vtoc_update_format4_label (a_f4 anc) hf1 (DS4DSREC (a_f4 anc) - 1)) anc in
  anc ← (if negb (p_fspace_trk p =? 0) then
           let start := u64 (p_end_trk p + 1) in
           let stop := u64 (start + p_fspace_trk p - 1) in
           set_freespace geo plus_ch start stop anc
         else Done anc);
  f1 ← write_type (p_type p) (p_f1 (pget anc id));
  Done (pupd id (set_p_f1 f1) anc).

(** [do { if (part_info->used != 0x01) continue; ... } while ((part_info = part_info->next) != NULL)] *)
Fixpoint conf_labels_loop (fuel : nat) (geo : hd_geometry) (now : tm) (anc : fdasd_anchor)
    (part_info : option nat) : outcome fdasd_anchor :=
  match fuel with
  | O => OutOfFuel
  | S fuel =>
      match part_info with
      | None => Done anc
      | Some id =>
          anc ← (if p_used (pget anc id) =? 1 then conf_label geo now id anc else Done anc);
          conf_labels_loop fuel geo now anc (p_next (pget anc id))
      end
  end.

(** [fdasd_auto_partition_conffile] between the volume label and the write *)
Definition conffile_labels (geo : hd_geometry) (now : tm) (anc : fdasd_anchor) : outcome fdasd_anchor :=
  let anc := init_labels geo anc in
  anc ← (if negb (a_fspace_trk anc =? 0) then
           set_freespace geo plus_ch FIRST_USABLE_TRK
             (u64 (FIRST_USABLE_TRK + a_fspace_trk anc - 1)) anc
         else Done anc);
  anc ← conf_labels_loop (S USABLE_PARTITIONS) geo now anc (Some (a_first anc));
  Done (changed_vtoc anc).

(** ** One partition for the whole disk *)

(** [fdasd_auto_partition] between the volume label and the write *)
Definition auto_labels (geo : hd_geometry) (now : tm) (anc : fdasd_anchor) : fdasd_anchor :=
  let anc := init_labels geo anc in
  let cyl := get_usable_cylinders anc in
  let head := DS4DSTRK (DS4DEVCT (a_f4 anc)) in
  let part_info := a_first anc in
  let ext := vtoc_set_extent 0x01 0x00 (vtoc_set_cchh 0 FIRST_USABLE_TRK)
               (vtoc_set_cchh (u32 (cyl - 1)) (u16 (head - 1))) in
  let anc := pupd part_info (λ p,
    set_p_f1 (new_f1 now anc ext (p_f1 p))
      (set_p_end_trk (u32 (head * cyl - 1))
        (set_p_start_trk FIRST_USABLE_TRK
          (set_p_len_trk (u32 (head * cyl - FIRST_USABLE_TRK))
            (set_p_fspace_trk 0 (set_p_used 1 p)))))) anc in
  let anc := set_a_tab (set_t_fspace_trk 0 (a_tab anc)) anc in
  let anc := set_a_used_partitions 1 anc in
  let hf1 := get_addr_of_highest_f1_f8_label anc in
  let anc := set_a_f4 (vtoc_update_format4_label (a_f4 anc) hf1 (DS4DSREC (a_f4 anc) - 1)) anc in
  changed_vtoc anc.

End FdasdConf.
