(* ===== verification/FdasdConfProofs.v ===== *)
(** What the configuration file of fdasd (src/fdasd/fdasd.c) leads to: an accepted
    file describes a layout, and the labels built from it a consistent volume. *)
From S2P Require Import Prelude Ebcdic Cchh Codec Labels LabelOps Extents Fmt7 Fmt5 Freespace FdasdState.
From S2P Require Import FdasdTable FdasdLayout FdasdList FdasdInput FdasdPart FdasdVolume FdasdVtoc FdasdVtocProofs.
From S2P Require Import FdasdConf.
Import Ebcdic Addr Extents Fmt7 Fmt5 Freespace Fdasd FdasdTable FdasdLayout FdasdList FdasdInput
  FdasdPart FdasdVolume FdasdVtoc FdasdVtocProofs FdasdConf.

Module FdasdConfProofs.

(** ** Parsing *)

(** an entry is absent, or both bounds are given *)
Definition entry_ok (c : config_data) : Prop :=
  in_u64 (c_start c) ∧ in_u64 (c_stop c) ∧ (c_start c = 0 ↔ c_stop c = 0) ∧ 0 <= c_type c <= 5.

Lemma conf_bound_spec token keyword value :
  0 < value < 18446744073709551616 →
  conf_bound token keyword value = Exited 1 ∨
  ∃ v, conf_bound token keyword value = Done v ∧ in_u64 v ∧ v ≠ 0.
Proof.
  intros Hv. unfold conf_bound, fdasd_error. destruct (strstr _ _); [right; exists value; split; [done|unfold in_u64; lia]|].
  destruct (strtol token) as [v e]. destruct (e || (u64 v =? 0)) eqn:E; [by left|]. b2p.
  right. exists (u64 v). split; [done|]. split; [apply u64_range|done].
Qed.

Lemma part_type_range d type : get_part_type_by_dsname d = Some type → 0 <= type <= 5.
Proof.
  destruct d as [d|]; simpl; [|by intros [= <-]].
  repeat (destruct (strstr _ _); simpl; [by intros [= <-]|]). done.
Qed.

Lemma conf_entry_spec geo anc text :
  disk_geometry geo anc →
  conf_entry geo anc text = Exited 1 ∨
  ∃ c, conf_entry geo anc text = Done c ∧ entry_ok c.
Proof.
  intros Hd. pose proof (dg_last _ _ Hd) as Hl. unfold last_trk, FIRST_USABLE_TRK in Hl.
  unfold conf_entry, fdasd_error.
  destruct (gettoken 44 text CONFIG_MAX) as [|t0 [|t1 rest]]; [by left..|].
  destruct (conf_bound_spec t0 "FIRST" FIRST_USABLE_TRK ltac:(done)) as [->|(v & -> & Hv & Hv0)]; [by left|].
  rewrite Done_bind.
  destruct (conf_bound_spec t1 "LAST" (disk_tracks_minus anc geo 1)) as [->|(w & -> & Hw & Hw0)].
  { unfold disk_tracks_minus. rewrite u32_small; lia. }
  { by left. }
  rewrite Done_bind. destruct (get_part_type_by_dsname (head rest)) as [type|] eqn:Et; [|by left].
  apply part_type_range in Et. right. eexists. split; [done|]. split; [done|]. split; [done|]. simpl. done.
Qed.

(** The parser ends with an error or with entries that have both bounds. *)
Lemma parse_conffile_spec geo anc file :
  disk_geometry geo anc → Forall entry_ok (a_confdata anc) →
  fdasd_parse_conffile geo file anc = Exited 1 ∨
  ∃ cs, fdasd_parse_conffile geo file anc = Done (set_a_confdata cs anc) ∧
    Forall entry_ok cs ∧ length cs = length (a_confdata anc).
Proof.
  intros Hd Hok. assert (Hid : anc = set_a_confdata (a_confdata anc) anc) by (by destruct anc).
  unfold fdasd_parse_conffile. destruct file as [| |bytes]; [by left| |].
  { right. exists (a_confdata anc). by rewrite <- Hid. }
  generalize (map toupper (take CONFIG_FILE_SIZE bytes)) as c1. generalize 0%nat as i.
  generalize USABLE_PARTITIONS as n. intros n. revert anc Hd Hok Hid.
  induction n as [|n IH]; intros anc Hd Hok Hid i c1; simpl.
  { right. exists (a_confdata anc). by rewrite <- Hid. }
  destruct (strchr c1 91) as [k|]; [|right; exists (a_confdata anc); by rewrite <- Hid].
  destruct (strchr _ 93) as [k2|]; [|by left].
  destruct (conf_entry_spec geo anc (take k2 (drop (k + 1) c1)) Hd) as [->|(c & -> & Hc)]; [by left|].
  rewrite Done_bind. set (anc1 := set_a_confdata _ anc).
  destruct (IH anc1) with (i := S i) (c1 := drop (k2 + 1) (drop (k + 1) c1))
    as [->|(cs & -> & Hcs & Hlen)]; [destruct Hd; by split|by apply Forall_insert|done|by left|].
  right. exists cs. split; [done|]. split; [done|]. rewrite Hlen. simpl. by rewrite length_insert.
Qed.

(** ** Checking *)

(** the free tracks in front of entry [i], when the last one ended before [pos] *)
Definition conf_gap (anc : fdasd_anchor) (limit : Z) (i : nat) (pos : Z) : Z :=
  if (i <? USABLE_PARTITIONS)%nat && negb (c_start (conf anc i) =? 0)
  then c_start (conf anc i) - pos else limit + 1 - pos.

Section Check.
Context (geo : hd_geometry).

(** a used record has a partition type of the table *)
Definition typed (p : partition_info) : Prop := p_used p = 1 → 0 <= p_type p <= 5.

Lemma unused_typed l : Forall unused l → Forall typed l.
Proof. intros H. eapply Forall_impl; [exact H|]. intros p [Hp _] Hu. lia. Qed.

(** what a round of the loop may do to the table *)
Record checked (t t' : ptable) (ids : list nat) : Prop := {
  ck_links x y z : linked t x y z → linked t' x y z;
  ck_partno : t_partno t' = t_partno t;
  ck_length : length (t_parts t') = length (t_parts t);
  ck_other j : j ∉ ids → tget t' j = tget t j
}.

(** first and last track of the partitions of a list *)
Definition bounds (l : list partition_info) : list (Z * Z) :=
  map (λ p, (p_start_trk p, p_end_trk p)) (filter (λ p, is_used p = true) l).

(** the entries of the configuration from number [i] on, up to the first empty one *)
Fixpoint entries_from (n i : nat) (anc : fdasd_anchor) : list (Z * Z) :=
  match n with
  | O => []
  | S n => if c_start (conf anc i) =? 0 then []
           else (c_start (conf anc i), c_stop (conf anc i)) :: entries_from n (S i) anc
  end.

Lemma unused_bounds l : Forall unused l → bounds l = [].
Proof.
  induction 1 as [|p l [Hp _] _ IH]; [done|]. unfold bounds, is_used in *. rewrite filter_cons_False; [done|].
  by rewrite Hp.
Qed.

Lemma entries_from_frame n i t anc : entries_from n i (set_a_tab t anc) = entries_from n i anc.
Proof. revert i. induction n as [|n IH]; intros i; [done|]. simpl. by rewrite IH. Qed.

Lemma conf_fspace_gap anc i limit :
  0 <= limit < 2 ^ 28 → (i < 3)%nat → (∀ k, (k < 3)%nat → entry_ok (conf anc k)) →
  0 <= c_stop (conf anc i) <= limit →
  (i <? USABLE_PARTITIONS - 1)%nat && (0 <? c_start (conf anc (i + 1))) &&
    (c_start (conf anc (i + 1)) <=? c_stop (conf anc i)) = false →
  conf_fspace anc i limit = conf_gap anc limit (S i) (c_stop (conf anc i) + 1).
Proof.
  intros Hl Hi Hok Hs Hnext. unfold conf_fspace, conf_gap, USABLE_PARTITIONS in *.
  rewrite Nat.add_1_r in *. destruct (i <? 3 - 1)%nat eqn:E.
  - apply Nat.ltb_lt in E. rewrite (proj2 (Nat.ltb_lt (S i) 3)) by lia. simpl (true && _) in *.
    destruct (Hok (S i) ltac:(lia)) as [Hu _]. unfold in_u64 in Hu.
    destruct (c_start (conf anc (S i)) =? 0) eqn:E0; simpl; b2p; rewrite u64_small; try lia;
      apply andb_false_iff in Hnext; destruct Hnext; b2p; lia.
  - apply Nat.ltb_ge in E. rewrite (proj2 (Nat.ltb_ge (S i) 3)) by lia. simpl. rewrite u64_small; lia.
Qed.

(** The checks of entry [i]: an error, or the entry follows the previous one on
    the disk. *)
Lemma check_loop_spec ids i anc cur pos :
  disk_geometry geo anc → (i + length ids = 3)%nat →
  chain (a_tab anc) cur ids → NoDup ids → Forall (λ j, (j < length (t_parts (a_tab anc)))%nat) ids →
  Forall unused (recs (a_tab anc) ids) → (∀ k, (k < 3)%nat → entry_ok (conf anc k)) →
  pos = (if (i =? 0)%nat then FIRST_USABLE_TRK else c_stop (conf anc (i - 1)) + 1) →
  FIRST_USABLE_TRK <= pos <= last_trk geo anc + 1 →
  check_loop (length ids) i geo anc cur = Exited 1 ∨
  ∃ t', check_loop (length ids) i geo anc cur = Done (set_a_tab t' anc) ∧
    checked (a_tab anc) t' ids ∧
    layout (last_trk geo anc) pos (conf_gap anc (last_trk geo anc) i pos) (recs t' ids) ∧
    Forall typed (recs t' ids) ∧ bounds (recs t' ids) = entries_from (length ids) i anc ∧
    t_fspace_trk t' = if (i =? 0)%nat && negb (c_start (conf anc 0) =? 0)
                      then c_start (conf anc 0) - FIRST_USABLE_TRK else a_fspace_trk anc.
Proof.
  revert i anc cur pos. induction ids as [|id ids IH];
    intros i anc cur pos Hd Hi Hc Hnd Hlt Hun Hok Hpos Hr; cbn [length check_loop] in *.
  { right. exists (a_tab anc). split; [by destruct anc|]. split; [by split|].
    unfold conf_gap, USABLE_PARTITIONS.
    rewrite (proj2 (Nat.ltb_ge _ _)), (proj2 (Nat.eqb_neq i 0)) by lia.
    split; [apply layout_free; [lia|constructor]|]. split; [constructor|]. split; [done|done]. }
  unfold fdasd_error. assert (Hi3 : (i < 3)%nat) by lia. pose proof (Hok i Hi3) as (Hs & He & Hse & Hty).
  destruct ((c_start (conf anc i) =? 0) || (c_stop (conf anc i) =? 0)) eqn:E0.
  { right. exists (a_tab anc). split; [by destruct anc|]. split; [by split|].
    assert (Hz : c_start (conf anc i) = 0) by (b2p; destruct E0; b2p; tauto).
    unfold conf_gap. rewrite Hz. simpl. rewrite andb_false_r. split; [apply layout_free; [lia|done]|].
    split; [by apply unused_typed|]. split; [rewrite ?Hz; simpl; by apply unused_bounds|]. destruct (i =? 0)%nat eqn:Ei; [|done]. apply Nat.eqb_eq in Ei. subst i. by rewrite Hz. }
  apply orb_false_iff in E0 as [Es Ee]. b2p. pose proof (dg_last _ _ Hd) as Hlast.
  unfold FIRST_USABLE_TRK in Hr, Hlast.
  assert (Hlt_eq : disk_tracks_minus anc geo 1 = last_trk geo anc).
  { unfold disk_tracks_minus. apply u32_small. lia. }
  rewrite Hlt_eq.
  destruct ((c_start (conf anc i) <? _) || _) eqn:E1; [by left|].
  destruct ((c_stop (conf anc i) <? _) || _) eqn:E2; [by left|].
  destruct (c_stop (conf anc i) <=? c_start (conf anc i)) eqn:E3; [by left|].
  destruct ((0 <? i)%nat && _) eqn:E4; [by left|].
  destruct ((i <? USABLE_PARTITIONS - 1)%nat && _ && _) eqn:E5; [by left|].
  assert (Hfsp : conf_fspace anc i (last_trk geo anc) =
    conf_gap anc (last_trk geo anc) (S i) (c_stop (conf anc i) + 1)).
  { apply conf_fspace_gap; try done; [lia|]. clear E5. unfold in_u64 in He. b2p. lia. }
  destruct Hc as [-> Hc]. cbn [deref]. rewrite Done_bind.
  set (t1 := tupd id (conf_part anc i (last_trk geo anc)) (a_tab anc)).
  set (t2 := if (i =? 0)%nat then set_t_fspace_trk (u64 (c_start (conf anc i) - FIRST_USABLE_TRK)) t1 else t1).
  match goal with |- context [check_loop (length ids) (S i) geo ?a _] =>
    replace a with (set_a_tab t2 anc) by (unfold t2; by destruct (i =? 0)%nat) end.
  assert (Hle : pos <= c_start (conf anc i)).
  { rewrite Hpos. destruct (i =? 0)%nat eqn:Ei; unfold FIRST_USABLE_TRK in *; b2p; [lia|].
    apply Nat.eqb_neq in Ei. rewrite (proj2 (Nat.ltb_lt 0 i)) in E4 by lia. simpl in E4. b2p. lia. }
  apply NoDup_cons in Hnd as [Hid Hnd]. apply Forall_cons in Hlt as [Hidlt Hlt].
  apply Forall_cons in Hun as [Hunid Hun].
  assert (Ht2 : ∀ j, tget t2 j = tget t1 j) by (intros j; unfold t2; by destruct (i =? 0)%nat).
  assert (Hother : ∀ j, j ≠ id → tget t2 j = tget (a_tab anc) j)
    by (intros j Hj; rewrite Ht2; by apply tget_tupd_ne).
  assert (Hself : tget t2 id = conf_part anc i (last_trk geo anc) (tget (a_tab anc) id))
    by (rewrite Ht2; by apply tget_tupd_eq).
  destruct (IH (S i) (set_a_tab t2 anc) (p_next (pget (set_a_tab t2 anc) id)) (c_stop (conf anc i) + 1))
    as [->|(t' & -> & [C1 C2 C3 C4] & Hlay & Htys & Hbd & Hfs)].
  - destruct Hd; by split.
  - lia.
  - change (pget (set_a_tab t2 anc) id) with (tget t2 id). rewrite Hself. apply (chain_other (a_tab anc) t2); [|exact Hc].
    intros j Hj. apply Hother. congruence.
  - done.
  - eapply Forall_impl; [exact Hlt|]. intros j Hj. cbn. unfold t2. destruct (i =? 0)%nat; simpl; rewrite length_insert; exact Hj.
  - unfold recs. rewrite (map_ext_in _ (λ j, core (tget (a_tab anc) j))); [exact Hun|].
    intros j Hj. f_equal. apply Hother. intros ->. apply Hid. by apply list_elem_of_In.
  - exact Hok.
  - simpl. by rewrite Nat.sub_0_r.
  - unfold last_trk, FIRST_USABLE_TRK in *. cbn. b2p. lia.
  - by left.
  - right. exists t'. split; [done|]. change (a_tab (set_a_tab t2 anc)) with t2 in C1, C2, C3, C4.
    change (last_trk geo (set_a_tab t2 anc)) with (last_trk geo anc) in Hlay.
    change (conf_gap (set_a_tab t2 anc)) with (conf_gap anc) in Hlay.
    split; [split|split; [|split; [|split]]].
    + intros x y z Hlk. apply C1. apply (linked_tupd _ _ _ _ id (conf_part anc i (last_trk geo anc))) in Hlk;
        [|done]. fold t1 in Hlk. unfold t2. destruct (i =? 0)%nat; [destruct Hlk; by split|done].
    + rewrite C2. unfold t2. by destruct (i =? 0)%nat.
    + rewrite C3. unfold t2. destruct (i =? 0)%nat; simpl; by rewrite length_insert.
    + intros j. rewrite not_elem_of_cons. intros [Hj1 Hj2]. by rewrite C4, Hother.
    + change (recs t' (id :: ids)) with (core (tget t' id) :: recs t' ids).
      rewrite C4, Hself by done. b2p. apply layout_used_eq; cbn; try done.
      * unfold conf_gap. rewrite (proj2 (Nat.ltb_lt i _)) by done.
        rewrite (proj2 (Z.eqb_neq _ _)) by done. done.
      * lia.
      * apply u64_small. lia.
      * rewrite Hfsp. exact Hlay.
    + change (recs t' (id :: ids)) with (core (tget t' id) :: recs t' ids).
      rewrite C4, Hself by done. constructor; [|done]. by intros _.
    + change (recs t' (id :: ids)) with (core (tget t' id) :: recs t' ids).
      rewrite C4, Hself by done. unfold bounds in *. rewrite filter_cons_True by done. cbn [map].
      rewrite Hbd, entries_from_frame. cbn [entries_from]. by rewrite (proj2 (Z.eqb_neq _ _)) by done.
    + rewrite Hfs. cbn [Nat.eqb andb]. change (a_fspace_trk (set_a_tab t2 anc)) with (t_fspace_trk t2).
      unfold t2. destruct (i =? 0)%nat eqn:Ei; [|done]. apply Nat.eqb_eq in Ei. subst i. simpl.
      rewrite (proj2 (Z.eqb_neq _ _)) by done. cbn [negb]. b2p. apply u64_small. unfold FIRST_USABLE_TRK in *. lia.
Qed.

(** [fdasd_check_conffile_input] on an empty volume: an error, or a layout whose
    partitions are the entries of the file. *)
Lemma check_conffile_spec anc x y z :
  disk_geometry geo anc → linked (a_tab anc) x y z → Forall unused (plist (a_tab anc) x y z) →
  (∀ k, (k < 3)%nat → entry_ok (conf anc k)) →
  a_fspace_trk anc = last_trk geo anc + 1 - FIRST_USABLE_TRK →
  fdasd_check_conffile_input geo anc = Exited 1 ∨
  ∃ t', fdasd_check_conffile_input geo anc = Done (set_a_tab t' anc) ∧
    linked t' x y z ∧ t_partno t' = a_partno anc ∧
    layout (last_trk geo anc) FIRST_USABLE_TRK (t_fspace_trk t') (plist t' x y z) ∧
    Forall typed (plist t' x y z) ∧ bounds (plist t' x y z) = entries_from 3 0 anc.
Proof.
  intros Hd Hlk Hun Hok Hfs. destruct (linked_chain _ _ _ _ Hlk) as (Hch & Hnd & Hlt).
  pose proof (dg_last _ _ Hd) as Hl.
  destruct (check_loop_spec [x; y; z] 0 anc (Some (a_first anc)) FIRST_USABLE_TRK Hd eq_refl Hch Hnd Hlt
    Hun Hok eq_refl ltac:(lia)) as [H|(t' & H & [C1 C2 C3 C4] & Hlay & Hty & Hbd & Hf)]; [by left|].
  right. exists t'. split; [exact H|]. split; [by apply C1|]. split; [done|].
  split; [|split; [exact Hty|exact Hbd]]. replace (t_fspace_trk t') with (conf_gap anc (last_trk geo anc) 0 FIRST_USABLE_TRK); [exact Hlay|].
  rewrite Hf. unfold conf_gap. simpl. destruct (c_start (conf anc 0) =? 0); simpl; lia.
Qed.
End Check.

(** ** Labels *)

Lemma divmod_cchh_ok geo trk :
  0 < geo_heads geo <= 16 → 0 <= trk < 2 ^ 28 →
  ∃ a, divmod_cchh geo trk = Done a ∧ cchh2trk a geo = trk.
Proof.
  intros Hg Ht. unfold divmod_cchh, udiv. rewrite (proj2 (Z.eqb_neq _ 0)) by lia. rewrite Done_bind.
  eexists. split; [reflexivity|].
  pose proof (Z.mod_pos_bound trk (geo_heads geo) ltac:(lia)).
  assert (0 <= trk / geo_heads geo <= trk).
  { split; [apply Z.div_pos; lia|]. apply Z.div_le_upper_bound; nia. }
  rewrite u32_small, u16_small by lia. by apply cchh2trk_of_trk.
Qed.

(** The name of a new label has room for every type. *)
Lemma write_type_new now anc ext f type :
  0 <= type <= 5 →
  ∃ f1, write_type type (new_f1 now anc ext f) = Done f1 ∧ DS1EXT1 f1 = ext.
Proof.
  intros Ht. unfold write_type.
  assert (Hp : strstr (cenc cformat1 (name_dec (new_f1 now anc ext f))) (bytes_of_string ".NEW") = Some 8%nat).
  { unfold new_f1. by destruct (LV_COMPAT_CYL <? _). }
  rewrite Hp. cbn [deref]. rewrite Done_bind.
  assert (Hn : ∃ s, get_part_dsname_by_type type = DsName s ∧ (length (bytes_of_string s) <= 6)%nat).
  { assert (Hc : type = 0 ∨ type = 1 ∨ type = 2 ∨ type = 3 ∨ type = 4 ∨ type = 5) by lia.
    destruct Hc as [->|[->|[->|[->|[->| ->]]]]]; eexists; (split; [reflexivity|]);
      apply Nat.leb_le; reflexivity. }
  destruct Hn as (s & -> & Hlen). rewrite Done_bind.
  rewrite (proj2 (Nat.ltb_ge _ _)) by (simpl; rewrite length_app; simpl; lia).
  eexists. split; [reflexivity|]. unfold name_enc, name_dec. rewrite !set_DS1DSNAM_ext. apply new_f1_ext.
Qed.

(** the labels of an anchor *)
Notation labels_of anc := (a_f4 anc, a_f5 anc, a_f7 anc).

Lemma same_disk_geometry geo anc anc' :
  same_disk anc anc' → disk_geometry geo anc → disk_geometry geo anc'.
Proof. intros [E1 E2 _] []. split; unfold last_trk in *; rewrite ?E1, ?E2; done. Qed.

Lemma set_freespace_add_free geo anc start stop :
  set_freespace geo plus_ch start stop anc =
  (l ← add_free geo anc start stop (labels_of anc); Done (set_a_f7 l.2 (set_a_f5 l.1.2 (set_a_f4 l.1.1 anc)))).
Proof.
  unfold set_freespace, add_free. by destruct (vtoc_set_freespace _ _ _ _ _ _ _ _) as [[[? ?] ?]| | |].
Qed.

(** Entering a gap into the labels of an anchor. *)
Lemma set_freespace_gap geo anc F pos S n :
  disk_geometry geo anc → gaps geo anc (labels_of anc) F pos S → (length S < 16)%nat →
  0 < pos → 0 <= n → pos + n <= last_trk geo anc + 1 →
  ∃ f4 f5 f7, let anc' := set_a_f7 f7 (set_a_f5 f5 (set_a_f4 f4 anc)) in
    (if negb (n =? 0) then set_freespace geo plus_ch (u64 pos) (u64 (u64 pos + n - 1)) anc
     else Done anc) = Done anc' ∧
    same_device (a_f4 anc) f4 ∧
    gaps geo anc' (labels_of anc') (λ t, F t ∨ pos <= t < pos + n) (pos + n) (pos :: S).
Proof.
  intros Hd HG HS Hpos Hn Hle. destruct (add_gap geo anc _ F pos S n Hd HG HS Hpos Hn Hle)
    as ([[f4 f5] f7] & Hadd & Hsame & HG').
  exists f4, f5, f7. assert (Hb : negb (n =? 0) = (0 <? n)).
  { destruct (Z.eqb_spec n 0); [subst; done|]. symmetry. apply Z.ltb_lt. lia. }
  pose proof (dg_last _ _ Hd). unfold FIRST_USABLE_TRK in *.
  assert (Hp64 : u64 pos = pos) by (apply u64_small; lia). rewrite Hb, Hp64.
  rewrite Hp64 in Hadd. split; [|split; [exact Hsame|destruct HG'; by split]].
  destruct (0 <? n).
  - rewrite set_freespace_add_free, Hadd. done.
  - injection Hadd as <- <- <-. by destruct anc.
Qed.

(** One used record gets its label, and the tracks behind it are marked free. *)
Lemma conf_label_spec geo now anc id F S :
  let p := tget (a_tab anc) id in
  disk_geometry geo anc → (id < length (t_parts (a_tab anc)))%nat → p_used p = 1 → typed p →
  0 < p_start_trk p <= p_end_trk p → 0 <= p_fspace_trk p →
  p_end_trk p + p_fspace_trk p <= last_trk geo anc →
  gaps geo anc (labels_of anc) F (p_end_trk p + 1) S → (length S < 16)%nat →
  0 <= a_used_partitions anc < 100 →
  ∃ anc', conf_label geo now id anc = Done anc' ∧ same_disk anc anc' ∧
    relabelled any_label (a_tab anc) (a_tab anc') ∧
    (∀ j, j ≠ id → tget (a_tab anc') j = tget (a_tab anc) j) ∧
    f1_ok geo (core (tget (a_tab anc') id)) ∧
    a_used_partitions anc' = a_used_partitions anc + 1 ∧
    gaps geo anc' (labels_of anc') (λ t, F t ∨ p_end_trk p + 1 <= t < p_end_trk p + 1 + p_fspace_trk p)
      (p_end_trk p + 1 + p_fspace_trk p) (p_end_trk p + 1 :: S).
Proof.
  intros p Hd Hid Hu Hty Hse Hfs Hle HG HS Hused. pose proof (dg_last _ _ Hd) as Hlast.
  pose proof (dg_heads _ _ Hd) as Hh. unfold conf_label. change (pget anc id) with p.
  destruct (divmod_cchh_ok geo (p_start_trk p) Hh ltac:(lia)) as (a & -> & Ha). rewrite Done_bind.
  destruct (divmod_cchh_ok geo (p_end_trk p) Hh ltac:(lia)) as (b & -> & Hb). rewrite Done_bind.
  set (ext := vtoc_set_extent _ _ a b).
  match goal with |- context [set_a_f4 ?f4 ?a] => set (anc1 := set_a_f4 f4 a) end.
  assert (Hsd : same_disk anc anc1) by (split; [done|done|apply update_format4_same]).
  assert (HG1 : gaps geo anc1 (labels_of anc1) F (p_end_trk p + 1) S) by (destruct HG; by split).
  pose proof (same_disk_geometry geo _ _ Hsd Hd) as Hd1.
  destruct (set_freespace_gap geo anc1 F (p_end_trk p + 1) S (p_fspace_trk p) Hd1 HG1 HS)
    as (f4 & f5 & f7 & Hset & Hsame & HG2); [lia|lia|change (last_trk geo anc1) with (last_trk geo anc); lia|].
  rewrite Hset, Done_bind. clear Hset.
  set (f1 := new_f1 now anc ext (p_f1 p)) in *.
  change (a_tab (set_a_f7 f7 _)) with (tupd id (set_p_f1 f1) (a_tab anc)).
  assert (Hget : p_f1 (pget (set_a_f7 f7 (set_a_f5 f5 (set_a_f4 f4 anc1))) id) = f1).
  { unfold pget. cbn [a_tab set_a_f7 set_a_f5 set_a_f4 anc1 pupd set_a_tab set_a_used_partitions].
    by rewrite tget_tupd_eq. }
  rewrite Hget. destruct (write_type_new now anc ext (p_f1 p) (p_type p) (Hty Hu)) as (f1' & Hw & Hext).
  fold f1 in Hw. rewrite Hw, Done_bind. eexists. split; [reflexivity|].
  assert (Hr1 : relabelled any_label (a_tab anc) (tupd id (set_p_f1 f1) (a_tab anc))).
  { by apply (relabelled_tupd (R := any_label)). }
  assert (Hr2 : relabelled any_label (tupd id (set_p_f1 f1) (a_tab anc))
    (tupd id (set_p_f1 f1') (tupd id (set_p_f1 f1) (a_tab anc)))).
  { apply (relabelled_tupd (R := any_label)); [done|]. by rewrite tget_tupd_eq. }
  split; [|split; [|split; [|split; [|split]]]].
  - split; [done|done|]. etrans; [apply (sd_device _ _ Hsd)|exact Hsame].
  - by transitivity (tupd id (set_p_f1 f1) (a_tab anc)).
  - intros j Hj. cbn. by rewrite !tget_tupd_ne.
  - intros _. cbn [a_tab pupd set_a_tab set_a_f7 set_a_f5 set_a_f4 anc1 set_a_used_partitions].
    rewrite !tget_tupd_eq; [|done|simpl; by rewrite length_insert]. cbn. rewrite Hext. done.
  - cbn. apply u32_small. lia.
  - destruct HG2. by split.
Qed.

Lemma recs_other t t' ids : (∀ j, j ∈ ids → tget t' j = tget t j) → recs t' ids = recs t ids.
Proof.
  intros H. unfold recs. apply map_ext_in. intros j Hj. f_equal. apply H. by apply list_elem_of_In.
Qed.

(** The loop over the records. *)
Lemma conf_labels_loop_spec geo now ids fuel anc cur F pos fs S :
  disk_geometry geo anc → chain (a_tab anc) cur ids → NoDup ids →
  Forall (λ j, (j < length (t_parts (a_tab anc)))%nat) ids → (length ids < fuel)%nat → 0 < pos →
  layout (last_trk geo anc) pos fs (recs (a_tab anc) ids) → Forall typed (recs (a_tab anc) ids) →
  gaps geo anc (labels_of anc) F (pos + fs) S → (length S + length ids < 16)%nat →
  0 <= a_used_partitions anc → a_used_partitions anc + Z.of_nat (length ids) < 100 →
  ∃ anc', conf_labels_loop fuel geo now anc cur = Done anc' ∧ same_disk anc anc' ∧
    relabelled any_label (a_tab anc) (a_tab anc') ∧
    (∀ j, j ∉ ids → tget (a_tab anc') j = tget (a_tab anc) j) ∧
    Forall (f1_ok geo) (recs (a_tab anc') ids) ∧
    a_used_partitions anc' = a_used_partitions anc + n_used (recs (a_tab anc) ids) ∧
    fs_repr (a_formatted_cylinders anc) (geo_heads geo) (a_f5 anc') (a_f7 anc')
      (λ t, F t ∨ (pos + fs <= t <= last_trk geo anc ∧ ¬ used_tracks (recs (a_tab anc) ids) t)).
Proof.
  revert fuel anc cur F pos fs S. induction ids as [|id ids IH];
    intros [|fuel] anc cur F pos fs S Hd Hc Hnd Hlt Hfu Hpos Hlay Hty HG HS Hu0 Hu; simpl in Hfu; try lia.
  - simpl in Hc. subst cur. exists anc. split; [done|]. split; [reflexivity|]. split; [reflexivity|].
    split; [done|]. split; [constructor|]. split; [change (n_used (recs (a_tab anc) [])) with 0; lia|].
    eapply fs_repr_ext; [|exact (gaps_repr _ _ _ _ _ _ HG)].
    inversion Hlay; subst. intros t. split; [by left|]. intros [?|[? _]]; [done|lia].
  - destruct Hc as [-> Hc]. apply NoDup_cons in Hnd as [Hid Hnd].
    apply Forall_cons in Hlt as [Hidlt Hlt]. simpl in HS, Hu.
    change (recs (a_tab anc) (id :: ids)) with (core (tget (a_tab anc) id) :: recs (a_tab anc) ids) in *.
    apply Forall_cons in Hty as [Htid Hty]. cbn [conf_labels_loop].
    change (pget anc id) with (tget (a_tab anc) id).
    destruct (decide (p_used (tget (a_tab anc) id) = 1)) as [Hused|Hused].
    + apply layout_used_cons_inv in Hlay as (-> & Hs & He & Hlen & Hlay); [|exact Hused].
      cbn [p_end_trk p_start_trk p_fspace_trk p_len_trk core set_p_next set_p_prev] in Hs, He, Hlen, Hlay.
      pose proof (layout_fs _ _ _ _ Hlay) as Hfs. set (p := tget (a_tab anc) id) in *.
      assert (HG' : gaps geo anc (labels_of anc) F (p_end_trk p + 1) S).
      { destruct HG as [G1 G2 G3]. split; [done| |done]. intros t Ht. specialize (G2 t Ht). simpl in G2. lia. }
      destruct (conf_label_spec geo now anc id F S Hd Hidlt Hused Htid ltac:(fold p; lia) ltac:(fold p; lia)
        ltac:(fold p; lia) HG' ltac:(lia) ltac:(lia)) as (anc1 & Hl1 & Hsd & Hrl & Hoth & Hf1 & Hn & HG1).
      rewrite Hused. cbn [Z.eqb Pos.eqb]. rewrite Hl1, Done_bind.
      change (pget anc1 id) with (tget (a_tab anc1) id).
      assert (Hnx : p_next (tget (a_tab anc1) id) = p_next p) by (destruct (rl_same _ _ Hrl id) as (-> & _); done).
      assert (Hids : ∀ j, j ∈ ids → tget (a_tab anc1) j = tget (a_tab anc) j)
        by (intros j Hj; apply Hoth; congruence).
      pose proof (recs_other _ _ _ Hids) as Hrecs.
      assert (Hlast : last_trk geo anc1 = last_trk geo anc) by (unfold last_trk; by rewrite (sd_formatted _ _ Hsd)).
      destruct (IH fuel anc1 (p_next p) (λ t, F t ∨ p_end_trk p + 1 <= t < p_end_trk p + 1 + p_fspace_trk p)
        (p_end_trk p + 1) (p_fspace_trk p) (p_end_trk p + 1 :: S))
        as (anc' & Hl' & Hsd' & Hrl' & Hoth' & Hf1' & Hn' & Hrepr); rewrite ?Hrecs, ?Hlast; try done; try lia.
      * by eapply same_disk_geometry.
      * by apply (chain_other (a_tab anc)).
      * rewrite (rl_length _ _ Hrl). done.
      * simpl. lia.
      * rewrite Hrecs, Hlast, (sd_formatted _ _ Hsd) in *.
        rewrite Hnx, Hl'. exists anc'. split; [done|]. split; [by transitivity anc1|].
        split; [by transitivity (a_tab anc1)|].
        split; [intros j; rewrite not_elem_of_cons; intros [Hj1 Hj2]; by rewrite Hoth', Hoth|].
        split; [constructor; [by rewrite Hoth'|done]|].
        split; [rewrite Hn', Hn, n_used_cons; unfold is_used; cbn; fold p; rewrite Hused; simpl; lia|].
        eapply fs_repr_ext; [|exact Hrepr]. intros t. cbv beta. rewrite used_tracks_cons. unfold in_part.
        cbn [p_end_trk p_start_trk p_used core set_p_next set_p_prev]. fold p. rewrite Hused.
        pose proof (layout_gap _ _ _ _ t Hlay) as Hgap.
        assert (Hbef : F t → t < p_start_trk p).
        { intros Hx. pose proof (gaps_before _ _ _ _ _ _ HG t Hx) as Hb. cbn in Hb. fold p in Hb. lia. }
        rewrite (gap_union (last_trk geo anc) (F t) _ (p_start_trk p)) by (done || lia).
        rewrite Z.add_sub_assoc, Z.add_simpl_l. tauto.
    + rewrite (proj2 (Z.eqb_neq _ _)) by done. rewrite Done_bind.
      change (pget anc id) with (tget (a_tab anc) id).
      inversion Hlay as [? ? ? Hf'|]; subst; [|done]. apply Forall_cons in Hf' as [_ Hf'].
      destruct (IH fuel anc (p_next (tget (a_tab anc) id)) F pos (last_trk geo anc + 1 - pos) S)
        as (anc' & -> & Hsd & Hrl & Hoth & Hf1 & Hn & Hrepr); try done; try lia; [by apply layout_free|].
      assert (Hcu : p_used (core (tget (a_tab anc) id)) ≠ 1) by done.
      exists anc'. split; [done|]. split; [done|]. split; [done|].
      split; [intros j; rewrite not_elem_of_cons; intros [_ Hj]; by apply Hoth|].
      split; [|split].
      * constructor; [|done]. rewrite Hoth by done. intros Hx. by destruct Hcu.
      * rewrite Hn, n_used_cons. unfold is_used. rewrite (proj2 (Z.eqb_neq _ _)) by done. lia.
      * eapply fs_repr_ext; [|exact Hrepr]. intros t. cbv beta. rewrite used_tracks_cons. tauto.
Qed.

(** The labels that [fdasd_auto_partition_conffile] builds from a checked file. *)
Lemma conffile_labels_volume geo now anc x y z :
  disk_geometry geo anc → linked (a_tab anc) x y z →
  layout (last_trk geo anc) FIRST_USABLE_TRK (a_fspace_trk anc) (plist (a_tab anc) x y z) →
  Forall typed (plist (a_tab anc) x y z) → a_used_partitions anc = 0 →
  ∃ anc', conffile_labels geo now anc = Done anc' ∧ geometry_ok geo anc' ∧ volume geo anc' x y z ∧
    ∀ t, used_tracks (plist (a_tab anc') x y z) t ↔ used_tracks (plist (a_tab anc) x y z) t.
Proof.
  intros Hd Hlk Hlay Hty H0. unfold conffile_labels.
  set (anc0 := init_labels geo anc).
  assert (Hd0 : disk_geometry geo anc0) by (destruct Hd; by split).
  pose proof (layout_fs _ _ _ _ Hlay) as Hfs. pose proof (dg_heads _ _ Hd) as Hh.
  assert (HG : gaps geo anc0 (labels_of anc0) (λ _, False) FIRST_USABLE_TRK [])
    by (split; [apply init_repr; lia|done..]).
  destruct (set_freespace_gap geo anc0 _ FIRST_USABLE_TRK [] (a_fspace_trk anc) Hd0 HG)
    as (f4 & f5 & f7 & Hset & Hsame & HG1);
    [simpl; lia|done|lia|change (last_trk geo anc0) with (last_trk geo anc); lia|].
  change (u64 FIRST_USABLE_TRK) with FIRST_USABLE_TRK in Hset.
  change (a_fspace_trk anc0) with (a_fspace_trk anc). rewrite Hset, Done_bind. clear Hset.
  set (anc1 := set_a_f7 f7 (set_a_f5 f5 (set_a_f4 f4 anc0))) in *.
  assert (Hd1 : disk_geometry geo anc1) by (destruct Hd; by split).
  destruct (linked_chain _ _ _ _ Hlk) as (Hch & Hnd & Hlt).
  destruct (conf_labels_loop_spec geo now [x; y; z] (S USABLE_PARTITIONS) anc1 (Some (a_first anc1)) _
    FIRST_USABLE_TRK (a_fspace_trk anc) _ Hd1 Hch Hnd Hlt ltac:(unfold USABLE_PARTITIONS; simpl; lia)
    ltac:(done) Hlay Hty HG1 ltac:(simpl; lia) ltac:(change (a_used_partitions anc1) with (a_used_partitions anc); lia)
    ltac:(change (a_used_partitions anc1) with (a_used_partitions anc); simpl; lia))
    as (anc' & -> & Hsd & Hrl & _ & Hf1 & Hn & Hrepr).
  rewrite Done_bind. pose proof (relabelled_plist _ _ x y z Hrl) as H2.
  change (a_tab anc1) with (a_tab anc) in *. change (recs (a_tab anc) [x; y; z]) with (plist (a_tab anc) x y z) in *.
  assert (Hlast : last_trk geo anc' = last_trk geo anc).
  { unfold last_trk. by rewrite (sd_formatted _ _ Hsd). }
  eexists. split; [reflexivity|]. split; [|split].
  - eapply geometry_ok_frame; [..|exact (disk_geometry_ok geo anc f4 Hd Hsame)];
      [apply (sd_blksize _ _ Hsd)|apply (sd_formatted _ _ Hsd)|apply (sd_device _ _ Hsd)].
  - split; cbn [a_tab changed_vtoc set_a_vtoc_changed a_used_partitions a_f5 a_f7 a_formatted_cylinders].
    + by eapply relabelled_linked.
    + change (last_trk geo (changed_vtoc anc')) with (last_trk geo anc').
      change (a_fspace_trk (changed_vtoc anc')) with (t_fspace_trk (a_tab anc')).
      rewrite Hlast, (rl_fspace _ _ Hrl). eapply layout_relabel; eassumption.
    + rewrite Hn, (n_used_relabel _ _ H2). change (a_used_partitions anc1) with (a_used_partitions anc). lia.
    + exact Hf1.
    + change (last_trk geo (changed_vtoc anc')) with (last_trk geo anc'). rewrite Hlast, (sd_formatted _ _ Hsd).
      eapply fs_repr_ext; [|exact Hrepr]. intros t. unfold free_tracks.
      rewrite (used_tracks_relabel _ _ t H2). symmetry. by apply whole_gap.
  - intros t. exact (used_tracks_relabel _ _ _ H2).
Qed.

(** ** One partition for the whole disk *)

Lemma cchh2trk_addr geo cyl head :
  0 < geo_heads geo <= 16 → 0 <= cyl < 2 ^ 28 → 0 <= head < 16 → cyl * geo_heads geo + head < 2 ^ 32 →
  cchh2trk (vtoc_set_cchh cyl head) geo = cyl * geo_heads geo + head.
Proof.
  intros Hh Hc Hd Hl. unfold cchh2trk.
  destruct (cchh_cyl_head_roundtrip cyl head Hc Hd) as [-> ->]. apply u32_small. lia.
Qed.

(** the record that [fdasd_auto_partition] fills in *)
Definition auto_part (geo : hd_geometry) (now : tm) (anc : fdasd_anchor) (p : partition_info) : partition_info :=
  set_p_f1 (new_f1 now (init_labels geo anc)
      (vtoc_set_extent 0x01 0x00 (vtoc_set_cchh 0 FIRST_USABLE_TRK)
        (vtoc_set_cchh (a_formatted_cylinders anc - 1) (geo_heads geo - 1))) (p_f1 p))
    (set_p_end_trk (last_trk geo anc) (set_p_start_trk FIRST_USABLE_TRK
      (set_p_len_trk (last_trk geo anc + 1 - FIRST_USABLE_TRK) (set_p_fspace_trk 0 (set_p_used 1 p))))).

Lemma auto_labels_tab geo now anc x y z :
  disk_geometry geo anc → linked (a_tab anc) x y z →
  a_tab (auto_labels geo now anc) = set_t_fspace_trk 0 (tupd x (auto_part geo now anc) (a_tab anc)).
Proof.
  intros Hd Hlk. destruct (usable_cylinders_init geo anc Hd) as [Htrk Hcyl].
  pose proof (dg_last _ _ Hd) as Hlast. pose proof (dg_heads _ _ Hd) as Hh.
  assert (Hc0 : get_usable_cylinders (init_labels geo anc) = a_formatted_cylinders anc) by exact Hcyl.
  assert (Ht0 : DS4DSTRK (DS4DEVCT (a_f4 (init_labels geo anc))) = geo_heads geo) by exact Htrk.
  unfold auto_labels. cbv zeta. rewrite Hc0, Ht0. unfold last_trk, FIRST_USABLE_TRK in Hlast.
  rewrite (Z.mul_comm (geo_heads geo)). rewrite !u32_small, u16_small by nia.
  cbn [a_tab set_a_f4 set_a_f5 set_a_f7 set_a_used_partitions changed_vtoc set_a_vtoc_changed set_a_tab pupd].
  replace (a_first (init_labels geo anc)) with x by (symmetry; apply (lk_first _ _ _ _ Hlk)).
  unfold auto_part, last_trk. rewrite Z.sub_add. rewrite u32_small by (unfold FIRST_USABLE_TRK; lia). done.
Qed.

Lemma auto_labels_plist geo now anc x y z :
  disk_geometry geo anc → linked (a_tab anc) x y z →
  plist (a_tab (auto_labels geo now anc)) x y z =
    [core (auto_part geo now anc (tget (a_tab anc) x)); core (tget (a_tab anc) y); core (tget (a_tab anc) z)].
Proof.
  intros Hd Hlk. pose proof (linked_neq _ _ _ _ Hlk) as (Nxy & Nxz & _).
  pose proof (linked_lt _ _ _ _ Hlk) as (Lx & _). pose proof (lk_length _ _ _ _ Hlk) as H3.
  unfold plist. rewrite (auto_labels_tab geo now anc x y z Hd Hlk).
  change (tget (set_t_fspace_trk 0 ?t)) with (tget t).
  rewrite tget_tupd_eq, !tget_tupd_ne by (done || lia). done.
Qed.

(** [fdasd_auto_partition] on an empty list makes one partition of all usable
    tracks, and the free-space labels are empty. *)
Lemma auto_labels_volume geo now anc x y z :
  disk_geometry geo anc → linked (a_tab anc) x y z → Forall unused (plist (a_tab anc) x y z) →
  let anc' := auto_labels geo now anc in
  geometry_ok geo anc' ∧ volume geo anc' x y z ∧ a_used_partitions anc' = 1 ∧
  ∀ t, used_tracks (plist (a_tab anc') x y z) t ↔ FIRST_USABLE_TRK <= t <= last_trk geo anc.
Proof.
  intros Hd Hlk Hun anc'. pose proof (auto_labels_tab geo now anc x y z Hd Hlk) as Htab.
  pose proof (auto_labels_plist geo now anc x y z Hd Hlk) as Hpl. fold anc' in Htab, Hpl.
  pose proof (dg_last _ _ Hd) as Hlast. pose proof (dg_heads _ _ Hd) as Hh.
  assert (Hg : geometry_ok geo anc').
  { apply (geometry_ok_frame geo (set_a_f4 (init_f4 geo anc) anc)); [done|done|apply update_format4_same|].
    apply disk_geometry_ok; [done|reflexivity]. }
  unfold plist in Hun. apply Forall_cons in Hun as [_ Hun].
  assert (Hut : ∀ t, used_tracks (plist (a_tab anc') x y z) t ↔ FIRST_USABLE_TRK <= t <= last_trk geo anc).
  { intros t. rewrite Hpl, used_tracks_cons. pose proof (unused_used_tracks _ t Hun). unfold in_part. cbn. tauto. }
  split; [done|]. split; [|done]. split.
  - rewrite Htab. assert (Hl1 : linked (tupd x (auto_part geo now anc) (a_tab anc)) x y z) by by apply linked_tupd.
    destruct Hl1. by split.
  - change (last_trk geo anc') with (last_trk geo anc). replace (a_fspace_trk anc') with 0 by (unfold a_fspace_trk; by rewrite Htab).
    rewrite Hpl. apply layout_used_eq; cbn; [done|done|lia|unfold FIRST_USABLE_TRK in *; lia|unfold FIRST_USABLE_TRK in *; lia|].
    apply layout_free_eq; [lia|lia|done].
  - rewrite Hpl, n_used_cons, (unused_n_used _ Hun). done.
  - rewrite Hpl. constructor; [|eapply Forall_impl; [exact Hun|]; intros p [Hp _] Hu; lia].
    intros _. cbn. rewrite new_f1_ext. unfold last_trk, FIRST_USABLE_TRK in *. cbn [ext_llimit ext_ulimit vtoc_set_extent].
    rewrite !cchh2trk_addr; try nia.
  - change (last_trk geo anc') with (last_trk geo anc). eapply fs_repr_ext; [|apply init_repr; lia].
    intros t. unfold free_tracks. rewrite Hut. tauto.
Qed.

End FdasdConfProofs.
