(* ===== verification/FdasdIo.v ===== *)
(** Labels of fdasd on the device (src/fdasd/fdasd.c): the volume label, writing
    the VTOC with its data set names, and reading it back into the partition
    list. *)
From S2P Require Import Prelude Ebcdic Cchh Codec Labels LabelOps VtocIo Freespace FdasdState FdasdTable.
From S2P Require Import FdasdList FdasdInput FdasdPart FdasdVtoc FdasdConf.
Import Ebcdic Addr VtocIo Freespace Fdasd FdasdTable FdasdList FdasdInput FdasdPart FdasdVtoc FdasdConf.

Module FdasdIo.

(** [struct fdasd_options]; the configuration file stands for its content *)
Record fdasd_options := Options {
  op_volser : option (list Z);
  op_conffile : option conf_file
}.

(** ** Volume label *)

Definition fdasd_get_volser (d : device) (anc : fdasd_anchor) : outcome (list Z) :=
  vlabel ← vtoc_read_volume_label d (a_label_pos anc);
  Done (vtoc_volume_label_get_volser vlabel).

Definition fdasd_init_volume_label (d : device) (options : fdasd_options) (st : io) : outcome io :=
  let '(anc, stdin) := st in
  let vlabel := vtoc_volume_label_init (a_vlabel anc) in
  let vlabel := vtoc_volume_label_set_key vlabel (bytes_of_string "VOL1") in
  let vlabel := vtoc_volume_label_set_label vlabel (bytes_of_string "VOL1") in
  '(volser, stdin) ←
    (if negb (a_keep_volser anc =? 0) then
       volser ← fdasd_get_volser d anc; Done (volser, stdin)
     else match op_volser options with
          | Some volser => Done (fdasd_check_volser volser (a_devno anc), stdin)
          | None =>
              if negb (a_auto_partition anc =? 0) || bool_decide (op_conffile options ≠ None)
              then Done (default_volser (a_devno anc), stdin)
              else let '(ptr, stdin) := read_line stdin in
                   Done (fdasd_check_volser ptr (a_devno anc), stdin)
          end);
  let vlabel := vtoc_volume_label_set_volser vlabel volser in
  let vlabel := set_vl_vtoc vlabel vtoc_first in
  Done (changed_vlabel (set_a_vlabel vlabel anc), stdin).

(** ** Data set names *)

(** the memory that a search from the start of a label's name runs over *)
Definition label_memory (f1 : format1_label_t) (name : list Z) : list Z :=
  name ++ drop 44 (cenc cformat1 f1).

(** [memcpy] into the name; storing behind its end is a fault *)
Definition name_store (name : list Z) (off : nat) (text : list Z) : outcome (list Z) :=
  if (44 <? off + length text)%nat then Fault else Done (memcpy_at name off text).

(** the volume serial of the label, decoded *)
Definition dec_volser (vlabel : volume_label_t) : list Z :=
  vtoc_ebcdic_dec_inplace (strncpy (volid vlabel) VOLSER_LENGTH) VOLSER_LENGTH.

(** re-use of an existing data set name with the current volume serial *)
Definition reuse_name (vlabel : volume_label_t) (f1 : format1_label_t) (name : list Z)
    : outcome (list Z) :=
  match strchr (drop 7 (label_memory f1 name)) 46 with
  | None => fdasd_error dsname_corrupted
  | Some c2 =>
      let s2 := strncpy (drop (7 + c2) (label_memory f1 name)) 31 in
      name ← name_store name 7 (strncpy (dec_volser vlabel ++ [32; 0]) (VOLSER_LENGTH + 1));
      c1 ← deref (strchr (label_memory f1 name) 32);
      name_store name c1 s2
  end.

(** [sprintf(dsno, "%04d.", k + 1)] for a number below 10000 *)
Definition dec04 (n : Z) : list Z :=
  [48 + n / 1000 mod 10; 48 + n / 100 mod 10; 48 + n / 10 mod 10; 48 + n mod 10; 46].

(** a new data set name *)
Definition new_name (vlabel : volume_label_t) (f1 : format1_label_t) (k type : Z) : outcome (list Z) :=
  let name := bytes_of_string "LINUX.V                                     " in
  name ← name_store name 7 (dec_volser vlabel);
  c1 ← deref (strchr (label_memory f1 name) 32);
  name ← name_store name c1 (bytes_of_string ".PART");
  name ← name_store name (c1 + 5) (dec04 (k + 1));
  match get_part_dsname_by_type type with
  | DsName s => name_store name (c1 + 10) (bytes_of_string s)
  | _ => Fault
  end.

(** [while (getpos(anc, k) > -1) k++]: a position behind the array is a fault *)
Fixpoint free_dsn (l : list Z) (k : nat) : outcome nat :=
  match l with
  | [] => Fault
  | p :: l => if -1 <? p then free_dsn l (S k) else Done k
  end.

(** ** Writing the VTOC *)

(** state of the loop over the partitions: the device, the anchor, the byte
    position, the partition counter and the next data set number *)
Record write_state := WriteState {
  ws_dev : device;
  ws_anc : fdasd_anchor;
  ws_blk : Z;
  ws_i : Z;
  ws_k : nat
}.

(** name and number of the partition in record [id] *)
Definition name_part (id : nat) (i : Z) (k : nat) (anc : fdasd_anchor) : outcome (fdasd_anchor * nat) :=
  let f1 := p_f1 (pget anc id) in
  let f1 := set_DS1DSSN f1 (strncpy (volid (a_vlabel anc)) VOLSER_LENGTH) in
  let f1 := name_dec f1 in
  let name := DS1DSNAM f1 in
  if -1 <? getdsn anc (i - 1) then
    name ← reuse_name (a_vlabel anc) f1 name;
    Done (pupd id (set_p_f1 (name_enc (set_DS1DSNAM f1 name))) anc, k)
  else
    let type := match get_part_type_by_dsname (Some (label_memory f1 name)) with
                | Some t => t
                | None => PARTITION_NATIVE
                end in
    k ← free_dsn (drop k (a_partno anc)) k;
    let anc := setpos anc k (i - 1) in
    name ← new_name (a_vlabel anc) f1 (Z.of_nat k) type;
    Done (pupd id (λ p, set_p_type type (set_p_f1 (name_enc (set_DS1DSNAM f1 name)) p)) anc, k).

(** the label of record [id], with its format 9 label if it is a format 8 one *)
Definition write_part (geo : hd_geometry) (id : nat) (ws : write_state) : outcome write_state :=
  let i := ws_i ws + 1 in
  '(anc, k) ← name_part id i (ws_k ws) (ws_anc ws);
  let blk := ws_blk ws in
  let next := u64 (blk + a_blksize anc) in
  if DS1FMTID (p_f1 (pget anc id)) =? 0xf8 then
    sec ← udiv blk (a_blksize anc);
    if geo_sectors geo =? 0 then Fault else
    let f9addr := vtoc_set_cchhb VTOC_START_CC VTOC_START_HH (u8 (sec mod geo_sectors geo + 2)) in
    let anc := pupd id (λ p, set_p_f1 (vtoc_update_format8_label f9addr (p_f1 p)) p) anc in
    d ← vtoc_write_label (ws_dev ws) blk (Some (p_f1 (pget anc id))) None None None None;
    d ← vtoc_write_label d next None None None None (Some (a_f9 anc));
    Done (WriteState d anc (u64 (next + a_blksize anc)) i k)
  else
    d ← vtoc_write_label (ws_dev ws) blk (Some (p_f1 (pget anc id))) None None None None;
    Done (WriteState d anc next i k).

Fixpoint write_parts (fuel : nat) (geo : hd_geometry) (part_info : option nat) (ws : write_state)
    : outcome write_state :=
  match fuel with
  | O => OutOfFuel
  | S fuel =>
      match part_info with
      | None => Done ws
      | Some id =>
          let next := p_next (pget (ws_anc ws) id) in
          if negb (p_used (pget (ws_anc ws) id) =? 1) then write_parts fuel geo next ws
          else ws ← write_part geo id ws; write_parts fuel geo next ws
      end
  end.

(** [while (blk < maxblk)]: empty labels for the rest of the blocks *)
Fixpoint write_empty (fuel : nat) (d : device) (blksize blk maxblk : Z) : outcome device :=
  match fuel with
  | O => OutOfFuel
  | S fuel =>
      if blk <? maxblk then
        d ← vtoc_write_label d blk (Some zero_format1) None None None None;
        write_empty fuel d blksize (u64 (blk + blksize)) maxblk
      else Done d
  end.

(** blocks of the largest VTOC: one format 4, 5 and 7, three format 8 and 9 *)
Definition VTOC_BLOCKS : Z := 9.

Definition vtoc_blk (geo : hd_geometry) (anc : fdasd_anchor) : Z :=
  u64 ((cchhb2blk (vl_vtoc (a_vlabel anc)) geo - 1) * a_blksize anc).

Definition fdasd_write_vtoc_labels (geo : hd_geometry) (d : device) (anc : fdasd_anchor)
    : outcome (device * fdasd_anchor) :=
  let blk := vtoc_blk geo anc in
  if (cchhb2blk (vl_vtoc (a_vlabel anc)) geo =? 0) || (blk =? 0) then fdasd_error vlabel_corrupted
  else
    let maxblk := u64 (blk + u32 (a_blksize anc * VTOC_BLOCKS)) in
    d ← vtoc_write_label d blk None (Some (a_f4 anc)) None None None;
    let blk := u64 (blk + a_blksize anc) in
    d ← vtoc_write_label d blk None None (Some (a_f5 anc)) None None;
    let blk := u64 (blk + a_blksize anc) in
    '(d, blk) ← (if negb (a_big_disk anc =? 0) then
                   d ← vtoc_write_label d blk None None None (Some (a_f7 anc)) None;
                   Done (d, u64 (blk + a_blksize anc))
                 else Done (d, blk));
    ws ← write_parts (S USABLE_PARTITIONS) geo (Some (a_first anc)) (WriteState d anc blk 0 0);
    d ← write_empty (S (Z.to_nat VTOC_BLOCKS)) (ws_dev ws) (a_blksize anc) (ws_blk ws) maxblk;
    Done (d, ws_anc ws).

(** [reread] is the result of the BLKRRPART ioctl *)
Definition fdasd_write_labels (geo : hd_geometry) (reread : Z) (d : device) (anc : fdasd_anchor)
    : outcome (device * fdasd_anchor) :=
  d ← (if negb (a_vlabel_changed anc =? 0)
       then vtoc_write_volume_label d (a_label_pos anc) (a_vlabel anc) else Done d);
  '(d, anc) ← (if negb (a_vtoc_changed anc =? 0)
               then fdasd_write_vtoc_labels geo d anc else Done (d, anc));
  if (negb (a_vtoc_changed anc =? 0) || negb (a_vlabel_changed anc =? 0)) && negb (reread =? 0)
  then fdasd_error unable_to_ioctl
  else Done (d, anc).

End FdasdIo.
