(* ===== verification/FdasdRead.v ===== *)
(** Reading a volume into fdasd (src/fdasd/fdasd.c): the partition list from the
    labels of an existing VTOC, a new VTOC where there is none, and the checks of
    the volume label. *)
From S2P Require Import Prelude Ebcdic Cchh Codec Labels LabelOps VtocIo Freespace FdasdState FdasdTable.
From S2P Require Import FdasdList FdasdInput FdasdPart FdasdVtoc FdasdConf FdasdIo.
Import Ebcdic Addr VtocIo Freespace Fdasd FdasdTable FdasdList FdasdInput FdasdPart FdasdVtoc FdasdConf
  FdasdIo.

Module FdasdRead.

(** ** From the labels to the partition list *)

(** [for (i = 1; i <= USABLE_PARTITIONS; i++)] of [fdasd_update_partition_info],
    [n] records to go; [prev] is the previous record *)
Fixpoint update_loop (n : nat) (geo : hd_geometry) (max : Z) (anc : fdasd_anchor)
    (prev : option nat) (part_info : option nat) : outcome fdasd_anchor :=
  match n with
  | O => Done anc
  | S n =>
      id ← deref part_info;
      let f1 := p_f1 (pget anc id) in
      if negb (DS1FMTID f1 =? 0xf1) && negb (DS1FMTID f1 =? 0xf8) then
        match prev with
        | None => Done (set_a_tab (set_t_fspace_trk (u64 (max - FIRST_USABLE_TRK + 1)) (a_tab anc)) anc)
        | Some q => Done (pupd q (λ p, set_p_fspace_trk (u64 (max - p_end_trk p)) p) anc)
        end
      else
        let start := cchh2trk (ext_llimit (DS1EXT1 f1)) geo in
        let stop := cchh2trk (ext_ulimit (DS1EXT1 f1)) geo in
        let anc := pupd id (λ p, set_p_len_trk (u64 (stop - start + 1))
                     (set_p_end_trk stop (set_p_start_trk start (set_p_used 1 p)))) anc in
        let anc :=
          match prev with
          | None => set_a_tab (set_t_fspace_trk (u64 (start - FIRST_USABLE_TRK)) (a_tab anc)) anc
          | Some q =>
              let anc := if (n =? 0)%nat then pupd id (set_p_fspace_trk (u64 (max - stop))) anc else anc in
              pupd q (λ p, set_p_fspace_trk (u64 (start - p_end_trk p - 1)) p) anc
          end in
        update_loop n geo max anc (Some id) (p_next (pget anc id))
  end.

Definition fdasd_update_partition_info (geo : hd_geometry) (anc : fdasd_anchor) : outcome fdasd_anchor :=
  let max := disk_tracks_minus anc geo 1 in
  let anc := set_a_used_partitions (u32 (geo_sectors geo - 2 - DS4DSREC (a_f4 anc))) anc in
  update_loop USABLE_PARTITIONS geo max anc None (Some (a_first anc)).

(** ** An existing VTOC *)

(** the partition number in a decoded data set name, counted from 0; -1 without one *)
Definition name_part_no (f1 : format1_label_t) : Z :=
  match strstr (cenc cformat1 f1) (bytes_of_string "PART") with
  | None => -1
  | Some k => s32 (atoi (strncpy (drop (k + 4) (cenc cformat1 f1)) 4 ++ [0]) - 1)
  end.

(** what the loop over the labels carries: the next record and three counters *)
Record scan_state := ScanState {
  sc_anc : fdasd_anchor;
  sc_part : option nat;
  sc_f1 : Z;
  sc_f5 : Z;
  sc_f7 : Z
}.

Definition scan_label (label : format1_label_t) (sc : scan_state) : scan_state :=
  let anc := sc_anc sc in
  if (DS1FMTID label =? 0xf1) || (DS1FMTID label =? 0xf8) then
    match sc_part sc with
    | None => sc
    | Some id =>
        let f1 := name_dec label in
        let part_no := name_part_no f1 in
        let anc := pupd id (set_p_f1 (name_enc f1)) anc in
        let anc := if (part_no <? 0) || (Z.of_nat USABLE_PARTITIONS <=? part_no) then anc
                   else setpos anc (Z.to_nat part_no) (sc_f1 sc) in
        ScanState anc (p_next (pget anc id)) (sc_f1 sc + 1) (sc_f5 sc) (sc_f7 sc)
    end
  else if DS1FMTID label =? 0xf5 then
    ScanState (set_a_f5 (cdec cformat5 (cenc cformat1 label)) anc)
      (sc_part sc) (sc_f1 sc) (sc_f5 sc + 1) (sc_f7 sc)
  else if DS1FMTID label =? 0xf7 then
    ScanState (if sc_f7 sc =? 0 then set_a_f7 (cdec cformat7 (cenc cformat1 label)) anc else anc)
      (sc_part sc) (sc_f1 sc) (sc_f5 sc) (sc_f7 sc + 1)
  else sc.

(** [for (i = 1; i < geo.sectors; i++)], [n] labels to go *)
Fixpoint scan_labels (n : nat) (d : device) (blk : Z) (sc : scan_state) : outcome scan_state :=
  match n with
  | O => Done sc
  | S n =>
      '(l1, _, _, _) ← vtoc_read_label d blk true false false false;
      label ← deref l1;
      let sc := scan_label label sc in
      scan_labels n d (u64 (blk + a_blksize (sc_anc sc))) sc
  end.

(** the number of formatted cylinders that a format 4 label records *)
Definition f4_cylinders (f4 : format4_label_t) : Z :=
  let dscyl := DS4DSCYL (DS4DEVCT f4) in
  if (dscyl =? LV_COMPAT_CYL) && (dscyl <? DS4DCYL f4) then DS4DCYL f4 else dscyl.

Definition fdasd_process_valid_vtoc (geo : hd_geometry) (d : device) (anc : fdasd_anchor) (blk : Z)
    : outcome fdasd_anchor :=
  let anc := set_a_formatted_cylinders (f4_cylinders (a_f4 anc)) anc in
  let anc := set_a_tab (set_t_fspace_trk (disk_tracks_minus anc geo FIRST_USABLE_TRK) (a_tab anc)) anc in
  sc ← scan_labels (Z.to_nat (geo_sectors geo - 1)) d (u64 (blk + a_blksize anc))
         (ScanState anc (Some (a_first anc)) 0 0 0);
  let anc := sc_anc sc in
  let anc := if (sc_f5 sc =? 0) || negb (a_big_disk anc =? 0)
             then set_a_f5 vtoc_init_format5_label anc else anc in
  let anc := if sc_f7 sc =? 0 then set_a_f7 vtoc_init_format7_label anc else anc in
  anc ← on_table fdasd_reorganize_FMT1s anc;
  fdasd_update_partition_info geo anc.

(** ** No valid VTOC *)

(** the answer 1 ("no") leaves the program with [fdasd_exit(anc, 0)]; any other
    answer continues *)
Definition ask_formatted (anc : fdasd_anchor) (stdin : list Z) : outcome (list Z) :=
  if LV_COMPAT_CYL <? a_hw_cylinders anc then
    '(rc, stdin) ← yes_no stdin;
    if rc =? 1 then Exited 0 else Done stdin
  else Done stdin.

(** number of cylinders, free tracks and new labels for the whole disk *)
Definition new_vtoc (geo : hd_geometry) (anc : fdasd_anchor) : outcome fdasd_anchor :=
  let anc := set_a_formatted_cylinders (a_hw_cylinders anc) anc in
  let anc := set_a_tab (set_t_fspace_trk (disk_tracks_minus anc geo FIRST_USABLE_TRK) (a_tab anc)) anc in
  free_whole_disk geo (init_labels geo anc).

Definition fdasd_process_invalid_vtoc (geo : hd_geometry) (st : io) : outcome io :=
  let '(anc, stdin) := st in
  stdin ← ask_formatted anc stdin;
  anc ← new_vtoc geo anc;
  Done (changed_vtoc anc, stdin).

(** the return value -1 of a corrupted VTOC is [false] *)
Definition fdasd_valid_vtoc_pointer (geo : hd_geometry) (d : device) (st : io) (blk : Z)
    : outcome (bool * io) :=
  let '(anc, stdin) := st in
  '(_, l4, _, _) ← vtoc_read_label d blk false true false false;
  f4 ← deref l4;
  let anc := set_a_f4 f4 anc in
  if negb (DS4IDFMT f4 =? 0xf4) then
    if negb (a_print_table anc =? 0) then Done (false, (anc, stdin))
    else st ← fdasd_process_invalid_vtoc geo (anc, stdin); Done (true, st)
  else anc ← fdasd_process_valid_vtoc geo d anc blk; Done (true, (anc, stdin)).

Definition fdasd_invalid_vtoc_pointer (geo : hd_geometry) (st : io) : outcome io :=
  let '(anc, stdin) := st in
  '(rc, stdin) ← yes_no stdin;
  if rc =? 1 then Exited 0
  else
    stdin ← ask_formatted anc stdin;
    anc ← new_vtoc geo anc;
    let anc := set_a_vlabel (set_vl_vtoc (a_vlabel anc) vtoc_first) anc in
    Done (changed_vlabel (changed_vtoc anc), stdin).

(** ** The volume label *)

Definition batch (anc : fdasd_anchor) (options : fdasd_options) : bool :=
  negb (a_auto_partition anc =? 0) || bool_decide (op_conffile options ≠ None).

(** a volume without a VOL1 label *)
Definition no_vol1 (geo : hd_geometry) (d : device) (options : fdasd_options) (st : io)
    : outcome (bool * io) :=
  let '(anc, stdin) := st in
  if negb (a_print_table anc =? 0) || negb (a_print_volser anc =? 0) then Done (false, st)
  else
    '(rc, stdin) ←
      (if bool_decide (vollbl (a_vlabel anc) = enc_str "LNX1") then Done (1, stdin)
       else if batch anc options then Done (0, stdin)
       else yes_no stdin);
    if rc =? 1 then Exited (-1)
    else
      stdin ← (if batch anc options then Done stdin else ask_formatted anc stdin);
      let anc := set_a_formatted_cylinders (a_hw_cylinders anc) anc in
      let anc := set_a_tab (set_t_fspace_trk (disk_tracks_minus anc geo FIRST_USABLE_TRK) (a_tab anc)) anc in
      '(anc, stdin) ← fdasd_init_volume_label d options (anc, stdin);
      anc ← free_whole_disk geo (init_labels geo anc);
      Done (true, (changed_vtoc anc, stdin)).

Definition fdasd_check_volume (geo : hd_geometry) (d : device) (options : fdasd_options) (st : io)
    : outcome (bool * io) :=
  let '(anc, stdin) := st in
  vlabel ← vtoc_read_volume_label d (a_label_pos anc);
  let anc := set_a_vlabel vlabel anc in
  if bool_decide (vollbl vlabel = enc_str "VOL1") then
    let blk := vtoc_blk geo anc in
    if (0 <? cchhb2blk (vl_vtoc vlabel) geo) && (0 <? blk) && (blk <? 9223372036854775808) then
      '(ok, st) ← fdasd_valid_vtoc_pointer geo d (anc, stdin) blk;
      Done (negb (negb (a_print_table anc =? 0) && negb ok), st)
    else if negb (a_print_table anc =? 0) then Done (false, (anc, stdin))
    else st ← fdasd_invalid_vtoc_pointer geo (anc, stdin); Done (true, st)
  else no_vol1 geo d options (anc, stdin).

End FdasdRead.
