(* ===== verification/FdasdReadProofs.v ===== *)
(** Reading a VTOC (src/fdasd/fdasd.c): the partition list that
    [fdasd_update_partition_info] builds from sorted labels is a layout of the
    volume, and a volume without a VTOC becomes an empty one. *)
From S2P Require Import Prelude Ebcdic Cchh Codec Labels LabelOps VtocIo Extents Freespace FdasdState.
From S2P Require Import FdasdTable FdasdLayout FdasdList FdasdInput FdasdPart FdasdVolume FdasdVtoc FdasdVtocProofs.
From S2P Require Import FdasdConf FdasdConfProofs FdasdIo FdasdRead.
Import Ebcdic Addr VtocIo Extents Freespace Fdasd FdasdTable FdasdLayout FdasdList FdasdInput FdasdPart
  FdasdVolume FdasdVtoc FdasdVtocProofs FdasdConf FdasdConfProofs FdasdIo FdasdRead.

Module FdasdReadProofs.

(** ** The partition list from the labels *)

(** a format 1 or format 8 label, and the tracks it describes *)
Definition is_f1_f8 (f : format1_label_t) : bool := (DS1FMTID f =? 0xf1) || (DS1FMTID f =? 0xf8).
Definition f1_start (geo : hd_geometry) (f : format1_label_t) : Z := cchh2trk (ext_llimit (DS1EXT1 f)) geo.
Definition f1_stop (geo : hd_geometry) (f : format1_label_t) : Z := cchh2trk (ext_ulimit (DS1EXT1 f)) geo.

(** The labels of a list of records: partitions in ascending order that do not
    overlap, then blank records. *)
Inductive labelled (geo : hd_geometry) (limit : Z) : Z → list partition_info → Prop :=
  | labelled_blank pos l : pos <= limit + 1 → Forall unused l → labelled geo limit pos l
  | labelled_part pos p l :
      is_f1_f8 (p_f1 p) = true → pos <= f1_start geo (p_f1 p) →
      f1_start geo (p_f1 p) <= f1_stop geo (p_f1 p) <= limit →
      labelled geo limit (f1_stop geo (p_f1 p) + 1) l →
      labelled geo limit pos (p :: l).

(** the record that [fdasd_update_partition_info] fills in *)
Definition filled (geo : hd_geometry) (fs : Z) (p : partition_info) : partition_info :=
  let start := f1_start geo (p_f1 p) in
  let stop := f1_stop geo (p_f1 p) in
  set_p_fspace_trk fs (set_p_len_trk (stop - start + 1)
    (set_p_end_trk stop (set_p_start_trk start (set_p_used 1 p)))).

(** reference: the free space before the list and the records *)
Fixpoint fill (geo : hd_geometry) (limit pos : Z) (l : list partition_info) : Z * list partition_info :=
  match l with
  | [] => (limit + 1 - pos, [])
  | p :: r =>
      if is_f1_f8 (p_f1 p) then
        let '(fs, r) := fill geo limit (f1_stop geo (p_f1 p) + 1) r in
        (f1_start geo (p_f1 p) - pos, filled geo fs p :: r)
      else (limit + 1 - pos, l)
  end.

Lemma unused_not_f1 p : unused p → is_f1_f8 (p_f1 p) = false.
Proof. intros (_ & _ & _ & _ & _ & ->). by vm_compute. Qed.

Lemma fill_layout geo limit pos l :
  labelled geo limit pos l →
  layout limit pos (fill geo limit pos l).1 (fill geo limit pos l).2.
Proof.
  induction 1 as [pos l Hpos Hf|pos p l Hi Hp Hs _ IH].
  - destruct l as [|p l]; [by apply layout_free|]. simpl.
    rewrite unused_not_f1 by (by apply Forall_cons in Hf as [? _]). by apply layout_free.
  - simpl. rewrite Hi. destruct (fill _ _ _ l) as [fs r]. apply (layout_used limit pos (filled geo fs p)); done.
Qed.

Lemma fill_f1_ok geo limit pos l :
  labelled geo limit pos l → Forall (f1_ok geo) (fill geo limit pos l).2.
Proof.
  induction 1 as [pos l Hpos Hf|pos p l Hi Hp Hs _ IH].
  - assert (H : Forall (f1_ok geo) l).
    { eapply Forall_impl; [exact Hf|]. intros p [Hu _] H. lia. }
    destruct l as [|p l]; [done|]. simpl.
    by rewrite unused_not_f1 by (by apply Forall_cons in Hf as [? _]).
  - simpl. rewrite Hi. destruct (fill _ _ _ l) as [fs r]. by constructor.
Qed.

#[local] Opaque u64 cchh2trk.

(** the free-space counter before the next record: the anchor's or the one of
    the previous record *)
Definition set_before (prev : option nat) (fs : Z) (t : ptable) : ptable :=
  match prev with
  | None => set_t_fspace_trk fs t
  | Some q => tupd q (set_p_fspace_trk fs) t
  end.

Definition get_before (prev : option nat) (t : ptable) : Z :=
  match prev with
  | None => t_fspace_trk t
  | Some q => p_fspace_trk (tget t q)
  end.

Lemma set_before_other prev fs t j : prev ≠ Some j → tget (set_before prev fs t) j = tget t j.
Proof. destruct prev as [q|]; [|done]. intros H. apply tget_tupd_ne. congruence. Qed.

Lemma set_before_linked prev fs t x y z : linked t x y z → linked (set_before prev fs t) x y z.
Proof. destruct prev as [q|]; [by intros H; apply linked_tupd|]. intros []. by split. Qed.

Lemma length_tupd id g t : length (t_parts (tupd id g t)) = length (t_parts t).
Proof. simpl. apply length_insert. Qed.

Lemma length_set_before prev fs t : length (t_parts (set_before prev fs t)) = length (t_parts t).
Proof. destruct prev; [apply length_tupd|done]. Qed.

Lemma tupd_tupd id g h t :
  (id < length (t_parts t))%nat → tupd id g (tupd id h t) = tupd id (λ p, g (h p)) t.
Proof.
  intros Hl. unfold tupd at 1. rewrite tget_tupd_eq by done. unfold tupd, set_t_parts. simpl.
  by rewrite list_insert_insert_eq.
Qed.

Lemma tupd_ext id g h t : g (tget t id) = h (tget t id) → tupd id g t = tupd id h t.
Proof. intros E. unfold tupd. by rewrite E. Qed.

Lemma set_a_tab_twice t u anc : set_a_tab t (set_a_tab u anc) = set_a_tab t anc.
Proof. done. Qed.

(** One record with a label: its numbers, and the free tracks before it. *)
Lemma update_step geo limit anc n prev id pos :
  (id < length (t_parts (a_tab anc)))%nat → prev ≠ Some id →
  is_f1_f8 (p_f1 (pget anc id)) = true → FIRST_USABLE_TRK <= pos → 0 <= limit < 2 ^ 28 →
  match prev with None => pos = FIRST_USABLE_TRK ∧ n ≠ 0%nat | Some q => p_end_trk (pget anc q) + 1 = pos end →
  pos <= f1_start geo (p_f1 (pget anc id)) → f1_start geo (p_f1 (pget anc id)) <= f1_stop geo (p_f1 (pget anc id)) <= limit →
  let f := p_f1 (pget anc id) in
  let fs := if (n =? 0)%nat then limit - f1_stop geo f else p_fspace_trk (pget anc id) in
  update_loop (S n) geo limit anc prev (Some id) =
  update_loop n geo limit
    (set_a_tab (set_before prev (f1_start geo f - pos) (tupd id (filled geo fs) (a_tab anc))) anc)
    (Some id) (p_next (pget anc id)).
Proof.
  intros Hl Hne Hf Hpos Hlim Hprev Hs He f fs. unfold FIRST_USABLE_TRK in *. cbn [update_loop].
  change (deref (Some id)) with (Done id). rewrite Done_bind. fold f in Hf, Hs, He |- *.
  fold (f1_start geo f) (f1_stop geo f).
  unfold is_f1_f8 in Hf. rewrite <- negb_orb, Hf. cbn [negb].
  set (g := λ p, set_p_len_trk _ _).
  assert (Eg : ∀ p, p_f1 p = f → p_fspace_trk p = p_fspace_trk (pget anc id) →
    g p = filled geo (p_fspace_trk (pget anc id)) p).
  { intros p E1 E2. unfold g, filled. rewrite E1, <- E2, u64_small by lia. by destruct p. }
  match goal with |- update_loop n _ _ ?a _ (p_next (pget ?b id)) = update_loop n _ _ ?a' _ _ =>
    assert (E : a = a'); [|rewrite E; f_equal; unfold pget; cbn [a_tab set_a_tab];
      rewrite set_before_other by done; by rewrite tget_tupd_eq] end.
  assert (Hout : ∀ t, tget t id = tget (a_tab anc) id → tupd id g t = tupd id (filled geo (p_fspace_trk (pget anc id))) t).
  { intros t Ht. apply tupd_ext, Eg; by rewrite Ht. }
  destruct prev as [q|].
  - cbn [set_before]. unfold pupd, pget in *. cbn [a_tab set_a_tab].
    assert (Hback : ∀ h, p_end_trk (tget (tupd id h (a_tab anc)) q) + 1 = pos)
      by (intros; rewrite tget_tupd_ne by congruence; done).
    unfold fs. destruct (n =? 0)%nat eqn:En; cbn [a_tab set_a_tab].
    + rewrite tupd_tupd by done.
      rewrite (tupd_ext id (λ p, set_p_fspace_trk (u64 (limit - f1_stop geo f)) (g p))
        (filled geo (limit - f1_stop geo f))).
      2: { rewrite Eg by done. unfold filled. rewrite u64_small by lia. done. }
      rewrite !set_a_tab_twice. f_equal.
      apply tupd_ext. specialize (Hback (filled geo (limit - f1_stop geo f))). rewrite u64_small by lia.
      f_equal. lia.
    + rewrite Hout by done. rewrite !set_a_tab_twice. f_equal.
      apply tupd_ext. specialize (Hback (filled geo (p_fspace_trk (tget (a_tab anc) id)))). rewrite u64_small by lia.
      f_equal. lia.
  - destruct Hprev as [-> Hn]. unfold fs. rewrite (proj2 (Nat.eqb_neq _ _)) by done.
    unfold pupd. cbn [a_tab set_a_tab set_before]. rewrite Hout by done.
    unfold FIRST_USABLE_TRK. by rewrite u64_small by lia.
Qed.

Lemma fill_blank geo limit pos l :
  Forall unused l → fill geo limit pos l = (limit + 1 - pos, l).
Proof. intros Hf. destruct l as [|p l]; [done|]. simpl. by rewrite unused_not_f1 by (by apply Forall_cons in Hf as [? _]). Qed.

(** What the loop from a record on promises. *)
Definition loop_filled (geo : hd_geometry) (limit : Z) (n : nat) (anc : fdasd_anchor)
    (prev cur : option nat) (ids : list nat) (pos : Z) : Prop :=
  ∃ t, update_loop n geo limit anc prev cur = Done (set_a_tab t anc) ∧
    (∀ x y z, linked (a_tab anc) x y z → linked t x y z) ∧ t_partno t = a_partno anc ∧
    (prev ≠ None → t_fspace_trk t = a_fspace_trk anc) ∧
    (∀ j, j ∉ ids → prev ≠ Some j → tget t j = tget (a_tab anc) j) ∧
    (∀ q, prev = Some q → tget t q = set_p_fspace_trk (get_before prev t) (pget anc q)) ∧
    (get_before prev t, recs t ids) = fill geo limit pos (recs (a_tab anc) ids).

(** The first record without a label ends the loop. *)
Lemma update_blank geo limit ids id n anc prev pos :
  0 <= limit < 2 ^ 28 → Forall (λ j, prev ≠ Some j) (id :: ids) → FIRST_USABLE_TRK <= pos <= limit + 1 →
  match prev with
  | None => pos = FIRST_USABLE_TRK
  | Some q => (q < length (t_parts (a_tab anc)))%nat ∧ p_end_trk (pget anc q) + 1 = pos
  end →
  Forall unused (recs (a_tab anc) (id :: ids)) →
  loop_filled geo limit (S n) anc prev (Some id) (id :: ids) pos.
Proof.
  intros Hlim Hids Hpos Hprev Hf.
  exists (set_before prev (limit + 1 - pos) (a_tab anc)).
  assert (Hsame : ∀ j, j ∈ id :: ids → tget (set_before prev (limit + 1 - pos) (a_tab anc)) j = tget (a_tab anc) j).
  { intros j Hj. apply set_before_other. rewrite Forall_forall in Hids. by apply Hids. }
  split; [|split; [by intros; apply set_before_linked|split; [by destruct prev|split; [by destruct prev|split;
    [by intros j _ Hj; apply set_before_other|split]]]]].
  - cbn [update_loop]. change (deref (Some id)) with (Done id). rewrite Done_bind.
    simpl in Hf. apply Forall_cons in Hf as [Hu _]. apply unused_not_f1 in Hu. simpl in Hu. unfold is_f1_f8 in Hu.
    unfold pget. rewrite <- negb_orb, Hu. cbn [negb]. unfold FIRST_USABLE_TRK in *.
    destruct prev as [q|]; simpl.
    + destruct Hprev as (Hq & He). unfold pupd. do 2 f_equal. apply tupd_ext. f_equal.
      unfold pget in He. rewrite u64_small by lia. lia.
    + subst pos. do 3 f_equal. rewrite u64_small by lia. lia.
  - intros q ->. destruct Hprev as (Hq & _). simpl. by rewrite tget_tupd_eq.
  - rewrite fill_blank by done. f_equal; [|by apply recs_other].
    destruct prev as [q|]; [|done]. destruct Hprev as (Hq & _). simpl. by rewrite tget_tupd_eq.
Qed.

(** The loop over the records computes [fill]. *)
Lemma update_loop_fill geo limit ids n anc prev cur pos :
  0 <= limit < 2 ^ 28 → chain (a_tab anc) cur ids → NoDup ids →
  Forall (λ j, (j < length (t_parts (a_tab anc)))%nat ∧ prev ≠ Some j) ids → length ids = n →
  FIRST_USABLE_TRK <= pos →
  match prev with
  | None => pos = FIRST_USABLE_TRK ∧ (2 <= n)%nat
  | Some q => (q < length (t_parts (a_tab anc)))%nat ∧ p_end_trk (pget anc q) + 1 = pos ∧
              (n = 0%nat → p_fspace_trk (pget anc q) = limit + 1 - pos)
  end →
  labelled geo limit pos (recs (a_tab anc) ids) →
  loop_filled geo limit n anc prev cur ids pos.
Proof.
  intros Hlim. revert n anc prev cur pos.
  induction ids as [|id ids IH]; intros n anc prev cur pos Hc Hnd Hids Hn Hpos Hprev Hlab.
  - simpl in Hn. subst n. destruct prev as [q|]; [|lia]. exists (a_tab anc). destruct Hprev as (Hq & He & Hfs).
    split; [by destruct anc|]. repeat (split; [done|]). split.
    + intros q' [= <-]. simpl. unfold pget. by destruct (tget (a_tab anc) q).
    + simpl. unfold pget in Hfs. by rewrite Hfs.
  - destruct n as [|n]; [done|]. injection Hn as Hn. destruct Hc as [-> Hc].
    apply NoDup_cons in Hnd as [Hid Hnd]. apply Forall_cons in Hids as [[Hl Hne] Hids].
    inversion Hlab as [? ? Hle Hf|? ? ? Hi Hp Hs Hlab']; subst.
    + apply update_blank; try done.
      * constructor; [done|]. eapply Forall_impl; [exact Hids|]. by intros j [_ ?].
      * destruct prev; naive_solver.
    + unfold loop_filled. rewrite (update_step geo limit anc (length ids) prev id pos); try done.
      2: { destruct prev; [by apply Hprev|]. destruct Hprev. split; [done|lia]. }
      set (fs := if (length ids =? 0)%nat then _ else _).
      set (t1 := set_before prev _ _).
      assert (Hlen1 : length (t_parts t1) = length (t_parts (a_tab anc)))
        by (unfold t1; by rewrite length_set_before, length_tupd).
      assert (Hid1 : tget t1 id = filled geo fs (tget (a_tab anc) id))
        by (unfold t1; by rewrite set_before_other, tget_tupd_eq).
      assert (Hoth1 : ∀ j, j ≠ id → prev ≠ Some j → tget t1 j = tget (a_tab anc) j)
        by (intros j ? ?; unfold t1; by rewrite set_before_other, tget_tupd_ne).
      assert (Hin : ∀ j, j ∈ ids → tget t1 j = tget (a_tab anc) j).
      { intros j Hj. rewrite Forall_forall in Hids. apply Hoth1; [by intros ->|by apply Hids]. }
      destruct (IH (length ids) (set_a_tab t1 anc) (Some id) (p_next (pget anc id)) (f1_stop geo (p_f1 (pget anc id)) + 1))
        as (t & Hupd & Hlk & Hpn & Hfs & Hoth & Hlast & Hfill).
      * by apply (chain_other (a_tab anc)).
      * done.
      * eapply Forall_impl; [|intros j Hj; exact Hj]. rewrite Forall_forall in Hids |- *. intros j Hj.
        split; [simpl; rewrite Hlen1; by apply Hids|]. intros [= ->]. done.
      * done.
      * simpl in *. unfold pget. lia.
      * unfold pget. simpl. rewrite Hlen1, Hid1. split; [done|]. split; [done|]. intros Hz.
        unfold fs. rewrite Hz. simpl. unfold pget. lia.
      * simpl. by rewrite (recs_other _ _ _ Hin).
      * rewrite Hupd. exists t. cbn [a_tab set_a_tab] in *. split; [done|].
        assert (Hlink1 : ∀ x y z, linked (a_tab anc) x y z → linked t1 x y z)
          by (intros x y z Hx; by apply set_before_linked, linked_tupd).
        specialize (Hfs ltac:(done)). specialize (Hlast id eq_refl). rewrite (recs_other _ _ _ Hin) in Hfill.
        assert (Hbefore : ∀ q, prev = Some q → tget t q = tget t1 q).
        { intros q ->. apply Hoth; [|congruence]. intros Hq. rewrite Forall_forall in Hids. by destruct (Hids q Hq). }
        assert (Hgb : get_before prev t = f1_start geo (p_f1 (pget anc id)) - pos).
        { destruct prev as [q|]; [|exact Hfs]. simpl. rewrite (Hbefore q eq_refl). unfold t1. simpl.
          rewrite tget_tupd_eq; [done|]. rewrite length_tupd. by apply Hprev. }
        split; [auto|]. split; [by destruct prev|]. split; [|split; [|split]].
        -- intros Hp0. destruct prev as [q|]; [|done]. exact Hfs.
        -- intros j Hj Hjp. apply not_elem_of_cons in Hj as [Hj1 Hj2]. rewrite Hoth by congruence. by apply Hoth1.
        -- intros q ->. rewrite Hgb, (Hbefore q eq_refl). unfold t1. simpl.
           rewrite tget_tupd_eq, tget_tupd_ne by (rewrite ?length_tupd; [congruence || apply Hprev]). done.
        -- rewrite Hgb. simpl. change (p_f1 (core (tget (a_tab anc) id))) with (p_f1 (pget anc id)).
           unfold pget in *. simpl in Hi. rewrite Hi. destruct (fill geo limit _ (recs (a_tab anc) ids)) as [fs' r].
           injection Hfill as <- <-. simpl in Hlast. rewrite Hlast, Hid1. done.
Qed.

(** [fdasd_update_partition_info] on sorted labels: the free-space counters and
    records describe a layout, and the labels agree with the records. *)
Lemma update_partition_info_layout geo anc x y z :
  geometry_ok geo anc → linked (a_tab anc) x y z →
  labelled geo (last_trk geo anc) FIRST_USABLE_TRK (plist (a_tab anc) x y z) →
  ∃ anc', fdasd_update_partition_info geo anc = Done anc' ∧ same_disk anc anc' ∧
    linked (a_tab anc') x y z ∧ a_partno anc' = a_partno anc ∧
    a_used_partitions anc' = u32 (geo_sectors geo - 2 - DS4DSREC (a_f4 anc)) ∧
    layout (last_trk geo anc) FIRST_USABLE_TRK (a_fspace_trk anc') (plist (a_tab anc') x y z) ∧
    Forall (f1_ok geo) (plist (a_tab anc') x y z) ∧
    ∀ t, used_tracks (plist (a_tab anc') x y z) t ↔
         used_tracks (fill geo (last_trk geo anc) FIRST_USABLE_TRK (plist (a_tab anc) x y z)).2 t.
Proof.
  intros Hg Hlk Hlab. pose proof (g_last _ _ Hg) as Hlim. unfold FIRST_USABLE_TRK in Hlim.
  unfold fdasd_update_partition_info.
  replace (disk_tracks_minus anc geo 1) with (last_trk geo anc)
    by (symmetry; unfold disk_tracks_minus, last_trk in *; apply u32_small; lia).
  set (anc1 := set_a_used_partitions _ anc). destruct (linked_chain _ _ _ _ Hlk) as (Hch & Hnd & Hlt).
  destruct (update_loop_fill geo (last_trk geo anc) [x; y; z] USABLE_PARTITIONS anc1 None (Some (a_first anc1))
    FIRST_USABLE_TRK) as (t & -> & Hl & Hpn & _ & _ & _ & Hfill); try done.
  - lia.
  - eapply Forall_impl; [exact Hlt|]. done.
  - split; [done|unfold USABLE_PARTITIONS; lia].
  - change (recs (a_tab anc1) [x; y; z]) with (plist (a_tab anc) x y z) in Hfill.
    pose proof (fill_layout _ _ _ _ Hlab) as H1. pose proof (fill_f1_ok _ _ _ _ Hlab) as H2.
    rewrite <- Hfill in H1, H2 |- *. eexists. split; [done|]. split; [by split|]. auto 10.
Qed.

(** ** Scanning the labels of a VTOC *)

(** the labels in the blocks from [blk] on, as [vtoc_read_label] delivers them *)
Inductive on_blocks (d : device) (blksize : Z) : Z → list format1_label_t → Prop :=
  | on_blocks_nil blk : on_blocks d blksize blk []
  | on_blocks_cons blk l ls :
      vtoc_read_label d blk true false false false = Done (Some l, None, None, None) →
      on_blocks d blksize (u64 (blk + blksize)) ls → on_blocks d blksize blk (l :: ls).

Lemma scan_label_blksize l sc : a_blksize (sc_anc (scan_label l sc)) = a_blksize (sc_anc sc).
Proof.
  unfold scan_label. destruct (_ || _).
  - destruct (sc_part sc); [|done]. cbn [sc_anc]. by destruct (_ || _).
  - destruct (_ =? 0xf5); [done|]. destruct (_ =? 0xf7); [|done]. cbn [sc_anc]. by destruct (_ =? 0).
Qed.

Lemma scan_labels_fold d blk ls sc :
  on_blocks d (a_blksize (sc_anc sc)) blk ls →
  scan_labels (length ls) d blk sc = Done (fold_left (λ sc l, scan_label l sc) ls sc).
Proof.
  intros H. remember (a_blksize (sc_anc sc)) as bs eqn:E. revert sc E.
  induction H as [|blk l ls Hr _ IH]; intros sc E; [done|]. cbn [length scan_labels].
  rewrite Hr, Done_bind. simpl (deref _ ≫= _). rewrite scan_label_blksize, <- E. cbn [fold_left].
  apply IH. by rewrite scan_label_blksize.
Qed.

(** a label after its name was decoded and encoded again *)
Definition renamed (f : format1_label_t) : format1_label_t := name_enc (name_dec f).

Lemma set_DS1DSNAM_fmt f x : DS1FMTID (set_DS1DSNAM f x) = DS1FMTID f.
Proof. by destruct f. Qed.
Lemma renamed_f1 f : is_f1_f8 (renamed f) = is_f1_f8 f.
Proof. unfold is_f1_f8, renamed, name_enc, name_dec. by rewrite !set_DS1DSNAM_fmt. Qed.
Lemma renamed_ext f : DS1EXT1 (renamed f) = DS1EXT1 f.
Proof. unfold renamed, name_enc, name_dec. by rewrite !set_DS1DSNAM_ext. Qed.

(** the partition labels among the labels *)
Definition part_labels (ls : list format1_label_t) : list format1_label_t :=
  map renamed (filter (λ f, is_f1_f8 f = true) ls).

(** the records with new labels, as far as there are any *)
Fixpoint put_labels (l : list partition_info) (fs : list format1_label_t) : list partition_info :=
  match l, fs with
  | p :: l, f :: fs => set_p_f1 f p :: put_labels l fs
  | _, _ => l
  end.

(** fields of the anchor that the scan leaves alone *)
Definition scan_frame (anc anc' : fdasd_anchor) : Prop :=
  a_formatted_cylinders anc' = a_formatted_cylinders anc ∧ a_blksize anc' = a_blksize anc ∧
  a_f4 anc' = a_f4 anc ∧ a_fspace_trk anc' = a_fspace_trk anc.

Lemma scan_part_step l anc id n f5n f7n :
  is_f1_f8 l = true →
  ∃ pn, let anc' := set_a_tab (set_t_partno pn (tupd id (set_p_f1 (renamed l)) (a_tab anc))) anc in
    scan_label l (ScanState anc (Some id) n f5n f7n) =
    ScanState anc' (p_next (pget anc' id)) (n + 1) f5n f7n.
Proof.
  intros Hf. unfold scan_label. cbn [sc_anc sc_part sc_f1 sc_f5 sc_f7]. unfold is_f1_f8 in Hf. rewrite Hf.
  unfold renamed. cbv iota zeta. destruct ((name_part_no _ <? 0) || _).
  - exists (a_partno anc). cbv zeta. reflexivity.
  - eexists. cbv zeta. reflexivity.
Qed.

Lemma scan_fold ls : ∀ ids anc cur n f5n f7n,
  chain (a_tab anc) cur ids → NoDup ids → Forall (λ j, (j < length (t_parts (a_tab anc)))%nat) ids →
  ∃ sc, fold_left (λ sc l, scan_label l sc) ls (ScanState anc cur n f5n f7n) = sc ∧
    scan_frame anc (sc_anc sc) ∧
    (∀ x y z, linked (a_tab anc) x y z → linked (a_tab (sc_anc sc)) x y z) ∧
    (∀ j, j ∉ ids → tget (a_tab (sc_anc sc)) j = tget (a_tab anc) j) ∧
    recs (a_tab (sc_anc sc)) ids = put_labels (recs (a_tab anc) ids) (part_labels ls).
Proof.
  induction ls as [|l ls IH]; intros ids anc cur n f5n f7n Hc Hnd Hlt.
  { eexists. split; [done|]. split; [done|]. split; [done|]. split; [done|]. by destruct ids. }
  cbn [fold_left]. unfold part_labels. rewrite filter_cons. destruct (decide (is_f1_f8 l = true)) as [Hf|Hf].
  - destruct ids as [|id ids].
    { simpl in Hc. subst cur. replace (scan_label l _) with (ScanState anc None n f5n f7n).
      2: { unfold scan_label. cbn [sc_part]. unfold is_f1_f8 in Hf. by rewrite Hf. }
      destruct (IH [] anc None n f5n f7n) as (sc & E & H1 & H2 & H3 & _); try done.
      exists sc. by split. }
    destruct Hc as [-> Hc]. apply NoDup_cons in Hnd as [Hid Hnd]. apply Forall_cons in Hlt as [Hl Hlt].
    destruct (scan_part_step l anc id n f5n f7n Hf) as (pn & ->). cbv zeta.
    set (t1 := tupd id (set_p_f1 (renamed l)) (a_tab anc)).
    set (anc1 := set_a_tab (set_t_partno pn t1) anc).
    assert (Hg : ∀ j, tget (a_tab anc1) j = tget t1 j) by done.
    assert (Hin : ∀ j, j ≠ id → tget (a_tab anc1) j = tget (a_tab anc) j)
      by (intros; rewrite Hg; by apply tget_tupd_ne).
    assert (Hnext : p_next (pget anc1 id) = p_next (tget (a_tab anc) id)).
    { unfold pget. rewrite Hg. unfold t1. by rewrite tget_tupd_eq. }
    rewrite Hnext.
    destruct (IH ids anc1 (p_next (tget (a_tab anc) id)) (n + 1) f5n f7n) as (sc & E & H1 & H2 & H3 & H4).
    + apply (chain_other (a_tab anc)); [|done]. intros j Hj. apply Hin. by intros ->.
    + done.
    + unfold anc1, t1. cbn [a_tab set_a_tab]. change (t_parts (set_t_partno pn ?t)) with (t_parts t). by rewrite length_tupd.
    + exists sc. split; [done|]. split; [exact H1|]. split; [|split].
      * intros x y z Hlk. apply H2. apply (linked_tupd _ _ _ _ id (set_p_f1 (renamed l))) in Hlk; [|done].
        destruct Hlk. by split.
      * intros j Hj. apply not_elem_of_cons in Hj as [Hj1 Hj2]. rewrite H3 by done. by apply Hin.
      * simpl. rewrite H4, H3, Hg by done. unfold t1. rewrite tget_tupd_eq by done.
        rewrite (recs_other (a_tab anc) (a_tab anc1)); [done|]. intros j Hj. apply Hin. by intros ->.
  - assert (Hskip : ∃ anc1 f5n' f7n', scan_label l (ScanState anc cur n f5n f7n) = ScanState anc1 cur n f5n' f7n' ∧
      a_tab anc1 = a_tab anc ∧ scan_frame anc anc1).
    { unfold scan_label. cbn [sc_anc sc_part sc_f1 sc_f5 sc_f7]. unfold is_f1_f8 in Hf.
      rewrite (proj1 (not_true_iff_false _) Hf).
      destruct (_ =? 0xf5); [by eexists _, _, _|]. destruct (_ =? 0xf7); [|by eexists _, _, _].
      eexists _, _, _. split; [done|]. by destruct (_ =? 0). }
    destruct Hskip as (anc1 & a & b & -> & Et & Hfr).
    destruct (IH ids anc1 cur n a b) as (sc & E & H1 & H2 & H3 & H4); rewrite ?Et in *; try done.
    exists sc. split; [done|]. split; [|done]. unfold scan_frame in *. destruct Hfr as (-> & -> & -> & ->) in H1. done.
Qed.

(** ** A volume with a VTOC *)

(** Labels in descending order of the format identifier stay where they are. *)
Lemma reorganize_noop t x y z :
  linked t x y z → StronglySorted fmt_desc (map p_f1 (plist t x y z)) →
  fdasd_reorganize_FMT1s t = Done t.
Proof.
  intros [_ _ Hf _ (Hn1 & Hn2 & _) _] Hs. unfold fdasd_reorganize_FMT1s.
  assert (Hxy : (DS1FMTID (p_f1 (tget t x)) <? DS1FMTID (p_f1 (tget t y))) = false ∧
                (DS1FMTID (p_f1 (tget t y)) <? DS1FMTID (p_f1 (tget t z))) = false).
  { simpl in Hs. inversion Hs as [|? ? Hs1 Hf1]; subst. inversion Hs1 as [|? ? _ Hf2]; subst.
    apply Forall_cons in Hf1 as [H1 _]. apply Forall_cons in Hf2 as [H2 _]. unfold fmt_desc in *.
    split; apply Z.ltb_ge; lia. }
  destruct Hxy as [H1 H2]. cbn [reorg_rounds reorg_pass Nat.sub USABLE_PARTITIONS].
  rewrite Hf, Hn1. simpl (deref _ ≫= _). rewrite H1, Hn2. simpl (deref _ ≫= _). rewrite H2, Done_bind.
  rewrite Hf, Hn1. simpl (deref _ ≫= _). by rewrite H1.
Qed.

(** partition labels in ascending order that do not overlap *)
Inductive ascending (geo : hd_geometry) (limit : Z) : Z → list format1_label_t → Prop :=
  | ascending_nil pos : pos <= limit + 1 → ascending geo limit pos []
  | ascending_cons pos f fs :
      is_f1_f8 f = true → pos <= f1_start geo f → f1_start geo f <= f1_stop geo f <= limit →
      ascending geo limit (f1_stop geo f + 1) fs → ascending geo limit pos (f :: fs).

Lemma put_labels_labelled geo limit pos l fs :
  ascending geo limit pos fs → Forall unused l → (length fs <= length l)%nat →
  labelled geo limit pos (put_labels l fs).
Proof.
  intros Ha. revert l. induction Ha as [pos Hpos|pos f fs Hi Hp Hs _ IH]; intros [|p l] Hu Hl;
    simpl in Hl; try lia; simpl; try (by apply labelled_blank).
  apply Forall_cons in Hu as [_ Hu]. apply labelled_part; simpl; try done. apply IH; [done|lia].
Qed.

Lemma put_labels_f1s l fs :
  Forall unused l → (length fs <= length l)%nat →
  map p_f1 (put_labels l fs) = fs ++ replicate (length l - length fs) zero_format1.
Proof.
  intros Hu. revert fs. induction Hu as [|p l (_ & _ & _ & _ & _ & Hp) Hu IH]; intros [|f fs] Hl;
    cbn [length] in Hl; try lia; [done| |].
  - specialize (IH [] ltac:(simpl; lia)). cbn [length Nat.sub replicate app put_labels map] in *.
    rewrite Hp. f_equal. rewrite Nat.sub_0_r in IH. by destruct l.
  - cbn [put_labels map p_f1 set_p_f1 app length Nat.sub]. f_equal. apply IH. lia.
Qed.

Lemma fmt_sorted fs n k :
  Forall (λ f, DS1FMTID f = n) fs → 0 <= n → StronglySorted fmt_desc (fs ++ replicate k zero_format1).
Proof.
  intros Hfs Hn. assert (Hz : DS1FMTID zero_format1 = 0) by (by vm_compute).
  assert (Hrest : ∀ m, 0 <= m → Forall (λ f, DS1FMTID f <= m) (replicate k zero_format1)).
  { intros m Hm. apply Forall_replicate. by rewrite Hz. }
  induction Hfs as [|f fs Hf Hfs IH]; cbn [app].
  - clear Hrest. induction k as [|k IH]; cbn [replicate]; constructor; [done|].
    apply Forall_replicate. unfold fmt_desc. lia.
  - constructor; [done|]. apply Forall_app. split.
    + eapply Forall_impl; [exact Hfs|]. intros g Hg. unfold fmt_desc. simpl in *. lia.
    + eapply Forall_impl; [by apply (Hrest n)|]. intros g Hg. unfold fmt_desc. simpl in *. lia.
Qed.

(** Tracks of the partitions that labels describe. *)
Lemma fill_used_tracks geo limit pos l fs t :
  ascending geo limit pos fs → Forall unused l → (length fs <= length l)%nat →
  used_tracks (fill geo limit pos (put_labels l fs)).2 t ↔
  ∃ f, f ∈ fs ∧ f1_start geo f <= t <= f1_stop geo f.
Proof.
  intros Ha. revert l. induction Ha as [pos Hpos|pos f fs Hi Hp Hs _ IH]; intros l Hu Hl.
  - replace (put_labels l []) with l by (by destruct l). rewrite fill_blank by done. split.
    + intros H. by apply unused_used_tracks in H.
    + intros (f & Hf & _). by apply elem_of_nil in Hf.
  - destruct l as [|p l]; [simpl in Hl; lia|]. apply Forall_cons in Hu as [_ Hu]. simpl. rewrite Hi.
    specialize (IH l Hu ltac:(simpl in Hl; lia)). destruct (fill _ _ _ _) as [fs' r]. simpl in IH |- *.
    rewrite used_tracks_cons, IH. unfold in_part. simpl. setoid_rewrite elem_of_cons. naive_solver.
Qed.

(** The free-space labels that are missing are initialized. *)
Lemma default_free_labels anc b5 b7 :
  let anc2 := if b5 : bool then set_a_f5 vtoc_init_format5_label anc else anc in
  let anc3 := if b7 : bool then set_a_f7 vtoc_init_format7_label anc2 else anc2 in
  a_tab anc3 = a_tab anc ∧ a_formatted_cylinders anc3 = a_formatted_cylinders anc ∧
  a_blksize anc3 = a_blksize anc ∧ a_f4 anc3 = a_f4 anc.
Proof. by destruct b5, b7. Qed.

(** [fdasd_process_valid_vtoc] on a fresh partition list and a VTOC that holds up
    to three partition labels of one kind in ascending order: the partition list
    is a layout, and the partitions are the ones of the labels. *)
Lemma process_valid_vtoc_layout geo d anc blk x y z ls n :
  let cyl := f4_cylinders (a_f4 anc) in
  let anc0 := set_a_formatted_cylinders cyl anc in
  geometry_ok geo anc0 → linked (a_tab anc) x y z → Forall unused (plist (a_tab anc) x y z) →
  on_blocks d (a_blksize anc) (u64 (blk + a_blksize anc)) ls → Z.of_nat (length ls) = geo_sectors geo - 1 →
  (length (part_labels ls) <= 3)%nat → Forall (λ f, DS1FMTID f = n) (part_labels ls) → 0 <= n →
  ascending geo (last_trk geo anc0) FIRST_USABLE_TRK (part_labels ls) →
  ∃ anc', fdasd_process_valid_vtoc geo d anc blk = Done anc' ∧ same_disk anc0 anc' ∧
    linked (a_tab anc') x y z ∧
    a_used_partitions anc' = u32 (geo_sectors geo - 2 - DS4DSREC (a_f4 anc)) ∧
    layout (last_trk geo anc0) FIRST_USABLE_TRK (a_fspace_trk anc') (plist (a_tab anc') x y z) ∧
    Forall (f1_ok geo) (plist (a_tab anc') x y z) ∧
    ∀ t, used_tracks (plist (a_tab anc') x y z) t ↔
         ∃ f, f ∈ part_labels ls ∧ f1_start geo f <= t <= f1_stop geo f.
Proof.
  intros cyl anc0 Hg Hlk Hun Hblk Hlen H3 Hkind Hn Hasc.
  unfold fdasd_process_valid_vtoc. fold cyl anc0.
  set (anc1 := set_a_tab _ anc0).
  assert (Hlk1 : linked (a_tab anc1) x y z) by (destruct Hlk; by split).
  replace (Z.to_nat (geo_sectors geo - 1)) with (length ls) by lia.
  rewrite scan_labels_fold by done. rewrite Done_bind.
  destruct (linked_chain _ _ _ _ Hlk1) as (Hch & Hnd & Hlt).
  destruct (scan_fold ls [x; y; z] anc1 (Some (a_first anc1)) 0 0 0 Hch Hnd Hlt)
    as (sc & -> & (F1 & F2 & F3 & F4) & Hl2 & _ & Hrecs).
  change (recs (a_tab (sc_anc sc)) [x; y; z]) with (plist (a_tab (sc_anc sc)) x y z) in Hrecs.
  change (recs (a_tab anc1) [x; y; z]) with (plist (a_tab anc) x y z) in Hrecs.
  destruct (default_free_labels (sc_anc sc) ((sc_f5 sc =? 0) || negb (a_big_disk (sc_anc sc) =? 0)) (sc_f7 sc =? 0))
    as (Et & G1 & G2 & G3).
  set (anc2 := if (sc_f5 sc =? 0) || _ then _ else _) in *.
  set (anc3 := if sc_f7 sc =? 0 then _ else _) in *. clearbody anc2 anc3.
  assert (Hsd : same_disk anc0 anc3) by (split; [by rewrite G1, F1|by rewrite G2, F2|rewrite G3, F3; reflexivity]).
  assert (Hre : on_table fdasd_reorganize_FMT1s anc3 = Done anc3).
  { unfold on_table. rewrite (reorganize_noop _ x y z).
    - rewrite Done_bind. by destruct anc3.
    - rewrite Et. by apply Hl2.
    - rewrite Et, Hrecs, put_labels_f1s by done. by eapply fmt_sorted. }
  rewrite Hre, Done_bind.
  pose proof (sd_formatted _ _ Hsd) as Hcyl.
  assert (Hlast : last_trk geo anc3 = last_trk geo anc0) by (unfold last_trk; by rewrite Hcyl).
  destruct (update_partition_info_layout geo anc3 x y z) as (anc' & Hupd & Hsd' & Hlk' & _ & Hcnt & Hlay & Hf1 & Hut).
  - by eapply same_disk_ok.
  - rewrite Et. by apply Hl2.
  - rewrite Hlast, Et, Hrecs. by apply put_labels_labelled.
  - exists anc'. rewrite Hlast in Hlay, Hut. split; [exact Hupd|]. split; [by transitivity anc3|]. split; [done|].
    split; [by rewrite Hcnt, G3, F3|]. split; [done|]. split; [done|]. intros t.
    rewrite Hut, Et, Hrecs. by apply fill_used_tracks.
Qed.

(** ** A volume without a VTOC *)

(** the anchor before the volume is read: an empty partition list *)
Record fresh (anc : fdasd_anchor) (x y z : nat) : Prop := {
  fr_linked : linked (a_tab anc) x y z;
  fr_unused : Forall unused (plist (a_tab anc) x y z);
  fr_count : a_used_partitions anc = 0
}.

Lemma initialize_anchor_fresh : fresh fdasd_initialize_anchor 0 1 2.
Proof.
  split; [|repeat constructor|done]. split; try done. rewrite !elem_of_cons. by left.
Qed.

(** a new VTOC on a disk that is formatted up to the last cylinder *)
Definition hw_disk (anc : fdasd_anchor) : fdasd_anchor := set_a_formatted_cylinders (a_hw_cylinders anc) anc.

Lemma empty_volume geo anc x y z f4 f5 f7 :
  disk_geometry geo anc → fresh anc x y z → same_device (init_f4 geo anc) f4 →
  fs_repr (a_formatted_cylinders anc) (geo_heads geo) f5 f7 (λ t, FIRST_USABLE_TRK <= t <= last_trk geo anc) →
  a_fspace_trk anc = disk_tracks_minus anc geo FIRST_USABLE_TRK →
  let anc' := set_a_f7 f7 (set_a_f5 f5 (set_a_f4 f4 anc)) in
  geometry_ok geo anc' ∧ volume geo anc' x y z.
Proof.
  intros Hd [Hlk Hun Hcnt] Hsame Hrepr Hfs anc'. pose proof (dg_last _ _ Hd) as Hlast. split.
  - eapply geometry_ok_frame; [..|exact (disk_geometry_ok geo anc f4 Hd Hsame)]; done.
  - split.
    + exact Hlk.
    + apply layout_free_eq; [|unfold FIRST_USABLE_TRK, last_trk in *; cbn; lia|exact Hun].
      change (a_fspace_trk anc') with (a_fspace_trk anc). rewrite Hfs.
      unfold disk_tracks_minus, last_trk, FIRST_USABLE_TRK in *. cbn. rewrite u32_small; lia.
    + change (a_used_partitions anc') with (a_used_partitions anc). rewrite Hcnt. symmetry. by apply unused_n_used.
    + eapply Forall_impl; [exact Hun|]. intros p [Hp _] Hu. lia.
    + eapply fs_repr_ext; [|exact Hrepr]. intros t. unfold free_tracks.
      pose proof (unused_used_tracks _ t Hun). cbn. tauto.
Qed.

Lemma new_vtoc_volume geo anc x y z :
  disk_geometry geo (hw_disk anc) → fresh anc x y z →
  ∃ anc', new_vtoc geo anc = Done anc' ∧ disk_geometry geo anc' ∧ geometry_ok geo anc' ∧ volume geo anc' x y z ∧
    a_used_partitions anc' = 0.
Proof.
  intros Hd [Hlk Hun Hcnt]. unfold new_vtoc. fold (hw_disk anc).
  set (anc1 := set_a_tab (set_t_fspace_trk _ _) _).
  assert (Hd1 : disk_geometry geo anc1) by (destruct Hd; by split).
  assert (Hfr : fresh anc1 x y z) by (split; [destruct Hlk; by split|exact Hun|exact Hcnt]).
  destruct (free_whole_disk_spec geo anc1 Hd1) as (f4 & f5 & f7 & -> & Hsame & Hrepr).
  destruct (empty_volume geo anc1 x y z f4 f5 f7 Hd1 Hfr Hsame Hrepr eq_refl) as [Hg Hv].
  eexists. split; [done|]. split; [destruct Hd1; by split|]. split; [exact Hg|]. split; [exact Hv|exact Hcnt].
Qed.
End FdasdReadProofs.
