(* ===== verification/FdasdIoProofs.v ===== *)
(** Writing the VTOC (src/fdasd/fdasd.c, [fdasd_write_vtoc_labels]): the names of
    new data sets, the blocks that are written, and reading the partitions back
    from them. *)
From S2P Require Import Prelude Ebcdic Cchh Codec Labels LabelOps VtocIo Extents Freespace FdasdState.
From S2P Require Import FdasdTable FdasdLayout FdasdList FdasdInput FdasdPart FdasdVolume FdasdVtoc FdasdVtocProofs.
From S2P Require Import FdasdConf FdasdConfProofs FdasdIo FdasdRead FdasdReadProofs.
Import Ebcdic Addr VtocIo Extents Freespace Fdasd FdasdTable FdasdLayout FdasdList FdasdInput FdasdPart
  FdasdVolume FdasdVtoc FdasdVtocProofs FdasdConf FdasdConfProofs FdasdIo FdasdRead FdasdReadProofs.

Module FdasdIoProofs.

(** ** Data set names *)

Lemma name_store_ok name off text :
  length name = 44%nat → (off + length text <= 44)%nat →
  ∃ name', name_store name off text = Done name' ∧ length name' = 44%nat.
Proof.
  intros Hn Ho. unfold name_store. rewrite (proj2 (Nat.ltb_ge _ _)) by lia. eexists. split; [done|].
  rewrite length_memcpy_at; lia.
Qed.

(** A blank in a string without NUL before it is found there or earlier. *)
Lemma strchr_found (l r : list Z) c :
  c ≠ 0 → Forall (λ d, d ≠ 0) l → ∃ k, strchr (l ++ c :: r) c = Some k ∧ (k <= length l)%nat.
Proof.
  intros Hc. unfold strchr. induction 1 as [|d l Hd _ IH].
  - exists 0%nat. simpl. rewrite (proj2 (Z.eqb_neq _ _)) by done. simpl. by rewrite Z.eqb_refl.
  - simpl. rewrite (proj2 (Z.eqb_neq _ _)) by done. simpl. rewrite andb_true_r.
    destruct (c =? d); [exists 0%nat; split; [done|lia]|].
    destruct IH as (k & -> & Hk). exists (S k). split; [done|lia].
Qed.

Lemma length_dec_volser vl : length (dec_volser vl) = 6%nat.
Proof.
  unfold dec_volser, vtoc_ebcdic_dec_inplace. rewrite translate_inplace_alias by (by rewrite length_strncpy).
  rewrite length_translate. apply length_strncpy.
Qed.

Lemma length_dec04 n : length (dec04 n) = 5%nat.
Proof. done. Qed.

Lemma dsname_of_type type :
  0 <= type <= 5 → ∃ s, get_part_dsname_by_type type = DsName s ∧ (length (bytes_of_string s) <= 6)%nat.
Proof.
  intros H. assert (E : type = 0 ∨ type = 1 ∨ type = 2 ∨ type = 3 ∨ type = 4 ∨ type = 5) by lia.
  destruct E as [->|[->|[->|[->|[->| ->]]]]]; eexists; (split; [reflexivity|vm_compute; lia]).
Qed.

(** The name of a new data set always fits, if the serial has no NUL. *)
Lemma new_name_ok vl f1 k type :
  Forall (λ c, c ≠ 0) (dec_volser vl) → 0 <= type <= 5 →
  ∃ name, new_name vl f1 k type = Done name ∧ length name = 44%nat.
Proof.
  intros Hv Ht. unfold new_name. cbv zeta.
  match goal with |- context [name_store ?b 7 _] => set (blank := b) end.
  assert (Hst : name_store blank 7 (dec_volser vl) =
    Done (bytes_of_string "LINUX.V" ++ dec_volser vl ++ replicate 31 32)).
  { unfold name_store. rewrite length_dec_volser. change (44 <? 7 + 6)%nat with false.
    cbv iota. unfold memcpy_at. rewrite length_dec_volser. reflexivity. }
  rewrite Hst, Done_bind.
  set (name := bytes_of_string "LINUX.V" ++ dec_volser vl ++ replicate 31 32).
  assert (Hl : length name = 44%nat) by (unfold name; rewrite !length_app, length_dec_volser; done).
  destruct (strchr_found (bytes_of_string "LINUX.V" ++ dec_volser vl)
    (replicate 30 32 ++ drop 44 (cenc cformat1 f1)) 32) as (c1 & Hc1 & Hle).
  { done. }
  { apply Forall_app. split; [|done]. repeat constructor; vm_compute; congruence. }
  assert (Hmem : label_memory f1 name = (bytes_of_string "LINUX.V" ++ dec_volser vl) ++ 32 ::
    replicate 30 32 ++ drop 44 (cenc cformat1 f1)).
  { unfold label_memory, name. by rewrite <- !app_assoc. }
  rewrite Hmem, Hc1. simpl (deref _ ≫= _).
  rewrite length_app, length_dec_volser in Hle. change (length (bytes_of_string "LINUX.V")) with 7%nat in Hle.
  destruct (name_store_ok name c1 (bytes_of_string ".PART") Hl) as (n2 & -> & Hl2);
    [change (length (bytes_of_string ".PART")) with 5%nat; lia|]. rewrite Done_bind.
  destruct (name_store_ok n2 (c1 + 5) (dec04 (k + 1)) Hl2) as (n3 & -> & Hl3); [rewrite length_dec04; lia|].
  rewrite Done_bind. destruct (dsname_of_type type Ht) as (s & -> & Hs).
  destruct (name_store_ok n3 (c1 + 10) (bytes_of_string s) Hl3) as (n4 & -> & Hl4); [lia|]. by exists n4.
Qed.

(** ** Valid labels *)

Lemma name_enc_valid f name :
  cvalid cformat1 f → length name = 44%nat → cvalid cformat1 (name_enc (set_DS1DSNAM f name)).
Proof.
  intros Hv Hl. unfold name_enc, vtoc_ebcdic_enc_inplace.
  replace (DS1DSNAM (set_DS1DSNAM f name)) with name by (by destruct f).
  rewrite translate_inplace_alias, translate_spec by lia. rewrite take_ge, drop_ge, app_nil_r by lia.
  destruct f. cbn in *. destruct Hv as (_ & Hv). split; [|exact Hv]. rewrite length_map. split; [done|].
  apply Forall_map, Forall_true. intros c. apply asc2ebc_byte.
Qed.

Lemma strncpy_bytes l n : bytes_ok l → bytes_ok (strncpy l n).
Proof.
  intros H. unfold strncpy. apply Forall_app. split.
  - apply Forall_take. induction H as [|c l Hc _ IH]; simpl; [constructor|]. destruct (c =? 0); by constructor.
  - apply Forall_replicate. unfold in_u8. lia.
Qed.

Lemma set_DS1DSSN_valid f ssn :
  cvalid cformat1 f → bytes_ok ssn → length ssn = 6%nat → cvalid cformat1 (set_DS1DSSN f ssn).
Proof. intros Hv Hb Hl. destruct f. cbn in *. naive_solver. Qed.

(** ** Naming the partitions of a new VTOC *)

(** the data set numbers after [j] partitions were named, none had a name before *)
Definition slots_named (j : nat) : list Z := map Z.of_nat (seq 0 j) ++ replicate (3 - j) (-1).

(** what a label has to keep when it is renamed *)
Definition same_data_set (f g : format1_label_t) : Prop :=
  DS1EXT1 g = DS1EXT1 f ∧ DS1FMTID g = DS1FMTID f.

Lemma same_data_set_name f x : same_data_set f (set_DS1DSNAM f x).
Proof. by destruct f. Qed.
Lemma same_data_set_ssn f x : same_data_set f (set_DS1DSSN f x).
Proof. by destruct f. Qed.
#[export] Instance same_data_set_preorder : PreOrder same_data_set.
Proof. split; [done|]. intros f g h [? ?] [? ?]. split; congruence. Qed.

Lemma type_in_range f1 name :
  0 <= match get_part_type_by_dsname (Some (label_memory f1 name)) with
       | Some t => t | None => PARTITION_NATIVE end <= 5.
Proof.
  destruct (get_part_type_by_dsname _) as [t|] eqn:E; [by apply part_type_range in E|]. unfold PARTITION_NATIVE. lia.
Qed.

(** the volume label has a serial that can be part of a name *)
Definition serial_ok (vl : volume_label_t) : Prop :=
  bytes_ok (volid vl) ∧ Forall (λ c, c ≠ 0) (dec_volser vl).

Lemma name_part_new anc id j :
  (j < 3)%nat → a_partno anc = slots_named j → serial_ok (a_vlabel anc) →
  cvalid cformat1 (p_f1 (pget anc id)) →
  ∃ f1 type, name_part id (Z.of_nat j + 1) (pred j) anc =
      Done (pupd id (λ p, set_p_type type (set_p_f1 f1 p)) (setpos anc j (Z.of_nat j)), j) ∧
    cvalid cformat1 f1 ∧ same_data_set (p_f1 (pget anc id)) f1.
Proof.
  intros Hj Hpn (Hvb & Hvn) Hv. unfold name_part.
  set (f := p_f1 (pget anc id)) in *. set (g := set_DS1DSSN f _).
  assert (Hg : cvalid cformat1 g) by (apply set_DS1DSSN_valid; [done|by apply strncpy_bytes|apply length_strncpy]).
  set (t := match get_part_type_by_dsname _ with Some _ => _ | None => _ end).
  assert (Ht : 0 <= t <= 5) by apply type_in_range.
  assert (Hdsn : getdsn anc (Z.of_nat j + 1 - 1) = -1 ∧ free_dsn (drop (pred j) (a_partno anc)) (pred j) = Done j).
  { unfold getdsn. rewrite Hpn. by destruct j as [|[|[|j]]]; [..|lia]. }
  destruct Hdsn as [-> ->]. simpl (-1 <? -1). cbv iota. rewrite Done_bind.
  replace (Z.of_nat j + 1 - 1) with (Z.of_nat j) by lia.
  destruct (new_name_ok (a_vlabel anc) (name_dec g) (Z.of_nat j) t Hvn Ht) as (name & Hn & Hl).
  change (a_vlabel (setpos anc j (Z.of_nat j))) with (a_vlabel anc). rewrite Hn, Done_bind.
  exists (name_enc (set_DS1DSNAM (name_dec g) name)), t. split; [done|]. split.
  - replace (set_DS1DSNAM (name_dec g) name) with (set_DS1DSNAM g name) by (unfold name_dec; by destruct g).
    by apply name_enc_valid.
  - etrans; [apply (same_data_set_ssn f)|]. fold g. unfold name_enc, name_dec.
    etrans; [apply (same_data_set_name g)|]. etrans; [|apply same_data_set_name]. apply same_data_set_name.
Qed.

(** ** Writing block after block *)

Definition put_bytes (d : device) (pos : Z) (im : list Z) : outcome device :=
  if negb (dev_writable d) then vtoc_error
  else if seek_fails pos then vtoc_error
  else match dev_write d pos im with None => vtoc_error | Some d => Done d end.

Lemma put_label_bytes {A} (c : codec A) d pos l : put_label c d pos l = put_bytes d pos (cenc c l).
Proof. done. Qed.

(** label images in consecutive blocks *)
Fixpoint put_run (d : device) (pos bs : Z) (ims : list (list Z)) : outcome device :=
  match ims with
  | [] => Done d
  | im :: ims => d ← put_bytes d pos im; put_run d (pos + bs) bs ims
  end.

Lemma put_run_app d pos bs ims ims' :
  put_run d pos bs (ims ++ ims') =
  (d ← put_run d pos bs ims; put_run d (pos + Z.of_nat (length ims) * bs) bs ims').
Proof.
  revert d pos. induction ims as [|im ims IH]; intros d pos; simpl.
  - by rewrite Z.add_0_r.
  - destruct (put_bytes d pos im) as [d1| | |]; simpl; [|done..]. rewrite IH.
    replace (pos + bs + Z.of_nat (length ims) * bs) with (pos + Z.pos (Pos.of_succ_nat (length ims)) * bs) by lia. done.
Qed.

(** [n] bytes from [pos] on are on the device, and positions fit an [off_t] *)
Definition area_ok (d : device) (pos n : Z) : Prop :=
  0 <= pos ∧ pos + n <= Z.of_nat (length (dev_data d)) ∧ pos + n < 9223372036854775808.

Lemma put_bytes_ok d pos im :
  dev_writable d = true → area_ok d pos (Z.of_nat (length im)) →
  ∃ d', put_bytes d pos im = Done d' ∧ written d d' pos (Z.of_nat (length im)) ∧ dev_read d' pos (length im) = im.
Proof.
  intros Hw (Hp & Hl & Hm). unfold put_bytes, seek_fails. rewrite Hw, (proj2 (Z.leb_gt _ _)) by lia. simpl.
  assert (E : dev_write d pos im = Some (Device (dev_readable d) (dev_writable d) (memcpy_at (dev_data d) (Z.to_nat pos) im))).
  { unfold dev_write. by rewrite (proj2 (Nat.leb_le _ _)) by lia. }
  rewrite E. eexists. split; [done|]. split; [|unfold dev_read; simpl; apply memcpy_at_read_same; lia].
  split; [done|]. split; [done|]. split; [simpl; apply length_memcpy_at; lia|].
  intros p k Hp0 Hd. by apply (dev_read_other _ _ _ _ _ _ E).
Qed.

Lemma written_weaken d d' pos n pos' n' :
  written d d' pos n → pos' <= pos → pos + n <= pos' + n' → written d d' pos' n'.
Proof. intros (W1 & W2 & W3 & W4) H1 H2. repeat split; try done. intros p k Hp Hd. apply W4; [done|lia]. Qed.

Lemma written_trans d d1 d2 pos n : written d d1 pos n → written d1 d2 pos n → written d d2 pos n.
Proof.
  intros (W1 & W2 & W3 & W4) (V1 & V2 & V3 & V4). repeat split; try congruence.
  intros p k Hp Hd. by rewrite V4, W4.
Qed.

Lemma put_run_ok bs ims d pos :
  140 <= bs → Forall (λ im, length im = 140%nat) ims → dev_writable d = true →
  area_ok d pos (Z.of_nat (length ims) * bs) →
  ∃ d', put_run d pos bs ims = Done d' ∧ written d d' pos (Z.of_nat (length ims) * bs) ∧
    ∀ i im, ims !! i = Some im → dev_read d' (pos + Z.of_nat i * bs) 140 = im.
Proof.
  intros Hbs Him. revert d pos. induction Him as [|im ims Hlen Him IH]; intros d pos Hw (Hp & Hl & Hm).
  - exists d. split; [done|]. split; [by repeat split|]. intros i im Hi. by rewrite lookup_nil in Hi.
  - cbn [length] in *. rewrite Nat2Z.inj_succ in *.
    destruct (put_bytes_ok d pos im Hw) as (d1 & E1 & W1 & R1); [rewrite Hlen; split; [lia|]; split; nia|].
    rewrite Hlen in W1, R1. pose proof W1 as (_ & Hw1 & Hl1 & _).
    destruct (IH d1 (pos + bs)) as (d2 & E2 & W2 & R2); [congruence|split; [lia|]; rewrite Hl1; nia|].
    exists d2. cbn [put_run]. rewrite E1, Done_bind, E2. split; [done|]. split.
    + eapply written_trans; [eapply written_weaken; [exact W1|lia|nia]|eapply written_weaken; [exact W2|lia|nia]].
    + intros [|i] im' Hi; simpl in Hi.
      * injection Hi as <-. destruct W2 as (_ & _ & _ & W2). rewrite Z.add_0_r, W2 by lia. exact R1.
      * rewrite <- (R2 i im' Hi). f_equal. lia.
Qed.

(** ** The labels of the partitions *)

(** the blocks for one partition: its label, and the format 9 label of a format 8 one *)
Definition part_images (f9 : format9_label_t) (f : format1_label_t) : list (list Z) :=
  if DS1FMTID f =? 0xf8 then [cenc cformat1 f; cenc cformat9 f9] else [cenc cformat1 f].

Lemma part_images_length f9 f : (length (part_images f9 f) <= 2)%nat.
Proof. unfold part_images. destruct (_ =? _); simpl; lia. Qed.

(** what naming and writing one record leaves alone *)
Record write_frame (id : nat) (anc anc' : fdasd_anchor) : Prop := {
  wf_vlabel : a_vlabel anc' = a_vlabel anc;
  wf_blksize : a_blksize anc' = a_blksize anc;
  wf_f9 : a_f9 anc' = a_f9 anc;
  wf_length : length (a_parts anc') = length (a_parts anc);
  wf_other j : j ≠ id → pget anc' j = pget anc j
}.

Lemma set_DS1PTRDS_valid f ptr : cvalid cformat1 f → cvalid ccchhb ptr → cvalid cformat1 (set_DS1PTRDS f ptr).
Proof.
  intros Hv Hp. destruct f. cbn -[ccchhb] in *. repeat (split; [apply Hv|]). exact Hp.
Qed.

Lemma f9_pointer_valid f x : cvalid cformat1 f →
  cvalid cformat1 (vtoc_update_format8_label (vtoc_set_cchhb VTOC_START_CC VTOC_START_HH (u8 x)) f) ∧
  same_data_set f (vtoc_update_format8_label (vtoc_set_cchhb VTOC_START_CC VTOC_START_HH (u8 x)) f).
Proof.
  intros Hv. split; [|by destruct f]. apply set_DS1PTRDS_valid; [done|].
  split; [split; vm_compute; congruence|]. split; [split; vm_compute; congruence|]. apply u8_range.
Qed.

Lemma write_part_run geo id anc blk j :
  (j < 3)%nat → a_partno anc = slots_named j → serial_ok (a_vlabel anc) →
  cvalid cformat1 (p_f1 (pget anc id)) → (id < length (a_parts anc))%nat →
  0 < geo_sectors geo → 0 < a_blksize anc → 0 <= blk →
  blk + 2 * a_blksize anc < 9223372036854775808 →
  ∃ f anc', let ims := part_images (a_f9 anc) f in
    (∀ d, write_part geo id (WriteState d anc blk (Z.of_nat j) (pred j)) =
      (d ← put_run d blk (a_blksize anc) ims;
       Done (WriteState d anc' (blk + Z.of_nat (length ims) * a_blksize anc) (Z.of_nat (S j)) j))) ∧
    cvalid cformat1 f ∧ same_data_set (p_f1 (pget anc id)) f ∧
    a_partno anc' = slots_named (S j) ∧ write_frame id anc anc'.
Proof.
  intros Hj Hpn Hser Hv Hid Hs Hb Hblk Hmax.
  unfold write_part. cbn [ws_anc ws_dev ws_blk ws_i ws_k].
  destruct (name_part_new anc id j Hj Hpn Hser Hv) as (f & type & Hname & Hf & Hsame). rewrite Hname.
  set (anc1 := pupd id _ _).
  assert (Hpn1 : a_partno anc1 = slots_named (S j)).
  { change (a_partno anc1) with (<[j := Z.of_nat j]> (a_partno anc)). rewrite Hpn.
    by destruct j as [|[|[|j]]]; [..|lia]. }
  assert (Hget : ∀ g, pget (pupd id g anc1) id = g (pget anc1 id)).
  { intros g. unfold pget, pupd. cbn [a_tab set_a_tab]. apply tget_tupd_eq. unfold anc1, pupd, setpos. simpl.
    rewrite length_insert. exact Hid. }
  assert (Hf1 : p_f1 (pget anc1 id) = f).
  { unfold anc1, pget, pupd. cbn [a_tab set_a_tab]. rewrite tget_tupd_eq by exact Hid. done. }
  assert (Hfr : ∀ g, write_frame id anc (pupd id g anc1)).
  { intros g. split; try done.
    - unfold a_parts, pupd. cbn [a_tab set_a_tab]. simpl. by rewrite !length_insert.
    - intros j' Hne. unfold pget, pupd. cbn [a_tab set_a_tab]. rewrite tget_tupd_ne by done.
      unfold anc1, pupd. cbn [a_tab set_a_tab]. by rewrite tget_tupd_ne. }
  assert (Hfr1 : write_frame id anc anc1).
  { split; try done.
    - unfold anc1, a_parts, pupd. cbn [a_tab set_a_tab]. simpl. by rewrite !length_insert.
    - intros j' Hne. unfold anc1, pget, pupd. cbn [a_tab set_a_tab]. by rewrite tget_tupd_ne. }
  destruct (DS1FMTID f =? 0xf8) eqn:E8.
  - set (ptr := vtoc_set_cchhb VTOC_START_CC VTOC_START_HH (u8 (blk / a_blksize anc mod geo_sectors geo + 2))).
    destruct (f9_pointer_valid f (blk / a_blksize anc mod geo_sectors geo + 2) Hf) as [Hv8 Hs8]. fold ptr in Hv8, Hs8.
    exists (vtoc_update_format8_label ptr f), (pupd id (λ p, set_p_f1 (vtoc_update_format8_label ptr (p_f1 p)) p) anc1).
    assert (E8' : DS1FMTID (vtoc_update_format8_label ptr f) =? 0xf8 = true) by (by rewrite (proj2 Hs8)).
    unfold part_images. rewrite E8'. cbv zeta. split; [|split; [done|split; [by transitivity f|split; [exact Hpn1|apply Hfr]]]].
    intros d. rewrite Done_bind, Hf1, E8. change (a_blksize anc1) with (a_blksize anc).
    unfold udiv. rewrite (proj2 (Z.eqb_neq (a_blksize anc) 0)), (proj2 (Z.eqb_neq (geo_sectors geo) 0)) by lia.
    rewrite Done_bind. fold ptr. rewrite Hget. cbn [p_f1 set_p_f1]. rewrite Hf1. rewrite write_label_1, put_label_bytes. cbn [put_run length].
    destruct (put_bytes d blk _) as [d1| | |]; [|done..]. rewrite !Done_bind.
    rewrite write_label_9, put_label_bytes. change (a_blksize (pupd id _ anc1)) with (a_blksize anc).
    rewrite (u64_small (blk + a_blksize anc)), u64_small by lia. change (a_f9 (pupd id _ anc1)) with (a_f9 anc).
    destruct (put_bytes d1 _ _) as [d2| | |]; [|done..]. rewrite !Done_bind.
    do 2 f_equal; lia.
  - exists f, anc1. unfold part_images. rewrite E8. cbv zeta.
    split; [|split; [done|split; [done|split; [done|exact Hfr1]]]].
    intros d. rewrite Done_bind, Hf1, E8. change (a_blksize anc1) with (a_blksize anc).
    rewrite write_label_1, put_label_bytes. cbn [put_run length].
    destruct (put_bytes d blk _) as [d1| | |]; [|done..]. rewrite !Done_bind, u64_small by lia. do 2 f_equal; lia.
Qed.

(** the blocks for all partitions *)
Definition parts_images (f9 : format9_label_t) (fs : list format1_label_t) : list (list Z) :=
  concat (map (part_images f9) fs).

Lemma parts_images_length f9 fs : (length (parts_images f9 fs) <= 2 * length fs)%nat.
Proof.
  induction fs as [|f fs IH]; [done|]. unfold parts_images in *. simpl. rewrite length_app.
  pose proof (part_images_length f9 f). lia.
Qed.

(** the labels of the partitions among some records *)
Definition used_labels (l : list partition_info) : list format1_label_t :=
  map p_f1 (filter (λ p, is_used p = true) l).

Lemma write_parts_run geo ids : ∀ fuel anc blk cur j,
  chain (a_tab anc) cur ids → NoDup ids → Forall (λ i, (i < length (a_parts anc))%nat) ids →
  (length ids < fuel)%nat → (j + length (used_labels (recs (a_tab anc) ids)) <= 3)%nat →
  Forall (cvalid cformat1) (used_labels (recs (a_tab anc) ids)) →
  a_partno anc = slots_named j → serial_ok (a_vlabel anc) →
  0 < geo_sectors geo → 0 < a_blksize anc → 0 <= blk →
  blk + 2 * Z.of_nat (length ids) * a_blksize anc < 9223372036854775808 →
  ∃ fs anc', let ims := parts_images (a_f9 anc) fs in
    (∀ d, write_parts fuel geo cur (WriteState d anc blk (Z.of_nat j) (pred j)) =
      (d ← put_run d blk (a_blksize anc) ims;
       Done (WriteState d anc' (blk + Z.of_nat (length ims) * a_blksize anc)
               (Z.of_nat (j + length fs)) (pred (j + length fs))))) ∧
    Forall (cvalid cformat1) fs ∧ Forall2 same_data_set (used_labels (recs (a_tab anc) ids)) fs.
Proof.
  induction ids as [|id ids IH]; intros [|fuel] anc blk cur j Hc Hnd Hlt Hfu H3 Hval Hpn Hser Hs Hb Hblk Hmax;
    simpl in Hfu; try lia.
  - simpl in Hc. subst cur. exists [], anc. split; [|split; constructor]. intros d. simpl.
    rewrite Z.add_0_r, Nat.add_0_r. done.
  - destruct Hc as [-> Hc]. apply NoDup_cons in Hnd as [Hid Hnd]. apply Forall_cons in Hlt as [Hidlt Hlt].
    cbn [length] in Hmax. rewrite Nat2Z.inj_succ in Hmax. cbn [write_parts ws_anc].
    unfold used_labels in H3, Hval |- *.
    change (recs (a_tab anc) (id :: ids)) with (core (tget (a_tab anc) id) :: recs (a_tab anc) ids) in *.
    change (p_used (pget anc id)) with (p_used (core (tget (a_tab anc) id))). rewrite filter_cons in *.
    destruct (p_used (core (tget (a_tab anc) id)) =? 1) eqn:Eu; cbn [negb].
    + rewrite decide_True in * by exact Eu. cbn [map length] in *. apply Forall_cons in Hval as [Hv Hval].
      destruct (write_part_run geo id anc blk j) as (f & anc1 & Hw & Hf & Hsame & Hpn1 & Hfr); try done; [lia|nia|].
      set (ims1 := part_images (a_f9 anc) f) in *.
      destruct Hfr as [W1 W2 W3 W4 W5]. unfold pget in W5. pose proof (part_images_length (a_f9 anc) f) as Hil. fold ims1 in Hil.
      assert (Hoth : ∀ k, k ∈ ids → tget (a_tab anc1) k = tget (a_tab anc) k).
      { intros k Hk'. apply W5. by intros ->. }
      pose proof (recs_other _ _ _ Hoth) as Hrecs.
      destruct (IH fuel anc1 (blk + Z.of_nat (length ims1) * a_blksize anc) (p_next (tget (a_tab anc) id)) (S j))
        as (fs & anc' & Hrun & Hfv & H2); rewrite ?W1, ?W2, ?W4, ?Hrecs; try done.
      * by apply (chain_other (a_tab anc)).
      * lia.
      * unfold used_labels. lia.
      * nia.
      * nia.
      * rewrite W2, W3 in Hrun. cbv zeta in Hrun.
        exists (f :: fs), anc'. cbv zeta. unfold parts_images in *. cbn [map concat]. fold ims1.
        split; [|split; [by constructor|rewrite Hrecs in H2; by constructor]].
        intros d. rewrite Hw, put_run_app, length_app.
        destruct (put_run d blk (a_blksize anc) ims1) as [d1| | |]; [|done..]. rewrite !Done_bind.
        change (pget anc id) with (tget (a_tab anc) id). change j with (pred (S j)) at 1. rewrite Hrun.
        destruct (put_run d1 _ _ _) as [d2| | |]; [|done..]. rewrite !Done_bind. cbn [length].
        do 2 f_equal; [nia|f_equal; lia|f_equal; lia].
    + rewrite decide_False in * by (unfold is_used; congruence).
      destruct (IH fuel anc blk (p_next (tget (a_tab anc) id)) j) as (fs & anc' & Hrun & Hfv & H2); try done; [lia|nia|].
      exists fs, anc'. done.
Qed.

(** ** The whole VTOC *)

Lemma write_empty_run bs n : ∀ fuel blk,
  (n < fuel)%nat → 0 < bs → 0 <= blk → blk + Z.of_nat n * bs < 9223372036854775808 →
  ∀ d, write_empty fuel d bs blk (blk + Z.of_nat n * bs) = put_run d blk bs (replicate n (cenc cformat1 zero_format1)).
Proof.
  induction n as [|n IH]; intros [|fuel] blk Hf Hb Hp Hm d; try lia; cbn [write_empty replicate put_run].
  - rewrite (proj2 (Z.ltb_ge _ _)) by lia. done.
  - rewrite Nat2Z.inj_succ in *. rewrite (proj2 (Z.ltb_lt _ _)) by nia. rewrite write_label_1, put_label_bytes.
    destruct (put_bytes d blk (cenc cformat1 zero_format1)) as [d1| | |]; [|done..]. rewrite !Done_bind, u64_small by nia.
    replace (blk + Z.succ (Z.of_nat n) * bs) with (blk + bs + Z.of_nat n * bs) by lia. apply IH; nia.
Qed.

(** The labels of the anchor fit their structures and carry their identifiers;
    the partition labels are all of one kind. *)
Record labels_ok (anc : fdasd_anchor) (x y z : nat) (kind : Z) : Prop := {
  lo_f4 : cvalid cformat4 (a_f4 anc);
  lo_f5 : cvalid cformat5 (a_f5 anc);
  lo_f7 : cvalid cformat7 (a_f7 anc);
  lo_f9 : cvalid cformat9 (a_f9 anc);
  lo_f5_id : DS5FMTID (a_f5 anc) = 0xf5;
  lo_f7_id : DS7FMTID (a_f7 anc) = 0xf7;
  lo_f9_id : DS9FMTID (a_f9 anc) = 0xf9;
  lo_kind : kind = 0xf1 ∨ kind = 0xf8;
  lo_parts : Forall (λ f, cvalid cformat1 f ∧ DS1FMTID f = kind) (used_labels (plist (a_tab anc) x y z))
}.

(** the blocks of the VTOC: format 4, format 5, format 7 on a large disk, the
    partitions, and empty labels up to nine *)
Definition head_images (anc : fdasd_anchor) : list (list Z) :=
  [cenc cformat4 (a_f4 anc); cenc cformat5 (a_f5 anc)] ++
  (if a_big_disk anc =? 0 then [] else [cenc cformat7 (a_f7 anc)]).
Definition vtoc_images (anc : fdasd_anchor) (fs : list format1_label_t) : list (list Z) :=
  let ims := head_images anc ++ parts_images (a_f9 anc) fs in
  ims ++ replicate (9 - length ims) (cenc cformat1 zero_format1).

Lemma head_images_length anc : (2 <= length (head_images anc) <= 3)%nat.
Proof. unfold head_images. destruct (_ =? 0); simpl; lia. Qed.

Lemma used_labels_length t x y z : (length (used_labels (plist t x y z)) <= 3)%nat.
Proof.
  unfold used_labels. rewrite length_map. etrans; [apply length_filter|]. simpl. lia.
Qed.

(** the labels in front of the partitions *)
Lemma write_head_run {B} anc blk d (k : device → Z → outcome B) :
  let bs := a_blksize anc in
  0 < bs → 0 <= blk → blk + 3 * bs < 9223372036854775808 →
  (d ← vtoc_write_label d blk None (Some (a_f4 anc)) None None None;
   let blk := u64 (blk + bs) in
   d ← vtoc_write_label d blk None None (Some (a_f5 anc)) None None;
   let blk := u64 (blk + bs) in
   '(d, blk) ← (if negb (a_big_disk anc =? 0) then
                  d ← vtoc_write_label d blk None None None (Some (a_f7 anc)) None;
                  Done (d, u64 (blk + bs))
                else Done (d, blk));
   k d blk) =
  (d ← put_run d blk bs (head_images anc); k d (blk + Z.of_nat (length (head_images anc)) * bs)).
Proof.
  intros bs Hb Hp Hm. cbv zeta. unfold head_images. rewrite write_label_4, put_label_bytes.
  rewrite (u64_small (blk + bs)), (u64_small (blk + bs + bs)), (u64_small (blk + bs + bs + bs)) by lia.
  destruct (a_big_disk anc =? 0); cbn [negb app put_run length];
    destruct (put_bytes d blk _) as [d1| | |]; try done; rewrite !Done_bind;
    rewrite write_label_5, put_label_bytes; destruct (put_bytes d1 _ _) as [d2| | |]; try done; rewrite !Done_bind.
  - f_equal. lia.
  - rewrite write_label_7, put_label_bytes. destruct (put_bytes d2 _ _) as [d3| | |]; try done. rewrite !Done_bind. f_equal. lia.
Qed.

(** [fdasd_write_vtoc_labels] on a volume whose partitions have no data sets yet
    writes the nine blocks of the VTOC, with new names. *)
Lemma write_vtoc_run geo anc x y z kind :
  let blk := vtoc_blk geo anc in
  linked (a_tab anc) x y z → labels_ok anc x y z kind → a_partno anc = replicate 3 (-1) →
  serial_ok (a_vlabel anc) → 0 < geo_sectors geo → 0 < a_blksize anc < 2 ^ 28 →
  cchhb2blk (vl_vtoc (a_vlabel anc)) geo ≠ 0 → 0 < blk → blk + 9 * a_blksize anc < 9223372036854775808 →
  ∃ fs anc',
    (∀ d, fdasd_write_vtoc_labels geo d anc =
      (d ← put_run d blk (a_blksize anc) (vtoc_images anc fs); Done (d, anc'))) ∧
    Forall (cvalid cformat1) fs ∧ Forall2 same_data_set (used_labels (plist (a_tab anc) x y z)) fs.
Proof.
  intros blk Hlk Hlo Hpn Hser Hs Hb Hc Hblk Hmax. destruct (linked_chain _ _ _ _ Hlk) as (Hch & Hnd & Hlt).
  pose proof (head_images_length anc) as Hh. set (bs := a_blksize anc) in *.
  pose proof (used_labels_length (a_tab anc) x y z) as Hul.
  destruct (write_parts_run geo [x; y; z] (S USABLE_PARTITIONS) anc (blk + Z.of_nat (length (head_images anc)) * bs)
    (Some (a_first anc)) 0) as (fs & anc' & Hrun & Hfv & H2); try done.
  - unfold USABLE_PARTITIONS. simpl. lia.
  - change (recs (a_tab anc) [x; y; z]) with (plist (a_tab anc) x y z). eapply Forall_impl; [apply (lo_parts _ _ _ _ _ Hlo)|].
    by intros f [? _].
  - lia.
  - nia.
  - fold bs. change (length [x; y; z]) with 3%nat. nia.
  - change (recs (a_tab anc) [x; y; z]) with (plist (a_tab anc) x y z) in H2. cbv zeta in Hrun. fold bs in Hrun.
    exists fs, anc'. split; [|done]. intros d. unfold fdasd_write_vtoc_labels. fold blk bs.
    rewrite (proj2 (Z.eqb_neq (cchhb2blk _ _) 0)) by exact Hc. rewrite (proj2 (Z.eqb_neq blk 0)) by lia. cbn [orb].
    rewrite (write_head_run anc blk d (λ d blk', ws ← write_parts _ _ _ (WriteState d anc blk' 0 0);
      d ← write_empty _ (ws_dev ws) bs (ws_blk ws) _; Done (d, ws_anc ws))) by (fold bs; lia).
    fold bs.
    assert (Hfs : length fs = length (used_labels (plist (a_tab anc) x y z))) by (symmetry; by eapply Forall2_length).
    pose proof (parts_images_length (a_f9 anc) fs) as Hpl.
    unfold vtoc_images. rewrite !put_run_app. destruct (put_run d blk bs (head_images anc)) as [d1| | |]; [|done..].
    rewrite !Done_bind. rewrite Hrun. destruct (put_run d1 _ bs (parts_images _ _)) as [d2| | |]; [|done..].
    rewrite !Done_bind. cbn [ws_dev ws_blk ws_anc]. rewrite length_app.
    set (n := (length (head_images anc) + length (parts_images (a_f9 anc) fs))%nat).
    assert (Hn : (n <= 9)%nat) by lia.
    replace (blk + Z.of_nat (length (head_images anc)) * bs + Z.of_nat (length (parts_images (a_f9 anc) fs)) * bs)
      with (blk + Z.of_nat n * bs) by lia.
    rewrite u32_small, u64_small by (unfold VTOC_BLOCKS; lia).
    replace (blk + bs * VTOC_BLOCKS) with (blk + Z.of_nat n * bs + Z.of_nat (9 - n) * bs) by (unfold VTOC_BLOCKS; nia).
    rewrite write_empty_run; [done|unfold VTOC_BLOCKS; lia|lia|nia|nia].
Qed.

End FdasdIoProofs.
