(* ===== verification/FdasdReread.v ===== *)
(** Writing a VTOC and reading it again (src/fdasd/fdasd.c): the blocks that
    [fdasd_write_vtoc_labels] writes are the ones that
    [fdasd_process_valid_vtoc] turns back into the same partitions. *)
From S2P Require Import Prelude Ebcdic Cchh Codec Labels LabelOps VtocIo Extents Freespace FdasdState.
From S2P Require Import FdasdTable FdasdLayout FdasdList FdasdInput FdasdPart FdasdVolume FdasdVtoc FdasdVtocProofs.
From S2P Require Import FdasdConf FdasdConfProofs FdasdIo FdasdRead FdasdReadProofs FdasdIoProofs.
Import Ebcdic Addr VtocIo Extents Freespace Fdasd FdasdTable FdasdLayout FdasdList FdasdInput FdasdPart
  FdasdVolume FdasdVtoc FdasdVtocProofs FdasdConf FdasdConfProofs FdasdIo FdasdRead FdasdReadProofs FdasdIoProofs.

Module FdasdReread.

(** ** The format identifier *)

(** Every label has its identifier in byte 44, so that a label can be read as a
    format 1 label to find out what it is. *)
Definition fmt_byte (bs : list Z) : Z := take 1 (drop 44 bs) !!! 0%nat.

Lemma fmt_byte_1 bs : DS1FMTID (cdec cformat1 bs) = fmt_byte bs.
Proof. reflexivity. Qed.
Lemma fmt_byte_5 bs : DS5FMTID (cdec cformat5 bs) = fmt_byte bs.
Proof. cbn. unfold fmt_byte. by rewrite !drop_drop. Qed.
Lemma fmt_byte_7 bs : DS7FMTID (cdec cformat7 bs) = fmt_byte bs.
Proof. cbn. unfold fmt_byte. by rewrite !drop_drop. Qed.
Lemma fmt_byte_9 bs : DS9FMTID (cdec cformat9 bs) = fmt_byte bs.
Proof. cbn. unfold fmt_byte. by rewrite !drop_drop. Qed.

Lemma f5_not_part f : cvalid cformat5 f → DS5FMTID f = 0xf5 → is_f1_f8 (cdec cformat1 (cenc cformat5 f)) = false.
Proof.
  intros Hv Hf. unfold is_f1_f8. rewrite fmt_byte_1, <- fmt_byte_5, (cdec_enc (c := cformat5)), Hf by exact Hv. reflexivity.
Qed.
Lemma f7_not_part f : cvalid cformat7 f → DS7FMTID f = 0xf7 → is_f1_f8 (cdec cformat1 (cenc cformat7 f)) = false.
Proof.
  intros Hv Hf. unfold is_f1_f8. rewrite fmt_byte_1, <- fmt_byte_7, (cdec_enc (c := cformat7)), Hf by exact Hv. reflexivity.
Qed.
Lemma f9_not_part f : cvalid cformat9 f → DS9FMTID f = 0xf9 → is_f1_f8 (cdec cformat1 (cenc cformat9 f)) = false.
Proof.
  intros Hv Hf. unfold is_f1_f8. rewrite fmt_byte_1, <- fmt_byte_9, (cdec_enc (c := cformat9)), Hf by exact Hv. reflexivity.
Qed.
Lemma zero_not_part : is_f1_f8 (cdec cformat1 (cenc cformat1 zero_format1)) = false.
Proof. vm_compute. reflexivity. Qed.

(** ** The labels of consecutive blocks *)

Definition block_label (d : device) (pos bs : Z) (i : nat) : format1_label_t :=
  cdec cformat1 (dev_read d (pos + Z.of_nat i * bs) 140).
Definition block_labels (d : device) (pos bs : Z) (i n : nat) : list format1_label_t :=
  map (block_label d pos bs) (seq i n).

Lemma block_label_read d p :
  dev_readable d = true → area_ok d p 140 →
  vtoc_read_label d p true false false false = Done (Some (cdec cformat1 (dev_read d p 140)), None, None, None).
Proof.
  intros Hr (Hp & Hl & Hm). rewrite read_label_1. unfold get_label, seek_fails.
  rewrite Hr, (proj2 (Z.leb_gt _ _)) by lia. change (csize cformat1) with 140%nat. cbn [negb]. cbv zeta.
  rewrite (proj2 (Nat.eqb_eq _ _)); [done|]. unfold dev_read. rewrite length_take, length_drop. lia.
Qed.

Lemma on_blocks_area d pos bs n : ∀ i,
  dev_readable d = true → 140 <= bs → 0 <= pos → area_ok d pos (Z.of_nat (i + n) * bs) →
  on_blocks d bs (pos + Z.of_nat i * bs) (block_labels d pos bs i n).
Proof.
  induction n as [|n IH]; intros i Hr Hb Hp (_ & Hl & Hm); [constructor|]. unfold block_labels. cbn [seq map].
  constructor.
  - apply block_label_read; [done|]. split; [nia|]. split; nia.
  - rewrite u64_small by nia. replace (pos + Z.of_nat i * bs + bs) with (pos + Z.of_nat (S i) * bs) by lia.
    apply IH; try done. replace (S i + n)%nat with (i + S n)%nat by lia. done.
Qed.

Lemma block_labels_app d pos bs i n m :
  block_labels d pos bs i (n + m) = block_labels d pos bs i n ++ block_labels d pos bs (i + n) m.
Proof. unfold block_labels. by rewrite seq_app, map_app. Qed.

(** blocks that were written, and blocks that were not *)
Lemma block_labels_images d pos bs ims :
  (∀ i im, ims !! i = Some im → dev_read d (pos + Z.of_nat i * bs) 140 = im) →
  block_labels d pos bs 0 (length ims) = map (cdec cformat1) ims.
Proof.
  intros H. apply list_eq. intros i. unfold block_labels. rewrite !list_lookup_fmap.
  destruct (ims !! i) as [im|] eqn:E.
  - pose proof (lookup_lt_Some _ _ _ E). rewrite lookup_seq_lt by done. simpl. unfold block_label.
    by rewrite (H i im E).
  - apply lookup_ge_None in E. by rewrite lookup_seq_ge.
Qed.

Lemma block_labels_frame d d' pos bs i n :
  0 <= pos → 0 <= bs → written d d' pos (Z.of_nat i * bs) →
  block_labels d' pos bs i n = block_labels d pos bs i n.
Proof.
  intros Hp Hb (_ & _ & _ & W). unfold block_labels. apply map_ext_in. intros j Hj. apply in_seq in Hj.
  unfold block_label. rewrite W; [done|nia|nia].
Qed.

(** ** The partition labels among them *)

Lemma part_labels_app ls ls' : part_labels (ls ++ ls') = part_labels ls ++ part_labels ls'.
Proof. unfold part_labels. by rewrite filter_app, map_app. Qed.

Lemma part_labels_none ls : Forall (λ f, is_f1_f8 f = false) ls → part_labels ls = [].
Proof.
  intros H. unfold part_labels. induction H as [|f ls Hf _ IH]; [done|].
  rewrite filter_cons_False by (by rewrite Hf). exact IH.
Qed.

Lemma part_labels_parts f9 fs :
  cvalid cformat9 f9 → DS9FMTID f9 = 0xf9 → Forall (λ f, cvalid cformat1 f ∧ is_f1_f8 f = true) fs →
  part_labels (map (cdec cformat1) (parts_images f9 fs)) = map renamed fs.
Proof.
  intros H9 Hid. induction 1 as [|f fs [Hv Hf] _ IH]; [done|].
  unfold parts_images in *. cbn [map concat]. rewrite map_app, part_labels_app, IH.
  assert (E : part_labels (map (cdec cformat1) (part_images f9 f)) = [renamed f]); [|by rewrite E].
  assert (E1 : part_labels [f] = [renamed f]) by (unfold part_labels; by rewrite filter_cons_True).
  unfold part_images. destruct (_ =? 0xf8); cbn [map]; rewrite (cdec_enc (c := cformat1)) by exact Hv; [|exact E1].
  change (?a :: ?b :: []) with ([a] ++ [b]). rewrite part_labels_app, E1, (part_labels_none [_]); [done|].
  constructor; [by apply f9_not_part|constructor].
Qed.

(** the labels behind the format 4 label *)
Definition labels_wf (anc : fdasd_anchor) (fs : list format1_label_t) : Prop :=
  cvalid cformat4 (a_f4 anc) ∧ (cvalid cformat5 (a_f5 anc) ∧ DS5FMTID (a_f5 anc) = 0xf5) ∧
  (cvalid cformat7 (a_f7 anc) ∧ DS7FMTID (a_f7 anc) = 0xf7) ∧
  (cvalid cformat9 (a_f9 anc) ∧ DS9FMTID (a_f9 anc) = 0xf9) ∧
  Forall (λ f, cvalid cformat1 f ∧ is_f1_f8 f = true) fs.

Lemma part_labels_vtoc anc fs :
  labels_wf anc fs → part_labels (map (cdec cformat1) (tail (vtoc_images anc fs))) = map renamed fs.
Proof.
  intros (_ & [H5 I5] & [H7 I7] & [H9 I9] & Hfs). unfold vtoc_images, head_images.
  cbv zeta. generalize (length (([cenc cformat4 (a_f4 anc); cenc cformat5 (a_f5 anc)] ++
    (if a_big_disk anc =? 0 then [] else [cenc cformat7 (a_f7 anc)])) ++ parts_images (a_f9 anc) fs)) as k.
  intros k. cbn [app tail]. change (?a :: ?l) with ([a] ++ l). rewrite <- !app_assoc.
  rewrite !map_app, !part_labels_app.
  rewrite (part_labels_none (map _ [_])) by (constructor; [by apply f5_not_part|constructor]).
  rewrite (part_labels_parts _ _ H9 I9 Hfs).
  assert (E7 : part_labels (map (cdec cformat1) (if a_big_disk anc =? 0 then [] else [cenc cformat7 (a_f7 anc)])) = []).
  { destruct (_ =? 0); [done|]. apply part_labels_none. constructor; [by apply f7_not_part|constructor]. }
  rewrite E7, (part_labels_none (map _ (replicate _ _))), app_nil_r; [done|].
  apply Forall_map, Forall_replicate. exact zero_not_part.
Qed.

Lemma vtoc_images_length anc fs : (length fs <= 3)%nat → length (vtoc_images anc fs) = 9%nat.
Proof.
  intros H. unfold vtoc_images. cbv zeta. rewrite !length_app, length_replicate.
  pose proof (parts_images_length (a_f9 anc) fs). pose proof (head_images_length anc). lia.
Qed.

Lemma vtoc_images_sizes anc fs : labels_wf anc fs → Forall (λ im, length im = 140%nat) (vtoc_images anc fs).
Proof.
  intros (H4 & [H5 _] & [H7 _] & [H9 _] & Hfs). unfold vtoc_images. cbv zeta.
  apply Forall_app. split; [apply Forall_app; split|].
  - unfold head_images. constructor; [by apply (cenc_length (c := cformat4))|].
    constructor; [by apply (cenc_length (c := cformat5))|].
    destruct (_ =? 0); [constructor|constructor; [by apply (cenc_length (c := cformat7))|constructor]].
  - induction Hfs as [|f fs [Hf _] _ IH]; [constructor|]. unfold parts_images in *. cbn [map concat].
    apply Forall_app. split; [|exact IH]. unfold part_images.
    destruct (_ =? _); (constructor; [by apply (cenc_length (c := cformat1))|]); [|constructor].
    constructor; [by apply (cenc_length (c := cformat9))|constructor].
  - apply Forall_replicate. vm_compute. reflexivity.
Qed.

(** ** The same tracks *)

Lemma used_labels_cons p l :
  used_labels (p :: l) = if is_used p then p_f1 p :: used_labels l else used_labels l.
Proof.
  unfold used_labels. destruct (is_used p) eqn:E;
    [by rewrite filter_cons_True|by rewrite filter_cons_False by (by rewrite E)].
Qed.

Lemma used_labels_unused l : Forall unused l → used_labels l = [].
Proof.
  induction 1 as [|p l Hp _ IH]; [done|]. rewrite used_labels_cons. destruct Hp as (Hp & _). unfold is_used.
  by rewrite Hp.
Qed.

Lemma layout_ascending geo limit pos fs l :
  layout limit pos fs l → Forall (f1_ok geo) l → Forall (λ f, is_f1_f8 f = true) (used_labels l) →
  ascending geo limit pos (used_labels l).
Proof.
  induction 1 as [pos l Hp Hu|pos p l Hu Hp Hs Hlen _ IH]; intros Hf Hk.
  - rewrite used_labels_unused by done. by constructor.
  - rewrite used_labels_cons in *. unfold is_used in *. rewrite Hu in *. cbn [Z.eqb Pos.eqb] in *.
    apply Forall_cons in Hf as [Hf1 Hf]. apply Forall_cons in Hk as [Hk1 Hk].
    destruct (Hf1 Hu) as [E1 E2]. constructor; unfold f1_start, f1_stop; rewrite ?E1, ?E2; try done. by apply IH.
Qed.

Lemma used_tracks_labels geo l t :
  Forall (f1_ok geo) l →
  used_tracks l t ↔ ∃ f, f ∈ used_labels l ∧ f1_start geo f <= t <= f1_stop geo f.
Proof.
  intros Hf. unfold used_tracks, used_labels, in_part. rewrite Forall_forall in Hf. split.
  - intros (p & Hp & Hu & Ht). destruct (Hf p Hp Hu) as [E1 E2]. exists (p_f1 p). split.
    + apply (list_elem_of_fmap_2 p_f1), list_elem_of_filter. split; [|done]. unfold is_used. by rewrite Hu.
    + unfold f1_start, f1_stop. by rewrite E1, E2.
  - intros (f & Hin & Ht). apply list_elem_of_fmap in Hin as (p & -> & Hp).
    apply list_elem_of_filter in Hp as [Hu Hp]. apply Z.eqb_eq in Hu. destruct (Hf p Hp Hu) as [E1 E2].
    exists p. split; [done|]. split; [done|]. unfold f1_start, f1_stop in Ht. by rewrite E1, E2 in Ht.
Qed.

(** labels of the same data sets *)
Lemma renamed_same f : same_data_set f (renamed f).
Proof. unfold renamed, name_enc, name_dec. etrans; apply same_data_set_name. Qed.

Lemma same_start geo f g : same_data_set f g → f1_start geo g = f1_start geo f ∧ f1_stop geo g = f1_stop geo f.
Proof. intros [E _]. unfold f1_start, f1_stop. by rewrite E. Qed.
Lemma same_kind f g : same_data_set f g → is_f1_f8 g = is_f1_f8 f.
Proof. intros [_ E]. unfold is_f1_f8. by rewrite E. Qed.

Lemma ascending_same geo limit pos fs gs :
  Forall2 same_data_set fs gs → ascending geo limit pos fs → ascending geo limit pos gs.
Proof.
  intros H2. revert pos. induction H2 as [|f g fs gs Hfg _ IH]; intros pos Ha; inversion Ha; subst.
  - by constructor.
  - destruct (same_start geo f g Hfg) as [E1 E2]. constructor; rewrite ?E1, ?E2, ?(same_kind f g Hfg); auto.
Qed.

Lemma tracks_same geo fs gs t :
  Forall2 same_data_set fs gs →
  (∃ f, f ∈ gs ∧ f1_start geo f <= t <= f1_stop geo f) ↔ (∃ f, f ∈ fs ∧ f1_start geo f <= t <= f1_stop geo f).
Proof.
  induction 1 as [|f g fs gs Hfg _ IH]; [done|]. destruct (same_start geo f g Hfg) as [E1 E2].
  setoid_rewrite elem_of_cons. split.
  - intros (h & [->|Hh] & Ht); [exists f; rewrite E1, E2 in Ht; by auto|].
    destruct (proj1 IH) as (k & Hk & Hkt); [by exists h|]. exists k. auto.
  - intros (h & [->|Hh] & Ht); [exists g; rewrite E1, E2; by auto|].
    destruct (proj2 IH) as (k & Hk & Hkt); [by exists h|]. exists k. auto.
Qed.

(** ** Writing and reading *)

(** the blocks of the VTOC track behind the nine that are written hold no
    partition labels *)
Definition quiet_rest (geo : hd_geometry) (d : device) (blk bs : Z) : Prop :=
  Forall (λ f, is_f1_f8 f = false) (block_labels d blk bs 9 (Z.to_nat (geo_sectors geo - 9))).

(** The volume of [anc] can be written to [d]: there is a VTOC pointer, the track
    it points to lies on the device, and none of the partitions has a name yet. *)
Record writable (geo : hd_geometry) (d : device) (anc : fdasd_anchor) (x y z : nat) (kind : Z) : Prop := {
  wr_labels : labels_ok anc x y z kind;
  wr_new : a_partno anc = replicate 3 (-1);
  wr_serial : serial_ok (a_vlabel anc);
  wr_cyl : f4_cylinders (a_f4 anc) = a_formatted_cylinders anc;
  wr_fmt : DS4IDFMT (a_f4 anc) = 0xf4;
  wr_sectors : 9 <= geo_sectors geo;
  wr_blksize : 140 <= a_blksize anc < 2 ^ 28;
  wr_ptr : cchhb2blk (vl_vtoc (a_vlabel anc)) geo ≠ 0;
  wr_blk : 0 < vtoc_blk geo anc;
  wr_area : area_ok d (vtoc_blk geo anc) (geo_sectors geo * a_blksize anc);
  wr_open : dev_readable d = true ∧ dev_writable d = true;
  wr_quiet : quiet_rest geo d (vtoc_blk geo anc) (a_blksize anc)
}.

Lemma labels_ok_wf anc x y z kind fs :
  labels_ok anc x y z kind → Forall (cvalid cformat1) fs →
  Forall2 same_data_set (used_labels (plist (a_tab anc) x y z)) fs → labels_wf anc fs.
Proof.
  intros [L4 L5 L7 L9 I5 I7 I9 Lk Lp] Hv H2. unfold labels_wf. do 4 (split; [done|]).
  clear L4 L5 L7 L9 I5 I7 I9. generalize dependent (used_labels (plist (a_tab anc) x y z)). intros us Hus H2.
  revert Hv Hus. induction H2 as [|u f us fs Huf _ IH]; intros Hv Hus; [constructor|].
  apply Forall_cons in Hv as [Hf Hv]. apply Forall_cons in Hus as [[_ Hk] Hus]. constructor; [|by apply IH].
  split; [done|]. rewrite (same_kind u f Huf). unfold is_f1_f8. rewrite Hk. by destruct Lk as [->| ->].
Qed.

(** Writing the VTOC changes nothing but its nine blocks, and the labels of the
    VTOC track are the images of the written ones. *)
Lemma write_vtoc_blocks geo d anc x y z kind :
  linked (a_tab anc) x y z → writable geo d anc x y z kind →
  let blk := vtoc_blk geo anc in
  let bs := a_blksize anc in
  ∃ d' anc' fs, fdasd_write_vtoc_labels geo d anc = Done (d', anc') ∧ written d d' blk (9 * bs) ∧
    dev_readable d' = true ∧ area_ok d' blk (geo_sectors geo * bs) ∧
    get_label cformat4 d' blk = Done (a_f4 anc) ∧
    part_labels (block_labels d' blk bs 1 (Z.to_nat (geo_sectors geo - 1))) = map renamed fs ∧
    Forall2 same_data_set (used_labels (plist (a_tab anc) x y z)) fs.
Proof.
  intros Hlk [Hlo Hpn Hser Hcyl Hid Hsec Hbs Hptr Hblk Har [Hr Hw] Hq] blk bs. fold blk bs in Har, Hq, Hblk, Hbs.
  pose proof Har as (Ha0 & Ha1 & Ha2).
  destruct (write_vtoc_run geo anc x y z kind Hlk Hlo Hpn Hser) as (fs & anc' & Hrun & Hv & H2);
    [lia|fold bs; lia|exact Hptr|done|fold blk bs; nia|]. fold blk bs in Hrun.
  pose proof (labels_ok_wf _ _ _ _ _ _ Hlo Hv H2) as Hwf.
  assert (Hl3 : (length fs <= 3)%nat).
  { rewrite <- (Forall2_length _ _ _ H2). apply used_labels_length. }
  pose proof (vtoc_images_length anc fs Hl3) as H9.
  destruct (put_run_ok bs (vtoc_images anc fs) d blk) as (d' & Hput & Hwr & Hrd);
    [lia|by apply vtoc_images_sizes|done|rewrite H9; split; [lia|split; nia]|].
  rewrite H9 in Hwr. exists d', anc', fs. rewrite Hrun, Hput, Done_bind.
  pose proof Hwr as (R1 & _ & R3 & _).
  split; [done|]. split; [exact Hwr|]. split; [congruence|]. split; [split; [lia|rewrite R3; lia]|].
  split; [|split; [|exact H2]].
  - specialize (Hrd 0%nat (cenc cformat4 (a_f4 anc))). rewrite Z.add_0_r in Hrd.
    unfold get_label, seek_fails. rewrite R1, Hr, (proj2 (Z.leb_gt _ _)) by nia. cbv zeta. cbn [negb].
    change (csize cformat4) with 140%nat. rewrite Hrd by reflexivity.
    rewrite (cenc_length (c := cformat4)) by (apply (lo_f4 _ _ _ _ _ Hlo)). cbn [Nat.eqb csize negb].
    rewrite (cdec_enc (c := cformat4)) by (apply (lo_f4 _ _ _ _ _ Hlo)). done.
  - pose proof (block_labels_images d' blk bs _ Hrd) as Him. rewrite H9 in Him.
    replace (Z.to_nat (geo_sectors geo - 1)) with (8 + Z.to_nat (geo_sectors geo - 9))%nat by lia.
    rewrite block_labels_app, part_labels_app. change (1 + 8)%nat with 9%nat.
    rewrite (block_labels_frame d d' blk bs 9) by (try lia; exact Hwr).
    rewrite (part_labels_none (block_labels d _ _ _ _)) by exact Hq. rewrite app_nil_r.
    rewrite <- (part_labels_vtoc anc fs Hwf). f_equal.
    change 9%nat with (1 + 8)%nat in Him. rewrite block_labels_app in Him. change (0 + 1)%nat with 1%nat in Him.
    apply (f_equal tail) in Him. etrans; [exact Him|]. by destruct (vtoc_images anc fs).
Qed.

(** The volume that is read back has the partitions of the one that was written. *)
Lemma write_then_read geo d anc x y z kind anc0 stdin x0 y0 z0 :
  geometry_ok geo anc → volume geo anc x y z → writable geo d anc x y z kind →
  fresh anc0 x0 y0 z0 → a_blksize anc0 = a_blksize anc →
  let blk := vtoc_blk geo anc in
  ∃ d' anc' anc1, fdasd_write_vtoc_labels geo d anc = Done (d', anc') ∧
    written d d' blk (9 * a_blksize anc) ∧
    fdasd_valid_vtoc_pointer geo d' (anc0, stdin) blk = Done (true, (anc1, stdin)) ∧
    linked (a_tab anc1) x0 y0 z0 ∧ a_formatted_cylinders anc1 = a_formatted_cylinders anc ∧
    a_used_partitions anc1 = u32 (geo_sectors geo - 2 - DS4DSREC (a_f4 anc)) ∧
    layout (last_trk geo anc) FIRST_USABLE_TRK (a_fspace_trk anc1) (plist (a_tab anc1) x0 y0 z0) ∧
    ∀ t, used_tracks (plist (a_tab anc1) x0 y0 z0) t ↔ used_tracks (plist (a_tab anc) x y z) t.
Proof.
  intros Hg [Hlk Hlay Hcnt Hf1 _] Hwr [F1 F2 _] Ebs blk.
  destruct (write_vtoc_blocks geo d anc x y z kind Hlk Hwr) as (d' & anc' & fs & Hw & Hwrt & Hr & Har & H4 & Hpl & H2).
  fold blk in Hw, Hwrt, Har, H4, Hpl. destruct Hwr as [Hlo _ _ Hcyl Hid Hsec Hbs _ Hblk Ha _ _].
  fold blk in Ha, Hblk. pose proof Ha as (Ha0 & Ha1 & Ha2).
  set (bs := a_blksize anc) in *. set (ls := block_labels d' blk bs 1 (Z.to_nat (geo_sectors geo - 1))) in *.
  set (anc2 := set_a_f4 (a_f4 anc) anc0).
  assert (HE : Forall2 same_data_set (used_labels (plist (a_tab anc) x y z)) (map renamed fs)).
  { clear -H2. induction H2 as [|u f us fs Hu _ IH]; cbn [map]; constructor; [|done]. etrans; [exact Hu|apply renamed_same]. }
  assert (Hkind : Forall (λ f, DS1FMTID f = kind) (map renamed fs)).
  { destruct Hlo as [_ _ _ _ _ _ _ _ Hp]. clear -HE Hp. induction HE as [|u f us gs [_ Hu] _ IH]; [constructor|].
    apply Forall_cons in Hp as [[_ Hk] Hp]. constructor; [congruence|by apply IH]. }
  destruct (process_valid_vtoc_layout geo d' anc2 blk x0 y0 z0 ls kind) as (anc1 & Hp & Hsd & Hl1 & Hc1 & Hly & _ & Hu).
  - apply (geometry_ok_frame geo anc); [exact Ebs|exact Hcyl|reflexivity|exact Hg].
  - exact F1.
  - exact F2.
  - change (a_blksize anc2) with (a_blksize anc0). rewrite Ebs, u64_small by nia.
    replace (blk + bs) with (blk + Z.of_nat 1 * bs) by lia. apply on_blocks_area; [done|lia|lia|].
    destruct Har as (? & ? & ?). split; [lia|]. split; nia.
  - unfold ls, block_labels. rewrite length_map, length_seq. lia.
  - rewrite Hpl, <- (Forall2_length _ _ _ HE). apply used_labels_length.
  - rewrite Hpl. exact Hkind.
  - destruct (lo_kind _ _ _ _ _ Hlo); lia.
  - rewrite Hpl. unfold last_trk. cbn [a_formatted_cylinders set_a_formatted_cylinders a_f4 set_a_f4 anc2].
    rewrite Hcyl. apply (ascending_same _ _ _ _ _ HE), (layout_ascending _ _ _ (a_fspace_trk anc)); [done..|].
    destruct Hlo as [_ _ _ _ _ _ _ Hk Hp]. eapply Forall_impl; [exact Hp|]. intros f [_ Hf]. unfold is_f1_f8.
    rewrite Hf. by destruct Hk as [->| ->].
  - exists d', anc', anc1. split; [exact Hw|]. split; [exact Hwrt|].
    assert (El : last_trk geo (set_a_formatted_cylinders (f4_cylinders (a_f4 anc2)) anc2) = last_trk geo anc)
      by (unfold last_trk; cbn [a_formatted_cylinders set_a_formatted_cylinders a_f4 set_a_f4 anc2]; by rewrite Hcyl).
    rewrite El in Hly. split; [|split; [exact Hl1|split; [|split; [exact Hc1|split; [exact Hly|]]]]].
    + unfold fdasd_valid_vtoc_pointer. rewrite read_label_4, H4, !Done_bind. cbn [deref]. rewrite Done_bind, Hid.
      cbn [Z.eqb Pos.eqb negb]. fold anc2. by rewrite Hp, Done_bind.
    + rewrite (sd_formatted _ _ Hsd). exact Hcyl.
    + intros t. rewrite Hu, Hpl, (tracks_same _ _ _ _ HE). by rewrite (used_tracks_labels geo).
Qed.

End FdasdReread.
