(* ===== verification/FdasdSerial.v ===== *)
(** The volume label that fdasd makes (src/fdasd/fdasd.c, [fdasd_init_volume_label]):
    a checked serial number survives the translation, and the label is a VOL1
    label that points to the VTOC. *)
From S2P Require Import Prelude Ebcdic Cchh Codec Labels LabelOps VtocIo FdasdState FdasdInput FdasdPart FdasdVtoc.
From S2P Require Import FdasdConf FdasdIo FdasdIoProofs.
Import Ebcdic Addr VtocIo Fdasd FdasdInput FdasdPart FdasdVtoc FdasdConf FdasdIo FdasdIoProofs.

Module FdasdSerial.

(** ** Serial numbers *)

(** The characters of a checked serial survive the label. *)
Lemma volser_char_ok c : volser_char c = true → roundtrip_char (toupper (toupper c)) = true ∧ in_u8 (toupper c).
Proof.
  intros H. assert (Hc : in_u8 c).
  { unfold volser_char in H. rewrite !orb_true_iff in H. unfold in_u8.
    destruct H as [[[H|H]|H]|H]; apply andb_true_iff in H as [H1 H2]; apply Z.leb_le in H1, H2; lia. }
  byte_check (λ c, implb (volser_char c) (roundtrip_char (toupper (toupper c)) && is_byte (toupper c))) c E.
  cbv beta in E. rewrite H in E. cbn [implb] in E. apply andb_true_iff in E as [E1 E2]. split; [exact E1|].
  unfold is_byte in E2. apply andb_true_iff in E2 as [E2 E3]. unfold in_u8. b2p. lia.
Qed.

Lemma hex_digit_ok d : 0 <= d < 16 → roundtrip_char (toupper (hex_digit d)) = true ∧ in_u8 (hex_digit d).
Proof.
  intros Hd. assert (Hc : in_u8 d) by (unfold in_u8; lia).
  byte_check (λ d, implb (d <? 16) (roundtrip_char (toupper (hex_digit d)) && is_byte (hex_digit d))) d E.
  cbv beta in E. rewrite (proj2 (Z.ltb_lt _ _)) in E by lia. cbn [implb] in E.
  apply andb_true_iff in E as [E1 E2]. split; [exact E1|].
  unfold is_byte in E2. apply andb_true_iff in E2 as [E2 E3]. unfold in_u8. b2p. lia.
Qed.

Lemma default_volser_ok devno :
  Forall (λ c, roundtrip_char (toupper c) = true ∧ in_u8 c) (default_volser devno).
Proof.
  unfold default_volser, hex04. apply Forall_app. split; [repeat constructor; vm_compute; congruence|].
  apply Forall_app. split; [apply Forall_replicate; split; [reflexivity|vm_compute; intuition congruence]|].
  generalize (u32 devno). generalize 8%nat. intros n. induction n as [|n IH]; intros x; [constructor|].
  cbn [hex_digits]. apply Forall_app. split; [destruct (x <? 16); [constructor|apply IH]|].
  constructor; [|constructor]. apply hex_digit_ok. apply Z.mod_pos_bound. lia.
Qed.

Lemma check_volser_ok l devno :
  Forall (λ c, roundtrip_char (toupper c) = true ∧ in_u8 c) (fdasd_check_volser l devno).
Proof.
  unfold fdasd_check_volser. set (kept := map toupper _).
  assert (Hk : Forall (λ c, roundtrip_char (toupper c) = true ∧ in_u8 c) kept).
  { unfold kept. apply Forall_map, Forall_forall. intros c Hc. apply list_elem_of_filter in Hc as [Hc _].
    by apply volser_char_ok. }
  destruct kept; [apply default_volser_ok|exact Hk].
Qed.

(** ** The label *)

Lemma volser_field_ok volser :
  Forall (λ c, roundtrip_char (toupper c) = true ∧ in_u8 c) volser →
  length (volser_field volser) = 6%nat ∧ bytes_ok (volser_field volser) ∧
  Forall (λ c, c ≠ 0) (volser_field volser) ∧ Forall (λ c, c ≠ 0) (map ebc2asc (volser_field volser)).
Proof.
  intros H. apply Forall_and in H as [Hr Hb]. destruct (take_cstr_bytes VOLSER_LENGTH volser Hb) as [Htb Htn].
  unfold volser_field. rewrite map_app, !Forall_app. split.
  - rewrite length_app, length_replicate, !length_map, length_take. unfold VOLSER_LENGTH. lia.
  - split; [|split; split].
    + apply Forall_app. split; [|apply Forall_replicate; unfold in_u8; lia].
      rewrite !Forall_map. eapply Forall_impl; [exact Htb|]. intros c Hc. apply asc2ebc_byte.
    + by apply encoded_no_nul.
    + apply Forall_replicate. lia.
    + rewrite map_dec_enc; [|apply Forall_map, Forall_take].
      * apply Forall_map. eapply Forall_impl; [exact Htn|]. apply toupper_nonzero.
      * clear Hb Htb Htn. induction Hr as [|c l Hc _ IH]; simpl; [constructor|].
        destruct (c =? 0); [constructor|by constructor].
    + rewrite (fmap_replicate ebc2asc). apply Forall_replicate. vm_compute. congruence.
Qed.

(** the fields of the label that are set *)
Lemma set_fields_valid vl key lbl id ptr :
  cvalid cvolume_label vl → cvalid (cbytes 4) key → cvalid (cbytes 4) lbl → cvalid (cbytes 6) id → cvalid ccchhb ptr →
  cvalid cvolume_label (set_vl_vtoc (set_volid (set_vollbl (set_volkey vl key) lbl) id) ptr).
Proof. destruct vl. intros H1 H2 H3 H4 H5. cbn in *. naive_solver. Qed.

Lemma init_label_valid vl : cvalid cvolume_label vl → cvalid cvolume_label (vtoc_volume_label_init vl).
Proof.
  intros Hv. unfold vtoc_volume_label_init. pose proof (cenc_length (c := cvolume_label) vl Hv) as Hl.
  pose proof (cenc_bytes (c := cvolume_label) vl Hv) as Hb.
  assert (E : vtoc_ebcdic_enc_inplace (replicate 84 32) 84 = replicate 84 64) by (vm_compute; reflexivity).
  cbv zeta. rewrite E. apply (cdec_valid (c := cvolume_label)).
  - rewrite length_memcpy_at; [exact Hl|]. rewrite length_replicate, Hl. vm_compute. lia.
  - unfold memcpy_at. rewrite take_0, app_nil_l. apply Forall_app.
    split; [apply Forall_replicate; unfold in_u8; lia|]. by apply Forall_drop.
Qed.

Lemma set_volser_fields vl volser :
  Forall in_u8 volser → vtoc_volume_label_set_volser vl volser = set_volid vl (volser_field volser).
Proof.
  intros Hb. pose proof (set_volser_spec vl volser Hb) as E. revert E. unfold vtoc_volume_label_set_volser. cbv zeta.
  rewrite volid_set_volid. intros ->. by destruct vl.
Qed.

Lemma dec_volser_field vl volser :
  volid vl = volser_field volser → Forall (λ c, roundtrip_char (toupper c) = true ∧ in_u8 c) volser → serial_ok vl.
Proof.
  intros E H. destruct (volser_field_ok volser H) as (H1 & H2 & H3 & H4). unfold serial_ok, dec_volser.
  rewrite E. split; [done|]. assert (Et : take VOLSER_LENGTH (volser_field volser) = volser_field volser) by (apply take_ge; by rewrite H1).
  rewrite strncpy_full by (rewrite ?Et, ?H1; done). rewrite Et. unfold vtoc_ebcdic_dec_inplace.
  rewrite translate_inplace_alias, translate_spec by (rewrite H1; done).
  unfold VOLSER_LENGTH. rewrite take_ge, drop_ge, app_nil_r by (rewrite H1; done). done.
Qed.

(** [fdasd_init_volume_label] without keeping the old serial always returns. *)
Lemma init_volume_label_ok d options anc stdin :
  a_keep_volser anc = 0 → cvalid cvolume_label (a_vlabel anc) →
  ∃ vl stdin', fdasd_init_volume_label d options (anc, stdin) = Done (changed_vlabel (set_a_vlabel vl anc), stdin') ∧
    cvalid cvolume_label vl ∧ vollbl vl = enc_str "VOL1" ∧ vl_vtoc vl = vtoc_first ∧ serial_ok vl.
Proof.
  intros Hk Hv. unfold fdasd_init_volume_label. rewrite Hk. cbn [Z.eqb negb].
  set (vl1 := vtoc_volume_label_set_label _ _).
  assert (Hs : ∀ volser (stdin' : list Z), Forall (λ c, roundtrip_char (toupper c) = true ∧ in_u8 c) volser →
    ∃ vl stdin'', Done (changed_vlabel (set_a_vlabel (set_vl_vtoc (vtoc_volume_label_set_volser vl1 volser) vtoc_first) anc), stdin')
      = Done (changed_vlabel (set_a_vlabel vl anc), stdin'') ∧
    cvalid cvolume_label vl ∧ vollbl vl = enc_str "VOL1" ∧ vl_vtoc vl = vtoc_first ∧ serial_ok vl).
  { intros volser stdin' Hvs. eexists _, _. split; [done|].
    destruct (volser_field_ok volser Hvs) as (L1 & L2 & _).
    rewrite set_volser_fields by (eapply Forall_impl; [exact Hvs|]; by intros c [_ ?]).
    unfold vl1, vtoc_volume_label_set_label, vtoc_volume_label_set_key. cbv zeta.
    split; [|split; [|split]].
    - apply set_fields_valid; [by apply init_label_valid|split; [done|apply bytes_ok_compute; by vm_compute]..|by split|].
      vm_compute. intuition congruence.
    - by destruct (vtoc_volume_label_init _).
    - by destruct (vtoc_volume_label_init _).
    - apply (dec_volser_field _ volser); [|done]. by destruct (vtoc_volume_label_init _). }
  destruct (op_volser options) as [v|]; [rewrite Done_bind; apply Hs, check_volser_ok|].
  destruct (_ || _); [rewrite Done_bind; apply Hs, default_volser_ok|].
  destruct (read_line stdin) as [ptr rest]. rewrite Done_bind. apply Hs, check_volser_ok.
Qed.

End FdasdSerial.
