(* ===== verification/FdasdSetup.v ===== *)
(** Start of fdasd (src/fdasd/fdasd.c): command line options, checks of the device
    and of the disk geometry.  What the kernel reports (stat, ioctls) is an
    argument. *)
From S2P Require Import Prelude Ebcdic Cchh Codec Labels LabelOps VtocIo FdasdState FdasdTable.
From S2P Require Import FdasdLayout FdasdInput FdasdPart FdasdVtocProofs FdasdConf FdasdIo.
From S2P Require Import FdasdRead FdasdReadProofs.

Import VtocIo Fdasd FdasdInput FdasdConf FdasdIo.

Module FdasdSetup.

(** ** Force option *)

Definition hex_val (c : Z) : option Z :=
  if (48 <=? c) && (c <=? 57) then Some (c - 48)
  else if (97 <=? c) && (c <=? 102) then Some (c - 87)
  else if (65 <=? c) && (c <=? 70) then Some (c - 55)
  else None.

(** value and rest of the leading hexadecimal digits; [None] without one *)
Fixpoint scan_hex (s : list Z) (acc : option Z) : option Z * list Z :=
  match s with
  | [] => (acc, [])
  | c :: r => match hex_val c with
              | Some v => scan_hex r (Some (default 0 acc * 16 + v))
              | None => (acc, s)
              end
  end.

(** [sscanf(s, "%x,%d", &devtype, &blksize)] for unsigned arguments; [None] when
    not both are converted *)
Definition scan_force (s : list Z) : option (Z * Z) :=
  let s := skip_while isspace (cstr s) in
  let s := if prefixb (bytes_of_string "0x") s || prefixb (bytes_of_string "0X") s then drop 2 s else s in
  match scan_hex s None with
  | (Some devtype, c :: r) =>
      if c =? 44 then
        let r := skip_while isspace r in
        let digits := match r with
                      | c :: r => if (c =? 45) || (c =? 43) then r else c :: r
                      | [] => []
                      end in
        if isdigit (headc digits) then Some (u32 devtype, u32 (atoi r)) else None
      else None
  | _ => None
  end.

Definition fdasd_parse_force_options (optarg : option (list Z)) (anc : fdasd_anchor) : outcome fdasd_anchor :=
  match optarg with
  | None => Done (set_a_blksize 4096 (set_a_dev_type DASD_3390_TYPE anc))
  | Some s =>
      match scan_force s with
      | None => fdasd_error parser_failed
      | Some (devtype, blksize) =>
          if (devtype =? DASD_3390_TYPE) || (devtype =? DASD_3380_TYPE) || (devtype =? DASD_9345_TYPE) then
            if (blksize =? 4096) || (blksize =? 2048) || (blksize =? 1024) || (blksize =? 512)
            then Done (set_a_blksize blksize (set_a_dev_type devtype anc))
            else fdasd_error parser_failed
          else fdasd_error parser_failed
      end
  end.

(** ** Command line *)

(** the options that [util_opt_getopt_long] returns, with their arguments *)
Inductive cmd_option :=
  | Opt_version | Opt_help | Opt_unknown
  | Opt_label (s : list Z) | Opt_auto | Opt_silent | Opt_verbose | Opt_table | Opt_volser
  | Opt_config (f : conf_file) | Opt_keep_volser | Opt_force (arg : option (list Z)) | Opt_check_host.

Definition inc (x : Z) : Z := s32 (x + 1).

(** one option; [Exited] for the options that end the program *)
Definition parse_option (opt : cmd_option) (st : fdasd_anchor * fdasd_options)
    : outcome (fdasd_anchor * fdasd_options) :=
  let '(anc, options) := st in
  let o := a_options anc in
  let upd o := Done (set_a_options o anc, options) in
  match opt with
  | Opt_version | Opt_help => Exited 0
  | Opt_unknown => Exited 1
  | Opt_label s => match op_volser options with
                   | Some _ => fdasd_error parser_failed
                   | None => Done (anc, Options (Some s) (op_conffile options))
                   end
  | Opt_auto => upd (AnchorOptions (inc (o_auto_partition o)) (o_print_table o) (o_print_volser o)
      (o_keep_volser o) (o_force_virtual o) (o_force_host o) (o_silent o) (o_verbose o)
      (o_option_reuse o) (o_option_recreate o))
  | Opt_silent => upd (AnchorOptions (o_auto_partition o) (o_print_table o) (o_print_volser o)
      (o_keep_volser o) (o_force_virtual o) (o_force_host o) (inc (o_silent o)) (o_verbose o)
      (o_option_reuse o) (o_option_recreate o))
  | Opt_verbose => upd (AnchorOptions (o_auto_partition o) (o_print_table o) (o_print_volser o)
      (o_keep_volser o) (o_force_virtual o) (o_force_host o) (o_silent o) (inc (o_verbose o))
      (o_option_reuse o) (o_option_recreate o))
  | Opt_table => upd (AnchorOptions (o_auto_partition o) (inc (o_print_table o)) (o_print_volser o)
      (o_keep_volser o) (o_force_virtual o) (o_force_host o) (o_silent o) (o_verbose o)
      (o_option_reuse o) (o_option_recreate o))
  | Opt_volser => upd (AnchorOptions (o_auto_partition o) (o_print_table o) (inc (o_print_volser o))
      (o_keep_volser o) (o_force_virtual o) (o_force_host o) (inc (o_silent o)) (o_verbose o)
      (o_option_reuse o) (o_option_recreate o))
  | Opt_config f => match op_conffile options with
                    | Some _ => fdasd_error parser_failed
                    | None => Done (anc, Options (op_volser options) (Some f))
                    end
  | Opt_keep_volser => upd (AnchorOptions (o_auto_partition o) (o_print_table o) (o_print_volser o)
      (inc (o_keep_volser o)) (o_force_virtual o) (o_force_host o) (o_silent o) (o_verbose o)
      (o_option_reuse o) (o_option_recreate o))
  | Opt_force arg =>
      anc ← fdasd_parse_force_options arg
        (set_a_options (AnchorOptions (o_auto_partition o) (o_print_table o) (o_print_volser o)
          (o_keep_volser o) (inc (o_force_virtual o)) (o_force_host o) (o_silent o) (o_verbose o)
          (o_option_reuse o) (o_option_recreate o)) anc);
      Done (anc, options)
  | Opt_check_host => upd (AnchorOptions (o_auto_partition o) (o_print_table o) (o_print_volser o)
      (o_keep_volser o) (o_force_virtual o) (inc (o_force_host o)) (o_silent o) (o_verbose o)
      (o_option_reuse o) (o_option_recreate o))
  end.

(** [devices]: the number of arguments behind the options *)
Fixpoint fdasd_parse_options (opts : list cmd_option) (devices : Z) (st : fdasd_anchor * fdasd_options)
    : outcome (fdasd_anchor * fdasd_options) :=
  match opts with
  | [] => if devices =? 1 then Done st else fdasd_error parser_failed
  | opt :: opts => st ← parse_option opt st; fdasd_parse_options opts devices st
  end.

Definition fdasd_verify_options (options : fdasd_options) (anc : fdasd_anchor) : outcome unit :=
  let volser := bool_decide (op_volser options ≠ None) in
  let conffile := bool_decide (op_conffile options ≠ None) in
  let auto := flag (a_auto_partition anc) in
  let table := flag (a_print_table anc) in
  let keep := flag (a_keep_volser anc) in
  if flag (a_print_volser anc) && (volser || keep || auto || conffile || table)
  then fdasd_error parser_failed
  else if volser && (negb auto && negb conffile) then fdasd_error parser_failed
  else if volser && (keep || table) then fdasd_error parser_failed
  else if keep && (negb auto && negb conffile) then fdasd_error parser_failed
  else if keep && table then fdasd_error parser_failed
  else if auto && (conffile || table) then fdasd_error parser_failed
  else if conffile && table then fdasd_error parser_failed
  else Done tt.

(** ** Device *)

(** what [stat], [dasd_sys_raw_track_access] and [dasd_get_host_access_count] report *)
Record device_status := DeviceStatus {
  st_stat_ok : bool;
  st_is_blk : bool;
  st_minor : Z;
  st_raw_track : bool;
  st_host_count : Z
}.

Definition PARTN_MASK : Z := 3.

Definition fdasd_verify_device (ds : device_status) (anc : fdasd_anchor) : outcome unit :=
  if negb (st_stat_ok ds) then fdasd_error device_verification_failed
  else if negb (st_is_blk ds) then fdasd_error device_verification_failed
  else if negb (flag (a_force_virtual anc)) && flag (Z.land (st_minor ds) PARTN_MASK)
  then fdasd_error device_verification_failed
  else if st_raw_track ds then fdasd_error device_verification_failed
  else if flag (a_force_host anc) && ((1 <? st_host_count ds) || (st_host_count ds <? 0))
  then fdasd_error device_verification_failed
  else Done tt.

(** the block that is read to test the access; [dasd_is_ro] is an argument *)
Definition fdasd_check_disk_access (geo : hd_geometry) (d : device) (ro_status_ok : bool)
    (anc : fdasd_anchor) : outcome unit :=
  if negb (dev_readable d) then fdasd_error unable_to_open_disk
  else
    let pos := s32 (a_blksize anc * (2 * geo_heads geo - 1)) in
    if pos <? 0 then fdasd_error unable_to_seek_disk
    else if negb (length (dev_read d pos (csize cformat1)) =? csize cformat1)%nat
    then fdasd_error unable_to_read_disk
    else if negb ro_status_ok then fdasd_error unable_to_ioctl
    else Done tt.

(** ** Geometry *)

Definition ceil_quot (d1 d2 : Z) : Z := u32 (d1 + u32 (d2 - 1)) / d2.

(** records of a given key and data length that fit on one track *)
Definition recs_per_track (dev_type kl dl : Z) : Z :=
  if dev_type =? DASD_3380_TYPE then
    if negb (kl =? 0)
    then 1499 / (15 + 7 + ceil_quot (u32 (kl + 12)) 32 + ceil_quot (u32 (dl + 12)) 32)
    else 1499 / (15 + ceil_quot (u32 (dl + 12)) 32)
  else if dev_type =? DASD_3390_TYPE then
    let dn := ceil_quot (u32 (dl + 6)) 232 + 1 in
    if negb (kl =? 0) then
      let kn := ceil_quot (u32 (kl + 6)) 232 + 1 in
      1729 / (10 + 9 + ceil_quot (u32 (kl + 6 * kn)) 34 + 9 + ceil_quot (u32 (dl + 6 * dn)) 34)
    else 1729 / (10 + 9 + ceil_quot (u32 (dl + 6 * dn)) 34)
  else if dev_type =? DASD_9345_TYPE then
    let dn := ceil_quot (u32 (dl + 6)) 232 + 1 in
    if negb (kl =? 0) then
      let kn := ceil_quot (u32 (kl + 6)) 232 + 1 in
      1420 / (18 + 7 + ceil_quot (u32 (kl + 6 * kn)) 34 + ceil_quot (u32 (dl + 6 * dn)) 34)
    else 1420 / (18 + 7 + ceil_quot (u32 (dl + 6 * dn)) 34)
  else 0.

Definition fdasd_verify_geometry (dev_type blksize : Z) (geometry : hd_geometry) : bool :=
  (geo_heads geometry =? 15) && (geo_sectors geometry =? recs_per_track dev_type 0 (u32 blksize)).

(** the fields of [dasd_information2_t] that are used *)
Record dasd_information := DasdInfo {
  di_no_cyl : Z;
  di_long_no_cyl : Z;
  di_eckd : bool;
  di_FBA_layout : Z;
  di_open_count : Z;
  di_dev_type : Z;
  di_label_block : Z;
  di_devno : Z
}.

(** results of the ioctls; [None] for a failure *)
Record disk_ioctls := DiskIoctls {
  ioc_size : option Z;
  ioc_geo : option hd_geometry;
  ioc_blksize : option Z;
  ioc_info : option dasd_information
}.

(** the geometry under the force option *)
Definition virtual_geometry (size_in_bytes : Z) (anc : fdasd_anchor) : outcome (hd_geometry * fdasd_anchor) :=
  let heads := 15 in
  let sectors := u8 (recs_per_track (a_dev_type anc) 0 (a_blksize anc)) in
  hw ← udiv size_in_bytes (u32 (a_blksize anc * heads * sectors));
  let hw := u32 hw in
  let cylinders := if hw <? LV_COMPAT_CYL then hw else LV_COMPAT_CYL in
  let anc := set_a_devno 0 (set_a_label_pos (u32 (2 * a_blksize anc)) (set_a_hw_cylinders hw anc)) in
  Done (Geo heads sectors cylinders 0, anc).

Definition fdasd_get_geometry (ioc : disk_ioctls) (anc : fdasd_anchor) : outcome (hd_geometry * fdasd_anchor) :=
  match ioc_size ioc with
  | None => fdasd_error unable_to_ioctl
  | Some size_in_bytes =>
      if flag (a_force_virtual anc) then virtual_geometry size_in_bytes anc
      else match ioc_geo ioc, ioc_blksize ioc with
           | Some geo, Some blksize =>
               match ioc_info ioc with
               | None =>
                   if negb (fdasd_verify_geometry DASD_3390_TYPE blksize geo)
                   then fdasd_error wrong_disk_type
                   else
                     hw ← udiv size_in_bytes (u32 (blksize * geo_heads geo * geo_sectors geo));
                     let anc := set_a_blksize blksize (set_a_dev_type DASD_3390_TYPE anc) in
                     let anc := set_a_hw_cylinders (u32 hw) anc in
                     Done (geo, set_a_devno 0 (set_a_label_pos (u32 (2 * blksize)) anc))
               | Some info =>
                   let hw := if (di_no_cyl info =? LV_COMPAT_CYL) && flag (di_long_no_cyl info)
                             then di_long_no_cyl info else di_no_cyl info in
                   let anc := set_a_hw_cylinders hw anc in
                   if negb (di_eckd info) then fdasd_error wrong_disk_type
                   else if flag (di_FBA_layout info) then fdasd_error wrong_disk_format
                   else if (1 <? di_open_count info) && flag (a_auto_partition anc)
                   then fdasd_error disk_in_use
                   else
                     let anc := set_a_blksize blksize (set_a_dev_type (u16 (di_dev_type info)) anc) in
                     let anc := set_a_label_pos (u32 (di_label_block info * blksize)) anc in
                     Done (geo, set_a_devno (s32 (di_devno info)) anc)
               end
           | _, _ => fdasd_error unable_to_ioctl
           end
  end.

End FdasdSetup.

(** The set-up of fdasd (src/fdasd/fdasd.c): which combinations of options are
    accepted, how many blocks a track holds, and the geometry of a virtual
    disk. *)

Import Addr Fdasd FdasdTable FdasdLayout FdasdInput FdasdPart FdasdVtocProofs FdasdIo FdasdReadProofs FdasdSetup.

Module FdasdSetupProofs.

(** ** Options *)

(** the ways to run: print the serial, print the table, one partition for the
    whole disk, a configuration file *)
Definition modes (options : fdasd_options) (anc : fdasd_anchor) : list bool :=
  [flag (a_print_volser anc); flag (a_print_table anc); flag (a_auto_partition anc);
   bool_decide (op_conffile options ≠ None)].

Definition count_true (l : list bool) : nat := length (filter (λ b, b = true) l).

(** at most one way to run, and a serial number only when a label is written *)
Definition options_ok (options : fdasd_options) (anc : fdasd_anchor) : Prop :=
  let volser := op_volser options ≠ None in
  let keep := a_keep_volser anc ≠ 0 in
  (count_true (modes options anc) <= 1)%nat ∧
  (volser ∨ keep → a_auto_partition anc ≠ 0 ∨ op_conffile options ≠ None) ∧ ¬ (volser ∧ keep).

Lemma flag_true x : flag x = true ↔ x ≠ 0.
Proof. unfold flag. rewrite negb_true_iff. apply Z.eqb_neq. Qed.

Lemma verify_options_spec options anc :
  fdasd_verify_options options anc = Done tt ↔ options_ok options anc.
Proof.
  unfold fdasd_verify_options, options_ok, modes.
  rewrite <- (flag_true (a_keep_volser anc)), <- (flag_true (a_auto_partition anc)).
  assert (Hv : op_volser options ≠ None ↔ bool_decide (op_volser options ≠ None) = true)
    by (symmetry; apply bool_decide_eq_true).
  assert (Hc : op_conffile options ≠ None ↔ bool_decide (op_conffile options ≠ None) = true)
    by (symmetry; apply bool_decide_eq_true).
  revert Hv Hc. generalize (bool_decide (op_volser options ≠ None)), (bool_decide (op_conffile options ≠ None)).
  generalize (op_volser options ≠ None), (op_conffile options ≠ None). intros V C v c Hv Hc. rewrite Hv, Hc.
  clear V C Hv Hc.
  destruct v, c, (flag (a_auto_partition anc)), (flag (a_print_table anc)), (flag (a_keep_volser anc)),
    (flag (a_print_volser anc)); simpl; unfold count_true; simpl;
    split; intros H; try done; try (exfalso; naive_solver lia); (split; [lia|naive_solver]).
Qed.

(** ** Geometry *)

Definition block_sizes : list Z := [512; 1024; 2048; 4096].

(** Blocks per track of a 3390. *)
Lemma recs_per_track_3390 :
  map (recs_per_track DASD_3390_TYPE 0) block_sizes = [49; 33; 21; 12].
Proof. by vm_compute. Qed.

(** bytes of a cylinder with 15 tracks *)
Definition cylinder_bytes (blksize : Z) : Z := blksize * 15 * recs_per_track DASD_3390_TYPE 0 blksize.

Lemma virtual_geometry_ok size anc :
  a_dev_type anc = DASD_3390_TYPE → a_blksize anc ∈ block_sizes →
  1 <= size / cylinder_bytes (a_blksize anc) < 17895697 →
  ∃ geo anc', virtual_geometry size anc = Done (geo, anc') ∧ disk_geometry geo (hw_disk anc') ∧
    geo_heads geo = 15 ∧ geo_sectors geo = recs_per_track DASD_3390_TYPE 0 (a_blksize anc) ∧
    a_hw_cylinders anc' = size / cylinder_bytes (a_blksize anc) ∧
    a_label_pos anc' = 2 * a_blksize anc.
Proof.
  intros Ht Hb Hsz. unfold virtual_geometry. rewrite Ht.
  assert (E : 0 < cylinder_bytes (a_blksize anc) ∧
    u8 (recs_per_track DASD_3390_TYPE 0 (a_blksize anc)) = recs_per_track DASD_3390_TYPE 0 (a_blksize anc) ∧
    0 < recs_per_track DASD_3390_TYPE 0 (a_blksize anc) ∧
    u32 (a_blksize anc * 15 * recs_per_track DASD_3390_TYPE 0 (a_blksize anc)) = cylinder_bytes (a_blksize anc) ∧
    0 < a_blksize anc ∧ u32 (2 * a_blksize anc) = 2 * a_blksize anc).
  { unfold block_sizes in Hb. rewrite !elem_of_cons, elem_of_nil in Hb.
    destruct Hb as [->|[->|[->|[->|[]]]]]; by vm_compute. }
  destruct E as (E1 & E2 & E3 & E4 & E5 & E6). rewrite E2, E4. unfold udiv.
  rewrite (proj2 (Z.eqb_neq _ _)) by lia. rewrite Done_bind, u32_small by lia.
  eexists _, _. split; [done|].
  set (hw := size / _) in *. clearbody hw. unfold LV_COMPAT_CYL.
  split; [|split; [done|split; [done|split; [done|exact E6]]]].
  split; cbn; unfold last_trk, FIRST_USABLE_TRK, LV_COMPAT_CYL; cbn; try lia.
  - exact E3.
  - destruct (hw <? 65534) eqn:E; b2p; lia.
Qed.

End FdasdSetupProofs.
