(* ===== verification/FdasdMain.v ===== *)
(** The main program of fdasd (src/fdasd/fdasd.c): the batch modes, the menu, and
    the invariant of the menu loop.  A command either goes on with a new state,
    or writes the labels and leaves, or leaves without writing ([Exited]). *)
From stdpp Require Import relations.
From S2P Require Import Prelude Cchh Codec Labels LabelOps VtocIo Extents Freespace FdasdState FdasdTable.
From S2P Require Import FdasdLayout FdasdList FdasdInput FdasdPart FdasdVolume FdasdVtoc FdasdVtocProofs.
From S2P Require Import FdasdConf FdasdConfProofs FdasdIo FdasdRead FdasdReadProofs FdasdSetup.
Import Ebcdic Addr VtocIo Extents Freespace Fdasd FdasdTable FdasdLayout FdasdList FdasdInput FdasdPart
  FdasdVolume FdasdVtoc FdasdVtocProofs FdasdConf FdasdConfProofs FdasdIo FdasdRead FdasdReadProofs FdasdSetup.

Module FdasdMain.

(** ** Leaving *)

(** the answer 1 ("no") continues *)
Definition fdasd_quit (st : io) : outcome io :=
  let '(anc, stdin) := st in
  if negb (a_vtoc_changed anc =? 0) || negb (a_vlabel_changed anc =? 0) then
    '(rc, stdin) ← yes_no stdin;
    if rc =? 1 then Done (anc, stdin) else Exited 0
  else Exited 0.

(** ** Batch modes *)

Section Run.
(** the geometry, the options, the device at the start and the result of the
    BLKRRPART ioctl *)
Context (geo : hd_geometry) (options : fdasd_options) (d : device) (reread : Z).

Definition fdasd_auto_partition (now : tm) (st : io) : outcome device :=
  '(anc, _) ← fdasd_init_volume_label d options st;
  '(d, _) ← fdasd_write_labels geo reread d (auto_labels geo now anc);
  Done d.

Definition fdasd_auto_partition_conffile (now : tm) (st : io) : outcome device :=
  '(anc, _) ← fdasd_init_volume_label d options st;
  anc ← conffile_labels geo now anc;
  '(d, _) ← fdasd_write_labels geo reread d anc;
  Done d.

Definition set_reuse (v : Z) (anc : fdasd_anchor) : fdasd_anchor :=
  let o := a_options anc in
  set_a_options (AnchorOptions (o_auto_partition o) (o_print_table o) (o_print_volser o)
    (o_keep_volser o) (o_force_virtual o) (o_force_host o) (o_silent o) (o_verbose o)
    v (o_option_recreate o)) anc.
Definition set_recreate (v : Z) (anc : fdasd_anchor) : fdasd_anchor :=
  let o := a_options anc in
  set_a_options (AnchorOptions (o_auto_partition o) (o_print_table o) (o_print_volser o)
    (o_keep_volser o) (o_force_virtual o) (o_force_host o) (o_silent o) (o_verbose o)
    (o_option_reuse o) v) anc.

(** the [switch] on a command other than 'w' *)
Definition edit_command (now : tm) (c : Z) (st : io) : outcome io :=
  let '(anc, stdin) := st in
  if c =? 100 (* d *) then fdasd_remove_partition geo st
  else if c =? 110 (* n *) then fdasd_add_partition geo now st
  else if c =? 118 (* v *) then fdasd_change_volser st
  else if c =? 116 (* t *) then fdasd_change_part_type st
  else if c =? 112 (* p *) then '(_, anc) ← fdasd_list_partition_table anc; Done (anc, stdin)
  else if c =? 115 (* s *) then _ ← fdasd_show_mapping anc; Done st
  else if c =? 117 (* u *) then Done (set_reuse (s32 (a_option_reuse anc + 1)) anc, stdin)
  else if c =? 114 (* r *) then Done (set_recreate (s32 (a_option_recreate anc + 1)) anc, stdin)
  else if c =? 113 (* q *) then fdasd_quit st
  else Done st (* l, m and every other character only print *).

(** what follows the [switch] *)
Definition after_command (now : tm) (st : io) : outcome io :=
  '(anc, stdin) ← (if negb (a_option_reuse st.1 =? 0)
                   then '(anc, stdin) ← fdasd_reuse_vtoc geo now st; Done (set_reuse 0 anc, stdin)
                   else Done st);
  if negb (a_option_recreate anc =? 0)
  then '(anc, stdin) ← fdasd_recreate_vtoc geo (anc, stdin); Done (set_recreate 0 anc, stdin)
  else Done (anc, stdin).

(** one round of the loop: the next state, or the device after 'w' *)
Definition menu_command (now : tm) (st : io) : outcome (io + device) :=
  let '(anc, stdin) := st in
  let '(ptr, stdin) := read_char stdin in
  let c := tolower (headc ptr) in
  if c =? 119 (* w *) then
    '(d, _) ← fdasd_write_labels geo reread d anc; Done (inr d)
  else
    st ← edit_command now c (anc, stdin);
    st ← after_command now st;
    Done (inl st).

(** [while (1)]; [clock] gives the time of each round *)
Fixpoint menu_loop (fuel : nat) (clock : nat → tm) (st : io) : outcome device :=
  match fuel with
  | O => OutOfFuel
  | S fuel =>
      r ← menu_command (clock fuel) st;
      match r with
      | inl st => menu_loop fuel clock st
      | inr d => Done d
      end
  end.

(** [main] from the check of the volume on; [Done d] is the device at
    [exit(0)] behind a write *)
Definition fdasd_main (fuel : nat) (clock : nat → tm) (st : io) : outcome device :=
  '(ok, (anc, stdin)) ← fdasd_check_volume geo d options st;
  let anc := if BIG_DISK_SIZE <? u32 (a_formatted_cylinders anc * geo_heads geo)
             then set_a_big_disk (s32 (a_big_disk anc + 1)) anc else anc in
  if flag (a_auto_partition anc) then
    anc ← fdasd_recreate_vtoc_unconditional geo anc;
    fdasd_auto_partition (clock fuel) (anc, stdin)
  else match op_conffile options with
  | Some f =>
      anc ← fdasd_recreate_vtoc_unconditional geo anc;
      anc ← fdasd_parse_conffile geo f anc;
      anc ← fdasd_check_conffile_input geo anc;
      fdasd_auto_partition_conffile (clock fuel) (anc, stdin)
  | None =>
      '(anc, stdin) ← (if flag (a_print_volser anc) then fdasd_quit (anc, stdin) else Done (anc, stdin));
      '(anc, stdin) ← (if flag (a_print_table anc) then
                         anc ← (if ok : bool then '(_, anc) ← fdasd_list_partition_table anc; Done anc
                                else Done anc);
                         fdasd_quit (anc, stdin)
                       else Done (anc, stdin));
      menu_loop fuel clock (anc, stdin)
  end.
End Run.

(** [main]: the anchor, the command line, the checks of the device and of the
    options, the geometry, and then the run on the volume *)
Definition main (opts : list cmd_option) (devices : Z) (ds : device_status) (ioc : disk_ioctls)
    (ro_status_ok : bool) (d : device) (reread : Z) (fuel : nat) (clock : nat → tm) (stdin : list Z)
    : outcome device :=
  '(anc, options) ← fdasd_parse_options opts devices (fdasd_initialize_anchor, Options None None);
  _ ← fdasd_verify_device ds anc;
  _ ← fdasd_verify_options options anc;
  '(geo, anc) ← fdasd_get_geometry ioc anc;
  _ ← fdasd_check_disk_access geo d ro_status_ok anc;
  fdasd_main geo options d reread fuel clock (anc, stdin).

(** ** The size of the disk stays *)

Definition same_size (anc anc' : fdasd_anchor) : Prop :=
  a_formatted_cylinders anc' = a_formatted_cylinders anc ∧ a_blksize anc' = a_blksize anc.

#[export] Instance same_size_preorder : PreOrder same_size.
Proof. split; [done|]. intros a b c [? ?] [? ?]. split; congruence. Qed.

Lemma same_disk_size anc anc' : same_disk anc anc' → same_size anc anc'.
Proof. intros []. done. Qed.

Lemma same_size_geometry geo anc anc' : same_size anc anc' → disk_geometry geo anc → disk_geometry geo anc'.
Proof. intros [E1 E2] []. split; unfold last_trk in *; rewrite ?E1, ?E2; done. Qed.

Lemma set_freespace_size geo ch start stop anc anc' :
  set_freespace geo ch start stop anc = Done anc' → same_size anc anc'.
Proof.
  unfold set_freespace. rewrite outcome_bind_Done. intros ([[f4 f5] f7] & _ & H). by injection H as <-.
Qed.

Lemma recreate_size geo anc anc' :
  fdasd_recreate_vtoc_unconditional geo anc = Done anc' → same_size anc anc'.
Proof.
  unfold fdasd_recreate_vtoc_unconditional, on_table. rewrite outcome_bind_Done.
  intros (a & Ha & H). rewrite outcome_bind_Done in H. destruct H as (b & Hb & H).
  rewrite outcome_bind_Done in Hb. destruct Hb as (t & _ & Hb). injection Hb as <-. injection H as <-.
  exact (set_freespace_size _ _ _ _ _ _ Ha).
Qed.

Lemma reuse_loop_size fuel geo now anc cur l anc' l' :
  reuse_loop fuel geo now anc cur l = Done (anc', l') → same_size anc anc'.
Proof.
  revert anc cur l. induction fuel as [|fuel IH]; intros anc cur l; [done|]. cbn [reuse_loop].
  destruct cur as [id|]; [|by intros [= <- <-]].
  destruct (negb _); [apply IH|]. rewrite outcome_bind_Done. intros (l1 & _ & H).
  by apply IH in H.
Qed.

Lemma reuse_size geo now anc stdin anc' stdin' :
  fdasd_reuse_vtoc geo now (anc, stdin) = Done (anc', stdin') → same_size anc anc'.
Proof.
  unfold fdasd_reuse_vtoc. rewrite outcome_bind_Done. intros ([rc s] & _ & H). destruct (negb _).
  - by injection H as <- <-.
  - rewrite outcome_bind_Done in H. destruct H as (l & _ & H).
    rewrite outcome_bind_Done in H. destruct H as ([a [[f4 f5] f7]] & Ha & H). injection H as <- <-.
    exact (reuse_loop_size _ _ _ _ _ _ _ _ Ha).
Qed.

(** ** The invariant of the menu *)

(** Partition list, labels and free-space labels describe the same partitions of
    a disk of a known size. *)
Definition consistent (geo : hd_geometry) (anc : fdasd_anchor) : Prop :=
  disk_geometry geo anc ∧ geometry_ok geo anc ∧ ∃ x y z, volume geo anc x y z.

(** No digit, or no valid partition type behind the partition number, is left in
    the input: the loops that ask for one never end. *)
Definition starved (stdin : list Z) : Prop :=
  (∀ fuel, read_digit fuel stdin = OutOfFuel) ∨
  ∃ fuel id rest, read_digit fuel stdin = Done (id, rest) ∧ ∀ fuel, read_type fuel rest = OutOfFuel.

(** an outcome that keeps the invariant *)
Definition keeps (geo : hd_geometry) (c : Z) (stdin : list Z) (m : outcome io) : Prop :=
  match m with
  | Done st => consistent geo st.1
  | Exited rc => rc = 0 ∨ rc = 1
  | Fault => False
  | OutOfFuel => (c = 100 ∨ c = 116) ∧ starved stdin
  end.

Section Invariant.
Context (geo : hd_geometry).

(** Fields that the invariant does not look at. *)
Lemma consistent_frame anc anc' :
  a_formatted_cylinders anc' = a_formatted_cylinders anc → a_blksize anc' = a_blksize anc →
  a_f4 anc' = a_f4 anc → a_f5 anc' = a_f5 anc → a_f7 anc' = a_f7 anc → a_tab anc' = a_tab anc →
  a_used_partitions anc' = a_used_partitions anc → consistent geo anc → consistent geo anc'.
Proof.
  intros E1 E2 E3 E4 E5 E6 E7 (Hd & Hg & x & y & z & [V1 V2 V3 V4 V5]).
  split; [by apply (same_size_geometry geo anc)|]. split.
  - eapply geometry_ok_frame; [..|exact Hg]; [done|done|by rewrite E3].
  - exists x, y, z. split; unfold a_fspace_trk, last_trk in *; rewrite ?E1, ?E4, ?E5, ?E6, ?E7; done.
Qed.

Lemma consistent_same_disk anc anc' x y z :
  same_disk anc anc' → volume geo anc' x y z → consistent geo anc → consistent geo anc'.
Proof.
  intros Hs Hv (Hd & Hg & _). split; [by eapply same_disk_geometry|].
  split; [by eapply same_disk_ok|]. by exists x, y, z.
Qed.

Lemma consistent_relabelled anc t' :
  relabelled same_ext (a_tab anc) t' → consistent geo anc → consistent geo (set_a_tab t' anc).
Proof.
  intros Hrl Hc. pose proof Hc as (_ & _ & x & y & z & Hv).
  eapply consistent_same_disk; [|by eapply volume_relabelled|exact Hc]. by split.
Qed.

(** The table can always be printed. *)
Lemma consistent_list anc :
  consistent geo anc →
  ∃ rows t', fdasd_list_partition_table anc = Done (rows, set_a_tab t' anc) ∧
    relabelled same_ext (a_tab anc) t'.
Proof.
  intros (_ & Hg & x & y & z & Hv). pose proof (g_last _ _ Hg) as Hlim.
  destruct (list_partition_table_spec anc x y z (last_trk geo anc) (v_linked _ _ _ _ _ Hv)
    ltac:(unfold FIRST_USABLE_TRK in Hlim; lia) (v_layout _ _ _ _ _ Hv)) as (rows & t' & H & Hrl & _).
  by exists rows, t'.
Qed.

Lemma consistent_mapping anc : consistent geo anc → ∃ rows, fdasd_show_mapping anc = Done rows.
Proof.
  intros (_ & _ & x & y & z & Hv). unfold fdasd_show_mapping.
  destruct (linked_chain _ _ _ _ (v_linked _ _ _ _ _ Hv)) as (Hch & _).
  assert (Hlt : (length [x; y; z] < S USABLE_PARTITIONS)%nat) by (unfold USABLE_PARTITIONS; simpl; lia).
  change (t_first (a_tab anc)) with (a_first anc) in Hch.
  revert Hch Hlt. generalize (S USABLE_PARTITIONS) as fuel, [x; y; z] as ids, (Some (a_first anc)) as cur, 0 as i.
  induction fuel as [|fuel IH]; intros ids cur i Hch Hlt; [lia|]. cbn [mapping_loop].
  destruct ids as [|id ids]; simpl in Hch, Hlt; [subst; by eexists|]. destruct Hch as [-> Hch].
  destruct (IH ids (p_next (tget (a_tab anc) id)) (i + 1) Hch ltac:(lia)) as (rows & Hr).
  change (pget anc id) with (tget (a_tab anc) id). rewrite Hr, Done_bind.
  destruct (negb _); by eexists.
Qed.
(** ** Asking for a digit *)

Lemma read_digit_cases fuel stdin :
  (∃ id rest, read_digit fuel stdin = Done (id, rest) ∧ (length rest < length stdin)%nat) ∨
  read_digit fuel stdin = OutOfFuel.
Proof.
  revert stdin. induction fuel as [|fuel IH]; intros stdin; [by right|]. cbn [read_digit].
  unfold read_char. pose proof (read_line_spec stdin) as Hspec.
  destruct (read_line stdin) as [ptr rest]. simpl in Hspec.
  destruct Hspec as [(-> & -> & E)|Hlt].
  - replace (isdigit (headc ptr)) with false by (rewrite E; by vm_compute).
    destruct (IH []) as [(id & r & Hr & Hl)|Hr]; [simpl in Hl; lia|by right].
  - destruct (isdigit (headc ptr)); [left; by eexists _, rest|].
    destruct (IH rest) as [(id & r & Hr & Hl)|Hr]; [left; exists id, r; split; [done|lia]|by right].
Qed.

Lemma read_digit_starved fuel stdin :
  read_digit (S (length stdin)) stdin = OutOfFuel → read_digit fuel stdin = OutOfFuel.
Proof.
  intros H. destruct (read_digit_cases fuel stdin) as [(id & r & Hr & _)|]; [|done].
  apply read_digit_enough in Hr. congruence.
Qed.

Lemma read_type_cases fuel stdin :
  (∃ type rest, read_type fuel stdin = Done (type, rest) ∧ 1 <= type <= 5) ∨
  read_type fuel stdin = OutOfFuel.
Proof.
  revert stdin. induction fuel as [|fuel IH]; intros stdin; [by right|]. cbn [read_type].
  destruct (read_digit_cases (S (length stdin)) stdin) as [(id & r & -> & _)| ->]; [|by right].
  rewrite Done_bind. destruct (_ || _) eqn:E; [apply IH|]. left. exists id, r. split; [done|].
  apply orb_false_iff in E as [E1 E2]. b2p. simpl in E2. lia.
Qed.

Lemma read_type_starved fuel stdin :
  read_type (S (length stdin)) stdin = OutOfFuel → read_type fuel stdin = OutOfFuel.
Proof.
  assert (Hmore : ∀ f f' s, (length s < f)%nat → read_type f s = OutOfFuel → read_type f' s = OutOfFuel).
  { clear. intros f f'. revert f. induction f' as [|f' IH]; intros [|f] s Hf H; try done; [lia|].
    cbn [read_type] in *.
    destruct (read_digit_cases (S (length s)) s) as [(id & r & Hr & Hl)|Hr]; rewrite Hr in *; [|done].
    rewrite Done_bind in *. destruct (_ || _); [|done]. apply (IH f); [lia|done]. }
  apply Hmore. lia.
Qed.

(** ** Every command keeps the invariant *)

Lemma remove_keeps anc stdin :
  consistent geo anc → keeps geo 100 stdin (fdasd_remove_partition geo (anc, stdin)).
Proof.
  intros Hc. pose proof Hc as (_ & Hg & x & y & z & Hv).
  destruct (read_digit_cases (S (length stdin)) stdin) as [(id & r & Hr & _)|Hr].
  - destruct (remove_partition_volume geo anc x y z stdin _ id r Hg Hv Hr)
      as (anc' & x' & y' & z' & -> & Hs & Hv' & _). simpl. by eapply consistent_same_disk.
  - unfold fdasd_remove_partition. destruct (consistent_list _ Hc) as (rows & t' & -> & _).
    rewrite Done_bind, Hr. simpl. split; [by left|]. left. intros fuel. by apply read_digit_starved.
Qed.

Lemma add_keeps now anc stdin c :
  consistent geo anc → keeps geo c stdin (fdasd_add_partition geo now (anc, stdin)).
Proof.
  intros Hc. pose proof Hc as (_ & Hg & x & y & z & Hv).
  destruct (add_partition_volume geo now anc x y z stdin Hg Hv)
    as [(-> & _)|(anc' & s' & x' & y' & z' & -> & Hs & Hv' & _)]; [by right|].
  simpl. by eapply consistent_same_disk.
Qed.

Lemma volser_keeps anc stdin c :
  consistent geo anc → keeps geo c stdin (fdasd_change_volser (anc, stdin)).
Proof.
  intros Hc. unfold fdasd_change_volser. destruct (read_line stdin) as [ptr s]. simpl.
  by eapply consistent_frame; [..|exact Hc].
Qed.

(** Two updates of the label of one record are one. *)
Lemma relabel_twice id f g t :
  (id < length (t_parts t))%nat →
  tupd id (λ p, set_p_f1 (g (p_f1 p)) p) (tupd id (λ p, set_p_f1 (f (p_f1 p)) p) t) =
  tupd id (set_p_f1 (g (f (p_f1 (tget t id))))) t.
Proof.
  intros Hl. unfold tupd at 1. rewrite tget_tupd_eq by done. unfold tupd, tget, set_t_parts. simpl.
  by rewrite list_insert_insert_eq.
Qed.

(** The record of a valid partition number. *)
Lemma nth_part anc x y z id :
  volume geo anc x y z → 1 <= id <= a_used_partitions anc →
  ∃ i, walk (Z.to_nat (id - 1)) (a_tab anc) (a_first anc) = Done i ∧
    (i < length (t_parts (a_tab anc)))%nat ∧ p_used (tget (a_tab anc) i) = 1.
Proof.
  intros Hv Hid. pose proof (v_linked _ _ _ _ _ Hv) as Hlk.
  destruct (layout_nth_used _ _ _ _ (Z.to_nat (id - 1)) (v_layout _ _ _ _ _ Hv)) as (p & Hj & Hu).
  { rewrite <- (v_count _ _ _ _ _ Hv). lia. }
  destruct (plist_lookup _ _ _ _ _ _ Hj) as (i & Hi & Hpi). exists i.
  split; [exact (walk_spec _ _ _ _ _ _ Hlk Hi)|]. split; [|by rewrite Hpi in Hu].
  destruct (linked_chain _ _ _ _ Hlk) as (_ & _ & Hlt).
  eapply Forall_lookup_1 in Hlt; [exact Hlt|exact Hi].
Qed.

Lemma dsname_in_range type : 1 <= type <= 5 → ∃ s, get_part_dsname_by_type type = DsName s.
Proof.
  intros Ht. assert (type = 1 ∨ type = 2 ∨ type = 3 ∨ type = 4 ∨ type = 5) as H by lia.
  destruct H as [->|[->|[->|[->| ->]]]]; by eexists.
Qed.

Lemma type_keeps anc stdin :
  consistent geo anc → keeps geo 116 stdin (fdasd_change_part_type (anc, stdin)).
Proof.
  intros Hc. unfold fdasd_change_part_type.
  destruct (consistent_list _ Hc) as (rows & t' & -> & Hrl). rewrite Done_bind.
  apply (consistent_relabelled _ _ Hrl) in Hc. set (anc1 := set_a_tab t' anc) in *. clearbody anc1.
  destruct (read_digit_cases (S (length stdin)) stdin) as [(id & r & Hr & _)|Hr]; rewrite Hr.
  2: { simpl. split; [by right|]. left. intros fuel. by apply read_digit_starved. }
  rewrite Done_bind. pose proof (read_digit_range _ _ _ _ Hr).
  destruct (id =? 0) eqn:E0; [done|]. destruct (a_used_partitions anc1 <? id) eqn:E1; [done|].
  apply Z.eqb_neq in E0. apply Z.ltb_ge in E1. pose proof Hc as (_ & _ & x & y & z & Hv).
  destruct (nth_part _ _ _ _ id Hv ltac:(lia)) as (i & -> & Hl & Hu). rewrite Done_bind.
  destruct (read_type_cases (S (length r)) r) as [(type & r' & -> & Ht)|Hrt].
  2: { rewrite Hrt. simpl. split; [by right|]. right. exists (S (length stdin)), id, r. split; [done|].
       intros fuel. by apply read_type_starved. }
  rewrite Done_bind. destruct (dsname_in_range type Ht) as (s & ->). rewrite Done_bind.
  unfold keeps. cbn [fst].
  set (name := match type_place _ with Some _ => _ | None => _ end). clearbody name.
  assert (E : a_tab (pupd i (λ p, set_p_f1 (name_enc (set_DS1DSNAM (p_f1 p) name)) p)
               (pupd i (λ p, set_p_f1 (name_dec (p_f1 p)) p) anc1)) =
              tupd i (set_p_f1 (name_enc (set_DS1DSNAM (name_dec (p_f1 (tget (a_tab anc1) i))) name)))
                (a_tab anc1)).
  { exact (relabel_twice i name_dec (λ f, name_enc (set_DS1DSNAM f name)) (a_tab anc1) Hl). }
  eapply consistent_frame; [..|eapply (consistent_relabelled anc1);
    [apply (relabelled_tupd (R := same_ext) (a_tab anc1) i); [|exact Hu]|exact Hc]];
    [reflexivity..|exact E|reflexivity|].
  unfold same_ext, name_enc, name_dec. by rewrite !set_DS1DSNAM_ext.
Qed.

Lemma list_keeps anc stdin c :
  consistent geo anc →
  keeps geo c stdin ('(_, anc) ← fdasd_list_partition_table anc; Done (anc, stdin)).
Proof.
  intros Hc. destruct (consistent_list _ Hc) as (rows & t' & -> & Hrl). simpl.
  by apply consistent_relabelled.
Qed.

Lemma quit_keeps anc stdin c : consistent geo anc → keeps geo c stdin (fdasd_quit (anc, stdin)).
Proof.
  intros Hc. unfold fdasd_quit. destruct (_ || _); [|by left].
  destruct (yes_no_total stdin) as (rc & r & -> & _). rewrite Done_bind. destruct (rc =? 1); [done|by left].
Qed.
(** ** Both ways to a new VTOC *)

Lemma consent_total anc stdin : ∃ rc rest, consent anc stdin = Done (rc, rest).
Proof.
  unfold consent. destruct (a_silent anc =? 0); [|by eexists _, _].
  destruct (yes_no_total stdin) as (rc & r & -> & _). by eexists _, _.
Qed.

Lemma reuse_consistent now anc stdin :
  consistent geo anc →
  ∃ anc' stdin', fdasd_reuse_vtoc geo now (anc, stdin) = Done (anc', stdin') ∧ consistent geo anc'.
Proof.
  intros Hc. pose proof Hc as (Hd & Hg & x & y & z & [V1 V2 V3 V4 _]).
  destruct (consent_total anc stdin) as (rc & r & Hr). destruct (decide (rc = 0)) as [->|Hne].
  - destruct (reuse_volume geo now anc x y z stdin r Hd V1 V2 V3 V4 Hr) as (anc' & He & Hg' & Hv' & _).
    exists anc', r. split; [done|]. split; [|by split; [|exists x, y, z]].
    eapply same_size_geometry; [|exact Hd]. by eapply reuse_size.
  - exists anc, r. split; [|done]. unfold fdasd_reuse_vtoc. fold (consent anc stdin).
    rewrite Hr, Done_bind. by rewrite (proj2 (Z.eqb_neq _ _)).
Qed.

Lemma layout_blank limit pos fs l : layout limit pos fs l → Forall used_or_blank l.
Proof.
  induction 1 as [pos l _ Hf|]; [|constructor; [by left|done]].
  eapply Forall_impl; [exact Hf|]. intros p Hp. right. unfold unused in Hp. tauto.
Qed.

Lemma layout_records_blank limit pos fs t x y z :
  layout limit pos fs (plist t x y z) → Forall used_or_blank (map (tget t) [x; y; z]).
Proof.
  intros H. apply layout_blank in H. unfold plist in H. simpl map. rewrite !Forall_cons in H |- *. exact H.
Qed.

Lemma recreate_consistent anc stdin :
  consistent geo anc →
  ∃ anc' stdin', fdasd_recreate_vtoc geo (anc, stdin) = Done (anc', stdin') ∧ consistent geo anc'.
Proof.
  intros Hc. pose proof Hc as (Hd & Hg & x & y & z & [V1 V2 _ _ _]).
  unfold fdasd_recreate_vtoc. fold (consent anc stdin).
  destruct (consent_total anc stdin) as (rc & r & ->). rewrite Done_bind.
  destruct (negb (rc =? 0)); [by exists anc, r|].
  destruct (recreate_volume geo anc x y z Hd V1) as (anc' & He & Hg' & Hv' & _).
  { by eapply layout_records_blank. }
  rewrite He, Done_bind. exists anc', r. split; [done|]. split; [|by split; [|exists x, y, z]].
  eapply same_size_geometry; [|exact Hd]. by eapply recreate_size.
Qed.

(** ** The loop *)

Lemma edit_keeps now c anc stdin :
  consistent geo anc → keeps geo c stdin (edit_command geo now c (anc, stdin)).
Proof.
  intros Hc. unfold edit_command.
  destruct (c =? 100) eqn:E; [apply Z.eqb_eq in E as ->; by apply remove_keeps|]. clear E.
  destruct (c =? 110); [by apply add_keeps|]. destruct (c =? 118); [by apply volser_keeps|].
  destruct (c =? 116) eqn:E; [apply Z.eqb_eq in E as ->; by apply type_keeps|]. clear E.
  destruct (c =? 112); [by apply list_keeps|].
  destruct (c =? 115); [by destruct (consistent_mapping _ Hc) as (? & ->)|].
  destruct (c =? 117); [by eapply consistent_frame; [..|exact Hc]|].
  destruct (c =? 114); [by eapply consistent_frame; [..|exact Hc]|].
  destruct (c =? 113); [by apply quit_keeps|done].
Qed.

Lemma after_command_consistent now st :
  consistent geo st.1 → ∃ st', after_command geo now st = Done st' ∧ consistent geo st'.1.
Proof.
  intros Hc. destruct st as [anc stdin]. cbn [fst] in Hc. unfold after_command. cbn [fst].
  assert (Hre : ∃ a r, (if negb (a_option_reuse anc =? 0)
    then '(anc, stdin) ← fdasd_reuse_vtoc geo now (anc, stdin); Done (set_reuse 0 anc, stdin)
    else Done (anc, stdin)) = Done (a, r) ∧ consistent geo a).
  { destruct (negb _); [|by eexists _, _].
    destruct (reuse_consistent now anc stdin Hc) as (a & r & -> & Ha). rewrite Done_bind.
    eexists _, _. split; [done|]. by eapply consistent_frame; [..|exact Ha]. }
  destruct Hre as (a & r & -> & Ha). rewrite Done_bind.
  destruct (negb _); [|by eexists]. destruct (recreate_consistent a r Ha) as (b & r' & -> & Hb).
  rewrite Done_bind. eexists. split; [done|]. by eapply consistent_frame; [..|exact Hb].
Qed.

(** one round of the menu, as a step between states *)
Inductive menu_step (d : device) (reread : Z) : io → io → Prop :=
  | menu_step_intro now st st' :
      menu_command geo d reread now st = Done (inl st') → menu_step d reread st st'.

(** A round that does not write: it continues in a consistent state, or the
    program ends with code 0 or 1, or it waits for an answer for ever. *)
Lemma menu_command_safe d reread now anc stdin :
  consistent geo anc →
  let c := tolower (headc (read_char stdin).1) in
  c ≠ 119 →
  match menu_command geo d reread now (anc, stdin) with
  | Done (inl st) => consistent geo st.1
  | Done (inr _) | Fault => False
  | Exited rc => rc = 0 ∨ rc = 1
  | OutOfFuel => (c = 100 ∨ c = 116) ∧ starved (read_char stdin).2
  end.
Proof.
  intros Hc c Hw. unfold menu_command, c in *. clear c. destruct (read_char stdin) as [ptr s].
  cbn [fst snd] in *. set (c := tolower (headc ptr)) in *. rewrite (proj2 (Z.eqb_neq _ _)) by done. pose proof (edit_keeps now c anc s Hc) as Hk.
  destruct (edit_command geo now c (anc, s)) as [st|rc| |]; simpl in Hk |- *; try done.
  destruct (after_command_consistent now st Hk) as (st' & -> & Hc'). exact Hc'.
Qed.

Lemma menu_step_consistent d reread st st' :
  menu_step d reread st st' → consistent geo st.1 → consistent geo st'.1.
Proof.
  intros [now [anc stdin] st1 H] Hc. cbn [fst] in Hc.
  destruct (decide (tolower (headc (read_char stdin).1) = 119)) as [E|E].
  - unfold menu_command in H. destruct (read_char stdin) as [ptr s]. cbn [fst] in E. rewrite E in H.
    simpl in H. apply outcome_bind_Done in H as ([d' a] & _ & H). done.
  - pose proof (menu_command_safe d reread now anc stdin Hc E) as Hs. by rewrite H in Hs.
Qed.

Lemma menu_reachable_consistent d reread st st' :
  rtc (menu_step d reread) st st' → consistent geo st.1 → consistent geo st'.1.
Proof. induction 1 as [|? ? ? Hs _ IH]; [done|]. intros Hc. apply IH. by eapply menu_step_consistent. Qed.

(** At the end of the input the menu asks again for ever. *)
Lemma menu_eof d reread fuel clock anc :
  a_option_reuse anc = 0 → a_option_recreate anc = 0 →
  menu_loop geo d reread fuel clock (anc, []) = OutOfFuel.
Proof.
  intros H1 H2. induction fuel as [|fuel IH]; [done|]. cbn [menu_loop].
  assert (E : menu_command geo d reread (clock fuel) (anc, []) = Done (inl (anc, []))).
  { unfold menu_command, after_command. simpl. rewrite H1. simpl. rewrite H2. done. }
  rewrite E, Done_bind. exact IH.
Qed.

(** ** The start *)

(** A disk without a VOL1 label gets an empty VTOC, unless the user refuses or
    the label is LNX1. *)
Lemma no_vol1_consistent d options anc stdin x y z :
  fresh anc x y z → disk_geometry geo (hw_disk anc) →
  a_print_table anc = 0 → a_print_volser anc = 0 →
  (a_keep_volser anc ≠ 0 → ∃ vl, vtoc_read_volume_label d (a_label_pos anc) = Done vl) →
  match no_vol1 geo d options (anc, stdin) with
  | Done (ok, st) => ok = true ∧ consistent geo st.1 ∧ a_used_partitions st.1 = 0
  | Exited rc => rc = 0 ∨ rc = -1
  | Fault | OutOfFuel => False
  end.
Proof.
  intros Hfr Hd H1 H2 Hvl. unfold no_vol1. rewrite H1, H2. simpl (negb _ || _). cbv iota.
  assert (Hask : ∃ rc s, (if bool_decide (vollbl (a_vlabel anc) = enc_str "LNX1") then Done (1, stdin)
     else if batch anc options then Done (0, stdin) else yes_no stdin) = Done (rc, s)).
  { destruct (bool_decide _); [by eexists _, _|]. destruct (batch _ _); [by eexists _, _|].
    destruct (yes_no_total stdin) as (rc & r & -> & _). by eexists _, _. }
  destruct Hask as (rc & s & ->). rewrite Done_bind. destruct (rc =? 1); [by right|].
  assert (Hfmt : (∃ s', (if batch anc options then Done s else ask_formatted anc s) = Done s') ∨
    (if batch anc options then Done s else ask_formatted anc s) = Exited 0).
  { destruct (batch _ _); [left; by eexists|]. unfold ask_formatted. destruct (_ <? _); [|left; by eexists].
    destruct (yes_no_total s) as (rc' & r & -> & _). rewrite Done_bind. destruct (rc' =? 1); [by right|left; by eexists]. }
  destruct Hfmt as [(s' & ->)| ->]; [|by left]. rewrite Done_bind. fold (hw_disk anc).
  set (anc1 := set_a_tab _ (hw_disk anc)).
  assert (Hini : ∃ vl vc s2, fdasd_init_volume_label d options (anc1, s') =
    Done (set_a_vlabel_changed vc (set_a_vlabel vl anc1), s2)).
  { unfold fdasd_init_volume_label. change (a_keep_volser anc1) with (a_keep_volser anc).
    destruct (a_keep_volser anc =? 0) eqn:Ek; cbn [negb].
    - destruct (op_volser options); [by eexists _, _, _|]. destruct (_ || _); [by eexists _, _, _|].
      destruct (read_line s') as [ptr s2]. by eexists _, _, _.
    - apply Z.eqb_neq in Ek. destruct (Hvl Ek) as (vl & Hr). unfold fdasd_get_volser.
      change (a_label_pos anc1) with (a_label_pos anc). rewrite Hr, !Done_bind. by eexists _, _, _. }
  destruct Hini as (vl & vc & s2 & ->). rewrite Done_bind.
  set (anc2 := set_a_vlabel_changed vc (set_a_vlabel vl anc1)).
  destruct Hfr as [Hlk Hun Hcnt].
  assert (Hfr2 : fresh anc2 x y z) by (split; [destruct Hlk; by split|exact Hun|exact Hcnt]).
  assert (Hd2 : disk_geometry geo anc2) by (destruct Hd; by split).
  destruct (free_whole_disk_spec geo anc2 Hd2) as (f4 & f5 & f7 & -> & Hsame & Hrepr). rewrite Done_bind.
  destruct (empty_volume geo anc2 x y z f4 f5 f7 Hd2 Hfr2 Hsame Hrepr eq_refl) as [Hg Hv].
  split; [done|]. split; [|exact Hcnt]. eapply consistent_frame; [..|split; [|split; [exact Hg|by exists x, y, z]]];
    [done..|destruct Hd2; by split].
Qed.
End Invariant.

End FdasdMain.
