(* ===== verification/FdasdAuto.v ===== *)
(** Saving a volume and loading it again (src/fdasd/fdasd.c): what
    [fdasd_write_labels] writes is what [fdasd_check_volume] of the next run
    reads, and the automatic mode from the first label to the saved disk. *)
From S2P Require Import Prelude Ebcdic Cchh Codec Labels LabelOps VtocIo Extents Freespace FdasdState.
From S2P Require Import FdasdTable FdasdLayout FdasdList FdasdInput FdasdPart FdasdVolume FdasdVtoc FdasdVtocProofs.
From S2P Require Import FdasdConf FdasdConfProofs FdasdIo FdasdRead FdasdReadProofs FdasdIoProofs FdasdReread.
From S2P Require Import FdasdSerial FdasdSetup FdasdMain.
Import Ebcdic Addr VtocIo Extents Freespace Fdasd FdasdTable FdasdLayout FdasdList FdasdInput FdasdPart
  FdasdVolume FdasdVtoc FdasdVtocProofs FdasdConf FdasdConfProofs FdasdIo FdasdRead FdasdReadProofs FdasdIoProofs
  FdasdReread FdasdSerial FdasdSetup FdasdMain.

Module FdasdAuto.

(** ** Saving and loading *)

(** The volume label lies in front of the VTOC track; it will be written, or it
    is on the device already. *)
Record label_ready (geo : hd_geometry) (d : device) (anc : fdasd_anchor) : Prop := {
  lr_valid : cvalid cvolume_label (a_vlabel anc);
  lr_vol1 : vollbl (a_vlabel anc) = enc_str "VOL1";
  lr_area : area_ok d (a_label_pos anc) 92;
  lr_front : a_label_pos anc + 92 <= vtoc_blk geo anc;
  lr_saved : a_vlabel_changed anc ≠ 0 ∨ vtoc_read_volume_label d (a_label_pos anc) = Done (a_vlabel anc)
}.

Lemma area_on_device d pos n : area_ok d pos (Z.of_nat n) → on_device d pos n.
Proof. intros (H1 & H2 & H3). split; [done|]. split; [lia|]. unfold seek_fails. apply Z.leb_gt. lia. Qed.

Lemma written_refl d pos n : written d d pos n.
Proof. by repeat split. Qed.

(** the first step of [fdasd_write_labels] *)
Lemma save_label geo d anc :
  label_ready geo d anc → dev_readable d = true → dev_writable d = true →
  ∃ d1, (if negb (a_vlabel_changed anc =? 0)
         then vtoc_write_volume_label d (a_label_pos anc) (a_vlabel anc) else Done d) = Done d1 ∧
    written d d1 (a_label_pos anc) 92 ∧ vtoc_read_volume_label d1 (a_label_pos anc) = Done (a_vlabel anc).
Proof.
  intros [Hv _ Ha _ Hs] Hr Hw. destruct (Z.eqb_spec (a_vlabel_changed anc) 0) as [E|E]; cbn [negb].
  - destruct Hs as [Hs|Hs]; [done|]. exists d. split; [done|]. split; [apply written_refl|done].
  - destruct (put_get cvolume_label d (a_label_pos anc) (a_vlabel anc) Hv Hw (area_on_device d _ 92 Ha))
      as (d1 & E1 & W & _ & Hg). exists d1. split; [exact E1|]. split; [exact W|]. exact (Hg Hr).
Qed.

(** A label in front of the VTOC does not disturb it. *)
Lemma writable_frame geo d d1 anc x y z kind pos n :
  written d d1 pos n → pos + n <= vtoc_blk geo anc → writable geo d anc x y z kind → writable geo d1 anc x y z kind.
Proof.
  intros (W1 & W2 & W3 & W4) Hp [H1 H2 H3 H4 H5 H6 H7 H8 H9 Ha [Hr Hw] Hq]. split; try done.
  - destruct Ha as (? & ? & ?). split; [done|]. by rewrite W3.
  - split; congruence.
  - unfold quiet_rest, block_labels in *.
    rewrite (map_ext_in (block_label d1 (vtoc_blk geo anc) (a_blksize anc)) (block_label d (vtoc_blk geo anc) (a_blksize anc))); [exact Hq|].
    intros i Hi. unfold block_label. f_equal. apply W4; [|right]; nia.
Qed.

Lemma read_label_frame d d' pos n p vl :
  written d d' pos n → 0 <= p → p + 92 <= pos → vtoc_read_volume_label d p = Done vl → vtoc_read_volume_label d' p = Done vl.
Proof.
  intros (W1 & _ & _ & W4) Hp Hd. unfold vtoc_read_volume_label. rewrite W1, W4 by (vm_compute csize; lia). done.
Qed.

(** The volume that the next run loads has the label and the partitions of the
    one that was saved. *)
Lemma save_then_load geo d anc x y z kind options anc0 stdin x0 y0 z0 :
  geometry_ok geo anc → volume geo anc x y z → writable geo d anc x y z kind → label_ready geo d anc →
  a_vtoc_changed anc ≠ 0 →
  fresh anc0 x0 y0 z0 → a_blksize anc0 = a_blksize anc → a_label_pos anc0 = a_label_pos anc →
  ∃ d' anc' anc1, fdasd_write_labels geo 0 d anc = Done (d', anc') ∧
    fdasd_check_volume geo d' options (anc0, stdin) = Done (true, (anc1, stdin)) ∧
    linked (a_tab anc1) x0 y0 z0 ∧ a_formatted_cylinders anc1 = a_formatted_cylinders anc ∧
    a_used_partitions anc1 = u32 (geo_sectors geo - 2 - DS4DSREC (a_f4 anc)) ∧
    layout (last_trk geo anc) FIRST_USABLE_TRK (a_fspace_trk anc1) (plist (a_tab anc1) x0 y0 z0) ∧
    ∀ t, used_tracks (plist (a_tab anc1) x0 y0 z0) t ↔ used_tracks (plist (a_tab anc) x y z) t.
Proof.
  intros Hg Hv Hw Hl Hc Hf Eb Ep. destruct (wr_open _ _ _ _ _ _ _ Hw) as [Hr Hwr].
  destruct (save_label geo d anc Hl Hr Hwr) as (d1 & E1 & W1 & Hrd).
  destruct Hl as [_ Hvol Har Hfront _]. pose proof (writable_frame _ _ _ _ _ _ _ _ _ _ W1 Hfront Hw) as Hw1.
  set (vl := a_vlabel anc) in *.
  assert (Hf1 : fresh (set_a_vlabel vl anc0) x0 y0 z0) by (destruct Hf; by split).
  destruct (write_then_read geo d1 anc x y z kind (set_a_vlabel vl anc0) stdin x0 y0 z0 Hg Hv Hw1 Hf1 Eb)
    as (d' & anc' & anc1 & E2 & W2 & Hread & Hrest).
  exists d', anc', anc1. split; [|split; [|exact Hrest]].
  - unfold fdasd_write_labels. fold vl. rewrite E1, Done_bind. rewrite (proj2 (Z.eqb_neq (a_vtoc_changed anc) 0)) by done. cbn [negb].
    rewrite E2, Done_bind. by rewrite andb_false_r.
  - unfold fdasd_check_volume. rewrite Ep.
    rewrite (read_label_frame d1 d' _ _ _ vl W2) by (try exact Hrd; try exact Hfront; apply Har). rewrite Done_bind.
    rewrite bool_decide_eq_true_2 by exact Hvol.
    assert (Evb : vtoc_blk geo (set_a_vlabel vl anc0) = vtoc_blk geo anc) by (unfold vtoc_blk; cbn [a_vlabel a_blksize set_a_vlabel]; by rewrite Eb).
    rewrite Evb. pose proof (wr_blk _ _ _ _ _ _ _ Hw1) as Hb. destruct (wr_area _ _ _ _ _ _ _ Hw1) as (_ & _ & Hmax).
    pose proof (wr_sectors _ _ _ _ _ _ _ Hw1). pose proof (wr_blksize _ _ _ _ _ _ _ Hw1). pose proof (wr_ptr _ _ _ _ _ _ _ Hw1) as Hp.
    assert (Hp0 : 0 < cchhb2blk (vl_vtoc vl) geo).
    { assert (0 <= cchhb2blk (vl_vtoc vl) geo); [|fold vl in Hp; lia]. unfold cchhb2blk. apply u64_range. }
    rewrite (proj2 (Z.ltb_lt 0 (cchhb2blk (vl_vtoc vl) geo))) by exact Hp0.
    rewrite (proj2 (Z.ltb_lt 0 (vtoc_blk geo anc))) by exact Hb. rewrite (proj2 (Z.ltb_lt _ 9223372036854775808)) by nia.
    cbn [andb]. rewrite Hread, Done_bind. cbn [negb]. by rewrite andb_false_r.
Qed.

(** ** The automatic mode *)

Lemma zero_part_valid : cvalid cformat1 zero_format1.
Proof. apply (cdec_valid (c := cformat1)); [done|]. apply Forall_replicate. unfold in_u8. lia. Qed.

Lemma cchh_valid cc hh : 0 <= cc < 2 ^ 28 → 0 <= hh < 16 → cvalid ccchh (vtoc_set_cchh cc hh).
Proof.
  intros Hc Hh. destruct (set_cchh_ok cc hh Hc Hh) as [H1 H2]. destruct (vtoc_set_cchh cc hh) as [c h]. unfold in_u16 in *.
  cbn in *. change (256 ^ Z.of_nat 2) with 65536. lia.
Qed.

Lemma extent_valid ti seq l u :
  cvalid ccchh l → cvalid ccchh u → cvalid cextent (vtoc_set_extent ti seq l u).
Proof.
  intros [H3 H4] [H5 H6]. destruct l, u. cbn. pose proof (u8_range ti). pose proof (u8_range seq). done.
Qed.

Lemma update_format4_valid f4 hp rec :
  cvalid cformat4 f4 → cvalid ccchhb hp → cvalid cformat4 (vtoc_update_format4_label f4 hp rec).
Proof.
  intros H1 H2. pose proof (u16_range rec) as Hr. unfold vtoc_update_format4_label, in_u16 in *.
  generalize dependent (u16 rec). intros r Hr. destruct f4. cbn in *. change (256 ^ Z.of_nat 2) with 65536 in *.
  naive_solver.
Qed.

Lemma f4_cylinders_init geo anc :
  disk_geometry geo anc → f4_cylinders (init_f4 geo anc) = a_formatted_cylinders anc.
Proof.
  intros [Hh _ _ Hc Hl Hg]. unfold last_trk in Hl. unfold f4_cylinders, init_f4, vtoc_init_format4_label.
  cbn [DS4DSCYL DS4DEVCT DS4DCYL]. rewrite (u32_small (a_formatted_cylinders anc)) by nia.
  destruct Hg as [[-> Hlt]|[-> Hlt]].
  - rewrite u16_small by lia. destruct (_ && _); done.
  - change (u16 LV_COMPAT_CYL) with LV_COMPAT_CYL. rewrite Z.eqb_refl, (proj2 (Z.ltb_lt _ _)) by lia. done.
Qed.

Lemma vtoc_first_blk geo anc :
  vl_vtoc (a_vlabel anc) = vtoc_first → 0 <= geo_sectors geo → 0 <= a_blksize anc →
  geo_sectors geo * a_blksize anc < 2 ^ 63 → geo_sectors geo < 2 ^ 63 →
  cchhb2blk (vl_vtoc (a_vlabel anc)) geo = geo_sectors geo + 1 ∧
  vtoc_blk geo anc = geo_sectors geo * a_blksize anc.
Proof.
  intros Hv H1 H2 H3 H4. rewrite Hv. assert (E : cchhb2blk vtoc_first geo = geo_sectors geo + 1).
  { unfold cchhb2blk. change (vtoc_get_cyl_from_cchhb vtoc_first) with 0. change (vtoc_get_head_from_cchhb vtoc_first) with 1.
    change (cchhb_b vtoc_first) with 1. rewrite u64_small by lia. lia. }
  split; [done|]. unfold vtoc_blk. rewrite Hv, E, Z.add_simpl_r. apply u64_small.
  change (2 ^ 63) with 9223372036854775808 in *. nia.
Qed.

Lemma highest_valid anc : cvalid ccchhb (get_addr_of_highest_f1_f8_label anc).
Proof.
  unfold get_addr_of_highest_f1_f8_label. cbv zeta.
  match goal with |- context [vtoc_set_cchhb _ _ ?r] => assert (Hr : 0 <= r < 256) end.
  { destruct (_ <? _); [apply u8_range|]. destruct (_ =? 0); apply u8_range. }
  split; [split; vm_compute; congruence|]. split; [split; vm_compute; congruence|].
  cbn. try exact Hr. try apply u8_range.
Qed.

(** A disk that the automatic mode can take: an empty partition list without
    names, and the volume label and the VTOC track on the device. *)
Record auto_ready (geo : hd_geometry) (d : device) (anc : fdasd_anchor) (x y z : nat) : Prop := {
  ar_disk : disk_geometry geo anc;
  ar_linked : linked (a_tab anc) x y z;
  ar_unused : Forall unused (plist (a_tab anc) x y z);
  ar_new : a_partno anc = replicate 3 (-1);
  ar_f9 : cvalid cformat9 (a_f9 anc) ∧ DS9FMTID (a_f9 anc) = 0xf9;
  ar_vlabel : cvalid cvolume_label (a_vlabel anc);
  ar_sectors : 9 <= geo_sectors geo < 256;
  ar_blksize : 140 <= a_blksize anc < 2 ^ 28;
  ar_open : dev_readable d = true ∧ dev_writable d = true;
  ar_area : area_ok d 0 (2 * geo_sectors geo * a_blksize anc);
  ar_label : 0 <= a_label_pos anc ∧ a_label_pos anc + 92 <= geo_sectors geo * a_blksize anc;
  ar_quiet : quiet_rest geo d (geo_sectors geo * a_blksize anc) (a_blksize anc)
}.

(** the kind of the partition labels *)
Definition label_kind (anc : fdasd_anchor) : Z := if LV_COMPAT_CYL <? a_formatted_cylinders anc then 0xf8 else 0xf1.

Lemma auto_used_labels geo now anc x y z :
  disk_geometry geo anc → linked (a_tab anc) x y z → Forall unused (plist (a_tab anc) x y z) →
  ∃ f, used_labels (plist (a_tab (auto_labels geo now anc)) x y z) = [f] ∧ cvalid cformat1 f ∧ DS1FMTID f = label_kind anc.
Proof.
  intros Hd Hlk Hun. rewrite (auto_labels_plist geo now anc x y z Hd Hlk). unfold plist in Hun.
  apply Forall_cons in Hun as [Hx Hun]. rewrite used_labels_cons, (used_labels_unused _ Hun). eexists. split; [done|].
  destruct Hx as (_ & _ & _ & _ & _ & Hz). cbn [p_f1 core] in Hz |- *. unfold auto_part, new_f1. cbn [p_f1 core set_p_f1].
  assert (Ez : p_f1 (tget (a_tab anc) x) = zero_format1) by exact Hz. rewrite Ez.
  change (a_formatted_cylinders (init_labels geo anc)) with (a_formatted_cylinders anc).
  destruct Hd as [Hh _ _ Hc Hl _]. unfold last_trk, FIRST_USABLE_TRK in *.
  match goal with |- context [vtoc_init_format8_label now ?b ?e zero_format1] =>
    destruct (vtoc_init_format1_valid now b e zero_format1) as [V1 V8] end.
  { apply extent_valid; apply cchh_valid; try lia; nia. }
  { exact zero_part_valid. }
  unfold label_kind. destruct (_ <? _); (split; [assumption|reflexivity]).
Qed.

Lemma auto_writable geo now d anc x y z :
  auto_ready geo d anc x y z → vl_vtoc (a_vlabel anc) = vtoc_first → serial_ok (a_vlabel anc) →
  writable geo d (auto_labels geo now anc) x y z (label_kind anc) ∧
  vtoc_blk geo (auto_labels geo now anc) = geo_sectors geo * a_blksize anc.
Proof.
  intros [Hd Hlk Hun Hpn [H9 I9] Hvl Hs Hb Ho (_ & Ha1 & Ha2) [Hl0 Hl1] Hq] Hvt Hser.
  set (anc' := auto_labels geo now anc).
  destruct (vtoc_first_blk geo anc' Hvt) as [Ep Eb]; [lia|change (a_blksize anc') with (a_blksize anc); nia..|lia|].
  change (a_blksize anc') with (a_blksize anc) in Eb. split; [|exact Eb].
  destruct (auto_used_labels geo now anc x y z Hd Hlk Hun) as (f & Ef & Hf & Hk). fold anc' in Ef.
  assert (E4 : ∃ hp rec, cvalid ccchhb hp ∧ a_f4 anc' = vtoc_update_format4_label (init_f4 geo anc) hp rec).
  { eexists _, _. split; [|reflexivity]. apply highest_valid. }
  destruct E4 as (hp & rec & Hhp & E4).
  assert (Hdev : same_device (init_f4 geo anc) (a_f4 anc')) by (rewrite E4; apply update_format4_same).
  split; try done.
  - split; [rewrite E4; by apply update_format4_valid, Hhp; apply vtoc_init_format4_valid|apply vtoc_init_format5_valid
      |apply vtoc_init_format7_valid|exact H9|reflexivity|reflexivity|exact I9| |].
    + unfold label_kind. destruct (_ <? _); auto.
    + rewrite Ef. constructor; [by split|constructor].
  - rewrite E4. etrans; [|exact (f4_cylinders_init geo anc Hd)]. by destruct (init_f4 geo anc).
  - lia.
  - rewrite Ep. lia.
  - rewrite Eb. nia.
  - rewrite Eb. change (a_blksize anc') with (a_blksize anc). split; [nia|]. split; nia.
  - rewrite Eb. exact Hq.
Qed.

(** [fdasd_auto_partition] saves a disk that the next run loads as one partition
    on all tracks behind the VTOC track. *)
Lemma auto_partition_saved geo options d now anc stdin x y z options0 anc0 stdin0 x0 y0 z0 :
  auto_ready geo d anc x y z → a_keep_volser anc = 0 →
  0 <= a_vlabel_changed anc < 2147483647 → 0 <= a_vtoc_changed anc < 2147483647 →
  fresh anc0 x0 y0 z0 → a_blksize anc0 = a_blksize anc → a_label_pos anc0 = a_label_pos anc →
  ∃ d' anc1, fdasd_auto_partition geo options d 0 now (anc, stdin) = Done d' ∧
    fdasd_check_volume geo d' options0 (anc0, stdin0) = Done (true, (anc1, stdin0)) ∧
    linked (a_tab anc1) x0 y0 z0 ∧ a_used_partitions anc1 = 1 ∧
    layout (last_trk geo anc) FIRST_USABLE_TRK (a_fspace_trk anc1) (plist (a_tab anc1) x0 y0 z0) ∧
    ∀ t, used_tracks (plist (a_tab anc1) x0 y0 z0) t ↔ FIRST_USABLE_TRK <= t <= last_trk geo anc.
Proof.
  intros Hr Hk Hc1 Hc2 Hf Eb Ep. destruct (init_volume_label_ok d options anc stdin Hk (ar_vlabel _ _ _ _ _ _ Hr))
    as (vl & stdin' & Ei & Hvl & Hvol & Hvt & Hser).
  set (anc2 := changed_vlabel (set_a_vlabel vl anc)) in *.
  assert (Hr2 : auto_ready geo d anc2 x y z).
  { destruct Hr as [[] [] ? ? ? ? ? ? ? ? ? ?]. split; try done; by split. }
  destruct (auto_writable geo now d anc2 x y z Hr2 Hvt Hser) as [Hw Evb].
  destruct (auto_labels_volume geo now anc2 x y z (ar_disk _ _ _ _ _ _ Hr2) (ar_linked _ _ _ _ _ _ Hr2) (ar_unused _ _ _ _ _ _ Hr2))
    as (Hg & Hv & _ & Hut).
  set (anc3 := auto_labels geo now anc2) in *.
  assert (E1 : a_vlabel_changed anc3 = a_vlabel_changed anc + 1) by (change (s32 (a_vlabel_changed anc + 1) = a_vlabel_changed anc + 1); apply s32_small; lia).
  assert (E2 : a_vtoc_changed anc3 = a_vtoc_changed anc + 1) by (change (s32 (a_vtoc_changed anc + 1) = a_vtoc_changed anc + 1); apply s32_small; lia).
  assert (Hl : label_ready geo d anc3).
  { destruct Hr as [_ _ _ _ _ _ Hs Hb _ (_ & Ha1 & Ha2) [Hl0 Hl1] _].
    split; [exact Hvl|exact Hvol| |rewrite Evb; exact Hl1|left; lia].
    change (a_label_pos anc3) with (a_label_pos anc). split; [lia|]. split; nia. }
  destruct (save_then_load geo d anc3 x y z (label_kind anc2) options0 anc0 stdin0 x0 y0 z0 Hg Hv Hw Hl)
    as (d' & anc' & anc1 & Es & Ec & Hl1 & _ & Hn & Hlay & Hu); [lia|exact Hf|exact Eb|exact Ep|].
  exists d', anc1. split; [|split; [exact Ec|split; [exact Hl1|split; [|split; [exact Hlay|]]]]].
  - unfold fdasd_auto_partition. rewrite Ei, Done_bind. fold anc3. by rewrite Es, Done_bind.
  - rewrite Hn. pose proof (ar_sectors _ _ _ _ _ _ Hr) as Hs.
    assert (Er : DS4DSREC (a_f4 anc3) = u16 (u16 (geo_sectors geo - 2) - 1)) by reflexivity.
    rewrite Er, !u16_small by (rewrite ?u16_small; lia). rewrite u32_small; lia.
  - intros t. rewrite Hu. apply Hut.
Qed.

End FdasdAuto.
