(* ===== verification/FdasdProps.v ===== *)
(** Properties of fdasd (src/fdasd/fdasd.c): partitions, labels and free space of
    a volume stay consistent through every command, configuration files and the
    automatic mode produce consistent volumes, and what happens at the edges. *)
From stdpp Require Import relations.
From S2P Require Import Prelude Ebcdic Cchh Codec Labels LabelOps VtocIo Extents Freespace FdasdState.
From S2P Require Import FdasdTable FdasdLayout FdasdList FdasdInput FdasdPart FdasdVolume FdasdVtoc FdasdVtocProofs.
From S2P Require Import FdasdConf FdasdConfProofs FdasdIo FdasdRead FdasdReadProofs FdasdIoProofs.
From S2P Require Import FdasdReread FdasdSerial FdasdSetup FdasdMain FdasdAuto.
Import Ebcdic Addr VtocIo Extents Freespace Fdasd FdasdTable FdasdLayout FdasdList FdasdInput FdasdPart
  FdasdVolume FdasdVtoc FdasdVtocProofs FdasdConf FdasdConfProofs FdasdIo FdasdRead FdasdReadProofs
  FdasdIoProofs FdasdReread FdasdSerial FdasdSetup FdasdSetupProofs FdasdMain FdasdAuto.

Module FdasdProps.

(** ** A volume of 100 cylinders *)

Definition demo_geo : hd_geometry := Geo 15 12 100 0.
Definition demo_now : tm := Tm 124 59.
Definition demo_start : fdasd_anchor :=
  set_a_formatted_cylinders 100 (set_a_hw_cylinders 100 (set_a_blksize 4096
    (set_a_dev_type DASD_3390_TYPE fdasd_initialize_anchor))).

(** the result of an operation that returns *)
Definition result {A} (dflt : A) (m : outcome A) : A := match m with Done a => a | _ => dflt end.
Definition returns {A} (m : outcome A) : bool := match m with Done _ => true | _ => false end.

(** a new VTOC, and a partition for each line pair of an input *)
Definition demo : fdasd_anchor := result demo_start (fdasd_recreate_vtoc_unconditional demo_geo demo_start).
Definition add_demo (anc : fdasd_anchor) (input : string) : fdasd_anchor :=
  (result (anc, []) (fdasd_add_partition demo_geo demo_now (anc, bytes_of_string input))).1.

Lemma demo_disk : disk_geometry demo_geo demo_start.
Proof. split; cbn; unfold last_trk, FIRST_USABLE_TRK; cbn; try lia. Qed.

Lemma demo_fresh : fresh demo_start 0 1 2.
Proof. destruct initialize_anchor_fresh. by split. Qed.

Lemma demo_volume :
  disk_geometry demo_geo demo ∧ geometry_ok demo_geo demo ∧ volume demo_geo demo 0 1 2 ∧
  Forall unused (plist (a_tab demo) 0 1 2).
Proof.
  destruct (recreate_volume demo_geo demo_start 0 1 2 demo_disk (fr_linked _ _ _ _ demo_fresh))
    as (anc' & He & Hg & Hv & _ & Hun & _).
  { do 3 (constructor; [right; repeat split|]). constructor. }
  unfold demo. rewrite He. split; [|done].
  apply (same_size_geometry demo_geo demo_start); [by eapply recreate_size|apply demo_disk].
Qed.

Lemma demo_consistent : consistent demo_geo demo.
Proof. destruct demo_volume as (Hd & Hg & Hv & _). split; [done|]. split; [done|]. by exists 0%nat, 1%nat, 2%nat. Qed.

Lemma add_demo_consistent anc input :
  consistent demo_geo anc →
  returns (fdasd_add_partition demo_geo demo_now (anc, bytes_of_string input)) = true →
  consistent demo_geo (add_demo anc input).
Proof.
  intros Hc Hr. pose proof (add_keeps demo_geo demo_now anc (bytes_of_string input) 0 Hc) as Hk.
  unfold add_demo. by destruct (fdasd_add_partition _ _ _).
Qed.

(** tracks 2..10; and 2..10 and 50..1499 *)
Definition nl : string := String (Ascii.ascii_of_nat 10) EmptyString.
Definition demo1 : fdasd_anchor := add_demo demo ("2" ++ nl ++ "10" ++ nl).
Definition demo2 : fdasd_anchor := add_demo demo1 ("50" ++ nl ++ "1499" ++ nl).

Lemma demo1_consistent : consistent demo_geo demo1.
Proof. apply add_demo_consistent; [apply demo_consistent|]. by vm_compute. Qed.
Lemma demo2_consistent : consistent demo_geo demo2.
Proof. apply add_demo_consistent; [apply demo1_consistent|]. by vm_compute. Qed.

#[local] Opaque demo demo1 demo2.

(** ** The menu *)

(** C1: from a consistent state, whatever is typed, every state that the menu
    reaches is consistent: the partition list is a layout of the disk, the format
    1 or 8 labels describe its partitions, and the free-space label stands for
    exactly the tracks outside of them. *)
Theorem menu_keeps_volume_consistent geo d reread st st' :
  consistent geo st.1 → rtc (menu_step geo d reread) st st' → consistent geo st'.1.
Proof. intros Hc Hr. by apply (menu_reachable_consistent geo d reread st). Qed.

Definition demo_dev : device := Device true true (zeros 2048).
Definition demo_keys : list Z := bytes_of_string ("n" ++ nl ++ "2" ++ nl ++ "10" ++ nl ++ "d" ++ nl ++ "1" ++ nl).
(** the states before and after the two commands *)
Definition demo_session : list io :=
  let step st := match menu_command demo_geo demo_dev 0 demo_now st with Done (inl st) => st | _ => st end in
  [(demo, demo_keys); step (demo, demo_keys); step (step (demo, demo_keys))].

Lemma menu_keeps_volume_consistent_witness :
  consistent demo_geo (nth 2 demo_session (demo, [])).1 ∧
  a_used_partitions (nth 1 demo_session (demo, [])).1 = 1 ∧ (nth 2 demo_session (demo, [])).2 = [].
Proof.
  split; [|split; by vm_compute].
  apply (menu_keeps_volume_consistent demo_geo demo_dev 0 (demo, demo_keys)); [exact demo_consistent|].
  eapply rtc_l; [apply (menu_step_intro _ _ _ demo_now _ (nth 1 demo_session (demo, []))); by vm_compute|].
  eapply rtc_l; [apply (menu_step_intro _ _ _ demo_now _ (nth 2 demo_session (demo, []))); by vm_compute|].
  apply rtc_refl.
Defined.

(** One round of the menu with a command other than 'w', from a consistent
    state: it goes on in a consistent state, or ends the program with code 0
    (quit) or 1 (refused), or waits for ever for a digit that is not in the input;
    it never reads or writes out of bounds. *)
Theorem menu_command_outcome geo d reread now anc stdin :
  consistent geo anc →
  let c := tolower (headc (read_char stdin).1) in
  c ≠ 119 →
  match menu_command geo d reread now (anc, stdin) with
  | Done (inl st) => consistent geo st.1
  | Done (inr _) | Fault => False
  | Exited rc => rc = 0 ∨ rc = 1
  | OutOfFuel => (c = 100 ∨ c = 116) ∧ starved (read_char stdin).2
  end.
Proof. apply menu_command_safe. Qed.

Lemma menu_command_outcome_witness :
  match menu_command demo_geo demo_dev 0 demo_now (demo1, bytes_of_string ("t" ++ nl ++ "1" ++ nl ++ "4" ++ nl)) with
  | Done (inl st) => consistent demo_geo st.1 ∧ a_used_partitions st.1 = 1
  | _ => False
  end.
Proof.
  assert (Hw : tolower (headc (read_char (bytes_of_string ("t" ++ nl ++ "1" ++ nl ++ "4" ++ nl))).1) ≠ 119)
    by (by vm_compute).
  pose proof (menu_command_outcome demo_geo demo_dev 0 demo_now demo1 _ demo1_consistent Hw) as H.
  assert (Hu : match menu_command demo_geo demo_dev 0 demo_now
      (demo1, bytes_of_string ("t" ++ nl ++ "1" ++ nl ++ "4" ++ nl)) with
    | Done (inl st) => a_used_partitions st.1 = 1 | _ => False end) by (by vm_compute).
  destruct (menu_command _ _ _ _ _) as [[st|?]| | |]; [exact (conj H Hu)|exact Hu..].
Defined.

(** At the end of the input the menu never ends: however many rounds are
    allowed, it is still asking for a command. *)
Theorem menu_spins_at_end_of_input geo d reread fuel clock anc :
  a_option_reuse anc = 0 → a_option_recreate anc = 0 →
  menu_loop geo d reread fuel clock (anc, []) = OutOfFuel.
Proof. apply menu_eof. Qed.

Lemma menu_spins_at_end_of_input_witness :
  menu_loop demo_geo demo_dev 0 1000 (λ _, demo_now) (demo1, []) = OutOfFuel.
Proof. apply menu_spins_at_end_of_input; by vm_compute. Defined.

(** ** Partitions *)

(** C34: [fdasd_add_partition] returns with a consistent volume in which nothing
    changed or one more partition was added, on tracks of the disk that were free;
    or it ends the program, which needs a partition on the last track and one on
    the first usable track. *)
Theorem add_partition_correct geo now anc x y z stdin :
  geometry_ok geo anc → volume geo anc x y z →
  (fdasd_add_partition geo now (anc, stdin) = Exited 1 ∧
   ¬ restart_safe (last_trk geo anc) (plist (a_tab anc) x y z)) ∨
  ∃ anc' stdin' x' y' z',
    fdasd_add_partition geo now (anc, stdin) = Done (anc', stdin') ∧
    same_disk anc anc' ∧ volume geo anc' x' y' z' ∧
    added geo anc anc' (plist (a_tab anc) x y z) (plist (a_tab anc') x' y' z').
Proof. apply add_partition_volume. Qed.

Lemma add_partition_correct_witness :
  ∃ anc' stdin' x' y' z',
    fdasd_add_partition demo_geo demo_now (demo, bytes_of_string ("20" ++ nl ++ "+100M" ++ nl)) = Done (anc', stdin') ∧
    volume demo_geo anc' x' y' z' ∧
    added demo_geo demo anc' (plist (a_tab demo) 0 1 2) (plist (a_tab anc') x' y' z').
Proof.
  destruct demo_volume as (_ & Hg & Hv & _).
  destruct (add_partition_correct demo_geo demo_now demo 0 1 2 (bytes_of_string ("20" ++ nl ++ "+100M" ++ nl)) Hg Hv)
    as [[He _]|(anc' & s' & x' & y' & z' & He & _ & Hv' & Ha)].
  - exfalso. assert (returns (fdasd_add_partition demo_geo demo_now
      (demo, bytes_of_string ("20" ++ nl ++ "+100M" ++ nl))) = true) as Hr by (by vm_compute).
    by rewrite He in Hr.
  - exact (ex_intro _ anc' (ex_intro _ s' (ex_intro _ x' (ex_intro _ y' (ex_intro _ z' (conj He (conj Hv' Ha))))))).
Defined.

(** [fdasd_add_partition] can end the program although there is free space:
    with partitions on tracks 2..10 and 50..1499, the start 60 is taken back to
    the occupied track 2, and the free-space update refuses it. *)
Theorem add_partition_aborts :
  consistent demo_geo demo2 ∧ a_used_partitions demo2 = 2 ∧
  map (λ p, (p_used p, p_start_trk p, p_end_trk p)) (a_parts demo2) = [(0, 0, 0); (1, 50, 1499); (1, 2, 10)] ∧
  fdasd_add_partition demo_geo demo_now (demo2, bytes_of_string ("60" ++ nl)) = Exited 1.
Proof. split; [exact demo2_consistent|]. split; [by vm_compute|]. split; by vm_compute. Qed.

(** [fdasd_remove_partition] returns once the input holds a digit: a valid
    number frees exactly the tracks of that partition, 0 or a number that is too
    large changes no partition, and the volume stays consistent. *)
Theorem remove_partition_correct geo anc x y z stdin fuel id stdin' :
  geometry_ok geo anc → volume geo anc x y z →
  read_digit fuel stdin = Done (id, stdin') →
  ∃ anc' x' y' z',
    fdasd_remove_partition geo (anc, stdin) = Done (anc', stdin') ∧
    same_disk anc anc' ∧ volume geo anc' x' y' z' ∧
    if (1 <=? id) && (id <=? a_used_partitions anc) then
      ∃ p, plist (a_tab anc) x y z !! Z.to_nat (id - 1) = Some p ∧ p_used p = 1 ∧
        freed (plist (a_tab anc) x y z) (plist (a_tab anc') x' y' z') p ∧
        a_used_partitions anc' = a_used_partitions anc - 1
    else ∀ t, used_tracks (plist (a_tab anc') x' y' z') t ↔ used_tracks (plist (a_tab anc) x y z) t.
Proof. apply remove_partition_volume. Qed.

Lemma remove_partition_correct_witness :
  ∃ anc' x' y' z',
    fdasd_remove_partition demo_geo (demo2, bytes_of_string ("x" ++ nl ++ "2" ++ nl)) = Done (anc', []) ∧
    volume demo_geo anc' x' y' z' ∧ a_used_partitions anc' = 1.
Proof.
  destruct demo2_consistent as (_ & Hg & x & y & z & Hv).
  destruct (remove_partition_correct demo_geo demo2 x y z (bytes_of_string ("x" ++ nl ++ "2" ++ nl)) 9 2 [] Hg Hv)
    as (anc' & x' & y' & z' & He & _ & Hv' & Hif); [vm_compute; reflexivity|].
  exists anc', x', y', z'. split; [exact He|]. split; [exact Hv'|].
  assert (Hu : a_used_partitions demo2 = 2) by (vm_compute; reflexivity). rewrite Hu in Hif. cbn [Z.leb Z.compare Pos.compare Pos.compare_cont andb] in Hif.
  destruct Hif as (p & _ & _ & _ & ->). reflexivity.
Defined.

(** In every layout the lengths of the partitions and the free-space
    counters add up to the tracks of the disk behind the VTOC track. *)
Theorem counters_account_for_every_track limit fs l :
  layout limit FIRST_USABLE_TRK fs l →
  part_tracks l + free_count fs l = limit + 1 - FIRST_USABLE_TRK.
Proof. apply layout_account. Qed.

Lemma counters_account_for_every_track_witness :
  ∃ x y z, part_tracks (plist (a_tab demo2) x y z) + free_count (a_fspace_trk demo2) (plist (a_tab demo2) x y z) = 1498.
Proof.
  destruct demo2_consistent as (_ & _ & x & y & z & Hv). exists x, y, z.
  rewrite (counters_account_for_every_track (last_trk demo_geo demo2)); [by vm_compute|].
  apply (v_layout _ _ _ _ _ Hv).
Defined.

(** [fdasd_list_partition_table] returns, changes no partition, and its rows
    (partitions and free areas) cover the tracks from the first usable one to the
    last one in order, without gap or overlap. *)
Theorem table_rows_tile_the_disk anc x y z limit :
  linked (a_tab anc) x y z → 0 <= limit < 9223372036854775807 →
  layout limit FIRST_USABLE_TRK (a_fspace_trk anc) (plist (a_tab anc) x y z) →
  ∃ rows t', fdasd_list_partition_table anc = Done (rows, set_a_tab t' anc) ∧
    relabelled same_ext (a_tab anc) t' ∧ tiles limit FIRST_USABLE_TRK rows.
Proof. apply list_partition_table_spec. Qed.

Lemma table_rows_tile_the_disk_witness :
  ∃ rows t', fdasd_list_partition_table demo2 = Done (rows, set_a_tab t' demo2) ∧
    tiles 1499 FIRST_USABLE_TRK rows.
Proof.
  destruct demo2_consistent as (_ & _ & x & y & z & Hv).
  assert (Hl : last_trk demo_geo demo2 = 1499) by (vm_compute; reflexivity).
  pose proof (v_layout _ _ _ _ _ Hv) as Hlay. rewrite Hl in Hlay.
  destruct (table_rows_tile_the_disk demo2 x y z 1499 (v_linked _ _ _ _ _ Hv) ltac:(lia) Hlay)
    as (rows & t' & H1 & _ & H2).
  exact (ex_intro _ rows (ex_intro _ t' (conj H1 H2))).
Defined.

(** ** The linked list *)

(** C38: the pointer surgery of [fdasd_enqueue_new_partition] refines insertion
    into a list: the new record lands in front of the first partition that starts
    behind it, the counters are the ones of the list operation, and the data set
    numbers behind its position move up by one. *)
Theorem enqueue_is_insertion t x y z :
  linked t x y z →
  Forall (λ p, 0 <= p_end_trk p < 18446744073709551615) (plist t x y z) →
  let k := enq_pos [core (tget t x); core (tget t y)] (core (tget t z)) in
  let '(x', y', z') := enq_ids k x y z in
  ∃ t',
    fdasd_enqueue_new_partition t = Done t' ∧ linked t' x' y' z' ∧
    (t_fspace_trk t', plist t' x' y' z') =
      enq FIRST_USABLE_TRK (t_fspace_trk t)
        [core (tget t x); core (tget t y)] (core (tget t z)) ∧
    t_partno t' = shift_positions k 1 (t_partno t).
Proof. apply enqueue_refines. Qed.

(** a list with one partition on tracks 20..29 and a new one on 5..9 at the end *)
Definition demo_table : ptable :=
  tupd 2 (λ p, set_p_len_trk 5 (set_p_end_trk 9 (set_p_start_trk 5 p)))
    (tupd 0 (λ p, set_p_fspace_trk 1470 (set_p_len_trk 10 (set_p_end_trk 29 (set_p_start_trk 20 (set_p_used 1 p)))))
      (set_t_fspace_trk 18 init_table)).

Lemma demo_table_linked : linked demo_table 0 1 2.
Proof. split; try (vm_compute; reflexivity); [apply list_elem_of_here|..]; repeat split; vm_compute; reflexivity. Qed.

Lemma enqueue_is_insertion_witness :
  ∃ t', fdasd_enqueue_new_partition demo_table = Done t' ∧ linked t' 2 0 1 ∧
    map p_start_trk (plist t' 2 0 1) = [5; 20; 0] ∧ t_fspace_trk t' = 3.
Proof.
  destruct (enqueue_is_insertion demo_table 0 1 2 demo_table_linked) as (t' & H1 & H2 & H3 & _).
  - do 3 (constructor; [split; vm_compute; congruence|]). constructor.
  - exists t'. split; [exact H1|]. split; [exact H2|].
    split; [apply (f_equal (λ r, map p_start_trk (snd r))) in H3|apply (f_equal fst) in H3];
      cbn [fst snd] in H3; rewrite H3; vm_compute; reflexivity.
Defined.

(** [fdasd_dequeue_old_partition] refines removal from a list: the record
    goes to the end, cleared, and its tracks go to the free space before it. *)
Theorem dequeue_is_removal t x y z j id k :
  linked t x y z → [x; y; z] !! j = Some id →
  let '(x', y', z') := deq_ids j x y z in
  ∃ t',
    fdasd_dequeue_old_partition t id k = Done t' ∧ linked t' x' y' z' ∧
    (t_fspace_trk t', plist t' x' y' z') = deq (t_fspace_trk t) (plist t x y z) j ∧
    t_partno t' = shift_positions k (-1) (t_partno t).
Proof. apply dequeue_refines. Qed.

Lemma dequeue_is_removal_witness :
  ∃ t', fdasd_dequeue_old_partition demo_table 0 0 = Done t' ∧ linked t' 1 2 0 ∧ t_fspace_trk t' = 1498.
Proof.
  destruct (dequeue_is_removal demo_table 0 1 2 0 0 0 demo_table_linked eq_refl) as (t' & H1 & H2 & H3 & _).
  exists t'. split; [exact H1|]. split; [exact H2|]. apply (f_equal fst) in H3. cbn [fst] in H3.
  rewrite H3. vm_compute. reflexivity.
Defined.

(** [fdasd_reorganize_FMT1s] permutes the labels of the records into
    descending order of the format identifier and leaves everything else alone. *)
Theorem reorganize_FMT1s_sorts t x y z :
  linked t x y z →
  ∃ t' fs,
    fdasd_reorganize_FMT1s t = Done t' ∧ linked t' x y z ∧
    plist t' x y z = with_f1s (plist t x y z) fs ∧
    fs ≡ₚ map p_f1 (plist t x y z) ∧ StronglySorted fmt_desc fs ∧
    t_fspace_trk t' = t_fspace_trk t ∧ t_partno t' = t_partno t.
Proof. apply reorganize_FMT1s_refines. Qed.

Lemma reorganize_FMT1s_sorts_witness :
  let t := tupd 2 (set_p_f1 (set_DS1FMTID zero_format1 0xf1)) init_table in
  ∃ t', fdasd_reorganize_FMT1s t = Done t' ∧ linked t' 0 1 2 ∧
    map (λ p, DS1FMTID (p_f1 p)) (t_parts t') = [0xf1; 0; 0].
Proof.
  intros t. assert (Hlk : linked t 0 1 2) by (apply linked_tupd; [apply initialize_anchor_fresh|done]).
  destruct (reorganize_FMT1s_sorts t 0 1 2 Hlk) as (t' & fs & H1 & H2 & _).
  exists t'. split; [exact H1|]. split; [exact H2|].
  assert (E : fdasd_reorganize_FMT1s t = Done (tupd 0 (set_p_f1 (set_DS1FMTID zero_format1 0xf1)) init_table))
    by (vm_compute; reflexivity).
  rewrite H1 in E. injection E as ->. vm_compute. reflexivity.
Defined.

(** ** New VTOCs *)

(** [fdasd_recreate_vtoc_unconditional] makes an empty consistent volume of
    any partition list, whatever the labels and counters were. *)
Theorem recreate_vtoc_empties geo anc x y z :
  disk_geometry geo anc → linked (a_tab anc) x y z →
  Forall used_or_blank (map (tget (a_tab anc)) [x; y; z]) →
  ∃ anc', fdasd_recreate_vtoc_unconditional geo anc = Done anc' ∧
    geometry_ok geo anc' ∧ volume geo anc' x y z ∧ a_used_partitions anc' = 0 ∧
    Forall unused (plist (a_tab anc') x y z) ∧ a_partno anc' = replicate 3 (-1) ∧
    same_device (init_f4 geo anc) (a_f4 anc').
Proof. apply recreate_volume. Qed.

Lemma recreate_vtoc_empties_witness :
  ∃ anc', fdasd_recreate_vtoc_unconditional demo_geo demo2 = Done anc' ∧ a_used_partitions anc' = 0 ∧
    ∃ x y z, volume demo_geo anc' x y z ∧ Forall unused (plist (a_tab anc') x y z).
Proof.
  destruct demo2_consistent as (Hd & _ & x & y & z & Hv).
  destruct (recreate_vtoc_empties demo_geo demo2 x y z Hd (v_linked _ _ _ _ _ Hv))
    as (anc' & H1 & _ & H2 & H3 & H4 & _).
  - exact (layout_records_blank _ _ _ _ _ _ _ (v_layout _ _ _ _ _ Hv)).
  - exists anc'. split; [exact H1|]. split; [exact H3|]. exists x, y, z. exact (conj H2 H4).
Defined.

(** [fdasd_reuse_vtoc] (menu command 'u') rebuilds the labels of a volume
    from the partition list alone: whatever the free-space labels were, the result
    is consistent and has the same partitions. *)
Theorem reuse_vtoc_rebuilds geo now anc x y z stdin stdin' :
  disk_geometry geo anc → linked (a_tab anc) x y z →
  layout (last_trk geo anc) FIRST_USABLE_TRK (a_fspace_trk anc) (plist (a_tab anc) x y z) →
  a_used_partitions anc = n_used (plist (a_tab anc) x y z) →
  Forall (f1_ok geo) (plist (a_tab anc) x y z) →
  consent anc stdin = Done (0, stdin') →
  ∃ anc', fdasd_reuse_vtoc geo now (anc, stdin) = Done (anc', stdin') ∧
    geometry_ok geo anc' ∧ volume geo anc' x y z ∧
    ∀ t, used_tracks (plist (a_tab anc') x y z) t ↔ used_tracks (plist (a_tab anc) x y z) t.
Proof. apply reuse_volume. Qed.

(** the free-space labels are lost *)
Definition lost (anc : fdasd_anchor) : fdasd_anchor := set_a_f7 zero_format7 (set_a_f5 zero_format5 anc).

Lemma lost_facts geo anc x y z :
  disk_geometry geo anc → volume geo anc x y z →
  disk_geometry geo (lost anc) ∧ linked (a_tab (lost anc)) x y z ∧
  layout (last_trk geo (lost anc)) FIRST_USABLE_TRK (a_fspace_trk (lost anc)) (plist (a_tab (lost anc)) x y z) ∧
  a_used_partitions (lost anc) = n_used (plist (a_tab (lost anc)) x y z) ∧
  Forall (f1_ok geo) (plist (a_tab (lost anc)) x y z).
Proof. intros [] []. split; [by split|done]. Qed.

Lemma reuse_vtoc_rebuilds_witness :
  ∃ anc' x y z, fdasd_reuse_vtoc demo_geo demo_now (lost demo2, bytes_of_string ("y" ++ nl)) = Done (anc', []) ∧
    volume demo_geo anc' x y z.
Proof.
  destruct demo2_consistent as (Hd & _ & x & y & z & Hv).
  destruct (lost_facts _ _ _ _ _ Hd Hv) as (L1 & L2 & L3 & L4 & L5).
  assert (Hc : consent (lost demo2) (bytes_of_string ("y" ++ nl)) = Done (0, [])) by (vm_compute; reflexivity).
  destruct (reuse_vtoc_rebuilds demo_geo demo_now (lost demo2) x y z _ [] L1 L2 L3 L4 L5 Hc)
    as (anc' & H1 & _ & H2 & _).
  exists anc', x, y, z. exact (conj H1 H2).
Defined.

(** [fdasd_auto_partition] on an empty volume: its labels describe one
    partition on all tracks from the first usable one to the last one, and the
    volume is consistent. *)
Theorem auto_partition_takes_all geo now anc x y z :
  disk_geometry geo anc → linked (a_tab anc) x y z → Forall unused (plist (a_tab anc) x y z) →
  let anc' := auto_labels geo now anc in
  geometry_ok geo anc' ∧ volume geo anc' x y z ∧ a_used_partitions anc' = 1 ∧
  ∀ t, used_tracks (plist (a_tab anc') x y z) t ↔ FIRST_USABLE_TRK <= t <= last_trk geo anc.
Proof. apply auto_labels_volume. Qed.

Lemma auto_partition_takes_all_witness :
  volume demo_geo (auto_labels demo_geo demo_now demo) 0 1 2 ∧
  a_used_partitions (auto_labels demo_geo demo_now demo) = 1.
Proof.
  destruct demo_volume as (Hd & _ & Hv & Hun).
  destruct (auto_partition_takes_all demo_geo demo_now demo 0 1 2 Hd (v_linked _ _ _ _ _ Hv) Hun) as (_ & H1 & H2 & _).
  exact (conj H1 H2).
Defined.

(** ** Configuration files *)

(** [fdasd_parse_conffile] on any file ends the program with code 1 or
    returns entries that are empty or have a start and an end track. *)
Theorem parse_conffile_outcome geo anc file :
  disk_geometry geo anc → Forall entry_ok (a_confdata anc) →
  fdasd_parse_conffile geo file anc = Exited 1 ∨
  ∃ cs, fdasd_parse_conffile geo file anc = Done (set_a_confdata cs anc) ∧
    Forall entry_ok cs ∧ length cs = length (a_confdata anc).
Proof. apply parse_conffile_spec. Qed.

(** what a configuration file with this text is parsed to *)
Definition conf_text : list Z := bytes_of_string ("[2,100]" ++ nl ++ "[200,last,swap]" ++ nl).

Lemma demo_entries : Forall entry_ok (a_confdata demo).
Proof.
  assert (E : a_confdata demo = replicate 3 (ConfigData 0 0 0)) by (vm_compute; reflexivity). rewrite E.
  apply Forall_replicate. unfold entry_ok, in_u64. simpl. lia.
Qed.

Lemma parse_conffile_outcome_witness :
  ∃ cs, fdasd_parse_conffile demo_geo (ConfContent conf_text) demo = Done (set_a_confdata cs demo) ∧
    Forall entry_ok cs.
Proof.
  destruct demo_volume as (Hd & _).
  destruct (parse_conffile_outcome demo_geo demo (ConfContent conf_text) Hd demo_entries) as [H|(cs & H1 & H2 & _)].
  - exfalso. assert (Hr : returns (fdasd_parse_conffile demo_geo (ConfContent conf_text) demo) = true)
      by (vm_compute; reflexivity). by rewrite H in Hr.
  - exists cs. exact (conj H1 H2).
Defined.

(** C39: [fdasd_check_conffile_input] and the label part of
    [fdasd_auto_partition_conffile] on an empty volume with parsed entries: the
    check ends the program with code 1, or the partitions are the entries up to
    the first empty one, and the labels that are built for them make a consistent
    volume. *)
Theorem conffile_partitions geo now anc x y z :
  disk_geometry geo anc → linked (a_tab anc) x y z → Forall unused (plist (a_tab anc) x y z) →
  Forall entry_ok (a_confdata anc) → length (a_confdata anc) = 3%nat →
  a_fspace_trk anc = last_trk geo anc + 1 - FIRST_USABLE_TRK → a_used_partitions anc = 0 →
  fdasd_check_conffile_input geo anc = Exited 1 ∨
  ∃ anc1 anc2, fdasd_check_conffile_input geo anc = Done anc1 ∧
    bounds (plist (a_tab anc1) x y z) = entries_from 3 0 anc ∧
    conffile_labels geo now anc1 = Done anc2 ∧ geometry_ok geo anc2 ∧ volume geo anc2 x y z ∧
    ∀ t, used_tracks (plist (a_tab anc2) x y z) t ↔ used_tracks (plist (a_tab anc1) x y z) t.
Proof.
  intros Hd Hlk Hun Hen Hlen Hfs H0.
  assert (Hok : ∀ k, (k < 3)%nat → entry_ok (conf anc k)).
  { intros k Hk. apply (Forall_lookup_total _ _ _ Hen). by rewrite Hlen. }
  destruct (check_conffile_spec geo anc x y z Hd Hlk Hun Hok Hfs)
    as [H|(t' & H & Hlk' & _ & Hlay & Hty & Hbd)]; [by left|]. right.
  destruct (conffile_labels_volume geo now (set_a_tab t' anc) x y z) as (anc2 & Hl & Hg & Hv & Hut); try done.
  { apply (same_size_geometry geo anc); done. }
  exists (set_a_tab t' anc), anc2. done.
Qed.

(** the anchor after parsing the text *)
Definition demo_conf : fdasd_anchor :=
  result demo (fdasd_parse_conffile demo_geo (ConfContent conf_text) demo).

Lemma set_confdata_facts geo anc x y z cs :
  disk_geometry geo anc → volume geo anc x y z → Forall unused (plist (a_tab anc) x y z) →
  disk_geometry geo (set_a_confdata cs anc) ∧ linked (a_tab (set_a_confdata cs anc)) x y z ∧
  Forall unused (plist (a_tab (set_a_confdata cs anc)) x y z) ∧ a_confdata (set_a_confdata cs anc) = cs.
Proof. intros [] [] Hun. split; [by split|done]. Qed.

Lemma demo_conf_facts :
  disk_geometry demo_geo demo_conf ∧ linked (a_tab demo_conf) 0 1 2 ∧ Forall unused (plist (a_tab demo_conf) 0 1 2) ∧
  Forall entry_ok (a_confdata demo_conf).
Proof.
  destruct demo_volume as (Hd & _ & Hv & Hun).
  destruct (parse_conffile_spec demo_geo demo (ConfContent conf_text) Hd demo_entries) as [H|(cs & H1 & H2 & _)].
  - exfalso. assert (Hr : returns (fdasd_parse_conffile demo_geo (ConfContent conf_text) demo) = true)
      by (vm_compute; reflexivity). by rewrite H in Hr.
  - unfold demo_conf. rewrite H1. cbn [result].
    destruct (set_confdata_facts _ _ _ _ _ cs Hd Hv Hun) as (F1 & F2 & F3 & F4). rewrite F4.
    exact (conj F1 (conj F2 (conj F3 H2))).
Qed.
#[local] Opaque demo_conf.

Lemma conffile_partitions_witness :
  ∃ anc1 anc2, fdasd_check_conffile_input demo_geo demo_conf = Done anc1 ∧
    bounds (plist (a_tab anc1) 0 1 2) = [(2, 100); (200, 1499)] ∧
    conffile_labels demo_geo demo_now anc1 = Done anc2 ∧ volume demo_geo anc2 0 1 2.
Proof.
  destruct demo_conf_facts as (Hd & Hlk & Hun & Hen).
  destruct (conffile_partitions demo_geo demo_now demo_conf 0 1 2 Hd Hlk Hun Hen)
    as [H|(anc1 & anc2 & H1 & H2 & H3 & _ & H4 & _)]; [vm_compute; reflexivity..| |].
  - exfalso. assert (Hr : returns (fdasd_check_conffile_input demo_geo demo_conf) = true)
      by (vm_compute; reflexivity). by rewrite H in Hr.
  - exists anc1, anc2. split; [exact H1|]. split; [|exact (conj H3 H4)].
    rewrite H2. vm_compute. reflexivity.
Defined.

(** ** Reading a volume *)

(** [fdasd_process_valid_vtoc] on a VTOC track that holds up to three format
    1 (or 8) labels in ascending order: it returns, the records and counters it
    computes are a layout of the disk, and its partitions are exactly the tracks
    that the labels describe. *)
Theorem valid_vtoc_gives_layout geo d anc blk x y z ls n :
  let anc0 := set_a_formatted_cylinders (f4_cylinders (a_f4 anc)) anc in
  geometry_ok geo anc0 → linked (a_tab anc) x y z → Forall unused (plist (a_tab anc) x y z) →
  on_blocks d (a_blksize anc) (u64 (blk + a_blksize anc)) ls → Z.of_nat (length ls) = geo_sectors geo - 1 →
  (length (part_labels ls) <= 3)%nat → Forall (λ f, DS1FMTID f = n) (part_labels ls) → 0 <= n →
  ascending geo (last_trk geo anc0) FIRST_USABLE_TRK (part_labels ls) →
  ∃ anc', fdasd_process_valid_vtoc geo d anc blk = Done anc' ∧ same_disk anc0 anc' ∧
    linked (a_tab anc') x y z ∧
    a_used_partitions anc' = u32 (geo_sectors geo - 2 - DS4DSREC (a_f4 anc)) ∧
    layout (last_trk geo anc0) FIRST_USABLE_TRK (a_fspace_trk anc') (plist (a_tab anc') x y z) ∧
    Forall (f1_ok geo) (plist (a_tab anc') x y z) ∧
    ∀ t, used_tracks (plist (a_tab anc') x y z) t ↔
         ∃ f, f ∈ part_labels ls ∧ f1_start geo f <= t <= f1_stop geo f.
Proof. apply process_valid_vtoc_layout. Qed.

(** a device with four blocks per track and 140 bytes per block: the second one
    holds the label of tracks 2..10, the third one an empty format 5 label *)
Definition tiny_geo : hd_geometry := Geo 15 4 100 0.
Definition tiny_anc : fdasd_anchor :=
  let anc := set_a_blksize 140 demo_start in set_a_f4 (init_f4 tiny_geo anc) anc.
Definition tiny_label : format1_label_t :=
  vtoc_init_format1_label demo_now 140 (vtoc_set_extent 1 0 (vtoc_set_cchh 0 2) (vtoc_set_cchh 0 10)) zero_format1.
Definition tiny_dev : device :=
  Device true true (zeros 140 ++ cenc cformat1 tiny_label ++ cenc cformat5 vtoc_init_format5_label ++ zeros 140).
Definition tiny_labels : list format1_label_t :=
  [tiny_label; cdec cformat1 (cenc cformat5 vtoc_init_format5_label); zero_format1].

Lemma tiny_geometry : geometry_ok tiny_geo (set_a_formatted_cylinders (f4_cylinders (a_f4 tiny_anc)) tiny_anc).
Proof. split; vm_compute; intuition congruence. Qed.

Lemma tiny_blocks : on_blocks tiny_dev 140 (u64 (0 + 140)) tiny_labels.
Proof. do 3 (constructor; [vm_compute; reflexivity|]). constructor. Qed.

Lemma tiny_ascending : ascending tiny_geo 1499 FIRST_USABLE_TRK (part_labels tiny_labels).
Proof.
  assert (E : part_labels tiny_labels = [renamed tiny_label]) by (vm_compute; reflexivity). rewrite E.
  constructor; [vm_compute; reflexivity|vm_compute; congruence|vm_compute; intuition congruence|].
  constructor. vm_compute. congruence.
Qed.

Lemma valid_vtoc_gives_layout_witness :
  ∃ anc', fdasd_process_valid_vtoc tiny_geo tiny_dev tiny_anc 0 = Done anc' ∧
    layout 1499 FIRST_USABLE_TRK (a_fspace_trk anc') (plist (a_tab anc') 0 1 2).
Proof.
  destruct (valid_vtoc_gives_layout tiny_geo tiny_dev tiny_anc 0 0 1 2 tiny_labels 0xf1) as (anc' & H1 & _ & _ & _ & H2 & _).
  - exact tiny_geometry.
  - apply (fr_linked _ _ _ _ demo_fresh).
  - apply (fr_unused _ _ _ _ demo_fresh).
  - exact tiny_blocks.
  - reflexivity.
  - vm_compute. lia.
  - assert (E : part_labels tiny_labels = [renamed tiny_label]) by (vm_compute; reflexivity). rewrite E.
    constructor; [vm_compute; reflexivity|constructor].
  - lia.
  - exact tiny_ascending.
  - exists anc'. exact (conj H1 H2).
Defined.

(** [fdasd_check_volume] on a disk whose label block is not a VOL1 label,
    when a table or serial is not just to be printed: it returns an empty
    consistent volume, or the program ends with code 0 or -1; nothing else. *)
Theorem unlabelled_disk_starts_empty geo d options anc stdin x y z vl :
  vtoc_read_volume_label d (a_label_pos anc) = Done vl → vollbl vl ≠ enc_str "VOL1" →
  fresh anc x y z → disk_geometry geo (hw_disk anc) →
  a_print_table anc = 0 → a_print_volser anc = 0 →
  match fdasd_check_volume geo d options (anc, stdin) with
  | Done (ok, st) => ok = true ∧ consistent geo st.1 ∧ a_used_partitions st.1 = 0
  | Exited rc => rc = 0 ∨ rc = -1
  | Fault | OutOfFuel => False
  end.
Proof.
  intros Hr Hl [F1 F2 F3] Hd H1 H2. unfold fdasd_check_volume. rewrite Hr, Done_bind.
  rewrite bool_decide_eq_false_2 by exact Hl.
  apply (no_vol1_consistent geo d options (set_a_vlabel vl anc) stdin x y z); [by split| |done|done|].
  - apply (same_size_geometry geo (hw_disk anc)); done.
  - intros _. by exists vl.
Qed.

Lemma unlabelled_disk_starts_empty_witness :
  match fdasd_check_volume demo_geo (Device true true (zeros 9000)) (Options None None) (demo_start, bytes_of_string ("y" ++ nl)) with
  | Done (ok, st) => ok = true ∧ consistent demo_geo st.1 ∧ a_used_partitions st.1 = 0
  | _ => False
  end.
Proof.
  pose proof (unlabelled_disk_starts_empty demo_geo (Device true true (zeros 9000)) (Options None None) demo_start
    (bytes_of_string ("y" ++ nl)) 0 1 2 zero_volume_label) as H.
  assert (Hr : returns (fdasd_check_volume demo_geo (Device true true (zeros 9000)) (Options None None)
    (demo_start, bytes_of_string ("y" ++ nl))) = true) by (vm_compute; reflexivity).
  destruct (fdasd_check_volume _ _ _ _) as [[ok st]| | |]; try discriminate Hr.
  apply H; [vm_compute; reflexivity|vm_compute; congruence|exact demo_fresh|exact demo_disk|reflexivity|reflexivity].
Defined.

(** A disk with an LNX1 label is always refused with code -1, also in the
    automatic mode: the question whether to overwrite the label is never asked. *)
Theorem lnx1_disk_is_refused geo d options anc stdin vl :
  vtoc_read_volume_label d (a_label_pos anc) = Done vl → vollbl vl = enc_str "LNX1" →
  a_print_table anc = 0 → a_print_volser anc = 0 →
  fdasd_check_volume geo d options (anc, stdin) = Exited (-1).
Proof.
  intros Hr Hl H1 H2. unfold fdasd_check_volume. rewrite Hr, Done_bind, Hl.
  rewrite bool_decide_eq_false_2 by (vm_compute; congruence).
  unfold no_vol1. change (a_print_table (set_a_vlabel vl anc)) with (a_print_table anc).
  change (a_print_volser (set_a_vlabel vl anc)) with (a_print_volser anc).
  change (a_vlabel (set_a_vlabel vl anc)) with vl. rewrite H1, H2, Hl.
  by rewrite bool_decide_eq_true_2.
Qed.

Lemma lnx1_disk_is_refused_witness :
  let d := Device true true (zeros 4 ++ enc_str "LNX1" ++ zeros 1000) in
  let anc := set_a_options (AnchorOptions 1 0 0 0 0 0 0 0 0 0) demo_start in
  fdasd_check_volume demo_geo d (Options None None) (anc, []) = Exited (-1).
Proof.
  intros d anc. apply (lnx1_disk_is_refused demo_geo d (Options None None) anc []
    (cdec cvolume_label (zeros 4 ++ enc_str "LNX1" ++ zeros 84))); vm_compute; reflexivity.
Defined.

(** ** Saving *)


(** a disk with nine blocks of 256 bytes per track *)
Definition small_geo : hd_geometry := Geo 15 9 100 0.
Definition small_anc : fdasd_anchor := set_a_label_pos 512 (set_a_blksize 256 demo_start).
Definition small_dev : device := Device true true (zeros 4608).

Lemma small_ready : auto_ready small_geo small_dev small_anc 0 1 2.
Proof.
  split; try reflexivity.
  - split; cbn; unfold last_trk, FIRST_USABLE_TRK; cbn; try lia.
  - apply (fr_linked _ _ _ _ demo_fresh).
  - apply (fr_unused _ _ _ _ demo_fresh).
  - split; [|reflexivity]. apply (cdec_valid (c := cformat9) (cenc cformat9 (a_f9 small_anc))); [reflexivity|].
    apply bytes_ok_compute. vm_compute. reflexivity.
  - apply (cdec_valid (c := cvolume_label) (zeros 92)); [reflexivity|]. apply bytes_ok_compute. reflexivity.
  - cbn. lia.
  - cbn. lia.
  - by split.
  - vm_compute. intuition congruence.
  - vm_compute. intuition congruence.
  - constructor.
Qed.



(** C3: the automatic mode from end to end. On an empty partition list without names, with
    the serial number not kept from the disk, and with no old partition labels on the VTOC
    track from its tenth block on, [fdasd_auto_partition] returns for every serial number
    that is given or none, and the disk that it leaves is loaded by the next run as one
    partition on all the tracks behind the VTOC track. The device is open for reading and
    writing, with at least 9 blocks of at least 140 bytes per track. *)
Theorem auto_partition_saves_disk geo options d now anc stdin x y z options0 anc0 stdin0 x0 y0 z0 :
  auto_ready geo d anc x y z → a_keep_volser anc = 0 →
  0 <= a_vlabel_changed anc < 2147483647 → 0 <= a_vtoc_changed anc < 2147483647 →
  fresh anc0 x0 y0 z0 → a_blksize anc0 = a_blksize anc → a_label_pos anc0 = a_label_pos anc →
  ∃ d' anc1, fdasd_auto_partition geo options d 0 now (anc, stdin) = Done d' ∧
    fdasd_check_volume geo d' options0 (anc0, stdin0) = Done (true, (anc1, stdin0)) ∧
    linked (a_tab anc1) x0 y0 z0 ∧ a_used_partitions anc1 = 1 ∧
    layout (last_trk geo anc) FIRST_USABLE_TRK (a_fspace_trk anc1) (plist (a_tab anc1) x0 y0 z0) ∧
    ∀ t, used_tracks (plist (a_tab anc1) x0 y0 z0) t ↔ FIRST_USABLE_TRK <= t <= last_trk geo anc.
Proof. apply auto_partition_saved. Qed.

Lemma auto_partition_saves_disk_witness :
  ∃ d' anc1, fdasd_auto_partition small_geo (Options (Some (bytes_of_string "lx-01")) None) small_dev 0 demo_now (small_anc, []) = Done d' ∧
    fdasd_check_volume small_geo d' (Options None None) (small_anc, []) = Done (true, (anc1, [])) ∧
    ∀ t, used_tracks (plist (a_tab anc1) 0 1 2) t ↔ 2 <= t <= 1499.
Proof.
  destruct (auto_partition_saves_disk small_geo (Options (Some (bytes_of_string "lx-01")) None) small_dev demo_now small_anc []
    0 1 2 (Options None None) small_anc [] 0 1 2 small_ready) as (d' & anc1 & H1 & H2 & _ & _ & _ & H3).
  - reflexivity.
  - vm_compute. intuition congruence.
  - vm_compute. intuition congruence.
  - destruct demo_fresh. by split.
  - reflexivity.
  - reflexivity.
  - exact (ex_intro _ d' (ex_intro _ anc1 (conj H1 (conj H2 H3)))).
Defined.

(** ** Answers *)

(** [fdasd_read_int] returns on every input, the end of the input included,
    with a track number of the range it was asked for. *)
Theorem read_int_in_range geo blksize low dflt high base stdin :
  0 < blksize → 0 < geo_sectors geo → low <= dflt <= high →
  ∃ trk rest, fdasd_read_int geo blksize low dflt high base stdin = Done (trk, rest) ∧
    low <= trk <= high ∧ (length rest <= length stdin)%nat.
Proof. apply fdasd_read_int_total. Qed.

(** a line that is no number, one that is out of range, then a size of 5 cylinders *)
Lemma read_int_in_range_witness :
  ∃ trk rest, fdasd_read_int demo_geo 4096 2 1499 1499 upper (bytes_of_string ("foo" ++ nl ++ "9999" ++ nl ++ "+5c" ++ nl)) =
    Done (trk, rest) ∧ 2 <= trk <= 1499 ∧ trk = 76.
Proof.
  destruct (read_int_in_range demo_geo 4096 2 1499 1499 upper (bytes_of_string ("foo" ++ nl ++ "9999" ++ nl ++ "+5c" ++ nl)))
    as (trk & rest & H1 & H2 & _); [lia|simpl; lia|lia|].
  exists trk, rest. split; [exact H1|]. split; [exact H2|].
  assert (E : fdasd_read_int demo_geo 4096 2 1499 1499 upper
    (bytes_of_string ("foo" ++ nl ++ "9999" ++ nl ++ "+5c" ++ nl)) = Done (76, [])) by (vm_compute; reflexivity).
  rewrite E in H1. by injection H1 as <- _.
Defined.

(** ** Volume serial *)

(** [fdasd_change_volser] returns on every input: the serial in the label is
    the cleaned line (or the default serial of the device) in upper case, padded
    with blanks; the label points to the VTOC, both labels count as changed, and
    everything else stays. *)
Theorem change_volser_sets_serial anc stdin :
  let '(line, rest) := read_line stdin in
  let volser := map toupper (take VOLSER_LENGTH (cstr (fdasd_check_volser line (a_devno anc)))) in
  ∃ vl, fdasd_change_volser (anc, stdin) =
      Done (changed_vtoc (changed_vlabel (set_a_vlabel vl anc)), rest) ∧
    vtoc_volume_label_get_volser vl = volser ++ replicate (VOLSER_LENGTH - length volser) 32 ∧
    vl_vtoc vl = vtoc_set_cchhb VTOC_START_CC VTOC_START_HH 1.
Proof.
  unfold fdasd_change_volser. destruct (read_line stdin) as [line rest]. cbv zeta.
  eexists. split; [reflexivity|]. split; [|by destruct (vtoc_volume_label_set_volser _ _)].
  pose proof (volser_get_set (a_vlabel anc) (fdasd_check_volser line (a_devno anc)) (check_volser_ok _ _)) as H.
  cbv zeta in H. rewrite <- H. by destruct (vtoc_volume_label_set_volser _ _).
Qed.

(** ** Options and geometry *)

(** [fdasd_verify_options] accepts exactly the combinations with at most one
    of the four ways to run, with a serial number (given or kept) only together
    with a way that writes labels, and not with both kinds of serial. *)
Theorem accepted_options options anc :
  fdasd_verify_options options anc = Done tt ↔ options_ok options anc.
Proof. apply verify_options_spec. Qed.

(** The geometry that fdasd makes up for a virtual 3390 disk of at least one
    cylinder: 15 heads, the number of blocks per track of the block size, all the
    cylinders that fit, and a state on which every way to a new VTOC works. *)
Theorem virtual_disk_geometry size anc :
  a_dev_type anc = DASD_3390_TYPE → a_blksize anc ∈ [512; 1024; 2048; 4096] →
  1 <= size / cylinder_bytes (a_blksize anc) < 17895697 →
  ∃ geo anc', virtual_geometry size anc = Done (geo, anc') ∧ disk_geometry geo (hw_disk anc') ∧
    geo_heads geo = 15 ∧ geo_sectors geo = recs_per_track DASD_3390_TYPE 0 (a_blksize anc) ∧
    a_hw_cylinders anc' = size / cylinder_bytes (a_blksize anc) ∧
    a_label_pos anc' = 2 * a_blksize anc.
Proof. apply virtual_geometry_ok. Qed.

Lemma virtual_disk_geometry_witness :
  ∃ geo anc', virtual_geometry 7385333760 demo_start = Done (geo, anc') ∧ disk_geometry geo (hw_disk anc') ∧
    a_hw_cylinders anc' = 10017.
Proof.
  destruct (virtual_disk_geometry 7385333760 demo_start) as (geo & anc' & H1 & H2 & _ & _ & H3 & _).
  - reflexivity.
  - rewrite !elem_of_cons. right. right. right. left. reflexivity.
  - vm_compute. intuition congruence.
  - exists geo, anc'. split; [exact H1|]. split; [exact H2|]. rewrite H3. vm_compute. reflexivity.
Defined.
End FdasdProps.
