(* ===== verification/Dasd.v ===== *)
(** The library libdasd (src/libdasd/dasd_ioctl.c, src/include/lib/dasd_base.h)
    and the world that its callers run in.

    A program passes a [world] along: the ioctl requests that were issued, the
    content of the block device, the standard input, and the program's own
    static variables.  What the driver answers is a [kernel], a record of
    functions of the history of requests. *)
From S2P Require Import Prelude Cchh VtocIo.

(** ** Data of the driver interface *)

Record format_data_t := FormatData {
  start_unit : Z;
  stop_unit : Z;
  fd_blksize : Z;
  intensity : Z
}.
#[export] Instance format_data_t_eq_dec : EqDecision format_data_t.
Proof. solve_decision. Defined.

Definition DASD_FMT_INT_INVAL : Z := 4.
Definition DASD_FMT_INT_COMPAT : Z := 8.
Definition DASD_FMT_INT_FMT_NOR0 : Z := 16.
Definition DASD_FMT_INT_ESE_FULL : Z := 32.

Definition DASD_FORMAT_NONE : Z := 0.
Definition DASD_FORMAT_LDL : Z := 1.
Definition DASD_FORMAT_CDL : Z := 2.

(** the output fields of [format_check_t] *)
Record format_check_t := FormatCheck {
  fc_result : Z;
  fc_unit : Z;
  fc_rec : Z;
  fc_num_records : Z;
  fc_blksize : Z;
  fc_key_length : Z
}.

Definition DASD_FMT_ERR_TOO_FEW_RECORDS : Z := 1.
Definition DASD_FMT_ERR_TOO_MANY_RECORDS : Z := 2.
Definition DASD_FMT_ERR_BLKSIZE : Z := 3.
Definition DASD_FMT_ERR_RECORD_ID : Z := 4.
Definition DASD_FMT_ERR_KEY_LENGTH : Z := 5.

(** [struct dasd_eckd_characteristics] and [dasd_information2_t], the fields that
    are used *)
Record dasd_eckd_characteristics := Characteristics {
  ch_dev_type : Z;
  no_cyl : Z;
  trk_per_cyl : Z;
  long_no_cyl : Z
}.

Record dasd_information2_t := DasdInformation {
  inf_devno : Z;
  inf_dev_type : Z;
  inf_open_count : Z;
  inf_type : list Z;
  inf_label_block : Z;
  inf_FBA_layout : Z;
  inf_characteristics : dasd_eckd_characteristics;
  inf_format : Z
}.

(** ** Requests and answers *)

Inductive request :=
  | BLKSSZGET | BIODASDINFO2 | HDIO_GETGEO | BLKROGET
  | BIODASDDISABLE | BIODASDENABLE
  | BIODASDFMT (p : format_data_t) | BIODASDCHECKFMT (p : format_data_t) | BIODASDRAS (p : format_data_t)
  | BLKRRPART.
#[export] Instance request_eq_dec : EqDecision request.
Proof. solve_decision. Defined.

(** The history of a run is the list of its requests, the latest first.
    [k_errno] is 0 for a request that succeeds, and includes the failure of the
    [open] in front of it; [k_apply] is what a request does to the blocks. *)
Record kernel := Kernel {
  k_errno : list request → request → Z;
  k_blksize : list request → Z;
  k_info : list request → dasd_information2_t;
  k_geo : list request → hd_geometry;
  k_ro : list request → Z;
  k_check : list request → format_data_t → format_check_t;
  k_apply : list request → request → device → device;
  k_clock : list request → Z
}.

(** ** Programs *)

Record world (S : Type) := World {
  w_log : list request;
  w_dev : device;
  w_stdin : list Z;
  w_static : S
}.
Arguments World {S} _ _ _ _.
Arguments w_log {S} _.
Arguments w_dev {S} _.
Arguments w_stdin {S} _.
Arguments w_static {S} _.

(** A run returns, ends the process with a code, or commits an access outside an
    object; it ends in a world in every case. *)
Inductive result (S A : Type) :=
  | Ret (a : A) (w : world S)
  | Exit (code : Z) (w : world S)
  | Crash (w : world S)
  | NoFuel (w : world S).
Arguments Ret {S A} _ _.
Arguments Exit {S A} _ _.
Arguments Crash {S A} _.
Arguments NoFuel {S A} _.

Definition prog (S A : Type) : Type := world S → result S A.

#[export] Instance prog_ret S : MRet (prog S) := λ A a w, Ret a w.
#[export] Instance prog_bind S : MBind (prog S) := λ A B k m w,
  match m w with
  | Ret a w => k a w
  | Exit code w => Exit code w
  | Crash w => Crash w
  | NoFuel w => NoFuel w
  end.

Section Programs.
Context {S : Type}.

Definition exit_prog {A} (code : Z) : prog S A := λ w, Exit code w.
Definition crash {A} : prog S A := λ w, Crash w.
Definition no_fuel {A} : prog S A := λ w, NoFuel w.
Definition get_world : prog S (world S) := λ w, Ret w w.
Definition get_static : prog S S := λ w, Ret (w_static w) w.
Definition put_static (s : S) : prog S unit := λ w, Ret tt (World (w_log w) (w_dev w) (w_stdin w) s).
Definition put_stdin (l : list Z) : prog S unit := λ w, Ret tt (World (w_log w) (w_dev w) l (w_static w)).
Definition put_dev (d : device) : prog S unit := λ w, Ret tt (World (w_log w) d (w_stdin w) (w_static w)).

(** a function of libvtoc, which may end the process *)
Definition lift {A} (o : outcome A) : prog S A :=
  match o with
  | Done a => mret a
  | Exited code => exit_prog code
  | Fault => crash
  | OutOfFuel => no_fuel
  end.

(** [fgets(buffer, size, stdin)]; [None] at the end of the input *)
Definition gets (size : nat) : prog S (option (list Z)) := λ w,
  match fgets size (w_stdin w) with
  | None => Ret None w
  | Some (l, rest) => Ret (Some l) (World (w_log w) (w_dev w) rest (w_static w))
  end.

End Programs.

(** ** The library *)

Module Dasd.
Section Ioctls.
Context {S : Type} (K : kernel).

(** [RUN_IOCTL] with the [open] in front of it *)
Definition run_ioctl (r : request) : prog S Z := λ w,
  Ret (k_errno K (w_log w) r)
      (World (r :: w_log w) (k_apply K (w_log w) r (w_dev w)) (w_stdin w) (w_static w)).

(** the value that a query delivers *)
Definition answer {A} (f : list request → A) : prog S A := λ w, Ret (f (w_log w)) w.

Definition dasd_get_blocksize : prog S (Z * Z) :=
  err ← run_ioctl BLKSSZGET; blksize ← answer (k_blksize K); mret (err, blksize).
Definition dasd_get_info : prog S (Z * dasd_information2_t) :=
  err ← run_ioctl BIODASDINFO2; info ← answer (k_info K); mret (err, info).
Definition dasd_get_geo : prog S (Z * hd_geometry) :=
  err ← run_ioctl HDIO_GETGEO; geo ← answer (k_geo K); mret (err, geo).
Definition dasd_is_ro : prog S (Z * bool) :=
  err ← run_ioctl BLKROGET; val ← answer (k_ro K); mret (err, flag val).
Definition dasd_disk_disable : prog S Z := run_ioctl BIODASDDISABLE.
Definition dasd_disk_enable : prog S Z := run_ioctl BIODASDENABLE.
Definition dasd_format_disk (p : format_data_t) : prog S Z := run_ioctl (BIODASDFMT p).
Definition dasd_check_format (p : format_data_t) : prog S (Z * format_check_t) :=
  err ← run_ioctl (BIODASDCHECKFMT p); c ← answer (λ h, k_check K h p); mret (err, c).
Definition dasd_release_space (r : format_data_t) : prog S Z := run_ioctl (BIODASDRAS r).

(** [for (i = 0; i < ntries; i++)]: tries until the request succeeds; the last
    error otherwise *)
Fixpoint dasd_reread_partition_table (ntries : nat) (err : Z) : prog S Z :=
  match ntries with
  | O => mret err
  | Datatypes.S n =>
      e ← run_ioctl BLKRRPART;
      if flag e then dasd_reread_partition_table n e else mret 0
  end.

End Ioctls.
End Dasd.

(** ** Reasoning about programs *)

Module DasdLogic.
Section Logic.
Context {S : Type}.

(** The run neither crashes nor runs out of fuel; it returns with [Q] or ends
    the process with [E]. *)
Definition sat {A} (r : result S A) (Q : A → world S → Prop) (E : Z → world S → Prop) : Prop :=
  match r with
  | Ret a w => Q a w
  | Exit code w => E code w
  | Crash _ | NoFuel _ => False
  end.

Lemma sat_bind {A B} (m : prog S A) (k : A → prog S B) w Q E :
  sat (m w) (λ a w, sat (k a w) Q E) E → sat ((m ≫= k) w) Q E.
Proof. unfold mbind, prog_bind. by destruct (m w). Qed.

Lemma sat_mono {A} (r : result S A) (Q Q' : A → world S → Prop) (E E' : Z → world S → Prop) :
  sat r Q E → (∀ a w, Q a w → Q' a w) → (∀ c w, E c w → E' c w) → sat r Q' E'.
Proof. destruct r; simpl; auto. Qed.

(** the world at the end of a run *)
Definition final {A} (r : result S A) : world S :=
  match r with Ret _ w | Exit _ w | Crash w | NoFuel w => w end.

(** [m] moves the world along the preorder [R], however it ends. *)
Definition keeps {A} (R : relation (world S)) (m : prog S A) : Prop := ∀ w, R w (final (m w)).

Context (R : relation (world S)) `{!PreOrder R}.

Lemma keeps_ret {A} (a : A) : keeps R (mret a).
Proof. intros w. simpl. reflexivity. Qed.
Lemma keeps_exit {A} code : keeps R (exit_prog (A := A) code).
Proof. intros w. simpl. reflexivity. Qed.
Lemma keeps_crash {A} : keeps R (crash (A := A)).
Proof. intros w. simpl. reflexivity. Qed.
Lemma keeps_no_fuel {A} : keeps R (no_fuel (A := A)).
Proof. intros w. simpl. reflexivity. Qed.
Lemma keeps_answer {A} (f : list request → A) : keeps R (Dasd.answer f).
Proof. intros w. simpl. reflexivity. Qed.
Lemma keeps_get_static : keeps R get_static.
Proof. intros w. simpl. reflexivity. Qed.
Lemma keeps_get_world : keeps R get_world.
Proof. intros w. simpl. reflexivity. Qed.
Lemma keeps_lift {A} (o : outcome A) : keeps R (lift o).
Proof. intros w. destruct o; simpl; reflexivity. Qed.

Lemma keeps_bind {A B} (m : prog S A) (k : A → prog S B) :
  keeps R m → (∀ a, keeps R (k a)) → keeps R (m ≫= k).
Proof.
  intros Hm Hk w. specialize (Hm w). unfold mbind, prog_bind.
  destruct (m w) as [a w'| | |]; simpl in *; try done. etrans; [exact Hm|apply Hk].
Qed.

End Logic.
End DasdLogic.

Create HintDb dasd.
#[export] Hint Resolve DasdLogic.keeps_ret DasdLogic.keeps_exit DasdLogic.keeps_crash DasdLogic.keeps_no_fuel
  DasdLogic.keeps_answer DasdLogic.keeps_get_static DasdLogic.keeps_get_world DasdLogic.keeps_lift : dasd.

(** Splits a program at its binds and conditions down to the library calls. *)
Ltac keeps_step :=
  lazymatch goal with
  | |- DasdLogic.keeps _ (_ ≫= _) => apply DasdLogic.keeps_bind; [try typeclasses eauto|..|intros ?]
  | |- DasdLogic.keeps _ (match ?x with _ => _ end) => destruct x
  | |- DasdLogic.keeps _ (if ?x then _ else _) => destruct x
  end.
Ltac keeps_auto := repeat (keeps_step || solve [eauto with dasd typeclass_instances]).
