(* ===== verification/Dasdfmt.v ===== *)
(** The formatting tool dasdfmt (src/dasdfmt/dasdfmt.c, src/dasdfmt/dasdfmt.h):
    options, checks, formatting in steps, and the first labels of a disk.  What
    sysfs and procfs report is an argument ([host]). *)
From S2P Require Import Prelude Ebcdic Cchh Codec Labels LabelOps VtocIo Freespace Dasd.
Import Ebcdic Addr VtocIo Freespace Dasd.

(** ** State *)

(** [struct dasdfmt_globals] without the path names *)
Record dasdfmt_globals := Globals {
  g_dasd_info : dasd_information2_t;
  g_verbosity : Z;
  g_testmode : Z;
  g_withoutprompt : Z;
  g_print_progressbar : Z;
  g_print_hashmarks : Z;
  g_hashstep : Z;
  g_print_percentage : Z;
  g_force : Z;
  g_writenolabel : Z;
  g_labelspec : Z;
  g_cdl_format : Z;
  g_blksize_specified : Z;
  g_reqsize_specified : Z;
  g_keep_volser : Z;
  g_force_host : Z;
  g_layout_specified : Z;
  g_check : Z;
  g_mode_specified : Z;
  g_ese : Z;
  g_no_discard : Z
}.

(** assignments to single members *)
Definition set_g_dasd_info (v : dasd_information2_t) (g : dasdfmt_globals) : dasdfmt_globals :=
  let '(Globals _ x0 x1 x2 x3 x4 x5 x6 x7 x8 x9 x10 x11 x12 x13 x14 x15 x16 x17 x18 x19) := g in
  Globals v x0 x1 x2 x3 x4 x5 x6 x7 x8 x9 x10 x11 x12 x13 x14 x15 x16 x17 x18 x19.
Definition set_g_verbosity (v : Z) (g : dasdfmt_globals) : dasdfmt_globals :=
  let '(Globals i _ x1 x2 x3 x4 x5 x6 x7 x8 x9 x10 x11 x12 x13 x14 x15 x16 x17 x18 x19) := g in
  Globals i v x1 x2 x3 x4 x5 x6 x7 x8 x9 x10 x11 x12 x13 x14 x15 x16 x17 x18 x19.
Definition set_g_testmode (v : Z) (g : dasdfmt_globals) : dasdfmt_globals :=
  let '(Globals i x0 _ x2 x3 x4 x5 x6 x7 x8 x9 x10 x11 x12 x13 x14 x15 x16 x17 x18 x19) := g in
  Globals i x0 v x2 x3 x4 x5 x6 x7 x8 x9 x10 x11 x12 x13 x14 x15 x16 x17 x18 x19.
Definition set_g_withoutprompt (v : Z) (g : dasdfmt_globals) : dasdfmt_globals :=
  let '(Globals i x0 x1 _ x3 x4 x5 x6 x7 x8 x9 x10 x11 x12 x13 x14 x15 x16 x17 x18 x19) := g in
  Globals i x0 x1 v x3 x4 x5 x6 x7 x8 x9 x10 x11 x12 x13 x14 x15 x16 x17 x18 x19.
Definition set_g_print_progressbar (v : Z) (g : dasdfmt_globals) : dasdfmt_globals :=
  let '(Globals i x0 x1 x2 _ x4 x5 x6 x7 x8 x9 x10 x11 x12 x13 x14 x15 x16 x17 x18 x19) := g in
  Globals i x0 x1 x2 v x4 x5 x6 x7 x8 x9 x10 x11 x12 x13 x14 x15 x16 x17 x18 x19.
Definition set_g_print_hashmarks (v : Z) (g : dasdfmt_globals) : dasdfmt_globals :=
  let '(Globals i x0 x1 x2 x3 _ x5 x6 x7 x8 x9 x10 x11 x12 x13 x14 x15 x16 x17 x18 x19) := g in
  Globals i x0 x1 x2 x3 v x5 x6 x7 x8 x9 x10 x11 x12 x13 x14 x15 x16 x17 x18 x19.
Definition set_g_hashstep (v : Z) (g : dasdfmt_globals) : dasdfmt_globals :=
  let '(Globals i x0 x1 x2 x3 x4 _ x6 x7 x8 x9 x10 x11 x12 x13 x14 x15 x16 x17 x18 x19) := g in
  Globals i x0 x1 x2 x3 x4 v x6 x7 x8 x9 x10 x11 x12 x13 x14 x15 x16 x17 x18 x19.
Definition set_g_print_percentage (v : Z) (g : dasdfmt_globals) : dasdfmt_globals :=
  let '(Globals i x0 x1 x2 x3 x4 x5 _ x7 x8 x9 x10 x11 x12 x13 x14 x15 x16 x17 x18 x19) := g in
  Globals i x0 x1 x2 x3 x4 x5 v x7 x8 x9 x10 x11 x12 x13 x14 x15 x16 x17 x18 x19.
Definition set_g_force (v : Z) (g : dasdfmt_globals) : dasdfmt_globals :=
  let '(Globals i x0 x1 x2 x3 x4 x5 x6 _ x8 x9 x10 x11 x12 x13 x14 x15 x16 x17 x18 x19) := g in
  Globals i x0 x1 x2 x3 x4 x5 x6 v x8 x9 x10 x11 x12 x13 x14 x15 x16 x17 x18 x19.
Definition set_g_writenolabel (v : Z) (g : dasdfmt_globals) : dasdfmt_globals :=
  let '(Globals i x0 x1 x2 x3 x4 x5 x6 x7 _ x9 x10 x11 x12 x13 x14 x15 x16 x17 x18 x19) := g in
  Globals i x0 x1 x2 x3 x4 x5 x6 x7 v x9 x10 x11 x12 x13 x14 x15 x16 x17 x18 x19.
Definition set_g_labelspec (v : Z) (g : dasdfmt_globals) : dasdfmt_globals :=
  let '(Globals i x0 x1 x2 x3 x4 x5 x6 x7 x8 _ x10 x11 x12 x13 x14 x15 x16 x17 x18 x19) := g in
  Globals i x0 x1 x2 x3 x4 x5 x6 x7 x8 v x10 x11 x12 x13 x14 x15 x16 x17 x18 x19.
Definition set_g_cdl_format (v : Z) (g : dasdfmt_globals) : dasdfmt_globals :=
  let '(Globals i x0 x1 x2 x3 x4 x5 x6 x7 x8 x9 _ x11 x12 x13 x14 x15 x16 x17 x18 x19) := g in
  Globals i x0 x1 x2 x3 x4 x5 x6 x7 x8 x9 v x11 x12 x13 x14 x15 x16 x17 x18 x19.
Definition set_g_blksize_specified (v : Z) (g : dasdfmt_globals) : dasdfmt_globals :=
  let '(Globals i x0 x1 x2 x3 x4 x5 x6 x7 x8 x9 x10 _ x12 x13 x14 x15 x16 x17 x18 x19) := g in
  Globals i x0 x1 x2 x3 x4 x5 x6 x7 x8 x9 x10 v x12 x13 x14 x15 x16 x17 x18 x19.
Definition set_g_reqsize_specified (v : Z) (g : dasdfmt_globals) : dasdfmt_globals :=
  let '(Globals i x0 x1 x2 x3 x4 x5 x6 x7 x8 x9 x10 x11 _ x13 x14 x15 x16 x17 x18 x19) := g in
  Globals i x0 x1 x2 x3 x4 x5 x6 x7 x8 x9 x10 x11 v x13 x14 x15 x16 x17 x18 x19.
Definition set_g_keep_volser (v : Z) (g : dasdfmt_globals) : dasdfmt_globals :=
  let '(Globals i x0 x1 x2 x3 x4 x5 x6 x7 x8 x9 x10 x11 x12 _ x14 x15 x16 x17 x18 x19) := g in
  Globals i x0 x1 x2 x3 x4 x5 x6 x7 x8 x9 x10 x11 x12 v x14 x15 x16 x17 x18 x19.
Definition set_g_force_host (v : Z) (g : dasdfmt_globals) : dasdfmt_globals :=
  let '(Globals i x0 x1 x2 x3 x4 x5 x6 x7 x8 x9 x10 x11 x12 x13 _ x15 x16 x17 x18 x19) := g in
  Globals i x0 x1 x2 x3 x4 x5 x6 x7 x8 x9 x10 x11 x12 x13 v x15 x16 x17 x18 x19.
Definition set_g_layout_specified (v : Z) (g : dasdfmt_globals) : dasdfmt_globals :=
  let '(Globals i x0 x1 x2 x3 x4 x5 x6 x7 x8 x9 x10 x11 x12 x13 x14 _ x16 x17 x18 x19) := g in
  Globals i x0 x1 x2 x3 x4 x5 x6 x7 x8 x9 x10 x11 x12 x13 x14 v x16 x17 x18 x19.
Definition set_g_check (v : Z) (g : dasdfmt_globals) : dasdfmt_globals :=
  let '(Globals i x0 x1 x2 x3 x4 x5 x6 x7 x8 x9 x10 x11 x12 x13 x14 x15 _ x17 x18 x19) := g in
  Globals i x0 x1 x2 x3 x4 x5 x6 x7 x8 x9 x10 x11 x12 x13 x14 x15 v x17 x18 x19.
Definition set_g_mode_specified (v : Z) (g : dasdfmt_globals) : dasdfmt_globals :=
  let '(Globals i x0 x1 x2 x3 x4 x5 x6 x7 x8 x9 x10 x11 x12 x13 x14 x15 x16 _ x18 x19) := g in
  Globals i x0 x1 x2 x3 x4 x5 x6 x7 x8 x9 x10 x11 x12 x13 x14 x15 x16 v x18 x19.
Definition set_g_ese (v : Z) (g : dasdfmt_globals) : dasdfmt_globals :=
  let '(Globals i x0 x1 x2 x3 x4 x5 x6 x7 x8 x9 x10 x11 x12 x13 x14 x15 x16 x17 _ x19) := g in
  Globals i x0 x1 x2 x3 x4 x5 x6 x7 x8 x9 x10 x11 x12 x13 x14 x15 x16 x17 v x19.
Definition set_g_no_discard (v : Z) (g : dasdfmt_globals) : dasdfmt_globals :=
  let '(Globals i x0 x1 x2 x3 x4 x5 x6 x7 x8 x9 x10 x11 x12 x13 x14 x15 x16 x17 x18 _) := g in
  Globals i x0 x1 x2 x3 x4 x5 x6 x7 x8 x9 x10 x11 x12 x13 x14 x15 x16 x17 x18 v.

Inductive format_mode_t := FULL | QUICK | EXPAND.
#[export] Instance format_mode_t_eq_dec : EqDecision format_mode_t.
Proof. solve_decision. Defined.

(** what is printed about the format of a track *)
Inductive format_report :=
  | NotFormatted
  | BadTrack (what found expected cyl head rec : Z).

(** what is printed while formatting: the bar with its length, percentage and
    remaining time, a hash mark, a line with the percentage *)
Inductive output :=
  | OutBar (cyl cylinders : Z) (bar : option (Z * Z * (Z * Z * Z * Z)))
  | OutHash
  | OutPercent (cyl cylinders p : Z)
  | OutFormat (r : format_report).

(** the static variables that change while the program runs *)
Record statics := Statics {
  s_disk_disabled : Z;
  s_hashcount : Z;
  s_started : Z;
  s_p_old : Z;
  s_start : Z;
  s_p_init : Z;
  s_output : list output
}.
Definition statics0 : statics := Statics 0 0 0 0 0 0 [].

Definition set_s_disabled (v : Z) (s : statics) : statics :=
  Statics v (s_hashcount s) (s_started s) (s_p_old s) (s_start s) (s_p_init s) (s_output s).
Definition set_s_hashcount (v : Z) (s : statics) : statics :=
  Statics (s_disk_disabled s) v (s_started s) (s_p_old s) (s_start s) (s_p_init s) (s_output s).
Definition set_s_bar (started p_old : Z) (s : statics) : statics :=
  Statics (s_disk_disabled s) (s_hashcount s) started p_old (s_start s) (s_p_init s) (s_output s).
Definition set_s_eta (start p_init : Z) (s : statics) : statics :=
  Statics (s_disk_disabled s) (s_hashcount s) (s_started s) (s_p_old s) start p_init (s_output s).
Definition add_output (o : output) (s : statics) : statics :=
  Statics (s_disk_disabled s) (s_hashcount s) (s_started s) (s_p_old s) (s_start s) (s_p_init s)
    (s_output s ++ [o]).

Module Dasdfmt.

(** [error] prints a message and calls [exit(EXIT_FAILURE)]. *)
Definition error {A} : prog statics A := exit_prog 1.

Definition modify (f : statics → statics) : prog statics unit := s ← get_static; put_static (f s).
Definition print (o : output) : prog statics unit := modify (add_output o).

(** ** Progress *)

Definition SEC_PER_DAY : Z := 60 * 60 * 24.
Definition SEC_PER_HOUR : Z := 60 * 60.

(** days, hours, minutes and seconds *)
Definition calc_time (time : Z) : Z * Z * Z * Z :=
  let d := Z.quot time SEC_PER_DAY in
  let time := Z.rem time SEC_PER_DAY in
  let h := Z.quot time SEC_PER_HOUR in
  let time := Z.rem time SEC_PER_HOUR in
  (d, h, Z.quot time 60, Z.rem time 60).

(** the estimate from the percentages at the start and now *)
Definition eta (p_init p_new time_elapsed : Z) : Z * Z * Z * Z :=
  let p := if p_init =? 100 then p_init else Z.quot (100 * (p_new - p_init)) (100 - p_init) in
  let time_end := if p =? 0 then time_elapsed else Z.quot (time_elapsed * (100 - p)) p in
  if p_new =? 100 then calc_time time_elapsed else calc_time time_end.

Section Kernel.
(** the driver and what sysfs and procfs report *)
Context (K : kernel).

Definition print_eta (p_new started : Z) : prog statics (Z * Z * Z * Z) :=
  now ← answer (k_clock K);
  _ ← (if negb (flag started) then modify (set_s_eta now p_new) else mret tt);
  s ← get_static;
  mret (eta (s_p_init s) p_new (now - s_start s)).

(** [a / b] of unsigned operands *)
Definition quot_prog (a b : Z) : prog statics Z := lift (udiv a b).

(** [for (i = 1; i <= barlength; i++)]: the signed [int] of the bar length *)
Definition draw_bar (cyl cylinders aborted : Z) : prog statics unit :=
  p_new ← quot_prog (u32 (cyl * 100)) cylinders;
  s ← get_static;
  if negb (p_new =? s_p_old s) || negb (flag (s_started s)) || flag aborted then
    _ ← modify (set_s_bar (s_started s) p_new);
    barlength ← quot_prog (u32 (cyl * 33)) cylinders;
    time ← print_eta (if flag aborted then 100 else p_new) (s_started s);
    _ ← modify (λ s, set_s_bar 1 (s_p_old s) s);
    print (OutBar cyl cylinders (Some (barlength, p_new, time)))
  else print (OutBar cyl cylinders None).

Definition draw_hash (g : dasdfmt_globals) (cyl : Z) : prog statics unit :=
  if g_hashstep g =? 0 then crash
  else
    s ← get_static;
    if negb (Z.quot cyl (g_hashstep g) - s_hashcount s =? 0) then
      _ ← print OutHash; modify (λ s, set_s_hashcount (s_hashcount s + 1) s)
    else mret tt.

Definition draw_progress (g : dasdfmt_globals) (cyl cylinders aborted : Z) : prog statics unit :=
  _ ← (if flag (g_print_progressbar g) then draw_bar cyl cylinders aborted else mret tt);
  _ ← (if flag (g_print_hashmarks g) then draw_hash g cyl else mret tt);
  if flag (g_print_percentage g) then
    p ← quot_prog (u32 (cyl * 100)) cylinders; print (OutPercent cyl cylinders p)
  else mret tt.

(** ** Format errors *)

Definition ceil_quot (d1 d2 : Z) : Z := u32 (d1 + u32 (d2 - 1)) / d2.

Definition recs_per_track (rdc : dasd_eckd_characteristics) (kl dl : Z) : Z :=
  let dn := ceil_quot (u32 (dl + 6)) 232 + 1 in
  let kn := ceil_quot (u32 (kl + 6)) 232 + 1 in
  if ch_dev_type rdc =? 0x3380 then
    if flag kl then 1499 / (15 + 7 + ceil_quot (u32 (kl + 12)) 32 + ceil_quot (u32 (dl + 12)) 32)
    else 1499 / (15 + ceil_quot (u32 (dl + 12)) 32)
  else if ch_dev_type rdc =? 0x3390 then
    if flag kl
    then 1729 / (10 + 9 + ceil_quot (u32 (kl + 6 * kn)) 34 + 9 + ceil_quot (u32 (dl + 6 * dn)) 34)
    else 1729 / (10 + 9 + ceil_quot (u32 (dl + 6 * dn)) 34)
  else if ch_dev_type rdc =? 0x9345 then
    if flag kl
    then 1420 / (18 + 7 + ceil_quot (u32 (kl + 6 * kn)) 34 + ceil_quot (u32 (dl + 6 * dn)) 34)
    else 1420 / (18 + 7 + ceil_quot (u32 (dl + 6 * dn)) 34)
  else 0.

Definition compat (intensity : Z) : bool := flag (Z.land intensity DASD_FMT_INT_COMPAT).

(** [blksizes_trk0] *)
Definition blksizes_trk0 : list Z := [24; 144; 80].

(** key length and block size that are expected at a record *)
Definition expected_record (expect : format_data_t) (cyl head rec : Z) : outcome (Z * Z) :=
  '(kl, blksize) ← (if compat (intensity expect) && (cyl =? 0) && (head =? 0) && (rec <? 4) then
                      b ← deref (if rec <? 1 then None else blksizes_trk0 !! Z.to_nat (rec - 1));
                      Done (4, b)
                    else Done (0, s32 (fd_blksize expect)));
  if compat (intensity expect) && (cyl =? 0) && (head =? 1) then Done (44, 96) else Done (kl, blksize).

(** the message; [None] for an unknown [result] *)
Definition format_message (cdata : format_check_t) (rpt kl blksize cyl head : Z) : option format_report :=
  let bad found expected := Some (BadTrack (fc_result cdata) found expected cyl head (fc_rec cdata)) in
  if fc_result cdata =? DASD_FMT_ERR_TOO_FEW_RECORDS then bad (fc_num_records cdata) rpt
  else if fc_result cdata =? DASD_FMT_ERR_TOO_MANY_RECORDS then bad (fc_num_records cdata) rpt
  else if fc_result cdata =? DASD_FMT_ERR_BLKSIZE then bad (fc_blksize cdata) blksize
  else if fc_result cdata =? DASD_FMT_ERR_RECORD_ID then bad 0 0
  else if fc_result cdata =? DASD_FMT_ERR_KEY_LENGTH then bad (fc_key_length cdata) kl
  else None.

(** the head carries the upper bits of the cylinder, as in a CCHH address *)
Definition track_address (unit heads : Z) : outcome (Z * Z) :=
  cyl ← udiv unit heads;
  Done (cyl, Z.lor (u32 (Z.shiftl (Z.shiftr cyl 16) 4)) (unit mod heads)).

Definition evaluate_format_error (g : dasdfmt_globals) (mode : format_mode_t) (expect : format_data_t)
    (cdata : format_check_t) (heads : Z) : prog statics unit :=
  if (inf_format (g_dasd_info g) =? DASD_FORMAT_NONE) && bool_decide (mode ≠ QUICK) || (fc_rec cdata =? 0)
  then print (OutFormat NotFormatted)
  else
    '(cyl, head) ← lift (track_address (fc_unit cdata) heads);
    '(kl, blksize) ← lift (expected_record expect cyl head (fc_rec cdata));
    let rpt := recs_per_track (inf_characteristics (g_dasd_info g)) kl (fd_blksize expect) in
    match format_message cdata rpt kl blksize cyl head with
    | Some r => print (OutFormat r)
    | None => mret tt
    end.

(** ** The device *)

Definition disk_enable : prog statics unit :=
  err ← dasd_disk_enable K;
  if flag err then error else modify (set_s_disabled 0).

Definition disk_disable : prog statics unit :=
  err ← dasd_disk_disable K;
  if flag err then error else modify (set_s_disabled 1).

(** What the handler does before the signal ends the process. *)
Definition program_interrupt_signal : prog statics unit :=
  s ← get_static;
  _ ← (if flag (s_disk_disabled s) then disk_enable else mret tt);
  _ ← dasd_reread_partition_table K 5 0;
  mret tt.

Definition get_blocksize : prog statics Z :=
  '(err, blksize) ← dasd_get_blocksize K;
  if flag err then error else mret blksize.

Definition check_blocksize (g : dasdfmt_globals) (blksize : Z) : prog statics unit :=
  if negb (flag (g_blksize_specified g)) || (inf_format (g_dasd_info g) =? DASD_FORMAT_NONE) then mret tt
  else
    dev_blksize ← get_blocksize;
    if negb (dev_blksize =? blksize) then error else mret tt.

Definition check_layout (g : dasdfmt_globals) (intensity : Z) : prog statics unit :=
  let format := inf_format (g_dasd_info g) in
  if negb (flag (g_layout_specified g)) || (format =? DASD_FORMAT_NONE) then mret tt
  else if compat intensity && (format =? DASD_FORMAT_CDL) then mret tt
  else if negb (compat intensity) && (format =? DASD_FORMAT_LDL) then mret tt
  else error.

(** what stat, procfs and sysfs report about the device, and the arguments
    behind the options *)
Record host := Host {
  h_argc : Z;
  h_path : list Z;
  h_stat_ok : bool;
  h_minor : Z;
  h_driver : option (list Z);
  h_ese : Z;
  h_raw : Z;
  h_host_count : Z
}.

Definition PATH_MAX : Z := 4096.
Definition PARTN_MASK : Z := 3.

Definition get_device_name (H : host) : prog statics unit :=
  if 1 <? h_argc H then error
  else if h_argc H <? 1 then error
  else if PATH_MAX <=? Z.of_nat (strlen (h_path H)) then error
  else if negb (h_stat_ok H) then error
  else if flag (Z.land (h_minor H) PARTN_MASK) then error
  else match h_driver H with
       | Some name => if negb (prefixb (bytes_of_string "dasd") name) then error else mret tt
       | None => mret tt
       end.

Definition is_eckd (g : dasdfmt_globals) : bool :=
  bool_decide (take 4 (inf_type (g_dasd_info g)) = bytes_of_string "ECKD").

Definition check_disk (H : host) (g : dasdfmt_globals) : prog statics unit :=
  '(err, ro) ← dasd_is_ro K;
  if flag err then error
  else if ro : bool then error
  else if negb (flag (g_force g)) && (1 <? inf_open_count (g_dasd_info g)) then error
  else if negb (is_eckd g) then error
  else if flag (h_raw H) then error
  else mret tt.

(** ** Volume serial *)

(** the characters that are replaced by a blank *)
Definition volser_bad (c : Z) : bool :=
  (c <? 0x20) || (0x7a <? c) || ((0x21 <=? c) && (c <=? 0x22)) || ((0x26 <=? c) && (c <=? 0x2f)) ||
  ((0x3a <=? c) && (c <=? 0x3f)) || ((0x5b <=? c) && (c <=? 0x60)).
Definition volser_clean (c : Z) : Z := toupper (if volser_bad c then 32 else c).

(** [for (j = i; j < 6; j++) if (s[j] != ' ')], [n] characters to go *)
Fixpoint find_char (s : list Z) (j n : nat) : option nat :=
  match n with
  | O => None
  | S n => if negb (s !!! j =? 32) then Some j else find_char s (S j) n
  end.

(** the character at [i] is replaced by the next one that is no blank *)
Definition move_char (s : list Z) (i : nat) : list Z :=
  if s !!! i =? 32 then
    match find_char s i (6 - i) with
    | Some j => <[j := 32]> (<[i := s !!! j]> s)
    | None => s
    end
  else s.

(** [sprintf(s, "0X%04x", devno)] into seven bytes *)
Definition sprintf_volser (devno : Z) : outcome (list Z) :=
  let s := bytes_of_string "0X" ++ hex04 devno in
  if (6 <? length s)%nat then Fault else Done (s ++ [0]).

(** the buffer of seven bytes after the call, and the return value *)
Definition check_volser (s : list Z) (devno : Z) : outcome (Z * list Z) :=
  let s := memcpy_at s 0 (map volser_clean (take 6 s)) in
  let s := <[6%nat := 0]> s in
  let s := fold_left move_char (seq 0 6) s in
  if s !!! 0%nat =? 32 then
    s ← sprintf_volser devno;
    Done (-1, memcpy_at s 0 (map toupper (take 6 s)))
  else Done (0, s).

(** ** Block size *)

(** [while (tmp > 0)] *)
Fixpoint power_loop (fuel : nat) (tmp : Z) : outcome Z :=
  match fuel with
  | O => OutOfFuel
  | S fuel =>
      if 0 <? tmp then
        if flag (Z.rem tmp 2) && negb (tmp =? 1) then Done (-1)
        else power_loop fuel (Z.quot tmp 2)
      else Done 0
  end.

(** an [int] is halved at most 32 times *)
Definition check_param (data : format_data_t) : outcome Z :=
  let tmp := s32 (fd_blksize data) in
  if (tmp <? 512) || (4096 <? tmp) then Done (-1) else power_loop 33 tmp.

Definition set_blksize (v : Z) (p : format_data_t) : format_data_t :=
  FormatData (start_unit p) (stop_unit p) v (intensity p).
Definition set_range (start stop : Z) (p : format_data_t) : format_data_t :=
  FormatData start stop (fd_blksize p) (intensity p).
Definition set_intensity (v : Z) (p : format_data_t) : format_data_t :=
  FormatData (start_unit p) (stop_unit p) (fd_blksize p) v.

(** [sscanf(s, "%d%c", &x, &c)]: the number of conversions with the values *)
Definition sscanf_dc (s : list Z) : Z * option Z * option Z :=
  let t := skip_while isspace (cstr s) in
  match t with
  | [] => (-1, None, None)
  | c0 :: r =>
      let d := if (c0 =? 45) || (c0 =? 43) then r else t in
      if negb (isdigit (headc d)) then (0, None, None)
      else match skip_while isdigit d with
           | [] => (1, Some (atoi t), None)
           | c :: _ => (2, Some (atoi t), Some c)
           end
  end.

(** one round of the loop: the parameters and [rc] *)
Definition ask_round (buffer : list Z) (params : format_data_t) : outcome (format_data_t * Z) :=
  let '(rc, x, c) := sscanf_dc buffer in
  let params := match x with Some x => set_blksize (u32 x) params | None => params end in
  let rc := if (rc =? 2) && bool_decide (c = Some 10) then 1 else rc in
  let rc := if rc =? -1 then 1 else rc in
  ok ← check_param params;
  Done (params, if ok <? 0 then 0 else rc).

Fixpoint ask_loop (fuel : nat) (i : Z) (params : format_data_t) : prog statics format_data_t :=
  match fuel with
  | O => no_fuel
  | S fuel =>
      let params := set_blksize (u32 i) params in
      buffer ← gets 20;
      match buffer with
      | None => mret params
      | Some buffer =>
          '(params, rc) ← lift (ask_round buffer params);
          if rc =? 1 then mret params else ask_loop fuel i params
      end
  end.

(** every round takes at least one byte of the input *)
Definition ask_user_for_blksize (params : format_data_t) : prog statics format_data_t :=
  w ← get_world;
  ask_loop (S (length (w_stdin w))) (s32 (fd_blksize params)) params.

(** ** Geometry and label *)

Definition set_geo (g : dasdfmt_globals) : Z * Z :=
  let c := inf_characteristics (g_dasd_info g) in
  (if (no_cyl c =? LV_COMPAT_CYL) && flag (long_no_cyl c) then long_no_cyl c else no_cyl c, trk_per_cyl c).

(** [fgets] of the answer, [strcasecmp] with "yes" and with "yes\n" *)
Definition confirmed : prog statics bool :=
  inp_buffer ← gets 5;
  mret match inp_buffer with
       | None => false
       | Some l => let s := map tolower (cstr l) in
                   bool_decide (s = bytes_of_string "yes") || bool_decide (s = bytes_of_string "yes" ++ [10])
       end.

Definition set_label (g : dasdfmt_globals) (vlabel : volume_label_t) (p : format_data_t) (cylinders : Z)
    : prog statics (dasdfmt_globals * volume_label_t) :=
  if flag (g_writenolabel g) then
    if (LV_COMPAT_CYL <? cylinders) && negb (flag (g_withoutprompt g)) then
      _ ← confirmed; mret (g, vlabel)
    else mret (g, vlabel)
  else
    vlabel ← (if negb (flag (g_labelspec g)) && negb (flag (g_keep_volser g)) then
                let devno := inf_devno (g_dasd_info g) in
                buf ← lift (sprintf_volser devno);
                '(_, buf) ← lift (check_volser buf (s32 devno));
                mret (vtoc_volume_label_set_volser vlabel buf)
              else mret vlabel);
    if compat (intensity p) then
      let vlabel := vtoc_volume_label_set_label vlabel (bytes_of_string "VOL1") in
      let vlabel := vtoc_volume_label_set_key vlabel (bytes_of_string "VOL1") in
      mret (set_g_cdl_format 1 g, set_vl_vtoc vlabel (vtoc_set_cchhb 0x0000 0x0001 0x01))
    else mret (g, vtoc_volume_label_set_label vlabel (bytes_of_string "LNX1")).

(** ** Formatting *)

Definition check_hashmarks (reqsize : Z) (g : dasdfmt_globals) : dasdfmt_globals :=
  if flag (g_print_hashmarks g) then
    let g := if g_hashstep g <? reqsize then set_g_hashstep reqsize g else g in
    if (g_hashstep g <? 1) || (1000 <? g_hashstep g) then set_g_hashstep 10 g else g
  else g.

Definition check_track_format (p : format_data_t) : prog statics format_check_t :=
  '(err, cdata) ← dasd_check_format K p;
  if flag err then error else mret cdata.

(** one step: the tracks that are formatted or checked, and the next track *)
Definition track_step (reqsize heads cur_trk stop : Z) : outcome (Z * Z) :=
  if heads =? 0 then Fault
  else
    let step_value := u64 (u32 (reqsize * heads) - cur_trk mod heads) in
    let step_stop := if stop <=? u64 (cur_trk + u32 (heads * reqsize)) then stop
                     else u32 (cur_trk + step_value - 1) in
    Done (step_stop, u64 (cur_trk + step_value)).

(** [while (cur_trk < format_params->stop_unit)]: the result of the last check
    and the last step *)
Fixpoint process_loop (fuel : nat) (g : dasdfmt_globals) (mode : format_mode_t) (reqsize cylinders heads : Z)
    (params : format_data_t) (cur_trk : Z) (result : Z) (step : format_data_t) : prog statics (Z * format_data_t) :=
  match fuel with
  | O => no_fuel
  | S fuel =>
      if cur_trk <? stop_unit params then
        '(step_stop, next) ← lift (track_step reqsize heads cur_trk (stop_unit params));
        let step := set_range (u32 cur_trk) step_stop step in
        let cyl := cur_trk / heads + 1 in
        if flag (g_check g) then
          cdata ← check_track_format step;
          if flag (fc_result cdata) then
            _ ← draw_progress g cyl cylinders 1;
            _ ← evaluate_format_error g mode step cdata heads;
            mret (fc_result cdata, step)
          else
            _ ← draw_progress g cyl cylinders 0;
            process_loop fuel g mode reqsize cylinders heads params next (fc_result cdata) step
        else
          err ← dasd_format_disk K step;
          if flag err then error
          else
            _ ← draw_progress g cyl cylinders 0;
            process_loop fuel g mode reqsize cylinders heads params next result step
      else mret (result, step)
  end.

(** every step but the last ends at a cylinder boundary *)
Definition process_fuel (params : format_data_t) (heads : Z) : nat := S (S (Z.to_nat (stop_unit params / heads))).

Definition process_tracks (g : dasdfmt_globals) (mode : format_mode_t) (reqsize cylinders heads : Z)
    (params : format_data_t) : prog statics Z :=
  let g := check_hashmarks reqsize g in
  '(result, step) ← process_loop (process_fuel params heads) g mode reqsize cylinders heads params
                      (start_unit params) 0 params;
  if negb (flag result) then
    c ← quot_prog (stop_unit step) heads;
    _ ← draw_progress g (c + 1) cylinders 0;
    mret result
  else mret result.

Definition check_disk_format (g : dasdfmt_globals) (mode : format_mode_t) (reqsize cylinders heads : Z)
    (check_params : format_data_t) : prog statics unit :=
  let check_params := set_range 0 (u32 (cylinders * heads - 1)) check_params in
  if flag (g_testmode g) then mret tt
  else
    _ ← check_blocksize g (fd_blksize check_params);
    _ ← check_layout g (intensity check_params);
    let format := inf_format (g_dasd_info g) in
    let check_params :=
      if negb (flag (g_layout_specified g)) then
        if format =? DASD_FORMAT_CDL
        then set_intensity (Z.lor (intensity check_params) DASD_FMT_INT_COMPAT) check_params
        else if format =? DASD_FORMAT_LDL
        then set_intensity (Z.ldiff (intensity check_params) DASD_FMT_INT_COMPAT) check_params
        else check_params
      else check_params in
    result ← process_tracks g mode reqsize cylinders heads check_params;
    if flag result then error else mret tt.

(** ** Labels *)

Definition dasdfmt_get_volser (g : dasdfmt_globals) : prog statics (option (list Z)) :=
  blksize ← get_blocksize;
  if is_eckd g && negb (flag (inf_FBA_layout (g_dasd_info g))) then
    w ← get_world;
    vlabel ← lift (vtoc_read_volume_label (w_dev w) (u32 (inf_label_block (g_dasd_info g) * blksize)));
    mret (Some (vtoc_volume_label_get_volser vlabel))
  else mret None.

(** [bootstrap1_t], [bootstrap2_t]: a key of one word and the data words *)
Definition ipl1_key : list Z := cenc cu32 0xC9D7D3F1.
Definition ipl1_data : list Z :=
  concat (map (cenc cu32) ([0x000A0000; 0x0000000F; 0x03000000; 0x00000001] ++ replicate 2 0)).
Definition ipl2_key : list Z := cenc cu32 0xC9D7D3F2.
Definition ipl2_data : list Z :=
  concat (map (cenc cu32) ([0x07003AB8; 0x40000006; 0x31003ABE; 0x40000005; 0x08003AA0; 0x00000000;
    0x06000000; 0x20000000; 0x00000000; 0x00000000; 0x00000400] ++ replicate 25 0)).

(** [lseek(fd, label_position, SEEK_SET)] and [write]; both failures end the
    program *)
Definition write_at (label_position : Z) (bs : list Z) : prog statics unit :=
  if label_position <? 0 then error
  else
    w ← get_world;
    match dev_write (w_dev w) label_position bs with
    | None => error
    | Some d => put_dev d
    end.

(** the volume label as it is written: without [formatted_blocks], or without
    the key *)
Definition label_image (g : dasdfmt_globals) (vlabel : volume_label_t) (cylinders heads sectors : Z) : list Z :=
  if flag (g_cdl_format g) then take 84 (cenc cvolume_label vlabel)
  else
    let '(VolumeLabel a b c d e f h i j k l m _ _) := vlabel in
    let vlabel := VolumeLabel a b c d e f h i j k l m 0xf2 (u32 (cylinders * heads * sectors)) in
    drop 4 (cenc cvolume_label vlabel).

(** the labels of an empty disk *)
Definition initial_vtoc (g : dasdfmt_globals) (geo : hd_geometry) (cylinders heads blksize : Z)
    : outcome (format4_label_t * format5_label_t * format7_label_t) :=
  let f4 := vtoc_init_format4_label (geo_cylinders geo) cylinders heads (geo_sectors geo) blksize
              (inf_dev_type (g_dasd_info g)) in
  vtoc_set_freespace f4 vtoc_init_format5_label vtoc_init_format7_label plus_ch FIRST_USABLE_TRK
    (s32 (u32 (cylinders * heads - 1))) cylinders heads.

(** the three labels of the VTOC *)
Definition write_vtoc (pos blksize : Z) (big : bool) (f4 : format4_label_t) (f5 : format5_label_t)
    (f7 : format7_label_t) : prog statics unit :=
  _ ← write_at pos (cenc cformat4 f4);
  let pos := s32 (pos + blksize) in
  _ ← write_at pos (cenc cformat5 f5);
  if big then
    let pos := s32 (pos + blksize) in
    write_at pos (cenc cformat7 f7)
  else mret tt.

Definition dasdfmt_write_labels (g : dasdfmt_globals) (vlabel : volume_label_t) (cylinders heads : Z)
    : prog statics unit :=
  blksize ← get_blocksize;
  '(rc, geo) ← dasd_get_geo K;
  if flag rc then error
  else
    w ← get_world;
    if negb (dev_readable (w_dev w) && dev_writable (w_dev w)) then error
    else
      let key k := if flag (g_cdl_format g) then k else [] in
      _ ← write_at 0 (key ipl1_key ++ ipl1_data);
      _ ← write_at (s32 blksize) (key ipl2_key ++ ipl2_data);
      '(f4, f5, f7) ← lift (initial_vtoc g geo cylinders heads blksize);
      _ ← write_at (s32 (inf_label_block (g_dasd_info g) * blksize))
            (label_image g vlabel cylinders heads (geo_sectors geo));
      write_vtoc (s32 ((VTOC_START_CC * heads + VTOC_START_HH) * geo_sectors geo * blksize)) blksize
        (BIG_DISK_SIZE <? u32 (cylinders * heads)) f4 f5 f7.

(** ** Format modes *)

(** [while (left <= right)]: a bisection; the first track that does not have the
    block size, and the last check *)
Fixpoint find_loop (fuel : nat) (left right first : Z) (params : format_data_t) (cdata : format_check_t)
    : prog statics (Z * format_check_t) :=
  match fuel with
  | O => no_fuel
  | S fuel =>
      if left <=? right then
        let middle := u32 (left + (right - left) / 2) in
        cdata ← check_track_format (set_range middle middle params);
        if negb (fc_blksize cdata =? fd_blksize params)
        then find_loop fuel left (u32 (middle - 1)) middle params cdata
        else find_loop fuel (u32 (middle + 1)) right first params cdata
      else mret (first, cdata)
  end.

(** the range of 32-bit track numbers is halved in every round *)
Definition find_fuel : nat := 34.

Definition dasdfmt_find_start (g : dasdfmt_globals) (mode : format_mode_t) (cylinders heads : Z)
    (params : format_data_t) : prog statics Z :=
  _ ← check_blocksize g (fd_blksize params);
  cdata ← check_track_format (set_range 0 4 params);
  if flag (fc_result cdata) then
    _ ← evaluate_format_error g mode (set_range 0 4 params) cdata heads; error
  else
    '(first, cdata) ← find_loop find_fuel 2 (u32 (cylinders * heads - 1)) 2 params cdata;
    if (first =? 2) && (fc_blksize cdata =? fd_blksize params) then error else mret first.

Definition dasdfmt_release_space (g : dasdfmt_globals) : prog statics unit :=
  if negb (flag (g_ese g)) || flag (g_no_discard g) then mret tt
  else
    err ← dasd_release_space K (FormatData 0 0 0 DASD_FMT_INT_ESE_FULL);
    if flag err then error else mret tt.

Definition format_or_fail (p : format_data_t) : prog statics unit :=
  err ← dasd_format_disk K p;
  if flag err then error else mret tt.

(** the parameters for the first track while the rest is formatted *)
Definition invalidate (p : format_data_t) : format_data_t :=
  FormatData 0 0 (fd_blksize p) (Z.lor (Z.ldiff (intensity p) DASD_FMT_INT_FMT_NOR0) DASD_FMT_INT_INVAL).

Definition dasdfmt_prepare_and_format (g : dasdfmt_globals) (mode : format_mode_t)
    (reqsize cylinders heads : Z) (p : format_data_t) : prog statics unit :=
  _ ← disk_disable;
  _ ← format_or_fail (invalidate p);
  let p := set_range 1 (stop_unit p) p in
  _ ← process_tracks g mode reqsize cylinders heads p;
  _ ← format_or_fail (set_intensity (intensity p) (invalidate p));
  disk_enable.

Definition dasdfmt_expand_format (g : dasdfmt_globals) (mode : format_mode_t)
    (reqsize cylinders heads : Z) (p : format_data_t) : prog statics unit :=
  _ ← disk_disable;
  _ ← process_tracks g mode reqsize cylinders heads p;
  disk_enable.

(** the first and the last three regular tracks *)
Definition check_selected (g : dasdfmt_globals) (mode : format_mode_t) (cylinders heads : Z) (p : format_data_t)
    : prog statics unit :=
  _ ← check_blocksize g (fd_blksize p);
  let tmp := set_range 2 4 p in
  cdata ← check_track_format tmp;
  '(tmp, cdata) ← (if negb (flag (fc_result cdata)) then
                     let tmp := set_range (u32 (cylinders * heads - 3)) (u32 (cylinders * heads - 1)) p in
                     cdata ← check_track_format tmp; mret (tmp, cdata)
                   else mret (tmp, cdata));
  if flag (fc_result cdata) then
    _ ← evaluate_format_error g mode tmp cdata heads; error
  else mret tt.

Definition dasdfmt_quick_format (g : dasdfmt_globals) (mode : format_mode_t) (cylinders heads : Z)
    (p : format_data_t) : prog statics unit :=
  _ ← (if flag (g_force g) then mret tt
       else if flag (g_ese g) then mret tt
       else check_selected g mode cylinders heads p);
  _ ← disk_disable;
  _ ← format_or_fail p;
  disk_enable.

(** the tracks to format *)
Definition format_range (g : dasdfmt_globals) (mode : format_mode_t) (cylinders heads : Z) (p : format_data_t)
    : prog statics format_data_t :=
  let last := u32 (cylinders * heads - 1) in
  match mode with
  | FULL => mret (set_range 0 last p)
  | QUICK => mret (set_range 0 1 p)
  | EXPAND => first ← dasdfmt_find_start g mode cylinders heads (set_range 0 (stop_unit p) p);
              mret (set_range first last p)
  end.

(** what follows the confirmation *)
Definition format_and_label (g : dasdfmt_globals) (mode : format_mode_t) (reqsize : Z) (vlabel : volume_label_t)
    (p : format_data_t) (cylinders heads : Z) : prog statics unit :=
  _ ← match mode with
      | FULL => dasdfmt_prepare_and_format g mode reqsize cylinders heads p
      | QUICK => _ ← dasdfmt_release_space g; dasdfmt_quick_format g mode cylinders heads p
      | EXPAND => dasdfmt_expand_format g mode reqsize cylinders heads p
      end;
  _ ← (if negb (flag (g_writenolabel g) || bool_decide (mode = EXPAND))
       then dasdfmt_write_labels g vlabel cylinders heads else mret tt);
  _ ← dasd_reread_partition_table K 5 0;
  mret tt.

Definition do_format_dasd (H : host) (g : dasdfmt_globals) (mode : format_mode_t) (reqsize : Z)
    (vlabel : volume_label_t) (p : format_data_t) (cylinders heads : Z) : prog statics unit :=
  p ← format_range g mode cylinders heads p;
  let count := h_host_count H in
  if flag (g_force_host g) && (1 <? count) then error
  else if flag (g_force_host g) && (count <? 0) then mret tt
  else if flag (g_testmode g) then mret tt
  else
    go ← (if negb (flag (g_withoutprompt g)) then confirmed else mret true);
    if go : bool then format_and_label g mode reqsize vlabel p cylinders heads else mret tt.

Definition eval_format_mode (g : dasdfmt_globals) (mode : format_mode_t) : prog statics format_mode_t :=
  if negb (flag (g_force g)) && flag (g_mode_specified g) && flag (g_ese g) && bool_decide (mode = EXPAND) then error
  else mret (if negb (flag (g_mode_specified g)) then FULL else mode).

(** ** Command line *)

Inductive dasdfmt_option :=
  | Opt_force | Opt_disk_layout (arg : list Z) | Opt_yes | Opt_norecordzero | Opt_test
  | Opt_progressbar | Opt_hashmarks (arg : list Z) | Opt_percentage | Opt_verbose | Opt_help | Opt_version
  | Opt_label (arg : list Z) | Opt_no_label | Opt_blocksize (arg : list Z) | Opt_requestsize (arg : list Z)
  | Opt_keep_volser | Opt_check_host_count | Opt_mode (arg : list Z) | Opt_no_discard | Opt_check | Opt_other.

(** the variables that the options set *)
Record settings := Settings {
  se_g : dasdfmt_globals;
  se_params : format_data_t;
  se_mode : format_mode_t;
  se_vlabel : volume_label_t;
  se_blksize_str : list Z;
  se_reqsize_str : list Z;
  se_hashstep_str : list Z
}.

Definition in_g (f : dasdfmt_globals → dasdfmt_globals) (s : settings) : settings :=
  Settings (f (se_g s)) (se_params s) (se_mode s) (se_vlabel s) (se_blksize_str s) (se_reqsize_str s)
    (se_hashstep_str s).
Definition in_params (f : format_data_t → format_data_t) (s : settings) : settings :=
  Settings (se_g s) (f (se_params s)) (se_mode s) (se_vlabel s) (se_blksize_str s) (se_reqsize_str s)
    (se_hashstep_str s).
Definition in_mode (m : format_mode_t) (s : settings) : settings :=
  Settings (se_g s) (se_params s) m (se_vlabel s) (se_blksize_str s) (se_reqsize_str s) (se_hashstep_str s).
Definition in_vlabel (v : volume_label_t) (s : settings) : settings :=
  Settings (se_g s) (se_params s) (se_mode s) v (se_blksize_str s) (se_reqsize_str s) (se_hashstep_str s).
Definition in_strings (b r h : list Z) (s : settings) : settings :=
  Settings (se_g s) (se_params s) (se_mode s) (se_vlabel s) b r h.

(** [strcasecmp(arg, word) == 0] *)
Definition is_word (arg : list Z) (word : string) : bool :=
  bool_decide (map tolower (cstr arg) = bytes_of_string word).

Definition parse_option (opt : dasdfmt_option) (s : settings) : outcome settings :=
  let g := se_g s in
  let intens := intensity (se_params s) in
  match opt with
  | Opt_force => Done (in_g (set_g_force 1) s)
  | Opt_disk_layout arg =>
      if is_word arg "cdl" then
        if flag (g_writenolabel g) then Exited 1
        else Done (in_g (set_g_layout_specified 1)
                     (in_params (set_intensity (Z.lor intens DASD_FMT_INT_COMPAT)) s))
      else if is_word arg "ldl" then
        Done (in_g (set_g_layout_specified 1)
                (in_params (set_intensity (Z.ldiff intens DASD_FMT_INT_COMPAT)) s))
      else Exited 1
  | Opt_yes => Done (in_g (set_g_withoutprompt 1) s)
  | Opt_norecordzero => Done (in_params (set_intensity (Z.lor intens DASD_FMT_INT_FMT_NOR0)) s)
  | Opt_test => Done (in_g (set_g_testmode 1) s)
  | Opt_progressbar =>
      Done (if negb (flag (g_print_hashmarks g) || flag (g_print_percentage g))
            then in_g (set_g_print_progressbar 1) s else s)
  | Opt_hashmarks arg =>
      Done (if negb (flag (g_print_progressbar g) || flag (g_print_percentage g))
            then in_g (set_g_print_hashmarks 1) (in_strings (se_blksize_str s) (se_reqsize_str s) arg s) else s)
  | Opt_percentage =>
      Done (if negb (flag (g_print_hashmarks g) || flag (g_print_progressbar g))
            then in_g (set_g_print_percentage 1) s else s)
  | Opt_verbose => Done (in_g (set_g_verbosity 1) s)
  | Opt_help | Opt_version => Exited 0
  | Opt_label arg =>
      '(rc, buf) ← check_volser (strncpy arg 6 ++ [0]) 0;
      if rc <? 0 then Done s
      else Done (in_g (set_g_labelspec 1) (in_vlabel (vtoc_volume_label_set_volser (se_vlabel s) buf) s))
  | Opt_no_label => if compat intens then Exited 1 else Done (in_g (set_g_writenolabel 1) s)
  | Opt_blocksize arg =>
      Done (in_g (set_g_blksize_specified 1) (in_strings arg (se_reqsize_str s) (se_hashstep_str s) s))
  | Opt_requestsize arg =>
      Done (in_g (set_g_reqsize_specified 1) (in_strings (se_blksize_str s) arg (se_hashstep_str s) s))
  | Opt_keep_volser => Done (in_g (set_g_keep_volser 1) s)
  | Opt_check_host_count => Done (in_g (set_g_force_host 1) s)
  | Opt_mode arg =>
      m ← (if is_word arg "full" then Done FULL
           else if is_word arg "quick" then Done QUICK
           else if is_word arg "expand" then Done EXPAND
           else Exited 1);
      Done (in_g (set_g_mode_specified 1) (in_mode m s))
  | Opt_no_discard => Done (in_g (set_g_no_discard 1) s)
  | Opt_check => Done (in_g (set_g_check 1) s)
  | Opt_other => Exited 1
  end.

Fixpoint parse_options (opts : list dasdfmt_option) (s : settings) : outcome settings :=
  match opts with
  | [] => Done s
  | opt :: opts => s ← parse_option opt s; parse_options opts s
  end.

(** [PARSE_PARAM_INTO]: [(int)strtol], an error when something follows *)
Definition parse_param (param : list Z) : outcome Z :=
  let s := cstr param in
  let t := skip_while isspace s in
  let d := match t with c :: r => if (c =? 45) || (c =? 43) then r else t | [] => [] end in
  let endptr := if isdigit (headc d) then skip_while isdigit d else s in
  if bool_decide (endptr = []) then Done (atoi s) else Exited 1.

Definition DEFAULT_BLOCKSIZE : Z := 4096.
Definition DEFAULT_REQUESTSIZE : Z := 10.

(** the numbers on the command line; the result is the settings and [reqsize] *)
Definition parse_numbers (s : settings) : outcome (settings * Z) :=
  let g := se_g s in
  if (1 <? g_blksize_specified g) || (1 <? g_labelspec g) || (1 <? g_writenolabel g) then Exited 1
  else
    s ← (if flag (g_blksize_specified g) then
           b ← parse_param (se_blksize_str s); Done (in_params (set_blksize (u32 b)) s)
         else Done s);
    reqsize ← (if flag (g_reqsize_specified g) then
                 r ← parse_param (se_reqsize_str s);
                 if (r <? 1) || (255 <? r) then Exited 1 else Done r
               else Done DEFAULT_REQUESTSIZE);
    s ← (if flag (g_print_hashmarks g) then
           h ← parse_param (se_hashstep_str s); Done (in_g (set_g_hashstep h) s)
         else Done s);
    Done (s, reqsize).

(** ** The main program *)

(** the block size, from the user or from the driver *)
Definition choose_blksize (g : dasdfmt_globals) (mode : format_mode_t) (params : format_data_t)
    : prog statics format_data_t :=
  if negb (flag (g_blksize_specified g)) then
    if negb (bool_decide (mode = FULL) || (inf_format (g_dasd_info g) =? DASD_FORMAT_NONE)) || flag (g_check g)
    then b ← get_blocksize; mret (set_blksize b params)
    else ask_user_for_blksize params
  else mret params.

Definition keep_volser (g : dasdfmt_globals) (params : format_data_t) (vlabel : volume_label_t)
    : prog statics volume_label_t :=
  if flag (g_keep_volser g) then
    if flag (g_labelspec g) then error
    else if negb (compat (intensity params)) then error
    else
      old_volser ← dasdfmt_get_volser g;
      match old_volser with
      | Some v => mret (vtoc_volume_label_set_volser vlabel v)
      | None => error
      end
  else mret vlabel.

(** the part of [main] behind the command line *)
Definition run (H : host) (s : settings) (reqsize : Z) : prog statics unit :=
  _ ← get_device_name H;
  '(rc, info) ← dasd_get_info K;
  if flag rc then error
  else
    let g := set_g_ese (h_ese H) (set_g_dasd_info info (se_g s)) in
    mode ← eval_format_mode g (se_mode s);
    _ ← check_disk H g;
    params ← choose_blksize g mode (se_params s);
    vlabel ← keep_volser g params (se_vlabel s);
    ok ← lift (check_param params);
    if ok <? 0 then error
    else
      let '(cylinders, heads) := set_geo g in
      '(g, vlabel) ← set_label g vlabel params cylinders;
      if flag (g_check g) then check_disk_format g mode reqsize cylinders heads params
      else do_format_dasd H g mode reqsize vlabel params cylinders heads.

Definition no_info : dasd_information2_t := DasdInformation 0 0 0 [] 0 0 (Characteristics 0 0 0 0) 0.
Definition globals0 : dasdfmt_globals := Globals no_info 0 0 0 0 0 0 0 0 0 0 0 0 0 0 0 0 0 0 0 0.

(** [vlabel] is the label on the stack, not initialised *)
Definition settings0 (vlabel : volume_label_t) : settings :=
  Settings globals0 (FormatData 0 0 DEFAULT_BLOCKSIZE DASD_FMT_INT_COMPAT) FULL (vtoc_volume_label_init vlabel)
    [] [] [].

Definition main (H : host) (opts : list dasdfmt_option) (vlabel : volume_label_t) : prog statics unit :=
  s ← lift (parse_options opts (settings0 vlabel));
  '(s, reqsize) ← lift (parse_numbers s);
  run H s reqsize.

End Kernel.
End Dasdfmt.
