(* ===== verification/DasdfmtArgs.v ===== *)
(** Arguments of dasdfmt (src/dasdfmt/dasdfmt.c): which block sizes and serial
    numbers are accepted, what the question for the block size returns, and the
    formulas that dasdfmt and fdasd both have. *)
From S2P Require Import Prelude Ebcdic Cchh Labels LabelOps VtocIo FdasdState FdasdInput FdasdSetup.
From S2P Require Import FdasdIoProofs FdasdSerial Dasd Dasdfmt.
Import Ebcdic Addr Fdasd FdasdIoProofs FdasdSerial Dasdfmt DasdLogic.

Module DasdfmtArgs.

(** ** Block size *)

Definition block_sizes : list Z := [512; 1024; 2048; 4096].

(** the sizes that the range test lets through, checked one by one *)
Lemma power_loop_sizes :
  forallb (λ n, let tmp := 512 + Z.of_nat n in
             match power_loop 33 tmp with
             | Done r => (r =? (if bool_decide (tmp ∈ block_sizes) then 0 else -1))
             | _ => false
             end) (seq 0 3585) = true.
Proof. vm_compute. reflexivity. Qed.

Lemma check_param_eq data :
  check_param data = Done (if bool_decide (s32 (fd_blksize data) ∈ block_sizes) then 0 else -1).
Proof.
  unfold check_param. set (tmp := s32 (fd_blksize data)). clearbody tmp.
  destruct ((tmp <? 512) || (4096 <? tmp)) eqn:E.
  - rewrite bool_decide_eq_false_2; [done|]. unfold block_sizes. rewrite !elem_of_cons, elem_of_nil.
    apply orb_true_iff in E as [E|E]; b2p; lia.
  - b2p. pose proof power_loop_sizes as P. rewrite forallb_forall in P.
    specialize (P (Z.to_nat (tmp - 512))). cbv zeta in P.
    replace (512 + Z.of_nat (Z.to_nat (tmp - 512))) with tmp in P by lia.
    destruct (power_loop 33 tmp); try (discriminate P; apply in_seq; lia).
    assert (P' : (a =? (if bool_decide (tmp ∈ block_sizes) then 0 else -1)) = true) by (apply P, in_seq; lia).
    b2p. by rewrite P'.
Qed.

Lemma block_size_signed b : b ∈ block_sizes → s32 b = b ∧ u32 b = b.
Proof.
  unfold block_sizes. rewrite !elem_of_cons, elem_of_nil. intros [->|[->|[->|[->|[]]]]]; done.
Qed.

Lemma s32_u32 b : 0 <= b < 4294967296 → u32 (s32 b) = b.
Proof.
  intros Hb. unfold s32, u32. rewrite Zminus_mod_idemp_l. replace (b + 2147483648 - 2147483648) with b by lia.
  by apply Z.mod_small.
Qed.

Lemma check_param_accepts data :
  0 <= fd_blksize data < 4294967296 → check_param data = Done 0 ↔ fd_blksize data ∈ block_sizes.
Proof.
  intros Hb. rewrite check_param_eq. split.
  - destruct (bool_decide _) eqn:E; [|done]. apply bool_decide_eq_true in E. intros _.
    destruct (block_size_signed _ E) as [_ E2]. by rewrite <- E2, s32_u32 in E.
  - intros H. destruct (block_size_signed _ H) as [-> _]. by rewrite bool_decide_eq_true_2.
Qed.

(** ** The question for the block size *)

Lemma fgets_shorter size s l rest :
  (1 < size)%nat → fgets size s = Some (l, rest) → (length rest < length s)%nat ∧ rest `suffix_of` s.
Proof.
  intros Hn. unfold fgets. destruct s as [|c s]; [done|]. destruct size as [|[|n]]; [lia..|].
  replace (S (S n) - 1)%nat with (S n) by lia. intros [= H].
  assert (G : ∀ m t l r, fgets_loop m t = (l, r) → r `suffix_of` t).
  { clear. induction m as [|m IH]; intros t l r; simpl; [by intros [= <- <-]|].
    destruct t as [|c t]; [by intros [= <- <-]|]. destruct (c =? 10); [intros [= <- <-]; by exists [c]|].
    destruct (fgets_loop m t) as [l' r'] eqn:E. intros [= <- <-]. apply suffix_cons_r. by eapply IH. }
  assert (Hs : rest `suffix_of` s).
  { simpl in H. destruct (c =? 10); [by injection H as <- <-|]. destruct (fgets_loop n s) as [l' r'] eqn:E.
    injection H as <- <-. by eapply G. }
  split; [|by apply suffix_cons_r]. destruct Hs as [k ->]. simpl. rewrite length_app. lia.
Qed.

(** [gets] takes bytes of the input only. *)
Definition same_but_stdin {S} (w w' : world S) : Prop :=
  w_log w' = w_log w ∧ w_dev w' = w_dev w ∧ w_static w' = w_static w ∧ w_stdin w' `suffix_of` w_stdin w.

#[export] Instance same_but_stdin_preorder S : PreOrder (@same_but_stdin S).
Proof.
  split; [by intros w|]. intros a b c (A1 & A2 & A3 & A4) (B1 & B2 & B3 & B4).
  split; [congruence|]. split; [congruence|]. split; [congruence|]. by etrans.
Qed.

Lemma ask_round_valid buffer params :
  ∃ p rc, ask_round buffer params = Done (p, rc) ∧ (rc = 1 → check_param p = Done 0) ∧
    start_unit p = start_unit params ∧ stop_unit p = stop_unit params ∧ intensity p = intensity params.
Proof.
  unfold ask_round. destruct (sscanf_dc buffer) as [[rc x] c]. cbv zeta.
  set (p := match x with Some x => _ | None => _ end).
  assert (Hp : start_unit p = start_unit params ∧ stop_unit p = stop_unit params ∧ intensity p = intensity params)
    by (unfold p; by destruct x).
  clearbody p. rewrite check_param_eq, Done_bind. eexists _, _. split; [reflexivity|]. split; [|exact Hp].
  rewrite check_param_eq. destruct (bool_decide (s32 _ ∈ _)); simpl; [done|lia].
Qed.

Lemma ask_loop_valid fuel : ∀ i params w,
  check_param (set_blksize (u32 i) params) = Done 0 → (length (w_stdin w) < fuel)%nat →
  sat (ask_loop fuel i params w)
    (λ p w', check_param p = Done 0 ∧ start_unit p = start_unit params ∧ stop_unit p = stop_unit params ∧
             intensity p = intensity params ∧ same_but_stdin w w') (λ _ _, False).
Proof.
  induction fuel as [|fuel IH]; intros i params w Hi Hf; [lia|]. cbn [ask_loop]. apply sat_bind. unfold gets.
  destruct (fgets 20 (w_stdin w)) as [[l rest]|] eqn:E; simpl; [|split; [done|]; do 3 (split; [done|]); reflexivity].
  destruct (fgets_shorter 20 _ _ _ ltac:(lia) E) as [Hlen Hsuf].
  destruct (ask_round_valid l (set_blksize (u32 i) params)) as (p & rc & Er & Hok & Hs & Ht & Hn).
  simpl in Hs, Ht, Hn. apply sat_bind. rewrite Er. simpl. set (w1 := World _ _ rest _).
  assert (Hw : same_but_stdin w w1) by done.
  destruct (Z.eqb_spec rc 1) as [->|Hrc]; simpl; [split; [by apply Hok|]; done|].
  eapply sat_mono; [apply IH|..].
  - unfold check_param in *. done.
  - simpl. lia.
  - intros a w' (H1 & H2 & H3 & H4 & H5). split; [done|]. do 3 (split; [congruence|]). by etrans.
  - done.
Qed.

Lemma ask_user_valid params w :
  check_param params = Done 0 → 0 <= fd_blksize params < 4294967296 →
  sat (ask_user_for_blksize params w)
    (λ p w', check_param p = Done 0 ∧ start_unit p = start_unit params ∧ stop_unit p = stop_unit params ∧
             intensity p = intensity params ∧ same_but_stdin w w') (λ _ _, False).
Proof.
  intros Hp Hb. unfold ask_user_for_blksize. apply sat_bind.
  apply (ask_loop_valid (S (length (w_stdin w))) _ params w); [|lia].
  rewrite s32_u32 by done. by destruct params.
Qed.

(** ** Serial numbers *)

Lemma blanks_or_char l :
  Forall (λ c, c = 32) l ∨ ∃ k y r, l = replicate k 32 ++ y :: r ∧ y ≠ 32.
Proof.
  induction l as [|c l IH]; [by left|]. destruct (decide (c = 32)) as [->|Hc]; [|by right; exists 0%nat, c, l].
  destruct IH as [IH|(k & y & r & -> & Hy)]; [left; by constructor|right; by exists (S k), y, r].
Qed.

Lemma find_char_none p l t :
  Forall (λ c, c = 32) l → find_char (p ++ l ++ t) (length p) (length l) = None.
Proof.
  intros H. revert p. induction H as [|c l -> _ IH]; intros p; [done|]. cbn [find_char length].
  rewrite lookup_total_app_r, Nat.sub_diag by lia. cbn.
  specialize (IH (p ++ [32])). rewrite length_app, Nat.add_1_r, <- app_assoc in IH. exact IH.
Qed.

Lemma find_char_some p k y t n :
  y ≠ 32 → (k < n)%nat → find_char (p ++ replicate k 32 ++ y :: t) (length p) n = Some (length p + k)%nat.
Proof.
  intros Hy. revert p n. induction k as [|k IH]; intros p n Hn; (destruct n as [|n]; [lia|]); cbn [find_char].
  - rewrite lookup_total_app_r, Nat.sub_diag by lia. cbn. rewrite (proj2 (Z.eqb_neq y 32) Hy). cbn. f_equal. lia.
  - rewrite lookup_total_app_r, Nat.sub_diag by lia. cbn [replicate app lookup_total list_lookup_total].
    cbn. specialize (IH (p ++ [32]) n ltac:(lia)). rewrite length_app, <- app_assoc in IH. cbn [length app] in IH.
    rewrite Nat.add_1_r in IH. cbn [app] in IH. rewrite IH. f_equal. lia.
Qed.

Lemma filter_blanks k l : filter (λ c, c ≠ 32) (replicate k 32 ++ l) = filter (λ c, c ≠ 32) l.
Proof. induction k as [|k IH]; [done|]. cbn [replicate app]. by rewrite filter_cons_False by auto. Qed.

(** the character at the front is blank: the next one takes its place *)
Lemma move_blank p k y r t i :
  i = length p → y ≠ 32 → (i + S k < 6)%nat →
  move_char (p ++ 32 :: replicate k 32 ++ y :: r ++ t) i = p ++ y :: replicate k 32 ++ 32 :: r ++ t.
Proof.
  intros -> Hy Hk. unfold move_char. rewrite lookup_total_app_r, Nat.sub_diag by lia. cbn [lookup_total list_lookup_total].
  rewrite Z.eqb_refl. change (32 :: replicate k 32 ++ y :: r ++ t) with (replicate (S k) 32 ++ y :: r ++ t).
  rewrite (find_char_some p (S k) y (r ++ t)) by (done || lia).
  assert (E : (p ++ replicate (S k) 32 ++ y :: r ++ t) !!! (length p + S k)%nat = y).
  { rewrite lookup_total_app_r by lia. rewrite lookup_total_app_r by (rewrite length_replicate; lia).
    rewrite length_replicate. by replace (length p + S k - length p - S k)%nat with 0%nat by lia. }
  rewrite E. rewrite insert_app_r_alt by lia. rewrite Nat.sub_diag. cbn [replicate app].
  rewrite insert_app_r. f_equal. transitivity (y :: <[k := 32]> (replicate k 32 ++ y :: r ++ t)); [done|]. f_equal.
  rewrite insert_app_r_alt by (rewrite length_replicate; lia). by rewrite length_replicate, Nat.sub_diag.
Qed.

Lemma move_chars_from n : ∀ i p l t,
  i = length p → length l = n → (i + n = 6)%nat →
  fold_left move_char (seq i n) (p ++ l ++ t) =
    p ++ filter (λ c, c ≠ 32) l ++ replicate (n - length (filter (λ c, c ≠ 32) l)) 32 ++ t.
Proof.
  induction n as [|n IH]; intros i p l t Hi Hl H6; [by destruct l|]. destruct l as [|x l]; [done|].
  injection Hl as Hl. cbn [seq fold_left].
  assert (Hnext : ∀ x l, length l = n → fold_left move_char (seq (S i) n) (p ++ x :: l ++ t) =
    p ++ [x] ++ filter (λ c, c ≠ 32) l ++ replicate (n - length (filter (λ c, c ≠ 32) l)) 32 ++ t).
  { intros y m Hm. specialize (IH (S i) (p ++ [y]) m t). rewrite length_app, Nat.add_1_r, <- !app_assoc in IH.
    apply IH; [congruence|done|lia]. }
  destruct (decide (x = 32)) as [->|Hx].
  - rewrite (filter_cons_False _ 32) by auto.
    destruct (blanks_or_char l) as [Hb|(k & y & r & -> & Hy)].
    + assert (E : filter (λ c, c ≠ 32) l = []) by (clear -Hb; induction Hb as [|c l -> _ IH]; [done|by rewrite filter_cons_False by auto]).
      replace (move_char (p ++ (32 :: l) ++ t) i) with (p ++ 32 :: l ++ t).
      * rewrite Hnext by done. rewrite E. cbn [length app]. rewrite !Nat.sub_0_r. reflexivity.
      * unfold move_char. rewrite Hi, lookup_total_app_r, Nat.sub_diag by lia. cbn [lookup_total list_lookup_total app].
        rewrite Z.eqb_refl. replace (6 - length p)%nat with (length (32 :: l)) by (cbn [length]; lia).
        change (32 :: l ++ t) with ((32 :: l) ++ t). rewrite find_char_none by (by constructor). done.
    + rewrite length_app, length_replicate in Hl. cbn [length] in Hl.
      cbn [app]. rewrite <- app_assoc. cbn [app]. rewrite move_blank by (done || lia).
      change (32 :: r ++ t) with ((32 :: r) ++ t). rewrite app_assoc.
      rewrite Hnext by (rewrite length_app, length_replicate; cbn [length]; lia).
      rewrite !filter_blanks, (filter_cons_False _ 32), (filter_cons_True _ y) by auto.
      cbn [app length]. rewrite Nat.sub_succ. reflexivity.
  - rewrite filter_cons_True by done. cbn [app length]. rewrite Nat.sub_succ.
    replace (move_char (p ++ x :: l ++ t) i) with (p ++ x :: l ++ t); [by apply Hnext|].
    unfold move_char. rewrite Hi, lookup_total_app_r, Nat.sub_diag by lia. cbn [lookup_total list_lookup_total].
    by rewrite (proj2 (Z.eqb_neq x 32) Hx).
Qed.

(** the blanks go to the end *)
Lemma move_chars s z :
  length s = 6%nat →
  fold_left move_char (seq 0 6) (s ++ [z]) =
    filter (λ c, c ≠ 32) s ++ replicate (6 - length (filter (λ c, c ≠ 32) s)) 32 ++ [z].
Proof. intros Hl. apply (move_chars_from 6 0 [] s [z]); [done|done|lia]. Qed.

Lemma volser_clean_char c :
  in_u8 c → volser_clean c ≠ 32 ↔ volser_char c = true.
Proof.
  intros Hc. byte_check (λ c, Bool.eqb (negb (volser_clean c =? 32)) (volser_char c)) c E. cbv beta in E.
  apply eqb_prop in E. rewrite <- E, negb_true_iff, Z.eqb_neq. done.
Qed.

Lemma volser_clean_upper c : in_u8 c → volser_char c = true → volser_clean c = toupper c.
Proof.
  intros Hc Hv. byte_check (λ c, implb (volser_char c) (volser_clean c =? toupper c)) c E. cbv beta in E.
  rewrite Hv in E. cbn [implb] in E. by apply Z.eqb_eq.
Qed.

(** the cleaned characters that are no blanks are the ones that fdasd keeps *)
Lemma clean_filter s :
  Forall in_u8 s →
  filter (λ c, c ≠ 32) (map volser_clean s) = map toupper (filter (λ c, volser_char c = true) s).
Proof.
  induction 1 as [|c s Hc _ IH]; [done|]. cbn [map]. destruct (volser_char c) eqn:E.
  - rewrite !filter_cons_True; [|done|by apply volser_clean_char]. cbn [map]. by rewrite IH, volser_clean_upper.
  - rewrite !filter_cons_False; [done|by rewrite E|]. intros H. apply volser_clean_char in H; [|done]. congruence.
Qed.

Lemma hex_digits_length fuel : ∀ n x,
  (0 < n <= fuel)%nat → 0 <= x < 16 ^ Z.of_nat n → (length (hex_digits fuel x) <= n)%nat.
Proof.
  induction fuel as [|fuel IH]; intros n x Hn Hx; [lia|]. cbn [hex_digits]. rewrite length_app. cbn [length].
  destruct (Z.ltb_spec x 16); [cbn [length]; lia|]. destruct n as [|[|n]]; [lia|simpl in Hx; lia|].
  specialize (IH (S n) (x / 16) ltac:(lia)).
  assert (0 <= x / 16 < 16 ^ Z.of_nat (S n)); [|specialize (IH H0); lia].
  rewrite (Nat2Z.inj_succ (S n)), Z.pow_succ_r in Hx by lia. split; [apply Z.div_pos; lia|].
  apply Z.div_lt_upper_bound; lia.
Qed.

Lemma default_volser_length devno : 0 <= devno < 65536 → length (default_volser devno) = 6%nat.
Proof.
  intros Hd. unfold default_volser, hex04. rewrite u32_small by lia. rewrite !length_app, length_replicate.
  pose proof (hex_digits_length 8 4 devno ltac:(lia) Hd). change (length (bytes_of_string "0X")) with 2%nat. lia.
Qed.

Lemma sprintf_volser_ok devno : 0 <= devno < 65536 → sprintf_volser devno = Done (default_volser devno ++ [0]).
Proof.
  intros Hd. pose proof (default_volser_length devno Hd) as Hl. unfold default_volser in Hl. unfold sprintf_volser.
  cbv zeta. by rewrite Hl.
Qed.

(** what [check_volser] does to the six characters of a serial *)
Lemma check_volser_eq s z devno :
  length s = 6%nat → 0 <= devno < 65536 →
  let kept := filter (λ c, c ≠ 32) (map volser_clean s) in
  check_volser (s ++ [z]) devno =
    Done (if bool_decide (kept = []) then (-1, map toupper (default_volser devno) ++ [0])
          else (0, kept ++ replicate (6 - length kept) 32 ++ [0])).
Proof.
  intros Hl Hd kept. unfold check_volser.
  assert (E1 : memcpy_at (s ++ [z]) 0 (map volser_clean (take 6 (s ++ [z]))) = map volser_clean s ++ [z]).
  { rewrite take_app_length' by done. unfold memcpy_at. rewrite length_map, Hl. cbn [take app Nat.add].
    by rewrite drop_app_length'. }
  assert (E2 : <[6%nat := 0]> (map volser_clean s ++ [z]) = map volser_clean s ++ [0]).
  { rewrite insert_app_r_alt by (rewrite length_map; lia). by rewrite length_map, Hl. }
  cbv zeta. rewrite E1, E2, move_chars by (by rewrite length_map). fold kept.
  destruct kept as [|c l] eqn:E.
  - assert (Eb : (((@nil Z) ++ replicate (6 - @length Z []) 32 ++ [0]) !!! 0%nat =? 32) = true) by done.
    rewrite Eb, sprintf_volser_ok by done. rewrite Done_bind. do 2 f_equal. unfold memcpy_at.
    pose proof (default_volser_length devno Hd) as Hd6. rewrite take_0, app_nil_l, take_app_length' by done.
    rewrite length_map, Hd6. cbn [Nat.add]. by rewrite drop_app_length'.
  - rewrite (bool_decide_eq_false_2 (c :: l = [])) by done. cbn [app lookup_total list_lookup_total].
    destruct (Z.eqb_spec c 32) as [Hc|Hc]; [|done].
    assert (Hin : c ∈ kept) by (rewrite E; left). unfold kept in Hin. apply list_elem_of_filter in Hin as [Hin _]. done.
Qed.

Lemma cstr_bytes n s : Forall in_u8 s → Forall in_u8 (take n (cstr s)).
Proof.
  intros H. apply Forall_take. induction H as [|c s Hc _ IH]; simpl; [constructor|].
  destruct (c =? 0); [constructor|by constructor].
Qed.

(** the bytes that [strncpy] adds are blanks *)
Lemma clean_strncpy s :
  Forall in_u8 s →
  filter (λ c, c ≠ 32) (map volser_clean (strncpy s 6)) =
    map toupper (filter (λ c, volser_char c = true) (take 6 (cstr s))).
Proof.
  intros Hs. unfold strncpy. cbv zeta. rewrite map_app, filter_app, clean_filter by (by apply cstr_bytes).
  replace (filter _ (map volser_clean (zeros _))) with (@nil Z); [apply app_nil_r|].
  induction (6 - _)%nat as [|n IH]; [done|]. cbn [zeros replicate map]. rewrite filter_cons_False; [exact IH|]. auto.
Qed.

(** the field of the label does not see blanks at the end *)
Lemma volser_field_blanks l n :
  Forall (λ c, c ≠ 0) l → (length l + n = 6)%nat →
  volser_field (l ++ replicate n 32 ++ [0]) = volser_field l.
Proof.
  intros Hl Hn. unfold volser_field. rewrite (cstr_no_nul l Hl).
  assert (E : cstr (l ++ replicate n 32 ++ [0]) = l ++ replicate n 32).
  { rewrite app_assoc. apply cstr_app_nul, Forall_app. split; [done|]. apply Forall_replicate. lia. }
  unfold VOLSER_LENGTH. rewrite E, !take_ge by (rewrite ?length_app, ?length_replicate; lia).
  rewrite !map_app, !(fmap_replicate toupper), !(fmap_replicate asc2ebc), !length_app, !length_replicate, !length_map.
  rewrite <- app_assoc. f_equal. change (asc2ebc (toupper 32)) with 0x40.
  replace (6 - (length l + n))%nat with 0%nat by lia. replace (6 - length l)%nat with n by lia. apply app_nil_r.
Qed.

Lemma toupper_twice c : toupper (toupper c) = toupper c.
Proof. unfold toupper. destruct ((97 <=? c) && (c <=? 122)) eqn:E; [|by rewrite E]. b2p. by destruct (_ && _) eqn:F; b2p; [lia|]. Qed.

Lemma volser_field_upper l : length l = 6%nat → Forall (λ c, c ≠ 0) l →
  volser_field (map toupper l ++ [0]) = volser_field l.
Proof.
  intros H6 Hl. unfold volser_field. rewrite (cstr_no_nul l Hl), cstr_app_nul.
  - unfold VOLSER_LENGTH. rewrite !take_ge by (rewrite ?length_map; lia). rewrite !map_map.
    rewrite (map_ext (λ x, asc2ebc (toupper (toupper x))) (λ x, asc2ebc (toupper x))); [by rewrite !length_map|].
    intros c. by rewrite toupper_twice.
  - apply Forall_map. eapply Forall_impl; [exact Hl|]. intros c. apply toupper_nonzero.
Qed.

(** Both tools put the same serial into the label. *)
Lemma same_serial vl s devno :
  Forall in_u8 s → 0 <= devno < 65536 →
  ∃ rc buf, check_volser (strncpy s 6 ++ [0]) devno = Done (rc, buf) ∧
    (rc = -1 ↔ filter (λ c, volser_char c = true) (take 6 (cstr s)) = []) ∧
    vtoc_volume_label_set_volser vl buf = vtoc_volume_label_set_volser vl (fdasd_check_volser s devno).
Proof.
  intros Hs Hd. pose proof (check_volser_ok s devno) as Hok. pose proof (default_volser_ok devno) as Hdef.
  rewrite check_volser_eq by (rewrite ?length_strncpy; done). cbv zeta. rewrite clean_strncpy by done.
  unfold fdasd_check_volser in *. unfold VOLSER_LENGTH in *. set (kept := filter _ _) in *.
  assert (Hu8 : ∀ l, Forall (λ c, roundtrip_char (toupper c) = true ∧ in_u8 c) l → Forall in_u8 l)
    by (intros l Hl; eapply Forall_impl; [exact Hl|]; by intros c [_ ?]).
  destruct kept as [|c l] eqn:E; cbn [map] in *.
  - rewrite bool_decide_eq_true_2 by done. eexists _, _. split; [done|]. split; [done|].
    pose proof (default_volser_length devno Hd) as H6.
    assert (Hnz : Forall (λ c, c ≠ 0) (default_volser devno)).
    { eapply Forall_impl; [exact Hdef|]. intros c [Hc _] ->. done. }
    rewrite !set_volser_fields; [by rewrite volser_field_upper|by apply Hu8|].
    apply Forall_app. split; [|repeat constructor; lia]. apply Forall_map.
    eapply Forall_impl; [exact (Hu8 _ Hdef)|apply toupper_range].
  - rewrite bool_decide_eq_false_2 by done. eexists _, _. split; [done|]. split; [split; [lia|done]|].
    set (k := toupper c :: map toupper l) in *.
    assert (Hnz : Forall (λ c, c ≠ 0) k).
    { eapply Forall_impl; [exact Hok|]. intros d [Hd' _] ->. done. }
    assert (Hlen : (length k <= 6)%nat).
    { unfold k. change (toupper c :: map toupper l) with (map toupper (c :: l)). rewrite length_map, <- E.
      unfold kept. etrans; [apply length_filter|]. rewrite length_take. lia. }
    rewrite !set_volser_fields; [|by apply Hu8|].
    + by rewrite volser_field_blanks by (done || lia).
    + apply Forall_app. split; [by apply Hu8|]. apply Forall_app. split; [apply Forall_replicate; unfold in_u8; lia|].
      repeat constructor; lia.
Qed.

(** ** Records per track *)

Lemma recs_per_track_same rdc kl dl :
  recs_per_track rdc kl dl = FdasdSetup.recs_per_track (ch_dev_type rdc) kl dl.
Proof.
  unfold recs_per_track, FdasdSetup.recs_per_track, flag.
  change DASD_3380_TYPE with 0x3380. change DASD_3390_TYPE with 0x3390. change DASD_9345_TYPE with 0x9345. reflexivity.
Qed.

End DasdfmtArgs.
