(* ===== verification/DasdfmtTracks.v ===== *)
(** Tracks of dasdfmt (src/dasdfmt/dasdfmt.c): the steps of [process_tracks] cover
    the tracks that were asked for, and the bisection of [dasdfmt_find_start]
    finds the first track that is not formatted. *)
From S2P Require Import Prelude Cchh VtocIo FdasdInput Dasd Dasdfmt DasdfmtArgs.
Import Dasd DasdLogic Dasdfmt DasdfmtArgs.

Module DasdfmtTracks.

(** ** Progress *)

(** [w'] differs from [w] in what was printed only. *)
Definition prints (w w' : world statics) : Prop :=
  w_log w' = w_log w ∧ w_dev w' = w_dev w ∧ w_stdin w' = w_stdin w ∧
  s_disk_disabled (w_static w') = s_disk_disabled (w_static w).

#[export] Instance prints_preorder : PreOrder prints.
Proof.
  split; [by intros w|]. intros a b c (A1 & A2 & A3 & A4) (B1 & B2 & B3 & B4).
  split; [congruence|]. split; [congruence|]. split; congruence.
Qed.

(** [m] returns, and only prints. *)
Definition printing {A} (m : prog statics A) : Prop :=
  ∀ w, sat (m w) (λ _ w', prints w w') (λ _ _, False).

Lemma printing_ret {A} (a : A) : printing (mret a).
Proof. intros w. by simpl. Qed.
Lemma printing_bind {A B} (m : prog statics A) (k : A → prog statics B) :
  printing m → (∀ a, printing (k a)) → printing (m ≫= k).
Proof.
  intros Hm Hk w. apply sat_bind. eapply sat_mono; [apply Hm| |by intros ? ? []]. intros a w' H. simpl.
  eapply sat_mono; [apply Hk| |by intros ? ? []]. intros b w'' H'. etrans; [exact H|exact H'].
Qed.
Lemma printing_get : printing get_static.
Proof. intros w. by simpl. Qed.
Lemma printing_answer {A} (f : list request → A) : printing (answer f).
Proof. intros w. by simpl. Qed.
Lemma printing_modify f : (∀ s, s_disk_disabled (f s) = s_disk_disabled s) → printing (modify f).
Proof. intros Hf w. simpl. split; [done|]. split; [done|]. split; [done|]. apply Hf. Qed.
Lemma printing_print o : printing (print o).
Proof. by apply printing_modify. Qed.
Lemma printing_quot a b : b ≠ 0 → printing (quot_prog a b).
Proof. intros Hb w. unfold quot_prog, udiv. by rewrite (proj2 (Z.eqb_neq b 0) Hb). Qed.

#[local] Hint Resolve printing_ret printing_get printing_answer printing_print printing_quot : dasd.

Ltac printing_auto :=
  repeat first
    [ lazymatch goal with
      | |- printing (_ ≫= _) => apply printing_bind; [|intros ?]
      | |- printing (if ?b then _ else _) => destruct b eqn:?
      end
    | solve [auto with dasd] | apply printing_modify; intros ?; reflexivity ].

Lemma print_eta_printing K p started : printing (print_eta K p started).
Proof. unfold print_eta. printing_auto. Qed.
#[local] Hint Resolve print_eta_printing : dasd.

(** the divisors of the progress display *)
Definition can_draw (g : dasdfmt_globals) (cylinders : Z) : Prop :=
  0 < cylinders ∧ (flag (g_print_hashmarks g) = true → g_hashstep g ≠ 0).

Lemma draw_progress_printing K g cyl cylinders aborted :
  can_draw g cylinders → printing (draw_progress K g cyl cylinders aborted).
Proof.
  intros [Hc Hh]. assert (Hc0 : cylinders ≠ 0) by lia. unfold draw_progress. printing_auto.
  - unfold draw_bar. printing_auto.
  - unfold draw_hash. rewrite (proj2 (Z.eqb_neq _ _) (Hh eq_refl)). printing_auto.
Qed.

Lemma check_hashmarks_draw reqsize g cylinders :
  1 <= reqsize <= 255 → 0 < cylinders → can_draw (check_hashmarks reqsize g) cylinders.
Proof.
  intros Hr Hc. split; [done|]. unfold check_hashmarks. destruct (flag (g_print_hashmarks g)) eqn:E; [|congruence].
  intros _. destruct g. cbn. destruct (_ <? reqsize); cbn; destruct (_ || _) eqn:F; cbn; b2p; lia.
Qed.

Lemma check_hashmarks_check reqsize g : g_check (check_hashmarks reqsize g) = g_check g.
Proof.
  unfold check_hashmarks. destruct g. cbn. destruct (flag _); [|done].
  destruct (_ <? reqsize); cbn; by destruct (_ || _).
Qed.

(** ** The steps *)

(** the track lies in the range of a request *)
Definition in_range (t : Z) (p : format_data_t) : Prop := start_unit p <= t <= stop_unit p.

(** The steps cover the tracks from [start] to [stop] and no others, each with at
    most [size + 1] tracks. *)
Definition covers (steps : list format_data_t) (start stop size : Z) : Prop :=
  (∀ t, (∃ p, p ∈ steps ∧ in_range t p) ↔ start <= t <= stop) ∧
  Forall (λ p, stop_unit p - start_unit p <= size) steps.

(** requests of the same kind as [params] *)
Definition like (params p : format_data_t) : Prop :=
  fd_blksize p = fd_blksize params ∧ intensity p = intensity params.

Lemma track_step_eq reqsize heads cur stop :
  1 <= reqsize <= 255 → 1 <= heads <= 65535 → 0 <= cur < stop → stop < 4294967296 →
  let next := cur - cur mod heads + reqsize * heads in
  track_step reqsize heads cur stop =
    Done (if stop <=? cur + reqsize * heads then stop else next - 1, next) ∧
  cur < next <= cur + reqsize * heads.
Proof.
  intros Hr Hh Hc Hs next. pose proof (Z.mod_pos_bound cur heads ltac:(lia)) as Hm.
  assert (Hp : 1 <= reqsize * heads <= 255 * 65535) by nia. assert (Hq : heads <= reqsize * heads) by nia.
  unfold track_step. rewrite (proj2 (Z.eqb_neq heads 0)) by lia. cbv zeta. rewrite (Z.mul_comm heads reqsize).
  rewrite (u32_small (reqsize * heads)) by lia. rewrite (u64_small (reqsize * heads - _)) by lia.
  rewrite (u64_small (cur + reqsize * heads)) by lia.
  replace (cur + (reqsize * heads - cur mod heads)) with next by (unfold next; lia).
  rewrite (u64_small next) by (unfold next; lia). split; [|unfold next; lia].
  destruct (Z.leb_spec stop (cur + reqsize * heads)); [done|]. rewrite u32_small by (unfold next; lia). done.
Qed.

Lemma covers_one start stop size p :
  start_unit p = start → stop_unit p = stop → stop - start <= size → covers [p] start stop size.
Proof.
  intros E1 E2 Hs. split; [|constructor; [lia|constructor]]. intros t. unfold in_range. split.
  - intros (q & Hq & Ht). apply list_elem_of_singleton in Hq as ->. lia.
  - intros Ht. exists p. split; [by apply list_elem_of_singleton|lia].
Qed.

Lemma covers_cons start mid next stop size p steps :
  start_unit p = start → stop_unit p = mid → start <= next <= mid + 1 → mid <= stop → mid - start <= size →
  covers steps next stop size → covers (p :: steps) start stop size.
Proof.
  intros E1 E2 Hn Hm Hs [Hc Hf]. split; [|constructor; [lia|done]]. intros t. split.
  - intros (q & Hq & Ht). apply elem_of_cons in Hq as [->|Hq]; [unfold in_range in Ht; lia|].
    assert (next <= t <= stop) by (apply Hc; by exists q). lia.
  - intros Ht. destruct (decide (t <= mid)).
    + exists p. split; [left|unfold in_range; lia].
    + destruct (proj2 (Hc t)) as (q & Hq & Hin); [lia|]. exists q. split; [by right|done].
Qed.

(** the requests that are added to the history *)
Definition formats (w w' : world statics) (steps : list format_data_t) : Prop :=
  w_log w' = rev (map BIODASDFMT steps) ++ w_log w ∧ w_stdin w' = w_stdin w ∧
  s_disk_disabled (w_static w') = s_disk_disabled (w_static w).

Lemma formats_cons w w1 w2 w' p steps :
  w_log w1 = BIODASDFMT p :: w_log w → w_stdin w1 = w_stdin w → w_static w1 = w_static w →
  prints w1 w2 → formats w2 w' steps → formats w w' (p :: steps).
Proof.
  intros A1 A2 A3 (B1 & B2 & B3 & B4) (C1 & C2 & C3). split; [|split; congruence].
  cbn [map rev]. rewrite C1, B1, A1, <- app_assoc. done.
Qed.

Section Process.
Context (K : kernel) (g : dasdfmt_globals) (mode : format_mode_t) (reqsize cylinders heads : Z).
Context (Hr : 1 <= reqsize <= 255) (Hh : 1 <= heads <= 65535) (Hd : can_draw g cylinders) (Hf : g_check g = 0).

Lemma process_loop_covers params fuel : ∀ cur step w,
  0 <= cur < stop_unit params → stop_unit params < 4294967296 → like params step →
  stop_unit params / heads - cur / heads + 2 <= Z.of_nat fuel →
  sat (process_loop K fuel g mode reqsize cylinders heads params cur 0 step w)
    (λ r w', r.1 = 0 ∧ stop_unit r.2 = stop_unit params ∧
       ∃ steps, formats w w' steps ∧ covers steps cur (stop_unit params) (reqsize * heads) ∧ Forall (like params) steps)
    (λ c w', c = 1).
Proof using Hr Hh Hd Hf.
  induction fuel as [|fuel IH]; intros cur step w Hc Hs Hl Hfu.
  { pose proof (Z.div_le_mono cur (stop_unit params) heads ltac:(lia) ltac:(lia)). lia. }
  set (stop := stop_unit params) in *. cbn [process_loop]. fold stop. rewrite (proj2 (Z.ltb_lt cur stop)) by lia.
  destruct (track_step_eq reqsize heads cur stop Hr Hh Hc Hs) as [Es Hn]. set (next := cur - cur mod heads + reqsize * heads) in *.
  apply sat_bind. rewrite Es. cbn [lift mret sat prog_ret]. cbv zeta. rewrite (u32_small cur) by lia.
  set (mid := if stop <=? cur + reqsize * heads then stop else next - 1). set (step1 := set_range cur mid step).
  rewrite Hf. cbn [flag Z.eqb negb]. apply sat_bind. cbn [dasd_format_disk run_ioctl sat].
  destruct (flag (k_errno K (w_log w) (BIODASDFMT step1))); [done|]. set (w1 := World _ _ _ _).
  apply sat_bind. eapply sat_mono; [apply (draw_progress_printing _ _ _ _ _ Hd)| |by intros ? ? []].
  intros u w2 Hw2. cbv beta.
  assert (Hl1 : like params step1) by (unfold like, step1; cbn; exact Hl).
  assert (Hmid : mid <= stop ∧ next <= mid + 1 ∨ mid = stop) by (unfold mid; destruct (Z.leb_spec stop (cur + reqsize * heads)); lia).
  assert (Hsz : mid - cur <= reqsize * heads) by (unfold mid; destruct (Z.leb_spec stop (cur + reqsize * heads)); lia).
  destruct (decide (next < stop)) as [Hlt|Hge].
  - assert (Hdiv : next / heads = cur / heads + reqsize).
    { unfold next. rewrite (Z.div_mod cur heads) at 1 by lia.
      replace (heads * (cur / heads) + cur mod heads - cur mod heads + reqsize * heads)
        with ((cur / heads + reqsize) * heads) by ring. apply Z.div_mul. lia. }
    eapply sat_mono; [apply (IH next step1 w2)|..]; [lia|done|done|fold stop; lia| |done].
    intros [r st] w' (E1 & E2 & steps & Hlog & Hcov & Hlike). split; [done|]. split; [done|].
    exists (step1 :: steps). split; [by eapply (formats_cons w w1 w2)|]. split; [|by constructor].
    eapply (covers_cons cur mid next stop); try done; lia.
  - assert (Em : mid = stop) by (unfold mid; by rewrite (proj2 (Z.leb_le stop (cur + reqsize * heads))) by lia). destruct fuel as [|fuel].
    { pose proof (Z.div_le_mono cur stop heads ltac:(lia) ltac:(lia)). lia. }
    cbn [process_loop]. fold stop. rewrite (proj2 (Z.ltb_ge next stop)) by lia. cbn [mret prog_ret sat fst snd].
    split; [done|]. split; [exact Em|]. exists [step1].
    split; [by eapply (formats_cons w w1 w2)|]. split; [|by constructor].
    apply covers_one; [done|exact Em|]. lia.
Qed.

End Process.

Section Format.
Context (K : kernel) (g : dasdfmt_globals) (mode : format_mode_t) (reqsize cylinders heads : Z).
Context (Hr : 1 <= reqsize <= 255) (Hh : 1 <= heads <= 65535) (Hc : 0 < cylinders) (Hf : g_check g = 0).

Lemma process_tracks_covers params w :
  0 <= start_unit params < stop_unit params → stop_unit params < 4294967296 →
  sat (process_tracks K g mode reqsize cylinders heads params w)
    (λ r w', r = 0 ∧ ∃ steps, formats w w' steps ∧
       covers steps (start_unit params) (stop_unit params) (reqsize * heads) ∧ Forall (like params) steps)
    (λ c w', c = 1).
Proof using Hr Hh Hc Hf.
  intros Hs Ht. unfold process_tracks. apply sat_bind. pose proof (check_hashmarks_draw reqsize g cylinders Hr Hc) as Hd.
  eapply sat_mono; [apply process_loop_covers; try done|..|done].
  - by rewrite check_hashmarks_check.
  - unfold process_fuel. pose proof (Z.div_pos (start_unit params) heads ltac:(lia) ltac:(lia)).
    pose proof (Z.div_pos (stop_unit params) heads ltac:(lia) ltac:(lia)). lia.
  - intros [r step] w1 (E1 & E2 & steps & Hw & Hcov & Hlike). cbn [fst snd] in *. subst r. cbn [flag Z.eqb negb].
    apply sat_bind. eapply sat_mono; [apply printing_quot; lia| |by intros ? ? []]. intros c w2 Hp2. cbv beta.
    apply sat_bind. eapply sat_mono; [apply (draw_progress_printing _ _ _ _ _ Hd)| |by intros ? ? []].
    intros u w3 Hp3. simpl. split; [done|]. exists steps. split; [|done].
    destruct Hw as (W1 & W2 & W3), Hp2 as (P1 & P2 & P3 & P4), Hp3 as (Q1 & Q2 & Q3 & Q4).
    split; [congruence|]. split; congruence.
Qed.

(** Nothing is formatted when the first track is the last one. *)
Lemma process_tracks_single params w :
  start_unit params = stop_unit params → 0 <= stop_unit params →
  sat (process_tracks K g mode reqsize cylinders heads params w) (λ r w', r = 0 ∧ prints w w') (λ c w', False).
Proof using Hr Hh Hc.
  intros Hs H0. unfold process_tracks. apply sat_bind. pose proof (check_hashmarks_draw reqsize g cylinders Hr Hc) as Hd.
  unfold process_fuel. cbn [process_loop]. rewrite (proj2 (Z.ltb_ge _ _)) by lia.
  cbn [mret prog_ret sat]. cbn [flag Z.eqb negb].
  apply sat_bind. eapply sat_mono; [apply printing_quot; lia| |by intros ? ? []]. intros c w2 Hp2. cbv beta.
  apply sat_bind. eapply sat_mono; [apply (draw_progress_printing _ _ _ _ _ Hd)| |by intros ? ? []].
  intros u w3 Hp3. simpl. split; [done|]. etrans; [exact Hp2|exact Hp3].
Qed.

(** ** The requests of the format modes *)

Lemma disable_sat w :
  sat (disk_disable K w)
    (λ _ w', w_log w' = BIODASDDISABLE :: w_log w ∧ w_stdin w' = w_stdin w ∧ s_disk_disabled (w_static w') = 1)
    (λ c _, c = 1).
Proof. unfold disk_disable. apply sat_bind. simpl. by destruct (flag _). Qed.

Lemma enable_sat w :
  sat (disk_enable K w)
    (λ _ w', w_log w' = BIODASDENABLE :: w_log w ∧ w_stdin w' = w_stdin w ∧ s_disk_disabled (w_static w') = 0)
    (λ c _, c = 1).
Proof. unfold disk_enable. apply sat_bind. simpl. by destruct (flag _). Qed.

Lemma format_sat p w :
  sat (format_or_fail K p w)
    (λ _ w', w_log w' = BIODASDFMT p :: w_log w ∧ w_stdin w' = w_stdin w ∧ w_static w' = w_static w)
    (λ c _, c = 1).
Proof. unfold format_or_fail. apply sat_bind. simpl. by destruct (flag _). Qed.

(** The full format: the first track is invalid while the others are formatted. *)
Lemma prepare_and_format_log p w :
  1 < stop_unit p < 4294967296 →
  sat (dasdfmt_prepare_and_format K g mode reqsize cylinders heads p w)
    (λ _ w', s_disk_disabled (w_static w') = 0 ∧ w_stdin w' = w_stdin w ∧
       ∃ steps, w_log w' = [BIODASDENABLE; BIODASDFMT (FormatData 0 0 (fd_blksize p) (intensity p))] ++
                           rev (map BIODASDFMT steps) ++ [BIODASDFMT (invalidate p); BIODASDDISABLE] ++ w_log w ∧
         covers steps 1 (stop_unit p) (reqsize * heads) ∧ Forall (like p) steps)
    (λ c _, c = 1).
Proof using Hr Hh Hc Hf.
  intros Hs. unfold dasdfmt_prepare_and_format.
  apply sat_bind. eapply sat_mono; [apply disable_sat| |done]. intros _ w1 (A1 & A2 & A3). cbv beta.
  apply sat_bind. eapply sat_mono; [apply format_sat| |done]. intros _ w2 (B1 & B2 & B3). cbv beta.
  apply sat_bind. eapply sat_mono; [apply process_tracks_covers; cbn; lia| |done].
  intros r w3 (_ & steps & (C1 & C2 & C3) & Hcov & Hlike). cbv beta.
  apply sat_bind. eapply sat_mono; [apply format_sat| |done]. intros _ w4 (D1 & D2 & D3). cbv beta.
  eapply sat_mono; [apply enable_sat| |done]. intros _ w5 (E1 & E2 & E3).
  split; [done|]. split; [congruence|]. exists steps. split; [|done].
  rewrite E1, D1, C1, B1, A1. done.
Qed.

(** The format of the end of the disk. *)
Lemma expand_format_log p w :
  0 <= start_unit p < stop_unit p → stop_unit p < 4294967296 →
  sat (dasdfmt_expand_format K g mode reqsize cylinders heads p w)
    (λ _ w', s_disk_disabled (w_static w') = 0 ∧ w_stdin w' = w_stdin w ∧
       ∃ steps, w_log w' = BIODASDENABLE :: rev (map BIODASDFMT steps) ++ BIODASDDISABLE :: w_log w ∧
         covers steps (start_unit p) (stop_unit p) (reqsize * heads) ∧ Forall (like p) steps)
    (λ c _, c = 1).
Proof using Hr Hh Hc Hf.
  intros Hs Ht. unfold dasdfmt_expand_format.
  apply sat_bind. eapply sat_mono; [apply disable_sat| |done]. intros _ w1 (A1 & A2 & A3). cbv beta.
  apply sat_bind. eapply sat_mono; [apply process_tracks_covers; cbn; lia| |done].
  intros r w3 (_ & steps & (C1 & C2 & C3) & Hcov & Hlike). cbv beta.
  eapply sat_mono; [apply enable_sat| |done]. intros _ w5 (E1 & E2 & E3).
  split; [done|]. split; [congruence|]. exists steps. split; [|done]. by rewrite E1, C1, A1.
Qed.

Lemma expand_format_single p w :
  start_unit p = stop_unit p → 0 <= stop_unit p →
  sat (dasdfmt_expand_format K g mode reqsize cylinders heads p w)
    (λ _ w', w_log w' = BIODASDENABLE :: BIODASDDISABLE :: w_log w) (λ c _, c = 1).
Proof using Hr Hh Hc.
  intros Hs Ht. unfold dasdfmt_expand_format.
  apply sat_bind. eapply sat_mono; [apply disable_sat| |done]. intros _ w1 (A1 & A2 & A3). cbv beta.
  apply sat_bind. eapply sat_mono; [by apply process_tracks_single| |by intros ? ? []].
  intros r w3 (_ & C1 & _). cbv beta.
  eapply sat_mono; [apply enable_sat| |done]. intros _ w5 (E1 & E2 & E3). by rewrite E1, C1, A1.
Qed.

End Format.

(** ** The last format of a track *)

Fixpoint last_format (log : list request) (t : Z) : option format_data_t :=
  match log with
  | [] => None
  | BIODASDFMT p :: log =>
      if (start_unit p <=? t) && (t <=? stop_unit p) then Some p else last_format log t
  | _ :: log => last_format log t
  end.

Lemma elem_of_rev {A} (x : A) l : x ∈ rev l ↔ x ∈ l.
Proof. by rewrite !list_elem_of_In, <- in_rev. Qed.

Lemma last_format_steps p steps log t :
  Forall (like p) steps → (∃ q, q ∈ steps ∧ in_range t q) →
  ∃ q, last_format (rev (map BIODASDFMT steps) ++ log) t = Some q ∧ like p q.
Proof.
  rewrite <- map_rev. intros H (q & Hq & Ht). rewrite <- elem_of_rev in Hq. apply Forall_rev in H. revert H Hq.
  generalize (rev steps). intros l H Hq. induction H as [|x l Hx _ IH]; [by apply elem_of_nil in Hq|].
  cbn [map app last_format]. destruct ((start_unit x <=? t) && (t <=? stop_unit x)) eqn:E; [by exists x|].
  apply IH. apply elem_of_cons in Hq as [->|Hq]; [|done]. unfold in_range in Ht. b2p. lia.
Qed.

Lemma last_format_outside steps log t :
  (∀ q, q ∈ steps → ¬ in_range t q) → last_format (rev (map BIODASDFMT steps) ++ log) t = last_format log t.
Proof.
  rewrite <- map_rev. setoid_rewrite <- elem_of_rev.
  generalize (rev steps). intros l. induction l as [|x l IH]; intros H; [done|]. cbn [map app last_format].
  destruct ((start_unit x <=? t) && (t <=? stop_unit x)) eqn:E.
  - exfalso. apply (H x); [left|]. unfold in_range. b2p. lia.
  - apply IH. intros q Hq. apply H. by right.
Qed.

(** ** The start of the unformatted area *)

(** A disk whose tracks in front of [B] are formatted with blocks of [b] bytes and
    the others are not, as the driver reports it. *)
Record formatted_up_to (K : kernel) (b B : Z) : Prop := {
  fu_blksize : ∀ h, k_errno K h BLKSSZGET = 0 ∧ k_blksize K h = b;
  fu_errno : ∀ h p, k_errno K h (BIODASDCHECKFMT p) = 0;
  fu_range : ∀ h p, fd_blksize p = b → fc_result (k_check K h p) = 0 ↔ stop_unit p < B;
  fu_track : ∀ h p, fd_blksize p = b → start_unit p = stop_unit p →
               fc_blksize (k_check K h p) = b ↔ start_unit p < B
}.

Section Find.
Context (K : kernel) (b B : Z) (HK : formatted_up_to K b B).

Lemma check_track_ret p w :
  ∃ w', check_track_format K p w = Ret (k_check K (BIODASDCHECKFMT p :: w_log w) p) w'.
Proof using HK.
  unfold check_track_format, dasd_check_format, run_ioctl, answer, mbind, prog_bind, mret, prog_ret. cbn.
  rewrite (fu_errno _ _ _ HK). cbn. eauto.
Qed.

(** the halves that the bisection goes on with *)
Lemma middle_small left right n :
  0 <= left <= right → right - left + 1 < 2 ^ Z.of_nat (S n) →
  let middle := left + (right - left) / 2 in
  left <= middle <= right ∧ middle - 1 - left + 1 < 2 ^ Z.of_nat n ∧ right - (middle + 1) + 1 < 2 ^ Z.of_nat n.
Proof.
  intros Hl Hs middle. rewrite Nat2Z.inj_succ, Z.pow_succ_r in Hs by lia. unfold middle.
  pose proof (Z.div_mod (right - left) 2 ltac:(lia)). pose proof (Z.mod_pos_bound (right - left) 2 ltac:(lia)).
  pose proof (Z.div_pos (right - left) 2 ltac:(lia) ltac:(lia)). lia.
Qed.

(** one round: the check of the middle track *)
Lemma find_round params fuel left right first cdata w :
  fd_blksize params = b → 2 <= left <= right → right < 4294967295 →
  let middle := left + (right - left) / 2 in
  ∃ c w', find_loop K (S fuel) left right first params cdata w =
    (if middle <? B then find_loop K fuel (middle + 1) right first params c w'
     else find_loop K fuel left (middle - 1) middle params c w') ∧ (fc_blksize c = b ↔ middle < B).
Proof using HK.
  intros Hb Hl Hr middle. cbn [find_loop]. rewrite (proj2 (Z.leb_le left right)) by lia.
  pose proof (Z.div_pos (right - left) 2 ltac:(lia) ltac:(lia)).
  pose proof (Z.div_le_upper_bound (right - left) 2 (right - left) ltac:(lia) ltac:(lia)).
  fold middle. rewrite (u32_small middle) by (unfold middle; lia).
  set (p := set_range middle middle params). destruct (check_track_ret p w) as [w' E].
  unfold mbind, prog_bind. rewrite E. cbv beta iota.
  pose proof (fu_track _ _ _ HK (BIODASDCHECKFMT p :: w_log w) p Hb eq_refl) as Hc. cbn [start_unit p set_range] in Hc.
  rewrite Hb. eexists _, w'. split; [|exact Hc].
  destruct (Z.ltb_spec middle B) as [Hm|Hm].
  - apply Hc in Hm. rewrite Hm, Z.eqb_refl. cbn [negb]. by rewrite u32_small by (unfold middle; lia).
  - rewrite (proj2 (Z.eqb_neq _ b)) by (rewrite Hc; lia). cbn [negb]. by rewrite u32_small by (unfold middle; lia).
Qed.

(** there is an unformatted track *)
Lemma find_loop_found params last fuel : ∀ left right first cdata w,
  fd_blksize params = b → last < 4294967295 → B <= last →
  2 <= left <= B → B <= right + 1 → right <= last → (right = last ∨ first = right + 1) →
  right - left + 1 < 2 ^ Z.of_nat fuel →
  sat (find_loop K (S fuel) left right first params cdata w) (λ r _, r.1 = B) (λ _ _, False).
Proof using HK.
  induction fuel as [|fuel IH]; intros left right first cdata w Hb Hl HB H1 H2 H3 H4 H5.
  - assert (right < left) by lia. cbn [find_loop]. rewrite (proj2 (Z.leb_gt left right)) by lia. simpl. lia.
  - destruct (decide (left <= right)) as [Hlr|Hlr].
    + destruct (find_round params (S fuel) left right first cdata w Hb) as (c & w' & E & _); [lia..|]. rewrite E.
      destruct (middle_small left right fuel) as (M1 & M2 & M3); [lia..|].
      set (middle := left + (right - left) / 2) in *. destruct (Z.ltb_spec middle B); apply IH; try done; lia.
    + cbn [find_loop]. rewrite (proj2 (Z.leb_gt left right)) by lia. simpl. lia.
Qed.

(** all tracks are formatted *)
Lemma find_loop_none params fuel : ∀ left right first cdata w,
  fd_blksize params = b → right < 4294967295 → right < B → 2 <= left →
  left <= right ∨ fc_blksize cdata = b → right - left + 1 < 2 ^ Z.of_nat fuel →
  sat (find_loop K (S fuel) left right first params cdata w) (λ r _, r.1 = first ∧ fc_blksize r.2 = b) (λ _ _, False).
Proof using HK.
  induction fuel as [|fuel IH]; intros left right first cdata w Hb Hl HB H1 H2 H3.
  - assert (right < left) by lia. cbn [find_loop]. rewrite (proj2 (Z.leb_gt left right)) by lia. simpl.
    split; [done|]. destruct H2; [lia|done].
  - destruct (decide (left <= right)) as [Hlr|Hlr].
    + destruct (find_round params (S fuel) left right first cdata w Hb) as (c & w' & E & Hc); [lia..|]. rewrite E.
      destruct (middle_small left right fuel) as (M1 & M2 & M3); [lia..|].
      set (middle := left + (right - left) / 2) in *. rewrite (proj2 (Z.ltb_lt middle B)) by lia.
      apply IH; try done; [lia|right; apply Hc; lia].
    + cbn [find_loop]. rewrite (proj2 (Z.leb_gt left right)) by lia. simpl. split; [done|]. destruct H2; [lia|done].
Qed.

Lemma check_blocksize_ret g w : ∃ w', check_blocksize K g b w = Ret tt w'.
Proof using HK.
  destruct (fu_blksize _ _ _ HK (w_log w)) as [E1 _]. destruct (fu_blksize _ _ _ HK (BLKSSZGET :: w_log w)) as [_ E2].
  unfold check_blocksize. destruct (_ || _); [by eexists|].
  unfold get_blocksize, dasd_get_blocksize, run_ioctl, answer, mbind, prog_bind, mret, prog_ret. cbn.
  rewrite E1. cbn. rewrite E2, Z.eqb_refl. cbn. by eexists.
Qed.

Lemma find_start_first g mode cylinders heads params w :
  fd_blksize params = b → 5 <= B → 3 <= cylinders * heads < 4294967296 →
  sat (dasdfmt_find_start K g mode cylinders heads params w)
    (λ first _, first = B ∧ B < cylinders * heads) (λ c _, c = 1 ∧ cylinders * heads <= B).
Proof using HK.
  intros Hb HB Hch. unfold dasdfmt_find_start. apply sat_bind. rewrite Hb.
  destruct (check_blocksize_ret g w) as [w1 E1]. rewrite E1. cbv beta iota. cbn [sat].
  apply sat_bind. destruct (check_track_ret (set_range 0 4 params) w1) as [w2 E2]. rewrite E2. cbn [sat].
  set (c0 := k_check _ _ _). assert (Hc0 : fc_result c0 = 0) by (apply (fu_range _ _ _ HK); [done|cbn; lia]).
  rewrite Hc0. cbn [flag Z.eqb negb]. apply sat_bind. rewrite u32_small by lia.
  destruct (decide (B <= cylinders * heads - 1)) as [Hlt|Hge].
  - eapply sat_mono; [apply (find_loop_found params (cylinders * heads - 1)); try done; try lia; vm_compute (2 ^ _); lia| |by intros ? ? []].
    intros [first c] w3 E. cbn [fst] in E. subst first. rewrite (proj2 (Z.eqb_neq B 2)) by lia. simpl. lia.
  - eapply sat_mono; [apply find_loop_none; try done; try lia; vm_compute (2 ^ _); lia| |by intros ? ? []].
    intros [first c] w3 [E F]. cbn [fst snd] in E, F. subst first. rewrite F, !Z.eqb_refl. simpl. lia.
Qed.

End Find.

End DasdfmtTracks.
