(* ===== verification/DasdfmtRun.v ===== *)
(** Whole runs of dasdfmt (src/dasdfmt/dasdfmt.c): the order of the requests to
    the driver, and the runs that leave the disk alone. *)
From S2P Require Import Prelude Cchh Labels LabelOps VtocIo Dasd Dasdfmt DasdfmtArgs DasdfmtTracks.
Import Dasd DasdLogic Dasdfmt DasdfmtArgs.

Module DasdfmtRun.

(** ** The order of the requests *)

(** The state of the device behind a history: [Some true] while it is disabled.
    Only a disabled device can be formatted, and it cannot be opened for any
    other request ([None]). *)
Fixpoint phase (log : list request) : option bool :=
  match log with
  | [] => Some false
  | BIODASDDISABLE :: log => if bool_decide (phase log = Some false) then Some true else None
  | BIODASDENABLE :: log => if bool_decide (phase log = Some true) then Some false else None
  | BIODASDFMT _ :: log => if bool_decide (phase log = Some true) then Some true else None
  | _ :: log => if bool_decide (phase log = Some false) then Some false else None
  end.

(** history and flag agree *)
Definition device_is (b : bool) (w : world statics) : Prop :=
  phase (w_log w) = Some b ∧ flag (s_disk_disabled (w_static w)) = b.

(** [m] leads from phase [b] to phase [b'] if it returns, and keeps the order in
    every case. *)
Definition phases {A} (b b' : bool) (m : prog statics A) : Prop :=
  ∀ w, device_is b w →
    match m w with
    | Ret _ w' => device_is b' w'
    | Exit _ w' | Crash w' | NoFuel w' => phase (w_log w') ≠ None
    end.

Lemma phases_bind {A B} b b' b'' (m : prog statics A) (k : A → prog statics B) :
  phases b b' m → (∀ a, phases b' b'' (k a)) → phases b b'' (m ≫= k).
Proof.
  intros Hm Hk w Hw. specialize (Hm w Hw). unfold mbind, prog_bind.
  destruct (m w) as [a w'| | |]; [by apply Hk|done..].
Qed.

Lemma device_is_phase b w : device_is b w → phase (w_log w) ≠ None.
Proof. by intros [-> _]. Qed.

(** programs that issue no request *)
Definition no_request {A} (m : prog statics A) : Prop :=
  ∀ w, w_log (final (m w)) = w_log w ∧ s_disk_disabled (w_static (final (m w))) = s_disk_disabled (w_static w).

Lemma phases_no_request {A} b (m : prog statics A) : no_request m → phases b b m.
Proof.
  intros Hm w [H1 H2]. specialize (Hm w) as [E1 E2]. destruct (m w); simpl in *; unfold device_is; rewrite ?E1, ?E2, ?H1; done.
Qed.

Lemma no_request_bind {A B} (m : prog statics A) (k : A → prog statics B) :
  no_request m → (∀ a, no_request (k a)) → no_request (m ≫= k).
Proof.
  intros Hm Hk w. specialize (Hm w) as [E1 E2]. unfold mbind, prog_bind.
  destruct (m w) as [a w'| | |]; simpl in *; [|done..]. destruct (Hk a w') as [F1 F2]. split; congruence.
Qed.

Lemma no_request_ret {A} (a : A) : no_request (mret a).
Proof. by intros w. Qed.
Lemma no_request_error {A} : no_request (error (A := A)).
Proof. by intros w. Qed.
Lemma no_request_crash {A} : no_request (crash (A := A)).
Proof. by intros w. Qed.
Lemma no_request_no_fuel {A} : no_request (no_fuel (A := A)).
Proof. by intros w. Qed.
Lemma no_request_lift {A} (o : outcome A) : no_request (lift o).
Proof. intros w. by destruct o. Qed.
Lemma no_request_answer {A} (f : list request → A) : no_request (answer f).
Proof. by intros w. Qed.
Lemma no_request_world : no_request get_world.
Proof. by intros w. Qed.
Lemma no_request_static : no_request get_static.
Proof. by intros w. Qed.
Lemma no_request_put_dev d : no_request (put_dev d).
Proof. by intros w. Qed.
Lemma no_request_gets n : no_request (gets n).
Proof. intros w. unfold gets. by destruct (fgets n (w_stdin w)) as [[]|]. Qed.
Lemma no_request_modify f : (∀ s, s_disk_disabled (f s) = s_disk_disabled s) → no_request (modify f).
Proof. intros Hf w. simpl. by rewrite Hf. Qed.
Lemma no_request_print o : no_request (print o).
Proof. by apply no_request_modify. Qed.

#[local] Hint Resolve no_request_ret no_request_error no_request_crash no_request_no_fuel no_request_lift
  no_request_answer no_request_world no_request_static no_request_put_dev no_request_gets no_request_print : dasd.

Ltac no_request_auto :=
  repeat first
    [ lazymatch goal with
      | |- no_request (_ ≫= _) => apply no_request_bind; [|intros ?]
      | |- no_request (if ?b then _ else _) => destruct b
      | |- no_request (match ?b with _ => _ end) => destruct b
      | |- no_request (let '_ := ?b in _) => destruct b
      end
    | solve [auto with dasd] | apply no_request_modify; intros ?; reflexivity ].

Lemma no_request_draw K g cyl cylinders aborted : no_request (draw_progress K g cyl cylinders aborted).
Proof. unfold draw_progress, draw_bar, draw_hash, print_eta, quot_prog. no_request_auto. Qed.
Lemma no_request_evaluate g mode expect cdata heads : no_request (evaluate_format_error g mode expect cdata heads).
Proof. unfold evaluate_format_error. no_request_auto. Qed.
Lemma no_request_confirmed : no_request confirmed.
Proof. unfold confirmed. no_request_auto. Qed.
Lemma no_request_write_at pos bs : no_request (write_at pos bs).
Proof. unfold write_at. no_request_auto. Qed.
Lemma no_request_layout g i : no_request (check_layout g i).
Proof. unfold check_layout. no_request_auto. Qed.
Lemma no_request_device_name H : no_request (get_device_name H).
Proof. unfold get_device_name. no_request_auto. Qed.
Lemma no_request_mode g m : no_request (eval_format_mode g m).
Proof. unfold eval_format_mode. no_request_auto. Qed.
Lemma no_request_set_label g v p c : no_request (set_label g v p c).
Proof. unfold set_label. pose proof no_request_confirmed. no_request_auto. Qed.
Lemma no_request_ask fuel : ∀ i p, no_request (ask_loop fuel i p).
Proof. induction fuel as [|fuel IH]; intros i p; cbn [ask_loop]; no_request_auto. Qed.

#[local] Hint Resolve no_request_draw no_request_evaluate no_request_confirmed no_request_write_at no_request_layout
  no_request_device_name no_request_mode no_request_set_label no_request_ask : dasd.

(** requests that open the device *)
Definition opens (r : request) : bool :=
  match r with BIODASDDISABLE | BIODASDENABLE | BIODASDFMT _ => false | _ => true end.

Section Phases.
Context (K : kernel).

Lemma phases_open r : opens r = true → phases false false (run_ioctl K r).
Proof.
  intros Hr w [H1 H2]. split; [|exact H2]. cbn [w_log]. destruct r; try done; cbn [phase]; by rewrite H1.
Qed.

Lemma phases_format p : phases true true (dasd_format_disk K p).
Proof. intros w [H1 H2]. split; [|exact H2]. cbn [w_log phase]. by rewrite H1. Qed.

Lemma phases_disable : phases false true (disk_disable K).
Proof.
  intros w [H1 H2]. unfold disk_disable, dasd_disk_disable, run_ioctl, mbind, prog_bind. cbv beta iota.
  assert (E : phase (BIODASDDISABLE :: w_log w) = Some true) by (cbn [phase]; by rewrite H1).
  destruct (flag (k_errno _ _ _)); [change (phase (BIODASDDISABLE :: w_log w) ≠ None); by rewrite E|]. split; [exact E|done].
Qed.

Lemma phases_enable : phases true false (disk_enable K).
Proof.
  intros w [H1 H2]. unfold disk_enable, dasd_disk_enable, run_ioctl, mbind, prog_bind. cbv beta iota.
  assert (E : phase (BIODASDENABLE :: w_log w) = Some false) by (cbn [phase]; by rewrite H1).
  destruct (flag (k_errno _ _ _)); [change (phase (BIODASDENABLE :: w_log w) ≠ None); by rewrite E|]. split; [exact E|done].
Qed.

Lemma phases_reread n : ∀ err, phases false false (dasd_reread_partition_table K n err).
Proof.
  induction n as [|n IH]; intros err; cbn [dasd_reread_partition_table]; [apply phases_no_request, no_request_ret|].
  apply (phases_bind _ false); [by apply phases_open|]. intros e. destruct (flag e); [apply IH|].
  apply phases_no_request, no_request_ret.
Qed.

#[local] Hint Resolve phases_format phases_disable phases_enable phases_reread phases_no_request : dasd.

(** Splits a program that stays in one phase. *)
Ltac phases_auto :=
  repeat first
    [ solve [auto with dasd] | apply phases_open; reflexivity
    | lazymatch goal with
      | |- phases ?b ?b (_ ≫= _) => apply (phases_bind b b); [|intros ?]
      | |- phases _ _ (if ?c then _ else _) => destruct c
      | |- phases _ _ (match ?c with _ => _ end) => destruct c
      | |- phases _ _ (let '_ := ?c in _) => destruct c
      end ].

Lemma phases_blocksize : phases false false (get_blocksize K).
Proof. unfold get_blocksize, dasd_get_blocksize. phases_auto. Qed.
Lemma phases_info : phases false false (dasd_get_info K).
Proof. unfold dasd_get_info. phases_auto. Qed.
Lemma phases_geo : phases false false (dasd_get_geo K).
Proof. unfold dasd_get_geo. phases_auto. Qed.
#[local] Hint Resolve phases_blocksize phases_info phases_geo : dasd.
Lemma phases_check_blocksize g b : phases false false (check_blocksize K g b).
Proof. unfold check_blocksize. phases_auto. Qed.
Lemma phases_check_disk H g : phases false false (check_disk K H g).
Proof. unfold check_disk, dasd_is_ro. phases_auto. Qed.
Lemma phases_check_track p : phases false false (check_track_format K p).
Proof. unfold check_track_format, dasd_check_format. phases_auto. Qed.
#[local] Hint Resolve phases_check_blocksize phases_check_disk phases_check_track : dasd.

(** Tracks are checked on the enabled and formatted on the disabled device. *)
Lemma phases_process_loop fuel g mode reqsize cylinders heads params : ∀ cur result step,
  phases (negb (flag (g_check g))) (negb (flag (g_check g)))
    (process_loop K fuel g mode reqsize cylinders heads params cur result step).
Proof.
  induction fuel as [|fuel IH]; intros cur result step; cbn [process_loop]; [phases_auto|].
  destruct (flag (g_check g)) eqn:E; cbn [negb] in *; phases_auto.
Qed.

Lemma phases_process_tracks g mode reqsize cylinders heads params :
  phases (negb (flag (g_check g))) (negb (flag (g_check g))) (process_tracks K g mode reqsize cylinders heads params).
Proof.
  unfold process_tracks. cbv zeta.
  pose proof (phases_process_loop (process_fuel params heads) (check_hashmarks reqsize g) mode reqsize cylinders heads
    params (start_unit params) 0 params) as Hl.
  rewrite DasdfmtTracks.check_hashmarks_check in Hl. unfold quot_prog. phases_auto.
Qed.

Lemma phases_format_or_fail p : phases true true (format_or_fail K p).
Proof. unfold format_or_fail. phases_auto. Qed.
#[local] Hint Resolve phases_format_or_fail : dasd.

Lemma phases_check_disk_format g mode reqsize cylinders heads params :
  flag (g_check g) = true → phases false false (check_disk_format K g mode reqsize cylinders heads params).
Proof.
  intros Hc. unfold check_disk_format. cbv zeta.
  pose proof (phases_process_tracks g mode reqsize cylinders heads) as Hp. rewrite Hc in Hp. cbn [negb] in Hp.
  phases_auto.
Qed.

Section Format.
Context (g : dasdfmt_globals) (mode : format_mode_t) (reqsize cylinders heads : Z) (Hg : flag (g_check g) = false).

Lemma phases_disabled_tracks p : phases true true (process_tracks K g mode reqsize cylinders heads p).
Proof using Hg. pose proof (phases_process_tracks g mode reqsize cylinders heads p) as Hp. by rewrite Hg in Hp. Qed.
#[local] Hint Resolve phases_disabled_tracks : dasd.

Lemma phases_prepare p : phases false false (dasdfmt_prepare_and_format K g mode reqsize cylinders heads p).
Proof using Hg.
  unfold dasdfmt_prepare_and_format. cbv zeta. do 4 (eapply (phases_bind _ true); [by auto with dasd|intros ?]). phases_auto.
Qed.

Lemma phases_expand p : phases false false (dasdfmt_expand_format K g mode reqsize cylinders heads p).
Proof using Hg.
  unfold dasdfmt_expand_format. do 2 (eapply (phases_bind _ true); [by auto with dasd|intros ?]). phases_auto.
Qed.

Lemma phases_quick p : phases false false (dasdfmt_quick_format K g mode cylinders heads p).
Proof.
  unfold dasdfmt_quick_format, check_selected. eapply (phases_bind _ false); [phases_auto|intros ?].
  do 2 (eapply (phases_bind _ true); [by auto with dasd|intros ?]). phases_auto.
Qed.

Lemma phases_write_labels v : phases false false (dasdfmt_write_labels K g v cylinders heads).
Proof. unfold dasdfmt_write_labels, write_vtoc. phases_auto. Qed.

Lemma phases_format_and_label v p : phases false false (format_and_label K g mode reqsize v p cylinders heads).
Proof using Hg.
  pose proof phases_prepare. pose proof phases_expand. pose proof phases_quick. pose proof phases_write_labels.
  unfold format_and_label, dasdfmt_release_space, dasd_release_space. phases_auto.
Qed.

Lemma phases_find_loop fuel : ∀ l r f p c, phases false false (find_loop K fuel l r f p c).
Proof. induction fuel as [|fuel IH]; intros l r f p c; cbn [find_loop]; phases_auto. Qed.

Lemma phases_do_format H v p : phases false false (do_format_dasd K H g mode reqsize v p cylinders heads).
Proof using Hg.
  pose proof phases_format_and_label. pose proof phases_find_loop.
  unfold do_format_dasd, format_range, dasdfmt_find_start. cbv zeta. phases_auto.
Qed.

End Format.

(** ** Settings that survive *)

(** every value that [m] returns satisfies [P] *)
Definition returns {A} (P : A → Prop) (m : prog statics A) : Prop :=
  ∀ w, match m w with Ret a _ => P a | _ => True end.

Lemma returns_bind {A B} (P : B → Prop) (m : prog statics A) (k : A → prog statics B) :
  (∀ a, returns P (k a)) → returns P (m ≫= k).
Proof. intros Hk w. unfold mbind, prog_bind. destruct (m w); [apply Hk|done..]. Qed.

Lemma returns_ret {A} (P : A → Prop) (a : A) : P a → returns P (mret a).
Proof. by intros H w. Qed.

Lemma set_label_g g v p c : returns (λ r, r.1 = g ∨ r.1 = set_g_cdl_format 1 g) (set_label g v p c).
Proof.
  unfold set_label. destruct (flag (g_writenolabel g)).
  - destruct (_ && _); [apply returns_bind; intros ?|]; apply returns_ret; by left.
  - apply returns_bind. intros ?. destruct (compat _); apply returns_ret; [by right|by left].
Qed.

Lemma phases_run H s reqsize : phases false false (run K H s reqsize).
Proof.
  unfold run, choose_blksize, keep_volser, dasdfmt_get_volser, ask_user_for_blksize.
  do 2 (apply (phases_bind _ false); [phases_auto|intros ?]). destruct a0 as [rc info]. destruct (flag rc); [phases_auto|].
  set (g := set_g_ese _ _). do 5 (apply (phases_bind _ false); [phases_auto|intros ?]).
  destruct (_ <? 0); [phases_auto|]. destruct (set_geo g) as [cylinders heads].
  intros w Hw. pose proof (phases_no_request false _ (no_request_set_label g a3 a2 cylinders) w Hw) as Hp.
  pose proof (set_label_g g a3 a2 cylinders w) as Hs. unfold mbind, prog_bind.
  destruct (set_label g a3 a2 cylinders w) as [[g' v] w'| | |]; [|done..]. cbn [fst] in Hs.
  assert (Ec : g_check g' = g_check g) by (destruct Hs as [->| ->]; by destruct g). rewrite Ec.
  destruct (flag (g_check g)) eqn:E; revert w' Hp.
  - apply phases_check_disk_format. by rewrite Ec.
  - apply phases_do_format. by rewrite Ec.
Qed.

Lemma phases_main H opts v : phases false false (main K H opts v).
Proof.
  unfold main. apply (phases_bind _ false); [phases_auto|intros s]. apply (phases_bind _ false); [phases_auto|].
  intros [s' reqsize]. apply phases_run.
Qed.

(** The handler enables the device before the process ends. *)
Lemma phases_handler b : phases b false (program_interrupt_signal K).
Proof.
  intros w Hw. unfold program_interrupt_signal, get_static. unfold mbind at 1. unfold prog_bind at 1. cbv beta iota.
  destruct Hw as [H1 H2]. rewrite H2.
  assert (Hr : phases b false (if b then disk_enable K else mret tt)) by (destruct b; phases_auto).
  assert (Hm : phases b false (_ ← (if b then disk_enable K else mret tt); _ ← dasd_reread_partition_table K 5 0; mret tt)).
  { apply (phases_bind _ false); [exact Hr|intros ?]. phases_auto. }
  by apply Hm.
Qed.

End Phases.

(** ** Runs that leave the disk alone *)

(** requests that only ask *)
Definition query (r : request) : bool :=
  match r with BLKSSZGET | BIODASDINFO2 | HDIO_GETGEO | BLKROGET | BIODASDCHECKFMT _ => true | _ => false end.

(** Only queries are issued, and the blocks are as before. *)
Definition untouched (w w' : world statics) : Prop :=
  (∃ l, w_log w' = l ++ w_log w ∧ Forall (λ r, query r = true) l) ∧ w_dev w' = w_dev w ∧
  w_stdin w' `suffix_of` w_stdin w.

#[export] Instance untouched_preorder : PreOrder untouched.
Proof.
  split.
  - intros w. split; [by exists []|done].
  - intros a b c ((l & E & Hl) & A2 & A3) ((m & F & Hm) & B2 & B3). split; [|split; [congruence|by etrans]].
    exists (m ++ l). rewrite F, E, app_assoc. split; [done|]. by apply Forall_app.
Qed.

(** no question is answered with "yes" *)
Definition no_yes (l : list Z) : Prop := Forall (λ c, tolower c ≠ 121) l.

Lemma no_yes_suffix l l' : l' `suffix_of` l → no_yes l → no_yes l'.
Proof. intros [k ->]. unfold no_yes. rewrite Forall_app. by intros [_ ?]. Qed.

Lemma no_yes_line n s l rest : fgets n s = Some (l, rest) → no_yes s → no_yes l.
Proof.
  assert (G : ∀ n s l rest, fgets_loop n s = (l, rest) → no_yes s → no_yes l).
  { clear. unfold no_yes. induction n as [|n IH]; intros s l rest; cbn [fgets_loop]; [by intros [= <- <-]|].
    destruct s as [|c s]; [by intros [= <- <-]|]. intros E Hs. apply Forall_cons in Hs as [Hc Hs]. revert E.
    destruct (c =? 10); [intros [= <- <-]; by constructor|]. destruct (fgets_loop n s) as [l1 r1] eqn:E.
    intros [= <- <-]. constructor; [done|]. by eapply IH. }
  unfold fgets. destruct s as [|c s]; [done|]. generalize (c :: s). intros t [= H]. by eapply G.
Qed.

Section Untouched.
Context (K : kernel) (HK : ∀ h r d, query r = true → k_apply K h r d = d).

Lemma keeps_query r : query r = true → keeps untouched (run_ioctl K r).
Proof using HK.
  intros Hr w. split; [exists [r]; split; [done|by constructor]|]. split; [by apply HK|done].
Qed.
Lemma keeps_gets n : (1 < n)%nat → keeps untouched (gets n).
Proof.
  intros Hn w. unfold gets. destruct (fgets n (w_stdin w)) as [[l rest]|] eqn:E; cbn [final]; [|reflexivity].
  split; [by exists []|]. split; [done|]. by apply fgets_shorter in E as [_ ?].
Qed.
Lemma keeps_modify f : keeps untouched (modify f).
Proof. intros w. split; [by exists []|done]. Qed.
Lemma keeps_print o : keeps untouched (print o).
Proof. apply keeps_modify. Qed.
Lemma keeps_error {A} : keeps untouched (error (A := A)).
Proof. apply keeps_exit, _. Qed.

#[local] Hint Resolve keeps_modify keeps_print keeps_error : dasd.
#[local] Hint Extern 1 (keeps untouched (gets _)) => apply keeps_gets; lia : dasd.
#[local] Hint Extern 1 (keeps untouched (run_ioctl K _)) => apply keeps_query; reflexivity : dasd.

Lemma keeps_draw g cyl cylinders aborted : keeps untouched (draw_progress K g cyl cylinders aborted).
Proof. unfold draw_progress, draw_bar, draw_hash, print_eta, quot_prog. keeps_auto. Qed.
Lemma keeps_evaluate g mode expect cdata heads : keeps untouched (evaluate_format_error g mode expect cdata heads).
Proof. unfold evaluate_format_error. keeps_auto. Qed.
Lemma keeps_confirmed : keeps untouched confirmed.
Proof. unfold confirmed. keeps_auto. Qed.
Lemma keeps_blocksize : keeps untouched (get_blocksize K).
Proof using HK. unfold get_blocksize, dasd_get_blocksize. keeps_auto. Qed.
#[local] Hint Resolve keeps_draw keeps_evaluate keeps_confirmed keeps_blocksize : dasd.
Lemma keeps_check_blocksize g b : keeps untouched (check_blocksize K g b).
Proof using HK. unfold check_blocksize. keeps_auto. Qed.
Lemma keeps_check_track p : keeps untouched (check_track_format K p).
Proof using HK. unfold check_track_format, dasd_check_format. keeps_auto. Qed.
#[local] Hint Resolve keeps_check_blocksize keeps_check_track : dasd.

Lemma keeps_check_loop fuel g mode reqsize cylinders heads params : ∀ cur result step,
  flag (g_check g) = true → keeps untouched (process_loop K fuel g mode reqsize cylinders heads params cur result step).
Proof using HK.
  induction fuel as [|fuel IH]; intros cur result step Hc; cbn [process_loop]; [keeps_auto|]. rewrite Hc. keeps_auto.
Qed.

Lemma keeps_check_disk_format g mode reqsize cylinders heads params :
  flag (g_check g) = true → keeps untouched (check_disk_format K g mode reqsize cylinders heads params).
Proof using HK.
  intros Hc. unfold check_disk_format, check_layout, process_tracks, quot_prog. cbv zeta.
  assert (Hg : flag (g_check (check_hashmarks reqsize g)) = true) by (by rewrite DasdfmtTracks.check_hashmarks_check).
  pose proof (λ f p c r s, keeps_check_loop f _ mode reqsize cylinders heads p c r s Hg). keeps_auto.
Qed.

Lemma keeps_find_loop fuel : ∀ l r f p c, keeps untouched (find_loop K fuel l r f p c).
Proof using HK. induction fuel as [|fuel IH]; intros l r f p c; cbn [find_loop]; keeps_auto. Qed.

Lemma keeps_format_range g mode cylinders heads p : keeps untouched (format_range K g mode cylinders heads p).
Proof using HK. pose proof keeps_find_loop. unfold format_range, dasdfmt_find_start. cbv zeta. keeps_auto. Qed.
#[local] Hint Resolve keeps_format_range : dasd.

(** An input without "yes" is not a confirmation. *)
Lemma confirmed_no w : no_yes (w_stdin w) → ∃ w', confirmed w = Ret false w' ∧ untouched w w'.
Proof.
  intros Hy. pose proof (keeps_confirmed w) as Hk. revert Hk. unfold confirmed, gets, mbind, prog_bind, mret, prog_ret.
  destruct (fgets 5 (w_stdin w)) as [[l rest]|] eqn:E; [|by eexists].
  pose proof (no_yes_line _ _ _ _ E Hy) as Hl.
  cbn [final]. set (m := map tolower (cstr l)). intros Hk.
  assert (Hm : ∀ t, m ≠ 121 :: t).
  { intros t Ht. unfold m in Ht. destruct l as [|c l]; [done|]. apply Forall_cons in Hl as [Hc _]. cbn [cstr map] in Ht.
    destruct (c =? 0); [done|]. by injection Ht as Ht _. }
  rewrite !bool_decide_eq_false_2; [by eexists| |]; apply Hm.
Qed.

(** the ways to leave the disk alone *)
Definition harmless (g : dasdfmt_globals) (stdin : list Z) : Prop :=
  flag (g_testmode g) = true ∨ (flag (g_withoutprompt g) = false ∧ no_yes stdin).

Lemma untouched_do_format H g mode reqsize v p cylinders heads w :
  harmless g (w_stdin w) → untouched w (final (do_format_dasd K H g mode reqsize v p cylinders heads w)).
Proof using HK.
  intros Hh. unfold do_format_dasd. pose proof (keeps_format_range g mode cylinders heads p w) as Hk.
  unfold mbind at 1, prog_bind at 1. destruct (format_range K g mode cylinders heads p w) as [p' w1| | |]; try exact Hk.
  cbn [final] in Hk. cbv zeta. destruct (_ && _); [exact Hk|]. destruct (_ && _); [exact Hk|].
  destruct (flag (g_testmode g)) eqn:Et; [exact Hk|]. destruct Hh as [Hh|[Hp Hy]]; [congruence|].
  rewrite Hp. cbn [negb]. destruct (confirmed_no w1) as (w2 & E & Hw2).
  { eapply no_yes_suffix; [apply Hk|done]. }
  unfold mbind, prog_bind. rewrite E. cbv beta iota. cbn [mret prog_ret final]. etrans; [exact Hk|exact Hw2].
Qed.

(** ** The whole program *)

(** the flags that an option sets *)
Definition opt_test (o : dasdfmt_option) : bool := match o with Opt_test => true | _ => false end.
Definition opt_yes (o : dasdfmt_option) : bool := match o with Opt_yes => true | _ => false end.
Definition opt_check (o : dasdfmt_option) : bool := match o with Opt_check => true | _ => false end.

Definition flags (g : dasdfmt_globals) : bool * bool * bool :=
  (flag (g_testmode g), flag (g_withoutprompt g), flag (g_check g)).

Lemma parse_option_flags o s s' :
  parse_option o s = Done s' →
  flags (se_g s') = (flag (g_testmode (se_g s)) || opt_test o, flag (g_withoutprompt (se_g s)) || opt_yes o,
                     flag (g_check (se_g s)) || opt_check o).
Proof.
  destruct s as [g p m v b r h]. destruct g. destruct o; cbn [opt_test opt_yes opt_check]; rewrite ?orb_false_r, ?orb_true_r;
    unfold parse_option; rewrite ?outcome_bind_Done; intros H;
    repeat match goal with
    | H : (if ?c then _ else _) = Done _ |- _ => destruct c
    | H : ∃ _, _ |- _ => destruct H as ([? ?] & _ & H) || destruct H as (? & _ & H)
    | H : Done _ = Done _ |- _ => injection H as <-
    | H : Exited _ = Done _ |- _ => discriminate H
    end; cbv [se_g in_g in_params in_strings in_mode in_vlabel]; try reflexivity; by destruct (negb _).
Qed.

Lemma parse_options_flags opts : ∀ s s',
  parse_options opts s = Done s' →
  flags (se_g s') = (flag (g_testmode (se_g s)) || existsb opt_test opts,
                     flag (g_withoutprompt (se_g s)) || existsb opt_yes opts,
                     flag (g_check (se_g s)) || existsb opt_check opts).
Proof.
  induction opts as [|o opts IH]; intros s s'; cbn [parse_options existsb].
  - intros [= <-]. by rewrite !orb_false_r.
  - rewrite outcome_bind_Done. intros (s1 & E1 & E2). rewrite (IH _ _ E2).
    apply parse_option_flags in E1. unfold flags in E1. injection E1 as -> -> ->. by rewrite !orb_assoc.
Qed.

Lemma parse_numbers_flags s s' r : parse_numbers s = Done (s', r) → flags (se_g s') = flags (se_g s).
Proof.
  unfold parse_numbers. destruct (_ || _); [done|]. rewrite outcome_bind_Done. intros (s1 & E1 & H).
  assert (F1 : se_g s1 = se_g s).
  { revert E1. destruct (flag (g_blksize_specified _)); [intros E1|by intros [= <-]]. rewrite outcome_bind_Done in E1. destruct E1 as (b & _ & E1).
    by injection E1 as <-. }
  rewrite outcome_bind_Done in H. destruct H as (q & _ & H). rewrite outcome_bind_Done in H. destruct H as (s2 & E2 & H).
  injection H as <- <-. rewrite <- F1. revert E2. destruct (flag (g_print_hashmarks _)); [intros E2|by intros [= <-]].
  rewrite outcome_bind_Done in E2. destruct E2 as (h & _ & E2). injection E2 as <-. by destruct s1 as [[] ? ? ? ? ? ?].
Qed.

Lemma final_bind {A B} (m : prog statics A) (k : A → prog statics B) w :
  keeps untouched m → (∀ a w', untouched w w' → m w = Ret a w' → untouched w' (final (k a w'))) →
  untouched w (final ((m ≫= k) w)).
Proof.
  intros Hm Hk. specialize (Hm w). unfold mbind, prog_bind. destruct (m w) as [a w'| | |]; try exact Hm.
  etrans; [exact Hm|by apply Hk].
Qed.

Lemma keeps_set_label g v p c : keeps untouched (set_label g v p c).
Proof. unfold set_label. keeps_auto. Qed.

Lemma keeps_ask fuel : ∀ i p, keeps untouched (ask_loop fuel i p).
Proof. induction fuel as [|fuel IH]; intros i p; cbn [ask_loop]; keeps_auto. Qed.
#[local] Hint Resolve keeps_set_label keeps_ask : dasd.

Lemma keeps_choose g mode params : keeps untouched (choose_blksize K g mode params).
Proof using HK. unfold choose_blksize, ask_user_for_blksize. keeps_auto. Qed.
Lemma keeps_keep_volser g params v : keeps untouched (keep_volser K g params v).
Proof using HK. unfold keep_volser, dasdfmt_get_volser. keeps_auto. Qed.
Lemma keeps_check_disk H g : keeps untouched (check_disk K H g).
Proof using HK. unfold check_disk, dasd_is_ro. keeps_auto. Qed.

(** a run that checks, or that leaves the disk alone *)
Definition idle (g : dasdfmt_globals) (stdin : list Z) : Prop :=
  flag (g_check g) = true ∨ harmless g stdin.

Lemma idle_later g w w' : untouched w w' → idle g (w_stdin w) → idle g (w_stdin w').
Proof.
  intros (_ & _ & Hs) [Hi|[Hi|[H1 H2]]]; [by left|by right; left|right; right]. split; [done|].
  by eapply no_yes_suffix.
Qed.

Lemma untouched_run H s reqsize w :
  idle (se_g s) (w_stdin w) → untouched w (final (run K H s reqsize w)).
Proof using HK.
  intros Hi. unfold run. apply final_bind; [unfold get_device_name; keeps_auto|]. intros _ w1 U1 _.
  apply final_bind; [unfold dasd_get_info; keeps_auto|]. intros [rc info] w2 U2 _. destruct (flag rc); [reflexivity|].
  set (g := set_g_ese _ _). apply final_bind; [unfold eval_format_mode; keeps_auto|]. intros mode w3 U3 _.
  apply final_bind; [apply keeps_check_disk|]. intros _ w4 U4 _. apply final_bind; [apply keeps_choose|].
  intros params w5 U5 _. apply final_bind; [apply keeps_keep_volser|]. intros v w6 U6 _.
  apply final_bind; [keeps_auto|]. intros ok w7 U7 _. destruct (ok <? 0); [reflexivity|].
  destruct (set_geo g) as [cylinders heads]. apply final_bind; [apply keeps_set_label|]. intros [g' v'] w8 U8 E8.
  pose proof (set_label_g g v params cylinders w7) as Hg. rewrite E8 in Hg. cbn [fst] in Hg.
  assert (Hi8 : idle g' (w_stdin w8)).
  { eapply idle_later; [exact U8|]. eapply idle_later; [exact U7|]. eapply idle_later; [exact U6|].
    eapply idle_later; [exact U5|]. eapply idle_later; [exact U4|]. eapply idle_later; [exact U3|].
    eapply idle_later; [exact U2|]. eapply idle_later; [exact U1|].
    unfold g in Hg. destruct s as [[] ? ? ? ? ? ?]. destruct Hg as [->| ->]; exact Hi. }
  destruct (flag (g_check g')) eqn:Ec; [by apply keeps_check_disk_format|].
  apply untouched_do_format. destruct Hi8 as [Hc|Hh]; [congruence|exact Hh].
Qed.

Lemma untouched_main H opts v w :
  existsb opt_test opts = true ∨ existsb opt_check opts = true ∨ (existsb opt_yes opts = false ∧ no_yes (w_stdin w)) →
  untouched w (final (main K H opts v w)).
Proof using HK.
  intros Hi. unfold main. destruct (parse_options opts (settings0 v)) as [s| | |] eqn:E; try reflexivity.
  change (untouched w (final ((('(s, reqsize) ← lift (parse_numbers s); run K H s reqsize) : prog statics unit) w))).
  destruct (parse_numbers s) as [[s1 reqsize]| | |] eqn:E1; try reflexivity.
  change (untouched w (final (run K H s1 reqsize w))). apply untouched_run.
  apply parse_options_flags in E. apply parse_numbers_flags in E1. rewrite E in E1. unfold flags in E1.
  cbn in E1. injection E1 as E1 E2 E3. unfold idle, harmless. rewrite E1, E2, E3. destruct Hi as [->|[->|[-> Hn]]]; auto.
Qed.

End Untouched.

End DasdfmtRun.
