(* ===== verification/DasdfmtLabels.v ===== *)
(** The first labels of a disk (src/dasdfmt/dasdfmt.c, [dasdfmt_write_labels]), and
    what fdasd (src/fdasd/fdasd.c) loads from them: an empty volume whose
    partition list, labels and free-space label agree. *)
From S2P Require Import Prelude Ebcdic Cchh Codec Labels LabelOps VtocIo Extents Fmt7 Fmt5 Freespace FdasdState.
From S2P Require Import FdasdTable FdasdLayout FdasdList FdasdInput FdasdPart FdasdVolume FdasdVtoc FdasdVtocProofs.
From S2P Require Import FdasdConf FdasdIo FdasdRead FdasdReadProofs FdasdIoProofs FdasdReread FdasdSerial FdasdSetup FdasdMain FdasdAuto.
From S2P Require Import Dasd Dasdfmt DasdfmtArgs DasdfmtTracks DasdfmtRun.
Import Ebcdic Addr VtocIo Extents Fmt7 Fmt5 Freespace Fdasd FdasdTable FdasdLayout FdasdList FdasdInput FdasdPart
  FdasdVolume FdasdVtoc FdasdVtocProofs FdasdConf FdasdIo FdasdRead FdasdReadProofs FdasdIoProofs FdasdReread FdasdMain
  FdasdAuto FdasdSerial Dasd DasdLogic Dasdfmt DasdfmtArgs DasdfmtRun.

Module DasdfmtLabels.

(** ** Free-space labels fit their structures *)

(** the parts of the labels beside the extents *)
Definition f5_frame (f f' : format5_label_t) : Prop :=
  DS5KEYID f' = DS5KEYID f ∧ DS5FMTID f' = DS5FMTID f ∧ DS5PTRDS f' = DS5PTRDS f.
Definition f7_frame (f f' : format7_label_t) : Prop :=
  DS7KEYID f' = DS7KEYID f ∧ DS7FMTID f' = DS7FMTID f ∧ f7_res1 f' = f7_res1 f ∧ DS7PTRDS f' = DS7PTRDS f.

Lemma set_freespace_frame f4 f5 f7 start stop cyl trk f4' f5' f7' :
  vtoc_set_freespace f4 f5 f7 plus_ch start stop cyl trk = Done (f4', f5', f7') →
  f5_frame f5 f5' ∧ f7_frame f7 f7' ∧
  (if BIG_DISK_SIZE <? u32 (cyl * trk) then f5' = f5 else f7' = f7 ∧ f4' = f4) ∧
  (f4' = f4 ∨ f4' = set_f4_ext_freespace f4 0xa0 0x07 (vtoc_set_cchhb 0x0000 0x0001 0x03)).
Proof.
  unfold vtoc_set_freespace, vtoc_update_format7_label_add, vtoc_update_format5_label_add. rewrite Z.eqb_refl.
  destruct (BIG_DISK_SIZE <? u32 (cyl * trk)); rewrite outcome_bind_Done; intros (l & Hl & H); injection H as <- <- <-;
    rewrite outcome_bind_Done in Hl; destruct Hl as (m & _ & Hm); injection Hm as <-.
  - split; [done|]. split; [done|]. split; [done|by right].
  - split; [done|]. split; [done|]. split; [done|by left].
Qed.

Lemma f5_repr_valid trk f5 F :
  0 < trk < 256 → f5_repr trk f5 F → f5_frame vtoc_init_format5_label f5 → cvalid cformat5 f5.
Proof.
  intros Ht (L1 & L2 & [Hs _] & _) (E1 & E2 & E3).
  assert (Hv : Forall (cvalid cds5ext) (f5_exts f5)).
  { eapply Forall_impl; [exact Hs|]. intros [t fc ft] [->|(H1 & H2 & H3 & H4 & H5)]; [vm_compute; intuition congruence|].
    unfold f5_end in *. cbn in *. change (256 ^ Z.of_nat 2) with 65536. unfold in_u8.
    assert (fc <= fc * trk) by nia. repeat split; lia. }
  unfold f5_exts in Hv. apply Forall_cons in Hv as [V1 V2]. apply Forall_app in V2 as [V2 V3].
  destruct f5 as [k a e i m p]. cbn in E1, E2, E3, L1, L2, V1, V2, V3. subst k i p.
  split; [split; [done|apply bytes_ok_compute; by vm_compute]|].
  split; [exact V1|]. split; [split; [exact L1|exact V2]|]. split; [vm_compute; intuition congruence|].
  split; [split; [exact L2|exact V3]|]. vm_compute. intuition congruence.
Qed.

Lemma f7_repr_valid f7 F : f7_repr f7 F → f7_frame vtoc_init_format7_label f7 → cvalid cformat7 f7.
Proof.
  intros (L1 & L2 & [Hs _] & _) (E1 & E2 & E3 & E4).
  assert (Hv : Forall (cvalid cds7ext) (f7_exts f7)).
  { eapply Forall_impl; [exact Hs|]. intros [a b] [->|(H1 & H2)]; [vm_compute; intuition congruence|].
    cbn in *. change (256 ^ Z.of_nat 4) with 4294967296. repeat split; lia. }
  unfold f7_exts in Hv. apply Forall_app in Hv as [V2 V3].
  destruct f7 as [k e i m r p]. cbn in E1, E2, E3, E4, L1, L2, V2, V3. subst k i r p.
  split; [split; [done|apply bytes_ok_compute; by vm_compute]|].
  split; [split; [exact L1|exact V2]|]. split; [vm_compute; intuition congruence|].
  split; [split; [exact L2|exact V3]|]. split; [split; [done|apply bytes_ok_compute; by vm_compute]|].
  vm_compute. intuition congruence.
Qed.

Lemma ext_freespace_valid f4 : cvalid cformat4 f4 →
  cvalid cformat4 (set_f4_ext_freespace f4 0xa0 0x07 (vtoc_set_cchhb 0x0000 0x0001 0x03)).
Proof.
  intros H. destruct f4. cbn in *. change (256 ^ Z.of_nat 2) with 65536 in *. unfold in_u8 in *.
  destruct_and!. split_and!; first [assumption|lia|done].
Qed.

(** The labels of an empty disk. *)
Lemma initial_vtoc_ok g geo cylinders blksize anc :
  disk_geometry geo anc → a_formatted_cylinders anc = cylinders → a_blksize anc = blksize →
  a_dev_type anc = inf_dev_type (g_dasd_info g) →
  ∃ f4 f5 f7, initial_vtoc g geo cylinders (geo_heads geo) blksize = Done (f4, f5, f7) ∧
    cvalid cformat4 f4 ∧ cvalid cformat5 f5 ∧ cvalid cformat7 f7 ∧
    DS5FMTID f5 = 0xf5 ∧ DS7FMTID f7 = 0xf7 ∧ same_device (init_f4 geo anc) f4 ∧
    (DS4DSREC f4 = u16 (geo_sectors geo - 2) ∧ DS4IDFMT f4 = 0xf4) ∧
    fs_repr cylinders (geo_heads geo) f5 f7 (λ t, FIRST_USABLE_TRK <= t <= last_trk geo anc) ∧
    (BIG_DISK_SIZE < cylinders * geo_heads geo ∨ f7 = vtoc_init_format7_label).
Proof.
  intros Hd <- <- Et. destruct (free_whole_disk_spec geo anc Hd) as (f4 & f5 & f7 & E & Hsame & Hrepr).
  pose proof (dg_last _ _ Hd) as Hlast. pose proof (dg_heads _ _ Hd) as Hh. unfold last_trk, FIRST_USABLE_TRK in Hlast.
  unfold free_whole_disk, set_freespace, disk_tracks_minus in E.
  cbn [init_labels a_f4 a_f5 a_f7 a_formatted_cylinders set_a_f4 set_a_f5 set_a_f7] in E.
  rewrite !(u32_small (a_formatted_cylinders anc * geo_heads geo - 1)) in E by lia. change (u32 FIRST_USABLE_TRK) with FIRST_USABLE_TRK in E.
  rewrite outcome_bind_Done in E. destruct E as ([[g4 g5] g7] & Hset & E).
  injection E as -> -> ->. exists f4, f5, f7.
  assert (Hrec : (DS4DSREC f4 = u16 (geo_sectors geo - 2) ∧ DS4IDFMT f4 = 0xf4) ∧ cvalid cformat4 f4).
  { destruct (set_freespace_frame _ _ _ _ _ _ _ _ _ _ Hset) as (_ & _ & _ & [->| ->]).
    - split; [done|apply vtoc_init_format4_valid].
    - split; [done|apply ext_freespace_valid, vtoc_init_format4_valid]. }
  destruct (set_freespace_frame _ _ _ _ _ _ _ _ _ _ Hset) as (F5 & F7 & Hbig & _).
  rewrite (u32_small (a_formatted_cylinders anc * geo_heads geo)) in Hbig by lia.
  assert (Hv : cvalid cformat5 f5 ∧ cvalid cformat7 f7).
  { unfold fs_repr, big_disk in Hrepr. destruct (BIG_DISK_SIZE <? _).
    - subst f5. split; [apply vtoc_init_format5_valid|by eapply f7_repr_valid].
    - destruct Hbig as [-> _]. split; [|apply vtoc_init_format7_valid]. eapply f5_repr_valid; [|exact Hrepr|done]. lia. }
  split; [|split; [apply Hrec|split; [apply Hv|split; [apply Hv|split; [apply F5|split; [apply F7|split; [exact Hsame|split; [apply Hrec|split; [exact Hrepr|]]]]]]]]].
  - unfold initial_vtoc. rewrite <- Et, u32_small by lia. rewrite s32_small by lia. exact Hset.
  - destruct (Z.ltb_spec BIG_DISK_SIZE (a_formatted_cylinders anc * geo_heads geo)); [by left|right; apply Hbig].
Qed.

(** ** Writing *)

Definition with_dev (w : world statics) (d : device) : world statics := World (w_log w) d (w_stdin w) (w_static w).

Lemma write_at_ok pos bs w :
  area_ok (w_dev w) pos (Z.of_nat (length bs)) →
  ∃ d, write_at pos bs w = Ret tt (with_dev w d) ∧ written (w_dev w) d pos (Z.of_nat (length bs)) ∧
    dev_read d pos (length bs) = bs.
Proof.
  intros Ha. pose proof Ha as (H1 & H2 & H3). unfold write_at. rewrite (proj2 (Z.ltb_ge pos 0)) by lia.
  unfold get_world, mbind, prog_bind. cbv beta iota.
  rewrite dev_write_on_device by (by apply area_on_device). cbv iota. unfold put_dev. eexists. split; [done|].
  set (d := Device _ _ _).
  assert (Hw : dev_write (w_dev w) pos bs = Some d) by (apply dev_write_on_device; by apply area_on_device).
  split; [split; [done|split; [done|split]]|].
  - cbn. apply length_memcpy_at. lia.
  - intros p n Hp Hd. by eapply dev_read_other.
  - unfold dev_read, d. cbn. apply memcpy_at_read_same. lia.
Qed.

(** a sequence of writes *)
Fixpoint run_writes (ws : list (Z * list Z)) : prog statics unit :=
  match ws with
  | [] => mret tt
  | (pos, bs) :: ws => _ ← write_at pos bs; run_writes ws
  end.

(** ascending and without overlap, from [pos] up to [limit] *)
Inductive stacked (limit : Z) : Z → list (Z * list Z) → Prop :=
  | stacked_nil pos : stacked limit pos []
  | stacked_cons pos p bs ws :
      0 <= pos <= p → p + Z.of_nat (length bs) <= limit →
      stacked limit (p + Z.of_nat (length bs)) ws → stacked limit pos ((p, bs) :: ws).

Lemma stacked_above limit pos ws p bs : stacked limit pos ws → (p, bs) ∈ ws → pos <= p.
Proof.
  induction 1 as [pos|pos q b ws H1 H2 _ IH]; intros Hin; [by apply elem_of_nil in Hin|].
  apply elem_of_cons in Hin as [Hin|Hin]; [apply pair_equal_spec in Hin as [-> ->]; lia|]. specialize (IH Hin). lia.
Qed.

Lemma stacked_limit limit pos ws p bs : stacked limit pos ws → (p, bs) ∈ ws → p + Z.of_nat (length bs) <= limit.
Proof.
  induction 1 as [pos|pos q b ws H1 H2 _ IH]; intros Hin; [by apply elem_of_nil in Hin|].
  apply elem_of_cons in Hin as [Hin|Hin]; [|by apply IH]. apply pair_equal_spec in Hin as [-> ->]. done.
Qed.

Lemma run_writes_ok limit ws : ∀ pos w,
  stacked limit pos ws → area_ok (w_dev w) 0 limit →
  ∃ d, run_writes ws w = Ret tt (with_dev w d) ∧
    dev_readable d = dev_readable (w_dev w) ∧ dev_writable d = dev_writable (w_dev w) ∧
    length (dev_data d) = length (dev_data (w_dev w)) ∧
    (∀ p bs, (p, bs) ∈ ws → dev_read d p (length bs) = bs) ∧
    (∀ p n, 0 <= p → (∀ q bs, (q, bs) ∈ ws → p + Z.of_nat n <= q ∨ q + Z.of_nat (length bs) <= p) →
            dev_read d p n = dev_read (w_dev w) p n).
Proof.
  induction ws as [|[p bs] ws IH]; intros pos w Hs Ha.
  { exists (w_dev w). split; [by destruct w|]. do 3 (split; [done|]). split; [by intros ? ? ?%elem_of_nil|done]. }
  inversion Hs as [|? ? ? ? H1 H2 H3]; subst. destruct Ha as (_ & Ha1 & Ha2).
  destruct (write_at_ok p bs w) as (d1 & E1 & (W1 & W2 & W3 & W4) & R1); [split; [lia|split; lia]|].
  destruct (IH (p + Z.of_nat (length bs)) (with_dev w d1) H3) as (d & E & V1 & V2 & V3 & V4 & V5).
  { split; [lia|]. cbn. rewrite W3. lia. }
  cbn [w_dev with_dev] in *. exists d. split; [|split; [congruence|split; [congruence|split; [congruence|split]]]].
  - cbn [run_writes]. unfold mbind, prog_bind. rewrite E1. exact E.
  - intros q b Hin. apply elem_of_cons in Hin as [[= -> ->]|Hin]; [|by apply V4].
    rewrite V5; [exact R1|lia|]. intros q c Hq. left. by eapply stacked_above.
  - intros q n Hq Hd. rewrite V5, W4; [done|done|apply (Hd p bs); left|done|]. intros r c Hr. apply (Hd r c). by right.
Qed.

(** What lies on the device after the labels were written. *)
Record labelled (d d' : device) (bs V : Z) (lbl : list Z) (big : bool) (f4 : format4_label_t)
    (f5 : format5_label_t) (f7 : format7_label_t) : Prop := {
  lb_readable : dev_readable d' = dev_readable d;
  lb_writable : dev_writable d' = dev_writable d;
  lb_length : length (dev_data d') = length (dev_data d);
  lb_label : dev_read d' (2 * bs) 84 = lbl;
  lb_f4 : dev_read d' V 140 = cenc cformat4 f4;
  lb_f5 : dev_read d' (V + bs) 140 = cenc cformat5 f5;
  lb_f7 : dev_read d' (V + 2 * bs) 140 = if big then cenc cformat7 f7 else dev_read d (V + 2 * bs) 140;
  lb_rest : ∀ p n, V + 3 * bs <= p → dev_read d' p n = dev_read d p n
}.

Section Write.
Context (K : kernel) (g : dasdfmt_globals) (geo : hd_geometry) (bs cylinders : Z) (w : world statics).
Context (HK : ∀ h r d, query r = true → k_apply K h r d = d).
Context (Hbs : k_errno K (w_log w) BLKSSZGET = 0 ∧ k_blksize K (BLKSSZGET :: w_log w) = bs).
Context (Hgeo : k_errno K (BLKSSZGET :: w_log w) HDIO_GETGEO = 0 ∧ k_geo K (HDIO_GETGEO :: BLKSSZGET :: w_log w) = geo).
Context (Hcdl : flag (g_cdl_format g) = true) (Hlb : inf_label_block (g_dasd_info g) = 2).
Context (Hopen : dev_readable (w_dev w) = true ∧ dev_writable (w_dev w) = true).
Context (Hsz : 512 <= bs <= 4096) (Hsec : 9 <= geo_sectors geo < 256).
Context (Harea : area_ok (w_dev w) 0 (2 * geo_sectors geo * bs)).

(** the two queries in front of the writing *)
Definition w0 : world statics :=
  World (HDIO_GETGEO :: BLKSSZGET :: w_log w) (w_dev w) (w_stdin w) (w_static w).

Lemma write_labels_start vlabel heads :
  dasdfmt_write_labels K g vlabel cylinders heads w =
    (_ ← write_at 0 (ipl1_key ++ ipl1_data);
     _ ← write_at bs (ipl2_key ++ ipl2_data);
     '(f4, f5, f7) ← lift (initial_vtoc g geo cylinders heads bs);
     _ ← write_at (2 * bs) (take 84 (cenc cvolume_label vlabel));
     write_vtoc (geo_sectors geo * bs) bs (BIG_DISK_SIZE <? u32 (cylinders * heads)) f4 f5 f7) w0.
Proof using HK Hbs Hgeo Hcdl Hlb Hopen Hsz Hsec.
  destruct Hbs as [B1 B2], Hgeo as [G1 G2], Hopen as [O1 O2].
  unfold dasdfmt_write_labels, get_blocksize, dasd_get_blocksize, dasd_get_geo, run_ioctl, answer, get_world, label_image.
  rewrite Hcdl, Hlb. unfold mbind, prog_bind, mret, prog_ret. cbv beta iota zeta. cbn [w_log w_dev w_stdin w_static].
  rewrite B1. cbn [flag Z.eqb negb]. cbv beta iota. cbn [w_log w_dev w_stdin w_static]. rewrite B2, G1.
  cbn [flag Z.eqb negb]. cbv beta iota. cbn [w_log w_dev w_stdin w_static]. rewrite G2, !HK by done. rewrite O1, O2. cbn [andb negb].
  rewrite (s32_small bs), (s32_small (2 * bs)) by lia.
  replace ((VTOC_START_CC * heads + VTOC_START_HH) * geo_sectors geo * bs) with (geo_sectors geo * bs)
    by (unfold VTOC_START_CC, VTOC_START_HH; ring).
  rewrite (s32_small (geo_sectors geo * bs)) by nia. reflexivity.
Qed.

(** the writes of the labels *)
Definition label_writes (lbl : list Z) (big : bool) (f4 : format4_label_t) (f5 : format5_label_t)
    (f7 : format7_label_t) : list (Z * list Z) :=
  let V := geo_sectors geo * bs in
  [(0, ipl1_key ++ ipl1_data); (bs, ipl2_key ++ ipl2_data); (2 * bs, lbl); (V, cenc cformat4 f4);
   (V + bs, cenc cformat5 f5)] ++ if big then [(V + 2 * bs, cenc cformat7 f7)] else [].

Lemma write_labels_ok vlabel heads f4 f5 f7 :
  let V := geo_sectors geo * bs in
  let big := BIG_DISK_SIZE <? u32 (cylinders * heads) in
  initial_vtoc g geo cylinders heads bs = Done (f4, f5, f7) →
  cvalid cvolume_label vlabel → cvalid cformat4 f4 → cvalid cformat5 f5 → cvalid cformat7 f7 →
  ∃ d, dasdfmt_write_labels K g vlabel cylinders heads w = Ret tt (with_dev w0 d) ∧
    labelled (w_dev w) d bs V (take 84 (cenc cvolume_label vlabel)) big f4 f5 f7.
Proof using HK Hbs Hgeo Hcdl Hlb Hopen Hsz Hsec Harea.
  intros V big Hv Hl H4 H5 H7. rewrite write_labels_start.
  set (lbl := take 84 (cenc cvolume_label vlabel)).
  assert (Ll : length lbl = 84%nat).
  { unfold lbl. rewrite length_take, (cenc_length (c := cvolume_label)) by exact Hl. reflexivity. }
  pose proof (cenc_length (c := cformat4) f4 H4) as L4. pose proof (cenc_length (c := cformat5) f5 H5) as L5.
  pose proof (cenc_length (c := cformat7) f7 H7) as L7. change (csize cformat4) with 140%nat in L4.
  change (csize cformat5) with 140%nat in L5. change (csize cformat7) with 140%nat in L7.
  assert (I1 : length (ipl1_key ++ ipl1_data) = 28%nat) by done.
  assert (I2 : length (ipl2_key ++ ipl2_data) = 148%nat) by done.
  set (ws := label_writes lbl big f4 f5 f7).
  assert (HV : 9 * bs <= V) by (unfold V; nia).
  assert (Hst : ∀ limit, (if big then V + 2 * bs else V + bs) + 140 <= limit → stacked limit 0 ws).
  { intros limit Hlim. unfold ws, label_writes. fold V. assert (V + bs + 140 <= limit) by (destruct big; lia).
    cbn [app]. do 5 (constructor; rewrite ?I1, ?I2, ?L4, ?L5, ?Ll; [lia|lia|]).
    destruct big; repeat constructor; rewrite ?L7; lia. }
  assert (Hlim : (if big then V + 2 * bs else V + bs) + 140 <= 2 * geo_sectors geo * bs)
    by (replace (2 * geo_sectors geo * bs) with (V + V) by (unfold V; ring); destruct big; lia).
  destruct (run_writes_ok (2 * geo_sectors geo * bs) ws 0 w0 (Hst _ Hlim) Harea) as (d & E & R1 & R2 & R3 & R4 & R5). exists d. split.
  - rewrite <- E. unfold ws, label_writes. fold V. rewrite Hv. cbn [app run_writes]. unfold write_vtoc.
    rewrite !(s32_small (V + bs)) by (unfold V; nia). replace (V + bs + bs) with (V + 2 * bs) by ring.
    rewrite (s32_small (V + 2 * bs)) by (unfold V; nia).
    unfold mbind, prog_bind, lift, mret, prog_ret.
    destruct (write_at 0 _ w0) as [? w1| | |]; [|done..]. destruct (write_at bs _ w1) as [? w2| | |]; [|done..].
    destruct (write_at (2 * bs) _ w2) as [? w3| | |]; [|done..]. destruct (write_at V _ w3) as [? w4| | |]; [|done..].
    destruct (write_at (V + bs) _ w4) as [? w5| | |]; [|done..]. fold big. destruct big; [|done]. cbn [run_writes]. unfold mbind, prog_bind, mret, prog_ret.
    destruct (write_at (V + 2 * bs) _ w5) as [[] ?| | |]; done.
  - cbn [w_dev w0] in *. split; try done.
    + rewrite <- Ll. apply R4. unfold ws, label_writes. cbn [app]. do 2 right. left.
    + rewrite <- L4. apply R4. unfold ws, label_writes. cbn [app]. do 3 right. left.
    + rewrite <- L5. apply R4. unfold ws, label_writes. cbn [app]. do 4 right. left.
    + destruct big eqn:Eb.
      * rewrite <- L7. apply R4. unfold ws, label_writes. cbn [app]. do 5 right. left.
      * apply R5; [lia|]. intros q b Hq. right. eapply stacked_limit; [|exact Hq]. apply Hst. lia.
    + intros p n Hp. apply R5; [lia|]. intros q b Hq. right. etrans; [|exact Hp].
      eapply stacked_limit; [|exact Hq]. apply Hst. destruct big; lia.
Qed.

End Write.

(** ** The volume label that is read *)

Lemma take_drop_prefix {A} (E E' : list A) m n k :
  (m + n <= k)%nat → take k E' = take k E → take n (drop m E') = take n (drop m E).
Proof.
  intros Hk He. assert (G : ∀ l : list A, take n (drop m l) = take n (drop m (take k l))).
  { intros l. rewrite skipn_firstn_comm, take_take. f_equal. lia. }
  by rewrite (G E'), He, <- G.
Qed.

Lemma label_prefix E E' :
  take 84 E' = take 84 E →
  vollbl (cdec cvolume_label E') = vollbl (cdec cvolume_label E) ∧
  volid (cdec cvolume_label E') = volid (cdec cvolume_label E) ∧
  vl_vtoc (cdec cvolume_label E') = vl_vtoc (cdec cvolume_label E).
Proof.
  intros He. cbn. rewrite !drop_drop. cbn [Nat.add].
  split; [by apply (take_drop_prefix E E' 4 4 84); [lia|]|]. split; [by apply (take_drop_prefix E E' 8 6 84); [lia|]|].
  pose proof (take_drop_prefix E E' 15 5 84 ltac:(lia) He) as H5.
  by rewrite H5.
Qed.

Lemma read_new_label d bs vlabel :
  cvalid cvolume_label vlabel → dev_readable d = true → 0 <= bs → area_ok d (2 * bs) 92 →
  dev_read d (2 * bs) 84 = take 84 (cenc cvolume_label vlabel) →
  ∃ vl, vtoc_read_volume_label d (2 * bs) = Done vl ∧
    vollbl vl = vollbl vlabel ∧ volid vl = volid vlabel ∧ vl_vtoc vl = vl_vtoc vlabel.
Proof.
  intros Hv Hr Hb (H1 & H2 & H3) E. unfold vtoc_read_volume_label, seek_fails.
  rewrite Hr, (proj2 (Z.leb_gt _ _)) by lia. cbn [negb]. cbv zeta.
  assert (El : length (dev_read d (2 * bs) (csize cvolume_label)) = csize cvolume_label).
  { unfold dev_read. rewrite length_take, length_drop. change (csize cvolume_label) with 92%nat. lia. }
  rewrite El, Nat.eqb_refl. cbn [negb]. eexists. split; [reflexivity|].
  pose proof (cdec_enc (c := cvolume_label) vlabel Hv) as Hd.
  assert (Et : take 84 (dev_read d (2 * bs) (csize cvolume_label)) = take 84 (cenc cvolume_label vlabel)).
  { rewrite <- E. unfold dev_read. rewrite take_take. change (csize cvolume_label) with 92%nat. reflexivity. }
  destruct (label_prefix _ _ Et) as (A1 & A2 & A3). rewrite Hd in A1, A2, A3. done.
Qed.

(** ** The free-space labels that are read *)

(** a label that is none of the formats that fdasd looks for *)
Definition quiet_label (f : format1_label_t) : Prop :=
  is_f1_f8 f = false ∧ DS1FMTID f ≠ 0xf5 ∧ DS1FMTID f ≠ 0xf7.

Lemma scan_quiet ls : ∀ sc, Forall quiet_label ls → fold_left (λ sc l, scan_label l sc) ls sc = sc.
Proof.
  induction ls as [|f ls IH]; intros sc H; [done|]. apply Forall_cons in H as [(H1 & H2 & H3) H]. cbn [fold_left].
  replace (scan_label f sc) with sc; [by apply IH|]. unfold scan_label. unfold is_f1_f8 in H1. rewrite H1.
  by rewrite (proj2 (Z.eqb_neq _ _) H2), (proj2 (Z.eqb_neq _ _) H3).
Qed.

Lemma scan_f5 f5 anc p n1 n5 n7 :
  cvalid cformat5 f5 → DS5FMTID f5 = 0xf5 →
  scan_label (cdec cformat1 (cenc cformat5 f5)) (ScanState anc p n1 n5 n7) = ScanState (set_a_f5 f5 anc) p n1 (n5 + 1) n7.
Proof.
  intros Hv Hf. pose proof (f5_not_part f5 Hv Hf) as Hn. unfold scan_label. unfold is_f1_f8 in Hn. rewrite Hn.
  rewrite fmt_byte_1, <- fmt_byte_5, (cdec_enc (c := cformat5)), Hf by exact Hv. cbn [Z.eqb Pos.eqb sc_part sc_f1 sc_f5 sc_f7 sc_anc].
  rewrite (cenc_dec (c := cformat1)), (cdec_enc (c := cformat5)); [done|exact Hv| |].
  - by apply (cenc_length (c := cformat5)).
  - by apply (cenc_bytes (c := cformat5)).
Qed.

Lemma scan_f7 f7 anc p n1 n5 :
  cvalid cformat7 f7 → DS7FMTID f7 = 0xf7 →
  scan_label (cdec cformat1 (cenc cformat7 f7)) (ScanState anc p n1 n5 0) = ScanState (set_a_f7 f7 anc) p n1 n5 1.
Proof.
  intros Hv Hf. pose proof (f7_not_part f7 Hv Hf) as Hn. unfold scan_label. unfold is_f1_f8 in Hn. rewrite Hn.
  rewrite fmt_byte_1, <- fmt_byte_7, (cdec_enc (c := cformat7)), Hf by exact Hv. cbn [Z.eqb Pos.eqb sc_part sc_f1 sc_f5 sc_f7 sc_anc].
  rewrite (cenc_dec (c := cformat1)), (cdec_enc (c := cformat7)); [done|exact Hv| |].
  - by apply (cenc_length (c := cformat7)).
  - by apply (cenc_bytes (c := cformat7)).
Qed.

(** the partition list is all that the last steps change *)
Lemma update_loop_labels n geo max : ∀ anc prev cur anc',
  update_loop n geo max anc prev cur = Done anc' →
  a_f5 anc' = a_f5 anc ∧ a_f7 anc' = a_f7 anc ∧ a_vlabel anc' = a_vlabel anc.
Proof.
  induction n as [|n IH]; intros anc prev cur anc'; cbn [update_loop]; [by intros [= <-]|].
  destruct cur as [id|]; [|done]. cbn [deref]. rewrite Done_bind. destruct (_ && _).
  - destruct prev; by intros [= <-].
  - intros H. apply IH in H. destruct prev; [|exact H]. by destruct (n =? 0)%nat.
Qed.

Lemma process_valid_free geo d anc blk ls anc' :
  fdasd_process_valid_vtoc geo d anc blk = Done anc' →
  on_blocks d (a_blksize anc) (u64 (blk + a_blksize anc)) ls → Z.of_nat (length ls) = geo_sectors geo - 1 →
  ∃ anc1, let sc := fold_left (λ sc l, scan_label l sc) ls (ScanState anc1 (Some (a_first anc)) 0 0 0) in
    a_f5 anc' = (if (sc_f5 sc =? 0) || negb (a_big_disk (sc_anc sc) =? 0) then vtoc_init_format5_label else a_f5 (sc_anc sc)) ∧
    a_f7 anc' = (if sc_f7 sc =? 0 then vtoc_init_format7_label else a_f7 (sc_anc sc)) ∧
    a_vlabel anc' = a_vlabel (sc_anc sc) ∧ a_big_disk anc1 = a_big_disk anc ∧ a_vlabel anc1 = a_vlabel anc.
Proof.
  intros H Hb Hl. unfold fdasd_process_valid_vtoc in H. set (anc1 := set_a_tab _ _) in H. exists anc1.
  replace (Z.to_nat (geo_sectors geo - 1)) with (length ls) in H by lia. rewrite scan_labels_fold in H by exact Hb.
  rewrite Done_bind in H. change (a_first anc1) with (a_first anc) in H. set (sc := fold_left _ _ _) in *. cbv zeta.
  set (anc2 := if (sc_f5 sc =? 0) || _ then _ else _) in H. set (anc3 := if sc_f7 sc =? 0 then _ else _) in H.
  rewrite outcome_bind_Done in H. destruct H as (anc4 & H4 & H). unfold on_table in H4.
  rewrite outcome_bind_Done in H4. destruct H4 as (t & _ & H4). injection H4 as <-.
  unfold fdasd_update_partition_info in H. apply update_loop_labels in H as (E5 & E7 & Ev). rewrite E5, E7, Ev.
  cbn [a_f5 a_f7 a_vlabel set_a_tab set_a_used_partitions].
  split; [|split; [|split; [|done]]].
  - unfold anc3, anc2. by destruct (sc_f7 sc =? 0), (_ || _).
  - unfold anc3, anc2. by destruct (sc_f7 sc =? 0), (_ || _).
  - unfold anc3, anc2. by destruct (sc_f7 sc =? 0), (_ || _).
Qed.

(** no used tracks, no used partitions *)
Lemma layout_unused limit pos fs l : layout limit pos fs l → (∀ t, ¬ used_tracks l t) → n_used l = 0.
Proof.
  intros Hl Hu. inversion Hl as [? ? ? Hun|? p l' Hp H1 H2 H3 H4]; subst; [by apply unused_n_used|].
  destruct (Hu (p_start_trk p)). exists p. split; [left|]. split; [done|]. unfold in_part. lia.
Qed.

(** ** dasdfmt and then fdasd *)

(** The disk that the labels go to: what the driver reports, two tracks on the
    device, and no labels on the second one. *)
Record label_target (K : kernel) (g : dasdfmt_globals) (geo : hd_geometry) (bs : Z) (w : world statics) : Prop := {
  lt_queries : ∀ h r d, query r = true → k_apply K h r d = d;
  lt_blksize : k_errno K (w_log w) BLKSSZGET = 0 ∧ k_blksize K (BLKSSZGET :: w_log w) = bs;
  lt_geo : k_errno K (BLKSSZGET :: w_log w) HDIO_GETGEO = 0 ∧ k_geo K (HDIO_GETGEO :: BLKSSZGET :: w_log w) = geo;
  lt_cdl : flag (g_cdl_format g) = true;
  lt_label : inf_label_block (g_dasd_info g) = 2;
  lt_open : dev_readable (w_dev w) = true ∧ dev_writable (w_dev w) = true;
  lt_size : 512 <= bs <= 4096;
  lt_sectors : 9 <= geo_sectors geo < 256;
  lt_area : area_ok (w_dev w) 0 (2 * geo_sectors geo * bs);
  lt_quiet : Forall quiet_label (block_labels (w_dev w) (geo_sectors geo * bs) bs 1 (Z.to_nat (geo_sectors geo - 1)))
}.

(** the labels of the VTOC track behind the format 4 label *)
Lemma labelled_blocks geo d d' bs lbl big f4 f5 f7 :
  let V := geo_sectors geo * bs in
  512 <= bs → 9 <= geo_sectors geo → labelled d d' bs V lbl big f4 f5 f7 →
  Forall quiet_label (block_labels d V bs 1 (Z.to_nat (geo_sectors geo - 1))) →
  ∃ rest, block_labels d' V bs 1 (Z.to_nat (geo_sectors geo - 1)) =
    [cdec cformat1 (cenc cformat5 f5)] ++ (if big then [cdec cformat1 (cenc cformat7 f7)] else []) ++ rest ∧
    Forall quiet_label rest.
Proof.
  intros V Hb Hs [_ _ _ _ _ L5 L7 Lr] Hq. set (n := Z.to_nat (geo_sectors geo - 3)).
  replace (Z.to_nat (geo_sectors geo - 1)) with (1 + (1 + n))%nat in * by lia.
  rewrite !block_labels_app in *. change (1 + 1)%nat with 2%nat in *. change (2 + 1)%nat with 3%nat in *.
  apply Forall_app in Hq as [_ Hq]. apply Forall_app in Hq as [Hq2 Hq3].
  assert (E1 : block_labels d' V bs 1 1 = [cdec cformat1 (cenc cformat5 f5)]).
  { unfold block_labels, block_label. cbn [seq map]. change (Z.of_nat 1) with 1. by rewrite Z.mul_1_l, L5. }
  assert (E2 : block_labels d' V bs 2 1 = if big then [cdec cformat1 (cenc cformat7 f7)] else block_labels d V bs 2 1).
  { unfold block_labels, block_label. cbn [seq map]. change (Z.of_nat 2) with 2. rewrite L7. by destruct big. }
  assert (E3 : block_labels d' V bs 3 n = block_labels d V bs 3 n).
  { unfold block_labels. apply map_ext_in. intros j Hj. apply in_seq in Hj. unfold block_label. rewrite Lr; [done|nia]. }
  rewrite E1, E2, E3. destruct big.
  - by exists (block_labels d V bs 3 n).
  - exists (block_labels d V bs 2 1 ++ block_labels d V bs 3 n). split; [done|]. by apply Forall_app.
Qed.

(** loading a volume with these labels *)
Lemma load_vtoc geo d0 d bs lbl big f4 f5 f7 anc anc2 x y z :
  let V := geo_sectors geo * bs in
  512 <= bs <= 4096 → 9 <= geo_sectors geo < 256 → dev_readable d = true → area_ok d 0 (2 * geo_sectors geo * bs) →
  labelled d0 d bs V lbl big f4 f5 f7 →
  Forall quiet_label (block_labels d0 V bs 1 (Z.to_nat (geo_sectors geo - 1))) →
  cvalid cformat5 f5 → cvalid cformat7 f7 → DS5FMTID f5 = 0xf5 → DS7FMTID f7 = 0xf7 →
  disk_geometry geo anc2 → a_blksize anc2 = bs → same_device (init_f4 geo anc2) f4 →
  DS4DSREC f4 = u16 (geo_sectors geo - 2) → a_f4 anc = f4 →
  fs_repr (a_formatted_cylinders anc2) (geo_heads geo) f5 f7 (λ t, FIRST_USABLE_TRK <= t <= last_trk geo anc2) →
  (big = true ∨ f7 = vtoc_init_format7_label) →
  fresh anc x y z → a_blksize anc = bs → a_big_disk anc = 0 →
  ∃ anc', fdasd_process_valid_vtoc geo d anc V = Done anc' ∧ consistent geo anc' ∧ a_used_partitions anc' = 0 ∧
    a_formatted_cylinders anc' = a_formatted_cylinders anc2 ∧ a_vlabel anc' = a_vlabel anc.
Proof.
  intros V Hb Hs Hr (_ & Ha1 & Ha2) Hlab Hq V5 V7 I5 I7 Hd2 Eb2 Hsame Hrec E4 Hrepr Hbig [F1 F2 F3] Eb Ebig.
  destruct (labelled_blocks geo d0 d bs lbl big f4 f5 f7 ltac:(lia) ltac:(lia) Hlab Hq) as (rest & Els & Hrest). fold V in Els.
  set (ls := block_labels d V bs 1 (Z.to_nat (geo_sectors geo - 1))) in *.
  assert (Hcyl : f4_cylinders f4 = a_formatted_cylinders anc2).
  { rewrite <- (f4_cylinders_init geo anc2 Hd2). destruct Hsame as (S1 & S2 & _). unfold f4_cylinders. by rewrite S1, S2. }
  assert (Hpl : part_labels ls = []).
  { rewrite Els. apply part_labels_none, Forall_app. split; [constructor; [by apply f5_not_part|constructor]|].
    apply Forall_app. split; [destruct big; constructor; [by apply f7_not_part|constructor]|].
    eapply Forall_impl; [exact Hrest|]. by intros f [? _]. }
  assert (Hon : on_blocks d (a_blksize anc) (u64 (V + a_blksize anc)) ls).
  { rewrite Eb. unfold V in *. rewrite u64_small by nia. replace (geo_sectors geo * bs + bs) with (geo_sectors geo * bs + Z.of_nat 1 * bs) by lia.
    apply on_blocks_area; [done|lia|nia|]. split; [nia|]. split; nia. }
  assert (Hlen : Z.of_nat (length ls) = geo_sectors geo - 1) by (unfold ls, block_labels; rewrite length_map, length_seq; lia).
  set (anc3 := set_a_formatted_cylinders (f4_cylinders (a_f4 anc)) anc).
  assert (Hlt : last_trk geo anc3 = last_trk geo anc2) by (unfold last_trk, anc3; cbn; by rewrite E4, Hcyl).
  assert (Hg3 : geometry_ok geo anc3).
  { apply (geometry_ok_frame geo (set_a_f4 f4 anc2)); [cbn; congruence|cbn; congruence|cbn; by rewrite E4|by apply disk_geometry_ok]. }
  destruct (process_valid_vtoc_layout geo d anc V x y z ls 0) as (anc' & Ep & Hsd & Hlk & Hn & Hlay & Hf1 & Hu);
    rewrite ?Hpl; try first [done|cbn [length]; lia|by apply Forall_nil]; [apply ascending_nil; change (FIRST_USABLE_TRK <= last_trk geo anc3 + 1); rewrite Hlt; pose proof (dg_last _ _ Hd2); lia|].
  fold anc3 in Hlay, Hsd. rewrite Hpl in Hu.
  assert (Hno : ∀ t, ¬ used_tracks (plist (a_tab anc') x y z) t) by (intros t Ht; apply Hu in Ht as (f & Hf & _); by apply elem_of_nil in Hf).
  destruct (process_valid_free geo d anc V ls anc' Ep Hon Hlen) as (anc1 & Hfree). cbv zeta in Hfree. rewrite Els in Hfree.
  rewrite !fold_left_app in Hfree. cbn [fold_left] in Hfree. rewrite scan_f5, Z.add_0_l in Hfree by done.
  assert (Hfin : a_f5 anc' = f5 ∧ a_f7 anc' = f7 ∧ a_vlabel anc' = a_vlabel anc).
  { destruct big; cbn [fold_left] in Hfree.
    - rewrite scan_f7 in Hfree by done. rewrite scan_quiet in Hfree by done.
      destruct Hfree as (G1 & G2 & G3 & G4 & G5). cbn [sc_f5 sc_f7 sc_anc a_big_disk set_a_f7 set_a_f5 a_f5 a_f7 a_vlabel] in *.
      rewrite G4, Ebig in G1. split; [exact G1|]. split; [exact G2|]. congruence.
    - rewrite scan_quiet in Hfree by done. destruct Hfree as (G1 & G2 & G3 & G4 & G5).
      cbn [sc_f5 sc_f7 sc_anc a_big_disk set_a_f7 set_a_f5 a_f5 a_f7 a_vlabel] in *. rewrite G4, Ebig in G1.
      split; [exact G1|]. split; [|congruence]. destruct Hbig as [Hbig|Hbig]; [done|]. by rewrite Hbig. }
  destruct Hfin as (G5 & G7 & Gv). exists anc'. split; [exact Ep|].
  assert (Ec : a_formatted_cylinders anc' = a_formatted_cylinders anc2) by (rewrite (sd_formatted _ _ Hsd); cbn; by rewrite E4, Hcyl).
  assert (E0 : a_used_partitions anc' = 0).
  { rewrite Hn, E4, Hrec, u16_small by lia. rewrite u32_small; lia. }
  assert (Hlt' : last_trk geo anc' = last_trk geo anc3) by (unfold last_trk; by rewrite (sd_formatted _ _ Hsd)).
  split; [|split; [done|split; [done|exact Gv]]]. split; [|split; [by eapply same_disk_ok|]].
  - destruct Hd2 as [G1 G2 G3 G4 Gl Gc]. split; try done; rewrite ?Hlt', ?Hlt, ?Ec; try done.
    rewrite (sd_blksize _ _ Hsd). cbn. lia.
  - exists x, y, z. split; [exact Hlk|by rewrite Hlt'|by rewrite E0, (layout_unused _ _ _ _ Hlay Hno)|exact Hf1|].
    rewrite G5, G7, Ec, Hlt', Hlt. eapply fs_repr_ext; [|exact Hrepr]. intros t. unfold free_tracks. specialize (Hno t). tauto.
Qed.

Lemma labels_then_load K g geo bs cylinders w vlabel anc0 options stdin x y z :
  label_target K g geo bs w → cvalid cvolume_label vlabel → vollbl vlabel = enc_str "VOL1" → vl_vtoc vlabel = vtoc_first →
  disk_geometry geo (set_a_formatted_cylinders cylinders anc0) →
  fresh anc0 x y z → a_blksize anc0 = bs → a_label_pos anc0 = 2 * bs → a_big_disk anc0 = 0 →
  ∃ w' anc1, dasdfmt_write_labels K g vlabel cylinders (geo_heads geo) w = Ret tt w' ∧
    fdasd_check_volume geo (w_dev w') options (anc0, stdin) = Done (true, (anc1, stdin)) ∧
    consistent geo anc1 ∧ a_used_partitions anc1 = 0 ∧ a_formatted_cylinders anc1 = cylinders ∧
    volid (a_vlabel anc1) = volid vlabel.
Proof.
  intros [Tq Tb Tg Tc Tl To Ts Tn Ta Tz] Hv Hvol Hvt Hd [F1 F2 F3] Eb Ep Ebig.
  set (anc2 := set_a_dev_type (inf_dev_type (g_dasd_info g)) (set_a_formatted_cylinders cylinders anc0)).
  assert (Hd2 : disk_geometry geo anc2) by (destruct Hd; by split).
  destruct (initial_vtoc_ok g geo cylinders bs anc2 Hd2 eq_refl Eb eq_refl)
    as (f4 & f5 & f7 & Ei & V4 & V5 & V7 & I5 & I7 & Hsame & Hrec & Hrepr & Hbig).
  destruct (write_labels_ok K g geo bs cylinders w Tq Tb Tg Tc Tl To Ts Tn Ta vlabel (geo_heads geo) f4 f5 f7 Ei Hv V4 V5 V7)
    as (d & Ew & Hlab).
  set (V := geo_sectors geo * bs) in *. set (big := BIG_DISK_SIZE <? _) in *.
  destruct To as [To _]. assert (Hr : dev_readable d = true) by (by rewrite (lb_readable _ _ _ _ _ _ _ _ _ Hlab)).
  assert (Ha : area_ok d 0 (2 * geo_sectors geo * bs)) by (destruct Ta as (? & ? & ?); split; [done|]; by rewrite (lb_length _ _ _ _ _ _ _ _ _ Hlab)).
  pose proof Ha as (_ & Ha1 & Ha2).
  destruct (read_new_label d bs vlabel Hv Hr ltac:(lia)) as (vl & Er & Evol & Eid & Evt);
    [split; [lia|split; nia]|exact (lb_label _ _ _ _ _ _ _ _ _ Hlab)|].
  set (anc := set_a_f4 f4 (set_a_vlabel vl anc0)).
  assert (Hbig' : big = true ∨ f7 = vtoc_init_format7_label).
  { destruct Hbig as [Hbig|Hbig]; [left|by right]. unfold big. apply Z.ltb_lt. pose proof (dg_last _ _ Hd) as Hl.
    unfold last_trk, FIRST_USABLE_TRK in Hl. cbn in Hl. rewrite u32_small; lia. }
  destruct (load_vtoc geo (w_dev w) d bs _ big f4 f5 f7 anc anc2 x y z Ts Tn Hr Ha Hlab Tz V5 V7 I5 I7 Hd2 Eb Hsame (proj1 Hrec)
    eq_refl Hrepr Hbig') as (anc1 & E1 & Hcons & E0 & Ec & Evl); [by split|exact Eb|exact Ebig|]. fold V in E1.
  exists (with_dev (w0 w) d), anc1. split; [exact Ew|]. split; [|split; [exact Hcons|split; [exact E0|split; [exact Ec|]]]].
  2: { rewrite Evl. exact Eid. }
  cbn [w_dev with_dev]. unfold fdasd_check_volume. rewrite Ep, Er, Done_bind. rewrite bool_decide_eq_true_2 by congruence.
  destruct (vtoc_first_blk geo (set_a_vlabel vl anc0)) as [Ecb Evb]; [cbn; congruence|lia|cbn; lia|cbn; rewrite Eb; nia|lia|].
  cbn [a_vlabel set_a_vlabel a_blksize] in Ecb, Evb. rewrite Eb in Evb. rewrite Ecb, Evb. fold V.
  rewrite (proj2 (Z.ltb_lt 0 (geo_sectors geo + 1))) by lia. rewrite (proj2 (Z.ltb_lt 0 V)) by (unfold V; nia).
  rewrite (proj2 (Z.ltb_lt V 9223372036854775808)) by (unfold V; nia). cbn [andb].
  unfold fdasd_valid_vtoc_pointer. rewrite read_label_4. unfold get_label, seek_fails.
  rewrite Hr, (proj2 (Z.leb_gt 9223372036854775808 V)) by (unfold V; nia). cbn [negb]. cbv zeta.
  change (csize cformat4) with 140%nat. rewrite (lb_f4 _ _ _ _ _ _ _ _ _ Hlab), (cenc_length (c := cformat4)) by exact V4.
  change (csize cformat4) with 140%nat. cbn [Nat.eqb negb]. rewrite (cdec_enc (c := cformat4)) by exact V4.
  rewrite !Done_bind. cbn [deref]. rewrite Done_bind, (proj2 Hrec). cbn [Z.eqb Pos.eqb negb]. fold anc. rewrite E1, !Done_bind.
  cbn [negb]. by rewrite andb_false_r.
Qed.

(** ** The volume label *)

Lemma volser_field_bytes v : Forall in_u8 v → cvalid (cbytes 6) (volser_field v).
Proof.
  intros Hv. pose proof (cstr_bytes VOLSER_LENGTH v Hv) as Hb. unfold volser_field. split.
  - rewrite length_app, length_replicate, !length_map, length_take. unfold VOLSER_LENGTH. lia.
  - apply Forall_app. split; [|apply Forall_replicate; unfold in_u8; lia].
    rewrite !Forall_map. eapply Forall_impl; [exact Hb|]. intros c _. apply asc2ebc_byte.
Qed.

Lemma volser_clean_byte c : in_u8 c → in_u8 (volser_clean c).
Proof. intros Hc. apply toupper_range. destruct (volser_bad c); [unfold in_u8; lia|done]. Qed.

(** the default serial passes the check *)
Lemma default_serial devno :
  0 <= devno < 65536 →
  ∃ buf rc s, sprintf_volser devno = Done buf ∧ check_volser buf (s32 devno) = Done (rc, s) ∧ Forall in_u8 s.
Proof.
  intros Hd. rewrite sprintf_volser_ok by done. pose proof (default_volser_length devno Hd) as Hl.
  assert (Hb : Forall in_u8 (default_volser devno)) by (eapply Forall_impl; [apply default_volser_ok|]; by intros c [_ ?]).
  assert (Hz : Forall in_u8 [0]) by (repeat constructor; lia).
  rewrite s32_small by lia. exists (default_volser devno ++ [0]).
  rewrite !(check_volser_eq (default_volser devno) 0 devno) by done. cbv zeta.
  set (kept := filter _ _). destruct (bool_decide (kept = [])); eexists _, _; (split; [reflexivity|]); (split; [reflexivity|]).
  - apply Forall_app. split; [|done]. apply Forall_map. eapply Forall_impl; [exact Hb|apply toupper_range].
  - apply Forall_app. split; [|apply Forall_app; split; [apply Forall_replicate; unfold in_u8; lia|done]].
    apply Forall_forall. intros c Hc. apply list_elem_of_filter in Hc as [_ Hc]. revert c Hc. apply Forall_forall, Forall_map.
    eapply Forall_impl; [exact Hb|apply volser_clean_byte].
Qed.

Lemma set_label_cdl g vlabel p c w :
  cvalid cvolume_label vlabel → flag (g_writenolabel g) = false → compat (intensity p) = true →
  0 <= inf_devno (g_dasd_info g) < 65536 →
  ∃ vl, set_label g vlabel p c w = Ret (set_g_cdl_format 1 g, vl) w ∧ cvalid cvolume_label vl ∧
    vollbl vl = enc_str "VOL1" ∧ vl_vtoc vl = vtoc_first.
Proof.
  intros Hv Hw Hc Hd. unfold set_label. rewrite Hw, Hc.
  assert (Hs : ∀ id, cvalid (cbytes 6) id → let vl := set_vl_vtoc (vtoc_volume_label_set_key (vtoc_volume_label_set_label
      (set_volid vlabel id) (bytes_of_string "VOL1")) (bytes_of_string "VOL1")) (vtoc_set_cchhb 0 1 1) in
    cvalid cvolume_label vl ∧ vollbl vl = enc_str "VOL1" ∧ vl_vtoc vl = vtoc_first).
  { intros id Hid. unfold vtoc_volume_label_set_key, vtoc_volume_label_set_label. cbv zeta.
    change (strncpy (vtoc_ebcdic_enc (bytes_of_string "VOL1") (zeros 4) 4) 4) with (enc_str "VOL1").
    split; [|by destruct vlabel]. assert (E4 : cvalid (cbytes 4) (enc_str "VOL1")) by (split; [done|apply bytes_ok_compute; by vm_compute]).
    assert (E5 : cvalid ccchhb (vtoc_set_cchhb 0 1 1)) by (vm_compute; intuition congruence).
    generalize dependent (enc_str "VOL1"). generalize dependent (vtoc_set_cchhb 0 1 1). intros ptr Hptr lbl Hlbl.
    destruct vlabel. cbn in *. destruct_and!. split_and!; assumption. }
  destruct (_ && _).
  - destruct (default_serial _ Hd) as (buf & rc & s & E1 & E2 & Hb).
    unfold mbind, prog_bind, mret, prog_ret. rewrite E1. cbn [lift mret prog_ret]. unfold mret, prog_ret. rewrite E2.
    cbn [lift]. unfold mret, prog_ret. cbv beta iota. eexists. split; [reflexivity|].
    rewrite set_volser_fields by exact Hb. apply Hs. by apply volser_field_bytes.
  - unfold mbind, prog_bind, mret, prog_ret. eexists. split; [reflexivity|].
    replace vlabel with (set_volid vlabel (volid vlabel)) by (by destruct vlabel). apply Hs.
    destruct vlabel. cbn in Hv |- *. destruct_and!. by split.
Qed.

#[export] Instance quiet_label_dec f : Decision (quiet_label f).
Proof. unfold quiet_label. apply _. Defined.

End DasdfmtLabels.
