(* ===== verification/DasdfmtProps.v ===== *)
(** Properties of dasdfmt (src/dasdfmt/dasdfmt.c): which tracks are formatted, in
    which order the driver is asked, which runs leave the disk alone, and what
    fdasd loads from a disk that dasdfmt labelled. *)
From S2P Require Import Prelude Ebcdic Cchh Codec Labels LabelOps VtocIo FdasdState FdasdTable FdasdInput FdasdPart.
From S2P Require Import FdasdVtocProofs FdasdIo FdasdRead FdasdReadProofs FdasdIoProofs FdasdReread FdasdMain.
From S2P Require Import Dasd Dasdfmt DasdfmtArgs DasdfmtTracks DasdfmtRun DasdfmtLabels.
Import Ebcdic Addr VtocIo Fdasd FdasdTable FdasdPart FdasdVtocProofs FdasdIo FdasdRead FdasdReadProofs FdasdIoProofs
  FdasdReread FdasdMain Dasd DasdLogic Dasdfmt DasdfmtArgs DasdfmtTracks DasdfmtRun DasdfmtLabels.

Module DasdfmtProps.

(** ** A disk for the examples *)

(** 100 cylinders of 15 tracks with nine blocks of 512 bytes, of which the first
    [B] tracks are formatted *)
Definition demo_geo : hd_geometry := Geo 15 9 100 0.
Definition demo_info (cyl format : Z) : dasd_information2_t :=
  DasdInformation 0x1234 0x3390 1 (bytes_of_string "ECKD") 2 0 (Characteristics 0x3390 cyl 15 0) format.
Definition demo_kernel (cyl B : Z) : kernel := {|
  k_errno h r := 0;
  k_blksize h := 512;
  k_info h := demo_info cyl (if B =? 0 then DASD_FORMAT_NONE else DASD_FORMAT_CDL);
  k_geo h := demo_geo;
  k_ro h := 0;
  k_check h p := FormatCheck (if stop_unit p <? B then 0 else DASD_FMT_ERR_BLKSIZE) B 1 0
                   (if start_unit p <? B then 512 else 0) 0;
  k_apply h r d := d;
  k_clock h := 0
|}.
Definition demo_host : host := Host 1 (bytes_of_string "/dev/dasda") true 0 (Some (bytes_of_string "dasd")) 0 0 0.
Definition demo_world (stdin : list Z) : world statics := World [] (Device true true (zeros 9216)) stdin statics0.
Definition demo_g : dasdfmt_globals := set_g_dasd_info (demo_info 100 DASD_FORMAT_NONE) globals0.

(** ** Labels *)





(** ** Formatting *)

(** C30: [dasdfmt_prepare_and_format] returns or ends the program with code 1
    whatever the driver answers; when it returns, the last format request for
    every track of the disk has the block size and the layout that were asked
    for, and the device is enabled. *)
Theorem full_format_covers_disk K g mode reqsize cylinders heads p w :
  1 <= reqsize <= 255 → 1 <= heads <= 65535 → 0 < cylinders → g_check g = 0 → 1 < stop_unit p < 4294967296 →
  sat (dasdfmt_prepare_and_format K g mode reqsize cylinders heads p w)
    (λ _ w', s_disk_disabled (w_static w') = 0 ∧
       ∀ t, 0 <= t <= stop_unit p → ∃ q, last_format (w_log w') t = Some q ∧ like p q)
    (λ c _, c = 1).
Proof.
  intros Hr Hh Hc Hg Hs. eapply sat_mono; [by apply prepare_and_format_log| |done].
  intros _ w' (Hd & _ & steps & E & [Hcov _] & Hlike). split; [done|]. intros t Ht. rewrite E. cbn [app last_format].
  destruct ((start_unit _ <=? t) && _) eqn:Et; [by eexists|]. cbn [start_unit stop_unit] in Et.
  apply last_format_steps; [done|]. apply Hcov. apply andb_false_iff in Et. destruct Et; b2p; lia.
Qed.

Lemma full_format_covers_disk_witness :
  sat (dasdfmt_prepare_and_format (demo_kernel 100 0) demo_g FULL 10 100 15 (FormatData 0 1499 512 8) (demo_world []))
    (λ _ w', s_disk_disabled (w_static w') = 0 ∧
       ∀ t, 0 <= t <= 1499 → ∃ q, last_format (w_log w') t = Some q ∧ like (FormatData 0 1499 512 8) q)
    (λ c _, c = 1) ∧
  ∃ w', dasdfmt_prepare_and_format (demo_kernel 100 0) demo_g FULL 10 100 15 (FormatData 0 1499 512 8) (demo_world []) = Ret tt w' ∧
    length (w_log w') = 14%nat.
Proof.
  split.
  - apply (full_format_covers_disk (demo_kernel 100 0) demo_g FULL 10 100 15 (FormatData 0 1499 512 8) (demo_world []));
      try reflexivity; cbn; lia.
  - eexists. split; [vm_compute; reflexivity|]. vm_compute. reflexivity.
Defined.

(** Requests that leave the format of every track as it was. *)
Definition same_formats (w w' : world statics) : Prop := ∀ t, last_format (w_log w') t = last_format (w_log w) t.

#[export] Instance same_formats_preorder : PreOrder same_formats.
Proof. split; [by intros w t|]. intros a b c Hab Hbc t. by rewrite Hbc. Qed.

Lemma same_formats_query K r : query r = true → keeps same_formats (run_ioctl K r).
Proof. intros Hr w t. by destruct r. Qed.
Lemma same_formats_print o : keeps same_formats (print o).
Proof. by intros w t. Qed.
Lemma same_formats_error A : keeps same_formats (error (A := A)).
Proof. by intros w t. Qed.

#[local] Hint Resolve same_formats_print same_formats_error : dasd.
#[local] Hint Extern 1 (keeps same_formats (run_ioctl _ _)) => apply same_formats_query; reflexivity : dasd.

Lemma find_loop_same_formats K fuel : ∀ l r first p c, keeps same_formats (find_loop K fuel l r first p c).
Proof.
  induction fuel as [|fuel IH]; intros l r first p c; cbn [find_loop]; [keeps_auto|].
  unfold check_track_format, dasd_check_format. keeps_auto.
Qed.

Lemma find_start_same_formats K g mode cylinders heads p :
  keeps same_formats (dasdfmt_find_start K g mode cylinders heads p).
Proof.
  pose proof (find_loop_same_formats K). unfold dasdfmt_find_start, check_blocksize, get_blocksize, dasd_get_blocksize.
  unfold check_track_format, dasd_check_format, evaluate_format_error. keeps_auto.
Qed.

(** the mode that formats the end of a disk: its start, and the formatting *)
Definition expand (K : kernel) (g : dasdfmt_globals) (reqsize cylinders heads : Z) (p : format_data_t) : prog statics unit :=
  p ← format_range K g EXPAND cylinders heads p; dasdfmt_expand_format K g EXPAND reqsize cylinders heads p.

(** C31: on a disk whose tracks in front of [B] are formatted and the others are not, with
    [B] at least 5 and not the last track (see the theorem expand_misses_last_track),
    [format_range] of the expand mode finds [B] with its bisection, and
    [dasdfmt_expand_format] formats exactly the tracks from there on; the requests leave the
    tracks in front of [B] alone. The check mode is off, up to 255 cylinders are asked for
    at a time, and the track numbers fit 32 bits. *)
Theorem expand_formats_the_rest K g reqsize cylinders heads p B w :
  formatted_up_to K (fd_blksize p) B → 1 <= reqsize <= 255 → 1 <= heads <= 65535 → 0 < cylinders → g_check g = 0 →
  5 <= B < cylinders * heads - 1 → cylinders * heads < 4294967296 →
  sat (expand K g reqsize cylinders heads p w)
    (λ _ w', s_disk_disabled (w_static w') = 0 ∧
       ∀ t, (B <= t < cylinders * heads → ∃ q, last_format (w_log w') t = Some q ∧ like p q) ∧
            (t < B → last_format (w_log w') t = last_format (w_log w) t))
    (λ c _, c = 1).
Proof.
  intros HK Hr Hh Hc Hg HB Hch. unfold expand. apply sat_bind. unfold format_range. cbv zeta. apply sat_bind.
  rewrite (u32_small (cylinders * heads - 1)) by lia.
  pose proof (find_start_first K (fd_blksize p) B HK g EXPAND cylinders heads (set_range 0 (stop_unit p) p) w eq_refl) as Hf.
  pose proof (find_start_same_formats K g EXPAND cylinders heads (set_range 0 (stop_unit p) p) w) as Hlog.
  destruct (dasdfmt_find_start K g EXPAND cylinders heads (set_range 0 (stop_unit p) p) w) as [first w1|c w1| |];
    (specialize (Hf ltac:(lia) ltac:(lia)); cbn [sat] in Hf |- *; cbn [final] in Hlog); [|lia|done|done].
  destruct Hf as [-> _]. unfold mret, prog_ret. cbn [sat].
  eapply sat_mono; [apply expand_format_log; try done; cbn; lia| |done].
  intros _ w' (Hd & _ & steps & E & [Hcov _] & Hlike). cbn [start_unit stop_unit set_range] in *. split; [done|].
  intros t. rewrite E. cbn [last_format]. split; intros Ht.
  - apply (last_format_steps p); [exact Hlike|]. apply Hcov. lia.
  - rewrite last_format_outside; [cbn [last_format]; by apply Hlog|]. intros q Hq Hin.
    assert (B <= t <= cylinders * heads - 1) by (apply Hcov; by exists q). lia.
Qed.

Lemma demo_formatted B : formatted_up_to (demo_kernel 100 B) 512 B.
Proof.
  split; try done.
  - intros h p _. cbn. destruct (Z.ltb_spec (stop_unit p) B); cbn; [lia|]. split; [done|lia].
  - intros h p _ E. cbn. rewrite E. destruct (Z.ltb_spec (stop_unit p) B); cbn; [lia|]. split; [done|lia].
Qed.

Lemma expand_formats_the_rest_witness :
  sat (expand (demo_kernel 100 700) demo_g 10 100 15 (FormatData 0 0 512 8) (demo_world []))
    (λ _ w', s_disk_disabled (w_static w') = 0 ∧
       ∀ t, (700 <= t < 1500 → ∃ q, last_format (w_log w') t = Some q ∧ like (FormatData 0 0 512 8) q) ∧
            (t < 700 → last_format (w_log w') t = None))
    (λ c _, c = 1) ∧
  ∃ w', expand (demo_kernel 100 700) demo_g 10 100 15 (FormatData 0 0 512 8) (demo_world []) = Ret tt w'.
Proof.
  split.
  - apply (expand_formats_the_rest (demo_kernel 100 700) demo_g 10 100 15 (FormatData 0 0 512 8) 700 (demo_world []));
      [apply demo_formatted|lia..|reflexivity|lia|lia].
  - eexists. vm_compute. reflexivity.
Defined.

(** When only the last track is left, the expand mode formats nothing: the
    loop of [process_tracks] runs while the track is in front of the last one. *)
Theorem expand_misses_last_track K g reqsize cylinders heads p w :
  1 <= reqsize <= 255 → 1 <= heads <= 65535 → 0 < cylinders → start_unit p = stop_unit p → 0 <= stop_unit p →
  sat (dasdfmt_expand_format K g EXPAND reqsize cylinders heads p w)
    (λ _ w', w_log w' = BIODASDENABLE :: BIODASDDISABLE :: w_log w) (λ c _, c = 1).
Proof. intros. by apply expand_format_single. Qed.

Lemma expand_misses_last_track_witness :
  sat (dasdfmt_expand_format (demo_kernel 100 1499) demo_g EXPAND 10 100 15 (FormatData 1499 1499 512 8) (demo_world []))
    (λ _ w', w_log w' = [BIODASDENABLE; BIODASDDISABLE]) (λ c _, c = 1) ∧
  ∃ w', expand (demo_kernel 100 1499) demo_g 10 100 15 (FormatData 0 0 512 8) (demo_world []) = Ret tt w' ∧
    last_format (w_log w') 1499 = None.
Proof.
  split.
  - apply (expand_misses_last_track (demo_kernel 100 1499) demo_g 10 100 15 (FormatData 1499 1499 512 8) (demo_world []));
      try reflexivity; cbn; lia.
  - eexists. split; [vm_compute; reflexivity|]. vm_compute. reflexivity.
Defined.

(** ** The driver *)

(** C32: for every command line, driver, input and disk the requests of a run come
    in the order that the driver needs: nothing is formatted while the device is
    enabled, nothing else is asked while it is disabled, and when the program
    returns the device is enabled.  The signal handler, from either state, enables
    the device before the process ends. *)
Theorem driver_protocol K H opts v w :
  device_is false w →
  phase (w_log (final (main K H opts v w))) ≠ None ∧
  match main K H opts v w with Ret _ w' => device_is false w' | _ => True end ∧
  ∀ b w1, device_is b w1 →
    match program_interrupt_signal K w1 with Ret _ w' => device_is false w' | r => phase (w_log (final r)) ≠ None end.
Proof.
  intros Hw. pose proof (phases_main K H opts v w Hw) as Hm. split; [|split].
  - destruct (main K H opts v w); [by eapply device_is_phase|done..].
  - by destruct (main K H opts v w).
  - intros b w1 Hb. pose proof (phases_handler K b w1 Hb) as Hh. by destruct (program_interrupt_signal K w1).
Qed.

(** [dasdfmt -b 512 -y], a full format *)
Definition demo_opts : list dasdfmt_option := [Opt_blocksize (bytes_of_string "512"); Opt_yes].

Lemma driver_protocol_witness :
  device_is false (demo_world []) ∧
  match main (demo_kernel 100 0) demo_host demo_opts zero_volume_label (demo_world []) with
  | Ret _ w' => device_is false w' ∧ length (w_log w') = 19%nat
  | _ => False
  end.
Proof.
  split; [by split|].
  destruct (driver_protocol (demo_kernel 100 0) demo_host demo_opts zero_volume_label (demo_world [])) as (_ & H & _); [by split|].
  assert (L : match main (demo_kernel 100 0) demo_host demo_opts zero_volume_label (demo_world []) with
              | Ret _ w' => length (w_log w') = 19%nat | _ => False end) by (vm_compute; reflexivity).
  revert H L. destruct (main _ _ _ _ _); [by intros H L|intros _ []..].
Defined.

(** C33: a run with the option for a test or for a check, or one that has to ask
    and reads no "y", issues nothing but queries and leaves the blocks of the disk
    alone, however it ends. *)
Theorem disk_untouched K H opts v w :
  (∀ h r d, query r = true → k_apply K h r d = d) →
  existsb opt_test opts = true ∨ existsb opt_check opts = true ∨ (existsb opt_yes opts = false ∧ no_yes (w_stdin w)) →
  untouched w (final (main K H opts v w)).
Proof. intros HK Hi. by apply untouched_main. Qed.

(** [dasdfmt -b 512], answered with "no" *)
Lemma disk_untouched_witness :
  untouched (demo_world (bytes_of_string "no"))
    (final (main (demo_kernel 100 0) demo_host [Opt_blocksize (bytes_of_string "512")] zero_volume_label
              (demo_world (bytes_of_string "no")))).
Proof.
  apply (disk_untouched (demo_kernel 100 0) demo_host [Opt_blocksize (bytes_of_string "512")] zero_volume_label
           (demo_world (bytes_of_string "no"))).
  - reflexivity.
  - right; right. split; [reflexivity|]. repeat constructor; vm_compute; congruence.
Defined.

(** [dasdfmt -d ldl -L -M quick --force] *)
Definition no_label_opts : list dasdfmt_option :=
  [Opt_disk_layout (bytes_of_string "ldl"); Opt_no_label; Opt_mode (bytes_of_string "quick"); Opt_force;
   Opt_blocksize (bytes_of_string "512")].

(** The question of [set_label] about a disk with more than 65534 cylinders
    has no effect: answered with "no", the program goes on and formats the disk
    when the next question is answered with "yes". *)
Theorem refused_disk_is_formatted :
  match main (demo_kernel 70000 0) demo_host no_label_opts zero_volume_label
          (demo_world (bytes_of_string "no" ++ [10] ++ bytes_of_string "yes" ++ [10])) with
  | Ret _ w' => last_format (w_log w') 0 = Some (FormatData 0 1 512 0)
  | _ => False
  end.
Proof. vm_compute. reflexivity. Qed.

(** ** Arguments *)

(** [check_param] terminates and accepts exactly the four block sizes, and the
    dialog of [ask_user_for_blksize], started from an accepted size, ends on every
    input with an accepted size and the other parameters unchanged. *)
Theorem block_size_accepted params w :
  check_param params = Done 0 → 0 <= fd_blksize params < 4294967296 →
  fd_blksize params ∈ block_sizes ∧
  sat (ask_user_for_blksize params w)
    (λ p w', check_param p = Done 0 ∧ start_unit p = start_unit params ∧ stop_unit p = stop_unit params ∧
             intensity p = intensity params ∧ same_but_stdin w w') (λ _ _, False).
Proof. intros Hp Hb. split; [by apply check_param_accepts|by apply ask_user_valid]. Qed.

(** "513" is refused, "1024" is taken *)
Lemma block_size_accepted_witness :
  let w := demo_world (bytes_of_string "513" ++ [10] ++ bytes_of_string "1024" ++ [10]) in
  4096 ∈ block_sizes ∧
  sat (ask_user_for_blksize (FormatData 0 0 4096 8) w)
    (λ p w', check_param p = Done 0 ∧ start_unit p = 0 ∧ stop_unit p = 0 ∧ intensity p = 8 ∧ same_but_stdin w w')
    (λ _ _, False) ∧
  ask_user_for_blksize (FormatData 0 0 4096 8) w = Ret (FormatData 0 0 1024 8) (demo_world []).
Proof.
  intros w. destruct (block_size_accepted (FormatData 0 0 4096 8) w) as [H1 H2]; [reflexivity|cbn; lia|].
  split; [exact H1|]. split; [exact H2|]. vm_compute. reflexivity.
Defined.

(** [check_volser] of dasdfmt and the one of fdasd put the same serial into a
    volume label; dasdfmt's returns -1 exactly if no character of the argument can
    be kept. *)
Theorem serial_as_in_fdasd vl s devno :
  Forall in_u8 s → 0 <= devno < 65536 →
  ∃ rc buf, check_volser (strncpy s 6 ++ [0]) devno = Done (rc, buf) ∧
    (rc = -1 ↔ filter (λ c, volser_char c = true) (take 6 (cstr s)) = []) ∧
    vtoc_volume_label_set_volser vl buf = vtoc_volume_label_set_volser vl (fdasd_check_volser s devno).
Proof. apply same_serial. Qed.

Lemma serial_as_in_fdasd_witness :
  ∃ rc buf, check_volser (strncpy (bytes_of_string "a!b c") 6 ++ [0]) 0x1234 = Done (rc, buf) ∧ rc = 0 ∧
    buf = bytes_of_string "ABC   " ++ [0] ∧
    vtoc_volume_label_set_volser zero_volume_label buf =
    vtoc_volume_label_set_volser zero_volume_label (fdasd_check_volser (bytes_of_string "a!b c") 0x1234).
Proof.
  destruct (serial_as_in_fdasd zero_volume_label (bytes_of_string "a!b c") 0x1234) as (rc & buf & E & _ & H).
  - repeat constructor; vm_compute; congruence.
  - lia.
  - exists rc, buf. assert (E' := E). revert E'. vm_compute (check_volser _ _). intros E'.
    injection E' as <- <-. split; [exact E|]. split; [reflexivity|]. split; [reflexivity|exact H].
Defined.

End DasdfmtProps.
