(* ===== verification/Zds.v ===== *)
(** The library libzds (src/libzds/libzds.c, src/include/lib/libzds.h): devices,
    raw tracks, the volume label and the VTOC.

    A raw-track device delivers track images of [RAWTRACKSIZE] bytes, in which
    every record has a count area in front of its key and data.  Memory that holds
    such images is a function from offsets to bytes; an access outside its size is
    a [Fault].  A function that returns an error code returns [inl rc], and the
    value of its output parameters [inr] otherwise.  Memory never runs out, and of
    the error log only the code of the returned error is kept. *)
From S2P Require Import Prelude Ebcdic Cchh Codec Labels LabelOps.
Import Addr.

(** ** Constants and error codes *)

Definition RAWTRACKSIZE : Z := 65536.
Definition MAXRECSIZE : Z := 56664.
Definition MAXEXTENTS : Z := 16.
Definition MAXDSNAMELENGTH : Z := 45.
Definition MAXVOLUMESPERDS : Z := 59.
Definition PDS_DIR_KL : Z := 8.
Definition PDS_DIR_DL : Z := 256.
Definition TRACK_BUFFER_DEFAULT : Z := 128.

Definition EPERM : Z := 1.
Definition ENOENT : Z := 2.
Definition EIO : Z := 5.
Definition ENOMEM : Z := 12.
Definition EBUSY : Z := 16.
Definition ENODEV : Z := 19.
Definition EINVAL : Z := 22.
Definition ERANGE : Z := 34.
Definition EPROTO : Z := 71.
Definition ENOTSUP : Z := 95.

(** ** Results *)

Notation zio A := (outcome (Z + A)).

Definition zok {A} (a : A) : zio A := Done (inr a).
Definition zerr {A} (rc : Z) : zio A := Done (inl rc).
Definition zbind {A B} (m : zio A) (k : A → zio B) : zio B :=
  match m with
  | Done (inr a) => k a
  | Done (inl rc) => Done (inl rc)
  | Exited rc => Exited rc
  | Fault => Fault
  | OutOfFuel => OutOfFuel
  end.

Notation "x <-? m ; k" := (zbind m (λ x, k)) (at level 100, m at level 99, k at level 200, right associativity).
(** a function without an error code *)
Definition zlift {A} (m : outcome A) : zio A := a ← m; zok a.

(** ** Memory *)

Definition mem : Type := Z → Z.

Definition mem_list (b : mem) (off : Z) (n : nat) : list Z := map (λ i, b (off + Z.of_nat i)) (seq 0 n).

(** [n] bytes at an offset of an object of [size] bytes *)
Definition mem_read (b : mem) (size off : Z) (n : nat) : outcome (list Z) :=
  if (0 <=? off) && (off + Z.of_nat n <=? size) then Done (mem_list b off n) else Fault.

(** the first [n] bytes come from another place *)
Definition mem_fill (b : mem) (n : Z) (f : Z → Z) : mem := λ o, if (0 <=? o) && (o <? n) then f o else b o.

Definition mem_set (b : mem) (off x : Z) : mem := λ o, if o =? off then x else b o.

(** memory that was allocated and not written *)
Definition mem_new : mem := λ _, 0.

(** [struct eckd_count] without the record identifier *)
Record eckd_count := EckdCount { ec_kl : Z; ec_dl : Z }.

(** a count area *)
Definition get_count (b : mem) (size off : Z) : outcome eckd_count :=
  l ← mem_read b size off 8;
  Done (EckdCount (l !!! 5%nat) (be_dec (drop 6 l))).

(** [*(unsigned long long * )data == ENDTOKEN] *)
Definition is_endtoken (b : mem) (size off : Z) : outcome bool :=
  l ← mem_read b size off 8;
  Done (bool_decide (l = replicate 8 255)).

(** ** Devices *)

(** What the system knows about a device: whether it can be opened, its size for
    [BLKGETSIZE64], its bytes, and what [read] returns at an offset for a number
    of bytes: a count, or a negative number for an error. *)
Record disk := Disk {
  k_open : bool;
  k_size : option Z;
  k_byte : Z → Z;
  k_read : Z → Z → Z;
  k_close : bool
}.

(** [struct raw_vtoc]; behind the entries of [vtocindex] the array holds NULL *)
Record raw_vtoc := RawVtoc {
  rawdata : mem;
  rawdatasize : Z;
  vtocindex : list Z;
  vtocindexcount : Z;
  vtoc_rec_per_track : Z;
  vtoctrackoffset : Z;
  vtocrecno : Z;
  rv_heads : Z
}.

Record dasd := Dasd {
  d_device : list Z;
  d_disk : disk;
  d_label_block : Z;
  d_cylinders : Z;
  d_heads : Z;
  d_rawvtoc : option raw_vtoc;
  d_vlabel : option volume_label_t
}.

Definition set_d_vlabel (v : option volume_label_t) (d : dasd) : dasd :=
  Dasd (d_device d) (d_disk d) (d_label_block d) (d_cylinders d) (d_heads d) (d_rawvtoc d) v.
Definition set_d_rawvtoc (v : option raw_vtoc) (d : dasd) : dasd :=
  Dasd (d_device d) (d_disk d) (d_label_block d) (d_cylinders d) (d_heads d) v (d_vlabel d).

Module Zds.

(** cylinders as for an ECKD device, from the size *)
Definition dasd_read_geometry (device : list Z) (k : disk) : zio dasd :=
  match k_size k with
  | None => zerr EIO
  | Some size_in_bytes =>
      let heads := 15 in
      zok (Dasd device k 2 (u32 (size_in_bytes / (heads * RAWTRACKSIZE))) heads None None)
  end.

Definition lzds_dasd_cchh2trk (d : dasd) (p : cchh_t) : Z :=
  u32 (vtoc_get_cyl_from_cchh p * d_heads d + vtoc_get_head_from_cchh p).

(** [while (residual)]: 0 or an error code, with the offset behind what was read *)
Fixpoint read_loop (fuel : nat) (k : disk) (pos residual : Z) : outcome (Z * Z) :=
  if residual =? 0 then Done (0, pos)
  else
    match fuel with
    | O => OutOfFuel
    | S fuel =>
        let count := k_read k pos residual in
        if count <? 0 then Done (EIO, pos)
        else if negb (Z.rem count RAWTRACKSIZE =? 0) then Done (EPROTO, pos)
        else read_loop fuel k (pos + count) (residual - count)
    end.

(** the target buffer is changed as far as data was read *)
Definition lzds_dasdhandle_read_tracks_to_buffer (d : dasd) (is_open : bool) (starttrck endtrck : Z) (trackdata : mem)
    : outcome (Z * mem) :=
  if (endtrck <? starttrck) || (u32 (d_cylinders d * d_heads d) <=? endtrck) then Done (EINVAL, trackdata)
  else
    let trckseek := starttrck * RAWTRACKSIZE in
    let residual := u32 (endtrck - starttrck + 1) * RAWTRACKSIZE in
    if negb is_open then Done (EINVAL, trackdata)
    else
      '(rc, pos) ← read_loop (Z.to_nat (endtrck - starttrck + 1)) (d_disk d) trckseek residual;
      Done (rc, mem_fill trackdata (pos - trckseek) (λ o, k_byte (d_disk d) (trckseek + o))).

(** [while (!next_record)]: the place of the next record *)
Fixpoint next_loop (fuel : nat) (buffer : mem) (size data : Z) : outcome (option Z) :=
  match fuel with
  | O => OutOfFuel
  | S fuel =>
      if size <=? data then Done None
      else
        e ← is_endtoken buffer size data;
        if e : bool then next_loop fuel buffer size (Z.ldiff data (RAWTRACKSIZE - 1) + RAWTRACKSIZE)
        else Done (Some data)
  end.

(** an end token leads to a later track *)
Definition next_fuel (size : Z) : nat := S (S (Z.to_nat (size / RAWTRACKSIZE))).

(** a record is its offset; [None] is the end ([ENOENT]) *)
Definition buffer_get_next_record (buffer : mem) (size : Z) (record : option Z) : outcome (option Z) :=
  match record with
  | None => Done (Some 0)
  | Some data =>
      ecount ← get_count buffer size data;
      next_loop (next_fuel size) buffer size (data + (8 + ec_kl ecount + ec_dl ecount))
  end.

(** open, read and close; the error of [close] is reported if there is no other *)
Definition dasd_read_tracks (d : dasd) (starttrck endtrck : Z) : zio mem :=
  if negb (k_open (d_disk d)) then zerr EIO
  else
    '(rc, trackdata) ← lzds_dasdhandle_read_tracks_to_buffer d true starttrck endtrck mem_new;
    if negb (rc =? 0) then zerr rc
    else if negb (k_close (d_disk d)) then zerr EIO
    else zok trackdata.

(** [while (!buffer_get_next_record(...))] up to the record with the number [n] *)
Fixpoint nth_record (fuel : nat) (buffer : mem) (size : Z) (record : option Z) (i n : Z) : outcome (option Z) :=
  match fuel with
  | O => OutOfFuel
  | S fuel =>
      record ← buffer_get_next_record buffer size record;
      match record with
      | None => Done None
      | Some r => if i =? n then Done (Some r) else nth_record fuel buffer size (Some r) (i + 1) n
      end
  end.

(** a record takes at least the eight bytes of its count area *)
Definition record_fuel (size : Z) : nat := S (S (Z.to_nat (size / 8))).

(** ** The volume label *)

(** [sizeof(struct volume_label)] *)
Definition vlabel_size : nat := 92.

Definition dasd_read_vlabel_to_buffer (d : dasd) : zio volume_label_t :=
  match dasd_read_tracks d 0 0 with
  | Done (inr trackdata) =>
      r ← nth_record (record_fuel RAWTRACKSIZE) trackdata RAWTRACKSIZE None 0 (d_label_block d + 1);
      match r with
      | None => zerr EPROTO
      | Some record =>
          ecount ← get_count trackdata RAWTRACKSIZE record;
          let label := record + 8 in
          let labelend := label + ec_kl ecount + ec_dl ecount in
          if (ec_kl ecount + ec_dl ecount =? 84) && (labelend <=? RAWTRACKSIZE) then
            l ← mem_read trackdata RAWTRACKSIZE label 84;
            zok (cdec cvolume_label (memcpy_at (zeros vlabel_size) 0 l))
          else if (ec_kl ecount =? 0) && (labelend <=? RAWTRACKSIZE) then
            l ← mem_read trackdata RAWTRACKSIZE label (Z.to_nat (Z.min (ec_dl ecount) (Z.of_nat vlabel_size - 4)));
            zok (cdec cvolume_label (memcpy_at (zeros vlabel_size) 4 l))
          else zerr EPROTO
      end
  | Done (inl _) => zerr EIO
  | Exited rc => Exited rc
  | Fault => Fault
  | OutOfFuel => OutOfFuel
  end.

(** the label is read again; the old one is lost *)
Definition lzds_dasd_read_vlabel (d : dasd) : outcome (Z * dasd) :=
  r ← dasd_read_vlabel_to_buffer d;
  Done match r with
       | inr vlabel => (0, set_d_vlabel (Some vlabel) d)
       | inl rc => (rc, set_d_vlabel None d)
       end.

Definition lzds_dasd_get_vlabel (d : dasd) : zio volume_label_t :=
  match d_vlabel d with Some v => zok v | None => zerr EINVAL end.

(** ** The VTOC *)

(** [strncmp(this, vol1, 4)] *)
Definition is_vol1 (this : list Z) : bool := bool_decide (take 4 this = [0xe5; 0xd6; 0xd3; 0xf1]).

(** the records of a track image, in order, at most [n] of them *)
Fixpoint index_loop (fuel : nat) (buffer : mem) (size : Z) (record : option Z) (i n : Z) : zio (list Z) :=
  match fuel with
  | O => OutOfFuel
  | S fuel =>
      record ← buffer_get_next_record buffer size record;
      match record with
      | None => zok []
      | Some r =>
          if n <=? i then zerr EPROTO
          else rest <-? index_loop fuel buffer size (Some r) (i + 1) n; zok (r :: rest)
      end
  end.

(** the record that the volume label points to is a format 4 DSCB *)
Definition is_format4 (ecount : eckd_count) (f4 : format4_label_t) : bool :=
  (ec_kl ecount =? 44) && (ec_dl ecount =? 96) && (DS4KEYCD f4 !!! 0%nat =? 0x04) &&
  (DS4KEYCD f4 !!! 43%nat =? 0x04) && (DS4IDFMT f4 =? 0xf4).

(** the format 4 DSCB in the first track of the VTOC *)
Definition find_format4 (trackdata : mem) (vtocrecno : Z) : zio format4_label_t :=
  r ← nth_record (record_fuel RAWTRACKSIZE) trackdata RAWTRACKSIZE None 0 vtocrecno;
  match r with
  | None => zerr EPROTO
  | Some record =>
      ecount ← get_count trackdata RAWTRACKSIZE record;
      l ← mem_read trackdata RAWTRACKSIZE (record + 8) 140;
      let f4 := cdec cformat4 l in
      if is_format4 ecount f4 then zok f4 else zerr EPROTO
  end.

Definition lzds_dasd_read_rawvtoc (d : dasd) : zio raw_vtoc :=
  vlabel <-? lzds_dasd_get_vlabel d;
  if negb (is_vol1 (volkey vlabel)) || negb (is_vol1 (vollbl vlabel)) then zerr EINVAL
  else
    let vtoctrckno := vtoc_get_cyl_from_cchhb (vl_vtoc vlabel) * d_heads d + vtoc_get_head_from_cchhb (vl_vtoc vlabel) in
    let recno := cchhb_b (vl_vtoc vlabel) in
    trackdata <-? dasd_read_tracks d (u32 vtoctrckno) (u32 vtoctrckno);
    f4 <-? find_format4 trackdata recno;
    let vtoctrack_start := lzds_dasd_cchh2trk d (ext_llimit (DS4VTOCE f4)) in
    let vtoctrack_end := lzds_dasd_cchh2trk d (ext_ulimit (DS4VTOCE f4)) in
    let rec_per_track := DS4DEVDT (DS4DEVCT f4) + 1 in
    let vtocindexsize := u32 (u32 (vtoctrack_end - vtoctrack_start + 1) * rec_per_track) in
    let rawvtocsize := u64 ((vtoctrack_end - vtoctrack_start + 1) * RAWTRACKSIZE) in
    trackdata <-? dasd_read_tracks d vtoctrack_start vtoctrack_end;
    index <-? index_loop (record_fuel rawvtocsize) trackdata rawvtocsize None 0 vtocindexsize;
    zok (RawVtoc trackdata rawvtocsize index vtocindexsize rec_per_track vtoctrack_start recno (d_heads d)).

Definition lzds_dasd_alloc_rawvtoc (d : dasd) : outcome (Z * dasd) :=
  r ← lzds_dasd_read_rawvtoc d;
  Done match r with
       | inr rawvtoc => (0, set_d_rawvtoc (Some rawvtoc) d)
       | inl rc => (rc, set_d_rawvtoc None d)
       end.

Definition lzds_dasd_get_rawvtoc (d : dasd) : zio raw_vtoc :=
  match d_rawvtoc d with Some v => zok v | None => zerr EINVAL end.

(** [struct dscb]: the bytes behind the count area of a record *)
Definition get_dscb (rv : raw_vtoc) (record : Z) : outcome (list Z) :=
  mem_read (rawdata rv) (rawdatasize rv) (record + 8) 140.
Definition dscb_fmtid (dscb : list Z) : Z := dscb !!! 44%nat.

(** the search for the next record with the layout of a DSCB, [n] entries to go *)
Fixpoint next_dscb_loop (n : nat) (rv : raw_vtoc) (i : Z) : outcome (option Z) :=
  match n with
  | O => Done None
  | S n =>
      if i <? vtocindexcount rv then
        match vtocindex rv !! Z.to_nat i with
        | None => next_dscb_loop n rv (i + 1)
        | Some record =>
            ecount ← get_count (rawdata rv) (rawdatasize rv) record;
            if (ec_kl ecount =? 44) && (ec_dl ecount =? 96) then Done (Some i) else next_dscb_loop n rv (i + 1)
        end
      else Done None
  end.

(** [it->i] is the last index; the result is the new index with the DSCB, or
    [None] at the end ([EPERM]) *)
Definition lzds_dscbiterator_get_next_dscb (rv : raw_vtoc) (it_i : Z) : outcome (option (Z * list Z)) :=
  let i := u32 (it_i + 1) in
  r ← next_dscb_loop (Z.to_nat (vtocindexcount rv - i)) rv i;
  match r with
  | None => Done None
  | Some i =>
      record ← deref (vtocindex rv !! Z.to_nat i);
      dscb ← get_dscb rv record;
      Done (Some (i, dscb))
  end.

(** the start of an iterator *)
Definition lzds_raw_vtoc_alloc_dscbiterator (rv : raw_vtoc) : Z := u32 (vtocrecno rv - 1).

Definition vtocindex_from_cchhb (rv : raw_vtoc) (p : cchhb_t) : Z :=
  vtoc_get_cyl_from_cchhb p * rv_heads rv * vtoc_rec_per_track rv +
  u32 (vtoc_get_head_from_cchhb p * vtoc_rec_per_track rv) + cchhb_b p -
  u32 (vtoctrackoffset rv * vtoc_rec_per_track rv).

(** [None] for the address zero, which points nowhere *)
Definition lzds_raw_vtoc_get_dscb_from_cchhb (rv : raw_vtoc) (p : cchhb_t) : zio (option (list Z)) :=
  let index := vtocindex_from_cchhb rv p in
  if (cchhb_cc p =? 0) && (cchhb_hh p =? 0) && (cchhb_b p =? 0) then zok None
  else if cchhb_b p =? 0 then zerr EINVAL
  else if (index <? vtocrecno rv) || (vtocindexcount rv <=? index) then zerr ERANGE
  else
    match vtocindex rv !! Z.to_nat index with
    | None => zerr EINVAL
    | Some record => dscb ← get_dscb rv record; zok (Some dscb)
    end.

End Zds.
