(* ===== verification/ZdsDataset.v ===== *)
(** Data sets of libzds (src/libzds/libzds.c): the parts of a data set from the
    DSCBs of a VTOC, the members of a partitioned data set from its directory, and
    the merge of the parts that lie on several volumes. *)
From S2P Require Import Prelude Ebcdic Cchh Codec Labels LabelOps Zds.
Import Ebcdic Addr Zds.

(** ** Data *)

Record format3_label_t := Format3 {
  DS3KEYID : list Z;
  DS3EXTNT : list extent_t;
  DS3FMTID : Z;
  DS3ADEXT : list extent_t;
  DS3PTRDS : cchhb_t
}.
Definition cformat3 : codec format3_label_t :=
  ciso (λ '(x0, (x1, (x2, (x3, x4)))), Format3 x0 x1 x2 x3 x4)
    (λ '(Format3 x0 x1 x2 x3 x4), (x0, (x1, (x2, (x3, x4)))))
    (cbytes 4 ⊗ carray 4 cextent ⊗ cu8 ⊗ carray 9 cextent ⊗ ccchhb).
#[export] Instance cformat3_laws : CodecLaws cformat3.
Proof. apply ciso_laws; [apply _|by intros [? [? [? [? ?]]]]|by intros []]. Qed.

Record pdsmember := Pdsmember {
  m_name : list Z;
  m_track : Z;
  m_record : Z;
  m_is_alias : Z
}.

Record datasetpart := Datasetpart {
  dp_dasdi : dasd;
  dp_f1 : format1_label_t;
  dp_ext : list extent_t
}.

Record dataset := Dataset {
  ds_name : list Z;
  ds_dsp : list (option datasetpart);
  ds_dspcount : Z;
  ds_iscomplete : Z;
  ds_memberlist : option (list pdsmember)
}.

Definition set_ds_memberlist (v : option (list pdsmember)) (ds : dataset) : dataset :=
  Dataset (ds_name ds) (ds_dsp ds) (ds_dspcount ds) (ds_iscomplete ds) v.
Definition set_ds_iscomplete (v : Z) (ds : dataset) : dataset :=
  Dataset (ds_name ds) (ds_dsp ds) (ds_dspcount ds) v (ds_memberlist ds).
Definition set_ds_dsp (dsp : list (option datasetpart)) (dspcount : Z) (ds : dataset) : dataset :=
  Dataset (ds_name ds) dsp dspcount (ds_iscomplete ds) (ds_memberlist ds).

Record zdsroot := Zdsroot {
  r_dasdlist : list dasd;
  r_datasetlist : list dataset
}.

Module ZdsDataset.

(** ** Parts *)

(** the part at an index of the array, NULL included *)
Definition dsp (ds : dataset) (i : Z) : option datasetpart := mjoin (ds_dsp ds !! Z.to_nat i).

Definition copy_extent_to_datasetpart (extent : extent_t) (ext : list extent_t) : zio (list extent_t) :=
  if negb (ext_typeind extent =? 0) && (MAXEXTENTS <=? ext_seqno extent) then zerr EPROTO
  else if negb (ext_typeind extent =? 0) then zok (<[Z.to_nat (ext_seqno extent) := extent]> ext)
  else zok ext.

Fixpoint copy_extents (extents : list extent_t) (ext : list extent_t) : zio (list extent_t) :=
  match extents with
  | [] => zok ext
  | e :: extents => ext <-? copy_extent_to_datasetpart e ext; copy_extents extents ext
  end.

(** [while (!rc && dscb && dscb->fmtid == 0xf9)] *)
Fixpoint skip_format9 (fuel : nat) (rv : raw_vtoc) (dscb : option (list Z)) : zio (option (list Z)) :=
  match dscb with
  | Some l =>
      if dscb_fmtid l =? 0xf9 then
        match fuel with
        | O => OutOfFuel
        | S fuel =>
            dscb <-? lzds_raw_vtoc_get_dscb_from_cchhb rv (DS9PTRDS (cdec cformat9 l));
            skip_format9 fuel rv dscb
        end
      else zok (Some l)
  | None => zok None
  end.

(** [while (f3)] *)
Fixpoint format3_chain (fuel : nat) (rv : raw_vtoc) (f3 : option (list Z)) (ext : list extent_t) : zio (list extent_t) :=
  match f3 with
  | None => zok ext
  | Some l =>
      match fuel with
      | O => OutOfFuel
      | S fuel =>
          let f3 := cdec cformat3 l in
          if negb (DS3FMTID f3 =? 0xf3) then zerr EPROTO
          else
            ext <-? copy_extents (DS3EXTNT f3 ++ DS3ADEXT f3) ext;
            match lzds_raw_vtoc_get_dscb_from_cchhb rv (DS3PTRDS f3) with
            | Done (inr next) => format3_chain fuel rv next ext
            | Done (inl _) => zerr EPROTO
            | Exited rc => Exited rc
            | Fault => Fault
            | OutOfFuel => OutOfFuel
            end
      end
  end.

(** a chain without a cycle visits every record of the VTOC at most once *)
Definition chain_fuel (rv : raw_vtoc) : nat := S (length (vtocindex rv)).

(** the first format 3 DSCB of a data set, behind its format 9 DSCBs *)
Definition first_format3 (rv : raw_vtoc) (f1 : format1_label_t) : zio (option (list Z)) :=
  match (dscb <-? lzds_raw_vtoc_get_dscb_from_cchhb rv (DS1PTRDS f1); skip_format9 (chain_fuel rv) rv dscb) with
  | Done (inl _) => zerr EPROTO
  | Done (inr (Some l)) => zok (if dscb_fmtid l =? 0xf3 then Some l else None)
  | r => r
  end.

Definition no_extents : list extent_t := replicate 16 zero_extent.

Definition raw_vtoc_get_datasetpart_from_dscb (rv : raw_vtoc) (f1 : format1_label_t) : zio (list extent_t) :=
  f3 <-? first_format3 rv f1;
  ext <-? copy_extents [DS1EXT1 f1; DS1EXT2 f1; DS1EXT3 f1] no_extents;
  format3_chain (chain_fuel rv) rv f3 ext.

(** a name of [n] EBCDIC characters as a C string, up to the first blank *)
Definition ebcdic_name (field : list Z) (n : nat) : list Z :=
  let s := cstr (map ebc2asc (strncpy field n)) in
  match strchr s 32 with Some i => take i s | None => s end.

Definition create_dataset_from_dscb (d : dasd) (f1 : format1_label_t) : zio dataset :=
  rv ← deref (d_rawvtoc d);
  ext <-? raw_vtoc_get_datasetpart_from_dscb rv f1;
  let dspindex := DS1VOLSQ f1 - 1 in
  if (dspindex <? 0) || (MAXVOLUMESPERDS <=? dspindex) then zerr EPROTO
  else zok (Dataset (ebcdic_name (DS1DSNAM f1) 44)
              (<[Z.to_nat dspindex := Some (Datasetpart d f1 ext)]> (replicate (Z.to_nat MAXVOLUMESPERDS) None))
              1 (if dspindex =? 0 then 1 else 0) None).

(** ** Queries *)

Definition extent_contains_userdata (ext : extent_t) : bool := (ext_typeind ext =? 0x01) || (ext_typeind ext =? 0x81).

Definition get_extent_size_in_tracks (ext : extent_t) (d : dasd) : Z :=
  if negb (extent_contains_userdata ext) then 0
  else u32 (lzds_dasd_cchh2trk d (ext_ulimit ext) - lzds_dasd_cchh2trk d (ext_llimit ext) + 1).

Definition part_size_in_tracks (p : option datasetpart) : Z :=
  match p with
  | Some p => fold_left (λ s e, s + get_extent_size_in_tracks e (dp_dasdi p)) (dp_ext p) 0
  | None => 0
  end.

Definition lzds_dataset_get_size_in_tracks (ds : dataset) : Z :=
  u64 (fold_left (λ s p, s + part_size_in_tracks p) (ds_dsp ds) 0).

Definition lzds_dataset_get_is_PDS (ds : dataset) : outcome bool :=
  p ← deref (dsp ds 0);
  Done (flag (Z.land (DS1DSRG1 (dp_f1 p)) 0x02)).

Definition lzds_dataset_get_is_supported (ds : dataset) : bool :=
  match dsp ds 0 with
  | None => false
  | Some p =>
      let f1 := dp_f1 p in
      let complete := flag (ds_iscomplete ds) in
      let org_supported := flag (Z.land (DS1DSRG1 f1) 0x40) || flag (Z.land (DS1DSRG1 f1) 0x02) in
      let not_ext_fmt := negb (flag (Z.land (DS1SMSFG f1) 0x0C)) in
      let format_supported := flag (Z.land (DS1RECFM f1) 0xC0) && negb (flag (Z.land (DS1RECFM f1) 0x20)) in
      complete && org_supported && format_supported && not_ext_fmt
  end.

(** without a list of members the iterator cannot be allocated *)
Definition lzds_dataset_get_member_by_name (ds : dataset) (membername : list Z) : zio pdsmember :=
  match ds_memberlist ds with
  | None => zerr ENOMEM
  | Some l =>
      match List.find (λ m, bool_decide (m_name m = cstr membername)) l with
      | Some m => zok m
      | None => zerr ENOENT
      end
  end.

(** the record format as a string *)
Definition lzds_DS1RECFM_to_recfm (recfm : Z) : list Z :=
  let bit m := flag (Z.land recfm m) in
  (if bit 0x80 && negb (bit 0x40) then bytes_of_string "F" else []) ++
  (if negb (bit 0x80) && bit 0x40 then bytes_of_string "V" else []) ++
  (if bit 0x80 && bit 0x40 then bytes_of_string "U" else []) ++
  (if bit 0x20 then bytes_of_string "T" else []) ++
  (if bit 0x10 then bytes_of_string "B" else []) ++
  (if bit 0x08 then bytes_of_string "S" else []) ++
  (if bit 0x04 && negb (bit 0x02) then bytes_of_string "A" else []) ++
  (if negb (bit 0x04) && bit 0x02 then bytes_of_string "M" else []).

(** ** Members *)

(** [struct pds_member_entry] and its size *)
Definition member_entry_size : Z := 12.
Definition dataset_add_member (entry : list Z) (members : list pdsmember) : list pdsmember :=
  members ++ [Pdsmember (ebcdic_name (take 8 entry) 8) (be_dec (take 2 (drop 8 entry))) (entry !!! 10%nat)
                (Z.shiftr (entry !!! 11%nat) 7)].
Definition user_data_count (entry : list Z) : Z := Z.land (entry !!! 11%nat) 0x1f.

(** [while (residual > 0)]: the members and the end marker *)
Fixpoint entries_loop (fuel : nat) (b : mem) (data residual : Z) (members : list pdsmember) (dirend : bool)
    : outcome (list pdsmember * bool) :=
  match fuel with
  | O => OutOfFuel
  | S fuel =>
      if 0 <? residual then
        e ← is_endtoken b RAWTRACKSIZE data;
        if e : bool then Done (members, true)
        else
          entry ← mem_read b RAWTRACKSIZE data 12;
          let user_data_size := 2 * user_data_count entry in
          entries_loop fuel b (data + (member_entry_size + user_data_size))
            (residual - (member_entry_size + user_data_size)) (dataset_add_member entry members) dirend
      else Done (members, dirend)
  end.

(** 256 bytes hold at most 21 entries *)
Definition entries_fuel : nat := 23.

(** one directory record: its key is the end token in the last one *)
Definition directory_record (b : mem) (record : Z) (members : list pdsmember) : zio (list pdsmember * bool) :=
  ecount ← get_count b RAWTRACKSIZE record;
  if negb (ec_kl ecount =? PDS_DIR_KL) || negb (ec_dl ecount =? PDS_DIR_DL) then zerr EPROTO
  else
    let data := record + 8 in
    dirend ← is_endtoken b RAWTRACKSIZE data;
    let data := data + ec_kl ecount in
    l ← mem_read b RAWTRACKSIZE data 2;
    let used_bytes := be_dec l in
    if (used_bytes <? 2) || (ec_dl ecount <? used_bytes) then zerr EPROTO
    else zlift (entries_loop entries_fuel b (data + 2) (used_bytes - 2) members dirend).

(** the records of one track of a directory; [r] counts them *)
Fixpoint members_loop (fuel : nat) (b : mem) (record : option Z) (r : Z) (members : list pdsmember)
    : zio (list pdsmember * bool) :=
  match fuel with
  | O => OutOfFuel
  | S fuel =>
      record ← buffer_get_next_record b RAWTRACKSIZE record;
      match record with
      | None => zok (members, false)
      | Some rec =>
          if r =? 0 then members_loop fuel b (Some rec) (r + 1) members
          else
            p <-? directory_record b rec members;
            if p.2 : bool then zok p else members_loop fuel b (Some rec) (r + 1) p.1
      end
  end.

Definition extract_members_from_track (trackdata : mem) (members : list pdsmember) : zio (list pdsmember * bool) :=
  members_loop (record_fuel RAWTRACKSIZE) trackdata None 0 members.

(** [while (currenttrack <= extendtrk)], [n] tracks to go *)
Fixpoint directory_tracks (n : nat) (d : dasd) (currenttrack extendtrk : Z) (members : list pdsmember)
    : zio (list pdsmember * bool) :=
  match n with
  | O => zok (members, false)
  | S n =>
      '(rc, trackdata) ← lzds_dasdhandle_read_tracks_to_buffer d true currenttrack currenttrack mem_new;
      if negb (rc =? 0) then zerr rc
      else
        p <-? extract_members_from_track trackdata members;
        if p.2 : bool then zok p else directory_tracks n d (currenttrack + 1) extendtrk p.1
  end.

(** the extents up to the end of the directory *)
Fixpoint directory_extents (ext : list extent_t) (d : dasd) (members : list pdsmember) : zio (list pdsmember) :=
  match ext with
  | [] => zok members
  | e :: ext =>
      if negb (extent_contains_userdata e) then directory_extents ext d members
      else
        let extstarttrk := lzds_dasd_cchh2trk d (ext_llimit e) in
        let extendtrk := lzds_dasd_cchh2trk d (ext_ulimit e) in
        p <-? directory_tracks (Z.to_nat (extendtrk - extstarttrk + 1)) d extstarttrk extendtrk members;
        if p.2 : bool then zok p.1 else directory_extents ext d p.1
  end.

Definition dataset_member_analysis (ds : dataset) : zio dataset :=
  match dsp ds 0 with
  | None => zok ds
  | Some p =>
      if negb (flag (Z.land (DS1DSRG1 (dp_f1 p)) 0x02)) then zok ds
      else if negb (lzds_dataset_get_is_supported ds) then zok ds
      else if negb (k_open (d_disk (dp_dasdi p))) then zerr EIO
      else
        members <-? directory_extents (dp_ext p) (dp_dasdi p) [];
        if negb (k_close (d_disk (dp_dasdi p))) then zerr EIO
        else zok (set_ds_memberlist (Some members) ds)
  end.

(** ** Merging *)

Definition is_Some_b {A} (o : option A) : bool := match o with Some _ => true | None => false end.

(** the new part belongs to the same first volume as the parts that are there *)
Definition same_base_volume (base : list (option datasetpart)) (p : datasetpart) : bool :=
  match head (omap id base) with
  | Some q => bool_decide (take 6 (DS1DSSN (dp_f1 q)) = take 6 (DS1DSSN (dp_f1 p)))
  | None => true
  end.

(** the first loop: 0 or an error code, with the parts and their number *)
Fixpoint merge_parts (n : nat) (k : nat) (newds : list (option datasetpart)) (base : list (option datasetpart)) (dspcount : Z)
    : Z * list (option datasetpart) * Z :=
  match n with
  | O => (0, base, dspcount)
  | S n =>
      match mjoin (base !! k), mjoin (newds !! k) with
      | Some _, Some _ => (EPROTO, base, dspcount)
      | None, Some p =>
          if negb (same_base_volume base p) then (EPROTO, base, dspcount)
          else merge_parts n (S k) newds (<[k := Some p]> base) (dspcount + 1)
      | _, None => merge_parts n (S k) newds base dspcount
      end
  end.

(** the last of [dspcount] parts is there and says that it is the last one *)
Definition last_part_found (ds : dataset) : bool :=
  match dsp ds (ds_dspcount ds - 1) with
  | Some p => flag (Z.land (DS1DSIND (dp_f1 p)) 0x80)
  | None => false
  end.

Definition dataset_merge_dataset (baseds newds : dataset) : outcome (Z * dataset) :=
  let '(rc, parts, dspcount) :=
    merge_parts (Z.to_nat MAXVOLUMESPERDS) 0 (ds_dsp newds) (ds_dsp baseds) (ds_dspcount baseds) in
  let baseds := set_ds_dsp parts dspcount baseds in
  if negb (rc =? 0) then Done (rc, baseds)
  else if dspcount <? 1 then Fault
  else if last_part_found baseds then
    if forallb is_Some_b (take (Z.to_nat dspcount) (ds_dsp baseds))
    then Done (0, set_ds_iscomplete 1 baseds)
    else Done (EPROTO, set_ds_iscomplete 0 baseds)
  else Done (0, set_ds_iscomplete 0 baseds).

(** the first data set with a name *)
Fixpoint find_dataset (l : list dataset) (name : list Z) : option nat :=
  match l with
  | [] => None
  | ds :: l => if bool_decide (ds_name ds = name) then Some O else S <$> find_dataset l name
  end.

Definition lzds_zdsroot_find_dataset (root : zdsroot) (name : list Z) : option dataset :=
  i ← find_dataset (r_datasetlist root) (cstr name); r_datasetlist root !! i.

Definition set_datasets (l : list dataset) (root : zdsroot) : zdsroot := Zdsroot (r_dasdlist root) l.

Definition zdsroot_merge_dataset (root : zdsroot) (newds : dataset) : outcome (Z * zdsroot) :=
  match find_dataset (r_datasetlist root) (ds_name newds) with
  | Some i =>
      rootds ← deref (r_datasetlist root !! i);
      '(rc, rootds) ← dataset_merge_dataset rootds newds;
      Done (rc, set_datasets (<[i := rootds]> (r_datasetlist root)) root)
  | None => Done (0, set_datasets (r_datasetlist root ++ [newds]) root)
  end.

(** one DSCB of the VTOC *)
Definition extract_dscb (d : dasd) (dscb : list Z) (root : zdsroot) : outcome (Z * zdsroot) :=
  if (dscb_fmtid dscb =? 0xf1) || (dscb_fmtid dscb =? 0xf8) then
    r ← (ds <-? create_dataset_from_dscb d (cdec cformat1 dscb); dataset_member_analysis ds);
    match r with
    | inl rc => Done (rc, root)
    | inr ds => zdsroot_merge_dataset root ds
    end
  else Done (0, root).

Fixpoint extract_loop (fuel : nat) (d : dasd) (rv : raw_vtoc) (i : Z) (root : zdsroot) : outcome (Z * zdsroot) :=
  match fuel with
  | O => OutOfFuel
  | S fuel =>
      r ← lzds_dscbiterator_get_next_dscb rv i;
      match r with
      | None => Done (0, root)
      | Some (i, dscb) =>
          '(rc, root) ← extract_dscb d dscb root;
          if negb (rc =? 0) then Done (rc, root) else extract_loop fuel d rv i root
      end
  end.

Definition lzds_zdsroot_extract_datasets_from_dasd (root : zdsroot) (d : dasd) : outcome (Z * zdsroot) :=
  rv ← deref (d_rawvtoc d);
  extract_loop (S (Z.to_nat (vtocindexcount rv))) d rv (lzds_raw_vtoc_alloc_dscbiterator rv) root.

(** ** The devices of the root *)

Definition lzds_zdsroot_get_dasd_by_node_name (root : zdsroot) (device : list Z) : zio dasd :=
  match List.find (λ d, bool_decide (d_device d = cstr device)) (r_dasdlist root) with
  | Some d => zok d
  | None => zerr ENODEV
  end.

Definition zdsroot_is_duplicate_device (root : zdsroot) (devnode : list Z) : bool :=
  match lzds_zdsroot_get_dasd_by_node_name root devnode with Done (inr _) => true | _ => false end.

Definition lzds_zdsroot_add_device (root : zdsroot) (devnode : list Z) (k : disk) : zio (zdsroot * dasd) :=
  if zdsroot_is_duplicate_device root devnode then zerr EINVAL
  else if negb (k_open k) then zerr EIO
  else
    match dasd_read_geometry (cstr devnode) k with
    | Done (inr d) => zok (Zdsroot (r_dasdlist root ++ [d]) (r_datasetlist root), d)
    | _ => zerr EIO
    end.

Definition lzds_zdsroot_alloc : zdsroot := Zdsroot [] [].

End ZdsDataset.
