(* ===== verification/ZdsRead.v ===== *)
(** Reading data sets with libzds (src/libzds/libzds.c): the handle of a data set,
    the extraction of the user data from raw tracks, and [read] and [lseek] on it.
    The tracks are read in frames of a fixed number of tracks; the positions of
    some frames are kept in a buffer for the way back. *)
From S2P Require Import Prelude Ebcdic Cchh Codec Labels LabelOps Zds ZdsDataset.
Import Addr Zds ZdsDataset.

Record seekelement := Seekelement {
  se_dsp_no : Z;
  se_ext_seq_no : Z;
  se_bufstarttrk : Z;
  se_databufoffset : Z
}.

(** the position of a handle on the disks *)
Record position := Position {
  dsp_no : Z;
  ext_seq_no : Z;
  extstarttrk : Z;
  extendtrk : Z;
  bufstarttrk : Z;
  bufendtrk : Z
}.

(** A code page conversion with [iconv]: the converted bytes, if the whole input
    can be converted and fits into the space.  [close] frees the conversion and
    keeps the pointer. *)
Inductive conversion :=
  | NoConv
  | Conv (iconv : list Z → Z → option (list Z))
  | FreedConv.

Record dshandle := Dshandle {
  h_ds : dataset;
  h_member : option pdsmember;
  h_tracks_per_frame : Z;
  h_keepRDW : Z;
  h_iconv : conversion;
  h_rawbufmax : Z;
  h_databufmax : Z;
  h_is_open : bool;
  h_fd : list bool;
  h_seekbuf : list seekelement;
  h_seek_count : Z;
  h_seek_current : Z;
  h_skip : Z;
  h_pos : position;
  h_frameno : Z;
  h_startrecord : Z;
  h_eof_reached : bool;
  h_rawbuffer : mem;
  h_rawbufsize : Z;
  h_databuffer : list Z;
  h_databufsize : Z;
  h_databufoffset : Z;
  h_bufpos : Z
}.

(** ** Updates of a handle *)

Section Setters.
Context (h : dshandle).

(** the settings of a closed handle *)
Definition set_h_settings (member : option pdsmember) (keepRDW : Z) (iconv : conversion) (databufmax : Z) : dshandle :=
  Dshandle (h_ds h) member (h_tracks_per_frame h) keepRDW iconv (h_rawbufmax h) databufmax (h_is_open h) (h_fd h)
    (h_seekbuf h) (h_seek_count h) (h_seek_current h) (h_skip h) (h_pos h) (h_frameno h) (h_startrecord h)
    (h_eof_reached h) (h_rawbuffer h) (h_rawbufsize h) (h_databuffer h) (h_databufsize h) (h_databufoffset h) (h_bufpos h).

Definition set_h_open (is_open : bool) (fd : list bool) (iconv : conversion) : dshandle :=
  Dshandle (h_ds h) (h_member h) (h_tracks_per_frame h) (h_keepRDW h) iconv (h_rawbufmax h) (h_databufmax h) is_open fd
    (h_seekbuf h) (h_seek_count h) (h_seek_current h) (h_skip h) (h_pos h) (h_frameno h) (h_startrecord h)
    (h_eof_reached h) (h_rawbuffer h) (h_rawbufsize h) (h_databuffer h) (h_databufsize h) (h_databufoffset h) (h_bufpos h).

Definition set_h_seek (seekbuf : list seekelement) (seek_count seek_current skip : Z) : dshandle :=
  Dshandle (h_ds h) (h_member h) (h_tracks_per_frame h) (h_keepRDW h) (h_iconv h) (h_rawbufmax h) (h_databufmax h)
    (h_is_open h) (h_fd h) seekbuf seek_count seek_current skip (h_pos h) (h_frameno h) (h_startrecord h)
    (h_eof_reached h) (h_rawbuffer h) (h_rawbufsize h) (h_databuffer h) (h_databufsize h) (h_databufoffset h) (h_bufpos h).

(** the position, with the size of the data in the buffer *)
Definition set_h_pos (pos : position) (frameno startrecord : Z) (eof_reached : bool)
    (rawbufsize databufsize databufoffset bufpos : Z) : dshandle :=
  Dshandle (h_ds h) (h_member h) (h_tracks_per_frame h) (h_keepRDW h) (h_iconv h) (h_rawbufmax h) (h_databufmax h)
    (h_is_open h) (h_fd h) (h_seekbuf h) (h_seek_count h) (h_seek_current h) (h_skip h) pos frameno startrecord
    eof_reached (h_rawbuffer h) rawbufsize (h_databuffer h) databufsize databufoffset bufpos.

(** the buffers *)
Definition set_h_data (rawbuffer : mem) (databuffer : list Z) (databufsize startrecord : Z) (eof_reached : bool) : dshandle :=
  Dshandle (h_ds h) (h_member h) (h_tracks_per_frame h) (h_keepRDW h) (h_iconv h) (h_rawbufmax h) (h_databufmax h)
    (h_is_open h) (h_fd h) (h_seekbuf h) (h_seek_count h) (h_seek_current h) (h_skip h) (h_pos h) (h_frameno h)
    startrecord eof_reached rawbuffer (h_rawbufsize h) databuffer databufsize (h_databufoffset h) (h_bufpos h).

Definition set_h_bufpos (bufpos : Z) : dshandle :=
  set_h_pos (h_pos h) (h_frameno h) (h_startrecord h) (h_eof_reached h) (h_rawbufsize h) (h_databufsize h)
    (h_databufoffset h) bufpos.

Definition set_h_rawbuffer (rawbuffer : mem) : dshandle :=
  set_h_data rawbuffer (h_databuffer h) (h_databufsize h) (h_startrecord h) (h_eof_reached h).

End Setters.

Module ZdsRead.

Definition EBCDIC_SP : Z := 0x40.
Definition EBCDIC_LF : Z := 0x25.

(** ** Handles *)

Definition position0 : position := Position 0 0 0 0 0 0.

(** one device handle per part, of which each must be there *)
Definition lzds_dataset_alloc_dshandle (ds : dataset) (tracks_per_frame : Z) : outcome dshandle :=
  if negb (forallb is_Some_b (take (Z.to_nat (ds_dspcount ds)) (ds_dsp ds))) then Fault
  else
    let tracks_per_frame := if flag tracks_per_frame then tracks_per_frame else TRACK_BUFFER_DEFAULT in
    Done (Dshandle ds None tracks_per_frame 0 NoConv (u32 (tracks_per_frame * RAWTRACKSIZE))
            (u32 (tracks_per_frame * MAXRECSIZE)) false (replicate (Z.to_nat (ds_dspcount ds)) false)
            [] 0 0 0 position0 0 0 false mem_new 0 [] 0 0 0).

(** [sizeof(struct seekelement)] *)
Definition seekelement_size : Z := 16.

Definition used_extents (p : option datasetpart) : outcome Z :=
  p ← deref p;
  Done (Z.of_nat (length (filter (λ e, ext_typeind e ≠ 0) (dp_ext p)))).

Fixpoint count_extents (parts : list (option datasetpart)) : outcome Z :=
  match parts with
  | [] => Done 0
  | p :: parts => n ← used_extents p; m ← count_extents parts; Done (n + m)
  end.

Definition seekelement0 : seekelement := Seekelement 0 0 0 0.

Definition lzds_dshandle_set_seekbuffer (h : dshandle) (seek_buffer_size : Z) : outcome dshandle :=
  let h := set_h_seek h [] 0 0 0 in
  if seek_buffer_size =? 0 then Done h
  else
    let totaltracks := lzds_dataset_get_size_in_tracks (h_ds h) in
    extents ← count_extents (take (Z.to_nat (ds_dspcount (h_ds h))) (ds_dsp (h_ds h)));
    let entries := seek_buffer_size / seekelement_size in
    let frames := u64 (totaltracks / h_tracks_per_frame h + 1 + extents) in
    q ← udiv frames entries;
    let skip := u32 (q + 1) in
    r ← udiv frames skip;
    let buf_count := u64 (r + 1) in
    Done (set_h_seek h (replicate (Z.to_nat buf_count) seekelement0) buf_count 0 skip).

Definition lzds_dshandle_set_member (h : dshandle) (membername : list Z) : outcome (Z * dshandle) :=
  if h_is_open h then Done (EBUSY, h)
  else
    let set m := set_h_settings h m (h_keepRDW h) (h_iconv h) (h_databufmax h) in
    ispds ← lzds_dataset_get_is_PDS (h_ds h);
    if negb ispds then Done (EINVAL, set None)
    else
      r ← lzds_dataset_get_member_by_name (h_ds h) membername;
      Done match r with
           | inl rc => (rc, set None)
           | inr m => (0, set (Some m))
           end.

Definition lzds_dshandle_set_keepRDW (h : dshandle) (keepRDW : Z) : Z * dshandle :=
  if h_is_open h then (EBUSY, h)
  else (0, set_h_settings h (h_member h) keepRDW (h_iconv h) (h_databufmax h)).

(** a conversion can make the data four times as long *)
Definition lzds_dshandle_set_iconv (h : dshandle) (iconv : option (list Z → Z → option (list Z))) : Z * dshandle :=
  if h_is_open h then (EBUSY, h)
  else
    match iconv with
    | Some f => (0, set_h_settings h (h_member h) (h_keepRDW h) (Conv f) (h_databufmax h * 4))
    | None => (0, set_h_settings h (h_member h) (h_keepRDW h) NoConv (h_databufmax h))
    end.

(** ** Open and close *)

(** the search for the extent that holds the first track of a member: the
    position in front of that track; [None] if no extent does *)
Fixpoint member_position (d : dasd) (ext : list extent_t) (j tracksum track : Z) (pos : position) : option position :=
  match ext with
  | [] => None
  | e :: ext =>
      if negb (extent_contains_userdata e) then member_position d ext (j + 1) tracksum track pos
      else
        let starttrck := lzds_dasd_cchh2trk d (ext_llimit e) in
        let endtrck := lzds_dasd_cchh2trk d (ext_ulimit e) in
        let extentsize := u32 (endtrck - starttrck + 1) in
        if track =? tracksum then
          Some (Position (dsp_no pos) (j - 1) (extstarttrk pos) 0 (bufstarttrk pos) 0)
        else if track <? tracksum + extentsize then
          Some (Position (dsp_no pos) j starttrck endtrck starttrck (u32 (starttrck + (track - tracksum) - 1)))
        else member_position d ext (j + 1) (tracksum + extentsize) track pos
  end.

Definition initialize_buffer_positions_for_first_read (h : dshandle) : outcome (Z * dshandle) :=
  let pos := h_pos h in
  let start pos startrecord := set_h_pos h pos (-1) startrecord false (h_rawbufsize h) 0 0 0 in
  match h_member h with
  | None => Done (0, start (Position 0 (-1) 0 0 0 0) (h_startrecord h))
  | Some m =>
      let pos := Position 0 (ext_seq_no pos) (extstarttrk pos) (extendtrk pos) (bufstarttrk pos) (bufendtrk pos) in
      if negb (ds_dspcount (h_ds h) =? 1) then Done (EPROTO, start pos (h_startrecord h))
      else
        p ← deref (dsp (h_ds h) 0);
        Done (0, start match member_position (dp_dasdi p) (dp_ext p) 0 0 (m_track m) pos with
                       | Some pos => pos
                       | None => pos
                       end (m_record m))
  end.

(** the conversion and its buffer are freed, but not forgotten *)
Definition lzds_dshandle_close (h : dshandle) : outcome dshandle :=
  match h_iconv h with
  | FreedConv => Fault
  | NoConv => Done (set_h_open h false (map (λ _, false) (h_fd h)) NoConv)
  | Conv _ => Done (set_h_open h false (map (λ _, false) (h_fd h)) FreedConv)
  end.

Definition part_opens (p : option datasetpart) : bool :=
  match p with Some p => k_open (d_disk (dp_dasdi p)) | None => false end.

Definition lzds_dshandle_open (h : dshandle) : outcome (Z * dshandle) :=
  if negb (lzds_dataset_get_is_supported (h_ds h)) then Done (ENOTSUP, h)
  else
    ispds ← lzds_dataset_get_is_PDS (h_ds h);
    if ispds && negb (is_Some_b (h_member h)) then Done (EINVAL, h)
    else
      '(rc, h) ← initialize_buffer_positions_for_first_read h;
      if negb (rc =? 0) then Done (rc, h)
      else
        let parts := take (Z.to_nat (ds_dspcount (h_ds h))) (ds_dsp (h_ds h)) in
        if negb (forallb part_opens parts) then h ← lzds_dshandle_close h; Done (EIO, h)
        else Done (0, set_h_open h true (map (λ _, true) parts) (h_iconv h)).

(** ** Records *)

(** the bytes without the blanks at the end *)
Fixpoint strip_blanks (rev_line : list Z) : list Z :=
  match rev_line with
  | c :: r => if c =? EBCDIC_SP then strip_blanks r else rev_line
  | [] => []
  end.

(** [reccount] lines of [reclen] bytes, each with a line feed *)
Fixpoint record_lines (reccount : nat) (reclen : nat) (src : list Z) : list Z :=
  match reccount with
  | O => []
  | S n => rev (strip_blanks (rev (take reclen src))) ++ [EBCDIC_LF] ++ record_lines n reclen (drop reclen src)
  end.

(** the size of the buffer for the lines is the one of the data buffer *)
Definition convert_fixed_record (h : dshandle) (f1 : format1_label_t) (iconv : list Z → Z → option (list Z))
    (data : list Z) (target : Z) : zio (list Z) :=
  let reclen := DS1LRECL f1 in
  reccount ← udiv (Z.of_nat (length data)) reclen;
  let lines := record_lines (Z.to_nat reccount) (Z.to_nat reclen) data in
  if h_databufmax h <? Z.of_nat (length lines) then Fault
  else match iconv lines (h_databufmax h - target) with
       | Some out => zok out
       | None => zerr EPROTO
       end.

(** [target] is the place in the data buffer *)
Definition parse_fixed_record (h : dshandle) (f1 : format1_label_t) (raw : mem) (rec target : Z) : zio (list Z) :=
  ecount ← get_count raw (h_rawbufmax h) rec;
  if h_databufmax h <? target + ec_dl ecount then zerr EPROTO
  else
    data ← mem_read raw (h_rawbufmax h) (rec + 8 + ec_kl ecount) (Z.to_nat (ec_dl ecount));
    match h_iconv h with
    | NoConv => zok data
    | Conv f => convert_fixed_record h f1 f data target
    | FreedConv => Fault
    end.

(** the line feed is put behind the record, into the raw track if that is not
    its end marker *)
Definition convert_variable_record (h : dshandle) (iconv : list Z → Z → option (list Z)) (raw : mem)
    (reclen rec target : Z) : outcome (Z * list Z * mem) :=
  l ← mem_read raw (h_rawbufmax h) rec (Z.to_nat reclen);
  next ← mem_read raw (h_rawbufmax h) (rec + reclen) 1;
  let raw := if headc next =? 0xFF then raw else mem_set raw (rec + reclen) 0x25 in
  Done match iconv (l ++ [0x25]) (h_databufmax h - target) with
       | Some out => (0, out, raw)
       | None => (EPROTO, [], raw)
       end.

(** [struct segment_header] *)
Definition seg_null (l : list Z) : bool := flag (Z.land (be_dec (take 2 l)) 0x8000).
Definition seg_length (l : list Z) : Z := Z.land (be_dec (take 2 l)) 0x7fff.

(** [while (residual)]: 0 or an error code, the data, and the raw tracks *)
Fixpoint segments_loop (fuel : nat) (h : dshandle) (raw : mem) (data residual target : Z) (out : list Z)
    : outcome (Z * list Z * mem) :=
  if residual =? 0 then Done (0, out, raw)
  else
    match fuel with
    | O => OutOfFuel
    | S fuel =>
        seghead ← mem_read raw (h_rawbufmax h) data 4;
        let segmentlength := seg_length seghead in
        if seg_null seghead || (segmentlength =? 0) then Done (0, out, raw)
        else if (residual <? segmentlength) || (segmentlength <? 4) then Done (EPROTO, out, raw)
        else
          let residual := residual - segmentlength in
          let '(data, segmentlength) :=
            if flag (h_keepRDW h) then (data, segmentlength) else (data + 4, segmentlength - 4) in
          if h_databufmax h <? target + segmentlength then Done (EPROTO, out, raw)
          else
            match h_iconv h with
            | Conv f =>
                '(rc, l, raw) ← convert_variable_record h f raw segmentlength data target;
                if negb (rc =? 0) then Done (rc, out, raw)
                else segments_loop fuel h raw (data + segmentlength) residual (target + Z.of_nat (length l)) (out ++ l)
            | FreedConv => Fault
            | NoConv =>
                l ← mem_read raw (h_rawbufmax h) data (Z.to_nat segmentlength);
                segments_loop fuel h raw (data + segmentlength) residual (target + segmentlength) (out ++ l)
            end
    end.

Definition parse_variable_record (h : dshandle) (raw : mem) (rec target : Z) : outcome (Z * list Z * mem) :=
  ecount ← get_count raw (h_rawbufmax h) rec;
  if ec_dl ecount =? 0 then Done (0, [], raw)
  else if ec_dl ecount <? 4 then Done (EPROTO, [], raw)
  else
    let data := rec + 8 + ec_kl ecount in
    blockhead ← mem_read raw (h_rawbufmax h) data 4;
    let blocklength := seg_length blockhead in
    if blocklength =? 0 then Done (0, [], raw)
    else if (blocklength <? 4) || (ec_dl ecount <? blocklength) then Done (EPROTO, [], raw)
    else segments_loop (Z.to_nat blocklength) h raw (data + 4) (blocklength - 4) target [].

(** ** Tracks *)

(** what the extraction changes: the raw tracks, the data buffer up to its used
    size, and two variables of the handle *)
Record extraction := Extraction {
  x_raw : mem;
  x_data : list Z;
  x_startrecord : Z;
  x_eof : bool
}.

(** the data of one record, for the record format of the data set *)
Definition record_data (h : dshandle) (f1 : format1_label_t) (raw : mem) (rec target : Z) : outcome (Z * list Z * mem) :=
  if flag (Z.land (DS1RECFM f1) 0x80) then
    r ← parse_fixed_record h f1 raw rec target;
    Done match r with inl rc => (rc, [], raw) | inr l => (0, l, raw) end
  else if flag (Z.land (DS1RECFM f1) 0x40) then parse_variable_record h raw rec target
  else Done (0, [], raw).

(** [while (!dsh->eof_reached)]: the records of the track at [track] *)
Fixpoint track_loop (fuel : nat) (h : dshandle) (f1 : format1_label_t) (track rawdata record : Z) (x : extraction)
    : outcome (Z * extraction) :=
  if x_eof x then Done (0, x)
  else
    match fuel with
    | O => OutOfFuel
    | S fuel =>
        ecount ← get_count (x_raw x) (h_rawbufmax h) rawdata;
        let record_size := 8 + ec_kl ecount + ec_dl ecount in
        if track + RAWTRACKSIZE <? rawdata + record_size then Done (EPROTO, x)
        else
          let wanted := x_startrecord x <=? record in
          '(rc, l, raw) ← (if wanted then record_data h f1 (x_raw x) rawdata (Z.of_nat (length (x_data x)))
                           else Done (0, [], x_raw x));
          if negb (rc =? 0) then Done (EPROTO, Extraction raw (x_data x) (x_startrecord x) false)
          else
            let eof := wanted && (ec_kl ecount =? 0) && (ec_dl ecount =? 0) in
            let x := Extraction raw (x_data x ++ l) (x_startrecord x) eof in
            let rawdata := rawdata + record_size in
            if track + RAWTRACKSIZE <? rawdata + 8 then Done (EPROTO, x)
            else
              e ← is_endtoken raw (h_rawbufmax h) rawdata;
              if e : bool then Done (0, x) else track_loop fuel h f1 track rawdata (record + 1) x
    end.

Definition track_fuel : nat := Z.to_nat (RAWTRACKSIZE / 8).

(** [for (i = 0; i < trckcount && !dsh->eof_reached; ++i)] *)
Fixpoint tracks_loop (trckcount : nat) (h : dshandle) (f1 : format1_label_t) (track : Z) (x : extraction)
    : outcome (Z * extraction) :=
  match trckcount with
  | O => Done (0, x)
  | S n =>
      if x_eof x then Done (0, x)
      else
        '(rc, x) ← track_loop track_fuel h f1 track track 0 x;
        if negb (rc =? 0) then Done (rc, x)
        else tracks_loop n h f1 (track + RAWTRACKSIZE) (Extraction (x_raw x) (x_data x) 1 (x_eof x))
  end.

Definition dshandle_extract_data_from_trackbuffer (h : dshandle) : outcome (Z * dshandle) :=
  p ← deref (dsp (h_ds h) 0);
  let trckcount := Z.to_nat (h_rawbufsize h / RAWTRACKSIZE) in
  let startrecord := if h_startrecord h =? 0 then 1 else h_startrecord h in
  '(rc, x) ← tracks_loop trckcount h (dp_f1 p) 0 (Extraction (h_rawbuffer h) [] startrecord (h_eof_reached h));
  Done (rc, set_h_data h (x_raw x) (x_data x) (Z.of_nat (length (x_data x))) (x_startrecord x) (x_eof x)).

(** ** Frames *)

(** the next extent with user data behind a position *)
Fixpoint next_extent (fuel : nat) (ds : dataset) (dsp_no ext_seq_no : Z) : outcome (option (Z * Z * datasetpart * extent_t)) :=
  match fuel with
  | O => OutOfFuel
  | S fuel =>
      let ext_seq_no := ext_seq_no + 1 in
      let '(dsp_no, ext_seq_no) := if MAXEXTENTS <=? ext_seq_no then (dsp_no + 1, 0) else (dsp_no, ext_seq_no) in
      if ds_dspcount ds <=? dsp_no then Done None
      else
        p ← deref (dsp ds dsp_no);
        e ← deref (dp_ext p !! Z.to_nat ext_seq_no);
        if extent_contains_userdata e then Done (Some (dsp_no, ext_seq_no, p, e))
        else next_extent fuel ds dsp_no ext_seq_no
  end.

Definition extent_fuel : nat := Z.to_nat (MAXVOLUMESPERDS * MAXEXTENTS + 1).

(** the end of a frame that starts at a track *)
Definition frame_end (h : dshandle) (bufstarttrk extendtrk : Z) : Z :=
  Z.min (u32 (bufstarttrk + h_rawbufmax h / RAWTRACKSIZE - 1)) extendtrk.

(** the handle is moved to a frame *)
Definition enter_frame (h : dshandle) (pos : position) : dshandle :=
  set_h_pos h pos (h_frameno h + 1) (h_startrecord h) (h_eof_reached h)
    (u32 (u32 (bufendtrk pos - bufstarttrk pos + 1) * RAWTRACKSIZE)) 0 (h_databufoffset h + h_databufsize h) 0.

Definition dshandle_prepare_for_next_read_tracks (h : dshandle) : outcome (bool * dshandle) :=
  let pos := h_pos h in
  if bufendtrk pos <? extendtrk pos then
    let start := u32 (bufendtrk pos + 1) in
    Done (true, enter_frame h (Position (dsp_no pos) (ext_seq_no pos) (extstarttrk pos) (extendtrk pos) start
                                 (frame_end h start (extendtrk pos))))
  else
    r ← next_extent extent_fuel (h_ds h) (dsp_no pos) (ext_seq_no pos);
    match r with
    | None => Done (false, h)
    | Some (dsp_no, ext_seq_no, p, e) =>
        let extstarttrk := lzds_dasd_cchh2trk (dp_dasdi p) (ext_llimit e) in
        let extendtrk := lzds_dasd_cchh2trk (dp_dasdi p) (ext_ulimit e) in
        Done (true, enter_frame h (Position dsp_no ext_seq_no extstarttrk extendtrk extstarttrk
                                     (frame_end h extstarttrk extendtrk)))
    end.

(** the seek element of the current frame *)
Definition this_frame (h : dshandle) : seekelement :=
  Seekelement (u8 (dsp_no (h_pos h))) (u8 (ext_seq_no (h_pos h))) (bufstarttrk (h_pos h)) (h_databufoffset h).

#[export] Instance seekelement_eq_dec : EqDecision seekelement.
Proof. solve_decision. Defined.

(** comparison with the values of the handle, in the width of each *)
Definition frame_matches (h : dshandle) (e : seekelement) : bool :=
  (se_dsp_no e =? dsp_no (h_pos h)) && (se_ext_seq_no e =? ext_seq_no (h_pos h)) &&
  (se_bufstarttrk e =? bufstarttrk (h_pos h)) && (se_databufoffset e =? h_databufoffset h).

Definition dshandle_store_trackframe (h : dshandle) : outcome (Z * dshandle) :=
  if (h_skip h =? 0) || bool_decide (h_seekbuf h = []) then Done (0, h)
  else if negb (u64 (h_frameno h) mod h_skip h =? 0) then Done (0, h)
  else if h_seek_count h <=? h_seek_current h then Done (ERANGE, h)
  else
    let index := u64 (h_frameno h) / h_skip h in
    if h_seek_current h <? index then Done (EPROTO, h)
    else if index <? h_seek_current h then
      e ← deref (h_seekbuf h !! Z.to_nat index);
      if frame_matches h e then Done (0, h) else Done (EINVAL, h)
    else
      Done (0, set_h_seek h (<[Z.to_nat index := this_frame h]> (h_seekbuf h)) (h_seek_count h) (h_seek_current h + 1)
                 (h_skip h)).

(** ** Read *)

(** the buffers are filled with the next frame; [None] at the end of the extents *)
Definition fill_buffer (h : dshandle) : outcome (option Z * dshandle) :=
  '(more, h) ← dshandle_prepare_for_next_read_tracks h;
  if negb more then Done (None, h)
  else
    p ← deref (dsp (h_ds h) (dsp_no (h_pos h)));
    let fd := default false (h_fd h !! Z.to_nat (dsp_no (h_pos h))) in
    '(rc, raw) ← lzds_dasdhandle_read_tracks_to_buffer (dp_dasdi p) fd (bufstarttrk (h_pos h)) (bufendtrk (h_pos h))
                   (h_rawbuffer h);
    let h := set_h_rawbuffer h raw in
    if negb (rc =? 0) then Done (Some rc, h)
    else
      '(rc, h) ← dshandle_extract_data_from_trackbuffer h;
      if negb (rc =? 0) then Done (Some rc, h)
      else '(rc, h) ← dshandle_store_trackframe h; Done (Some rc, h).

(** [while ( *rcsize < size)]: 0 or an error code, and the bytes in the buffer *)
Fixpoint read_data (fuel : nat) (h : dshandle) (size : Z) (buf : list Z) : outcome (Z * list Z * dshandle) :=
  if size <=? Z.of_nat (length buf) then Done (0, buf, h)
  else
    match fuel with
    | O => OutOfFuel
    | S fuel =>
        '(stop, rc, h) ←
          (if h_databufsize h <=? h_bufpos h then
             if h_eof_reached h then Done (true, 0, h)
             else
               '(r, h) ← fill_buffer h;
               Done match r with
                    | None => (true, 0, h)
                    | Some rc => (negb (rc =? 0), rc, h)
                    end
           else Done (false, 0, h));
        if stop : bool then Done (rc, buf, h)
        else if h_bufpos h <? h_databufsize h then
          let copysize := Z.min (size - Z.of_nat (length buf)) (h_databufsize h - h_bufpos h) in
          let l := take (Z.to_nat copysize) (drop (Z.to_nat (h_bufpos h)) (h_databuffer h)) in
          read_data fuel (set_h_bufpos h (h_bufpos h + copysize)) size (buf ++ l)
        else read_data fuel h size buf
    end.

(** every round takes a byte, or a track that holds none *)
Definition read_fuel (h : dshandle) (size : Z) : nat :=
  S (Z.to_nat size + Z.to_nat (lzds_dataset_get_size_in_tracks (h_ds h))).

Definition lzds_dshandle_read (h : dshandle) (size : Z) : outcome (Z * list Z * dshandle) :=
  if negb (h_is_open h) then Done (EINVAL, [], h) else read_data (read_fuel h size) h size [].

(** ** Seek *)

(** [while (low != high)]: a bisection *)
Fixpoint find_loop (fuel : nat) (seekbuf : list seekelement) (offset low high index : Z) : outcome Z :=
  if low =? high then Done low
  else
    match fuel with
    | O => OutOfFuel
    | S fuel =>
        e ← deref (seekbuf !! Z.to_nat index);
        if se_databufoffset e <=? offset then
          let low := index in find_loop fuel seekbuf offset low high ((high + low + 1) / 2)
        else
          let high := index - 1 in find_loop fuel seekbuf offset low high ((high + low) / 2)
    end.

(** the last element that is not behind the offset; [None] without a buffer *)
Definition dshandle_find_seekelement (h : dshandle) (offset : Z) : outcome (option Z) :=
  if h_seek_current h =? 0 then Done None
  else
    e ← deref (h_seekbuf h !! Z.to_nat (h_seek_current h - 1));
    if se_databufoffset e <=? offset then Done (Some (h_seek_current h - 1))
    else
      let high := u64 (h_seek_current h - 2) in
      i ← find_loop (Z.to_nat (h_seek_current h)) (h_seekbuf h) offset 0 high (high / 2); Done (Some i).

Definition dshandle_reset_buffer_position_to_seekelement (h : dshandle) (se_index : Z) : outcome dshandle :=
  e ← deref (h_seekbuf h !! Z.to_nat se_index);
  let frameno := se_index * h_skip h - 1 in
  let startrecord := match h_member h with
                     | Some m => if frameno =? -1 then m_record m else h_startrecord h
                     | None => h_startrecord h
                     end in
  let pos := h_pos h in
  if se_bufstarttrk e =? 0 then
    Done (set_h_pos h (Position (se_dsp_no e) (se_ext_seq_no e - 1) (extstarttrk pos) 0 (bufstarttrk pos) 0)
            frameno startrecord false (h_rawbufsize h) 0 (se_databufoffset e) 0)
  else
    p ← deref (dsp (h_ds h) (se_dsp_no e));
    x ← deref (dp_ext p !! Z.to_nat (se_ext_seq_no e));
    let start := lzds_dasd_cchh2trk (dp_dasdi p) (ext_llimit x) in
    let stop := lzds_dasd_cchh2trk (dp_dasdi p) (ext_ulimit x) in
    Done (set_h_pos h (Position (se_dsp_no e) (se_ext_seq_no e) start stop 0 (se_bufstarttrk e - 1))
            frameno startrecord false 0 0 (se_databufoffset e) 0).

(** [while (dsh->databufoffset + dsh->databufsize <= offset)] *)
Fixpoint seek_forward (fuel : nat) (h : dshandle) (offset : Z) : outcome (Z * Z * dshandle) :=
  if h_databufoffset h + h_databufsize h <=? offset then
    match fuel with
    | O => OutOfFuel
    | S fuel =>
        '(rc, l, h) ← lzds_dshandle_read (set_h_bufpos h (h_databufsize h)) 1;
        if negb (rc =? 0) || bool_decide (l = []) then Done (rc, h_databufoffset h + h_databufsize h, h)
        else seek_forward fuel h offset
    end
  else Done (0, offset, set_h_bufpos h (offset - h_databufoffset h)).

(** every round reads a frame *)
Definition seek_fuel (h : dshandle) : nat := S (Z.to_nat (lzds_dataset_get_size_in_tracks (h_ds h))).

(** 0 or an error code, and the offset that is reached *)
Definition lzds_dshandle_lseek (h : dshandle) (offset : Z) : outcome (Z * Z * dshandle) :=
  if (h_databufoffset h <=? offset) && (offset <? h_databufoffset h + h_databufsize h) then
    Done (0, offset, set_h_bufpos h (offset - h_databufoffset h))
  else
    se ← dshandle_find_seekelement h offset;
    '(rc, h) ← match se with
               | Some i =>
                   e ← deref (h_seekbuf h !! Z.to_nat i);
                   if negb ((se_databufoffset e <? h_databufoffset h) && (h_databufoffset h <=? offset))
                   then h ← dshandle_reset_buffer_position_to_seekelement h i; Done (0, h)
                   else Done (0, h)
               | None =>
                   if offset <? h_databufoffset h then initialize_buffer_positions_for_first_read h else Done (0, h)
               end;
    if negb (rc =? 0) then Done (rc, 0, h) else seek_forward (seek_fuel h) h offset.

Definition lzds_dshandle_get_offset (h : dshandle) : Z := h_databufoffset h + h_bufpos h.

End ZdsRead.
