(* ===== verification/ZdsTracks.v ===== *)
(** Raw tracks of libzds: the layout of records on a track as a specification, and
    the extraction of their data as the code does it. *)
From S2P Require Import Prelude Ebcdic Cchh Codec Labels LabelOps Zds ZdsDataset ZdsRead.
Import Addr Zds ZdsDataset ZdsRead.

Module ZdsTracks.

(** ** Memory *)

Lemma length_mem_list b off n : length (mem_list b off n) = n.
Proof. unfold mem_list. by rewrite length_map, length_seq. Qed.

Lemma mem_list_app b off n m :
  mem_list b off (n + m) = mem_list b off n ++ mem_list b (off + Z.of_nat n) m.
Proof.
  unfold mem_list. rewrite seq_app, map_app. f_equal. apply list_eq. intros i.
  rewrite !list_lookup_fmap. destruct (decide (i < m)%nat) as [Hi|Hi].
  - rewrite !lookup_seq_lt by lia. simpl. f_equal. f_equal. lia.
  - rewrite !lookup_seq_ge by lia. done.
Qed.

(** the pieces of a region *)
Lemma mem_list_split b off l1 l2 :
  mem_list b off (length (l1 ++ l2)) = l1 ++ l2 →
  mem_list b off (length l1) = l1 ∧ mem_list b (off + Z.of_nat (length l1)) (length l2) = l2.
Proof.
  rewrite length_app, mem_list_app. intros H. apply app_inj_1 in H; [exact H|]. apply length_mem_list.
Qed.

Lemma mem_read_ok b size off n : 0 <= off → off + Z.of_nat n <= size → mem_read b size off n = Done (mem_list b off n).
Proof. intros H1 H2. unfold mem_read. by rewrite (proj2 (Z.leb_le _ _) H1), (proj2 (Z.leb_le _ _) H2). Qed.

(** ** Records *)

(** a record: identifier, key and data *)
Record erecord := ERecord { e_id : list Z; e_key : list Z; e_data : list Z }.

Definition e_kl (r : erecord) : Z := Z.of_nat (length (e_key r)).
Definition e_dl (r : erecord) : Z := Z.of_nat (length (e_data r)).
Definition e_size (r : erecord) : Z := 8 + e_kl r + e_dl r.
Definition e_count (r : erecord) : list Z := e_id r ++ [e_kl r] ++ be_enc 2 (e_dl r).
Definition e_image (r : erecord) : list Z := e_count r ++ e_key r ++ e_data r.

(** the identifier of a record is not the end token *)
Definition e_ok (r : erecord) : Prop :=
  length (e_id r) = 5%nat ∧ e_id r ≠ replicate 5 255 ∧ e_kl r < 256 ∧ e_dl r < 65536.

Definition endtoken : list Z := replicate 8 255.

(** the records lie one behind the other, with the end token behind the last *)
Fixpoint holds (b : mem) (off : Z) (recs : list erecord) : Prop :=
  match recs with
  | [] => mem_list b off 8 = endtoken
  | r :: recs => e_ok r ∧ mem_list b off (length (e_image r)) = e_image r ∧ holds b (off + e_size r) recs
  end.

Definition recs_size (recs : list erecord) : Z := fold_right (λ r n, e_size r + n) 0 recs.

Lemma length_e_count r : e_ok r → length (e_count r) = 8%nat.
Proof. intros (H & _). unfold e_count. rewrite !length_app, H, be_enc_length. done. Qed.

Lemma length_e_image r : e_ok r → Z.of_nat (length (e_image r)) = e_size r.
Proof.
  intros H. unfold e_image, e_size, e_kl, e_dl. rewrite !length_app, (length_e_count r H). lia.
Qed.

Lemma e_size_pos r : 8 <= e_size r.
Proof. unfold e_size, e_kl, e_dl. lia. Qed.

Lemma recs_size_nonneg recs : 0 <= recs_size recs.
Proof. induction recs as [|r recs IH]; simpl; [done|]. pose proof (e_size_pos r). lia. Qed.

Section Holds.
Context (b : mem) (size : Z).

(** the parts of a record in memory *)
Lemma holds_parts off r recs :
  holds b off (r :: recs) →
  mem_list b off 8 = e_count r ∧ mem_list b (off + 8) (length (e_key r)) = e_key r ∧
  mem_list b (off + 8 + e_kl r) (length (e_data r)) = e_data r.
Proof.
  intros (Hok & E & _). unfold e_image in E.
  apply mem_list_split in E as [E1 E2]. rewrite (length_e_count r Hok) in E1, E2. split; [exact E1|].
  apply mem_list_split in E2 as [E2 E3]. split; [exact E2|exact E3].
Qed.

Lemma get_count_holds off r recs :
  holds b off (r :: recs) → 0 <= off → off + 8 <= size →
  get_count b size off = Done (EckdCount (e_kl r) (e_dl r)).
Proof.
  intros H H1 H2. pose proof H as (Hok & _ & _). destruct (holds_parts _ _ _ H) as [E _].
  unfold get_count. rewrite mem_read_ok by lia. rewrite E, Done_bind. destruct Hok as (Hl & _ & Hk & Hd). f_equal.
  unfold e_count. f_equal.
  - rewrite lookup_total_app_r by lia. rewrite Hl. done.
  - rewrite drop_app_ge by lia. rewrite Hl. simpl drop.
    change (be_dec (be_enc 2 (e_dl r)) = e_dl r). apply be_dec_enc. unfold e_dl in *. lia.
Qed.

Lemma is_endtoken_holds off recs :
  holds b off recs → 0 <= off → off + 8 <= size →
  is_endtoken b size off = Done (bool_decide (recs = [])).
Proof.
  intros H H1 H2. unfold is_endtoken. rewrite mem_read_ok by lia. rewrite Done_bind. f_equal.
  apply bool_decide_ext. destruct recs as [|r recs]; [by split|]. split; [|done].
  destruct (holds_parts _ _ _ H) as [E _]. destruct H as ((Hl & Hne & _) & _ & _).
  change (Z.of_nat 8) with 8 in E. rewrite E. intros F. exfalso. apply Hne.
  assert (G : take 5 (e_count r) = replicate 5 255) by (by rewrite F). unfold e_count in G.
  by rewrite take_app_le, take_ge in G by lia.
Qed.

End Holds.

(** ** Blocks of variable records *)

(** a segment with its control code, and a block of segments *)
Definition seg_image (s : Z * list Z) : list Z := be_enc 2 (4 + Z.of_nat (length s.2)) ++ [s.1; 0] ++ s.2.
Definition seg_ok (s : Z * list Z) : Prop := 4 + Z.of_nat (length s.2) < 32768.
Definition segs_image (segs : list (Z * list Z)) : list Z := concat (map seg_image segs).
Definition block_image (segs : list (Z * list Z)) : list Z :=
  be_enc 2 (4 + Z.of_nat (length (segs_image segs))) ++ [0; 0] ++ segs_image segs.

Definition segs_data (keepRDW : Z) (segs : list (Z * list Z)) : list Z :=
  if flag keepRDW then segs_image segs else concat (map snd segs).

(** the user data of a record: its data area (fixed and undefined records), or
    the segments of the block in it (variable records) *)
Definition payload (recfm keepRDW : Z) (r : erecord) (l : list Z) : Prop :=
  if flag (Z.land recfm 0x80) then l = e_data r
  else if flag (Z.land recfm 0x40) then
    (e_data r = [] ∧ l = []) ∨
    (∃ segs pad, e_data r = block_image segs ++ pad ∧ Forall seg_ok segs ∧
       4 + Z.of_nat (length (segs_image segs)) < 32768 ∧ l = segs_data keepRDW segs)
  else l = [].

(** ** The specification of the extraction *)

Section Spec.
Context (recfm keepRDW : Z) (pay : erecord → list Z).

(** the data of the records from the number [start] on, up to an empty record,
    and whether there is one *)
Fixpoint recs_data (start i : Z) (recs : list erecord) : list Z * bool :=
  match recs with
  | [] => ([], false)
  | r :: recs =>
      if start <=? i then
        if (e_kl r =? 0) && (e_dl r =? 0) then (pay r, true)
        else let '(l, e) := recs_data start (i + 1) recs in (pay r ++ l, e)
      else recs_data start (i + 1) recs
  end.

(** tracks one behind the other; the first record counts on the first one only *)
Fixpoint tracks_data (start : Z) (tracks : list (list erecord)) : list Z * bool :=
  match tracks with
  | [] => ([], false)
  | t :: tracks =>
      let '(l, e) := recs_data start 0 t in
      if e : bool then (l, true) else let '(l', e') := tracks_data 1 tracks in (l ++ l', e')
  end.

Lemma tracks_data_app start t1 t2 :
  t1 ≠ [] →
  tracks_data start (t1 ++ t2) =
    let '(l, e) := tracks_data start t1 in
    if e : bool then (l, true) else let '(l', e') := tracks_data 1 t2 in (l ++ l', e').
Proof.
  revert start. induction t1 as [|t t1 IH]; intros start Ht; [done|]. cbn [app tracks_data].
  destruct (recs_data start 0 t) as [l [|]]; [done|]. destruct t1 as [|t' t1].
  - simpl. destruct (tracks_data 1 t2) as [l' e']. by rewrite app_nil_r.
  - rewrite IH by done. destruct (tracks_data 1 (t' :: t1)) as [l1 [|]]; [done|].
    destruct (tracks_data 1 t2) as [l' e']. by rewrite app_assoc.
Qed.

(** what the records of a track need *)
Definition pays (recs : list erecord) : Prop := Forall (λ r, payload recfm keepRDW r (pay r)) recs.

(** a track that the code can read: the image [f] holds the records *)
Definition good_track (f : mem) (recs : list erecord) : Prop :=
  recs ≠ [] ∧ holds f 0 recs ∧ pays recs ∧ recs_size recs + 8 <= RAWTRACKSIZE ∧
  Z.of_nat (length (concat (map pay recs))) <= MAXRECSIZE.

(** the tracks are good up to the end of the data *)
Fixpoint readable (start : Z) (l : list (mem * list erecord)) : Prop :=
  match l with
  | [] => True
  | (f, recs) :: l => good_track f recs ∧ ((recs_data start 0 recs).2 = true ∨ readable 1 l)
  end.

End Spec.

(** ** The code *)

Lemma seg_header n l : 0 <= n < 32768 → length l = 4%nat → take 2 l = be_enc 2 n → seg_length l = n ∧ seg_null l = false.
Proof.
  intros Hn Hl E. unfold seg_length, seg_null. rewrite E.
  assert (be_dec (be_enc 2 n) = n) as -> by (apply be_dec_enc; lia). split.
  - change 32767 with (Z.ones 15). rewrite Z.land_ones by lia. apply Z.mod_small. lia.
  - assert (Z.land n 32768 = 0) as ->; [|done]. change 32768 with (2 ^ 15). apply Z.bits_inj'. intros k Hk.
    rewrite Z.land_spec, Z.bits_0, Z.pow2_bits_eqb by lia. destruct (Z.eqb_spec 15 k) as [<-|]; [|by rewrite andb_false_r].
    rewrite andb_true_r. destruct (decide (n = 0)) as [->|]; [by rewrite Z.bits_0|].
    apply Z.bits_above_log2; [lia|]. apply Z.log2_lt_pow2; lia.
Qed.

Lemma length_seg_image s : length (seg_image s) = (4 + length s.2)%nat.
Proof. unfold seg_image. rewrite !length_app, be_enc_length. done. Qed.

Lemma segs_data_cons keepRDW s segs :
  segs_data keepRDW (s :: segs) =
    (if flag keepRDW then seg_image s else s.2) ++ segs_data keepRDW segs.
Proof. unfold segs_data, segs_image. by destruct (flag keepRDW). Qed.

Section Code.
Context (h : dshandle) (raw : mem).
Context (Hconv : h_iconv h = NoConv).

Lemma segments_loop_ok segs : ∀ fuel data target out,
  mem_list raw data (length (segs_image segs)) = segs_image segs →
  0 <= data → data + Z.of_nat (length (segs_image segs)) <= h_rawbufmax h → Forall seg_ok segs →
  target + Z.of_nat (length (segs_data (h_keepRDW h) segs)) <= h_databufmax h → (length segs <= fuel)%nat →
  segments_loop fuel h raw data (Z.of_nat (length (segs_image segs))) target out =
    Done (0, out ++ segs_data (h_keepRDW h) segs, raw).
Proof using Hconv.
  induction segs as [|s segs IH]; intros fuel data target out E Hd Hs Hok Ht Hf.
  { change (segs_image []) with (@nil Z). assert (segs_data (h_keepRDW h) [] = []) as -> by (unfold segs_data, segs_image; by destruct (flag _)).
    rewrite app_nil_r. by destruct fuel. }
  apply Forall_cons in Hok as [Hso Hok]. unfold seg_ok in Hso. destruct fuel as [|fuel]; [simpl in Hf; lia|].
  change (segs_image (s :: segs)) with (seg_image s ++ segs_image segs) in *.
  rewrite length_app, length_seg_image in *. set (n := length s.2) in *.
  rewrite segs_data_cons in *. rewrite length_app in Ht.
  cbn [segments_loop]. rewrite (proj2 (Z.eqb_neq _ 0)) by lia.
  rewrite mem_list_app in E. apply app_inj_1 in E as [E1 E2]; [|by rewrite length_mem_list, length_seg_image].
  rewrite mem_read_ok by lia. rewrite Done_bind.
  assert (Hh : mem_list raw data 4 = be_enc 2 (4 + Z.of_nat n) ++ [s.1; 0]).
  { rewrite mem_list_app in E1. unfold seg_image in E1. fold n in E1. rewrite app_assoc in E1. apply app_inj_1 in E1 as [-> _]; [done|].
    by rewrite length_mem_list, length_app, be_enc_length. }
  assert (Hb : mem_list raw (data + 4) n = s.2).
  { rewrite mem_list_app in E1. unfold seg_image in E1. fold n in E1. rewrite app_assoc in E1. apply app_inj_1 in E1 as [_ <-]; [done|].
    by rewrite length_mem_list, length_app, be_enc_length. }
  destruct (seg_header (4 + Z.of_nat n) (mem_list raw data 4)) as [-> ->]; [lia|apply length_mem_list| |].
  { rewrite Hh. apply take_app_length'. by rewrite be_enc_length. }
  cbn [orb]. rewrite (proj2 (Z.eqb_neq _ 0)) by lia. rewrite (proj2 (Z.ltb_ge (Z.of_nat _) _)) by lia.
  rewrite (proj2 (Z.ltb_ge (4 + _) 4)) by lia. cbn [orb]. rewrite Hconv.
  replace (Z.of_nat (4 + n + length (segs_image segs)) - (4 + Z.of_nat n)) with (Z.of_nat (length (segs_image segs))) by lia.
  assert (E2' : mem_list raw (data + (4 + Z.of_nat n)) (length (segs_image segs)) = segs_image segs).
  { rewrite <- E2 at 2. f_equal. lia. }
  destruct (flag (h_keepRDW h)).
  - rewrite length_seg_image in Ht. fold n in Ht.
    rewrite (proj2 (Z.ltb_ge _ _)) by lia. rewrite mem_read_ok by lia. rewrite Done_bind.
    replace (Z.to_nat (4 + Z.of_nat n)) with (4 + n)%nat by lia. rewrite E1.
    rewrite IH by (try done; simpl in Hf; lia). by rewrite app_assoc.
  - fold n in Ht. rewrite (proj2 (Z.ltb_ge _ _)) by lia. rewrite mem_read_ok by lia. rewrite Done_bind.
    replace (Z.to_nat (4 + Z.of_nat n - 4)) with n by lia. rewrite Hb.
    replace (data + 4 + (4 + Z.of_nat n - 4)) with (data + (4 + Z.of_nat n)) by lia.
    rewrite IH by (try done; simpl in Hf; lia). by rewrite app_assoc.
Qed.

Lemma segs_image_length segs : (4 * length segs <= length (segs_image segs))%nat.
Proof.
  induction segs as [|s segs IH]; [done|]. change (segs_image (s :: segs)) with (seg_image s ++ segs_image segs).
  rewrite length_app, length_seg_image. simpl. lia.
Qed.

(** a record with its payload *)
Lemma record_data_ok f1 off r recs l target :
  holds raw off (r :: recs) → 0 <= off → off + e_size r <= h_rawbufmax h →
  payload (DS1RECFM f1) (h_keepRDW h) r l → target + Z.of_nat (length l) <= h_databufmax h →
  record_data h f1 raw off target = Done (0, l, raw).
Proof using Hconv.
  intros H H0 Hs Hp Ht. pose proof (holds_parts raw off r recs H) as (_ & _ & Ed).
  pose proof (get_count_holds raw (h_rawbufmax h) off r recs H H0) as Ec.
  assert (Hc : off + 8 <= h_rawbufmax h) by (unfold e_size, e_kl, e_dl in Hs; lia). specialize (Ec Hc).
  unfold e_size in Hs. unfold record_data. unfold payload in Hp.
  destruct (flag (Z.land (DS1RECFM f1) 128)).
  - subst l. unfold parse_fixed_record. rewrite Ec, Done_bind. cbn [ec_kl ec_dl].
    rewrite (proj2 (Z.ltb_ge _ _)) by (unfold e_dl in *; lia). rewrite mem_read_ok by (unfold e_kl, e_dl in *; lia).
    rewrite Done_bind. unfold e_dl at 1. rewrite Nat2Z.id, Ed, Hconv. done.
  - destruct (flag (Z.land (DS1RECFM f1) 64)); [|by subst l].
    unfold parse_variable_record. rewrite Ec, Done_bind. cbn [ec_kl ec_dl].
    destruct Hp as [[E ->]|(segs & pad & E & Hok & Hb & ->)].
    { unfold e_dl. by rewrite E. }
    assert (Hdl : e_dl r = 4 + Z.of_nat (length (segs_image segs)) + Z.of_nat (length pad)).
    { unfold e_dl. rewrite E. unfold block_image. rewrite !length_app, be_enc_length. simpl. lia. }
    rewrite (proj2 (Z.eqb_neq _ 0)), (proj2 (Z.ltb_ge _ 4)) by lia. rewrite mem_read_ok by (unfold e_kl in *; lia).
    rewrite Done_bind. rewrite E in Ed. apply mem_list_split in Ed as [Ed _]. set (d := off + 8 + e_kl r) in *.
    unfold block_image in Ed. rewrite app_assoc in Ed. apply mem_list_split in Ed as [Ed1 Ed2].
    rewrite length_app, be_enc_length in Ed1, Ed2. simpl (2 + _)%nat in Ed1, Ed2.
    destruct (seg_header (4 + Z.of_nat (length (segs_image segs))) (mem_list raw d 4)) as [-> _];
      [lia|apply length_mem_list|rewrite Ed1; apply take_app_length'; by rewrite be_enc_length|].
    rewrite (proj2 (Z.eqb_neq _ 0)), (proj2 (Z.ltb_ge _ 4)), (proj2 (Z.ltb_ge _ _)) by lia. cbn [orb].
    replace (4 + Z.of_nat (length (segs_image segs)) - 4) with (Z.of_nat (length (segs_image segs))) by lia.
    apply (segments_loop_ok segs _ (d + 4) target []); try done; unfold d, e_kl in *; try lia.
    pose proof (segs_image_length segs). lia.
Qed.

Context (f1 : format1_label_t) (pay : erecord → list Z).

#[local] Notation pays := (pays (DS1RECFM f1) (h_keepRDW h) pay).
#[local] Notation good_track := (good_track (DS1RECFM f1) (h_keepRDW h) pay).
#[local] Notation readable := (readable (DS1RECFM f1) (h_keepRDW h) pay).

Lemma track_loop_ok track recs : ∀ off i x fuel,
  recs ≠ [] → x_raw x = raw → x_eof x = false → holds raw off recs → pays recs → 0 <= track <= off →
  off + recs_size recs + 8 <= track + RAWTRACKSIZE → track + RAWTRACKSIZE <= h_rawbufmax h → (length recs <= fuel)%nat →
  let '(l, e) := recs_data pay (x_startrecord x) i recs in
  Z.of_nat (length (x_data x ++ l)) <= h_databufmax h →
  track_loop fuel h f1 track off i x = Done (0, Extraction raw (x_data x ++ l) (x_startrecord x) e).
Proof using Hconv.
  induction recs as [|r recs IH]; intros off i x fuel Hne Er He Hh Hp Ht Hs Hb Hf; [done|].
  destruct fuel as [|fuel]; [simpl in Hf; lia|]. apply Forall_cons in Hp as [Hpr Hp]. cbn [recs_size fold_right] in Hs.
  fold (recs_size recs) in Hs. pose proof (e_size_pos r) as Hrs. pose proof (recs_size_nonneg recs) as Hrn.
  assert (Hc : get_count (x_raw x) (h_rawbufmax h) off = Done (EckdCount (e_kl r) (e_dl r)))
    by (rewrite Er; apply (get_count_holds raw _ off r recs); [done|lia|lia]).
  assert (Hh' : holds raw (off + e_size r) recs) by apply Hh.
  assert (He' : is_endtoken raw (h_rawbufmax h) (off + e_size r) = Done (bool_decide (recs = [])))
    by (apply is_endtoken_holds; [done|lia|lia]).
  (* the part behind the record, for every continuation *)
  assert (Hnext : ∀ l1 x1, x1 = Extraction raw (x_data x ++ l1) (x_startrecord x) false →
    let '(l, e) := recs_data pay (x_startrecord x) (i + 1) recs in
    Z.of_nat (length (x_data x ++ l1 ++ l)) <= h_databufmax h →
    (e' ← is_endtoken raw (h_rawbufmax h) (off + e_size r);
     if e' : bool then Done (0, x1) else track_loop fuel h f1 track (off + e_size r) (i + 1) x1) =
    Done (0, Extraction raw (x_data x ++ l1 ++ l) (x_startrecord x) e)).
  { intros l1 x1 ->. rewrite He', Done_bind. destruct recs as [|r' recs'].
    - simpl. rewrite app_nil_r. done.
    - rewrite bool_decide_eq_false_2 by done.
      specialize (IH (off + e_size r) (i + 1) (Extraction raw (x_data x ++ l1) (x_startrecord x) false) fuel).
      cbn [x_raw x_eof x_startrecord x_data] in IH. destruct (recs_data _ _ _ _) as [l e]. rewrite <- !app_assoc in IH.
      intros Hlen. apply IH; try done; try lia. simpl in Hf |- *. lia. }
  cbn [track_loop]. rewrite He, Hc, Done_bind. cbn [ec_kl ec_dl]. fold (e_size r).
  rewrite (proj2 (Z.ltb_ge _ _)) by lia. cbn [recs_data].
  destruct (x_startrecord x <=? i) eqn:Est; rewrite ?Est; cbn [andb].
  - destruct ((e_kl r =? 0) && (e_dl r =? 0)) eqn:Eempty.
    + intros Hlen. rewrite Er. rewrite (record_data_ok f1 off r recs (pay r)); try done; try lia; [|rewrite length_app in Hlen; lia].
      rewrite Done_bind. cbn [Z.eqb negb]. rewrite (proj2 (Z.ltb_ge _ _)) by lia. rewrite He', Done_bind.
      destruct (bool_decide _); [done|]. by destruct fuel.
    + specialize (Hnext (pay r) _ eq_refl). destruct (recs_data pay _ (i + 1) recs) as [l e]. intros Hlen.
      rewrite Er. rewrite (record_data_ok f1 off r recs (pay r)); try done; try lia; [|rewrite !length_app in Hlen; lia].
      rewrite Done_bind. cbn [Z.eqb negb]. rewrite (proj2 (Z.ltb_ge _ _)) by lia. by apply Hnext.
  - specialize (Hnext [] _ eq_refl). destruct (recs_data pay _ (i + 1) recs) as [l e]. intros Hlen.
    rewrite Done_bind. cbn [Z.eqb negb]. rewrite (proj2 (Z.ltb_ge _ _)) by lia. rewrite Er. rewrite app_nil_r in *. by apply Hnext.
Qed.

(** ** Several tracks *)

Lemma mem_list_ext (b b' : mem) d off n :
  (∀ o, off <= o < off + Z.of_nat n → b' (o + d) = b o) → mem_list b' (off + d) n = mem_list b off n.
Proof.
  intros H. unfold mem_list. apply list_eq. intros i. rewrite !list_lookup_fmap.
  destruct (decide (i < n)%nat); [|by rewrite !lookup_seq_ge by lia]. rewrite !lookup_seq_lt by lia. simpl. f_equal.
  rewrite <- H by lia. f_equal. lia.
Qed.

Lemma holds_ext (b b' : mem) d hi recs : ∀ off,
  (∀ o, off <= o < hi → b' (o + d) = b o) → off + recs_size recs + 8 <= hi → holds b off recs → holds b' (off + d) recs.
Proof.
  induction recs as [|r recs IH]; intros off Hb Hs; cbn [holds].
  - intros <-. apply mem_list_ext. intros o Ho. apply Hb. simpl in Hs. lia.
  - intros (Hok & E & Hr). cbn [recs_size fold_right] in Hs. fold (recs_size recs) in Hs.
    pose proof (recs_size_nonneg recs). pose proof (e_size_pos r). split; [done|]. split.
    + rewrite <- E at 2. apply mem_list_ext. intros o Ho. rewrite length_e_image in Ho by done. apply Hb. lia.
    + replace (off + d + e_size r) with (off + e_size r + d) by lia. apply IH; [|lia|done].
      intros o Ho. apply Hb. lia.
Qed.

Lemma recs_data_length start recs : ∀ i,
  (length (recs_data pay start i recs).1 <= length (concat (map pay recs)))%nat.
Proof.
  induction recs as [|r recs IH]; intros i; cbn [recs_data map concat]; [done|]. rewrite length_app.
  specialize (IH (i + 1)). destruct (start <=? i); [destruct (_ && _); simpl; [lia|]|lia].
  destruct (recs_data pay start (i + 1) recs) as [l e]. cbn [fst] in IH |- *. rewrite length_app. lia.
Qed.

Lemma recs_length recs : 8 * Z.of_nat (length recs) <= recs_size recs.
Proof.
  induction recs as [|r recs IH]; cbn [recs_size fold_right length]; [done|]. fold (recs_size recs).
  pose proof (e_size_pos r). lia.
Qed.

(** the track at [track] of the buffer is the image [f] *)
Definition in_buffer (track : Z) (f : mem) : Prop := ∀ o, 0 <= o < RAWTRACKSIZE → raw (track + o) = f o.

Lemma good_track_loop f recs track x :
  good_track f recs → in_buffer track f → x_raw x = raw → x_eof x = false → 0 <= track →
  track + RAWTRACKSIZE <= h_rawbufmax h → Z.of_nat (length (x_data x)) + MAXRECSIZE <= h_databufmax h →
  let '(l, e) := recs_data pay (x_startrecord x) 0 recs in
  track_loop track_fuel h f1 track track 0 x = Done (0, Extraction raw (x_data x ++ l) (x_startrecord x) e) ∧
  Z.of_nat (length l) <= MAXRECSIZE.
Proof using Hconv.
  intros (Hne & Hh & Hp & Hs & Hl) Hb Er He Ht Hm Hd.
  pose proof (recs_data_length (x_startrecord x) recs 0) as Hlen.
  assert (Hh' : holds raw (0 + track) recs).
  { apply (holds_ext f raw track RAWTRACKSIZE); [|lia|done]. intros o Ho. rewrite Z.add_comm. by apply Hb. }
  rewrite Z.add_0_l in Hh'. pose proof (recs_length recs).
  pose proof (track_loop_ok track recs track 0 x track_fuel Hne Er He Hh' Hp) as Hloop.
  destruct (recs_data pay (x_startrecord x) 0 recs) as [l e]. cbn [fst] in Hlen. split; [|lia].
  assert (Ef : Z.of_nat track_fuel = 8192) by reflexivity. revert Ef Hloop. generalize track_fuel. intros fuel Ef Hloop.
  unfold RAWTRACKSIZE in *. apply Hloop; rewrite ?length_app; lia.
Qed.

Lemma tracks_loop_ok l : ∀ track x,
  readable (x_startrecord x) l → x_raw x = raw → x_eof x = false → 0 <= track →
  (∀ i f recs, l !! i = Some (f, recs) → in_buffer (track + Z.of_nat i * RAWTRACKSIZE) f) →
  track + Z.of_nat (length l) * RAWTRACKSIZE <= h_rawbufmax h →
  Z.of_nat (length (x_data x)) + Z.of_nat (length l) * MAXRECSIZE <= h_databufmax h →
  let '(d, e) := tracks_data pay (x_startrecord x) (map snd l) in
  tracks_loop (length l) h f1 track x =
    Done (0, Extraction raw (x_data x ++ d) (match l with [] => x_startrecord x | _ => 1 end) e).
Proof using Hconv.
  induction l as [|[f recs] l IH]; intros track x Hr Er He Ht Hb Hm Hd.
  { simpl. rewrite app_nil_r. destruct x. simpl in *. by subst. }
  destruct Hr as [Hg Hr]. cbn [length map snd tracks_data tracks_loop] in *. rewrite He.
  pose proof (Hb 0%nat f recs eq_refl) as Hb0. rewrite Z.mul_0_l, Z.add_0_r in Hb0.
  pose proof (good_track_loop f recs track x Hg Hb0 Er He Ht ltac:(unfold RAWTRACKSIZE in *; lia)
    ltac:(unfold MAXRECSIZE in *; lia)) as Hl.
  destruct (recs_data pay (x_startrecord x) 0 recs) as [d e]. destruct Hl as [E Hdl]. rewrite E, Done_bind.
  cbn [Z.eqb negb x_raw x_data x_eof]. destruct e.
  - destruct (length l); [done|]. done.
  - destruct Hr as [Hr|Hr]; [done|].
    specialize (IH (track + RAWTRACKSIZE) (Extraction raw (x_data x ++ d) 1 false)).
    cbn [x_startrecord x_raw x_eof x_data] in IH. destruct (tracks_data pay 1 (map snd l)) as [d' e'].
    rewrite IH; try done.
    + rewrite <- app_assoc. do 2 f_equal. by destruct l.
    + unfold RAWTRACKSIZE in *; lia.
    + intros i f' recs' Hi. specialize (Hb (S i) f' recs' Hi).
      replace (track + RAWTRACKSIZE + Z.of_nat i * RAWTRACKSIZE) with (track + Z.of_nat (S i) * RAWTRACKSIZE); [done|].
      unfold RAWTRACKSIZE. lia.
    + unfold RAWTRACKSIZE in *; lia.
    + rewrite length_app. unfold MAXRECSIZE in *; lia.
Qed.

End Code.

End ZdsTracks.
