(* ===== verification/ZdsStream.v ===== *)
(** Data sets as streams: the tracks of a data set in their order, the frames in
    which a handle reads them, and the bytes that the frames deliver. *)
From S2P Require Import Prelude Ebcdic Cchh Codec Labels LabelOps Zds ZdsDataset ZdsRead ZdsTracks.
Import Addr Zds ZdsDataset ZdsRead ZdsTracks.

Module ZdsStream.

(** ** Reading tracks *)

(** a device that reads whole tracks, at least one at a time *)
Definition honest (k : disk) : Prop :=
  ∀ pos n, 0 < n → n mod RAWTRACKSIZE = 0 → 0 < k_read k pos n <= n ∧ k_read k pos n mod RAWTRACKSIZE = 0.

Lemma read_loop_ok k : honest k → ∀ fuel pos n,
  0 <= n <= Z.of_nat fuel → read_loop fuel k pos (n * RAWTRACKSIZE) = Done (0, pos + n * RAWTRACKSIZE).
Proof.
  intros Hk. induction fuel as [|fuel IH]; intros pos n Hn.
  - assert (n = 0) as -> by lia. simpl. by rewrite Z.add_0_r.
  - cbn [read_loop]. destruct (Z.eqb_spec (n * RAWTRACKSIZE) 0) as [E|E].
    + by rewrite E, Z.add_0_r.
    + assert (Hpos : 0 < n * RAWTRACKSIZE) by (unfold RAWTRACKSIZE in *; lia).
      destruct (Hk pos (n * RAWTRACKSIZE) Hpos) as [Hc Hm]; [apply Z.mod_mul; done|].
      set (count := k_read k pos (n * RAWTRACKSIZE)) in *. rewrite (proj2 (Z.ltb_ge count 0)) by lia.
      rewrite Z.rem_mod_nonneg, Hm by (unfold RAWTRACKSIZE in *; lia). cbn [Z.eqb negb].
      assert (Hq : count = (count / RAWTRACKSIZE) * RAWTRACKSIZE).
      { pose proof (Z.div_mod count RAWTRACKSIZE ltac:(done)). lia. }
      set (q := count / RAWTRACKSIZE) in *. rewrite Hq.
      replace (n * RAWTRACKSIZE - q * RAWTRACKSIZE) with ((n - q) * RAWTRACKSIZE) by lia.
      rewrite IH; [do 2 f_equal; lia|]. unfold RAWTRACKSIZE in *. lia.
Qed.

(** the tracks of a device *)
Definition dasd_tracks (d : dasd) : Z := u32 (d_cylinders d * d_heads d).

Lemma read_tracks_ok d s e buf :
  honest (d_disk d) → 0 <= s <= e → e < dasd_tracks d →
  ∃ buf', lzds_dasdhandle_read_tracks_to_buffer d true s e buf = Done (0, buf') ∧
    ∀ o, 0 <= o < (e - s + 1) * RAWTRACKSIZE → buf' o = k_byte (d_disk d) (s * RAWTRACKSIZE + o).
Proof.
  intros Hk Hs He. unfold lzds_dasdhandle_read_tracks_to_buffer, dasd_tracks in *.
  rewrite (proj2 (Z.ltb_ge e s)), (proj2 (Z.leb_gt _ e)) by lia. cbn [orb negb].
  assert (Hu : 0 <= u32 (d_cylinders d * d_heads d) < 4294967296) by apply u32_range.
  rewrite (u32_small (e - s + 1)) by lia. rewrite read_loop_ok by (try done; lia). rewrite Done_bind.
  eexists. split; [reflexivity|]. intros o Ho. unfold mem_fill.
  replace (s * RAWTRACKSIZE + (e - s + 1) * RAWTRACKSIZE - s * RAWTRACKSIZE) with ((e - s + 1) * RAWTRACKSIZE) by lia.
  by rewrite (proj2 (Z.leb_le 0 o)), (proj2 (Z.ltb_lt o _)) by lia.
Qed.

(** ** The tracks of a data set *)

Definition ext_start (p : datasetpart) (e : extent_t) : Z := lzds_dasd_cchh2trk (dp_dasdi p) (ext_llimit e).
Definition ext_end (p : datasetpart) (e : extent_t) : Z := lzds_dasd_cchh2trk (dp_dasdi p) (ext_ulimit e).

(** the extents with user data on a part *)
Definition part_ok (tpf : Z) (p : datasetpart) : Prop :=
  length (dp_ext p) = 16%nat ∧ honest (d_disk (dp_dasdi p)) ∧ dasd_tracks (dp_dasdi p) + tpf < 4294967296 ∧
  Forall (λ e, extent_contains_userdata e = true → 0 <= ext_start p e <= ext_end p e ∧ ext_end p e < dasd_tracks (dp_dasdi p))
    (dp_ext p).

Record dataset_ok (tpf : Z) (ds : dataset) : Prop := {
  do_tpf : 1 <= tpf <= 65535;
  do_count : 1 <= ds_dspcount ds <= 59;
  do_slots : length (ds_dsp ds) = 59%nat;
  do_shape : ∀ p, Some p ∈ ds_dsp ds → length (dp_ext p) = 16%nat;
  do_parts : ∀ i, 0 <= i < ds_dspcount ds → ∃ p, dsp ds i = Some p ∧ part_ok tpf p
}.

Section Tracks.
Context (tpf : Z) (ds : dataset) (Hds : dataset_ok tpf ds).

(** the [n]-th extent of a data set, counted over all parts, if it holds user data *)
Definition ext_at (n : Z) : list (Z * Z * datasetpart * extent_t) :=
  match dsp ds (n / 16) with
  | Some p => match dp_ext p !! Z.to_nat (n mod 16) with
              | Some e => if extent_contains_userdata e then [(n / 16, n mod 16, p, e)] else []
              | None => []
              end
  | None => []
  end.

Definition exts_from (n : Z) : list (Z * Z * datasetpart * extent_t) :=
  concat (map ext_at (seqZ n (ds_dspcount ds * 16 - n))).

Definition tracks_of (x : Z * Z * datasetpart * extent_t) : list (Z * Z) :=
  let '(i, _, p, e) := x in map (pair i) (seqZ (ext_start p e) (ext_end p e - ext_start p e + 1)).

Lemma exts_from_unfold n : n < ds_dspcount ds * 16 → exts_from n = ext_at n ++ exts_from (n + 1).
Proof.
  intros Hn. unfold exts_from. rewrite seqZ_cons by lia. cbn [map concat].
  replace (Z.succ n) with (n + 1) by lia. by replace (Z.pred (ds_dspcount ds * 16 - n)) with (ds_dspcount ds * 16 - (n + 1)) by lia.
Qed.

Lemma exts_from_end n : ds_dspcount ds * 16 <= n → exts_from n = [].
Proof. intros Hn. unfold exts_from. by rewrite seqZ_nil by lia. Qed.

(** the number of an extent *)
Definition ext_no (dsp_no ext_seq_no : Z) : Z := dsp_no * 16 + ext_seq_no.

Lemma next_extent_ok fuel : ∀ i j,
  0 <= i < ds_dspcount ds → -1 <= j <= 15 → ds_dspcount ds * 16 - ext_no i j <= Z.of_nat fuel →
  next_extent fuel ds i j = Done (head (exts_from (ext_no i j + 1))) ∧
  ∀ i' j' p e, head (exts_from (ext_no i j + 1)) = Some (i', j', p, e) →
    exts_from (ext_no i j + 1) = (i', j', p, e) :: exts_from (ext_no i' j' + 1) ∧
    0 <= i' < ds_dspcount ds ∧ 0 <= j' <= 15 ∧ dsp ds i' = Some p ∧ e ∈ dp_ext p ∧ extent_contains_userdata e = true ∧
    dp_ext p !! Z.to_nat j' = Some e.
Proof using Hds.
  induction fuel as [|fuel IH]; intros i j Hi Hj Hf.
  { unfold ext_no in *. lia. }
  cbn [next_extent].
  set (i1 := if MAXEXTENTS <=? j + 1 then i + 1 else i). set (j1 := if MAXEXTENTS <=? j + 1 then 0 else j + 1).
  assert (E1 : (if MAXEXTENTS <=? j + 1 then (i + 1, 0) else (i, j + 1)) = (i1, j1)) by (unfold i1, j1; by destruct (_ <=? _)).
  rewrite E1. assert (En : ext_no i j + 1 = ext_no i1 j1 ∧ 0 <= i1 ∧ 0 <= j1 <= 15).
  { unfold ext_no, i1, j1, MAXEXTENTS. destruct (Z.leb_spec 16 (j + 1)); lia. }
  destruct En as (En & Hi1 & Hj1). rewrite En.
  assert (Hdiv : ext_no i1 j1 / 16 = i1 ∧ ext_no i1 j1 mod 16 = j1).
  { unfold ext_no. rewrite Z.div_add_l, (Z.div_small j1), Z.add_0_r by lia. split; [done|].
    rewrite Z.add_comm, Z.mod_add, Z.mod_small by lia. done. }
  destruct Hdiv as [Hd Hm]. destruct (Z.leb_spec (ds_dspcount ds) i1) as [Hge|Hlt].
  - rewrite exts_from_end by (unfold ext_no; lia). split; [done|]. by intros.
  - destruct (do_parts _ _ Hds i1) as (p & Ep & Hp); [lia|]. rewrite Ep. cbn [deref]. rewrite Done_bind.
    destruct Hp as (Hlen & _ & _ & Hall).
    destruct (lookup_lt_is_Some_2 (dp_ext p) (Z.to_nat j1)) as [e Ee]; [lia|]. rewrite Ee. cbn [deref]. rewrite Done_bind.
    rewrite (exts_from_unfold (ext_no i1 j1)) by (unfold ext_no; lia).
    assert (Ea : ext_at (ext_no i1 j1) = if extent_contains_userdata e then [(i1, j1, p, e)] else []).
    { unfold ext_at. by rewrite Hd, Hm, Ep, Ee. }
    rewrite Ea. destruct (extent_contains_userdata e) eqn:Eu; cbn [app head].
    + split; [done|]. intros i' j' p' e' [= <- <- <- <-]. split; [done|]. split; [lia|]. split; [lia|]. split; [done|].
      split; [by eapply list_elem_of_lookup_2|]. by split.
    + apply IH; lia.
Qed.

(** ** Frames *)

(** the extent of a position *)
Definition in_extent (pos : position) (p : datasetpart) (e : extent_t) : Prop :=
  dsp ds (dsp_no pos) = Some p ∧ dp_ext p !! Z.to_nat (ext_seq_no pos) = Some e ∧ 0 <= ext_seq_no pos ∧
  extent_contains_userdata e = true ∧ extstarttrk pos = ext_start p e ∧ extendtrk pos = ext_end p e.

(** a position of a handle; inside an extent if [bufendtrk < extendtrk] *)
Definition pos_ok (pos : position) : Prop :=
  0 <= dsp_no pos < ds_dspcount ds ∧ -1 <= ext_seq_no pos <= 15 ∧ 0 <= bufendtrk pos ∧
  (bufendtrk pos < extendtrk pos → ∃ p e, in_extent pos p e).

(** the tracks behind a position, as pairs of a part and a track *)
Definition todo (pos : position) : list (Z * Z) :=
  map (pair (dsp_no pos)) (seqZ (bufendtrk pos + 1) (extendtrk pos - bufendtrk pos)) ++
  concat (map tracks_of (exts_from (ext_no (dsp_no pos) (ext_seq_no pos) + 1))).

(** the next frame *)
Definition next_pos (pos : position) : option position :=
  if bufendtrk pos <? extendtrk pos then
    Some (Position (dsp_no pos) (ext_seq_no pos) (extstarttrk pos) (extendtrk pos) (bufendtrk pos + 1)
            (Z.min (bufendtrk pos + tpf) (extendtrk pos)))
  else
    match head (exts_from (ext_no (dsp_no pos) (ext_seq_no pos) + 1)) with
    | None => None
    | Some (i, j, p, e) =>
        Some (Position i j (ext_start p e) (ext_end p e) (ext_start p e) (Z.min (ext_start p e + tpf - 1) (ext_end p e)))
    end.

(** the tracks of a frame *)
Definition frame (pos : position) : list (Z * Z) :=
  map (pair (dsp_no pos)) (seqZ (bufstarttrk pos) (bufendtrk pos - bufstarttrk pos + 1)).

Definition frame_ok (pos : position) : Prop :=
  ∃ p e, in_extent pos p e ∧ part_ok tpf p ∧ 0 <= bufstarttrk pos <= bufendtrk pos ∧
    bufendtrk pos - bufstarttrk pos + 1 <= tpf ∧ bufendtrk pos <= extendtrk pos < dasd_tracks (dp_dasdi p) ∧
    (bufstarttrk pos = 0 → ext_start p e = 0) ∧
    bufendtrk pos = Z.min (bufstarttrk pos + tpf - 1) (extendtrk pos).

Lemma seqZ_split (a m n : Z) : 0 <= m <= n → seqZ a n = seqZ a m ++ seqZ (a + m) (n - m).
Proof. intros H. rewrite <- seqZ_app by lia. f_equal. lia. Qed.

Lemma extent_bounds p e :
  part_ok tpf p → e ∈ dp_ext p → extent_contains_userdata e = true →
  0 <= ext_start p e <= ext_end p e ∧ ext_end p e < dasd_tracks (dp_dasdi p).
Proof. intros (_ & _ & _ & H) He. rewrite Forall_forall in H. by apply H. Qed.

Lemma in_extent_bounds pos p e :
  0 <= dsp_no pos < ds_dspcount ds → in_extent pos p e →
  part_ok tpf p ∧ 0 <= extstarttrk pos <= extendtrk pos ∧ extendtrk pos < dasd_tracks (dp_dasdi p).
Proof using Hds.
  intros Hd (Ep & Ee & _ & Hu & -> & ->). destruct (do_parts _ _ Hds _ Hd) as (p' & Ep' & Hp').
  rewrite Ep in Ep'. injection Ep' as <-. split; [done|]. apply extent_bounds; try done. by eapply list_elem_of_lookup_2.
Qed.

Lemma next_pos_ok pos :
  pos_ok pos →
  match next_pos pos with
  | None => todo pos = []
  | Some pos' => todo pos = frame pos' ++ todo pos' ∧ pos_ok pos' ∧ frame_ok pos'
  end.
Proof using Hds.
  intros (Hd & He & Hb & Hin). unfold next_pos. pose proof (do_tpf _ _ Hds) as Htpf.
  destruct (Z.ltb_spec (bufendtrk pos) (extendtrk pos)) as [Hlt|Hge].
  - destruct (Hin Hlt) as (p & e & Hx). destruct (in_extent_bounds _ _ _ Hd Hx) as (Hp & Hs & Ht).
    set (bs := bufendtrk pos + 1). set (be := Z.min (bufendtrk pos + tpf) (extendtrk pos)).
    assert (Hbe : bs <= be <= extendtrk pos) by (unfold bs, be; lia).
    split; [|split].
    + unfold todo, frame. cbn [dsp_no ext_seq_no bufstarttrk bufendtrk extendtrk]. rewrite app_assoc. f_equal.
      rewrite <- map_app. f_equal. fold bs. rewrite (seqZ_split bs (be - bs + 1) (extendtrk pos - bufendtrk pos)) by (unfold bs in *; lia).
      f_equal. f_equal; unfold bs; lia.
    + split; [done|]. split; [done|]. cbn [bufendtrk]. split; [unfold bs in *; lia|]. intros _. by exists p, e.
    + exists p, e. cbn [bufstarttrk bufendtrk extendtrk]. split; [exact Hx|]. split; [done|].
      unfold bs, be in *. split; [lia|]. split; [lia|]. split; [lia|]. split; [intros ?; exfalso; lia|lia].
  - assert (Et : todo pos = concat (map tracks_of (exts_from (ext_no (dsp_no pos) (ext_seq_no pos) + 1))))
      by (unfold todo; by rewrite seqZ_nil by lia). rewrite Et.
    assert (Hf : ds_dspcount ds * 16 - ext_no (dsp_no pos) (ext_seq_no pos) <= Z.of_nat extent_fuel).
    { pose proof (do_count _ _ Hds). change (Z.of_nat extent_fuel) with 945. unfold ext_no. lia. }
    destruct (next_extent_ok extent_fuel _ _ Hd He Hf) as [_ Hh].
    destruct (head _) as [[[[i j] p] e]|] eqn:Eh.
    + destruct (Hh _ _ _ _ eq_refl) as (E & Hi & Hj & Ep & Hel & Hu & Ee). rewrite E. cbn [map concat].
      destruct (do_parts _ _ Hds i Hi) as (p' & Ep' & Hp). rewrite Ep in Ep'. injection Ep' as <-.
      destruct (extent_bounds p e Hp Hel Hu) as [Hse Het]. set (be := Z.min (ext_start p e + tpf - 1) (ext_end p e)).
      assert (Hbe : ext_start p e <= be <= ext_end p e) by (unfold be; lia).
      assert (Hx : in_extent (Position i j (ext_start p e) (ext_end p e) (ext_start p e) be) p e)
        by (split; [done|]; split; [done|]; split; [cbn; lia|]; done).
      split; [|split].
      * unfold todo, frame, tracks_of. cbn [dsp_no ext_seq_no bufstarttrk bufendtrk extendtrk]. rewrite app_assoc. f_equal.
        rewrite <- map_app. f_equal.
        rewrite (seqZ_split (ext_start p e) (be - ext_start p e + 1) (ext_end p e - ext_start p e + 1)) by lia.
        f_equal. f_equal; lia.
      * split; [cbn; lia|]. split; [cbn; lia|]. split; [cbn; lia|]. intros _. by exists p, e.
      * exists p, e. split; [exact Hx|]. split; [done|]. cbn [bufstarttrk bufendtrk extendtrk]. unfold be in *.
        split; [lia|]. split; [lia|]. split; [lia|]. split; [intros ?; lia|lia].
    + apply head_None in Eh. by rewrite Eh.
Qed.

End Tracks.

End ZdsStream.
