(* ===== verification/ZdsFile.v ===== *)
(** The handle of a data set as a file: what [lzds_dshandle_read] delivers is a
    piece of one stream, whatever the size of the frames, and [lzds_dshandle_lseek]
    moves along that stream. *)
From S2P Require Import Prelude Ebcdic Cchh Codec Labels LabelOps Zds ZdsDataset ZdsRead ZdsTracks ZdsStream.
Import Addr Zds ZdsDataset ZdsRead ZdsTracks ZdsStream.

Module ZdsFile.

(** ** Lists *)

Lemma readable_app recfm keepRDW pay l1 : ∀ st l2,
  l1 ≠ [] → readable recfm keepRDW pay st (l1 ++ l2) →
  readable recfm keepRDW pay st l1 ∧
  ((tracks_data pay st (map snd l1)).2 = false → readable recfm keepRDW pay 1 l2).
Proof.
  induction l1 as [|[f r] l1 IH]; intros st l2 Hne; [done|]. cbn [app readable map tracks_data snd].
  intros [Hg Hr]. destruct (recs_data pay st 0 r) as [l e] eqn:E. cbn [snd] in Hr. destruct e.
  - split; [|done]. split; [done|]. by left.
  - destruct Hr as [Hr|Hr]; [done|]. destruct l1 as [|x l1].
    + split; [by split; [|right]|]. intros _. exact Hr.
    + destruct (IH 1 l2 ltac:(done) Hr) as [H1 H2]. split; [by split; [|right]|].
      destruct (tracks_data pay 1 (map snd (x :: l1))) as [l' e']. exact H2.
Qed.

(** the slice of a list from [off] on *)
Definition slice (l : list Z) (off n : Z) : list Z := take (Z.to_nat n) (drop (Z.to_nat off) l).

Lemma slice_app l off n m : 0 <= off → 0 <= n → 0 <= m → slice l off (n + m) = slice l off n ++ slice l (off + n) m.
Proof.
  intros Ho Hn Hm. unfold slice. rewrite !Z2Nat.inj_add by lia. rewrite <- drop_drop. by rewrite take_take_drop.
Qed.

Section File.
Context (tpf : Z) (ds : dataset) (Hds : dataset_ok tpf ds) (p0 : datasetpart) (Hp0 : dsp ds 0 = Some p0).
Context (keepRDW : Z) (pay : erecord → list Z) (recs : Z * Z → list erecord).
Context (member : option pdsmember) (pos0 : position) (st0 : Z) (Hpos0 : pos_ok ds pos0) (Hst0 : 0 < st0).

#[local] Notation recfm := (DS1RECFM (dp_f1 p0)).

(** the image of a track, and the records that it holds *)
Definition image (t : Z * Z) : mem := λ o,
  match dsp ds t.1 with Some p => k_byte (d_disk (dp_dasdi p)) (t.2 * RAWTRACKSIZE + o) | None => 0 end.
Definition images (l : list (Z * Z)) : list (mem * list erecord) := map (λ t, (image t, recs t)) l.

Context (Hread : readable recfm keepRDW pay st0 (images (todo ds pos0))).

(** the data behind the first position *)
Definition stream : list Z := (tracks_data pay st0 (map recs (todo ds pos0))).1.

Lemma images_recs l : map snd (images l) = map recs l.
Proof. unfold images. by rewrite map_map. Qed.

(** ** The run over the frames *)

(** behind a number of frames: the position, the first record of the next track,
    the size of the data so far, and whether its end was found *)
Record astate := AState { a_pos : position; a_start : Z; a_off : Z; a_eof : bool }.

Definition astep (a : astate) : option astate :=
  if a_eof a then None
  else
    match next_pos tpf ds (a_pos a) with
    | None => None
    | Some pos =>
        let '(l, e) := tracks_data pay (a_start a) (map recs (frame pos)) in
        Some (AState pos 1 (a_off a + Z.of_nat (length l)) e)
    end.

Fixpoint arun (k : nat) : option astate :=
  match k with
  | O => Some (AState pos0 st0 0 false)
  | S k => a ← arun k; astep a
  end.

(** the data that is left *)
Definition rest (a : astate) : list Z :=
  if a_eof a then [] else (tracks_data pay (a_start a) (map recs (todo ds (a_pos a)))).1.

Record run_ok (a : astate) : Prop := {
  ro_pos : pos_ok ds (a_pos a);
  ro_start : 0 < a_start a;
  ro_read : a_eof a = false → readable recfm keepRDW pay (a_start a) (images (todo ds (a_pos a)));
  ro_off : 0 <= a_off a <= Z.of_nat (length stream);
  ro_rest : drop (Z.to_nat (a_off a)) stream = rest a
}.

Lemma frame_nonempty pos : frame_ok tpf ds pos → frame pos ≠ [].
Proof.
  intros (p & e & _ & _ & Hb & _). unfold frame. rewrite seqZ_cons by lia. done.
Qed.

(** one frame: its data is the next piece of the stream *)
Lemma astep_ok a a' :
  run_ok a → astep a = Some a' →
  run_ok a' ∧ next_pos tpf ds (a_pos a) = Some (a_pos a') ∧ frame_ok tpf ds (a_pos a') ∧ a_start a' = 1 ∧
  tracks_data pay (a_start a) (map recs (frame (a_pos a'))) =
    (slice stream (a_off a) (a_off a' - a_off a), a_eof a') ∧ a_off a <= a_off a'.
Proof using Hds.
  intros [Hp Hs Hr Ho Hd] E. unfold astep in E. destruct (a_eof a) eqn:Ee; [done|].
  pose proof (next_pos_ok tpf ds Hds (a_pos a) Hp) as Hn. destruct (next_pos tpf ds (a_pos a)) as [pos|]; [|done].
  destruct Hn as (Et & Hp' & Hf). pose proof (frame_nonempty _ Hf) as Hne.
  destruct (tracks_data pay (a_start a) (map recs (frame pos))) as [l e] eqn:El. injection E as <-.
  cbn [a_pos a_start a_off a_eof]. specialize (Hr eq_refl). rewrite Et in Hr. unfold images in Hr. rewrite map_app in Hr.
  fold (images (frame pos)) (images (todo ds pos)) in Hr.
  apply readable_app in Hr as [_ Hr]; [|by unfold images; destruct (frame pos)]. rewrite images_recs, El in Hr. cbn [snd] in Hr.
  unfold rest in Hd. rewrite Ee, Et, map_app, tracks_data_app in Hd by (by destruct (frame pos)). rewrite El in Hd.
  set (rst := rest (AState pos 1 (a_off a + Z.of_nat (length l)) e)).
  assert (Hd' : drop (Z.to_nat (a_off a)) stream = l ++ rst).
  { rewrite Hd. unfold rst, rest. cbn [a_eof a_start a_pos]. destruct e; [simpl; by rewrite app_nil_r|].
    by destruct (tracks_data pay 1 (map recs (todo ds pos))). }
  assert (Hlen : Z.of_nat (length stream) - a_off a = Z.of_nat (length l + length rst)).
  { rewrite <- length_app, <- Hd', length_drop. lia. }
  split; [|split; [done|split; [done|split; [done|split]]]].
  - split; cbn [a_pos a_start a_off a_eof]; [done|lia|exact Hr|lia|].
    rewrite Z2Nat.inj_add, Nat2Z.id, <- drop_drop, Hd' by lia. by rewrite drop_app_length.
  - f_equal. unfold slice. rewrite Hd'. replace (Z.to_nat (a_off a + Z.of_nat (length l) - a_off a)) with (length l) by lia.
    by rewrite take_app_length.
  - lia.
Qed.

Lemma arun_ok k a : arun k = Some a → run_ok a.
Proof using Hds Hpos0 Hst0 Hread.
  revert a. induction k as [|k IH]; intros a; cbn [arun].
  - intros [= <-]. split; cbn [a_pos a_start a_off a_eof]; [done|done|done|lia|]. by rewrite drop_0.
  - intros E. apply bind_Some in E as (a1 & E1 & E2). by destruct (astep_ok a1 a (IH _ E1) E2) as [H _].
Qed.

(** ** Handles *)

(** an open handle with its buffers, without a conversion *)
Record conf (h : dshandle) : Prop := {
  cf_ds : h_ds h = ds;
  cf_member : h_member h = member;
  cf_keep : h_keepRDW h = keepRDW;
  cf_conv : h_iconv h = NoConv;
  cf_raw : h_rawbufmax h = tpf * RAWTRACKSIZE;
  cf_data : h_databufmax h = tpf * MAXRECSIZE;
  cf_open : h_is_open h = true;
  cf_fd : h_fd h = replicate (Z.to_nat (ds_dspcount ds)) true
}.

(** the element that is stored for a frame *)
Definition element (pos : position) (off : Z) : seekelement :=
  Seekelement (dsp_no pos) (ext_seq_no pos) (bufstarttrk pos) off.

(** the elements of the seek buffer, behind [k] frames *)
Record seek_ok (h : dshandle) (k : nat) : Prop := {
  so_skip : 0 < h_skip h;
  so_count : Z.of_nat (length (h_seekbuf h)) = h_seek_count h;
  so_current : 0 <= h_seek_current h <= h_seek_count h;
  so_elements : ∀ i, (Z.of_nat i < h_seek_current h) →
    ∃ a a', arun (i * Z.to_nat (h_skip h)) = Some a ∧ astep a = Some a' ∧ h_seekbuf h !! i = Some (element (a_pos a') (a_off a));
  so_visited : Z.of_nat k <= h_seek_current h * h_skip h;
  so_fits : ∀ k' a', arun k' = Some a' → Z.of_nat k' <= (h_seek_count h - 1) * h_skip h;
  so_small : h_seek_count h * h_skip h < 18446744073709551616
}.

Definition seek_state (h : dshandle) (k : nat) : Prop :=
  (h_skip h = 0 ∧ h_seekbuf h = [] ∧ h_seek_current h = 0) ∨ seek_ok h k.

(** the position of a handle behind [k] frames *)
Record at_frame (h : dshandle) (k : nat) (a : astate) : Prop := {
  af_run : arun k = Some a;
  af_frameno : h_frameno h = Z.of_nat k - 1;
  af_pos : pos_ok ds (h_pos h);
  af_next : next_pos tpf ds (h_pos h) = next_pos tpf ds (a_pos a);
  af_start : (if h_startrecord h =? 0 then 1 else h_startrecord h) = a_start a;
  af_eof : h_eof_reached h = a_eof a;
  af_off : h_databufoffset h + h_databufsize h = a_off a;
  af_range : 0 <= h_databufoffset h ∧ 0 <= h_bufpos h <= h_databufsize h;
  af_data : take (Z.to_nat (h_databufsize h)) (h_databuffer h) = slice stream (h_databufoffset h) (h_databufsize h)
}.

(** only a handle that has no elements yet can be in front of the first frame *)
Definition started (h : dshandle) (k : nat) : Prop := k = O → h_seek_current h = 0.

Definition inv (h : dshandle) : Prop := ∃ k a, conf h ∧ at_frame h k a ∧ seek_state h k ∧ started h k.

Lemma prepare_eq h :
  conf h → pos_ok ds (h_pos h) →
  dshandle_prepare_for_next_read_tracks h =
    Done match next_pos tpf ds (h_pos h) with
         | None => (false, h)
         | Some pos => (true, enter_frame h pos)
         end.
Proof using Hds.
  intros [Cds _ _ _ Craw _ _ _] Hp. pose proof (do_tpf _ _ Hds) as Ht. pose proof (next_pos_ok tpf ds Hds _ Hp) as Hn.
  assert (Hmax : h_rawbufmax h / RAWTRACKSIZE = tpf) by (rewrite Craw; by apply Z.div_mul).
  unfold dshandle_prepare_for_next_read_tracks, frame_end. rewrite Hmax. unfold next_pos in *.
  destruct Hp as (Hd & He & Hb & Hin). destruct (Z.ltb_spec (bufendtrk (h_pos h)) (extendtrk (h_pos h))) as [Hlt|Hge].
  - destruct Hn as (_ & _ & p & e & _ & (_ & _ & Hu & _) & _ & _ & Hx & _). cbn [extendtrk bufendtrk] in Hx.
    rewrite (u32_small (bufendtrk (h_pos h) + 1)) by lia. rewrite u32_small by lia. do 4 f_equal. lia.
  - rewrite Cds. assert (Hf : ds_dspcount ds * 16 - ext_no (dsp_no (h_pos h)) (ext_seq_no (h_pos h)) <= Z.of_nat extent_fuel).
    { pose proof (do_count _ _ Hds). change (Z.of_nat extent_fuel) with 945. unfold ext_no. lia. }
    destruct (next_extent_ok tpf ds Hds extent_fuel _ _ Hd He Hf) as [-> _]. rewrite Done_bind.
    destruct (head _) as [[[[i j] p] e]|]; [|done].
    destruct Hn as (_ & _ & p' & e' & _ & (_ & _ & Hu & _) & Hb' & _ & Hx & _). cbn [extendtrk bufendtrk bufstarttrk] in Hx, Hb'.
    change (lzds_dasd_cchh2trk (dp_dasdi p) (ext_llimit e)) with (ext_start p e).
    change (lzds_dasd_cchh2trk (dp_dasdi p) (ext_ulimit e)) with (ext_end p e).
    rewrite u32_small by lia. done.
Qed.

(** the buffer takes the frame, or knows it already *)
Lemma store_ok h k a a' :
  arun k = Some a → astep a = Some a' → h_pos h = a_pos a' → h_frameno h = Z.of_nat k → h_databufoffset h = a_off a →
  pos_ok ds (a_pos a') → frame_ok tpf ds (a_pos a') → seek_state h k →
  ∃ seekbuf current,
    let h' := set_h_seek h seekbuf (h_seek_count h) current (h_skip h) in
    dshandle_store_trackframe h = Done (0, h') ∧ seek_state h' (S k).
Proof using Hds.
  intros Ek Ea Ep Ef Eo Hp Hf Hs.
  assert (Hsame : h = set_h_seek h (h_seekbuf h) (h_seek_count h) (h_seek_current h) (h_skip h)) by (by destruct h).
  unfold dshandle_store_trackframe. destruct Hs as [(E1 & E2 & E3)|[S1 S2 S3 S4 S5 S6 S7]].
  { exists (h_seekbuf h), (h_seek_current h). rewrite <- Hsame. rewrite E1, Z.eqb_refl. split; [done|]. by left. }
  assert (Hk : arun (S k) = Some a') by (cbn [arun]; by rewrite Ek).
  pose proof (S6 _ _ Hk) as Hfit. set (skip := h_skip h) in *. set (cnt := h_seek_count h) in *. set (cur := h_seek_current h) in *.
  rewrite (proj2 (Z.eqb_neq skip 0)) by lia. assert (1 <= cnt) by (destruct (Z.le_gt_cases 1 cnt); [done|exfalso; assert ((cnt - 1) * skip <= 0) by (apply Z.mul_nonpos_nonneg; lia); lia]).
  rewrite bool_decide_eq_false_2 by (intros E; rewrite E in S2; simpl in S2; lia). cbn [orb].
  rewrite Ef, u64_small by lia. pose proof (Z.div_mod (Z.of_nat k) skip ltac:(lia)) as Hdm.
  pose proof (Z.mod_pos_bound (Z.of_nat k) skip ltac:(lia)) as Hm. set (q := Z.of_nat k / skip) in *.
  assert (Hq : 0 <= q) by (apply Z.div_pos; lia).
  assert (Hcur : cur < cnt).
  { destruct (decide (cur = 0)); [lia|]. destruct (S4 (Z.to_nat (cur - 1))) as (b & b' & B1 & B2 & _); [lia|].
    assert (B : arun (S (Z.to_nat (cur - 1) * Z.to_nat skip)) = Some b') by (cbn [arun]; by rewrite B1).
    apply S6 in B. rewrite Nat2Z.inj_succ, Nat2Z.inj_mul, !Z2Nat.id in B by lia.
    assert (cur - 1 < cnt - 1) by (apply (Z.mul_lt_mono_pos_r skip); lia). lia. }
  destruct (Z.eqb_spec (Z.of_nat k mod skip) 0) as [Emod|Emod]; cbn [negb].
  2: { exists (h_seekbuf h), cur. rewrite <- Hsame. split; [done|]. right. split; try done. fold cur skip.
       assert (Z.of_nat k ≠ cur * skip) by (intros E; apply Emod; rewrite E; apply Z.mod_mul; lia). lia. }
  rewrite (proj2 (Z.leb_gt cnt cur)) by lia. assert (q <= cur) by (apply (Z.mul_le_mono_pos_r _ _ skip); lia).
  rewrite (proj2 (Z.ltb_ge cur q)) by lia.
  assert (Hel : ∀ x, frame_matches h x = true ↔ x = element (a_pos a') (a_off a)).
  { intros [x1 x2 x3 x4]. unfold frame_matches, element. rewrite Ep, Eo. cbn. rewrite !andb_true_iff, !Z.eqb_eq. naive_solver. }
  destruct (Z.ltb_spec q cur) as [Hlt|Hge].
  - destruct (S4 (Z.to_nat q)) as (b & b' & B1 & B2 & B3); [lia|].
    assert (Ekq : (Z.to_nat q * Z.to_nat skip)%nat = k) by (apply Nat2Z.inj; rewrite Nat2Z.inj_mul, !Z2Nat.id by lia; lia). rewrite Ekq, Ek in B1. injection B1 as <-.
    rewrite Ea in B2. injection B2 as <-. rewrite B3. cbn [deref]. rewrite Done_bind, (proj2 (Hel _)) by done.
    exists (h_seekbuf h), cur. rewrite <- Hsame. split; [done|]. right. split; try done. fold cur skip.
    assert ((q + 1) * skip <= cur * skip) by (apply Z.mul_le_mono_nonneg_r; lia). lia.
  - assert (q = cur) as Eq by lia. exists (<[Z.to_nat q := this_frame h]> (h_seekbuf h)), (cur + 1). split; [done|].
    assert (Hthis : this_frame h = element (a_pos a') (a_off a)).
    { unfold this_frame, element. rewrite Ep, Eo. destruct Hp as (Hd & He & _). destruct Hf as (? & ? & (_ & _ & Hx & _) & _).
      pose proof (do_count _ _ Hds). rewrite !u8_small by lia. done. }
    right. split; cbn [h_skip h_seekbuf h_seek_count h_seek_current set_h_seek]; fold cnt cur skip; try done; try lia.
    + by rewrite length_insert.
    + intros i Hi. destruct (decide (i = Z.to_nat q)) as [->|Hne].
      * exists a, a'. replace (Z.to_nat q * Z.to_nat skip)%nat with k by (apply Nat2Z.inj; rewrite Nat2Z.inj_mul, !Z2Nat.id by lia; lia). split; [done|]. split; [done|].
        rewrite list_lookup_insert_eq by lia. by rewrite Hthis.
      * destruct (S4 i) as (b & b' & B1 & B2 & B3); [lia|]. exists b, b'. split; [done|]. split; [done|].
        by rewrite list_lookup_insert_ne by done.
Qed.

(** the buffer with the tracks of a frame *)
Lemma frame_in_buffer pos p raw :
  dsp ds (dsp_no pos) = Some p →
  (∀ o, 0 <= o < (bufendtrk pos - bufstarttrk pos + 1) * RAWTRACKSIZE →
     raw o = k_byte (d_disk (dp_dasdi p)) (bufstarttrk pos * RAWTRACKSIZE + o)) →
  ∀ i f r, images (frame pos) !! i = Some (f, r) → in_buffer raw (0 + Z.of_nat i * RAWTRACKSIZE) f.
Proof.
  intros Ep Hraw i f r Hi o Ho. unfold images, frame in Hi. rewrite map_map, list_lookup_fmap in Hi.
  destruct (seqZ _ _ !! i) as [t|] eqn:Et; [|done]. cbn [fmap option_fmap option_map] in Hi. injection Hi as <- _.
  apply lookup_seqZ in Et as [-> Hlt]. unfold image. cbn [fst snd]. rewrite Ep, Z.add_0_l.
  rewrite Hraw by (unfold RAWTRACKSIZE in *; lia). f_equal. lia.
Qed.

Lemma length_images_frame pos :
  frame_ok tpf ds pos → Z.of_nat (length (images (frame pos))) = bufendtrk pos - bufstarttrk pos + 1.
Proof.
  intros (? & ? & _ & _ & H & _). unfold images, frame. rewrite !length_map, length_seqZ. lia.
Qed.

(** the extraction of a frame *)
Lemma extract_ok h a a' :
  conf h → run_ok a → astep a = Some a' → h_pos h = a_pos a' → h_eof_reached h = false →
  (if h_startrecord h =? 0 then 1 else h_startrecord h) = a_start a →
  h_rawbufsize h = (bufendtrk (a_pos a') - bufstarttrk (a_pos a') + 1) * RAWTRACKSIZE →
  (∀ i f r, images (frame (a_pos a')) !! i = Some (f, r) → in_buffer (h_rawbuffer h) (0 + Z.of_nat i * RAWTRACKSIZE) f) →
  dshandle_extract_data_from_trackbuffer h =
    Done (0, set_h_data h (h_rawbuffer h) (slice stream (a_off a) (a_off a' - a_off a)) (a_off a' - a_off a) 1 (a_eof a')).
Proof using Hds Hp0.
  intros [Cds Cm Ck Cc Craw Cdata _ _] Hrun Ea Ep Ee Es Ers Hb.
  destruct (astep_ok a a' Hrun Ea) as (Hrun' & Hn & Hf & _ & Etd & Hle). pose proof (length_images_frame _ Hf) as Hlen.
  pose proof (frame_nonempty _ Hf) as Hne. destruct Hf as (p & e & _ & _ & Hbt & Htpf & _).
  assert (Hr : readable (DS1RECFM (dp_f1 p0)) (h_keepRDW h) pay (a_start a) (images (frame (a_pos a')))).
  { pose proof (ro_read _ Hrun) as Hr. pose proof (next_pos_ok tpf ds Hds _ (ro_pos _ Hrun)) as Hok. rewrite Hn in Hok.
    destruct Hok as (Et & _). rewrite Et in Hr. unfold images in Hr. rewrite map_app in Hr.
    rewrite Ck. eapply readable_app; [|apply Hr]; [by destruct (frame (a_pos a'))|].
    unfold astep in Ea. by destruct (a_eof a). }
  unfold dshandle_extract_data_from_trackbuffer. rewrite Cds, Hp0. cbn [deref]. rewrite Done_bind, Es, Ers, Ee.
  rewrite Z.div_mul by done. rewrite <- Hlen, Nat2Z.id.
  pose proof (tracks_loop_ok h (h_rawbuffer h) Cc (dp_f1 p0) pay (images (frame (a_pos a'))) 0
    (Extraction (h_rawbuffer h) [] (a_start a) false)) as Hl.
  cbn [x_raw x_eof x_startrecord x_data length] in Hl. rewrite images_recs, Etd in Hl. rewrite Hl; try done.
  - rewrite Done_bind. cbn [x_raw x_data x_startrecord x_eof app].
    assert (Hx : match images (frame (a_pos a')) with [] => a_start a | _ => 1 end = 1) by (by destruct (frame (a_pos a'))).
    rewrite Hx. do 3 f_equal. unfold slice. rewrite length_take, length_drop.
    pose proof (ro_off _ Hrun'). pose proof (ro_off _ Hrun). lia.
  - rewrite Hlen, Craw. unfold RAWTRACKSIZE. lia.
  - rewrite Hlen, Cdata. unfold MAXRECSIZE. lia.
Qed.

Lemma fill_ok h k a :
  conf h → at_frame h k a → seek_state h k → a_eof a = false →
  match next_pos tpf ds (a_pos a) with
  | None => fill_buffer h = Done (None, h)
  | Some _ =>
      ∃ a' h', astep a = Some a' ∧ fill_buffer h = Done (Some 0, h') ∧ conf h' ∧ at_frame h' (S k) a' ∧ seek_state h' (S k) ∧
        h_bufpos h' = 0 ∧ h_databufoffset h' = a_off a
  end.
Proof using Hds Hp0 Hpos0 Hst0 Hread.
  intros Hc [Ak Af Ap An As Ae Ao Ar Ad] Hs Heof. pose proof (arun_ok k a Ak) as Hrun.
  unfold fill_buffer. rewrite (prepare_eq h Hc Ap), An, Done_bind.
  destruct (next_pos tpf ds (a_pos a)) as [pos|] eqn:En; [|done]. cbn [negb].
  assert (Ea : ∃ a', astep a = Some a' ∧ a_pos a' = pos).
  { unfold astep. rewrite Heof, En. destruct (tracks_data _ _ _) as [l e]. by eexists. }
  destruct Ea as (a' & Ea & <-). exists a'. destruct (astep_ok a a' Hrun Ea) as (Hrun' & _ & Hf & Es' & Etd & Hle).
  pose proof Hf as (p & e & (Ep & _) & Hpk & Hbt & Htpf & Hx & _). pose proof (do_tpf _ _ Hds) as Ht.
  set (h1 := enter_frame h (a_pos a')). change (h_pos h1) with (a_pos a'). change (h_ds h1) with (h_ds h).
  change (h_fd h1) with (h_fd h). change (h_rawbuffer h1) with (h_rawbuffer h).
  rewrite (cf_ds _ Hc), Ep, (cf_fd _ Hc). cbn [deref]. rewrite Done_bind.
  destruct (ro_pos _ Hrun') as (Hd & _). rewrite lookup_replicate_2 by lia.
  change (default false (Some true)) with true. cbv zeta.
  destruct Hpk as (Hl16 & Hhon & Hbig & Hext).
  destruct (read_tracks_ok (dp_dasdi p) (bufstarttrk (a_pos a')) (bufendtrk (a_pos a')) (h_rawbuffer h) Hhon) as (raw & Er & Hraw);
    [lia|lia|]. rewrite Er, Done_bind. cbn [Z.eqb negb]. set (h2 := set_h_rawbuffer h1 raw).
  assert (Hc2 : conf h2) by (destruct Hc; by split).
  rewrite (extract_ok h2 a a' Hc2 Hrun Ea); [|done|change (h_eof_reached h2) with (h_eof_reached h); congruence|exact As| |].
  2: { change (h_rawbufsize h2) with (u32 (u32 (bufendtrk (a_pos a') - bufstarttrk (a_pos a') + 1) * RAWTRACKSIZE)).
       rewrite (u32_small (bufendtrk _ - _ + 1)), u32_small; unfold RAWTRACKSIZE; lia. }
  2: { apply (frame_in_buffer _ p); [done|exact Hraw]. }
  rewrite Done_bind. cbn [Z.eqb negb]. set (h3 := set_h_data h2 _ _ _ _ _).
  assert (Eo3 : h_databufoffset h3 = a_off a) by (change (h_databufoffset h3) with (h_databufoffset h + h_databufsize h); exact Ao).
  assert (Ef3 : h_frameno h3 = Z.of_nat k) by (change (h_frameno h3) with (h_frameno h + 1); lia).
  destruct (store_ok h3 k a a' Ak Ea eq_refl Ef3 Eo3 (ro_pos _ Hrun') Hf) as (sb & cur & E4 & Hs4).
  { destruct Hs as [Hs|[]]; [by left|by right]. }
  rewrite E4, Done_bind. eexists. split; [done|]. split; [done|]. split; [destruct Hc; by split|]. split; [|by split; [|split]].
  assert (Hk : arun (S k) = Some a') by (cbn [arun]; by rewrite Ak).
  split; try done.
  - change (h_frameno h3 = Z.of_nat (S k) - 1). lia.
  - by destruct Hrun'.
  - change (h_databufoffset h3 + (a_off a' - a_off a) = a_off a'). lia.
  - change (0 <= h_databufoffset h3 ∧ 0 <= 0 <= a_off a' - a_off a). pose proof (ro_off _ Hrun). lia.
  - change (take (Z.to_nat (a_off a' - a_off a)) (slice stream (a_off a) (a_off a' - a_off a)) =
      slice stream (h_databufoffset h3) (a_off a' - a_off a)). rewrite Eo3. unfold slice. rewrite take_take. f_equal. lia.
Qed.

(** ** Read *)

Lemma length_slice l off n : 0 <= off → 0 <= n → off + n <= Z.of_nat (length l) → Z.of_nat (length (slice l off n)) = n.
Proof. intros H1 H2 H3. unfold slice. rewrite length_take, length_drop. lia. Qed.

Lemma slice_take_drop l off m n k :
  0 <= off → 0 <= k → 0 <= n → k + n <= m → slice (slice l off m) k n = slice l (off + k) n.
Proof.
  intros Ho Hk Hn Hm. unfold slice. rewrite Z2Nat.inj_add, <- drop_drop by lia.
  set (L := drop (Z.to_nat off) l). apply list_eq. intros i.
  destruct (decide (i < Z.to_nat n)%nat); [|by rewrite !lookup_take_ge by lia].
  rewrite !lookup_take_lt, !lookup_drop by done. rewrite lookup_take_lt by lia. done.
Qed.

Lemma at_frame_bufpos h k a bufpos :
  at_frame h k a → 0 <= bufpos <= h_databufsize h → at_frame (set_h_bufpos h bufpos) k a.
Proof. intros [] Hb. split; try done. split; [cbn; lia|]. exact Hb. Qed.

Lemma conf_bufpos h bufpos : conf h → conf (set_h_bufpos h bufpos).
Proof. intros []. by split. Qed.

Lemma seek_bufpos h bufpos k : seek_state h k → seek_state (set_h_bufpos h bufpos) k.
Proof. intros [H|[]]; [by left|by right]. Qed.

(** the bytes that are copied from the buffer *)
Lemma copy_ok h k a c :
  at_frame h k a → 0 <= c <= h_databufsize h - h_bufpos h →
  take (Z.to_nat c) (drop (Z.to_nat (h_bufpos h)) (h_databuffer h)) = slice stream (lzds_dshandle_get_offset h) c ∧
  Z.of_nat (length (slice stream (lzds_dshandle_get_offset h) c)) = c.
Proof using Hds Hpos0 Hst0 Hread.
  intros [Ak _ _ _ _ _ Ao Ar Ad] Hc. pose proof (ro_off _ (arun_ok k a Ak)) as Hoff. unfold lzds_dshandle_get_offset. split.
  - rewrite <- (slice_take_drop stream (h_databufoffset h) (h_databufsize h)) by lia. rewrite <- Ad. unfold slice.
    apply list_eq. intros i. destruct (decide (i < Z.to_nat c)%nat); [|by rewrite !lookup_take_ge by lia].
    rewrite !lookup_take_lt, !lookup_drop by done. rewrite lookup_take_lt by lia. done.
  - apply length_slice; lia.
Qed.

(** the number of tracks that are left *)
Definition left (a : astate) : nat := length (todo ds (a_pos a)).

Lemma left_step a a' : run_ok a → astep a = Some a' → (left a' < left a)%nat.
Proof using Hds.
  intros Hr Ea. destruct (astep_ok a a' Hr Ea) as (_ & Hn & Hf & _).
  pose proof (next_pos_ok tpf ds Hds _ (ro_pos _ Hr)) as Hok. rewrite Hn in Hok. destruct Hok as (Et & _).
  unfold left. rewrite Et, length_app. pose proof (frame_nonempty _ Hf). destruct (frame (a_pos a')); [done|]. simpl. lia.
Qed.

(** what a read delivers; the last byte that was asked for comes from the buffer *)
Definition reads (h : dshandle) (size : Z) (buf : list Z) (r : outcome (Z * list Z * dshandle)) : Prop :=
  let l := slice stream (lzds_dshandle_get_offset h) (size - Z.of_nat (length buf)) in
  ∃ h', r = Done (0, buf ++ l, h') ∧ inv h' ∧
    lzds_dshandle_get_offset h' = lzds_dshandle_get_offset h + Z.of_nat (length l) ∧
    (size <= Z.of_nat (length buf) → h' = h) ∧
    (Z.of_nat (length buf) < size → Z.of_nat (length l) = size - Z.of_nat (length buf) → 0 < h_bufpos h').

Lemma reads_copy h k a size buf c rest :
  conf h → at_frame h k a → seek_state h k → 0 < c <= h_databufsize h - h_bufpos h → c <= size - Z.of_nat (length buf) →
  reads (set_h_bufpos h (h_bufpos h + c)) size (buf ++ slice stream (lzds_dshandle_get_offset h) c) rest →
  reads h size buf rest.
Proof using Hds Hpos0 Hst0 Hread.
  intros Hcf Ha Hs Hc Hsize (h' & E & Hi & Ho & Hsame & Hpos). destruct (copy_ok h k a c Ha) as [_ Hlen]; [lia|].
  set (off := lzds_dshandle_get_offset h) in *.
  assert (E1 : lzds_dshandle_get_offset (set_h_bufpos h (h_bufpos h + c)) = off + c)
    by (unfold off, lzds_dshandle_get_offset; cbn; lia). rewrite E1 in *.
  pose proof (af_range _ _ _ Ha) as Har.
  assert (Hoff : 0 <= off) by (unfold off, lzds_dshandle_get_offset; lia).
  rewrite length_app in *.
  replace (size - Z.of_nat (length buf + length (slice stream off c))) with (size - Z.of_nat (length buf) - c) in * by lia.
  assert (Es : slice stream off (size - Z.of_nat (length buf)) = slice stream off c ++ slice stream (off + c) (size - Z.of_nat (length buf) - c)).
  { rewrite <- slice_app by lia. f_equal. lia. }
  exists h'. fold off. rewrite Es, app_assoc. split; [exact E|]. split; [done|]. rewrite length_app. split; [lia|]. split; [lia|].
  intros _ Hfull. destruct (Z.le_gt_cases size (Z.of_nat (length buf) + c)) as [Hle|Hgt]; [|apply Hpos; lia].
  rewrite Hsame by lia. cbn. lia.
Qed.

Lemma reads_end h size buf : inv h → slice stream (lzds_dshandle_get_offset h) (size - Z.of_nat (length buf)) = [] →
  reads h size buf (Done (0, buf, h)).
Proof.
  intros Hi E. exists h. rewrite E, app_nil_r. split; [done|]. split; [done|]. split; [simpl; lia|]. split; [done|].
  cbn [length]. lia.
Qed.

Lemma reads_from h h1 size buf r :
  lzds_dshandle_get_offset h = lzds_dshandle_get_offset h1 → Z.of_nat (length buf) < size → reads h1 size buf r → reads h size buf r.
Proof.
  intros E Hlt (h' & H1 & H2 & H3 & _ & H5). exists h'. rewrite E. split; [done|]. split; [done|]. split; [done|]. split; [lia|done].
Qed.

(** at the end of the buffer the data that is left is the one of the frames *)
Lemma slice_rest h k a n :
  at_frame h k a → h_databufsize h <= h_bufpos h → rest a = [] → slice stream (lzds_dshandle_get_offset h) n = [].
Proof using Hds Hpos0 Hst0 Hread.
  intros [Ak _ _ _ _ _ Ao Ar _] Hb Hr. pose proof (ro_rest _ (arun_ok k a Ak)) as Hd.
  unfold lzds_dshandle_get_offset, slice. replace (h_databufoffset h + h_bufpos h) with (a_off a) by lia.
  by rewrite Hd, Hr, take_nil.
Qed.

(** in front of the first frame there is no data in the buffer *)
Lemma at_start h a : at_frame h O a → h_databufoffset h = 0 ∧ h_databufsize h = 0.
Proof. intros [[= <-] _ _ _ _ _ Ao Ar _]. cbn [a_off] in Ao. lia. Qed.

Lemma no_elements h a : seek_state h O → arun O = Some a → astep a = None → h_seek_current h = 0.
Proof.
  intros [(_ & _ & E)|Hs] Ek Ea; [done|]. destruct (decide (h_seek_current h = 0)) as [|Hne]; [done|exfalso].
  pose proof (so_current _ _ Hs). destruct (so_elements _ _ Hs O) as (b & b' & B1 & B2 & _); [lia|].
  cbn [Nat.mul] in B1. congruence.
Qed.

Lemma read_data_ok size fuel : ∀ h k a buf,
  conf h → at_frame h k a → seek_state h k → started h k ∨ Z.of_nat (length buf) < size → Z.of_nat (length buf) <= size →
  size - Z.of_nat (length buf) + Z.of_nat (left a) < Z.of_nat fuel →
  reads h size buf (read_data fuel h size buf).
Proof using Hds Hp0 Hpos0 Hst0 Hread.
  induction fuel as [|fuel IH]; intros h k a buf Hc Ha Hs Hst Hb Hf; [lia|].
  cbn [read_data]. destruct (Z.leb_spec size (Z.of_nat (length buf))) as [Hle|Hgt].
  { apply reads_end; [exists k, a; destruct Hst; [done|lia]|]. replace (size - _) with 0 by lia. done. }
  (* the step that copies *)
  assert (Hcopy : ∀ h1 k1 a1, conf h1 → at_frame h1 k1 a1 → seek_state h1 k1 →
    (left a1 < left a)%nat ∧ k1 ≠ O ∨ (left a1 <= left a)%nat ∧ h_bufpos h1 < h_databufsize h1 →
    reads h1 size buf
      (if h_bufpos h1 <? h_databufsize h1 then
         let copysize := Z.min (size - Z.of_nat (length buf)) (h_databufsize h1 - h_bufpos h1) in
         let l := take (Z.to_nat copysize) (drop (Z.to_nat (h_bufpos h1)) (h_databuffer h1)) in
         read_data fuel (set_h_bufpos h1 (h_bufpos h1 + copysize)) size (buf ++ l)
       else read_data fuel h1 size buf)).
  { intros h1 k1 a1 Hc1 Ha1 Hs1 Hl. destruct (Z.ltb_spec (h_bufpos h1) (h_databufsize h1)) as [Hlt|Hge].
    - cbv zeta. set (c := Z.min _ _). assert (Hcr : 0 < c <= h_databufsize h1 - h_bufpos h1) by (unfold c; lia).
      destruct (copy_ok h1 k1 a1 c Ha1) as [El Hlen]; [lia|]. rewrite El.
      apply (reads_copy h1 k1 a1 size buf c); try done; [unfold c; lia|].
      pose proof (af_range _ _ _ Ha1) as [_ Hr1].
      apply (IH _ k1 a1); [by apply conf_bufpos|apply at_frame_bufpos; [done|lia]|by apply seek_bufpos| | |].
      + left. intros ->. pose proof (at_start _ _ Ha1). lia.
      + rewrite length_app. unfold c in *. lia.
      + rewrite length_app. lia.
    - apply (IH _ k1 a1); try done; [right; lia|lia]. }
  destruct (Z.leb_spec (h_databufsize h) (h_bufpos h)) as [Hempty|Hfull].
  - rewrite (af_eof _ _ _ Ha). destruct (a_eof a) eqn:Ee.
    { rewrite Done_bind. apply reads_end; [exists k, a; split; [done|]; split; [done|]; split; [done|]|].
      { intros ->. pose proof (af_run _ _ _ Ha) as E. injection E as <-. done. }
      apply (slice_rest h k a); try done. unfold rest. by rewrite Ee. }
    pose proof (fill_ok h k a Hc Ha Hs Ee) as Hfill. destruct (next_pos tpf ds (a_pos a)) eqn:En.
    + destruct Hfill as (a1 & h1 & Ea & E & Hc1 & Ha1 & Hs1 & Hb1 & Ho1). rewrite E, !Done_bind. cbn [Z.eqb negb].
      assert (Hoff : lzds_dshandle_get_offset h = lzds_dshandle_get_offset h1).
      { unfold lzds_dshandle_get_offset. rewrite Hb1, Ho1. pose proof (af_off _ _ _ Ha). pose proof (af_range _ _ _ Ha). lia. }
      apply (reads_from h h1); [done|done|]. apply (Hcopy h1 (S k) a1); try done. left. split; [|done].
      eapply left_step; [eapply arun_ok; apply Ha|done].
    + rewrite Hfill, !Done_bind. apply reads_end; [exists k, a; split; [done|]; split; [done|]; split; [done|]|].
      { intros ->. apply (no_elements h a); try done; [apply Ha|]. unfold astep. by rewrite Ee, En. }
      apply (slice_rest h k a); try done. unfold rest. rewrite Ee.
      pose proof (next_pos_ok tpf ds Hds _ (ro_pos _ (arun_ok k a (af_run _ _ _ Ha)))) as Hok. rewrite En in Hok. by rewrite Hok.
  - rewrite Done_bind. apply (Hcopy h k a); try done. right. lia.
Qed.

Lemma left_le k a : arun k = Some a → (left a <= length (todo ds pos0))%nat.
Proof using Hds Hpos0 Hst0 Hread.
  revert a. induction k as [|k IH]; intros a; cbn [arun]; [by intros [= <-]|].
  intros E. apply bind_Some in E as (a1 & E1 & E2). specialize (IH _ E1).
  pose proof (left_step a1 a (arun_ok k a1 E1) E2). lia.
Qed.

(** ** Seek *)

Lemma half n : 2 * (n / 2) <= n < 2 * (n / 2) + 2.
Proof. pose proof (Z.div_mod n 2 ltac:(done)). pose proof (Z.mod_pos_bound n 2 ltac:(done)). lia. Qed.

(** the bisection finds an element that is not behind the offset *)
Lemma find_loop_ok seekbuf offset fuel : ∀ low high index,
  0 <= low <= high → high < Z.of_nat (length seekbuf) →
  (low < high → (index = (high + low) / 2 ∨ index = (high + low + 1) / 2) ∧
                high - low + (if index =? low then 1 else 0) <= Z.of_nat fuel) →
  (∃ x, seekbuf !! Z.to_nat low = Some x ∧ se_databufoffset x <= offset) →
  ∃ i x, find_loop fuel seekbuf offset low high index = Done i ∧ 0 <= i <= high ∧
    seekbuf !! Z.to_nat i = Some x ∧ se_databufoffset x <= offset.
Proof.
  induction fuel as [|fuel IH]; intros low high index Hl Hh Hf Hx; cbn [find_loop].
  - destruct (Z.eqb_spec low high) as [->|Hne]; [destruct Hx as (x & E & Hx); by exists high, x|].
    destruct Hf as [_ Hf]; [lia|]. exfalso. destruct (index =? low); lia.
  - destruct (Z.eqb_spec low high) as [->|Hne]; [destruct Hx as (x & E & Hx); by exists high, x|].
    destruct Hf as [Hi Hf]; [lia|]. pose proof (half (high + low)) as D1. pose proof (half (high + low + 1)) as D2.
    assert (Hr : low <= index <= high) by lia.
    destruct (lookup_lt_is_Some_2 seekbuf (Z.to_nat index)) as [y Ey]; [lia|]. rewrite Ey. cbn [deref]. rewrite Done_bind. cbv zeta.
    destruct (Z.leb_spec (se_databufoffset y) offset) as [Hle|Hgt].
    + apply IH; [lia|lia| |by exists y]. intros Hlt. split; [by right|]. pose proof (half (high + index + 1)) as D3.
      destruct (Z.eqb_spec index low); destruct (Z.eqb_spec ((high + index + 1) / 2) index); lia.
    + assert (index ≠ low) as Hne' by (destruct Hx as (x & E & Hx); intros ->; rewrite E in Ey; injection Ey as <-; lia).
      rewrite (proj2 (Z.eqb_neq index low)) in Hf by done.
      destruct (IH low (index - 1) ((index - 1 + low) / 2)) as (i & x & E & Hir & Ex); [lia|lia| |done|].
      * intros Hlt. split; [by left|]. destruct (_ =? _); lia.
      * exists i, x. split; [done|]. split; [lia|done].
Qed.

(** the elements of the buffer that are in use *)
Lemma find_seekelement_ok h k offset :
  seek_ok h k → 0 < h_seek_current h → 0 <= offset →
  ∃ i x, dshandle_find_seekelement h offset = Done (Some i) ∧ 0 <= i < h_seek_current h ∧
    h_seekbuf h !! Z.to_nat i = Some x ∧ se_databufoffset x <= offset.
Proof.
  intros Hs Hcur Ho. destruct Hs as [S1 S2 S3 S4 S5 S6 S7]. unfold dshandle_find_seekelement.
  rewrite (proj2 (Z.eqb_neq _ 0)) by lia.
  destruct (lookup_lt_is_Some_2 (h_seekbuf h) (Z.to_nat (h_seek_current h - 1))) as [y Ey]; [lia|].
  rewrite Ey. cbn [deref]. rewrite Done_bind. destruct (Z.leb_spec (se_databufoffset y) offset) as [Hle|Hgt].
  { exists (h_seek_current h - 1), y. split; [done|]. split; [lia|done]. }
  destruct (S4 O) as (b & b' & B1 & _ & B3); [lia|]. injection B1 as <-.
  assert (h_seek_current h ≠ 1) by (intros E; rewrite E in Ey; change (Z.to_nat (1 - 1)) with O in Ey; rewrite B3 in Ey; injection Ey as <-; cbn in Hgt; lia).
  assert (h_seek_count h < 18446744073709551616).
  { eapply Z.le_lt_trans; [|exact S7]. rewrite <- (Z.mul_1_r (h_seek_count h)) at 1. apply Z.mul_le_mono_nonneg_l; lia. }
  cbv zeta. rewrite u64_small by lia. set (high := h_seek_current h - 2).
  destruct (find_loop_ok (h_seekbuf h) offset (Z.to_nat (h_seek_current h)) 0 high (high / 2)) as (i & x & E & Hi & Ex).
  - unfold high. lia.
  - unfold high. lia.
  - intros Hlt. rewrite Z.add_0_r. split; [by left|]. unfold high. destruct (_ =? _); lia.
  - eexists. split; [exact B3|]. cbn. lia.
  - rewrite E, Done_bind. exists i, x. split; [done|]. split; [unfold high in Hi; lia|done].
Qed.

(** the frames behind a position that was found in the buffer *)
Lemma reset_pos pos :
  0 <= dsp_no pos < ds_dspcount ds → 0 <= ext_seq_no pos <= 15 → frame_ok tpf ds pos → ∀ x y,
  let before := if bufstarttrk pos =? 0 then Position (dsp_no pos) (ext_seq_no pos - 1) x 0 y 0
                else Position (dsp_no pos) (ext_seq_no pos) (extstarttrk pos) (extendtrk pos) 0 (bufstarttrk pos - 1) in
  pos_ok ds before ∧ next_pos tpf ds before = Some pos.
Proof using Hds.
  intros Hd He (p & e & Hx & Hp & Hb & _ & Ht & Hz & Hend) x y. pose proof (do_tpf _ _ Hds) as Htpf.
  pose proof Hx as (Ep & Ee & _ & Hu & Es & Et). destruct pos as [d j es ee bs be].
  cbn [dsp_no ext_seq_no extstarttrk extendtrk bufstarttrk bufendtrk] in *.
  destruct (Z.eqb_spec bs 0) as [E0|E0]; cbv zeta.
  - split; [split; [done|]; split; [cbn; lia|]; split; [done|]; by cbn|]. unfold next_pos. cbn.
    assert (En : ext_no d (j - 1) + 1 = ext_no d j) by (unfold ext_no; lia). rewrite En.
    rewrite exts_from_unfold by (unfold ext_no; lia).
    assert (Ea : ext_at ds (ext_no d j) = [(d, j, p, e)]).
    { unfold ext_at, ext_no. rewrite Z.div_add_l, (Z.div_small j), Z.add_0_r, Ep by lia.
      rewrite Z.add_comm, Z.mod_add, Z.mod_small, Ee, Hu by lia. done. }
    rewrite Ea. cbn. do 2 f_equal; try done; try lia.
  - split.
    + split; [done|]. split; [cbn; lia|]. split; [cbn; lia|]. intros _. exists p, e. done.
    + unfold next_pos. cbn. rewrite (proj2 (Z.ltb_lt (bs - 1) ee)) by lia. do 2 f_equal; lia.
Qed.

(** only the first frame starts inside of a track *)
Lemma start_later k a : k ≠ O → arun k = Some a → a_start a = 1.
Proof using Hds Hpos0 Hst0 Hread.
  destruct k as [|k]; [done|]. intros _ E. cbn [arun] in E. apply bind_Some in E as (b & E1 & E2).
  by destruct (astep_ok b a (arun_ok k b E1) E2) as (_ & _ & _ & H & _).
Qed.

Lemma start_one k a : st0 = 1 → arun k = Some a → a_start a = 1.
Proof using Hds Hpos0 Hst0 Hread.
  intros E Ek. destruct k as [|k]; [injection Ek as <-; done|]. by apply (start_later (S k)).
Qed.

Context (Hmember : st0 = match member with None => 1 | Some m => if m_record m =? 0 then 1 else m_record m end).

(** the handle in front of the frame of an element *)
Lemma reset_ok h k a i x :
  conf h → at_frame h k a → seek_ok h k → started h k → 0 <= i < h_seek_current h → h_seekbuf h !! Z.to_nat i = Some x →
  ∃ h' k' a', dshandle_reset_buffer_position_to_seekelement h i = Done h' ∧ conf h' ∧ at_frame h' k' a' ∧ seek_ok h' k' ∧
    h_databufoffset h' = se_databufoffset x ∧ h_databufsize h' = 0.
Proof using Hds Hpos0 Hst0 Hread Hmember.
  intros Hc Ha Hs Hstart Hi Ex. destruct (so_elements _ _ Hs (Z.to_nat i)) as (b & b' & B1 & B2 & B3); [lia|].
  rewrite Ex in B3. injection B3 as ->. pose proof (arun_ok _ _ B1) as Hrun.
  destruct (astep_ok b b' Hrun B2) as (Hrun' & Hn & Hf & _). destruct (ro_pos _ Hrun') as (Hd & _).
  pose proof Hf as (p & e & (Ep & Ee & Hj0 & Hu & Es & Et) & (H16 & _) & Hb & _).
  assert (Hj : 0 <= ext_seq_no (a_pos b') <= 15) by (apply lookup_lt_Some in Ee; lia).
  pose proof (reset_pos (a_pos b') Hd Hj Hf (extstarttrk (h_pos h)) (bufstarttrk (h_pos h))) as [Hp' Hnext]. cbv zeta in Hp', Hnext.
  set (k' := (Z.to_nat i * Z.to_nat (h_skip h))%nat) in *. pose proof (so_skip _ _ Hs) as Hskip.
  assert (Ek : Z.of_nat k' = i * h_skip h) by (unfold k'; rewrite Nat2Z.inj_mul, !Z2Nat.id by lia; done).
  unfold dshandle_reset_buffer_position_to_seekelement. rewrite Ex. cbn [deref]. rewrite Done_bind. cbv zeta.
  unfold element. cbn [se_bufstarttrk se_dsp_no se_ext_seq_no se_databufoffset]. rewrite (cf_member _ Hc), (cf_ds _ Hc).
  set (st := match member with None => _ | Some _ => _ end).
  assert (Hst : (if st =? 0 then 1 else st) = a_start b).
  { assert (Hh : (if h_startrecord h =? 0 then 1 else h_startrecord h) = a_start a) by apply Ha.
    destruct (decide (i = 0)) as [->|Hi0].
    - assert (k' = O) as E0 by lia. rewrite E0 in B1. injection B1 as <-. cbn [a_start]. unfold st. rewrite Hmember.
      destruct member as [m|]; [done|]. rewrite Hh. eapply start_one; [|apply Ha]. done.
    - assert (0 < i * h_skip h) by (apply Z.mul_pos_pos; lia).
      assert (Est : st = h_startrecord h) by (unfold st; destruct member; [by rewrite (proj2 (Z.eqb_neq _ (-1))) by lia|done]).
      rewrite Est, Hh. assert (k ≠ O) by (intros ->; rewrite (Hstart eq_refl) in Hi; lia).
      rewrite (start_later k a) by (try done; apply Ha). rewrite (start_later k' b) by (try done; lia). done. }
  assert (Hfin : ∀ pos rs, pos_ok ds pos → next_pos tpf ds pos = Some (a_pos b') →
    let h' := set_h_pos h pos (i * h_skip h - 1) st false rs 0 (a_off b) 0 in
    conf h' ∧ at_frame h' k' b ∧ seek_ok h' k').
  { intros pos rs Hpos Hnx. split; [destruct Hc; by split|]. split.
    - pose proof (ro_off _ Hrun). split; try done; cbn; try lia; [congruence|].
      unfold astep in B2. by destruct (a_eof b).
    - destruct Hs. split; try done. cbn. rewrite Ek. apply Z.mul_le_mono_nonneg_r; lia. }
  destruct (bufstarttrk (a_pos b') =? 0).
  - eexists _, k', b. split; [done|]. destruct (Hfin _ (h_rawbufsize h) Hp' Hnext) as (H1 & H2 & H3). split; [exact H1|]. by split.
  - rewrite Ep. cbn [deref]. rewrite Done_bind, Ee. cbn [deref]. rewrite Done_bind.
    change (lzds_dasd_cchh2trk (dp_dasdi p) (ext_llimit e)) with (ext_start p e).
    change (lzds_dasd_cchh2trk (dp_dasdi p) (ext_ulimit e)) with (ext_end p e). rewrite <- Es, <- Et.
    eexists _, k', b. split; [done|]. destruct (Hfin _ 0 Hp' Hnext) as (H1 & H2 & H3). split; [exact H1|]. by split.
Qed.

Context (Htracks : (length (todo ds pos0) <= Z.to_nat (lzds_dataset_get_size_in_tracks ds))%nat).

Lemma read_ok h k a size :
  conf h → at_frame h k a → seek_state h k → started h k ∨ 0 < size → 0 <= size →
  reads h size [] (lzds_dshandle_read h size).
Proof using Hds Hp0 Hpos0 Hst0 Hread Htracks.
  intros Hc Ha Hs Hst Hsize. unfold lzds_dshandle_read. rewrite (cf_open _ Hc). cbn [negb].
  apply (read_data_ok size _ h k a []); try done. unfold read_fuel. rewrite (cf_ds _ Hc).
  pose proof (left_le k a (af_run _ _ _ Ha)). simpl. lia.
Qed.

(** behind more frames there is more data, and there are fewer tracks *)
Lemma arun_later k1 k2 a1 a2 :
  (k1 < k2)%nat → arun k1 = Some a1 → arun k2 = Some a2 → a_off a1 <= a_off a2 ∧ (left a2 < left a1)%nat.
Proof using Hds Hpos0 Hst0 Hread Htracks.
  intros Hlt E1. revert a2. induction Hlt as [|k2 Hlt IH]; intros a2 E2.
  - cbn [arun] in E2. rewrite E1 in E2. cbn in E2. pose proof (arun_ok k1 a1 E1) as Hr.
    split; [by destruct (astep_ok a1 a2 Hr E2) as (_ & _ & _ & _ & _ & H)|by apply left_step].
  - cbn [arun] in E2. apply bind_Some in E2 as (b & Eb & E2). destruct (IH b Eb) as [H1 H2]. pose proof (arun_ok k2 b Eb) as Hr.
    destruct (astep_ok b a2 Hr E2) as (_ & _ & _ & _ & _ & H). pose proof (left_step b a2 Hr E2). lia.
Qed.

(** the place that a seek reaches *)
Definition seeks (offset : Z) (r : outcome (Z * Z * dshandle)) : Prop :=
  let off := Z.min offset (Z.of_nat (length stream)) in
  ∃ h', r = Done (0, off, h') ∧ inv h' ∧ lzds_dshandle_get_offset h' = off.

Lemma seek_inside h k a offset :
  conf h → at_frame h k a → seek_state h k → started h k →
  h_databufoffset h <= offset < h_databufoffset h + h_databufsize h →
  seeks offset (Done (0, offset, set_h_bufpos h (offset - h_databufoffset h))).
Proof using Hds Hpos0 Hst0 Hread Htracks.
  intros Hc Ha Hs Hst Hin. pose proof (ro_off _ (arun_ok k a (af_run _ _ _ Ha))) as Hoff. pose proof (af_off _ _ _ Ha) as Ho.
  unfold seeks. rewrite Z.min_l by lia. eexists. split; [done|]. split; [|unfold lzds_dshandle_get_offset; cbn; lia].
  exists k, a. split; [by apply conf_bufpos|]. split; [apply at_frame_bufpos; [done|lia]|]. split; [by apply seek_bufpos|done].
Qed.

Lemma seek_forward_ok offset fuel : ∀ h k a,
  conf h → at_frame h k a → seek_state h k → started h k ∨ h_databufoffset h + h_databufsize h <= offset →
  h_databufoffset h <= offset → (left a < fuel)%nat → seeks offset (seek_forward fuel h offset).
Proof using Hds Hp0 Hpos0 Hst0 Hread Htracks.
  induction fuel as [|fuel IH]; intros h k a Hc Ha Hs Hst Ho Hf; [lia|]. cbn [seek_forward].
  destruct (Z.leb_spec (h_databufoffset h + h_databufsize h) offset) as [Hle|Hgt].
  2: { apply (seek_inside h k a); try done. destruct Hst; [done|lia]. }
  pose proof (af_range _ _ _ Ha) as Hr. pose proof (ro_off _ (arun_ok k a (af_run _ _ _ Ha))) as Hoff. pose proof (af_off _ _ _ Ha) as Hao.
  set (h1 := set_h_bufpos h (h_databufsize h)).
  assert (Ha1 : at_frame h1 k a) by (apply at_frame_bufpos; [done|lia]).
  destruct (read_ok h1 k a 1) as (h' & E & Hi & Ho' & _ & Hpos); [by apply conf_bufpos|done|by apply seek_bufpos|by right|lia|].
  assert (Eo : lzds_dshandle_get_offset h1 = a_off a) by (unfold lzds_dshandle_get_offset, h1; cbn; lia).
  rewrite Eo in *. cbn [length app] in *. rewrite E, Done_bind. cbn [Z.eqb negb orb].
  change (1 - Z.of_nat 0) with 1 in *. pose proof Hi as (k' & a' & Hc' & Ha' & Hs' & Hst').
  pose proof (ro_off _ (arun_ok k' a' (af_run _ _ _ Ha'))) as Hoff'. pose proof (af_off _ _ _ Ha') as Hao'.
  pose proof (af_range _ _ _ Ha') as Hr'. unfold lzds_dshandle_get_offset in Ho'.
  assert (Hlen : Z.of_nat (length (slice stream (a_off a) 1)) = Z.min 1 (Z.of_nat (length stream) - a_off a)).
  { unfold slice. rewrite length_take, length_drop. lia. }
  case_bool_decide as El.
  - rewrite El in *. cbn [length] in *. unfold seeks. rewrite Z.min_r by lia. exists h'. split; [do 3 f_equal; lia|]. split; [done|].
    unfold lzds_dshandle_get_offset. lia.
  - assert (Hl1 : Z.of_nat (length (slice stream (a_off a) 1)) = 1).
    { destruct (slice stream (a_off a) 1); [done|]. cbn [length] in *. lia. }
    assert (k < k')%nat.
    { destruct (Nat.lt_ge_cases k k') as [|Hk]; [done|]. apply Nat.lt_eq_cases in Hk as [Hk|<-].
      - destruct (arun_later k' k a' a Hk) as [H _]; [apply Ha'|apply Ha|lia].
      - assert (a' = a) as -> by (pose proof (af_run _ _ _ Ha); pose proof (af_run _ _ _ Ha'); congruence). lia. }
    destruct (arun_later k k' a a') as [_ Hleft]; [done|apply Ha|apply Ha'|].
    apply (IH h' k' a'); try done; [by left| |lia]. specialize (Hpos ltac:(lia) Hl1). lia.
Qed.

(** the first position, for the data set or for a member of it *)
Context (Hinit : ∀ h, h_ds h = ds → h_member h = member →
  ∃ pos, pos_ok ds pos ∧ next_pos tpf ds pos = next_pos tpf ds pos0 ∧
    initialize_buffer_positions_for_first_read h =
      Done (0, set_h_pos h pos (-1) match member with None => h_startrecord h | Some m => m_record m end false
                 (h_rawbufsize h) 0 0 0)).

Lemma init_ok h :
  conf h → (member = None → h_startrecord h = 0 ∨ h_startrecord h = 1) → seek_state h O →
  ∃ h' a, initialize_buffer_positions_for_first_read h = Done (0, h') ∧ conf h' ∧ at_frame h' O a ∧ seek_state h' O ∧
    h_databufoffset h' = 0 ∧ h_databufsize h' = 0 ∧ h_bufpos h' = 0 ∧ h_seek_current h' = h_seek_current h.
Proof using Hpos0 Hmember Hinit.
  intros Hc Hst Hs. destruct (Hinit h (cf_ds _ Hc) (cf_member _ Hc)) as (pos & Hpos & Hnext & E). eexists _, _. split; [exact E|].
  split; [destruct Hc; by split|]. split; [|split; [destruct Hs as [Hs|[]]; [by left|by right]|done]].
  split; try done. cbn [h_startrecord set_h_pos a_start]. rewrite Hmember. destruct member; [done|].
  by destruct (Hst eq_refl) as [-> | ->].
Qed.

Lemma startrecord_01 h k a : member = None → at_frame h k a → h_startrecord h = 0 ∨ h_startrecord h = 1.
Proof using Hds Hpos0 Hst0 Hread Hmember Htracks.
  intros Em Ha. assert (E1 : a_start a = 1) by (eapply start_one; [by rewrite Hmember, Em|apply Ha]).
  pose proof (af_start _ _ _ Ha) as E. rewrite E1 in E. destruct (Z.eqb_spec (h_startrecord h) 0); [by left|by right].
Qed.

Lemma seek_state_no_elements h k : seek_state h k → h_seek_current h = 0 → seek_state h O.
Proof. intros [Hs|[]] E; [by left|]. right. split; try done. lia. Qed.

Lemma lseek_ok h offset : inv h → 0 <= offset → seeks offset (lzds_dshandle_lseek h offset).
Proof using Hds Hp0 Hpos0 Hst0 Hread Htracks Hmember Hinit.
  intros (k & a & Hc & Ha & Hs & Hst) Ho. unfold lzds_dshandle_lseek.
  destruct ((h_databufoffset h <=? offset) && (offset <? h_databufoffset h + h_databufsize h)) eqn:Ein.
  { apply andb_true_iff in Ein as [E1 E2]. apply Z.leb_le in E1. apply Z.ltb_lt in E2. by apply (seek_inside h k a). }
  assert (Hout : h_databufoffset h <= offset → h_databufoffset h + h_databufsize h <= offset).
  { intros H1. rewrite (proj2 (Z.leb_le _ _) H1) in Ein. by apply Z.ltb_ge in Ein. }
  assert (Hforward : ∀ h1 k1 a1, conf h1 → at_frame h1 k1 a1 → seek_state h1 k1 →
    h_databufoffset h1 + h_databufsize h1 <= offset → seeks offset (seek_forward (seek_fuel h1) h1 offset)).
  { intros h1 k1 a1 Hc1 Ha1 Hs1 H1. pose proof (af_range _ _ _ Ha1). apply (seek_forward_ok offset _ h1 k1 a1); try done; [by right|lia|].
    unfold seek_fuel. rewrite (cf_ds _ Hc1). pose proof (left_le k1 a1 (af_run _ _ _ Ha1)). lia. }
  destruct (decide (h_seek_current h = 0)) as [E0|E0].
  - unfold dshandle_find_seekelement. rewrite E0. cbn [Z.eqb]. rewrite Done_bind.
    destruct (Z.ltb_spec offset (h_databufoffset h)) as [Hlt|Hge].
    + destruct (init_ok h Hc) as (h' & a' & E & Hc' & Ha' & Hs' & H1 & H2 & _);
        [intros Em; by apply (startrecord_01 h k a)|by eapply seek_state_no_elements|].
      rewrite E, Done_bind. cbn [Z.eqb negb]. apply (Hforward h' O a'); try done. lia.
    + rewrite Done_bind. cbn [Z.eqb negb]. apply (Hforward h k a); try done. by apply Hout.
  - destruct Hs as [(_ & _ & Hs)|Hs]; [done|]. pose proof (so_current _ _ Hs).
    destruct (find_seekelement_ok h k offset Hs) as (i & x & E & Hi & Ex & Hx); [lia|done|]. rewrite E, Done_bind, Ex. cbn [deref].
    rewrite Done_bind. destruct ((se_databufoffset x <? h_databufoffset h) && (h_databufoffset h <=? offset)) eqn:Ekeep; cbn [negb].
    + rewrite Done_bind. cbn [Z.eqb negb]. apply andb_true_iff in Ekeep as [_ Hk]. apply Z.leb_le in Hk.
      apply (Hforward h k a); try done; [by right|by apply Hout].
    + destruct (reset_ok h k a i x) as (h' & k' & a' & E' & Hc' & Ha' & Hs' & H1 & H2); try done. rewrite E', !Done_bind. cbn [Z.eqb negb].
      apply (Hforward h' k' a'); try done; [by right|lia].
Qed.

End File.

End ZdsFile.
