(* ===== verification/ZdsOpen.v ===== *)
(** The first position of a handle: what [lzds_dshandle_open] prepares for a data
    set or for a member of it, and the size of the seek buffer. *)
From stdpp Require Import sets.
From S2P Require Import Prelude Ebcdic Cchh Codec Labels LabelOps Zds ZdsDataset ZdsRead ZdsTracks ZdsStream ZdsFile.
Import Addr Zds ZdsDataset ZdsRead ZdsTracks ZdsStream ZdsFile.

Module ZdsOpen.

Lemma fold_left_add {A} (f : A → Z) l s : fold_left (λ s x, s + f x) l s = s + fold_left (λ s x, s + f x) l 0.
Proof.
  revert s. induction l as [|x l IH]; intros s; cbn [fold_left]; [lia|]. rewrite IH, (IH (0 + f x)). lia.
Qed.

Lemma fold_left_nonneg {A} (f : A → Z) l : (∀ x, 0 <= f x) → 0 <= fold_left (λ s x, s + f x) l 0.
Proof. intros Hf. induction l as [|x l IH]; cbn [fold_left]; [done|]. rewrite fold_left_add. pose proof (Hf x). lia. Qed.

Lemma fold_left_le {A} (f : A → Z) m l : Forall (λ x, f x <= m) l → fold_left (λ s x, s + f x) l 0 <= Z.of_nat (length l) * m.
Proof. induction 1 as [|x l Hx Hl IH]; cbn [fold_left length]; [lia|]. rewrite fold_left_add. lia. Qed.

Lemma udiv_ok a b : b ≠ 0 → udiv a b = Done (a / b).
Proof. intros H. unfold udiv. by rewrite (proj2 (Z.eqb_neq b 0) H). Qed.

(** ** The extents of a data set, and its size *)

Section Size.
Context (tpf : Z) (ds : dataset) (Hds : dataset_ok tpf ds).

(** the extents with user data in a list of extents *)
Fixpoint exts_list (i j : Z) (p : datasetpart) (l : list extent_t) : list (Z * Z * datasetpart * extent_t) :=
  match l with
  | [] => []
  | e :: l => (if extent_contains_userdata e then [(i, j, p, e)] else []) ++ exts_list i (j + 1) p l
  end.

Definition size_of (l : list (Z * Z * datasetpart * extent_t)) : Z := Z.of_nat (length (concat (map tracks_of l))).

Lemma size_of_app l1 l2 : size_of (l1 ++ l2) = size_of l1 + size_of l2.
Proof. unfold size_of. rewrite map_app, concat_app, length_app. lia. Qed.

Lemma ext_at_part i p j :
  dsp ds i = Some p → 0 <= j < 16 →
  ext_at ds (i * 16 + j) =
    match dp_ext p !! Z.to_nat j with
    | Some e => if extent_contains_userdata e then [(i, j, p, e)] else []
    | None => []
    end.
Proof.
  intros Ep Hj. unfold ext_at. rewrite Z.div_add_l, (Z.div_small j), Z.add_0_r, Ep by lia.
  by rewrite Z.add_comm, Z.mod_add, Z.mod_small by lia.
Qed.

Lemma exts_of_part i p l : ∀ j,
  dsp ds i = Some p → 0 <= j → j + Z.of_nat (length l) = 16 → drop (Z.to_nat j) (dp_ext p) = l →
  concat (map (ext_at ds) (seqZ (i * 16 + j) (Z.of_nat (length l)))) = exts_list i j p l.
Proof.
  induction l as [|e l IH]; intros j Ep Hj Hl Hd; [done|]. cbn [length] in *. rewrite seqZ_cons by lia. cbn [map concat exts_list].
  assert (Ee : dp_ext p !! Z.to_nat j = Some e) by (rewrite <- (Nat.add_0_r (Z.to_nat j)), <- lookup_drop, Hd; done).
  rewrite (ext_at_part i p j), Ee by (try done; lia). f_equal.
  replace (Z.succ (i * 16 + j)) with (i * 16 + (j + 1)) by lia.
  replace (Z.pred (Z.of_nat (S (length l)))) with (Z.of_nat (length l)) by lia.
  apply IH; [done|lia|lia|]. replace (Z.to_nat (j + 1)) with (Z.to_nat j + 1)%nat by lia. by rewrite <- drop_drop, Hd.
Qed.

Lemma length_tracks_of i j p e :
  part_ok tpf p → e ∈ dp_ext p → extent_contains_userdata e = true →
  Z.of_nat (length (tracks_of (i, j, p, e))) = get_extent_size_in_tracks e (dp_dasdi p).
Proof.
  intros Hp He Hu. destruct (extent_bounds tpf p e Hp He Hu) as [H1 H2]. destruct Hp as (_ & _ & Hd & _).
  unfold tracks_of, get_extent_size_in_tracks. rewrite Hu, length_map, length_seqZ. cbn [negb].
  fold (ext_start p e) (ext_end p e).
  assert (0 <= dasd_tracks (dp_dasdi p) < 4294967296) by apply u32_range. rewrite u32_small by lia. lia.
Qed.

Lemma size_of_list i p l : ∀ j,
  part_ok tpf p → (∀ e, e ∈ l → e ∈ dp_ext p) →
  size_of (exts_list i j p l) = fold_left (λ s e, s + get_extent_size_in_tracks e (dp_dasdi p)) l 0.
Proof.
  induction l as [|e l IH]; intros j Hp Hin; [done|]. cbn [exts_list fold_left]. rewrite fold_left_add, size_of_app.
  rewrite IH by (try done; set_solver). f_equal. destruct (extent_contains_userdata e) eqn:Eu.
  - unfold size_of. cbn [map concat]. rewrite app_nil_r. apply length_tracks_of; try done. set_solver.
  - unfold get_extent_size_in_tracks. by rewrite Eu.
Qed.

Lemma length_exts_list i p l : ∀ j,
  (length (exts_list i j p l) <= length (filter (λ e, ext_typeind e ≠ 0%Z) l))%nat.
Proof.
  induction l as [|e l IH]; intros j; [done|]. cbn [exts_list]. rewrite length_app, filter_cons. specialize (IH (j + 1)).
  unfold extent_contains_userdata. destruct (decide (ext_typeind e ≠ 0)) as [Hne|He].
  - cbn [length]. destruct (_ || _); cbn [length]; lia.
  - assert (ext_typeind e = 0) as -> by (destruct (decide (ext_typeind e = 0)); [done|by exfalso]). cbn. lia.
Qed.

Lemma used_extents_Some p : used_extents (Some p) = Done (Z.of_nat (length (filter (λ e, ext_typeind e ≠ 0) (dp_ext p)))).
Proof. done. Qed.

(** all parts from one on *)
Lemma exts_of_parts L : ∀ i,
  0 <= i → i + Z.of_nat (length L) = ds_dspcount ds → (∀ m, L !! m = ds_dsp ds !! (Z.to_nat i + m)%nat ∨ L !! m = None) →
  let l := concat (map (ext_at ds) (seqZ (i * 16) (Z.of_nat (length L) * 16))) in
  size_of l = fold_left (λ s p, s + part_size_in_tracks p) L 0 ∧
  ∃ n, count_extents L = Done n ∧ Z.of_nat (length l) <= n.
Proof using Hds.
  induction L as [|q L IH]; intros i Hi Hlen HL; cbv zeta; [split; [done|]; by exists 0|]. cbn [length] in *.
  destruct (do_parts _ _ Hds i) as (p & Ep & Hp); [lia|].
  assert (Eq : q = Some p).
  { destruct (HL O) as [E|E]; [|done]. rewrite Nat.add_0_r in E. unfold dsp in Ep. rewrite <- E in Ep. exact Ep. }
  subst q. pose proof Hp as (H16 & _).
  assert (E : seqZ (i * 16) (Z.of_nat (S (length L)) * 16) = seqZ (i * 16 + 0) (Z.of_nat (length (dp_ext p))) ++ seqZ ((i + 1) * 16) (Z.of_nat (length L) * 16)).
  { rewrite H16. replace (Z.of_nat (S (length L)) * 16) with (Z.of_nat 16 + Z.of_nat (length L) * 16) by lia. rewrite seqZ_app by lia. f_equal; f_equal; lia. }
  rewrite E, map_app, concat_app, (exts_of_part i p (dp_ext p) 0) by (try done; lia).
  destruct (IH (i + 1)) as (IH1 & n & IH2 & IH3); [lia|lia| |].
  { intros m. destruct (HL (S m)) as [E'|E']; [left|by right]. transitivity ((Some p :: L) !! S m); [done|]. rewrite E'. f_equal. lia. }
  split.
  - rewrite size_of_app, IH1. cbn [fold_left]. rewrite (fold_left_add part_size_in_tracks L (0 + _)). f_equal. cbn [part_size_in_tracks].
    apply (size_of_list i p (dp_ext p) 0); done.
  - cbn [count_extents]. rewrite used_extents_Some, Done_bind, IH2, Done_bind. eexists. split; [done|].
    rewrite length_app. pose proof (length_exts_list i p (dp_ext p) 0). lia.
Qed.

Lemma extent_size_range e d : 0 <= get_extent_size_in_tracks e d < 4294967296.
Proof. unfold get_extent_size_in_tracks. destruct (negb _); [done|]. apply u32_range. Qed.

Lemma part_size_nonneg p : 0 <= part_size_in_tracks p.
Proof. destruct p as [p|]; [|done]. apply (fold_left_nonneg (λ e, _)). intros e. apply extent_size_range. Qed.

(** the size in tracks is the one of the list of tracks, or larger *)
Lemma dataset_size :
  ∃ n, count_extents (take (Z.to_nat (ds_dspcount ds)) (ds_dsp ds)) = Done n ∧ Z.of_nat (length (exts_from ds 0)) <= n ∧ n <= 944 ∧
    size_of (exts_from ds 0) <= lzds_dataset_get_size_in_tracks ds < 4294967296 * 944.
Proof using Hds.
  pose proof (do_count _ _ Hds) as Hcnt. pose proof (do_slots _ _ Hds) as Hslots. set (L := take (Z.to_nat (ds_dspcount ds)) (ds_dsp ds)).
  assert (HlenL : Z.of_nat (length L) = ds_dspcount ds) by (unfold L; rewrite length_take; lia).
  destruct (exts_of_parts L 0) as (H1 & n & H2 & H3); [lia|lia| |].
  { intros m. unfold L. destruct (decide (m < Z.to_nat (ds_dspcount ds))%nat); [left; by rewrite lookup_take_lt|right; by rewrite lookup_take_ge by lia]. }
  rewrite Z.mul_0_l, HlenL in H1, H3.
  assert (E : exts_from ds 0 = concat (map (ext_at ds) (seqZ 0 (ds_dspcount ds * 16)))) by (unfold exts_from; by rewrite Z.sub_0_r).
  rewrite E. exists n. split; [done|]. split; [done|].
  assert (Hrange : ∀ l, Forall (λ p, part_size_in_tracks p <= 4294967295 * 16) l ↔ ∀ q, q ∈ l → part_size_in_tracks q <= 4294967295 * 16) by (intros l; apply Forall_forall).
  assert (Hall : fold_left (λ s p, s + part_size_in_tracks p) (ds_dsp ds) 0 <= 59 * (4294967295 * 16)).
  { rewrite <- (eq_refl : Z.of_nat 59 = 59), <- Hslots. apply (fold_left_le part_size_in_tracks), Hrange. intros [p|] Hq; [|done].
    rewrite <- (eq_refl : Z.of_nat 16 = 16), <- (do_shape _ _ Hds p Hq), Z.mul_comm.
    apply (fold_left_le (λ e, get_extent_size_in_tracks e (dp_dasdi p))), Forall_forall. intros e _.
    pose proof (extent_size_range e (dp_dasdi p)). lia. }
  pose proof (fold_left_nonneg part_size_in_tracks (ds_dsp ds) part_size_nonneg) as Hnn.
  unfold lzds_dataset_get_size_in_tracks. rewrite u64_small by lia.
  split; [|split; [|lia]].
  - clear - H2 HlenL Hcnt Hds. assert (Hb : ∀ L n, count_extents L = Done n → (∀ p, Some p ∈ L → length (dp_ext p) = 16%nat) → n <= 16 * Z.of_nat (length L)).
    { clear. induction L as [|[p|] L IH]; intros n E HL; [injection E as <-; done| |done].
      cbn [count_extents] in E. rewrite used_extents_Some, Done_bind in E. destruct (count_extents L) as [m| | |]; try done.
      rewrite Done_bind in E. injection E as <-. specialize (IH m eq_refl ltac:(set_solver)). cbn [length].
      pose proof (length_filter (λ e, ext_typeind e ≠ 0) (dp_ext p)). rewrite (HL p) in * by set_solver. lia. }
    pose proof (Hb _ _ H2) as Hn. rewrite HlenL in Hn. assert (n <= 16 * ds_dspcount ds); [|lia]. apply Hn. intros p Hp.
    apply (do_shape _ _ Hds). unfold L in Hp. eapply elem_of_take in Hp. by destruct Hp as (? & ? & _); eapply list_elem_of_lookup_2.
  - rewrite H1, <- (take_drop (Z.to_nat (ds_dspcount ds)) (ds_dsp ds)) at 1. fold L. rewrite fold_left_app, (fold_left_add part_size_in_tracks (drop _ _)).
    pose proof (fold_left_nonneg part_size_in_tracks (drop (Z.to_nat (ds_dspcount ds)) (ds_dsp ds)) part_size_nonneg). lia.
Qed.

(** ** First positions *)

(** the whole data set *)
Definition pos_all : position := Position 0 (-1) 0 0 0 0.

Lemma pos_all_ok : pos_ok ds pos_all.
Proof using Hds. pose proof (do_count _ _ Hds). split; [cbn; lia|]. split; [cbn; lia|]. split; [done|]. by cbn. Qed.

Lemma todo_all : todo ds pos_all = concat (map tracks_of (exts_from ds 0)).
Proof. done. Qed.

(** a position with nothing left in its extent *)
Lemma next_pos_dont_care d j x y x' y' : next_pos tpf ds (Position d j x 0 y 0) = next_pos tpf ds (Position d j x' 0 y' 0).
Proof. done. Qed.

Lemma todo_dont_care d j x y : todo ds (Position d j x 0 y 0) = concat (map tracks_of (exts_from ds (ext_no d j + 1))).
Proof. done. Qed.

(** the extents that are not read to their end *)
Definition exts_left (pos : position) : nat :=
  length (exts_from ds (ext_no (dsp_no pos) (ext_seq_no pos) + 1)) + Nat.b2n (bufendtrk pos <? extendtrk pos).

(** the position in front of a track of a data set with one part: as the code
    finds it, and the tracks behind it *)
Lemma member_position_ok p track l : ∀ j tracksum,
  ds_dspcount ds = 1 → dsp ds 0 = Some p → part_ok tpf p → 0 <= j → j + Z.of_nat (length l) = 16 → drop (Z.to_nat j) (dp_ext p) = l →
  tracksum <= track < tracksum + size_of (exts_list 0 j p l) →
  ∃ q, (∀ pos, dsp_no pos = 0 → ∃ q', member_position (dp_dasdi p) l j tracksum track pos = Some q' ∧
          pos_ok ds q' ∧ next_pos tpf ds q' = next_pos tpf ds q) ∧
    pos_ok ds q ∧ todo ds q = drop (Z.to_nat (track - tracksum)) (concat (map tracks_of (exts_from ds j))) ∧
    (exts_left q <= length (exts_from ds j))%nat.
Proof using Hds.
  induction l as [|e l IH]; intros j tracksum H1 Ep Hp Hj Hl Hd Htr; [unfold size_of in Htr; cbn in Htr; lia|].
  cbn [length] in Hl. assert (Ee : dp_ext p !! Z.to_nat j = Some e) by (rewrite <- (Nat.add_0_r (Z.to_nat j)), <- lookup_drop, Hd; done).
  assert (Hin : e ∈ dp_ext p) by (by eapply list_elem_of_lookup_2).
  assert (Hd' : drop (Z.to_nat (j + 1)) (dp_ext p) = l).
  { replace (Z.to_nat (j + 1)) with (Z.to_nat j + 1)%nat by lia. by rewrite <- drop_drop, Hd. }
  assert (Eu : exts_from ds j = (if extent_contains_userdata e then [(0, j, p, e)] else []) ++ exts_from ds (j + 1)).
  { rewrite exts_from_unfold by lia. f_equal. pose proof (ext_at_part 0 p j Ep ltac:(lia)) as Ea. rewrite Ee in Ea. exact Ea. }
  cbn [exts_list] in Htr. rewrite size_of_app in Htr. cbn [member_position]. rewrite Eu.
  destruct (extent_contains_userdata e) eqn:Ec; cbn [negb app].
  2: { apply (IH (j + 1) tracksum); try done; lia. }
  destruct (extent_bounds tpf p e Hp Hin Ec) as [Hb1 Hb2].
  assert (Hu : 0 <= dasd_tracks (dp_dasdi p) < 4294967296) by apply u32_range. destruct (do_tpf _ _ Hds) as [Ht _].
  assert (Hdt : dasd_tracks (dp_dasdi p) + tpf < 4294967296) by apply Hp.
  fold (ext_start p e) (ext_end p e). rewrite (u32_small (ext_end p e - ext_start p e + 1)) by lia.
  assert (Hsz : Z.of_nat (length (tracks_of (0, j, p, e))) = ext_end p e - ext_start p e + 1).
  { unfold tracks_of. rewrite length_map, length_seqZ. lia. }
  assert (Hsz' : size_of [(0, j, p, e)] = ext_end p e - ext_start p e + 1).
  { unfold size_of. cbn [map concat]. rewrite app_nil_r. exact Hsz. }
  rewrite Hsz' in Htr. cbn [map concat].
  destruct (Z.eqb_spec track tracksum) as [->|Hne].
  - exists (Position 0 (j - 1) 0 0 0 0). split; [|split; [|split]].
    + intros pos Epos. rewrite Epos. eexists. split; [done|]. split; [|done].
      split; [cbn; lia|]. split; [cbn; lia|]. split; [done|]. by cbn.
    + split; [cbn; lia|]. split; [cbn; lia|]. split; [done|]. by cbn.
    + rewrite todo_dont_care, Z.sub_diag, drop_0. replace (ext_no 0 (j - 1) + 1) with j by (unfold ext_no; lia). by rewrite Eu.
    + unfold exts_left. cbn [dsp_no ext_seq_no bufendtrk extendtrk]. rewrite Z.ltb_irrefl. replace (ext_no 0 (j - 1) + 1) with j by (unfold ext_no; lia). rewrite Eu. cbn [Nat.b2n app length]. lia.
  - destruct (Z.ltb_spec track (tracksum + (ext_end p e - ext_start p e + 1))) as [Hlt|Hge].
    + rewrite (u32_small (ext_start p e + (track - tracksum) - 1)) by lia.
      set (q := Position 0 j (ext_start p e) (ext_end p e) (ext_start p e) (ext_start p e + (track - tracksum) - 1)).
      assert (Hq : pos_ok ds q).
      { split; [cbn; lia|]. split; [cbn; lia|]. split; [cbn; lia|]. intros _. exists p, e.
        split; [done|]. split; [done|]. split; [done|]. done. }
      exists q. split; [|split; [done|split]].
      * intros pos Epos. rewrite Epos. by exists q.
      * unfold todo. cbn [dsp_no ext_seq_no bufendtrk extendtrk q]. replace (ext_no 0 j + 1) with (j + 1) by (unfold ext_no; lia).
        rewrite drop_app_le by lia. f_equal. unfold tracks_of.
        rewrite (seqZ_split (ext_start p e) (track - tracksum) (ext_end p e - ext_start p e + 1)) by lia.
        rewrite map_app, drop_app_length' by (rewrite length_map, length_seqZ; lia). f_equal. f_equal; lia.
      * unfold exts_left. cbn [dsp_no ext_seq_no bufendtrk extendtrk q]. replace (ext_no 0 j + 1) with (j + 1) by (unfold ext_no; lia).
        cbn [length]. destruct (_ <? _); cbn [Nat.b2n]; lia.
    + destruct (IH (j + 1) (tracksum + (ext_end p e - ext_start p e + 1))) as (q & Q1 & Q2 & Q3 & Q4); try done; [lia|lia|lia|].
      exists q. split; [done|]. split; [done|]. split; [|cbn [length]; lia]. rewrite Q3.
      rewrite drop_app_ge by lia. f_equal. lia.
Qed.

(** ** The number of frames *)

(** an upper bound of the tracks that the frames behind a position have room for *)
Definition room (pos : position) : Z := Z.of_nat (length (todo ds pos)) + (tpf - 1) * Z.of_nat (exts_left pos).

Lemma exts_left_next pos pos' :
  pos_ok ds pos → next_pos tpf ds pos = Some pos' →
  (exts_left pos = S (exts_left pos') ∧ bufendtrk pos' = extendtrk pos') ∨
  (exts_left pos = exts_left pos' ∧ bufendtrk pos' = bufstarttrk pos' + tpf - 1).
Proof using Hds.
  intros (Hd & He & _) E. unfold next_pos in E. unfold exts_left. destruct (Z.ltb_spec (bufendtrk pos) (extendtrk pos)) as [Hlt|Hge].
  - injection E as <-. cbn [dsp_no ext_seq_no bufstarttrk bufendtrk extendtrk]. destruct (Z.ltb_spec (Z.min (bufendtrk pos + tpf) (extendtrk pos)) (extendtrk pos)); cbn [Nat.b2n]; lia.
  - assert (Hf : ds_dspcount ds * 16 - ext_no (dsp_no pos) (ext_seq_no pos) <= Z.of_nat extent_fuel).
    { pose proof (do_count _ _ Hds). change (Z.of_nat extent_fuel) with 945. unfold ext_no. lia. }
    destruct (next_extent_ok tpf ds Hds extent_fuel _ _ Hd He Hf) as [_ Hh].
    destruct (head _) as [[[[i j] p] e]|]; [|done]. destruct (Hh _ _ _ _ eq_refl) as (Ex & _). injection E as <-. rewrite Ex.
    cbn [dsp_no ext_seq_no bufstarttrk bufendtrk extendtrk length].
    destruct (Z.ltb_spec (Z.min (ext_start p e + tpf - 1) (ext_end p e)) (ext_end p e)); cbn [Nat.b2n]; lia.
Qed.

Lemma room_next pos pos' : pos_ok ds pos → next_pos tpf ds pos = Some pos' → room pos' + tpf <= room pos.
Proof using Hds.
  intros Hp E. pose proof (next_pos_ok tpf ds Hds pos Hp) as Hn. rewrite E in Hn. destruct Hn as (Et & _ & p & e & _ & _ & Hb & _).
  unfold room. rewrite Et, length_app. unfold frame. rewrite length_map, length_seqZ.
  destruct (exts_left_next pos pos' Hp E) as [[-> _]|[-> Hfull]]; [|lia].
  rewrite Nat2Z.inj_succ, Z.mul_succ_r. lia.
Qed.

Lemma arun_room pay recs pos0 st0 k : pos_ok ds pos0 → ∀ a,
  arun tpf ds pay recs pos0 st0 k = Some a → pos_ok ds (a_pos a) ∧ Z.of_nat k * tpf + room (a_pos a) <= room pos0.
Proof using Hds.
  intros Hp0. induction k as [|k IH]; intros a E; cbn [arun] in E; [injection E as <-; cbn; lia || by split; [|lia]|].
  apply bind_Some in E as (b & Eb & E). destruct (IH b Eb) as [Hb Hr]. unfold astep in E. destruct (a_eof b); [done|].
  pose proof (next_pos_ok tpf ds Hds _ Hb) as Hok. destruct (next_pos tpf ds (a_pos b)) as [pos|] eqn:En; [|done].
  destruct (tracks_data _ _ _) as [l e]. injection E as <-. cbn [a_pos]. split; [by destruct Hok as (_ & H & _)|].
  pose proof (room_next _ _ Hb En). lia.
Qed.

(** the data set has room for as many frames as the seek buffer is made for *)
Lemma frames_bound pay recs pos0 st0 k a :
  pos_ok ds pos0 → (exts_left pos0 <= length (exts_from ds 0))%nat → Z.of_nat (length (todo ds pos0)) <= size_of (exts_from ds 0) →
  arun tpf ds pay recs pos0 st0 k = Some a →
  ∃ n, count_extents (take (Z.to_nat (ds_dspcount ds)) (ds_dsp ds)) = Done n ∧ 0 <= n <= 944 ∧
    Z.of_nat k <= lzds_dataset_get_size_in_tracks ds / tpf + n.
Proof using Hds.
  intros Hp He Ht E. destruct dataset_size as (n & En & Hn & Hn' & Hs & _). exists n. split; [done|]. split; [lia|].
  destruct (arun_room pay recs pos0 st0 k Hp a E) as [_ Hr]. pose proof (do_tpf _ _ Hds) as [Htpf _].
  set (total := lzds_dataset_get_size_in_tracks ds) in *.
  assert (0 <= room (a_pos a)) by (unfold room; assert (0 <= (tpf - 1) * Z.of_nat (exts_left (a_pos a))) by (apply Z.mul_nonneg_nonneg; lia); lia).
  assert (Hroom : room pos0 <= total + tpf * n).
  { unfold room. assert ((tpf - 1) * Z.of_nat (exts_left pos0) <= tpf * n); [|lia].
    transitivity (tpf * Z.of_nat (exts_left pos0)); [apply Z.mul_le_mono_nonneg_r; lia|apply Z.mul_le_mono_nonneg_l; lia]. }
  rewrite <- (Z.div_add total n tpf) by lia. apply Z.div_le_lower_bound; lia.
Qed.

End Size.

(** ** Opening *)

(** what a client does to read a data set, or a member of it *)
Definition open_dataset (ds : dataset) (tracks_per_frame seek_buffer_size : Z) (membername : option (list Z)) (keepRDW : Z)
    : outcome (Z * dshandle) :=
  h ← lzds_dataset_alloc_dshandle ds tracks_per_frame;
  h ← lzds_dshandle_set_seekbuffer h seek_buffer_size;
  '(rc, h) ← match membername with Some name => lzds_dshandle_set_member h name | None => Done (0, h) end;
  if negb (rc =? 0) then Done (rc, h)
  else
    let '(rc, h) := lzds_dshandle_set_keepRDW h keepRDW in
    if negb (rc =? 0) then Done (rc, h) else lzds_dshandle_open h.

(** the tracks of a data set, and the ones from which a member is read *)
Definition all_tracks (ds : dataset) : list (Z * Z) := concat (map tracks_of (exts_from ds 0)).
Definition tracks_from (ds : dataset) (member : option pdsmember) : list (Z * Z) :=
  match member with Some m => drop (Z.to_nat (m_track m)) (all_tracks ds) | None => all_tracks ds end.
Lemma length_tracks_from ds member : (length (tracks_from ds member) <= length (all_tracks ds))%nat.
Proof. destruct member; cbn [tracks_from]; [rewrite length_drop|]; lia. Qed.

Definition start_record (member : option pdsmember) : Z :=
  match member with None => 1 | Some m => if m_record m =? 0 then 1 else m_record m end.

(** The data set is one that can be read: its name space, its parts and its seek
    buffer; a member belongs to the only part of its data set.  The seek buffer is not
    used, or large enough that at most every second frame is skipped: with a smaller one
    the seek back to a frame that was skipped can fail with ERANGE. *)
Record can_open (tpf : Z) (ds : dataset) (seek_buffer_size : Z) (membername : option (list Z)) (member : option pdsmember) : Prop := {
  co_ds : dataset_ok tpf ds;
  co_supported : lzds_dataset_get_is_supported ds = true;
  co_open : ∀ i p, 0 <= i < ds_dspcount ds → dsp ds i = Some p → k_open (d_disk (dp_dasdi p)) = true;
  co_member : match membername with
              | None => member = None ∧ lzds_dataset_get_is_PDS ds = Done false
              | Some name => ∃ m, member = Some m ∧ lzds_dataset_get_is_PDS ds = Done true ∧
                               lzds_dataset_get_member_by_name ds name = zok m ∧ ds_dspcount ds = 1 ∧ 0 <= m_record m ∧
                               0 <= m_track m < Z.of_nat (length (all_tracks ds))
              end;
  co_seek : seek_buffer_size = 0 ∨
    0 < seek_buffer_size < 18446744073709551616 ∧
    lzds_dataset_get_size_in_tracks ds / tpf + 945 < 2 * (seek_buffer_size / seekelement_size)
}.

Section Open.
Context (tpf : Z) (ds : dataset) (seek_buffer_size : Z) (membername : option (list Z)) (member : option pdsmember).
Context (Hco : can_open tpf ds seek_buffer_size membername member).

#[local] Lemma Hds : dataset_ok tpf ds.
Proof using Hco. apply Hco. Qed.

Lemma alloc_ok :
  ∃ h, lzds_dataset_alloc_dshandle ds tpf = Done h ∧ h_ds h = ds ∧ h_member h = None ∧ h_tracks_per_frame h = tpf ∧
    h_iconv h = NoConv ∧ h_rawbufmax h = tpf * RAWTRACKSIZE ∧ h_databufmax h = tpf * MAXRECSIZE ∧ h_is_open h = false ∧
    h_startrecord h = 0.
Proof using Hco.
  pose proof (do_tpf _ _ Hds) as Ht. pose proof (do_count _ _ Hds) as Hc. pose proof (do_slots _ _ Hds) as Hs. unfold lzds_dataset_alloc_dshandle.
  assert (E : forallb is_Some_b (take (Z.to_nat (ds_dspcount ds)) (ds_dsp ds)) = true).
  { apply forallb_forall. intros q Hq. apply list_elem_of_In, list_elem_of_lookup in Hq as [i Hi].
    apply lookup_take_Some in Hi as [Hi Hlt]. destruct (do_parts _ _ Hds (Z.of_nat i)) as (p & Ep & _); [lia|].
    unfold dsp in Ep. rewrite Nat2Z.id, Hi in Ep. cbn in Ep. by rewrite Ep. }
  rewrite E. cbn [negb]. cbv zeta. assert (Ef : flag tpf = true) by (unfold flag; apply negb_true_iff, Z.eqb_neq; lia). rewrite Ef.
  rewrite !u32_small by (unfold RAWTRACKSIZE, MAXRECSIZE; lia). eexists. split; [done|]. done.
Qed.

(** the seek buffer is large enough for the frames *)
Lemma set_seekbuffer_ok h :
  h_ds h = ds → h_tracks_per_frame h = tpf →
  ∃ sb cnt skip, lzds_dshandle_set_seekbuffer h seek_buffer_size = Done (set_h_seek h sb cnt 0 skip) ∧
    ((skip = 0 ∧ sb = []) ∨
     (0 < skip ∧ Z.of_nat (length sb) = cnt ∧ 0 <= cnt ∧ cnt * skip < 18446744073709551616 ∧
      ∀ n, count_extents (take (Z.to_nat (ds_dspcount ds)) (ds_dsp ds)) = Done n →
        lzds_dataset_get_size_in_tracks ds / tpf + n <= (cnt - 1) * skip)).
Proof using Hco.
  intros Eds Et. pose proof (do_tpf _ _ Hds) as Ht. destruct (dataset_size tpf ds Hds) as (n & En & Hn & Hn' & Hs & Hs').
  unfold lzds_dshandle_set_seekbuffer. change (h_ds (set_h_seek h [] 0 0 0)) with (h_ds h).
  change (h_tracks_per_frame (set_h_seek h [] 0 0 0)) with (h_tracks_per_frame h). rewrite Eds, Et.
  destruct (Z.eqb_spec seek_buffer_size 0) as [E0|E0]; [exists [], 0, 0; split; [done|by left]|].
  destruct (co_seek _ _ _ _ _ Hco) as [|[Hb Hlt]]; [done|]. rewrite En, Done_bind.
  set (total := lzds_dataset_get_size_in_tracks ds) in *. set (entries := seek_buffer_size / seekelement_size) in *.
  assert (0 <= total) by (unfold size_of in Hs; lia).
  assert (Hq : 0 <= total / tpf <= total) by (split; [apply Z.div_pos; lia|apply Z.div_le_upper_bound; [lia|]; rewrite <- (Z.mul_1_l total) at 1; apply Z.mul_le_mono_nonneg_r; lia]).
  rewrite (u64_small (total / tpf + 1 + n)) by lia. set (frames := total / tpf + 1 + n) in *.
  assert (Hentries : 0 < entries) by lia. rewrite (udiv_ok frames entries) by lia. rewrite Done_bind.
  assert (Hdiv : 0 <= frames / entries <= 1).
  { split; [apply Z.div_pos; lia|]. apply Z.lt_succ_r, Z.div_lt_upper_bound; unfold frames; lia. }
  rewrite (u32_small (frames / entries + 1)) by lia. set (skip := frames / entries + 1) in *.
  rewrite (udiv_ok frames skip) by lia. rewrite Done_bind.
  assert (Hm : frames = skip * (frames / skip) + frames mod skip ∧ 0 <= frames mod skip < skip).
  { split; [apply Z.div_mod; lia|apply Z.mod_pos_bound; lia]. }
  assert (Hf : 0 <= frames / skip <= frames).
  { split; [apply Z.div_pos; lia|]. apply Z.div_le_upper_bound; [lia|]. rewrite <- (Z.mul_1_l frames) at 1. apply Z.mul_le_mono_nonneg_r; lia. }
  rewrite (u64_small (frames / skip + 1)) by lia. eexists _, _, skip. split; [done|]. right. split; [lia|].
  rewrite length_replicate. split; [lia|]. split; [lia|]. split; [rewrite Z.mul_add_distr_r; lia|].
  intros n' En'. assert (n' = n) as -> by congruence. replace (frames / skip + 1 - 1) with (frames / skip) by lia. lia.
Qed.

Lemma repeat_replicate {A} (x : A) n : repeat x n = replicate n x.
Proof. induction n as [|n IH]; [done|]. cbn. by rewrite IH. Qed.

(** the first position, as the code computes it from any state of the handle *)
Definition starts_at (pos0 : position) : Prop := ∀ h, h_ds h = ds → h_member h = member →
  ∃ pos, pos_ok ds pos ∧ next_pos tpf ds pos = next_pos tpf ds pos0 ∧
    initialize_buffer_positions_for_first_read h =
      Done (0, set_h_pos h pos (-1) match member with None => h_startrecord h | Some m => m_record m end false
                 (h_rawbufsize h) 0 0 0).

Lemma first_position :
  ∃ pos0, pos_ok ds pos0 ∧ todo ds pos0 = tracks_from ds member ∧ (exts_left ds pos0 <= length (exts_from ds 0))%nat ∧ starts_at pos0.
Proof using Hco.
  pose proof Hds as Hd.
  pose proof (co_member _ _ _ _ _ Hco) as Hm. destruct membername as [name|].
  - destruct Hm as (m & Emm & _ & _ & H1 & _ & Ht). unfold starts_at. rewrite Emm. destruct (do_parts _ _ Hd 0) as (p & Ep & Hp); [lia|]. pose proof Hp as (H16 & _).
    assert (E : exts_from ds 0 = exts_list 0 0 p (dp_ext p)).
    { rewrite <- (exts_of_part ds 0 p (dp_ext p) 0) by (try done; lia). unfold exts_from. rewrite H1, H16. done. }
    destruct (member_position_ok tpf ds Hd p (m_track m) (dp_ext p) 0 0 H1 Ep Hp) as (q & Q1 & Q2 & Q3 & Q4); try done; [lia| |].
    { unfold all_tracks in Ht. rewrite E in Ht. unfold size_of. lia. }
    rewrite Z.sub_0_r in Q3. exists q. split; [done|]. split; [done|]. split; [done|]. intros h Eh Em.
    destruct (Q1 (Position 0 (ext_seq_no (h_pos h)) (extstarttrk (h_pos h)) (extendtrk (h_pos h)) (bufstarttrk (h_pos h)) (bufendtrk (h_pos h))) eq_refl)
      as (q' & Eq & Hq & Hn). exists q'. split; [done|]. split; [done|].
    unfold initialize_buffer_positions_for_first_read. rewrite Em, Eh, H1, Ep. cbv zeta.
    cbn [Z.eqb negb Pos.eqb deref]. rewrite Done_bind. by rewrite Eq.
  - destruct Hm as [Emm _]. unfold starts_at. rewrite Emm. exists pos_all. split; [by apply (pos_all_ok tpf)|]. split; [done|]. split.
    { change (exts_left ds pos_all) with (length (exts_from ds 0) + 0)%nat. lia. }
    intros h Eh Em. exists pos_all. split; [by apply (pos_all_ok tpf)|]. split; [done|].
    unfold initialize_buffer_positions_for_first_read. by rewrite Em.
Qed.

Lemma parts_open : forallb part_opens (take (Z.to_nat (ds_dspcount ds)) (ds_dsp ds)) = true.
Proof using Hco.
  apply forallb_forall. intros q Hq. apply list_elem_of_In, list_elem_of_lookup in Hq as [i Hi]. apply lookup_take_Some in Hi as [Hi Hlt].
  destruct (do_parts _ _ Hds (Z.of_nat i)) as (p & Ep & _); [pose proof (do_count _ _ Hds); lia|].
  pose proof (co_open _ _ _ _ _ Hco (Z.of_nat i) p ltac:(pose proof (do_count _ _ Hds); lia) Ep) as Ho.
  unfold dsp in Ep. rewrite Nat2Z.id, Hi in Ep. cbn in Ep. subst q. exact Ho.
Qed.

Lemma length_all_tracks member' : (length (tracks_from ds member') <= Z.to_nat (lzds_dataset_get_size_in_tracks ds))%nat.
Proof using Hco.
  destruct (dataset_size tpf ds Hds) as (_ & _ & _ & _ & Hs & _). unfold size_of in Hs. fold (all_tracks ds) in Hs.
  pose proof (length_tracks_from ds member'). lia.
Qed.

Context (keepRDW : Z) (pay : erecord → list Z) (recs : Z * Z → list erecord).

(** the handle is open, in front of the first byte *)
Lemma open_ok :
  ∃ pos0 h, pos_ok ds pos0 ∧ todo ds pos0 = tracks_from ds member ∧ starts_at pos0 ∧
    open_dataset ds tpf seek_buffer_size membername keepRDW = Done (0, h) ∧
    inv tpf ds keepRDW pay recs member pos0 (start_record member) h ∧ lzds_dshandle_get_offset h = 0.
Proof using Hco.
  destruct first_position as (pos0 & Hp & Et & He & Hstart). pose proof Hds as Hd. pose proof (co_member _ _ _ _ _ Hco) as Hm.
  destruct alloc_ok as (h & Eh & A1 & A2 & A3 & A4 & A5 & A6 & A7 & A8).
  destruct (set_seekbuffer_ok h A1 A3) as (sb & cnt & skip & Es & Hseek). set (h1 := set_h_seek h sb cnt 0 skip) in *.
  set (h2 := set_h_settings h1 member (h_keepRDW h1) (h_iconv h1) (h_databufmax h1)).
  set (h3 := set_h_settings h2 (h_member h2) keepRDW (h_iconv h2) (h_databufmax h2)).
  destruct (Hstart h3) as (pos & Hpos & Hnext & Ei); [exact A1|done|].
  assert (Epds : ∃ b, lzds_dataset_get_is_PDS ds = Done b ∧ b && negb (is_Some_b member) = false).
  { destruct membername; [destruct Hm as (m & -> & Epds & _)|destruct Hm as [-> Epds]]; eexists; split; done. }
  destruct Epds as (b & Epds & Eb).
  assert (E : open_dataset ds tpf seek_buffer_size membername keepRDW = lzds_dshandle_open h3).
  { unfold open_dataset. rewrite Eh, Done_bind, Es, Done_bind. fold h1.
    assert (Em : match membername with Some name => lzds_dshandle_set_member h1 name | None => Done (0, h1) end = Done (0, h2)).
    { destruct membername as [name|].
      - destruct Hm as (m & Em & Epds' & Egm & _). unfold lzds_dshandle_set_member. change (h_is_open h1) with (h_is_open h).
        change (h_ds h1) with (h_ds h). rewrite A7, A1, Epds', Done_bind. cbn [negb]. rewrite Egm. unfold zok. rewrite Done_bind.
        unfold h2. by rewrite Em.
      - destruct Hm as [Em _]. unfold h2. rewrite Em, <- A2. by destruct h. }
    rewrite Em, Done_bind. cbn [Z.eqb negb]. unfold lzds_dshandle_set_keepRDW. change (h_is_open h2) with (h_is_open h). by rewrite A7. }
  rewrite E. unfold lzds_dshandle_open. change (h_ds h3) with (h_ds h). change (h_member h3) with member.
  rewrite A1, (co_supported _ _ _ _ _ Hco), Epds, Done_bind, Eb, Ei, Done_bind. cbn [negb Z.eqb].
  set (h4 := set_h_pos h3 _ _ _ _ _ _ _ _). change (h_ds h4) with (h_ds h). rewrite A1, parts_open. cbn [negb].
  exists pos0. eexists. split; [done|]. split; [done|]. split; [done|]. split; [done|]. split; [|done].
  exists O, (AState pos0 (start_record member) 0 false). split; [|split; [|split]]; [| | |done].
  - split; try done. cbn [h_fd set_h_open]. rewrite map_const, length_take, (do_slots _ _ Hd).
    pose proof (do_count _ _ Hd). rewrite Nat.min_l by lia. apply repeat_replicate.
  - split; try done. cbn [h_startrecord set_h_open set_h_pos h4 a_start]. change (h_startrecord h3) with (h_startrecord h). rewrite A8.
    unfold start_record. by destruct member.
  - destruct Hseek as [[-> ->]|(Hs1 & Hs2 & Hs3 & Hs4 & Hs5)]; [by left|]. right. split; try done.
    + cbn. lia.
    + intros k a Ek. destruct (frames_bound tpf ds Hd pay recs pos0 (start_record member) k a Hp He) as (n & En & _ & Hk); [|done|].
      * rewrite Et. unfold size_of. fold (all_tracks ds). pose proof (length_tracks_from ds member). lia.
      * specialize (Hs5 n En). cbn [h_seek_count h_skip set_h_open set_h_pos h4 h3 h2 h1 set_h_settings set_h_seek]. lia.
Qed.

End Open.

End ZdsOpen.
