(* ===== verification/ZdsRoot.v ===== *)
(** The data sets that libzds finds on its devices: the shape that every one of
    them has, however many volumes were read. *)
From stdpp Require Import sets.
From S2P Require Import Prelude Ebcdic Cchh Codec Labels LabelOps Zds ZdsDataset ZdsRead.
Import Addr Zds ZdsDataset ZdsRead.

Module ZdsRoot.

(** 59 slots for parts with 16 extents each; the number of parts is the one of the
    slots in use; a complete data set has its parts in the first slots *)
Record dataset_wf (ds : dataset) : Prop := {
  wf_slots : length (ds_dsp ds) = 59%nat;
  wf_parts : ∀ p, Some p ∈ ds_dsp ds → length (dp_ext p) = 16%nat;
  wf_count : ds_dspcount ds = Z.of_nat (length (omap id (ds_dsp ds)));
  wf_some : 1 <= ds_dspcount ds;
  wf_complete : flag (ds_iscomplete ds) = true → forallb is_Some_b (take (Z.to_nat (ds_dspcount ds)) (ds_dsp ds)) = true
}.

Lemma zok_inj {A} (a b : A) : zok a = zok b → a = b.
Proof. by intros [=]. Qed.

(** ** One part *)

Lemma copy_extents_length l : ∀ ext ext', copy_extents l ext = zok ext' → length ext' = length ext.
Proof.
  induction l as [|e l IH]; intros ext ext' E; cbn [copy_extents] in E; [by injection E as ->|].
  unfold copy_extent_to_datasetpart in E.
  destruct (negb (ext_typeind e =? 0)); [destruct (MAXEXTENTS <=? ext_seqno e)|]; cbn [andb zbind zok zerr] in E; try done.
  - apply IH in E. by rewrite length_insert in E.
  - by apply IH in E.
Qed.

Lemma format3_chain_length rv fuel : ∀ f3 ext ext', format3_chain fuel rv f3 ext = zok ext' → length ext' = length ext.
Proof.
  induction fuel as [|fuel IH]; intros [l|] ext ext' E; cbn [format3_chain] in E; try done; try by injection E as ->.
  cbv zeta in E. destruct (negb _); [done|]. destruct (copy_extents _ ext) as [[rc|ext1]| | |] eqn:Ec; try done.
  apply copy_extents_length in Ec. cbn [zbind] in E. destruct (lzds_raw_vtoc_get_dscb_from_cchhb rv _) as [[rc|next]| | |]; try done.
  apply IH in E. congruence.
Qed.

Lemma datasetpart_length rv f1 ext : raw_vtoc_get_datasetpart_from_dscb rv f1 = zok ext → length ext = 16%nat.
Proof.
  unfold raw_vtoc_get_datasetpart_from_dscb. destruct (first_format3 rv f1) as [[rc|f3]| | |]; try done. cbn [zbind].
  destruct (copy_extents _ no_extents) as [[rc|ext1]| | |] eqn:Ec; try done. cbn [zbind]. intros E.
  apply format3_chain_length in E. apply copy_extents_length in Ec. by rewrite E, Ec.
Qed.

(** ** Slots *)

Lemma omap_replicate_None {A} n : omap id (replicate n (@None A)) = [].
Proof. by induction n. Qed.

Lemma omap_insert {A} (l : list (option A)) k p :
  l !! k = Some None → length (omap id (<[k := Some p]> l)) = S (length (omap id l)).
Proof.
  revert k. induction l as [|x l IH]; intros [|k] E; cbn in E; try done.
  - by injection E as ->.
  - destruct x as [x|]; cbn; [f_equal|]; by apply IH.
Qed.

Lemma omap_full {A} (l : list (option A)) : (length (omap id l) <= length l)%nat.
Proof. induction l as [|[x|] l IH]; cbn in *; lia. Qed.

(** a data set with one part *)
Definition single (ds : dataset) : Prop :=
  dataset_wf ds ∧ ∃ k p, (k < 59)%nat ∧ ds_dsp ds = <[k := Some p]> (replicate 59 None).

Lemma single_slot k p : (k < 59)%nat → (<[k := Some p]> (replicate 59 None) : list (option datasetpart)) !! k = Some (Some p).
Proof. intros Hk. apply list_lookup_insert_eq. by rewrite length_replicate. Qed.

Lemma single_other k p j q : (<[k := Some p]> (replicate 59 None) : list (option datasetpart)) !! j = Some (Some q) → j = k ∧ q = p.
Proof.
  intros E. destruct (decide (j = k)) as [->|Hne].
  - destruct (decide (k < 59)%nat); [rewrite single_slot in E by done; by injection E as <-|].
    rewrite list_insert_ge in E by (rewrite length_replicate; lia). apply lookup_replicate in E as [? _]. done.
  - rewrite list_lookup_insert_ne in E by done. apply lookup_replicate in E as [? _]. done.
Qed.

Lemma create_wf d f1 ds : create_dataset_from_dscb d f1 = zok ds → single ds.
Proof.
  unfold create_dataset_from_dscb. destruct (d_rawvtoc d) as [rv|]; [|done]. cbn [deref]. rewrite Done_bind.
  destruct (raw_vtoc_get_datasetpart_from_dscb rv f1) as [[rc|ext]| | |] eqn:E; try done. cbn [zbind]. cbv zeta.
  apply datasetpart_length in E. set (i := DS1VOLSQ f1 - 1).
  destruct (Z.ltb_spec i 0); [done|]. destruct (Z.leb_spec MAXVOLUMESPERDS i) as [|Hi]; [done|]. cbn [orb]. unfold MAXVOLUMESPERDS in Hi.
  intros <-%zok_inj. change (Z.to_nat MAXVOLUMESPERDS) with 59%nat. set (p := Datasetpart d f1 ext).
  split; [|exists (Z.to_nat i), p; split; [lia|done]]. set (L := replicate 59 (@None datasetpart)). split; cbn [ds_dsp ds_dspcount ds_iscomplete].
  - by rewrite length_insert.
  - intros q Hq. apply list_elem_of_lookup in Hq as [j Hj]. apply single_other in Hj as [_ ->]. done.
  - rewrite omap_insert by (apply lookup_replicate_2; lia). unfold L. by rewrite omap_replicate_None.
  - done.
  - destruct (Z.eqb_spec i 0) as [->|]; done.
Qed.

Lemma member_analysis_wf ds ds' : single ds → dataset_member_analysis ds = zok ds' → single ds'.
Proof.
  intros H E. assert (Hs : ds' = ds ∨ ∃ l, ds' = set_ds_memberlist l ds).
  { unfold dataset_member_analysis in E. destruct (dsp ds 0) as [p|]; [|by injection E as <-; left].
    destruct (negb (flag _)); [by injection E as <-; left|]. destruct (negb (lzds_dataset_get_is_supported ds)); [by injection E as <-; left|].
    destruct (negb (k_open _)); [done|]. destruct (directory_extents _ _ _) as [[rc|l]| | |]; try done. cbn [zbind] in E.
    destruct (negb (k_close _)); [done|]. injection E as <-. right. by eexists. }
  destruct Hs as [->|[l ->]]; [done|]. destruct H as [[H1 H2 H3 H4 H5] H6]. by split.
Qed.

(** ** Merging *)

(** of a data set with one part, that part or nothing is taken *)
Lemma merge_parts_single k0 p n : ∀ k base cnt,
  (k + n = 59)%nat → length base = 59%nat →
  merge_parts n k (<[k0 := Some p]> (replicate 59 None)) base cnt =
    if decide (k <= k0 < 59)%nat then
      match mjoin (base !! k0) with
      | Some _ => (EPROTO, base, cnt)
      | None => if same_base_volume base p then (0, <[k0 := Some p]> base, cnt + 1) else (EPROTO, base, cnt)
      end
    else (0, base, cnt).
Proof.
  induction n as [|n IH]; intros k base cnt Hk Hb; cbn [merge_parts].
  - rewrite decide_False by lia. done.
  - destruct (decide (k = k0)) as [->|Hne].
    + rewrite single_slot, decide_True by lia. cbn [mjoin option_join]. destruct (mjoin (base !! k0)) as [q|]; [done|].
      destruct (same_base_volume base p); [|done]. cbn [negb]. rewrite IH by (rewrite ?length_insert; lia). by rewrite decide_False by lia.
    + rewrite list_lookup_insert_ne, lookup_replicate_2 by (try done; lia). cbn [mjoin option_join].
      assert (E : match mjoin (base !! k) with Some _ | _ => merge_parts n (S k) (<[k0:=Some p]> (replicate 59 None)) base cnt end =
        merge_parts n (S k) (<[k0:=Some p]> (replicate 59 None)) base cnt) by (by destruct (mjoin (base !! k))).
      rewrite E, IH by lia. destruct (decide (S k <= k0 < 59)%nat); [by rewrite decide_True by lia|by rewrite decide_False by lia].
Qed.

Lemma merge_wf base newds rc ds' :
  dataset_wf base → single newds → dataset_merge_dataset base newds = Done (rc, ds') → dataset_wf ds'.
Proof.
  intros Hb [Hn (k & p & Hk & Ep)] E. unfold dataset_merge_dataset in E. rewrite Ep in E. change (Z.to_nat MAXVOLUMESPERDS) with 59%nat in E.
  rewrite merge_parts_single in E by (try done; apply Hb). rewrite decide_True in E by lia.
  assert (Hp16 : length (dp_ext p) = 16%nat).
  { apply (wf_parts _ Hn). rewrite Ep. apply (list_elem_of_lookup_2 _ k). by apply single_slot. }
  destruct Hb as [B1 B2 B3 B4 B5].
  destruct (mjoin (ds_dsp base !! k)) as [q|] eqn:Eq;
    [change (negb (EPROTO =? 0)) with true in E; cbv iota zeta in E; by injection E as _ <-; split|].
  destruct (same_base_volume (ds_dsp base) p);
    [|change (negb (EPROTO =? 0)) with true in E; cbv iota zeta in E; by injection E as _ <-; split]. cbn [negb Z.eqb] in E.
  rewrite (proj2 (Z.ltb_ge (ds_dspcount base + 1) 1)) in E by lia.
  assert (Hslot : ds_dsp base !! k = Some None).
  { destruct (ds_dsp base !! k) as [[q|]|] eqn:Ek; [done|done|]. apply lookup_ge_None in Ek. lia. }
  assert (Hwf : ∀ c, (flag c = true → forallb is_Some_b (take (Z.to_nat (ds_dspcount base + 1)) (<[k := Some p]> (ds_dsp base))) = true) →
    dataset_wf (set_ds_iscomplete c (set_ds_dsp (<[k := Some p]> (ds_dsp base)) (ds_dspcount base + 1) base))).
  { intros c Hc. split; cbn [ds_dsp ds_dspcount ds_iscomplete set_ds_dsp set_ds_iscomplete].
    - by rewrite length_insert.
    - intros r Hr. apply list_elem_of_lookup in Hr as [j Hj]. apply list_lookup_insert_Some in Hj as [(_ & [= <-] & _)|(_ & Hj)]; [done|].
      apply B2. by eapply list_elem_of_lookup_2.
    - rewrite omap_insert by done. lia.
    - lia.
    - exact Hc. }
  match type of E with context [last_part_found ?x] => destruct (last_part_found x) end;
    [match type of E with context [forallb ?f ?x] => destruct (forallb f x) eqn:Ef end|]; injection E as _ <-; by apply Hwf.
Qed.

(** ** The root *)

Definition root_wf (root : zdsroot) : Prop := Forall dataset_wf (r_datasetlist root).

Lemma zdsroot_merge_wf root newds rc root' :
  root_wf root → single newds → zdsroot_merge_dataset root newds = Done (rc, root') → root_wf root'.
Proof.
  intros Hr Hn E. unfold zdsroot_merge_dataset in E. destruct (find_dataset _ _) as [i|].
  - destruct (r_datasetlist root !! i) as [ds|] eqn:Ei; [|done]. cbn [deref] in E. rewrite Done_bind in E.
    destruct (dataset_merge_dataset ds newds) as [[rc1 ds']| | |] eqn:Em; try done. rewrite Done_bind in E. injection E as _ <-.
    assert (Hd : dataset_wf ds) by (by eapply Forall_lookup_1). apply Forall_insert; [done|]. by eapply merge_wf.
  - injection E as _ <-. apply Forall_app. split; [done|]. apply Forall_singleton, Hn.
Qed.

Lemma extract_dscb_wf d dscb root rc root' : root_wf root → extract_dscb d dscb root = Done (rc, root') → root_wf root'.
Proof.
  intros Hr E. unfold extract_dscb in E. destruct (_ || _); [|by injection E as _ <-].
  destruct (create_dataset_from_dscb d _) as [[rc1|ds]| | |] eqn:Ec; try done; cbn [zbind] in E;
    [rewrite Done_bind in E; by injection E as _ <-|].
  destruct (dataset_member_analysis ds) as [[rc1|ds1]| | |] eqn:Em; try done; rewrite Done_bind in E; [by injection E as _ <-|].
  eapply zdsroot_merge_wf; [done| |exact E]. eapply member_analysis_wf; [|exact Em]. by eapply create_wf.
Qed.

Lemma extract_loop_wf d rv fuel : ∀ i root rc root',
  root_wf root → extract_loop fuel d rv i root = Done (rc, root') → root_wf root'.
Proof.
  induction fuel as [|fuel IH]; intros i root rc root' Hr E; cbn [extract_loop] in E; [done|].
  destruct (lzds_dscbiterator_get_next_dscb rv i) as [[[j dscb]|]| | |]; try done; rewrite Done_bind in E; [|by injection E as _ <-].
  destruct (extract_dscb d dscb root) as [[rc1 root1]| | |] eqn:Ed; try done. rewrite Done_bind in E.
  apply extract_dscb_wf in Ed; [|done]. destruct (negb (rc1 =? 0)); [by injection E as _ <-|]. by eapply IH.
Qed.

(** the roots that a program can have, as long as no extraction fails *)
Inductive reachable : zdsroot → Prop :=
  | reachable_alloc : reachable lzds_zdsroot_alloc
  | reachable_add root devnode k root' d :
      reachable root → lzds_zdsroot_add_device root devnode k = zok (root', d) → reachable root'
  | reachable_extract root d root' :
      reachable root → lzds_zdsroot_extract_datasets_from_dasd root d = Done (0, root') → reachable root'.

Lemma reachable_wf root : reachable root → root_wf root.
Proof.
  induction 1 as [|root devnode k root' d _ IH E|root d root' _ IH E].
  - constructor.
  - unfold lzds_zdsroot_add_device in E. destruct (zdsroot_is_duplicate_device root devnode); [done|].
    destruct (negb (k_open k)); [done|]. destruct (dasd_read_geometry _ k) as [[?|?]| | |]; try done. by injection E as <- _.
  - unfold lzds_zdsroot_extract_datasets_from_dasd in E. destruct (d_rawvtoc d) as [rv|]; [|done]. cbn [deref] in E.
    rewrite Done_bind in E. by eapply extract_loop_wf.
Qed.

End ZdsRoot.
