(* ===== verification/ZdsProps.v ===== *)
(** Properties of libzds (src/libzds/libzds.c): a data set is a file for the reads
    and seeks of a handle, and the data sets that are found on the devices have
    the shape that the other functions rely on. *)
From S2P Require Import Prelude Ebcdic Cchh Codec Labels LabelOps Zds ZdsDataset ZdsRead ZdsTracks ZdsStream ZdsFile ZdsOpen ZdsRoot.
Import Addr Zds ZdsDataset ZdsRead ZdsTracks ZdsStream ZdsFile ZdsOpen ZdsRoot.

Module ZdsProps.

(** ** Files *)

(** what a client asks of an open handle, and what it gets: the return code with
    the bytes or with the offset *)
Inductive file_request := Read (size : Z) | Lseek (offset : Z).
Inductive answer := Bytes (rc : Z) (data : list Z) | Offset (rc : Z) (offset : Z).

Definition ask_valid (q : file_request) : Prop := match q with Read n | Lseek n => 0 <= n end.

Definition ask (h : dshandle) (q : file_request) : outcome (answer * dshandle) :=
  match q with
  | Read size => '(rc, l, h) ← lzds_dshandle_read h size; Done (Bytes rc l, h)
  | Lseek offset => '(rc, o, h) ← lzds_dshandle_lseek h offset; Done (Offset rc o, h)
  end.

Fixpoint ask_all (h : dshandle) (qs : list file_request) : outcome (list answer) :=
  match qs with
  | [] => Done []
  | q :: qs => '(a, h) ← ask h q; l ← ask_all h qs; Done (a :: l)
  end.

(** the same requests to a file with the contents [data], at an offset *)
Definition file_ask (data : list Z) (off : Z) (q : file_request) : answer * Z :=
  match q with
  | Read size => let l := take (Z.to_nat size) (drop (Z.to_nat off) data) in (Bytes 0 l, off + Z.of_nat (length l))
  | Lseek offset => let o := Z.min offset (Z.of_nat (length data)) in (Offset 0 o, o)
  end.

Fixpoint file_ask_all (data : list Z) (off : Z) (qs : list file_request) : list answer :=
  match qs with
  | [] => []
  | q :: qs => let '(a, off) := file_ask data off q in a :: file_ask_all data off qs
  end.

(** the contents of a data set or of a member: the data of the records on its tracks *)
Definition contents (ds : dataset) (member : option pdsmember) (pay : erecord → list Z) (recs : Z * Z → list erecord) : list Z :=
  (tracks_data pay (start_record member) (map recs (tracks_from ds member))).1.

Section File.
Context (tpf : Z) (ds : dataset) (seek_buffer_size : Z) (membername : option (list Z)) (member : option pdsmember).
Context (Hco : can_open tpf ds seek_buffer_size membername member).
Lemma start_record_pos : 0 < start_record member.
Proof using Hco.
  pose proof (co_member _ _ _ _ _ Hco) as Hm. unfold start_record. destruct membername.
  - destruct Hm as (m & -> & _ & _ & _ & Hr & _). destruct (Z.eqb_spec (m_record m) 0); lia.
  - by destruct Hm as [-> _].
Qed.

Context (p0 : datasetpart) (Hp0 : dsp ds 0 = Some p0) (keepRDW : Z) (pay : erecord → list Z) (recs : Z * Z → list erecord).
Context (Hread : readable (DS1RECFM (dp_f1 p0)) keepRDW pay (start_record member) (images ds recs (tracks_from ds member))).

Lemma ask_ok pos0 h q :
  pos_ok ds pos0 → todo ds pos0 = tracks_from ds member → starts_at tpf ds member pos0 →
  inv tpf ds keepRDW pay recs member pos0 (start_record member) h → ask_valid q →
  ∃ h', ask h q = Done ((file_ask (contents ds member pay recs) (lzds_dshandle_get_offset h) q).1, h') ∧
    inv tpf ds keepRDW pay recs member pos0 (start_record member) h' ∧
    lzds_dshandle_get_offset h' = (file_ask (contents ds member pay recs) (lzds_dshandle_get_offset h) q).2.
Proof using Hco Hp0 Hread.
  intros Hpos Et Hstart Hinv Hq. pose proof (co_ds _ _ _ _ _ Hco) as Hds. pose proof start_record_pos as Hst.
  assert (Hr : readable (DS1RECFM (dp_f1 p0)) keepRDW pay (start_record member) (images ds recs (todo ds pos0))) by (by rewrite Et).
  assert (Ht : (length (todo ds pos0) <= Z.to_nat (lzds_dataset_get_size_in_tracks ds))%nat).
  { rewrite Et. by eapply length_all_tracks. }
  assert (Es : stream ds pay recs pos0 (start_record member) = contents ds member pay recs) by (unfold stream, contents; by rewrite Et).
  destruct q as [size|offset]; cbn [ask file_ask ask_valid] in *.
  - destruct Hinv as (k & a & Hc & Ha & Hs & Hst').
    destruct (read_ok tpf ds Hds p0 Hp0 keepRDW pay recs member pos0 _ Hpos Hst Hr Ht h k a size Hc Ha Hs (or_introl Hst') Hq)
      as (h' & E & Hi & Ho & _). rewrite E, Done_bind. exists h'. cbn [app length] in *. rewrite Z.sub_0_r in *. rewrite Es in *. done.
  - destruct (lseek_ok tpf ds Hds p0 Hp0 keepRDW pay recs member pos0 _ Hpos Hst Hr eq_refl Ht Hstart h offset Hinv Hq)
      as (h' & E & Hi & Ho). rewrite E, Done_bind. exists h'. rewrite Es in *. done.
Qed.

Lemma ask_all_ok pos0 qs : pos_ok ds pos0 → todo ds pos0 = tracks_from ds member → starts_at tpf ds member pos0 → ∀ h,
  inv tpf ds keepRDW pay recs member pos0 (start_record member) h → Forall ask_valid qs →
  ask_all h qs = Done (file_ask_all (contents ds member pay recs) (lzds_dshandle_get_offset h) qs).
Proof using Hco Hp0 Hread.
  intros Hpos Et Hstart. induction qs as [|q qs IH]; intros h Hinv Hq; [done|]. apply Forall_cons in Hq as [Hq Hqs].
  destruct (ask_ok pos0 h q Hpos Et Hstart Hinv Hq) as (h' & E & Hi & Ho). cbn [ask_all file_ask_all].
  rewrite E, Done_bind, IH by done. rewrite Ho. by destruct (file_ask _ _ q).
Qed.

End File.

(** ** A device for the examples *)

(** one cylinder with a data set on the tracks 4 to 6 and 0; record 0 of every
    track holds eight bytes *)
Definition rec (id : Z) (data : list Z) : erecord := ERecord [0; 0; 0; 0; id] [] data.
Definition demo_recs (x : Z * Z) : list erecord :=
  rec 0 (replicate 8 0) ::
  match x.2 with
  | 4 => [rec 1 [1; 2; 3]]
  | 5 => [rec 1 [4; 5]; rec 2 [6]]
  | 0 => [rec 1 [7; 8]; rec 2 []; rec 3 [9]]
  | _ => []
  end.
Definition track_bytes (recs : list erecord) : list Z := concat (map e_image recs) ++ endtoken.
Definition demo_disk (recs : Z → list erecord) : disk :=
  Disk true (Some (15 * RAWTRACKSIZE))
    (λ o, default 0 (track_bytes (recs (o / RAWTRACKSIZE)) !! Z.to_nat (o mod RAWTRACKSIZE))) (λ _ n, n) true.
Definition demo_dasd (recs : Z → list erecord) : dasd := Dasd [] (demo_disk recs) 2 1 15 None None.
(** a sequential data set, with a record format *)
Definition demo_f1 (recfm : Z) : format1_label_t := cdec cformat1 (<[82%nat := 0x40]> (<[84%nat := recfm]> (replicate 140 0))).
Definition demo_ext : list extent_t :=
  [Extent 1 0 (Cchh 0 4) (Cchh 0 6); Extent 1 1 (Cchh 0 0) (Cchh 0 0)] ++ replicate 14 zero_extent.
Definition demo_part (recfm : Z) (recs : Z → list erecord) : datasetpart := Datasetpart (demo_dasd recs) (demo_f1 recfm) demo_ext.
Definition demo_dataset (recfm : Z) (recs : Z → list erecord) : dataset :=
  Dataset [] (Some (demo_part recfm recs) :: replicate 58 None) 1 1 None.
Definition demo_ds : dataset := demo_dataset 0x80 (λ t, demo_recs (0, t)).

(** C5: a data set is a file. A handle is allocated for any number of tracks per frame and
    opened for the data set or one of its members, without a seek buffer or with one so
    large that at most every second frame is left out of it (twice the number of its
    elements is more than the tracks divided by the tracks per frame, plus 945; with a
    smaller one a seek back can fail with ERANGE, see the theorem seek_back_fails); then
    every sequence of reads and seeks
    returns what the same requests return on a file with the contents of the data set: the
    data of its records on all its extents and parts up to the first empty record, without
    the record descriptor words if they are not wanted. The data set is supported and
    complete, and its tracks can be read. Every request returns. *)
Theorem dataset_is_a_file tpf ds seek_buffer_size membername member p0 keepRDW pay recs qs :
  can_open tpf ds seek_buffer_size membername member → dsp ds 0 = Some p0 →
  readable (DS1RECFM (dp_f1 p0)) keepRDW pay (start_record member) (images ds recs (tracks_from ds member)) →
  Forall ask_valid qs →
  ∃ h, open_dataset ds tpf seek_buffer_size membername keepRDW = Done (0, h) ∧
    ask_all h qs = Done (file_ask_all (contents ds member pay recs) 0 qs).
Proof.
  intros Hco Hp0 Hread Hqs.
  destruct (open_ok tpf ds seek_buffer_size membername member Hco keepRDW pay recs) as (pos0 & h & Hpos & Et & Hstart & E & Hinv & Ho).
  exists h. split; [done|]. rewrite <- Ho. by eapply ask_all_ok.
Qed.


(** the bytes of a track hold its records *)
Lemma holds_track_bytes b recs : ∀ off,
  Forall e_ok recs → mem_list b off (length (track_bytes recs)) = track_bytes recs → holds b off recs.
Proof.
  unfold track_bytes. induction recs as [|r recs IH]; intros off Hok E; cbn [map concat app] in E; [exact E|].
  apply Forall_cons in Hok as [Hr Hok]. rewrite <- app_assoc in E. apply mem_list_split in E as [E1 E2]. split; [done|]. split; [done|].
  rewrite <- length_e_image by done. by apply IH.
Qed.

Lemma rec_ok id data : Z.of_nat (length data) < 65536 → id ≠ 255 → e_ok (rec id data).
Proof. intros H Hid. split; [done|]. split; [by intros [=]|]. split; [done|exact H]. Qed.

(** a track of fixed records *)
Lemma good_fixed f recs :
  recs ≠ [] → Forall e_ok recs → mem_list f 0 (length (track_bytes recs)) = track_bytes recs →
  recs_size recs + 8 <= RAWTRACKSIZE → Z.of_nat (length (concat (map e_data recs))) <= MAXRECSIZE → good_track 0x80 0 e_data f recs.
Proof.
  intros H1 H2 H3 H4 H5. split; [done|]. split; [by apply holds_track_bytes|]. split; [|done]. apply Forall_forall. by intros.
Qed.

Lemma demo_readable : readable 0x80 0 e_data 1 (images demo_ds demo_recs (tracks_from demo_ds None)).
Proof.
  change (tracks_from demo_ds None) with [(0, 4); (0, 5); (0, 6); (0, 0)]. cbn [images map readable].
  repeat (split; [apply good_fixed; [done|repeat constructor; apply rec_ok; done|by vm_compute|by vm_compute|by vm_compute]|]; right).
  done.
Qed.

Lemma demo_dataset_ok recfm recs tpf : 1 <= tpf <= 65535 → dataset_ok tpf (demo_dataset recfm recs).
Proof.
  intros Ht. split; try done.
  - intros p Hp. cbn [demo_dataset ds_dsp] in Hp. apply elem_of_cons in Hp as [[= ->]|Hp]; [done|].
    apply elem_of_replicate in Hp as [Hp _]. done.
  - intros i Hi. cbn [demo_dataset ds_dspcount] in Hi. assert (i = 0) as -> by lia. exists (demo_part recfm recs). split; [done|].
    split; [done|]. split; [|split].
    + intros pos n Hn Hm. cbn. lia.
    + change (dasd_tracks (dp_dasdi (demo_part recfm recs))) with 15. lia.
    + cbn [dp_ext demo_part demo_ext app]. do 2 (apply Forall_cons; split; [intros _; vm_compute; repeat split; congruence|]).
      apply Forall_replicate. by intros.
Qed.

Lemma demo_can_open : can_open 2 demo_ds 8000 None None.
Proof.
  split; [by apply demo_dataset_ok|done| |done|right; split; [done|by vm_compute]].
  intros i p Hi Ep. cbn in Hi. assert (i = 0) as -> by lia. by injection Ep as <-.
Qed.

Lemma dataset_is_a_file_witness :
  ∃ h, open_dataset demo_ds 2 8000 None 0 = Done (0, h) ∧
    ask_all h [Read 4; Lseek 0; Read 2; Lseek 100; Read 5; Lseek 3; Read 9] =
      Done [Bytes 0 [1; 2; 3; 4]; Offset 0 0; Bytes 0 [1; 2]; Offset 0 8; Bytes 0 []; Offset 0 3; Bytes 0 [4; 5; 6; 7; 8]].
Proof.
  apply (dataset_is_a_file 2 demo_ds 8000 None None (demo_part 0x80 (λ t, demo_recs (0, t))) 0 e_data demo_recs).
  - apply demo_can_open.
  - reflexivity.
  - apply demo_readable.
  - repeat constructor; cbn; lia.
Defined.

(** ** Data sets *)

Lemma copy_extents_ok l : ∀ ext,
  Forall (λ e, ext_typeind e = 0 ∨ ext_seqno e < MAXEXTENTS) l → ∃ ext', copy_extents l ext = zok ext'.
Proof.
  induction l as [|e l IH]; intros ext H; [by eexists|]. apply Forall_cons in H as [He H]. cbn [copy_extents].
  unfold copy_extent_to_datasetpart. destruct (Z.eqb_spec (ext_typeind e) 0) as [_|Hne]; cbn [negb andb zbind zok]; [by apply IH|].
  destruct He as [He|He]; [done|]. rewrite (proj2 (Z.leb_gt _ _) He). cbn [zbind]. by apply IH.
Qed.

(** C6: on every root that is made by adding devices and extracting their data
    sets in any order, as long as that succeeds, each data set has 59 slots for
    parts, its number of parts is the one of the slots in use, and the parts of a
    complete data set fill the first slots; so a handle can be allocated for every
    data set that is said to be supported, and no missing part is accessed. *)
Theorem found_datasets_are_safe root ds tracks_per_frame :
  reachable root → ds ∈ r_datasetlist root →
  dataset_wf ds ∧
  (lzds_dataset_get_is_supported ds = true → ∃ h, lzds_dataset_alloc_dshandle ds tracks_per_frame = Done h ∧ h_ds h = ds).
Proof.
  intros Hr Hin. assert (Hwf : dataset_wf ds) by (pose proof (reachable_wf root Hr) as H; unfold root_wf in H; rewrite Forall_forall in H; by apply H).
  split; [done|]. intros Hs. unfold lzds_dataset_alloc_dshandle. rewrite (wf_complete _ Hwf); [by eexists|].
  unfold lzds_dataset_get_is_supported in Hs. destruct (dsp ds 0); [|done]. apply andb_true_iff in Hs as [Hs _].
  apply andb_true_iff in Hs as [Hs _]. by apply andb_true_iff in Hs as [Hs _].
Qed.

(** a VTOC with the label of one data set *)
Definition demo_dscb : list Z :=
  replicate 44 0x40 ++ [0xf1] ++ replicate 7 0 ++ [1] ++ replicate 29 0 ++ [0x40; 0; 0x80] ++ replicate 20 0 ++
  [1; 0; 0; 0; 0; 4; 0; 0; 0; 6] ++ replicate 25 0.
Definition demo_vtoc (dscb : list Z) : raw_vtoc :=
  RawVtoc (λ o, default 0 (([0; 0; 0; 0; 1; 44; 0; 96] ++ dscb) !! Z.to_nat o)) 148 [0] 1 1 0 0 15.
Definition demo_volume (dscb : list Z) : dasd := set_d_rawvtoc (Some (demo_vtoc dscb)) (demo_dasd (λ t, demo_recs (0, t))).
Definition demo_root : zdsroot :=
  match lzds_zdsroot_extract_datasets_from_dasd lzds_zdsroot_alloc (demo_volume demo_dscb) with
  | Done (_, root) => root
  | _ => lzds_zdsroot_alloc
  end.

Lemma demo_root_reachable : reachable demo_root.
Proof.
  apply (reachable_extract lzds_zdsroot_alloc (demo_volume demo_dscb)); [constructor|]. unfold demo_root.
  assert (E : match lzds_zdsroot_extract_datasets_from_dasd lzds_zdsroot_alloc (demo_volume demo_dscb) with
              | Done (rc, _) => rc =? 0
              | _ => false
              end = true) by (vm_compute; reflexivity).
  destruct (lzds_zdsroot_extract_datasets_from_dasd _ _) as [[rc root]| | |]; try done. apply Z.eqb_eq in E as ->. done.
Qed.

Lemma demo_root_supported :
  length (r_datasetlist demo_root) = 1%nat ∧ forallb lzds_dataset_get_is_supported (r_datasetlist demo_root) = true.
Proof. split; vm_compute; reflexivity. Qed.

Lemma found_datasets_are_safe_witness :
  ∃ ds, head (r_datasetlist demo_root) = Some ds ∧ ∃ h, lzds_dataset_alloc_dshandle ds 7 = Done h ∧ h_ds h = ds.
Proof.
  pose proof demo_root_supported as [Hlen Hs]. destruct (r_datasetlist demo_root) as [|ds l] eqn:E; [done|].
  exists ds. split; [reflexivity|]. apply andb_true_iff in Hs as [Hs _]. revert Hs.
  apply (found_datasets_are_safe demo_root ds 7); [apply demo_root_reachable|rewrite E; left].
Defined.

(** ** Errors *)

(** the requests to a handle that is opened for them *)
Definition session (opened : outcome (Z * dshandle)) (qs : list file_request) : outcome (Z * list answer) :=
  '(rc, h) ← opened; l ← ask_all h qs; Done (rc, l).

(** A seek buffer that is filled up cannot be used: [dshandle_store_trackframe]
    refuses a frame that starts an element before it looks whether the element is
    there already.  With a buffer for one element a seek back to the first byte
    fails, which succeeds without a seek buffer. *)
Theorem seek_back_fails :
  session (open_dataset demo_ds 2 16 None 0) [Read 8; Lseek 0] =
    Done (0, [Bytes 0 [1; 2; 3; 4; 5; 6; 7; 8]; Offset ERANGE 6]) ∧
  session (open_dataset demo_ds 2 0 None 0) [Read 8; Lseek 0] =
    Done (0, [Bytes 0 [1; 2; 3; 4; 5; 6; 7; 8]; Offset 0 0]).
Proof. split; vm_compute; reflexivity. Qed.

(** a data set of variable records, with two of them in the first block *)
Definition demo_var (t : Z) : list erecord :=
  rec 0 (replicate 8 0) ::
  match t with
  | 4 => [rec 1 (block_image [(0, [0xc1; 0xc2]); (0, [0xc3])])]
  | 0 => [rec 1 []]
  | _ => []
  end.
Definition demo_var_ds : dataset := demo_dataset 0x40 demo_var.

(** a handle with a conversion *)
Definition open_converting (ds : dataset) (iconv : option (list Z → Z → option (list Z))) : outcome (Z * dshandle) :=
  h ← lzds_dataset_alloc_dshandle ds 2; lzds_dshandle_open (lzds_dshandle_set_iconv h iconv).2.

(** The line feed that [convert_variable_record] puts behind a record
    overwrites the descriptor word of the next record in the block: with a
    conversion, even one that changes nothing, a block of two records cannot be
    read, while it can be read without. *)
Theorem converted_block_fails :
  session (open_converting demo_var_ds (Some (λ l _, Some l))) [Read 9] = Done (0, [Bytes EPROTO []]) ∧
  session (open_converting demo_var_ds None) [Read 9] = Done (0, [Bytes 0 [0xc1; 0xc2; 0xc3]]).
Proof. split; vm_compute; reflexivity. Qed.

(** C40: the chain of format 3 labels is followed without a limit: for a label with valid
    extents whose pointer leads back to itself the loop of
    [raw_vtoc_get_datasetpart_from_dscb] never ends. *)
Theorem label_cycle_never_ends rv l ext fuel :
  let f3 := cdec cformat3 l in
  DS3FMTID f3 = 0xf3 → Forall (λ e, ext_typeind e = 0 ∨ ext_seqno e < MAXEXTENTS) (DS3EXTNT f3 ++ DS3ADEXT f3) →
  lzds_raw_vtoc_get_dscb_from_cchhb rv (DS3PTRDS f3) = zok (Some l) →
  format3_chain fuel rv (Some l) ext = OutOfFuel.
Proof.
  intros f3 Hid Hext Hnext. revert ext. induction fuel as [|fuel IH]; intros ext; cbn [format3_chain]; [done|]. fold f3. rewrite Hid. cbn [Z.eqb negb Pos.eqb].
  destruct (copy_extents_ok _ ext Hext) as [ext' E]. rewrite E. cbn [zbind zok]. rewrite Hnext. apply IH.
Qed.

(** a format 3 label that points to itself, as record 1 of a VTOC *)
Definition demo_f3 : list Z := replicate 44 0 ++ [0xf3] ++ replicate 94 0 ++ [1].
Definition demo_cycle : raw_vtoc :=
  RawVtoc (λ o, default 0 (([0; 0; 0; 0; 1; 44; 0; 96] ++ demo_f3) !! Z.to_nat o)) 148 [0; 0] 2 2 0 0 15.

Lemma label_cycle_never_ends_witness : format3_chain (chain_fuel demo_cycle) demo_cycle (Some demo_f3) no_extents = OutOfFuel.
Proof.
  apply (label_cycle_never_ends demo_cycle demo_f3 no_extents (chain_fuel demo_cycle)).
  - vm_compute. reflexivity.
  - vm_compute. repeat (apply Forall_cons_2; [left; reflexivity|]). apply Forall_nil_2.
  - vm_compute. reflexivity.
Defined.

End ZdsProps.
