(* ===== verification/Envblk.v ===== *)
(** The environment block of zipl (src/zipl/src/envblk.c with
    src/zipl/include/envblk.h): a block of a fixed size in the boot map that holds
    lines NAME=VALUE behind a signature and is filled up with zeros.  The name can
    be prefixed with the digit of a site.

    The block is a byte list and a pointer into it an offset.  An access outside of
    it is a [Fault].  Functions that print return what they print. *)
From S2P Require Import Prelude.

(** ** Memory *)

Definition get (b : list Z) (i : nat) : outcome Z := deref (b !! i).
Definition get_bytes (b : list Z) (i n : nat) : outcome (list Z) :=
  if (i + n <=? length b)%nat then Done (take n (drop i b)) else Fault.
Definition put_bytes (b : list Z) (i : nat) (l : list Z) : outcome (list Z) :=
  if (i + length l <=? length b)%nat then Done (memcpy_at b i l) else Fault.
Definition memmove (b : list Z) (dst src n : nat) : outcome (list Z) :=
  l ← get_bytes b src n; put_bytes b dst l.

Module Envblk.

Definition NL : Z := 10.
Definition EQ : Z := 61.
Definition EINVAL : Z := 22.

(** "# zIPL Environment Block\n" *)
Definition ZIPL_ENVBLK_SIGNATURE : list Z := bytes_of_string "# zIPL Environment Block" ++ [NL].
Definition SIG_SIZE : nat := length ZIPL_ENVBLK_SIGNATURE.
Definition ENVBLK_MAX_LINES : nat := 512.

Definition envblk_blank (envblk : list Z) (envblk_len : nat) : outcome (list Z) :=
  put_bytes envblk SIG_SIZE (zeros (envblk_len - SIG_SIZE)).

Definition envblk_create_blank (envblk : list Z) (envblk_len : nat) : outcome (list Z) :=
  b ← put_bytes envblk 0 ZIPL_ENVBLK_SIGNATURE; envblk_blank b envblk_len.

(** ** Scanning *)

(** the first [c] at [i] or behind it, [n] bytes to go; the end if there is none *)
Fixpoint find_char (n : nat) (b : list Z) (c : Z) (i : nat) : outcome nat :=
  match n with
  | O => Done i
  | S n => x ← get b i; if x =? c then Done i else find_char n b c (S i)
  end.

Definition envblk_next_line (b : list Z) (s stop : nat) : outcome nat :=
  i ← find_char (stop - s) b NL s; Done (S i).

(** [while (s < end && *s != 0)]: the line is handed to [actor] as a string *)
Fixpoint scan_loop {A} (fuel : nat) (b : list Z) (stop s lines_scanned : nat) (actor : list Z → A → outcome (Z * A)) (a : A)
    : outcome (Z * A) :=
  if (s <? stop)%nat then
    match fuel with
    | O => OutOfFuel
    | S fuel =>
        c ← get b s;
        if c =? 0 then Done (0, a)
        else if (ENVBLK_MAX_LINES <? lines_scanned)%nat then Done (-1, a)
        else
          i ← find_char (stop - s) b EQ s;
          if (i =? stop)%nat then Done (-1, a)
          else
            j ← find_char (stop - S i) b NL (S i);
            if (j =? stop)%nat then Done (-1, a)
            else
              line ← get_bytes b s (j - s);
              '(ret, a) ← actor (cstr line) a;
              if negb (ret =? 0) then Done (ret, a)
              else s ← envblk_next_line b j stop; scan_loop fuel b stop s (S lines_scanned) actor a
    end
  else Done (0, a).

Definition envblk_scan {A} (envblk : list Z) (envblk_size : nat) (actor : list Z → A → outcome (Z * A)) (a : A) : outcome (Z * A) :=
  scan_loop (S envblk_size) envblk envblk_size SIG_SIZE 0 actor a.

(** ** Setting a variable *)

(** [for (fss = end - 1; *fss == '\0'; fss--)] *)
Fixpoint free_start (n : nat) (b : list Z) : outcome nat :=
  match n with
  | O => Fault
  | S n => c ← get b n; if c =? 0 then free_start n b else Done n
  end.

(** [memcpy(s, new_val, new_val_len)] and the new line behind it *)
Definition put_value (b : list Z) (s : nat) (new_val : list Z) : outcome (list Z) :=
  b ← put_bytes b s new_val; put_bytes b (s + length new_val) [NL].

(** the value at [s] is replaced *)
Definition replace_value (b : list Z) (stop fss s : nat) (new_val : list Z) : outcome (Z * list Z) :=
  let new_val_len := length new_val in
  i ← find_char (stop - s) b NL s;
  let cur_val_len := (i - s)%nat in
  if (stop <=? s + cur_val_len)%nat then Done (-1, b)
  else if (cur_val_len <? new_val_len)%nat && (stop - fss <? new_val_len - cur_val_len)%nat then Done (-1, b)
  else
    b ← (if (new_val_len <? cur_val_len)%nat then
           b ← memmove b (s + new_val_len) (s + cur_val_len) (stop - (s + cur_val_len));
           put_bytes b (fss + cur_val_len - new_val_len) (zeros (cur_val_len - new_val_len))
         else if (stop <? s + new_val_len)%nat then Fault
         else memmove b (s + new_val_len) (s + cur_val_len) (stop - (s + new_val_len)));
    b ← put_value b s new_val;
    Done (0, b).

(** [while (fss - s > name_len)], with [k] lines up to the limit: the result, or
    the lines that are left if the name is not there *)
Fixpoint set_loop (k : nat) (b : list Z) (stop fss s : nat) (name new_val : list Z) : outcome (Z * list Z + nat) :=
  if (s + length name <? fss)%nat then
    match k with
    | O => Done (inl (-1, b))
    | S k =>
        l ← get_bytes b s (length name);
        c ← get b (s + length name);
        if bool_decide (l = name) && (c =? EQ) then r ← replace_value b stop fss (s + length name + 1) new_val; Done (inl r)
        else s ← envblk_next_line b s stop; set_loop k b stop fss s name new_val
    end
  else Done (inr k).

Definition envblk_set (envblk : list Z) (envblk_size : nat) (name new_val : list Z) : outcome (Z * list Z) :=
  i ← free_start envblk_size envblk;
  c ← get envblk i;
  if negb (c =? NL) then Done (-1, envblk)
  else
    let fss := S i in
    r ← set_loop ENVBLK_MAX_LINES envblk envblk_size fss SIG_SIZE name new_val;
    match r with
    | inl r => Done r
    | inr k =>
        if (k =? 0)%nat then Done (-1, envblk)
        else if (envblk_size - fss <? length name + length new_val + 2)%nat then Done (-1, envblk)
        else
          b ← put_bytes envblk fss name;
          b ← put_bytes b (fss + length name) [EQ];
          b ← put_value b (fss + length name + 1) new_val;
          Done (0, b)
    end.

(** ** Removing a variable *)

(** [while (end - s >= pname_len + 2)] *)
Fixpoint unset_loop (fuel : nat) (b : list Z) (stop s : nat) (pname : list Z) : outcome (Z * list Z) :=
  if (s + length pname + 2 <=? stop)%nat then
    match fuel with
    | O => OutOfFuel
    | S fuel =>
        l ← get_bytes b s (length pname);
        c ← get b (s + length pname);
        if bool_decide (l = pname) && (c =? EQ) then
          i ← find_char (stop - (s + length pname + 1)) b NL (s + length pname + 1);
          if (stop <=? i)%nat then Done (-1, b)
          else
            let cut_len := S (i - s) in
            b ← memmove b s (s + cut_len) (stop - (s + cut_len));
            b ← put_bytes b (stop - cut_len) (zeros cut_len);
            Done (0, b)
        else s ← envblk_next_line b s stop; unset_loop fuel b stop s pname
    end
  else Done (-1, b).

Definition envblk_unset (envblk : list Z) (envblk_len : nat) (pname : list Z) : outcome (Z * list Z) :=
  unset_loop (S envblk_len) envblk envblk_len SIG_SIZE pname.

(** ** Names *)

(** [isalpha] of the C locale *)
Definition isalpha (c : Z) : bool := ((65 <=? c) && (c <=? 90)) || ((97 <=? c) && (c <=? 122)).
Definition name_start (c : Z) : bool := isalpha c || (c =? 95).
Definition name_char (c : Z) : bool := isalpha c || isdigit c || (c =? 95).

(** 0 if the name is good *)
Definition envblk_check_name (name : list Z) : Z :=
  match name with
  | [] => 1
  | c :: l => if name_start c && forallb name_char l then 0 else 1
  end.

End Envblk.
