(* ===== verification/EnvblkSpec.v ===== *)
(** What the environment block holds: a list of variables, written behind the
    signature as lines NAME=VALUE and filled up with zeros.  The operations of
    [Envblk] on such a block are operations on the list. *)
From stdpp Require Import sets.
From S2P Require Import Prelude Envblk.
Import Envblk.

(** ** Memory *)

Section Memory.
Implicit Types (pre mid post b l : list Z) (i n : nat).

Lemma get_app pre c post i : i = length pre → get (pre ++ c :: post) i = Done c.
Proof. intros ->. unfold get. by rewrite list_lookup_middle. Qed.

Lemma get_bytes_app pre mid post i n :
  i = length pre → n = length mid → get_bytes (pre ++ mid ++ post) i n = Done mid.
Proof.
  intros -> ->. unfold get_bytes. rewrite !length_app.
  destruct (Nat.leb_spec (length pre + length mid) (length pre + (length mid + length post))); [|lia].
  by rewrite drop_app_length, take_app_length.
Qed.

Lemma put_bytes_app pre mid post i l :
  i = length pre → length l = length mid → put_bytes (pre ++ mid ++ post) i l = Done (pre ++ l ++ post).
Proof.
  intros -> Hl. unfold put_bytes, memcpy_at. rewrite !length_app, Hl.
  destruct (Nat.leb_spec (length pre + length mid) (length pre + (length mid + length post))); [|lia].
  rewrite take_app_length, <- drop_drop, drop_app_length. do 3 f_equal.
  apply drop_app_length.
Qed.

Lemma put_bytes_Fault b i l : (length b < i + length l)%nat → put_bytes b i l = Fault.
Proof.
  intros H. unfold put_bytes. destruct (Nat.leb_spec (i + length l) (length b)); [lia|done].
Qed.

Lemma find_char_found pre mid c post n i :
  i = length pre → Forall (.≠ c) mid → (length mid < n)%nat →
  find_char n (pre ++ mid ++ c :: post) c i = Done (i + length mid)%nat.
Proof.
  intros -> Hm. revert pre n. induction Hm as [|x mid Hx _ IH]; intros pre [|n] Hn; simpl in Hn; try lia.
  - cbn [find_char]. rewrite app_nil_l, get_app by done. cbn. rewrite Z.eqb_refl. f_equal. simpl. lia.
  - cbn [find_char]. change ((x :: mid) ++ c :: post) with (x :: (mid ++ c :: post)).
    rewrite get_app by done. cbn [mbind outcome_bind]. apply Z.eqb_neq in Hx. rewrite Hx.
    rewrite (cons_middle x), app_assoc. replace (S (length pre)) with (length (pre ++ [x])) by (rewrite length_app; simpl; lia).
    rewrite IH by lia. f_equal. rewrite length_app. simpl. lia.
Qed.

(** two texts up to their first [c] *)
Lemma before_char c l1 l2 r1 r2 :
  Forall (.≠ c) l1 → Forall (.≠ c) l2 → l1 ++ c :: r1 = l2 ++ c :: r2 → l1 = l2.
Proof.
  intros H1. revert l2. induction H1 as [|x l1 Hx _ IH]; intros l2 H2 E; destruct H2 as [|y l2 Hy H2]; simplify_eq/=; try done.
  f_equal. by eapply IH.
Qed.
End Memory.

(** ** The variables *)

Notation entry := (list Z * list Z)%type.
Notation env := (list entry).

Definition line (e : entry) : list Z := e.1 ++ EQ :: e.2 ++ [NL].
Definition lines (e : env) : list Z := concat (line <$> e).
Definition image (e : env) : list Z := ZIPL_ENVBLK_SIGNATURE ++ lines e.
Definition block (size : nat) (e : env) : list Z := image e ++ zeros (size - length (image e)).

Definition name_ok (n : list Z) : Prop := n ≠ [] ∧ Forall (λ c, c ≠ 0 ∧ c ≠ EQ ∧ c ≠ NL) n.
Definition value_ok (v : list Z) : Prop := Forall (λ c, c ≠ 0 ∧ c ≠ NL) v.
Definition entry_ok (e : entry) : Prop := name_ok e.1 ∧ value_ok e.2.
(** a list of variables that a block of [size] bytes can hold *)
Definition env_ok (size : nat) (e : env) : Prop := Forall entry_ok e ∧ (length (image e) <= size)%nat.

Fixpoint env_get (n : list Z) (e : env) : option (list Z) :=
  match e with
  | [] => None
  | (m, w) :: r => if decide (m = n) then Some w else env_get n r
  end.
Fixpoint env_put (n v : list Z) (e : env) : env :=
  match e with
  | [] => [(n, v)]
  | (m, w) :: r => if decide (m = n) then (n, v) :: r else (m, w) :: env_put n v r
  end.
Fixpoint env_del (n : list Z) (e : env) : env :=
  match e with
  | [] => []
  | (m, w) :: r => if decide (m = n) then r else (m, w) :: env_del n r
  end.

Section Env.
Implicit Types (e : env) (n v w : list Z).

Lemma env_get_split n w e :
  env_get n e = Some w → ∃ e1 e2, e = e1 ++ (n, w) :: e2 ∧ n ∉ e1.*1.
Proof.
  induction e as [|[m u] e IH]; simpl; [done|]. destruct (decide (m = n)) as [->|Hn].
  - intros [= ->]. exists [], e. split; [done|]. set_solver.
  - intros H. destruct (IH H) as (e1 & e2 & -> & Hin). exists ((m, u) :: e1), e2. split; [done|]. set_solver.
Qed.

Lemma env_get_None n e : env_get n e = None ↔ n ∉ e.*1.
Proof.
  induction e as [|[m u] e IH]; simpl; [set_solver|]. destruct (decide (m = n)); set_solver.
Qed.

Lemma env_get_app n w e1 e2 : n ∉ e1.*1 → env_get n (e1 ++ (n, w) :: e2) = Some w.
Proof.
  induction e1 as [|[m u] e1 IH]; intros H; simpl in *; [by rewrite decide_True|].
  rewrite decide_False by set_solver. apply IH. set_solver.
Qed.

Lemma env_put_app n v w e1 e2 : n ∉ e1.*1 → env_put n v (e1 ++ (n, w) :: e2) = e1 ++ (n, v) :: e2.
Proof.
  induction e1 as [|[m u] e1 IH]; intros H; simpl in *; [by rewrite decide_True|].
  rewrite decide_False by set_solver. f_equal. apply IH. set_solver.
Qed.

Lemma env_del_app n w e1 e2 : n ∉ e1.*1 → env_del n (e1 ++ (n, w) :: e2) = e1 ++ e2.
Proof.
  induction e1 as [|[m u] e1 IH]; intros H; simpl in *; [by rewrite decide_True|].
  rewrite decide_False by set_solver. f_equal. apply IH. set_solver.
Qed.

Lemma env_put_None n v e : n ∉ e.*1 → env_put n v e = e ++ [(n, v)].
Proof.
  induction e as [|[m u] e IH]; intros H; simpl in *; [done|].
  rewrite decide_False by set_solver. f_equal. apply IH. set_solver.
Qed.

Lemma env_get_put n m v e : env_get n (env_put m v e) = if decide (n = m) then Some v else env_get n e.
Proof.
  induction e as [|[k u] e IH]; simpl.
  - destruct (decide (m = n)), (decide (n = m)); congruence.
  - destruct (decide (k = m)) as [->|Hk]; simpl.
    + destruct (decide (m = n)), (decide (n = m)); congruence.
    + destruct (decide (k = n)), (decide (n = m)); congruence.
Qed.

Lemma lines_cons a e : lines (a :: e) = line a ++ lines e.
Proof. done. Qed.
Lemma lines_app e1 e2 : lines (e1 ++ e2) = lines e1 ++ lines e2.
Proof. unfold lines. by rewrite fmap_app, concat_app. Qed.
Lemma length_line n v : length (line (n, v)) = (length n + length v + 2)%nat.
Proof. unfold line. rewrite length_app. simpl. rewrite length_app. simpl. lia. Qed.
Lemma length_image e : length (image e) = (SIG_SIZE + length (lines e))%nat.
Proof. unfold image. by rewrite length_app. Qed.

(** the block around one of its variables *)
Lemma block_split size e1 n w e2 :
  block size (e1 ++ (n, w) :: e2) =
  (ZIPL_ENVBLK_SIGNATURE ++ lines e1) ++ line (n, w) ++ lines e2 ++ zeros (size - length (image (e1 ++ (n, w) :: e2))).
Proof. unfold block, image. rewrite lines_app, lines_cons, <- !app_assoc. done. Qed.

Lemma length_block size e : (length (image e) <= size)%nat → length (block size e) = size.
Proof. intros H. unfold block, zeros. rewrite length_app, length_replicate. lia. Qed.

Lemma line_no_nul a : entry_ok a → Forall (.≠ 0) (line a).
Proof.
  destruct a as [n v]. intros [[_ Hn] Hv]. unfold line. simpl.
  apply Forall_app. split; [eapply Forall_impl; [exact Hn|naive_solver]|].
  constructor; [done|]. apply Forall_app. split; [eapply Forall_impl; [exact Hv|naive_solver]|].
  by repeat constructor.
Qed.

Lemma image_no_nul e : Forall entry_ok e → Forall (.≠ 0) (image e).
Proof.
  intros H. unfold image. apply Forall_app. split; [by apply (bool_decide_unpack (Forall (.≠ 0) ZIPL_ENVBLK_SIGNATURE)); vm_compute|].
  induction H as [|a e Ha _ IH]; [constructor|]. rewrite lines_cons. apply Forall_app. split; [by apply line_no_nul|done].
Qed.
End Env.
(** ** Setting a variable *)

Section SetVariable.
Implicit Types (pre mid post w v n b : list Z) (e : env) (z : nat).

Lemma length_zeros z : length (zeros z) = z.
Proof. apply length_replicate. Qed.
Lemma zeros_add x y : zeros (x + y) = zeros x ++ zeros y.
Proof. apply replicate_add. Qed.

Lemma free_start_zeros l c z m :
  c ≠ 0 → (z <= m)%nat → free_start (S (length l + z)) (l ++ c :: zeros m) = Done (length l).
Proof.
  intros Hc. induction z as [|z IH]; intros Hm.
  - rewrite Nat.add_0_r. cbn [free_start]. rewrite get_app by done.
    cbn [mbind outcome_bind]. apply Z.eqb_neq in Hc. by rewrite Hc.
  - rewrite Nat.add_succ_r. remember (S (length l + z)) as k eqn:Ek. cbn [free_start].
    replace (get (l ++ c :: zeros m) k) with (Done 0) by
      (unfold get; rewrite lookup_app_r, Ek by lia; replace (S (length l + z) - length l)%nat with (S z) by lia;
       change ((c :: zeros m) !! S z) with (zeros m !! z); unfold zeros; rewrite lookup_replicate_2 by lia; done).
    cbn [mbind outcome_bind]. rewrite Z.eqb_refl. apply IH. lia.
Qed.

Lemma put_value_app pre mid post v s :
  s = length pre → length mid = length v →
  put_value (pre ++ mid ++ NL :: post) s v = Done (pre ++ v ++ NL :: post).
Proof.
  intros -> Hm. unfold put_value. rewrite put_bytes_app by auto. cbn [mbind outcome_bind].
  rewrite app_assoc. change (NL :: post) with ([NL] ++ post).
  rewrite (put_bytes_app (pre ++ v)) by (rewrite ?length_app; done). by rewrite <- app_assoc.
Qed.

(** the bytes [l] overwrite the bytes [m] *)
Lemma memmove_app b p1 l q1 p2 m q2 dst src k :
  b = p1 ++ l ++ q1 → b = p2 ++ m ++ q2 → src = length p1 → dst = length p2 → k = length l → length m = length l →
  memmove b dst src k = Done (p2 ++ l ++ q2).
Proof.
  intros E1 E2 -> -> -> Hm. unfold memmove. rewrite E1 at 1. rewrite get_bytes_app by done. cbn [mbind outcome_bind].
  rewrite E2. by apply put_bytes_app.
Qed.

Lemma cut_length {A} (l : list A) k : (k <= length l)%nat → ∃ l1 l2, l = l1 ++ l2 ∧ length l1 = k ∧ length l2 = (length l - k)%nat.
Proof. intros H. exists (take k l), (drop k l). by rewrite take_drop, length_take, length_drop, Nat.min_l. Qed.

(** [pre] ends with the equals sign; the value [w] is replaced with [v] *)
Lemma replace_at pre w post z v b :
  b = pre ++ w ++ NL :: post ++ zeros z → Forall (.≠ NL) w →
  length b = (length pre + length w + 1 + length post + z)%nat ∧
  replace_value b (length b) (length b - z) (length pre) v =
  let stop := length b in
  if (length w <? length v)%nat && (z <? length v - length w)%nat then Done (-1, b)
  else
    b ← (if (length v <? length w)%nat then
           b ← memmove b (length pre + length v) (length pre + length w) (stop - (length pre + length w));
           put_bytes b (stop - z + length w - length v) (zeros (length w - length v))
         else if (stop <? length pre + length v)%nat then Fault
         else memmove b (length pre + length v) (length pre + length w) (stop - (length pre + length v)));
    b ← put_value b (length pre) v;
    Done (0, b).
Proof.
  intros Eb Hw. pose proof (length_zeros z) as Hlz.
  assert (Hb : length b = (length pre + length w + 1 + length post + z)%nat).
  { rewrite Eb, !length_app. cbn [length]. rewrite length_app. lia. }
  split; [done|]. unfold replace_value.
  assert (Ef : find_char (length b - length pre) b NL (length pre) = Done (length pre + length w)%nat).
  { rewrite Hb, Eb. apply find_char_found; [done|done|lia]. }
  rewrite Ef. cbn [mbind outcome_bind].
  replace (length pre + length w - length pre)%nat with (length w) by lia.
  replace (length b - (length b - z))%nat with z by lia.
  by rewrite (leb_correct_conv (length pre + length w)) by lia.
Qed.

Lemma replace_grow pre w post z v b :
  b = pre ++ w ++ NL :: post ++ zeros z → Forall (.≠ NL) w → (length w <= length v)%nat →
  replace_value b (length b) (length b - z) (length pre) v =
  if (z <? length v - length w)%nat then Done (-1, b)
  else Done (0, pre ++ v ++ NL :: post ++ zeros (z - (length v - length w))).
Proof.
  intros Eb Hw Hv. destruct (replace_at pre w post z v b Eb Hw) as [Hb ->]. cbn zeta.
  set (d := (length v - length w)%nat). rewrite (proj2 (Nat.ltb_ge (length v) (length w))) by lia.
  destruct (Nat.ltb_spec z d) as [Hd|Hd].
  { by rewrite (proj2 (Nat.ltb_lt (length w) (length v))) by lia. }
  rewrite andb_false_r, (proj2 (Nat.ltb_ge (length b) (length pre + length v))) by lia.
  destruct (cut_length (w ++ NL :: post ++ zeros z) (length v)) as (x & m & Ex & Hx & Hm).
  { rewrite length_app. cbn [length]. rewrite length_app, length_zeros. lia. }
  rewrite length_app in Hm. cbn [length] in Hm. rewrite length_app, length_zeros in Hm.
  assert (Ez : NL :: post ++ zeros z = (NL :: post ++ zeros (z - d)) ++ zeros d).
  { replace z with ((z - d) + d)%nat at 1 by lia. rewrite zeros_add. by rewrite app_comm_cons, app_assoc. }
  assert (Ec : b = (pre ++ w) ++ (NL :: post ++ zeros (z - d)) ++ zeros d).
  { by rewrite Eb, Ez, <- !app_assoc. }
  rewrite (memmove_app b _ _ _ (pre ++ x) m [] _ _ _ Ec).
  - cbn [mbind outcome_bind]. rewrite app_nil_r, <- app_assoc. by rewrite put_value_app by done.
  - rewrite Eb, Ex, app_nil_r. by rewrite app_assoc.
  - by rewrite length_app.
  - rewrite length_app. lia.
  - cbn [length]. rewrite length_app, length_zeros. lia.
  - cbn [length]. rewrite length_app, length_zeros. lia.
Qed.

(** A shorter value: the zeros go behind the free space by as many bytes as the
    value is shorter, and fit there only if there are twice as many. *)
Lemma replace_shrink pre w post z v b :
  b = pre ++ w ++ NL :: post ++ zeros z → Forall (.≠ NL) w → (length v < length w)%nat →
  let d := (length w - length v)%nat in
  replace_value b (length b) (length b - z) (length pre) v =
  if (z <? 2 * d)%nat then Fault else Done (0, pre ++ v ++ NL :: post ++ zeros (z + d)).
Proof.
  intros Eb Hw Hv d. destruct (replace_at pre w post z v b Eb Hw) as [Hb ->]. cbn zeta.
  rewrite (proj2 (Nat.ltb_ge (length w) (length v))) by lia. cbn [andb].
  rewrite (proj2 (Nat.ltb_lt (length v) (length w))) by lia. fold d.
  remember (NL :: post ++ zeros z) as l eqn:El0.
  assert (Hl : length l = (S (length post) + z)%nat) by (rewrite El0; cbn [length]; rewrite length_app, length_zeros; lia).
  destruct (cut_length w (length v)) as (w1 & w2 & -> & Hw1 & Hw2); [lia|].
  assert (Hd : d = length w2) by (unfold d; lia). clearbody d.
  destruct (cut_length (w2 ++ l) (length l)) as (m & q & Em & Hm & Hq); [rewrite length_app; lia|].
  rewrite length_app in Hq.
  assert (Ec : b = (pre ++ w1 ++ w2) ++ l ++ []) by (rewrite Eb, app_nil_r, <- !app_assoc; done).
  rewrite (memmove_app b _ _ _ (pre ++ w1) m q _ _ _ Ec).
  2: { rewrite Eb, <- !app_assoc, <- Em. done. }
  2-5: rewrite ?length_app in *; lia.
  cbn [mbind outcome_bind].
  rewrite length_app in *.
  destruct (Nat.ltb_spec z (2 * d)) as [Hz|Hz].
  - rewrite put_bytes_Fault; [done|]. rewrite !length_app, Hl, length_zeros. lia.
  - assert (Eq : q = zeros d).
    { assert (Hs : w2 ++ l = (w2 ++ NL :: post ++ zeros (z - d)) ++ zeros d).
      { rewrite El0. replace z with ((z - d) + d)%nat at 1 by lia.
        rewrite zeros_add. rewrite <- app_assoc. cbn. by rewrite <- app_assoc. }
      rewrite Hs in Em. apply app_inj_2 in Em; [by destruct Em|]. rewrite length_zeros. lia. }
    assert (El : (pre ++ w1) ++ l ++ q = ((pre ++ w1) ++ NL :: post ++ zeros (2 * d)) ++ zeros d ++ zeros (z - 2 * d)).
    { rewrite Eq. rewrite El0. rewrite <- !app_assoc. cbn [app]. rewrite <- !app_assoc. rewrite <- !zeros_add. by replace (z + d)%nat with (2 * d + (d + (z - 2 * d)))%nat by lia. }
    rewrite El, put_bytes_app.
    + cbn [mbind outcome_bind]. rewrite <- !app_assoc. cbn [app]. rewrite <- !app_assoc.
      rewrite put_value_app by (done || lia). cbn [mbind outcome_bind].
      rewrite <- !zeros_add. by replace (z + d)%nat with (2 * d + (d + (z - 2 * d)))%nat by lia.
    + rewrite !length_app. cbn [length]. rewrite length_app, length_zeros. lia.
    + done.
Qed.
End SetVariable.
Section Lookup.
Implicit Types (pre post w v n m b : list Z) (e : env).

Definition no_eq (n : list Z) : Prop := Forall (.≠ EQ) n.

Lemma name_no_eq n : name_ok n → no_eq n.
Proof. intros [_ H]. eapply Forall_impl; [exact H|naive_solver]. Qed.
Lemma value_no_nl v : value_ok v → Forall (.≠ NL) v.
Proof. intros H. eapply Forall_impl; [exact H|naive_solver]. Qed.
Lemma entry_no_nl n v : entry_ok (n, v) → Forall (.≠ NL) (n ++ EQ :: v).
Proof.
  intros [[_ Hn] Hv]. apply Forall_app. split; [eapply Forall_impl; [exact Hn|naive_solver]|].
  constructor; [done|]. by apply value_no_nl.
Qed.

(** the comparison of the code finds out if the line at [pre] has the name [n] *)
Lemma match_name pre m w post n b :
  b = pre ++ line (m, w) ++ post → no_eq m → no_eq n → (length pre + length n < length b)%nat →
  ∃ l c, get_bytes b (length pre) (length n) = Done l ∧ get b (length pre + length n) = Done c ∧
    bool_decide (l = n) && (c =? EQ) = bool_decide (m = n).
Proof.
  intros -> Hm Hn Hlen. rewrite length_app in Hlen.
  destruct (cut_length (line (m, w) ++ post) (length n)) as (l & [|c r] & El & Hl & Hr); [lia|simpl in Hr; lia|].
  exists l, c. rewrite El. split_and!.
  - by apply get_bytes_app.
  - rewrite app_assoc. apply get_app. rewrite length_app. lia.
  - unfold line in El. cbn [fst snd] in El. rewrite <- app_assoc in El. cbn [app] in El.
    destruct (decide (m = n)) as [->|Hne].
    + rewrite (bool_decide_true (n = n)) by done. apply app_inj_1 in El as [<- [= <- _]]; [|done].
      by rewrite bool_decide_true.
    + rewrite (bool_decide_false (m = n)) by done. apply andb_false_iff.
      destruct (decide (l = n)) as [->|Hln]; [|left; by apply bool_decide_false].
      right. apply Z.eqb_neq. intros ->. by apply Hne, (before_char EQ _ _ _ _ Hm Hn El).
Qed.

Lemma next_line_app pre m w post b stop :
  b = pre ++ line (m, w) ++ post → entry_ok (m, w) → (length pre + length (line (m, w)) <= stop)%nat →
  envblk_next_line b (length pre) stop = Done (length pre + length (line (m, w)))%nat.
Proof.
  intros Eb He Hs. unfold envblk_next_line.
  assert (El : b = pre ++ (m ++ EQ :: w) ++ NL :: post).
  { rewrite Eb. unfold line. cbn. rewrite <- !app_assoc. cbn. by rewrite <- app_assoc. }
  assert (Hl : length (line (m, w)) = S (length (m ++ EQ :: w))).
  { rewrite length_line, length_app. cbn. lia. }
  rewrite El at 1. rewrite find_char_found; [|done|by apply entry_no_nl|lia].
  cbn [mbind outcome_bind]. f_equal. lia.
Qed.

Lemma set_loop_skip e1 : ∀ k b pre post fss n v,
  b = pre ++ lines e1 ++ post → Forall entry_ok e1 → no_eq n → n ∉ e1.*1 →
  (length pre + length (lines e1) + length n < fss)%nat → (fss <= length b)%nat →
  set_loop (length e1 + k) b (length b) fss (length pre) n v =
  set_loop k b (length b) fss (length pre + length (lines e1)) n v.
Proof.
  induction e1 as [|[m w] e1 IH]; intros k b pre post fss n v Eb He Hn Hin H1 H2.
  { cbn. by rewrite Nat.add_0_r. }
  rewrite lines_cons in *. rewrite length_app in H1. inversion_clear He as [|? ? Hme He1].
  assert (Eb' : b = pre ++ line (m, w) ++ (lines e1 ++ post)) by (by rewrite Eb, <- app_assoc).
  assert (Hb : length b = (length pre + length (line (m, w)) + length (lines e1) + length post)%nat).
  { rewrite Eb, !length_app. lia. }
  destruct (match_name pre m w _ n b Eb') as (l & c & Hl & Hc & Hm); [by apply name_no_eq, Hme|done|lia|].
  cbn [length Nat.add set_loop]. rewrite (proj2 (Nat.ltb_lt _ _)) by lia.
  rewrite Hl. cbn [mbind outcome_bind]. rewrite Hc. cbn [mbind outcome_bind].
  rewrite Hm, bool_decide_false by set_solver.
  rewrite (next_line_app pre m w _ b (length b) Eb' Hme) by lia. cbn [mbind outcome_bind].
  rewrite <- (length_app pre), (IH k b (pre ++ line (m, w)) post); rewrite ?length_app; try (done || lia).
  - f_equal. lia.
  - by rewrite <- app_assoc.
  - set_solver.
Qed.

Lemma set_loop_None e : ∀ k b pre post n v,
  b = pre ++ lines e ++ post → Forall entry_ok e → no_eq n → n ∉ e.*1 → (length e < k)%nat →
  ∃ k', set_loop k b (length b) (length pre + length (lines e)) (length pre) n v = Done (inr (S k')).
Proof.
  induction e as [|[m w] e IH]; intros [|k] b pre post n v Eb He Hn Hin Hk; cbn [length] in Hk; try lia.
  { exists k. cbn [set_loop lines fmap list_fmap concat length]. by rewrite (proj2 (Nat.ltb_ge _ _)) by lia. }
  rewrite lines_cons in *. inversion_clear He as [|? ? Hme He1].
  assert (Eb' : b = pre ++ line (m, w) ++ (lines e ++ post)) by (by rewrite Eb, <- app_assoc).
  assert (Hb : length b = (length pre + length (line (m, w)) + length (lines e) + length post)%nat).
  { rewrite Eb, !length_app. lia. }
  rewrite length_app. cbn [set_loop].
  destruct (Nat.ltb_spec (length pre + length n) (length pre + (length (line (m, w)) + length (lines e)))); [|by exists k].
  destruct (match_name pre m w _ n b Eb') as (l & c & Hl & Hc & Hm); [by apply name_no_eq, Hme|done|lia|].
  rewrite Hl. cbn [mbind outcome_bind]. rewrite Hc. cbn [mbind outcome_bind].
  rewrite Hm, bool_decide_false by set_solver.
  rewrite (next_line_app pre m w _ b (length b) Eb' Hme) by lia. cbn [mbind outcome_bind].
  rewrite <- (length_app pre), Nat.add_assoc, <- (length_app pre).
  apply (IH k b (pre ++ line (m, w)) post); [by rewrite <- app_assoc|done|done|set_solver|lia].
Qed.
End Lookup.
(** a shorter value whose zeros do not fit into the free space *)
Definition overruns (size : nat) (e : env) (n v : list Z) : bool :=
  match env_get n e with
  | Some w => (size - length (image e) <? 2 * (length w - length v))%nat
  | None => false
  end.

Section Refinement.
Implicit Types (n v w : list Z) (e : env) (size : nat).

Lemma image_last e : ∃ l, image e = l ++ [NL].
Proof.
  unfold image. destruct e as [|a e _] using rev_ind.
  - exists (bytes_of_string "# zIPL Environment Block"). unfold lines. cbn [fmap list_fmap concat]. by rewrite app_nil_r.
  - rewrite lines_app, lines_cons. cbn [lines fmap list_fmap concat]. rewrite app_nil_r. unfold line at 1.
    exists (ZIPL_ENVBLK_SIGNATURE ++ lines e ++ a.1 ++ EQ :: a.2). rewrite <- !app_assoc. by cbn.
Qed.

Lemma set_start size e n v :
  (length (image e) <= size)%nat →
  envblk_set (block size e) size n v =
  r ← set_loop ENVBLK_MAX_LINES (block size e) size (length (image e)) SIG_SIZE n v;
  match r with
  | inl r => Done r
  | inr k =>
      if (k =? 0)%nat then Done (-1, block size e)
      else if (size - length (image e) <? length n + length v + 2)%nat then Done (-1, block size e)
      else
        b ← put_bytes (block size e) (length (image e)) n;
        b ← put_bytes b (length (image e) + length n) [EQ];
        b ← put_value b (length (image e) + length n + 1) v;
        Done (0, b)
  end.
Proof.
  intros Hs. destruct (image_last e) as [l El]. unfold envblk_set.
  assert (Hl : length (image e) = S (length l)) by (rewrite El, length_app; simpl; lia).
  assert (Ef : free_start size (block size e) = Done (length l)).
  { unfold block at 1. rewrite El at 1. rewrite <- app_assoc. cbn [app].
    replace size with (S (length l + (size - length (image e))))%nat at 1 by lia. by apply free_start_zeros. }
  assert (Eg : get (block size e) (length l) = Done NL).
  { unfold block. rewrite El at 1. rewrite <- app_assoc. by apply get_app. }
  rewrite Ef. cbn [mbind outcome_bind]. rewrite Eg. cbn [mbind outcome_bind]. rewrite Z.eqb_refl. cbn [negb].
  by rewrite <- Hl.
Qed.

Lemma set_append size e n v :
  env_ok size e → (length e < ENVBLK_MAX_LINES)%nat → name_ok n → n ∉ e.*1 →
  envblk_set (block size e) size n v =
  if (length (image (e ++ [(n, v)])) <=? size)%nat then Done (0, block size (e ++ [(n, v)])) else Done (-1, block size e).
Proof.
  intros [He Hs] Hk Hn Hin. rewrite set_start by done.
  destruct (set_loop_None e ENVBLK_MAX_LINES (block size e) ZIPL_ENVBLK_SIGNATURE (zeros (size - length (image e))) n v) as [k E];
    [unfold block, image; by rewrite <- app_assoc|done|by apply name_no_eq|done|done|].
  rewrite length_block in E by done. fold SIG_SIZE in E. rewrite <- length_image in E. rewrite E. cbn [mbind outcome_bind Nat.eqb].
  assert (Hi : length (image (e ++ [(n, v)])) = (length (image e) + length n + length v + 2)%nat).
  { rewrite !length_image, lines_app, lines_cons, !length_app, length_line. cbn. lia. }
  rewrite Hi. destruct (Nat.ltb_spec (size - length (image e)) (length n + length v + 2)).
  { by rewrite (proj2 (Nat.leb_gt _ _)) by lia. }
  rewrite (proj2 (Nat.leb_le _ _)) by lia.
  unfold block. replace (size - length (image e))%nat with (length n + (1 + (length v + (1 + (size - length (image (e ++ [(n, v)])))))))%nat by lia.
  rewrite !zeros_add. set (z := zeros (size - length (image (e ++ [(n, v)])))).
  rewrite put_bytes_app by (rewrite ?length_zeros; done). cbn [mbind outcome_bind].
  rewrite app_assoc, put_bytes_app by (rewrite ?length_app, ?length_zeros; done). cbn [mbind outcome_bind].
  unfold put_value. rewrite (app_assoc _ [EQ]), put_bytes_app by (rewrite ?length_app, ?length_zeros; cbn; lia). cbn [mbind outcome_bind].
  rewrite (app_assoc _ v), put_bytes_app by (rewrite ?length_app, ?length_zeros; cbn; lia). cbn [mbind outcome_bind].
  do 2 f_equal. unfold image. rewrite lines_app, lines_cons. unfold line. cbn [lines fmap list_fmap concat fst snd].
  rewrite app_nil_r, <- !app_assoc. cbn [app]. by rewrite <- !app_assoc.
Qed.

Lemma set_replace size e1 e2 n w v :
  let e := e1 ++ (n, w) :: e2 in
  env_ok size e → (length e < ENVBLK_MAX_LINES)%nat → n ∉ e1.*1 →
  envblk_set (block size e) size n v =
  replace_value (block size e) size (length (image e)) (length (image e1) + length n + 1) v.
Proof.
  intros e [He Hs] Hk Hin. rewrite set_start by done. subst e. set (e := e1 ++ (n, w) :: e2) in *.
  apply Forall_app in He as [He1 He2]. inversion_clear He2 as [|? ? Hnw He2']. destruct Hnw as [Hn Hw]. cbn [fst snd] in Hn, Hw.
  assert (Hi : length (image e) = (length (image e1) + length n + length w + 2 + length (lines e2))%nat).
  { unfold e. rewrite !length_image, lines_app, lines_cons, !length_app, length_line. lia. }
  pose proof (length_image e1) as Hi1. pose proof (block_split size e1 n w e2) as Eb. fold e in Eb.
  unfold e in Hk. rewrite length_app in Hk. cbn [length] in Hk. pose proof (length_block size e Hs) as Hb.
  replace ENVBLK_MAX_LINES with (length e1 + S (ENVBLK_MAX_LINES - length e1 - 1))%nat by lia.
  rewrite <- app_assoc in Eb.
  pose proof (set_loop_skip e1 (S (ENVBLK_MAX_LINES - length e1 - 1)) _ _ _ (length (image e)) n v Eb) as Hsk.
  fold SIG_SIZE in Hsk. rewrite Hb, <- length_image in Hsk. rewrite Hsk; [|done|by apply name_no_eq|done|lia|lia].
  clear Hsk. cbn [set_loop]. rewrite (proj2 (Nat.ltb_lt (length (image e1) + length n) _)) by lia.
  rewrite app_assoc in Eb.
  destruct (match_name _ _ _ _ n _ Eb) as (l & c & Hl & Hc & Hm);
    [by apply name_no_eq|by apply name_no_eq|fold (image e1); lia|]. fold (image e1) in *.
  rewrite Hl. cbn [mbind outcome_bind]. rewrite Hc. cbn [mbind outcome_bind]. rewrite Hm, bool_decide_true by done.
  by destruct (replace_value _ _ _ _ _).
Qed.
Lemma set_block size e n v :
  env_ok size e → (length e < ENVBLK_MAX_LINES)%nat → name_ok n →
  envblk_set (block size e) size n v =
  if overruns size e n v then Fault
  else if (length (image (env_put n v e)) <=? size)%nat then Done (0, block size (env_put n v e))
  else Done (-1, block size e).
Proof.
  intros He Hk Hn. unfold overruns. destruct (env_get n e) as [w|] eqn:Eg.
  2: { apply env_get_None in Eg. rewrite env_put_None by done. by apply set_append. }
  destruct (env_get_split n w e Eg) as (e1 & e2 & -> & Hin). rewrite env_put_app by done.
  rewrite set_replace by done. destruct He as [He Hs].
  set (e := e1 ++ (n, w) :: e2) in *. set (e' := e1 ++ (n, v) :: e2). set (z := (size - length (image e))%nat).
  assert (Hi : length (image e) = (length (image e1) + length n + length w + 2 + length (lines e2))%nat).
  { unfold e. rewrite !length_image, lines_app, lines_cons, !length_app, length_line. lia. }
  assert (Hi' : length (image e') = (length (image e1) + length n + length v + 2 + length (lines e2))%nat).
  { unfold e'. rewrite !length_image, lines_app, lines_cons, !length_app, length_line. lia. }
  apply Forall_app in He as [_ He]. inversion_clear He as [|? ? [_ Hw] _]. cbn [snd] in Hw.
  assert (Hf : ∀ u k, image e1 ++ line (n, u) ++ lines e2 ++ zeros k = (image e1 ++ n ++ [EQ]) ++ u ++ NL :: lines e2 ++ zeros k).
  { intros u k. unfold line. cbn [fst snd]. rewrite <- !app_assoc. cbn [app]. by rewrite <- app_assoc. }
  pose proof (block_split size e1 n w e2) as Eb. fold e (image e1) z in Eb. rewrite Hf in Eb.
  pose proof (block_split size e1 n v e2) as Eb'. fold e' (image e1) in Eb'. rewrite Hf in Eb'.
  pose proof (length_block size e Hs) as Hb.
  replace (length (image e)) with (length (block size e) - z)%nat by lia. rewrite <- Hb at 2.
  replace (length (image e1) + length n + 1)%nat with (length (image e1 ++ n ++ [EQ])) by (rewrite !length_app; cbn; lia).
  destruct (Nat.le_gt_cases (length w) (length v)) as [Hv|Hv].
  - rewrite (replace_grow _ w (lines e2) z v _ Eb) by (done || by apply value_no_nl).
    replace (z <? 2 * (length w - length v))%nat with false by (symmetry; apply Nat.ltb_ge; lia).
    destruct (Nat.ltb_spec z (length v - length w)).
    + by rewrite (proj2 (Nat.leb_gt (length (image e')) _)) by lia.
    + rewrite (proj2 (Nat.leb_le (length (image e')) _)) by lia. rewrite Eb'. do 6 f_equal. unfold z. f_equal. lia.
  - rewrite (replace_shrink _ w (lines e2) z v _ Eb) by (done || by apply value_no_nl).
    destruct (z <? _)%nat; [done|].
    rewrite (proj2 (Nat.leb_le (length (image e')) _)) by lia. rewrite Eb'. do 6 f_equal. unfold z. f_equal. lia.
Qed.

(** ** Removing a variable *)

Lemma env_get_length n w e : env_get n e = Some w → (length n + length w + 2 <= length (lines e))%nat.
Proof.
  intros H. destruct (env_get_split n w e H) as (e1 & e2 & -> & _).
  rewrite lines_app, lines_cons, !length_app, length_line. lia.
Qed.

Lemma length_lines e : (2 * length e <= length (lines e))%nat.
Proof.
  induction e as [|[m w] e IH]; [done|]. rewrite lines_cons, length_app, length_line. cbn [length]. lia.
Qed.

Lemma unset_found fuel b pre n w e post :
  b = pre ++ lines ((n, w) :: e) ++ post → entry_ok (n, w) →
  unset_loop (S fuel) b (length pre + length (lines ((n, w) :: e))) (length pre) n =
  Done (0, pre ++ lines e ++ zeros (length (line (n, w))) ++ post).
Proof.
  intros Eb He. rewrite lines_cons, length_app, length_line in *.
  assert (Eb' : b = pre ++ line (n, w) ++ (lines e ++ post)) by (by rewrite Eb, <- app_assoc).
  assert (Hb : length b = (length pre + (length n + length w + 2) + length (lines e) + length post)%nat).
  { rewrite Eb, !length_app, length_line. lia. }
  cbn [unset_loop]. rewrite (proj2 (Nat.leb_le (length pre + length n + 2) _)) by lia.
  destruct (match_name pre n w _ n b Eb') as (l & c & Hl & Hc & Hm); [by apply name_no_eq, He..|lia|].
  rewrite Hl. cbn [mbind outcome_bind]. rewrite Hc. cbn [mbind outcome_bind]. rewrite Hm, bool_decide_true by done.
  assert (Ef : b = (pre ++ n ++ [EQ]) ++ w ++ NL :: (lines e ++ post)).
  { rewrite Eb'. unfold line. cbn [fst snd]. rewrite <- !app_assoc. cbn [app]. by rewrite <- app_assoc. }
  replace (length pre + length n + 1)%nat with (length (pre ++ n ++ [EQ])) by (rewrite !length_app; cbn; lia).
  rewrite Ef at 1. rewrite find_char_found; [|done|by apply value_no_nl, He|rewrite !length_app; cbn; lia].
  cbn [mbind outcome_bind]. rewrite !length_app. cbn [length].
  rewrite (proj2 (Nat.leb_gt _ _)) by lia.
  replace (S (length pre + (length n + 1) + length w - length pre))%nat with (length (line (n, w))) by (rewrite length_line; lia).
  destruct (cut_length (line (n, w) ++ lines e) (length (lines e))) as (x & q & Ex & Hx & Hq); [rewrite length_app; lia|].
  rewrite length_app in Hq.
  rewrite (memmove_app b (pre ++ line (n, w)) (lines e) post pre x (q ++ post)).
  - cbn [mbind outcome_bind]. rewrite app_assoc, put_bytes_app; rewrite ?length_app, ?length_zeros, ?length_line in *; [|lia..].
    cbn [mbind outcome_bind]. by rewrite <- !app_assoc.
  - by rewrite Eb', <- app_assoc.
  - rewrite Eb', (app_assoc (line _)), Ex. by rewrite <- app_assoc.
  - by rewrite length_app.
  - done.
  - rewrite length_line. lia.
  - done.
Qed.

Lemma unset_loop_lines e : ∀ fuel b pre post n,
  b = pre ++ lines e ++ post → Forall entry_ok e → no_eq n → (length e <= fuel)%nat →
  unset_loop fuel b (length pre + length (lines e)) (length pre) n =
  match env_get n e with
  | Some w => Done (0, pre ++ lines (env_del n e) ++ zeros (length (line (n, w))) ++ post)
  | None => Done (-1, b)
  end.
Proof.
  induction e as [|[m w] e IH]; intros fuel b pre post n Eb He Hn Hf.
  { destruct fuel; cbn [unset_loop lines fmap list_fmap concat length env_get];
      by rewrite (proj2 (Nat.leb_gt _ _)) by lia. }
  cbn [length] in Hf. destruct fuel as [|fuel]; [lia|]. inversion_clear He as [|? ? Hme He'].
  cbn [env_get env_del]. destruct (decide (m = n)) as [->|Hne]; [by apply unset_found|].
  cbn [unset_loop]. match goal with |- context [if (?x <=? ?y)%nat then _ else _] => destruct (Nat.leb_spec x y) as [Hl|Hl] end.
  2: { destruct (env_get n e) as [u|] eqn:Eg; [|done]. apply env_get_length in Eg.
       rewrite lines_cons, length_app in Hl. lia. }
  rewrite lines_cons, length_app in *.
  assert (Eb' : b = pre ++ line (m, w) ++ (lines e ++ post)) by (by rewrite Eb, <- app_assoc).
  assert (Hb : length b = (length pre + length (line (m, w)) + length (lines e) + length post)%nat).
  { rewrite Eb, !length_app. lia. }
  destruct (match_name pre m w _ n b Eb') as (l & c & El & Hc & Hm); [by apply name_no_eq, Hme|done|lia|].
  rewrite El. cbn [mbind outcome_bind]. rewrite Hc. cbn [mbind outcome_bind]. rewrite Hm, bool_decide_false by done.
  rewrite (next_line_app pre m w _ b _ Eb' Hme) by lia. cbn [mbind outcome_bind].
  rewrite Nat.add_assoc, <- !(length_app pre).
  rewrite (IH fuel b (pre ++ line (m, w)) post n); [|by rewrite <- app_assoc|done|done|lia].
  destruct (env_get n e); [|done]. rewrite lines_cons. by rewrite <- !app_assoc.
Qed.

Lemma unset_block size e n :
  env_ok size e → no_eq n →
  envblk_unset (block size e) (length (image e)) n =
  if decide (n ∈ e.*1) then Done (0, block size (env_del n e)) else Done (-1, block size e).
Proof.
  intros [He Hs] Hn. unfold envblk_unset. rewrite length_image.
  rewrite (unset_loop_lines e _ _ ZIPL_ENVBLK_SIGNATURE (zeros (size - length (image e))));
    [|unfold block, image; by rewrite <- app_assoc|done|done|pose proof (length_lines e); lia].
  destruct (env_get n e) as [w|] eqn:Eg.
  - destruct (env_get_split n w e Eg) as (e1 & e2 & -> & Hin). rewrite decide_True by (rewrite fmap_app, fmap_cons; apply elem_of_app; right; left).
    rewrite env_del_app by done. do 2 f_equal. unfold block, image. rewrite <- app_assoc. do 2 f_equal.
    rewrite <- zeros_add. f_equal. rewrite !length_app, !lines_app, lines_cons, !length_app.
    revert Hs. rewrite length_image, lines_app, lines_cons, !length_app. fold SIG_SIZE. lia.
  - apply env_get_None in Eg. by rewrite decide_False.
Qed.

(** the length that the editor passes *)
Lemma cstr_block size e : env_ok size e → cstr (block size e) = image e.
Proof.
  intros [He Hs]. unfold block. destruct (size - length (image e))%nat.
  - cbn [zeros replicate]. rewrite app_nil_r. by apply cstr_no_nul, image_no_nul.
  - by apply cstr_app_nul, image_no_nul.
Qed.
End Refinement.

(** a blank block has no variables *)
Lemma create_blank_block memory :
  (SIG_SIZE <= length memory)%nat → envblk_create_blank memory (length memory) = Done (block (length memory) []).
Proof.
  intros H. destruct (cut_length memory SIG_SIZE H) as (m1 & m2 & Em & H1 & H2). unfold envblk_create_blank.
  assert (E1 : put_bytes memory 0 ZIPL_ENVBLK_SIGNATURE = Done (ZIPL_ENVBLK_SIGNATURE ++ m2)) by (rewrite Em; by apply (put_bytes_app [])).
  rewrite E1. cbn [mbind outcome_bind]. unfold envblk_blank.
  rewrite <- (app_nil_r m2), put_bytes_app by (rewrite ?length_zeros; done || lia). rewrite app_nil_r.
  unfold block, image. cbn [lines fmap list_fmap concat]. by rewrite app_nil_r.
Qed.

(** ** Scanning *)

(** NAME=VALUE as a scan hands it out *)
Definition pair_text (e : entry) : list Z := e.1 ++ EQ :: e.2.

(** [actor] for one text after the other, until it returns a value that is not 0 *)
Fixpoint act {A} (actor : list Z → A → outcome (Z * A)) (l : list (list Z)) (a : A) : outcome (Z * A) :=
  match l with
  | [] => Done (0, a)
  | x :: l => '(ret, a) ← actor x a; if negb (ret =? 0) then Done (ret, a) else act actor l a
  end.

Section Scan.
Context {A : Type} (actor : list Z → A → outcome (Z * A)).

Lemma line_pair x : line x = pair_text x ++ [NL].
Proof. unfold line, pair_text. rewrite <- app_assoc. done. Qed.

Lemma scan_lines e : ∀ fuel b pre z stop k a,
  b = pre ++ lines e ++ zeros z → Forall entry_ok e → (k + length e <= S ENVBLK_MAX_LINES)%nat → (length e < fuel)%nat →
  (length pre + length (lines e) <= stop)%nat → (stop <= length b)%nat →
  scan_loop fuel b stop (length pre) k actor a = act actor (pair_text <$> e) a.
Proof.
  induction e as [|[n v] e IH]; intros [|fuel] b pre z stop k a Eb He Hk Hf H1 H2; try (cbn in Hf; lia).
  - cbn [scan_loop fmap list_fmap act]. destruct (Nat.ltb_spec (length pre) stop) as [Hs|]; [|done].
    destruct z as [|z]; [rewrite Eb, !length_app in H2; cbn in H2; lia|].
    rewrite Eb. cbn [lines fmap list_fmap concat]. cbn [app zeros replicate]. by rewrite get_app.
  - rewrite lines_cons, length_app in *. pose proof (length_line n v) as Hl. inversion_clear He as [|? ? [Hn Hv] He'].
    cbn [fst snd] in Hn, Hv. cbn [length] in Hk, Hf.
    cbn [scan_loop]. rewrite (proj2 (Nat.ltb_lt (length pre) stop)) by lia.
    assert (En : b = pre ++ n ++ EQ :: (v ++ NL :: lines e ++ zeros z)).
    { rewrite Eb. unfold line. cbn [fst snd]. rewrite <- !app_assoc. cbn [app]. by rewrite <- !app_assoc. }
    assert (Ev : b = (pre ++ n ++ [EQ]) ++ v ++ NL :: lines e ++ zeros z).
    { rewrite En. rewrite <- !app_assoc. done. }
    assert (Ep : b = pre ++ pair_text (n, v) ++ NL :: lines e ++ zeros z).
    { rewrite En. unfold pair_text. cbn [fst snd]. rewrite <- !app_assoc. done. }
    assert (Eg : ∃ c, get b (length pre) = Done c ∧ c ≠ 0).
    { destruct n as [|c n]; [by destruct Hn|]. exists c. split; [rewrite En; by apply get_app|].
      destruct Hn as [_ Hn]. inversion Hn; naive_solver. }
    destruct Eg as (c & Ec & Hc). rewrite Ec. cbn [mbind outcome_bind]. rewrite (proj2 (Z.eqb_neq c 0)) by done.
    rewrite (proj2 (Nat.ltb_ge ENVBLK_MAX_LINES k)) by lia.
    rewrite En at 1. rewrite find_char_found; [|done|by apply name_no_eq|lia]. cbn [mbind outcome_bind].
    rewrite (proj2 (Nat.eqb_neq _ _)) by lia.
    replace (S (length pre + length n)) with (length (pre ++ n ++ [EQ])) by (rewrite !length_app; cbn; lia).
    assert (Hp : length (pre ++ n ++ [EQ]) = S (length pre + length n)) by (rewrite !length_app; cbn; lia).
    rewrite Ev at 1. rewrite find_char_found; [|done|by apply value_no_nl|lia]. cbn [mbind outcome_bind].
    rewrite (proj2 (Nat.eqb_neq _ _)) by lia.
    assert (Hq : length (pair_text (n, v)) = S (length n + length v)) by (unfold pair_text; rewrite length_app; cbn; lia).
    rewrite Ep at 1. rewrite get_bytes_app by (done || lia). cbn [mbind outcome_bind].
    rewrite cstr_no_nul.
    2: { pose proof (line_no_nul (n, v) (conj Hn Hv)) as Hz. rewrite line_pair in Hz. by apply Forall_app in Hz as [Hz _]. }
    cbn [fmap list_fmap act]. destruct (actor (pair_text (n, v)) a) as [[ret a']|rc| |]; cbn [mbind outcome_bind]; try done.
    destruct (ret =? 0); cbn [negb]; [|done].
    rewrite <- (Nat.add_0_r (length (pre ++ n ++ [EQ]) + length v)). unfold envblk_next_line.
    assert (Ef : b = (pre ++ pair_text (n, v)) ++ [] ++ NL :: lines e ++ zeros z) by (by rewrite Ep, <- app_assoc).
    rewrite Ef at 1. rewrite find_char_found; [|rewrite (length_app pre (pair_text _)); lia|constructor|cbn [length]; lia]. cbn [mbind outcome_bind length].
    replace (S (length (pre ++ n ++ [EQ]) + length v + 0 + 0)) with (length (pre ++ line (n, v))) by (rewrite (length_app pre (line _)); lia).
    apply (IH fuel b (pre ++ line (n, v)) z); rewrite ?length_app; try (done || lia).
    by rewrite Eb, <- !app_assoc.
Qed.

Lemma scan_block size stop e a :
  env_ok size e → (length e <= S ENVBLK_MAX_LINES)%nat → (length (image e) <= stop <= size)%nat →
  envblk_scan (block size e) stop actor a = act actor (pair_text <$> e) a.
Proof.
  intros [He Hs] Hk [H1 H2]. unfold envblk_scan, SIG_SIZE. pose proof (length_lines e). rewrite length_image in *.
  eapply scan_lines; [unfold block, image; by rewrite <- app_assoc|done|lia|lia|fold SIG_SIZE; lia|].
  rewrite length_block; [done|]. by rewrite length_image.
Qed.
End Scan.
