(* ===== verification/EnvblkTables.v ===== *)
(** Hash tables of lines, the import of a text file and the listings of the
    environment block (src/zipl/src/envblk.c).

    A table is the list of its buckets, a bucket the list of its lines from the
    head on.  Lines are C strings without their terminator.  Allocations succeed.
    What is printed is returned. *)
From S2P Require Import Prelude Envblk.
Import Envblk.

Module Tables.

Definition MAX_NR_SITES : Z := 10.
Definition LINE_HASH_SIZE : Z := 16.
(** [strlen("[site X]\n")] *)
Definition KEYWORD_SIZE : nat := 9.

(** ** Extended strings *)

Record estr : Type := Estr { prefix : option Z; str : list Z; hashed_len : nat }.

Definition get_key_len (s : list Z) : outcome nat := deref (strchr s EQ).
Definition get_hashed_len (s : list Z) : outcome nat := n ← get_key_len s; Done (S n).

(** [sum += 5 * *(str++)], [hashed_len] times *)
Definition hash_fn (e : estr) : Z :=
  let sum := match prefix e with Some c => u32 (5 * c) | None => 0 end in
  foldl (λ sum c, u32 (sum + 5 * c)) sum (take (hashed_len e) (str e)) mod LINE_HASH_SIZE.

(** [strncmp(a, b, n) == 0] *)
Definition strncmp_eq (a b : list Z) (n : nat) : bool := bool_decide (take n a = take n b).

(** if [cmp_fn] returns 0 *)
Definition cmp_fn (s : list Z) (e : estr) : bool :=
  match prefix e with
  | None => strncmp_eq s (str e) (hashed_len e)
  | Some c => if negb (headc s =? c) then false else strncmp_eq (drop 1 s) (str e) (hashed_len e)
  end.

(** ** Tables *)

Notation table := (list (list (list Z))).
Definition empty_table : table := replicate (Z.to_nat LINE_HASH_SIZE) [].

(** the text of an entry *)
Definition entry_line (e : estr) : list Z :=
  match prefix e with Some c => c :: str e | None => str e end.

Definition bucket (t : table) (e : estr) : list (list Z) := t !!! Z.to_nat (hash_fn e).
Definition set_bucket (t : table) (e : estr) (b : list (list Z)) : table := <[Z.to_nat (hash_fn e) := b]> t.

Definition hash_table_add (t : table) (e : estr) : table := set_bucket t e (entry_line e :: bucket t e).

Fixpoint find_item (b : list (list Z)) (e : estr) : option (list Z) :=
  match b with
  | [] => None
  | x :: b => if cmp_fn x e then Some x else find_item b e
  end.
(** [None] for a table that was not allocated *)
Definition hash_table_find (t : option table) (e : estr) : option (list Z) :=
  match t with None => None | Some t => find_item (bucket t e) e end.

(** the entry that was found gets another line *)
Fixpoint replace_item (b : list (list Z)) (e : estr) : list (list Z) :=
  match b with
  | [] => []
  | x :: b => if cmp_fn x e then entry_line e :: b else x :: replace_item b e
  end.
Definition hash_entry_replace (t : table) (item : list Z) (e : estr) (offset : Z) : Z * table * Z :=
  (1, set_bucket t e (replace_item (bucket t e) e), offset - Z.of_nat (length item) + Z.of_nat (length (entry_line e))).

Section TableScan.
Context {A : Type} (actor : list Z → A → outcome (Z * A)).

Fixpoint bucket_scan (b : list (list Z)) (a : A) : outcome (Z * A) :=
  match b with
  | [] => Done (0, a)
  | x :: b => '(ret, a) ← actor x a; if negb (ret =? 0) then Done (ret, a) else bucket_scan b a
  end.
Fixpoint table_scan (t : table) (a : A) : outcome (Z * A) :=
  match t with
  | [] => Done (0, a)
  | b :: t => '(ret, a) ← bucket_scan b a; if negb (ret =? 0) then Done (ret, a) else table_scan t a
  end.
Definition hash_table_scan (t : option table) (a : A) : outcome (Z * A) :=
  match t with None => Done (0, a) | Some t => table_scan t a end.
End TableScan.

Fixpoint flush_bucket (b : list (list Z)) (dst : list Z) (off : nat) : outcome (list Z * nat) :=
  match b with
  | [] => Done (dst, off)
  | x :: b =>
      dst ← put_bytes dst off x;
      let off := (off + length x)%nat in
      c ← get dst (off - 1);
      '(dst, off) ← (if negb (c =? NL) then dst ← put_bytes dst off [NL]; Done (dst, S off) else Done (dst, off));
      flush_bucket b dst off
  end.
Fixpoint hash_table_flush (t : table) (dst : list Z) (off : nat) : outcome (list Z) :=
  match t with
  | [] => Done dst
  | b :: t => '(dst, off) ← flush_bucket b dst off; hash_table_flush t dst off
  end.

(** ** Import *)

Inductive keyword_status : Type := KW_UNKNOWN | KW_VALID (site_id : Z) | KW_MALFORMED | KW_UNSUPP_ID.

Fixpoint tail_loop (tail : list Z) : bool :=
  match tail with
  | [] => false
  | c :: tail =>
      if c =? 35 then true
      else if (c =? 9) || (c =? 32) then
        if headc tail =? NL then false else tail_loop tail
      else false
  end.
Definition ignore_tail (tail : list Z) : bool := if headc tail =? NL then true else tail_loop tail.

Fixpoint count_while (f : Z → bool) (l : list Z) : nat :=
  match l with
  | [] => 0
  | c :: l => if f c then S (count_while f l) else 0
  end.
(** how many characters [strtol] takes, 0 if there is no number *)
Definition strtol_len (s : list Z) : nat :=
  let s := cstr s in
  let blanks := count_while isspace s in
  let sign := match drop blanks s with c :: _ => if (c =? 45) || (c =? 43) then 1%nat else 0%nat | [] => 0%nat end in
  let digits := count_while isdigit (drop (blanks + sign) s) in
  if (digits =? 0)%nat then 0%nat else (blanks + sign + digits)%nat.

(** [line[0] == '[' && (line[1] == 's' || line[1] == 'S') ...] *)
Definition is_site_keyword (line : list Z) : bool := bool_decide (tolower <$> take 5 line = bytes_of_string "[site").

Definition check_keyword (line : list Z) : keyword_status :=
  let len := length line in
  if (len <? KEYWORD_SIZE - 1)%nat || negb (line !!! (len - 1)%nat =? NL) then KW_UNKNOWN
  else if is_site_keyword line then
    if negb (line !!! 5%nat =? 32) then KW_MALFORMED
    else
      let s := drop 6 line in
      let val := fst (strtol s) in
      let n := strtol_len s in
      if (n =? 0)%nat then KW_MALFORMED
      else if val <? 0 then KW_UNSUPP_ID
      else if headc (drop n s) =? 93 then
        if (headc s =? 48) && (1 <? n)%nat then KW_UNSUPP_ID
        else if negb (ignore_tail (drop (S n) s)) then KW_MALFORMED
        else if val <? MAX_NR_SITES then KW_VALID (headc s) else KW_UNSUPP_ID
      else KW_MALFORMED
  else KW_UNKNOWN.

(** the result, the table and the offset *)
Definition import_one_line (this : list Z) (t : table) (offset : Z) (ns_id : option Z) : Z * table * Z :=
  if headc this =? 35 then (1, t, offset)
  else
    match strchr this EQ with
    | None | Some O => (1, t, offset)
    | Some p =>
        if negb (envblk_check_name (take p this) =? 0) then (- EINVAL, t, offset)
        else
          let e := {| prefix := ns_id; str := this; hashed_len := S p |} in
          match hash_table_find (Some t) e with
          | Some item => hash_entry_replace t item e offset
          | None => (0, hash_table_add t e, offset)
          end
    end.

(** [getline] until the end of the file *)
Fixpoint getlines (acc : list Z) (s : list Z) : list (list Z) :=
  match s with
  | [] => match acc with [] => [] | _ => [acc] end
  | c :: s => if c =? NL then (acc ++ [c]) :: getlines [] s else getlines (acc ++ [c]) s
  end.

Record import_state : Type := ImportState { imp_table : table; imp_offset : Z; imp_lines : nat; imp_site : option Z }.

(** the result and the table to be written, if any *)
Fixpoint import_loop (l : list (list Z)) (envblk_size : Z) (st : import_state) : Z * option table :=
  match l with
  | [] => (0, Some (imp_table st))
  | line :: l =>
      let read := Z.of_nat (length line) in
      if envblk_size - imp_offset st <? read then (- EINVAL, Some (imp_table st))
      else if read <? 2 then import_loop l envblk_size st
      else
        match check_keyword line with
        | KW_VALID site_id =>
            import_loop l envblk_size (ImportState (imp_table st) (imp_offset st) (imp_lines st) (if site_id =? 0 then None else Some site_id))
        | KW_MALFORMED | KW_UNSUPP_ID => (- EINVAL, None)
        | KW_UNKNOWN =>
            if negb (line !!! (length line - 1)%nat =? NL) && (read =? envblk_size - imp_offset st) then (- EINVAL, Some (imp_table st))
            else
              let '(ret, t, offset) := import_one_line (cstr line) (imp_table st) (imp_offset st) (imp_site st) in
              if ret <? 0 then (ret, Some t)
              else if 0 <? ret then import_loop l envblk_size (ImportState t offset (imp_lines st) (imp_site st))
              else if (ENVBLK_MAX_LINES <=? imp_lines st)%nat then (- EINVAL, Some t)
              else import_loop l envblk_size (ImportState t (offset + read) (S (imp_lines st)) (imp_site st))
        end
  end.

(** [from_file] is [None] if the file cannot be opened *)
Definition envblk_import (from_file : option (list Z)) (to_buf : list Z) (envblk_size : Z) : outcome (Z * list Z) :=
  match from_file with
  | None => Done (0, to_buf)
  | Some text =>
      let '(ret, t) := import_loop (getlines [] text) envblk_size (ImportState empty_table (Z.of_nat SIG_SIZE) 0 None) in
      match t with
      | Some t => to_buf ← hash_table_flush t to_buf SIG_SIZE; Done (ret, to_buf)
      | None => Done (ret, to_buf)
      end
  end.

(** The environment block of a boot job: [size] is [None] if the directory of the boot
    map cannot be opened or its block size is not known, [memory] is what [malloc] returns. *)
Definition get_job_envblk_data (is_ipl_job : bool) (size : option nat) (memory : list Z) (import_file : option (list Z))
    : outcome (Z * option (list Z)) :=
  if negb is_ipl_job then Done (0, None)
  else
    match size with
    | None => Done (-1, None)
    | Some size =>
        buf ← envblk_create_blank memory size;
        '(ret, buf) ← envblk_import import_file buf (Z.of_nat size);
        if negb (ret =? 0) then Done (-1, None) else Done (0, Some buf)
    end.

(** ** Listings *)

(** the tables of the sites and, as the last one, the table of the common names *)
Notation tables := (list (option table)).
Definition no_tables : tables := replicate (Z.to_nat (MAX_NR_SITES + 1)) None.

Definition add_line_namespace (this : list Z) (ts : tables) : outcome (Z * tables) :=
  let n := strtol_len this in
  let val := if (n =? 0)%nat then MAX_NR_SITES else s32 (fst (strtol this)) in
  if negb (n =? 0)%nat && ((val <? 0) || (MAX_NR_SITES <=? val)) then Done (- EINVAL, ts)
  else
    let t := default empty_table (ts !!! Z.to_nat val) in
    let s := drop n this in
    len ← get_hashed_len s;
    Done (0, <[Z.to_nat val := Some (hash_table_add t (Estr None s len))]> ts).

Definition indent_by_size (size : Z) : list Z := if size =? 1 then [32; 32] else if size =? 2 then [32; 32; 32; 32] else [].

Definition hash_table_print_line (indent : Z) (line : list Z) (out : list Z) : outcome (Z * list Z) :=
  Done (0, out ++ indent_by_size indent ++ line ++ [NL]).

Definition hash_table_print_line_cond (t : option table) (indent : Z) (line : list Z) (out : list Z) : outcome (Z * list Z) :=
  len ← get_hashed_len line;
  match hash_table_find t (Estr None line len) with
  | None => hash_table_print_line indent line out
  | Some _ => Done (0, out)
  end.

Definition print_namespace (t : option table) (title : list Z) (indent : Z) (out : list Z) : outcome (list Z) :=
  match t with
  | None => Done out
  | Some _ =>
      '(_, out) ← hash_table_scan (hash_table_print_line (indent + 1)) t (out ++ indent_by_size indent ++ title);
      Done out
  end.

(** ["Site %d:\n"] of a digit *)
Definition site_title (i : nat) : list Z := bytes_of_string "Site " ++ [48 + Z.of_nat i; 58; NL].

Fixpoint print_sites (ts : tables) (i : nat) (indent : Z) (out : list Z) : outcome (list Z) :=
  match ts with
  | [] | [_] => Done out
  | t :: ts => out ← print_namespace t (site_title i) indent out; print_sites ts (S i) indent out
  end.

Definition common_table (ts : tables) : option table := ts !!! Z.to_nat MAX_NR_SITES.
Definition nr_sites (ts : tables) : nat := length (filter is_Some (take (Z.to_nat MAX_NR_SITES) ts)).

(** the result and what is printed *)
Definition envblk_list_all (envblk : list Z) (envblk_size : nat) (indent : Z) : outcome (Z * list Z) :=
  '(ret, ts) ← envblk_scan envblk envblk_size add_line_namespace no_tables;
  if negb (ret =? 0) then Done (ret, [])
  else
    let sites := negb (nr_sites ts =? 0)%nat in
    out ← print_namespace (common_table ts) (if sites then bytes_of_string "Common variables:" ++ [NL] else [])
            (if sites then indent else indent - 1) [];
    out ← print_sites ts 0 indent out;
    Done (0, out).

Definition envblk_list_effective_site (envblk : list Z) (envblk_size : nat) (site_id : nat) : outcome (Z * list Z) :=
  '(ret, ts) ← envblk_scan envblk envblk_size add_line_namespace no_tables;
  if negb (ret =? 0) then Done (ret, [])
  else
    '(_, out) ← hash_table_scan (hash_table_print_line_cond (ts !!! site_id) 0) (common_table ts) [];
    '(_, out) ← hash_table_scan (hash_table_print_line 0) (ts !!! site_id) out;
    Done (0, out).

Definition envblk_list_site (envblk : list Z) (envblk_size : nat) (site_id : nat) : outcome (Z * list Z) :=
  '(ret, ts) ← envblk_scan envblk envblk_size add_line_namespace no_tables;
  if negb (ret =? 0) then Done (ret, [])
  else
    '(_, out) ← hash_table_scan (hash_table_print_line 0) (ts !!! site_id) [];
    Done (0, out).

Definition envblk_print (envblk : list Z) (envblk_size : nat) : outcome (list Z) :=
  '(_, out) ← envblk_list_all envblk envblk_size 1;
  Done (bytes_of_string "zIPL environment block content:" ++ [NL] ++ out).

(** ** Removing a site *)

Definition strnlen (b : list Z) (maxlen : nat) : nat := length (cstr (take maxlen b)).

Definition remove_name_value (site_id : list Z) (envblk_len : nat) (line : list Z) (envblk : list Z) : outcome (Z * list Z) :=
  len ← get_key_len line;
  envblk_unset envblk (strnlen envblk envblk_len) (headc site_id :: take len line).

Definition envblk_remove_namespace (envblk : list Z) (envblk_size : nat) (site_id : list Z) : outcome (Z * list Z) :=
  '(ret, ts) ← envblk_scan envblk envblk_size add_line_namespace no_tables;
  if negb (ret =? 0) then Done (ret, envblk)
  else
    t ← deref (ts !! Z.to_nat (atoi site_id));
    hash_table_scan (remove_name_value site_id envblk_size) t envblk.

End Tables.
