(* ===== verification/EnvblkTablesProofs.v ===== *)
(** The tables of [EnvblkTables] hold variables: what is added can be found by its
    name, and a scan sees every variable once. *)
From stdpp Require Import sets.
From S2P Require Import Prelude Envblk EnvblkSpec EnvblkTables.
Import Envblk Tables.

(** ** Strings *)

Section Strings.
Implicit Types (n v s : list Z).

Lemma find_sub_char c n v : Forall (.≠ c) n → find_sub [c] (n ++ c :: v) = Some (length n).
Proof.
  induction 1 as [|x n Hx _ IH]; cbn.
  - by rewrite Z.eqb_refl.
  - rewrite (proj2 (Z.eqb_neq c x)) by done. cbn. by rewrite IH.
Qed.

Lemma strchr_eq n v : no_eq n → Forall (.≠ 0) n → strchr (n ++ EQ :: v) EQ = Some (length n).
Proof.
  intros H1 H0. unfold strchr. replace (cstr (n ++ EQ :: v)) with (n ++ EQ :: cstr v); [by apply find_sub_char|].
  induction H0 as [|x n Hx _ IH]; cbn; [done|]. rewrite (proj2 (Z.eqb_neq x 0)) by done.
  f_equal. apply IH. by inversion H1.
Qed.

Lemma hashed_len_eq n v : no_eq n → Forall (.≠ 0) n → get_hashed_len (n ++ EQ :: v) = Done (S (length n)).
Proof. intros. unfold get_hashed_len, get_key_len. by rewrite strchr_eq. Qed.

(** the key of a name with the prefix of a site *)
Definition pname (p : option Z) (n : list Z) : list Z := match p with Some c => c :: n | None => n end.
Definition khash (k : list Z) : Z := foldl (λ sum c, u32 (sum + 5 * c)) 0 (k ++ [EQ]) mod LINE_HASH_SIZE.

Lemma take_key n v : take (S (length n)) (n ++ EQ :: v) = n ++ [EQ].
Proof. rewrite cons_middle, app_assoc, take_app_le by (rewrite length_app; cbn; lia). apply take_ge. rewrite length_app. cbn. lia. Qed.

Lemma hash_fn_key p n v : hash_fn (Estr p (n ++ EQ :: v) (S (length n))) = khash (pname p n).
Proof. unfold hash_fn, khash. cbn [prefix str hashed_len]. rewrite take_key. by destruct p. Qed.

Lemma entry_line_key p n v : entry_line (Estr p (n ++ EQ :: v) (S (length n))) = pname p n ++ EQ :: v.
Proof. by destruct p. Qed.

Lemma take_key_inj k u n : no_eq k → no_eq n → take (S (length n)) (k ++ EQ :: u) = n ++ [EQ] → k = n.
Proof.
  intros Hk Hn E. apply (before_char EQ k n u (drop (S (length n)) (k ++ EQ :: u))); [done|done|].
  rewrite <- (take_drop (S (length n)) (k ++ EQ :: u)) at 1. rewrite E, <- app_assoc. done.
Qed.

(** the comparison of the code compares the keys *)
Lemma cmp_fn_key k u p n v :
  no_eq k → no_eq (pname p n) →
  cmp_fn (k ++ EQ :: u) (Estr p (n ++ EQ :: v) (S (length n))) = bool_decide (k = pname p n).
Proof.
  intros Hk Hn. unfold cmp_fn, strncmp_eq. cbn [prefix str hashed_len]. rewrite take_key. destruct p as [c|]; cbn [pname] in *.
  - inversion_clear Hn as [|? ? Hc Hn']. destruct k as [|x k]; cbn [app headc drop].
    + rewrite (proj2 (Z.eqb_neq EQ c)) by congruence. cbn. by rewrite bool_decide_false.
    + inversion_clear Hk as [|? ? Hx Hk']. destruct (Z.eqb_spec x c) as [->|Hne]; cbn [negb].
      * rewrite drop_0. apply bool_decide_ext. split; [|intros [= ->]; apply take_key].
        intros E. f_equal. by eapply take_key_inj.
      * rewrite bool_decide_false; congruence.
  - apply bool_decide_ext. split; [by apply take_key_inj|]. intros ->. apply take_key.
Qed.

Lemma khash_range k : (Z.to_nat (khash k) < 16)%nat.
Proof. unfold khash, LINE_HASH_SIZE. pose proof (Z.mod_pos_bound (foldl (λ sum c, u32 (sum + 5 * c)) 0 (k ++ [EQ])) 16). lia. Qed.
End Strings.

(** ** Scans *)

Lemma act_app {A} (actor : list Z → A → outcome (Z * A)) l1 l2 a :
  act actor (l1 ++ l2) a = '(ret, a) ← act actor l1 a; if negb (ret =? 0) then Done (ret, a) else act actor l2 a.
Proof.
  revert a. induction l1 as [|x l1 IH]; intros a; [done|]. cbn [app act].
  destruct (actor x a) as [[ret a']|rc| |]; cbn [mbind outcome_bind]; try done.
  destruct (ret =? 0) eqn:E; cbn [negb]; [apply IH|]. cbn [mbind outcome_bind]. by rewrite E.
Qed.

Lemma bucket_scan_act {A} (actor : list Z → A → outcome (Z * A)) b a : bucket_scan actor b a = act actor b a.
Proof. revert a. induction b as [|x b IH]; intros a; [done|]. cbn. destruct (actor x a) as [[ret a']| | |]; cbn; try done. by destruct (ret =? 0); cbn. Qed.

Lemma table_scan_act {A} (actor : list Z → A → outcome (Z * A)) t a : hash_table_scan actor (Some t) a = act actor (concat t) a.
Proof.
  cbn. revert a. induction t as [|b t IH]; intros a; [done|]. cbn [table_scan concat]. rewrite act_app, bucket_scan_act.
  destruct (act actor b a) as [[ret a']| | |]; cbn; try done. by destruct (ret =? 0); cbn.
Qed.

(** ** Tables of variables *)

Section Holds.
(** how the value of a variable is kept: with or without a new line behind it *)
Context (g : list Z → list Z).
Definition entry_text (a : entry) : list Z := a.1 ++ EQ :: g a.2.

Record holds (t : table) (E : env) : Prop := Holds {
  holds_size : length t = 16%nat;
  holds_hash : ∀ i b x, t !! i = Some b → x ∈ b → ∃ a, x = entry_text a ∧ no_eq a.1 ∧ Z.to_nat (khash a.1) = i;
  holds_all : concat t ≡ₚ entry_text <$> E;
}.

Implicit Types (t : table) (E : env) (k v n : list Z) (p : option Z).

Lemma holds_empty : holds empty_table [].
Proof.
  split; [done| |done]. intros i b x Hb Hx. apply lookup_replicate in Hb as [-> _]. by apply not_elem_of_nil in Hx.
Qed.

Lemma concat_insert (t : list (list (list Z))) i b b' :
  t !! i = Some b → ∃ l, concat t ≡ₚ b ++ l ∧ concat (<[i := b']> t) ≡ₚ b' ++ l.
Proof.
  intros H. exists (concat (take i t) ++ concat (drop (S i) t)).
  assert (Hi : (i < length t)%nat) by (by apply lookup_lt_Some in H).
  rewrite insert_take_drop by done. rewrite <- (take_drop_middle t i b H) at 1.
  rewrite !concat_app. cbn [concat]. split; by rewrite (Permutation_app_comm (concat (take i t))), <- !app_assoc, (Permutation_app_comm (concat (drop (S i) t))).
Qed.

Lemma bucket_lookup t E p n v : holds t E → t !! Z.to_nat (khash (pname p n)) = Some (bucket t (Estr p (n ++ EQ :: v) (S (length n)))).
Proof.
  intros Ht. unfold bucket. rewrite hash_fn_key. apply list_lookup_lookup_total_lt. rewrite (holds_size _ _ Ht). apply khash_range.
Qed.

Lemma holds_add t E p n v :
  holds t E → no_eq (pname p n) → holds (hash_table_add t (Estr p (n ++ EQ :: g v) (S (length n)))) ((pname p n, v) :: E).
Proof.
  intros Ht Hn. pose proof (bucket_lookup t E p n (g v) Ht) as Hb. set (e := Estr p _ _) in *.
  unfold hash_table_add, set_bucket. rewrite (hash_fn_key p n (g v) : hash_fn e = _), (entry_line_key p n (g v) : entry_line e = _).
  split.
  - rewrite length_insert. apply Ht.
  - intros i b x Hi Hx. apply list_lookup_insert_Some in Hi as [(<- & <- & _)|[_ Hi]]; [|by eapply holds_hash].
    apply elem_of_cons in Hx as [->|Hx]; [by exists (pname p n, v)|]. by eapply holds_hash.
  - destruct (concat_insert t _ _ ((pname p n ++ EQ :: g v) :: bucket t e) Hb) as (l & H1 & H2).
    rewrite H2. cbn [app fmap list_fmap]. apply Permutation_cons; [done|]. rewrite <- H1. apply Ht.
Qed.

Lemma find_item_None b e : find_item b e = None ↔ ∀ x, x ∈ b → cmp_fn x e = false.
Proof.
  induction b as [|x b IH]; cbn; [split; [intros _ x Hx; by apply not_elem_of_nil in Hx|done]|].
  destruct (cmp_fn x e) eqn:Ex; split.
  - done.
  - intros H. rewrite H in Ex; [done|left].
  - intros H y [->|Hy]%elem_of_cons; [done|]. by apply IH.
  - intros H. apply IH. intros y Hy. apply H. by right.
Qed.

Lemma find_item_Some b e x :
  find_item b e = Some x → cmp_fn x e = true ∧ ∃ b1 b2, b = b1 ++ x :: b2 ∧ replace_item b e = b1 ++ entry_line e :: b2.
Proof.
  induction b as [|y b IH]; cbn; [done|]. destruct (cmp_fn y e) eqn:Ey.
  - intros [= ->]. split; [done|]. by exists [], b.
  - intros H. destruct (IH H) as (Hx & b1 & b2 & -> & ->). split; [done|]. by exists (y :: b1), b2.
Qed.

(** the lookup finds a variable of that name, if there is one *)
Lemma holds_find t E p n v :
  holds t E → no_eq (pname p n) → 
  let e := Estr p (n ++ EQ :: v) (S (length n)) in
  match hash_table_find (Some t) e with
  | Some x => ∃ w, x = entry_text (pname p n, w) ∧ x ∈ entry_text <$> E
  | None => ∀ a, entry_text a ∈ entry_text <$> E → no_eq a.1 → a.1 ≠ pname p n
  end.
Proof.
  intros Ht Hn e. pose proof (bucket_lookup t E p n v Ht) as Hb. fold e in Hb.
  cbn [hash_table_find]. destruct (find_item (bucket t e) e) as [x|] eqn:Ef.
  - apply find_item_Some in Ef as (Hx & b1 & b2 & Eb & _).
    assert (Hin : x ∈ bucket t e) by (rewrite Eb; set_solver).
    destruct (holds_hash t E Ht _ _ _ Hb Hin) as (a & -> & Ha & _).
    unfold e, entry_text in Hx. rewrite cmp_fn_key in Hx by done. apply bool_decide_eq_true in Hx. destruct a as [k w]. cbn in Hx. subst k.
    exists w. split; [done|]. rewrite <- (holds_all t E Ht). apply list_elem_of_In, in_concat.
    eexists. split; apply list_elem_of_In; [|exact Hin]. by eapply list_elem_of_lookup_2.
  - intros a Ha Hna Heq. rewrite find_item_None in Ef. rewrite <- (holds_all t E Ht) in Ha.
    apply list_elem_of_In, in_concat in Ha as (b & Hbt & Hab). apply list_elem_of_In in Hbt, Hab.
    apply list_elem_of_lookup in Hbt as [i Hi]. destruct (holds_hash t E Ht _ _ _ Hi Hab) as (a' & Ea & Hna' & Hk).
    assert (Hka : a'.1 = a.1) by (by eapply (before_char EQ); [| |symmetry; exact Ea]).
    rewrite Hka, Heq in Hk. subst i. rewrite Hb in Hi. injection Hi as <-. specialize (Ef _ Hab).
    unfold e, entry_text in Ef. rewrite cmp_fn_key in Ef by done. by apply bool_decide_eq_false in Ef.
Qed.
End Holds.

(** A table without two variables of the same name, as the import fills it. *)
Definition names_ok (E : env) : Prop := Forall (λ a : entry, no_eq a.1) E ∧ NoDup E.*1.

Lemma env_get_elem k w (E : env) : NoDup E.*1 → (k, w) ∈ E → env_get k E = Some w.
Proof.
  induction E as [|[m u] E IH]; intros Hd Hin; [by apply not_elem_of_nil in Hin|].
  cbn in Hd. apply NoDup_cons in Hd as [Hm Hd]. cbn. apply elem_of_cons in Hin as [[= -> ->]|Hin]; [by rewrite decide_True|].
  rewrite decide_False; [by apply IH|]. intros ->. apply Hm. apply list_elem_of_fmap. by exists (k, w).
Qed.

Lemma names_ok_put k v (E : env) : names_ok E → no_eq k → names_ok (env_put k v E).
Proof.
  intros [HE Hd] Hk. destruct (env_get k E) as [w|] eqn:Eg.
  - destruct (env_get_split k w E Eg) as (e1 & e2 & -> & Hin). rewrite env_put_app by done. split.
    + apply Forall_app in HE as [H1 H2]. inversion_clear H2. apply Forall_app. split; [done|]. by constructor.
    + rewrite fmap_app in *. exact Hd.
  - apply env_get_None in Eg. rewrite env_put_None by done. split; [apply Forall_app; by repeat constructor|].
    rewrite fmap_app. apply NoDup_app. split_and!; [done|set_solver|cbn; apply NoDup_singleton].
Qed.

Lemma holds_perm g t E E' : holds g t E → E ≡ₚ E' → holds g t E'.
Proof. intros [H1 H2 H3] HE. split; [done|done|]. by rewrite H3, HE. Qed.

Section Replace.
Context (g : list Z → list Z) (g_inj : ∀ v w, g v = g w → v = w).
Implicit Types (t : table) (E : env) (k v w n : list Z) (p : option Z).

Lemma entry_text_inj a b : no_eq a.1 → no_eq b.1 → entry_text g a = entry_text g b → a = b.
Proof using g_inj.
  destruct a as [k v], b as [n w]. unfold entry_text. cbn. intros Hk Hn E.
  assert (k = n) as <- by (by eapply (before_char EQ)). apply app_inj_1 in E as [_ [= E]]; [|done]. f_equal. by apply g_inj.
Qed.

Lemma holds_lookup t E p n v :
  holds g t E → names_ok E → no_eq (pname p n) →
  hash_table_find (Some t) (Estr p (n ++ EQ :: v) (S (length n))) = (λ w, entry_text g (pname p n, w)) <$> env_get (pname p n) E.
Proof using g_inj.
  intros Ht [HE Hd] Hn. pose proof (holds_find g t E p n v Ht Hn) as Hf. cbn zeta in Hf.
  destruct (hash_table_find _ _) as [x|].
  - destruct Hf as (w & -> & Hin). apply list_elem_of_fmap in Hin as (a & Ea & Ha).
    rewrite Forall_forall in HE. apply entry_text_inj in Ea as <-; [|done|by apply HE].
    by rewrite (env_get_elem _ _ _ Hd Ha).
  - replace (env_get (pname p n) E) with (@None (list Z)); [done|]. symmetry. apply env_get_None.
    intros Hin. apply list_elem_of_fmap in Hin as (a & Ea & Ha). rewrite Forall_forall in HE.
    apply (Hf a); [|by apply HE|done]. apply list_elem_of_fmap. by exists a.
Qed.

Lemma holds_replace t E p n v w :
  holds g t E → names_ok E → no_eq (pname p n) → env_get (pname p n) E = Some w →
  let e := Estr p (n ++ EQ :: g v) (S (length n)) in
  holds g (set_bucket t e (replace_item (bucket t e) e)) (env_put (pname p n) v E).
Proof using g_inj.
  intros Ht HE Hn Hg e. pose proof (holds_lookup t E p n (g v) Ht HE Hn) as Hf. rewrite Hg in Hf. cbn in Hf.
  pose proof (bucket_lookup g t E p n (g v) Ht) as Hb. fold e in Hb, Hf.
  apply find_item_Some in Hf as (_ & b1 & b2 & Eb & Er). rewrite Er.
  assert (Hin : entry_text g (pname p n, v) = entry_line e) by (unfold e; by rewrite entry_line_key).
  unfold set_bucket. rewrite (hash_fn_key p n (g v) : hash_fn e = _). rewrite <- Hin. split.
  - rewrite length_insert. apply Ht.
  - intros i b x Hi Hx. apply list_lookup_insert_Some in Hi as [(<- & <- & _)|[_ Hi]]; [|by eapply holds_hash].
    apply elem_of_app in Hx as [Hx|Hx]; [eapply holds_hash; [done|exact Hb|]; rewrite Eb; set_solver|].
    apply elem_of_cons in Hx as [->|Hx]; [by eexists|]. eapply holds_hash; [done|exact Hb|]; rewrite Eb; set_solver.
  - destruct (concat_insert t _ _ (b1 ++ entry_text g (pname p n, v) :: b2) Hb) as (l & H1 & H2).
    destruct (env_get_split _ _ _ Hg) as (e1 & e2 & -> & He). rewrite env_put_app by done. rewrite H2.
    assert (HP : ∀ y, (b1 ++ y :: b2) ++ l ≡ₚ y :: (b1 ++ b2) ++ l).
    { intros y. by rewrite <- Permutation_middle. }
    assert (HQ : ∀ a : entry, entry_text g <$> e1 ++ a :: e2 ≡ₚ entry_text g a :: (entry_text g <$> e1 ++ e2)).
    { intros a. by rewrite <- Permutation_middle. }
    rewrite HP, HQ. apply Permutation_cons; [done|]. pose proof (holds_all g t _ Ht) as Ha.
    rewrite H1, Eb, HP, HQ in Ha. by apply Permutation_cons_inv in Ha.
Qed.

End Replace.

(** ** Writing a table to the block *)

Section Flush.
Implicit Types (b : list (list Z)) (pre post : list Z).

(** every line ends with a new line *)
Definition ends_nl (x : list Z) : Prop := ∃ y, x = y ++ [NL].

Lemma flush_bucket_app b : ∀ pre mid post,
  Forall ends_nl b → length mid = length (concat b) →
  flush_bucket b (pre ++ mid ++ post) (length pre) = Done (pre ++ concat b ++ post, (length pre + length mid)%nat).
Proof.
  induction b as [|x b IH]; intros pre mid post Hb Hl.
  { destruct mid; [|done]. cbn. by rewrite Nat.add_0_r. }
  inversion_clear Hb as [|? ? [y ->] Hb']. cbn [concat] in *. rewrite length_app in Hl.
  destruct (cut_length mid (length (y ++ [NL]))) as (m1 & m2 & -> & H1 & H2); [lia|].
  cbn [flush_bucket]. rewrite <- app_assoc, put_bytes_app by done. cbn [mbind outcome_bind].
  rewrite <- (app_assoc y), app_assoc.
  rewrite (length_app y). cbn [length]. replace (length pre + (length y + 1) - 1)%nat with (length (pre ++ y)) by (rewrite length_app; lia).
  cbn [app]. rewrite get_app by done. cbn [mbind outcome_bind]. rewrite Z.eqb_refl. cbn [negb mbind outcome_bind].
  replace (length pre + (length y + 1))%nat with (length (pre ++ y ++ [NL])) by (rewrite !length_app; cbn; lia).
  replace ((pre ++ y) ++ NL :: m2 ++ post) with ((pre ++ y ++ [NL]) ++ m2 ++ post) by (rewrite <- !app_assoc; done).
  rewrite IH; [|done|rewrite length_app in *; cbn in *; lia].
  do 2 f_equal; [by rewrite <- !app_assoc|]. rewrite !length_app in *. cbn in *. lia.
Qed.

Lemma flush_app (t : list (list (list Z))) : ∀ pre mid post,
  Forall ends_nl (concat t) → length mid = length (concat (concat t)) →
  hash_table_flush t (pre ++ mid ++ post) (length pre) = Done (pre ++ concat (concat t) ++ post).
Proof.
  induction t as [|b t IH]; intros pre mid post Ht Hl; cbn [concat] in *.
  { by destruct mid. }
  rewrite concat_app, length_app in *. apply Forall_app in Ht as [Hb Ht].
  destruct (cut_length mid (length (concat b))) as (m1 & m2 & -> & H1 & H2); [lia|].
  cbn [hash_table_flush]. rewrite <- app_assoc, flush_bucket_app by done. cbn [mbind outcome_bind].
  rewrite H1, <- length_app, app_assoc. rewrite IH; [by rewrite <- !app_assoc|done|rewrite length_app in *; lia].
Qed.
End Flush.
