(* ===== verification/EnvblkImport.v ===== *)
(** The import of an environment file: the block gets the variables that the file
    assigns, the last assignment of a name within a site counts. *)
From stdpp Require Import sets.
From S2P Require Import Prelude Envblk EnvblkSpec EnvblkTables EnvblkTablesProofs.

Import Envblk Tables.

(** ** Files *)

(** a line of a file *)
Inductive item : Type :=
  | Comment (c : list Z)
  | Blank
  | Site (d : Z)
  | Assign (n v : list Z).

Definition render (i : item) : list Z :=
  match i with
  | Comment c => 35 :: c ++ [NL]
  | Blank => [NL]
  | Site d => bytes_of_string "[site " ++ [d; 93; NL]
  | Assign n v => line (n, v)
  end.
Definition render_all (l : list item) : list Z := concat (render <$> l).

Definition item_ok (i : item) : Prop :=
  match i with
  | Comment c => Forall (λ x, x ≠ 0 ∧ x ≠ NL) c
  | Blank => True
  | Site d => isdigit d = true
  | Assign n v => envblk_check_name n = 0 ∧ value_ok v
  end.

(** what the file assigns, behind a line that opens the site [site] *)
Fixpoint assigned (l : list item) (site : option Z) (e : env) : env :=
  match l with
  | [] => e
  | Site d :: l => assigned l (Some d) e
  | Assign n v :: l => assigned l site (env_put (pname site n) v e)
  | _ :: l => assigned l site e
  end.

Section Names.
Lemma name_start_char c : name_start c = true → name_char c = true.
Proof. unfold name_start, name_char. destruct (isalpha c), (isdigit c), (c =? 95); done. Qed.

Lemma name_char_range c : name_char c = true → 48 <= c <= 122 ∧ c ≠ 61.
Proof. unfold name_char, isalpha, isdigit. intros H. repeat (b2p; destruct H as [H|H] || idtac); b2p; lia. Qed.

Lemma name_start_range c : name_start c = true → 65 <= c <= 122.
Proof. unfold name_start, isalpha. intros H. repeat (b2p; destruct H as [H|H] || idtac); b2p; lia. Qed.

Lemma check_name_inv n :
  envblk_check_name n = 0 → ∃ c l, n = c :: l ∧ name_start c = true ∧ Forall (λ x, name_char x = true) n.
Proof.
  destruct n as [|c l]; cbn [envblk_check_name]; [done|]. destruct (name_start c && forallb name_char l) eqn:E; [|done].
  intros _. apply andb_true_iff in E as [Hc Hl]. exists c, l. split_and!; [done|done|].
  constructor; [by apply name_start_char|]. apply Forall_forall. intros x Hx. rewrite forallb_forall in Hl. by apply Hl, list_elem_of_In.
Qed.

Lemma check_name_ok n : envblk_check_name n = 0 → name_ok n.
Proof.
  intros H. apply check_name_inv in H as (c & l & -> & _ & H). split; [done|]. eapply Forall_impl; [exact H|].
  intros x Hx%name_char_range. unfold EQ, NL. lia.
Qed.

Lemma pname_no_eq site n :
  (∀ d, site = Some d → isdigit d = true) → name_ok n → name_ok (pname site n).
Proof.
  intros Hs [Hne Hn]. destruct site as [d|]; [|done]. split; [done|]. constructor; [|done].
  specialize (Hs d eq_refl). unfold isdigit in Hs. b2p. unfold EQ, NL. lia.
Qed.
End Names.

Section Lines.
Lemma getlines_app x : ∀ acc s, Forall (.≠ NL) x → getlines acc (x ++ NL :: s) = (acc ++ x ++ [NL]) :: getlines [] s.
Proof.
  induction x as [|c x IH]; intros acc s Hx; [done|]. inversion_clear Hx as [|? ? Hc Hx']. cbn [app getlines].
  rewrite (proj2 (Z.eqb_neq c NL)) by done. rewrite IH by done. by rewrite <- app_assoc.
Qed.

(** a line is its text and a new line *)
Lemma render_split i : item_ok i → ∃ x, render i = x ++ [NL] ∧ Forall (λ c, c ≠ 0 ∧ c ≠ NL) x.
Proof.
  destruct i as [c| |d|n v]; cbn [item_ok render].
  - intros H. exists (35 :: c). split; [done|]. by constructor.
  - intros _. by exists [].
  - intros H. exists (bytes_of_string "[site " ++ [d; 93]). split; [done|]. apply Forall_app.
    split; [by apply (bool_decide_unpack (Forall (λ c, c ≠ 0 ∧ c ≠ NL) (bytes_of_string "[site "))); vm_compute|].
    unfold isdigit in H. b2p. repeat constructor; unfold NL; lia.
  - intros [Hn Hv]. apply check_name_ok in Hn as [_ Hn]. exists (pair_text (n, v)). split; [apply line_pair|].
    unfold pair_text. cbn [fst snd]. apply Forall_app. split; [eapply Forall_impl; [exact Hn|naive_solver]|].
    by constructor.
Qed.

Lemma getlines_render l : Forall item_ok l → getlines [] (render_all l) = render <$> l.
Proof.
  induction 1 as [|i l Hi _ IH]; [done|]. destruct (render_split i Hi) as (x & Ex & Hx).
  unfold render_all. cbn [fmap list_fmap concat]. rewrite Ex, <- app_assoc. cbn [app]. rewrite getlines_app.
  - cbn [app]. f_equal. exact IH.
  - eapply Forall_impl; [exact Hx|naive_solver].
Qed.

Lemma last_nl x : (x ++ [NL]) !!! (length (x ++ [NL]) - 1)%nat = NL.
Proof.
  rewrite length_app. cbn [length]. replace (length x + 1 - 1)%nat with (length x) by lia.
  by apply list_lookup_total_middle.
Qed.

(** a line that does not start with a bracket is not a title *)
Lemma check_keyword_unknown c l : c ≠ 91 → check_keyword (c :: l) = KW_UNKNOWN.
Proof.
  intros Hc. unfold check_keyword. destruct (_ || _); [done|]. unfold is_site_keyword.
  rewrite bool_decide_false; [done|]. change (tolower <$> take 5 (c :: l)) with (tolower c :: (tolower <$> take 4 l)).
  intros E. injection E as E _. unfold tolower in E. destruct ((65 <=? c) && (c <=? 90)) eqn:Ec; [b2p; lia|lia].
Qed.

Lemma check_keyword_site d : isdigit d = true → check_keyword (render (Site d)) = KW_VALID d.
Proof.
  unfold isdigit. intros H. b2p.
  assert (Hd : d ∈ [48; 49; 50; 51; 52; 53; 54; 55; 56; 57]) by (rewrite !elem_of_cons; lia).
  repeat (apply elem_of_cons in Hd as [->|Hd]; [by vm_compute|]). by apply not_elem_of_nil in Hd.
Qed.
End Lines.

Section ImportLoop.
Implicit Types (e : env) (l : list item) (t : table).

Notation nl := (λ v : list Z, v ++ [NL]).
Lemma nl_inj v w : nl v = nl w → v = w.
Proof. intros H. by apply app_inj_2 in H as [-> _]. Qed.

(** what is left of the file fits behind the variables, with a byte for each prefix *)
Definition cost l : nat := (length (render_all l) + length l)%nat.

Lemma length_env_put n v e : (length e <= length (env_put n v e))%nat.
Proof. induction e as [|[m w] e IH]; cbn; [lia|]. destruct (decide (m = n)); cbn; lia. Qed.

Lemma length_assigned l : ∀ site e, (length e <= length (assigned l site e))%nat.
Proof.
  induction l as [|[c| |d|n v] l IH]; intros site e; cbn [assigned]; try done. 
  etransitivity; [apply (length_env_put (pname site n) v)|apply IH].
Qed.

Lemma length_image_put site n v e :
  (length (image (env_put (pname site n) v e)) <= length (image e) + length (line (n, v)) + 1)%nat.
Proof.
  destruct (env_get (pname site n) e) as [w|] eqn:Eg.
  - destruct (env_get_split _ _ _ Eg) as (e1 & e2 & -> & Hin). rewrite env_put_app by done.
    rewrite !length_image, !lines_app, !lines_cons, !length_app, !length_line. destruct site; cbn [pname length]; lia.
  - apply env_get_None in Eg. rewrite env_put_None by done.
    rewrite !length_image, !lines_app, !lines_cons, !length_app, !length_line. cbn [lines fmap list_fmap concat length].
    destruct site; cbn [pname length]; lia.
Qed.

Lemma cost_cons i l : cost (i :: l) = (length (render i) + 1 + cost l)%nat.
Proof. unfold cost, render_all. cbn [fmap list_fmap concat length]. rewrite length_app. lia. Qed.

Lemma length_image_assigned l : ∀ site e, (length (image (assigned l site e)) <= length (image e) + cost l)%nat.
Proof.
  induction l as [|[c| |d|n v] l IH]; intros site e; cbn [assigned]; [lia|rewrite cost_cons..].
  4: pose proof (length_image_put site n v e) as Hp; specialize (IH site (env_put (pname site n) v e)); cbn [render]; lia.
  all: etransitivity; [apply IH|lia].
Qed.

Lemma lines_perm e e' : e ≡ₚ e' → length (lines e) = length (lines e').
Proof.
  induction 1 as [|[m w] e e' _ IH|[m w] [k u] e|e e' e'' _ IH1 _ IH2]; [done| | |lia];
    rewrite ?lines_cons, ?length_app; lia.
Qed.

(** the state of the import behind the variables [e] *)
Record importing (st : import_state) (site : option Z) (e : env) : Prop := Importing {
  imp_holds : holds nl (imp_table st) e;
  imp_names : names_ok e;
  imp_bound : imp_offset st <= Z.of_nat (length (image e));
  imp_count : imp_lines st = length e;
  imp_site_eq : imp_site st = site;
  imp_digit : ∀ d, site = Some d → isdigit d = true;
}.

Lemma import_assign st site e n v :
  importing st site e → item_ok (Assign n v) → 
  let '(ret, t, offset) := import_one_line (line (n, v)) (imp_table st) (imp_offset st) (imp_site st) in
  match env_get (pname site n) e with
  | Some _ => ret = 1 ∧ importing (ImportState t offset (imp_lines st) (imp_site st)) site (env_put (pname site n) v e)
  | None => ret = 0 ∧ importing (ImportState t (offset + Z.of_nat (length (line (n, v)))) (S (imp_lines st)) (imp_site st)) site
              (env_put (pname site n) v e)
  end.
Proof.
  intros [Hh Hn Hb Hc Hs Hd] [Hname Hv]. pose proof (check_name_ok n Hname) as Hok.
  pose proof (check_name_inv n Hname) as (c & r & En & Hc0 & _).
  assert (Hk : no_eq (pname site n)) by (by apply name_no_eq, pname_no_eq).
  unfold import_one_line, line. cbn [fst snd].
  assert (Hhead : headc (n ++ EQ :: v ++ [NL]) =? 35 = false).
  { rewrite En. cbn. apply name_start_range in Hc0. apply Z.eqb_neq. lia. }
  rewrite Hhead, strchr_eq; [|by apply name_no_eq|eapply Forall_impl; [apply Hok|naive_solver]].
  destruct (length n) as [|k] eqn:El; [by rewrite En in El|]. rewrite <- El. rewrite take_app_length, Hname. cbn [Z.eqb negb].
  pose proof (holds_lookup nl nl_inj _ _ site n (v ++ [NL]) Hh Hn Hk) as Hf. rewrite Hs, Hf.
  pose proof (names_ok_put _ v _ Hn Hk) as Hn'.
  destruct (env_get (pname site n) e) as [w|] eqn:Eg; cbn [fmap option_fmap option_map].
  - unfold hash_entry_replace. split; [done|]. rewrite entry_line_key.
    destruct (env_get_split _ _ _ Eg) as (e1 & e2 & Ee & Hin).
    split; cbn [imp_table imp_offset imp_lines imp_site]; try done.
    + by eapply (holds_replace nl nl_inj).
    + revert Hb. rewrite Ee, env_put_app by done. rewrite !length_image, !lines_app, !lines_cons, !length_app, !length_line.
      unfold entry_text. cbn [fst snd]. repeat (rewrite length_app || cbn [length]). lia.
    + rewrite Ee, env_put_app by done. rewrite Hc, Ee, !length_app. done.
  - apply env_get_None in Eg. rewrite env_put_None in * by done. split; [done|].
    split; cbn [imp_table imp_offset imp_lines imp_site]; try done.
    + eapply holds_perm; [by apply (holds_add nl)|]. rewrite (Permutation_app_comm e). done.
    + revert Hb. rewrite !length_image, lines_app, lines_cons, !length_app, length_line. cbn [length lines fmap list_fmap concat].
      destruct site; cbn [pname length]; repeat (rewrite length_app || cbn [length]); lia.
    + rewrite length_app, Hc. cbn. lia.
Qed.

Lemma import_loop_items size l : ∀ st site e,
  importing st site e → Forall item_ok l → (length (image e) + cost l <= size)%nat →
  (length (assigned l site e) <= ENVBLK_MAX_LINES)%nat →
  ∃ t, import_loop (render <$> l) (Z.of_nat size) st = (0, Some t) ∧ holds nl t (assigned l site e).
Proof.
  induction l as [|i l IH]; intros st site e Hst Hl Hsize Hmax.
  { exists (imp_table st). split; [done|]. apply Hst. }
  inversion_clear Hl as [|? ? Hi Hl']. destruct (render_split i Hi) as (x & Ex & Hx).
  pose proof (cost_cons i l) as Hcost.
  pose proof (imp_bound _ _ _ Hst) as Hoff. cbn [fmap list_fmap import_loop].
  rewrite (proj2 (Z.ltb_ge _ _)) by lia.
  assert (Hlast : render i !!! (length (render i) - 1)%nat = NL) by (rewrite Ex; apply last_nl).
  assert (Hnul : cstr (render i) = render i).
  { apply cstr_no_nul. rewrite Ex. apply Forall_app. split; [eapply Forall_impl; [exact Hx|naive_solver]|by repeat constructor]. }
  destruct i as [c| |d|n v].
  - rewrite (proj2 (Z.ltb_ge _ 2)) by (cbn [render length]; rewrite length_app; cbn [length]; lia).
    cbn [render] in *. rewrite check_keyword_unknown, Hlast, Hnul by done. cbn [Z.eqb negb andb].
    unfold import_one_line. cbn [headc Z.eqb Pos.eqb Z.ltb Z.compare].
    apply (IH (ImportState (imp_table st) (imp_offset st) (imp_lines st) (imp_site st)) site e); [by destruct st|done|lia|done].
  - cbn [render length]. cbn. apply (IH st site e); [done|done|lia|done].
  - rewrite (proj2 (Z.ltb_ge _ 2)) by (vm_compute; done). rewrite check_keyword_site by done.
    rewrite (proj2 (Z.eqb_neq d 0)) by (cbn [item_ok] in Hi; unfold isdigit in Hi; b2p; lia).
    apply (IH _ (Some d) e); [|done|lia|done]. destruct Hst. split; try done. by intros d' [= <-].
  - pose proof (length_line n v) as Hlen. cbn [render] in *.
    rewrite (proj2 (Z.ltb_ge _ 2)) by lia.
    assert (Hkw : check_keyword (line (n, v)) = KW_UNKNOWN).
    { destruct Hi as [Hn _]. apply check_name_inv in Hn as (c & r & -> & Hc & _). apply check_keyword_unknown.
      intros ->. vm_compute in Hc. done. }
    rewrite Hkw, Hlast, Hnul, Z.eqb_refl. cbn [negb andb assigned].
    pose proof (import_assign st site e n v Hst Hi) as Ha.
    destruct (import_one_line _ _ _ _) as [[ret t] offset]. cbn [assigned] in Hmax.
    pose proof (length_assigned l site (env_put (pname site n) v e)) as Hmono.
    pose proof (length_image_put site n v e) as Hput.
    destruct (env_get (pname site n) e) as [w|] eqn:Eg; destruct Ha as [-> Hst'].
    + cbn [Z.ltb Z.compare]. apply (IH _ site _ Hst'); [done|lia|done].
    + cbn [Z.ltb Z.compare]. apply env_get_None in Eg. rewrite env_put_None in * by done.
      rewrite length_app in Hmono. cbn [length] in Hmono. rewrite (imp_count _ _ _ Hst).
      rewrite (proj2 (Nat.leb_gt _ _)) by lia. pose proof (imp_count _ _ _ Hst) as <-.
      apply (IH _ site _ Hst'); [done|lia|done].
Qed.

Lemma assigned_names l : ∀ site e,
  Forall item_ok l → (∀ d, site = Some d → isdigit d = true) → names_ok e → names_ok (assigned l site e).
Proof.
  induction l as [|[c| |d|n v] l IH]; intros site e Hl Hs He; [done|inversion_clear Hl as [|? ? Hi Hl']; cbn [assigned]..].
  - by apply IH.
  - by apply IH.
  - apply IH; [done| |done]. by intros d' [= <-].
  - apply IH; [done|done|]. apply names_ok_put; [done|]. apply name_no_eq, pname_no_eq; [done|]. apply check_name_ok, Hi.
Qed.

(** An environment file that fits into an empty block, with a byte for the prefix of
    every line, leaves the variables it assigns, in the order of the hash table. *)
Lemma import_items size l :
  Forall item_ok l → (SIG_SIZE + cost l <= size)%nat → (length (assigned l None []) <= ENVBLK_MAX_LINES)%nat →
  ∃ e, envblk_import (Some (render_all l)) (block size []) (Z.of_nat size) = Done (0, block size e) ∧ e ≡ₚ assigned l None [].
Proof.
  intros Hl Hs Hmax. unfold envblk_import. rewrite getlines_render by done.
  assert (Hst : importing (ImportState empty_table (Z.of_nat SIG_SIZE) 0 None) None []).
  { split; try done; [apply holds_empty|split; constructor]. }
  destruct (import_loop_items size l _ _ _ Hst Hl) as (t & -> & Ht); [by rewrite length_image; cbn [lines fmap list_fmap concat length]; lia|done|].
  destruct (Permutation_map_inv _ _ (holds_all _ _ _ Ht)) as (e & Ee & HE).
  exists e. split; [|by symmetry].
  assert (Hlines : concat (concat t) = lines e) by (unfold lines; by rewrite Ee).
  assert (Hlen : (length (lines e) <= cost l)%nat).
  { rewrite (lines_perm e _ (symmetry HE)). pose proof (length_image_assigned l None []) as H.
    rewrite !length_image in H. cbn [lines fmap list_fmap concat length] in H. fold (lines (assigned l None [])) in H. lia. }
  unfold block at 1, image at 1. cbn [lines fmap list_fmap concat]. rewrite app_nil_r.
  replace (size - length (image []))%nat with (length (lines e) + (size - length (image e)))%nat.
  2: { rewrite !length_image. cbn [lines fmap list_fmap concat length]. lia. }
  rewrite zeros_add. unfold SIG_SIZE. rewrite flush_app.
  - cbn [mbind outcome_bind]. rewrite Hlines. unfold block, image. by rewrite <- app_assoc.
  - rewrite Ee. apply Forall_forall. intros x Hx. apply list_elem_of_fmap in Hx as (a & -> & _). exists (pair_text a). apply (line_pair a).
  - by rewrite length_zeros, Hlines.
Qed.
End ImportLoop.

(** The listings of the environment block and the removal of a site: the names
    with the prefix of a site are its namespace, the names without a prefix the
    common one. *)

Import Envblk Tables.

(** ** Namespaces *)

(** the namespace of a name (10 is the common one), and the name within it *)
Definition site_of (n : list Z) : nat :=
  match n with c :: _ => if isdigit c then Z.to_nat (c - 48) else 10 | [] => 10 end.
Definition base (n : list Z) : list Z :=
  match n with c :: r => if isdigit c then r else n | [] => [] end.
Definition pname_ok (n : list Z) : Prop := envblk_check_name (base n) = 0.
(** the variables of a namespace *)
Definition site_env (s : nat) (e : env) : env := (λ a : entry, (base a.1, a.2)) <$> filter (λ a : entry, site_of a.1 = s) e.

Definition digit (s : nat) : Z := 48 + Z.of_nat s.

Definition env_names_ok (e : env) : Prop := Forall (λ a : entry, pname_ok a.1) e.

Section Namespaces.
Implicit Types (n v : list Z) (e : env) (s : nat).

Lemma isdigit_range c : isdigit c = true → 48 <= c <= 57.
Proof. unfold isdigit. intros. b2p. lia. Qed.

Lemma site_of_le n : (site_of n <= 10)%nat.
Proof. destruct n as [|c r]; cbn; [lia|]. destruct (isdigit c) eqn:E; [|lia]. apply isdigit_range in E. lia. Qed.

Lemma base_ok n : pname_ok n → name_ok (base n).
Proof. apply check_name_ok. Qed.

Lemma base_no_nul n : pname_ok n → Forall (.≠ 0) (base n).
Proof. intros [_ H]%base_ok. eapply Forall_impl; [exact H|naive_solver]. Qed.

Lemma name_start_not_digit c : name_start c = true → isdigit c = false ∧ isspace c = false ∧ c ≠ 45 ∧ c ≠ 43 ∧ c ≠ 0.
Proof.
  intros H%name_start_range. unfold isdigit, isspace. split_and!; lia.
Qed.

(** the number that [strtol] reads is the prefix *)
Lemma strtol_pname n r :
  pname_ok n →
  (site_of n = 10%nat ∧ base n = n ∧ strtol_len (n ++ r) = 0%nat) ∨
  (∃ c, n = c :: base n ∧ isdigit c = true ∧ site_of n = Z.to_nat (c - 48) ∧ strtol_len (n ++ r) = 1%nat ∧ fst (strtol (n ++ r)) = c - 48).
Proof.
  unfold pname_ok. intros H. destruct (check_name_inv _ H) as (c & l & Eb & Hc & _).
  apply name_start_not_digit in Hc as (Hd & Hsp & H45 & H43 & H0).
  destruct n as [|x n]; cbn [base] in *; [done|]. cbn [site_of]. destruct (isdigit x) eqn:Ex.
  - right. exists x. pose proof (isdigit_range x Ex) as Hx. rewrite Eb. cbn [app].
    assert (Es : isspace x = false).
    { unfold isspace. apply orb_false_iff. split; [apply andb_false_iff; right; apply Z.leb_gt; lia|]. apply Z.eqb_neq. lia. }
    split_and!; try done.
    + unfold strtol_len. cbn [cstr]. rewrite (proj2 (Z.eqb_neq x 0)), (proj2 (Z.eqb_neq c 0)) by lia.
      cbn [count_while]. rewrite Es. cbn [drop]. rewrite (proj2 (Z.eqb_neq x 45)), (proj2 (Z.eqb_neq x 43)) by lia.
      cbn [orb Nat.add drop count_while]. by rewrite Ex, Hd.
    + unfold strtol. cbn [cstr]. rewrite (proj2 (Z.eqb_neq x 0)), (proj2 (Z.eqb_neq c 0)) by lia.
      cbn [skip_while]. rewrite Es, (proj2 (Z.eqb_neq x 45)), (proj2 (Z.eqb_neq x 43)) by lia.
      cbn [digits_val]. rewrite Ex, Hd, (proj2 (Z.ltb_ge _ _)), (proj2 (Z.ltb_ge _ _)) by lia. cbn [fst]. lia.
  - left. injection Eb as -> ->. split_and!; try done. cbn [app]. unfold strtol_len. cbn [cstr].
    rewrite (proj2 (Z.eqb_neq c 0)) by lia. cbn [count_while]. rewrite Hsp. cbn [drop].
    rewrite (proj2 (Z.eqb_neq c 45)), (proj2 (Z.eqb_neq c 43)) by lia. cbn [orb Nat.add drop count_while]. by rewrite Hd.
Qed.

Lemma site_env_app s e1 e2 : site_env s (e1 ++ e2) = site_env s e1 ++ site_env s e2.
Proof. unfold site_env. by rewrite filter_app, fmap_app. Qed.

Lemma site_env_no_eq s e : env_names_ok e → Forall (λ a : entry, no_eq a.1 ∧ Forall (.≠ 0) a.1) (site_env s e).
Proof.
  unfold env_names_ok. intros H. apply Forall_forall. intros a Ha. apply list_elem_of_fmap in Ha as (b & -> & Hb).
  apply list_elem_of_filter in Hb as [_ Hb]. rewrite (Forall_forall _ e) in H. specialize (H b Hb). cbn.
  split; [by apply name_no_eq, base_ok|by apply base_no_nul].
Qed.
End Namespaces.

(** ** The tables of a scan *)

Notation plain := (λ v : list Z, v).

Record tables_hold (ts : tables) (e : env) : Prop := TablesHold {
  th_size : length ts = 11%nat;
  th_site : ∀ s, (s <= 10)%nat → match ts !!! s with Some t => holds plain t (site_env s e) | None => site_env s e = [] end;
}.

Section Scanned.
Implicit Types (n v : list Z) (e : env) (s : nat).

Lemma tables_hold_add ts e n v :
  tables_hold ts e → pname_ok n →
  ∃ ts', add_line_namespace (pair_text (n, v)) ts = Done (0, ts') ∧ tables_hold ts' (e ++ [(n, v)]).
Proof.
  intros [Hl Hs] Hn. pose proof (site_of_le n) as Hle. pose proof (base_ok n Hn) as Hb.
  set (t := hash_table_add (default empty_table (ts !!! site_of n)) (Estr None (base n ++ EQ :: v) (S (length (base n))))).
  exists (<[site_of n := Some t]> ts). split.
  - unfold add_line_namespace, pair_text. cbn [fst snd].
    destruct (strtol_pname n (EQ :: v) Hn) as [(Es & Eb & ->)|(c & Ec & Hc & Es & -> & ->)]; cbn [Nat.eqb negb andb].
    + rewrite drop_0, hashed_len_eq; [|rewrite <- Eb; by apply name_no_eq|rewrite <- Eb; by apply base_no_nul].
      cbn [mbind outcome_bind]. unfold t. rewrite Es, Eb. done.
    + apply isdigit_range in Hc. rewrite s32_small by lia.
      rewrite (proj2 (Z.ltb_ge (c - 48) 0)), (proj2 (Z.leb_gt MAX_NR_SITES (c - 48))) by (unfold MAX_NR_SITES; lia). cbn [orb].
      assert (Ed : drop 1 (n ++ EQ :: v) = base n ++ EQ :: v) by (by rewrite Ec at 1).
      rewrite Ed, hashed_len_eq; [|by apply name_no_eq|by apply base_no_nul]. cbn [mbind outcome_bind]. unfold t. by rewrite Es.
  - split; [by rewrite length_insert|]. intros s Hs'. rewrite site_env_app. unfold site_env at 2 4. cbn [filter list_filter fst].
    destruct (decide (site_of n = s)) as [Heq|Hne].
    + rewrite Heq, list_lookup_total_insert_eq by lia. cbn [fmap list_fmap fst snd].
      eapply holds_perm; [apply (holds_add plain _ (site_env s e) None); [|by apply name_no_eq]|].
      * unfold t. rewrite Heq. specialize (Hs s Hs'). destruct (ts !!! s); cbn [default]; [done|]. rewrite Hs. apply holds_empty.
      * cbn [pname]. by rewrite (Permutation_app_comm (site_env s e)).
    + rewrite list_lookup_total_insert_ne by done. cbn [fmap list_fmap]. rewrite app_nil_r. by apply Hs.
Qed.

Lemma no_tables_hold : tables_hold no_tables [].
Proof. split; [done|]. intros s Hs. do 11 (destruct s as [|s]; [done|]). lia. Qed.

Lemma scan_tables e : ∀ ts e0,
  tables_hold ts e0 → env_names_ok e →
  ∃ ts', act add_line_namespace (pair_text <$> e) ts = Done (0, ts') ∧ tables_hold ts' (e0 ++ e).
Proof.
  induction e as [|[n v] e IH]; intros ts e0 Hts He.
  - exists ts. by rewrite app_nil_r.
  - inversion_clear He as [|? ? Hn He']. destruct (tables_hold_add ts e0 n v Hts Hn) as (ts1 & E1 & H1).
    destruct (IH ts1 _ H1 He') as (ts2 & E2 & H2). exists ts2. cbn [fmap list_fmap act]. rewrite E1. cbn [mbind outcome_bind Z.eqb negb].
    split; [done|]. by rewrite <- app_assoc in H2.
Qed.

(** what the listings work on *)
Lemma scan_namespaces size stop e :
  env_ok size e → env_names_ok e → (length e <= S ENVBLK_MAX_LINES)%nat → (length (image e) <= stop <= size)%nat →
  ∃ ts, envblk_scan (block size e) stop add_line_namespace no_tables = Done (0, ts) ∧ tables_hold ts e.
Proof. intros. rewrite scan_block by done. by apply (scan_tables e no_tables [] no_tables_hold). Qed.

(** the lines of a table, in the order of a scan *)
Lemma table_lines t e : holds plain t e → ∃ l, concat t = pair_text <$> l ∧ l ≡ₚ e.
Proof. intros H. destruct (Permutation_map_inv _ _ (holds_all _ _ _ H)) as (l & El & Hl). by exists l. Qed.

Lemma print_act i l : ∀ out,
  act (hash_table_print_line i) l out = Done (0, out ++ concat ((λ x, indent_by_size i ++ x ++ [NL]) <$> l)).
Proof.
  induction l as [|x l IH]; intros out; cbn [act fmap list_fmap concat].
  - by rewrite app_nil_r.
  - change (act (hash_table_print_line i) l (out ++ indent_by_size i ++ x ++ [NL]) = Done (0, out ++ (indent_by_size i ++ x ++ [NL]) ++ concat ((λ x, indent_by_size i ++ x ++ [NL]) <$> l))).
    rewrite IH. by rewrite <- !app_assoc.
Qed.

Lemma print_lines l out : act (hash_table_print_line 0) (pair_text <$> l) out = Done (0, out ++ lines l).
Proof.
  rewrite print_act. do 2 f_equal. f_equal. unfold lines. f_equal. rewrite <- list_fmap_compose. apply list_fmap_ext.
  intros i x _. cbn. by rewrite line_pair.
Qed.

Lemma print_cond ts e s l : ∀ out,
  tables_hold ts e → env_names_ok e → (s <= 10)%nat → Forall (λ a : entry, no_eq a.1 ∧ Forall (.≠ 0) a.1) l →
  act (hash_table_print_line_cond (ts !!! s) 0) (pair_text <$> l) out =
  Done (0, out ++ lines (filter (λ a : entry, a.1 ∉ (site_env s e).*1) l)).
Proof.
  induction l as [|[n v] l IH]; intros out Hts He Hs Hl; [cbn; by rewrite app_nil_r|].
  inversion_clear Hl as [|? ? [Hn Hz] Hl']. cbn [fst] in Hn, Hz. cbn [fmap list_fmap act].
  pose proof (th_site ts e Hts s Hs) as Ht. pose proof (site_env_no_eq s e He) as Hse. rewrite Forall_forall in Hse.
  assert (Hf : match hash_table_find (ts !!! s) (Estr None (n ++ EQ :: v) (S (length n))) with
               | Some _ => n ∈ (site_env s e).*1 | None => n ∉ (site_env s e).*1 end).
  { destruct (ts !!! s) as [t|]; [|rewrite Ht; apply not_elem_of_nil].
    pose proof (holds_find plain t _ None n v Ht Hn) as Hf. cbn zeta in Hf. destruct (hash_table_find _ _) as [y|].
    - destruct Hf as (w & -> & Hin). apply list_elem_of_fmap in Hin as (a & Ea & Ha). apply list_elem_of_fmap. exists a. split; [|done].
      eapply (before_char EQ); [done|by apply Hse|exact Ea].
    - intros Hin. apply list_elem_of_fmap in Hin as (a & Ea & Ha). apply (Hf a); [|by apply Hse|by cbn].
      apply list_elem_of_fmap. by exists a. }
  assert (Hstep : hash_table_print_line_cond (ts !!! s) 0 (pair_text (n, v)) out =
                  Done (0, if decide (n ∉ (site_env s e).*1) then out ++ line (n, v) else out)).
  { unfold hash_table_print_line_cond. change (pair_text (n, v)) with (n ++ EQ :: v). rewrite hashed_len_eq by done.
    cbn [mbind outcome_bind]. destruct (hash_table_find _ _).
    - by rewrite decide_False by tauto.
    - rewrite decide_True, line_pair by done. done. }
  rewrite Hstep. cbn [mbind outcome_bind Z.eqb negb filter list_filter fst]. rewrite IH by done.
  destruct (decide (n ∉ (site_env s e).*1)); [|done]. by rewrite lines_cons, <- app_assoc.
Qed.
End Scanned.

(** ** What is listed *)

(** the variables that count in a site: its own and the common ones it does not have *)
Definition effective (s : nat) (e : env) : env :=
  filter (λ a : entry, a.1 ∉ (site_env s e).*1) (site_env 10 e) ++ site_env s e.

Section Listed.
Implicit Types (n v : list Z) (e : env) (s : nat).
Context (size stop : nat) (e : env).
Context (He : env_ok size e) (Hn : env_names_ok e) (Hk : (length e <= S ENVBLK_MAX_LINES)%nat).
Context (Hstop : (length (image e) <= stop <= size)%nat).

Lemma print_table ts s out :
  tables_hold ts e → (s <= 10)%nat →
  ∃ l, hash_table_scan (hash_table_print_line 0) (ts !!! s) out = Done (0, out ++ lines l) ∧ l ≡ₚ site_env s e.
Proof using.
  intros Hts Hs. pose proof (th_site ts e Hts s Hs) as Ht. destruct (ts !!! s) as [t|].
  - destruct (table_lines t _ Ht) as (l & El & Hl). exists l. split; [|done]. by rewrite table_scan_act, El, print_lines.
  - exists []. rewrite Ht. cbn. by rewrite app_nil_r.
Qed.

Lemma list_site_block s :
  (s <= 10)%nat → ∃ l, envblk_list_site (block size e) stop s = Done (0, lines l) ∧ l ≡ₚ site_env s e.
Proof using He Hn Hk Hstop.
  intros Hs. destruct (scan_namespaces size stop e He Hn Hk Hstop) as (ts & Ets & Hts).
  destruct (print_table ts s [] Hts Hs) as (l & El & Hl). exists l. split; [|done].
  unfold envblk_list_site. rewrite Ets. cbn [mbind outcome_bind Z.eqb negb]. by rewrite El.
Qed.

Lemma list_effective_block s :
  (s < 10)%nat → ∃ l, envblk_list_effective_site (block size e) stop s = Done (0, lines l) ∧ l ≡ₚ effective s e.
Proof using He Hn Hk Hstop.
  intros Hs. destruct (scan_namespaces size stop e He Hn Hk Hstop) as (ts & Ets & Hts).
  unfold envblk_list_effective_site. rewrite Ets. cbn [mbind outcome_bind Z.eqb negb].
  assert (Hc : ∃ l1, hash_table_scan (hash_table_print_line_cond (ts !!! s) 0) (common_table ts) [] = Done (0, lines l1) ∧
                 l1 ≡ₚ filter (λ a : entry, a.1 ∉ (site_env s e).*1) (site_env 10 e)).
  { pose proof (th_site ts e Hts 10 (le_n _)) as Ht. unfold common_table. change (Z.to_nat MAX_NR_SITES) with 10%nat.
    destruct (ts !!! 10%nat) as [t|].
    - destruct (table_lines t _ Ht) as (l & El & Hl). exists (filter (λ a : entry, a.1 ∉ (site_env s e).*1) l).
      rewrite table_scan_act, El, (print_cond ts e); [|done|done|lia|].
      + split; [done|]. by rewrite Hl.
      + rewrite Hl. by apply site_env_no_eq.
    - exists []. by rewrite Ht. }
  destruct Hc as (l1 & -> & H1). cbn [mbind outcome_bind].
  destruct (print_table ts s (lines l1) Hts) as (l2 & -> & H2); [lia|]. exists (l1 ++ l2). cbn [mbind outcome_bind].
  split; [by rewrite lines_app|]. unfold effective. by rewrite H1, H2.
Qed.
End Listed.

(** ** The value of a name in a site *)

Section Values.
Implicit Types (n v : list Z) (e : env) (s : nat).

Lemma env_get_in n v e : env_get n e = Some v → (n, v) ∈ e.
Proof. intros E. destruct (env_get_split _ _ _ E) as (e1 & e2 & -> & _). apply elem_of_app. right. left. Qed.

Lemma env_get_perm n e e' : NoDup e.*1 → e ≡ₚ e' → env_get n e = env_get n e'.
Proof.
  intros Hd Hp. destruct (env_get n e) as [v|] eqn:E.
  - symmetry. apply env_get_elem; [by rewrite <- Hp|]. rewrite <- Hp.
    by apply env_get_in.
  - symmetry. apply env_get_None. rewrite <- Hp. by apply env_get_None.
Qed.

Lemma env_get_app_l n e1 e2 : env_get n (e1 ++ e2) = match env_get n e1 with Some v => Some v | None => env_get n e2 end.
Proof. induction e1 as [|[m w] e1 IH]; cbn; [done|]. by destruct (decide (m = n)). Qed.

(** the name of [n] in the namespace [s] *)
Definition full_name s n : list Z := if (s <? 10)%nat then digit s :: n else n.

Lemma full_name_split n : pname_ok n → n = full_name (site_of n) (base n).
Proof.
  intros H. destruct n as [|c r]; [done|]. cbn [site_of base]. unfold full_name, digit. destruct (isdigit c) eqn:Ec; [|done].
  apply isdigit_range in Ec. rewrite (proj2 (Nat.ltb_lt _ _)) by lia. f_equal. lia.
Qed.

Lemma full_name_inj s m n : full_name s m = full_name s n → m = n.
Proof. unfold full_name. destruct (s <? 10)%nat; congruence. Qed.

Lemma site_of_full s n : (s <= 10)%nat → envblk_check_name n = 0 → site_of (full_name s n) = s ∧ base (full_name s n) = n.
Proof.
  intros Hs Hn. destruct (check_name_inv n Hn) as (c & r & -> & Hc & _). apply name_start_not_digit in Hc as [Hd _].
  unfold full_name. destruct (Nat.ltb_spec s 10).
  - cbn [site_of base]. replace (isdigit (digit s)) with true; [unfold digit; split; [lia|done]|].
    symmetry. unfold isdigit, digit. lia.
  - cbn [site_of base]. rewrite Hd. split; [lia|done].
Qed.

Lemma env_get_site s n e :
  (s <= 10)%nat → env_names_ok e → envblk_check_name n = 0 → env_get n (site_env s e) = env_get (full_name s n) e.
Proof.
  intros Hs He Hn. induction e as [|[m v] e IH]; [done|]. inversion_clear He as [|? ? Hm He']. cbn [fst] in Hm.
  destruct (site_of_full s n Hs Hn) as [E1 E2]. pose proof (full_name_split m Hm) as Em.
  unfold site_env. cbn [filter list_filter fst env_get]. destruct (decide (site_of m = s)) as [Es|Es]; cbn [fmap list_fmap env_get fst snd].
  - destruct (decide (base m = n)) as [Eb|Eb].
    + rewrite decide_True; [done|]. by rewrite Em, Es, Eb.
    + rewrite decide_False; [by apply IH|]. intros ->. by rewrite E2 in Eb.
  - rewrite decide_False; [by apply IH|]. intros ->. by rewrite E1 in Es.
Qed.

Lemma site_env_NoDup s e : env_names_ok e → NoDup e.*1 → NoDup (site_env s e).*1.
Proof.
  induction e as [|[m v] e IH]; intros He Hd; [constructor|]. inversion_clear He as [|? ? Hm He']. cbn [fst] in Hm.
  cbn in Hd. apply NoDup_cons in Hd as [Hin Hd]. unfold site_env. cbn [filter list_filter fst].
  destruct (decide (site_of m = s)) as [Es|Es]; [|by apply IH]. cbn [fmap list_fmap fst snd]. apply NoDup_cons. split; [|by apply IH].
  intros Hb. apply list_elem_of_fmap in Hb as (a & Ea & Ha). apply list_elem_of_fmap in Ha as (b & -> & Hb).
  apply list_elem_of_filter in Hb as [Hbs Hb]. cbn [fst] in Ea. apply Hin. apply list_elem_of_fmap. exists b. split; [|done].
  unfold env_names_ok in He'. rewrite Forall_forall in He'. specialize (He' b Hb). 
  by rewrite (full_name_split m Hm), (full_name_split b.1 He'), Es, Hbs, Ea.
Qed.

Lemma effective_NoDup s e : env_names_ok e → NoDup e.*1 → NoDup (effective s e).*1.
Proof.
  intros He Hd. unfold effective. rewrite fmap_app. apply NoDup_app. split_and!.
  - eapply sublist_NoDup; [by apply (site_env_NoDup 10)|]. apply fmap_sublist, sublist_filter.
  - intros n Hn. apply list_elem_of_fmap in Hn as (a & -> & Ha). by apply list_elem_of_filter in Ha as [Ha _].
  - by apply site_env_NoDup.
Qed.

(** a name has the value of the site, or else the common one *)
Lemma env_get_effective s n e :
  (s < 10)%nat → env_names_ok e → NoDup e.*1 → envblk_check_name n = 0 →
  env_get n (effective s e) = match env_get (digit s :: n) e with Some v => Some v | None => env_get n e end.
Proof.
  intros Hs He Hd Hn. pose proof (env_get_site s n e) as H1. pose proof (env_get_site 10 n e (le_n _) He Hn) as H2.
  unfold full_name in H1, H2. rewrite (proj2 (Nat.ltb_lt s 10)) in H1 by lia. rewrite <- H1 by (done || lia). cbn in H2. rewrite <- H2.
  unfold effective. destruct (env_get n (site_env s e)) as [v|] eqn:E.
  - rewrite env_get_app_l. replace (env_get n (filter _ _)) with (@None (list Z)); [done|]. symmetry. apply env_get_None.
    intros Hin. apply list_elem_of_fmap in Hin as (a & -> & Ha). apply list_elem_of_filter in Ha as [Ha _]. apply Ha.
    apply list_elem_of_fmap. eexists (_, _). split; [done|]. by apply env_get_in.
  - rewrite env_get_app_l, E. apply env_get_None in E.
    assert (Hf : ∀ l : env, env_get n (filter (λ a : entry, a.1 ∉ (site_env s e).*1) l) = env_get n l).
    { induction l as [|[m w] l IH]; [done|]. cbn [filter list_filter fst env_get]. destruct (decide (m ∉ _)); cbn [env_get].
      - by destruct (decide (m = n)).
      - rewrite (decide_False (P := m = n)); [done|]. intros ->. done. }
    rewrite Hf. by destruct (env_get n (site_env 10 e)).
Qed.
End Values.

(** ** Removing a site *)

Section Remove.
Implicit Types (n v : list Z) (e : env) (s : nat).

Lemma env_del_sublist n e : env_del n e `sublist_of` e.
Proof.
  induction e as [|[m w] e IH]; cbn; [constructor|]. destruct (decide (m = n)); by constructor.
Qed.

Lemma env_ok_del size n e : env_ok size e → env_ok size (env_del n e).
Proof.
  intros [He Hs]. split.
  - rewrite Forall_forall in *. intros a Ha. apply He. eapply sublist_subseteq; [apply (env_del_sublist n)|done].
  - destruct (env_get n e) as [w|] eqn:E.
    + destruct (env_get_split _ _ _ E) as (e1 & e2 & -> & Hin). rewrite env_del_app by done. revert Hs.
      rewrite !length_image, !lines_app, lines_cons, !length_app. lia.
    + replace (env_del n e) with e; [done|]. apply env_get_None in E. clear He Hs.
      induction e as [|[m u] e IH]; [done|]. cbn in *. rewrite decide_False by set_solver. f_equal. apply IH. set_solver.
Qed.

(** removing every name of a namespace once for each of its lines leaves the other ones *)
Lemma del_all s (ns : list (list Z)) : ∀ e,
  ns ≡ₚ (filter (λ a : entry, site_of a.1 = s) e).*1 →
  foldl (λ e n, env_del n e) e ns = filter (λ a : entry, site_of a.1 ≠ s) e.
Proof.
  induction ns as [|n ns IH]; intros e Hp; cbn [foldl].
  - apply Permutation_nil_l in Hp. symmetry in Hp. apply fmap_nil_inv in Hp.
    induction e as [|a e IHe]; [done|]. cbn [filter list_filter] in *.
    destruct (decide (site_of a.1 = s)) as [E|E]; [done|]. rewrite decide_True by done. f_equal. by apply IHe.
  - assert (Hin : n ∈ (filter (λ a : entry, site_of a.1 = s) e).*1) by (rewrite <- Hp; left).
    apply list_elem_of_fmap in Hin as (a & -> & Ha). apply list_elem_of_filter in Ha as [Hs Ha].
    destruct (env_get a.1 e) as [w|] eqn:E.
    2: { apply env_get_None in E. exfalso. apply E. apply list_elem_of_fmap. by exists a. }
    destruct (env_get_split _ _ _ E) as (e1 & e2 & -> & Hin). rewrite env_del_app by done.
    rewrite filter_app in Hp |- *. cbn [filter list_filter fst] in Hp |- *. rewrite decide_True in Hp by done.
    rewrite (decide_False (P := site_of a.1 ≠ s)) by tauto. rewrite IH; [by rewrite filter_app|].
    rewrite fmap_app, fmap_cons, <- Permutation_middle in Hp. cbn [fst] in Hp. apply Permutation_cons_inv in Hp.
    by rewrite filter_app, fmap_app.
Qed.

Lemma strnlen_block size e : env_ok size e → strnlen (block size e) size = length (image e).
Proof.
  intros He. unfold strnlen. rewrite take_ge; [by rewrite cstr_block|]. rewrite length_block; [done|apply He].
Qed.

(** the names that the table of the site holds are removed one by one *)
Lemma remove_lines size d (l : env) : ∀ e,
  env_ok size e → Forall (λ a : entry, no_eq a.1 ∧ Forall (.≠ 0) a.1) l → d ≠ EQ →
  (∃ r, (λ a : entry, d :: a.1) <$> l ++ r ≡ₚ (filter (λ a : entry, site_of a.1 = site_of [d]) e).*1) →
  act (remove_name_value [d] size) (pair_text <$> l) (block size e) =
  Done (0, block size (foldl (λ e n, env_del n e) e ((λ a : entry, d :: a.1) <$> l))).
Proof.
  induction l as [|[n v] l IH]; intros e He Hl Hd [r Hr]; [done|]. inversion_clear Hl as [|? ? [Hn Hz] Hl']. cbn [fst] in Hn, Hz.
  cbn [fmap list_fmap act foldl fst].
  assert (Hin : d :: n ∈ (filter (λ a : entry, site_of a.1 = site_of [d]) e).*1) by (rewrite <- Hr; left).
  assert (Hrm : remove_name_value [d] size (pair_text (n, v)) (block size e) = Done (0, block size (env_del (d :: n) e))).
  { unfold remove_name_value, get_key_len, pair_text. cbn [fst snd]. rewrite strchr_eq by done. cbn [deref mbind outcome_bind headc].
    rewrite take_app_length, strnlen_block, unset_block by (done || by constructor). rewrite decide_True; [done|].
    apply list_elem_of_fmap in Hin as (a & Ea & Ha). apply list_elem_of_filter in Ha as [_ Ha]. apply list_elem_of_fmap. by exists a. }
  rewrite Hrm. cbn [mbind outcome_bind Z.eqb negb]. apply IH; [by apply env_ok_del|done|done|]. exists r.
  apply list_elem_of_fmap in Hin as (a & Ea & Ha). apply list_elem_of_filter in Ha as [Hs Ha]. 
  destruct (env_get (d :: n) e) as [w|] eqn:E.
  2: { apply env_get_None in E. exfalso. apply E. rewrite Ea. apply list_elem_of_fmap. by exists a. }
  destruct (env_get_split _ _ _ E) as (e1 & e2 & -> & Hi). rewrite env_del_app by done.
  rewrite filter_app in Hr |- *. cbn [filter list_filter fst] in Hr. rewrite decide_True in Hr by (by rewrite Ea).
  rewrite fmap_app, (fmap_cons _ (_, _)), <- Permutation_middle in Hr. cbn [app fmap list_fmap fst] in Hr.
  apply Permutation_cons_inv in Hr. by rewrite fmap_app.
Qed.

Lemma site_digit s : (s < 10)%nat → site_of [digit s] = s ∧ atoi [digit s] = Z.of_nat s ∧ digit s ≠ EQ.
Proof. intros H. do 10 (destruct s as [|s]; [by vm_compute|]). lia. Qed.

Lemma remove_namespace_block size e s :
  env_ok size e → env_names_ok e → (length e <= S ENVBLK_MAX_LINES)%nat → (s < 10)%nat →
  envblk_remove_namespace (block size e) size [digit s] = Done (0, block size (filter (λ a : entry, site_of a.1 ≠ s) e)).
Proof.
  intros He Hn Hk Hs. destruct (site_digit s Hs) as (Esite & Eatoi & Hd).
  destruct (scan_namespaces size size e He Hn Hk) as (ts & Ets & Hts); [destruct He; lia|].
  unfold envblk_remove_namespace. rewrite Ets. cbn [mbind outcome_bind Z.eqb negb]. rewrite Eatoi, Nat2Z.id.
  rewrite (list_lookup_lookup_total_lt ts s) by (rewrite (th_size ts e Hts); lia). cbn [deref mbind outcome_bind].
  pose proof (th_site ts e Hts s) as Ht.
  assert (Hnames : ∀ l, l ≡ₚ site_env s e → (λ a : entry, digit s :: a.1) <$> l ≡ₚ (filter (λ a : entry, site_of a.1 = s) e).*1).
  { intros l ->. unfold site_env. rewrite <- list_fmap_compose. apply Permutation_refl', list_fmap_ext. intros i a Ha. cbn [compose fst].
    apply list_elem_of_lookup_2, list_elem_of_filter in Ha as [Ha Hin]. unfold env_names_ok in Hn. rewrite Forall_forall in Hn.
    rewrite (full_name_split a.1) at 2 by (by apply Hn). unfold full_name. by rewrite Ha, (proj2 (Nat.ltb_lt s 10)) by lia. }
  destruct (ts !!! s) as [t|].
  - destruct (table_lines t _ (Ht ltac:(lia))) as (l & El & Hl). rewrite table_scan_act, El.
    rewrite remove_lines; [by rewrite (del_all s) by (by apply Hnames)|done|rewrite Hl; by apply site_env_no_eq|done|].
    exists []. rewrite app_nil_r, Esite. by apply Hnames.
  - rewrite <- (del_all s []); [done|]. rewrite <- (Hnames []); [done|]. by rewrite Ht by lia.
Qed.
End Remove.
