(* ===== verification/Stage3.v ===== *)
(** The environment in the boot loader (src/zipl/boot/stage3.c, src/zipl/boot/libc.c):
    the block is cut into names and values, and every ${NAME} of the kernel command
    line is replaced with the value of the name in the active site.

    The environment block and the command line are byte lists, pointers into them are
    offsets, and an access outside of them is a [Fault].  A hash bucket is the list of
    its names from the head on. *)
From S2P Require Import Prelude Envblk.
Import Envblk.

Module Stage3.

Definition STR_HASH_SIZE : Z := 16.
(** [PAGE_SIZE / sizeof(struct env_hash_entry)] *)
Definition MAX_ITEMS : nat := 512.
Definition PARAM_SIZE : nat := 8.

(** ** Strings *)

(** the string that starts here *)
Fixpoint cstring (l : list Z) : outcome (list Z) :=
  match l with
  | [] => Fault
  | c :: l => if c =? 0 then Done [] else r ← cstring l; Done (c :: r)
  end.
Definition string_at (b : list Z) (i : nat) : outcome (list Z) := cstring (drop i b).

Fixpoint strchr_from (l : list Z) (c : Z) (i : nat) : outcome (option nat) :=
  match l with
  | [] => Fault
  | x :: l => if x =? 0 then Done None else if x =? c then Done (Some i) else strchr_from l c (S i)
  end.
(** [strchr(b + i, c)] *)
Definition strchr_at (b : list Z) (i : nat) (c : Z) : outcome (option nat) := strchr_from (drop i b) c i.

Definition strhash (s : list Z) (prefix : option Z) (hash_size : Z) : Z :=
  let sum := match prefix with Some c => u32 (5 * c) | None => 0 end in
  foldl (λ sum c, u32 (sum + 5 * c)) sum s mod hash_size.

(** ** The hash table *)

Notation buckets := (list (list nat)).
Definition no_buckets : buckets := replicate (Z.to_nat STR_HASH_SIZE) [].

Definition hash_table_add (b : list Z) (bs : buckets) (name : nat) : outcome buckets :=
  s ← string_at b name;
  let hash := Z.to_nat (strhash s None STR_HASH_SIZE) in
  Done (<[hash := name :: bs !!! hash]> bs).

Definition str_eq (s short_str : list Z) (prefix : option Z) : bool :=
  match prefix with
  | Some c =>
      (length s =? S (length short_str))%nat && (headc s =? c) && bool_decide (take (length short_str) (drop 1 s) = short_str)
  | None => (length s =? length short_str)%nat && bool_decide (take (length s) short_str = s)
  end.

Fixpoint find_loop (b : list Z) (items : list nat) (name : list Z) (prefix : option Z) : outcome (option nat) :=
  match items with
  | [] => Done None
  | item :: items =>
      s ← string_at b item;
      if str_eq s name prefix then Done (Some item) else find_loop b items name prefix
  end.

Definition hash_table_find (b : list Z) (bs : buckets) (name : list Z) (prefix : option Z) : outcome (option nat) :=
  if (length name =? 0)%nat then Done None
  else find_loop b (bs !!! Z.to_nat (strhash name prefix STR_HASH_SIZE)) name prefix.

(** ** Parsing the block *)

(** [while (len < envblk_len - ENVBLK_SIGNATURE_SIZE)]: the bytes up to the zeros *)
Fixpoint significant (n : nat) (b : list Z) (i : nat) : outcome nat :=
  match n with
  | O => Done 0%nat
  | S n => c ← get b i; if c =? 0 then Done 0%nat else k ← significant n b (S i); Done (S k)
  end.

(** [false] is "Bad envblk" *)
Fixpoint parse_loop (fuel : nat) (b : list Z) (bs : buckets) (len newline off idx : nat) : outcome (bool * list Z * buckets) :=
  if (off <? len)%nat && (idx <? MAX_ITEMS)%nat then
    match fuel with
    | O => OutOfFuel
    | S fuel =>
        equation ← strchr_at b (newline + 1) EQ;
        match equation with
        | None => Done (false, b, bs)
        | Some equation =>
            b ← put_bytes b equation [0];
            bs ← hash_table_add b bs (newline + 1);
            let off := (off + (equation - newline))%nat in
            newline ← strchr_at b (equation + 1) NL;
            match newline with
            | None => Done (false, b, bs)
            | Some newline =>
                b ← put_bytes b newline [0];
                parse_loop fuel b bs len newline (off + (newline - equation)) (S idx)
            end
        end
    end
  else Done (true, b, bs).

Definition parse_envblk (b : list Z) : outcome (bool * list Z * buckets) :=
  s ← get_bytes b 0 SIG_SIZE;
  if negb (bool_decide (s = ZIPL_ENVBLK_SIGNATURE)) then Done (false, b, no_buckets)
  else
    len ← significant (length b - SIG_SIZE) b SIG_SIZE;
    parse_loop MAX_ITEMS b no_buckets len (SIG_SIZE - 1) 0 0.

(** first the name with the prefix, then the name without *)
Definition lookup_item (b : list Z) (bs : buckets) (name : list Z) (prefix : option Z) : outcome (option nat) :=
  r ← hash_table_find b bs name prefix;
  match r, prefix with
  | Some item, _ => Done (Some item)
  | None, Some _ => hash_table_find b bs name None
  | None, None => Done None
  end.

(** [val]: the empty string if there is no item *)
Definition item_value (b : list Z) (item : option nat) : outcome (list Z) :=
  match item with
  | None => Done []
  | Some item => s ← string_at b item; string_at b (item + length s + 1)
  end.

(** ** Replacing the names *)

Definition DOLLAR : Z := 36.
Definition LBRACE : Z := 123.
Definition RBRACE : Z := 125.

(** the command line, and where it ends *)
Fixpoint parm_loop (fuel : nat) (b : list Z) (bs : buckets) (max_len : nat) (site_id : option Z) (m : list Z) (cmdl_end start : nat)
    : outcome (list Z * nat) :=
  if (start <? cmdl_end)%nat then
    match fuel with
    | O => OutOfFuel
    | S fuel =>
        s ← strchr_at m start DOLLAR;
        match s with
        | None => Done (m, cmdl_end)
        | Some start =>
            if (cmdl_end <=? start + 3)%nat then Done (m, cmdl_end)
            else
              c ← get m (start + 1);
              if negb (c =? LBRACE) then parm_loop fuel b bs max_len site_id m cmdl_end (start + 1)
              else
                e ← strchr_at m start RBRACE;
                match e with
                | None => Done (m, cmdl_end)
                | Some stop =>
                    if (cmdl_end <=? stop)%nat then Done (m, cmdl_end)
                    else
                      m ← put_bytes m stop [0];
                      name ← string_at m (start + 2);
                      item ← lookup_item b bs name site_id;
                      val ← item_value b item;
                      let len := length val in
                      if Z.of_nat max_len <=? Z.of_nat cmdl_end + Z.of_nat len - (Z.of_nat stop - Z.of_nat start + 1) then Done (m, cmdl_end)
                      else
                        m ← memmove m (start + len) (stop + 1) (cmdl_end - (stop + 1));
                        m ← put_bytes m start val;
                        parm_loop fuel b bs max_len site_id m (cmdl_end + len - (stop - start + 1)) (start + len)
                end
        end
    end
  else Done (m, cmdl_end).

Definition process_parm_line (b : list Z) (bs : buckets) (m : list Z) (cmdl_len max_len : nat) (site_id : option Z) : outcome (list Z) :=
  '(m, cmdl_end) ← parm_loop (S cmdl_len) b bs max_len site_id m cmdl_len 0;
  if (cmdl_end <? cmdl_len)%nat then put_bytes m cmdl_end (zeros (cmdl_len - cmdl_end)) else Done m.

(** ** The active site *)

Definition EBCDIC_S : Z := 226.
Definition ebcdic_isdigit (c : Z) : bool := (240 <=? c) && (c <=? 249).

(** the digits that [ebcdic_strtoul] reads *)
Fixpoint ebcdic_digits (l : list Z) : list Z :=
  match l with
  | [] => []
  | c :: l => if ebcdic_isdigit c then c :: ebcdic_digits l else []
  end.

(** behind the first S of LOADPARM: digits, or another S for the number of the
    subchannel set of the boot device, if there is one *)
Fixpoint site_by_loadparm (loadparm : list Z) (ssid : option Z) : list Z :=
  match loadparm with
  | [] => []
  | c :: l =>
      if c =? EBCDIC_S then
        if headc l =? EBCDIC_S then match ssid with Some id => [240 + id] | None => [] end
        else ebcdic_digits l
      else site_by_loadparm l ssid
  end.

(** [loadparm] is [None] if it cannot be read; the result is the site in ASCII *)
Definition get_active_site (loadparm : option (list Z)) (ssid : option Z) : option (list Z) :=
  match loadparm with
  | None => None
  | Some loadparm =>
      match site_by_loadparm (take PARAM_SIZE loadparm) ssid with
      | [] => None
      | s => Some ((λ c, c - 240 + 48) <$> s)
      end
  end.

(** [envblk] is [None] if the boot record names no environment block *)
Definition handle_environment (envblk : option (list Z)) (loadparm : option (list Z)) (ssid : option Z) (m : list Z) (len max_len : nat)
    : outcome (list Z) :=
  match envblk with
  | None => Done m
  | Some b =>
      '(_, b, bs) ← parse_envblk b;
      process_parm_line b bs m len max_len (headc <$> get_active_site loadparm ssid)
  end.

End Stage3.
