(* ===== verification/Stage3Proofs.v ===== *)
(** The boot loader finds the variables that the environment block holds. *)
From stdpp Require Import sets.
From S2P Require Import Prelude Envblk EnvblkSpec EnvblkTables EnvblkTablesProofs EnvblkImport Stage3.
Import Envblk Stage3.

Section Strings.
Implicit Types (l s mid post : list Z).

Lemma cstring_app s post : Forall (.≠ 0) s → cstring (s ++ 0 :: post) = Done s.
Proof.
  induction 1 as [|c s Hc _ IH]; [done|]. cbn [app cstring]. rewrite (proj2 (Z.eqb_neq c 0)) by done. by rewrite IH.
Qed.

Lemma string_at_app pre s post i : i = length pre → Forall (.≠ 0) s → string_at (pre ++ s ++ 0 :: post) i = Done s.
Proof. intros -> Hs. unfold string_at. rewrite drop_app_length. by apply cstring_app. Qed.

Lemma strchr_from_app mid c post : ∀ i,
  Forall (λ x, x ≠ 0 ∧ x ≠ c) mid → c ≠ 0 → strchr_from (mid ++ c :: post) c i = Done (Some (i + length mid)%nat).
Proof.
  induction mid as [|x mid IH]; intros i Hm Hc; cbn [app strchr_from length].
  - rewrite (proj2 (Z.eqb_neq c 0)), Z.eqb_refl by done. by rewrite Nat.add_0_r.
  - inversion_clear Hm as [|? ? [H0 H1] Hm']. rewrite (proj2 (Z.eqb_neq x 0)), (proj2 (Z.eqb_neq x c)) by done.
    rewrite IH by done. do 2 f_equal. lia.
Qed.

Lemma strchr_at_app pre mid c post i :
  i = length pre → Forall (λ x, x ≠ 0 ∧ x ≠ c) mid → c ≠ 0 →
  strchr_at (pre ++ mid ++ c :: post) i c = Done (Some (i + length mid)%nat).
Proof. intros ->. unfold strchr_at. rewrite drop_app_length. apply strchr_from_app. Qed.

Lemma strchr_at_end pre mid c post i :
  i = length pre → Forall (λ x, x ≠ 0 ∧ x ≠ c) mid → strchr_at (pre ++ mid ++ 0 :: post) i c = Done None.
Proof.
  intros -> Hm. unfold strchr_at. rewrite drop_app_length. generalize (length pre). induction Hm as [|x mid [H0 H1] _ IH]; intros i; [done|].
  cbn [app strchr_from]. rewrite (proj2 (Z.eqb_neq x 0)), (proj2 (Z.eqb_neq x c)) by done. apply IH.
Qed.

Lemma strhash_pname p n : strhash n p STR_HASH_SIZE = strhash (pname p n) None STR_HASH_SIZE.
Proof. by destruct p. Qed.

Lemma str_eq_pname s n p : str_eq s n p = bool_decide (s = pname p n).
Proof.
  destruct p as [c|]; cbn [str_eq pname].
  - destruct s as [|x s]; cbn [length Nat.eqb andb]; [by rewrite bool_decide_false|]. cbn [headc drop]. rewrite drop_0.
    destruct (Nat.eqb_spec (length s) (length n)) as [Hl|Hl]; cbn [andb].
    + rewrite take_ge by lia. destruct (Z.eqb_spec x c) as [->|Hc]; cbn [andb].
      * apply bool_decide_ext. split; congruence.
      * symmetry. apply bool_decide_false. congruence.
    + symmetry. apply bool_decide_false. intros [= -> ->]. done.
  - destruct (Nat.eqb_spec (length s) (length n)) as [Hl|Hl]; cbn [andb].
    + rewrite take_ge by lia. apply bool_decide_ext. split; congruence.
    + symmetry. apply bool_decide_false. intros ->. done.
Qed.

Lemma strhash_range s : (Z.to_nat (strhash s None STR_HASH_SIZE) < 16)%nat.
Proof. unfold strhash, STR_HASH_SIZE. pose proof (Z.mod_pos_bound (foldl (λ sum c, u32 (sum + 5 * c)) 0 s) 16). lia. Qed.
End Strings.

(** ** The table *)

(** the block with the names and values terminated *)
Definition cut (a : entry) : list Z := a.1 ++ 0 :: a.2 ++ [0].
Definition cuts (e : env) : list Z := concat (cut <$> e).

(** [o] is where the variable [a] is *)
Definition placed (b : list Z) (o : nat) (a : entry) : Prop := ∃ p1 p2, b = p1 ++ cut a ++ p2 ∧ o = length p1.

Record has (b : list Z) (bs : buckets) (e : env) : Prop := Has {
  has_size : length bs = 16%nat;
  has_only : ∀ i l o, bs !! i = Some l → o ∈ l → ∃ a, a ∈ e ∧ placed b o a;
  has_each : ∀ a, a ∈ e → ∃ o, o ∈ bs !!! Z.to_nat (strhash a.1 None STR_HASH_SIZE) ∧ placed b o a;
}.

Section Table.
Implicit Types (b pre : list Z) (bs : buckets) (e : env).

Lemma placed_app b o a r : placed b o a → placed (b ++ r) o a.
Proof. intros (p1 & p2 & -> & ->). exists p1, (p2 ++ r). by rewrite <- !app_assoc. Qed.

Lemma has_app b bs e r : has b bs e → has (b ++ r) bs e.
Proof.
  intros [H1 H2 H3]. split; [done| |].
  - intros i l o Hl Ho. destruct (H2 i l o Hl Ho) as (a & Ha & Hp). exists a. split; [done|]. by apply placed_app.
  - intros a Ha. destruct (H3 a Ha) as (o & Ho & Hp). exists o. split; [done|]. by apply placed_app.
Qed.

Lemma has_add pre bs e a :
  has pre bs e → let h := Z.to_nat (strhash a.1 None STR_HASH_SIZE) in
  has (pre ++ cut a) (<[h := length pre :: bs !!! h]> bs) (e ++ [a]).
Proof.
  intros Hp h. pose proof (has_app _ _ _ (cut a) Hp) as [H1 H2 H3].
  assert (Ha : placed (pre ++ cut a) (length pre) a) by (exists pre, []; by rewrite app_nil_r).
  pose proof (strhash_range a.1) as Hh. fold h in Hh. split.
  - by rewrite length_insert.
  - intros i l o Hl Ho. apply list_lookup_insert_Some in Hl as [(<- & <- & _)|[_ Hl]].
    + apply elem_of_cons in Ho as [->|Ho]; [exists a; set_solver|].
      destruct (H2 h _ o (list_lookup_lookup_total_lt bs h ltac:(lia)) Ho) as (x & Hx & Hpx). exists x. set_solver.
    + destruct (H2 i l o Hl Ho) as (x & Hx & Hpx). exists x. set_solver.
  - intros x Hx. apply elem_of_app in Hx as [Hx|Hx].
    + destruct (H3 x Hx) as (o & Ho & Hpo). exists o. split; [|done].
      rewrite list_lookup_total_insert. destruct (decide _) as [[E _]|_]; [right; by rewrite E|done].
    + apply list_elem_of_singleton in Hx as ->. exists (length pre). split; [|done].
      fold h. rewrite list_lookup_total_insert_eq by lia. left.
Qed.

Lemma placed_string b o a : placed b o a → entry_ok a → string_at b o = Done a.1 ∧ item_value b (Some o) = Done a.2.
Proof.
  intros (p1 & p2 & -> & ->) [[_ Hn] Hv]. unfold cut.
  assert (Hn0 : Forall (.≠ 0) a.1) by (eapply Forall_impl; [exact Hn|naive_solver]).
  assert (Hv0 : Forall (.≠ 0) a.2) by (eapply Forall_impl; [exact Hv|naive_solver]).
  assert (E : p1 ++ (a.1 ++ 0 :: a.2 ++ [0]) ++ p2 = p1 ++ a.1 ++ 0 :: (a.2 ++ 0 :: p2)).
  { rewrite <- !app_assoc. cbn [app]. by rewrite <- app_assoc. }
  assert (Es : string_at (p1 ++ a.1 ++ 0 :: a.2 ++ 0 :: p2) (length p1) = Done a.1) by (by apply string_at_app).
  rewrite E. split; [done|]. cbn [item_value]. rewrite Es. cbn [mbind outcome_bind].
  replace (p1 ++ a.1 ++ 0 :: a.2 ++ 0 :: p2) with ((p1 ++ a.1 ++ [0]) ++ a.2 ++ 0 :: p2) by (rewrite <- !app_assoc; done).
  apply string_at_app; [|done]. rewrite !length_app. cbn. lia.
Qed.

(** the lookup of a name, with or without a prefix *)
Lemma find_value b bs e n p :
  has b bs e → Forall entry_ok e → NoDup e.*1 → n ≠ [] →
  match env_get (pname p n) e with
  | Some v => ∃ o, hash_table_find b bs n p = Done (Some o) ∧ item_value b (Some o) = Done v
  | None => hash_table_find b bs n p = Done None
  end.
Proof.
  intros Hb He Hd Hn. rewrite Forall_forall in He. unfold hash_table_find.
  rewrite (proj2 (Nat.eqb_neq (length n) 0)) by (by destruct n). rewrite strhash_pname.
  set (k := pname p n). set (h := Z.to_nat (strhash k None STR_HASH_SIZE)).
  assert (Hl : bs !! h = Some (bs !!! h)).
  { apply list_lookup_lookup_total_lt. rewrite (has_size _ _ _ Hb). apply strhash_range. }
  assert (Hfind : ∀ l, (∀ o, o ∈ l → o ∈ bs !!! h) → 
    (∃ o v, find_loop b l n p = Done (Some o) ∧ (k, v) ∈ e ∧ item_value b (Some o) = Done v) ∨
    (find_loop b l n p = Done None ∧ ∀ o a, o ∈ l → placed b o a → a ∈ e → a.1 ≠ k)).
  { induction l as [|o l IH]; intros Hsub; [right; split; [done|]; intros o a Ho; by apply not_elem_of_nil in Ho|].
    destruct (has_only _ _ _ Hb h _ o Hl) as (a & Ha & Hp); [apply Hsub; left|].
    destruct (placed_string b o a Hp (He a Ha)) as [Es Ev]. cbn [find_loop]. rewrite Es. cbn [mbind outcome_bind].
    rewrite str_eq_pname. fold k. destruct (decide (a.1 = k)) as [Ek|Ek].
    - rewrite bool_decide_true by done. left. exists o, a.2. split_and!; [done| |done]. rewrite <- Ek. by destruct a.
    - rewrite bool_decide_false by done. destruct IH as [IH|[IH1 IH2]]; [intros; apply Hsub; by right|by left|].
      right. split; [done|]. intros o' a' Ho' Hp' Ha'. apply elem_of_cons in Ho' as [->|Ho']; [|by eapply IH2].
      destruct (placed_string b o a' Hp' (He a' Ha')) as [Es' _]. rewrite Es in Es'. injection Es' as <-. done. }
  destruct (Hfind (bs !!! h)) as [(o & v & Hf & Hin & Hv)|[Hf Hnone]]; [done| |].
  - rewrite (env_get_elem k v e Hd Hin). by exists o.
  - replace (env_get k e) with (@None (list Z)); [done|]. symmetry. apply env_get_None. intros Hin.
    apply list_elem_of_fmap in Hin as (a & Ea & Ha). destruct (has_each _ _ _ Hb a Ha) as (o & Ho & Hp).
    rewrite <- Ea in Ho. by eapply (Hnone o a).
Qed.

(** the value of a name in the active site *)
Definition boot_value (e : env) (site : option Z) (n : list Z) : list Z :=
  default [] (match site with
              | Some c => match env_get (c :: n) e with Some v => Some v | None => env_get n e end
              | None => env_get n e
              end).

Lemma lookup_value b bs e n site :
  has b bs e → Forall entry_ok e → NoDup e.*1 → n ≠ [] →
  (item ← lookup_item b bs n site; item_value b item) = Done (boot_value e site n).
Proof.
  intros Hb He Hd Hn. unfold lookup_item, boot_value.
  pose proof (find_value b bs e n None Hb He Hd Hn) as Hc. cbn [pname] in Hc.
  destruct site as [c|].
  - pose proof (find_value b bs e n (Some c) Hb He Hd Hn) as Hs. cbn [pname] in Hs. destruct (env_get (c :: n) e) as [v|].
    + destruct Hs as (o & -> & Ho). cbn [mbind outcome_bind]. done.
    + rewrite Hs. cbn [mbind outcome_bind]. destruct (env_get n e) as [v|]; [|by rewrite Hc].
      destruct Hc as (o & -> & Ho). done.
  - destruct (env_get n e) as [v|]; [|by rewrite Hc]. destruct Hc as (o & -> & Ho). done.
Qed.
End Table.

(** ** Parsing *)

Section Parse.
Implicit Types (b pre : list Z) (bs : buckets) (e : env).

Lemma significant_app mid z : ∀ pre, Forall (.≠ 0) mid → significant (length mid + z) (pre ++ mid ++ zeros z) (length pre) = Done (length mid).
Proof.
  induction mid as [|c mid IH]; intros pre Hm; cbn [length Nat.add].
  - destruct z as [|z]; [done|]. cbn [significant app zeros replicate]. by rewrite get_app.
  - inversion_clear Hm as [|? ? Hc Hm']. cbn [significant]. cbn [app]. rewrite get_app by done. cbn [mbind outcome_bind].
    rewrite (proj2 (Z.eqb_neq c 0)) by done. replace (pre ++ c :: mid ++ zeros z) with ((pre ++ [c]) ++ mid ++ zeros z) by (by rewrite <- app_assoc).
    replace (S (length pre)) with (length (pre ++ [c])) by (rewrite length_app; cbn; lia). by rewrite IH.
Qed.

Lemma length_cut n v : length (cut (n, v)) = (length n + length v + 2)%nat.
Proof. unfold cut. cbn. rewrite length_app. cbn. rewrite length_app. cbn. lia. Qed.

Lemma length_cuts e : length (cuts e) = length (lines e).
Proof.
  unfold cuts, lines. induction e as [|[n v] e IH]; [done|]. cbn [fmap list_fmap concat]. rewrite !length_app, length_cut, length_line. congruence.
Qed.

(** one line: the equals sign and the new line become zeros, the name is added *)
Lemma parse_step fuel pre bs len idx off n v r :
  entry_ok (n, v) → (off < len)%nat → (idx < MAX_ITEMS)%nat → (0 < length pre)%nat →
  let h := Z.to_nat (strhash n None STR_HASH_SIZE) in
  parse_loop (S fuel) (pre ++ line (n, v) ++ r) bs len (length pre - 1) off idx =
  parse_loop fuel ((pre ++ cut (n, v)) ++ r) (<[h := length pre :: bs !!! h]> bs) len (length (pre ++ cut (n, v)) - 1)
    (off + length (line (n, v))) (S idx).
Proof.
  intros [[Hne Hn] Hv] Hoff Hidx Hpre h. cbn [fst snd] in *. cbn [parse_loop].
  rewrite (proj2 (Nat.ltb_lt off len)), (proj2 (Nat.ltb_lt idx MAX_ITEMS)) by done. cbn [andb].
  assert (E1 : pre ++ line (n, v) ++ r = pre ++ n ++ EQ :: (v ++ NL :: r)).
  { unfold line. cbn [fst snd]. rewrite <- !app_assoc. cbn [app]. by rewrite <- app_assoc. }
  rewrite E1, (strchr_at_app pre n) by (lia || done || (eapply Forall_impl; [exact Hn|naive_solver])).
  cbn [mbind outcome_bind]. replace (length pre - 1 + 1)%nat with (length pre) by lia.
  change (EQ :: v ++ NL :: r) with ([EQ] ++ (v ++ NL :: r)). rewrite app_assoc.
  rewrite put_bytes_app by (rewrite ?length_app; done). cbn [mbind outcome_bind]. unfold hash_table_add.
  rewrite <- app_assoc. change ([0] ++ v ++ NL :: r) with (0 :: (v ++ NL :: r)).
  rewrite string_at_app by (done || (eapply Forall_impl; [exact Hn|naive_solver])). cbn [mbind outcome_bind].
  replace (pre ++ n ++ 0 :: v ++ NL :: r) with ((pre ++ n ++ [0]) ++ v ++ NL :: r) by (rewrite <- !app_assoc; done).
  assert (Hl : length (pre ++ n ++ [0]) = (length pre + length n + 1)%nat) by (rewrite !length_app; cbn; lia).
  rewrite (strchr_at_app (pre ++ n ++ [0]) v) by (lia || done). cbn [mbind outcome_bind].
  change (NL :: r) with ([NL] ++ r). rewrite app_assoc, put_bytes_app by (rewrite ?(length_app _ v); done || lia). cbn [mbind outcome_bind].
  assert (E2 : ((pre ++ n ++ [0]) ++ v) ++ [0] ++ r = (pre ++ cut (n, v)) ++ r).
  { unfold cut. cbn [fst snd]. rewrite <- !app_assoc. cbn [app]. by rewrite <- app_assoc. }
  rewrite E2. pose proof (length_line n v) as Hline. pose proof (length_cut n v) as Hcut.
  f_equal; [rewrite length_app; lia|lia].
Qed.

Lemma parse_lines e : ∀ fuel pre bs len idx off z e0,
  Forall entry_ok e → has pre bs e0 → (0 < length pre)%nat → (idx + length e <= MAX_ITEMS)%nat → (length e <= fuel)%nat →
  (off + length (lines e) = len)%nat →
  ∃ bs', parse_loop fuel (pre ++ lines e ++ zeros z) bs len (length pre - 1) off idx = Done (true, pre ++ cuts e ++ zeros z, bs') ∧
    has (pre ++ cuts e) bs' (e0 ++ e).
Proof.
  induction e as [|[n v] e IH]; intros fuel pre bs len idx off z e0 He Hh Hpre Hidx Hf Hlen.
  - exists bs. rewrite !app_nil_r. split; [|done]. cbn [lines fmap list_fmap concat length] in Hlen.
    destruct fuel; cbn [parse_loop]; by rewrite (proj2 (Nat.ltb_ge off len)) by lia.
  - cbn [length] in Hidx, Hf. destruct fuel as [|fuel]; [lia|]. inversion_clear He as [|? ? Ha He']. rewrite lines_cons in *.
    rewrite length_app, length_line in Hlen. rewrite <- app_assoc, parse_step by (done || lia).
    destruct (IH fuel (pre ++ cut (n, v)) _ len (S idx) (off + length (line (n, v)))%nat z (e0 ++ [(n, v)]) He' (has_add pre bs e0 (n, v) Hh))
      as (bs' & E & Hh'); [rewrite length_app; lia|lia|lia|rewrite length_line; lia|].
    exists bs'. cbn [fst] in E. rewrite E. unfold cuts in *. cbn [fmap list_fmap concat]. rewrite <- !app_assoc in *. done.
Qed.

Lemma no_buckets_has b : has b no_buckets [].
Proof.
  split; [done| |].
  - intros i l o Hl Ho. apply lookup_replicate in Hl as [-> _]. by apply not_elem_of_nil in Ho.
  - intros a Ha. by apply not_elem_of_nil in Ha.
Qed.

Lemma parse_block size e :
  env_ok size e → (length e <= MAX_ITEMS)%nat →
  ∃ b bs, parse_envblk (block size e) = Done (true, b, bs) ∧ has b bs e.
Proof.
  intros [He Hs] Hk. unfold parse_envblk.
  assert (Eb : block size e = ZIPL_ENVBLK_SIGNATURE ++ lines e ++ zeros (size - length (image e))) by (unfold block, image; by rewrite <- app_assoc).
  assert (Eg : get_bytes (block size e) 0 SIG_SIZE = Done ZIPL_ENVBLK_SIGNATURE) by (rewrite Eb; by apply (get_bytes_app [])).
  rewrite Eg. cbn [mbind outcome_bind]. rewrite bool_decide_true by done. cbn [negb].
  rewrite length_block by done. pose proof (length_image e) as Hi.
  assert (Esig : significant (size - SIG_SIZE) (block size e) SIG_SIZE = Done (length (lines e))).
  { replace (size - SIG_SIZE)%nat with (length (lines e) + (size - length (image e)))%nat by lia. rewrite Eb.
    apply significant_app. pose proof (image_no_nul e He) as Hz. by apply Forall_app in Hz as [_ Hz]. }
  rewrite Esig.
  cbn [mbind outcome_bind]. rewrite Eb.
  destruct (parse_lines e MAX_ITEMS ZIPL_ENVBLK_SIGNATURE no_buckets (length (lines e)) 0 0 (size - length (image e)) [] He (no_buckets_has _))
    as (bs & E & Hh); [vm_compute; lia|lia|done|lia|].
  eexists _, bs. split; [exact E|]. rewrite app_assoc. by apply has_app.
Qed.
End Parse.
