(* ===== verification/ParmLine.v ===== *)
(** The kernel command line: every ${NAME} is replaced with its value, everything
    else stays. *)
From stdpp Require Import sets.
From S2P Require Import Prelude Envblk EnvblkSpec EnvblkTables EnvblkTablesProofs EnvblkImport Stage3 Stage3Proofs.
Import Envblk Stage3.

(** ** Command lines *)

Inductive seg : Type :=
  | Text (t : list Z)
  | Dollar
  | Var (n : list Z).

Definition seg_text (s : seg) : list Z :=
  match s with Text t => t | Dollar => [DOLLAR] | Var n => DOLLAR :: LBRACE :: n ++ [RBRACE] end.
Definition cmdline (l : list seg) : list Z := concat (seg_text <$> l).

Definition seg_ok (s : seg) : Prop :=
  match s with
  | Text t => Forall (λ c, c ≠ 0 ∧ c ≠ DOLLAR) t
  | Dollar => True
  | Var n => n ≠ [] ∧ Forall (λ c, c ≠ 0 ∧ c ≠ RBRACE) n
  end.
(** a lone dollar is not in front of a brace *)
Fixpoint segs_ok (l : list seg) : Prop :=
  match l with
  | [] => True
  | s :: l => seg_ok s ∧ (s = Dollar → headc (cmdline l) ≠ LBRACE) ∧ segs_ok l
  end.

Section Expand.
Context (value : list Z → list Z).

Definition seg_value (s : seg) : list Z :=
  match s with Text t => t | Dollar => [DOLLAR] | Var n => value n end.
Definition expand (l : list seg) : list Z := concat (seg_value <$> l).

(** as much room as the line can need while it is processed *)
Fixpoint room (l : list seg) : nat :=
  match l with
  | [] => 0
  | s :: l => Nat.max (length (seg_text s)) (length (seg_value s)) + room l
  end.

(** how far the line reaches while it is processed, [used] bytes in front *)
Fixpoint high (used : nat) (l : list seg) : nat :=
  match l with
  | [] => used
  | s :: l => Nat.max (used + length (seg_text s) + length (cmdline l)) (high (used + length (seg_value s)) l)
  end.
End Expand.

Section Lines.
Implicit Types (l : list seg).

Lemma cmdline_cons s l : cmdline (s :: l) = seg_text s ++ cmdline l.
Proof. done. Qed.

Lemma expand_short value l : Forall seg_ok l → (length (cmdline l) <= 3)%nat → expand value l = cmdline l.
Proof.
  induction 1 as [|s l Hs _ IH]; [done|]. rewrite cmdline_cons, length_app. intros Hl.
  unfold expand, cmdline in *. cbn [fmap list_fmap concat]. rewrite IH by lia.
  destruct s as [t| |n]; [done|done|]. destruct Hs as [Hn _]. destruct n; [done|]. cbn [seg_text length] in Hl.
  rewrite length_app in Hl. cbn in Hl. lia.
Qed.

Lemma segs_seg_ok l : segs_ok l → Forall seg_ok l.
Proof. induction l as [|s l IH]; [constructor|]. intros (H1 & _ & H2). constructor; auto. Qed.

Lemma length_cmdline_room value l : (length (cmdline l) <= room value l)%nat.
Proof. induction l as [|s l IH]; cbn; [lia|]. rewrite length_app. fold (cmdline l). lia. Qed.

Lemma length_expand_room value l : (length (expand value l) <= room value l)%nat.
Proof. induction l as [|s l IH]; cbn; [lia|]. rewrite length_app. fold (expand value l). lia. Qed.

Lemma high_bound value l : ∀ used, (used + length (expand value l) <= high value used l)%nat.
Proof.
  induction l as [|s l IH]; intros used; cbn; [lia|]. rewrite length_app. fold (expand value l).
  specialize (IH (used + length (seg_value value s))%nat). lia.
Qed.

Lemma high_start value l used : (used + length (cmdline l) <= high value used l)%nat.
Proof. destruct l as [|s l]; cbn; [lia|]. rewrite length_app. fold (cmdline l). lia. Qed.

(** [strchr] for a string that ends within the memory *)
Lemma strchr_from_defined q c : ∀ i, (0 ∈ q) →
  ∃ r, strchr_from q c i = Done r ∧ match r with Some j => (i <= j)%nat | None => True end.
Proof.
  induction q as [|x q IH]; intros i H0; [by apply not_elem_of_nil in H0|]. cbn [strchr_from].
  destruct (Z.eqb_spec x 0) as [->|Hx]; [by exists None|]. destruct (Z.eqb_spec x c) as [->|Hc]; [by exists (Some i)|].
  destruct (IH (S i)) as (r & -> & Hr); [set_solver|]. exists r. split; [done|]. destruct r; [lia|done].
Qed.

Lemma strchr_from_skip t r c : ∀ i, Forall (λ x, x ≠ 0 ∧ x ≠ c) t → strchr_from (t ++ r) c i = strchr_from r c (i + length t).
Proof.
  induction t as [|x t IH]; intros i Ht; cbn [app length]; [by rewrite Nat.add_0_r|].
  inversion_clear Ht as [|? ? [H0 H1] Ht']. cbn [strchr_from]. rewrite (proj2 (Z.eqb_neq x 0)), (proj2 (Z.eqb_neq x c)) by done.
  rewrite IH by done. f_equal. lia.
Qed.
End Lines.

(** ** The loop *)

Section Loop.
Context (b : list Z) (bs : buckets) (max_len : nat) (site : option Z) (value : list Z → list Z).
Context (Hvalue : ∀ n, n ≠ [] → (item ← lookup_item b bs n site; item_value b item) = Done (value n)).

Lemma parm_skip f m out t x ce :
  m = out ++ t ++ x → Forall (λ c, c ≠ 0 ∧ c ≠ DOLLAR) t → 0 ∈ x → (length out + length t <= ce)%nat →
  parm_loop (S f) b bs max_len site m ce (length out) = parm_loop (S f) b bs max_len site m ce (length out + length t).
Proof using.
  intros Em Ht Hx Hce. destruct t as [|c t]; [cbn [length]; by rewrite Nat.add_0_r|].
  assert (E1 : strchr_at m (length out) DOLLAR = strchr_from x DOLLAR (length out + length (c :: t))).
  { unfold strchr_at. rewrite Em, drop_app_length. by apply strchr_from_skip. }
  assert (E2 : strchr_at m (length out + length (c :: t)) DOLLAR = strchr_from x DOLLAR (length out + length (c :: t))).
  { unfold strchr_at. rewrite Em, app_assoc, <- length_app, drop_app_length. done. }
  cbn [parm_loop]. rewrite E1, E2. rewrite (proj2 (Nat.ltb_lt (length out) ce)) by (cbn [length] in Hce; lia).
  destruct (Nat.ltb_spec (length out + length (c :: t)) ce) as [|Hge]; [done|].
  destruct (strchr_from_defined x DOLLAR (length out + length (c :: t)) Hx) as (r & -> & Hr). cbn [mbind outcome_bind].
  destruct r as [j|]; [|done]. by rewrite (proj2 (Nat.leb_le ce (j + 3))) by lia.
Qed.

(** the step that replaces a name *)
Lemma parm_replace f out n l rest m :
  m = out ++ seg_text (Var n) ++ l ++ rest → seg_ok (Var n) →
  (length out + length (value n) + length l < max_len)%nat → (max_len <= length m)%nat →
  let ce := (length out + length (seg_text (Var n)) + length l)%nat in
  let rest' := drop (length (value n) + length l) (DOLLAR :: LBRACE :: n ++ [0] ++ l ++ rest) in
  parm_loop (S f) b bs max_len site m ce (length out) =
  parm_loop f b bs max_len site (out ++ value n ++ l ++ rest') (length out + length (value n) + length l) (length out + length (value n)).
Proof using Hvalue.
  intros Em [Hne Hn] Hfit Hm ce rest'.
  assert (Hst : length (seg_text (Var n)) = (length n + 3)%nat) by (cbn [seg_text length]; rewrite length_app; cbn; lia).
  assert (Hn1 : (0 < length n)%nat) by (destruct n; [done|cbn; lia]).
  cbn [parm_loop]. rewrite (proj2 (Nat.ltb_lt (length out) ce)) by (unfold ce; lia).
  assert (Em1 : m = out ++ [] ++ DOLLAR :: LBRACE :: n ++ RBRACE :: l ++ rest).
  { rewrite Em. cbn [seg_text app]. by rewrite <- app_assoc. }
  assert (Es : strchr_at m (length out) DOLLAR = Done (Some (length out))).
  { rewrite Em1, strchr_at_app by done. cbn [length]. by rewrite Nat.add_0_r. }
  rewrite Es. cbn [mbind outcome_bind]. rewrite (proj2 (Nat.leb_gt ce (length out + 3))) by (unfold ce; lia).
  assert (Eg : get m (length out + 1) = Done LBRACE).
  { rewrite Em1. cbn [app]. change (DOLLAR :: LBRACE :: n ++ RBRACE :: l ++ rest) with ([DOLLAR] ++ LBRACE :: (n ++ RBRACE :: l ++ rest)).
    rewrite app_assoc. apply get_app. rewrite length_app. done. }
  rewrite Eg. cbn [mbind outcome_bind]. rewrite Z.eqb_refl. cbn [negb].
  assert (Er : strchr_at m (length out) RBRACE = Done (Some (length out + (length n + 2))%nat)).
  { rewrite Em1. cbn [app]. change (DOLLAR :: LBRACE :: n ++ RBRACE :: l ++ rest) with ((DOLLAR :: LBRACE :: n) ++ RBRACE :: (l ++ rest)).
    rewrite strchr_at_app; [cbn [length]; do 2 f_equal; lia|done| |done]. constructor; [done|]. constructor; [done|]. done. }
  rewrite Er. cbn [mbind outcome_bind]. rewrite (proj2 (Nat.leb_gt ce _)) by (unfold ce; lia).
  assert (Ep : put_bytes m (length out + (length n + 2)) [0] = Done (out ++ (DOLLAR :: LBRACE :: n) ++ [0] ++ (l ++ rest))).
  { rewrite Em1. cbn [app]. change (DOLLAR :: LBRACE :: n ++ RBRACE :: l ++ rest) with ((DOLLAR :: LBRACE :: n) ++ [RBRACE] ++ (l ++ rest)).
    rewrite app_assoc, put_bytes_app; [by rewrite <- app_assoc|rewrite length_app; cbn [length]; lia|done]. }
  rewrite Ep. cbn [mbind outcome_bind].
  assert (Ename : string_at (out ++ (DOLLAR :: LBRACE :: n) ++ [0] ++ l ++ rest) (length out + 2) = Done n).
  { replace (out ++ (DOLLAR :: LBRACE :: n) ++ [0] ++ l ++ rest) with ((out ++ [DOLLAR; LBRACE]) ++ n ++ 0 :: (l ++ rest)) by (rewrite <- !app_assoc; done).
    apply string_at_app; [rewrite length_app; done|]. eapply Forall_impl; [exact Hn|naive_solver]. }
  rewrite Ename. cbn [mbind outcome_bind]. pose proof (Hvalue n Hne) as Hv. apply outcome_bind_Done in Hv as (item & Hi & Hv).
  rewrite Hi. cbn [mbind outcome_bind]. rewrite Hv. cbn [mbind outcome_bind].
  rewrite (proj2 (Z.leb_gt (Z.of_nat max_len) _)) by (unfold ce; lia).
  set (m1 := out ++ (DOLLAR :: LBRACE :: n) ++ [0] ++ l ++ rest).
  assert (Hlm : length m1 = (length out + (length n + 3) + length l + length rest)%nat).
  { unfold m1. rewrite !length_app. cbn [length]. lia. }
  assert (Hlm' : length m = length m1).
  { rewrite Em, Hlm, !length_app, Hst. lia. }
  destruct (cut_length ((DOLLAR :: LBRACE :: n) ++ [0] ++ l ++ rest) (length (value n))) as (x & y & Exy & Hx & Hy).
  { rewrite !length_app in *. cbn [length] in *. lia. }
  destruct (cut_length y (length l)) as (y1 & y2 & -> & Hy1 & Hy2).
  { rewrite Hy, !length_app in *. cbn [length] in *. lia. }
  assert (Erest : rest' = y2).
  { unfold rest'. change (DOLLAR :: LBRACE :: n ++ [0] ++ l ++ rest) with ((DOLLAR :: LBRACE :: n) ++ [0] ++ l ++ rest).
    rewrite Exy, app_assoc. replace (length (value n) + length l)%nat with (length (x ++ y1)) by (rewrite length_app; lia).
    apply drop_app_length. }
  rewrite (memmove_app m1 (out ++ (DOLLAR :: LBRACE :: n) ++ [0]) l rest (out ++ x) y1 y2).
  - cbn [mbind outcome_bind]. rewrite <- app_assoc, put_bytes_app by done. cbn [mbind outcome_bind]. rewrite Erest.
    f_equal. unfold ce. lia.
  - unfold m1. by rewrite <- !app_assoc.
  - unfold m1. by rewrite Exy, <- app_assoc.
  - rewrite !length_app. cbn [length]. lia.
  - rewrite length_app. lia.
  - unfold ce. lia.
  - done.
Qed.

(** the passes of the loop *)
Fixpoint passes (l : list seg) : nat :=
  match l with [] => 0 | Text _ :: l => passes l | _ :: l => S (passes l) end.

Lemma passes_length l : (passes l <= length (cmdline l))%nat.
Proof using. induction l as [|[t| |n] l IH]; [cbn; lia|..]; cbn; rewrite ?length_app; fold (cmdline l); lia. Qed.

Lemma drop_zeros x q k : (q <= length x + k)%nat → drop q (x ++ zeros (S k)) = drop q x ++ zeros (S (k - (q - length x))).
Proof using. intros H. unfold zeros. rewrite drop_app, drop_replicate. do 2 f_equal. lia. Qed.

Lemma parm_segs l : ∀ fuel m out stale k,
  m = out ++ cmdline l ++ stale ++ zeros (S k) → segs_ok l → (max_len <= length m)%nat →
  (length out + room value l < max_len)%nat → (passes l < fuel)%nat →
  ∃ stale' k', parm_loop fuel b bs max_len site m (length out + length (cmdline l)) (length out) =
    Done (out ++ expand value l ++ stale' ++ zeros (S k'), (length out + length (expand value l))%nat) ∧
    (length out + length (expand value l) + length stale' <=
     Nat.max (length out + length (cmdline l) + length stale) (high value (length out) l))%nat ∧
    length m = (length out + length (expand value l) + length stale' + S k')%nat.
Proof using Hvalue.
  induction l as [|s l IH]; intros fuel m out stale k Em Hl Hm Hroom Hf.
  { exists stale, k. cbn [cmdline expand fmap list_fmap concat app length] in *. rewrite Nat.add_0_r, <- Em.
    destruct fuel; cbn [parm_loop]; rewrite Nat.ltb_irrefl; (split; [done|]; split; [lia|]); rewrite Em, !length_app, length_zeros; lia. }
  destruct Hl as (Hs & Hdollar & Hl). pose proof (length_cmdline_room value l) as Hcr. cbn [room] in Hroom.
  assert (E0 : 0 ∈ cmdline l ++ stale ++ zeros (S k)) by (do 2 (apply elem_of_app; right); left).
  rewrite cmdline_cons in *. assert (Ex : expand value (s :: l) = seg_value value s ++ expand value l) by done.
  rewrite Ex, !length_app in *. clear Ex. rewrite <- (app_assoc (seg_text s)) in Em.
  destruct s as [t| |n]; cbn [seg_text seg_value passes high] in *.
  - destruct fuel as [|f]; [lia|]. rewrite (parm_skip f m out t (cmdline l ++ stale ++ zeros (S k))) by (done || lia).
    rewrite app_assoc in Em.
    destruct (IH (S f) m (out ++ t) stale k Em Hl Hm) as (stale' & k' & E & Hh & Hlen); [rewrite length_app; lia|done|].
    exists stale', k'. rewrite length_app in E, Hh, Hlen. rewrite Nat.add_assoc, E. split; [by rewrite <- !app_assoc, Nat.add_assoc|lia].
  - destruct fuel as [|f]; [lia|]. cbn [parm_loop length] in *.
    rewrite (proj2 (Nat.ltb_lt (length out) _)) by lia.
    assert (Es : strchr_at m (length out) DOLLAR = Done (Some (length out))).
    { rewrite Em. change ([DOLLAR] ++ cmdline l ++ stale ++ zeros (S k)) with ([] ++ DOLLAR :: (cmdline l ++ stale ++ zeros (S k))).
      rewrite strchr_at_app by done. cbn [length]. by rewrite Nat.add_0_r. }
    rewrite Es. cbn [mbind outcome_bind]. destruct (Nat.leb_spec (length out + (1 + length (cmdline l))) (length out + 3)) as [Hend|Hend].
    + exists stale, k. rewrite expand_short by (lia || by apply segs_seg_ok). rewrite Em. split; [by rewrite <- app_assoc|]. split; [lia|]. rewrite !length_app, length_zeros. cbn [length]. lia.
    + destruct (cmdline l) as [|c r] eqn:Ec; [cbn [length] in Hend; lia|].
      assert (Eg : get m (length out + 1) = Done c).
      { rewrite Em. rewrite app_assoc. change ((c :: r) ++ stale ++ zeros (S k)) with (c :: (r ++ stale ++ zeros (S k))). apply get_app. by rewrite length_app. }
      rewrite Eg. cbn [mbind outcome_bind]. rewrite (proj2 (Z.eqb_neq c LBRACE)) by (by apply Hdollar). cbn [negb].
      rewrite <- Ec in *. rewrite app_assoc in Em.
      destruct (IH f m (out ++ [DOLLAR]) stale k Em Hl Hm) as (stale' & k' & E & Hh & Hlen); [rewrite length_app; cbn [length]; lia|lia|].
      exists stale', k'. rewrite length_app in E, Hh, Hlen. cbn [length] in E, Hh, Hlen. rewrite Nat.add_assoc, E. split; [|lia].
      by rewrite <- !app_assoc, Nat.add_assoc.
  - change (DOLLAR :: LBRACE :: n ++ [RBRACE]) with (seg_text (Var n)) in *.
    destruct fuel as [|f]; [lia|]. set (q := (length (value n) + length (cmdline l))%nat).
    set (x := (DOLLAR :: LBRACE :: n ++ [0]) ++ cmdline l ++ stale).
    assert (Hx : length x = (length (seg_text (Var n)) + length (cmdline l) + length stale)%nat).
    { unfold x. rewrite !length_app. cbn [seg_text length]. rewrite !length_app. cbn [length]. lia. }
    assert (Hlm : length m = (length out + length x + S k)%nat).
    { rewrite Em, !length_app, length_zeros, Hx. lia. }
    assert (Er : drop q (DOLLAR :: LBRACE :: n ++ [0] ++ cmdline l ++ stale ++ zeros (S k)) = drop q x ++ zeros (S (k - (q - length x)))).
    { rewrite <- drop_zeros by (unfold q; lia). f_equal. unfold x. cbn [app]. by rewrite <- !app_assoc. }
    pose proof (parm_replace f out n (cmdline l) (stale ++ zeros (S k)) m Em Hs) as Hp. cbn zeta in Hp. fold q in Hp. rewrite Er in Hp.
    rewrite Nat.add_assoc, Hp by lia. clear Hp Er.
    destruct (IH f (out ++ value n ++ cmdline l ++ drop q x ++ zeros (S (k - (q - length x)))) (out ++ value n) (drop q x) (k - (q - length x))%nat)
      as (stale' & k' & E & Hh & Hlen).
    + by rewrite <- app_assoc.
    + done.
    + rewrite !length_app, length_drop, length_zeros. unfold q. lia.
    + rewrite length_app. lia.
    + lia.
    + exists stale', k'. rewrite length_app in E, Hh, Hlen. rewrite length_drop, Hx in Hh. rewrite E.
      pose proof (high_start value l (length out + length (value n))) as Hhs. unfold q in Hh.
      rewrite !length_app, length_drop, length_zeros in Hlen.
      split; [by rewrite <- !app_assoc, Nat.add_assoc|]. unfold q in Hlen. lia.
Qed.

(** Within its room, the line becomes its expansion.  It ends there if it got
    shorter, or if it was never longer than it is at the end. *)
Lemma process_segs l k :
  segs_ok l → let m := cmdline l ++ zeros (S k) in
  (max_len <= length m)%nat → (room value l < max_len)%nat →
  ∃ r, process_parm_line b bs m (length (cmdline l)) max_len site = Done (expand value l ++ r) ∧
    ((length (expand value l) < length (cmdline l) ∨ high value 0 l <= length (expand value l))%nat → ∃ r', r = 0 :: r').
Proof using Hvalue.
  intros Hl m Hm Hr. pose proof (passes_length l) as Hp.
  destruct (parm_segs l (S (length (cmdline l))) m [] [] k) as (stale & k' & E & Hh & Hlen); [done|done|done|cbn [length]; lia|lia|].
  cbn [app length Nat.add] in E, Hh, Hlen. unfold process_parm_line. rewrite E. cbn [mbind outcome_bind].
  pose proof (high_start value l 0) as Hhs. cbn [Nat.add] in Hhs.
  destruct (Nat.ltb_spec (length (expand value l)) (length (cmdline l))) as [Hlt|Hge].
  - destruct (cut_length (stale ++ zeros (S k')) (length (cmdline l) - length (expand value l))) as (x & y & Exy & Hx & _).
    { rewrite length_app, length_zeros. unfold m in Hlen. rewrite length_app in Hlen. lia. }
    rewrite Exy, put_bytes_app by (rewrite ?length_zeros; done). eexists. split; [done|]. intros _.
    destruct (length (cmdline l) - length (expand value l))%nat eqn:Ed; [lia|]. eexists. done.
  - eexists. split; [done|]. intros [?|Hhigh]; [lia|]. assert (length stale = 0)%nat as ?%nil_length_inv by lia. subst stale. by eexists.
Qed.
End Loop.
