(* ===== verification/Editenv.v ===== *)
(** zipl-editenv (src/zipl/src/zipl-editenv.c): changes or lists the environment
    block of an installed boot map, with the mapping of file offsets to disk blocks
    (src/zipl/src/fs-map.c) and the header of the boot map (src/zipl/src/bootmap_header.c).

    What the kernel and the allocator answer is a record.  The tool's own state is the command line's
    options and the block in memory; the result is the exit code, the printed text
    and the block that was written.  Allocations succeed, messages to the error log are left out. *)
From S2P Require Import Prelude Envblk EnvblkTables.
Import Envblk Tables.

Module Editenv.

(** ** The system *)

Record extent : Type := Extent { fe_encoded : bool; fe_logical : Z; fe_physical : Z }.

Record sys : Type := Sys {
  bootmap : option (list Z);         (** the boot map, [None] if it cannot be opened *)
  figetbsz : option nat;             (** ioctl FIGETBSZ *)
  reopen_ok : bool;                  (** opening it for direct access *)
  premap_ok : bool;                  (** [fs_premap_hook] *)
  fiemap : Z → option (option extent);  (** ioctl FS_IOC_FIEMAP: [None] if it fails, [Some None] for a hole *)
  fibmap : Z → option Z;             (** ioctl FIBMAP *)
  partition : option nat;            (** the size of the device with the file system, if it can be opened *)
  usable : nat → nat;                (** how many bytes an allocation of so many really has *)
}.

(** *** Mapping *)

(** the block number for a file offset *)
Definition fs_map (w : sys) (offset fs_block_size : Z) : option Z :=
  if negb (premap_ok w) then None
  else
    match fiemap w offset with
    | None => fibmap w (s32 (offset / fs_block_size))
    | Some None => Some 0
    | Some (Some x) =>
        if fe_encoded x then None
        else
          let map_offset := s32 (offset - fe_logical x) in
          Some (u64 (fe_physical x + map_offset) / fs_block_size)
    end.

(** *** The header of the boot map *)

Definition HEADER_SIZE : nat := 512.
Definition be_val (l : list Z) : Z := foldl (λ a c, a * 256 + c) 0 l.

(** [None] if it cannot be read *)
Definition bootmap_header_read (file : list Z) : option (list Z) :=
  if (HEADER_SIZE <=? length file)%nat then Some (take HEADER_SIZE file) else None.
Definition bh_envblk_offset (bh : list Z) : Z := be_val (take 8 (drop 56 bh)).

Definition envblk_size_get (w : sys) : option nat := figetbsz w.
Definition envblk_offset_get (file : list Z) : option Z := bh_envblk_offset <$> bootmap_header_read file.

(** ** The block in memory *)

Record zipl_envblk : Type := ZEB { buf : list Z; offset : Z; size : nat; need_update : bool }.

(** [None] is -1 *)
Definition envblk_open (w : sys) : option zipl_envblk :=
  file ← bootmap w;
  size ← envblk_size_get w;
  offset ← envblk_offset_get file;
  if offset =? 0 then None
  else if negb (reopen_ok w) then None
  else
    let n := Z.to_nat offset in
    if negb (n + size <=? length file)%nat then None
    else
      let buf := take size (drop n file) in
      if negb (bool_decide (take SIG_SIZE buf = ZIPL_ENVBLK_SIGNATURE)) then None
      else Some (ZEB buf offset size false).

(** where the block is written, [None] is -1 *)
Definition envblk_update (w : sys) (zeb : zipl_envblk) : option (Z * list Z) :=
  dev ← partition w;
  blknr ← fs_map w (offset zeb) (Z.of_nat (size zeb));
  let pos := blknr * Z.of_nat (size zeb) in
  if (pos <? 0) || (Z.of_nat dev <? pos + Z.of_nat (size zeb)) then None else Some (pos, buf zeb).

(** ** Options *)

Inductive op_id : Type := INVALID_OP_ID | SET_OP_ID | UNSET_OP_ID | RESET_OP_ID | LIST_OP_ID.
#[export] Instance op_id_eq_dec : EqDecision op_id.
Proof. solve_decision. Defined.

Record options : Type := Options {
  site_id : option (list Z); eff_site_id : option (list Z); bootmap_dir : option (list Z);
  verbose : bool; opcode : op_id; saved_arg : list Z;
}.
Definition no_options : options := Options None None None false INVALID_OP_ID [].

(** the site, [None] is an error *)
Definition set_site_id_common (arg : list Z) : option (list Z) :=
  let val := fst (strtol arg) in
  let n := strtol_len arg in
  if (n =? 0)%nat || negb (headc (drop n arg) =? 0) then None
  else if (val <? 0) || (9 <? val) then None
  else if (1 <? n)%nat then None
  else Some (cstr arg).

Definition save_op (o : options) (src : op_id) : option options :=
  if bool_decide (opcode o = INVALID_OP_ID) then
    Some (Options (site_id o) (eff_site_id o) (bootmap_dir o) (verbose o) src (saved_arg o))
  else None.

Definition save_op_arg (o : options) (src : op_id) (arg : list Z) : option options :=
  o ← save_op o src;
  Some (Options (site_id o) (eff_site_id o) (bootmap_dir o) (verbose o) (opcode o) arg).

Definition set_site_id (o : options) (arg : list Z) : option options :=
  match eff_site_id o with
  | Some _ => None
  | None => id ← set_site_id_common arg; Some (Options (Some id) (eff_site_id o) (bootmap_dir o) (verbose o) (opcode o) (saved_arg o))
  end.
Definition set_effective_site_id (o : options) (arg : list Z) : option options :=
  match site_id o with
  | Some _ => None
  | None => id ← set_site_id_common arg; Some (Options (site_id o) (Some id) (bootmap_dir o) (verbose o) (opcode o) (saved_arg o))
  end.

(** an option as [util_opt_getopt_long] returns it *)
Inductive opt : Type :=
  | OptHelp | OptVersion | OptVerbose | OptTarget (dir : list Z) | OptSite (arg : list Z) | OptEffective (arg : list Z)
  | OptReset | OptList | OptSet (arg : list Z) | OptUnset (arg : list Z) | OptUnknown.

(** the options, or the end of the program: with success or with a failure *)
Fixpoint parse_options (l : list opt) (o : options) : options + bool :=
  match l with
  | [] => inl o
  | OptHelp :: _ | OptVersion :: _ => inr true
  | OptVerbose :: l => parse_options l (Options (site_id o) (eff_site_id o) (bootmap_dir o) true (opcode o) (saved_arg o))
  | OptTarget dir :: l => parse_options l (Options (site_id o) (eff_site_id o) (Some dir) (verbose o) (opcode o) (saved_arg o))
  | OptSite arg :: l => match set_site_id o arg with Some o => parse_options l o | None => inr false end
  | OptEffective arg :: l => match set_effective_site_id o arg with Some o => parse_options l o | None => inr false end
  | OptReset :: l => match save_op o RESET_OP_ID with Some o => parse_options l o | None => inr false end
  | OptList :: l => match save_op o LIST_OP_ID with Some o => parse_options l o | None => inr false end
  | OptSet arg :: l => match save_op_arg o SET_OP_ID arg with Some o => parse_options l o | None => inr false end
  | OptUnset arg :: l => match save_op_arg o UNSET_OP_ID arg with Some o => parse_options l o | None => inr false end
  | OptUnknown :: _ => inr false
  end.

(** ** Operations *)

(** With a site, strlen(arg) + 1 bytes are allocated, and the prefix, the argument and
    its terminator are stored there: the last byte is behind the allocation, and the run
    is good only if the allocator has rounded the size up. *)
Definition build_prefixed_name (w : sys) (site_id : option (list Z)) (arg : list Z)
    : outcome (list Z) :=
  match site_id with
  | None => Done arg
  | Some s =>
      let name := headc s :: arg in
      if (usable w (length arg + 1) <? length name + 1)%nat then Fault else Done name
  end.

(** [get_name]: the name behind the prefix *)
Definition get_name (p : option (list Z)) (pname : list Z) : list Z :=
  match p with Some s => drop (length s) pname | None => pname end.

(** the result of the operation and the block *)
Definition env_set (w : sys) (o : options) (zeb : zipl_envblk) (arg : list Z)
    : outcome (Z * zipl_envblk) :=
  pname ← build_prefixed_name w (site_id o) arg;
  match strchr pname EQ with
  | None | Some O => Done (-1, zeb)
  | Some k =>
      let name := take k pname in
      let value := drop (S k) pname in
      if negb (envblk_check_name (get_name (site_id o) name) =? 0) then Done (-1, zeb)
      else
        '(ret, b) ← envblk_set (buf zeb) (size zeb) name value;
        if ret =? 0 then Done (0, ZEB b (offset zeb) (size zeb) true) else Done (-1, ZEB b (offset zeb) (size zeb) (need_update zeb))
  end.

Definition env_unset (w : sys) (o : options) (zeb : zipl_envblk) (arg : list Z)
    : outcome (Z * zipl_envblk) :=
  match strchr arg EQ with
  | Some _ => Done (-1, zeb)
  | None =>
      pname ← build_prefixed_name w (site_id o) arg;
      '(ret, b) ← envblk_unset (buf zeb) (strnlen (buf zeb) (size zeb)) pname;
      if ret =? 0 then Done (0, ZEB b (offset zeb) (size zeb) true) else Done (-1, ZEB b (offset zeb) (size zeb) (need_update zeb))
  end.

Definition env_reset (o : options) (zeb : zipl_envblk) : outcome (Z * zipl_envblk) :=
  b ← (match site_id o with
       | Some s => '(_, b) ← envblk_remove_namespace (buf zeb) (size zeb) s; Done b
       | None => envblk_blank (buf zeb) (size zeb)
       end);
  Done (0, ZEB b (offset zeb) (size zeb) true).

Definition do_list (o : options) (envblk : list Z) (envblk_size : nat) : outcome (Z * list Z) :=
  match site_id o, eff_site_id o with
  | Some s, _ => envblk_list_site envblk envblk_size (Z.to_nat (atoi s))
  | None, Some s => envblk_list_effective_site envblk envblk_size (Z.to_nat (atoi s))
  | None, None => envblk_list_all envblk envblk_size 0
  end.

Definition env_list (o : options) (zeb : zipl_envblk) : outcome (Z * list Z) :=
  do_list o (buf zeb) (strnlen (buf zeb) (size zeb)).

(** ** The program *)

Record result : Type := Result { success : bool; output : list Z; written : option (Z * list Z) }.

(** behind [out] *)
Definition finish (w : sys) (ret : Z) (zeb : zipl_envblk) (out : list Z) : result :=
  if need_update zeb then
    match envblk_update w zeb with
    | Some x => Result true out (Some x)
    | None => Result false out None
    end
  else Result (ret =? 0) out None.

(** [rest]: arguments that are no options *)
Definition main (w : sys) (l : list opt) (rest : bool) : outcome result :=
  match parse_options l no_options with
  | inr ok => Done (Result ok [] None)
  | inl o =>
      if rest then Done (Result true [] None)
      else if bool_decide (opcode o = INVALID_OP_ID) then Done (Result true [] None)
      else
        match envblk_open w with
        | None => Done (Result false [] None)
        | Some zeb =>
            match opcode o with
            | SET_OP_ID => '(ret, zeb) ← env_set w o zeb (saved_arg o); Done (finish w ret zeb [])
            | UNSET_OP_ID => '(ret, zeb) ← env_unset w o zeb (saved_arg o); Done (finish w ret zeb [])
            | RESET_OP_ID => '(ret, zeb) ← env_reset o zeb; Done (finish w ret zeb [])
            | _ => '(ret, out) ← env_list o zeb; Done (finish w ret zeb out)
            end
        end
  end.

End Editenv.
