(* ===== verification/EditenvProofs.v ===== *)
(** Every run of zipl-editenv on a well-formed environment block leaves a well-formed
    one. *)
From stdpp Require Import sets.
From S2P Require Import Prelude Envblk EnvblkSpec EnvblkTables EnvblkTablesProofs EnvblkImport Editenv.
Import Envblk Tables Editenv.

Section Invariants.
Implicit Types (e : env) (n v : list Z).

Lemma env_ok_put size n v e :
  env_ok size e → name_ok n → value_ok v → (length (image (env_put n v e)) <= size)%nat → env_ok size (env_put n v e).
Proof.
  intros [He _] Hn Hv Hs. split; [|done]. destruct (env_get n e) as [w|] eqn:E.
  - destruct (env_get_split _ _ _ E) as (e1 & e2 & -> & Hin). rewrite env_put_app by done.
    apply Forall_app in He as [H1 H2]. inversion_clear H2. apply Forall_app. split; [done|]. by constructor.
  - apply env_get_None in E. rewrite env_put_None by done. apply Forall_app. split; [done|]. constructor; [done|constructor].
Qed.
End Invariants.

Section Options.
Lemma strtol_digit s : (s < 10)%nat → set_site_id_common [digit s] = Some [digit s].
Proof. intros H. do 10 (destruct s as [|s]; [by vm_compute|]). lia. Qed.

Lemma count_while_digits l : count_while isdigit l = 1%nat → ∃ d r, l = d :: r ∧ isdigit d = true.
Proof. destruct l as [|c l]; [done|]. cbn. destruct (isdigit c) eqn:E; [|done]. intros _. by exists c, l. Qed.
Lemma site_id_digit arg id :
  Forall (.≠ 0) arg → set_site_id_common arg = Some id ↔ ∃ s, (s < 10)%nat ∧ arg = [digit s] ∧ id = [digit s].
Proof.
  intros Hz. split; [|by intros (s & Hs & -> & ->); apply strtol_digit].
  unfold set_site_id_common, strtol_len. rewrite (cstr_no_nul arg Hz). cbn zeta.
  set (bl := count_while isspace arg). set (sg := match drop bl arg with [] => 0%nat | c :: _ => if (c =? 45) || (c =? 43) then 1%nat else 0%nat end).
  set (dg := count_while isdigit (drop (bl + sg) arg)).
  destruct (dg =? 0)%nat eqn:Edg; [done|]. apply Nat.eqb_neq in Edg.
  destruct ((bl + sg + dg =? 0)%nat || _) eqn:E1; [done|]. destruct ((fst (strtol arg) <? 0) || _); [done|].
  destruct (1 <? bl + sg + dg)%nat eqn:E3; [done|]. apply Nat.ltb_ge in E3. intros [= <-].
  assert (Ebl : bl = 0%nat) by lia. assert (Esg : sg = 0%nat) by lia. assert (Ed1 : dg = 1%nat) by lia.
  unfold dg in Ed1. rewrite Ebl, Esg in Ed1. cbn [Nat.add] in Ed1. rewrite drop_0 in Ed1.
  destruct (count_while_digits _ Ed1) as (d & r & -> & Hd). apply orb_false_iff in E1 as [_ E1].
  replace (bl + sg + dg)%nat with 1%nat in E1 by lia. cbn [drop] in E1. rewrite drop_0 in E1.
  apply negb_false_iff, Z.eqb_eq in E1. destruct r as [|c r].
  - apply isdigit_range in Hd. exists (Z.to_nat (d - 48)). unfold digit. replace (48 + Z.of_nat (Z.to_nat (d - 48))) with d by lia. split; [lia|done].
  - cbn in E1. apply Forall_cons in Hz as [_ [Hc _]%Forall_cons]. by destruct Hc.
Qed.
End Options.

Section Editor.
Implicit Types (e : env) (n v : list Z).

(** the name with the prefix of a site *)
Definition site_name (s : option nat) n : list Z :=
  match s with Some d => digit d :: n | None => n end.

(** the allocator has room for the name with the prefix *)
Definition name_fits (w : sys) (s : option nat) (arg : list Z) : Prop :=
  match s with Some _ => (length arg + 2 <= usable w (length arg + 1))%nat | None => True end.

Lemma prefixed_name w s arg : (∀ d, s = Some d → (d < 10)%nat) →
  build_prefixed_name w ((λ d, [digit d]) <$> s) arg = Done (site_name s arg) ∨
  build_prefixed_name w ((λ d, [digit d]) <$> s) arg = Fault ∧ ¬ name_fits w s arg.
Proof.
  intros Hs. destruct s as [d|]; [|by left]. cbn [fmap option_fmap option_map build_prefixed_name headc length].
  destruct (Nat.ltb_spec (usable w (length arg + 1)) (S (length arg) + 1)) as [H|H]; [right|by left].
  split; [done|]. cbn [name_fits]. lia.
Qed.

Lemma site_name_ok s n : (∀ d, s = Some d → (d < 10)%nat) → name_ok n → name_ok (site_name s n).
Proof.
  intros Hs Hn. destruct s as [d|]; [|done]. apply (pname_no_eq (Some (digit d)) n); [|done].
  intros c [= <-]. specialize (Hs d eq_refl). unfold isdigit, digit. lia.
Qed.

Lemma env_set_site w o zeb size e s n v off :
  zeb = ZEB (block size e) off size false → site_id o = (λ d, [digit d]) <$> s →
  env_ok size e → (length e < ENVBLK_MAX_LINES)%nat → (∀ d, s = Some d → (d < 10)%nat) →
  name_fits w s (n ++ EQ :: v) → envblk_check_name n = 0 →
  overruns size e (site_name s n) v = false →
  (length (image (env_put (site_name s n) v e)) <= size)%nat →
  env_set w o zeb (n ++ EQ :: v) = Done (0, ZEB (block size (env_put (site_name s n) v e)) off size true).
Proof.
  intros -> Ho He Hk Hs Hroom Hn Hov Hfit. pose proof (check_name_ok n Hn) as Hok.
  pose proof (site_name_ok s n Hs Hok) as Hp. unfold env_set. rewrite Ho.
  destruct (prefixed_name w s (n ++ EQ :: v) Hs) as [->|[_ []]]; [|done]. rewrite Done_bind.
  replace (site_name s (n ++ EQ :: v)) with (site_name s n ++ EQ :: v) by (by destruct s).
  rewrite strchr_eq; [|by apply name_no_eq|eapply Forall_impl; [apply Hp|naive_solver]].
  assert (Hg : get_name ((λ d, [digit d]) <$> s) (site_name s n) = n) by (destruct s; cbn; by rewrite ?drop_0).
  rewrite take_app_length, Hg, Hn. cbn [Z.eqb negb].
  replace (drop (S (length (site_name s n))) (site_name s n ++ EQ :: v)) with v
    by (by rewrite drop_app_ge, Nat.sub_succ_l, Nat.sub_diag by lia).
  cbn [buf Editenv.size]. destruct (length (site_name s n)) eqn:El.
  - apply length_zero_iff_nil in El. by destruct Hp.
  - by rewrite set_block, Hov, (proj2 (Nat.leb_le _ _) Hfit) by done.
Qed.
End Editor.

(** ** Every run of the editor *)

Section AnyRun.
Implicit Types (e : env) (n v arg : list Z) (o : options).

(** the text of an argument *)
Definition plain_text (l : list Z) : Prop := Forall (λ c, c ≠ 0 ∧ c ≠ NL) l.
Definition opt_args (x : opt) : list (list Z) :=
  match x with OptTarget a | OptSite a | OptEffective a | OptSet a | OptUnset a => [a] | _ => [] end.
Definition args_ok (l : list opt) : Prop := Forall (λ x, Forall plain_text (opt_args x)) l.

(** a block that all parts of the program accept *)
Record env_wf (size : nat) (e : env) : Prop := EnvWf {
  wf_ok : env_ok size e; wf_names : env_names_ok e; wf_NoDup : NoDup e.*1; wf_lines : (length e <= ENVBLK_MAX_LINES)%nat }.

Definition site_ok (s : option (list Z)) : Prop := ∀ x, s = Some x → ∃ d, (d < 10)%nat ∧ x = [digit d].
Definition options_ok o : Prop := site_ok (site_id o) ∧ site_ok (eff_site_id o) ∧ plain_text (saved_arg o).

Lemma plain_no_nul l : plain_text l → Forall (.≠ 0) l.
Proof. intros H. eapply Forall_impl; [exact H|naive_solver]. Qed.

Lemma site_common_ok arg x : plain_text arg → set_site_id_common arg = Some x → site_ok (Some x).
Proof. intros Ha Hx%site_id_digit; [|by apply plain_no_nul]. destruct Hx as (d & Hd & _ & ->). intros y [= <-]. by exists d. Qed.

Lemma parse_options_ok l : ∀ o o', args_ok l → options_ok o → parse_options l o = inl o' → options_ok o'.
Proof.
  induction l as [|x l IH]; intros o o' Hl Ho; [by intros [= <-]|]. inversion_clear Hl as [|? ? Hx Hl']. destruct Ho as (H1 & H2 & H3).
  destruct x; cbn [parse_options]; try done; cbn [opt_args] in Hx; try (apply Forall_cons in Hx as [Hx _]).
  - by apply IH.
  - by apply IH.
  - unfold set_site_id. destruct (eff_site_id o); [done|]. destruct (set_site_id_common arg) as [x|] eqn:E; cbn [mbind option_bind]; [|done].
    apply IH; [done|]. split_and!; [by eapply site_common_ok|done|done].
  - unfold set_effective_site_id. destruct (site_id o); [done|]. destruct (set_site_id_common arg) as [x|] eqn:E; cbn [mbind option_bind]; [|done].
    apply IH; [done|]. split_and!; [done|by eapply site_common_ok|done].
  - unfold save_op. destruct (bool_decide _); [|done]. by apply IH.
  - unfold save_op. destruct (bool_decide _); [|done]. by apply IH.
  - unfold save_op_arg, save_op. destruct (bool_decide _); [|done]. cbn [mbind option_bind]. by apply IH.
  - unfold save_op_arg, save_op. destruct (bool_decide _); [|done]. cbn [mbind option_bind]. by apply IH.
Qed.

Lemma env_wf_put size n v e :
  env_wf size e → (length e < ENVBLK_MAX_LINES)%nat → pname_ok n → name_ok n → value_ok v →
  (length (image (env_put n v e)) <= size)%nat → env_wf size (env_put n v e).
Proof.
  intros [H1 H2 H3 H4] Hk Hp Hn Hv Hs. destruct (env_get n e) as [w|] eqn:E.
  - split; [by apply env_ok_put| | |].
    + destruct (env_get_split _ _ _ E) as (e1 & e2 & -> & Hin). rewrite env_put_app by done. unfold env_names_ok in *.
      apply Forall_app in H2 as [Ha Hb]. apply Forall_cons in Hb as [_ Hb]. apply Forall_app. split; [done|]. by constructor.
    + apply names_ok_put; [|by apply name_no_eq]. split; [|done]. eapply Forall_impl; [apply H1|]. intros a [Ha _]. by apply name_no_eq.
    + destruct (env_get_split _ _ _ E) as (e1 & e2 & -> & Hin). rewrite env_put_app by done. by rewrite length_app in *.
  - split; [by apply env_ok_put| | |]; pose proof E as E'; apply env_get_None in E'; rewrite env_put_None by done.
    + apply Forall_app. split; [done|]. constructor; [done|constructor].
    + rewrite fmap_app. apply NoDup_app. split_and!; [done|set_solver|apply NoDup_singleton].
    + rewrite length_app. cbn. lia.
Qed.

Lemma env_wf_sublist size e e' : e' `sublist_of` e → (length (image e') <= size)%nat → env_wf size e → env_wf size e'.
Proof.
  intros Hs Hi [[H1 _] H2 H3 H4]. assert (Hin : ∀ a, a ∈ e' → a ∈ e) by (intros a; by apply sublist_subseteq). split; [split; [|done]| | |].
  - rewrite Forall_forall in *. auto.
  - unfold env_names_ok in *. rewrite Forall_forall in *. auto.
  - eapply sublist_NoDup; [exact H3|]. by apply fmap_sublist.
  - apply sublist_length in Hs. lia.
Qed.

Lemma length_image_sublist e e' : e' `sublist_of` e → (length (image e') <= length (image e))%nat.
Proof.
  rewrite !length_image. induction 1 as [|a e' e _ IH|a e' e _ IH]; [done| |]; rewrite ?lines_cons, ?length_app; lia.
Qed.

Lemma site_ok_nat (x : option (list Z)) : site_ok x →
  ∃ s : option nat, x = (λ d, [digit d]) <$> s ∧ ∀ d, s = Some d → (d < 10)%nat.
Proof.
  intros Hx. destruct x as [x|]; [|by exists None]. destruct (Hx x eq_refl) as (d & Hd & ->).
  exists (Some d). split; [done|]. by intros ? [= <-].
Qed.

Lemma plain_site_name s arg : (∀ d, s = Some d → (d < 10)%nat) → plain_text arg → plain_text (site_name s arg).
Proof.
  intros Hs Ha. destruct s as [d|]; [|done]. constructor; [|done]. specialize (Hs d eq_refl). unfold digit, NL. lia.
Qed.

Lemma strchr_split l k : plain_text l → strchr l EQ = Some k → l = take k l ++ EQ :: drop (S k) l.
Proof.
  intros Hl. unfold strchr. rewrite cstr_no_nul by (by apply plain_no_nul). clear Hl. revert k.
  induction l as [|c l IH]; intros k; cbn [find_sub prefixb]; [done|].
  destruct (Z.eqb_spec EQ c) as [<-|Hc]; cbn [andb].
  - destruct l; by intros [= <-].
  - destruct (find_sub [EQ] l) as [j|]; [|done]. intros [= <-]. cbn [take drop app]. f_equal. by apply IH.
Qed.

(** what can go wrong when a variable is set: the name overruns its allocation, or a
    shorter value overruns the block *)
Definition name_overrun (w : sys) o : Prop :=
  ∃ d, site_id o = Some [digit d] ∧ ¬ name_fits w (Some d) (saved_arg o).
Definition value_overrun size e o : Prop :=
  ∃ s n v, site_id o = (λ d, [digit d]) <$> s ∧ site_name s (saved_arg o) = n ++ EQ :: v ∧
    overruns size e n v = true.

Lemma prefixed_name_any w o s :
  site_id o = (λ d, [digit d]) <$> s → (∀ d, s = Some d → (d < 10)%nat) →
  build_prefixed_name w (site_id o) (saved_arg o) = Done (site_name s (saved_arg o)) ∨
  build_prefixed_name w (site_id o) (saved_arg o) = Fault ∧ name_overrun w o.
Proof.
  intros Es Hs. rewrite Es. destruct (prefixed_name w s (saved_arg o) Hs) as [?|[? Hf]]; [by left|right].
  split; [done|]. destruct s as [d|]; [by exists d|by destruct Hf].
Qed.

(** [env_set]: a well-formed block again, or an overrun *)
Lemma env_set_any w o size e off :
  options_ok o → env_wf size e → (length e < ENVBLK_MAX_LINES)%nat →
  (env_set w o (ZEB (block size e) off size false) (saved_arg o) = Fault ∧ (name_overrun w o ∨ value_overrun size e o)) ∨
  ∃ ret e' u, env_set w o (ZEB (block size e) off size false) (saved_arg o) = Done (ret, ZEB (block size e') off size u) ∧ env_wf size e'.
Proof.
  intros (Hs & _ & Ha) Hwf Hk. destruct (site_ok_nat _ Hs) as (s & Es & Hd). unfold env_set.
  destruct (prefixed_name_any w o s Es Hd) as [->|[-> Hf]]; [|left; by eauto]. rewrite Done_bind.
  pose proof (plain_site_name s (saved_arg o) Hd Ha) as Hpn. set (pn := site_name s (saved_arg o)) in *.
  destruct (strchr pn EQ) as [[|k]|] eqn:Ek; [right; by exists (-1), e, false| |right; by exists (-1), e, false].
  destruct (negb _) eqn:Ec; [right; by exists (-1), e, false|].
  apply negb_false_iff, Z.eqb_eq in Ec. rewrite Es in Ec.
  assert (Hname : pname_ok (take (S k) pn)).
  { unfold pname_ok, pn, get_name in *. destruct s as [d|]; cbn [site_name fmap option_fmap option_map] in *.
    - specialize (Hd d eq_refl). cbn [take drop base length] in *.
      replace (isdigit (digit d)) with true by (symmetry; unfold isdigit, digit; lia). by rewrite drop_0 in Ec.
    - destruct (check_name_inv _ Ec) as (c & r & Ecr & Hc & _). rewrite Ecr in *. cbn [base].
      apply name_start_not_digit in Hc as [-> _]. done. }
  assert (Hnok : name_ok (take (S k) pn)).
  { pose proof (check_name_ok _ Hname) as [Hb1 Hb2]. rewrite (full_name_split _ Hname). unfold full_name.
    destruct (Nat.ltb_spec (site_of (take (S k) pn)) 10); [|done]. split; [done|]. constructor; [|done]. unfold digit, EQ, NL. lia. }
  cbn [buf Editenv.size]. rewrite set_block by (done || apply Hwf). destruct (overruns size e _ _) eqn:Eo.
  { left. split; [done|]. right. exists s, (take (S k) pn), (drop (S (S k)) pn). split_and!; [done|by apply strchr_split|done]. }
  right. destruct (Nat.leb_spec (length (image (env_put (take (S k) pn) (drop (S (S k)) pn) e))) size) as [Hfit|Hfit]; cbn [mbind outcome_bind Z.eqb].
  - eexists _, _, _. split; [done|]. apply env_wf_put; try done. unfold value_ok. by apply Forall_drop.
  - by exists (-1), e, false.
Qed.

Lemma strchr_none l : plain_text l → strchr l EQ = None → no_eq l.
Proof.
  intros Hl. unfold strchr. rewrite cstr_no_nul by (by apply plain_no_nul). clear Hl.
  induction l as [|c l IH]; [constructor|]. cbn [find_sub prefixb].
  destruct (Z.eqb_spec EQ c) as [->|Hc]; [done|]. cbn [andb].
  destruct (find_sub [EQ] l); [done|]. constructor; [done|]. by apply IH.
Qed.

Lemma env_unset_any w o size e off :
  options_ok o → env_wf size e →
  (env_unset w o (ZEB (block size e) off size false) (saved_arg o) = Fault ∧ name_overrun w o) ∨
  ∃ ret e' u, env_unset w o (ZEB (block size e) off size false) (saved_arg o) = Done (ret, ZEB (block size e') off size u) ∧ env_wf size e'.
Proof.
  intros (Hs & _ & Ha) Hwf. destruct (site_ok_nat _ Hs) as (s & Es & Hd). unfold env_unset.
  destruct (strchr (saved_arg o) EQ) as [k|] eqn:Ek; [right; by exists (-1), e, false|].
  apply strchr_none in Ek; [|done].
  destruct (prefixed_name_any w o s Es Hd) as [->|[-> Hf]]; [|by left]. rewrite Done_bind.
  assert (Hpn : no_eq (site_name s (saved_arg o))).
  { destruct s as [d|]; [|done]. constructor; [|done]. specialize (Hd d eq_refl). unfold digit, EQ. lia. }
  right. cbn [buf Editenv.size]. rewrite strnlen_block by apply Hwf. rewrite unset_block by (done || apply Hwf).
  destruct (decide _); cbn [mbind outcome_bind Z.eqb]; [|by exists (-1), e, false].
  eexists _, _, _. split; [done|]. eapply env_wf_sublist; [apply env_del_sublist| |done].
  by apply (env_ok_del size (site_name s (saved_arg o)) e (wf_ok _ _ Hwf)).
Qed.

(** where the options of a run come from *)
Lemma parse_options_from l : ∀ o o', parse_options l o = inl o' →
  (site_id o' = site_id o ∨ ∃ a, OptSite a ∈ l) ∧
  (opcode o' = SET_OP_ID → (opcode o = SET_OP_ID ∧ saved_arg o' = saved_arg o) ∨ OptSet (saved_arg o') ∈ l) ∧
  (opcode o' = UNSET_OP_ID → (opcode o = UNSET_OP_ID ∧ saved_arg o' = saved_arg o) ∨ OptUnset (saved_arg o') ∈ l).
Proof.
  induction l as [|x l IH]; intros o o'; [intros [= <-]; naive_solver|].
  destruct x; cbn [parse_options]; try done.
  3: unfold set_site_id; destruct (eff_site_id o); [done|].
  4: unfold set_effective_site_id; destruct (site_id o) eqn:Es; [done|].
  3, 4: destruct (set_site_id_common arg); [|done].
  5, 6: unfold save_op; destruct (bool_decide_reflect (opcode o = INVALID_OP_ID)); [|done].
  7, 8: unfold save_op_arg, save_op; destruct (bool_decide_reflect (opcode o = INVALID_OP_ID)); [|done].
  all: cbn [mbind option_bind]; intros H%IH; set_solver.
Qed.

Lemma env_reset_any o size e off :
  options_ok o → env_wf size e →
  ∃ ret e' u, env_reset o (ZEB (block size e) off size false) = Done (ret, ZEB (block size e') off size u) ∧ env_wf size e'.
Proof.
  intros (Hs & _ & _) Hwf. unfold env_reset. cbn [buf Editenv.size offset]. destruct (site_id o) as [s|].
  - destruct (Hs s eq_refl) as (d & Hd & ->). rewrite remove_namespace_block; [|apply Hwf|apply Hwf|pose proof (wf_lines _ _ Hwf); lia|done].
    cbn [mbind outcome_bind]. eexists _, _, _. split; [done|]. eapply env_wf_sublist; [apply sublist_filter| |done].
    etransitivity; [apply length_image_sublist, sublist_filter|]. apply Hwf.
  - unfold envblk_blank. pose proof (proj2 (wf_ok _ _ Hwf)) as Hi. pose proof (length_image e) as Hl.
    assert (Eb : block size e = ZIPL_ENVBLK_SIGNATURE ++ (lines e ++ zeros (size - length (image e))) ++ []).
    { unfold block, image. by rewrite app_nil_r, <- app_assoc. }
    rewrite Eb, put_bytes_app; [|done|rewrite length_app, !length_zeros; lia]. cbn [mbind outcome_bind].
    exists 0, [], true. split.
    + unfold block, image. cbn [lines fmap list_fmap concat]. by rewrite !app_nil_r.
    + eapply env_wf_sublist; [apply sublist_nil_l| |done]. rewrite length_image. cbn [lines fmap list_fmap concat length]. lia.
Qed.
End AnyRun.

(** ** The listing of all namespaces *)

Section ListAll.
Lemma print_namespace_total t title i out : ∃ out', print_namespace t title i out = Done out'.
Proof.
  unfold print_namespace. destruct t as [t|]; [|by exists out]. rewrite table_scan_act, print_act. cbn [mbind outcome_bind]. by eexists.
Qed.

Lemma print_sites_total ts : ∀ i indent out, ∃ out', print_sites ts i indent out = Done out'.
Proof.
  induction ts as [|t ts IH]; intros i indent out; [by exists out|]. cbn [print_sites]. destruct ts as [|t' ts]; [by exists out|].
  destruct (print_namespace_total t (site_title i) indent out) as [out' ->]. cbn [mbind outcome_bind]. apply IH.
Qed.

Lemma list_all_total size stop e indent :
  env_ok size e → env_names_ok e → (length e <= S ENVBLK_MAX_LINES)%nat → (length (image e) <= stop <= size)%nat →
  ∃ out, envblk_list_all (block size e) stop indent = Done (0, out).
Proof.
  intros He Hn Hk Hs. destruct (scan_namespaces size stop e He Hn Hk Hs) as (ts & Ets & _). unfold envblk_list_all. rewrite Ets.
  cbn [mbind outcome_bind Z.eqb negb]. 
  destruct (print_namespace_total (common_table ts) (if negb (nr_sites ts =? 0)%nat then bytes_of_string "Common variables:" ++ [NL] else [])
    (if negb (nr_sites ts =? 0)%nat then indent else indent - 1) []) as [o1 ->]. cbn [mbind outcome_bind].
  destruct (print_sites_total ts 0 indent o1) as [o2 ->]. cbn [mbind outcome_bind]. by eexists.
Qed.

Lemma env_list_any o size e off :
  options_ok o → env_wf size e → ∃ out, env_list o (ZEB (block size e) off size false) = Done (0, out).
Proof.
  intros (Hs & He & _) [H1 H2 H3 H4]. unfold env_list, do_list. cbn [buf Editenv.size]. rewrite strnlen_block by done.
  assert (Hk : (length e <= S ENVBLK_MAX_LINES)%nat) by lia.
  assert (Hi : (length (image e) <= length (image e) <= size)%nat) by (destruct H1; lia).
  destruct (site_id o) as [s|]; [|destruct (eff_site_id o) as [s|]].
  - destruct (Hs s eq_refl) as (d & Hd & ->). destruct (site_digit d Hd) as (_ & -> & _). rewrite Nat2Z.id.
    destruct (list_site_block size _ e H1 H2 Hk Hi d) as (l & -> & _); [lia|]. by eexists.
  - destruct (He s eq_refl) as (d & Hd & ->). destruct (site_digit d Hd) as (_ & -> & _). rewrite Nat2Z.id.
    destruct (list_effective_block size _ e H1 H2 Hk Hi d Hd) as (l & -> & _). by eexists.
  - by apply list_all_total.
Qed.
End ListAll.
