(* ===== verification/EnvProps.v ===== *)
(** What the environment block promises: the editor and the import keep a list of
    variables, the listings show it by site, and the boot loader puts the values of
    the active site into the kernel command line. *)
From stdpp Require Import sets.
From S2P Require Import Prelude Envblk EnvblkSpec EnvblkTables EnvblkTablesProofs EnvblkImport Stage3 Stage3Proofs ParmLine Editenv EditenvProofs.
Import Envblk Tables Editenv.

(** ** Sample data *)

Definition str (s : string) : list Z := bytes_of_string s.
(** root=... for all sites, another root for site 3 *)
Definition sample : env := [(str "root", str "/dev/dasda1"); (str "3root", str "/dev/dasdb1"); (str "quiet", str "1")].

Definition entry_okb (a : entry) : bool :=
  negb (bool_decide (a.1 = [])) && forallb (λ c, negb (c =? 0) && negb (c =? EQ) && negb (c =? NL)) a.1
  && forallb (λ c, negb (c =? 0) && negb (c =? NL)) a.2.

Lemma entry_okb_ok e : forallb entry_okb e = true → Forall entry_ok e.
Proof.
  intros H. apply Forall_forall. intros a Ha. rewrite forallb_forall in H. specialize (H a (proj1 (list_elem_of_In _ _) Ha)).
  unfold entry_okb in H. apply andb_true_iff in H as [H Hv]. apply andb_true_iff in H as [H0 Hn].
  apply negb_true_iff, bool_decide_eq_false in H0. rewrite forallb_forall in Hn, Hv. split; [split; [done|]|].
  - apply Forall_forall. intros c Hc. specialize (Hn c (proj1 (list_elem_of_In _ _) Hc)). b2p. lia.
  - apply Forall_forall. intros c Hc. specialize (Hv c (proj1 (list_elem_of_In _ _) Hc)). b2p. lia.
Qed.

Lemma sample_ok : env_ok 512 sample.
Proof. split; [by apply entry_okb_ok; vm_compute|vm_compute; lia]. Qed.
Lemma sample_names : env_names_ok sample.
Proof. by repeat constructor. Qed.
Lemma sample_NoDup : NoDup sample.*1.
Proof. by apply (bool_decide_unpack (NoDup sample.*1)); vm_compute. Qed.

(** ** The block *)

(** C14: On a block that holds fewer than 512 variables, envblk_set is an assignment: the
    variable gets the value and the others keep theirs, or nothing changes if there is not
    enough space. But a value that is shorter than the old one by d bytes is written beyond
    the end of the block unless 2 d bytes are free. *)
Theorem set_is_assignment size e n v :
  env_ok size e → (length e < ENVBLK_MAX_LINES)%nat → name_ok n → value_ok v →
  let e' := env_put n v e in
  envblk_set (block size e) size n v =
    (if overruns size e n v then Fault
     else if (length (image e') <=? size)%nat then Done (0, block size e') else Done (-1, block size e)) ∧
  (∀ m, env_get m e' = if decide (m = n) then Some v else env_get m e) ∧
  ((length (image e') <= size)%nat → env_ok size e').
Proof.
  intros He Hk Hn Hv e'. split; [by apply set_block|]. split; [intros m; apply env_get_put|]. intros Hs. by apply env_ok_put.
Qed.

Lemma set_is_assignment_witness :
  envblk_set (block 512 sample) 512 (str "3root") (str "/dev/dasdc1") = Done (0, block 512 (env_put (str "3root") (str "/dev/dasdc1") sample)).
Proof.
  assert (Hn : name_ok (str "3root")) by (split; [done|]; by apply (bool_decide_unpack (Forall (λ c, c ≠ 0 ∧ c ≠ EQ ∧ c ≠ NL) (str "3root"))); vm_compute).
  assert (Hv : value_ok (str "/dev/dasdc1")) by (by apply (bool_decide_unpack (Forall (λ c, c ≠ 0 ∧ c ≠ NL) (str "/dev/dasdc1"))); vm_compute).
  assert (Hk : (length sample < ENVBLK_MAX_LINES)%nat) by (vm_compute; lia).
  destruct (set_is_assignment 512 sample (str "3root") (str "/dev/dasdc1") sample_ok Hk Hn Hv) as [H _].
  rewrite H. reflexivity.
Defined.

(** Envblk_unset removes the variable of that name and leaves the others, or
    returns -1 and leaves the block alone if there is no such variable. *)
Theorem unset_removes size e n :
  env_ok size e → no_eq n →
  envblk_unset (block size e) (strnlen (block size e) size) n =
    (if decide (n ∈ e.*1) then Done (0, block size (env_del n e)) else Done (-1, block size e)) ∧
  env_ok size (env_del n e).
Proof. intros He Hn. rewrite strnlen_block by done. split; [by apply unset_block|by apply env_ok_del]. Qed.

Lemma unset_removes_witness :
  envblk_unset (block 512 sample) (strnlen (block 512 sample) 512) (str "root") = Done (0, block 512 (env_del (str "root") sample)).
Proof.
  assert (Hn : no_eq (str "root")) by (by apply (bool_decide_unpack (Forall (.≠ EQ) (str "root"))); vm_compute).
  destruct (unset_removes 512 sample (str "root") sample_ok Hn) as [H _]. rewrite H. reflexivity.
Defined.

(** A file with comments, titles of sites and assignments, small enough for the block,
    is imported for a boot job, whatever the memory held before: the block of the job holds
    the variables that the file assigns, for each site and name the last value. *)
Theorem import_last_assignment_wins memory l :
  let size := length memory in
  Forall item_ok l → (SIG_SIZE + cost l <= size)%nat → (length (assigned l None []) <= ENVBLK_MAX_LINES)%nat →
  ∃ e, get_job_envblk_data true (Some size) memory (Some (render_all l)) = Done (0, Some (block size e)) ∧
    ∀ n, env_get n e = env_get n (assigned l None []).
Proof.
  intros size Hl Hs Hm. destruct (import_items size l Hl Hs Hm) as (e & E & He). exists e. split.
  - unfold get_job_envblk_data. cbn [negb]. unfold size in *. rewrite create_blank_block by lia. cbn [mbind outcome_bind]. by rewrite E.
  - intros n. symmetry. apply env_get_perm; [|by symmetry]. apply assigned_names; [done|done|split; constructor].
Qed.

Definition sample_file : list item :=
  [Comment (str " boot"); Assign (str "root") (str "/dev/dasda1"); Assign (str "quiet") (str "0"); Blank; Assign (str "quiet") (str "1");
   Site 51; Assign (str "root") (str "/dev/dasdb1")].

Lemma sample_file_ok : Forall item_ok sample_file.
Proof. repeat constructor; try by vm_compute. Qed.

Lemma import_last_assignment_wins_witness :
  ∃ e, get_job_envblk_data true (Some 512%nat) (replicate 512 255) (Some (render_all sample_file)) = Done (0, Some (block 512 e)) ∧
    env_get (str "quiet") e = Some (str "1").
Proof.
  assert (Hs : (SIG_SIZE + cost sample_file <= length (replicate 512 255))%nat) by (vm_compute; lia).
  assert (Hm : (length (assigned sample_file None []) <= ENVBLK_MAX_LINES)%nat) by (vm_compute; lia).
  destruct (import_last_assignment_wins (replicate 512 255) sample_file sample_file_ok Hs Hm) as (e & E & He).
  exists e. split; [exact E|]. rewrite He. reflexivity.
Defined.

(** ** Listings *)

(** The listing for an effective site shows every name once, with the value of the
    site, or the common value if the site has none. *)
Theorem effective_listing size stop e s :
  env_ok size e → env_names_ok e → NoDup e.*1 → (length e <= S ENVBLK_MAX_LINES)%nat →
  (length (image e) <= stop <= size)%nat → (s < 10)%nat →
  ∃ l, envblk_list_effective_site (block size e) stop s = Done (0, lines l) ∧ NoDup l.*1 ∧
    ∀ n, envblk_check_name n = 0 →
      env_get n l = match env_get (digit s :: n) e with Some v => Some v | None => env_get n e end.
Proof.
  intros He Hn Hd Hk Hstop Hs. destruct (list_effective_block size stop e He Hn Hk Hstop s Hs) as (l & El & Hl).
  exists l. pose proof (effective_NoDup s e Hn Hd) as Hde. split; [done|]. split; [by rewrite Hl|].
  intros n Hc. rewrite (env_get_perm n l (effective s e)) by (by rewrite ?Hl). by apply env_get_effective.
Qed.

Lemma effective_listing_witness :
  ∃ l, envblk_list_effective_site (block 512 sample) 100 3 = Done (0, lines l) ∧ env_get (str "root") l = Some (str "/dev/dasdb1").
Proof.
  assert (Hk : (length sample <= S ENVBLK_MAX_LINES)%nat) by (vm_compute; lia).
  assert (Hs : (length (image sample) <= 100 <= 512)%nat) by (vm_compute; lia).
  assert (H3 : (3 < 10)%nat) by lia.
  destruct (effective_listing 512 100 sample 3 sample_ok sample_names sample_NoDup Hk Hs H3) as (l & El & _ & Hl).
  exists l. split; [exact El|]. rewrite Hl; reflexivity.
Defined.

(** Removing a site removes all of its variables and no other ones. *)
Theorem remove_namespace_removes size e s :
  env_ok size e → env_names_ok e → (length e <= S ENVBLK_MAX_LINES)%nat → (s < 10)%nat →
  envblk_remove_namespace (block size e) size [digit s] = Done (0, block size (filter (λ a : entry, site_of a.1 ≠ s) e)).
Proof. apply remove_namespace_block. Qed.

Lemma remove_namespace_removes_witness :
  envblk_remove_namespace (block 512 sample) 512 [digit 3] = Done (0, block 512 [(str "root", str "/dev/dasda1"); (str "quiet", str "1")]).
Proof.
  assert (Hk : (length sample <= S ENVBLK_MAX_LINES)%nat) by (vm_compute; lia).
  assert (H3 : (3 < 10)%nat) by lia.
  exact (remove_namespace_removes 512 sample 3 sample_ok sample_names Hk H3).
Defined.

(** ** The boot loader *)

(** C15: What the editor lists for an effective site is what the boot loader uses: for every
    name the boot loader finds the listed value, and the empty string for a name that is
    not listed. *)
Theorem boot_uses_the_listing size e s n :
  env_ok size e → env_names_ok e → NoDup e.*1 → (length e <= ENVBLK_MAX_LINES)%nat → (s < 10)%nat → envblk_check_name n = 0 →
  ∃ l b bs, envblk_list_effective_site (block size e) (strnlen (block size e) size) s = Done (0, lines l) ∧
    Stage3.parse_envblk (block size e) = Done (true, b, bs) ∧
    (item ← Stage3.lookup_item b bs n (Some (digit s)); Stage3.item_value b item) = Done (default [] (env_get n l)).
Proof.
  intros He Hn Hd Hk Hs Hc. rewrite strnlen_block by done.
  destruct (list_effective_block size (length (image e)) e He Hn) with (s := s) as (l & El & Hl); [lia|destruct He; lia|done|].
  destruct (parse_block size e He Hk) as (b & bs & Ep & Hb). exists l, b, bs. split_and!; [done|done|].
  pose proof (effective_NoDup s e Hn Hd) as Hde. destruct (check_name_ok n Hc) as [Hne _].
  rewrite (lookup_value b bs e n (Some (digit s)) Hb (proj1 He) Hd Hne). unfold boot_value. do 2 f_equal.
  rewrite (env_get_perm n l (effective s e)) by (by rewrite ?Hl). symmetry. by apply env_get_effective.
Qed.

Lemma boot_uses_the_listing_witness :
  ∃ l b bs, envblk_list_effective_site (block 512 sample) (strnlen (block 512 sample) 512) 3 = Done (0, lines l) ∧
    Stage3.parse_envblk (block 512 sample) = Done (true, b, bs) ∧
    (item ← Stage3.lookup_item b bs (str "root") (Some (digit 3)); Stage3.item_value b item) = Done (default [] (env_get (str "root") l)).
Proof.
  assert (Hk : (length sample <= ENVBLK_MAX_LINES)%nat) by (vm_compute; lia).
  assert (H3 : (3 < 10)%nat) by lia.
  exact (boot_uses_the_listing 512 sample 3 (str "root") sample_ok sample_names sample_NoDup Hk H3 eq_refl).
Defined.

Section CommandLine.
Implicit Types (e : env) (l : list seg).

Lemma boot_value_no_nul e site n : Forall entry_ok e → Forall (.≠ 0) (boot_value e site n).
Proof.
  intros He. rewrite Forall_forall in He.
  assert (H : ∀ m v, env_get m e = Some v → Forall (.≠ 0) v).
  { intros m v Hv. apply env_get_in, He in Hv as [_ Hv]. eapply Forall_impl; [exact Hv|naive_solver]. }
  unfold boot_value. destruct site as [c|].
  - destruct (env_get (c :: n) e) as [v|] eqn:E; [by apply (H (c :: n))|]. destruct (env_get n e) as [v|] eqn:E'; [by apply (H n)|constructor].
  - destruct (env_get n e) as [v|] eqn:E'; [by apply (H n)|constructor].
Qed.

Lemma expand_no_nul value l : (∀ n, Forall (.≠ 0) (value n)) → Forall seg_ok l → Forall (.≠ 0) (expand value l).
Proof.
  intros Hv. induction 1 as [|s l Hs _ IH]; [constructor|]. unfold expand. cbn [fmap list_fmap concat]. apply Forall_app. split; [|done].
  destruct s as [t| |n]; cbn [seg_value]; [|by repeat constructor|done]. eapply Forall_impl; [exact Hs|naive_solver].
Qed.
End CommandLine.

(** C9: Booting with an environment block replaces every ${NAME} of the command line with
    the value of the name in the active site, with nothing if it has none, and leaves the
    rest as it is: if the line has the room it needs and gets shorter, or is at the end as
    long as it ever was. *)
Theorem boot_expands_command_line size e loadparm ssid l k max_len :
  env_ok size e → NoDup e.*1 → (length e <= ENVBLK_MAX_LINES)%nat → segs_ok l →
  let value := boot_value e (headc <$> Stage3.get_active_site loadparm ssid) in
  (max_len <= length (cmdline l) + S k)%nat → (room value l < max_len)%nat →
  (length (expand value l) < length (cmdline l) ∨ high value 0 l <= length (expand value l))%nat →
  ∃ m, Stage3.handle_environment (Some (block size e)) loadparm ssid (cmdline l ++ zeros (S k)) (length (cmdline l)) max_len = Done m ∧
    cstr m = expand value l.
Proof.
  intros He Hd Hk Hl value Hmax Hroom Hend. destruct (parse_block size e He Hk) as (b & bs & Ep & Hb).
  unfold Stage3.handle_environment. rewrite Ep. cbn [mbind outcome_bind]. set (site := headc <$> _) in *.
  destruct (process_segs b bs max_len site value) with (l := l) (k := k) as (r & Er & Hr); [| |rewrite length_app, length_zeros; lia|done|].
  - intros n Hne. apply lookup_value; [done|apply He|done|done].
  - done.
  - eexists. split; [exact Er|]. destruct (Hr Hend) as [r' ->]. apply cstr_app_nul, expand_no_nul; [|by apply segs_seg_ok].
    intros n. apply boot_value_no_nul, He.
Qed.

(** root=${root} $x, with S3 as LOADPARM *)
Definition sample_line : list seg := [Text (str "root="); Var (str "root"); Text (str " "); Dollar; Text (str "x")].
Definition sample_loadparm : list Z := [226; 243; 64; 64; 64; 64; 64; 64].

Lemma boot_expands_command_line_witness :
  ∃ m, Stage3.handle_environment (Some (block 512 sample)) (Some sample_loadparm) None (cmdline sample_line ++ zeros (S 100)) (length (cmdline sample_line)) 100 = Done m ∧
    cstr m = str "root=/dev/dasdb1 $x".
Proof.
  assert (Hk : (length sample <= ENVBLK_MAX_LINES)%nat) by (vm_compute; lia).
  assert (Hl : segs_ok sample_line).
  { repeat (split; try done); by apply (bool_decide_unpack (Forall _ _)); vm_compute. }
  destruct (boot_expands_command_line 512 sample (Some sample_loadparm) None sample_line 100 100 sample_ok sample_NoDup Hk Hl) as (m & E & Hm).
  - vm_compute. lia.
  - vm_compute. lia.
  - right. vm_compute. lia.
  - exists m. split; [exact E|]. rewrite Hm. reflexivity.
Defined.

(** ** The editor *)

(** The only sites that the editor accepts are the ten digits. *)
Theorem site_is_a_digit arg id :
  Forall (.≠ 0) arg → set_site_id_common arg = Some id ↔ ∃ s, (s < 10)%nat ∧ arg = [digit s] ∧ id = [digit s].
Proof. apply site_id_digit. Qed.

Lemma site_is_a_digit_witness : set_site_id_common [digit 7] = Some [digit 7].
Proof.
  assert (Hz : Forall (.≠ 0) [digit 7]) by (by repeat constructor).
  apply (site_is_a_digit [digit 7] [digit 7] Hz). exists 7%nat. split; [lia|done].
Defined.

(** the command line that sets a variable, of a site or common to all *)
Definition set_options (s : option nat) n v : list opt :=
  match s with Some d => [OptSite [digit d]] | None => [] end ++ [OptSet (n ++ EQ :: v)].

(** C7: From the editor to the kernel: setting a variable, of a site or without one, writes a
    block in which this variable has the value and all others are as before, and a boot that
    activates the site (or none) finds the value. The block has fewer than 512 lines, its
    place on the device is found, the result fits and the value does not overrun the block as
    a shorter one can; with a site, the allocator leaves the byte behind the name free that
    the editor writes without having allocated it. *)
Theorem editor_set_reaches_boot w size e off blknr dev s n v :
  envblk_open w = Some (ZEB (block size e) off size false) → fs_map w off (Z.of_nat size) = Some blknr → partition w = Some dev →
  0 <= blknr * Z.of_nat size → blknr * Z.of_nat size + Z.of_nat size <= Z.of_nat dev →
  env_ok size e → NoDup e.*1 → (length e < ENVBLK_MAX_LINES)%nat → (∀ d, s = Some d → (d < 10)%nat) →
  envblk_check_name n = 0 → value_ok v → name_fits w s (n ++ EQ :: v) →
  overruns size e (site_name s n) v = false → (length (image (env_put (site_name s n) v e)) <= size)%nat →
  ∃ e' b bs, main w (set_options s n v) false = Done (Result true [] (Some (blknr * Z.of_nat size, block size e'))) ∧
    (∀ m, env_get m e' = if decide (m = site_name s n) then Some v else env_get m e) ∧
    Stage3.parse_envblk (block size e') = Done (true, b, bs) ∧
    (item ← Stage3.lookup_item b bs n (digit <$> s); Stage3.item_value b item) = Done v.
Proof.
  intros Hopen Hmap Hdev Hpos Hend He Hd Hk Hs Hn Hv Hroom Hov Hfit. exists (env_put (site_name s n) v e).
  pose proof (check_name_ok n Hn) as Hok. pose proof (site_name_ok s n Hs Hok) as Hp.
  pose proof (env_ok_put size _ v e He Hp Hv Hfit) as He'.
  assert (Hd' : NoDup (env_put (site_name s n) v e).*1).
  { apply (names_ok_put (site_name s n) v e); [|by apply name_no_eq]. split; [|done]. eapply Forall_impl; [apply He|].
    intros a [Ha _]. by apply name_no_eq. }
  destruct (parse_block size _ He') as (b & bs & Ep & Hb); [|exists b, bs; split_and!; [|intros m; apply env_get_put|done|]].
  - destruct (env_get (site_name s n) e) as [w'|] eqn:E.
    + destruct (env_get_split _ _ _ E) as (e1 & e2 & -> & Hin). rewrite env_put_app by done. rewrite length_app in *. cbn [length] in *.
      unfold Stage3.MAX_ITEMS, ENVBLK_MAX_LINES in *. lia.
    + apply env_get_None in E. rewrite env_put_None, length_app by done. cbn [length]. unfold Stage3.MAX_ITEMS, ENVBLK_MAX_LINES in *. lia.
  - assert (Eo : parse_options (set_options s n v) no_options
                 = inl (Options ((λ d, [digit d]) <$> s) None None false SET_OP_ID (n ++ EQ :: v))).
    { destruct s as [d|]; [|done]. cbn [set_options parse_options app]. unfold set_site_id. cbn [eff_site_id no_options].
      by rewrite strtol_digit by auto. }
    unfold main. rewrite Eo. cbn [opcode saved_arg]. rewrite bool_decide_false by done. rewrite Hopen.
    erewrite env_set_site by done. cbn [mbind outcome_bind]. unfold finish, envblk_update. cbn [need_update]. rewrite Hdev. cbn [mbind option_bind offset Editenv.size].
    rewrite Hmap. cbn [mbind option_bind]. rewrite (proj2 (Z.ltb_ge _ 0)), (proj2 (Z.ltb_ge (Z.of_nat dev) _)) by lia. done.
  - rewrite (lookup_value b bs _ n (digit <$> s) Hb (proj1 He') Hd' (proj1 Hok)). unfold boot_value.
    destruct s; cbn [fmap option_fmap option_map site_name]; by rewrite env_get_put, decide_True by done.
Qed.

(** an allocator that rounds up to 16 bytes, and an exact one *)
Definition rounded (n : nat) : nat := ((n + 15) / 16 * 16)%nat.
Definition exact (n : nat) : nat := n.

(** a boot map of two blocks of 512 bytes in block 20 of the device *)
Definition sample_sys (malloc : nat → nat) : sys :=
  Sys (Some (zeros 56 ++ [0; 0; 0; 0; 0; 0; 2; 0] ++ zeros 448 ++ block 512 sample)) (Some 512%nat) true true
    (λ _, Some (Some (Extent false 0 10240))) (λ _, None) (Some 51200%nat) malloc.

Definition sample_set_works (s : option nat) (al : nat → nat) : Prop :=
  ∃ e' b bs, main (sample_sys al) (set_options s (str "root") (str "/dev/dasdc1")) false =
      Done (Result true [] (Some (21 * 512, block 512 e'))) ∧
    (∀ m, env_get m e' = if decide (m = site_name s (str "root")) then Some (str "/dev/dasdc1") else env_get m sample) ∧
    Stage3.parse_envblk (block 512 e') = Done (true, b, bs) ∧
    (item ← Stage3.lookup_item b bs (str "root") (digit <$> s); Stage3.item_value b item) = Done (str "/dev/dasdc1").

(** with a site and the rounding allocator, and without a site and the exact one *)
Lemma editor_set_reaches_boot_witness : sample_set_works (Some 3%nat) rounded ∧ sample_set_works None exact.
Proof.
  cut (∀ s al, s = Some 3%nat ∧ al = rounded ∨ s = None ∧ al = exact → sample_set_works s al).
  { intros H. split; apply H; [by left|by right]. }
  intros s al Hsa.
  assert (Hopen : envblk_open (sample_sys al) = Some (ZEB (block 512 sample) 512 512 false)) by (vm_compute; reflexivity).
  assert (Hv : value_ok (str "/dev/dasdc1")) by (by apply (bool_decide_unpack (Forall (λ c, c ≠ 0 ∧ c ≠ NL) (str "/dev/dasdc1"))); vm_compute).
  assert (Hk : (length sample < ENVBLK_MAX_LINES)%nat) by (vm_compute; lia).
  assert (Hf : (length (image (env_put (site_name s (str "root")) (str "/dev/dasdc1") sample)) <= 512)%nat)
    by (destruct Hsa as [[-> _]|[-> _]]; vm_compute; lia).
  assert (H0 : 0 <= 21 * Z.of_nat 512) by (vm_compute; done).
  assert (H1 : 21 * Z.of_nat 512 + Z.of_nat 512 <= Z.of_nat 51200) by (vm_compute; done).
  assert (H3 : ∀ d, s = Some d → (d < 10)%nat) by (destruct Hsa as [[-> _]|[-> _]]; [intros ? [= <-]; lia|done]).
  assert (Hr : name_fits (sample_sys al) s (str "root" ++ EQ :: str "/dev/dasdc1"))
    by (destruct Hsa as [[-> ->]|[-> ->]]; vm_compute; [lia|done]).
  assert (Ho : overruns 512 sample (site_name s (str "root")) (str "/dev/dasdc1") = false)
    by (by destruct Hsa as [[-> _]|[-> _]]; vm_compute).
  exact (editor_set_reaches_boot (sample_sys al) 512 sample 512 21 51200 s (str "root") (str "/dev/dasdc1") Hopen eq_refl eq_refl
    H0 H1 sample_ok sample_NoDup Hk H3 eq_refl Hv Hr Ho Hf).
Defined.

(** C8: Whatever the options, as long as no argument has a new line in it, a run of the
    editor on a well-formed block of fewer than 512 lines ends, and what it writes is a
    well-formed block; unless a shorter value overruns the block, or, with a site, the name
    of a variable that is set or unset overruns its allocation. *)
Theorem editor_keeps_block w l rest size e off :
  envblk_open w = Some (ZEB (block size e) off size false) → env_wf size e → (length e < ENVBLK_MAX_LINES)%nat → args_ok l →
  (main w l rest = Fault ∧
   ((∃ arg s n v, OptSet arg ∈ l ∧ site_name s arg = n ++ EQ :: v ∧ overruns size e n v = true) ∨
    (∃ arg d site, (OptSet arg ∈ l ∨ OptUnset arg ∈ l) ∧ OptSite site ∈ l ∧ ¬ name_fits w (Some d) arg))) ∨
  ∃ r, main w l rest = Done r ∧ ∀ pos b, written r = Some (pos, b) → ∃ e', b = block size e' ∧ env_wf size e'.
Proof.
  intros Hopen Hwf Hk Hl. unfold main.
  assert (Hfin : ∀ ret e' u out, env_wf size e' →
    ∀ pos b, written (finish w ret (ZEB (block size e') off size u) out) = Some (pos, b) → ∃ e'', b = block size e'' ∧ env_wf size e'').
  { intros ret e' u out He' pos b. unfold finish, envblk_update. cbn [need_update buf]. destruct u; [|done].
    destruct (partition w); cbn [mbind option_bind]; [|done]. destruct (fs_map _ _ _); cbn [mbind option_bind]; [|done].
    destruct (_ || _); [done|]. intros [= _ <-]. by exists e'. }
  destruct (parse_options l no_options) as [o|ok] eqn:Eo; [|right; by eexists].
  assert (Ho : options_ok o) by (eapply parse_options_ok; [done| |done]; split_and!; [done|done|constructor]).
  destruct (parse_options_from _ _ _ Eo) as (Hsite & Hset & Hunset).
  assert (Hover : name_overrun w o → (OptSet (saved_arg o) ∈ l ∨ OptUnset (saved_arg o) ∈ l) →
    ∃ arg d site, (OptSet arg ∈ l ∨ OptUnset arg ∈ l) ∧ OptSite site ∈ l ∧ ¬ name_fits w (Some d) arg).
  { intros (d & Ed & Hf) Hin. destruct Hsite as [Hsite|[a Hsite]]; [by rewrite Ed in Hsite|]. by exists (saved_arg o), d, a. }
  destruct rest; [right; by eexists|]. destruct (bool_decide _); [right; by eexists|]. rewrite Hopen. destruct (opcode o).
  - right. destruct (env_list_any o size e off Ho Hwf) as (out & ->). eexists. split; [done|]. by apply Hfin.
  - destruct (Hset eq_refl) as [[? _]|Hin]; [done|].
    destruct (env_set_any w o size e off Ho Hwf Hk) as [[-> Hov]|(ret & e' & u & -> & He')].
    + left. split; [done|]. destruct Hov as [?|(s & n & v & _ & ? & ?)]; [right; by eauto|left; by exists (saved_arg o), s, n, v].
    + right. eexists. split; [done|]. by apply Hfin.
  - destruct (Hunset eq_refl) as [[? _]|Hin]; [done|].
    destruct (env_unset_any w o size e off Ho Hwf) as [[-> Hov]|(ret & e' & u & -> & He')]; [left; by eauto|].
    right. eexists. split; [done|]. by apply Hfin.
  - right. destruct (env_reset_any o size e off Ho Hwf) as (ret & e' & u & -> & He'). eexists. split; [done|]. by apply Hfin.
  - right. destruct (env_list_any o size e off Ho Hwf) as (out & ->). eexists. split; [done|]. by apply Hfin.
Qed.

Lemma editor_keeps_block_witness :
  ∃ r, main (sample_sys exact) [OptUnset (str "quiet")] false = Done r ∧
    ∀ pos b, written r = Some (pos, b) → ∃ e', b = block 512 e' ∧ env_wf 512 e'.
Proof.
  assert (Hopen : envblk_open (sample_sys exact) = Some (ZEB (block 512 sample) 512 512 false)) by (vm_compute; reflexivity).
  assert (Hwf : env_wf 512 sample) by (split; [exact sample_ok|exact sample_names|exact sample_NoDup|vm_compute; lia]).
  assert (Hk : (length sample < ENVBLK_MAX_LINES)%nat) by (vm_compute; lia).
  assert (Ha : args_ok [OptUnset (str "quiet")]) by (repeat constructor; vm_compute; lia).
  destruct (editor_keeps_block (sample_sys exact) [OptUnset (str "quiet")] false 512 sample 512 Hopen Hwf Hk Ha) as [[H _]|H]; [|exact H].
  vm_compute in H. discriminate H.
Defined.

(** ** Where the code does not do what it means to *)

(** A value that is shorter than the old one is written beyond the end of a block
    without enough free space, although it fits. *)
Theorem shorter_value_overruns size e n w v :
  env_ok size e → (length e < ENVBLK_MAX_LINES)%nat → name_ok n → env_get n e = Some w →
  (size - length (image e) < 2 * (length w - length v))%nat →
  envblk_set (block size e) size n v = Fault ∧ (length (image (env_put n v e)) <= size)%nat.
Proof.
  intros He Hk Hn Hg Hs. rewrite set_block by done. unfold overruns. rewrite Hg, (proj2 (Nat.ltb_lt _ _)) by done. split; [done|].
  destruct (env_get_split _ _ _ Hg) as (e1 & e2 & -> & Hin). rewrite env_put_app by done. destruct He as [_ He].
  revert He Hs. rewrite !length_image, !lines_app, !lines_cons, !length_app, !length_line. lia.
Qed.

Lemma shorter_value_overruns_witness : envblk_set (block 80 sample) 80 (str "root") (str "/") = Fault.
Proof.
  assert (He : env_ok 80 sample) by (split; [apply sample_ok|vm_compute; lia]).
  assert (Hk : (length sample < ENVBLK_MAX_LINES)%nat) by (vm_compute; lia).
  assert (Hn : name_ok (str "root")) by (split; [done|]; by apply (bool_decide_unpack (Forall (λ c, c ≠ 0 ∧ c ≠ EQ ∧ c ≠ NL) (str "root"))); vm_compute).
  assert (Hs : (80 - length (image sample) < 2 * (length (str "/dev/dasda1") - length (str "/")))%nat) by (vm_compute; lia).
  exact (proj1 (shorter_value_overruns 80 sample (str "root") (str "/dev/dasda1") (str "/") He Hk Hn eq_refl Hs)).
Defined.

(** The import does not count the prefix of a site: a file that it accepts is written
    beyond the end of the block. *)
Theorem import_overruns :
  let l := [Site 49; Assign (str "a") (str "1"); Assign (str "b") (str "2"); Assign (str "c") (str "3")] in
  Forall item_ok l ∧ fst (import_loop (render <$> l) 38 (ImportState empty_table (Z.of_nat SIG_SIZE) 0 None)) = 0 ∧
  envblk_import (Some (render_all l)) (block 38 []) 38 = Fault.
Proof. split; [repeat constructor; by vm_compute|]. split; vm_compute; reflexivity. Qed.

(** A title with two blanks, or with a sign, is accepted, but the blank or the sign is
    taken for the site. *)
Theorem title_takes_blank_for_site :
  check_keyword (str "[site  3]" ++ [NL]) = KW_VALID 32 ∧ check_keyword (str "[site +3]" ++ [NL]) = KW_VALID 43.
Proof. split; vm_compute; reflexivity. Qed.

(** When the command line first gets longer and then shorter again, but not shorter than
    it was, the end of the longer line stays behind it. *)
Theorem old_text_stays_behind :
  let e := [(str "a", str "0123456789")] in
  let l := [Var (str "a"); Text (str " "); Var (str "bbb")] in
  ∃ m, Stage3.handle_environment (Some (block 512 e)) None None (cmdline l ++ zeros 100) (length (cmdline l)) 100 = Done m ∧
    expand (boot_value e None) l = str "0123456789 " ∧ cstr m = str "0123456789 ${bbb".
Proof. eexists. split; [vm_compute; reflexivity|]. split; vm_compute; reflexivity. Qed.

(** A value that does not fit cuts the command line off behind the name. *)
Theorem value_that_does_not_fit_cuts_the_line :
  let e := [(str "a", str "0123456789")] in
  let l := [Text (str "x=${a} quiet")] in
  ∃ m, Stage3.handle_environment (Some (block 512 e)) None None (cmdline l ++ zeros 10) 12 14 = Done m ∧ cstr m = str "x=${a".
Proof. eexists. split; [vm_compute; reflexivity|]. vm_compute; reflexivity. Qed.

(** names of two letters *)
Definition full_env : env := (λ i, ([65 + Z.of_nat i mod 26; 97 + Z.of_nat i / 26], [])) <$> seq 0 512.

(** The limit of 512 lines is not kept: a name of four letters is appended behind 512
    lines of four bytes, and the boot loader does not see it. *)
Theorem line_limit_is_passed :
  let e := full_env ++ [(str "zzzz", str "1")] in
  envblk_set (block 4096 full_env) 4096 (str "zzzz") (str "1") = Done (0, block 4096 e) ∧ length e = 513%nat ∧
  (r ← Stage3.parse_envblk (block 4096 e); let '(ok, b, bs) := r in
   item ← Stage3.lookup_item b bs (str "zzzz") None; Done (ok, item)) = Done (true, None).
Proof. split; [vm_compute; reflexivity|]. split; vm_compute; reflexivity. Qed.

(** For the name with the prefix of a site one byte too few is allocated: with an allocator
    that gives just what is asked for, setting or unsetting any variable of a site is an
    overrun. *)
Theorem prefixed_name_overruns w zeb d arg :
  (∀ n, usable w n = n) → envblk_open w = Some zeb → (d < 10)%nat →
  main w [OptSite [digit d]; OptSet arg] false = Fault ∧
  (strchr arg EQ = None → main w [OptSite [digit d]; OptUnset arg] false = Fault).
Proof.
  intros Hu Hopen Hd.
  assert (Hp : build_prefixed_name w (Some [digit d]) arg = Fault).
  { cbn [build_prefixed_name headc length]. by rewrite Hu, (proj2 (Nat.ltb_lt _ _)) by lia. }
  assert (Eo : ∀ x op, (x, op) = (OptSet arg, SET_OP_ID) ∨ (x, op) = (OptUnset arg, UNSET_OP_ID) →
    parse_options [OptSite [digit d]; x] no_options = inl (Options (Some [digit d]) None None false op arg)).
  { intros x op Hx. cbn [parse_options]. unfold set_site_id. cbn [eff_site_id no_options].
    rewrite strtol_digit by done. by destruct Hx as [[= -> ->]|[= -> ->]]. }
  unfold main. rewrite (Eo _ SET_OP_ID), (Eo _ UNSET_OP_ID) by auto. rewrite Hopen.
  rewrite !bool_decide_false by done. cbn [opcode]. split.
  - unfold env_set. cbn [site_id saved_arg]. by rewrite Hp.
  - intros Ha. unfold env_unset. cbn [site_id saved_arg]. by rewrite Ha, Hp.
Qed.

Lemma prefixed_name_overruns_witness :
  main (sample_sys exact) [OptSite [digit 3]; OptSet (str "root=/dev/dasdc1")] false = Fault.
Proof.
  refine (proj1 (prefixed_name_overruns (sample_sys exact) _ 3 (str "root=/dev/dasdc1") (λ n, eq_refl) _ _)); [|lia].
  vm_compute. reflexivity.
Defined.

(** A new line within a value is accepted and makes the block corrupt: the next listing
    fails. *)
Theorem new_line_corrupts_block :
  (r ← main (sample_sys exact) [OptSet (str "a=x" ++ NL :: str "y")] false;
   match written r with Some (_, b) => envblk_list_all b (strnlen b 512) 0 | None => Fault end) = Done (-1, []).
Proof. vm_compute. reflexivity. Qed.
