(* ===== verification/Scan.v ===== *)
(** The scanner of zipl's configuration file (src/zipl/src/scan.c with
    src/zipl/include/scan.h): the characters, keywords and tokens, and [scan_file],
    which cuts the file into tokens.

    A file that is read is the list of its bytes from the current position on.  An
    array of tokens is a list, its end is the token with the id 0; the capacity of the
    arrays is kept, and a store behind it is a [Fault].  A returned -1 is [None].  The
    text of messages is left out.  Allocations succeed, and numbers of lines and of
    tokens stay far below the limits of an int. *)
From S2P Require Import Prelude.

Module Scan.

(** ** Characters *)

Definition EOF : Z := -1.
Definition NEWLINE : Z := 10.
(** [isblank], [isalnum], [ispunct] of the C locale; a file has bytes, so that [EOF] is none *)
Definition isblank (c : Z) : bool := (c =? 32) || (c =? 9).
Definition isalnum (c : Z) : bool := isdigit c || ((65 <=? c) && (c <=? 90)) || ((97 <=? c) && (c <=? 122)).
Definition ispunct (c : Z) : bool := (33 <=? c) && (c <=? 126) && negb (isalnum c).

Definition misc_get_char (file : list Z) (readahead : nat) : Z := default EOF (file !! readahead).

(** ** Keywords and tokens *)

Inductive scan_keyword_id : Type :=
  | scan_keyword_default | scan_keyword_dumpto | scan_keyword_dumptofs | scan_keyword_image
  | scan_keyword_parameters | scan_keyword_parmfile | scan_keyword_ramdisk | scan_keyword_segment
  | scan_keyword_target | scan_keyword_prompt | scan_keyword_timeout | scan_keyword_defaultmenu
  | scan_keyword_tape | scan_keyword_mvdump | scan_keyword_targetbase | scan_keyword_targettype
  | scan_keyword_targetgeometry | scan_keyword_targetblocksize | scan_keyword_targetoffset
  | scan_keyword_defaultauto | scan_keyword_kdump | scan_keyword_secure | scan_keyword_optional.
#[export] Instance scan_keyword_id_eq_dec : EqDecision scan_keyword_id.
Proof. solve_decision. Defined.

Definition all_keywords : list scan_keyword_id :=
  [scan_keyword_default; scan_keyword_dumpto; scan_keyword_dumptofs; scan_keyword_image;
   scan_keyword_parameters; scan_keyword_parmfile; scan_keyword_ramdisk; scan_keyword_segment;
   scan_keyword_target; scan_keyword_prompt; scan_keyword_timeout; scan_keyword_defaultmenu;
   scan_keyword_tape; scan_keyword_mvdump; scan_keyword_targetbase; scan_keyword_targettype;
   scan_keyword_targetgeometry; scan_keyword_targetblocksize; scan_keyword_targetoffset;
   scan_keyword_defaultauto; scan_keyword_kdump; scan_keyword_secure; scan_keyword_optional].

(** the strings with their length, longer ones in front of their prefixes *)
Definition keyword_list : list (list Z * scan_keyword_id) :=
  [(bytes_of_string "defaultmenu", scan_keyword_defaultmenu); (bytes_of_string "default", scan_keyword_default);
   (bytes_of_string "dumptofs", scan_keyword_dumptofs); (bytes_of_string "dumpto", scan_keyword_dumpto);
   (bytes_of_string "image", scan_keyword_image); (bytes_of_string "mvdump", scan_keyword_mvdump);
   (bytes_of_string "parameters", scan_keyword_parameters); (bytes_of_string "parmfile", scan_keyword_parmfile);
   (bytes_of_string "ramdisk", scan_keyword_ramdisk); (bytes_of_string "segment", scan_keyword_segment);
   (bytes_of_string "targetbase", scan_keyword_targetbase); (bytes_of_string "targettype", scan_keyword_targettype);
   (bytes_of_string "targetgeometry", scan_keyword_targetgeometry);
   (bytes_of_string "targetblocksize", scan_keyword_targetblocksize);
   (bytes_of_string "targetoffset", scan_keyword_targetoffset); (bytes_of_string "target", scan_keyword_target);
   (bytes_of_string "prompt", scan_keyword_prompt); (bytes_of_string "timeout", scan_keyword_timeout);
   (bytes_of_string "tape", scan_keyword_tape); (bytes_of_string "kdump", scan_keyword_kdump);
   (bytes_of_string "secure", scan_keyword_secure); (bytes_of_string "optional", scan_keyword_optional)].
Definition keyword_only_list : list (list Z * scan_keyword_id) :=
  [(bytes_of_string "defaultauto", scan_keyword_defaultauto)].

(** the contents of a token, by its id *)
Inductive scan_content : Type :=
  | section_heading (name : list Z)
  | menu_heading (name : list Z)
  | keyword_assignment (keyword : scan_keyword_id) (value : list Z)
  | number_assignment (number : Z) (value : list Z)
  | keyword_only (keyword : scan_keyword_id).
Record scan_token : Type := Token { t_line : Z; t_content : scan_content }.
#[export] Instance scan_content_eq_dec : EqDecision scan_content.
Proof. solve_decision. Defined.
#[export] Instance scan_token_eq_dec : EqDecision scan_token.
Proof. solve_decision. Defined.

(** ** Scanning *)

Fixpoint skip_blanks (file : list Z) : list Z :=
  match file with
  | c :: r => if isblank c then skip_blanks r else file
  | [] => []
  end.

Fixpoint skip_line (file : list Z) : list Z :=
  match file with
  | c :: r => if c =? NEWLINE then r else skip_line r
  | [] => []
  end.

Fixpoint skip_trailing_blanks (file : list Z) : option (list Z) :=
  match file with
  | [] => Some []
  | c :: r => if c =? NEWLINE then Some r else if negb (isblank c) then None else skip_trailing_blanks r
  end.

(** the name up to the bracket and what follows it *)
Fixpoint section_name (file : list Z) : option (list Z * list Z) :=
  match file with
  | [] => None
  | c :: r =>
      if c =? 93 then Some ([], r)
      else if c =? NEWLINE then None
      else if negb (isalnum c || ispunct c) then None
      else '(name, r) ← section_name r; Some (c :: name, r)
  end.

Definition scan_section_heading (file : list Z) : option (scan_content * list Z) :=
  '(name, r) ← section_name file;
  if bool_decide (name = []) then None
  else r ← skip_trailing_blanks r; Some (section_heading name, r).

Fixpoint menu_name (file : list Z) : option (list Z * list Z) :=
  match file with
  | [] => Some ([], [])
  | c :: r =>
      if c =? NEWLINE then Some ([], file)
      else if isblank c then Some ([], file)
      else if negb (isalnum c) then None
      else '(name, r) ← menu_name r; Some (c :: name, r)
  end.

Definition scan_menu_heading (file : list Z) : option (scan_content * list Z) :=
  '(name, r) ← menu_name file;
  r ← skip_trailing_blanks r;
  if bool_decide (name = []) then None else Some (menu_heading name, r).

(** [new_number = old_number*10 + c - '0'], which has to be no smaller *)
Fixpoint number_loop (file : list Z) (old_number : Z) : option (Z * list Z) :=
  match file with
  | c :: r =>
      if isdigit c then
        let new_number := s32 (old_number * 10 + c - 48) in
        if new_number <? old_number then None else number_loop r new_number
      else Some (old_number, file)
  | [] => Some (old_number, [])
  end.
Definition scan_number (file : list Z) : option (Z * list Z) :=
  if isdigit (misc_get_char file 0) then number_loop file 0 else None.

(** the characters up to the quote or the end of the line *)
Fixpoint value_chars (quote : Z) (file : list Z) : list Z * list Z :=
  match file with
  | [] => ([], [])
  | c :: r =>
      if c =? NEWLINE then ([], file)
      else if negb (quote =? 0) && (c =? quote) then ([], file)
      else let '(v, r) := value_chars quote r in (c :: v, r)
  end.
(** the characters up to the last one that is no blank, all if there is none *)
Fixpoint last_nonspace (l : list Z) (i : nat) (last : option nat) : option nat :=
  match l with
  | [] => last
  | c :: l => last_nonspace l (S i) (if negb (isblank c) then Some i else last)
  end.
Definition trim_blanks (l : list Z) : list Z :=
  match last_nonspace l 0 None with Some i => take (S i) l | None => l end.

(** the string ends in front of a NUL, if the file has one *)
Definition scan_value_string (file : list Z) : option (list Z * list Z) :=
  let c := misc_get_char file 0 in
  let quote := if (c =? 34) || (c =? 39) then c else 0 in
  let file := if quote =? 0 then file else drop 1 file in
  let '(v, r) := value_chars quote file in
  if quote =? 0 then Some (cstr (trim_blanks v), r)
  else if negb (misc_get_char r 0 =? quote) then None
  else Some (cstr v, drop 1 r).

(** what follows a keyword or a number: [= value] *)
Definition scan_assignment (file : list Z) : option (list Z * list Z) :=
  let file := skip_blanks file in
  if negb (misc_get_char file 0 =? 61) then None
  else
    '(value, r) ← scan_value_string (skip_blanks (drop 1 file));
    r ← skip_trailing_blanks r;
    Some (value, r).

Definition scan_number_assignment (file : list Z) : option (scan_content * list Z) :=
  '(number, r) ← scan_number file;
  '(value, r) ← scan_assignment r;
  Some (number_assignment number value, r).

Definition match_keyword (file keyword : list Z) : bool := prefixb keyword file.

Fixpoint find_keyword (file : list Z) (l : list (list Z * scan_keyword_id)) : option (scan_keyword_id * list Z) :=
  match l with
  | [] => None
  | (keyword, id) :: l => if match_keyword file keyword then Some (id, drop (length keyword) file) else find_keyword file l
  end.
Definition scan_keyword (file : list Z) : option (scan_keyword_id * list Z) := find_keyword file keyword_list.

Definition scan_keyword_assignment (file : list Z) : option (scan_content * list Z) :=
  '(id, r) ← scan_keyword file;
  '(value, r) ← scan_assignment r;
  Some (keyword_assignment id value, r).

Definition scan_keyword_only_statement (file : list Z) : option (scan_content * list Z) :=
  '(id, r) ← find_keyword file keyword_only_list;
  r ← skip_trailing_blanks r;
  Some (keyword_only id, r).

Fixpoint search_line_for (file : list Z) (search : Z) : bool :=
  match file with
  | [] => false
  | c :: r => if c =? NEWLINE then false else if c =? search then true else search_line_for r search
  end.

(** what the line holds, if anything, and the rest of the file; [None] is an error *)
Definition scan_statement (file : list Z) : option (option scan_content * list Z) :=
  let file := skip_blanks file in
  let token (r : option (scan_content * list Z)) := '(t, r) ← r; Some (Some t, r) in
  match file with
  | [] => Some (None, [])
  | current :: r =>
      if current =? 91 then token (scan_section_heading r)
      else if current =? 58 then token (scan_menu_heading r)
      else if current =? 35 then Some (None, skip_line r)
      else if current =? NEWLINE then Some (None, r)
      else if search_line_for file 61 then
        if isdigit current then token (scan_number_assignment file) else token (scan_keyword_assignment file)
      else token (scan_keyword_only_statement file)
  end.

Definition INITIAL_ARRAY_LENGTH : nat := 40.

(** a store at the position [length l] of an array of [size] tokens *)
Definition store (size : nat) (l : list scan_token) (t : scan_token) : outcome (list scan_token) :=
  if (length l <? size)%nat then Done (l ++ [t]) else Fault.

Fixpoint scan_file_loop (fuel : nat) (file : list Z) (line : Z) (size : nat) (l : list scan_token) : outcome (option (list scan_token * nat)) :=
  match file with
  | [] => Done (Some (l, size))
  | _ =>
      match fuel with
      | O => OutOfFuel
      | S fuel =>
          match scan_statement file with
          | None => Done None
          | Some (t, r) =>
              l ← (match t with Some c => store size l (Token line c) | None => Done l end);
              let size := if (size <=? length l + 1)%nat then (size * 2)%nat else size in
              scan_file_loop fuel r (line + 1) size l
          end
      end
  end.

(** the tokens and the size of their array; [None] for a file that cannot be read *)
Definition scan_file (file : option (list Z)) : outcome (option (list scan_token * nat)) :=
  match file with
  | None => Done None
  | Some text => scan_file_loop (length text) text 1 INITIAL_ARRAY_LENGTH []
  end.

End Scan.
