(* ===== verification/ScanLex.v ===== *)
(** What [scan_file] makes of a configuration file: every file is scanned to an array
    with an end mark or refused, and a file that is written line by line gives the
    tokens of its lines. *)
From S2P Require Import Prelude Scan.
Import Scan.

Module ScanLex.

(** ** Lengths *)

Lemma length_skip_blanks f : (length (skip_blanks f) <= length f)%nat.
Proof. induction f as [|c f IH]; simpl; [lia|]. case_match; simpl; lia. Qed.
Lemma length_skip_line f : (length (skip_line f) <= length f)%nat.
Proof. induction f as [|c f IH]; simpl; [lia|]. case_match; simpl; lia. Qed.
Lemma length_skip_trailing f r : skip_trailing_blanks f = Some r → (length r <= length f)%nat.
Proof.
  induction f as [|c f IH]; simpl; [intros [= <-]; simpl; lia|].
  repeat case_match; intros; simplify_eq; try lia. specialize (IH H1). lia.
Qed.
Lemma length_section_name f n r : section_name f = Some (n, r) → (length r < length f)%nat.
Proof.
  revert n r. induction f as [|c f IH]; intros n r; simpl; [done|].
  repeat case_match; intros H'; simplify_eq; try lia.
  destruct (section_name f) as [[n' r']|]; simplify_eq/=. pose proof (IH _ _ eq_refl). lia.
Qed.
Lemma length_menu_name f n r : menu_name f = Some (n, r) → (length r <= length f)%nat.
Proof.
  revert n r. induction f as [|c f IH]; intros n r; simpl; [intros [= <- <-]; simpl; lia|].
  repeat case_match; intros H'; simplify_eq; simpl; try lia.
  destruct (menu_name f) as [[n' r']|]; simplify_eq/=. pose proof (IH _ _ eq_refl). lia.
Qed.
Lemma length_number_loop f o n r : number_loop f o = Some (n, r) → (length r <= length f)%nat.
Proof.
  revert o. induction f as [|c f IH]; intros o; simpl; [intros [= <- <-]; simpl; lia|].
  repeat case_match; intros H'; simplify_eq; simpl; try lia. apply IH in H'. lia.
Qed.
Lemma length_value_chars q f v r : value_chars q f = (v, r) → (length r <= length f)%nat.
Proof.
  revert v r. induction f as [|c f IH]; intros v r; simpl; [intros [= <- <-]; simpl; lia|].
  repeat case_match; intros H'; simplify_eq; simpl; try lia. specialize (IH _ _ eq_refl). lia.
Qed.
Lemma length_value_string f v r : scan_value_string f = Some (v, r) → (length r <= length f)%nat.
Proof.
  unfold scan_value_string. cbv zeta.
  set (q := if (misc_get_char f 0 =? 34) || (misc_get_char f 0 =? 39) then misc_get_char f 0 else 0).
  destruct (value_chars _ _) as [v' r'] eqn:E. apply length_value_chars in E.
  assert (length (if (q =? 0)%Z then f else drop 1 f) <= length f)%nat by (case_match; rewrite ?length_drop; lia).
  repeat case_match; intros [= <- <-]; rewrite ?length_drop; lia.
Qed.
Lemma length_assignment f v r : scan_assignment f = Some (v, r) → (length r < length f)%nat.
Proof.
  unfold scan_assignment. pose proof (length_skip_blanks f).
  destruct (skip_blanks f) as [|c f'] eqn:Ef; simpl; [done|].
  destruct (misc_get_char _ 0 =? 61); simpl; [|done].
  destruct (scan_value_string _) as [[v' r']|] eqn:E; simpl; [|done]. apply length_value_string in E.
  destruct (skip_trailing_blanks r') as [r''|] eqn:Er; simpl; intros; simplify_eq. apply length_skip_trailing in Er.
  pose proof (length_skip_blanks (drop 0 f')). rewrite drop_0 in *. simpl in *. lia.
Qed.
Lemma length_find_keyword f l k r : find_keyword f l = Some (k, r) → (length r <= length f)%nat.
Proof.
  induction l as [|[kw id] l IH]; simpl; [done|]. case_match; [|done].
  intros [= <- <-]. rewrite length_drop. lia.
Qed.

(** a statement takes something of the file *)
Lemma length_statement f t r : f ≠ [] → scan_statement f = Some (t, r) → (length r < length f)%nat.
Proof.
  intros Hf. unfold scan_statement. pose proof (length_skip_blanks f) as Hs.
  destruct (skip_blanks f) as [|c s] eqn:Es; [intros [= <- <-]; destruct f; simpl in *; [done|lia]|].
  assert (length s < length f)%nat by (simpl in Hs; lia).
  repeat case_match; try (intros [= <- <-]; pose proof (length_skip_line s); lia).
  - destruct (scan_section_heading s) as [[t' r']|] eqn:E; simpl; intros; simplify_eq.
    unfold scan_section_heading in E. destruct (section_name s) as [[n r1]|] eqn:En; simpl in E; [|done].
    apply length_section_name in En. case_match; [done|].
    destruct (skip_trailing_blanks r1) eqn:Et; simplify_eq/=. apply length_skip_trailing in Et. lia.
  - destruct (scan_menu_heading s) as [[t' r']|] eqn:E; simpl; intros; simplify_eq.
    unfold scan_menu_heading in E. destruct (menu_name s) as [[n r1]|] eqn:En; simpl in E; [|done].
    apply length_menu_name in En.
    destruct (skip_trailing_blanks r1) eqn:Et; simplify_eq/=. apply length_skip_trailing in Et. case_match; simplify_eq. lia.
  - destruct (scan_number_assignment _) as [[t' r']|] eqn:E; simpl; intros; simplify_eq.
    unfold scan_number_assignment, scan_number in E. destruct (isdigit (misc_get_char _ _)); [|done].
    destruct (number_loop _ _) as [[n r1]|] eqn:En; simpl in E; [|done]. apply length_number_loop in En.
    destruct (scan_assignment r1) as [[v r2]|] eqn:Ev; simplify_eq/=. apply length_assignment in Ev. simpl in *. lia.
  - destruct (scan_keyword_assignment _) as [[t' r']|] eqn:E; simpl; intros; simplify_eq.
    unfold scan_keyword_assignment, scan_keyword in E.
    destruct (find_keyword _ _) as [[k r1]|] eqn:En; simpl in E; [|done]. apply length_find_keyword in En.
    destruct (scan_assignment r1) as [[v r2]|] eqn:Ev; simplify_eq/=. apply length_assignment in Ev. simpl in *. lia.
  - destruct (scan_keyword_only_statement _) as [[t' r']|] eqn:E; simpl; intros; simplify_eq.
    unfold scan_keyword_only_statement in E. unfold keyword_only_list in E. cbn [find_keyword] in E.
    destruct (match_keyword _ _) eqn:Em; simpl in E; [|done].
    destruct (skip_trailing_blanks _) as [r2|] eqn:Et; simplify_eq/=. apply length_skip_trailing in Et.
    rewrite length_drop in Et. simpl in *. lia.
Qed.

(** ** Every file *)

(** the array has room for one more token and the end mark *)
Definition has_room (size : nat) (l : list scan_token) : Prop := (length l + 1 < size)%nat.

Lemma store_room size l t : has_room size l → store size l t = Done (l ++ [t]).
Proof. unfold has_room, store. intros. rewrite (proj2 (Nat.ltb_lt _ _)); [done|lia]. Qed.

Lemma grown_room size l :
  (length l + 1 <= size)%nat → has_room (if (size <=? length l + 1)%nat then size * 2 else size) l.
Proof. unfold has_room. intros. destruct (Nat.leb_spec size (length l + 1)); lia. Qed.

(** what the loop does for a statement that is read *)
Lemma scan_loop_step fuel f line size l t r :
  f ≠ [] → has_room size l → scan_statement f = Some (t, r) →
  ∃ size', has_room size' (l ++ from_option (λ c, [Token line c]) [] t) ∧
    scan_file_loop (S fuel) f line size l =
    scan_file_loop fuel r (line + 1) size' (l ++ from_option (λ c, [Token line c]) [] t).
Proof.
  intros Hf Hr Hs. destruct f as [|c f]; [done|]. cbn [scan_file_loop]. rewrite Hs.
  destruct t as [t|]; cbn [from_option].
  - rewrite store_room by done. rewrite Done_bind. eexists. split; [|reflexivity].
    apply grown_room. rewrite length_app. unfold has_room in Hr. simpl. lia.
  - rewrite app_nil_r, Done_bind. eexists. split; [|reflexivity]. apply grown_room. unfold has_room in Hr. lia.
Qed.

Lemma scan_loop_total fuel f line size l :
  (length f <= fuel)%nat → has_room size l →
  ∃ r, scan_file_loop fuel f line size l = Done r ∧ (∀ l' size', r = Some (l', size') → has_room size' l').
Proof.
  revert f line size l. induction fuel as [|fuel IH]; intros f line size l Hlen Hr.
  { destruct f; [|simpl in Hlen; lia]. eexists. split; [done|]. by intros ?? [= <- <-]. }
  destruct f as [|c f]. { eexists. split; [done|]. by intros ?? [= <- <-]. }
  destruct (scan_statement (c :: f)) as [[t r]|] eqn:Es.
  - pose proof (length_statement (c :: f) t r ltac:(done) Es).
    destruct (scan_loop_step fuel (c :: f) line size l t r) as (size' & Hr' & ->); [done..|].
    apply IH; [simpl in *; lia|done].
  - exists None. split; [|done]. cbn [scan_file_loop]. by rewrite Es.
Qed.

(** ** Lines *)

Definition blanks (b : list Z) : Prop := Forall (λ c, isblank c = true) b.
(** the end of the line: of the file, or a newline *)
Definition eol (s : list Z) : Prop := s = [] ∨ ∃ r, s = NEWLINE :: r.
(** starts with no blank *)
Definition starts (s : list Z) : Prop := isblank (headc s) = false.

(** a value is written as it is or in quotes *)
Inductive value_text : Type := Plain (v : list Z) | Quoted (q : Z) (v : list Z).
Definition value_of (t : value_text) : list Z := match t with Plain v | Quoted _ v => v end.
Definition value_bytes (t : value_text) : list Z := match t with Plain v => v | Quoted q v => q :: v ++ [q] end.
Definition value_char (c : Z) : Prop := c ≠ NEWLINE ∧ c ≠ 0.
Definition value_ok (t : value_text) : Prop :=
  match t with
  | Plain v => Forall value_char v ∧ starts v ∧ isblank (default 0 (last v)) = false ∧ headc v ≠ 34 ∧ headc v ≠ 39
  | Quoted q v => (q = 34 ∨ q = 39) ∧ Forall (λ c, value_char c ∧ c ≠ q) v
  end.

(** a line, with its blanks *)
Inductive line : Type :=
  | Empty
  | Comment (text : list Z)
  | Section_ (name : list Z)
  | Menu (name : list Z)
  | Assign (keyword : scan_keyword_id) (sp1 sp2 : list Z) (value : value_text)
  | Position (digits sp1 sp2 : list Z) (value : value_text)
  | Only.
Record config_line : Type := Line { l_indent : list Z; l_what : line; l_trail : list Z }.

(** [scan_keyword_name]; the keywords that are given alone have none here *)
Definition keyword_bytes (k : scan_keyword_id) : list Z :=
  from_option fst [] (list_find (λ p, p.2 = k) keyword_list ≫= λ p, Some p.2).

Definition line_bytes (l : line) : list Z :=
  match l with
  | Empty => []
  | Comment text => 35 :: text
  | Section_ name => 91 :: name ++ [93]
  | Menu name => 58 :: name
  | Assign k sp1 sp2 v => keyword_bytes k ++ sp1 ++ 61 :: sp2 ++ value_bytes v
  | Position d sp1 sp2 v => d ++ sp1 ++ 61 :: sp2 ++ value_bytes v
  | Only => bytes_of_string "defaultauto"
  end.
Definition line_content (l : line) : option scan_content :=
  match l with
  | Empty | Comment _ => None
  | Section_ name => Some (section_heading name)
  | Menu name => Some (menu_heading name)
  | Assign k _ _ v => Some (keyword_assignment k (value_of v))
  | Position d _ _ v => Some (number_assignment (digits_val 0 d) (value_of v))
  | Only => Some (keyword_only scan_keyword_defaultauto)
  end.
Definition line_ok (l : line) : Prop :=
  match l with
  | Empty => True
  | Comment text => Forall (.≠ NEWLINE) text
  | Section_ name => name ≠ [] ∧ Forall (λ c, isgraph c = true ∧ c ≠ 93) name
  | Menu name => name ≠ [] ∧ Forall (λ c, isalnum c = true) name
  | Assign k sp1 sp2 v => k ≠ scan_keyword_defaultauto ∧ blanks sp1 ∧ blanks sp2 ∧ value_ok v
  | Position d sp1 sp2 v =>
      d ≠ [] ∧ Forall (λ c, isdigit c = true) d ∧ digits_val 0 d < 2 ^ 31 ∧ blanks sp1 ∧ blanks sp2 ∧ value_ok v
  | Only => True
  end.
Definition config_line_ok (l : config_line) : Prop := blanks (l_indent l) ∧ line_ok (l_what l) ∧ blanks (l_trail l).
Definition config_line_bytes (l : config_line) : list Z := l_indent l ++ line_bytes (l_what l) ++ l_trail l.

(** the lines with newlines between them *)
Fixpoint config_text (ls : list config_line) : list Z :=
  match ls with
  | [] => []
  | [l] => config_line_bytes l
  | l :: ls => config_line_bytes l ++ NEWLINE :: config_text ls
  end.
(** the tokens of the lines, numbered from [n] on *)
Fixpoint config_tokens (n : Z) (ls : list config_line) : list scan_token :=
  match ls with
  | [] => []
  | l :: ls => from_option (λ c, [Token n c]) [] (line_content (l_what l)) ++ config_tokens (n + 1) ls
  end.

(** *** Pieces of a line *)

Lemma skip_blanks_app b s : blanks b → skip_blanks (b ++ s) = skip_blanks s.
Proof. induction 1 as [|c b Hc _ IH]; [done|]. simpl. by rewrite Hc. Qed.
Lemma skip_blanks_starts s : starts s → skip_blanks s = s.
Proof. destruct s as [|c s]; [done|]. unfold starts. simpl. by intros ->. Qed.
Lemma skip_trailing_app b s : blanks b → eol s → skip_trailing_blanks (b ++ s) = Some (drop 1 s).
Proof.
  induction 1 as [|c b Hc _ IH]; intros Hs; [by destruct Hs as [->|[r ->]]|]. simpl.
  destruct (Z.eqb_spec c NEWLINE) as [->|]; [done|]. rewrite Hc. simpl. by apply IH.
Qed.
Lemma eol_starts s : eol s → starts s.
Proof. by intros [->|[r ->]]. Qed.
Lemma starts_app s t : starts s → starts t → starts (s ++ t).
Proof. destruct s; [done|]. by unfold starts. Qed.
Lemma blank_cases c : isblank c = true → c = 32 ∨ c = 9.
Proof. unfold isblank. lia. Qed.

Lemma section_name_app n r :
  Forall (λ c, isgraph c = true ∧ c ≠ 93) n → section_name (n ++ 93 :: r) = Some (n, r).
Proof.
  induction 1 as [|c n [Hc Hne] _ IH]; [done|]. simpl.
  destruct (Z.eqb_spec c 93); [done|]. destruct (Z.eqb_spec c NEWLINE) as [->|]; [done|].
  assert (isalnum c || ispunct c = true) as ->.
  { unfold ispunct. unfold isgraph in Hc. rewrite Hc. by destruct (isalnum c). }
  simpl. by rewrite IH.
Qed.
Lemma menu_name_app n b s :
  Forall (λ c, isalnum c = true) n → blanks b → eol s → menu_name (n ++ b ++ s) = Some (n, b ++ s).
Proof.
  intros Hn Hb Hs. induction Hn as [|c n Hc _ IH]; simpl.
  - destruct Hb as [|c b Hc _]; simpl; [by destruct Hs as [->|[r ->]]|].
    rewrite Hc. by destruct (blank_cases _ Hc) as [-> | ->].
  - unfold NEWLINE. destruct (Z.eqb_spec c 10) as [->|]; [done|].
    destruct (isblank c) eqn:Eb; [by destruct (blank_cases _ Eb) as [-> | ->]|].
    rewrite Hc. simpl. by rewrite IH.
Qed.

Lemma last_nonspace_blanks b i last : blanks b → last_nonspace b i last = last.
Proof. intros Hb. revert i. induction Hb as [|c b Hc _ IH]; intros i; [done|]. simpl. by rewrite Hc. Qed.
Lemma last_nonspace_app v c b i last :
  isblank c = false → blanks b → last_nonspace (v ++ c :: b) i last = Some (i + length v)%nat.
Proof.
  intros Hc Hb. revert i last. induction v as [|x v IH]; intros i last; simpl.
  - rewrite Hc. simpl. rewrite last_nonspace_blanks by done. f_equal. lia.
  - rewrite IH. f_equal. lia.
Qed.
Lemma trim_blanks_app v b : v ≠ [] → isblank (default 0 (last v)) = false → blanks b → trim_blanks (v ++ b) = v.
Proof.
  intros Hv Hl Hb. destruct (exists_last Hv) as (v' & c & ->). rewrite last_snoc in Hl. simpl in Hl.
  unfold trim_blanks. rewrite <- app_assoc. simpl. rewrite last_nonspace_app by done. simpl.
  replace (S (length v')) with (length (v' ++ [c])) by (rewrite length_app; simpl; lia).
  change (v' ++ c :: b) with (v' ++ [c] ++ b). rewrite app_assoc, take_app_length. done.
Qed.
Lemma value_chars_app q v s :
  Forall (λ c, c ≠ NEWLINE ∧ (q ≠ 0 → c ≠ q)) v → (eol s ∨ (q ≠ 0 ∧ ∃ r, s = q :: r)) → value_chars q (v ++ s) = (v, s).
Proof.
  intros Hv Hs. induction Hv as [|c v [Hc Hq] _ IH]; simpl.
  - destruct Hs as [[->|[r ->]]|[Hq [r ->]]]; [done..|]. simpl.
    rewrite Z.eqb_refl. case_match; [done|]. by destruct (Z.eqb_spec q 0).
  - rewrite (proj2 (Z.eqb_neq _ _) Hc).
    destruct (Z.eqb_spec q 0) as [->|Hne]; simpl; [by rewrite IH|].
    specialize (Hq Hne). rewrite (proj2 (Z.eqb_neq _ _) Hq). by rewrite IH.
Qed.
Lemma cstr_value v : Forall value_char v → cstr v = v.
Proof. intros H. apply cstr_no_nul. eapply Forall_impl; [exact H|]. by intros c [_ ?]. Qed.
Lemma blank_value b : blanks b → Forall (λ c, c ≠ NEWLINE ∧ (0 ≠ 0 → c ≠ 0)) b.
Proof. intros Hb. eapply Forall_impl; [exact Hb|]. intros c Hc. split; [|done]. by intros ->. Qed.

(** *** Assignments *)

Lemma value_string_plain v trail s :
  value_ok (Plain v) → blanks trail → eol s →
  ∃ r, scan_value_string (skip_blanks (v ++ trail ++ s)) = Some (v, r) ∧ skip_trailing_blanks r = Some (drop 1 s).
Proof.
  intros (Hv & Hst & Hl & H1 & H2) Ht Hs. exists s. split; [|apply (skip_trailing_app [] s); [constructor|done]].
  destruct v as [|c v].
  { rewrite app_nil_l, skip_blanks_app, skip_blanks_starts by (try done; by apply eol_starts).
    destruct Hs as [->|[r ->]]; done. }
  rewrite skip_blanks_starts by done. unfold scan_value_string. cbv zeta.
  assert (misc_get_char ((c :: v) ++ trail ++ s) 0 = c) as -> by done. simpl in H1, H2.
  rewrite (proj2 (Z.eqb_neq _ _) H1), (proj2 (Z.eqb_neq _ _) H2).
  cbn [orb]. change (0 =? 0) with true. cbn iota.
  assert (value_chars 0 ((c :: v) ++ trail ++ s) = ((c :: v) ++ trail, s)) as ->.
  { rewrite app_assoc. apply value_chars_app; [|by left]. apply Forall_app. split; [|by apply blank_value].
    eapply Forall_impl; [exact Hv|]. by intros x [? _]. }
  rewrite trim_blanks_app by done. by rewrite cstr_value.
Qed.

Lemma value_string_quoted q v trail s :
  value_ok (Quoted q v) → blanks trail → eol s →
  ∃ r, scan_value_string (skip_blanks ((q :: v ++ [q]) ++ trail ++ s)) = Some (v, r) ∧ skip_trailing_blanks r = Some (drop 1 s).
Proof.
  intros (Hq & Hv) Ht Hs. exists (trail ++ s). split; [|by apply skip_trailing_app].
  assert (q ≠ 0) as Hq0 by (destruct Hq as [-> | ->]; done).
  rewrite skip_blanks_starts by (unfold starts; simpl; by destruct Hq as [-> | ->]).
  unfold scan_value_string. cbv zeta. rewrite <- app_comm_cons, <- app_assoc.
  assert (misc_get_char (q :: v ++ [q] ++ trail ++ s) 0 = q) as -> by done.
  assert ((q =? 34) || (q =? 39) = true) as -> by lia.
  rewrite (proj2 (Z.eqb_neq _ _) Hq0). cbn iota.
  change (drop 1 (q :: v ++ [q] ++ trail ++ s)) with (v ++ q :: trail ++ s).
  rewrite value_chars_app; [|eapply Forall_impl; [exact Hv|]; intros c [[? _] ?]; done|right; eauto].
  assert (misc_get_char (q :: trail ++ s) 0 = q) as -> by done. rewrite Z.eqb_refl. simpl.
  rewrite drop_0. rewrite cstr_value; [done|]. eapply Forall_impl; [exact Hv|]. by intros c [? _].
Qed.

Lemma scan_assignment_text sp1 sp2 v trail s :
  blanks sp1 → blanks sp2 → value_ok v → blanks trail → eol s →
  scan_assignment (sp1 ++ 61 :: sp2 ++ value_bytes v ++ trail ++ s) = Some (value_of v, drop 1 s).
Proof.
  intros H1 H2 Hv Ht Hs. unfold scan_assignment. rewrite skip_blanks_app, skip_blanks_starts by done.
  assert (misc_get_char (61 :: sp2 ++ value_bytes v ++ trail ++ s) 0 = 61) as -> by done.
  change (negb (61 =? 61)) with false. cbn iota.
  change (drop 1 (61 :: sp2 ++ value_bytes v ++ trail ++ s)) with (sp2 ++ value_bytes v ++ trail ++ s).
  rewrite skip_blanks_app by done.
  destruct v as [v|q v]; cbn [value_bytes value_of].
  - destruct (value_string_plain v trail s) as (r & -> & Hr); [done..|]. simpl. by rewrite Hr.
  - destruct (value_string_quoted q v trail s) as (r & -> & Hr); [done..|]. simpl. by rewrite Hr.
Qed.

(** a keyword ends at a blank or at the sign of the assignment *)
Lemma scan_keyword_text k c r :
  k ≠ scan_keyword_defaultauto → isblank c = true ∨ c = 61 → scan_keyword (keyword_bytes k ++ c :: r) = Some (k, c :: r).
Proof.
  intros Hk Hc. assert (c = 32 ∨ c = 9 ∨ c = 61) as Hc'.
  { destruct Hc as [Hc| ->]; [|auto]. destruct (blank_cases _ Hc); auto. }
  destruct Hc' as [-> |[-> | ->]]; destruct k; try done; reflexivity.
Qed.
Lemma keyword_line_start k : k ≠ scan_keyword_defaultauto → ∃ c r, keyword_bytes k = c :: r ∧ 97 <= c <= 122.
Proof. intros Hk. destruct k; try done; eexists _, _; (split; [vm_compute; reflexivity|lia]). Qed.
Lemma keyword_no_newline k : Forall (.≠ NEWLINE) (keyword_bytes k).
Proof. apply (bool_decide_eq_true_1 (Forall (.≠ NEWLINE) (keyword_bytes k))). by destruct k; vm_compute. Qed.

Lemma digit_range c : isdigit c = true → 48 <= c <= 57.
Proof. unfold isdigit. lia. Qed.

Lemma digits_val_mono d acc : Forall (λ c, isdigit c = true) d → 0 <= acc → acc <= digits_val acc d.
Proof.
  intros Hd. revert acc. induction Hd as [|c d Hc _ IH]; intros acc Ha; simpl; [lia|].
  rewrite Hc. apply digit_range in Hc. etransitivity; [|apply IH; lia]. lia.
Qed.
Lemma number_loop_text d c r acc :
  Forall (λ c, isdigit c = true) d → isdigit c = false → 0 <= acc → digits_val acc d < 2 ^ 31 →
  number_loop (d ++ c :: r) acc = Some (digits_val acc d, c :: r).
Proof.
  intros Hd Hc. revert acc. induction Hd as [|x d Hx Hd IH]; intros acc Ha Hv; simpl in *; [by rewrite Hc|].
  rewrite Hx in *. pose proof (digit_range x Hx).
  pose proof (digits_val_mono d (acc * 10 + (x - 48)) Hd ltac:(lia)).
  replace (acc * 10 + x - 48) with (acc * 10 + (x - 48)) by lia.
  rewrite s32_small by lia. destruct (Z.ltb_spec (acc * 10 + (x - 48)) acc); [lia|]. apply IH; lia.
Qed.

Lemma search_line_app a s : Forall (.≠ NEWLINE) a → search_line_for (a ++ 61 :: s) 61 = true.
Proof.
  induction 1 as [|c a Hc _ IH]; [done|]. simpl. rewrite (proj2 (Z.eqb_neq _ _) Hc). by case_match.
Qed.
Lemma search_line_none a s : Forall (λ c, c ≠ NEWLINE ∧ c ≠ 61) a → eol s → search_line_for (a ++ s) 61 = false.
Proof.
  induction 1 as [|c a [Hc He] _ IH]; intros Hs; [by destruct Hs as [->|[r ->]]|]. simpl.
  rewrite (proj2 (Z.eqb_neq _ _) Hc), (proj2 (Z.eqb_neq _ _) He). by apply IH.
Qed.
Lemma skip_line_app a s : Forall (.≠ NEWLINE) a → eol s → skip_line (a ++ s) = drop 1 s.
Proof.
  induction 1 as [|c a Hc _ IH]; intros Hs; [by destruct Hs as [->|[r ->]]|]. simpl.
  rewrite (proj2 (Z.eqb_neq _ _) Hc). by apply IH.
Qed.
Lemma blanks_no_newline b : blanks b → Forall (.≠ NEWLINE) b.
Proof. intros Hb. eapply Forall_impl; [exact Hb|]. by intros c Hc ->. Qed.

(** *** Statements *)

(** a line with a sign of assignment, which starts with a letter or a digit *)
Lemma statement_letter f c r :
  f = c :: r → 48 <= c → c ≠ 58 → c ≠ 91 →
  scan_statement f =
  if search_line_for f 61 then
    if isdigit c then '(t, r) ← scan_number_assignment f; Some (Some t, r)
    else '(t, r) ← scan_keyword_assignment f; Some (Some t, r)
  else '(t, r) ← scan_keyword_only_statement f; Some (Some t, r).
Proof.
  intros -> Hc H1 H2. unfold scan_statement. rewrite skip_blanks_starts by (unfold starts, isblank; simpl; lia).
  cbv zeta. unfold NEWLINE.
  rewrite (proj2 (Z.eqb_neq c 91)), (proj2 (Z.eqb_neq c 58)), (proj2 (Z.eqb_neq c 35)), (proj2 (Z.eqb_neq c 10)) by lia.
  done.
Qed.

Lemma keyword_statement k sp1 sp2 v trail s :
  line_ok (Assign k sp1 sp2 v) → blanks trail → eol s →
  scan_statement (line_bytes (Assign k sp1 sp2 v) ++ trail ++ s) = Some (line_content (Assign k sp1 sp2 v), drop 1 s).
Proof.
  intros (Hk & H1 & H2 & Hv) Ht Hs. simpl. rewrite <- !app_assoc, <- app_comm_cons, <- !app_assoc.
  destruct (keyword_line_start k Hk) as (c & r & Ek & Hc).
  erewrite statement_letter by (try (rewrite Ek; reflexivity); lia).
  rewrite app_assoc, search_line_app
    by (apply Forall_app; split; [apply keyword_no_newline|by apply blanks_no_newline]).
  assert (isdigit c = false) as -> by (unfold isdigit; lia).
  rewrite <- app_assoc. unfold scan_keyword_assignment.
  assert (scan_keyword (keyword_bytes k ++ sp1 ++ 61 :: sp2 ++ value_bytes v ++ trail ++ s) =
          Some (k, sp1 ++ 61 :: sp2 ++ value_bytes v ++ trail ++ s)) as ->.
  { destruct sp1 as [|b sp1]; [apply scan_keyword_text; auto|].
    apply (scan_keyword_text k b); [done|]. left. by inv H1. }
  simpl. rewrite scan_assignment_text by done. done.
Qed.

Lemma number_statement d sp1 sp2 v trail s :
  line_ok (Position d sp1 sp2 v) → blanks trail → eol s →
  scan_statement (line_bytes (Position d sp1 sp2 v) ++ trail ++ s) = Some (line_content (Position d sp1 sp2 v), drop 1 s).
Proof.
  intros (Hd & Hall & Hmax & H1 & H2 & Hv) Ht Hs. simpl. rewrite <- !app_assoc, <- app_comm_cons, <- !app_assoc.
  destruct d as [|c d]; [done|]. assert (isdigit c = true) as Hc by (by inv Hall). pose proof (digit_range c Hc).
  erewrite statement_letter by (try reflexivity; lia).
  rewrite app_assoc, search_line_app.
  2:{ apply Forall_app; split; [|by apply blanks_no_newline].
      eapply Forall_impl; [exact Hall|]. by intros x Hx ->. }
  rewrite Hc, <- app_assoc. unfold scan_number_assignment, scan_number.
  assert (misc_get_char ((c :: d) ++ sp1 ++ 61 :: sp2 ++ value_bytes v ++ trail ++ s) 0 = c) as -> by done. rewrite Hc.
  assert (number_loop ((c :: d) ++ sp1 ++ 61 :: sp2 ++ value_bytes v ++ trail ++ s) 0 =
          Some (digits_val 0 (c :: d), sp1 ++ 61 :: sp2 ++ value_bytes v ++ trail ++ s)) as ->.
  { destruct sp1 as [|b sp1]; [by apply number_loop_text|].
    apply (number_loop_text (c :: d) b); [done| |done..].
    destruct (blank_cases b) as [-> | ->]; [by inv H1|done..]. }
  cbn [mbind option_bind]. rewrite scan_assignment_text by done. done.
Qed.

Lemma only_statement trail s :
  blanks trail → eol s →
  scan_statement (bytes_of_string "defaultauto" ++ trail ++ s) = Some (line_content Only, drop 1 s).
Proof.
  intros Ht Hs. rewrite (statement_letter _ 100 (drop 1 (bytes_of_string "defaultauto") ++ trail ++ s)) by (try reflexivity; lia).
  rewrite app_assoc, search_line_none; [|apply Forall_app; split|done].
  - unfold scan_keyword_only_statement. rewrite <- app_assoc. simpl. rewrite drop_0, skip_trailing_app by done. done.
  - apply (bool_decide_eq_true_1 (Forall (λ c, c ≠ NEWLINE ∧ c ≠ 61) (bytes_of_string "defaultauto"))). by vm_compute.
  - eapply Forall_impl; [exact Ht|]. intros c Hc. by split; intros ->.
Qed.

Lemma line_statement l trail s :
  line_ok l → blanks trail → eol s → scan_statement (line_bytes l ++ trail ++ s) = Some (line_content l, drop 1 s).
Proof.
  intros Hl Ht Hs. destruct l as [|text|name|name|k sp1 sp2 v|d sp1 sp2 v|];
    [| | | |by apply keyword_statement|by apply number_statement|by apply only_statement].
  - simpl. unfold scan_statement. rewrite skip_blanks_app, skip_blanks_starts by (try done; by apply eol_starts).
    by destruct Hs as [->|[r ->]].
  - unfold scan_statement. simpl. rewrite app_assoc, skip_line_app; [done| |done].
    apply Forall_app. split; [done|by apply blanks_no_newline].
  - destruct Hl as [Hne Hn]. unfold scan_statement. simpl. unfold scan_section_heading. rewrite <- app_assoc. simpl.
    rewrite section_name_app by done. simpl. rewrite bool_decide_false by done.
    rewrite skip_trailing_app by done. done.
  - destruct Hl as [Hne Hn]. unfold scan_statement. simpl. unfold scan_menu_heading.
    rewrite menu_name_app by done. simpl. rewrite skip_trailing_app by done. simpl. by rewrite bool_decide_false.
Qed.

Lemma statement_indent b f : blanks b → scan_statement (b ++ f) = scan_statement f.
Proof. intros Hb. unfold scan_statement. by rewrite skip_blanks_app. Qed.

Lemma config_line_statement l s :
  config_line_ok l → eol s → scan_statement (config_line_bytes l ++ s) = Some (line_content (l_what l), drop 1 s).
Proof.
  intros (Hi & Hl & Ht) Hs. unfold config_line_bytes. rewrite <- !app_assoc, statement_indent by done.
  by apply line_statement.
Qed.

(** *** Files *)

Lemma line_no_content l : config_line_ok l → config_line_bytes l = [] → line_content (l_what l) = None.
Proof.
  intros (_ & Hl & _) H. unfold config_line_bytes in H. apply app_eq_nil in H as [_ H]. apply app_eq_nil in H as [H _].
  destruct (l_what l) as [| | | |k sp1 sp2 v|d sp1 sp2 v|]; try done; simpl in H.
  - apply app_eq_nil in H as [_ H]. by apply app_eq_nil in H as [_ H].
  - apply app_eq_nil in H as [_ H]. by apply app_eq_nil in H as [_ H].
Qed.

Lemma scan_loop_text fuel ls line size l :
  (length (config_text ls) <= fuel)%nat → Forall config_line_ok ls → has_room size l →
  ∃ size', has_room size' (l ++ config_tokens line ls) ∧
    scan_file_loop fuel (config_text ls) line size l = Done (Some (l ++ config_tokens line ls, size')).
Proof.
  revert fuel line size l. induction ls as [|x ls IH]; intros fuel line size l Hlen Hok Hr.
  { exists size. simpl. rewrite app_nil_r. split; [done|]. by destruct fuel. }
  inv Hok. destruct (config_text (x :: ls)) as [|c0 f0] eqn:Ef.
  { assert (ls = []) as ->.
    { destruct ls; [done|]. exfalso. simpl in Ef. by apply app_eq_nil in Ef as [_ Ef]. }
    simpl in *. rewrite line_no_content by done. simpl. rewrite app_nil_r. exists size. split; [done|]. by destruct fuel. }
  destruct fuel as [|fuel]; [simpl in Hlen; lia|].
  assert (∃ s, config_text (x :: ls) = config_line_bytes x ++ s ∧ eol s ∧ drop 1 s = config_text ls) as (s & Es & Hs & Hd).
  { destruct ls as [|y ls]; [exists []|exists (NEWLINE :: config_text (y :: ls))].
    - split_and!; [by rewrite app_nil_r|by left|done].
    - split_and!; [done|right; eauto|done]. }
  assert (scan_statement (c0 :: f0) = Some (line_content (l_what x), config_text ls)) as Hst.
  { rewrite <- Ef, Es, <- Hd. by apply config_line_statement. }
  destruct (scan_loop_step fuel (c0 :: f0) line size l _ _ ltac:(done) Hr Hst) as (size1 & Hr1 & ->).
  pose proof (length_statement (c0 :: f0) _ _ ltac:(done) Hst).
  destruct (IH fuel (line + 1) size1 _ ltac:(simpl in *; lia) ltac:(done) Hr1) as (size2 & Hr2 & ->).
  exists size2. cbn [config_tokens]. rewrite <- app_assoc in *. done.
Qed.

(** ** Numbers *)

(** the numbers that are read on the way to a small one are smaller still *)
Lemma number_loop_small f acc n r :
  0 <= acc → number_loop f acc = Some (n, r) → n < 2 ^ 27 →
  acc <= n ∧ n = digits_val acc f ∧ r = skip_while isdigit f.
Proof.
  revert acc. induction f as [|c f IH]; intros acc Ha; simpl; [intros [= <- <-] _; split_and!; first [lia|done]|].
  destruct (isdigit c) eqn:Ed; [|intros [= <- <-] _; split_and!; first [lia|done]].
  pose proof (digit_range c Ed). destruct (Z.ltb_spec (s32 (acc * 10 + c - 48)) acc) as [|Hge]; [done|]. intros Hl Hn.
  destruct (IH (s32 (acc * 10 + c - 48)) ltac:(lia) Hl Hn) as (Hle & Hv & Hr).
  rewrite s32_small in * by lia. replace (acc * 10 + (c - 48)) with (acc * 10 + c - 48) by lia. split_and!; first [lia|done].
Qed.

End ScanLex.
