(* ===== verification/ScanCheck.v ===== *)
(** The sections of zipl's configuration file (src/zipl/src/scan.c): how the tokens of
    a section are collected, the checks of sections, menus and the defaultboot section,
    and the menu that is built in place of a defaultboot section that asks for one.

    The keywords of a section are a function from their ids; the lines where they are
    given only go to messages and are left out. *)
From S2P Require Import Prelude Scan.
Import Scan.

Module ScanCheck.

(** ** Sections *)

Inductive scan_section_type : Type :=
  | section_default_auto | section_default_menu | section_default_section | section_ipl | section_segment
  | section_dump | section_dumpfs | section_ipl_tape | section_mvdump.
#[export] Instance scan_section_type_eq_dec : EqDecision scan_section_type.
Proof. solve_decision. Defined.

Inductive scan_key_state : Type := req | opt | inv.

Definition scan_key_table (type : scan_section_type) : list scan_key_state :=
  match type with
  | section_default_auto =>
      [opt; inv; inv; inv; inv; inv; inv; inv; req; opt; opt; inv; inv; inv; opt; opt; opt; opt; opt; opt; inv; opt; inv]
  | section_default_menu =>
      [inv; inv; inv; inv; inv; inv; inv; inv; inv; inv; inv; req; inv; inv; inv; inv; inv; inv; inv; inv; inv; opt; inv]
  | section_default_section =>
      [req; inv; inv; inv; inv; inv; inv; inv; inv; inv; inv; inv; inv; inv; inv; inv; inv; inv; inv; inv; inv; opt; inv]
  | section_ipl =>
      [inv; inv; inv; req; opt; opt; opt; inv; req; inv; inv; inv; inv; inv; opt; opt; opt; opt; opt; inv; opt; opt; opt]
  | section_segment =>
      [inv; inv; inv; inv; inv; inv; inv; req; req; inv; inv; inv; inv; inv; inv; inv; inv; inv; inv; inv; inv; inv; inv]
  | section_dump =>
      [inv; req; inv; inv; inv; inv; inv; inv; opt; inv; inv; inv; inv; inv; inv; inv; inv; inv; inv; inv; inv; inv; inv]
  | section_dumpfs =>
      [inv; inv; req; inv; opt; opt; inv; inv; req; inv; inv; inv; inv; inv; inv; inv; inv; inv; inv; inv; inv; inv; inv]
  | section_ipl_tape =>
      [inv; inv; inv; req; opt; opt; opt; inv; inv; inv; inv; inv; req; inv; inv; inv; inv; inv; inv; inv; inv; inv; inv]
  | section_mvdump =>
      [inv; inv; inv; inv; inv; inv; inv; inv; inv; inv; inv; inv; inv; req; inv; inv; inv; inv; inv; inv; inv; inv; inv]
  end.
Definition scan_menu_key_table : list scan_key_state :=
  [opt; inv; inv; inv; inv; inv; inv; inv; req; opt; opt; inv; inv; inv; opt; opt; opt; opt; opt; inv; inv; opt; inv].

Definition BOOT_MENU_ENTRIES : nat := 62.
Definition DEFAULTBOOT_SECTION : list Z := bytes_of_string "defaultboot".
Definition SCAN_AUTOMENU_NAME : list Z := bytes_of_string "zipl-automatic-menu".

(** [keyword[]]: the values, by keyword *)
Notation keywords := (scan_keyword_id → option (list Z)).
Definition no_keywords : keywords := λ _, None.
Definition set_keyword (k : scan_keyword_id) (v : list Z) (ks : keywords) : keywords :=
  λ i, if decide (i = k) then Some v else ks i.
Definition present (ks : keywords) (k : scan_keyword_id) : bool := bool_decide (is_Some (ks k)).

Definition is_section (name : list Z) (t : scan_token) : bool :=
  match t_content t with section_heading n => bool_decide (n = name) | _ => false end.
Definition is_menu (name : list Z) (t : scan_token) : bool :=
  match t_content t with menu_heading n => bool_decide (n = name) | _ => false end.
Definition scan_is_delimiter (t : scan_token) : bool :=
  match t_content t with section_heading _ | menu_heading _ => true | _ => false end.

(** [scan_find_section]: the index of the first heading from [offset] on *)
Fixpoint find_token (p : scan_token → bool) (scan : list scan_token) : option nat :=
  match scan with
  | [] => None
  | t :: scan => if p t then Some O else S <$> find_token p scan
  end.
Definition scan_find_section (p : scan_token → bool) (scan : list scan_token) (offset : nat) : option nat :=
  (λ i, offset + i)%nat <$> find_token p (drop offset scan).

(** the tokens of a section behind its heading, up to the next heading *)
Fixpoint section_tokens (scan : list scan_token) : list scan_token :=
  match scan with
  | [] => []
  | t :: scan => if scan_is_delimiter t then [] else t :: section_tokens scan
  end.

(** the loop of [scan_get_section_keywords]; [num] is [None] where no numbers are allowed *)
Fixpoint keywords_loop (l : list scan_token) (ks : keywords) (num : option (list (option (list Z))))
    : option (keywords * option (list (option (list Z)))) :=
  match l with
  | [] => Some (ks, num)
  | t :: l =>
      let keyword k v := if present ks k then None else keywords_loop l (set_keyword k v ks) num in
      match t_content t with
      | number_assignment number value =>
          match num with
          | None => None
          | Some n =>
              if number <=? 0 then None
              else if Z.of_nat BOOT_MENU_ENTRIES <? number then None
              else
                let i := Z.to_nat (number - 1) in
                match n !!! i with
                | Some _ => None
                | None => keywords_loop l ks (Some (<[i := Some value]> n))
                end
          end
      | keyword_assignment k v => keyword k v
      | keyword_only k => keyword k []
      | _ => keywords_loop l ks num
      end
  end.
Definition no_numbers : list (option (list Z)) := replicate BOOT_MENU_ENTRIES None.

(** behind the heading at [index] *)
Definition scan_get_section_keywords (scan : list scan_token) (index : nat) : option keywords :=
  fst <$> keywords_loop (section_tokens (drop (S index) scan)) no_keywords None.
Definition scan_get_menu_keywords (scan : list scan_token) (index : nat) : option (keywords * list (option (list Z))) :=
  '(ks, num) ← keywords_loop (section_tokens (drop (S index) scan)) no_keywords (Some no_numbers);
  (λ n, (ks, n)) <$> num.
(** the index behind the section *)
Definition section_end (scan : list scan_token) (index : nat) : nat := (S index + length (section_tokens (drop (S index) scan)))%nat.

(** ** Values *)

(** [sscanf] with %d: the number and the rest *)
Definition scan_int (s : list Z) : option (Z * list Z) :=
  let s := skip_while isspace s in
  let '(neg, s) := match s with
                   | c :: r => if c =? 45 then (true, r) else if c =? 43 then (false, r) else (false, s)
                   | [] => (false, [])
                   end in
  match s with
  | c :: _ =>
      if isdigit c then
        let v := digits_val 0 s in
        let v := if neg : bool then Z.max (- v) (-9223372036854775808) else Z.min v 9223372036854775807 in
        Some (s32 v, skip_while isdigit s)
      else None
  | [] => None
  end.
(** nothing but blanks behind the number: [sscanf] with a trailing %c *)
Definition at_end (s : list Z) : bool := bool_decide (skip_while isspace s = []).
(** [sscanf(s, "%d %c", ...) == 1] *)
Definition scan_one_int (s : list Z) : option Z :=
  '(v, r) ← scan_int s; if at_end r then Some v else None.
(** [sscanf(s, "%d,%d,%d %c", ...) == 3] *)
Definition scan_three_ints (s : list Z) : option (Z * Z * Z) :=
  '(a, r) ← scan_int s; if negb (headc r =? 44) then None else
  '(b, r) ← scan_int (drop 1 r); if negb (headc r =? 44) then None else
  '(c, r) ← scan_int (drop 1 r); if at_end r then Some (a, b, c) else None.

Definition isxdigit (c : Z) : bool := isdigit c || ((65 <=? c) && (c <=? 70)) || ((97 <=? c) && (c <=? 102)).
(** [sscanf(s, "%llx", ...) == 1] *)
Definition scanf_hex (s : list Z) : bool :=
  let s := skip_while isspace s in
  let s := match s with c :: r => if (c =? 45) || (c =? 43) then r else s | [] => [] end in
  let s := match s with 48 :: x :: r => if (x =? 120) || (x =? 88) then r else s | _ => s end in
  isxdigit (headc s).
(** what follows the last comma *)
Fixpoint after_last_comma (s : list Z) : option (list Z) :=
  match s with
  | [] => None
  | c :: s => match after_last_comma s with Some r => Some r | None => if c =? 44 then Some s else None end
  end.
Definition contains_address (s : list Z) : bool := match after_last_comma s with Some r => scanf_hex r | None => false end.

(** ** Checks *)

Definition scan_get_section_type (ks : keywords) : option scan_section_type :=
  if present ks scan_keyword_tape then Some section_ipl_tape
  else if present ks scan_keyword_image then Some section_ipl
  else if present ks scan_keyword_segment then Some section_segment
  else if present ks scan_keyword_dumpto then Some section_dump
  else if present ks scan_keyword_dumptofs then Some section_dumpfs
  else if present ks scan_keyword_mvdump then Some section_mvdump
  else None.

(** the type that the check finds; dumptofs is refused *)
Definition section_data_type (ks : keywords) : option scan_section_type :=
  if present ks scan_keyword_tape then Some section_ipl_tape
  else if present ks scan_keyword_image then Some section_ipl
  else if present ks scan_keyword_segment then Some section_segment
  else if present ks scan_keyword_dumpto then Some section_dump
  else if present ks scan_keyword_dumptofs then None
  else if present ks scan_keyword_mvdump then Some section_mvdump
  else None.

(** required keywords are there, and invalid ones are not *)
Definition key_ok (state : scan_key_state) (there : bool) : bool :=
  match state with req => there | inv => negb there | opt => true end.
Definition key_table_ok (table : list scan_key_state) (ks : keywords) : bool :=
  forallb (λ '(s, k), key_ok s (present ks k)) (zip table all_keywords).

(** the type; [type] is the one that is given, if any *)
Definition scan_check_section_data (ks : keywords) (type : option scan_section_type) : option scan_section_type :=
  type ← (match type with Some t => Some t | None => section_data_type ks end);
  if negb (key_table_ok (scan_key_table type) ks) then None
  else
    match ks scan_keyword_segment with
    | Some v => if contains_address v then Some type else None
    | None => Some type
    end.

Definition check_blocksize (size : Z) : bool := bool_decide (size ∈ [512; 1024; 2048; 4096]).

Inductive scan_target_type : Type := target_type_scsi | target_type_fba | target_type_ldl | target_type_cdl.
(** [strcasecmp(type, s) == 0] *)
Definition same_type (type : list Z) (s : string) : bool := bool_decide (tolower <$> type = tolower <$> bytes_of_string s).
Definition scan_get_target_type (type : list Z) : option scan_target_type :=
  if same_type type "SCSI" then Some target_type_scsi
  else if same_type type "FBA" then Some target_type_fba
  else if same_type type "LDL" then Some target_type_ldl
  else if same_type type "CDL" then Some target_type_cdl
  else None.

Definition target_keywords : list scan_keyword_id :=
  [scan_keyword_target; scan_keyword_targetbase; scan_keyword_targettype; scan_keyword_targetgeometry;
   scan_keyword_targetblocksize; scan_keyword_targetoffset].
Definition scan_count_target_keywords (ks : keywords) : nat := length (filter (λ k, present ks k = true) target_keywords).

(** [true] is 0 *)
Definition scan_check_target_data (ks : keywords) : bool :=
  if negb (present ks scan_keyword_targetbase) then
    negb (present ks scan_keyword_targettype || present ks scan_keyword_targetgeometry ||
          present ks scan_keyword_targetblocksize || present ks scan_keyword_targetoffset)
  else
    match ks scan_keyword_targettype with
    | None => false
    | Some type =>
        match scan_get_target_type type with
        | None => false
        | Some t =>
            let dasd := match t with target_type_cdl | target_type_ldl => true | _ => false end in
            eqb dasd (present ks scan_keyword_targetgeometry) &&
            match ks scan_keyword_targetgeometry with
            | Some g =>
                match scan_three_ints g with
                | Some (cylinders, heads, sectors) => (0 <? cylinders) && (0 <? heads) && (0 <? sectors)
                | None => false
                end
            | None => true
            end &&
            match ks scan_keyword_targetblocksize with
            | Some b => match scan_one_int b with Some n => check_blocksize n | None => false end
            | None => false
            end &&
            match ks scan_keyword_targetoffset with
            | Some o => match scan_one_int o with Some _ => true | None => false end
            | None => false
            end
        end
    end.

(** the index behind the section *)
Definition check_section (scan : list scan_token) (index : nat) (name : list Z) : option nat :=
  match scan_find_section (is_section name) scan (index + 1) with
  | Some _ => None
  | None =>
      ks ← scan_get_section_keywords scan index;
      if bool_decide (name = DEFAULTBOOT_SECTION) then Some (section_end scan index)
      else
        _ ← scan_check_section_data ks None;
        if scan_check_target_data ks then Some (section_end scan index) else None
  end.

Definition check_menu_keyword_data (ks : keywords) : bool := key_table_ok scan_menu_key_table ks.

(** a number in the range, if the keyword is given *)
Definition int_keyword (ks : keywords) (k : scan_keyword_id) (p : Z → bool) : bool :=
  match ks k with
  | None => true
  | Some v => match scan_one_int v with Some n => p n | None => false end
  end.

Definition check_menu (scan : list scan_token) (index : nat) (name : list Z) : option nat :=
  match scan_find_section (is_menu name) scan (index + 1) with
  | Some _ => None
  | None =>
      '(ks, num) ← scan_get_menu_keywords scan index;
      if negb (check_menu_keyword_data ks) then None
      else if negb (int_keyword ks scan_keyword_default
                      (λ n, negb (n <? 1) && negb (Z.of_nat BOOT_MENU_ENTRIES <? n) && bool_decide (is_Some (num !!! Z.to_nat (n - 1))))) then None
      else if negb (int_keyword ks scan_keyword_prompt (λ n, (n =? 0) || (n =? 1))) then None
      else if negb (int_keyword ks scan_keyword_timeout (λ n, negb (n <? 0))) then None
      else if negb (forallb (λ v, match v with
                                  | None => true
                                  | Some s => match scan_find_section (is_section s) scan 0 with Some _ => true | None => false end
                                  end) num) then None
      else if (length (filter is_Some num) =? 0)%nat then None
      else if scan_check_target_data ks then Some (section_end scan index) else None
  end.

(** [while (scan[i].id != scan_id_empty)] *)
Fixpoint scan_check_loop (fuel : nat) (scan : list scan_token) (i : nat) : outcome bool :=
  match scan !! i with
  | None => Done true
  | Some t =>
      match fuel with
      | O => OutOfFuel
      | S fuel =>
          let next (r : option nat) := match r with Some i => scan_check_loop fuel scan i | None => Done false end in
          match t_content t with
          | section_heading name => next (check_section scan i name)
          | menu_heading name => next (check_menu scan i name)
          | _ => Done false
          end
      end
  end.
(** [true] is 0 *)
Definition scan_check (scan : list scan_token) : outcome bool := scan_check_loop (length scan) scan 0.

(** ** The default section *)

Definition scan_get_defaultboot_type (ks : keywords) : option scan_section_type :=
  if present ks scan_keyword_defaultauto then
    if present ks scan_keyword_defaultmenu then None
    else if negb (present ks scan_keyword_target) then None
    else Some section_default_auto
  else if present ks scan_keyword_target then
    if present ks scan_keyword_defaultmenu then None else Some section_default_auto
  else if present ks scan_keyword_defaultmenu then
    if present ks scan_keyword_default then None else Some section_default_menu
  else if present ks scan_keyword_default then Some section_default_section
  else None.

(** [Some true]: the automenu must be built, [Some false]: it need not, [None]: error *)
Definition scan_check_defaultboot (scan : list scan_token) : option bool :=
  i ← scan_find_section (is_section DEFAULTBOOT_SECTION) scan 0;
  match scan_find_section (is_section DEFAULTBOOT_SECTION) scan (i + 1) with
  | Some _ => None
  | None =>
      ks ← scan_get_section_keywords scan i;
      if match ks scan_keyword_default with
         | Some v => match scan_find_section (is_section v) scan 0 with Some _ => false | None => true end
         | None => false
         end
      then None
      else
        type ← scan_get_defaultboot_type ks;
        let auto := bool_decide (type = section_default_auto) in
        if auto && (0 <? scan_count_target_keywords ks)%nat && negb (scan_check_target_data ks) then None
        else
          _ ← scan_check_section_data ks (Some type);
          Some auto
  end.

(** ** The automatic menu *)

Definition scan_append (cap : nat) (l : list scan_token) (c : scan_content) : outcome (list scan_token) := store cap l (Token 0 c).

(** the tokens of the section at the head, with its heading *)
Definition scan_copy_section (cap : nat) (section l : list scan_token) : outcome (list scan_token) :=
  foldl (λ r t, l ← r; store cap l t) (Done l) section.

Fixpoint append_keywords (cap : nat) (ids : list scan_keyword_id) (ks : keywords) (l : list scan_token) : outcome (list scan_token) :=
  match ids with
  | [] => Done l
  | id :: ids =>
      l ← (match ks id with Some v => scan_append cap l (keyword_assignment id v) | None => Done l end);
      append_keywords cap ids ks l
  end.
Definition scan_append_target_keywords (cap : nat) (ks : keywords) (l : list scan_token) : outcome (list scan_token) :=
  append_keywords cap target_keywords ks l.

Record automenu : Type := Automenu { am_new : list scan_token; am_entries : list (list Z); am_default : option nat }.

(** [while (scan[i].id != scan_id_empty)]; the inner [None] is an error *)
Fixpoint automenu_loop (fuel : nat) (cap : nat) (db : keywords) (scan : list scan_token) (a : automenu) : outcome (option automenu) :=
  match scan with
  | [] => Done (Some a)
  | t :: scan' =>
      match fuel with
      | O => OutOfFuel
      | S fuel =>
          let body := section_tokens scan' in
          let rest := drop (length body) scan' in
          match t_content t with
          | menu_heading name =>
              if bool_decide (name = SCAN_AUTOMENU_NAME) then Done None
              else
                l ← scan_copy_section cap (t :: body) (am_new a);
                automenu_loop fuel cap db rest (Automenu l (am_entries a) (am_default a))
          | section_heading name =>
              if bool_decide (name = DEFAULTBOOT_SECTION) then automenu_loop fuel cap db rest a
              else
                match keywords_loop body no_keywords None with
                | None => Done None
                | Some (ks, _) =>
                    l ← scan_copy_section cap (t :: body) (am_new a);
                    if negb (bool_decide (scan_get_section_type ks = Some section_ipl)) then
                      automenu_loop fuel cap db rest (Automenu l (am_entries a) (am_default a))
                    else if (length (am_entries a) =? BOOT_MENU_ENTRIES)%nat then Done None
                    else
                      let d := match db scan_keyword_default with
                               | Some dn => if bool_decide (dn = name) then Some (length (am_entries a)) else am_default a
                               | None => am_default a
                               end in
                      l ← (if (0 <? scan_count_target_keywords ks)%nat then Done l else scan_append_target_keywords cap db l);
                      automenu_loop fuel cap db rest (Automenu l (am_entries a ++ [name]) d)
                end
          | _ => Done None
          end
      end
  end.

(** [snprintf(str, sizeof(str), "%d", n)] of a number below 100 *)
Definition dec2 (n : nat) : list Z :=
  let d (x : nat) := 48 + Z.of_nat x in if (n <? 10)%nat then [d n] else [d (n / 10)%nat; d (n mod 10)%nat].

Fixpoint append_numbers (cap : nat) (i : nat) (entries : list (list Z)) (l : list scan_token) : outcome (list scan_token) :=
  match entries with
  | [] => Done l
  | e :: entries => l ← scan_append cap l (number_assignment (Z.of_nat i) e); append_numbers cap (S i) entries l
  end.

Definition is_section_heading (t : scan_token) : bool := match t_content t with section_heading _ => true | _ => false end.

(** the size of the new array *)
Definition automenu_size (scan : list scan_token) (db : keywords) : nat :=
  let num_sections := length (filter (λ t, is_section_heading t = true) scan) in
  let num_targets := scan_count_target_keywords db in
  (length scan + 1 + 1 + 1 + 1 + 3 + 1 + num_targets + num_sections * num_targets + num_sections)%nat.

(** the menu behind the copied sections *)
Definition append_automenu (cap : nat) (db : keywords) (a : automenu) : outcome (list scan_token) :=
  l ← scan_append cap (am_new a) (section_heading DEFAULTBOOT_SECTION);
  l ← scan_append cap l (keyword_assignment scan_keyword_defaultmenu SCAN_AUTOMENU_NAME);
  l ← scan_append cap l (menu_heading SCAN_AUTOMENU_NAME);
  l ← (match am_default a with
       | Some d => scan_append cap l (keyword_assignment scan_keyword_default (dec2 (d + 1)))
       | None => Done l
       end);
  l ← append_keywords cap [scan_keyword_prompt; scan_keyword_timeout; scan_keyword_secure] db l;
  l ← scan_append_target_keywords cap db l;
  append_numbers cap 1 (am_entries a) l.

(** the new array and its size; [None] is NULL *)
Definition scan_build_automenu (scan : list scan_token) : outcome (option (list scan_token * nat)) :=
  i ← deref (scan_find_section (is_section DEFAULTBOOT_SECTION) scan 0);
  match scan_get_section_keywords scan i with
  | None => Done None
  | Some db =>
      let cap := automenu_size scan db in
      r ← automenu_loop (length scan) cap db scan (Automenu [] [] None);
      match r with
      | None => Done None
      | Some a =>
          if (length (am_entries a) =? 0)%nat then Done None
          else l ← append_automenu cap db a; Done (Some (l, cap))
      end
  end.

End ScanCheck.
