(* ===== verification/ScanRules.v ===== *)
(** The rules for sections and menus of zipl's configuration, as the comment of
    [scan_check] (src/zipl/src/scan.c) lists them, stated over the parts of a
    configuration, and that [scan_check] decides them. *)
From S2P Require Import Prelude Scan ScanCheck.
Import Scan ScanCheck.

Module ScanRules.

(** ** Parts *)

(** a section or a menu, with the tokens behind its heading *)
Inductive part : Type :=
  | SectionPart (line : Z) (name : list Z) (body : list scan_token)
  | MenuPart (line : Z) (name : list Z) (body : list scan_token).
Definition body (p : part) : list scan_token := match p with SectionPart _ _ b | MenuPart _ _ b => b end.
Definition part_tokens (p : part) : list scan_token :=
  match p with
  | SectionPart line name b => Token line (section_heading name) :: b
  | MenuPart line name b => Token line (menu_heading name) :: b
  end.
Definition section_name (p : part) : list (list Z) := match p with SectionPart _ n _ => [n] | _ => [] end.
Definition menu_name (p : part) : list (list Z) := match p with MenuPart _ n _ => [n] | _ => [] end.
Notation flatten ps := (ps ≫= part_tokens).
Notation section_names ps := (ps ≫= section_name).
Notation menu_names ps := (ps ≫= menu_name).
(** the tokens behind a heading are none *)
Definition no_heading (l : list scan_token) : Prop := Forall (λ t, scan_is_delimiter t = false) l.

(** ** What a part gives *)

Definition given_keyword (t : scan_token) : option (scan_keyword_id * list Z) :=
  match t_content t with
  | keyword_assignment k v => Some (k, v)
  | keyword_only k => Some (k, [])
  | _ => None
  end.
Definition given_position (t : scan_token) : option (Z * list Z) :=
  match t_content t with number_assignment n v => Some (n, v) | _ => None end.
(** the keywords and the positions, in their order *)
Notation keywords_in l := (omap given_keyword l).
Notation positions_in l := (omap given_position l).
Fixpoint assoc {A B} `{EqDecision A} (a : A) (l : list (A * B)) : option B :=
  match l with
  | [] => None
  | (x, b) :: l => if decide (a = x) then Some b else assoc a l
  end.
Definition value_in (l : list scan_token) (k : scan_keyword_id) : option (list Z) := assoc k (keywords_in l).

(** ** The rules *)

Definition keyword_index (k : scan_keyword_id) : nat := from_option fst 0%nat (list_find (eq k) all_keywords).
(** a keyword that a row of the table requires is given, one that it forbids is not *)
Definition row_holds (table : list scan_key_state) (l : list scan_token) : Prop :=
  ∀ k, match table !! keyword_index k with
       | Some req => is_Some (value_in l k)
       | Some inv => value_in l k = None
       | _ => True
       end.
Definition section_types : list scan_section_type := [section_ipl; section_segment; section_dump; section_ipl_tape; section_mvdump].

(** a target is given by a directory, or by all of the parameters of its device *)
Definition target_rule (l : list scan_token) : Prop :=
  (value_in l scan_keyword_targetbase = None ∧ value_in l scan_keyword_targettype = None ∧
   value_in l scan_keyword_targetgeometry = None ∧ value_in l scan_keyword_targetblocksize = None ∧
   value_in l scan_keyword_targetoffset = None) ∨
  (∃ base type tt blocksize size offset o,
     value_in l scan_keyword_targetbase = Some base ∧
     value_in l scan_keyword_targettype = Some type ∧ scan_get_target_type type = Some tt ∧
     value_in l scan_keyword_targetblocksize = Some blocksize ∧ scan_one_int blocksize = Some size ∧
     (size = 512 ∨ size = 1024 ∨ size = 2048 ∨ size = 4096) ∧
     value_in l scan_keyword_targetoffset = Some offset ∧ scan_one_int offset = Some o ∧
     ((tt = target_type_scsi ∨ tt = target_type_fba) ∧ value_in l scan_keyword_targetgeometry = None ∨
      (tt = target_type_ldl ∨ tt = target_type_cdl) ∧
      ∃ geometry c h s, value_in l scan_keyword_targetgeometry = Some geometry ∧
        scan_three_ints geometry = Some (c, h, s) ∧ 0 < c ∧ 0 < h ∧ 0 < s)).

(** Rules 2 to 6 of the comment of [scan_check], as the code applies them: of the section
    defaultboot only rules 2 and 5 are checked here.  The comment makes no exception, but
    rules 3, 4, 6 and 8 are left to [scan_check_defaultboot] for it. *)
Definition section_rules (name : list Z) (l : list scan_token) : Prop :=
  positions_in l = [] ∧ NoDup (keywords_in l).*1 ∧
  (name = DEFAULTBOOT_SECTION ∨
   (∃ type, type ∈ section_types ∧ row_holds (scan_key_table type) l) ∧
   (∀ v, value_in l scan_keyword_segment = Some v → contains_address v = true) ∧
   target_rule l).

(** rules 9 to 14 and 16; [names] are the sections of the configuration *)
Definition menu_rules (names : list (list Z)) (l : list scan_token) : Prop :=
  positions_in l ≠ [] ∧ NoDup (positions_in l).*1 ∧ (∀ n, n ∈ (positions_in l).*1 → 1 <= n <= Z.of_nat BOOT_MENU_ENTRIES) ∧
  (∀ s, s ∈ (positions_in l).*2 → s ∈ names) ∧
  NoDup (keywords_in l).*1 ∧ row_holds scan_menu_key_table l ∧
  (∀ v, value_in l scan_keyword_default = Some v → ∃ n, scan_one_int v = Some n ∧ n ∈ (positions_in l).*1) ∧
  (∀ v, value_in l scan_keyword_prompt = Some v → scan_one_int v = Some 0 ∨ scan_one_int v = Some 1) ∧
  (∀ v, value_in l scan_keyword_timeout = Some v → ∃ n, scan_one_int v = Some n ∧ 0 <= n) ∧
  target_rule l.

Definition part_rules (names : list (list Z)) (p : part) : Prop :=
  match p with
  | SectionPart _ name l => section_rules name l
  | MenuPart _ _ l => menu_rules names l
  end.

(** rule 1: all tokens are in parts; rules 7 and 15: their names are unique *)
Definition complies (scan : list scan_token) : Prop :=
  ∃ ps, scan = flatten ps ∧ Forall (λ p, no_heading (body p)) ps ∧
    NoDup (section_names ps) ∧ NoDup (menu_names ps) ∧ Forall (part_rules (section_names ps)) ps.

(** ** Collecting *)

Lemma assoc_None {A B} `{EqDecision A} (a : A) (l : list (A * B)) : assoc a l = None ↔ a ∉ l.*1.
Proof.
  induction l as [|[x b] l IH]; simpl; [split; [intros _; apply not_elem_of_nil|done]|].
  rewrite not_elem_of_cons, <- IH. destruct (decide (a = x)); naive_solver.
Qed.
Lemma assoc_Some {A B} `{EqDecision A} (a : A) (b : B) (l : list (A * B)) : assoc a l = Some b → (a, b) ∈ l.
Proof.
  induction l as [|[x y] l IH]; simpl; [done|]. destruct (decide (a = x)) as [->|]; [intros [= ->]; left|].
  intros H. right. auto.
Qed.
Lemma assoc_In {A B} `{EqDecision A} (a : A) (b : B) (l : list (A * B)) : NoDup l.*1 → (a, b) ∈ l → assoc a l = Some b.
Proof.
  induction l as [|[q w] l IH]; [by intros _ ?%elem_of_nil|].
  cbn [fmap list_fmap fst assoc]. intros [Hni Hnd]%NoDup_cons [[= -> ->]|Hin]%elem_of_cons; [by rewrite decide_True|].
  rewrite decide_False; [auto|]. intros ->. apply Hni. apply list_elem_of_fmap. by exists (q, b).
Qed.
Lemma assoc_is_Some {A B} `{EqDecision A} (a : A) (l : list (A * B)) : is_Some (assoc a l) ↔ a ∈ l.*1.
Proof.
  rewrite <- not_eq_None_Some, assoc_None. split; [apply dec_stable|naive_solver].
Qed.

Lemma present_eq ks k : present ks k = true ↔ is_Some (ks k).
Proof. unfold present. apply bool_decide_eq_true. Qed.
Lemma present_false ks k : present ks k = false ↔ ks k = None.
Proof. unfold present. rewrite bool_decide_eq_false. symmetry. apply eq_None_not_Some. Qed.

(** the keywords and positions of [l] can be added to the ones collected so far *)
Definition numbers_ok (num : option (list (option (list Z)))) (ps : list (Z * list Z)) : Prop :=
  match num with
  | None => ps = []
  | Some n => NoDup ps.*1 ∧ ∀ p, p ∈ ps.*1 → 1 <= p <= Z.of_nat BOOT_MENU_ENTRIES ∧ n !!! Z.to_nat (p - 1) = None
  end.
Definition collects (l : list scan_token) (ks : keywords) (num : option (list (option (list Z)))) : Prop :=
  numbers_ok num (positions_in l) ∧ NoDup (keywords_in l).*1 ∧ ∀ k, k ∈ (keywords_in l).*1 → ks k = None.
(** what is then collected *)
Definition keywords_after (l : list scan_token) (ks ks' : keywords) : Prop :=
  ∀ k, ks' k = match value_in l k with Some v => Some v | None => ks k end.
Definition numbers_after (l : list scan_token) (num num' : option (list (option (list Z)))) : Prop :=
  match num with
  | None => num' = None
  | Some n => ∃ n', num' = Some n' ∧ length n' = length n ∧
      ∀ i, n' !!! i = match assoc (Z.of_nat i + 1) (positions_in l) with Some v => Some v | None => n !!! i end
  end.

Lemma set_keyword_eq k v ks k' : set_keyword k v ks k' = if decide (k' = k) then Some v else ks k'.
Proof. done. Qed.

Section Step.
Context (t : scan_token) (l : list scan_token) (ks : keywords).

Lemma collects_keyword k v num :
  given_keyword t = Some (k, v) → given_position t = None →
  collects (t :: l) ks num ↔ ks k = None ∧ collects l (set_keyword k v ks) num.
Proof.
  intros Hg Hp. unfold collects. simpl. rewrite Hg, Hp. cbn [fmap list_fmap fst]. rewrite NoDup_cons. split.
  - intros (Hn & [Hni Hnd] & Hf). split; [apply Hf; left|]. split_and!; [done..|].
    intros k' Hin. rewrite set_keyword_eq, decide_False by (by intros ->). apply Hf. by right.
  - intros (Hk & Hn & Hnd & Hf). split_and!; [done| |done|].
    + intros Hin. specialize (Hf _ Hin). by rewrite set_keyword_eq, decide_True in Hf.
    + intros k' [->|Hin]%elem_of_cons; [done|]. specialize (Hf _ Hin). rewrite set_keyword_eq in Hf. by case_decide.
Qed.
Lemma keywords_after_keyword k v ks' :
  given_keyword t = Some (k, v) → (∀ k', k' ∈ (keywords_in l).*1 → set_keyword k v ks k' = None) →
  keywords_after l (set_keyword k v ks) ks' → keywords_after (t :: l) ks ks'.
Proof.
  intros Hg Hf Ha k'. rewrite Ha. unfold value_in. simpl. rewrite Hg. cbn [assoc]. rewrite set_keyword_eq.
  case_decide as Hd; [|done]. subst k'. destruct (assoc k (keywords_in l)) eqn:E; [|done].
  exfalso. assert (k ∈ (keywords_in l).*1) as Hin by (apply assoc_is_Some; eauto).
  specialize (Hf _ Hin). by rewrite set_keyword_eq, decide_True in Hf.
Qed.

Lemma collects_position p v n :
  given_position t = Some (p, v) → given_keyword t = None → length n = BOOT_MENU_ENTRIES →
  collects (t :: l) ks (Some n) ↔
  1 <= p <= Z.of_nat BOOT_MENU_ENTRIES ∧ n !!! Z.to_nat (p - 1) = None ∧
  collects l ks (Some (<[Z.to_nat (p - 1) := Some v]> n)).
Proof.
  intros Hg Hk Hlen. unfold collects, numbers_ok. simpl. rewrite Hg, Hk. cbn [fmap list_fmap fst]. rewrite NoDup_cons.
  assert (∀ q, 1 <= p <= Z.of_nat BOOT_MENU_ENTRIES → 1 <= q → Z.to_nat (q - 1) = Z.to_nat (p - 1) → q = p) as Hinj by lia.
  split.
  - intros (([Hni Hnd] & Hr) & Hrest). destruct (Hr p) as [Hp Hfree]; [left|]. split; [lia|]. split; [done|].
    split; [split; [done|]|done]. intros q Hq. destruct (Hr q) as [Hq1 Hq2]; [by right|]. split; [done|].
    rewrite list_lookup_total_insert_ne; [done|]. intros E. apply Hni. assert (q = p) as <- by lia. done.
  - intros (Hp & Hfree & ([Hnd Hr] & Hrest)). split; [split; [split; [|done]|]|done].
    + intros Hin. destruct (Hr _ Hin) as [_ Hn]. rewrite list_lookup_total_insert_eq in Hn by lia. done.
    + intros q [->|Hin]%elem_of_cons; [done|]. destruct (Hr _ Hin) as [Hq Hn]. split; [done|].
      destruct (decide (Z.to_nat (p - 1) = Z.to_nat (q - 1))) as [E|E]; [by rewrite <- E|].
      by rewrite list_lookup_total_insert_ne in Hn by done.
Qed.
Lemma numbers_after_position p v n num' :
  given_position t = Some (p, v) → length n = BOOT_MENU_ENTRIES → 1 <= p <= Z.of_nat BOOT_MENU_ENTRIES →
  numbers_ok (Some (<[Z.to_nat (p - 1) := Some v]> n)) (positions_in l) →
  numbers_after l (Some (<[Z.to_nat (p - 1) := Some v]> n)) num' → numbers_after (t :: l) (Some n) num'.
Proof.
  intros Hg Hlen Hp [_ Hr] (n' & -> & Hl & Hn). exists n'. split_and!; [done|by rewrite Hl, length_insert|].
  intros i. rewrite Hn. simpl. rewrite Hg. cbn [assoc].
  destruct (decide (Z.of_nat i + 1 = p)) as [<-|Hne].
  - replace (Z.to_nat (Z.of_nat i + 1 - 1)) with i in * by lia.
    destruct (assoc (Z.of_nat i + 1) (positions_in l)) eqn:E; [|by rewrite list_lookup_total_insert_eq by lia].
    exfalso. assert (Z.of_nat i + 1 ∈ (positions_in l).*1) as Hin by (apply assoc_is_Some; eauto).
    destruct (Hr _ Hin) as [_ H]. replace (Z.to_nat (Z.of_nat i + 1 - 1)) with i in H by lia.
    by rewrite list_lookup_total_insert_eq in H by lia.
  - by rewrite list_lookup_total_insert_ne by lia.
Qed.
End Step.

Lemma keywords_loop_spec l ks num :
  no_heading l → (∀ n, num = Some n → length n = BOOT_MENU_ENTRIES) →
  match keywords_loop l ks num with
  | Some (ks', num') => collects l ks num ∧ keywords_after l ks ks' ∧ numbers_after l num num'
  | None => ¬ collects l ks num
  end.
Proof.
  intros Hl. revert ks num. induction Hl as [|t l Ht _ IH]; intros ks num Hnum.
  { simpl. split; [|split; [done|destruct num; simpl; eauto]].
    split_and!; [|constructor|intros k H; by apply elem_of_nil in H].
    destruct num; simpl; [split; [constructor|intros p H; by apply elem_of_nil in H]|done]. }
  assert (∀ k v, given_keyword t = Some (k, v) → given_position t = None →
    match (if present ks k then None else keywords_loop l (set_keyword k v ks) num) with
    | Some (ks', num') => collects (t :: l) ks num ∧ keywords_after (t :: l) ks ks' ∧ numbers_after (t :: l) num num'
    | None => ¬ collects (t :: l) ks num
    end) as Hk.
  { intros k v Hg Hp. pose proof (collects_keyword t l ks k v num Hg Hp) as Hc. specialize (IH (set_keyword k v ks) num Hnum).
    destruct (present ks k) eqn:Ep.
    { apply present_eq in Ep as [v' Ep]. intros [? _]%Hc. congruence. }
    apply present_false in Ep. destruct (keywords_loop l (set_keyword k v ks) num) as [[ks' num']|]; [|by intros [_ ?]%Hc].
    destruct IH as (Hcl & Hka & Hna). split; [by apply Hc|]. destruct Hcl as (_ & _ & Hf).
    split; [by eapply keywords_after_keyword|]. unfold numbers_after in *. simpl. by rewrite Hp. }
  cbn [keywords_loop]. destruct (t_content t) as [n|n|k v|p v|k] eqn:Et.
  1,2: by unfold scan_is_delimiter in Ht; rewrite Et in Ht.
  1,3: apply Hk; [unfold given_keyword|unfold given_position]; by rewrite Et.
  assert (given_position t = Some (p, v)) as Hg by (unfold given_position; by rewrite Et).
  assert (given_keyword t = None) as Hk0 by (unfold given_keyword; by rewrite Et).
  destruct num as [n|]; [|unfold collects; simpl; rewrite Hg; by intros [? _]].
  specialize (Hnum n eq_refl). pose proof (collects_position t l ks p v n Hg Hk0 Hnum) as Hcp.
  destruct (Z.leb_spec p 0); [intros ?%Hcp; lia|].
  destruct (Z.ltb_spec (Z.of_nat BOOT_MENU_ENTRIES) p); [intros ?%Hcp; lia|].
  destruct (n !!! Z.to_nat (p - 1)) eqn:En; [intros (_ & ? & _)%Hcp; done|].
  specialize (IH ks (Some (<[Z.to_nat (p - 1):=Some v]> n))).
  destruct (keywords_loop _ _ _) as [[ks' num']|].
  - destruct IH as (Hc & Hka & Hna); [intros ? [= <-]; by rewrite length_insert|].
    split; [apply Hcp; split; [lia|by split]|]. split.
    + unfold keywords_after, value_in in *. simpl. by rewrite Hk0.
    + eapply numbers_after_position; [done..|lia|apply Hc|done].
  - intros (_ & _ & Hc)%Hcp. apply IH; [intros ? [= <-]; by rewrite length_insert|done].
Qed.

(** ** Checks of collected keywords *)

Lemma keyword_at i k : all_keywords !! i = Some k ↔ i = keyword_index k.
Proof.
  split; [|intros ->; by destruct k]. intros H.
  do 23 (destruct i as [|i]; [by simplify_eq/=|]). by destruct i.
Qed.
Lemma length_scan_key_table type : length (scan_key_table type) = length all_keywords.
Proof. by destruct type. Qed.

Lemma present_iff ks l (Hks : ∀ k, ks k = value_in l k) k : present ks k = true ↔ is_Some (value_in l k).
Proof. rewrite present_eq. by rewrite Hks. Qed.
Lemma present_not ks l (Hks : ∀ k, ks k = value_in l k) k : present ks k = false ↔ value_in l k = None.
Proof. rewrite present_false. by rewrite Hks. Qed.

(** what a row says of a keyword, in the goal *)
Ltac row Hks Hrow k :=
  let H := fresh in
  pose proof (Hrow k) as H;
  match type of H with
  | context [?t !! keyword_index k] =>
      let r := eval vm_compute in (t !! keyword_index k) in
      change (t !! keyword_index k) with r in H; cbn iota beta in H
  end;
  first [apply (present_iff _ _ Hks) in H; rewrite H | apply (present_not _ _ Hks) in H; rewrite H | idtac].

Section Collected.
Context (ks : keywords) (l : list scan_token) (Hks : ∀ k, ks k = value_in l k).

Lemma key_table_ok_iff table : length table = length all_keywords → key_table_ok table ks = true ↔ row_holds table l.
Proof.
  intros Hlen. unfold key_table_ok, row_holds. rewrite forallb_forall. split.
  - intros H k. destruct (table !! keyword_index k) as [st|] eqn:E; [|done].
    assert ((st, k) ∈ zip table all_keywords) as Hin.
    { apply list_elem_of_lookup. exists (keyword_index k). apply lookup_zip_with_Some.
      exists st, k. split_and!; [done..|by apply keyword_at]. }
    apply list_elem_of_In in Hin. specialize (H _ Hin). simpl in H.
    destruct st; simpl in H; [by apply (present_iff ks l Hks)|done|apply (present_not ks l Hks); by destruct (present ks k)].
  - intros H [st k] Hin. apply list_elem_of_In, list_elem_of_lookup in Hin as [i Hi].
    apply lookup_zip_with_Some in Hi as (? & ? & [= <- <-] & Hi & Hk). apply keyword_at in Hk as ->.
    specialize (H k). rewrite Hi in H. destruct st; simpl; [by apply (present_iff ks l Hks)|done|].
    apply (present_not ks l Hks) in H. by rewrite H.
Qed.

(** the type that the check finds is the only one whose row can hold *)
Lemma section_type_iff :
  (∃ type, type ∈ section_types ∧ row_holds (scan_key_table type) l) ↔
  ∃ type, section_data_type ks = Some type ∧ key_table_ok (scan_key_table type) ks = true.
Proof.
  split.
  - intros (type & Hin & Hrow). exists type. split; [|by apply key_table_ok_iff; [apply length_scan_key_table|]].
    unfold section_types in Hin. unfold section_data_type.
    repeat (apply elem_of_cons in Hin as [->|Hin];
      [row Hks Hrow scan_keyword_tape; row Hks Hrow scan_keyword_image; row Hks Hrow scan_keyword_segment;
       row Hks Hrow scan_keyword_dumpto; row Hks Hrow scan_keyword_dumptofs; row Hks Hrow scan_keyword_mvdump; done|]).
    by apply elem_of_nil in Hin.
  - intros (type & Ht & Hk). exists type. split; [|by apply key_table_ok_iff; [apply length_scan_key_table|]].
    unfold section_data_type in Ht. apply (bool_decide_eq_true_1 (type ∈ section_types)).
    repeat case_match; simplify_eq; done.
Qed.

Lemma section_data_iff :
  is_Some (scan_check_section_data ks None) ↔
  (∃ type, type ∈ section_types ∧ row_holds (scan_key_table type) l) ∧
  (∀ v, value_in l scan_keyword_segment = Some v → contains_address v = true).
Proof.
  rewrite section_type_iff. unfold scan_check_section_data. rewrite Hks.
  destruct (section_data_type ks) as [type|]; simpl; [|split; [by intros []|by intros [(? & ? & _) _]]].
  destruct (key_table_ok (scan_key_table type) ks) eqn:Ek; simpl.
  - destruct (value_in l scan_keyword_segment) as [v|]; [|split; [split; eauto; done|eauto]].
    destruct (contains_address v) eqn:Ec; [split; [intros _; split; [eauto|by intros ? [= <-]]|eauto]|].
    split; [by intros []|]. intros [_ H]. specialize (H _ eq_refl). congruence.
  - split; [by intros []|]. intros [(? & [= <-] & ?) _]. congruence.
Qed.

Lemma target_data_iff : scan_check_target_data ks = true ↔ target_rule l.
Proof.
  unfold scan_check_target_data, target_rule. unfold present. rewrite !Hks.
  destruct (value_in l scan_keyword_targetbase) as [base|]; simpl.
  2:{ destruct (value_in l scan_keyword_targettype), (value_in l scan_keyword_targetgeometry),
        (value_in l scan_keyword_targetblocksize), (value_in l scan_keyword_targetoffset); simpl; naive_solver. }
  destruct (value_in l scan_keyword_targettype) as [type|]; [|naive_solver].
  destruct (scan_get_target_type type) as [tt|] eqn:Et; [|naive_solver].
  destruct (value_in l scan_keyword_targetblocksize) as [bs|]; [|rewrite andb_false_r; naive_solver].
  destruct (scan_one_int bs) as [size|] eqn:Eb; [|rewrite andb_false_r; naive_solver].
  destruct (value_in l scan_keyword_targetoffset) as [off|]; [|rewrite andb_false_r; naive_solver].
  destruct (scan_one_int off) as [o|] eqn:Eo; [|rewrite andb_false_r; naive_solver].
  rewrite andb_true_r. unfold check_blocksize. rewrite !andb_true_iff, bool_decide_eq_true, !elem_of_cons, elem_of_nil.
  destruct (value_in l scan_keyword_targetgeometry) as [g|]; simpl.
  - destruct (scan_three_ints g) as [[[c h] s]|] eqn:Eg; [rewrite !andb_true_iff, !Z.ltb_lt|]; destruct tt; naive_solver.
  - destruct tt; naive_solver.
Qed.
End Collected.

(** ** Headings *)

Definition section_of (t : scan_token) : option (list Z) := match t_content t with section_heading n => Some n | _ => None end.
Definition menu_of (t : scan_token) : option (list Z) := match t_content t with menu_heading n => Some n | _ => None end.

Lemma find_token_None p l : find_token p l = None ↔ Forall (λ t, p t = false) l.
Proof.
  induction l as [|t l IH]; simpl; [split; [constructor|done]|]. rewrite Forall_cons, <- IH.
  destruct (p t); simpl; [naive_solver|]. rewrite fmap_None. naive_solver.
Qed.
Lemma find_section_None p scan offset : scan_find_section p scan offset = None ↔ Forall (λ t, p t = false) (drop offset scan).
Proof. unfold scan_find_section. by rewrite fmap_None, find_token_None. Qed.
Lemma not_section name l : Forall (λ t, is_section name t = false) l ↔ name ∉ omap section_of l.
Proof.
  rewrite Forall_forall. rewrite list_elem_of_omap. unfold is_section, section_of. split.
  - intros H (t & Hin & Ht). specialize (H _ Hin). destruct (t_content t); simplify_eq. by rewrite bool_decide_true in H.
  - intros H t Hin. destruct (t_content t) eqn:Et; try done. apply bool_decide_eq_false. intros ->. apply H.
    exists t. by rewrite Et.
Qed.
Lemma not_menu name l : Forall (λ t, is_menu name t = false) l ↔ name ∉ omap menu_of l.
Proof.
  rewrite Forall_forall. rewrite list_elem_of_omap. unfold is_menu, menu_of. split.
  - intros H (t & Hin & Ht). specialize (H _ Hin). destruct (t_content t); simplify_eq. by rewrite bool_decide_true in H.
  - intros H t Hin. destruct (t_content t) eqn:Et; try done. apply bool_decide_eq_false. intros ->. apply H.
    exists t. by rewrite Et.
Qed.
Lemma no_heading_names l : no_heading l → omap section_of l = [] ∧ omap menu_of l = [].
Proof.
  induction 1 as [|t l Ht _ [IH1 IH2]]; [done|]. simpl. unfold section_of, menu_of, scan_is_delimiter in *.
  by destruct (t_content t).
Qed.
Lemma part_names p :
  no_heading (body p) → omap section_of (part_tokens p) = section_name p ∧ omap menu_of (part_tokens p) = menu_name p.
Proof.
  intros [H1 H2]%no_heading_names. destruct p as [line n b|line n b]; cbn [body] in H1, H2.
  - change (n :: omap section_of b = [n] ∧ omap menu_of b = []). by rewrite H1, H2.
  - change (omap section_of b = [] ∧ n :: omap menu_of b = [n]). by rewrite H1, H2.
Qed.
Lemma flatten_names ps :
  Forall (λ p, no_heading (body p)) ps →
  omap section_of (flatten ps) = section_names ps ∧ omap menu_of (flatten ps) = menu_names ps.
Proof.
  induction 1 as [|p ps Hp _ [IH1 IH2]]; [done|]. rewrite !bind_cons, !omap_app, IH1, IH2.
  by destruct (part_names _ Hp) as [-> ->].
Qed.

(** the tokens of a section end where the next heading is *)
Definition at_heading (l : list scan_token) : Prop := match l with [] => True | t :: _ => scan_is_delimiter t = true end.
Lemma section_tokens_app b rest : no_heading b → at_heading rest → section_tokens (b ++ rest) = b.
Proof.
  intros Hb Hr. induction Hb as [|t b Ht _ IH]; simpl; [destruct rest; simpl in *; [done|by rewrite Hr]|].
  by rewrite Ht, IH.
Qed.
Lemma section_tokens_split l : ∃ rest, l = section_tokens l ++ rest ∧ no_heading (section_tokens l) ∧ at_heading rest.
Proof.
  induction l as [|t l (rest & E & Hn & Hr)]; [by exists []; split_and!; [done|constructor|]|]. simpl.
  destruct (scan_is_delimiter t) eqn:Et; [exists (t :: l); split_and!; [done|constructor|done]|].
  exists rest. split_and!; [by rewrite E at 1|by constructor|done].
Qed.
Lemma flatten_at_heading ps : at_heading (flatten ps).
Proof. by destruct ps as [|[]]. Qed.

(** ** Checks of parts *)

Section Part.
Context (scan pre : list scan_token) (line : Z) (name : list Z) (b rest : list scan_token).
Context (Hb : no_heading b) (Hrest : at_heading rest).

Lemma drop_part (t : scan_token) : drop (S (length pre)) (pre ++ t :: b ++ rest) = b ++ rest.
Proof.
  replace (S (length pre)) with (length pre + 1)%nat by lia. by rewrite <- drop_drop, drop_app_length.
Qed.
Lemma part_end t : section_end (pre ++ t :: b ++ rest) (length pre) = length (pre ++ t :: b).
Proof. unfold section_end. rewrite drop_part, section_tokens_app by done. rewrite length_app. simpl. lia. Qed.

Lemma check_section_spec :
  scan = pre ++ Token line (section_heading name) :: b ++ rest →
  match check_section scan (length pre) name with
  | Some i => i = length (pre ++ Token line (section_heading name) :: b) ∧ name ∉ omap section_of rest ∧ section_rules name b
  | None => ¬ (name ∉ omap section_of rest ∧ section_rules name b)
  end.
Proof.
  intros ->. unfold check_section, scan_get_section_keywords. rewrite Nat.add_1_r, drop_part, section_tokens_app by done.
  destruct (scan_find_section _ _ _) eqn:Ef.
  { intros [Hni _]. assert (scan_find_section (is_section name) (pre ++ Token line (section_heading name) :: b ++ rest) (S (length pre)) = None) as E; [|congruence].
    apply find_section_None. rewrite drop_part. apply not_section. rewrite omap_app, (proj1 (no_heading_names b Hb)). done. }
  apply find_section_None in Ef. rewrite drop_part in Ef. apply not_section in Ef.
  rewrite omap_app, (proj1 (no_heading_names b Hb)) in Ef. simpl in Ef.
  pose proof (keywords_loop_spec b no_keywords None Hb ltac:(done)) as Hk.
  destruct (keywords_loop b no_keywords None) as [[ks num]|]; simpl.
  2:{ intros [_ (Hp & Hnd & _)]. apply Hk. by split_and!. }
  destruct Hk as ((Hp & Hnd & _) & Hks & _). simpl in Hp.
  assert (∀ k, ks k = value_in b k) as Hks' by (intros k; rewrite Hks; by destruct (value_in b k)).
  unfold section_rules. rewrite part_end.
  destruct (bool_decide (name = DEFAULTBOOT_SECTION)) eqn:Ed.
  { apply bool_decide_eq_true in Ed. split_and!; [done..|by left]. }
  apply bool_decide_eq_false in Ed. pose proof (section_data_iff ks b Hks') as Hd. pose proof (target_data_iff ks b Hks') as Ht.
  destruct (scan_check_section_data ks None) as [type|]; simpl.
  2:{ intros (_ & _ & _ & [?|(H1 & H2 & _)]); [done|]. by destruct (proj2 Hd (conj H1 H2)). }
  destruct (scan_check_target_data ks).
  - split_and!; [done..|]. right. destruct (proj1 Hd ltac:(eauto)). split_and!; [done..|]. by apply Ht.
  - intros (_ & _ & _ & [?|(_ & _ & H)]); [done|]. by apply Ht in H.
Qed.
End Part.

End ScanRules.
