(* ===== verification/ScanDecide.v ===== *)
(** [scan_check] (src/zipl/src/scan.c) accepts a configuration if and only if its parts
    follow the rules. *)
From S2P Require Import Prelude Scan ScanCheck ScanRules.
Import Scan ScanCheck ScanRules.

Module ScanDecide.

(** ** Positions of a menu *)

Section Positions.
Context (l : list scan_token) (n : list (option (list Z))).
Context (Hok : numbers_ok (Some no_numbers) (positions_in l)) (Hafter : numbers_after l (Some no_numbers) (Some n)).

Lemma position_value i : n !!! i = assoc (Z.of_nat i + 1) (positions_in l).
Proof.
  destruct Hafter as (n' & [= <-] & _ & Hn). rewrite Hn. destruct (assoc _ _); [done|].
  unfold no_numbers. destruct (decide (i < BOOT_MENU_ENTRIES)%nat); [by rewrite lookup_total_replicate_2|].
  rewrite list_lookup_total_alt, lookup_ge_None_2; [done|]. rewrite length_replicate. lia.
Qed.
Lemma length_positions : length n = BOOT_MENU_ENTRIES.
Proof. destruct Hafter as (n' & [= <-] & Hl & _). rewrite Hl. unfold no_numbers. apply length_replicate. Qed.

Lemma position_given p : 1 <= p → is_Some (n !!! Z.to_nat (p - 1)) ↔ p ∈ (positions_in l).*1.
Proof. intros Hp. rewrite position_value, assoc_is_Some. by replace (Z.of_nat (Z.to_nat (p - 1)) + 1) with p by lia. Qed.
Lemma value_given v : Some v ∈ n ↔ v ∈ (positions_in l).*2.
Proof.
  rewrite list_elem_of_fmap. split.
  - intros [i Hi]%list_elem_of_lookup. pose proof (position_value i) as H. rewrite list_lookup_total_alt, Hi in H. simpl in H.
    symmetry in H. apply assoc_Some in H. by exists (Z.of_nat i + 1, v).
  - intros ([p w] & -> & Hin). simpl. pose proof (assoc_In p w _ (proj1 Hok) Hin) as Ha.
    destruct Hok as [_ Hr]. destruct (Hr p) as [Hp _]; [apply list_elem_of_fmap; by exists (p, w)|].
    pose proof (position_value (Z.to_nat (p - 1))) as H. replace (Z.of_nat (Z.to_nat (p - 1)) + 1) with p in H by lia.
    rewrite Ha in H. apply list_elem_of_lookup. exists (Z.to_nat (p - 1)).
    apply list_lookup_alt. split; [rewrite length_positions; lia|done].
Qed.
Lemma no_position_given : length (filter is_Some n) = 0%nat ↔ positions_in l = [].
Proof.
  rewrite length_zero_iff_nil. split.
  - intros H. apply elem_of_nil_inv. intros [p v] Hin0.
    assert (Some v ∈ n) as Hin by (apply value_given, list_elem_of_fmap; by exists (p, v)).
    eapply (not_elem_of_nil (Some v)). rewrite <- H. apply list_elem_of_filter. eauto.
  - intros H. destruct (filter is_Some n) as [|x xs] eqn:E; [done|]. exfalso.
    assert (x ∈ filter is_Some n) as Hin by (rewrite E; left). apply list_elem_of_filter in Hin as [[v ->] Hin].
    apply value_given in Hin. rewrite H in Hin. by apply elem_of_nil in Hin.
Qed.
End Positions.

Lemma int_keyword_iff ks l (Hks : ∀ k, ks k = value_in l k) k p :
  int_keyword ks k p = true ↔ ∀ v, value_in l k = Some v → ∃ n, scan_one_int v = Some n ∧ p n = true.
Proof.
  unfold int_keyword. rewrite Hks. destruct (value_in l k) as [v|]; [|split; [by intros _ ? [=]|done]].
  destruct (scan_one_int v) as [m|] eqn:E; split; [|intros H; by destruct (H v eq_refl) as (? & ? & ?); simplify_eq|done|].
  - intros H ? [= <-]. eauto.
  - intros H. destruct (H v eq_refl) as (? & ? & ?). congruence.
Qed.

Lemma found_section scan s :
  match scan_find_section (is_section s) scan 0 with Some _ => true | None => false end = true ↔ s ∈ omap section_of scan.
Proof.
  pose proof (find_section_None (is_section s) scan 0) as H. rewrite drop_0, not_section in H.
  destruct (scan_find_section _ _ _); split; try done.
  - intros _. apply dec_stable. intros Hn. by apply H in Hn.
  - intros Hin. by apply (proj1 H eq_refl) in Hin.
Qed.

Section MenuPart.
Context (scan pre : list scan_token) (line : Z) (name : list Z) (b rest : list scan_token).
Context (Hb : no_heading b) (Hrest : at_heading rest).

(** the checks of a menu behind its keywords *)
Lemma menu_data_iff ks n :
  (∀ k, ks k = value_in b k) → numbers_ok (Some no_numbers) (positions_in b) →
  numbers_after b (Some no_numbers) (Some n) → NoDup (keywords_in b).*1 →
  menu_rules (omap section_of scan) b ↔
  check_menu_keyword_data ks = true ∧
  int_keyword ks scan_keyword_default
    (λ n', negb (n' <? 1) && negb (Z.of_nat BOOT_MENU_ENTRIES <? n') && bool_decide (is_Some (n !!! Z.to_nat (n' - 1)))) = true ∧
  int_keyword ks scan_keyword_prompt (λ n, (n =? 0) || (n =? 1)) = true ∧
  int_keyword ks scan_keyword_timeout (λ n, negb (n <? 0)) = true ∧
  forallb (λ v, match v with
                | None => true
                | Some s => match scan_find_section (is_section s) scan 0 with Some _ => true | None => false end
                end) n = true ∧
  length (filter is_Some n) ≠ 0%nat ∧
  scan_check_target_data ks = true.
Proof.
  intros Hks Hok Ha Hnd. unfold menu_rules, check_menu_keyword_data.
  rewrite (key_table_ok_iff ks b Hks) by done. rewrite (target_data_iff ks b Hks).
  rewrite !(int_keyword_iff ks b Hks), (no_position_given b n Hok Ha).
  assert (forallb (λ v, match v with
                | None => true
                | Some s => match scan_find_section (is_section s) scan 0 with Some _ => true | None => false end
                end) n = true ↔ ∀ s, s ∈ (positions_in b).*2 → s ∈ omap section_of scan) as ->.
  { rewrite forallb_forall. split.
    - intros H s Hs. apply (value_given b n Hok Ha), list_elem_of_In in Hs. specialize (H _ Hs). by apply found_section.
    - intros H [s|] Hs; [|done]. apply found_section, H, (value_given b n Hok Ha). by apply list_elem_of_In. }
  assert ((∀ v, value_in b scan_keyword_default = Some v → ∃ n', scan_one_int v = Some n' ∧
      negb (n' <? 1) && negb (Z.of_nat BOOT_MENU_ENTRIES <? n') && bool_decide (is_Some (n !!! Z.to_nat (n' - 1))) = true) ↔
    (∀ v, value_in b scan_keyword_default = Some v → ∃ n', scan_one_int v = Some n' ∧ n' ∈ (positions_in b).*1)) as ->.
  { destruct Hok as [Hnd' Hr]. split; intros H v Hv; destruct (H v Hv) as (n' & Hn & Hp); exists n'; (split; [done|]).
    - apply andb_prop in Hp as [Hp Hs]. apply bool_decide_eq_true in Hs. apply (position_given b n Ha n') in Hs; [done|lia].
    - destruct (Hr _ Hp) as [Hp' _]. apply andb_true_intro. split; [lia|]. apply bool_decide_eq_true.
      apply (position_given b n Ha n'); [lia|done]. }
  assert ((∀ v, value_in b scan_keyword_prompt = Some v → ∃ n, scan_one_int v = Some n ∧ (n =? 0) || (n =? 1) = true) ↔
    (∀ v, value_in b scan_keyword_prompt = Some v → scan_one_int v = Some 0 ∨ scan_one_int v = Some 1)) as ->.
  { split; intros H v Hv; specialize (H v Hv).
    - destruct H as (m & -> & Hm). assert (m = 0 ∨ m = 1) as [-> | ->] by lia; auto.
    - destruct H as [-> | ->]; eexists; split; [done|done|done|done]. }
  assert ((∀ v, value_in b scan_keyword_timeout = Some v → ∃ n, scan_one_int v = Some n ∧ negb (n <? 0) = true) ↔
    (∀ v, value_in b scan_keyword_timeout = Some v → ∃ n, scan_one_int v = Some n ∧ 0 <= n)) as ->.
  { split; intros H v Hv; destruct (H v Hv) as (m & ? & ?); exists m; (split; [done|lia]). }
  destruct Hok as [Hnd' Hr]. split; [naive_solver|]. intros (? & ? & ? & ? & ? & ? & ?).
  split_and!; try done. intros p Hp. by apply Hr.
Qed.

Lemma check_menu_spec :
  scan = pre ++ Token line (menu_heading name) :: b ++ rest →
  match check_menu scan (length pre) name with
  | Some i => i = length (pre ++ Token line (menu_heading name) :: b) ∧ name ∉ omap menu_of rest ∧ menu_rules (omap section_of scan) b
  | None => ¬ (name ∉ omap menu_of rest ∧ menu_rules (omap section_of scan) b)
  end.
Proof.
  intros Escan. unfold check_menu, scan_get_menu_keywords. rewrite Nat.add_1_r.
  assert (drop (S (length pre)) scan = b ++ rest) as Hdrop by (rewrite Escan; apply drop_part).
  pose proof (find_section_None (is_menu name) scan (S (length pre))) as Hf.
  rewrite Hdrop, not_menu, omap_app, (proj2 (no_heading_names b Hb)) in Hf. simpl in Hf.
  destruct (scan_find_section _ _ _); [intros [Hni _]; by apply Hf in Hni|]. pose proof (proj1 Hf eq_refl) as Hni.
  rewrite Hdrop, section_tokens_app by done.
  pose proof (keywords_loop_spec b no_keywords (Some no_numbers) Hb) as Hk.
  specialize (Hk ltac:(intros ? [= <-]; by unfold no_numbers; rewrite length_replicate)).
  destruct (keywords_loop b no_keywords (Some no_numbers)) as [[ks num]|]; simpl.
  2:{ intros [_ (_ & Hnd & Hr & _ & Hnk & _)]. apply Hk. split; [split; [done|]|by split].
      intros p Hp. split; [by apply Hr|]. unfold no_numbers. apply lookup_total_replicate_2. specialize (Hr _ Hp). lia. }
  destruct Hk as ((Hok & Hnd & _) & Hks & Ha). pose proof Ha as (n & -> & _). cbn [fmap option_fmap mbind option_bind].
  assert (∀ k, ks k = value_in b k) as Hks' by (intros k; rewrite Hks; by destruct (value_in b k)).
  pose proof (menu_data_iff ks n Hks' Hok Ha Hnd) as Hm.
  replace (section_end scan (length pre)) with (length (pre ++ Token line (menu_heading name) :: b))
    by (rewrite Escan; symmetry; by apply part_end).
  simpl.
  repeat (match goal with |- context [if negb ?c then None else _] => destruct c eqn:? end; simpl;
    [|intros [_ Hmr]; apply Hm in Hmr; intuition congruence]).
  destruct (length (filter is_Some n) =? 0)%nat eqn:En.
  { apply Nat.eqb_eq in En. intros [_ Hmr]. apply Hm in Hmr. tauto. }
  apply Nat.eqb_neq in En.
  destruct (scan_check_target_data ks) eqn:Et; [|intros [_ Hmr]; apply Hm in Hmr; intuition congruence].
  split_and!; [done..|]. apply Hm. tauto.
Qed.
End MenuPart.

(** ** The loop *)

(** the tokens from an index on are parts that follow the rules *)
Definition complies_from (names : list (list Z)) (suffix : list scan_token) : Prop :=
  ∃ ps, suffix = flatten ps ∧ Forall (λ p, no_heading (body p)) ps ∧
    NoDup (section_names ps) ∧ NoDup (menu_names ps) ∧ Forall (part_rules names) ps.

Lemma complies_from_cons names p rest :
  no_heading (body p) → at_heading rest →
  complies_from names (part_tokens p ++ rest) ↔
  (∀ n, n ∈ section_name p → n ∉ omap section_of rest) ∧ (∀ n, n ∈ menu_name p → n ∉ omap menu_of rest) ∧
  part_rules names p ∧ complies_from names rest.
Proof.
  intros Hp Hrest. assert (∀ q, NoDup (section_name q) ∧ NoDup (menu_name q)) as Hone.
  { intros []; simpl; split; try apply NoDup_singleton; constructor. }
  split.
  - intros ([|q ps] & E & Hb & Hs & Hm & Hr); [by destruct p|]. inv Hb. inv Hr. rewrite bind_cons in E.
    assert (p = q ∧ rest = flatten ps) as [-> ->].
    { assert (section_tokens (drop 1 (part_tokens p ++ rest)) = body p) as E1.
      { transitivity (section_tokens (body p ++ rest)); [by destruct p|by apply section_tokens_app]. }
      assert (section_tokens (drop 1 (part_tokens q ++ flatten ps)) = body q) as E2.
      { transitivity (section_tokens (body q ++ flatten ps)); [by destruct q|apply section_tokens_app; [done|apply flatten_at_heading]]. }
      rewrite E in E1. rewrite E1 in E2. clear E1.
      destruct p, q; simpl in *; simplify_eq; done. }
    destruct (flatten_names ps) as [-> ->]; [done|]. rewrite bind_cons in Hs, Hm.
    apply NoDup_app in Hs as (_ & Hs & ?). apply NoDup_app in Hm as (_ & Hm & ?).
    split_and!; [done..|]. exists ps. by split_and!.
  - intros (Hs & Hm & Hr & ps & -> & Hb & Hns & Hnm & Hrs). destruct (flatten_names ps Hb) as [E1 E2].
    rewrite E1 in Hs. rewrite E2 in Hm. exists (p :: ps).
    rewrite !bind_cons. split_and!; [done|by constructor| | |by constructor];
      (apply NoDup_app; split_and!; [apply Hone|done|done]).
Qed.

Lemma scan_check_loop_spec fuel scan i :
  (length scan <= fuel + i)%nat → (i <= length scan)%nat →
  ∃ ok, scan_check_loop fuel scan i = Done ok ∧ (ok = true ↔ complies_from (omap section_of scan) (drop i scan)).
Proof.
  revert i. induction fuel as [|fuel IH]; intros i Hfuel Hi.
  { assert (i = length scan) as -> by lia. simpl. rewrite lookup_ge_None_2 by lia. rewrite drop_all.
    exists true. split; [done|]. split; [|done]. intros _. exists []. split_and!; (done || constructor). }
  cbn [scan_check_loop]. destruct (scan !! i) as [t|] eqn:Et.
  2:{ apply lookup_ge_None in Et. rewrite drop_ge by lia. exists true. split; [done|]. split; [|done].
      intros _. exists []. split_and!; (done || constructor). }
  pose proof (take_drop_middle scan i t Et) as Es. pose proof (lookup_lt_Some _ _ _ Et).
  destruct (section_tokens_split (drop (S i) scan)) as (rest & Er & Hb & Hrest).
  set (b := section_tokens (drop (S i) scan)) in *. set (pre := take i scan) in *.
  assert (length pre = i) as Hlen by (unfold pre; rewrite length_take; lia).
  rewrite Er in Es. rewrite (drop_S _ _ _ Et), Er.
  assert (∀ (p : part), part_tokens p = t :: b → no_heading (body p) →
    (∃ r, (∀ j, r = Some j → j = length (pre ++ t :: b)) ∧
       (is_Some r ↔ (∀ n, n ∈ section_name p → n ∉ omap section_of rest) ∧ (∀ n, n ∈ menu_name p → n ∉ omap menu_of rest) ∧
                    part_rules (omap section_of scan) p) ∧
       scan_check_loop (S fuel) scan i = match r with Some j => scan_check_loop fuel scan j | None => Done false end) →
    ∃ ok, scan_check_loop (S fuel) scan i = Done ok ∧ (ok = true ↔ complies_from (omap section_of scan) (t :: b ++ rest))) as Hpart.
  { intros p Hp Hbody (r & Hj & Hr & ->).
    assert (t :: b ++ rest = part_tokens p ++ rest) as -> by (by rewrite Hp).
    pose proof (complies_from_cons (omap section_of scan) p rest Hbody Hrest) as Hcc.
    destruct r as [j|]; [|exists false; split; [done|]; split; [done|];
      intros (? & ? & ? & _)%Hcc; by destruct (proj2 Hr); [split_and!|]].
    specialize (Hj j eq_refl) as ->. destruct (IH (length (pre ++ t :: b))) as (ok & -> & Hok).
    - rewrite length_app. simpl. lia.
    - rewrite <- Es. rewrite !length_app. simpl. rewrite length_app. lia.
    - assert (drop (length (pre ++ t :: b)) scan = rest) as E.
      { transitivity (drop (length (pre ++ t :: b)) ((pre ++ t :: b) ++ rest)); [f_equal|by rewrite drop_app_length].
        rewrite <- app_assoc. by rewrite <- Es. }
      rewrite E in Hok. exists ok. split; [done|]. rewrite Hok, Hcc. destruct (proj1 Hr ltac:(eauto)) as (? & ? & ?). tauto. }
  cbn [scan_check_loop] in Hpart. rewrite Et in Hpart. destruct t as [line c].
  destruct c as [name|name|k v|m v|k]; cbn [t_content] in *.
  - apply (Hpart (SectionPart line name b)); [done..|]. exists (check_section scan i name).
    pose proof (check_section_spec scan pre line name b rest Hb Hrest (eq_sym Es)) as Hc. rewrite Hlen in Hc.
    split_and!; [intros j Hj; rewrite Hj in Hc; tauto| |done]. simpl.
    destruct (check_section scan i name) as [j|]; split; [|eauto|by intros []|].
    + intros _. destruct Hc as (_ & Hn & Hr). split_and!; [by intros ? ->%list_elem_of_singleton|by intros ? ?%elem_of_nil|done].
    + intros (Hn & _ & Hr). exfalso. apply Hc. split; [apply Hn; left|done].
  - apply (Hpart (MenuPart line name b)); [done..|]. exists (check_menu scan i name).
    pose proof (check_menu_spec scan pre line name b rest Hb Hrest (eq_sym Es)) as Hc. rewrite Hlen in Hc.
    split_and!; [intros j Hj; rewrite Hj in Hc; tauto| |done]. simpl.
    destruct (check_menu scan i name) as [j|]; split; [|eauto|by intros []|].
    + intros _. destruct Hc as (_ & Hn & Hr). split_and!; [by intros ? ?%elem_of_nil|by intros ? ->%list_elem_of_singleton|done].
    + intros (_ & Hn & Hr). exfalso. apply Hc. split; [apply Hn; left|done].
  - exists false. split; [done|]. split; [done|]. intros ([|[]] & E & _); done.
  - exists false. split; [done|]. split; [done|]. intros ([|[]] & E & _); done.
  - exists false. split; [done|]. split; [done|]. intros ([|[]] & E & _); done.
Qed.

Lemma complies_iff scan : complies scan ↔ complies_from (omap section_of scan) scan.
Proof.
  split; intros (ps & -> & Hb & H1 & H2 & H3); exists ps; destruct (flatten_names ps Hb) as [E _].
  - rewrite E. by split_and!.
  - rewrite E in H3. by split_and!.
Qed.

End ScanDecide.
