(* ===== verification/ScanMenu.v ===== *)
(** The menu that [scan_build_automenu] (src/zipl/src/scan.c) builds: what the new
    configuration consists of, that its array is large enough, and that it follows
    the rules if the old sections do. *)
From S2P Require Import Prelude Scan ScanCheck ScanRules ScanDecide.

Import Scan ScanCheck ScanRules.

Module ScanMenu.

(** ** The new configuration *)

(** the keywords of a section can be collected: rules 2 and 5 *)
Definition collectible (l : list scan_token) : Prop := positions_in l = [] ∧ NoDup (keywords_in l).*1.

(** a section for booting: it has an image and is not on a tape *)
Definition is_ipl (l : list scan_token) : bool :=
  bool_decide (value_in l scan_keyword_tape = None) && bool_decide (is_Some (value_in l scan_keyword_image)).
Definition is_default (p : part) : bool :=
  match p with SectionPart _ n _ => bool_decide (n = DEFAULTBOOT_SECTION) | MenuPart _ _ _ => false end.
(** the sections for booting, in their order *)
Definition ipl_name (p : part) : list (list Z) :=
  match p with SectionPart _ n l => if is_default p then [] else if is_ipl l then [n] else [] | MenuPart _ _ _ => [] end.
Notation ipl_names ps := (ps ≫= ipl_name).

Section New.
(** the keywords of the old defaultboot section *)
Context (db : keywords).

Definition copied (ids : list scan_keyword_id) : list scan_token :=
  omap (λ id, (λ v, Token 0 (keyword_assignment id v)) <$> db id) ids.
(** no keyword of a target is given *)
Definition no_target (l : list scan_token) : bool := forallb (λ k, bool_decide (value_in l k = None)) target_keywords.
(** a section for booting that has no target gets the one of the defaultboot section *)
Definition complete (p : part) : part :=
  match p with
  | SectionPart line n l => if is_ipl l && no_target l then SectionPart line n (l ++ copied target_keywords) else p
  | MenuPart _ _ _ => p
  end.

Fixpoint last_index (x : list Z) (l : list (list Z)) (i : nat) (last : option nat) : option nat :=
  match l with
  | [] => last
  | y :: l => last_index x l (S i) (if bool_decide (x = y) then Some i else last)
  end.
Definition default_index (names : list (list Z)) : option nat :=
  db scan_keyword_default ≫= λ d, last_index d names 0 None.
Definition menu_body (names : list (list Z)) : list scan_token :=
  from_option (λ d, [Token 0 (keyword_assignment scan_keyword_default (dec2 (d + 1)))]) [] (default_index names) ++
  copied [scan_keyword_prompt; scan_keyword_timeout; scan_keyword_secure] ++
  copied target_keywords ++
  imap (λ i n, Token 0 (number_assignment (Z.of_nat i + 1) n)) names.
Definition new_parts (ps : list part) : list part :=
  (complete <$> filter (λ p, is_default p = false) ps) ++
  [SectionPart 0 DEFAULTBOOT_SECTION [Token 0 (keyword_assignment scan_keyword_defaultmenu SCAN_AUTOMENU_NAME)];
   MenuPart 0 SCAN_AUTOMENU_NAME (menu_body (ipl_names ps))].

(** ** Stores *)

Lemma store_token_ok cap l t : (length l < cap)%nat → store cap l t = Done (l ++ [t]).
Proof. intros. unfold store. by rewrite (proj2 (Nat.ltb_lt _ _)). Qed.
Lemma copy_section_ok cap s l : (length l + length s <= cap)%nat → scan_copy_section cap s l = Done (l ++ s).
Proof.
  unfold scan_copy_section. revert l. induction s as [|t s IH]; intros l Hc; [simpl; by rewrite app_nil_r|].
  simpl in *. rewrite store_token_ok by lia. rewrite IH by (rewrite length_app; simpl; lia). by rewrite <- app_assoc.
Qed.
Lemma copied_cons id ids :
  copied (id :: ids) = from_option (λ v, [Token 0 (keyword_assignment id v)]) [] (db id) ++ copied ids.
Proof. unfold copied. simpl. by destruct (db id). Qed.
Lemma append_keywords_ok cap ids l :
  (length l + length (copied ids) <= cap)%nat → append_keywords cap ids db l = Done (l ++ copied ids).
Proof.
  revert l. induction ids as [|id ids IH]; intros l Hc; [simpl; by rewrite app_nil_r|].
  rewrite copied_cons in *. cbn [append_keywords]. destruct (db id) as [v|]; simpl in *.
  - unfold scan_append. rewrite store_token_ok by lia. rewrite Done_bind, IH by (rewrite length_app; simpl; lia). by rewrite <- app_assoc.
  - rewrite IH by lia. done.
Qed.
Lemma append_numbers_ok cap i es l :
  (length l + length es <= cap)%nat →
  append_numbers cap (i + 1) es l = Done (l ++ imap (λ j n, Token 0 (number_assignment (Z.of_nat (i + j) + 1) n)) es).
Proof.
  revert i l. induction es as [|e es IH]; intros i l Hc; [simpl; by rewrite app_nil_r|].
  simpl in *. unfold scan_append. rewrite store_token_ok by lia. rewrite Done_bind.
  change (S (i + 1)) with (S i + 1)%nat. rewrite IH by (rewrite length_app; simpl; lia). rewrite <- app_assoc. simpl.
  do 3 f_equal; [f_equal; f_equal; lia|]. apply imap_ext. intros j x _. simpl. do 2 f_equal. lia.
Qed.

Lemma length_copied ids : (length (copied ids) <= length ids)%nat.
Proof. induction ids as [|id ids IH]; [done|]. rewrite copied_cons. destruct (db id); simpl; lia. Qed.
Lemma length_copied_targets : length (copied target_keywords) = scan_count_target_keywords db.
Proof.
  unfold scan_count_target_keywords. induction target_keywords as [|k l IH]; [done|].
  rewrite copied_cons, filter_cons. destruct (decide (present db k = true)) as [Hp|Hp].
  - apply present_eq in Hp as [v Hv]. rewrite Hv. simpl. by rewrite IH.
  - rewrite present_eq, <- eq_None_not_Some in Hp. by rewrite Hp.
Qed.
End New.
#[global] Arguments copied : simpl never.

(** ** The loop *)

Section Extensional.
Context (ks ks' : keywords) (Heq : ∀ k, ks k = ks' k).
Lemma present_ext k : present ks k = present ks' k.
Proof. unfold present. by rewrite Heq. Qed.
Lemma section_type_ext : scan_get_section_type ks = scan_get_section_type ks'.
Proof. unfold scan_get_section_type. by rewrite !present_ext. Qed.
Lemma count_ext : scan_count_target_keywords ks = scan_count_target_keywords ks'.
Proof.
  unfold scan_count_target_keywords. f_equal. apply list_filter_iff. intros k. by rewrite present_ext.
Qed.
End Extensional.

Lemma is_ipl_eq ks l :
  (∀ k, ks k = value_in l k) → bool_decide (scan_get_section_type ks = Some section_ipl) = is_ipl l.
Proof.
  intros Hks. unfold scan_get_section_type, is_ipl, present. rewrite !Hks.
  destruct (value_in l scan_keyword_tape), (value_in l scan_keyword_image); simpl; try done.
  repeat case_match; done.
Qed.
Lemma no_target_eq ks l : (∀ k, ks k = value_in l k) → (0 <? scan_count_target_keywords ks)%nat = negb (no_target l).
Proof.
  intros Hks. unfold scan_count_target_keywords, no_target. induction target_keywords as [|k ids IH]; [done|].
  rewrite filter_cons. simpl. destruct (decide (present ks k = true)) as [Hp|Hp].
  - apply present_eq in Hp as [v Hv]. rewrite Hks in Hv. by rewrite Hv.
  - rewrite present_eq, <- eq_None_not_Some, Hks in Hp. by rewrite Hp.
Qed.

(** what keeps a menu from being built *)
Definition part_possible (p : part) : Prop :=
  match p with
  | SectionPart _ _ l => is_default p = false → collectible l
  | MenuPart _ n _ => n ≠ SCAN_AUTOMENU_NAME
  end.
Definition possible (ps : list part) (n : nat) : Prop :=
  Forall part_possible ps ∧ (length (ipl_names ps) + n <= BOOT_MENU_ENTRIES)%nat.

Section Loop.
Context (db : keywords) (cap : nat).

Definition next_default (names : list (list Z)) (i : nat) (d : option nat) : option nat :=
  match db scan_keyword_default with Some dn => last_index dn names i d | None => d end.
(** the state behind the parts *)
Definition visited (ps : list part) (a : automenu) : automenu :=
  Automenu (am_new a ++ flatten (complete db <$> filter (λ p, is_default p = false) ps)) (am_entries a ++ ipl_names ps)
    (next_default (ipl_names ps) (length (am_entries a)) (am_default a)).

(** the tokens that the parts can add *)
Definition room (ps : list part) : nat :=
  (length (flatten ps) + length (section_names ps) * scan_count_target_keywords db)%nat.

Lemma room_cons p ps :
  room (p :: ps) = (length (part_tokens p) + length (section_name p) * scan_count_target_keywords db + room ps)%nat.
Proof. unfold room. rewrite !bind_cons, !length_app. lia. Qed.
Lemma possible_cons p ps n :
  possible (p :: ps) n ↔ part_possible p ∧ (length (ipl_name p) + n <= BOOT_MENU_ENTRIES)%nat ∧ possible ps (length (ipl_name p) + n).
Proof.
  unfold possible. rewrite Forall_cons, bind_cons, length_app.
  split; [intros ((? & ?) & ?)|intros (? & ? & ? & ?)]; repeat split; (done || lia).
Qed.

(** one part *)
Definition visit (p : part) (a : automenu) : option automenu :=
  match p with
  | MenuPart _ n _ =>
      if bool_decide (n = SCAN_AUTOMENU_NAME) then None
      else Some (Automenu (am_new a ++ part_tokens p) (am_entries a) (am_default a))
  | SectionPart _ n l =>
      if is_default p then Some a
      else match keywords_loop l no_keywords None with
           | None => None
           | Some _ =>
               if is_ipl l then
                 if (length (am_entries a) =? BOOT_MENU_ENTRIES)%nat then None
                 else Some (Automenu (am_new a ++ part_tokens (complete db p)) (am_entries a ++ [n])
                              (next_default [n] (length (am_entries a)) (am_default a)))
               else Some (Automenu (am_new a ++ part_tokens p) (am_entries a) (am_default a))
           end
  end.

Lemma loop_visit fuel p rest a :
  no_heading (body p) → at_heading rest → (length (am_new a) + length (part_tokens p) + length (section_name p) * scan_count_target_keywords db <= cap)%nat →
  automenu_loop (S fuel) cap db (part_tokens p ++ rest) a =
  match visit p a with Some a' => automenu_loop fuel cap db rest a' | None => Done None end.
Proof.
  intros Hb Hr Hc. destruct p as [line n l|line n l]; simpl in Hb; cbn [part_tokens app automenu_loop].
  all: rewrite section_tokens_app by done; rewrite drop_app_length; cbn [t_content visit is_default].
  2:{ destruct (bool_decide (n = SCAN_AUTOMENU_NAME)); [done|]. rewrite copy_section_ok by (simpl in *; lia). by destruct a. }
  destruct (bool_decide (n = DEFAULTBOOT_SECTION)); [done|].
  pose proof (keywords_loop_spec l no_keywords None Hb ltac:(done)) as Hk.
  destruct (keywords_loop l no_keywords None) as [[ks num]|]; [|done]. destruct Hk as (_ & Hks & _).
  assert (∀ k, ks k = value_in l k) as Hks' by (intros k; rewrite Hks; by destruct (value_in l k)).
  cbn [section_name length part_tokens] in Hc. rewrite copy_section_ok by (simpl; lia). rewrite Done_bind.
  rewrite (is_ipl_eq ks l Hks'). destruct (is_ipl l) eqn:Ei; cbn [negb]; [|done].
  destruct (length (am_entries a) =? BOOT_MENU_ENTRIES)%nat; [done|].
  rewrite (no_target_eq ks l Hks'). unfold complete. rewrite Ei. cbn [andb].
  destruct (no_target l); cbn [negb]; [|done].
  unfold scan_append_target_keywords. rewrite append_keywords_ok.
  - rewrite Done_bind. cbn [part_tokens]. by rewrite <- app_assoc.
  - rewrite length_copied_targets, length_app. simpl. lia.
Qed.

Lemma visit_spec p a :
  no_heading (body p) → (length (am_entries a) <= BOOT_MENU_ENTRIES)%nat →
  match visit p a with
  | Some a' => part_possible p ∧ (length (ipl_name p) + length (am_entries a) <= BOOT_MENU_ENTRIES)%nat ∧ a' = visited [p] a
  | None => ¬ (part_possible p ∧ (length (ipl_name p) + length (am_entries a) <= BOOT_MENU_ENTRIES)%nat)
  end.
Proof.
  intros Hb Hlen. unfold visited. cbn [mbind list_bind]. rewrite !app_nil_r. rewrite filter_cons, filter_nil.
  destruct p as [line n l|line n l]; cbn [visit is_default ipl_name part_possible]; simpl in Hb.
  - destruct (bool_decide (n = DEFAULTBOOT_SECTION)) eqn:Ed.
    { rewrite decide_False by done. split_and!; [done|done|]. simpl. rewrite !app_nil_r. unfold next_default.
      destruct a, (db scan_keyword_default); done. }
    rewrite decide_True by done. cbn [fmap list_fmap mbind list_bind]. rewrite app_nil_r.
    pose proof (keywords_loop_spec l no_keywords None Hb ltac:(done)) as Hk.
    destruct (keywords_loop l no_keywords None) as [[ks num]|].
    2:{ intros [Hc _]. apply Hk. destruct (Hc eq_refl) as [H1 H2]. by split_and!. }
    destruct Hk as ((Hp & Hnd & _) & _ & _).
    destruct (is_ipl l) eqn:Ei.
    + destruct (Nat.eqb_spec (length (am_entries a)) BOOT_MENU_ENTRIES); [simpl; lia|].
      split_and!; [done|simpl; lia|]. done.
    + split_and!; [done|simpl; lia|]. unfold complete. rewrite Ei. cbn [andb]. rewrite app_nil_r.
      unfold next_default. by destruct (db scan_keyword_default).
  - rewrite decide_True by done. cbn [fmap list_fmap mbind list_bind complete]. rewrite !app_nil_r.
    destruct (bool_decide (n = SCAN_AUTOMENU_NAME)) eqn:Ed.
    { apply bool_decide_eq_true in Ed. by intros [? _]. }
    apply bool_decide_eq_false in Ed. split_and!; [done..|]. unfold next_default. by destruct (db scan_keyword_default).
Qed.

Lemma last_index_app x l1 l2 i d : last_index x (l1 ++ l2) i d = last_index x l2 (i + length l1) (last_index x l1 i d).
Proof.
  revert i d. induction l1 as [|y l1 IH]; intros i d; simpl; [by rewrite Nat.add_0_r|]. rewrite IH. f_equal. lia.
Qed.
Lemma visited_cons p ps a : visited (p :: ps) a = visited ps (visited [p] a).
Proof.
  unfold visited. cbn [am_new am_entries am_default mbind list_bind]. rewrite !app_nil_r. f_equal.
  - rewrite !filter_cons, filter_nil. destruct (decide (is_default p = false)); [|by rewrite app_nil_r].
    cbn [fmap list_fmap mbind list_bind]. by rewrite app_nil_r, <- app_assoc.
  - by rewrite <- app_assoc.
  - unfold next_default. destruct (db scan_keyword_default); [|done]. rewrite last_index_app, length_app. done.
Qed.

Lemma length_complete p : (length (part_tokens (complete db p)) <= length (part_tokens p) + length (section_name p) * scan_count_target_keywords db)%nat.
Proof.
  destruct p as [line n l|]; cbn [complete section_name length]; [|lia].
  case_match; cbn [part_tokens length]; rewrite ?length_app, ?length_copied_targets; lia.
Qed.
Lemma length_visited ps a : (length (am_new (visited ps a)) <= length (am_new a) + room ps)%nat.
Proof.
  revert a. induction ps as [|p ps IH]; intros a; [unfold room; simpl; rewrite app_nil_r; lia|].
  rewrite visited_cons, room_cons. etransitivity; [apply IH|]. unfold visited. cbn [am_new].
  rewrite filter_cons, filter_nil. pose proof (length_complete p).
  destruct (decide (is_default p = false)); cbn [fmap list_fmap mbind list_bind]; rewrite ?app_nil_r, ?length_app; simpl; lia.
Qed.

Lemma automenu_loop_spec fuel ps a :
  Forall (λ p, no_heading (body p)) ps → (length ps <= fuel)%nat → (length (am_new a) + room ps <= cap)%nat →
  (length (am_entries a) <= BOOT_MENU_ENTRIES)%nat →
  ∃ r, automenu_loop fuel cap db (flatten ps) a = Done r ∧
    match r with
    | Some a' => possible ps (length (am_entries a)) ∧ a' = visited ps a
    | None => ¬ possible ps (length (am_entries a))
    end.
Proof.
  intros Hb. revert fuel a. induction Hb as [|p ps Hp Hb IH]; intros fuel a Hfuel Hcap Hlen.
  { exists (Some a). split; [by destruct fuel|]. split; [by split; [constructor|]|].
    unfold visited, next_default. simpl. rewrite !app_nil_r. by destruct a, (db scan_keyword_default). }
  destruct fuel as [|fuel]; [simpl in Hfuel; lia|]. rewrite bind_cons. rewrite room_cons in Hcap.
  rewrite loop_visit; [|done|apply flatten_at_heading|lia].
  pose proof (visit_spec p a Hp Hlen) as Hv. pose proof (possible_cons p ps (length (am_entries a))) as Hpc.
  destruct (visit p a) as [a'|]; [|exists None; split; [done|]; intros (? & ? & _)%Hpc; tauto].
  destruct Hv as (Hpp & Hle & ->).
  assert (length (am_entries (visited [p] a)) = length (ipl_name p) + length (am_entries a))%nat as El.
  { unfold visited. cbn [am_entries mbind list_bind]. rewrite app_nil_r, length_app. lia. }
  destruct (IH fuel (visited [p] a)) as (r & -> & Hr).
  - simpl in Hfuel. lia.
  - pose proof (length_visited [p] a) as H. rewrite room_cons in H. change (room []) with 0%nat in H. lia.
  - lia.
  - exists r. split; [done|]. rewrite El in Hr. rewrite visited_cons. destruct r; [|intros (_ & _ & ?)%Hpc; tauto].
    destruct Hr. split; [|done]. by apply Hpc.
Qed.
End Loop.

(** ** The whole *)

Section NewExtensional.
Context (db db' : keywords) (Heq : ∀ k, db k = db' k).
Lemma copied_ext ids : copied db ids = copied db' ids.
Proof. induction ids as [|id ids IH]; [done|]. by rewrite !copied_cons, Heq, IH. Qed.
Lemma complete_ext p : complete db p = complete db' p.
Proof. unfold complete. destruct p; [|done]. by rewrite copied_ext. Qed.
Lemma new_parts_ext ps : new_parts db ps = new_parts db' ps.
Proof.
  unfold new_parts, menu_body, default_index. rewrite !copied_ext, Heq. f_equal.
  apply list_fmap_ext. intros i p _. apply complete_ext.
Qed.
Lemma automenu_size_ext scan : automenu_size scan db = automenu_size scan db'.
Proof. unfold automenu_size. by rewrite (count_ext db db' Heq). Qed.
End NewExtensional.

Lemma count_headings ps :
  Forall (λ p, no_heading (body p)) ps →
  length (filter (λ t, is_section_heading t = true) (flatten ps)) = length (section_names ps).
Proof.
  assert (∀ l, length (filter (λ t, is_section_heading t = true) l) = length (omap section_of l)) as H.
  { intros l. induction l as [|t l IH]; [done|]. rewrite filter_cons. simpl. unfold is_section_heading, section_of in *.
    destruct (t_content t); simpl; by rewrite IH. }
  intros Hb. rewrite H. by rewrite (proj1 (flatten_names ps Hb)).
Qed.
Lemma length_ipl_names ps : (length (ipl_names ps) <= length (section_names ps))%nat.
Proof.
  induction ps as [|p ps IH]; [done|]. rewrite !bind_cons, !length_app.
  destruct p; simpl; [|lia]. repeat case_match; simpl; lia.
Qed.
Lemma length_parts ps : (length ps <= length (flatten ps))%nat.
Proof. induction ps as [|p ps IH]; [done|]. rewrite bind_cons, length_app. destruct p; simpl; lia. Qed.

Lemma find_token_app p l1 l2 : Forall (λ t, p t = false) l1 → find_token p (l1 ++ l2) = (λ i, length l1 + i)%nat <$> find_token p l2.
Proof.
  induction 1 as [|t l1 Ht _ IH]; simpl; [by destruct (find_token p l2)|]. rewrite Ht, IH. by destruct (find_token p l2).
Qed.

Section Build.
Context (ps1 ps2 : list part) (line : Z) (b : list scan_token).
Notation ps := (ps1 ++ SectionPart line DEFAULTBOOT_SECTION b :: ps2).
Context (Hb : Forall (λ p, no_heading (body p)) ps) (Hfirst : DEFAULTBOOT_SECTION ∉ section_names ps1).

Lemma find_default : scan_find_section (is_section DEFAULTBOOT_SECTION) (flatten ps) 0 = Some (length (flatten ps1)).
Proof.
  unfold scan_find_section. rewrite drop_0, bind_app, find_token_app.
  - rewrite bind_cons. simpl. f_equal. lia.
  - apply not_section. apply Forall_app in Hb as [Hb1 _]. by rewrite (proj1 (flatten_names ps1 Hb1)).
Qed.
Lemma drop_default : drop (S (length (flatten ps1))) (flatten ps) = b ++ flatten ps2.
Proof.
  rewrite bind_app, bind_cons. simpl. replace (S (length (flatten ps1))) with (length (flatten ps1) + 1)%nat by lia.
  by rewrite <- drop_drop, drop_app_length.
Qed.
Lemma default_body : no_heading b.
Proof. apply Forall_app in Hb as [_ H]. by inv H. Qed.

(** the keywords of the defaultboot section *)
Lemma default_keywords :
  match scan_get_section_keywords (flatten ps) (length (flatten ps1)) with
  | Some db => collectible b ∧ ∀ k, db k = value_in b k
  | None => ¬ collectible b
  end.
Proof.
  unfold scan_get_section_keywords. rewrite drop_default, section_tokens_app by (apply default_body || apply flatten_at_heading).
  pose proof (keywords_loop_spec b no_keywords None default_body ltac:(done)) as Hk.
  destruct (keywords_loop b no_keywords None) as [[ks num]|]; simpl.
  - destruct Hk as ((Hp & Hnd & _) & Hks & _). split; [done|]. intros k. rewrite Hks. by destruct (value_in b k).
  - intros [H1 H2]. apply Hk. by split_and!.
Qed.

Lemma append_automenu_ok db :
  let a := visited db ps (Automenu [] [] None) in
  append_automenu (automenu_size (flatten ps) db) db a = Done (flatten (new_parts db ps)) ∧
  (length (flatten (new_parts db ps)) < automenu_size (flatten ps) db)%nat.
Proof.
  intros a. set (cap := automenu_size (flatten ps) db).
  pose proof (length_visited db ps (Automenu [] [] None)) as Hn. fold a in Hn.
  change (length (am_new (Automenu [] [] None))) with 0%nat in Hn.
  pose proof (length_ipl_names ps) as Hi.
  assert (cap = room db ps + 8 + scan_count_target_keywords db + length (section_names ps))%nat as Hcap.
  { unfold cap, automenu_size, room. rewrite count_headings by done. lia. }
  assert (am_entries a = ipl_names ps) as Ee by done.
  assert (am_default a = default_index db (ipl_names ps)) as Ed.
  { unfold a, visited, next_default, default_index. cbn [am_default am_entries length].
    by destruct (db scan_keyword_default). }
  pose proof (length_copied db [scan_keyword_prompt; scan_keyword_timeout; scan_keyword_secure]) as H3.
  pose proof (length_copied_targets db) as Ht. cbn [length] in H3.
  assert (flatten (new_parts db ps) =
    ((((((am_new a ++ [Token 0 (section_heading DEFAULTBOOT_SECTION)]) ++
      [Token 0 (keyword_assignment scan_keyword_defaultmenu SCAN_AUTOMENU_NAME)]) ++
      [Token 0 (menu_heading SCAN_AUTOMENU_NAME)]) ++
      from_option (λ d, [Token 0 (keyword_assignment scan_keyword_default (dec2 (d + 1)))]) [] (default_index db (ipl_names ps))) ++
      copied db [scan_keyword_prompt; scan_keyword_timeout; scan_keyword_secure]) ++ copied db target_keywords) ++
      imap (λ i n, Token 0 (number_assignment (Z.of_nat i + 1) n)) (ipl_names ps)) as ->.
  { unfold new_parts, menu_body. rewrite bind_app. cbn [mbind list_bind part_tokens]. rewrite app_nil_r, <- !app_assoc. done. }
  unfold append_automenu. rewrite Ee, Ed. unfold scan_append.
  set (l0 := am_new a) in *. clearbody l0. clear Ee Ed. clearbody a.
  rewrite store_token_ok by lia. rewrite Done_bind. rewrite store_token_ok by (rewrite length_app; simpl; lia). rewrite Done_bind.
  rewrite store_token_ok by (rewrite !length_app; simpl; lia). rewrite Done_bind.
  set (l3 := ((l0 ++ _) ++ _) ++ _).
  assert (length l3 <= room db ps + 3)%nat as Hl3 by (unfold l3; rewrite !length_app; simpl; lia). clearbody l3.
  set (dt := from_option _ [] _).
  assert (match default_index db (ipl_names ps) with
          | Some d => store cap l3 (Token 0 (keyword_assignment scan_keyword_default (dec2 (d + 1))))
          | None => Done l3
          end = Done (l3 ++ dt) ∧ (length dt <= 1)%nat) as [-> Hdt].
  { unfold dt. destruct (default_index db (ipl_names ps)); simpl; [rewrite store_token_ok by lia; done|rewrite app_nil_r; split; [done|lia]]. }
  clearbody dt. rewrite Done_bind, append_keywords_ok by (rewrite length_app; lia).
  rewrite Done_bind. unfold scan_append_target_keywords. rewrite append_keywords_ok by (rewrite !length_app; lia).
  rewrite Done_bind. rewrite (append_numbers_ok cap 0) by (rewrite !length_app; lia). split; [done|].
  rewrite !length_app, length_imap. lia.
Qed.

Lemma build_automenu_cases :
  collectible b →
  ∃ r, scan_build_automenu (flatten ps) = Done r ∧
    match r with
    | Some a => possible ps 0 ∧ ipl_names ps ≠ [] ∧
        a = (flatten (new_parts (value_in b) ps), automenu_size (flatten ps) (value_in b)) ∧ (length (fst a) < snd a)%nat
    | None => ¬ (possible ps 0 ∧ ipl_names ps ≠ [])
    end.
Proof.
  intros Hcol. unfold scan_build_automenu. rewrite find_default. cbn [deref]. rewrite Done_bind.
  pose proof default_keywords as Hk.
  destruct (scan_get_section_keywords _ _) as [db|]; [|done]. destruct Hk as [_ Hdb].
  destruct (automenu_loop_spec db (automenu_size (flatten ps) db) (length (flatten ps)) ps (Automenu [] [] None)) as (r & -> & Hr).
  { done. } { apply length_parts. } { unfold automenu_size, room. rewrite count_headings by done. simpl. lia. } { simpl. lia. }
  rewrite Done_bind. destruct (append_automenu_ok db) as [Ha Hl].
  rewrite <- (new_parts_ext db (value_in b) Hdb), <- (automenu_size_ext db (value_in b) Hdb).
  destruct r as [a|]; [|exists None; split; [done|]; by intros [? _]]. destruct Hr as [Hp ->].
  change (am_entries (visited db ps (Automenu [] [] None))) with (ipl_names ps).
  destruct (Nat.eqb_spec (length (ipl_names ps)) 0) as [E|E].
  - apply length_zero_iff_nil in E. exists None. split; [done|]. by intros [_ ?].
  - rewrite Ha, Done_bind. eexists. split; [done|]. split; [exact Hp|]. split; [|by split].
    intros H. apply E. by apply length_zero_iff_nil.
Qed.

Lemma build_automenu_spec :
  collectible b →
  (possible ps 0 ∧ ipl_names ps ≠ [] →
   scan_build_automenu (flatten ps) = Done (Some (flatten (new_parts (value_in b) ps), automenu_size (flatten ps) (value_in b))) ∧
   (length (flatten (new_parts (value_in b) ps)) < automenu_size (flatten ps) (value_in b))%nat) ∧
  (¬ (possible ps 0 ∧ ipl_names ps ≠ []) → scan_build_automenu (flatten ps) = Done None).
Proof.
  intros Hcol. destruct (build_automenu_cases Hcol) as ([a|] & -> & H); [|tauto].
  destruct H as (? & ? & -> & ?). split; [done|]. intros []. done.
Qed.
End Build.

End ScanMenu.

(** When [scan_check_defaultboot] (src/zipl/src/scan.c) accepts the defaultboot section
    and asks for a menu, and that the configuration with this menu follows the rules. *)

Import Scan ScanCheck ScanRules ScanDecide ScanMenu.

Module ScanDefault.

(** ** The defaultboot section *)

(** the section that [default] names is there *)
Definition default_named (names : list (list Z)) (l : list scan_token) : Prop :=
  ∀ v, value_in l scan_keyword_default = Some v → v ∈ names.
(** a menu of all sections is asked for *)
Definition wants_menu (names : list (list Z)) (l : list scan_token) : Prop :=
  collectible l ∧ default_named names l ∧ row_holds (scan_key_table section_default_auto) l ∧ target_rule l.
(** a menu or a section is named *)
Definition names_target (names : list (list Z)) (l : list scan_token) : Prop :=
  collectible l ∧ default_named names l ∧
  (row_holds (scan_key_table section_default_menu) l ∨ row_holds (scan_key_table section_default_section) l).

Section Collected.
Context (ks : keywords) (l : list scan_token) (Hks : ∀ k, ks k = value_in l k).

Lemma default_type_iff type :
  scan_get_defaultboot_type ks = Some type ∧ key_table_ok (scan_key_table type) ks = true ↔
  type ∈ [section_default_auto; section_default_menu; section_default_section] ∧ row_holds (scan_key_table type) l.
Proof.
  rewrite (key_table_ok_iff ks l Hks) by apply length_scan_key_table. split; intros [Ht Hr]; (split; [|done]).
  - apply (bool_decide_eq_true_1 (type ∈ [section_default_auto; section_default_menu; section_default_section])).
    unfold scan_get_defaultboot_type in Ht. repeat case_match; simplify_eq; done.
  - unfold scan_get_defaultboot_type. repeat (apply elem_of_cons in Ht as [->|Ht];
      [row Hks Hr scan_keyword_target; row Hks Hr scan_keyword_defaultmenu; row Hks Hr scan_keyword_default; simpl;
       try (row Hks Hr scan_keyword_defaultauto); simpl; try done; by repeat case_match|]).
    by apply elem_of_nil in Ht.
Qed.

Lemma default_segment type :
  type ∈ [section_default_auto; section_default_menu; section_default_section] →
  row_holds (scan_key_table type) l → value_in l scan_keyword_segment = None.
Proof.
  intros Ht Hr. specialize (Hr scan_keyword_segment).
  repeat (apply elem_of_cons in Ht as [->|Ht]; [done|]). by apply elem_of_nil in Ht.
Qed.

(** the checks behind the keywords *)
Lemma default_data_iff type :
  (∃ t, scan_get_defaultboot_type ks = Some t ∧
     ((bool_decide (t = section_default_auto) && (0 <? scan_count_target_keywords ks)%nat && negb (scan_check_target_data ks) = false) ∧
      scan_check_section_data ks (Some t) = Some type)) ↔
  type ∈ [section_default_auto; section_default_menu; section_default_section] ∧ row_holds (scan_key_table type) l ∧
  (type = section_default_auto → target_rule l).
Proof.
  split.
  - intros (t & Ht & Hd & Hs). unfold scan_check_section_data in Hs. cbn [mbind option_bind] in Hs.
    destruct (key_table_ok (scan_key_table t) ks) eqn:Ek; cbn [negb] in Hs; [|done].
    destruct (proj1 (default_type_iff t) (conj Ht Ek)) as [Hin Hr].
    rewrite Hks, (default_segment t Hin Hr) in Hs. simplify_eq. split_and!; [done..|]. intros ->.
    rewrite bool_decide_true in Hd by done. cbn [andb] in Hd. apply (target_data_iff ks l Hks).
    rewrite (no_target_eq ks l Hks) in Hd. destruct (scan_check_target_data ks); [done|].
    destruct (no_target l) eqn:En; [|done]. unfold no_target in En. rewrite forallb_forall in En.
    specialize (En scan_keyword_target ltac:(by left)). apply bool_decide_eq_true in En.
    specialize (Hr scan_keyword_target). simpl in Hr. rewrite En in Hr. by destruct Hr.
  - intros (Hin & Hr & Ht). destruct (proj2 (default_type_iff type) (conj Hin Hr)) as [Htype Hk].
    exists type. split; [done|]. unfold scan_check_section_data. cbn [mbind option_bind]. rewrite Hk. cbn [negb].
    rewrite Hks, (default_segment type Hin Hr). split; [|done].
    destruct (bool_decide (type = section_default_auto)) eqn:Ed; [|done]. apply bool_decide_eq_true in Ed.
    rewrite (proj2 (target_data_iff ks l Hks) (Ht Ed)). by rewrite andb_false_r.
Qed.
End Collected.

(** the first defaultboot section is the one that is looked at, and has to be the only one *)
Lemma check_defaultboot_spec ps1 ps2 line b :
  let ps := ps1 ++ SectionPart line DEFAULTBOOT_SECTION b :: ps2 in
  Forall (λ p, no_heading (body p)) ps → DEFAULTBOOT_SECTION ∉ section_names ps1 →
  (scan_check_defaultboot (flatten ps) = Some true ↔
   DEFAULTBOOT_SECTION ∉ section_names ps2 ∧ wants_menu (section_names ps) b) ∧
  (scan_check_defaultboot (flatten ps) = Some false ↔
   DEFAULTBOOT_SECTION ∉ section_names ps2 ∧ names_target (section_names ps) b).
Proof.
  intros ps Hb Hfirst. unfold scan_check_defaultboot, wants_menu, names_target.
  pose proof (find_default ps1 ps2 line b Hb Hfirst) as Hfd. fold ps in Hfd. rewrite Hfd. cbn [mbind option_bind].
  pose proof (default_keywords ps1 ps2 line b Hb) as Hk. pose proof (drop_default ps1 ps2 line b) as Hdrop.
  pose proof (default_body ps1 ps2 line b Hb) as Hbody. fold ps in Hk, Hdrop.
  assert (Forall (λ p, no_heading (body p)) ps2) as Hb2 by (apply Forall_app in Hb as [_ Hb]; by inv Hb).
  pose proof (find_section_None (is_section DEFAULTBOOT_SECTION) (flatten ps) (S (length (flatten ps1)))) as Hf.
  rewrite Hdrop, not_section, omap_app, (proj1 (no_heading_names b Hbody)), (proj1 (flatten_names ps2 Hb2)) in Hf. simpl in Hf.
  rewrite Nat.add_1_r. destruct (scan_find_section _ _ (S _)) as [j|].
  { split; (split; [done|]); intros [Hni _]; by apply Hf in Hni. }
  pose proof (proj1 Hf eq_refl) as Hni.
  destruct (scan_get_section_keywords (flatten ps) (length (flatten ps1))) as [ks|]; cbn [mbind option_bind].
  2:{ split; (split; [done|]); intros (_ & ? & _); done. }
  destruct Hk as [Hcol Hks].
  pose proof (λ v, found_section (flatten ps) v) as Hfound. rewrite (proj1 (flatten_names ps Hb)) in Hfound.
  assert (default_named (section_names ps) b ↔
    (match ks scan_keyword_default with
     | Some v => match scan_find_section (is_section v) (flatten ps) 0 with Some _ => false | None => true end
     | None => false
     end) = false) as Hn.
  { unfold default_named. rewrite <- Hks. destruct (ks scan_keyword_default) as [v|]; [|done]. specialize (Hfound v).
    destruct (scan_find_section (is_section v) _ _).
    - split; [done|]. intros _ ? [= <-]. by apply Hfound.
    - split; [|done]. intros H. specialize (H v eq_refl). by apply Hfound in H. }
  destruct (match ks scan_keyword_default with Some _ => _ | None => _ end).
  { split; (split; [done|]); intros (_ & _ & Hd & _); by apply Hn in Hd. }
  pose proof (proj2 Hn eq_refl) as Hd. clear Hn.
  pose proof (default_data_iff ks b Hks) as Hdata.
  set (res := scan_get_defaultboot_type ks ≫= _).
  assert (∀ r : bool, res = Some r ↔ ∃ type, r = bool_decide (type = section_default_auto) ∧
     type ∈ [section_default_auto; section_default_menu; section_default_section] ∧ row_holds (scan_key_table type) b ∧
     (type = section_default_auto → target_rule b)) as Hres.
  { intros r. unfold res. split.
    - destruct (scan_get_defaultboot_type ks) as [t|] eqn:Et; cbn [mbind option_bind]; [|done].
      destruct (_ && _) eqn:Ea; [done|]. destruct (scan_check_section_data ks (Some t)) as [t'|] eqn:Es; cbn [mbind option_bind]; [|done].
      intros [= <-]. exists t. split; [done|]. apply Hdata. exists t. split_and!; [done..|].
      unfold scan_check_section_data in *. cbn [mbind option_bind] in *. repeat case_match; simplify_eq; done.
    - intros (type & -> & H). apply Hdata in H as (t & -> & Hd1 & Hd2). cbn [mbind option_bind]. rewrite Hd1, Hd2.
      cbn [mbind option_bind]. unfold scan_check_section_data in Hd2. cbn [mbind option_bind] in Hd2.
      repeat case_match; simplify_eq; done. }
  split; rewrite Hres; split.
  - intros (type & E & _ & Hr & Ht). symmetry in E. apply bool_decide_eq_true in E as ->. split_and!; auto; apply Hcol.
  - intros (_ & _ & _ & Hr & Ht). exists section_default_auto. split_and!; [done|left|done|done].
  - intros (type & E & Hin & Hr & _). split; [done|]. split; [done|]. split; [done|].
    apply elem_of_cons in Hin as [->|Hin]; [done|]. apply elem_of_cons in Hin as [->|Hin]; [by left|].
    apply list_elem_of_singleton in Hin as ->. by right.
  - intros (_ & _ & _ & [Hr|Hr]); [exists section_default_menu|exists section_default_section];
      (split_and!; [done|repeat (left || right)|done|done]).
Qed.

(** ** The new menu *)

Lemma assoc_app {A B} `{EqDecision A} (a : A) (l1 l2 : list (A * B)) :
  assoc a (l1 ++ l2) = match assoc a l1 with Some b => Some b | None => assoc a l2 end.
Proof. induction l1 as [|[x b] l1 IH]; [done|]. simpl. by case_decide. Qed.
Lemma value_in_app l1 l2 k : value_in (l1 ++ l2) k = match value_in l1 k with Some v => Some v | None => value_in l2 k end.
Proof. unfold value_in. by rewrite omap_app, assoc_app. Qed.

Section Copied.
Context (db : keywords).
Lemma copied_positions ids : positions_in (copied db ids) = [].
Proof. induction ids as [|id ids IH]; [done|]. rewrite copied_cons, omap_app, IH. by destruct (db id). Qed.
Lemma copied_no_heading ids : no_heading (copied db ids).
Proof.
  induction ids as [|id ids IH]; [constructor|]. rewrite copied_cons. apply Forall_app. split; [|done].
  destruct (db id); repeat constructor.
Qed.
Lemma value_in_copied ids k : value_in (copied db ids) k = if decide (k ∈ ids) then db k else None.
Proof.
  induction ids as [|id ids IH]; [done|]. rewrite copied_cons, value_in_app, IH.
  assert (value_in (from_option (λ v, [Token 0 (keyword_assignment id v)]) [] (db id)) k = if decide (k = id) then db id else None) as ->.
  { destruct (db id); unfold value_in; simpl; by destruct (decide (k = id)). }
  destruct (decide (k = id)) as [->|Hne].
  - rewrite (decide_True (P:=id ∈ id :: ids)) by left. destruct (db id); [done|]. by case_decide.
  - apply decide_ext. rewrite elem_of_cons. tauto.
Qed.
Lemma copied_keys ids : (keywords_in (copied db ids)).*1 = filter (λ k, is_Some (db k)) ids.
Proof.
  induction ids as [|id ids IH]; [done|]. rewrite copied_cons, filter_cons, omap_app, fmap_app, IH.
  destruct (decide (is_Some (db id))) as [[v ->]|Hn]; [done|]. apply eq_None_not_Some in Hn. by rewrite Hn.
Qed.
End Copied.

Lemma target_rule_ext l l' :
  (∀ k, k ∈ target_keywords → value_in l k = value_in l' k) → target_rule l → target_rule l'.
Proof.
  intros H. unfold target_rule.
  rewrite !(H scan_keyword_targetbase), !(H scan_keyword_targettype), !(H scan_keyword_targetgeometry),
    !(H scan_keyword_targetblocksize), !(H scan_keyword_targetoffset) by (repeat (left || right)). done.
Qed.

(** the default position is read as it is written *)
Lemma dec2_read d : (d < BOOT_MENU_ENTRIES)%nat → scan_one_int (dec2 (d + 1)) = Some (Z.of_nat d + 1).
Proof.
  intros Hd. assert (forallb (λ d, bool_decide (scan_one_int (dec2 (d + 1)) = Some (Z.of_nat d + 1))) (seq 0 BOOT_MENU_ENTRIES) = true) as H
    by (by vm_compute).
  rewrite forallb_forall in H. specialize (H d). apply bool_decide_eq_true in H; [done|]. apply in_seq. lia.
Qed.
Lemma last_index_bound x l i d j :
  last_index x l i d = Some j → (i <= j < i + length l)%nat ∨ d = Some j.
Proof.
  revert i d. induction l as [|y l IH]; intros i d; simpl; [by right|]. intros H. apply IH in H as [?|H]; [left; lia|].
  case_bool_decide; simplify_eq; [left; lia|by right].
Qed.

Section NewMenu.
Context (db : keywords) (names : list (list Z)).
Notation body_ := (menu_body db names).

Lemma menu_positions : positions_in body_ = imap (λ i n, (Z.of_nat i + 1, n)) names.
Proof.
  unfold menu_body. rewrite !omap_app, !copied_positions. simpl.
  assert (∀ i, positions_in (imap (λ j n, Token 0 (number_assignment (Z.of_nat (i + j) + 1) n)) names) =
               imap (λ j n, (Z.of_nat (i + j) + 1, n)) names) as H.
  { induction names as [|n ns IH]; intros i; [done|]. simpl. f_equal.
    rewrite (imap_ext _ (λ j n, Token 0 (number_assignment (Z.of_nat (S i + j) + 1) n))) by (intros; simpl; do 2 f_equal; lia).
    rewrite IH. apply imap_ext. intros j x _. simpl. f_equal. lia. }
  specialize (H 0%nat). simpl in H. rewrite H. by destruct (default_index db names).
Qed.
Lemma numbers_keywords i : keywords_in (imap (λ j n, Token 0 (number_assignment (Z.of_nat (i + j) + 1) n)) names) = [].
Proof.
  revert i. induction names as [|n ns IH]; intros i; [done|]. simpl.
  rewrite (imap_ext _ (λ j n, Token 0 (number_assignment (Z.of_nat (S i + j) + 1) n))) by (intros; simpl; do 2 f_equal; lia).
  apply IH.
Qed.
Lemma menu_value k :
  value_in body_ k =
  if decide (k = scan_keyword_default) then (λ d, dec2 (d + 1)) <$> default_index db names
  else if decide (k ∈ [scan_keyword_prompt; scan_keyword_timeout; scan_keyword_secure] ++ target_keywords) then db k else None.
Proof.
  unfold menu_body. rewrite !value_in_app, !value_in_copied.
  assert (value_in (imap (λ i n, Token 0 (number_assignment (Z.of_nat i + 1) n)) names) k = None) as ->.
  { unfold value_in. pose proof (numbers_keywords 0) as H. simpl in H. by rewrite H. }
  assert (value_in (from_option (λ d, [Token 0 (keyword_assignment scan_keyword_default (dec2 (d + 1)))]) [] (default_index db names)) k =
    if decide (k = scan_keyword_default) then (λ d, dec2 (d + 1)) <$> default_index db names else None) as ->.
  { destruct (default_index db names); unfold value_in; simpl; by case_decide. }
  destruct (decide (k = scan_keyword_default)) as [->|Hne].
  - by destruct (default_index db names).
  - pose proof (elem_of_app [scan_keyword_prompt; scan_keyword_timeout; scan_keyword_secure] target_keywords k) as Hin.
    repeat case_decide; destruct (db k); tauto.
Qed.

Lemma menu_keys : NoDup (keywords_in body_).*1.
Proof.
  apply (sublist_NoDup _ ([scan_keyword_default] ++ [scan_keyword_prompt; scan_keyword_timeout; scan_keyword_secure] ++ target_keywords ++ [])).
  { apply (bool_decide_eq_true_1 (NoDup _)). by vm_compute. }
  unfold menu_body. rewrite !omap_app, !fmap_app. pose proof (numbers_keywords 0) as H. simpl in H. rewrite H, !copied_keys.
  apply sublist_app; [|apply sublist_app; [|apply sublist_app; [|done]]; apply sublist_filter].
  destruct (default_index db names); [done|]. apply sublist_nil_l.
Qed.
Lemma menu_no_heading : no_heading body_.
Proof.
  unfold menu_body. repeat (apply Forall_app; split); [|apply copied_no_heading|apply copied_no_heading|].
  - destruct (default_index db names); repeat constructor.
  - apply Forall_lookup. intros i t (n & _ & ->)%list_lookup_imap_Some. done.
Qed.
Lemma menu_position_keys p : p ∈ (positions_in body_).*1 ↔ 1 <= p <= Z.of_nat (length names).
Proof.
  rewrite menu_positions, fmap_imap, elem_of_lookup_imap. simpl. split.
  - intros (i & n & -> & Hi). apply lookup_lt_Some in Hi. lia.
  - intros Hp. destruct (lookup_lt_is_Some_2 names (Z.to_nat (p - 1))) as [n Hn]; [lia|].
    exists (Z.to_nat (p - 1)), n. split; [lia|done].
Qed.
Lemma menu_position_values : (positions_in body_).*2 = names.
Proof.
  rewrite menu_positions, fmap_imap. apply list_eq. intros i. rewrite list_lookup_imap. by destruct (names !! i).
Qed.
Lemma menu_position_NoDup : NoDup (positions_in body_).*1.
Proof.
  rewrite menu_positions, fmap_imap. apply NoDup_alt. intros i j x.
  intros (a & _ & ->)%list_lookup_imap_Some (b & _ & Hb)%list_lookup_imap_Some. simpl in Hb. lia.
Qed.
Lemma default_position d : default_index db names = Some d → (d < length names)%nat.
Proof.
  unfold default_index. destruct (db scan_keyword_default); simpl; [|done].
  intros [?|?]%last_index_bound; [lia|done].
Qed.
End NewMenu.

Lemma new_menu_rules b names snames :
  names ≠ [] → (length names <= BOOT_MENU_ENTRIES)%nat → (∀ n, n ∈ names → n ∈ snames) →
  is_Some (value_in b scan_keyword_target) → target_rule b →
  (∀ v, value_in b scan_keyword_prompt = Some v → scan_one_int v = Some 0 ∨ scan_one_int v = Some 1) →
  (∀ v, value_in b scan_keyword_timeout = Some v → ∃ n, scan_one_int v = Some n ∧ 0 <= n) →
  menu_rules snames (menu_body (value_in b) names).
Proof.
  intros Hne Hlen Hsub Htarget Hrule Hprompt Htimeout.
  pose proof (menu_value (value_in b) names) as Hv. unfold menu_rules. split_and!.
  - intros E. pose proof (menu_position_values (value_in b) names) as H. rewrite E in H. by destruct names.
  - apply menu_position_NoDup.
  - intros p Hp. apply menu_position_keys in Hp. lia.
  - rewrite menu_position_values. done.
  - apply menu_keys.
  - intros k. rewrite Hv. destruct k; vm_compute keyword_index; simpl; try done; by rewrite decide_True by (repeat (left || right)).
  - intros v. rewrite Hv, decide_True by done. intros (d & E & ->)%fmap_Some. apply default_position in E.
    exists (Z.of_nat d + 1). split; [apply dec2_read; lia|]. apply menu_position_keys. lia.
  - intros v. rewrite Hv. apply Hprompt.
  - intros v. rewrite Hv. apply Htimeout.
  - apply (target_rule_ext b); [|done]. intros k Hk. rewrite Hv. rewrite decide_False, decide_True; [done| |].
    + apply elem_of_app. by right.
    + intros ->. by apply (bool_decide_eq_true_1 (¬ (scan_keyword_default ∈ target_keywords))) in Hk.
Qed.

(** ** The new configuration *)

Section NewConfiguration.
Context (ps1 ps2 : list part) (line : Z) (b : list scan_token).
Notation ps := (ps1 ++ SectionPart line DEFAULTBOOT_SECTION b :: ps2).
Notation others := (ps1 ++ ps2).
Context (Hb : Forall (λ p, no_heading (body p)) ps).
Context (Hfirst : DEFAULTBOOT_SECTION ∉ section_names ps1) (Hsecond : DEFAULTBOOT_SECTION ∉ section_names ps2).

Lemma filter_others l : DEFAULTBOOT_SECTION ∉ section_names l → filter (λ p, is_default p = false) l = l.
Proof.
  induction l as [|p l IH]; [done|]. rewrite bind_cons, not_elem_of_app. intros [Hp Hl]. rewrite filter_cons, decide_True, IH; [done..|].
  destruct p as [? n ?|]; [|done]. simpl. apply bool_decide_eq_false. intros ->. apply Hp. by left.
Qed.
Lemma filter_default : filter (λ p, is_default p = false) ps = others.
Proof.
  rewrite filter_app, filter_cons, !filter_others by done. by rewrite decide_False.
Qed.
Lemma complete_names db l : section_names (complete db <$> l) = section_names l ∧ menu_names (complete db <$> l) = menu_names l.
Proof.
  induction l as [|p l [IH1 IH2]]; [done|]. rewrite fmap_cons, !bind_cons, IH1, IH2. unfold complete.
  destruct p; [|done]. by case_match.
Qed.
Lemma complete_no_heading db l : Forall (λ p, no_heading (body p)) l → Forall (λ p, no_heading (body p)) (complete db <$> l).
Proof.
  intros H. apply Forall_fmap. eapply Forall_impl; [exact H|]. intros [? ? l'|] Hp; [|done]. unfold complete. simpl.
  case_match; [|done]. apply Forall_app. split; [done|apply copied_no_heading].
Qed.

Lemma new_section_names : section_names (new_parts (value_in b) ps) = section_names others ++ [DEFAULTBOOT_SECTION].
Proof. unfold new_parts. rewrite filter_default, bind_app. by rewrite (proj1 (complete_names _ _)). Qed.
Lemma new_menu_names : menu_names (new_parts (value_in b) ps) = menu_names others ++ [SCAN_AUTOMENU_NAME].
Proof. unfold new_parts. rewrite filter_default, bind_app. by rewrite (proj2 (complete_names _ _)). Qed.
Lemma ipl_are_sections n : n ∈ ipl_names ps → n ∈ section_names others.
Proof.
  rewrite <- (filter_default). rewrite !list_elem_of_bind. intros (p & Hn & Hp). exists p.
  destruct p as [l' n' b'|]; simpl in *; [|by apply elem_of_nil in Hn].
  destruct (bool_decide (n' = DEFAULTBOOT_SECTION)) eqn:Ed; [by apply elem_of_nil in Hn|].
  destruct (is_ipl b'); [|by apply elem_of_nil in Hn]. split; [done|]. apply list_elem_of_filter. done.
Qed.
Lemma menu_rules_names names names' l : (∀ n, n ∈ names → n ∈ names') → menu_rules names l → menu_rules names' l.
Proof. unfold menu_rules. intros H (? & ? & ? & Hs & ?). split_and!; try tauto. auto. Qed.

Lemma new_complies :
  possible ps 0 → ipl_names ps ≠ [] → NoDup (section_names ps) → NoDup (menu_names ps) →
  wants_menu (section_names ps) b →
  Forall (λ p, part_rules (section_names ps) (complete (value_in b) p)) others →
  (∀ v, value_in b scan_keyword_prompt = Some v → scan_one_int v = Some 0 ∨ scan_one_int v = Some 1) →
  (∀ v, value_in b scan_keyword_timeout = Some v → ∃ n, scan_one_int v = Some n ∧ 0 <= n) →
  complies (flatten (new_parts (value_in b) ps)).
Proof.
  intros [Hposs Hcount] Hne Hns Hnm (_ & _ & Hrow & Htr) Hrules Hp Ht.
  exists (new_parts (value_in b) ps). split; [done|]. rewrite new_section_names, new_menu_names.
  assert (section_names others ++ [DEFAULTBOOT_SECTION] ≡ₚ section_names ps) as Hperm.
  { rewrite !bind_app, bind_cons. simpl. rewrite <- app_assoc. apply Permutation_app_head. symmetry. apply Permutation_cons_append. }
  assert (menu_names ps = menu_names others) as Em by (by rewrite !bind_app, bind_cons).
  split_and!.
  - unfold new_parts. rewrite filter_default. apply Forall_app. split.
    + apply complete_no_heading. apply Forall_app in Hb as [? Hb']. inv Hb'. by apply Forall_app.
    + repeat constructor. apply menu_no_heading.
  - by rewrite Hperm.
  - rewrite Em in Hnm. apply NoDup_app. split_and!; [done| |apply NoDup_singleton].
    intros n Hn ->%list_elem_of_singleton. rewrite <- Em in Hn. apply list_elem_of_bind in Hn as (p & Hn & Hin).
    rewrite Forall_forall in Hposs. specialize (Hposs p Hin). destruct p; simpl in *; [by apply elem_of_nil in Hn|].
    by apply list_elem_of_singleton in Hn.
  - assert (∀ n, n ∈ section_names ps → n ∈ section_names others ++ [DEFAULTBOOT_SECTION]) as Hsub by (intros n; by rewrite Hperm).
    unfold new_parts. rewrite filter_default. apply Forall_app. split.
    + apply Forall_fmap. eapply Forall_impl; [exact Hrules|]. intros p Hr.
      change (part_rules (section_names others ++ [DEFAULTBOOT_SECTION]) (complete (value_in b) p)).
      cbn beta in Hr. destruct (complete (value_in b) p); [done|]. by apply (menu_rules_names (section_names ps)).
    + constructor; [|constructor; [|constructor]].
      * split_and!; [done|apply NoDup_singleton|by left].
      * apply new_menu_rules; try done; [simpl in Hcount; lia| |exact (Hrow scan_keyword_target)].
        intros n Hn. apply elem_of_app. left. by apply ipl_are_sections.
Qed.
End NewConfiguration.

End ScanDefault.
