(* ===== verification/ScanBls.v ===== *)
(** Entries of the Boot Loader Specification in zipl's configuration
    (src/zipl/src/scan.c): the entries of a directory are put in order and their
    fields appended to the tokens of the configuration file, and paths of kernels and
    ramdisks are completed; with the part of [get_job_from_config_file]
    (src/zipl/src/job.c) that puts scanning and checking together.

    A directory is the list of its entries, with the bytes of the ones that can be
    read; the two calls of [scandir] see the same entries.  [qsort] keeps the order of
    entries that compare equal, as the C library does.  A store behind the end of a
    file's buffer or of the array of tokens is a [Fault]. *)
From S2P Require Import Prelude Scan ScanCheck.
Import Scan ScanCheck.

Module ScanBls.

(** ** Versions *)

Record dirent : Type := Dirent { d_name : list Z; d_text : option (list Z) }.

Definition CONF : list Z := bytes_of_string ".conf".
Definition VERSION_KEYWORD : list Z := bytes_of_string "version".

(** the last five characters *)
Definition bls_filter_by_names (e : dirent) : bool :=
  let n := length (d_name e) in
  if (n <? length CONF)%nat then false else bool_decide (drop (n - length CONF) (d_name e) = CONF).

(** [getline], without the newline *)
Fixpoint getlines (l : list Z) : list (list Z) :=
  match l with
  | [] => []
  | c :: r =>
      if c =? NEWLINE then [] :: getlines r
      else match getlines r with
           | line :: lines => (c :: line) :: lines
           | [] => [[c]]
           end
  end.

(** [strcmp(a, b) > 0] *)
Fixpoint strcmp_gt (a b : list Z) : bool :=
  match a, b with
  | [], _ => false
  | _ :: _, [] => true
  | x :: a, y :: b => if x =? y then strcmp_gt a b else y <? x
  end.

(** the version that a line gives *)
Definition version_of_line (line : list Z) : option (list Z) :=
  let k := length VERSION_KEYWORD in
  if (length line <=? k + 1)%nat then None
  else if strcmp_gt VERSION_KEYWORD (cstr line) then None
  else if negb (isblank (line !!! k)) then None
  else
    match skip_blanks (drop (k + 1) line) with
    | [] => None
    | v => Some (cstr v)
    end.
Definition first_version (lines : list (list Z)) : option (list Z) := head (omap version_of_line lines).
Definition get_version (e : dirent) : option (list Z) := text ← d_text e; first_version (getlines text).

Definition bls_filter_by_versions (e : dirent) : bool :=
  bls_filter_by_names e && bool_decide (is_Some (get_version e)).

(** [strverscmp] of the GNU C library: states and results of the comparison *)
Inductive vstate : Type := S_N | S_I | S_F | S_Z.
Inductive vclass : Type := x_char | x_digit | x_zero.
Inductive vresult : Type := CMP | LEN | RES (r : Z).
Definition char_class (c : Z) : vclass := if c =? 48 then x_zero else if isdigit c then x_digit else x_char.
Definition next_state (s : vstate) (c : vclass) : vstate :=
  match s, c with
  | _, x_char => S_N
  | S_N, x_digit => S_I | S_N, x_zero => S_Z
  | S_I, _ => S_I
  | S_F, _ => S_F
  | S_Z, x_digit => S_F | S_Z, x_zero => S_Z
  end.
Definition result_type (s : vstate) (c1 c2 : vclass) : vresult :=
  match s, c1, c2 with
  | S_N, x_digit, x_digit => LEN
  | S_N, _, _ => CMP
  | S_I, x_char, x_char => CMP
  | S_I, x_char, _ => RES (-1)
  | S_I, _, x_char => RES 1
  | S_I, _, _ => LEN
  | S_F, _, _ => CMP
  | S_Z, x_char, x_char => CMP
  | S_Z, x_char, _ => RES 1
  | S_Z, _, x_char => RES (-1)
  | S_Z, _, _ => CMP
  end.
(** the longer number is the greater one *)
Fixpoint compare_length (a b : list Z) (diff : Z) : Z :=
  if isdigit (headc a) then
    if isdigit (headc b) then
      match a, b with _ :: a, _ :: b => compare_length a b diff | _, _ => diff end
    else 1
  else if isdigit (headc b) then -1 else diff.
Fixpoint strverscmp_from (s : vstate) (a b : list Z) : Z :=
  let c1 := headc a in
  let c2 := headc b in
  if c1 =? c2 then
    match a, b with
    | _ :: a, _ :: b => strverscmp_from (next_state s (char_class c1)) a b
    | _, _ => 0
    end
  else
    match result_type s (char_class c1) (char_class c2) with
    | CMP => c1 - c2
    | LEN => compare_length (drop 1 a) (drop 1 b) (c1 - c2)
    | RES r => r
    end.
Definition strverscmp (a b : list Z) : Z := strverscmp_from S_N a b.

Definition bls_sort_by_names (a b : dirent) : Z := strverscmp (d_name a) (d_name b).
(** both versions are valid *)
Definition bls_sort_by_versions (a b : dirent) : outcome Z :=
  v1 ← deref (get_version a); v2 ← deref (get_version b); Done (strverscmp v1 v2).

(** a stable sort with a comparison that can fault *)
Fixpoint insert_entry (cmp : dirent → dirent → outcome Z) (e : dirent) (l : list dirent) : outcome (list dirent) :=
  match l with
  | [] => Done [e]
  | x :: l' =>
      c ← cmp e x;
      if c <=? 0 then Done (e :: l) else r ← insert_entry cmp e l'; Done (x :: r)
  end.
Fixpoint sort_entries (cmp : dirent → dirent → outcome Z) (l : list dirent) : outcome (list dirent) :=
  match l with
  | [] => Done []
  | e :: l => r ← sort_entries cmp l; insert_entry cmp e r
  end.
Definition scandir (dir : list dirent) (filter_fn : dirent → bool) (cmp : dirent → dirent → outcome Z) : outcome (list dirent) :=
  sort_entries cmp (filter (λ e, filter_fn e = true) dir).

(** by versions, if all entries have one, and by names otherwise *)
Definition bls_scandir (dir : list dirent) : outcome (list dirent) :=
  entries1 ← scandir dir bls_filter_by_names (λ a b, Done (bls_sort_by_names a b));
  if (length entries1 =? 0)%nat then Done []
  else
    entries2 ← scandir dir bls_filter_by_versions bls_sort_by_versions;
    if (length entries2 =? 0)%nat || (length entries2 <? length entries1)%nat then Done entries1 else Done entries2.

(** ** Fields *)

(** a line without its newline, and the rest with it *)
Fixpoint line_split (l : list Z) : list Z * list Z :=
  match l with
  | [] => ([], [])
  | c :: r => if c =? NEWLINE then ([], l) else let '(a, b) := line_split r in (c :: a, b)
  end.

(** how often lines start with the pattern, and the offset and size of the last such line *)
Fixpoint find_keyword_loop (fuel : nat) (file kw : list Z) (pos nr : nat) (found : nat * nat) : outcome (nat * (nat * nat)) :=
  match fuel with
  | O => OutOfFuel
  | S fuel =>
      if (length file <? length kw)%nat then Done (nr, found)
      else
        let is_kw := prefixb kw file in
        let '(line, rest) := line_split file in
        let nr := if is_kw then S nr else nr in
        let found := if is_kw then (pos, length line) else found in
        match rest with
        | [] => Done (nr, found)
        | _ :: rest => find_keyword_loop fuel rest kw (pos + length line + 1) nr found
        end
  end.
Definition find_keyword_line (file kw : list Z) : outcome (nat * (nat * nat)) :=
  find_keyword_loop (S (length file)) file kw 0 0 (0%nat, 0%nat).

(** [true] is 0 *)
Definition check_keyword_line (file kw : list Z) : outcome bool :=
  '(n, _) ← find_keyword_line file kw; Done (negb (1 <? n)%nat).

(** the buffer with the title moved to its top; [None] is an error *)
Definition sort_bls_fields (file : list Z) : outcome (option (list Z)) :=
  ok1 ← check_keyword_line file (bytes_of_string "linux");
  if negb ok1 then Done None else
  ok2 ← check_keyword_line file (bytes_of_string "initrd");
  if negb ok2 then Done None else
  ok3 ← check_keyword_line file (bytes_of_string "options");
  if negb ok3 then Done None else
  '(n, (title_off, title_len)) ← find_keyword_line file (bytes_of_string "title");
  if (n =? 0)%nat then Done None
  else if (1 <? n)%nat then Done None
  else if (title_off =? 0)%nat then Done (Some file)
  else
    let title := take title_len (drop title_off file) in
    Done (Some (title ++ NEWLINE :: take (title_off - 1) file ++ drop (title_off + title_len) file)).

(** the key up to the blank *)
Fixpoint field_key (file : list Z) : option (list Z * list Z) :=
  match file with
  | [] => None
  | c :: r =>
      if isblank c then Some ([], file)
      else if negb (isalnum c) && negb (c =? 95) && negb (c =? 45) then None
      else '(key, r) ← field_key r; Some (c :: key, r)
  end.

(** without the blanks at the end *)
Fixpoint strip_trailing (l : list Z) : list Z :=
  match l with
  | [] => []
  | c :: l => match strip_trailing l with [] => if isblank c then [] else [c] | s => c :: s end
  end.

(** [strncmp(name, key, length of the key) == 0] *)
Definition key_matches (name : string) (key : list Z) : bool := prefixb key (bytes_of_string name).

(** the tokens and the rest of the file; the NUL behind the value replaces the newline, or
    the first of the blanks at the end of the line *)
Definition scan_bls_field (cap : nat) (file : list Z) (l : list scan_token) : outcome (option (list scan_token * list Z)) :=
  match field_key file with
  | None => Done None
  | Some (key, r) =>
      let '(line, rest) := line_split (skip_blanks r) in
      let val := strip_trailing line in
      rest ← (if (length val <? length line)%nat then Done rest
              else match rest with [] => Fault | _ :: rest => Done (0 :: rest) end);
      let val := cstr val in
      l ← (if key_matches "title" key then scan_append cap l (section_heading val) else Done l);
      l ← (if key_matches "linux" key then scan_append cap l (keyword_assignment scan_keyword_image val) else Done l);
      l ← (if key_matches "options" key then scan_append cap l (keyword_assignment scan_keyword_parameters val) else Done l);
      l ← (if key_matches "initrd" key then scan_append cap l (keyword_assignment scan_keyword_ramdisk val) else Done l);
      Done (Some (l, rest))
  end.

(** [while ((size_t)file.pos < file.length)] *)
Fixpoint bls_fields (fuel : nat) (cap : nat) (file : list Z) (l : list scan_token) : outcome (option (list scan_token)) :=
  match file with
  | [] => Done (Some l)
  | c :: r =>
      match fuel with
      | O => OutOfFuel
      | S fuel =>
          if c =? 35 then bls_fields fuel cap (skip_line r) l
          else if (c =? 9) || (c =? NEWLINE) || (c =? 0) || (c =? 32) then bls_fields fuel cap r l
          else
            f ← scan_bls_field cap file l;
            match f with
            | None => Done None
            | Some (l, rest) => bls_fields fuel cap rest l
            end
      end
  end.

(** ** Entries *)

Definition scan_get_default_target (scan : list scan_token) : option (list Z) :=
  i ← scan_find_section (is_section DEFAULTBOOT_SECTION) scan 0;
  ks ← scan_get_section_keywords scan i;
  match ks scan_keyword_defaultmenu with
  | Some menu =>
      j ← scan_find_section (is_menu menu) scan 0;
      '(ks, _) ← scan_get_menu_keywords scan j;
      ks scan_keyword_target
  | None => ks scan_keyword_target
  end.

Definition BLS_TOKEN_MAX : nat := 5.

(** the fields of one entry and the target *)
Definition bls_entry (cap : nat) (target : option (list Z)) (e : dirent) (l : list scan_token) : outcome (option (list scan_token)) :=
  match d_text e with
  | None => Done None
  | Some file =>
      s ← sort_bls_fields file;
      match s with
      | None => Done None
      | Some file =>
          f ← bls_fields (length file) cap file l;
          match f with
          | None => Done None
          | Some l =>
              match target with
              | Some v => l ← scan_append cap l (keyword_assignment scan_keyword_target v); Done (Some l)
              | None => Done (Some l)
              end
          end
      end
  end.

Fixpoint bls_entries (cap : nat) (target : option (list Z)) (es : list dirent) (l : list scan_token) : outcome (option (list scan_token)) :=
  match es with
  | [] => Done (Some l)
  | e :: es =>
      r ← bls_entry cap target e l;
      match r with
      | None => Done None
      | Some l => bls_entries cap target es l
      end
  end.

(** the new array and its size; [dir] is [None] if there is no such directory, the [None] of the
    result is an error *)
Definition scan_bls (dir : option (list dirent)) (scan : list scan_token) (scan_size : nat) : outcome (option (list scan_token * nat)) :=
  match dir with
  | None => Done (Some (scan, scan_size))
  | Some dir =>
      entries ← bls_scandir dir;
      let n := length entries in
      if (n =? 0)%nat then Done (Some (scan, scan_size))
      else
        let remaining := (scan_size - length scan)%nat in
        let size := if (remaining <? n * BLS_TOKEN_MAX)%nat then (scan_size - remaining + n * BLS_TOKEN_MAX)%nat else scan_size in
        r ← bls_entries size (scan_get_default_target scan) (reverse entries) scan;
        match r with
        | None => Done None
        | Some l => Done (Some (l, size))
        end
  end.

(** ** Paths *)

(** the part in front of the last comma *)
Fixpoint before_last_comma (s : list Z) : option (list Z) :=
  match s with
  | [] => None
  | c :: s => match before_last_comma s with Some r => Some (c :: r) | None => if c =? 44 then Some [] else None end
  end.

Section Paths.
(** [misc_check_readable_file] of the file system *)
Context (readable : list Z → bool).

Definition update_path (target : list Z) (t : scan_token) : scan_token :=
  match t_content t with
  | keyword_assignment k value =>
      if bool_decide (k = scan_keyword_image) || bool_decide (k = scan_keyword_ramdisk) then
        let file := if contains_address value then default value (before_last_comma value) else value in
        if readable file then t
        else if negb (readable (target ++ file)) then t
        else Token (t_line t) (keyword_assignment k (target ++ value))
      else t
  | _ => t
  end.
Definition target_of (t : scan_token) : option (list Z) :=
  match t_content t with
  | keyword_assignment scan_keyword_target v => Some v
  | _ => None
  end.
Definition scan_update_bls_path (scan : list scan_token) : list scan_token :=
  match head (omap target_of scan) with
  | None => scan
  | Some target => update_path target <$> scan
  end.

(** ** The configuration *)

(** an array is read up to its end mark, the zeros behind the tokens: without one the reads go
    on behind the array, unless an error is found in front of its end *)
Definition end_mark (a : list scan_token * nat) : outcome (list scan_token) :=
  if (length (fst a) <? snd a)%nat then Done (fst a) else Fault.

(** the menu in place of the defaultboot section, if no section is asked for *)
Definition default_boot (use_default : bool) (scan : list scan_token) : outcome (option (list scan_token)) :=
  if use_default then
    match scan_check_defaultboot scan with
    | None => Done None
    | Some true =>
        r ← scan_build_automenu scan;
        match r with
        | None => Done None
        | Some a => l ← end_mark a; Done (Some l)
        end
    | Some false => Done (Some scan)
    end
  else Done (Some scan).

(** the part of [get_job_from_config_file] that ends in front of the jobs; [None] is an error *)
Definition get_config (file : option (list Z)) (dir : option (list dirent)) (use_default : bool) : outcome (option (list scan_token)) :=
  r ← scan_file file;
  match r with
  | None => Done None
  | Some (scan, scan_size) =>
      r ← scan_bls dir scan scan_size;
      match r with
      | None => Done None
      | Some a =>
          scan ← end_mark a;
          r ← default_boot use_default scan;
          match r with
          | None => Done None
          | Some scan =>
              ok ← scan_check scan;
              Done (if ok : bool then Some (scan_update_bls_path scan) else None)
          end
      end
  end.
End Paths.

End ScanBls.
