(* ===== verification/ScanBlsProofs.v ===== *)
(** What [scan_bls] (src/zipl/src/scan.c) makes of a directory with entries: all of
    them are taken, in an order of its own, and an entry that is written line by line
    becomes a section; with the room that the array of tokens then needs. *)
From S2P Require Import Prelude Scan ScanCheck ScanLex ScanBls.
Import Scan ScanCheck ScanLex ScanBls.

Module ScanBlsProofs.

(** ** The order of the entries *)

Lemma insert_entry_perm cmp (e : dirent) l :
  (∀ x, x ∈ l → ∃ c, cmp e x = Done c) → ∃ r, insert_entry cmp e l = Done r ∧ r ≡ₚ e :: l.
Proof.
  induction l as [|x l IH]; intros Hcmp; [by exists [e]|]. simpl.
  destruct (Hcmp x) as [c ->]; [left|]. rewrite Done_bind. destruct (c <=? 0); [by eexists|].
  destruct IH as (r & -> & Hr); [intros y Hy; apply Hcmp; by right|]. rewrite Done_bind. eexists. split; [done|].
  rewrite Hr. apply Permutation_swap.
Qed.
Lemma sort_entries_perm cmp (l : list dirent) :
  (∀ x y, x ∈ l → y ∈ l → ∃ c, cmp x y = Done c) → ∃ r, sort_entries cmp l = Done r ∧ r ≡ₚ l.
Proof.
  induction l as [|e l IH]; intros Hcmp; [by exists []|]. simpl.
  destruct IH as (r & -> & Hr); [intros x y Hx Hy; apply Hcmp; by right|]. rewrite Done_bind.
  destruct (insert_entry_perm cmp e r) as (r' & -> & Hr').
  - intros x Hx. apply Hcmp; [left|]. right. by rewrite <- Hr.
  - eexists. split; [done|]. by rewrite Hr', Hr.
Qed.

Notation conf_entries dir := (filter (λ e, bls_filter_by_names e = true) dir).

Lemma filter_versions_all dir :
  (length (conf_entries dir) <= length (filter (λ e, bls_filter_by_versions e = true) dir))%nat →
  filter (λ e, bls_filter_by_versions e = true) dir = conf_entries dir.
Proof.
  assert (∀ e, bls_filter_by_versions e = true → bls_filter_by_names e = true) as Himp.
  { intros e. unfold bls_filter_by_versions. by destruct (bls_filter_by_names e). }
  assert (∀ l, length (filter (λ e, bls_filter_by_versions e = true) l) <= length (conf_entries l))%nat as Hle.
  { intros l. induction l as [|e l IH]; [done|]. rewrite !filter_cons. specialize (Himp e).
    destruct (decide (bls_filter_by_versions e = true)), (decide (bls_filter_by_names e = true)); simpl; try lia. tauto. }
  induction dir as [|e dir IH]; [done|]. rewrite !filter_cons. specialize (Hle dir). specialize (Himp e).
  destruct (decide (bls_filter_by_versions e = true)), (decide (bls_filter_by_names e = true)); simpl; intros H;
    [f_equal; apply IH; lia|tauto|lia|auto].
Qed.

(** no entry is lost, and no version is missing when versions are compared *)
Lemma bls_scandir_perm dir : ∃ es, bls_scandir dir = Done es ∧ es ≡ₚ conf_entries dir.
Proof.
  unfold bls_scandir, scandir.
  destruct (sort_entries_perm (λ a b, Done (bls_sort_by_names a b)) (conf_entries dir)) as (r1 & -> & H1); [eauto|].
  rewrite Done_bind. destruct (Nat.eqb_spec (length r1) 0) as [E|E].
  { exists []. split; [done|]. apply length_zero_iff_nil in E. by rewrite <- H1, E. }
  destruct (sort_entries_perm bls_sort_by_versions (filter (λ e, bls_filter_by_versions e = true) dir)) as (r2 & -> & H2).
  { intros x y [Hx _]%list_elem_of_filter [Hy _]%list_elem_of_filter. unfold bls_filter_by_versions in Hx, Hy.
    apply andb_prop in Hx as [_ [v1 Hx]%bool_decide_eq_true], Hy as [_ [v2 Hy]%bool_decide_eq_true].
    unfold bls_sort_by_versions. rewrite Hx, Hy. simpl. eauto. }
  rewrite Done_bind. destruct (_ || _) eqn:Eo; [by exists r1|]. exists r2. split; [done|].
  rewrite H2. rewrite filter_versions_all; [done|]. apply orb_false_elim in Eo as [_ Eo%Nat.ltb_ge].
  by rewrite <- H1, <- H2.
Qed.

(** ** Lines of an entry *)

Inductive bls_line : Type :=
  | BEmpty (b : list Z)
  | BComment (b text : list Z)
  | BField (key sp value trail : list Z).
Definition key_char (c : Z) : Prop := isalnum c = true ∨ c = 95 ∨ c = 45.
Definition bls_names : list (list Z) :=
  [bytes_of_string "title"; bytes_of_string "linux"; bytes_of_string "options"; bytes_of_string "initrd"].
(** a key that is given in full, or one of another meaning: no such name starts with it, and it starts with none *)
Definition key_ok (key : list Z) : Prop :=
  key ≠ [] ∧ Forall key_char key ∧
  (key ∈ bls_names ∨ Forall (λ n, prefixb key n = false ∧ prefixb n key = false) bls_names).
Definition bls_line_ok (l : bls_line) : Prop :=
  match l with
  | BEmpty b => blanks b
  | BComment b text => blanks b ∧ Forall (.≠ NEWLINE) text
  | BField key sp value trail =>
      key_ok key ∧ sp ≠ [] ∧ blanks sp ∧ Forall value_char value ∧ starts value ∧
      isblank (default 0 (last value)) = false ∧ blanks trail
  end.
Definition bls_line_bytes (l : bls_line) : list Z :=
  match l with
  | BEmpty b => b
  | BComment b text => b ++ 35 :: text
  | BField key sp value trail => key ++ sp ++ value ++ trail
  end.
Notation bls_text ls := (ls ≫= λ l, bls_line_bytes l ++ [NEWLINE]).

(** what a field adds to the section of its entry *)
Definition field_content (key value : list Z) : option scan_content :=
  if bool_decide (key = bytes_of_string "title") then Some (section_heading value)
  else if bool_decide (key = bytes_of_string "linux") then Some (keyword_assignment scan_keyword_image value)
  else if bool_decide (key = bytes_of_string "options") then Some (keyword_assignment scan_keyword_parameters value)
  else if bool_decide (key = bytes_of_string "initrd") then Some (keyword_assignment scan_keyword_ramdisk value)
  else None.
Definition bls_token (l : bls_line) : option scan_token :=
  match l with BField key _ value _ => Token 0 <$> field_content key value | _ => None end.
Notation bls_tokens ls := (omap bls_token ls).

(** the line has the key *)
Definition has_key (n : list Z) (l : bls_line) : bool :=
  match l with BField key _ _ _ => bool_decide (key = n) | _ => false end.

(** *** Keys *)

Lemma prefixb_true n l : prefixb n l = true ↔ ∃ r, l = n ++ r.
Proof.
  revert l. induction n as [|x n IH]; intros l; simpl; [split; eauto|].
  destruct l as [|y l]; [split; [done|by intros [r [=]]]|]. rewrite andb_true_iff, Z.eqb_eq, IH.
  split; [intros [-> [r ->]]; by exists r|]. intros [r [= -> ->]]. eauto.
Qed.
Lemma prefixb_end n k c r : c ∉ n → prefixb n (k ++ c :: r) = prefixb n k.
Proof.
  intros Hc. revert k. induction n as [|x n IH]; intros k; [done|]. rewrite not_elem_of_cons in Hc. destruct Hc as [Hx Hc].
  destruct k as [|y k]; simpl; [|by rewrite IH]. destruct (Z.eqb_spec x c); [by subst|done].
Qed.
Lemma bls_names_chars n : n ∈ bls_names → ∀ c, c ∈ n → 97 <= c <= 122.
Proof.
  intros Hn. apply (Forall_forall (λ c, 97 <= c <= 122)). revert n Hn. apply (Forall_forall (λ n, Forall (λ c, 97 <= c <= 122) n)).
  repeat constructor; by vm_compute.
Qed.
Lemma names_prefix n k : n ∈ bls_names → k ∈ bls_names → prefixb n k = bool_decide (k = n).
Proof.
  assert (forallb (λ n, forallb (λ k, eqb (prefixb n k) (bool_decide (k = n))) bls_names) bls_names = true) as H by (by vm_compute).
  intros Hn Hk. rewrite forallb_forall in H. specialize (H n (proj1 (list_elem_of_In _ _) Hn)).
  rewrite forallb_forall in H. specialize (H k (proj1 (list_elem_of_In _ _) Hk)). by apply eqb_prop in H.
Qed.
(** a name is looked for at the start of a line, whatever follows *)
Lemma line_prefix n l r :
  n ∈ bls_names → bls_line_ok l → prefixb n (bls_line_bytes l ++ NEWLINE :: r) = has_key n l.
Proof.
  intros Hn Hl. pose proof (bls_names_chars n Hn) as Hc.
  assert (∃ c0 n', n = c0 :: n' ∧ 97 <= c0 <= 122) as (c0 & n' & En & Hc0).
  { destruct n as [|c0 n']; [|exists c0, n'; split; [done|apply Hc; left]].
    by apply (bool_decide_eq_true_1 (¬ ([] ∈ bls_names))) in Hn. }
  assert (∀ c k, c < 97 → prefixb n (c :: k) = false) as Hfirst.
  { intros c k H. rewrite En. simpl. destruct (Z.eqb_spec c0 c); [lia|done]. }
  destruct l as [b|b text|key sp value trail]; cbn [bls_line_bytes has_key].
  - destruct Hl as [|c b' Hb _]; [by apply Hfirst|]. apply Hfirst. destruct (blank_cases _ Hb); lia.
  - destruct Hl as [[|c b' Hb _] _]; [by apply Hfirst|]. apply Hfirst. destruct (blank_cases _ Hb); lia.
  - destruct Hl as ((Hne & Hk & Hor) & Hsp & Hb & _). destruct sp as [|c sp]; [done|]. apply Forall_cons in Hb as [Hblank _].
    rewrite <- app_assoc, <- !app_comm_cons, prefixb_end.
    2:{ intros Hin. specialize (Hc _ Hin). destruct (blank_cases c Hblank); lia. }
    destruct Hor as [Hin|Hfor].
    + by apply names_prefix.
    + rewrite Forall_forall in Hfor. destruct (Hfor n Hn) as [_ ->]. symmetry. apply bool_decide_eq_false. intros ->.
      destruct (Hfor n Hn) as [H _]. rewrite (proj2 (prefixb_true n n)) in H; [done|]. exists []. by rewrite app_nil_r.
Qed.

(** *** Lines with a name *)

Lemma value_no_newline v : Forall value_char v → Forall (.≠ NEWLINE) v.
Proof. intros H. eapply Forall_impl; [exact H|]. by intros c [? _]. Qed.
Lemma key_no_newline k : Forall key_char k → Forall (.≠ NEWLINE) k.
Proof. intros H. eapply Forall_impl; [exact H|]. by intros c [?|[?|?]] ->. Qed.
Lemma line_no_newline l : bls_line_ok l → Forall (.≠ NEWLINE) (bls_line_bytes l).
Proof.
  destruct l as [b|b text|key sp value trail]; simpl; intros H.
  - by apply blanks_no_newline.
  - destruct H. apply Forall_app. split; [by apply blanks_no_newline|]. by constructor.
  - destruct H as ((_ & Hk & _) & _ & Hsp & Hv & _ & _ & Ht). repeat (apply Forall_app; split);
      [by apply key_no_newline|by apply blanks_no_newline|by apply value_no_newline|by apply blanks_no_newline].
Qed.
Lemma line_split_app a r : Forall (.≠ NEWLINE) a → line_split (a ++ NEWLINE :: r) = (a, NEWLINE :: r).
Proof.
  induction 1 as [|c a Hc _ IH]; [done|]. simpl. rewrite (proj2 (Z.eqb_neq _ _) Hc). by rewrite IH.
Qed.
Lemma bls_text_cons l ls : bls_text (l :: ls) = bls_line_bytes l ++ NEWLINE :: bls_text ls.
Proof. rewrite bind_cons. by rewrite <- app_assoc. Qed.

Notation with_key n ls := (filter (λ l, has_key n l = true) ls).
(** the last line with the name *)
Fixpoint locate (n : list Z) (ls : list bls_line) (pos : nat) (found : nat * nat) : nat * nat :=
  match ls with
  | [] => found
  | l :: ls =>
      locate n ls (pos + length (bls_line_bytes l) + 1) (if has_key n l then (pos, length (bls_line_bytes l)) else found)
  end.
Lemma short_text n ls :
  (length (bls_text ls) < length n)%nat → with_key n ls = [] ∧ ∀ pos found, locate n ls pos found = found.
Proof.
  induction ls as [|l ls IH]; [done|]. rewrite bls_text_cons, length_app. simpl. intros Hlen.
  destruct IH as [E1 E2]; [lia|].
  assert (has_key n l = false) as Hl.
  { destruct l as [| |key sp value trail]; try done. simpl in *. apply bool_decide_eq_false. intros ->.
    rewrite length_app in Hlen. lia. }
  rewrite filter_cons, decide_False by (by rewrite Hl). split; [done|]. intros pos found. by rewrite Hl.
Qed.

Lemma find_keyword_loop_text fuel n ls pos nr found :
  n ∈ bls_names → Forall bls_line_ok ls → (length (bls_text ls) < fuel)%nat →
  find_keyword_loop fuel (bls_text ls) n pos nr found = Done ((nr + length (with_key n ls))%nat, locate n ls pos found).
Proof.
  intros Hn Hls. revert fuel pos nr found. induction Hls as [|l ls Hl Hls IH]; intros fuel pos nr found Hfuel.
  { destruct fuel; [simpl in Hfuel; lia|]. simpl. destruct (Nat.ltb_spec 0 (length n)); [by rewrite Nat.add_0_r|].
    assert (n = []) as -> by (apply length_zero_iff_nil; lia).
    by apply (bool_decide_eq_true_1 (¬ ([] ∈ bls_names))) in Hn. }
  destruct fuel as [|fuel]; [lia|]. cbn [find_keyword_loop].
  destruct (Nat.ltb_spec (length (bls_text (l :: ls))) (length n)) as [Hs|_].
  { destruct (short_text n (l :: ls) Hs) as [-> ->]. simpl. by rewrite Nat.add_0_r. }
  rewrite bls_text_cons in *. rewrite line_prefix by done. rewrite line_split_app by (by apply line_no_newline).
  rewrite IH by (rewrite length_app in Hfuel; simpl in Hfuel; lia). cbn [locate]. do 2 f_equal.
  rewrite filter_cons. destruct (has_key n l); [rewrite decide_True by done|rewrite decide_False by done]; simpl; lia.
Qed.
Lemma find_keyword_line_text n ls :
  n ∈ bls_names → Forall bls_line_ok ls →
  find_keyword_line (bls_text ls) n = Done (length (with_key n ls), locate n ls 0 (0%nat, 0%nat)).
Proof. intros. unfold find_keyword_line. rewrite find_keyword_loop_text by (done || lia). done. Qed.

Lemma locate_none n ls pos found : with_key n ls = [] → locate n ls pos found = found.
Proof.
  revert pos found. induction ls as [|l ls IH]; intros pos found; [done|]. rewrite filter_cons. simpl.
  destruct (decide (has_key n l = true)); [done|]. destruct (has_key n l); [done|]. apply IH.
Qed.
Lemma locate_app n ls1 ls2 pos found :
  locate n (ls1 ++ ls2) pos found = locate n ls2 (pos + length (bls_text ls1)) (locate n ls1 pos found).
Proof.
  revert pos found. induction ls1 as [|l ls1 IH]; intros pos found; [simpl; by rewrite Nat.add_0_r|].
  rewrite bls_text_cons, length_app. simpl. rewrite IH. f_equal. simpl. lia.
Qed.

(** ** The title on top *)

Lemma text_ends ls : bls_text ls ≠ [] → ∃ a, bls_text ls = a ++ [NEWLINE].
Proof.
  destruct ls as [|l ls _] using rev_ind; [done|]. intros _. exists (bls_text ls ++ bls_line_bytes l).
  by rewrite bind_app, bls_text_cons, <- app_assoc.
Qed.
Lemma move_line (a t c : list Z) :
  take (length t) (drop (length (a ++ [NEWLINE])) ((a ++ [NEWLINE]) ++ t ++ NEWLINE :: c)) = t ∧
  take (length (a ++ [NEWLINE]) - 1) ((a ++ [NEWLINE]) ++ t ++ NEWLINE :: c) = a ∧
  drop (length (a ++ [NEWLINE]) + length t) ((a ++ [NEWLINE]) ++ t ++ NEWLINE :: c) = NEWLINE :: c.
Proof.
  split_and!.
  - by rewrite drop_app_length, take_app_length.
  - replace (length (a ++ [NEWLINE]) - 1)%nat with (length a) by (rewrite length_app; simpl; lia).
    by rewrite <- app_assoc, take_app_length.
  - by rewrite <- drop_drop, !drop_app_length.
Qed.

Section Entry.
(** an entry: its title between the lines in front of it and the lines behind it *)
Context (pre post : list bls_line) (t : bls_line).
Notation ls := (pre ++ t :: post).
Context (Hls : Forall bls_line_ok ls).
Notation TITLE := (bytes_of_string "title").
Context (Ht : has_key TITLE t = true) (Hpre : with_key TITLE pre = []) (Hpost : with_key TITLE post = []).
Context (Honce : Forall (λ n, (length (with_key n ls) <= 1)%nat) bls_names).

Lemma check_once n : n ∈ bls_names → check_keyword_line (bls_text ls) n = Done true.
Proof.
  intros Hn. unfold check_keyword_line. rewrite find_keyword_line_text by done. rewrite Done_bind.
  pose proof (proj1 (Forall_forall _ _) Honce n Hn) as Hl. cbn beta in Hl.
  destruct (Nat.ltb_spec 1 (length (with_key n ls))); [lia|done].
Qed.
Lemma find_title :
  find_keyword_line (bls_text ls) TITLE = Done (1%nat, (length (bls_text pre), length (bls_line_bytes t))).
Proof.
  rewrite find_keyword_line_text by (done || left). rewrite filter_app, filter_cons, decide_True, Hpre, Hpost by done.
  rewrite locate_app, (locate_none _ pre) by done. cbn [locate]. rewrite Ht, locate_none by done. done.
Qed.

Lemma sort_fields_text : sort_bls_fields (bls_text ls) = Done (Some (bls_text (t :: pre ++ post))).
Proof.
  unfold sort_bls_fields. rewrite !check_once by (repeat (left || right)). rewrite !Done_bind. cbn [negb].
  rewrite find_title, Done_bind. change (1 =? 0)%nat with false. change (1 <? 1)%nat with false. cbn iota.
  destruct (Nat.eqb_spec (length (bls_text pre)) 0) as [E|E].
  { destruct pre as [|p pre']; [done|]. rewrite bls_text_cons, length_app in E. simpl in E. lia. }
  destruct (text_ends pre) as [a Ha]; [by intros Hn; rewrite Hn in E|].
  assert (bls_text ls = (a ++ [NEWLINE]) ++ bls_line_bytes t ++ NEWLINE :: bls_text post) as ->.
  { by rewrite bind_app, bls_text_cons, Ha. }
  rewrite Ha. destruct (move_line a (bls_line_bytes t) (bls_text post)) as (-> & -> & ->).
  rewrite bls_text_cons, bind_app, Ha, <- app_assoc. done.
Qed.
End Entry.

(** ** Fields *)

Lemma field_key_app key c r : Forall key_char key → isblank c = true → field_key (key ++ c :: r) = Some (key, c :: r).
Proof.
  intros Hk Hc. induction Hk as [|x key Hx _ IH]; simpl; [by rewrite Hc|].
  assert (isblank x = false ∧ negb (isalnum x) && negb (x =? 95) && negb (x =? 45) = false) as [-> ->].
  { split.
    - destruct (isblank x) eqn:Eb; [|done]. destruct (blank_cases _ Eb) as [-> | ->]; destruct Hx as [?|[?|?]]; done.
    - destruct Hx as [->|[-> | ->]]; [done|by rewrite andb_false_r|by rewrite andb_false_r]. }
  by rewrite IH.
Qed.
Lemma strip_trailing_app v b : isblank (default 0 (last v)) = false → blanks b → strip_trailing (v ++ b) = v.
Proof.
  intros Hv Hb. assert (strip_trailing b = []) as E by (induction Hb as [|c b Hc _ IH]; [done|]; simpl; by rewrite IH, Hc).
  destruct v as [|c v] using rev_ind; [done|]. clear IHv. rewrite last_snoc in Hv. simpl in Hv.
  rewrite <- app_assoc. simpl. induction v as [|x v IH]; simpl; [by rewrite E, Hv|]. rewrite IH. by destruct v.
Qed.
Lemma key_matches_iff n key : bytes_of_string n ∈ bls_names → key_ok key → key_matches n key = bool_decide (key = bytes_of_string n).
Proof.
  intros Hn (Hne & Hk & [Hin|Hfor]); unfold key_matches.
  - rewrite names_prefix by done. apply bool_decide_ext. split; congruence.
  - rewrite Forall_forall in Hfor. destruct (Hfor _ Hn) as [E1 E2]. rewrite E1. symmetry. apply bool_decide_eq_false. intros ->.
    rewrite (proj2 (prefixb_true _ _)) in E1; [done|]. exists []. by rewrite app_nil_r.
Qed.

(** the line and the newline, which can be replaced with the NUL behind the value *)
Lemma scan_field_text cap key sp value trail r l :
  bls_line_ok (BField key sp value trail) →
  (length l + length (option_list (bls_token (BField key sp value trail))) <= cap)%nat →
  ∃ x, (x = 0 ∨ x = NEWLINE) ∧
    scan_bls_field cap (bls_line_bytes (BField key sp value trail) ++ NEWLINE :: r) l =
    Done (Some (l ++ option_list (bls_token (BField key sp value trail)), x :: r)).
Proof.
  intros (Hkey & Hsp & Hb & Hv & Hst & Hl & Ht) Hcap. unfold scan_bls_field. cbn [bls_line_bytes].
  assert (field_key ((key ++ sp ++ value ++ trail) ++ NEWLINE :: r) = Some (key, sp ++ value ++ trail ++ NEWLINE :: r)) as ->.
  { rewrite <- !app_assoc. destruct sp as [|c sp]; [done|]. apply Forall_cons in Hb as [Hc _].
    apply field_key_app; [apply Hkey|done]. }
  assert (∃ line, line_split (skip_blanks (sp ++ value ++ trail ++ NEWLINE :: r)) = (line, NEWLINE :: r) ∧ strip_trailing line = value)
    as (line & -> & Es).
  { rewrite skip_blanks_app by done. destruct value as [|c value].
    - exists []. split; [|done]. simpl. rewrite skip_blanks_app by done. done.
    - exists ((c :: value) ++ trail). rewrite skip_blanks_starts by done. split; [|by apply strip_trailing_app].
      rewrite app_assoc. apply line_split_app. apply Forall_app. split; [by apply value_no_newline|by apply blanks_no_newline]. }
  rewrite Es, cstr_value by done.
  set (x := if (length value <? length line)%nat then NEWLINE else 0). exists x.
  split; [unfold x; case_match; auto|].
  assert ((if (length value <? length line)%nat then Done (NEWLINE :: r) else Done (0 :: r)) = Done (x :: r)) as ->
    by (unfold x; by case_match).
  rewrite Done_bind. rewrite !key_matches_iff by first [done | repeat (left || right)].
  cbn [bls_token] in *. unfold field_content in *.
  destruct Hkey as (_ & _ & Hor).
  assert (∀ c, (length l + 1 <= cap)%nat → scan_append cap l c = Done (l ++ [Token 0 c])) as Hstore.
  { intros c Hc. unfold scan_append, store. by rewrite (proj2 (Nat.ltb_lt _ _)) by lia. }
  repeat case_bool_decide; subst; try done; simpl in Hcap; rewrite ?Done_bind, ?Hstore by lia; rewrite ?Done_bind, ?app_nil_r; done.
Qed.

(** *** All lines *)

(** a character that is passed over *)
Definition passed (c : Z) : Prop := c = 9 ∨ c = NEWLINE ∨ c = 0 ∨ c = 32.
Lemma fields_pass fuel cap c r l : passed c → bls_fields (S fuel) cap (c :: r) l = bls_fields fuel cap r l.
Proof. by intros [-> |[-> |[-> | ->]]]. Qed.
Lemma fields_blanks fuel cap b r l :
  blanks b → (length (b ++ r) <= fuel)%nat → ∃ fuel', (length r <= fuel')%nat ∧ bls_fields fuel cap (b ++ r) l = bls_fields fuel' cap r l.
Proof.
  intros Hb. revert fuel. induction Hb as [|c b Hc _ IH]; intros fuel Hf; [by exists fuel|].
  destruct fuel as [|fuel]; [simpl in Hf; lia|]. simpl app. rewrite fields_pass.
  - apply IH. simpl in Hf. lia.
  - unfold passed. destruct (blank_cases _ Hc) as [-> | ->]; auto.
Qed.
Lemma fields_newline fuel cap x r l :
  passed x → (length (x :: r) <= fuel)%nat → ∃ fuel', (length r <= fuel')%nat ∧ bls_fields fuel cap (x :: r) l = bls_fields fuel' cap r l.
Proof.
  intros Hx Hf. destruct fuel as [|fuel]; [simpl in Hf; lia|]. exists fuel. split; [simpl in Hf; lia|]. by apply fields_pass.
Qed.

Lemma fields_line fuel cap x r l :
  bls_line_ok x → (length (bls_line_bytes x ++ NEWLINE :: r) <= fuel)%nat →
  (length l + length (option_list (bls_token x)) <= cap)%nat →
  ∃ fuel', (length r <= fuel')%nat ∧
    bls_fields fuel cap (bls_line_bytes x ++ NEWLINE :: r) l = bls_fields fuel' cap r (l ++ option_list (bls_token x)).
Proof.
  intros Hx Hf Hcap. destruct x as [b|b text|key sp value trail].
  - destruct (fields_blanks fuel cap b (NEWLINE :: r) l Hx Hf) as (f1 & Hf1 & E). cbn [bls_line_bytes]. rewrite E.
    simpl. rewrite app_nil_r. apply fields_newline; [right; by left|done].
  - destruct Hx as [Hb Ht]. cbn [bls_line_bytes] in *. rewrite <- app_assoc in *. simpl in *.
    destruct (fields_blanks fuel cap b (35 :: text ++ NEWLINE :: r) l Hb Hf) as (f1 & Hf1 & ->).
    destruct f1 as [|f1]; [simpl in Hf1; lia|]. simpl. rewrite skip_line_app; [|done|right; eauto]. simpl.
    rewrite app_nil_r, drop_0. exists f1. split; [|done]. simpl in Hf1. rewrite length_app in Hf1. simpl in Hf1. lia.
  - destruct (scan_field_text cap key sp value trail r l Hx Hcap) as (x & Hx' & E).
    destruct Hx as ((Hne & Hk & _) & _).
    destruct (bls_line_bytes (BField key sp value trail) ++ NEWLINE :: r) as [|c text] eqn:Etext.
    { apply (f_equal length) in Etext. rewrite length_app in Etext. simpl in Etext. lia. }
    destruct fuel as [|fuel]; [simpl in Hf; lia|]. cbn [bls_fields].
    assert (key_char c) as Hc by (destruct key; [done|]; simpl in Etext; simplify_eq; by inv Hk).
    assert ((c =? 35) = false ∧ (c =? 9) || (c =? NEWLINE) || (c =? 0) || (c =? 32) = false) as [-> ->].
    { unfold NEWLINE. unfold key_char, isalnum, isdigit in Hc. lia. }
    rewrite E, Done_bind. apply fields_newline; [destruct Hx'; unfold passed; auto|].
    assert (2 <= length (c :: text) - length r)%nat as H2.
    { rewrite <- Etext, length_app. destruct key; [done|]. simpl. lia. }
    simpl in *. lia.
Qed.

Lemma fields_text fuel cap ls l :
  Forall bls_line_ok ls → (length (bls_text ls) <= fuel)%nat → (length l + length (bls_tokens ls) <= cap)%nat →
  bls_fields fuel cap (bls_text ls) l = Done (Some (l ++ bls_tokens ls)).
Proof.
  intros Hls. revert fuel l. induction Hls as [|x ls Hx _ IH]; intros fuel l Hf Hc.
  { simpl. rewrite app_nil_r. by destruct fuel. }
  assert (bls_tokens (x :: ls) = option_list (bls_token x) ++ bls_tokens ls) as E by (simpl; by destruct (bls_token x)).
  rewrite E in *. rewrite length_app in Hc. rewrite bls_text_cons in *.
  destruct (fields_line fuel cap x (bls_text ls) l Hx Hf ltac:(lia)) as (f' & Hf' & ->).
  rewrite IH; [by rewrite <- app_assoc|done|rewrite length_app; lia].
Qed.

(** ** Entries *)

(** an entry that is written line by line, with a single title *)
Record entry : Type := Entry { e_name : list Z; e_pre : list bls_line; e_title : bls_line; e_post : list bls_line }.
Notation e_lines e := (e_pre e ++ e_title e :: e_post e).
Definition entry_ok (e : entry) : Prop :=
  Forall bls_line_ok (e_lines e) ∧ has_key (bytes_of_string "title") (e_title e) = true ∧
  Forall (λ n, (length (with_key n (e_lines e)) <= 1)%nat) bls_names.
Definition entry_dirent (e : entry) : dirent := Dirent (e_name e) (Some (bls_text (e_lines e))).
(** its section: the title, the other fields in their order, and the target *)
Definition entry_tokens (target : option (list Z)) (e : entry) : list scan_token :=
  bls_tokens (e_title e :: e_pre e ++ e_post e) ++
  from_option (λ v, [Token 0 (keyword_assignment scan_keyword_target v)]) [] target.

Lemma bls_entry_text cap target e l :
  entry_ok e → (length l + length (entry_tokens target e) <= cap)%nat →
  bls_entry cap target (entry_dirent e) l = Done (Some (l ++ entry_tokens target e)).
Proof.
  intros (Hls & Ht & Honce) Hcap. unfold bls_entry, entry_dirent. cbn [d_text].
  assert (∀ n, n ∈ bls_names → has_key n (e_title e) = true → with_key n (e_pre e) = [] ∧ with_key n (e_post e) = []) as Hno.
  { intros n Hn Hk. pose proof (proj1 (Forall_forall _ _) Honce n Hn) as Hl. cbn beta in Hl.
    rewrite filter_app, filter_cons, decide_True, length_app in Hl by done. simpl in Hl. split; apply length_zero_iff_nil; lia. }
  destruct (Hno (bytes_of_string "title")) as [Hpre Hpost]; [left|done|].
  rewrite sort_fields_text by done. rewrite Done_bind. unfold entry_tokens in *. rewrite length_app in Hcap.
  rewrite fields_text; [|by rewrite Permutation_middle|done|lia]. rewrite Done_bind.
  destruct target as [v|]; simpl from_option in *; [|by rewrite !app_nil_r].
  unfold scan_append, store. rewrite (proj2 (Nat.ltb_lt _ _)) by (rewrite length_app; simpl in *; lia).
  rewrite Done_bind. by rewrite app_assoc.
Qed.

Lemma bls_entries_text cap target es l :
  Forall entry_ok es → (length l + length (es ≫= entry_tokens target) <= cap)%nat →
  bls_entries cap target (entry_dirent <$> es) l = Done (Some (l ++ (es ≫= entry_tokens target))).
Proof.
  intros Hes. revert l. induction Hes as [|e es He _ IH]; intros l Hc; [simpl; by rewrite app_nil_r|].
  rewrite bind_cons, length_app in Hc. cbn [fmap list_fmap bls_entries]. rewrite bls_entry_text by (done || lia). rewrite Done_bind.
  rewrite IH by (rewrite length_app; lia). by rewrite bind_cons, <- app_assoc.
Qed.

(** ** Room *)

(** a field gives a token if its key is one of the names *)
Lemma field_tokens ls :
  Forall bls_line_ok ls →
  length (bls_tokens ls) = sum_list_with (λ n, length (with_key n ls)) bls_names.
Proof.
  induction 1 as [|x ls Hx _ IH]; [done|].
  assert (length (bls_tokens (x :: ls)) = length (option_list (bls_token x)) + length (bls_tokens ls))%nat as ->
    by (simpl; by destruct (bls_token x)).
  rewrite IH. unfold bls_names. cbn [sum_list_with]. rewrite !filter_cons.
  destruct x as [b|b text|key sp value trail]; cbn [has_key bls_token option_list length];
    [by rewrite !decide_False|by rewrite !decide_False|].
  unfold field_content.
  repeat case_bool_decide; subst; try done; cbn [fmap option_fmap option_map option_list length];
    repeat (first [rewrite decide_True by done | rewrite decide_False by done]); simpl; lia.
Qed.
Lemma entry_tokens_length target e :
  entry_ok e →
  length (entry_tokens target e) =
  (sum_list_with (λ n, length (with_key n (e_lines e))) bls_names + length (option_list target))%nat.
Proof.
  intros (Hls & _ & _). unfold entry_tokens. rewrite length_app.
  assert (e_title e :: e_pre e ++ e_post e ≡ₚ e_lines e) as Hp by apply Permutation_middle.
  f_equal; [|by destruct target]. rewrite field_tokens by (by rewrite Hp).
  unfold bls_names. cbn [sum_list_with]. by rewrite !Hp.
Qed.
Lemma entry_tokens_max target e : entry_ok e → (length (entry_tokens target e) <= BLS_TOKEN_MAX)%nat.
Proof.
  intros He. rewrite entry_tokens_length by done. destruct He as (_ & _ & Honce). unfold bls_names in *.
  rewrite !Forall_cons in Honce. destruct Honce as (H1 & H2 & H3 & H4 & _). cbn [sum_list_with]. unfold BLS_TOKEN_MAX.
  destruct target; simpl option_list; cbn [length]; lia.
Qed.
Lemma entries_tokens_max target es :
  Forall entry_ok es → (length (es ≫= entry_tokens target) <= length es * BLS_TOKEN_MAX)%nat.
Proof.
  induction 1 as [|e es He _ IH]; [done|]. rewrite bind_cons, length_app. pose proof (entry_tokens_max target e He).
  unfold BLS_TOKEN_MAX in *. cbn [length]. lia.
Qed.

(** ** The directory *)

(** the size of the array behind [n] entries *)
Definition bls_size (scan : list scan_token) (scan_size n : nat) : nat := Nat.max scan_size (length scan + n * BLS_TOKEN_MAX).

Lemma scan_bls_text dir scan scan_size es :
  Forall entry_ok es → conf_entries dir = entry_dirent <$> es → (length scan <= scan_size)%nat →
  ∃ es', es' ≡ₚ es ∧
    scan_bls (Some dir) scan scan_size =
    Done (Some (scan ++ (es' ≫= entry_tokens (scan_get_default_target scan)), bls_size scan scan_size (length es))).
Proof.
  intros Hes Hdir Hsize. unfold scan_bls. destruct (bls_scandir_perm dir) as (r & -> & Hr). rewrite Done_bind.
  rewrite Hdir in Hr. apply Permutation_map_inv in Hr as (es' & -> & Hp).
  change (List.map entry_dirent es') with (entry_dirent <$> es'). cbv zeta.
  assert (length es' = length es) as El by (by rewrite Hp). rewrite length_fmap, El.
  destruct (Nat.eqb_spec (length es) 0) as [E|E].
  { exists []. apply length_zero_iff_nil in E as ->. split; [done|]. simpl. rewrite app_nil_r. do 3 f_equal.
    unfold bls_size. simpl. lia. }
  exists (reverse es'). split; [by rewrite reverse_Permutation|].
  assert ((if (scan_size - length scan <? length es * BLS_TOKEN_MAX)%nat
           then (scan_size - (scan_size - length scan) + length es * BLS_TOKEN_MAX)%nat else scan_size) =
          bls_size scan scan_size (length es)) as ->.
  { unfold bls_size. destruct (Nat.ltb_spec (scan_size - length scan) (length es * BLS_TOKEN_MAX)); lia. }
  assert (Forall entry_ok (reverse es')) as Hok by (by rewrite reverse_Permutation, <- Hp).
  rewrite <- fmap_reverse, bls_entries_text by
    (try done; pose proof (entries_tokens_max (scan_get_default_target scan) _ Hok); rewrite length_reverse, El in *; unfold bls_size; lia).
  done.
Qed.

End ScanBlsProofs.
