(* ===== verification/ScanSafe.v ===== *)
(** Without entries of the Boot Loader Specification, no configuration file makes the
    steps in front of the jobs leave their arrays (src/zipl/src/scan.c,
    [get_job_from_config_file] of src/zipl/src/job.c). *)
From S2P Require Import Prelude Scan ScanCheck ScanLex ScanRules ScanDecide ScanMenu ScanBls.
Import Scan ScanCheck ScanLex ScanRules ScanDecide ScanMenu ScanDefault ScanBls.

Module ScanSafe.

(** every list of tokens is some tokens outside of sections, and then sections and menus *)
Lemma tokens_parts scan :
  ∃ pre ps, scan = pre ++ flatten ps ∧ no_heading pre ∧ Forall (λ p, no_heading (body p)) ps.
Proof.
  induction scan as [|t scan (pre & ps & -> & Hpre & Hps)].
  { exists [], []. split_and!; [done|constructor|constructor]. }
  destruct (scan_is_delimiter t) eqn:Et.
  - destruct t as [line [n|n| | |]]; try done.
    + exists [], (SectionPart line n pre :: ps). rewrite bind_cons. split_and!; [done|constructor|by constructor].
    + exists [], (MenuPart line n pre :: ps). rewrite bind_cons. split_and!; [done|constructor|by constructor].
  - exists (t :: pre), ps. split_and!; [done|by constructor|done].
Qed.
Lemma first_section n ps :
  n ∈ section_names ps → ∃ ps1 line b ps2, ps = ps1 ++ SectionPart line n b :: ps2 ∧ n ∉ section_names ps1.
Proof.
  induction ps as [|p ps IH]; [by intros ?%elem_of_nil|]. rewrite bind_cons, elem_of_app. intros Hn.
  destruct (decide (n ∈ section_name p)) as [Hp|Hp].
  - destruct p as [line n' b|]; [|by apply elem_of_nil in Hp]. apply list_elem_of_singleton in Hp as ->.
    exists [], line, b, ps. split; [done|]. apply not_elem_of_nil.
  - destruct IH as (ps1 & line & b & ps2 & -> & Hn1); [tauto|]. exists (p :: ps1), line, b, ps2.
    rewrite bind_cons, not_elem_of_app. done.
Qed.

Lemma default_is_there scan b : scan_check_defaultboot scan = Some b → DEFAULTBOOT_SECTION ∈ omap section_of scan.
Proof.
  unfold scan_check_defaultboot. intros H. apply found_section. by destruct (scan_find_section _ scan 0).
Qed.

Lemma build_automenu_safe scan :
  scan_check_defaultboot scan = Some true →
  ∃ r, scan_build_automenu scan = Done r ∧ ∀ a, r = Some a → (length (fst a) < snd a)%nat.
Proof.
  intros Hd. pose proof (default_is_there _ _ Hd) as Hin. destruct (tokens_parts scan) as (pre & ps & -> & Hpre & Hps).
  destruct pre as [|t pre].
  - rewrite app_nil_l in *. rewrite (proj1 (flatten_names ps Hps)) in Hin.
    destruct (first_section _ _ Hin) as (ps1 & line & b & ps2 & -> & Hfirst).
    apply (proj1 (check_defaultboot_spec ps1 ps2 line b Hps Hfirst)) in Hd as (_ & Hcol & _).
    destruct (build_automenu_cases ps1 ps2 line b Hps Hfirst Hcol) as (r & -> & Hr). exists r. split; [done|].
    intros a ->. tauto.
  - exists None. split; [|done]. unfold scan_build_automenu.
    assert (∃ i, scan_find_section (is_section DEFAULTBOOT_SECTION) ((t :: pre) ++ flatten ps) 0 = Some i) as [i ->].
    { apply found_section in Hin. destruct (scan_find_section _ _ 0); [eauto|done]. }
    cbn [deref]. rewrite Done_bind. destruct (scan_get_section_keywords _ _); [|done].
    apply Forall_cons in Hpre as [Ht _]. rewrite <- app_comm_cons. cbn [length automenu_loop].
    unfold scan_is_delimiter in Ht. by destruct (t_content t).
Qed.

Lemma default_boot_safe use_default scan : ∃ r, default_boot use_default scan = Done r.
Proof.
  unfold default_boot. destruct use_default; [|eauto]. destruct (scan_check_defaultboot scan) as [[]|] eqn:E; [|eauto..].
  destruct (build_automenu_safe scan E) as (r & -> & Hr). rewrite Done_bind. destruct r as [a|]; [|eauto].
  unfold end_mark. rewrite (proj2 (Nat.ltb_lt _ _) (Hr a eq_refl)). rewrite Done_bind. eauto.
Qed.

Lemma get_config_safe readable text use_default : ∃ r, get_config readable text None use_default = Done r.
Proof.
  unfold get_config. destruct text as [text|]; [|simpl; eauto].
  destruct (scan_loop_total (length text) text 1 INITIAL_ARRAY_LENGTH []) as (r & Hr & Hroom);
    [done|unfold has_room, INITIAL_ARRAY_LENGTH; simpl; lia|].
  unfold scan_file. rewrite Hr, Done_bind. destruct r as [[l size]|]; [|eauto]. specialize (Hroom _ _ eq_refl).
  unfold has_room in Hroom. cbn [scan_bls]. rewrite Done_bind. unfold end_mark. cbn [fst snd].
  rewrite (proj2 (Nat.ltb_lt _ _)) by lia. rewrite Done_bind.
  destruct (default_boot_safe use_default l) as [[l'|] ->]; rewrite Done_bind; [|eauto].
  destruct (scan_check_loop_spec (length l') l' 0) as (ok & H & _); [lia..|]. unfold scan_check. rewrite H, Done_bind. eauto.
Qed.

End ScanSafe.
