(* ===== verification/ScanProps.v ===== *)
(** The properties of zipl's configuration: scanning, the rules, the menu of all
    sections and the entries of the Boot Loader Specification. *)
From S2P Require Import Prelude Scan ScanCheck ScanLex ScanRules ScanDecide ScanMenu ScanBls ScanBlsProofs ScanSafe.
Import Scan ScanCheck ScanLex ScanRules ScanDecide ScanMenu ScanDefault ScanBls ScanBlsProofs ScanSafe.

Module ScanProps.

Notation bs := bytes_of_string.

(** C37: whatever is in a configuration file, it is scanned to its end or refused, and the
    array of tokens always has room for the end mark. *)
Theorem every_file_is_scanned (text : list Z) :
  ∃ r, scan_file (Some text) = Done r ∧ ∀ l size, r = Some (l, size) → (length l + 1 < size)%nat.
Proof. apply scan_loop_total; [done|]. unfold has_room, INITIAL_ARRAY_LENGTH. simpl. lia. Qed.

(** C19: a configuration file that is written line by line, with headings, assignments of
    keywords and of menu positions with quoted or plain values, comments and any blanks
    around them, is scanned to the tokens of its lines, each with the number of its line. *)
Theorem lines_are_scanned (ls : list config_line) :
  Forall config_line_ok ls →
  ∃ size, (length (config_tokens 1 ls) + 1 < size)%nat ∧
    scan_file (Some (config_text ls)) = Done (Some (config_tokens 1 ls, size)).
Proof.
  intros Hls. destruct (scan_loop_text (length (config_text ls)) ls 1 INITIAL_ARRAY_LENGTH []) as (size & Hr & H).
  - done.
  - done.
  - unfold has_room, INITIAL_ARRAY_LENGTH. simpl. lia.
  - exists size. done.
Qed.

Definition sample_lines : list config_line :=
  [Line [] (Comment (bs " boot")) []; Line [] (Section_ (bs "linux")) (bs " ");
   Line (bs "  ") (Assign scan_keyword_target [] (bs " ") (Plain (bs "/boot"))) (bs "  ");
   Line (bs "  ") (Assign scan_keyword_parameters (bs " ") (bs " ") (Quoted 34 (bs "root='a' quiet "))) [];
   Line [] Empty []; Line [] (Menu (bs "m1")) []; Line [] (Position (bs "12") [] [] (Plain (bs "linux"))) []; Line [] Only []].
Lemma lines_are_scanned_witness :
  ∃ size, (length (config_tokens 1 sample_lines) + 1 < size)%nat ∧
    scan_file (Some (config_text sample_lines)) = Done (Some (config_tokens 1 sample_lines, size)).
Proof.
  destruct (lines_are_scanned sample_lines) as (size & H1 & H2).
  - repeat constructor; try done; vm_compute; try done; try lia; auto.
  - by exists size.
Defined.

(** The position of a menu entry that is small enough to be taken is the number that
    the file gives, although the test for large numbers misses some that wrap around. *)
Theorem menu_position_is_exact (file : list Z) (n : Z) (r : list Z) :
  scan_number file = Some (n, r) → n <= Z.of_nat BOOT_MENU_ENTRIES → n = digits_val 0 file ∧ r = skip_while isdigit file.
Proof.
  unfold scan_number. destruct (isdigit _); [|done]. intros H Hn.
  assert (Z.of_nat BOOT_MENU_ENTRIES = 62) as E by done.
  destruct (number_loop_small file 0 n r ltac:(done) H ltac:(lia)) as (_ & ? & ?). done.
Qed.
Lemma menu_position_is_exact_witness : 12 = digits_val 0 (bs "12=x") ∧ bs "=x" = skip_while isdigit (bs "12=x").
Proof. apply (menu_position_is_exact (bs "12=x") 12 (bs "=x")); [reflexivity|]. by vm_compute. Defined.

(** a number that wraps around to a larger one is not found to be too large *)
Theorem large_number_wraps : scan_number (bs "10000000000=x") = Some (1410065408, bs "=x").
Proof. reflexivity. Qed.

(** C16: [scan_check] always returns, and accepts a configuration if and only if it follows
    the rules as the code applies them: every token is in a section or a menu, their names
    are unique, no keyword comes twice, sections have no positions, and the keywords of one
    type with a valid address and target, menus have unique positions of sections that are
    there and valid keywords. The comment of the function has rules 3, 4, 6 and 8 for all
    sections; the code leaves them out for the section defaultboot, and so do the rules here
    ([section_rules]). *)
Theorem scan_check_decides_the_rules (scan : list scan_token) :
  ∃ ok, scan_check scan = Done ok ∧ (ok = true ↔ complies scan).
Proof.
  destruct (scan_check_loop_spec (length scan) scan 0) as (ok & H & Hok); [lia..|]. exists ok. split; [done|].
  by rewrite Hok, drop_0, complies_iff.
Qed.

(** The check of the defaultboot section asks for a menu of all sections if and only if
    the section is the only one of its name and has the keywords for this and a valid
    target; it accepts the section as it is if and only if it names a menu or a section. *)
Theorem defaultboot_is_decided (ps1 ps2 : list part) (line : Z) (b : list scan_token) :
  let ps := ps1 ++ SectionPart line DEFAULTBOOT_SECTION b :: ps2 in
  Forall (λ p, no_heading (body p)) ps → DEFAULTBOOT_SECTION ∉ section_names ps1 →
  (scan_check_defaultboot (flatten ps) = Some true ↔
   DEFAULTBOOT_SECTION ∉ section_names ps2 ∧ wants_menu (section_names ps) b) ∧
  (scan_check_defaultboot (flatten ps) = Some false ↔
   DEFAULTBOOT_SECTION ∉ section_names ps2 ∧ names_target (section_names ps) b).
Proof. apply check_defaultboot_spec. Qed.

Definition key (k : scan_keyword_id) (v : string) : scan_token := Token 0 (keyword_assignment k (bs v)).
Definition sample_default : list scan_token :=
  [key scan_keyword_target "/boot"; key scan_keyword_default "two"; key scan_keyword_prompt "1"; key scan_keyword_timeout "10"].
Definition sample_sections : list part :=
  [SectionPart 0 (bs "one") [key scan_keyword_image "/a"];
   SectionPart 0 (bs "dump") [key scan_keyword_dumpto "/dev/dasda1"];
   SectionPart 0 (bs "two") [key scan_keyword_image "/b"; key scan_keyword_target "/t"]].
Lemma sample_no_heading : Forall (λ p, no_heading (body p)) ([] ++ SectionPart 0 DEFAULTBOOT_SECTION sample_default :: sample_sections).
Proof. repeat constructor. Qed.

Lemma defaultboot_is_decided_witness :
  DEFAULTBOOT_SECTION ∉ section_names sample_sections ∧
  wants_menu (section_names (SectionPart 0 DEFAULTBOOT_SECTION sample_default :: sample_sections)) sample_default.
Proof.
  apply (defaultboot_is_decided [] sample_sections 0 sample_default sample_no_heading (not_elem_of_nil _)). by vm_compute.
Defined.

(** C18: in place of a defaultboot section that asks for it, a menu of all sections for booting
    is built, in their order and with the default entry that is named; the other parts are
    kept, and sections for booting without a target get the one of the defaultboot section.
    The array is large enough, also for the end mark.  Nothing is built if the name of the
    menu is taken, keywords cannot be collected, or there are no sections or too many. *)
Theorem automenu_is_built (ps1 ps2 : list part) (line : Z) (b : list scan_token) :
  let ps := ps1 ++ SectionPart line DEFAULTBOOT_SECTION b :: ps2 in
  Forall (λ p, no_heading (body p)) ps → DEFAULTBOOT_SECTION ∉ section_names ps1 → collectible b →
  (possible ps 0 ∧ ipl_names ps ≠ [] →
   scan_build_automenu (flatten ps) = Done (Some (flatten (new_parts (value_in b) ps), automenu_size (flatten ps) (value_in b))) ∧
   (length (flatten (new_parts (value_in b) ps)) < automenu_size (flatten ps) (value_in b))%nat) ∧
  (¬ (possible ps 0 ∧ ipl_names ps ≠ []) → scan_build_automenu (flatten ps) = Done None).
Proof. apply build_automenu_spec. Qed.

Lemma collectible_check l : bool_decide (positions_in l = [] ∧ NoDup (keywords_in l).*1) = true → collectible l.
Proof. apply bool_decide_eq_true. Qed.
Lemma sample_possible : possible ([] ++ SectionPart 0 DEFAULTBOOT_SECTION sample_default :: sample_sections) 0.
Proof.
  split; [|vm_compute; lia].
  repeat (apply Forall_cons; split; [intros _; by apply collectible_check; vm_compute|]). apply Forall_nil_2.
Qed.
Lemma automenu_is_built_witness :
  scan_build_automenu (flatten (SectionPart 0 DEFAULTBOOT_SECTION sample_default :: sample_sections)) =
  Done (Some ([Token 0 (section_heading (bs "one")); key scan_keyword_image "/a"; key scan_keyword_target "/boot";
    Token 0 (section_heading (bs "dump")); key scan_keyword_dumpto "/dev/dasda1";
    Token 0 (section_heading (bs "two")); key scan_keyword_image "/b"; key scan_keyword_target "/t";
    Token 0 (section_heading DEFAULTBOOT_SECTION); key scan_keyword_defaultmenu "zipl-automatic-menu";
    Token 0 (menu_heading SCAN_AUTOMENU_NAME); key scan_keyword_default "2"; key scan_keyword_prompt "1";
    key scan_keyword_timeout "10"; key scan_keyword_target "/boot";
    Token 0 (number_assignment 1 (bs "one")); Token 0 (number_assignment 2 (bs "two"))], 29%nat)).
Proof.
  destruct (automenu_is_built [] sample_sections 0 sample_default sample_no_heading (not_elem_of_nil _)) as [H _].
  - by apply collectible_check; vm_compute.
  - destruct H as [H _]; [split; [apply sample_possible|done]|]. rewrite app_nil_l in H. rewrite H. by vm_compute.
Defined.

(** C17: the configuration with the menu of all sections is accepted. The defaultboot
    section is the only one of its name and asks for the menu, with a valid prompt and
    timeout; there are 1 to 62 sections for booting, no menu has the name of the new one and
    the keywords of the sections can be collected; the names of sections and of menus are
    unique, and the other sections and menus follow the rules once their targets are filled
    in. *)
Theorem automatic_menu_is_accepted (ps1 ps2 : list part) (line : Z) (b : list scan_token) :
  let ps := ps1 ++ SectionPart line DEFAULTBOOT_SECTION b :: ps2 in
  Forall (λ p, no_heading (body p)) ps → DEFAULTBOOT_SECTION ∉ section_names ps1 →
  scan_check_defaultboot (flatten ps) = Some true →
  possible ps 0 → ipl_names ps ≠ [] → NoDup (section_names ps) → NoDup (menu_names ps) →
  Forall (λ p, part_rules (section_names ps) (complete (value_in b) p)) (ps1 ++ ps2) →
  (∀ v, value_in b scan_keyword_prompt = Some v → scan_one_int v = Some 0 ∨ scan_one_int v = Some 1) →
  (∀ v, value_in b scan_keyword_timeout = Some v → ∃ n, scan_one_int v = Some n ∧ 0 <= n) →
  default_boot true (flatten ps) = Done (Some (flatten (new_parts (value_in b) ps))) ∧
  scan_check (flatten (new_parts (value_in b) ps)) = Done true.
Proof.
  intros ps Hb Hfirst Hdb Hposs Hipl Hns Hnm Hrules Hp Ht.
  destruct (proj1 (proj1 (check_defaultboot_spec ps1 ps2 line b Hb Hfirst)) Hdb) as [Hsecond Hwants]. split.
  - unfold default_boot. rewrite Hdb.
    destruct (build_automenu_spec ps1 ps2 line b Hb Hfirst (proj1 Hwants)) as [H _]. fold ps in H.
    destruct H as [-> Hlen]; [done|]. rewrite Done_bind. unfold end_mark. cbn [fst snd].
    by rewrite (proj2 (Nat.ltb_lt _ _) Hlen).
  - destruct (scan_check_loop_spec (length (flatten (new_parts (value_in b) ps))) (flatten (new_parts (value_in b) ps)) 0)
      as (ok & H & Hok); [lia..|].
    unfold scan_check. rewrite H. f_equal. apply Hok. rewrite drop_0. apply complies_iff.
    by apply new_complies.
Qed.

Lemma section_rules_check name type l :
  type ∈ section_types → key_table_ok (scan_key_table type) (value_in l) = true → collectible l →
  value_in l scan_keyword_segment = None → scan_check_target_data (value_in l) = true → section_rules name l.
Proof.
  intros Hin Hk [Hp Hn] Hs Ht. split_and!; [done..|]. right. split_and!.
  - exists type. split; [done|]. by apply (key_table_ok_iff (value_in l)); [|apply length_scan_key_table|].
  - intros v Hv. congruence.
  - by apply (target_data_iff (value_in l)).
Qed.
Lemma sample_rules :
  Forall (λ p, part_rules (section_names (SectionPart 0 DEFAULTBOOT_SECTION sample_default :: sample_sections))
                 (complete (value_in sample_default) p)) sample_sections.
Proof.
  repeat (apply Forall_cons; split); [| | |apply Forall_nil_2].
  - apply (section_rules_check _ section_ipl); [left|by vm_compute|by apply collectible_check; vm_compute|by vm_compute..].
  - apply (section_rules_check _ section_dump); [by do 2 right; left|by vm_compute|by apply collectible_check; vm_compute|by vm_compute..].
  - apply (section_rules_check _ section_ipl); [left|by vm_compute|by apply collectible_check; vm_compute|by vm_compute..].
Qed.
Lemma automatic_menu_is_accepted_witness :
  scan_check (flatten (new_parts (value_in sample_default) (SectionPart 0 DEFAULTBOOT_SECTION sample_default :: sample_sections))) = Done true.
Proof.
  apply (automatic_menu_is_accepted [] sample_sections 0 sample_default sample_no_heading (not_elem_of_nil _)).
  - by vm_compute.
  - apply sample_possible.
  - done.
  - apply (bool_decide_eq_true_1 (NoDup _)). by vm_compute.
  - apply NoDup_nil_2.
  - apply sample_rules.
  - intros v [= <-]. right. by vm_compute.
  - intros v [= <-]. exists 10. split; [by vm_compute|done].
Defined.

(** C20: without a directory of entries, whatever the configuration file holds and whether or not
    the default is asked for, scanning, checking and building the menu return: no array is
    left and no pointer missing. *)
Theorem configuration_is_safe (readable : list Z → bool) (text : option (list Z)) (use_default : bool) :
  ∃ r, get_config readable text None use_default = Done r.
Proof. apply get_config_safe. Qed.

(** ** Entries of a directory *)

(** C21: all entries of the directory whose names end with .conf become sections behind the
    ones of the file, in some order, if each of them is written line by line with a single
    title, no key twice and no other key that begins like a known one: the title is the
    name, wherever the entry gives it, and the kernel, ramdisk and parameters follow in the
    order of the entry, and the default target. The array of tokens is large enough for
    them. *)
Theorem entries_become_sections (dir : list dirent) (scan : list scan_token) (scan_size : nat) (es : list entry) :
  Forall entry_ok es → filter (λ e, bls_filter_by_names e = true) dir = entry_dirent <$> es → (length scan <= scan_size)%nat →
  ∃ es', es' ≡ₚ es ∧
    scan_bls (Some dir) scan scan_size =
    Done (Some (scan ++ (es' ≫= entry_tokens (scan_get_default_target scan)), bls_size scan scan_size (length es))).
Proof. apply scan_bls_text. Qed.

Definition field (k v : string) : bls_line := BField (bs k) (bs " ") (bs v) [].
Definition sample_entry (name title : string) : entry :=
  Entry (bs name) [BComment [] (bs " kernel"); field "version" "5.14"; field "linux" "/vmlinuz"]
    (field "title" title) [BEmpty []; field "initrd" "/initrd"; field "options" "root=/dev/dasda1"].

Definition line_check (l : bls_line) : bool :=
  match l with
  | BEmpty b => forallb isblank b
  | BComment b text => forallb isblank b && forallb (λ c, negb (c =? NEWLINE)) text
  | BField key sp value trail =>
      bool_decide (key ≠ []) && forallb (λ c, isalnum c || (c =? 95) || (c =? 45)) key &&
      (bool_decide (key ∈ bls_names) || forallb (λ n, negb (prefixb key n) && negb (prefixb n key)) bls_names) &&
      bool_decide (sp ≠ []) && forallb isblank sp && forallb (λ c, negb (c =? NEWLINE) && negb (c =? 0)) value &&
      negb (isblank (headc value)) && negb (isblank (default 0 (last value))) && forallb isblank trail
  end.
Lemma forallb_Forall {A} (f : A → bool) (P : A → Prop) l : (∀ x, f x = true → P x) → forallb f l = true → Forall P l.
Proof. intros H. rewrite forallb_forall, Forall_forall. intros Hl x Hx. apply H, Hl. by apply list_elem_of_In. Qed.
Lemma line_check_ok l : line_check l = true → bls_line_ok l.
Proof.
  destruct l as [b|b text|key sp value trail]; cbn [line_check bls_line_ok].
  - apply (forallb_Forall isblank). done.
  - intros [H1 H2]%andb_prop. split; [by apply (forallb_Forall isblank)|].
    revert H2. apply forallb_Forall. intros c. destruct (Z.eqb_spec c NEWLINE); done.
  - rewrite !andb_true_iff. intros ((((((((H1 & H2) & H3) & H4) & H5) & H6) & H7) & H8) & H9).
    apply bool_decide_eq_true in H1, H4. unfold key_ok. split_and!.
    + done.
    + revert H2. apply forallb_Forall. intros c. unfold key_char. rewrite !orb_true_iff, !Z.eqb_eq. tauto.
    + apply orb_true_iff in H3 as [H3|H3]; [left; by apply bool_decide_eq_true in H3|right].
      revert H3. apply forallb_Forall. intros n. rewrite andb_true_iff, !negb_true_iff. done.
    + done.
    + by apply (forallb_Forall isblank).
    + revert H6. apply forallb_Forall. intros c. unfold value_char. rewrite andb_true_iff, !negb_true_iff, !Z.eqb_neq. done.
    + by apply negb_true_iff in H7.
    + by apply negb_true_iff in H8.
    + by apply (forallb_Forall isblank).
Qed.
Lemma entry_check e :
  forallb line_check (e_pre e ++ e_title e :: e_post e) && has_key (bs "title") (e_title e) &&
  bool_decide (Forall (λ n, (length (filter (λ l, has_key n l = true) (e_pre e ++ e_title e :: e_post e)) <= 1)%nat) bls_names) = true →
  entry_ok e.
Proof.
  rewrite !andb_true_iff. intros ((H1 & H2) & H3). split_and!; [|done|by apply bool_decide_eq_true in H3].
  revert H1. apply forallb_Forall, line_check_ok.
Qed.

Definition sample_entries : list entry := [sample_entry "b.conf" "second"; sample_entry "a.conf" "first"].
Lemma entries_become_sections_witness :
  ∃ es', es' ≡ₚ sample_entries ∧
    scan_bls (Some (Dirent (bs "README") None :: (entry_dirent <$> sample_entries))) sample_default 40 =
    Done (Some (sample_default ++ (es' ≫= entry_tokens None), 40%nat)).
Proof.
  apply (entries_become_sections (Dirent (bs "README") None :: (entry_dirent <$> sample_entries)) sample_default 40 sample_entries).
  - repeat (apply Forall_cons; split); [by apply entry_check; vm_compute|by apply entry_check; vm_compute|apply Forall_nil_2].
  - by vm_compute.
  - vm_compute. lia.
Defined.

(** an entry with all four fields *)
Definition full (e : entry) : Prop :=
  Forall (λ n, length (filter (λ l, has_key n l = true) (e_pre e ++ e_title e :: e_post e)) = 1%nat) bls_names.
Lemma full_tokens v es :
  Forall entry_ok es → Forall full es → length (es ≫= entry_tokens (Some v)) = (length es * BLS_TOKEN_MAX)%nat.
Proof.
  intros Hok Hfull. induction Hfull as [|e es He _ IH]; [done|]. inv Hok. rewrite bind_cons, length_app, IH by done.
  rewrite entry_tokens_length by done. unfold full, bls_names in He. rewrite !Forall_cons in He.
  destruct He as (H1' & H2' & H3' & H4' & _). unfold bls_names. cbn [sum_list_with]. rewrite H1', H2', H3', H4'. simpl. lia.
Qed.

(** If every entry of the directory has all four fields, a default target is set and the
    entries do not fit into what the file left of the array, the tokens fill the new array
    completely: it has no end mark, and reading it goes on behind it. *)
Theorem full_entries_leave_no_end_mark (readable : list Z → bool) (text : list Z) (dir : list dirent) (use_default : bool)
    (scan : list scan_token) (scan_size : nat) (es : list entry) (v : list Z) :
  scan_file (Some text) = Done (Some (scan, scan_size)) → scan_get_default_target scan = Some v →
  Forall entry_ok es → Forall full es → filter (λ e, bls_filter_by_names e = true) dir = entry_dirent <$> es →
  (scan_size - length scan <= length es * BLS_TOKEN_MAX)%nat →
  get_config readable (Some text) (Some dir) use_default = Fault.
Proof.
  intros Hscan Htarget Hok Hfull Hdir Hsize. unfold get_config. rewrite Hscan, Done_bind.
  destruct (scan_loop_total (length text) text 1 INITIAL_ARRAY_LENGTH []) as (r & Hr & Hroom);
    [done|unfold has_room, INITIAL_ARRAY_LENGTH; simpl; lia|].
  unfold scan_file in Hscan. rewrite Hr in Hscan. injection Hscan as ->. specialize (Hroom _ _ eq_refl). unfold has_room in Hroom.
  destruct (scan_bls_text dir scan scan_size es Hok Hdir ltac:(lia)) as (es' & Hp & ->). rewrite Done_bind, Htarget.
  unfold end_mark, bls_size. cbn [fst snd]. rewrite length_app, full_tokens by (by rewrite Hp). rewrite Hp.
  destruct (Nat.ltb_spec (length scan + length es * BLS_TOKEN_MAX) (Nat.max scan_size (length scan + length es * BLS_TOKEN_MAX))); [lia|done].
Qed.

Definition eight_entries : list entry :=
  (λ n, sample_entry n "linux") <$> ["1.conf"; "2.conf"; "3.conf"; "4.conf"; "5.conf"; "6.conf"; "7.conf"; "8.conf"]%string.
Definition sample_config : list config_line :=
  [Line [] (Section_ DEFAULTBOOT_SECTION) []; Line [] Only []; Line [] (Assign scan_keyword_target [] [] (Plain (bs "/boot"))) []].
Lemma full_entries_leave_no_end_mark_witness :
  get_config (λ _, true) (Some (config_text sample_config)) (Some (entry_dirent <$> eight_entries)) true = Fault.
Proof.
  apply (full_entries_leave_no_end_mark (λ _, true) _ _ true (config_tokens 1 sample_config) 40 eight_entries (bs "/boot")).
  - by vm_compute.
  - by vm_compute.
  - unfold eight_entries. cbn [fmap list_fmap]. repeat (apply Forall_cons; split; [by apply entry_check; vm_compute|]). apply Forall_nil_2.
  - unfold eight_entries. cbn [fmap list_fmap]. repeat (apply Forall_cons; split; [by repeat constructor|]). apply Forall_nil_2.
  - by vm_compute.
  - vm_compute. lia.
Defined.

(** A key of an entry is taken for the name it is an abbreviation of, but duplicate keys are
    only looked for in full: an entry can have any number of kernels, and the tokens go on
    behind the end of the array. *)
Theorem abbreviated_keys_overrun :
  scan_bls (Some [Dirent (bs "a.conf") (Some (bs "title a" ++ [NEWLINE] ++ mjoin (replicate 39 (bs "l /x" ++ [NEWLINE]))))])
    [Token 1 (section_heading DEFAULTBOOT_SECTION); Token 2 (keyword_assignment scan_keyword_default (bs "a"))] 40 = Fault.
Proof. by vm_compute. Qed.

(** For an entry whose last line has no newline, the NUL behind the value is stored behind the
    buffer with the entry. *)
Theorem missing_newline_overruns (cap : nat) (key sp value : list Z) (l : list scan_token) :
  Forall key_char key → sp ≠ [] → blanks sp → starts value → Forall value_char value →
  isblank (default 0 (last value)) = false →
  scan_bls_field cap (key ++ sp ++ value) l = Fault.
Proof.
  intros Hk Hne Hsp Hst Hv Hl. unfold scan_bls_field.
  assert (field_key (key ++ sp ++ value) = Some (key, sp ++ value)) as ->.
  { destruct sp as [|c sp]; [done|]. apply Forall_cons in Hsp as [Hc _]. by apply field_key_app. }
  rewrite skip_blanks_app, skip_blanks_starts by done.
  assert (line_split value = (value, [])) as ->.
  { clear -Hv. induction Hv as [|c v [Hc _] _ IH]; [done|]. simpl. by rewrite (proj2 (Z.eqb_neq _ _) Hc), IH. }
  pose proof (strip_trailing_app value [] Hl (List.Forall_nil _)) as E. rewrite app_nil_r in E. rewrite E.
  by rewrite Nat.ltb_irrefl.
Qed.
Lemma missing_newline_overruns_witness : scan_bls_field 40 (bs "linux /vmlinuz") [] = Fault.
Proof.
  apply (missing_newline_overruns 40 (bs "linux") (bs " ") (bs "/vmlinuz") []); try done; repeat constructor; try done; by left.
Defined.

(** a version is taken from any line behind "version" in the alphabet with a blank in the right place *)
Theorem version_of_another_keyword :
  get_version (Dirent (bs "a.conf") (Some (bs "xxxxxxx 7" ++ [NEWLINE]))) = Some (bs "7").
Proof. by vm_compute. Qed.

(** the defaultboot section is not checked when a section is asked for: its default can name one
    that is not there (rule 8), and it can have any keywords *)
Theorem defaultboot_unchecked_for_a_section :
  scan_check [Token 1 (section_heading DEFAULTBOOT_SECTION); Token 2 (keyword_assignment scan_keyword_default (bs "missing"));
              Token 3 (keyword_assignment scan_keyword_image (bs "/a"))] = Done true.
Proof. by vm_compute. Qed.

End ScanProps.
