(* ===== verification/Kmip.v ===== *)
(** Big integers and nodes of the KMIP client library (src/libkmipclient/utils.c and
    kmip.c); the nodes have a comment of their own below.

    A KMIP big integer is a two's complement number of any length, most
    significant byte first.  The library keeps it as an OpenSSL BIGNUM and
    converts it with the functions of this file.  OpenSSL itself is a parameter:
    the class [BnOps] has the functions of its BN interface that the library
    calls, on the integers that BIGNUMs stand for, and [BnLaws] what its manual
    says of them.  The instance [bn_ops] shows that the laws can be met. *)
From S2P Require Import Prelude Codec.

(** linear arithmetic with quotients and remainders by constants *)
Ltac dlia := Z.to_euclidean_division_equations; lia.

Definition EIO : Z := 5.
Definition EINVAL : Z := 22.
Definition EOVERFLOW : Z := 75.
Definition INT_MAX : Z := 2147483647.

(** ** The part of OpenSSL's BN interface that is used *)

Class BnOps := {
  BN_num_bytes : Z → Z;
  BN_is_negative : Z → bool;
  BN_is_bit_set : Z → Z → bool;
  BN_set_negative : Z → bool → Z;
  BN_bn2binpad : Z → Z → option (list Z);
  BN_bin2bn : list Z → Z;
}.

(** [BN_bn2binpad] and [BN_bin2bn] work on the magnitude; the former fails
    ([None] for the return value -1) when the number needs more bytes. *)
Class BnLaws `{BnOps} : Prop := {
  BN_num_bytes_law a :
    0 <= BN_num_bytes a ∧ Z.abs a < 256 ^ BN_num_bytes a ∧
    (a ≠ 0 → 0 < BN_num_bytes a ∧ 256 ^ (BN_num_bytes a - 1) <= Z.abs a);
  BN_is_negative_law a : BN_is_negative a = (a <? 0);
  BN_is_bit_set_law a n : 0 <= n → BN_is_bit_set a n = Z.testbit (Z.abs a) n;
  BN_set_negative_law a neg :
    BN_set_negative a neg = if neg : bool then - Z.abs a else Z.abs a;
  BN_bn2binpad_law a n : 0 <= n →
    BN_bn2binpad a n =
      if Z.abs a <? 256 ^ n then Some (be_enc (Z.to_nat n) (Z.abs a)) else None;
  BN_bin2bn_law l : bytes_ok l → BN_bin2bn l = be_dec l;
}.

(** ** The code *)

Definition KMIP_BIG_INTEGER_BLOCK_LENGTH : Z := 8.

(** [~data[i]] for every byte *)
Definition complement (l : list Z) : list Z := map (λ b, u8 (Z.lnot b)) l.

(** The loop [for (i = length - 1; i >= 0; i--)] that adds one at the last byte
    and stops at the first one that does not become zero; the flag says that the
    loop goes on. *)
Fixpoint increment (l : list Z) : list Z * bool :=
  match l with
  | [] => ([], true)
  | b :: r =>
      let '(r', go_on) := increment r in
      if go_on then let b' := u8 (b + 1) in (b' :: r', b' =? 0)
      else (b :: r', false)
  end.

Section Code.
Context `{BnOps}.

(** The length handed in is at most INT_MAX; a buffer shorter than it (or
    without a first byte) is read out of bounds. *)
Definition kmip_decode_bignum (data : option (list Z)) (length : Z)
    : outcome (Z + Z) :=
  match data with
  | None => Done (inl (- EINVAL))
  | Some data =>
      first ← deref (data !! 0%nat);
      if Z.of_nat (List.length data) <? length then Fault else
      let bytes := take (Z.to_nat length) data in
      let neg := flag (Z.land first 128) in
      let tmp := if neg then fst (increment (complement bytes)) else bytes in
      Done (inr (BN_set_negative (BN_bin2bn tmp) neg))
  end.

Definition kmip_encode_bignum_length (bn : option Z) : Z :=
  match bn with
  | None => 0
  | Some bn =>
      let length := u32 (BN_num_bytes bn) in
      if BN_is_negative bn && BN_is_bit_set bn (s32 (length * 8 - 1))
      then u32 (length + 1) else length
  end.

Definition kmip_encode_bignum (bn : option Z) (length : Z) : Z + list Z :=
  match bn with
  | None => inl (- EINVAL)
  | Some bn =>
      match BN_bn2binpad bn (s32 length) with
      | None => inl (- EIO)
      | Some data =>
          if BN_is_negative bn then inr (fst (increment (complement data)))
          else inr data
      end
  end.

(** [len] rounded up to the block length of big integers *)
Definition bignum_block_length (len : Z) : Z :=
  if len mod KMIP_BIG_INTEGER_BLOCK_LENGTH =? 0 then len
  else len + (KMIP_BIG_INTEGER_BLOCK_LENGTH - len mod KMIP_BIG_INTEGER_BLOCK_LENGTH).

(** [kmip_format_hex]: two digits of each byte, with an optional "0x" *)
Definition kmip_format_hex (val : list Z) (prefix : bool) : list Z :=
  (if prefix then [48; 120] else []) ++
  concat (map (λ b, [hex_digit (b / 16); hex_digit (b mod 16)]) val).

Definition kmip_format_bignum (bn : option Z) (prefix : bool) : Z + list Z :=
  let len := kmip_encode_bignum_length bn in
  let len' := u32 (bignum_block_length len) in
  if negb (len mod KMIP_BIG_INTEGER_BLOCK_LENGTH =? 0) && (len' <? len)
  then inl (- EOVERFLOW) else
  match kmip_encode_bignum bn len' with
  | inl _ => inl (- EIO)
  | inr buf => inr (kmip_format_hex buf prefix)
  end.
End Code.

(** ** Two's complement *)

(** the number that [n] bytes with the unsigned value [x] stand for *)
Definition twos_complement (n x : Z) : Z :=
  if x <? 128 * 256 ^ (n - 1) then x else x - 256 ^ n.

Section TwosComplement.
Lemma be_dec_cons b l :
  be_dec (b :: l) = b * 256 ^ Z.of_nat (length l) + be_dec l.
Proof.
  induction l as [|x l IH] using rev_ind; [unfold be_dec; simpl; lia|].
  rewrite app_comm_cons, !be_dec_snoc, IH, length_app. simpl length.
  rewrite Nat2Z.inj_add, Z.pow_add_r by lia. lia.
Qed.

Lemma lnot_byte b : in_u8 b → u8 (Z.lnot b) = 255 - b.
Proof.
  unfold in_u8, u8, Z.lnot. intros Hb.
  rewrite <- (Z.mod_unique (Z.pred (- b)) 256 (-1) (255 - b)); lia.
Qed.

Lemma length_complement l : length (complement l) = length l.
Proof. apply length_map. Qed.

Lemma complement_bytes l : bytes_ok (complement l).
Proof. apply Forall_forall. intros x (b & -> & _)%list_elem_of_fmap. apply u8_range. Qed.

Lemma be_dec_complement l : bytes_ok l →
  be_dec (complement l) = 256 ^ Z.of_nat (length l) - 1 - be_dec l.
Proof.
  induction 1 as [|b l Hb _ IH]; [done|].
  change (complement (b :: l)) with (u8 (Z.lnot b) :: complement l).
  rewrite !be_dec_cons, IH, lnot_byte, length_complement by done.
  simpl length. rewrite Nat2Z.inj_succ, Z.pow_succ_r by lia. lia.
Qed.

Lemma length_increment l : length (fst (increment l)) = length l.
Proof.
  induction l as [|b l IH]; [done|]. simpl.
  destruct (increment l) as [r c]. destruct c; simpl in *; lia.
Qed.

Lemma increment_bytes l : bytes_ok l → bytes_ok (fst (increment l)).
Proof.
  induction 1 as [|b l Hb Hl IH]; [by constructor|]. simpl.
  destruct (increment l) as [r []]; simpl in *; constructor; auto using u8_range.
Qed.

(** the bytes count one up modulo their width; the flag is the carry *)
Lemma be_dec_increment l : bytes_ok l →
  be_dec (fst (increment l)) + (if snd (increment l) then 256 ^ Z.of_nat (length l) else 0)
  = be_dec l + 1.
Proof.
  induction 1 as [|b l Hb Hl IH]; [done|].
  pose proof (length_increment l) as Hlen.
  simpl increment. destruct (increment l) as [r c]. simpl in IH, Hlen.
  rewrite be_dec_cons.
  assert (Hp : 256 ^ Z.of_nat (length (b :: l)) = 256 * 256 ^ Z.of_nat (length l)).
  { simpl length. rewrite Nat2Z.inj_succ, Z.pow_succ_r by lia. done. }
  destruct c; cbn [fst snd]; rewrite be_dec_cons, Hlen.
  - unfold in_u8 in Hb. destruct (decide (b = 255)) as [->|Hne].
    + change (u8 (255 + 1)) with 0. simpl (0 =? 0). lia.
    + rewrite u8_small, (proj2 (Z.eqb_neq (b + 1) 0)) by lia. lia.
  - lia.
Qed.

(** complement and increment is negation modulo the width *)
Lemma be_dec_negate l : bytes_ok l →
  be_dec (fst (increment (complement l)))
  = (- be_dec l) mod 256 ^ Z.of_nat (length l).
Proof.
  intros Hl. pose proof (be_dec_increment _ (complement_bytes l)) as H.
  pose proof (be_dec_range _ (increment_bytes _ (complement_bytes l))) as Hr.
  pose proof (be_dec_range _ Hl) as Hl'.
  rewrite length_increment in Hr. rewrite !length_complement in *.
  rewrite be_dec_complement in H by done.
  destruct (snd _).
  - apply Z.mod_unique with (q := 0); lia.
  - apply Z.mod_unique with (q := -1); lia.
Qed.

(** the sign bit is the top bit of the first byte *)
Lemma sign_bit b l : bytes_ok (b :: l) →
  flag (Z.land b 128) = negb (be_dec (b :: l) <? 128 * 256 ^ Z.of_nat (length l)).
Proof.
  intros Hl. inversion_clear Hl as [|? ? Hb Hr]. pose proof (be_dec_range _ Hr).
  rewrite be_dec_cons. unfold in_u8 in Hb.
  assert (Hb' : Z.land b 128 = if b <? 128 then 0 else 128).
  { assert (E : forallb (λ n, Z.land (Z.of_nat n) 128 =? if Z.of_nat n <? 128 then 0 else 128)
                  (seq 0 256) = true) by (vm_compute; done).
    rewrite forallb_forall in E. specialize (E (Z.to_nat b)).
    rewrite in_seq, Z2Nat.id in E by lia. apply Z.eqb_eq, E. lia. }
  rewrite Hb'. destruct (Z.ltb_spec b 128); simpl; destruct (Z.ltb_spec (b * 256 ^ Z.of_nat (length l) + be_dec l) (128 * 256 ^ Z.of_nat (length l))); try done; nia.
Qed.
End TwosComplement.

(** ** What the conversions compute, under OpenSSL's laws *)

Section Laws.
Context `{BnLaws}.

(** Decoding gives the two's complement value of the bytes. *)
Lemma decode_bignum_value b l r :
  bytes_ok (b :: l) →
  kmip_decode_bignum (Some ((b :: l) ++ r)) (Z.of_nat (length (b :: l)))
  = Done (inr (twos_complement (Z.of_nat (length (b :: l))) (be_dec (b :: l)))).
Proof.
  intros Hl. unfold kmip_decode_bignum. cbn [app lookup list_lookup deref].
  rewrite Done_bind. rewrite (proj2 (Z.ltb_ge _ _)) by (simpl; rewrite length_app; lia).
  rewrite Nat2Z.id, app_comm_cons, take_app_length. cbv zeta.
  rewrite (sign_bit _ _ Hl). unfold twos_complement.
  replace (Z.of_nat (length (b :: l)) - 1) with (Z.of_nat (length l)) by (simpl; lia).
  pose proof (be_dec_range _ Hl) as Hr.
  assert (0 < 256 ^ Z.of_nat (length l)) by (apply Z.pow_pos_nonneg; lia).
  destruct (Z.ltb_spec (be_dec (b :: l)) (128 * 256 ^ Z.of_nat (length l))) as [Hs|Hs];
    cbn [negb]; do 2 f_equal; rewrite BN_set_negative_law, BN_bin2bn_law
      by auto using increment_bytes, complement_bytes.
  - lia.
  - rewrite be_dec_negate by done.
    rewrite <- (Z.mod_unique _ (256 ^ Z.of_nat (length (b :: l))) (-1)
                  (256 ^ Z.of_nat (length (b :: l)) - be_dec (b :: l))) by lia. lia.
Qed.

Lemma decode_bignum_empty r :
  kmip_decode_bignum (Some (0 :: r)) 0 = Done (inr 0).
Proof.
  unfold kmip_decode_bignum. cbn. rewrite BN_set_negative_law, BN_bin2bn_law by constructor.
  done.
Qed.

(** Encoding gives the bytes of the value modulo their width, or -EIO when the
    magnitude does not fit. *)
Lemma encode_bignum_value v L : 0 <= L <= INT_MAX → Z.abs v < 256 ^ L →
  ∃ data, kmip_encode_bignum (Some v) L = inr data ∧
    bytes_ok data ∧ Z.of_nat (length data) = L ∧ be_dec data = v mod 256 ^ L.
Proof.
  unfold INT_MAX. intros HL Hv. unfold kmip_encode_bignum.
  rewrite s32_small, BN_bn2binpad_law, (proj2 (Z.ltb_lt _ _)), BN_is_negative_law by lia.
  set (data := be_enc (Z.to_nat L) (Z.abs v)).
  assert (Hd : be_dec data = Z.abs v).
  { unfold data. apply be_dec_enc. rewrite Z2Nat.id; lia. }
  assert (Hlen : Z.of_nat (length data) = L) by (unfold data; rewrite be_enc_length; lia).
  assert (Hb : bytes_ok data) by apply be_enc_bytes.
  destruct (Z.ltb_spec v 0).
  - exists (fst (increment (complement data))). split; [done|].
    split_and!; [auto using increment_bytes, complement_bytes|
                 by rewrite length_increment, length_complement|].
    rewrite be_dec_negate, Hd, Hlen by done. f_equal. lia.
  - exists data. split_and!; try done. rewrite Hd, Z.mod_small; lia.
Qed.

(** The padded length holds the magnitude of every number, and the whole number
    in two's complement unless it is positive with the top bit of its last
    block set. *)
Lemma bignum_block_length_ge len :
  0 <= len → len <= bignum_block_length len < len + 8 ∧
  bignum_block_length len mod 8 = 0.
Proof.
  unfold bignum_block_length, KMIP_BIG_INTEGER_BLOCK_LENGTH. intros.
  destruct (Z.eqb_spec (len mod 8) 0); dlia.
Qed.

Lemma encode_bignum_length_spec v :
  BN_num_bytes v < 268435455 →
  BN_num_bytes v <= kmip_encode_bignum_length (Some v) <= BN_num_bytes v + 1 ∧
  (v < 0 → - v <= 128 * 256 ^ (kmip_encode_bignum_length (Some v) - 1)).
Proof.
  intros Hn. destruct (BN_num_bytes_law v) as (Hn0 & Habs & Hnz).
  unfold kmip_encode_bignum_length. rewrite (u32_small (BN_num_bytes v)), BN_is_negative_law by lia.
  destruct (Z.ltb_spec v 0) as [Hv|Hv]; cbn [andb]; [|split; lia].
  destruct Hnz as [Hn1 Hlow]; [lia|].
  assert (Hp : 256 ^ BN_num_bytes v = 256 * 256 ^ (BN_num_bytes v - 1)).
  { rewrite <- Z.pow_succ_r by lia. f_equal. lia. }
  rewrite s32_small, BN_is_bit_set_law by lia.
  destruct (Z.testbit (Z.abs v) _) eqn:E.
  - rewrite u32_small by lia. split; [lia|]. intros _.
    replace (BN_num_bytes v + 1 - 1) with (BN_num_bytes v) by lia. lia.
  - split; [lia|]. intros _.
    assert (Hb : Z.abs v < 2 ^ (BN_num_bytes v * 8 - 1)).
    { apply Z.nle_gt. intros Hle.
      rewrite Z.testbit_eqb in E by lia. apply Z.eqb_neq in E. apply E.
      assert (H2 : 256 ^ BN_num_bytes v = 2 * 2 ^ (BN_num_bytes v * 8 - 1)).
      { rewrite <- Z.pow_succ_r by lia.
        replace (Z.succ (BN_num_bytes v * 8 - 1)) with (8 * BN_num_bytes v) by lia.
        rewrite Z.pow_mul_r by lia. done. }
      assert (Z.abs v / 2 ^ (BN_num_bytes v * 8 - 1) = 1) as ->; [|done].
      symmetry. apply Z.div_unique_pos with (Z.abs v - 2 ^ (BN_num_bytes v * 8 - 1)); lia. }
    replace (128 * 256 ^ (BN_num_bytes v - 1)) with (2 ^ (BN_num_bytes v * 8 - 1)); [lia|].
    replace (BN_num_bytes v * 8 - 1) with (7 + 8 * (BN_num_bytes v - 1)) by lia.
    rewrite Z.pow_add_r, Z.pow_mul_r by lia. done.
Qed.
End Laws.

(** ** The laws can be met *)

#[export] Instance bn_ops : BnOps := {
  BN_num_bytes a := if a =? 0 then 0 else Z.log2 (Z.abs a) / 8 + 1;
  BN_is_negative a := a <? 0;
  BN_is_bit_set a n := (0 <=? n) && Z.testbit (Z.abs a) n;
  BN_set_negative a neg := if neg then - Z.abs a else Z.abs a;
  BN_bn2binpad a n :=
    if (0 <=? n) && (Z.abs a <? 256 ^ n)
    then Some (be_enc (Z.to_nat n) (Z.abs a)) else None;
  BN_bin2bn l := be_dec l;
}.

#[export] Instance bn_laws : BnLaws.
Proof.
  split; cbn.
  - intros a. destruct (Z.eqb_spec a 0) as [->|Ha]; [cbn; lia|].
    pose proof (Z.log2_nonneg (Z.abs a)). destruct (Z.log2_spec (Z.abs a)) as [H1 H2]; [lia|].
    set (k := Z.log2 (Z.abs a)) in *.
    assert (Hp : ∀ n, 0 <= n → 256 ^ n = 2 ^ (8 * n)) by (intros; rewrite Z.pow_mul_r by lia; done).
    replace (k / 8 + 1 - 1) with (k / 8) by lia. rewrite !Hp by dlia.
    split_and!; [dlia| |intros _; split; [dlia|]].
    + eapply Z.lt_le_trans; [exact H2|]. apply Z.pow_le_mono_r; dlia.
    + etrans; [|exact H1]. apply Z.pow_le_mono_r; dlia.
  - done.
  - intros a n Hn. by rewrite (proj2 (Z.leb_le _ _)) by lia.
  - done.
  - intros a n Hn. by rewrite (proj2 (Z.leb_le _ _)) by lia.
  - done.
Qed.

(** Nodes of the KMIP client library (src/libkmipclient/kmip.c).

    A KMIP message is a tree of nodes: a node has a tag, a type, a length, an
    optional name and a value, and the value of a structure is the list of its
    elements.  This file has the nodes as values: the chain of [next] pointers of
    a structure is a list, and a pointer that may be NULL is an [option].  The
    reference counts and the sharing of nodes are in KmipHeap.v, which runs the
    same operations on a heap.

    A C string is the list of its characters without the terminating NUL; the
    buffer of a text value received from a server may have NULs of its own, so
    that what the string functions see of it is its [cstr].  Memory is always
    available. *)

Definition ENOENT : Z := 2.
Definition E2BIG : Z := 7.
Definition EBADMSG : Z := 74.
Definition EMSGSIZE : Z := 90.

(** ** Data *)

(** [enum kmip_type] *)
Inductive kmip_type : Type :=
  | KMIP_TYPE_STRUCTURE
  | KMIP_TYPE_INTEGER
  | KMIP_TYPE_LONG_INTEGER
  | KMIP_TYPE_BIG_INTEGER
  | KMIP_TYPE_ENUMERATION
  | KMIP_TYPE_BOOLEAN
  | KMIP_TYPE_TEXT_STRING
  | KMIP_TYPE_BYTE_STRING
  | KMIP_TYPE_DATE_TIME
  | KMIP_TYPE_INTERVAL
  | KMIP_TYPE_DATE_TIME_EXTENDED.

#[export] Instance kmip_type_eq_dec : EqDecision kmip_type.
Proof. solve_decision. Defined.

(** the values of the enumeration *)
Definition kmip_type_code (t : kmip_type) : Z :=
  match t with
  | KMIP_TYPE_STRUCTURE => 1
  | KMIP_TYPE_INTEGER => 2
  | KMIP_TYPE_LONG_INTEGER => 3
  | KMIP_TYPE_BIG_INTEGER => 4
  | KMIP_TYPE_ENUMERATION => 5
  | KMIP_TYPE_BOOLEAN => 6
  | KMIP_TYPE_TEXT_STRING => 7
  | KMIP_TYPE_BYTE_STRING => 8
  | KMIP_TYPE_DATE_TIME => 9
  | KMIP_TYPE_INTERVAL => 10
  | KMIP_TYPE_DATE_TIME_EXTENDED => 11
  end.

Definition kmip_types : list kmip_type :=
  [KMIP_TYPE_STRUCTURE; KMIP_TYPE_INTEGER; KMIP_TYPE_LONG_INTEGER;
   KMIP_TYPE_BIG_INTEGER; KMIP_TYPE_ENUMERATION; KMIP_TYPE_BOOLEAN;
   KMIP_TYPE_TEXT_STRING; KMIP_TYPE_BYTE_STRING; KMIP_TYPE_DATE_TIME;
   KMIP_TYPE_INTERVAL; KMIP_TYPE_DATE_TIME_EXTENDED].

Definition kmip_type_of_code (c : Z) : option kmip_type :=
  head (filter (λ t, kmip_type_code t = c) kmip_types).

(** The union of [struct kmip_node], tagged by the node's type; [A] is the type
    of the elements of a structure. *)
Inductive kmip_value (A : Type) : Type :=
  | StructureValue (elements : list A)
  | IntegerValue (v : Z)
  | LongValue (v : Z)
  | BigIntegerValue (bn : option Z)
  | EnumerationValue (v : Z)
  | BooleanValue (b : bool)
  | TextValue (s : option (list Z))
  | BytesValue (s : option (list Z))
  | DateTimeValue (v : Z)
  | IntervalValue (v : Z)
  | DateTimeExtValue (v : Z).
Arguments StructureValue {A} _.
Arguments IntegerValue {A} _.
Arguments LongValue {A} _.
Arguments BigIntegerValue {A} _.
Arguments EnumerationValue {A} _.
Arguments BooleanValue {A} _.
Arguments TextValue {A} _.
Arguments BytesValue {A} _.
Arguments DateTimeValue {A} _.
Arguments IntervalValue {A} _.
Arguments DateTimeExtValue {A} _.

Inductive kmip_node : Type :=
  KmipNode (tag : Z) (len : Z) (name : option (list Z)) (value : kmip_value kmip_node).

Definition node_tag (n : kmip_node) : Z := let 'KmipNode t _ _ _ := n in t.
Definition node_length (n : kmip_node) : Z := let 'KmipNode _ l _ _ := n in l.
Definition node_name (n : kmip_node) : option (list Z) := let 'KmipNode _ _ m _ := n in m.
Definition node_value (n : kmip_node) : kmip_value kmip_node := let 'KmipNode _ _ _ v := n in v.

Definition value_type {A} (v : kmip_value A) : kmip_type :=
  match v with
  | StructureValue _ => KMIP_TYPE_STRUCTURE
  | IntegerValue _ => KMIP_TYPE_INTEGER
  | LongValue _ => KMIP_TYPE_LONG_INTEGER
  | BigIntegerValue _ => KMIP_TYPE_BIG_INTEGER
  | EnumerationValue _ => KMIP_TYPE_ENUMERATION
  | BooleanValue _ => KMIP_TYPE_BOOLEAN
  | TextValue _ => KMIP_TYPE_TEXT_STRING
  | BytesValue _ => KMIP_TYPE_BYTE_STRING
  | DateTimeValue _ => KMIP_TYPE_DATE_TIME
  | IntervalValue _ => KMIP_TYPE_INTERVAL
  | DateTimeExtValue _ => KMIP_TYPE_DATE_TIME_EXTENDED
  end.
Definition node_type (n : kmip_node) : kmip_type := value_type (node_value n).

(** the union as [calloc] leaves it *)
Definition zero_value {A} (t : kmip_type) : kmip_value A :=
  match t with
  | KMIP_TYPE_STRUCTURE => StructureValue []
  | KMIP_TYPE_INTEGER => IntegerValue 0
  | KMIP_TYPE_LONG_INTEGER => LongValue 0
  | KMIP_TYPE_BIG_INTEGER => BigIntegerValue None
  | KMIP_TYPE_ENUMERATION => EnumerationValue 0
  | KMIP_TYPE_BOOLEAN => BooleanValue false
  | KMIP_TYPE_TEXT_STRING => TextValue None
  | KMIP_TYPE_BYTE_STRING => BytesValue None
  | KMIP_TYPE_DATE_TIME => DateTimeValue 0
  | KMIP_TYPE_INTERVAL => IntervalValue 0
  | KMIP_TYPE_DATE_TIME_EXTENDED => DateTimeExtValue 0
  end.

Definition set_value (n : kmip_node) (v : kmip_value kmip_node) : kmip_node :=
  KmipNode (node_tag n) (node_length n) (node_name n) v.
Definition set_length (n : kmip_node) (len : Z) : kmip_node :=
  KmipNode (node_tag n) len (node_name n) (node_value n).

(** Induction on nodes with the hypothesis for every element of a structure. *)
Section NodeInd.
Variable P : kmip_node → Prop.
Hypothesis HS : ∀ tag len name els, Forall P els → P (KmipNode tag len name (StructureValue els)).
Hypothesis HL : ∀ tag len name v,
  value_type v ≠ KMIP_TYPE_STRUCTURE → P (KmipNode tag len name v).

Fixpoint kmip_node_tree_ind (n : kmip_node) : P n :=
  match n with
  | KmipNode tag len name v =>
      match v return P (KmipNode tag len name v) with
      | StructureValue els =>
          HS tag len name els
            ((fix go l : Forall P l :=
                match l with
                | [] => Forall_nil_2 P
                | e :: l => Forall_cons_2 P e l (kmip_node_tree_ind e) (go l)
                end) els)
      | v => HL tag len name v ltac:(discriminate)
      end
  end.
End NodeInd.

(** ** Nodes and their fields *)

Definition kmip_node_new (tag : Z) (name : option (list Z)) (type : kmip_type) : kmip_node :=
  KmipNode tag 0 (cstr <$> name) (zero_value type).

Definition kmip_node_get_tag (node : option kmip_node) : Z :=
  match node with None => 0 | Some n => node_tag n end.

(** 0 for NULL, which is no type *)
Definition kmip_node_get_type (node : option kmip_node) : Z :=
  match node with None => 0 | Some n => kmip_type_code (node_type n) end.

Definition kmip_node_get_name (node : option kmip_node) : option (list Z) :=
  match node with None => None | Some n => cstr <$> node_name n end.

(** ** Structures *)

(** Returns the result code and the node as it is left; NULL elements are
    skipped. *)
Definition kmip_node_add_structure_elements (node : option kmip_node)
    (elements : list (option kmip_node)) : Z * option kmip_node :=
  match node with
  | None => (- EINVAL, None)
  | Some n =>
      match node_value n with
      | StructureValue els =>
          (0, Some (set_value n (StructureValue (els ++ omap id elements))))
      | _ => (- EINVAL, Some n)
      end
  end.

Definition kmip_node_add_structure_element (node element : option kmip_node)
    : Z * option kmip_node :=
  match node, element with
  | Some _, Some _ => kmip_node_add_structure_elements node [element]
  | _, _ => (- EINVAL, node)
  end.

Definition kmip_node_new_structure (tag : Z) (name : option (list Z))
    (elements : list (option kmip_node)) : option kmip_node :=
  let '(rc, node) := kmip_node_add_structure_elements
                       (Some (kmip_node_new tag name KMIP_TYPE_STRUCTURE)) elements in
  if rc =? 0 then node else None.

(** the elements come as variable arguments *)
Definition kmip_node_new_structure_va (tag : Z) (name : option (list Z))
    (elements : list (option kmip_node)) : option kmip_node :=
  kmip_node_new_structure tag name elements.

Definition kmip_node_get_structure_element_count (node : option kmip_node) : Z :=
  match node with
  | None => 0
  | Some n =>
      match node_value n with
      | StructureValue els => u32 (Z.of_nat (length els))
      | _ => 0
      end
  end.

Definition kmip_node_get_structure_element_by_index (node : option kmip_node)
    (index : Z) : option kmip_node :=
  match node with
  | None => None
  | Some n =>
      match node_value n with
      | StructureValue els => els !! Z.to_nat index
      | _ => None
      end
  end.

Definition kmip_node_get_structure_element_by_tag_count (node : option kmip_node)
    (tag : Z) : Z :=
  match node with
  | None => 0
  | Some n =>
      match node_value n with
      | StructureValue els =>
          u32 (Z.of_nat (length (filter (λ e, node_tag e = tag) els)))
      | _ => 0
      end
  end.

(** the loop over the chain of elements *)
Fixpoint find_by_tag (tag : Z) (index : Z) (e : list kmip_node) : option kmip_node :=
  match e with
  | [] => None
  | e :: rest =>
      if node_tag e =? tag then
        if index =? 0 then Some e else find_by_tag tag (index - 1) rest
      else find_by_tag tag index rest
  end.

Definition kmip_node_get_structure_element_by_tag (node : option kmip_node)
    (tag index : Z) : option kmip_node :=
  match node with
  | None => None
  | Some n =>
      match node_value n with
      | StructureValue els => find_by_tag tag index els
      | _ => None
      end
  end.

(** ** Scalar nodes *)

Definition kmip_node_new_integer (tag : Z) (name : option (list Z)) (value : Z) : option kmip_node :=
  Some (set_length (set_value (kmip_node_new tag name KMIP_TYPE_INTEGER) (IntegerValue value)) 4).

Definition kmip_node_get_integer (node : option kmip_node) : Z :=
  match node_value <$> node with Some (IntegerValue v) => v | _ => 0 end.

Definition kmip_node_new_long (tag : Z) (name : option (list Z)) (value : Z) : option kmip_node :=
  Some (set_length (set_value (kmip_node_new tag name KMIP_TYPE_LONG_INTEGER) (LongValue value)) 8).

Definition kmip_node_get_long (node : option kmip_node) : Z :=
  match node_value <$> node with Some (LongValue v) => v | _ => 0 end.

Definition kmip_node_new_bigint `{BnOps} (tag : Z) (name : option (list Z)) (value : option Z)
    : option kmip_node :=
  let n := kmip_node_new tag name KMIP_TYPE_BIG_INTEGER in
  Some (match value with
        | None => n
        | Some _ => set_length (set_value n (BigIntegerValue value))
                      (kmip_encode_bignum_length value)
        end).

Definition kmip_node_get_bigint (node : option kmip_node) : option Z :=
  match node_value <$> node with Some (BigIntegerValue v) => v | _ => None end.

Definition kmip_node_new_enumeration (tag : Z) (name : option (list Z)) (enumeration : Z)
    : option kmip_node :=
  Some (set_length (set_value (kmip_node_new tag name KMIP_TYPE_ENUMERATION)
                      (EnumerationValue enumeration)) 4).

Definition kmip_node_get_enumeration (node : option kmip_node) : Z :=
  match node_value <$> node with Some (EnumerationValue v) => v | _ => 0 end.

Definition kmip_node_new_boolean (tag : Z) (name : option (list Z)) (value : bool) : option kmip_node :=
  Some (set_length (set_value (kmip_node_new tag name KMIP_TYPE_BOOLEAN) (BooleanValue value)) 8).

Definition kmip_node_get_boolean (node : option kmip_node) : bool :=
  match node_value <$> node with Some (BooleanValue v) => v | _ => false end.

Definition kmip_node_new_text_string (tag : Z) (name : option (list Z)) (value : option (list Z))
    : option kmip_node :=
  let n := kmip_node_new tag name KMIP_TYPE_TEXT_STRING in
  Some (match value with
        | None => n
        | Some s => set_length (set_value n (TextValue (Some (cstr s))))
                      (u32 (Z.of_nat (strlen s)))
        end).

Definition kmip_node_get_text_string (node : option kmip_node) : option (list Z) :=
  match node_value <$> node with Some (TextValue s) => s | _ => None end.

(** [value] is the buffer, of which [length] bytes are copied *)
Definition kmip_node_new_byte_string (tag : Z) (name : option (list Z)) (value : option (list Z))
    (length : Z) : option kmip_node :=
  let n := kmip_node_new tag name KMIP_TYPE_BYTE_STRING in
  Some (match value with
        | Some s =>
            if 0 <? length
            then set_length (set_value n (BytesValue (Some (take (Z.to_nat length) s)))) length
            else n
        | None => n
        end).

(** the buffer, and the value stored through [length] ([None]: nothing is stored,
    as the node is no byte string) *)
Definition kmip_node_get_byte_string (node : option kmip_node) : option (list Z) * option Z :=
  match node with
  | Some n =>
      match node_value n with
      | BytesValue s => (s, Some (node_length n))
      | _ => (None, None)
      end
  | None => (None, None)
  end.

Definition kmip_node_new_date_time (tag : Z) (name : option (list Z)) (value : Z) : option kmip_node :=
  Some (set_length (set_value (kmip_node_new tag name KMIP_TYPE_DATE_TIME) (DateTimeValue value)) 8).

Definition kmip_node_get_date_time (node : option kmip_node) : Z :=
  match node_value <$> node with Some (DateTimeValue v) => v | _ => 0 end.

Definition kmip_node_new_interval (tag : Z) (name : option (list Z)) (value : Z) : option kmip_node :=
  Some (set_length (set_value (kmip_node_new tag name KMIP_TYPE_INTERVAL) (IntervalValue value)) 4).

Definition kmip_node_get_interval (node : option kmip_node) : Z :=
  match node_value <$> node with Some (IntervalValue v) => v | _ => 0 end.

Definition kmip_node_new_date_time_ext (tag : Z) (name : option (list Z)) (value : Z)
    : option kmip_node :=
  Some (set_length (set_value (kmip_node_new tag name KMIP_TYPE_DATE_TIME_EXTENDED)
                      (DateTimeExtValue value)) 8).

Definition kmip_node_get_date_time_ext (node : option kmip_node) : Z :=
  match node_value <$> node with Some (DateTimeExtValue v) => v | _ => 0 end.

(** ** Copies *)

(** the loop over the elements of a structure; [clone] is the node made so far *)
Definition clone_elements (clone_node : kmip_node → option kmip_node) :=
  fix go (els : list kmip_node) (clone : kmip_node) : option kmip_node :=
    match els with
    | [] => Some clone
    | element :: els =>
        match clone_node element with
        | None => None
        | Some cloned_element =>
            let '(rc, clone) :=
              kmip_node_add_structure_element (Some clone) (Some cloned_element) in
            if rc =? 0 then clone ≫= go els else None
        end
    end.

(** [None] when a big integer has no value ([BN_dup] of NULL is NULL); [length]
    bytes of a byte string are copied. *)
Fixpoint kmip_node_clone (node : kmip_node) : option kmip_node :=
  let 'KmipNode tag len name value := node in
  let clone := kmip_node_new tag name (value_type value) in
  match value with
  | StructureValue els => clone_elements kmip_node_clone els clone
  | BigIntegerValue None => None
  | BigIntegerValue (Some bn) => Some (set_value clone (BigIntegerValue (Some bn)))
  | TextValue None => Some clone
  | TextValue (Some s) =>
      Some (set_length (set_value clone (TextValue (Some (cstr s)))) (u32 (Z.of_nat (strlen s))))
  | BytesValue (Some s) =>
      if 0 <? len
      then Some (set_length (set_value clone (BytesValue (Some (take (Z.to_nat len) s)))) len)
      else Some clone
  | BytesValue None => Some clone
  | v => Some (set_value clone v)
  end.

(** ** A recursion scheme

    [node_all P n]: [P] holds of the tag, the length and the value of every node
    of the tree [n]. *)
Fixpoint node_all (P : Z → Z → kmip_value kmip_node → bool) (n : kmip_node) : bool :=
  let 'KmipNode tag len _ v := n in
  P tag len v && match v with StructureValue els => forallb (node_all P) els | _ => true end.

(** how deep structures are nested *)
Fixpoint node_depth (n : kmip_node) : nat :=
  let 'KmipNode _ _ _ v := n in
  match v with
  | StructureValue els => S (foldr (λ e d, Nat.max (node_depth e) d) 0%nat els)
  | _ => 1%nat
  end.
