(* ===== verification/KmipTtlv.v ===== *)
(** The TTLV encoding of KMIP nodes (src/libkmipclient/ttlv.c).

    A node is sent as its tag (3 bytes), its type (1 byte), the length of its
    value (4 bytes) and the value, padded with zeros to a multiple of 8 bytes;
    the value of a structure is the encoding of its elements, one after the other.

    OpenSSL's BIOs are a parameter: [BioOps] has the two functions that the code
    calls.  [BioReadLaws] and [BioWriteLaws] say when a BIO is a stream: a read
    delivers the bytes that come next, all that are asked for if there are that
    many, and a write takes all its bytes.  A memory BIO is such a stream, and so is
    the buffering BIO on a TLS connection that the library opens
    ([BIO_new_buffer_ssl_connect]) as long as the connection is up; a read or write that
    fails is not covered by the laws, and the theorems about errors do not use them. *)
From S2P Require Import Prelude Codec Kmip.

Definition KMIP_TTLV_HEADER_LENGTH : Z := 8.
Definition KMIP_TTLV_BLOCK_LENGTH : Z := 8.
Definition KMIP_DECODE_MAX_NESTING_LEVEL : nat := 32.

(** ** BIOs *)

(** [BIO_read b n] gives the bytes that were read (none when it fails);
    [BIO_write b l] the number of bytes written. *)
Class BioOps (B : Type) := {
  BIO_read : B → Z → list Z * B;
  BIO_write : B → list Z → Z * B;
}.

Class BioReadLaws (B : Type) `{BioOps B} := {
  bio_in : B → list Z;
  BIO_read_law b n : 0 < n <= INT_MAX →
    (BIO_read b n).1 = take (Z.to_nat n) (bio_in b) ∧
    bio_in (BIO_read b n).2 = drop (Z.to_nat n) (bio_in b);
}.

Class BioWriteLaws (B : Type) `{BioOps B} := {
  bio_out : B → list Z;
  BIO_write_law b l : Z.of_nat (length l) <= INT_MAX →
    (BIO_write b l).1 = Z.of_nat (length l) ∧
    bio_out (BIO_write b l).2 = bio_out b ++ l;
}.

(** ** Decoding *)

Section Ttlv.
Context `{BnOps} {B : Type} `{BioOps B}.

(** the header's fields: tag, type byte and length *)
Definition ttlv_header_tag (ttlv : list Z) : Z :=
  Z.lor (Z.lor (Z.shiftl (ttlv !!! 0%nat) 16) (Z.shiftl (ttlv !!! 1%nat) 8)) (ttlv !!! 2%nat).
Definition ttlv_header_type (ttlv : list Z) : Z := ttlv !!! 3%nat.
Definition ttlv_header_length (ttlv : list Z) : Z :=
  Z.lor (Z.lor (Z.lor (Z.shiftl (ttlv !!! 4%nat) 24) (Z.shiftl (ttlv !!! 5%nat) 16))
           (Z.shiftl (ttlv !!! 6%nat) 8)) (ttlv !!! 7%nat).

(** The first switch: the length that the value must have, or an error. *)
Definition ttlv_value_len (type : Z) (length : Z) : Z + kmip_type * Z :=
  match kmip_type_of_code type with
  | None => inl (- EBADMSG)
  | Some KMIP_TYPE_STRUCTURE =>
      if negb (length mod KMIP_TTLV_BLOCK_LENGTH =? 0) then inl (- EBADMSG)
      else inr (KMIP_TYPE_STRUCTURE, length)
  | Some ((KMIP_TYPE_BIG_INTEGER | KMIP_TYPE_TEXT_STRING | KMIP_TYPE_BYTE_STRING) as t) =>
      if INT_MAX <? length then inl (- EMSGSIZE) else inr (t, length)
  | Some ((KMIP_TYPE_INTEGER | KMIP_TYPE_ENUMERATION | KMIP_TYPE_INTERVAL) as t) => inr (t, 4)
  | Some t => inr (t, 8)
  end.

(** [*size -= n] where a size is kept *)
Definition size_sub (size : option Z) (n : Z) : option Z := (λ s, u64 (s - n)) <$> size.

Definition size_below (size : option Z) (n : Z) : bool :=
  match size with None => false | Some s => s <? n end.

(** [BIO_read(bio, buf, n) != n] is -EIO; the buffer is of unsigned characters *)
Definition read_all (bio : B) (n : Z) : (Z + list Z) * B :=
  let '(l, bio) := BIO_read bio n in
  (if Z.of_nat (length l) =? n then inr (map u8 l) else inl (- EIO), bio).

(** The last switch for a value that is not a structure; [value] has the bytes
    that were read, in a buffer with one zero byte more for the types of variable
    length. *)
Definition ttlv_scalar (t : kmip_type) (value : list Z) : outcome (Z + kmip_value kmip_node) :=
  match t with
  | KMIP_TYPE_STRUCTURE => Done (inl (- EBADMSG))
  | KMIP_TYPE_INTEGER => Done (inr (IntegerValue (s32 (be_dec value))))
  | KMIP_TYPE_LONG_INTEGER => Done (inr (LongValue (twos_complement 8 (be_dec value))))
  | KMIP_TYPE_BIG_INTEGER =>
      r ← kmip_decode_bignum (Some (value ++ [0])) (Z.of_nat (length value));
      Done (match r with
            | inl rc => inl rc
            | inr bn => inr (BigIntegerValue (Some bn))
            end)
  | KMIP_TYPE_ENUMERATION => Done (inr (EnumerationValue (be_dec value)))
  | KMIP_TYPE_BOOLEAN => Done (inr (BooleanValue (negb (be_dec value =? 0))))
  | KMIP_TYPE_TEXT_STRING => Done (inr (TextValue (Some value)))
  | KMIP_TYPE_BYTE_STRING => Done (inr (BytesValue (Some value)))
  | KMIP_TYPE_DATE_TIME => Done (inr (DateTimeValue (twos_complement 8 (be_dec value))))
  | KMIP_TYPE_INTERVAL => Done (inr (IntervalValue (be_dec value)))
  | KMIP_TYPE_DATE_TIME_EXTENDED =>
      Done (inr (DateTimeExtValue (twos_complement 8 (be_dec value))))
  end.

(** What the functions below return: the node or a negative errno, the size that
    is left, and the BIO. *)
Notation decoded := (outcome ((Z + kmip_node) * option Z * B)).

(** The loop [while (value_len > 0)] over the elements of the structure [n];
    [decode] is the recursive call.  Every element takes at least the 8 bytes of
    its header, so that one round of fuel per block is enough. *)
Fixpoint decode_elements (decode : option Z → B → decoded) (fuel : nat)
    (n : kmip_node) (value_len : option Z) (bio : B)
    : outcome ((Z + kmip_node) * B) :=
  if default 0 value_len =? 0 then Done (inr n, bio) else
  match fuel with
  | O => OutOfFuel
  | S fuel =>
      '(r, value_len, bio) ← decode value_len bio;
      match r with
      | inl rc => Done (inl rc, bio)
      | inr e =>
          let '(rc, n') := kmip_node_add_structure_element (Some n) (Some e) in
          if negb (rc =? 0) then Done (inl rc, bio)
          else n' ← deref n'; decode_elements decode fuel n' value_len bio
      end
  end.

(** [kmip_decode_ttlv] with its [max_nesting_level], size and BIO (never NULL,
    like the pointer for the node). *)
Fixpoint kmip_decode_ttlv (max_nesting_level : nat) (size : option Z) (bio : B) : decoded :=
  match max_nesting_level with
  | O => Done (inl (- E2BIG), size, bio)
  | S max_nesting_level =>
      if size_below size KMIP_TTLV_HEADER_LENGTH then Done (inl (- EMSGSIZE), size, bio) else
      match read_all bio KMIP_TTLV_HEADER_LENGTH with
      | (inl rc, bio) => Done (inl rc, size, bio)
      | (inr ttlv, bio) =>
          let size := size_sub size KMIP_TTLV_HEADER_LENGTH in
          let tag := ttlv_header_tag ttlv in
          let length := ttlv_header_length ttlv in
          match ttlv_value_len (ttlv_header_type ttlv) length with
          | inl rc => Done (inl rc, size, bio)
          | inr (type, value_len) =>
              if negb (length =? value_len) then Done (inl (- EBADMSG), size, bio) else
              if size_below size length then Done (inl (- EMSGSIZE), size, bio) else
              let rvalue :=
                if negb (bool_decide (type = KMIP_TYPE_STRUCTURE)) && (0 <? value_len)
                then read_all bio value_len else (inr [], bio) in
              match rvalue with
              | (inl rc, bio) => Done (inl rc, size, bio)
              | (inr value, bio) =>
                  let size := size_sub size value_len in
                  let pad_len := KMIP_TTLV_BLOCK_LENGTH - value_len mod KMIP_TTLV_BLOCK_LENGTH in
                  let padded := negb (value_len mod KMIP_TTLV_BLOCK_LENGTH =? 0) in
                  match (if padded then read_all bio pad_len else (inr [], bio)) with
                  | (inl rc, bio) => Done (inl rc, size, bio)
                  | (inr _, bio) =>
                      if padded && size_below size pad_len
                      then Done (inl (- EMSGSIZE), size, bio) else
                      let size := if padded then size_sub size pad_len else size in
                      match type with
                      | KMIP_TYPE_STRUCTURE =>
                          '(r, bio) ← decode_elements
                             (kmip_decode_ttlv max_nesting_level)
                             (Z.to_nat (value_len / KMIP_TTLV_BLOCK_LENGTH))
                             (KmipNode tag length None (StructureValue []))
                             (Some value_len) bio;
                          Done (r, size, bio)
                      | _ =>
                          r ← ttlv_scalar type value;
                          Done (match r with
                                | inl rc => inl rc
                                | inr v => inr (KmipNode tag length None v)
                                end, size, bio)
                      end
                  end
              end
          end
      end
  end.

(** ** Encoding *)

(** The loop over the elements of a structure that sums up their lengths, with
    the headers and the padding; the sums are of type [size_t]. *)
Definition elements_length (get_length : kmip_node → Z + Z) :=
  fix go (els : list kmip_node) (length : Z) : Z + Z :=
    match els with
    | [] => inr length
    | element :: els =>
        match get_length element with
        | inl rc => inl rc
        | inr len =>
            let prev_len := length in
            let length := u64 (length + (KMIP_TTLV_HEADER_LENGTH + len)) in
            let length :=
              if negb (len mod KMIP_TTLV_BLOCK_LENGTH =? 0)
              then u64 (length + (KMIP_TTLV_BLOCK_LENGTH - len mod KMIP_TTLV_BLOCK_LENGTH))
              else length in
            if length <? prev_len then inl (- EOVERFLOW) else go els length
        end
    end.

(** the length of the value part *)
Fixpoint kmip_node_get_length (node : kmip_node) : Z + Z :=
  let 'KmipNode _ node_len _ value := node in
  match value with
  | StructureValue els => elements_length kmip_node_get_length els 0
  | IntegerValue _ | EnumerationValue _ | IntervalValue _ => inr 4
  | LongValue _ | BooleanValue _ | DateTimeValue _ | DateTimeExtValue _ => inr 8
  | BigIntegerValue bn => inr (bignum_block_length (kmip_encode_bignum_length bn))
  | BytesValue _ => inr node_len
  | TextValue (Some s) => inr (Z.of_nat (strlen s))
  | TextValue None => inr 0
  end.

(** the header as it is written *)
Definition ttlv_header (tag : Z) (type : kmip_type) (length : Z) : list Z :=
  [Z.shiftr (Z.land tag 16711680) 16; Z.shiftr (Z.land tag 65280) 8; Z.land tag 255;
   kmip_type_code type;
   Z.shiftr (Z.land length 4278190080) 24; Z.shiftr (Z.land length 16711680) 16;
   Z.shiftr (Z.land length 65280) 8; Z.land length 255].

(** the first [n] bytes of a buffer; a shorter buffer is read out of bounds *)
Definition buffer_bytes (buf : list Z) (n : Z) : outcome (list Z) :=
  if Z.of_nat (length buf) <? n then Fault else Done (take (Z.to_nat n) buf).

(** The switch for a value that is not a structure: the bytes to write ([None]
    when there is no value) and [value_len]; [length] is the node's updated
    length.  A boolean is written in the byte order of the machine, which is
    big-endian on s390. *)
Definition ttlv_scalar_bytes (value : kmip_value kmip_node) (length : Z)
    : outcome (Z + option (list Z) * Z) :=
  match value with
  | StructureValue _ => Done (inl (- EINVAL))
  | IntegerValue v => Done (inr (Some (be_enc 4 (u32 v)), 4))
  | LongValue v => Done (inr (Some (be_enc 8 (u64 v)), 8))
  | BigIntegerValue bn =>
      Done (match kmip_encode_bignum bn length with
            | inl rc => inl rc
            | inr data => inr (Some data, length)
            end)
  | EnumerationValue v => Done (inr (Some (be_enc 4 (u32 v)), 4))
  | BooleanValue b => Done (inr (Some (be_enc 8 (if b then 1 else 0)), 8))
  | TextValue None | BytesValue None => Done (inr (None, length))
  | TextValue (Some s) =>
      buf ← buffer_bytes (s ++ [0]) length; Done (inr (Some buf, length))
  | BytesValue (Some s) =>
      buf ← buffer_bytes s length; Done (inr (Some buf, length))
  | DateTimeValue v => Done (inr (Some (be_enc 8 (u64 v)), 8))
  | IntervalValue v => Done (inr (Some (be_enc 4 (u32 v)), 4))
  | DateTimeExtValue v => Done (inr (Some (be_enc 8 (u64 v)), 8))
  end.

(** [BIO_write(bio, l, n) != (int)n] is -EIO *)
Definition write_all (bio : B) (l : list Z) : bool * B :=
  let '(n, bio) := BIO_write bio l in
  (n =? s32 (Z.of_nat (length l)), bio).

(** The end of the function, from [if (value != NULL)]: the result code, the size
    and the BIO. *)
Definition ttlv_finish (size : Z) (value : option (list Z)) (value_len : Z) (bio : B)
    : Z * Z * B :=
  let '(ok, bio) := match value with Some l => write_all bio l | None => (true, bio) end in
  if negb ok then (- EIO, size, bio) else
  let size := u64 (size + value_len) in
  if value_len mod KMIP_TTLV_BLOCK_LENGTH =? 0 then (0, size, bio) else
  let pad_len := KMIP_TTLV_BLOCK_LENGTH - value_len mod KMIP_TTLV_BLOCK_LENGTH in
  let '(ok, bio) := write_all bio (zeros (Z.to_nat pad_len)) in
  if negb ok then (- EIO, size, bio) else (0, u64 (size + pad_len), bio).

(** The loop over the elements of a structure: it stops at the first element
    that fails.  The elements come back with their updated lengths. *)
Definition encode_elements
    (encode : kmip_node → B → outcome (Z * Z * kmip_node * B)) :=
  fix go (els : list kmip_node) (value_len : Z) (bio : B)
      : outcome (Z * Z * list kmip_node * B) :=
    match els with
    | [] => Done (0, value_len, [], bio)
    | element :: rest =>
        '(rc, elem_len, element, bio) ← encode element bio;
        if negb (rc =? 0) then Done (rc, value_len, element :: rest, bio) else
        '(rc, value_len, rest, bio) ← go rest (u64 (value_len + elem_len)) bio;
        Done (rc, value_len, element :: rest, bio)
    end.

(** [kmip_encode_ttlv]: the result code, the size that was written, the node
    with the lengths that the function updates, and the BIO. *)
Fixpoint kmip_encode_ttlv (node : kmip_node) (bio : B) : outcome (Z * Z * kmip_node * B) :=
  match kmip_node_get_length node with
  | inl rc => Done (rc, 0, node, bio)
  | inr len =>
      let 'KmipNode tag _ name value := node in
      let length := u32 len in
      let node := KmipNode tag length name value in
      let '(ok, bio) := write_all bio (ttlv_header tag (value_type value) length) in
      if negb ok then Done (- EIO, 0, node, bio) else
      let size := KMIP_TTLV_HEADER_LENGTH in
      match value with
      | StructureValue els =>
          '(rc, value_len, els, bio) ← encode_elements kmip_encode_ttlv els 0 bio;
          let node := KmipNode tag length name (StructureValue els) in
          if negb (rc =? 0) then Done (rc, size, node, bio) else
          if negb (value_len =? length) then Done (- EIO, size, node, bio) else
          let '(rc, size, bio) := ttlv_finish size None value_len bio in
          Done (rc, size, node, bio)
      | _ =>
          r ← ttlv_scalar_bytes value length;
          match r with
          | inl rc => Done (rc, size, node, bio)
          | inr (value, value_len) =>
              let '(rc, size, bio) := ttlv_finish size value value_len bio in
              Done (rc, size, node, bio)
          end
      end
  end.
End Ttlv.

(** ** BIOs that exist *)

(** a memory BIO: what is written is read later *)
#[export] Instance mem_bio : BioOps (list Z) := {
  BIO_read b n := (take (Z.to_nat n) b, drop (Z.to_nat n) b);
  BIO_write b l := (Z.of_nat (length l), b ++ l);
}.
#[export] Instance mem_bio_read : BioReadLaws (list Z).
Proof. refine {| bio_in b := b |}. done. Defined.
#[export] Instance mem_bio_write : BioWriteLaws (list Z).
Proof. refine {| bio_out b := b |}. done. Defined.
