(* ===== verification/KmipTtlvProofs.v ===== *)
(** A reference definition of the TTLV encoding; that the library's encoder writes
    it and the decoder reads it back; and what the decoder does with other input.

    [ttlv n] is the encoding as a function from nodes to bytes: the frame of a
    value is its header, the value and the padding, and the value of a structure
    is the concatenation of the frames of its elements.  [kmip_encode_ttlv] writes
    these bytes to its BIO, returns their number and leaves the node with its
    lengths brought up to date ([relength]). *)
From S2P Require Import Prelude Codec Kmip KmipTtlv.

(** ** The reference encoding *)

(** padding to a multiple of 8 *)
Definition pad8 (n : Z) : Z := (- n) mod 8.

Definition frame (tag : Z) (t : kmip_type) (p : list Z) : list Z :=
  be_enc 3 tag ++ [kmip_type_code t] ++ be_enc 4 (Z.of_nat (length p)) ++
  p ++ zeros (Z.to_nat (pad8 (Z.of_nat (length p)))).

Section Reference.
Context `{BnOps}.

(** the bytes of a value that is not a structure *)
Definition scalar_bytes (v : kmip_value kmip_node) : list Z :=
  match v with
  | StructureValue _ => []
  | IntegerValue v | EnumerationValue v | IntervalValue v => be_enc 4 v
  | LongValue v | DateTimeValue v | DateTimeExtValue v => be_enc 8 v
  | BigIntegerValue (Some v) =>
      be_enc (Z.to_nat (bignum_block_length (kmip_encode_bignum_length (Some v)))) v
  | BigIntegerValue None => []
  | BooleanValue b => be_enc 8 (Z.b2z b)
  | TextValue s => cstr (default [] s)
  | BytesValue s => default [] s
  end.

Fixpoint ttlv (n : kmip_node) : list Z :=
  let 'KmipNode tag _ _ v := n in
  frame tag (value_type v)
    (match v with StructureValue els => concat (map ttlv els) | v => scalar_bytes v end).

(** the value part *)
Definition payload (v : kmip_value kmip_node) : list Z :=
  match v with StructureValue els => concat (map ttlv els) | v => scalar_bytes v end.

(** the node with every length that of its value part *)
Fixpoint relength (n : kmip_node) : kmip_node :=
  let 'KmipNode tag _ name v := n in
  KmipNode tag (Z.of_nat (length (payload v))) name
    (match v with StructureValue els => StructureValue (map relength els) | v => v end).

(** A node that can be encoded: big integers have a value, of less than 2^31
    bits, and the length of a byte string is that of its buffer. *)
Definition encodable_value (tag len : Z) (v : kmip_value kmip_node) : bool :=
  match v with
  | BigIntegerValue None => false
  | BigIntegerValue (Some v) => BN_num_bytes v <? 268435455
  | BytesValue s => len =? Z.of_nat (length (default [] s))
  | _ => true
  end.
Definition encodable : kmip_node → bool := node_all encodable_value.

Lemma ttlv_frame tag len name v :
  ttlv (KmipNode tag len name v) = frame tag (value_type v) (payload v).
Proof. by destruct v. Qed.
End Reference.

(** ** Frames *)

Section Frames.
Lemma pad8_spec n : 0 <= n → 0 <= pad8 n < 8 ∧ (n + pad8 n) mod 8 = 0.
Proof. unfold pad8. intros. dlia. Qed.

(** the code's padding *)
Lemma pad8_code n : 0 <= n → n mod 8 ≠ 0 → pad8 n = 8 - n mod 8.
Proof. unfold pad8. intros. dlia. Qed.

Lemma pad8_zero n : n mod 8 = 0 → pad8 n = 0.
Proof. unfold pad8. intros. dlia. Qed.

Lemma length_frame tag t p :
  Z.of_nat (length (frame tag t p))
  = 8 + Z.of_nat (length p) + pad8 (Z.of_nat (length p)).
Proof.
  unfold frame, zeros. rewrite !length_app, !be_enc_length, length_replicate. simpl.
  pose proof (pad8_spec (Z.of_nat (length p))). lia.
Qed.

Lemma length_frame_mod8 tag t p : Z.of_nat (length (frame tag t p)) mod 8 = 0.
Proof.
  rewrite length_frame. pose proof (pad8_spec (Z.of_nat (length p))).
  revert H. generalize (pad8 (Z.of_nat (length p))). intros. dlia.
Qed.

Lemma byte_field x k : 0 <= k →
  Z.shiftr (Z.land x (Z.shiftl 255 k)) k = (x / 2 ^ k) mod 256.
Proof.
  intros Hk. rewrite Z.shiftr_land, Z.shiftr_shiftl_l, Z.sub_diag, Z.shiftl_0_r by lia.
  change 255 with (Z.ones 8). rewrite Z.land_ones, Z.shiftr_div_pow2 by lia. done.
Qed.

(** the header that the code assembles byte by byte *)
Lemma ttlv_header_be tag t len :
  ttlv_header tag t len = be_enc 3 tag ++ [kmip_type_code t] ++ be_enc 4 len.
Proof.
  unfold ttlv_header.
  change 4278190080 with (Z.shiftl 255 24). change 16711680 with (Z.shiftl 255 16).
  change 65280 with (Z.shiftl 255 8).
  rewrite !byte_field by lia.
  assert (H255 : ∀ x, Z.land x 255 = x mod 256).
  { intros x. change 255 with (Z.ones 8). by rewrite Z.land_ones by lia. }
  rewrite !H255. cbn [be_enc app].
  rewrite !Z.div_div by lia. done.
Qed.
End Frames.

(** ** The encoder writes the reference encoding *)

Lemma be_enc_mod n x : be_enc n (x mod 256 ^ Z.of_nat n) = be_enc n x.
Proof.
  revert x. induction n as [|n IH]; intros x; [done|]. cbn [be_enc].
  rewrite Nat2Z.inj_succ, Z.pow_succ_r by lia.
  assert (0 < 256 ^ Z.of_nat n) by (apply Z.pow_pos_nonneg; lia).
  rewrite Z.rem_mul_r by lia. f_equal.
  - rewrite <- (IH (x / 256)). f_equal.
    rewrite (Z.mul_comm 256), Z.div_add by lia.
    rewrite (Z.div_small (x mod 256)), Z.add_0_l by (apply Z.mod_pos_bound; lia). done.
  - rewrite (Z.mul_comm 256), Z.mod_add, Z.mod_mod by lia. done.
Qed.

Lemma be_enc_u32 x : be_enc 4 (u32 x) = be_enc 4 x.
Proof. exact (be_enc_mod 4 x). Qed.

Lemma be_enc_u64 x : be_enc 8 (u64 x) = be_enc 8 x.
Proof. exact (be_enc_mod 8 x). Qed.

Lemma cstr_prefix s : ∃ r, s = cstr s ++ r.
Proof.
  induction s as [|c s [r IH]]; [by exists []|]. simpl.
  destruct (c =? 0); [by exists (c :: s)|]. exists r. simpl. by f_equal.
Qed.

Section Encoder.
Context `{BnLaws} {B : Type} `{BioWriteLaws B}.

(** a big integer's bytes *)
Lemma encode_bignum_ref v : BN_num_bytes v < 268435455 →
  let L := bignum_block_length (kmip_encode_bignum_length (Some v)) in
  0 <= L <= INT_MAX ∧
  kmip_encode_bignum (Some v) L = inr (be_enc (Z.to_nat L) v).
Proof.
  intros Hn L. destruct (BN_num_bytes_law v) as (Hn0 & Habs & _).
  destruct (encode_bignum_length_spec v Hn) as [Hl _].
  destruct (bignum_block_length_ge (kmip_encode_bignum_length (Some v))) as [HL _]; [lia|].
  fold L in HL. unfold INT_MAX. split; [lia|].
  destruct (encode_bignum_value v L) as (data & Hd & Hb & Hlen & Hv); [unfold INT_MAX; lia| |].
  { eapply Z.lt_le_trans; [done|]. apply Z.pow_le_mono_r; lia. }
  rewrite Hd. f_equal. rewrite <- (be_enc_dec _ Hb), Hv, <- (be_enc_mod _ v).
  rewrite <- Hlen, Nat2Z.id. done.
Qed.

(** A scalar's bytes, as the encoder prepares them; the value [None] is one that
    is not there and has no bytes. *)
Lemma ttlv_scalar_bytes_ref tag len v :
  value_type v ≠ KMIP_TYPE_STRUCTURE → encodable_value tag len v = true →
  ∃ o, ttlv_scalar_bytes v (Z.of_nat (length (scalar_bytes v)))
       = Done (inr (o, Z.of_nat (length (scalar_bytes v)))) ∧
       default [] o = scalar_bytes v.
Proof.
  intros Hv He.
  destruct v as [els|v|v|[v|]|v|b|[s|]|[s|]|v|v|v]; try done;
    cbn [scalar_bytes ttlv_scalar_bytes encodable_value default id] in *; b2p;
    rewrite ?be_enc_u32, ?be_enc_u64, ?be_enc_length; try (by eexists).
  - destruct (encode_bignum_ref v He) as [HL HE]. rewrite Z2Nat.id, HE by lia. by eexists.
  - unfold buffer_bytes. destruct (cstr_prefix s) as [r Hr].
    assert (length (cstr s) <= length s)%nat by (rewrite Hr at 2; rewrite length_app; lia).
    rewrite (proj2 (Z.ltb_ge _ _)) by (rewrite length_app; lia).
    rewrite Nat2Z.id. eexists. split; [done|]. cbn [default id].
    rewrite Hr at 2. by rewrite <- app_assoc, take_app_length.
  - unfold buffer_bytes. rewrite Z.ltb_irrefl, Nat2Z.id, take_ge by lia. by eexists.
Qed.

Lemma kmip_node_get_length_scalar tag len name v :
  value_type v ≠ KMIP_TYPE_STRUCTURE → encodable_value tag len v = true →
  kmip_node_get_length (KmipNode tag len name v) = inr (Z.of_nat (length (scalar_bytes v))).
Proof.
  intros Hv He. destruct v as [els|v|v|[v|]|v|b|[s|]|[s|]|v|v|v]; try done;
    cbn [scalar_bytes kmip_node_get_length encodable_value default id] in *; b2p;
    rewrite ?be_enc_length; try done; [|by f_equal..].
  destruct (encode_bignum_ref v He) as [HL _]. by rewrite Z2Nat.id by lia.
Qed.

Lemma elements_length_ref els acc :
  Forall (λ e, kmip_node_get_length e = inr (Z.of_nat (length (payload (node_value e))))) els →
  0 <= acc → acc + Z.of_nat (length (concat (map ttlv els))) <= INT_MAX →
  elements_length kmip_node_get_length els acc
  = inr (acc + Z.of_nat (length (concat (map ttlv els)))).
Proof.
  intros Hels. revert acc. induction Hels as [|[tag len name v] els He _ IH]; intros acc Hacc Hmax.
  { simpl. f_equal. lia. }
  cbn [map concat] in *. rewrite ttlv_frame, length_app, Nat2Z.inj_add, length_frame in *.
  cbn [elements_length]. rewrite He. cbn [node_value].
  set (p := Z.of_nat (length (payload v))) in *.
  destruct (pad8_spec p) as [Hp _]; [lia|]. unfold INT_MAX in *.
  unfold KMIP_TTLV_HEADER_LENGTH, KMIP_TTLV_BLOCK_LENGTH.
  rewrite (u64_small (acc + _)) by lia.
  destruct (Z.eqb_spec (p mod 8) 0) as [E|E]; cbn [negb].
  - rewrite (pad8_zero _ E) in *. rewrite (proj2 (Z.ltb_ge _ _)), IH by lia. f_equal. lia.
  - rewrite (pad8_code p) in * by lia. rewrite u64_small, (proj2 (Z.ltb_ge _ _)), IH by lia.
    f_equal. lia.
Qed.

Lemma payload_length_le tag t p : Z.of_nat (length p) <= Z.of_nat (length (frame tag t p)).
Proof. rewrite length_frame. pose proof (pad8_spec (Z.of_nat (length p))). lia. Qed.

Lemma element_length_le (e : kmip_node) els : e ∈ els →
  (length (ttlv e) <= length (concat (map ttlv els)))%nat.
Proof.
  induction 1 as [e els|e e' els _ IH]; cbn [map concat]; rewrite length_app; lia.
Qed.

Lemma elements_mod8 els : Z.of_nat (length (concat (map ttlv els))) mod 8 = 0.
Proof.
  induction els as [|[tag len name v] els IH]; [done|]. cbn [map concat].
  rewrite length_app, Nat2Z.inj_add, Z.add_mod, IH by lia.
  by rewrite ttlv_frame, length_frame_mod8.
Qed.

(** The computed length is that of the value part. *)
Lemma kmip_node_get_length_ref n :
  encodable n = true → Z.of_nat (length (ttlv n)) <= INT_MAX →
  kmip_node_get_length n = inr (Z.of_nat (length (payload (node_value n)))).
Proof.
  induction n as [tag len name els IH|tag len name v Hv] using kmip_node_tree_ind;
    intros He Hmax; apply andb_true_iff in He as [He Hels].
  - change (elements_length kmip_node_get_length els 0
            = inr (Z.of_nat (length (concat (map ttlv els))))).
    rewrite ttlv_frame in Hmax. cbn [payload value_type] in Hmax.
    pose proof (payload_length_le tag KMIP_TYPE_STRUCTURE (concat (map ttlv els))) as Hle.
    rewrite elements_length_ref; [done| |done|lia].
    rewrite forallb_forall in Hels. rewrite Forall_forall in IH |- *. intros e Hin.
    apply IH; [done|by apply Hels, list_elem_of_In|].
    pose proof (element_length_le _ _ Hin). lia.
  - rewrite (kmip_node_get_length_scalar tag len name v) by done. by destruct v.
Qed.

Lemma write_all_ok b l : Z.of_nat (length l) <= INT_MAX →
  ∃ b', write_all b l = (true, b') ∧ bio_out b' = bio_out b ++ l.
Proof.
  intros Hl. unfold write_all. destruct (BIO_write_law b l Hl) as [Hn Ho].
  destruct (BIO_write b l) as [n b']. simpl in *. subst n. exists b'. split; [|done].
  unfold INT_MAX in Hl. rewrite s32_small, Z.eqb_refl by lia. done.
Qed.

Lemma ttlv_finish_ok size o b :
  let p := default [] o in
  0 <= size <= INT_MAX → Z.of_nat (length p) + 8 <= INT_MAX →
  ∃ b', ttlv_finish size o (Z.of_nat (length p)) b
        = (0, size + Z.of_nat (length p) + pad8 (Z.of_nat (length p)), b') ∧
        bio_out b' = bio_out b ++ p ++ zeros (Z.to_nat (pad8 (Z.of_nat (length p)))).
Proof.
  intros p Hs Hp. unfold ttlv_finish.
  assert (∃ b1, match o with Some l => write_all b l | None => (true, b) end = (true, b1) ∧
                bio_out b1 = bio_out b ++ p) as (b1 & -> & Hb1).
  { destruct o as [l|]; [apply write_all_ok; simpl in *; lia|]. exists b.
    unfold p. simpl. by rewrite app_nil_r. }
  cbn [negb]. unfold KMIP_TTLV_BLOCK_LENGTH, INT_MAX in *.
  destruct (Z.eqb_spec (Z.of_nat (length p) mod 8) 0) as [E|E].
  - exists b1. rewrite (pad8_zero _ E), u64_small, Z.add_0_r by lia. split; [done|].
    by rewrite app_nil_r.
  - rewrite <- pad8_code by lia. destruct (pad8_spec (Z.of_nat (length p))) as [H8 _]; [lia|].
    destruct (write_all_ok b1 (zeros (Z.to_nat (pad8 (Z.of_nat (length p))))))
      as (b2 & -> & Hb2).
    { unfold zeros. rewrite length_replicate. unfold INT_MAX. lia. }
    exists b2. cbn [negb]. rewrite (u64_small (size + _)) by lia. rewrite u64_small by lia. split; [done|].
    by rewrite Hb2, Hb1, <- app_assoc.
Qed.

(** the header is written *)
Lemma write_header_ok tag t p b :
  ∃ b', write_all b (ttlv_header tag t (Z.of_nat (length p))) = (true, b') ∧
        ∀ rest, rest = p ++ zeros (Z.to_nat (pad8 (Z.of_nat (length p)))) →
                bio_out b' ++ rest = bio_out b ++ frame tag t p.
Proof.
  destruct (write_all_ok b (ttlv_header tag t (Z.of_nat (length p)))) as (b' & Hb & Ho).
  { unfold ttlv_header. simpl. unfold INT_MAX. lia. }
  exists b'. split; [done|]. intros rest ->. rewrite Ho, ttlv_header_be. unfold frame.
  by rewrite <- !app_assoc.
Qed.

(** one node whose value is not a structure *)
Lemma encode_scalar tag len name v b :
  let n := KmipNode tag len name v in
  value_type v ≠ KMIP_TYPE_STRUCTURE → encodable n = true →
  Z.of_nat (length (ttlv n)) <= INT_MAX →
  ∃ b', kmip_encode_ttlv n b = Done (0, Z.of_nat (length (ttlv n)), relength n, b') ∧
        bio_out b' = bio_out b ++ ttlv n.
Proof.
  intros n Hv [He _]%andb_true_iff Hmax. unfold n in *. clear n.
  rewrite ttlv_frame in *. rewrite length_frame in *.
  assert (Hp : payload v = scalar_bytes v) by (by destruct v). rewrite Hp in *.
  destruct (pad8_spec (Z.of_nat (length (scalar_bytes v)))) as [H8 _]; [lia|].
  destruct (ttlv_scalar_bytes_ref tag len v Hv He) as (o & Ho & Hd).
  destruct (write_header_ok tag (value_type v) (scalar_bytes v) b) as (b1 & Hb1 & Hf1).
  destruct (ttlv_finish_ok 8 o b1) as (b2 & Hb2 & Hf2);
    [unfold INT_MAX; lia|rewrite Hd; unfold INT_MAX in *; lia|]. rewrite Hd in *.
  exists b2. split; [|rewrite Hf2; by apply Hf1].
  transitivity (
    let '(ok, bio) := write_all b (ttlv_header tag (value_type v)
                        (u32 (Z.of_nat (length (scalar_bytes v))))) in
    if negb ok then Done (- EIO, 0, KmipNode tag (u32 (Z.of_nat (length (scalar_bytes v)))) name v, bio) else
    r ← ttlv_scalar_bytes v (u32 (Z.of_nat (length (scalar_bytes v))));
    match r with
    | inl rc => Done (rc, KMIP_TTLV_HEADER_LENGTH,
                      KmipNode tag (u32 (Z.of_nat (length (scalar_bytes v)))) name v, bio)
    | inr (value, value_len) =>
        let '(rc, size, bio) := ttlv_finish KMIP_TTLV_HEADER_LENGTH value value_len bio in
        Done (rc, size, KmipNode tag (u32 (Z.of_nat (length (scalar_bytes v)))) name v, bio)
    end).
  { pose proof (kmip_node_get_length_scalar tag len name v Hv He) as Hg.
    revert Hg. generalize (Z.of_nat (length (scalar_bytes v))). intros L Hg.
    destruct v; try done; cbn [kmip_encode_ttlv]; by rewrite Hg. }
  unfold INT_MAX in *. rewrite u32_small, Hb1 by lia. cbn [negb]. rewrite Ho, Done_bind.
  unfold KMIP_TTLV_HEADER_LENGTH. rewrite Hb2. do 2 f_equal. destruct v; try done; cbn [relength payload]; done.
Qed.

Lemma encode_elements_ref els b acc :
  Forall (λ e, ∀ b, ∃ b', kmip_encode_ttlv e b
     = Done (0, Z.of_nat (length (ttlv e)), relength e, b') ∧
       bio_out b' = bio_out b ++ ttlv e) els →
  0 <= acc → acc + Z.of_nat (length (concat (map ttlv els))) <= INT_MAX →
  ∃ b', encode_elements kmip_encode_ttlv els acc b
        = Done (0, acc + Z.of_nat (length (concat (map ttlv els))), map relength els, b') ∧
        bio_out b' = bio_out b ++ concat (map ttlv els).
Proof.
  intros Hels. revert b acc. induction Hels as [|e els He _ IH]; intros b acc Hacc Hmax.
  { exists b. simpl. rewrite app_nil_r. split; [do 4 f_equal; lia|done]. }
  cbn [map concat] in *. rewrite length_app, Nat2Z.inj_add in *.
  destruct (He b) as (b1 & Hb1 & Ho1). unfold INT_MAX in *.
  destruct (IH b1 (acc + Z.of_nat (length (ttlv e)))) as (b2 & Hb2 & Ho2); [lia..|].
  exists b2. cbn [encode_elements]. rewrite Hb1, Done_bind. cbn [Z.eqb negb].
  rewrite u64_small by lia. change (encode_elements _) with (encode_elements kmip_encode_ttlv).
  rewrite Hb2, Done_bind, Ho2, Ho1, <- app_assoc. split; [|done]. do 4 f_equal. lia.
Qed.

(** The encoder writes the reference encoding, returns its size, and updates the
    lengths of the node. *)
Lemma encode_ref n b :
  encodable n = true → Z.of_nat (length (ttlv n)) <= INT_MAX →
  ∃ b', kmip_encode_ttlv n b = Done (0, Z.of_nat (length (ttlv n)), relength n, b') ∧
        bio_out b' = bio_out b ++ ttlv n.
Proof.
  revert b. induction n as [tag len name els IH|tag len name v Hv] using kmip_node_tree_ind;
    intros b He Hmax; [|by apply encode_scalar].
  pose proof (kmip_node_get_length_ref _ He Hmax) as Hg. cbn [node_value payload] in Hg.
  apply andb_true_iff in He as [_ Hels]. rewrite forallb_forall in Hels.
  rewrite ttlv_frame in *. cbn [payload value_type] in *.
  set (p := concat (map ttlv els)) in *.
  pose proof (payload_length_le tag KMIP_TYPE_STRUCTURE p) as Hle.
  destruct (write_header_ok tag KMIP_TYPE_STRUCTURE p b) as (b1 & Hb1 & Hf1).
  destruct (encode_elements_ref els b1 0) as (b2 & Hb2 & Hf2); [|lia|fold p; lia|].
  { rewrite Forall_forall in IH |- *. intros e Hin b'. apply IH; [done| |].
    - by apply Hels, list_elem_of_In.
    - pose proof (element_length_le _ _ Hin) as Hel. fold p in Hel. lia. }
  fold p in Hb2, Hf2. exists b2.
  assert (Hp8 : Z.of_nat (length p) mod 8 = 0) by apply elements_mod8.
  split; [|rewrite Hf2; apply Hf1; rewrite (pad8_zero _ Hp8); by rewrite app_nil_r].
  cbn [kmip_encode_ttlv]. rewrite Hg. unfold INT_MAX in *. rewrite u32_small by lia.
  cbn [value_type]. rewrite Hb1. cbn [negb]. rewrite Hb2, Done_bind. cbn [Z.eqb negb].
  rewrite Z.add_0_l, Z.eqb_refl. cbn [negb]. unfold ttlv_finish. cbn [negb].
  unfold KMIP_TTLV_BLOCK_LENGTH, KMIP_TTLV_HEADER_LENGTH.
  rewrite Hp8, length_frame, (pad8_zero _ Hp8) in *. cbn [Z.eqb]. rewrite u64_small, Z.add_0_r by lia.
  done.
Qed.
End Encoder.

(** The decoder reads back what the encoder writes.

    [transportable n] says that the values of [n] have the ranges of their C
    types and that its text has no NUL; [received n] is the node the other side
    gets: names are not sent, the lengths are those of the values, an absent string
    arrives as an empty one, and a big integer that does not fit the length the
    encoder chooses arrives as another one ([wire_bignum]).  Decoding the encoding of [n], with anything after it, gives
    [received n] and leaves what comes after. *)

Section Transport.
Context `{BnOps}.

Definition between (lo v hi : Z) : bool := (lo <=? v) && (v <? hi).

(** The two's complement form of [v] fits in the bytes the encoder uses. *)
Definition bignum_fits (v : Z) : bool :=
  (v <=? 0) || (v <? 128 * 256 ^ (bignum_block_length (kmip_encode_bignum_length (Some v)) - 1)).

(** what is read for [v]: itself if it fits, or else the negative number with the
    same bytes *)
Definition wire_bignum (v : Z) : Z :=
  if bignum_fits v then v
  else v - 256 ^ bignum_block_length (kmip_encode_bignum_length (Some v)).

Definition transportable_value (tag len : Z) (v : kmip_value kmip_node) : bool :=
  between 0 tag 16777216 && encodable_value tag len v &&
  match v with
  | StructureValue _ | BooleanValue _ | BigIntegerValue _ => true
  | IntegerValue v => between (-2147483648) v 2147483648
  | EnumerationValue v | IntervalValue v => between 0 v 4294967296
  | LongValue v | DateTimeValue v | DateTimeExtValue v =>
      between (-9223372036854775808) v 9223372036854775808
  | TextValue s => forallb (λ c, between 1 c 256) (default [] s)
  | BytesValue s => forallb (λ c, between 0 c 256) (default [] s)
  end.
Definition transportable : kmip_node → bool := node_all transportable_value.

Definition received_value (v : kmip_value kmip_node) : kmip_value kmip_node :=
  match v with
  | BigIntegerValue bn => BigIntegerValue (wire_bignum <$> bn)
  | TextValue s => TextValue (Some (default [] s))
  | BytesValue s => BytesValue (Some (default [] s))
  | v => v
  end.

Fixpoint received (n : kmip_node) : kmip_node :=
  let 'KmipNode tag _ _ v := n in
  KmipNode tag (Z.of_nat (length (payload v))) None
    (match v with StructureValue els => StructureValue (map received els)
              | v => received_value v end).

Lemma received_structure tag len name els :
  received (KmipNode tag len name (StructureValue els))
  = KmipNode tag (Z.of_nat (length (payload (StructureValue els)))) None
      (StructureValue (map received els)).
Proof. done. Qed.
End Transport.

(** what is left of an optional size *)
Definition size_left (size : option Z) (n : Z) : option Z := (λ s, s - n) <$> size.
Definition size_fits (size : option Z) (n : Z) : Prop :=
  ∀ s, size = Some s → n <= s < 18446744073709551616.

Lemma transportable_encodable `{BnOps} n : transportable n = true → encodable n = true.
Proof.
  induction n as [tag len name els IH|tag len name v Hv] using kmip_node_tree_ind;
    intros [Ht Hels]%andb_true_iff; apply andb_true_iff.
  - split; [done|]. rewrite forallb_forall in Hels |- *. rewrite Forall_forall in IH.
    intros e He. apply IH; [by apply list_elem_of_In|by apply Hels].
  - unfold transportable_value in Ht. b2p. split; [done|by destruct v].
Qed.

(** ** The header and scalars *)

Section Pieces.
Lemma byte3_lor a b c : in_u8 a → in_u8 b → in_u8 c →
  Z.lor (Z.lor (Z.shiftl a 16) (Z.shiftl b 8)) c = be_dec [a; b; c].
Proof.
  unfold in_u8. intros. rewrite !Z.shiftl_mul_pow2 by lia.
  rewrite (lor_mul_pow2 a (b * 2 ^ 8) 16) by lia.
  replace (a * 2 ^ 16 + b * 2 ^ 8) with ((a * 2 ^ 8 + b) * 2 ^ 8) by lia.
  rewrite lor_mul_pow2 by lia. rewrite !be_dec_cons. cbn. lia.
Qed.

Lemma byte4_lor a b c d : in_u8 a → in_u8 b → in_u8 c → in_u8 d →
  Z.lor (Z.lor (Z.lor (Z.shiftl a 24) (Z.shiftl b 16)) (Z.shiftl c 8)) d = be_dec [a; b; c; d].
Proof.
  unfold in_u8. intros. rewrite !Z.shiftl_mul_pow2 by lia.
  rewrite (lor_mul_pow2 a (b * 2 ^ 16) 24) by lia.
  replace (a * 2 ^ 24 + b * 2 ^ 16) with ((a * 2 ^ 8 + b) * 2 ^ 16) by lia.
  rewrite (lor_mul_pow2 _ (c * 2 ^ 8) 16) by lia.
  replace ((a * 2 ^ 8 + b) * 2 ^ 16 + c * 2 ^ 8) with (((a * 2 ^ 8 + b) * 2 ^ 8 + c) * 2 ^ 8) by lia.
  rewrite lor_mul_pow2 by lia. rewrite !be_dec_cons. cbn. lia.
Qed.

(** the three fields of a header *)
Lemma header_fields tag c len :
  0 <= tag < 16777216 → in_u8 c → 0 <= len < 4294967296 →
  let h := be_enc 3 tag ++ [c] ++ be_enc 4 len in
  ttlv_header_tag h = tag ∧ ttlv_header_type h = c ∧ ttlv_header_length h = len.
Proof.
  intros Ht Hc Hl. cbv zeta. pose proof (be_enc_bytes 3 tag) as B3. pose proof (be_enc_bytes 4 len) as B4.
  pose proof (be_dec_enc 3 tag) as D3. pose proof (be_dec_enc 4 len) as D4.
  destruct (be_enc 3 tag) as [|a1 [|a2 [|a3 []]]] eqn:E3; try done.
  destruct (be_enc 4 len) as [|b1 [|b2 [|b3 [|b4 []]]]] eqn:E4; try done.
  unfold bytes_ok in B3, B4. rewrite !Forall_cons in B3. rewrite !Forall_cons in B4.
  unfold ttlv_header_tag, ttlv_header_type, ttlv_header_length. cbn [app lookup_total list_lookup_total].
  rewrite byte3_lor, byte4_lor by tauto. split_and!; [apply D3; lia|done|apply D4; lia].
Qed.

Lemma kmip_type_of_code_code t : kmip_type_of_code (kmip_type_code t) = Some t.
Proof. by destruct t. Qed.

Lemma kmip_type_code_u8 t : in_u8 (kmip_type_code t).
Proof. unfold in_u8. destruct t; simpl; lia. Qed.

Lemma map_u8_bytes l : bytes_ok l → map u8 l = l.
Proof. induction 1 as [|c l Hc _ IH]; [done|]. simpl. by rewrite IH, u8_small by apply Hc. Qed.

Lemma twos_complement_mod n v : 0 < n →
  - (128 * 256 ^ (n - 1)) <= v < 128 * 256 ^ (n - 1) →
  twos_complement n (v mod 256 ^ n) = v.
Proof.
  intros Hn Hv. unfold twos_complement.
  assert (Hp : 256 ^ n = 256 * 256 ^ (n - 1)).
  { rewrite <- Z.pow_succ_r by lia. f_equal. lia. }
  destruct (decide (0 <= v)).
  - rewrite Z.mod_small by lia. rewrite (proj2 (Z.ltb_lt _ _)) by lia. done.
  - rewrite <- (Z.mod_unique v (256 ^ n) (-1) (v + 256 ^ n)) by lia.
    rewrite (proj2 (Z.ltb_ge _ _)) by lia. lia.
Qed.

Lemma be_dec_enc_mod n v : be_dec (be_enc n v) = v mod 256 ^ Z.of_nat n.
Proof.
  rewrite <- be_enc_mod. apply be_dec_enc. apply Z.mod_pos_bound.
  apply Z.pow_pos_nonneg; lia.
Qed.

Lemma forallb_between lo hi l :
  forallb (λ c, between lo c hi) l = true → Forall (λ c, lo <= c < hi) l.
Proof.
  rewrite forallb_forall, Forall_forall. intros H x Hx%list_elem_of_In.
  specialize (H x Hx). unfold between in H. b2p. lia.
Qed.
End Pieces.

Section Scalars.
Context `{BnLaws}.

Lemma scalar_bytes_ok tag len v : transportable_value tag len v = true → bytes_ok (scalar_bytes v).
Proof.
  unfold transportable_value. intros Ht. b2p.
  destruct v as [els|v|v|[v|]|v|b|s|s|v|v|v]; cbn [scalar_bytes];
    try apply be_enc_bytes; try (by constructor).
  - apply forallb_between in H2. rewrite cstr_no_nul.
    + eapply Forall_impl; [exact H2|]. unfold in_u8. simpl. lia.
    + eapply Forall_impl; [exact H2|]. simpl. lia.
  - by apply forallb_between in H2.
Qed.

(** the encoder's length is one that the decoder accepts *)
Lemma scalar_value_len tag len v :
  value_type v ≠ KMIP_TYPE_STRUCTURE → transportable_value tag len v = true →
  Z.of_nat (length (scalar_bytes v)) <= INT_MAX →
  ttlv_value_len (kmip_type_code (value_type v)) (Z.of_nat (length (scalar_bytes v)))
  = inr (value_type v, Z.of_nat (length (scalar_bytes v))).
Proof.
  intros Hv Ht Hmax. unfold ttlv_value_len. rewrite kmip_type_of_code_code.
  destruct v; try done; cbn [value_type scalar_bytes] in *; rewrite ?be_enc_length; try done;
    by rewrite (proj2 (Z.ltb_ge _ _)) by lia.
Qed.

Lemma bignum_length_pos v : BN_num_bytes v < 268435455 → v ≠ 0 →
  0 < bignum_block_length (kmip_encode_bignum_length (Some v)).
Proof.
  intros Hn Hv. destruct (BN_num_bytes_law v) as (_ & _ & [Hpos _]); [done|].
  destruct (encode_bignum_length_spec v Hn) as [Hl _].
  destruct (bignum_block_length_ge (kmip_encode_bignum_length (Some v))); lia.
Qed.

(** a big integer that fits is read back *)
Lemma decode_bignum_bytes v L r :
  0 < L → - (128 * 256 ^ (L - 1)) <= v < 128 * 256 ^ (L - 1) →
  kmip_decode_bignum (Some (be_enc (Z.to_nat L) v ++ r)) L = Done (inr v).
Proof.
  intros HL Hv. pose proof (be_enc_bytes (Z.to_nat L) v) as Hb.
  pose proof (be_enc_length (Z.to_nat L) v) as Hlen. pose proof (be_dec_enc_mod (Z.to_nat L) v) as Hd.
  destruct (be_enc (Z.to_nat L) v) as [|x l]; [simpl in Hlen; lia|].
  replace L with (Z.of_nat (length (x :: l))) at 1 by lia.
  rewrite decode_bignum_value, Hd, Hlen, Z2Nat.id by (done || lia).
  do 2 f_equal. by apply twos_complement_mod.
Qed.

Lemma bignum_fits_range v : BN_num_bytes v < 268435455 → bignum_fits v = true → v ≠ 0 →
  let L := bignum_block_length (kmip_encode_bignum_length (Some v)) in
  - (128 * 256 ^ (L - 1)) <= v < 128 * 256 ^ (L - 1).
Proof.
  intros Hn Hf Hv L. destruct (encode_bignum_length_spec v Hn) as [Hl Hneg].
  pose proof (bignum_length_pos v Hn Hv) as HL. fold L in HL.
  destruct (BN_num_bytes_law v) as (_ & _ & [Hpos _]); [done|].
  destruct (bignum_block_length_ge (kmip_encode_bignum_length (Some v))) as [HLe _]; [lia|].
  fold L in HLe.
  assert (0 < 256 ^ (L - 1)) by (apply Z.pow_pos_nonneg; lia).
  assert (256 ^ (kmip_encode_bignum_length (Some v) - 1) <= 256 ^ (L - 1))
    by (apply Z.pow_le_mono_r; lia).
  unfold bignum_fits in Hf. apply orb_true_iff in Hf as [Hf|Hf]; fold L in Hf; b2p; lia.
Qed.

Lemma decode_bignum_fits v : BN_num_bytes v < 268435455 → bignum_fits v = true →
  let L := bignum_block_length (kmip_encode_bignum_length (Some v)) in
  kmip_decode_bignum (Some (be_enc (Z.to_nat L) v ++ [0])) L = Done (inr v).
Proof.
  intros Hn Hf L. destruct (encode_bignum_ref v Hn) as [HL _]. fold L in HL.
  destruct (decide (v = 0)) as [->|Hnz].
  - destruct (decide (L = 0)) as [->|HLnz].
    + change (be_enc (Z.to_nat 0) 0 ++ [0]) with [0]. apply decode_bignum_empty.
    + assert (0 < 256 ^ (L - 1)) by (apply Z.pow_pos_nonneg; lia).
      apply decode_bignum_bytes; lia.
  - apply decode_bignum_bytes; [by apply bignum_length_pos|by apply bignum_fits_range].
Qed.

(** A positive number that does not fit is read as a negative one. *)
Lemma decode_bignum_wraps v : BN_num_bytes v < 268435455 → bignum_fits v = false →
  let L := bignum_block_length (kmip_encode_bignum_length (Some v)) in
  kmip_decode_bignum (Some (be_enc (Z.to_nat L) v ++ [0])) L = Done (inr (v - 256 ^ L)).
Proof.
  intros Hn Hf L. destruct (encode_bignum_ref v Hn) as [HL _].
  unfold bignum_fits in Hf. fold L in HL, Hf. b2p.
  pose proof (bignum_length_pos v Hn ltac:(lia)) as HLp. fold L in HLp.
  destruct (BN_num_bytes_law v) as (Hn0 & Habs & _).
  assert (Hv : v < 256 ^ L).
  { destruct (encode_bignum_length_spec v Hn) as [Hl _].
    destruct (bignum_block_length_ge (kmip_encode_bignum_length (Some v))) as [HLe _]; [lia|].
    fold L in HLe. eapply Z.le_lt_trans; [|eapply Z.lt_le_trans; [exact Habs|]]; [lia|].
    apply Z.pow_le_mono_r; lia. }
  pose proof (be_enc_bytes (Z.to_nat L) v) as Hb. pose proof (be_enc_length (Z.to_nat L) v) as Hlen.
  pose proof (be_dec_enc_mod (Z.to_nat L) v) as Hd.
  destruct (be_enc (Z.to_nat L) v) as [|x l]; [simpl in Hlen; lia|].
  replace L with (Z.of_nat (length (x :: l))) at 1 by lia.
  rewrite decode_bignum_value, Hd, Hlen, Z2Nat.id, Z.mod_small by (done || lia).
  unfold twos_complement. by rewrite (proj2 (Z.ltb_ge _ _)) by lia.
Qed.

Lemma ttlv_scalar_ok tag len v :
  value_type v ≠ KMIP_TYPE_STRUCTURE → transportable_value tag len v = true →
  ttlv_scalar (value_type v) (scalar_bytes v) = Done (inr (received_value v)).
Proof.
  unfold transportable_value. intros Hv Ht. b2p.
  destruct v as [els|v|v|[v|]|v|b|s|s|v|v|v]; try done;
    cbn [value_type scalar_bytes ttlv_scalar received_value encodable_value] in *;
    unfold between in *; b2p; rewrite ?be_dec_enc_mod.
  - do 3 f_equal. change (256 ^ Z.of_nat 4) with 4294967296. unfold s32.
    rewrite Zplus_mod_idemp_l, Z.mod_small; lia.
  - do 3 f_equal. apply (twos_complement_mod 8); cbn; lia.
  - rewrite be_enc_length, Z2Nat.id by (destruct (encode_bignum_ref v); lia).
    unfold wire_bignum. cbn [fmap option_fmap option_map].
    destruct (bignum_fits v) eqn:Ef; [by rewrite decode_bignum_fits|by rewrite decode_bignum_wraps].
  - do 3 f_equal. apply Z.mod_small. cbn. lia.
  - by destruct b.
  - do 4 f_equal. apply cstr_no_nul. apply forallb_between in H2.
    eapply Forall_impl; [exact H2|]. simpl. lia.
  - do 3 f_equal. apply (twos_complement_mod 8); cbn; lia.
  - do 3 f_equal. apply Z.mod_small. cbn. lia.
  - do 3 f_equal. apply (twos_complement_mod 8); cbn; lia.
Qed.
End Scalars.

(** ** Reading a frame *)

Section Decoder.
Context `{BnLaws} {B : Type} `{BioReadLaws B}.

Lemma read_all_ok b n l r :
  bio_in b = l ++ r → Z.of_nat (length l) = n → 0 < n <= INT_MAX → bytes_ok l →
  ∃ b', read_all b n = (inr l, b') ∧ bio_in b' = r.
Proof.
  intros Hb Hl Hn Hok. unfold read_all. destruct (BIO_read_law b n Hn) as [H1' H2'].
  destruct (BIO_read b n) as [l' b']. simpl in *. rewrite Hb in H1', H2'.
  replace (Z.to_nat n) with (length l) in * by lia.
  rewrite take_app_length in H1'. rewrite drop_app_length in H2'. subst l'.
  exists b'. by rewrite Hl, Z.eqb_refl, map_u8_bytes.
Qed.

(** a read of more than there is *)
Lemma read_all_short b n : 0 < n <= INT_MAX → Z.of_nat (length (bio_in b)) < n →
  ∃ b', read_all b n = (inl (- EIO), b').
Proof.
  intros Hn Hs. unfold read_all. destruct (BIO_read_law b n Hn) as [H1' _].
  destruct (BIO_read b n) as [l' b']. simpl in *. exists b'. subst l'.
  rewrite length_take. rewrite (proj2 (Z.eqb_neq _ _)) by lia. done.
Qed.

Lemma size_fits_below size n m : size_fits size n → m <= n → size_below size m = false.
Proof.
  intros Hs Hm. destruct size as [s|]; [|done]. specialize (Hs s eq_refl). simpl.
  apply Z.ltb_ge. lia.
Qed.

Lemma size_sub_left size n m : size_fits size n → 0 <= m <= n →
  size_sub size m = size_left size m ∧ size_fits (size_left size m) (n - m).
Proof.
  intros Hs Hm. destruct size as [s|]; [|by split].
  specialize (Hs s eq_refl). unfold size_sub, size_left. cbn.
  rewrite u64_small by lia. split; [done|]. intros s' [= <-]. lia.
Qed.

(** The header of a frame is read, and the decoder goes on with its value. *)
Definition decode_value (k : nat) (tag : Z) (t : kmip_type) (len : Z) (size : option Z) (bio : B)
    : outcome ((Z + kmip_node) * option Z * B) :=
  match (if negb (bool_decide (t = KMIP_TYPE_STRUCTURE)) && (0 <? len)
         then read_all bio len else (inr [], bio)) with
  | (inl rc, bio) => Done (inl rc, size, bio)
  | (inr value, bio) =>
      let size := size_sub size len in
      let pad_len := KMIP_TTLV_BLOCK_LENGTH - len mod KMIP_TTLV_BLOCK_LENGTH in
      let padded := negb (len mod KMIP_TTLV_BLOCK_LENGTH =? 0) in
      match (if padded then read_all bio pad_len else (inr [], bio)) with
      | (inl rc, bio) => Done (inl rc, size, bio)
      | (inr _, bio) =>
          if padded && size_below size pad_len then Done (inl (- EMSGSIZE), size, bio) else
          let size := if padded then size_sub size pad_len else size in
          match t with
          | KMIP_TYPE_STRUCTURE =>
              '(r, bio) ← decode_elements (kmip_decode_ttlv k)
                 (Z.to_nat (len / KMIP_TTLV_BLOCK_LENGTH))
                 (KmipNode tag len None (StructureValue [])) (Some len) bio;
              Done (r, size, bio)
          | _ =>
              r ← ttlv_scalar t value;
              Done (match r with
                    | inl rc => inl rc
                    | inr v => inr (KmipNode tag len None v)
                    end, size, bio)
          end
      end
  end.

Lemma decode_header k size b tag t len rest :
  0 <= tag < 16777216 → 0 <= len < 4294967296 →
  ttlv_value_len (kmip_type_code t) len = inr (t, len) →
  size_fits size (8 + len) →
  bio_in b = be_enc 3 tag ++ [kmip_type_code t] ++ be_enc 4 len ++ rest →
  ∃ b', kmip_decode_ttlv (S k) size b = decode_value k tag t len (size_left size 8) b' ∧
        bio_in b' = rest.
Proof.
  intros Htag Hlen Hval Hsize Hb.
  destruct (read_all_ok b 8 (be_enc 3 tag ++ [kmip_type_code t] ++ be_enc 4 len) rest)
    as (b1 & Hr1 & Hb1).
  { by rewrite Hb, <- !app_assoc. }
  { by rewrite !length_app, !be_enc_length. }
  { done. }
  { unfold bytes_ok. rewrite !Forall_app, Forall_singleton.
    split_and!; [apply be_enc_bytes|apply kmip_type_code_u8|apply be_enc_bytes]. }
  destruct (header_fields tag (kmip_type_code t) len Htag (kmip_type_code_u8 t) Hlen)
    as (Hh1 & Hh2 & Hh3).
  exists b1. split; [|done]. cbn [kmip_decode_ttlv]. unfold KMIP_TTLV_HEADER_LENGTH.
  rewrite (size_fits_below size _ 8 Hsize), Hr1, Hh1, Hh2, Hh3, Hval, Z.eqb_refl by lia.
  destruct (size_sub_left size _ 8 Hsize) as [-> Hs1]; [lia|]. cbn [negb].
  rewrite (size_fits_below _ _ len Hs1) by lia. done.
Qed.

(** the value of a scalar, if there is one *)
Lemma read_value_ok b t l r :
  t ≠ KMIP_TYPE_STRUCTURE → bio_in b = l ++ r → Z.of_nat (length l) <= INT_MAX → bytes_ok l →
  ∃ b', (if negb (bool_decide (t = KMIP_TYPE_STRUCTURE)) && (0 <? Z.of_nat (length l))
         then read_all b (Z.of_nat (length l)) else (inr [], b)) = (inr l, b') ∧ bio_in b' = r.
Proof.
  intros Ht Hb Hl Hok. rewrite bool_decide_false by done. destruct l as [|c l].
  - by exists b.
  - cbn [length] in *. rewrite (proj2 (Z.ltb_lt _ _)) by lia. apply (read_all_ok b _ (c :: l)); [done..|lia|done].
Qed.

(** the padding, if there is any *)
Lemma read_padding_ok b n r :
  0 <= n → bio_in b = zeros (Z.to_nat (pad8 n)) ++ r →
  ∃ b' p, (if negb (n mod 8 =? 0) then read_all b (8 - n mod 8) else (inr [], b)) = (inr p, b') ∧
          bio_in b' = r.
Proof.
  intros Hn Hb. destruct (pad8_spec n Hn) as [Hp _]. destruct (Z.eqb_spec (n mod 8) 0) as [E|E]; cbn [negb].
  - rewrite (pad8_zero _ E) in Hb. by exists b, [].
  - rewrite <- pad8_code by lia.
    assert (pad8 n ≠ 0) by (rewrite pad8_code by lia; dlia).
    destruct (read_all_ok b (pad8 n) _ _ Hb) as (b' & -> & Hb').
    + unfold zeros. rewrite length_replicate. lia.
    + unfold INT_MAX. lia.
    + apply Forall_replicate. unfold in_u8. lia.
    + by exists b', (zeros (Z.to_nat (pad8 n))).
Qed.

Lemma size_left_left size n m : size_left (size_left size n) m = size_left size (n + m).
Proof. destruct size as [s|]; [|done]. unfold size_left. cbn. f_equal. lia. Qed.

Lemma size_after_padding size n : 0 <= n → size_fits size (n + pad8 n) →
  (negb (n mod 8 =? 0) && size_below (size_sub size n) (8 - n mod 8) = false) ∧
  (if negb (n mod 8 =? 0) then size_sub (size_sub size n) (8 - n mod 8) else size_sub size n)
  = size_left size (n + pad8 n).
Proof.
  intros Hn Hs. destruct (pad8_spec n Hn) as [Hp _].
  destruct (size_sub_left size _ n Hs) as [-> Hs1]; [lia|].
  destruct (Z.eqb_spec (n mod 8) 0) as [E|E]; cbn [negb andb].
  - by rewrite (pad8_zero _ E), Z.add_0_r.
  - rewrite <- pad8_code by lia. rewrite (size_fits_below _ _ _ Hs1) by lia.
    destruct (size_sub_left _ _ (pad8 n) Hs1) as [-> _]; [lia|]. by rewrite size_left_left.
Qed.

Lemma decode_scalar k size b tag len name v rest :
  let n := KmipNode tag len name v in
  value_type v ≠ KMIP_TYPE_STRUCTURE → transportable_value tag len v = true →
  Z.of_nat (length (ttlv n)) <= INT_MAX → size_fits size (Z.of_nat (length (ttlv n))) →
  bio_in b = ttlv n ++ rest →
  ∃ b', kmip_decode_ttlv (S k) size b
        = Done (inr (received n), size_left size (Z.of_nat (length (ttlv n))), b') ∧
        bio_in b' = rest.
Proof.
  intros n Hv Ht. unfold n. clear n. rewrite ttlv_frame, length_frame.
  assert (Hp : payload v = scalar_bytes v) by (by destruct v). rewrite Hp.
  set (p := scalar_bytes v) in *. intros Hmax Hsize Hb.
  destruct (pad8_spec (Z.of_nat (length p))) as [H8 _]; [lia|]. unfold INT_MAX in *.
  assert (Htag : 0 <= tag < 16777216).
  { unfold transportable_value, between in Ht. b2p. lia. }
  destruct (decode_header k size b tag (value_type v) (Z.of_nat (length p))
              (p ++ zeros (Z.to_nat (pad8 (Z.of_nat (length p)))) ++ rest))
    as (b1 & -> & Hb1); [done|lia| | | |].
  { apply (scalar_value_len tag len); [done..|unfold INT_MAX; fold p; lia]. }
  { intros s Hs. specialize (Hsize s Hs). lia. }
  { rewrite Hb. unfold frame. by rewrite <- !app_assoc. }
  assert (Hbytes : bytes_ok p) by (by apply (scalar_bytes_ok tag len)).
  unfold decode_value.
  destruct (read_value_ok b1 (value_type v) p _ Hv Hb1) as (b2 & -> & Hb2);
    [unfold INT_MAX; lia|done|]. cbv zeta.
  unfold KMIP_TTLV_BLOCK_LENGTH.
  destruct (read_padding_ok b2 _ _ (Nat2Z.is_nonneg (length p)) Hb2) as (b3 & pd & -> & Hb3).
  assert (Hs8 : size_fits (size_left size 8) (Z.of_nat (length p) + pad8 (Z.of_nat (length p)))).
  { destruct (size_sub_left size _ 8 Hsize) as [_ Hs]; [lia|].
    intros s Es. specialize (Hs s Es). lia. }
  destruct (size_after_padding _ _ (Nat2Z.is_nonneg (length p)) Hs8) as [-> ->]. rewrite size_left_left.
  exists b3. split; [|done].
  pose proof (ttlv_scalar_ok tag len v Hv Ht) as Hsc. fold p in Hsc.
  replace (8 + (Z.of_nat (length p) + pad8 (Z.of_nat (length p))))
    with (8 + Z.of_nat (length p) + pad8 (Z.of_nat (length p))) by lia.
  destruct v; try done; cbn [value_type received payload] in *; by rewrite Hsc.
Qed.

(** ** Structures *)

(** the header of a structure is read and the loop over its elements starts *)
Lemma decode_structure k size b tag len rest :
  0 <= tag < 16777216 → 0 <= len <= INT_MAX → len mod 8 = 0 → size_fits size (8 + len) →
  bio_in b = be_enc 3 tag ++ [kmip_type_code KMIP_TYPE_STRUCTURE] ++ be_enc 4 len ++ rest →
  ∃ b', kmip_decode_ttlv (S k) size b
        = ('(r, bio) ← decode_elements (kmip_decode_ttlv k) (Z.to_nat (len / 8))
             (KmipNode tag len None (StructureValue [])) (Some len) b';
           Done (r, size_left size (8 + len), bio)) ∧
        bio_in b' = rest.
Proof.
  intros Htag Hlen H8 Hsize Hb. unfold INT_MAX in Hlen.
  destruct (decode_header k size b tag KMIP_TYPE_STRUCTURE len rest) as (b1 & -> & Hb1);
    [done|lia| |done|done|].
  { unfold ttlv_value_len. rewrite kmip_type_of_code_code. unfold KMIP_TTLV_BLOCK_LENGTH.
    by rewrite H8. }
  exists b1. split; [|done]. unfold decode_value. rewrite bool_decide_true by done. cbn [negb andb].
  unfold KMIP_TTLV_BLOCK_LENGTH. rewrite H8. cbn [Z.eqb negb andb].
  destruct (size_sub_left size _ 8 Hsize) as [_ Hs1]; [lia|].
  destruct (size_sub_left _ _ len Hs1) as [-> _]; [lia|]. by rewrite size_left_left.
Qed.

(** [dec] decodes the encoding of [e] wherever it stands *)
Definition decodes (dec : option Z → B → outcome ((Z + kmip_node) * option Z * B))
    (e : kmip_node) : Prop :=
  ∀ size b rest, size_fits size (Z.of_nat (length (ttlv e))) → bio_in b = ttlv e ++ rest →
  ∃ b', dec size b = Done (inr (received e), size_left size (Z.of_nat (length (ttlv e))), b') ∧
        bio_in b' = rest.

Lemma ttlv_length_ge e : 8 <= Z.of_nat (length (ttlv e)).
Proof.
  destruct e. rewrite ttlv_frame, length_frame. pose proof (pad8_spec (Z.of_nat (length (payload value)))).
  lia.
Qed.

(** The loop goes over the elements that [dec] decodes and appends them. *)
Lemma decode_elements_prefix dec els fuel tag len acc m b rest :
  Forall (decodes dec) els → (length els <= fuel)%nat → 0 <= m →
  Z.of_nat (length (concat (map ttlv els))) + m < 18446744073709551616 →
  bio_in b = concat (map ttlv els) ++ rest →
  ∃ b', decode_elements dec fuel (KmipNode tag len None (StructureValue acc))
          (Some (Z.of_nat (length (concat (map ttlv els))) + m)) b
        = decode_elements dec (fuel - length els)
            (KmipNode tag len None (StructureValue (acc ++ map received els))) (Some m) b' ∧
        bio_in b' = rest.
Proof.
  intros Hels. revert fuel acc b. induction Hels as [|e els He _ IH];
    intros fuel acc b Hf Hm Hmax Hb; cbn [map concat] in *.
  { exists b. by rewrite Nat.sub_0_r, app_nil_r, Z.add_0_l. }
  destruct fuel as [|fuel]; [simpl in Hf; lia|].
  rewrite length_app, Nat2Z.inj_add, <- app_assoc in *. pose proof (ttlv_length_ge e) as Hge.
  destruct (He (Some (Z.of_nat (length (ttlv e)) + Z.of_nat (length (concat (map ttlv els))) + m))
              b (concat (map ttlv els) ++ rest)) as (b1 & Hd & Hb1); [intros s [= <-]; lia|done|].
  destruct (IH fuel (acc ++ [received e]) b1) as (b2 & Hd2 & Hb2); [simpl in Hf; lia|lia|lia|done|].
  exists b2. split; [|done]. cbn [decode_elements default id from_option].
  rewrite (proj2 (Z.eqb_neq _ _)) by lia. rewrite Hd, Done_bind.
  cbn [kmip_node_add_structure_element kmip_node_add_structure_elements node_value set_value
       node_tag node_length node_name Z.eqb negb deref omap list_omap id].
  rewrite Done_bind. unfold size_left. cbn [fmap option_fmap option_map].
  replace (Z.of_nat (length (ttlv e)) + Z.of_nat (length (concat (map ttlv els))) + m
           - Z.of_nat (length (ttlv e))) with (Z.of_nat (length (concat (map ttlv els))) + m) by lia.
  unfold set_value. cbn [node_tag node_length node_name]. rewrite Hd2, <- app_assoc. done.
Qed.

Lemma decode_elements_end dec fuel n (b : B) : decode_elements dec fuel n (Some 0) b = Done (inr n, b).
Proof. by destruct fuel. Qed.

(** one round of the loop per block of 8 bytes is enough *)
Lemma elements_fuel els :
  (length els <= Z.to_nat (Z.of_nat (length (concat (map ttlv els))) / 8))%nat.
Proof.
  assert (8 * Z.of_nat (length els) <= Z.of_nat (length (concat (map ttlv els)))); [|dlia].
  induction els as [|e els IH]; [done|]. cbn [map concat length]. rewrite length_app.
  pose proof (ttlv_length_ge e). lia.
Qed.

Lemma node_depth_element e els d :
  e ∈ els → (foldr (λ e d, Nat.max (node_depth e) d) 0 els <= d)%nat → (node_depth e <= d)%nat.
Proof. induction 1; simpl; [lia|]. intros. apply IHlist_elem_of. lia. Qed.

Lemma decode_ref n k :
  transportable n = true → Z.of_nat (length (ttlv n)) <= INT_MAX → (node_depth n <= k)%nat →
  decodes (kmip_decode_ttlv k) n.
Proof.
  revert k. induction n as [tag len name els IH|tag len name v Hv] using kmip_node_tree_ind;
    intros k [Ht Hels]%andb_true_iff Hmax Hk size b rest Hsize Hb.
  2: { destruct k as [|k]; [destruct v; simpl in Hk; lia|]. by apply decode_scalar. }
  destruct k as [|k]; [simpl in Hk; lia|]. cbn [node_depth] in Hk.
  rewrite forallb_forall in Hels. rewrite ttlv_frame in *. cbn [value_type payload] in *.
  set (p := concat (map ttlv els)) in *.
  assert (Hp8 : Z.of_nat (length p) mod 8 = 0) by apply elements_mod8.
  unfold frame in Hb. rewrite length_frame, (pad8_zero _ Hp8), Z.add_0_r in *.
  rewrite <- !app_assoc in Hb. cbn [Z.to_nat] in Hb.
  unfold INT_MAX in *.
  destruct (decode_structure k size b tag (Z.of_nat (length p)) (p ++ rest)) as (b1 & Hd & Hb1);
    [|unfold INT_MAX; lia|done|done|done|].
  { unfold transportable_value, between in Ht. b2p. lia. }
  destruct (decode_elements_prefix (kmip_decode_ttlv k) els (Z.to_nat (Z.of_nat (length p) / 8))
              tag (Z.of_nat (length p)) [] 0 b1 rest) as (b2 & Hd2 & Hb2).
  - rewrite Forall_forall in IH |- *. intros e He. apply IH; [done| | |].
    + by apply Hels, list_elem_of_In.
    + pose proof (element_length_le _ _ He) as Hel. fold p in Hel. unfold INT_MAX. lia.
    + eapply node_depth_element; [done|]. lia.
  - apply elements_fuel.
  - lia.
  - fold p. lia.
  - done.
  - exists b2. split; [|done]. fold p in Hd2. rewrite Z.add_0_r in Hd2.
    rewrite Hd, Hd2, decode_elements_end, Done_bind. done.
Qed.
End Decoder.

(** What the decoder does with input that is not the encoding of a node.

    The decoder returns for every input, with one of three errors or with a node
    whose fields are in range, whose nesting is within the limit and whose lengths
    add up ([decode_good]).  Structures nested deeper than the limit are refused
    with -E2BIG, and a message that is cut off anywhere with -EIO. *)

(** the bytes of a node's frame, by its length field *)
Definition frame_size (n : kmip_node) : Z := 8 + node_length n + pad8 (node_length n).
Definition frame_sizes (els : list kmip_node) : Z := foldr (λ e a, frame_size e + a) 0 els.

(** A node as the decoder may return it. *)
Definition typed_value (tag len : Z) (v : kmip_value kmip_node) : bool :=
  between 0 tag 16777216 && between 0 len 4294967296 &&
  match v with
  | StructureValue els => len =? frame_sizes els
  | IntegerValue v => (len =? 4) && between (-2147483648) v 2147483648
  | EnumerationValue v | IntervalValue v => (len =? 4) && between 0 v 4294967296
  | LongValue v | DateTimeValue v | DateTimeExtValue v =>
      (len =? 8) && between (-9223372036854775808) v 9223372036854775808
  | BooleanValue _ => len =? 8
  | BigIntegerValue bn => match bn with Some _ => true | None => false end
  | TextValue s | BytesValue s =>
      match s with
      | Some s => (len =? Z.of_nat (length s)) && forallb (λ c, between 0 c 256) s
      | None => false
      end
  end.
Definition typed : kmip_node → bool := node_all typed_value.

Definition decode_errors : list Z := [- E2BIG; - EMSGSIZE; - EIO; - EBADMSG].

Section Errors.
Context `{BnLaws} {B : Type} `{BioOps B}.

(** ** Every input *)

Definition decode_good (k : nat) (size : option Z)
    (o : outcome ((Z + kmip_node) * option Z * B)) : Prop :=
  ∃ r size' b', o = Done (r, size', b') ∧
    match r with
    | inl rc => rc ∈ decode_errors
    | inr n =>
        typed n = true ∧ (node_depth n <= k)%nat ∧
        size' = size_left size (frame_size n) ∧ size_below size (frame_size n) = false
    end.

Lemma map_u8_ok l : bytes_ok (map u8 l).
Proof. apply Forall_forall. intros x (b & -> & _)%list_elem_of_fmap. apply u8_range. Qed.

Lemma read_all_cases (b : B) n : ∃ r b', read_all b n = (r, b') ∧
  match r with
  | inl rc => rc = - EIO
  | inr l => bytes_ok l ∧ Z.of_nat (length l) = n
  end.
Proof.
  unfold read_all. destruct (BIO_read b n) as [l b'].
  destruct (Z.eqb_spec (Z.of_nat (length l)) n) as [E|E]; eexists _, b'; split; [done| |done|done].
  split; [apply map_u8_ok|]. by rewrite length_map.
Qed.

Lemma header_ranges h : bytes_ok h → length h = 8%nat →
  0 <= ttlv_header_tag h < 16777216 ∧ 0 <= ttlv_header_length h < 4294967296.
Proof.
  intros Hb Hl. do 8 (destruct h as [|? h]; [done|]). destruct h; [|done].
  unfold bytes_ok in Hb. rewrite !Forall_cons in Hb.
  unfold ttlv_header_tag, ttlv_header_length. cbn [lookup_total list_lookup_total].
  rewrite byte3_lor, byte4_lor by tauto. split.
  - apply (be_dec_range [_; _; _]). unfold bytes_ok. rewrite !Forall_cons. tauto.
  - apply (be_dec_range [_; _; _; _]). unfold bytes_ok. rewrite !Forall_cons. tauto.
Qed.

Lemma twos_complement_range n x : 0 < n → 0 <= x < 256 ^ n →
  - (128 * 256 ^ (n - 1)) <= twos_complement n x < 128 * 256 ^ (n - 1).
Proof.
  intros Hn Hx. unfold twos_complement.
  assert (Hp : 256 ^ n = 256 * 256 ^ (n - 1)).
  { rewrite <- Z.pow_succ_r by lia. f_equal. lia. }
  destruct (Z.ltb_spec x (128 * 256 ^ (n - 1))); lia.
Qed.

Lemma forallb_bytes l : bytes_ok l → forallb (λ c, between 0 c 256) l = true.
Proof.
  intros Hl. apply forallb_forall. intros x Hx%list_elem_of_In.
  unfold bytes_ok in Hl. rewrite Forall_forall in Hl. destruct (Hl x Hx). unfold between.
  apply andb_true_iff. split; [by apply Z.leb_le|by apply Z.ltb_lt].
Qed.

(** the length that the header must have for a type *)
Definition length_for (t : kmip_type) (len : Z) : Prop :=
  match t with
  | KMIP_TYPE_STRUCTURE => len mod 8 = 0
  | KMIP_TYPE_INTEGER | KMIP_TYPE_ENUMERATION | KMIP_TYPE_INTERVAL => len = 4
  | KMIP_TYPE_LONG_INTEGER | KMIP_TYPE_BOOLEAN | KMIP_TYPE_DATE_TIME
  | KMIP_TYPE_DATE_TIME_EXTENDED => len = 8
  | _ => True
  end.

Lemma ttlv_value_len_cases type len :
  match ttlv_value_len type len with
  | inl rc => rc ∈ decode_errors
  | inr (t, vl) => len = vl → length_for t len
  end.
Proof.
  unfold ttlv_value_len, decode_errors, KMIP_TTLV_BLOCK_LENGTH.
  destruct (kmip_type_of_code type) as [[]|]; simpl; try done;
    try (by repeat constructor); try (destruct (INT_MAX <? len); [by repeat constructor|done]).
  destruct (Z.eqb_spec (len mod 8) 0); simpl; [done|by repeat constructor].
Qed.

(** A scalar is decoded without fault, to a value of the right type and range. *)
Lemma ttlv_scalar_good t tag value :
  t ≠ KMIP_TYPE_STRUCTURE → bytes_ok value → length_for t (Z.of_nat (length value)) →
  0 <= tag < 16777216 → Z.of_nat (length value) < 4294967296 →
  ∃ v, ttlv_scalar t value = Done (inr v) ∧ value_type v = t ∧
       typed_value tag (Z.of_nat (length value)) v = true.
Proof.
  intros Ht Hb Hlen Htag Hmax. pose proof (be_dec_range _ Hb) as Hr.
  assert (Hbase : between 0 tag 16777216 && between 0 (Z.of_nat (length value)) 4294967296 = true).
  { unfold between. repeat (apply andb_true_iff; split); (apply Z.leb_le || apply Z.ltb_lt); lia. }
  assert (Hbig : ∃ bn, kmip_decode_bignum (Some (value ++ [0])) (Z.of_nat (length value))
                       = Done (inr bn)).
  { destruct value as [|c l]; [exists 0; apply decode_bignum_empty|].
    eexists. by apply decode_bignum_value. }
  assert (H4 : Z.of_nat (length value) = 4 → 0 <= be_dec value < 4294967296).
  { intros E. rewrite E in Hr. done. }
  assert (H8 : Z.of_nat (length value) = 8 →
               -9223372036854775808 <= twos_complement 8 (be_dec value) < 9223372036854775808).
  { intros E. rewrite E in Hr. by apply (twos_complement_range 8). }
  destruct t; try done; cbn [ttlv_scalar length_for] in *;
    [..|destruct Hbig as [bn ->]; rewrite Done_bind| | | | | | |];
    (eexists; split; [done|]; split; [done|]); unfold typed_value; rewrite Hbase; cbn [andb];
    try (rewrite Z.eqb_refl; by apply forallb_bytes); try done;
    rewrite Hlen; cbn [Z.eqb Pos.eqb andb]; try done;
    unfold between; apply andb_true_iff; rewrite Z.leb_le, Z.ltb_lt; try (apply H8; lia);
    try (apply H4; lia).
  unfold s32. assert (0 <= (be_dec value + 2147483648) mod 4294967296 < 4294967296)
    by (apply Z.mod_pos_bound; lia). lia.
Qed.

Definition size_ok (size : option Z) : Prop :=
  ∀ s, size = Some s → 0 <= s < 18446744073709551616.

Lemma size_sub_ok size n : size_ok size → 0 <= n → size_below size n = false →
  size_sub size n = size_left size n ∧ size_ok (size_left size n).
Proof.
  intros Hs Hn Hb. destruct size as [s|]; [|done]. specialize (Hs s eq_refl).
  simpl in Hb. b2p. unfold size_sub, size_left. cbn. rewrite u64_small by lia.
  split; [done|]. intros ? [= <-]. lia.
Qed.

Lemma size_below_left size n m : size_below (size_left size n) m = size_below size (n + m).
Proof.
  destruct size as [s|]; [|done]. simpl.
  destruct (Z.ltb_spec (s - n) m), (Z.ltb_spec s (n + m)); (done || lia).
Qed.

(** what [decode_good] says of a structure that is being built *)
Definition elements_good (k : nat) (els : list kmip_node) : Prop :=
  Forall (λ e, typed e = true ∧ (node_depth e <= k)%nat) els.

Lemma frame_sizes_app l1 l2 : frame_sizes (l1 ++ l2) = frame_sizes l1 + frame_sizes l2.
Proof. unfold frame_sizes. induction l1 as [|e l1 IH]; simpl; lia. Qed.

Lemma typed_length n : typed n = true → 0 <= node_length n.
Proof.
  destruct n as [tag len name v]. intros [Ht _]%andb_true_iff.
  unfold typed_value, between in Ht. b2p. simpl. lia.
Qed.

Lemma frame_size_ge n : typed n = true → 8 <= frame_size n.
Proof.
  intros Hn%typed_length. unfold frame_size. pose proof (pad8_spec (node_length n) Hn). lia.
Qed.

(** the two reads of a value *)
Lemma read_value_cases t len (b : B) : 0 <= len →
  ∃ r b1, (if negb (bool_decide (t = KMIP_TYPE_STRUCTURE)) && (0 <? len)
           then read_all b len else (inr [], b)) = (r, b1) ∧
    match r with
    | inl rc => rc = - EIO
    | inr l => bytes_ok l ∧ (t ≠ KMIP_TYPE_STRUCTURE → Z.of_nat (length l) = len)
    end.
Proof.
  intros Hlen. destruct (decide (t = KMIP_TYPE_STRUCTURE)) as [->|Ht].
  - exists (inr []), b. split; [done|]. by split; [constructor|].
  - rewrite bool_decide_false by done. destruct (Z.ltb_spec 0 len); cbn [negb andb].
    + destruct (read_all_cases b len) as (r & b1 & -> & Hr). exists r, b1. split; [done|].
      destruct r; tauto.
    + exists (inr []), b. split; [done|]. split; [constructor|]. simpl. lia.
Qed.

Lemma read_padding_cases len (b : B) :
  ∃ r b2, (if negb (len mod 8 =? 0) then read_all b (8 - len mod 8) else (inr [], b)) = (r, b2) ∧
    (∀ rc, r = inl rc → rc = - EIO).
Proof.
  destruct (len mod 8 =? 0); cbn [negb]; [by eexists _, b|].
  destruct (read_all_cases b (8 - len mod 8)) as (r & b2 & -> & Hr). exists r, b2. split; [done|].
  intros rc ->. done.
Qed.

Lemma size_padding size len : 0 <= len → size_ok (size_left size len) → size_below size len = false →
  negb (len mod 8 =? 0) && size_below (size_left size len) (8 - len mod 8) = false →
  (if negb (len mod 8 =? 0) then size_sub (size_left size len) (8 - len mod 8)
   else size_left size len) = size_left size (len + pad8 len) ∧
  size_below size (len + pad8 len) = false.
Proof.
  intros Hlen Hs1 Hb Epad. destruct (Z.eqb_spec (len mod 8) 0) as [E|E]; cbn [negb andb] in *.
  - by rewrite (pad8_zero _ E), Z.add_0_r.
  - rewrite <- (pad8_code len) in * by lia. pose proof (pad8_spec len Hlen).
    destruct (size_sub_ok (size_left size len) (pad8 len)) as [-> _]; [done|lia|done|].
    by rewrite size_left_left, <- size_below_left.
Qed.

Lemma typed_structure k tag len name els :
  0 <= tag < 16777216 → 0 <= len < 4294967296 → elements_good k els → len = frame_sizes els →
  typed (KmipNode tag len name (StructureValue els)) = true.
Proof.
  intros Htag Hlen Hels Hsum. apply andb_true_iff. split.
  - unfold typed_value, between. rewrite <- Hsum, Z.eqb_refl.
    repeat (apply andb_true_iff; split); (apply Z.leb_le || apply Z.ltb_lt || done); lia.
  - apply forallb_forall. intros e He%list_elem_of_In. unfold elements_good in Hels.
    rewrite Forall_forall in Hels. by apply Hels.
Qed.

Section Level.
Variable k : nat.
Hypothesis IHk : ∀ size (b : B), size_ok size → decode_good k size (kmip_decode_ttlv k size b).

Lemma decode_elements_good fuel tag len acc vl b :
  0 <= vl < 18446744073709551616 → vl <= 8 * Z.of_nat fuel → elements_good k acc →
  len = frame_sizes acc + vl →
  ∃ r b', decode_elements (kmip_decode_ttlv k) fuel
            (KmipNode tag len None (StructureValue acc)) (Some vl) b = Done (r, b') ∧
    match r with
    | inl rc => rc ∈ decode_errors
    | inr n => ∃ els, n = KmipNode tag len None (StructureValue els) ∧
                      elements_good k els ∧ len = frame_sizes els
    end.
Proof.
  revert acc vl b. induction fuel as [|fuel IH]; intros acc vl b Hvl Hf Hacc Hlen.
  { assert (vl = 0) as -> by lia. rewrite decode_elements_end. eexists _, b. split; [done|].
    exists acc. split_and!; [done..|lia]. }
  destruct (decide (vl = 0)) as [->|Hnz].
  { rewrite decode_elements_end. eexists _, b. split; [done|].
    exists acc. split_and!; [done..|lia]. }
  cbn [decode_elements default from_option id]. rewrite (proj2 (Z.eqb_neq _ _)) by lia.
  destruct (IHk (Some vl) b) as (r & size' & b1 & -> & Hr); [by intros ? [= <-]|].
  rewrite Done_bind. destruct r as [rc|e]; [by eexists _, b1|].
  destruct Hr as (Ht & Hd & -> & Hs). simpl in Hs. b2p. pose proof (frame_size_ge e Ht).
  unfold size_left. cbn [fmap option_fmap option_map].
  cbn [kmip_node_add_structure_element kmip_node_add_structure_elements node_value Z.eqb negb
       deref omap list_omap id]. rewrite Done_bind. unfold set_value.
  cbn [node_tag node_length node_name].
  apply IH; [lia|lia| |].
  - apply Forall_app. split; [done|]. by apply Forall_singleton.
  - rewrite frame_sizes_app. simpl. lia.
Qed.

Lemma elements_depth els : elements_good k els →
  (foldr (λ e d, Nat.max (node_depth e) d) 0 els <= k)%nat.
Proof. induction 1 as [|e els [_ He] _ IH]; simpl; lia. Qed.

Lemma decode_value_good tag t len size b :
  0 <= tag < 16777216 → 0 <= len < 4294967296 → length_for t len →
  size_ok size → size_below size len = false →
  ∃ r size' b', decode_value k tag t len size b = Done (r, size', b') ∧
    match r with
    | inl rc => rc ∈ decode_errors
    | inr n => typed n = true ∧ (node_depth n <= S k)%nat ∧ node_length n = len ∧
               size' = size_left size (len + pad8 len) ∧ size_below size (len + pad8 len) = false
    end.
Proof.
  intros Htag Hlen Hfor Hs Hb. unfold decode_value.
  destruct (read_value_cases t len b) as ([rc|value] & b1 & -> & Hr); [lia| |].
  { subst rc. eexists _, _, _. split; [done|]. by repeat constructor. }
  destruct Hr as [Hok Hl]. cbv zeta. unfold KMIP_TTLV_BLOCK_LENGTH.
  destruct (size_sub_ok size len Hs) as [-> Hs1]; [lia|done|].
  destruct (read_padding_cases len b1) as ([rc|pd] & b2 & -> & Hr2).
  { rewrite (Hr2 rc eq_refl). eexists _, _, _. split; [done|]. by repeat constructor. }
  destruct (negb (len mod 8 =? 0) && size_below (size_left size len) (8 - len mod 8)) eqn:Epad.
  { eexists _, _, _. split; [done|]. by repeat constructor. }
  destruct (size_padding size len ltac:(lia) Hs1 Hb Epad) as [-> Hbelow].
  destruct (decide (t = KMIP_TYPE_STRUCTURE)) as [->|Ht].
  - destruct (decode_elements_good (Z.to_nat (len / 8)) tag len [] len b2) as (r & b3 & -> & Hr);
      [lia|cbn in Hfor; dlia|constructor|done|].
    rewrite Done_bind. eexists _, _, _. split; [done|]. destruct r as [rc|n]; [done|].
    destruct Hr as (els & -> & Hels & Hsum).
    split_and!; [by apply (typed_structure k)|simpl; by apply le_n_S, elements_depth|done..].
  - specialize (Hl Ht).
    destruct (ttlv_scalar_good t tag value Ht Hok) as (v & Hv & Hty & Htv); [by rewrite Hl|done|lia|].
    exists (inr (KmipNode tag len None v)), (size_left size (len + pad8 len)), b2.
    split; [destruct t; try done; by rewrite Hv|].
    rewrite Hl in Htv. split_and!; [|destruct v; subst t; simpl; done || lia|done..].
    apply andb_true_iff. split; [done|]. destruct v; subst t; done.
Qed.
End Level.

(** The decoder returns for every input. *)
Lemma decode_all k size (b : B) : size_ok size → decode_good k size (kmip_decode_ttlv k size b).
Proof.
  revert size b. induction k as [|k IH]; intros size b Hs.
  { eexists _, _, _. split; [done|]. by repeat constructor. }
  unfold decode_good. cbn [kmip_decode_ttlv]. unfold KMIP_TTLV_HEADER_LENGTH.
  destruct (size_below size 8) eqn:E8; [eexists _, _, _; split; [done|]; by repeat constructor|].
  destruct (read_all_cases b 8) as ([rc|h] & b1 & -> & Hr);
    [subst rc; eexists _, _, _; split; [done|]; by repeat constructor|].
  destruct Hr as [Hb Hl]. destruct (header_ranges h Hb) as [Htag Hlen]; [lia|].
  pose proof (ttlv_value_len_cases (ttlv_header_type h) (ttlv_header_length h)) as Hc.
  destruct (size_sub_ok size 8 Hs) as [-> Hs1]; [lia|done|].
  destruct (ttlv_value_len _ _) as [rc|[t vl]]; [by eexists _, _, _|].
  destruct (Z.eqb_spec (ttlv_header_length h) vl) as [<-|Hne]; cbn [negb];
    [|eexists _, _, _; split; [done|]; by repeat constructor].
  destruct (size_below (size_left size 8) _) eqn:El;
    [eexists _, _, _; split; [done|]; by repeat constructor|].
  destruct (decode_value_good k IH (ttlv_header_tag h) t (ttlv_header_length h)
              (size_left size 8) b1 Htag Hlen (Hc eq_refl) Hs1 El) as (r & size' & b2 & Hd & Hr).
  exists r, size', b2. split; [exact Hd|]. destruct r as [rc|n]; [done|].
  destruct Hr as (Ht & Hdep & <- & -> & Hbel). unfold frame_size.
  rewrite size_left_left. rewrite size_below_left in Hbel.
  rewrite Z.add_assoc in *. done.
Qed.
End Errors.

(** ** Nesting and truncation *)

Section Refused.
Context `{BnLaws} {B : Type} `{BioReadLaws B}.

Lemma depth_split els k :
  (k < foldr (λ e d, Nat.max (node_depth e) d) 0 els)%nat →
  ∃ l1 e l2, els = l1 ++ e :: l2 ∧ Forall (λ e, (node_depth e <= k)%nat) l1 ∧ (k < node_depth e)%nat.
Proof.
  induction els as [|e els IH]; simpl; [lia|]. intros Hk.
  destruct (decide (k < node_depth e)%nat) as [He|He]; [by exists [], e, els|].
  destruct IH as (l1 & e' & l2 & -> & Hl1 & He'); [lia|].
  exists (e :: l1), e', l2. split_and!; [done|constructor; [lia|done]|done].
Qed.

Lemma prefix_split (els : list kmip_node) l r :
  concat (map ttlv els) = l ++ r → r ≠ [] →
  ∃ l1 e l2 t r', els = l1 ++ e :: l2 ∧ l = concat (map ttlv l1) ++ t ∧ ttlv e = t ++ r' ∧ r' ≠ [].
Proof.
  revert l. induction els as [|e els IH]; intros l Hl Hr; cbn [map concat] in Hl.
  { by destruct l. }
  destruct (decide (length l < length (ttlv e))%nat) as [Hs|Hs].
  - exists [], e, els, l, (drop (length l) (ttlv e)). split_and!; [done|done| |].
    + rewrite <- (take_drop (length l) (ttlv e)) at 1. f_equal.
      rewrite <- (take_app_le (ttlv e) (concat (map ttlv els))) by lia.
      by rewrite Hl, take_app_length.
    + intros Hd. apply (f_equal length) in Hd. rewrite length_drop in Hd. simpl in Hd. lia.
  - assert (Hl' : l = ttlv e ++ drop (length (ttlv e)) l).
    { rewrite <- (take_drop (length (ttlv e)) l) at 1. f_equal.
      rewrite <- (take_app_le l r) by lia. by rewrite <- Hl, take_app_length. }
    rewrite Hl', <- app_assoc in Hl. apply app_inv_head in Hl.
    destruct (IH _ Hl Hr) as (l1 & e' & l2 & t & r' & -> & Hd & Hr' & Hne).
    exists (e :: l1), e', l2, t, r'. split_and!; [done| |done|done].
    cbn [map concat]. by rewrite Hl', Hd, <- app_assoc.
Qed.

(** [dec] fails with [rc] on the bytes [input], when the size is enough for [n] *)
Definition refuses (dec : option Z → B → outcome ((Z + kmip_node) * option Z * B))
    (n : kmip_node) (input : list Z) (rc : Z) : Prop :=
  ∀ size b, size_fits size (Z.of_nat (length (ttlv n))) → bio_in b = input →
  ∃ s b', dec size b = Done (inl rc, s, b').

(** The first element that is refused ends the structure with its error. *)
Lemma structure_refused k tag len name l1 e l2 input rc :
  let n := KmipNode tag len name (StructureValue (l1 ++ e :: l2)) in
  0 <= tag < 16777216 → Z.of_nat (length (ttlv n)) <= INT_MAX →
  Forall (decodes (kmip_decode_ttlv k)) l1 →
  refuses (kmip_decode_ttlv k) e input rc →
  refuses (kmip_decode_ttlv (S k)) n
    (be_enc 3 tag ++ [kmip_type_code KMIP_TYPE_STRUCTURE] ++
     be_enc 4 (Z.of_nat (length (payload (node_value n)))) ++
     concat (map ttlv l1) ++ input) rc.
Proof.
  intros n Htag Hmax Hl1 He size b Hsize Hb. unfold n in *. clear n.
  rewrite ttlv_frame in *. cbn [node_value value_type payload] in *.
  set (p := concat (map ttlv (l1 ++ e :: l2))) in *.
  assert (Hp8 : Z.of_nat (length p) mod 8 = 0) by apply elements_mod8.
  rewrite length_frame, (pad8_zero _ Hp8), Z.add_0_r in *. unfold INT_MAX in *.
  assert (Hp : Z.of_nat (length p) = Z.of_nat (length (concat (map ttlv l1))) +
               (Z.of_nat (length (ttlv e)) + Z.of_nat (length (concat (map ttlv l2))))).
  { unfold p. rewrite map_app, concat_app. cbn [map concat]. rewrite !length_app. lia. }
  pose proof (ttlv_length_ge e) as Hge.
  destruct (decode_structure k size b tag (Z.of_nat (length p))
              (concat (map ttlv l1) ++ input)) as (b1 & -> & Hb1);
    [done|unfold INT_MAX; lia|done|done|done|].
  destruct (decode_elements_prefix (kmip_decode_ttlv k) l1 (Z.to_nat (Z.of_nat (length p) / 8))
     tag (Z.of_nat (length p)) [] (Z.of_nat (length (ttlv e)) + Z.of_nat (length (concat (map ttlv l2))))
     b1 input Hl1) as (b2 & Hd & Hb2); [|lia|lia|done|].
  { pose proof (elements_fuel (l1 ++ e :: l2)) as Hf. fold p in Hf. rewrite length_app in Hf. lia. }
  rewrite <- Hp in Hd. rewrite Hd.
  assert (Hf : (0 < Z.to_nat (Z.of_nat (length p) / 8) - length l1)%nat).
  { pose proof (elements_fuel (l1 ++ e :: l2)) as Hf. fold p in Hf. rewrite length_app in Hf.
    simpl in Hf. lia. }
  destruct (Z.to_nat (Z.of_nat (length p) / 8) - length l1)%nat as [|fuel]; [lia|].
  cbn [decode_elements default from_option id]. rewrite (proj2 (Z.eqb_neq _ _)) by lia.
  destruct (He (Some (Z.of_nat (length (ttlv e)) + Z.of_nat (length (concat (map ttlv l2))))) b2)
    as (s & b3 & ->); [intros ? [= <-]; lia|done|].
  rewrite !Done_bind. by eexists _, b3.
Qed.

Lemma transportable_tag tag len name v :
  transportable (KmipNode tag len name v) = true → 0 <= tag < 16777216.
Proof.
  intros [Ht _]%andb_true_iff. unfold transportable_value, between in Ht. b2p. lia.
Qed.

Lemma transportable_element tag len name els e :
  transportable (KmipNode tag len name (StructureValue els)) = true → e ∈ els →
  transportable e = true.
Proof.
  intros [_ Hels]%andb_true_iff He. rewrite forallb_forall in Hels. by apply Hels, list_elem_of_In.
Qed.

Lemma ttlv_element_le tag len name els e : e ∈ els →
  Z.of_nat (length (ttlv e)) <= Z.of_nat (length (ttlv (KmipNode tag len name (StructureValue els)))).
Proof.
  intros He. rewrite ttlv_frame.
  pose proof (payload_length_le tag KMIP_TYPE_STRUCTURE (concat (map ttlv els))).
  pose proof (element_length_le e els He). cbn [value_type payload]. lia.
Qed.

(** the elements of a transportable structure that are not nested too deep *)
Lemma elements_decode k tag len name els l :
  let n := KmipNode tag len name (StructureValue els) in
  transportable n = true → Z.of_nat (length (ttlv n)) <= INT_MAX → l ⊆ els →
  Forall (λ e, (node_depth e <= k)%nat) l → Forall (decodes (kmip_decode_ttlv k)) l.
Proof.
  intros n Ht Hmax Hl Hd. rewrite Forall_forall in Hd |- *. intros e He.
  apply decode_ref; [by eapply transportable_element, Hl|etrans; [by eapply ttlv_element_le, Hl|exact Hmax]|by apply Hd].
Qed.

(** Structures nested deeper than the limit *)
Lemma too_deep n k rest :
  transportable n = true → Z.of_nat (length (ttlv n)) <= INT_MAX → (k < node_depth n)%nat →
  refuses (kmip_decode_ttlv k) n (ttlv n ++ rest) (- E2BIG).
Proof.
  revert k rest. induction n as [tag len name els IH|tag len name v Hv] using kmip_node_tree_ind;
    intros k rest Ht Hmax Hk; (destruct k as [|k]; [by intros size b _ _; eexists _, b|]).
  2: { destruct v; simpl in Hk; (done || lia). }
  cbn [node_depth] in Hk. destruct (depth_split els k) as (l1 & e & l2 & -> & Hl1 & He); [lia|].
  assert (Hin : e ∈ l1 ++ e :: l2) by (apply elem_of_app; right; by left).
  pose proof (structure_refused k tag len name l1 e l2
                (ttlv e ++ concat (map ttlv l2) ++ rest) (- E2BIG)) as Href.
  intros size b Hs Hb. apply (Href (transportable_tag _ _ _ _ Ht) Hmax); [| |done|].
  - eapply elements_decode; [exact Ht|exact Hmax| |done]. intros x Hx. apply elem_of_app. by left.
  - rewrite Forall_forall in IH. apply IH; [done|by eapply transportable_element| |done].
    etrans; [by eapply ttlv_element_le|exact Hmax].
  - rewrite Hb, ttlv_frame. unfold frame. cbn [node_value value_type payload].
    rewrite (pad8_zero _ (elements_mod8 _)). cbn [Z.to_nat zeros replicate].
    rewrite map_app, concat_app. cbn [map concat]. by rewrite <- !app_assoc.
Qed.

(** less than a header *)
Lemma header_refused k n l : (length l < 8)%nat → refuses (kmip_decode_ttlv (S k)) n l (- EIO).
Proof.
  intros Hl size b Hs Hb. cbn [kmip_decode_ttlv]. unfold KMIP_TTLV_HEADER_LENGTH.
  rewrite (size_fits_below size _ 8 Hs) by apply ttlv_length_ge.
  destruct (read_all_short b 8) as (b' & ->); [done|rewrite Hb; lia|]. by eexists _, _.
Qed.

(** a scalar that ends in its value or in its padding *)
Lemma scalar_value_refused k tag t len size (b : B) :
  t ≠ KMIP_TYPE_STRUCTURE → 0 <= len <= INT_MAX →
  Z.of_nat (length (bio_in b)) < len + pad8 len →
  ∃ s b', decode_value k tag t len size b = Done (inl (- EIO), s, b').
Proof.
  intros Ht Hlen Hs. unfold decode_value. rewrite bool_decide_false by done. cbn [negb andb].
  unfold KMIP_TTLV_BLOCK_LENGTH.
  destruct (decide (Z.of_nat (length (bio_in b)) < len)) as [Hv|Hv].
  { rewrite (proj2 (Z.ltb_lt _ _)) by lia.
    destruct (read_all_short b len) as (b' & ->); [lia|done|]. by eexists _, _. }
  assert (Hm : len mod 8 ≠ 0) by (intros E; rewrite (pad8_zero _ E) in Hs; lia).
  destruct (pad8_spec len) as [H8 _]; [lia|].
  rewrite (proj2 (Z.ltb_lt _ _)) by (destruct (decide (len = 0)) as [->|]; [done|lia]).
  destruct (BIO_read_law b len) as [Hr1 Hr2]; [destruct (decide (len = 0)) as [->|]; [done|lia]|].
  unfold read_all at 1. destruct (BIO_read b len) as [v b1]. cbn [fst snd] in Hr1, Hr2.
  rewrite Hr1, length_take, (proj2 (Z.eqb_eq _ _)) by lia.
  rewrite (proj2 (Z.eqb_neq _ _)) by done. cbn [negb]. rewrite <- pad8_code by lia.
  destruct (read_all_short b1 (pad8 len)) as (b2 & ->).
  - rewrite pad8_code by lia. unfold INT_MAX. dlia.
  - rewrite Hr2, length_drop. lia.
  - by eexists _, _.
Qed.

Lemma app_header_split {A} (h q l r : list A) :
  h ++ q = l ++ r → (length h <= length l)%nat → ∃ l', l = h ++ l' ∧ q = l' ++ r.
Proof.
  intros He Hle. exists (drop (length h) l).
  assert (Hl : l = h ++ drop (length h) l).
  { rewrite <- (take_drop (length h) l) at 1. f_equal.
    rewrite <- (take_app_le l r) by lia. by rewrite <- He, take_app_length. }
  split; [done|]. rewrite Hl, <- app_assoc in He. by apply app_inv_head in He.
Qed.

(** the header of a node's encoding and the rest of it *)
Lemma ttlv_split tag len name v :
  ttlv (KmipNode tag len name v)
  = (be_enc 3 tag ++ [kmip_type_code (value_type v)] ++ be_enc 4 (Z.of_nat (length (payload v)))) ++
    payload v ++ zeros (Z.to_nat (pad8 (Z.of_nat (length (payload v))))).
Proof. rewrite ttlv_frame. unfold frame. by rewrite <- !app_assoc. Qed.

Lemma scalar_truncated k tag len name v l r :
  let n := KmipNode tag len name v in
  value_type v ≠ KMIP_TYPE_STRUCTURE → transportable n = true →
  Z.of_nat (length (ttlv n)) <= INT_MAX → ttlv n = l ++ r → r ≠ [] →
  refuses (kmip_decode_ttlv (S k)) n l (- EIO).
Proof.
  intros n Hv Ht Hmax Hl Hr. destruct (decide (length l < 8)%nat) as [Hs|Hs]; [by apply header_refused|].
  pose proof (transportable_tag _ _ _ _ Ht) as Htag.
  apply andb_true_iff in Ht as [Ht _]. unfold n in *. clear n.
  intros size b Hsize Hb. rewrite ttlv_frame in Hmax, Hsize. rewrite length_frame in Hmax, Hsize.
  rewrite ttlv_split in Hl.
  assert (Hp : payload v = scalar_bytes v) by (by destruct v). rewrite Hp in *.
  set (p := scalar_bytes v) in *.
  destruct (pad8_spec (Z.of_nat (length p))) as [H8 _]; [lia|].
  apply app_header_split in Hl as (l' & -> & Hq);
    [|rewrite !length_app, !be_enc_length; simpl; lia].
  destruct (decode_header k size b tag (value_type v) (Z.of_nat (length p)) l') as (b1 & -> & Hb1).
  - done.
  - unfold INT_MAX in Hmax. lia.
  - apply (scalar_value_len tag len); [done..|]. fold p. lia.
  - intros s Es. specialize (Hsize s Es). lia.
  - by rewrite Hb, <- !app_assoc.
  - apply scalar_value_refused; [done|lia|]. rewrite Hb1.
    apply (f_equal length) in Hq. rewrite !length_app in Hq. unfold zeros in Hq.
    rewrite length_replicate in Hq. destruct r; [done|simpl in Hq]. lia.
Qed.

(** A message that is cut off *)
Lemma truncated n k l r :
  transportable n = true → Z.of_nat (length (ttlv n)) <= INT_MAX → (node_depth n <= k)%nat →
  ttlv n = l ++ r → r ≠ [] → refuses (kmip_decode_ttlv k) n l (- EIO).
Proof.
  revert k l r. induction n as [tag len name els IH|tag len name v Hv] using kmip_node_tree_ind;
    intros k l r Ht Hmax Hk Hl Hr.
  2: { destruct k as [|k]; [destruct v; simpl in Hk; lia|]. by eapply scalar_truncated. }
  destruct k as [|k]; [simpl in Hk; lia|].
  destruct (decide (length l < 8)%nat) as [Hs|Hs]; [by apply header_refused|].
  rewrite ttlv_split in Hl. cbn [payload value_type] in Hl.
  rewrite (pad8_zero _ (elements_mod8 els)), app_nil_r in Hl.
  apply app_header_split in Hl as (l' & -> & Hq);
    [|rewrite !length_app, !be_enc_length; simpl; lia].
  destruct (prefix_split els l' r Hq Hr) as (l1 & e & l2 & t & r' & -> & -> & He & Hr').
  assert (Hin : e ∈ l1 ++ e :: l2) by (apply elem_of_app; right; by left).
  cbn [node_depth] in Hk.
  assert (Hdep : ∀ x, x ∈ l1 ++ e :: l2 → (node_depth x <= k)%nat).
  { intros x Hx. eapply node_depth_element; [exact Hx|]. lia. }
  pose proof (structure_refused k tag len name l1 e l2 t (- EIO)) as Href.
  intros size b Hs' Hb. apply (Href (transportable_tag _ _ _ _ Ht) Hmax); [| |done|].
  - eapply elements_decode; [exact Ht|exact Hmax| |].
    + intros x Hx. apply elem_of_app. by left.
    + apply Forall_forall. intros x Hx. apply Hdep, elem_of_app. by left.
  - rewrite Forall_forall in IH. eapply IH; [done|by eapply transportable_element| |by apply Hdep|done|done].
    etrans; [by eapply ttlv_element_le|exact Hmax].
  - rewrite Hb. cbn [node_value payload value_type]. by rewrite <- !app_assoc.
Qed.
End Refused.

(** ** The encoder always returns

    Whatever the BIO does: with success, or with one of three errors.  A byte string must
    have a buffer of at least its length; the node comes back with its lengths changed and
    nothing else. *)
Definition encode_errors : list Z := [- EIO; - EINVAL; - EOVERFLOW].

Definition buffer_value (tag len : Z) (v : kmip_value kmip_node) : bool :=
  match v with BytesValue (Some s) => u32 len <=? Z.of_nat (length s) | _ => true end.
Definition buffers_ok : kmip_node → bool := node_all buffer_value.

Fixpoint unsized (n : kmip_node) : kmip_node :=
  let 'KmipNode tag _ name v := n in
  KmipNode tag 0 name (match v with StructureValue els => StructureValue (map unsized els) | v => v end).

Section Returns.
Context `{BnOps} {B : Type} `{BioOps B}.

Definition encode_returns (n : kmip_node) (m : outcome (Z * Z * kmip_node * B)) : Prop :=
  ∃ rc size n' b', m = Done (rc, size, n', b') ∧ unsized n' = unsized n ∧ (rc = 0 ∨ rc ∈ encode_errors).

Lemma get_length_errors n rc : kmip_node_get_length n = inl rc → rc ∈ encode_errors.
Proof.
  revert rc. induction n as [tag len name els IH|tag len name v Hv] using kmip_node_tree_ind; intros rc.
  - cbn [kmip_node_get_length]. generalize 0. induction IH as [|e els He _ IH']; intros acc; [done|].
    cbn [elements_length]. destruct (kmip_node_get_length e) as [r|l]; [intros [= <-]; by apply He|].
    destruct (_ <? acc); [intros [= <-]; by repeat constructor|apply IH'].
  - destruct v as [?|?|?|?|?|?|[?|]|?|?|?|?]; done.
Qed.

Lemma ttlv_finish_rc size o vl (b : B) :
  ∃ rc size' b', ttlv_finish size o vl b = (rc, size', b') ∧ (rc = 0 ∨ rc ∈ encode_errors).
Proof.
  unfold ttlv_finish, encode_errors. destruct (match o with Some l => _ | None => _ end) as [[] b1]; cbn [negb].
  - destruct (_ =? 0); [by eexists _, _, _; split; [|left]|]. destruct (write_all _ _) as [[] b2]; cbn [negb].
    + by eexists _, _, _; split; [|left].
    + eexists _, _, _. split; [done|]. right. by repeat constructor.
  - eexists _, _, _. split; [done|]. right. by repeat constructor.
Qed.

Lemma u32_le x : 0 <= x → u32 x <= x.
Proof. intros Hx. apply Z.mod_le; lia. Qed.

(** the bytes of a value are in its buffer *)
Lemma scalar_bytes_return tag len name v l :
  value_type v ≠ KMIP_TYPE_STRUCTURE → buffer_value tag len v = true →
  kmip_node_get_length (KmipNode tag len name v) = inr l →
  (∃ p, ttlv_scalar_bytes v (u32 l) = Done (inr p)) ∨
  (∃ rc, ttlv_scalar_bytes v (u32 l) = Done (inl rc) ∧ rc ∈ encode_errors).
Proof.
  intros Hv Hb Hl. unfold encode_errors.
  destruct v as [?|?|?|bn|?|?|[s|]|[s|]|?|?|?]; try done; try (left; by eexists);
    cbn [ttlv_scalar_bytes].
  - unfold kmip_encode_bignum. destruct bn as [bn|]; [|right; eexists; split; [done|by repeat constructor]].
    destruct (BN_bn2binpad _ _); [left; by destruct (BN_is_negative bn); eexists|right; eexists; split; [done|by repeat constructor]].
  - injection Hl as <-. left. unfold buffer_bytes. pose proof (u32_le (Z.of_nat (strlen s)) ltac:(lia)).
    destruct (cstr_prefix s) as [r Hr]. pose proof (f_equal length Hr) as Hlen. rewrite length_app in Hlen.
    unfold strlen in *. rewrite (proj2 (Z.ltb_ge _ _)) by (rewrite length_app; simpl; lia). by eexists.
  - injection Hl as <-. left. unfold buffer_bytes. cbn [buffer_value] in Hb. apply Z.leb_le in Hb.
    rewrite (proj2 (Z.ltb_ge _ _)) by lia. by eexists.
Qed.

Lemma encode_scalar_returns tag len name v (b : B) :
  value_type v ≠ KMIP_TYPE_STRUCTURE → buffer_value tag len v = true →
  encode_returns (KmipNode tag len name v) (kmip_encode_ttlv (KmipNode tag len name v) b).
Proof.
  intros Hv Hb. set (n := KmipNode tag len name v).
  assert (Hbody : kmip_encode_ttlv n b =
    match kmip_node_get_length n with
    | inl rc => Done (rc, 0, n, b)
    | inr l =>
        let '(ok, bio) := write_all b (ttlv_header tag (value_type v) (u32 l)) in
        if negb ok then Done (- EIO, 0, KmipNode tag (u32 l) name v, bio) else
        r ← ttlv_scalar_bytes v (u32 l);
        match r with
        | inl rc => Done (rc, KMIP_TTLV_HEADER_LENGTH, KmipNode tag (u32 l) name v, bio)
        | inr (value, value_len) =>
            let '(rc, size, bio) := ttlv_finish KMIP_TTLV_HEADER_LENGTH value value_len bio in
            Done (rc, size, KmipNode tag (u32 l) name v, bio)
        end
    end) by (by destruct v).
  rewrite Hbody. destruct (kmip_node_get_length n) as [rc|l] eqn:El.
  { eexists _, _, _, _. split; [done|]. split; [done|]. right. by eapply get_length_errors. }
  assert (Hu : unsized (KmipNode tag (u32 l) name v) = unsized n) by done.
  destruct (write_all _ _) as [[] b1]; cbn [negb].
  - destruct (scalar_bytes_return tag len name v l Hv Hb El) as [[[o vl] ->]|(rc & -> & Hrc)]; rewrite Done_bind.
    + destruct (ttlv_finish_rc KMIP_TTLV_HEADER_LENGTH o vl b1) as (rc & size & b2 & -> & Hrc).
      by eexists _, _, _, _.
    + eexists _, _, _, _. split; [done|]. split; [done|]. by right.
  - eexists _, _, _, _. split; [done|]. split; [done|]. right. unfold encode_errors. by repeat constructor.
Qed.

Lemma encode_elements_return els :
  Forall (λ e, ∀ b : B, encode_returns e (kmip_encode_ttlv e b)) els →
  ∀ vl (b : B), ∃ rc vl' els' b', encode_elements kmip_encode_ttlv els vl b = Done (rc, vl', els', b') ∧
    map unsized els' = map unsized els ∧ (rc = 0 ∨ rc ∈ encode_errors).
Proof.
  induction 1 as [|e els He _ IH]; intros vl b; [by eexists _, _, _, _; split_and!; [..|left]|].
  cbn [encode_elements]. destruct (He b) as (rc & el & e' & b1 & -> & Hu & Hrc). rewrite Done_bind.
  destruct (Z.eqb_spec rc 0) as [->|Hne]; cbn [negb].
  - destruct (IH (u64 (vl + el)) b1) as (rc' & vl' & els' & b2 & -> & Hu' & Hrc'). rewrite Done_bind.
    eexists _, _, _, _. split; [done|]. cbn [map]. by rewrite Hu, Hu'.
  - eexists _, _, _, _. split; [done|]. cbn [map]. rewrite Hu. split; [done|]. by destruct Hrc; [|right].
Qed.

Lemma encode_always_returns n (b : B) : buffers_ok n = true → encode_returns n (kmip_encode_ttlv n b).
Proof.
  revert b. induction n as [tag len name els IH|tag len name v Hv] using kmip_node_tree_ind; intros b Hb.
  2: { apply encode_scalar_returns; [done|]. by apply andb_true_iff in Hb as [Hb _]. }
  apply andb_true_iff in Hb as [_ Hels]. rewrite forallb_forall in Hels.
  assert (Hall : Forall (λ e, ∀ b : B, encode_returns e (kmip_encode_ttlv e b)) els).
  { rewrite Forall_forall in IH |- *. intros e He b'. apply IH; [done|]. by apply Hels, list_elem_of_In. }
  cbn [kmip_encode_ttlv]. destruct (kmip_node_get_length _) as [rc|l] eqn:El.
  { eexists _, _, _, _. split; [done|]. split; [done|]. right. by eapply get_length_errors. }
  assert (Hio : - EIO ∈ encode_errors) by (unfold encode_errors; by repeat constructor).
  destruct (write_all _ _) as [[] b1]; cbn [negb]; [|by eexists _, _, _, _; split_and!; [..|right]].
  destruct (encode_elements_return els Hall 0 b1) as (rc & vl & els' & b2 & -> & Hu & Hrc). rewrite Done_bind.
  assert (Hn : unsized (KmipNode tag (u32 l) name (StructureValue els'))
               = unsized (KmipNode tag len name (StructureValue els))) by (cbn [unsized]; by rewrite Hu).
  destruct (Z.eqb_spec rc 0) as [->|Hne]; cbn [negb].
  - destruct (_ =? _); cbn [negb]; [|by eexists _, _, _, _; split_and!; [..|right]].
    destruct (ttlv_finish_rc KMIP_TTLV_HEADER_LENGTH None vl b2) as (rc & size & b3 & -> & Hrc').
    by eexists _, _, _, _.
  - by eexists _, _, _, _.
Qed.
End Returns.
