(* ===== verification/KmipAttr.v ===== *)
(** Tags of KMIP messages, the names of attributes in KMIP v1.x, and attributes.

    The values of [enum kmip_tag] that the modelled code uses
    (src/include/kmipclient/kmipclient.h), the two other enumerations whose values
    it tests, and the table of src/libkmipclient/names.c that gives each attribute
    the name it has in the protocol versions 1.x, with its two look-ups. *)
From S2P Require Import Prelude Codec Kmip.

(** ** Enumerations *)

Definition KMIP_TAG_ACTIVATION_DATE : Z := 0x420001.
Definition KMIP_TAG_APPLICATION_DATA : Z := 0x420002.
Definition KMIP_TAG_APPLICATION_NAMESPACE : Z := 0x420003.
Definition KMIP_TAG_APPLICATION_SPECIFIC_INFORMATION : Z := 0x420004.
Definition KMIP_TAG_ARCHIVE_DATE : Z := 0x420005.
Definition KMIP_TAG_ASYNCHRONOUS_CORRELATION_VALUE : Z := 0x420006.
Definition KMIP_TAG_ASYNCHRONOUS_INDICATOR : Z := 0x420007.
Definition KMIP_TAG_ATTRIBUTE : Z := 0x420008.
Definition KMIP_TAG_ATTRIBUTE_INDEX : Z := 0x420009.
Definition KMIP_TAG_ATTRIBUTE_NAME : Z := 0x42000A.
Definition KMIP_TAG_ATTRIBUTE_VALUE : Z := 0x42000B.
Definition KMIP_TAG_BATCH_COUNT : Z := 0x42000D.
Definition KMIP_TAG_BATCH_ERROR_CONTINUATION_OPTION : Z := 0x42000E.
Definition KMIP_TAG_BATCH_ITEM : Z := 0x42000F.
Definition KMIP_TAG_BATCH_ORDER_OPTION : Z := 0x420010.
Definition KMIP_TAG_BLOCK_CIPHER_MODE : Z := 0x420011.
Definition KMIP_TAG_CERTIFICATE : Z := 0x420013.
Definition KMIP_TAG_CERTIFICATE_IDENTIFIER : Z := 0x420014.
Definition KMIP_TAG_CERTIFICATE_ISSUER : Z := 0x420015.
Definition KMIP_TAG_CERTIFICATE_REQUEST : Z := 0x420018.
Definition KMIP_TAG_CERTIFICATE_SUBJECT : Z := 0x42001A.
Definition KMIP_TAG_CERTIFICATE_TYPE : Z := 0x42001D.
Definition KMIP_TAG_COMMON_TEMPLATE_ATTRIBUTE : Z := 0x42001F.
Definition KMIP_TAG_COMPROMIZE_DATE : Z := 0x420020.
Definition KMIP_TAG_COMPROMISE_OCCURRENCE_DATE : Z := 0x420021.
Definition KMIP_TAG_CONTACT_INFORMATION : Z := 0x420022.
Definition KMIP_TAG_CRYPTOGRAPHIC_ALGORITHM : Z := 0x420028.
Definition KMIP_TAG_CRYPTOGRAPHIC_DOMAIN_PARAMETERS : Z := 0x420029.
Definition KMIP_TAG_CRYPTOGRAPHIC_LENGTH : Z := 0x42002A.
Definition KMIP_TAG_CRYPTOGRAPHIC_PARAMETERS : Z := 0x42002B.
Definition KMIP_TAG_CRYPTOGRAPHIC_USAGE_MASK : Z := 0x42002C.
Definition KMIP_TAG_CUSTOM_ATTRIBUTE : Z := 0x42002D.
Definition KMIP_TAG_DEACTIVATION_DATE : Z := 0x42002F.
Definition KMIP_TAG_DESTROY_DATE : Z := 0x420033.
Definition KMIP_TAG_DIGEST : Z := 0x420034.
Definition KMIP_TAG_DIGEST_VALUE : Z := 0x420035.
Definition KMIP_TAG_ENCRYPTION_KEY_INFORMATION : Z := 0x420036.
Definition KMIP_TAG_HASHING_ALGORITHM : Z := 0x420038.
Definition KMIP_TAG_INITIAL_DATE : Z := 0x420039.
Definition KMIP_TAG_IV_COUNTER_NONCE : Z := 0x42003D.
Definition KMIP_TAG_KEY : Z := 0x42003F.
Definition KMIP_TAG_KEY_BLOCK : Z := 0x420040.
Definition KMIP_TAG_KEY_COMPRESSION_TYPE : Z := 0x420041.
Definition KMIP_TAG_KEY_FORMAT_TYPE : Z := 0x420042.
Definition KMIP_TAG_KEY_MATERIAL : Z := 0x420043.
Definition KMIP_TAG_KEY_VALUE : Z := 0x420045.
Definition KMIP_TAG_KEY_WRAPPING_DATA : Z := 0x420046.
Definition KMIP_TAG_KEY_WRAPPING_SPECIFICATION : Z := 0x420047.
Definition KMIP_TAG_LAST_CHANGE_DATE : Z := 0x420048.
Definition KMIP_TAG_LEASE_TIME : Z := 0x420049.
Definition KMIP_TAG_LINK : Z := 0x42004A.
Definition KMIP_TAG_LINK_TYPE : Z := 0x42004B.
Definition KMIP_TAG_LINKED_OBJECT_IDENTIFIER : Z := 0x42004C.
Definition KMIP_TAG_MAC_SIGNATURE : Z := 0x42004D.
Definition KMIP_TAG_MAC_SIGNATURE_KEY_INFORMATION : Z := 0x42004E.
Definition KMIP_TAG_MAXIMUM_ITEMS : Z := 0x42004F.
Definition KMIP_TAG_MAXIMUM_RESPONSE_SIZE : Z := 0x420050.
Definition KMIP_TAG_MODULUS : Z := 0x420052.
Definition KMIP_TAG_NAME : Z := 0x420053.
Definition KMIP_TAG_NAME_TYPE : Z := 0x420054.
Definition KMIP_TAG_NAME_VALUE : Z := 0x420055.
Definition KMIP_TAG_OBJECT_GROUP : Z := 0x420056.
Definition KMIP_TAG_OBJECT_TYPE : Z := 0x420057.
Definition KMIP_TAG_OPAQUE_DATA_TYPE : Z := 0x420059.
Definition KMIP_TAG_OPAQUE_OBJECT : Z := 0x42005B.
Definition KMIP_TAG_OPERATION : Z := 0x42005C.
Definition KMIP_TAG_OPERATION_POLICY_NAME : Z := 0x42005D.
Definition KMIP_TAG_PADDING_METHOD : Z := 0x42005F.
Definition KMIP_TAG_PRIVATE_KEY : Z := 0x420064.
Definition KMIP_TAG_PRIVATE_KEY_TEMPLATE_ATTRIBUTE : Z := 0x420065.
Definition KMIP_TAG_PROCESS_START_DATE : Z := 0x420067.
Definition KMIP_TAG_PROTECT_STOP_DATE : Z := 0x420068.
Definition KMIP_TAG_PROTOCOL_VERSION : Z := 0x420069.
Definition KMIP_TAG_PROTOCOL_VERSION_MAJOR : Z := 0x42006A.
Definition KMIP_TAG_PROTOCOL_VERSION_MINOR : Z := 0x42006B.
Definition KMIP_TAG_PUBLIC_EXPONENT : Z := 0x42006C.
Definition KMIP_TAG_PUBLIC_KEY : Z := 0x42006D.
Definition KMIP_TAG_PUBLIC_KEY_TEMPLATE_ATTRIBUTE : Z := 0x42006E.
Definition KMIP_TAG_Q_LENGTH : Z := 0x420073.
Definition KMIP_TAG_QUERY_FUNCTION : Z := 0x420074.
Definition KMIP_TAG_RECOMMENDED_CURVE : Z := 0x420075.
Definition KMIP_TAG_REQUEST_HEADER : Z := 0x420077.
Definition KMIP_TAG_REQUEST_MESSAGE : Z := 0x420078.
Definition KMIP_TAG_REQUEST_PAYLOAD : Z := 0x420079.
Definition KMIP_TAG_RESPONSE_HEADER : Z := 0x42007A.
Definition KMIP_TAG_RESPONSE_MESSAGE : Z := 0x42007B.
Definition KMIP_TAG_RESPONSE_PAYLOAD : Z := 0x42007C.
Definition KMIP_TAG_RESULT_MESSAGE : Z := 0x42007D.
Definition KMIP_TAG_RESULT_REASON : Z := 0x42007E.
Definition KMIP_TAG_RESULT_STATUS : Z := 0x42007F.
Definition KMIP_TAG_REVOCATION_MESSAGE : Z := 0x420080.
Definition KMIP_TAG_REVOCATION_REASON : Z := 0x420081.
Definition KMIP_TAG_REVOCATION_REASON_CODE : Z := 0x420082.
Definition KMIP_TAG_KEY_ROLE_TYPE : Z := 0x420083.
Definition KMIP_TAG_SECRET_DATA : Z := 0x420085.
Definition KMIP_TAG_SERVER_INFORMATION : Z := 0x420088.
Definition KMIP_TAG_STATE : Z := 0x42008D.
Definition KMIP_TAG_STORAGE_STATUS_MASK : Z := 0x42008E.
Definition KMIP_TAG_SYMMETRIC_KEY : Z := 0x42008F.
Definition KMIP_TAG_TEMPLATE_ATTRIBUTE : Z := 0x420091.
Definition KMIP_TAG_TIME_STAMP : Z := 0x420092.
Definition KMIP_TAG_UNIQUE_BATCH_ITEM_ID : Z := 0x420093.
Definition KMIP_TAG_UNIQUE_IDENTIFIER : Z := 0x420094.
Definition KMIP_TAG_USAGE_LIMITS : Z := 0x420095.
Definition KMIP_TAG_VENDOR_IDENTIFICATION : Z := 0x42009D.
Definition KMIP_TAG_WRAPPING_METHOD : Z := 0x42009E.
Definition KMIP_TAG_ENCODING_OPTION : Z := 0x4200A3.
Definition KMIP_TAG_EXTENSION_INFORMATION : Z := 0x4200A4.
Definition KMIP_TAG_FRESH : Z := 0x4200A8.
Definition KMIP_TAG_OBJECT_GROUP_MEMBER : Z := 0x4200AC.
Definition KMIP_TAG_CERTIFICATE_LENGTH : Z := 0x4200AD.
Definition KMIP_TAG_DIGITAL_SIGNATURE_ALGORITHM : Z := 0x4200AE.
Definition KMIP_TAG_X_509_CERTIFICATE_IDENTIFIER : Z := 0x4200B5.
Definition KMIP_TAG_X_509_CERTIFICATE_ISSUER : Z := 0x4200B6.
Definition KMIP_TAG_X_509_CERTIFICATE_SUBJECT : Z := 0x4200B7.
Definition KMIP_TAG_KEY_VALUE_LOCATION : Z := 0x4200B8.
Definition KMIP_TAG_KEY_VALUE_LOCATION_VALUE : Z := 0x4200B9.
Definition KMIP_TAG_KEY_VALUE_LOCATION_TYPE : Z := 0x4200BA.
Definition KMIP_TAG_KEY_VALUE_PRESENT : Z := 0x4200BB.
Definition KMIP_TAG_ORIGINAL_CREATION_DATE : Z := 0x4200BC.
Definition KMIP_TAG_PGP_KEY : Z := 0x4200BD.
Definition KMIP_TAG_ALTERNATE_NAME : Z := 0x4200BF.
Definition KMIP_TAG_ALTERNATE_NAME_VALUE : Z := 0x4200C0.
Definition KMIP_TAG_ALTERNATE_NAME_TYPE : Z := 0x4200C1.
Definition KMIP_TAG_RANDOM_IV : Z := 0x4200C5.
Definition KMIP_TAG_ATTESTATION_TYPE : Z := 0x4200C7.
Definition KMIP_TAG_IV_LENGTH : Z := 0x4200CD.
Definition KMIP_TAG_TAG_LENGTH : Z := 0x4200CE.
Definition KMIP_TAG_FIXED_FIELD_LENGTH : Z := 0x4200CF.
Definition KMIP_TAG_COUNTER_LENGTH : Z := 0x4200D0.
Definition KMIP_TAG_INITIAL_COUNTER_VALUE : Z := 0x4200D1.
Definition KMIP_TAG_INVOCATION_FIELD_LENGTH : Z := 0x4200D2.
Definition KMIP_TAG_OFFSET_ITEMS : Z := 0x4200D4.
Definition KMIP_TAG_LOCATED_ITEMS : Z := 0x4200D5.
Definition KMIP_TAG_RNG_PARAMETERS : Z := 0x4200D9.
Definition KMIP_TAG_RANDOM_NUMBER_GENERATOR : Z := 0x4200DE.
Definition KMIP_TAG_VALIDATION_INFORMATION : Z := 0x4200DF.
Definition KMIP_TAG_PROFILE_INFORMATION : Z := 0x4200EB.
Definition KMIP_TAG_CLIENT_REGISTRATION_METHOD : Z := 0x4200F6.
Definition KMIP_TAG_CAPABILITY_INFORMATION : Z := 0x4200F7.
Definition KMIP_TAG_KEY_WRAP_TYPE : Z := 0x4200F8.
Definition KMIP_TAG_PKCS_12_FRIENDLY_NAME : Z := 0x4200FB.
Definition KMIP_TAG_DESCRIPTION : Z := 0x4200FC.
Definition KMIP_TAG_COMMENT : Z := 0x4200FD.
Definition KMIP_TAG_SALT_LENGTH : Z := 0x420100.
Definition KMIP_TAG_MASK_GENERATOR : Z := 0x420101.
Definition KMIP_TAG_MASK_GENERATOR_HASHING_ALGORITHM : Z := 0x420102.
Definition KMIP_TAG_TRAILER_FIELD : Z := 0x420104.
Definition KMIP_TAG_CLIENT_CORRELATION_VALUE : Z := 0x420105.
Definition KMIP_TAG_SERVER_CORRELATION_VALUE : Z := 0x420106.
Definition KMIP_TAG_CERTIFICATE_SUBJECT_CN : Z := 0x420108.
Definition KMIP_TAG_CERTIFICATE_SUBJECT_O : Z := 0x420109.
Definition KMIP_TAG_CERTIFICATE_SUBJECT_OU : Z := 0x42010A.
Definition KMIP_TAG_CERTIFICATE_SUBJECT_EMAIL : Z := 0x42010B.
Definition KMIP_TAG_CERTIFICATE_SUBJECT_C : Z := 0x42010C.
Definition KMIP_TAG_CERTIFICATE_SUBJECT_ST : Z := 0x42010D.
Definition KMIP_TAG_CERTIFICATE_SUBJECT_L : Z := 0x42010E.
Definition KMIP_TAG_CERTIFICATE_SUBJECT_UID : Z := 0x42010F.
Definition KMIP_TAG_CERTIFICATE_SUBJECT_SERIAL_NUMBER : Z := 0x420110.
Definition KMIP_TAG_CERTIFICATE_SUBJECT_TITLE : Z := 0x420111.
Definition KMIP_TAG_CERTIFICATE_SUBJECT_DC : Z := 0x420112.
Definition KMIP_TAG_CERTIFICATE_SUBJECT_DN_QUALIFIER : Z := 0x420113.
Definition KMIP_TAG_CERTIFICATE_ISSUER_CN : Z := 0x420114.
Definition KMIP_TAG_CERTIFICATE_ISSUER_O : Z := 0x420115.
Definition KMIP_TAG_CERTIFICATE_ISSUER_OU : Z := 0x420116.
Definition KMIP_TAG_CERTIFICATE_ISSUER_EMAIL : Z := 0x420117.
Definition KMIP_TAG_CERTIFICATE_ISSUER_C : Z := 0x420118.
Definition KMIP_TAG_CERTIFICATE_ISSUER_ST : Z := 0x420119.
Definition KMIP_TAG_CERTIFICATE_ISSUER_L : Z := 0x42011A.
Definition KMIP_TAG_CERTIFICATE_ISSUER_UID : Z := 0x42011B.
Definition KMIP_TAG_CERTIFICATE_ISSUER_SERIAL_NUMBER : Z := 0x42011C.
Definition KMIP_TAG_CERTIFICATE_ISSUER_TITLE : Z := 0x42011D.
Definition KMIP_TAG_CERTIFICATE_ISSUER_DC : Z := 0x42011E.
Definition KMIP_TAG_CERTIFICATE_ISSUER_DN_QUALIFIER : Z := 0x42011F.
Definition KMIP_TAG_SENSITIVE : Z := 0x420120.
Definition KMIP_TAG_ALWAYS_SENSITIVE : Z := 0x420121.
Definition KMIP_TAG_EXTRACTABLE : Z := 0x420122.
Definition KMIP_TAG_NEVER_EXTRACTABLE : Z := 0x420123.
Definition KMIP_TAG_ATTRIBUTES : Z := 0x420125.
Definition KMIP_TAG_COMMON_ATTRIBUTES : Z := 0x420126.
Definition KMIP_TAG_PRIVATE_KEY_ATTRIBUTES : Z := 0x420127.
Definition KMIP_TAG_PUBLIC_KEY_ATTRIBUTES : Z := 0x420128.
Definition KMIP_TAG_SHORT_UNIQUE_IDENTIFIER : Z := 0x420136.
Definition KMIP_TAG_NIST_KEY_TYPE : Z := 0x42013A.
Definition KMIP_TAG_ATTRIBUTE_REFERENCE : Z := 0x42013B.
Definition KMIP_TAG_CURRENT_ATTRIBUTE : Z := 0x42013C.
Definition KMIP_TAG_NEW_ATTRIBUTE : Z := 0x42013D.
Definition KMIP_TAG_PROFILE_VERSION : Z := 0x420142.
Definition KMIP_TAG_PROFILE_VERSION_MAJOR : Z := 0x420143.
Definition KMIP_TAG_PROFILE_VERSION_MINOR : Z := 0x420144.
Definition KMIP_TAG_PROTECTION_LEVEL : Z := 0x420145.
Definition KMIP_TAG_PROTECTION_PERIOD : Z := 0x420146.
Definition KMIP_TAG_QUANTUM_SAFE : Z := 0x420147.
Definition KMIP_TAG_DEFAULTS_INFORMATION : Z := 0x420152.
Definition KMIP_TAG_PROTECTION_STORAGE_MASK : Z := 0x42015E.
Definition KMIP_TAG_PROTECTION_STORAGE_MASKS : Z := 0x42015F.
Definition KMIP_QUERY_OPERATIONS : Z := 0x01.
Definition KMIP_QUERY_OBJECTS : Z := 0x02.
Definition KMIP_QUERY_SERVER_INFORMATION : Z := 0x03.
Definition KMIP_QUERY_APPLICATION_NAMESPACES : Z := 0x04.
Definition KMIP_QUERY_EXTENSION_LIST : Z := 0x05.
Definition KMIP_QUERY_EXTENSION_MAP : Z := 0x06.
Definition KMIP_QUERY_ATTESTATION_TYPES : Z := 0x07.
Definition KMIP_QUERY_QUERY_RNGS : Z := 0x08.
Definition KMIP_QUERY_VALIDATIONS : Z := 0x09.
Definition KMIP_QUERY_PROFILES : Z := 0x0A.
Definition KMIP_QUERY_CAPABILITIES : Z := 0x0B.
Definition KMIP_QUERY_CLIENT_REGISTRATION_METHODS : Z := 0x0C.
Definition KMIP_QUERY_DEFAULTS_INFORMATION : Z := 0x0D.
Definition KMIP_QUERY_STORAGE_PROTECTION_MASKS : Z := 0x0E.
Definition KMIP_REVOK_RSN_KEY_COMPROMISE : Z := 0x02.
Definition KMIP_REVOK_RSN_CA_COMPROMISE : Z := 0x03.

(** ** Names of attributes *)

Definition kmip_v1_attribute_names : list (Z * list Z) :=
  [(KMIP_TAG_UNIQUE_IDENTIFIER, bytes_of_string "Unique Identifier");
   (KMIP_TAG_NAME, bytes_of_string "Name");
   (KMIP_TAG_OBJECT_TYPE, bytes_of_string "Object Type");
   (KMIP_TAG_CRYPTOGRAPHIC_ALGORITHM, bytes_of_string "Cryptographic Algorithm");
   (KMIP_TAG_CRYPTOGRAPHIC_DOMAIN_PARAMETERS, bytes_of_string "Cryptographic Domain Parameters");
   (KMIP_TAG_CRYPTOGRAPHIC_LENGTH, bytes_of_string "Cryptographic Length");
   (KMIP_TAG_CRYPTOGRAPHIC_PARAMETERS, bytes_of_string "Cryptographic Parameters");
   (KMIP_TAG_CERTIFICATE_TYPE, bytes_of_string "Certificate Type");
   (KMIP_TAG_CERTIFICATE_IDENTIFIER, bytes_of_string "Certificate Identifier");
   (KMIP_TAG_CERTIFICATE_ISSUER, bytes_of_string "Certificate Issuer");
   (KMIP_TAG_CERTIFICATE_SUBJECT, bytes_of_string "Certificate Subject");
   (KMIP_TAG_DIGEST, bytes_of_string "Digest");
   (KMIP_TAG_OPERATION_POLICY_NAME, bytes_of_string "Operation Policy Name");
   (KMIP_TAG_CRYPTOGRAPHIC_USAGE_MASK, bytes_of_string "Cryptographic Usage Mask");
   (KMIP_TAG_LEASE_TIME, bytes_of_string "Lease Time");
   (KMIP_TAG_USAGE_LIMITS, bytes_of_string "Usage Limits");
   (KMIP_TAG_STATE, bytes_of_string "State");
   (KMIP_TAG_INITIAL_DATE, bytes_of_string "Initial Date");
   (KMIP_TAG_ACTIVATION_DATE, bytes_of_string "Activation Date");
   (KMIP_TAG_PROCESS_START_DATE, bytes_of_string "Process Start Date");
   (KMIP_TAG_PROTECT_STOP_DATE, bytes_of_string "Protect Stop Date");
   (KMIP_TAG_DEACTIVATION_DATE, bytes_of_string "Deactivation Date");
   (KMIP_TAG_DESTROY_DATE, bytes_of_string "Destroy Date");
   (KMIP_TAG_COMPROMISE_OCCURRENCE_DATE, bytes_of_string "Compromise Occurrence Date");
   (KMIP_TAG_COMPROMIZE_DATE, bytes_of_string "Compromise Date");
   (KMIP_TAG_REVOCATION_REASON, bytes_of_string "Revocation Reason");
   (KMIP_TAG_ARCHIVE_DATE, bytes_of_string "Archive Date");
   (KMIP_TAG_OBJECT_GROUP, bytes_of_string "Object Group");
   (KMIP_TAG_LINK, bytes_of_string "Link");
   (KMIP_TAG_APPLICATION_SPECIFIC_INFORMATION, bytes_of_string "Application Specific Information");
   (KMIP_TAG_CONTACT_INFORMATION, bytes_of_string "Contact Information");
   (KMIP_TAG_LAST_CHANGE_DATE, bytes_of_string "Last Change Date");
   (KMIP_TAG_CUSTOM_ATTRIBUTE, bytes_of_string "Custom Attribute");
   (KMIP_TAG_ALTERNATE_NAME, bytes_of_string "Alternative Name");
   (KMIP_TAG_KEY_VALUE_PRESENT, bytes_of_string "Key Value Present");
   (KMIP_TAG_KEY_VALUE_LOCATION, bytes_of_string "Key Value Location");
   (KMIP_TAG_ORIGINAL_CREATION_DATE, bytes_of_string "Original Creation Date");
   (KMIP_TAG_RANDOM_NUMBER_GENERATOR, bytes_of_string "Random Number Generator");
   (KMIP_TAG_PKCS_12_FRIENDLY_NAME, bytes_of_string "PKCS#12 Friendly Name");
   (KMIP_TAG_DESCRIPTION, bytes_of_string "Description");
   (KMIP_TAG_COMMENT, bytes_of_string "Comment");
   (KMIP_TAG_SENSITIVE, bytes_of_string "Sensitive");
   (KMIP_TAG_ALWAYS_SENSITIVE, bytes_of_string "Always Sensitive");
   (KMIP_TAG_EXTRACTABLE, bytes_of_string "Extractable");
   (KMIP_TAG_NEVER_EXTRACTABLE, bytes_of_string "Never Extractable");
   (KMIP_TAG_CERTIFICATE_SUBJECT_CN, bytes_of_string "Certificate Subject CN");
   (KMIP_TAG_CERTIFICATE_SUBJECT_O, bytes_of_string "Certificate Subject O");
   (KMIP_TAG_CERTIFICATE_SUBJECT_OU, bytes_of_string "Certificate Subject OU");
   (KMIP_TAG_CERTIFICATE_SUBJECT_EMAIL, bytes_of_string "Certificate Subject Email");
   (KMIP_TAG_CERTIFICATE_SUBJECT_C, bytes_of_string "Certificate Subject C");
   (KMIP_TAG_CERTIFICATE_SUBJECT_ST, bytes_of_string "Certificate Subject ST");
   (KMIP_TAG_CERTIFICATE_SUBJECT_L, bytes_of_string "Certificate Subject L");
   (KMIP_TAG_CERTIFICATE_SUBJECT_UID, bytes_of_string "Certificate Subject UID");
   (KMIP_TAG_CERTIFICATE_SUBJECT_SERIAL_NUMBER, bytes_of_string "Certificate Subject Serial Number");
   (KMIP_TAG_CERTIFICATE_SUBJECT_TITLE, bytes_of_string "Certificate Subject Title");
   (KMIP_TAG_CERTIFICATE_SUBJECT_DC, bytes_of_string "Certificate Subject DC");
   (KMIP_TAG_CERTIFICATE_SUBJECT_DN_QUALIFIER, bytes_of_string "Certificate Subject DN Qualifier");
   (KMIP_TAG_CERTIFICATE_ISSUER_CN, bytes_of_string "Certificate Issuer CN");
   (KMIP_TAG_CERTIFICATE_ISSUER_O, bytes_of_string "Certificate Issuer O");
   (KMIP_TAG_CERTIFICATE_ISSUER_OU, bytes_of_string "Certificate Issuer OU");
   (KMIP_TAG_CERTIFICATE_ISSUER_EMAIL, bytes_of_string "Certificate Issuer Email");
   (KMIP_TAG_CERTIFICATE_ISSUER_C, bytes_of_string "Certificate Issuer C");
   (KMIP_TAG_CERTIFICATE_ISSUER_ST, bytes_of_string "Certificate Issuer ST");
   (KMIP_TAG_CERTIFICATE_ISSUER_L, bytes_of_string "Certificate Issuer L");
   (KMIP_TAG_CERTIFICATE_ISSUER_UID, bytes_of_string "Certificate Issuer UID");
   (KMIP_TAG_CERTIFICATE_ISSUER_SERIAL_NUMBER, bytes_of_string "Certificate Issuer Serial Number");
   (KMIP_TAG_CERTIFICATE_ISSUER_TITLE, bytes_of_string "Certificate Issuer Title");
   (KMIP_TAG_CERTIFICATE_ISSUER_DC, bytes_of_string "Certificate Issuer DC");
   (KMIP_TAG_CERTIFICATE_ISSUER_DN_QUALIFIER, bytes_of_string "Certificate Issuer DN Qualifier");
   (KMIP_TAG_CERTIFICATE_TYPE, bytes_of_string "Certificate Type");
   (KMIP_TAG_CERTIFICATE_LENGTH, bytes_of_string "Certificate Length");
   (KMIP_TAG_DIGITAL_SIGNATURE_ALGORITHM, bytes_of_string "Digital Signature Algorithm");
   (KMIP_TAG_FRESH, bytes_of_string "Fresh");
   (KMIP_TAG_KEY_FORMAT_TYPE, bytes_of_string "Key Format Type");
   (KMIP_TAG_NIST_KEY_TYPE, bytes_of_string "NIST Key Type");
   (KMIP_TAG_OPAQUE_DATA_TYPE, bytes_of_string "Opaque Data Type");
   (KMIP_TAG_PROTECTION_LEVEL, bytes_of_string "Protection Level");
   (KMIP_TAG_PROTECTION_PERIOD, bytes_of_string "Protection Period");
   (KMIP_TAG_PROTECTION_STORAGE_MASK, bytes_of_string "Protection Storage Mask");
   (KMIP_TAG_QUANTUM_SAFE, bytes_of_string "Quantum Safe");
   (KMIP_TAG_SHORT_UNIQUE_IDENTIFIER, bytes_of_string "Short Unique Identifier");
   (KMIP_TAG_ATTRIBUTE, bytes_of_string "Vendor Attribute");
   (KMIP_TAG_X_509_CERTIFICATE_IDENTIFIER, bytes_of_string "X.509 Certificate Identifier");
   (KMIP_TAG_X_509_CERTIFICATE_ISSUER, bytes_of_string "X.509 Certificate Issuer");
   (KMIP_TAG_X_509_CERTIFICATE_SUBJECT, bytes_of_string "X.509 Certificate Subject")].

Definition kmip_enum_name_by_value (info : list (Z * list Z)) (val : Z) : option (list Z) :=
  snd <$> head (filter (λ e, fst e = val) info).

Definition hex_value (c : Z) : option Z :=
  if isdigit c then Some (c - 48)
  else if (97 <=? c) && (c <=? 102) then Some (c - 87)
  else if (65 <=? c) && (c <=? 70) then Some (c - 55)
  else None.

(** the digits that [strtoll] takes in base 16: their value and what follows *)
Fixpoint hex_digits_val (acc : Z) (l : list Z) : Z * list Z :=
  match l with
  | [] => (acc, [])
  | c :: r => match hex_value c with
              | Some d => hex_digits_val (acc * 16 + d) r
              | None => (acc, l)
              end
  end.

(** Only strings that start with "0x" get to [strtoll], so that it sees no space
    and no sign; "0x" without a digit is the number 0 followed by an "x". *)
Definition kmip_parse_hex_int (str : option (list Z)) : Z + Z :=
  match str with
  | None => inl (- EINVAL)
  | Some str =>
      match cstr str with
      | 48 :: 120 :: digits =>
          let '(v, rest) := hex_digits_val 0 digits in
          if 9223372036854775807 <? v then inl (- EBADMSG)
          else match digits, rest with
               | d :: _, [] => inr v
               | _, _ => inl (- EBADMSG)
               end
      | _ => inl (- EBADMSG)
      end
  end.

Definition kmip_enum_value_by_name_or_hex (info : list (Z * list Z)) (name : option (list Z)) : Z + Z :=
  match name with
  | None => inl (- EINVAL)
  | Some s =>
      match head (filter (λ e, snd e = cstr s) info) with
      | Some e => inr (fst e)
      | None => match kmip_parse_hex_int name with
                | inl rc => inl rc
                | inr val => inr (u32 val)
                end
      end
  end.

Definition kmip_v1_attr_name_by_tag (attr_tag : Z) : option (list Z) :=
  kmip_enum_name_by_value kmip_v1_attribute_names attr_tag.

(** 0 in case of an error *)
Definition kmip_attr_tag_by_v1_attr_name (name : option (list Z)) : Z :=
  match kmip_enum_value_by_name_or_hex kmip_v1_attribute_names name with
  | inl _ => 0
  | inr val => val
  end.

(** ** The table is one-to-one

    The name of a tag leads back to the tag, is not empty, is no custom name and
    has no NUL; checked for every row. *)
Definition v1_row_ok (row : Z * list Z) : bool :=
  (kmip_attr_tag_by_v1_attr_name (Some (snd row)) =? fst row) &&
  negb (fst row =? 0) &&
  bool_decide (kmip_v1_attr_name_by_tag (fst row) = Some (snd row)) &&
  negb (prefixb [120; 45] (snd row)) && negb (prefixb [121; 45] (snd row)) &&
  bool_decide (cstr (snd row) = snd row).

Lemma v1_rows_ok : forallb v1_row_ok kmip_v1_attribute_names = true.
Proof. vm_compute. reflexivity. Qed.

Lemma kmip_v1_attr_name_row tag name :
  kmip_v1_attr_name_by_tag tag = Some name → v1_row_ok (tag, name) = true.
Proof.
  unfold kmip_v1_attr_name_by_tag, kmip_enum_name_by_value. intros Hn.
  destruct (head (filter _ kmip_v1_attribute_names)) as [[v s]|] eqn:E; [|done].
  simplify_eq/=. assert (Hin : (v, name) ∈ filter (λ e : Z * list Z, fst e = tag) kmip_v1_attribute_names).
  { destruct (filter _ _); simplify_eq/=. by left. }
  apply list_elem_of_filter in Hin as [Hv Hin]. simpl in Hv. subst v.
  pose proof v1_rows_ok as Hall. rewrite forallb_forall in Hall. by apply Hall, list_elem_of_In.
Qed.

(** Attributes of KMIP objects (src/libkmipclient/attribute.c): the structures
    that hold attributes, and their translation between the protocol versions.

    The library's interface has attributes in the form of KMIP v2.x, where an
    attribute is a node with a tag of its own.  In the versions 1.x an attribute
    is a structure of a name and a value, and all attributes have the same tag.
    The functions of this file build and read both forms and convert between them.

    A function that returns an error code and stores its results through pointers
    returns [Z + A] here: the negative code, or the results.  [NULL] arguments are
    [None]; pointers for results are never [NULL] unless a flag says so.  A protocol
    version is the one that is used: callers put the default version in for [NULL]. *)

Definition ENOMEM : Z := 12.

#[export] Instance rc_ret : MRet (sum Z) := λ A a, inr a.
#[export] Instance rc_bind : MBind (sum Z) := λ A B k m,
  match m with inl rc => inl rc | inr a => k a end.

(** the result of a pointer that must not be NULL *)
Definition need {A} (rc : Z) (o : option A) : Z + A :=
  match o with Some a => inr a | None => inl rc end.

Notation by_tag := kmip_node_get_structure_element_by_tag.

Record kmip_version := KmipVersion { major : Z; minor : Z }.

(** ** Names of custom attributes *)

Definition is_custom_name (name : list Z) : bool :=
  prefixb [120; 45] name || prefixb [121; 45] name.

(** The parts of 'x|y-<vendor>-<name>', or 'x|y' and the rest when there is no
    vendor. *)
Definition kmip_split_v1_custom_attr_name (name : list Z) : Z + list Z * list Z :=
  if negb (is_custom_name name) then inl (- EBADMSG) else
  let rest := drop 2 name in
  match strchr rest 45 with
  | Some tok => inr (take tok rest, drop (S tok) rest)
  | None => inr (take 1 name, rest)
  end.

Definition kmip_build_v1_custom_attr_name (vendor_id attr_name : option (list Z)) : option (list Z) :=
  match vendor_id, attr_name with
  | Some vendor_id, Some attr_name =>
      if bool_decide (cstr vendor_id = [120]) || bool_decide (cstr vendor_id = [121])
      then Some (cstr vendor_id ++ [45] ++ cstr attr_name)
      else Some ([120; 45] ++ cstr vendor_id ++ [45] ++ cstr attr_name)
  | _, _ => None
  end.

(** ** Attributes of v1.x, and vendor attributes of v2.x *)

Definition kmip_new_attribute_v1 (name : option (list Z)) (index : Z)
    (value : option kmip_node) : option kmip_node :=
  match name, value with
  | Some _, Some _ =>
      let nam := kmip_node_new_text_string KMIP_TAG_ATTRIBUTE_NAME None name in
      let idx := if 0 <=? index
                 then kmip_node_new_integer KMIP_TAG_ATTRIBUTE_INDEX None index else None in
      kmip_node_new_structure_va KMIP_TAG_ATTRIBUTE None [nam; idx; value]
  | _, _ => None
  end.

(** name, index and value *)
Definition kmip_get_attribute_v1 (node : option kmip_node) : Z + list Z * Z * kmip_node :=
  match node with
  | None => inl (- EINVAL)
  | Some _ =>
      if negb (kmip_node_get_tag node =? KMIP_TAG_ATTRIBUTE) then inl (- EBADMSG) else
      nam ← need (- EBADMSG) (by_tag node KMIP_TAG_ATTRIBUTE_NAME 0);
      val ← need (- EBADMSG) (by_tag node KMIP_TAG_ATTRIBUTE_VALUE 0);
      name ← need (- EBADMSG) (kmip_node_get_text_string (Some nam));
      inr (name, kmip_node_get_integer (by_tag node KMIP_TAG_ATTRIBUTE_INDEX 0), val)
  end.

Definition kmip_new_vendor_attribute (vendor_id name : option (list Z))
    (value : option kmip_node) : option kmip_node :=
  match vendor_id, name, value with
  | Some _, Some _, Some _ =>
      let vend := kmip_node_new_text_string KMIP_TAG_VENDOR_IDENTIFICATION None vendor_id in
      let nam := kmip_node_new_text_string KMIP_TAG_ATTRIBUTE_NAME None name in
      kmip_node_new_structure_va KMIP_TAG_ATTRIBUTE None [vend; nam; value]
  | _, _, _ => None
  end.

(** vendor, name and value *)
Definition kmip_get_vendor_attribute (node : option kmip_node)
    : Z + list Z * list Z * kmip_node :=
  match node with
  | None => inl (- EINVAL)
  | Some _ =>
      if negb (kmip_node_get_tag node =? KMIP_TAG_ATTRIBUTE) then inl (- EBADMSG) else
      vend ← need (- EBADMSG) (by_tag node KMIP_TAG_VENDOR_IDENTIFICATION 0);
      nam ← need (- EBADMSG) (by_tag node KMIP_TAG_ATTRIBUTE_NAME 0);
      val ← need (- EBADMSG) (by_tag node KMIP_TAG_ATTRIBUTE_VALUE 0);
      vendor_id ← need (- EBADMSG) (kmip_node_get_text_string (Some vend));
      name ← need (- EBADMSG) (kmip_node_get_text_string (Some nam));
      inr (vendor_id, name, val)
  end.

(** ** Translation *)

Definition set_tag (n : kmip_node) (tag : Z) : kmip_node :=
  KmipNode tag (node_length n) (node_name n) (node_value n).

Definition kmip_v2_attr_from_v1_attr (v1_attr : option kmip_node) : Z + kmip_node :=
  match v1_attr with
  | None => inl (- EINVAL)
  | Some _ =>
      '(name, _, value) ← kmip_get_attribute_v1 v1_attr;
      let name := cstr name in
      if is_custom_name name then
        '(vendor_id, attr_name) ← kmip_split_v1_custom_attr_name name;
        cloned_value ← need (- ENOMEM) (kmip_node_clone value);
        need (- ENOMEM)
          (kmip_new_vendor_attribute (Some vendor_id) (Some attr_name) (Some cloned_value))
      else
        let v2_tag := kmip_attr_tag_by_v1_attr_name (Some name) in
        if v2_tag =? 0 then inl (- EBADMSG) else
        cloned_value ← need (- ENOMEM) (kmip_node_clone value);
        inr (set_tag cloned_value v2_tag)
  end.

Definition kmip_v1_attr_from_v2_attr (v2_attr : option kmip_node) : Z + kmip_node :=
  match v2_attr with
  | None => inl (- EINVAL)
  | Some v2 =>
      if node_tag v2 =? KMIP_TAG_ATTRIBUTE then
        '(vendor_id, attr_name, attr_value) ← kmip_get_vendor_attribute v2_attr;
        custom_name ← need (- EBADMSG)
          (kmip_build_v1_custom_attr_name (Some vendor_id) (Some attr_name));
        cloned_value ← need (- ENOMEM) (kmip_node_clone attr_value);
        need (- ENOMEM) (kmip_new_attribute_v1 (Some custom_name) (-1) (Some cloned_value))
      else
        attr_name ← need (- EBADMSG) (kmip_v1_attr_name_by_tag (node_tag v2));
        cloned_value ← need (- ENOMEM) (kmip_node_clone v2);
        need (- ENOMEM)
          (kmip_new_attribute_v1 (Some attr_name) (-1)
             (Some (set_tag cloned_value KMIP_TAG_ATTRIBUTE_VALUE)))
  end.

(** ** Lists of attributes *)

Definition is_template_tag (tag : Z) : bool :=
  bool_decide (tag ∈ [KMIP_TAG_TEMPLATE_ATTRIBUTE; KMIP_TAG_COMMON_TEMPLATE_ATTRIBUTE;
                      KMIP_TAG_PRIVATE_KEY_TEMPLATE_ATTRIBUTE;
                      KMIP_TAG_PUBLIC_KEY_TEMPLATE_ATTRIBUTE]).

Definition is_attributes_tag (tag : Z) : bool :=
  bool_decide (tag ∈ [KMIP_TAG_ATTRIBUTES; KMIP_TAG_COMMON_ATTRIBUTES;
                      KMIP_TAG_PRIVATE_KEY_ATTRIBUTES; KMIP_TAG_PUBLIC_KEY_ATTRIBUTES]).

(** the loops that add elements one by one, and end at the first error *)
Fixpoint add_each (node : option kmip_node) (els : list (option kmip_node)) : option kmip_node :=
  match els with
  | [] => node
  | e :: els =>
      let '(rc, node) := kmip_node_add_structure_element node e in
      if rc =? 0 then add_each node els else None
  end.

(** the structure gets the tag Template Attribute, whichever of the four tags is
    asked for *)
Definition kmip_new_template_attribute_v1 (tag : Z) (names attrs : list (option kmip_node))
    : option kmip_node :=
  if negb (is_template_tag tag) then None else
  let tmpl := kmip_node_new_structure_va KMIP_TAG_TEMPLATE_ATTRIBUTE None [] in
  match add_each tmpl names with
  | None => None
  | tmpl => add_each tmpl attrs
  end.

(** the numbers of names and attributes, and the attribute at [attr_index] if it
    is asked for *)
Definition kmip_get_template_attribute_v1 (node : option kmip_node) (attr_index : option Z)
    : Z + Z * Z * option kmip_node :=
  match node with
  | None => inl (- EINVAL)
  | Some _ =>
      if negb (is_template_tag (kmip_node_get_tag node)) then inl (- EBADMSG) else
      let num_names := kmip_node_get_structure_element_by_tag_count node KMIP_TAG_NAME in
      let num_attrs := kmip_node_get_structure_element_by_tag_count node KMIP_TAG_ATTRIBUTE in
      match attr_index with
      | None => inr (num_names, num_attrs, None)
      | Some index =>
          attr ← need (- ENOENT) (by_tag node KMIP_TAG_ATTRIBUTE index);
          inr (num_names, num_attrs, Some attr)
      end
  end.

(** the structure gets the tag Attributes, whichever of the four tags is asked
    for *)
Definition kmip_new_attributes_v2 (tag : Z) (attrs : list (option kmip_node)) : option kmip_node :=
  if negb (is_attributes_tag tag) then None
  else kmip_node_new_structure KMIP_TAG_ATTRIBUTES None attrs.

Definition kmip_get_attributes_v2 (node : option kmip_node) (attr_index : option Z)
    : Z + Z * option kmip_node :=
  match node with
  | None => inl (- EINVAL)
  | Some _ =>
      if negb (is_attributes_tag (kmip_node_get_tag node)) then inl (- EBADMSG) else
      let num_attrs := kmip_node_get_structure_element_count node in
      match attr_index with
      | None => inr (num_attrs, None)
      | Some index =>
          attr ← need (- ENOENT) (kmip_node_get_structure_element_by_index node index);
          inr (num_attrs, Some attr)
      end
  end.

(** the tag of v1.x for one of v2.x *)
Definition template_tag (v2_tag : Z) : option Z :=
  if v2_tag =? KMIP_TAG_ATTRIBUTES then Some KMIP_TAG_TEMPLATE_ATTRIBUTE
  else if v2_tag =? KMIP_TAG_COMMON_ATTRIBUTES then Some KMIP_TAG_COMMON_TEMPLATE_ATTRIBUTE
  else if v2_tag =? KMIP_TAG_PRIVATE_KEY_ATTRIBUTES
  then Some KMIP_TAG_PRIVATE_KEY_TEMPLATE_ATTRIBUTE
  else if v2_tag =? KMIP_TAG_PUBLIC_KEY_ATTRIBUTES
  then Some KMIP_TAG_PUBLIC_KEY_TEMPLATE_ATTRIBUTE
  else None.

(** the loop that translates the attributes; [None] when it leaves for [error] *)
Fixpoint v1_attrs (v2_attrs : list (option kmip_node)) : option (list (option kmip_node)) :=
  match v2_attrs with
  | [] => Some []
  | None :: _ => None
  | attr :: rest =>
      match kmip_v1_attr_from_v2_attr attr with
      | inl _ => None
      | inr v1 => (λ l, Some v1 :: l) <$> v1_attrs rest
      end
  end.

Definition kmip_new_attributes (version : kmip_version) (v2_tag : Z)
    (v2_attrs : list (option kmip_node)) : option kmip_node :=
  if major version =? 1 then
    match template_tag v2_tag with
    | None => None
    | Some v1_tag =>
        match v1_attrs v2_attrs with
        | None => None
        | Some attrs => kmip_new_template_attribute_v1 v1_tag [] attrs
        end
    end
  else kmip_new_attributes_v2 v2_tag v2_attrs.

Definition kmip_get_attributes (node : option kmip_node) (attr_index : option Z)
    : Z + Z * option kmip_node :=
  match node with
  | None => inl (- EINVAL)
  | Some _ =>
      if is_template_tag (kmip_node_get_tag node) then
        '(_, num_attrs, attr) ← kmip_get_template_attribute_v1 node attr_index;
        match attr with
        | None => inr (num_attrs, None)
        | Some v1_attr =>
            v2_attr ← kmip_v2_attr_from_v1_attr (Some v1_attr);
            inr (num_attrs, Some v2_attr)
        end
      else if is_attributes_tag (kmip_node_get_tag node)
      then kmip_get_attributes_v2 node attr_index
      else inl (- EBADMSG)
  end.

(** ** References to attributes *)

Definition kmip_new_attribute_reference (attr_tag : Z) (vendor_id name : option (list Z))
    : option kmip_node :=
  let absent (o : option (list Z)) := match o with None => true | Some _ => false end in
  if (attr_tag =? 0) && (absent vendor_id || absent name) then None else
  if negb (attr_tag =? 0) && (negb (absent vendor_id) || negb (absent name)) then None else
  if negb (attr_tag =? 0)
  then kmip_node_new_enumeration KMIP_TAG_ATTRIBUTE_REFERENCE None attr_tag else
  let vend := kmip_node_new_text_string KMIP_TAG_VENDOR_IDENTIFICATION None vendor_id in
  let nam := kmip_node_new_text_string KMIP_TAG_ATTRIBUTE_NAME None name in
  kmip_node_new_structure_va KMIP_TAG_ATTRIBUTE_REFERENCE None [vend; nam].

(** the tag, or 0 with vendor and name *)
Definition kmip_get_attribute_reference (node : option kmip_node)
    : Z + Z * option (list Z) * option (list Z) :=
  match node with
  | None => inl (- EINVAL)
  | Some n =>
      if negb (node_tag n =? KMIP_TAG_ATTRIBUTE_REFERENCE) then inl (- EBADMSG) else
      match node_type n with
      | KMIP_TYPE_ENUMERATION => inr (kmip_node_get_enumeration node, None, None)
      | KMIP_TYPE_STRUCTURE =>
          vend ← need (- EBADMSG) (by_tag node KMIP_TAG_VENDOR_IDENTIFICATION 0);
          nam ← need (- EBADMSG) (by_tag node KMIP_TAG_ATTRIBUTE_NAME 0);
          vendor_id ← need (- EBADMSG) (kmip_node_get_text_string (Some vend));
          name ← need (- EBADMSG) (kmip_node_get_text_string (Some nam));
          inr (0, Some vendor_id, Some name)
      | _ => inl (- EBADMSG)
      end
  end.

Definition kmip_new_current_new_attribute (new_attr : bool) (attr : option kmip_node)
    : option kmip_node :=
  match attr with
  | None => None
  | Some _ =>
      kmip_node_new_structure_va
        (if new_attr then KMIP_TAG_NEW_ATTRIBUTE else KMIP_TAG_CURRENT_ATTRIBUTE) None [attr]
  end.

Definition kmip_new_attribute_name_v1 (v2_attr_ref : option kmip_node) : option kmip_node :=
  match kmip_get_attribute_reference v2_attr_ref with
  | inl _ => None
  | inr (attr_tag, vendor_id, attr_name) =>
      if negb (attr_tag =? 0) then
        match kmip_v1_attr_name_by_tag attr_tag with
        | None => None
        | Some name => kmip_node_new_text_string KMIP_TAG_ATTRIBUTE_NAME None (Some name)
        end
      else
        match kmip_build_v1_custom_attr_name vendor_id attr_name with
        | None => None
        | Some name => kmip_node_new_text_string KMIP_TAG_ATTRIBUTE_NAME None (Some name)
        end
  end.

Definition kmip_get_attribute_name_v1 (node : option kmip_node) : Z + kmip_node :=
  match node with
  | None => inl (- EINVAL)
  | Some _ =>
      if negb (kmip_node_get_tag node =? KMIP_TAG_ATTRIBUTE_NAME) then inl (- EBADMSG) else
      name ← need (- EBADMSG) (kmip_node_get_text_string node);
      let name := cstr name in
      if is_custom_name name then
        '(vendor_id, attr_name) ← kmip_split_v1_custom_attr_name name;
        need (- ENOMEM) (kmip_new_attribute_reference 0 (Some vendor_id) (Some attr_name))
      else
        let attr_tag := kmip_attr_tag_by_v1_attr_name (Some name) in
        if attr_tag =? 0 then inl (- EBADMSG)
        else need (- ENOMEM) (kmip_new_attribute_reference attr_tag None None)
  end.
