(* ===== verification/KmipAttributes.v ===== *)
(** The translation of attributes between the protocol versions, and the attributes
    that are a single node (src/libkmipclient/attribute.c).

    [copy n] is what [kmip_node_clone] makes of a node: the same tree with the
    lengths that the function sets.  An attribute of v2.x that is translated to
    v1.x and back is its copy, for the attributes of the library's table and for
    vendor attributes whose name survives being put together and split again; and
    a list of attributes is read back the same whichever version it is sent in. *)
From S2P Require Import Prelude Codec Kmip KmipAttr.

(** ** Copies *)

(** a node without big integers that have no value *)
Definition cloneable_value (tag len : Z) (v : kmip_value kmip_node) : bool :=
  match v with BigIntegerValue None => false | _ => true end.
Definition cloneable : kmip_node → bool := node_all cloneable_value.

Definition copy_length (len : Z) (v : kmip_value kmip_node) : Z :=
  match v with
  | TextValue (Some s) => u32 (Z.of_nat (strlen s))
  | BytesValue (Some _) => if 0 <? len then len else 0
  | _ => 0
  end.

Definition copy_value (len : Z) (v : kmip_value kmip_node) : kmip_value kmip_node :=
  match v with
  | TextValue s => TextValue (cstr <$> s)
  | BytesValue (Some s) => BytesValue (if 0 <? len then Some (take (Z.to_nat len) s) else None)
  | v => v
  end.

Fixpoint copy (n : kmip_node) : kmip_node :=
  let 'KmipNode tag len name v := n in
  KmipNode tag (copy_length len v) (cstr <$> name)
    (match v with StructureValue els => StructureValue (map copy els)
              | v => copy_value len v end).

Section Copies.
Lemma clone_elements_copy els tag len name acc :
  Forall (λ e, kmip_node_clone e = Some (copy e)) els →
  clone_elements kmip_node_clone els (KmipNode tag len name (StructureValue acc))
  = Some (KmipNode tag len name (StructureValue (acc ++ map copy els))).
Proof.
  intros Hels. revert acc. induction Hels as [|e els He _ IH]; intros acc; cbn [map].
  { by rewrite app_nil_r. }
  cbn [clone_elements]. rewrite He.
  cbn [kmip_node_add_structure_element kmip_node_add_structure_elements node_value Z.eqb
       omap list_omap id]. unfold set_value. cbn [node_tag node_length node_name].
  change (Some ?x ≫= ?f) with (f x). rewrite IH, <- app_assoc. done.
Qed.

(** a clone is a copy; there is none when a big integer has no value *)
Lemma clone_copy n : cloneable n = true → kmip_node_clone n = Some (copy n).
Proof.
  induction n as [tag len name els IH|tag len name v Hv] using kmip_node_tree_ind;
    intros [Hc Hels]%andb_true_iff.
  - rewrite forallb_forall in Hels. cbn [kmip_node_clone value_type].
    unfold kmip_node_new. cbn [zero_value]. rewrite clone_elements_copy; [done|].
    rewrite Forall_forall in IH |- *. intros e He. apply IH; [done|]. by apply Hels, list_elem_of_In.
  - destruct v as [els|v|v|[v|]|v|b|[s|]|[s|]|v|v|v]; try done.
    cbn [kmip_node_clone copy copy_length copy_value value_type]. by destruct (0 <? len).
Qed.

Lemma cstr_idem s : cstr (cstr s) = cstr s.
Proof. apply cstr_no_nul, cstr_Forall. Qed.

Lemma fmap_cstr_idem (o : option (list Z)) : cstr <$> (cstr <$> o) = cstr <$> o.
Proof. destruct o; simpl; [by rewrite cstr_idem|done]. Qed.

Lemma copy_idem n : copy (copy n) = copy n.
Proof.
  induction n as [tag len name els IH|tag len name v Hv] using kmip_node_tree_ind;
    cbn [copy]; rewrite fmap_cstr_idem; f_equal.
  - f_equal. rewrite map_map. apply map_ext_Forall, IH.
  - destruct v as [els|v|v|[v|]|v|b|[s|]|[s|]|v|v|v]; try done; cbn [copy_value copy_length fmap option_fmap option_map].
    + unfold strlen. by rewrite cstr_idem.
    + destruct (Z.ltb_spec 0 len); [|done]. by rewrite (proj2 (Z.ltb_lt _ _)) by lia.
  - destruct v as [els|v|v|[v|]|v|b|[s|]|[s|]|v|v|v]; try done; cbn [copy_value copy_length fmap option_fmap option_map].
    + by rewrite cstr_idem.
    + destruct (Z.ltb_spec 0 len) as [Hl|]; [|done]. rewrite (proj2 (Z.ltb_lt _ _) Hl).
      by rewrite take_take, Nat.min_id.
Qed.

Lemma copy_cloneable n : cloneable n = true → cloneable (copy n) = true.
Proof.
  induction n as [tag len name els IH|tag len name v Hv] using kmip_node_tree_ind;
    intros [Hc Hels]%andb_true_iff; apply andb_true_iff; cbn [copy].
  - split; [done|]. apply forallb_forall. intros e' (e & <- & He)%in_map_iff.
    rewrite forallb_forall in Hels. rewrite Forall_forall in IH.
    apply IH; [by apply list_elem_of_In|by apply Hels].
  - by destruct v as [els|v|v|[v|]|v|b|[s|]|[s|]|v|v|v].
Qed.

Lemma copy_set_tag n tag : copy (set_tag n tag) = set_tag (copy n) tag.
Proof. by destruct n as [? ? ? []]. Qed.

Lemma cloneable_set_tag n tag : cloneable (set_tag n tag) = cloneable n.
Proof. by destruct n as [? ? ? []]. Qed.

Lemma set_tag_twice n t1 t2 : set_tag (set_tag n t1) t2 = set_tag n t2.
Proof. done. Qed.

Lemma set_tag_id n : set_tag n (node_tag n) = n.
Proof. by destruct n. Qed.

Lemma copy_tag n : node_tag (copy n) = node_tag n.
Proof. by destruct n. Qed.
End Copies.

(** ** Custom names *)

Section Names.
Lemma find_sub_no_dash l : Forall (λ c, c ≠ 45) l → find_sub [45] l = None.
Proof.
  induction 1 as [|c l Hc _ IH]; [done|]. cbn [find_sub prefixb].
  rewrite (proj2 (Z.eqb_neq 45 c)) by done. simpl. by rewrite IH.
Qed.

Lemma find_sub_dash l r : Forall (λ c, c ≠ 45) l → find_sub [45] (l ++ 45 :: r) = Some (length l).
Proof.
  induction 1 as [|c l Hc _ IH]; [done|]. cbn [find_sub prefixb app].
  rewrite (proj2 (Z.eqb_neq 45 c)) by done. simpl. by rewrite IH.
Qed.

Lemma cstr_app_no_nul l r : Forall (λ c, c ≠ 0) l → cstr (l ++ r) = l ++ cstr r.
Proof.
  induction 1 as [|c l Hc _ IH]; [done|]. simpl. apply Z.eqb_neq in Hc. by rewrite Hc, IH.
Qed.

(** A vendor id and an attribute name that survive: no dash in the vendor id, and
    none in the name when the vendor id is 'x' or 'y'. *)
Definition custom_ok (vendor name : list Z) : Prop :=
  Forall (λ c, c ≠ 0) vendor ∧ Forall (λ c, c ≠ 0) name ∧ Forall (λ c, c ≠ 45) vendor ∧
  (vendor = [120] ∨ vendor = [121] → Forall (λ c, c ≠ 45) name).

Lemma build_split vendor name : custom_ok vendor name →
  ∃ custom, kmip_build_v1_custom_attr_name (Some vendor) (Some name) = Some custom ∧
    cstr custom = custom ∧ is_custom_name custom = true ∧
    kmip_split_v1_custom_attr_name custom = inr (vendor, name).
Proof.
  intros (Hv0 & Hn0 & Hv & Hn). unfold kmip_build_v1_custom_attr_name.
  rewrite (cstr_no_nul vendor), (cstr_no_nul name) by done.
  destruct (decide (vendor = [120] ∨ vendor = [121])) as [Hxy|Hxy].
  - eexists. split.
    { destruct Hxy as [->| ->]; done. }
    assert (Hs : strchr name 45 = None).
    { unfold strchr. rewrite cstr_no_nul by done. by apply find_sub_no_dash, Hn. }
    destruct Hxy as [->| ->]; cbn [app];
      (split; [by apply cstr_no_nul; repeat constructor|]; split; [done|]);
      unfold kmip_split_v1_custom_attr_name; cbn [is_custom_name prefixb Z.eqb Pos.eqb andb orb negb skipn firstn];
      by rewrite drop_0, Hs.
  - rewrite !bool_decide_false by naive_solver. cbn [orb]. eexists. split; [done|].
    split; [|split; [done|]].
    { apply cstr_no_nul. repeat (constructor; [done|]). apply Forall_app. split; [done|].
      by constructor. }
    unfold kmip_split_v1_custom_attr_name.
    cbn [app is_custom_name prefixb Z.eqb Pos.eqb andb orb negb skipn firstn].
    rewrite drop_0. unfold strchr. rewrite cstr_app_no_nul by done.
    change (cstr (45 :: name)) with (45 :: cstr name).
    rewrite find_sub_dash, take_app_length by done.
    by rewrite (cons_middle 45), app_assoc, drop_app_length' by (rewrite length_app; simpl; lia).
Qed.
End Names.

(** ** Attributes *)

Section Attributes.
(** a v1.x attribute is read as it was built *)
Lemma get_new_attribute_v1 name value : node_tag value = KMIP_TAG_ATTRIBUTE_VALUE →
  ∃ a, kmip_new_attribute_v1 (Some name) (-1) (Some value) = Some a ∧
    node_tag a = KMIP_TAG_ATTRIBUTE ∧
    kmip_get_attribute_v1 (Some a) = inr (cstr name, 0, value).
Proof.
  intros Ht. eexists. split; [done|]. split; [done|].
  unfold kmip_get_attribute_v1. cbn -[KMIP_TAG_ATTRIBUTE_VALUE]. rewrite Ht, Z.eqb_refl. done.
Qed.

(** An attribute of the table, translated and translated back *)
Lemma v2_v1_v2 a name :
  kmip_v1_attr_name_by_tag (node_tag a) = Some name → node_tag a ≠ KMIP_TAG_ATTRIBUTE →
  cloneable a = true →
  ∃ v1, kmip_v1_attr_from_v2_attr (Some a) = inr v1 ∧ node_tag v1 = KMIP_TAG_ATTRIBUTE ∧
    kmip_v2_attr_from_v1_attr (Some v1) = inr (copy a).
Proof.
  intros Hname Htag Hc. pose proof (kmip_v1_attr_name_row _ _ Hname) as Hrow.
  unfold v1_row_ok in Hrow. b2p. cbn [fst snd] in *.
  destruct (get_new_attribute_v1 name (set_tag (copy a) KMIP_TAG_ATTRIBUTE_VALUE) eq_refl)
    as (v1 & Hnew & Hv1 & Hget).
  exists v1. split_and!; [|done|].
  - unfold kmip_v1_attr_from_v2_attr. rewrite (proj2 (Z.eqb_neq _ _)) by done.
    rewrite Hname. cbn [need mbind rc_bind]. rewrite clone_copy by done. cbn [need mbind rc_bind].
    by rewrite Hnew.
  - unfold kmip_v2_attr_from_v1_attr. rewrite Hget. cbn [mbind rc_bind].
    apply bool_decide_eq_true in H0. rewrite H0, H0.
    unfold is_custom_name. rewrite H1, H2. cbn [orb]. rewrite H.
    rewrite (proj2 (Z.eqb_neq _ _)) by done.
    rewrite clone_copy by (rewrite cloneable_set_tag; by apply copy_cloneable).
    cbn [need mbind rc_bind].
    by rewrite copy_set_tag, copy_idem, set_tag_twice, <- (copy_tag a), set_tag_id.
Qed.

(** a vendor attribute is read as it was built *)
Lemma get_new_vendor_attribute vendor name value : node_tag value = KMIP_TAG_ATTRIBUTE_VALUE →
  ∃ a, kmip_new_vendor_attribute (Some vendor) (Some name) (Some value) = Some a ∧
    node_tag a = KMIP_TAG_ATTRIBUTE ∧
    kmip_get_vendor_attribute (Some a) = inr (cstr vendor, cstr name, value).
Proof.
  destruct value as [tag len nm v]. cbn [node_tag]. intros ->. eexists. by split_and!.
Qed.

(** [a] is translated to v1.x, and that back to [a'] *)
Definition translates (a a' : kmip_node) : Prop :=
  ∃ v1, kmip_v1_attr_from_v2_attr (Some a) = inr v1 ∧ node_tag v1 = KMIP_TAG_ATTRIBUTE ∧
    kmip_v2_attr_from_v1_attr (Some v1) = inr a'.

(** A vendor attribute *)
Lemma vendor_translates vendor name value :
  custom_ok vendor name → node_tag value = KMIP_TAG_ATTRIBUTE_VALUE → cloneable value = true →
  ∃ a a', kmip_new_vendor_attribute (Some vendor) (Some name) (Some value) = Some a ∧
    kmip_new_vendor_attribute (Some vendor) (Some name) (Some (copy value)) = Some a' ∧
    translates a a'.
Proof.
  intros Hok Ht Hc. destruct (get_new_vendor_attribute vendor name value Ht) as (a & Ha & Hva & Hgv).
  eexists a, _. split; [done|]. split; [done|]. destruct (build_split vendor name Hok) as (custom & Hb & Hcs & Hcu & Hsp).
  destruct Hok as (Hv0 & Hn0 & _ & _).
  assert (Hct : node_tag (copy value) = KMIP_TAG_ATTRIBUTE_VALUE) by (by rewrite copy_tag).
  destruct (get_new_attribute_v1 custom (copy value) Hct) as (v1 & Hnew & Hv1 & Hget).
  exists v1. split_and!; [|done|].
  - unfold kmip_v1_attr_from_v2_attr. rewrite Hva, Hgv. cbn [Z.eqb mbind rc_bind].
    rewrite Z.eqb_refl, (cstr_no_nul vendor), (cstr_no_nul name), Hb by done. cbn [need mbind rc_bind].
    rewrite clone_copy by done. cbn [need mbind rc_bind]. by rewrite Hnew.
  - unfold kmip_v2_attr_from_v1_attr. rewrite Hget. cbn [mbind rc_bind].
    rewrite Hcs, Hcs, Hcu, Hsp. cbn [mbind rc_bind].
    rewrite clone_copy by (by apply copy_cloneable). cbn [need mbind rc_bind]. by rewrite copy_idem.
Qed.

(** ** Lists of attributes *)

Lemma find_by_tag_all tag els i : Forall (λ e, node_tag e = tag) els → 0 <= i →
  find_by_tag tag i els = els !! Z.to_nat i.
Proof.
  intros Hels. revert i. induction Hels as [|e els He _ IH]; intros i Hi; [done|].
  cbn [find_by_tag]. rewrite He, Z.eqb_refl. destruct (Z.eqb_spec i 0) as [->|Hnz]; [done|].
  rewrite IH by lia. by replace (Z.to_nat i) with (S (Z.to_nat (i - 1))) by lia.
Qed.

Lemma filter_tag_all tag els : Forall (λ e, node_tag e = tag) els →
  filter (λ e, node_tag e = tag) els = els.
Proof.
  induction 1 as [|e els He _ IH]; [done|]. rewrite filter_cons_True by done. by rewrite IH.
Qed.

Lemma add_each_all els tag len name acc :
  add_each (Some (KmipNode tag len name (StructureValue acc))) (map Some els)
  = Some (KmipNode tag len name (StructureValue (acc ++ els))).
Proof.
  revert acc. induction els as [|e els IH]; intros acc; cbn [map]; [by rewrite app_nil_r|].
  cbn [add_each kmip_node_add_structure_element kmip_node_add_structure_elements node_value
       omap list_omap id Z.eqb]. unfold set_value. cbn [node_tag node_length node_name].
  by rewrite IH, <- app_assoc.
Qed.

Lemma v1_attrs_all attrs attrs' : Forall2 translates attrs attrs' →
  ∃ v1s, v1_attrs (map Some attrs) = Some (map Some v1s) ∧
    Forall (λ e, node_tag e = KMIP_TAG_ATTRIBUTE) v1s ∧
    Forall2 (λ v1 a', kmip_v2_attr_from_v1_attr (Some v1) = inr a') v1s attrs'.
Proof.
  induction 1 as [|a a' attrs attrs' (v1 & H1 & H2 & H3) _ (v1s & Hm & Ht & Hf)].
  { exists []. by repeat constructor. }
  exists (v1 :: v1s). cbn [map v1_attrs]. rewrite H1, Hm. split_and!; [done|by constructor|by constructor].
Qed.

Lemma omap_id_map {A} (l : list A) : omap id (map Some l) = l.
Proof. induction l as [|a l IH]; [done|]. cbn [map omap list_omap id]. by f_equal. Qed.

(** In version 1.x an attribute list is read back attribute by attribute. *)
Lemma attributes_v1 version v2_tag attrs attrs' :
  major version = 1 → is_attributes_tag v2_tag = true → Forall2 translates attrs attrs' →
  ∃ n, kmip_new_attributes version v2_tag (map Some attrs) = Some n ∧
    ∀ i, 0 <= i →
      kmip_get_attributes (Some n) (Some i) =
      match attrs' !! Z.to_nat i with
      | Some a' => inr (u32 (Z.of_nat (length attrs)), Some a')
      | None => inl (- ENOENT)
      end.
Proof.
  intros Hv Htag Hall. destruct (v1_attrs_all _ _ Hall) as (v1s & Hm & Ht & Hf).
  exists (KmipNode KMIP_TAG_TEMPLATE_ATTRIBUTE 0 None (StructureValue v1s)). split.
  - unfold kmip_new_attributes. rewrite Hv. cbn [Z.eqb Pos.eqb].
    assert (∃ t, template_tag v2_tag = Some t ∧ is_template_tag t = true) as (t & -> & Htt).
    { unfold is_attributes_tag in Htag. apply bool_decide_eq_true in Htag.
      rewrite !elem_of_cons in Htag. destruct_or! Htag; subst; try by eexists.
      by apply not_elem_of_nil in Htag. }
    rewrite Hm. unfold kmip_new_template_attribute_v1. rewrite Htt. cbn [negb].
    change (kmip_node_new_structure_va KMIP_TAG_TEMPLATE_ATTRIBUTE None [])
      with (Some (KmipNode KMIP_TAG_TEMPLATE_ATTRIBUTE 0 None (StructureValue []))).
    cbn [add_each]. by rewrite add_each_all.
  - intros i Hi. unfold kmip_get_attributes, kmip_get_template_attribute_v1.
    change (is_template_tag (kmip_node_get_tag _)) with true. cbn [negb].
    cbn [kmip_node_get_structure_element_by_tag kmip_node_get_structure_element_by_tag_count node_value].
    rewrite find_by_tag_all, (filter_tag_all _ _ Ht) by done.
    pose proof (Forall2_length _ _ _ Hall) as Hl1. pose proof (Forall2_length _ _ _ Hf) as Hl2.
    destruct (v1s !! Z.to_nat i) as [v1|] eqn:E; cbn [need mbind rc_bind].
    + destruct (Forall2_lookup_l _ _ _ _ _ Hf E) as (a' & -> & ->). cbn [mbind rc_bind].
      by rewrite Hl1, Hl2.
    + apply lookup_ge_None in E. rewrite (proj2 (lookup_ge_None attrs' _)) by lia. done.
Qed.

(** In the versions from 2.0 on the attributes are stored as they are. *)
Lemma attributes_v2 version v2_tag attrs :
  major version ≠ 1 → is_attributes_tag v2_tag = true →
  ∃ n, kmip_new_attributes version v2_tag (map Some attrs) = Some n ∧
    ∀ i, kmip_get_attributes (Some n) (Some i) =
      match attrs !! Z.to_nat i with
      | Some a => inr (u32 (Z.of_nat (length attrs)), Some a)
      | None => inl (- ENOENT)
      end.
Proof.
  intros Hv Htag. exists (KmipNode KMIP_TAG_ATTRIBUTES 0 None (StructureValue attrs)). split.
  - unfold kmip_new_attributes. rewrite (proj2 (Z.eqb_neq _ _)) by done.
    unfold kmip_new_attributes_v2. rewrite Htag. cbn [negb].
    unfold kmip_node_new_structure. cbn [kmip_node_add_structure_elements kmip_node_new node_value zero_value].
    by rewrite omap_id_map.
  - intros i. unfold kmip_get_attributes. change (is_template_tag (kmip_node_get_tag _)) with false.
    change (is_attributes_tag (kmip_node_get_tag _)) with true. unfold kmip_get_attributes_v2.
    change (is_attributes_tag (kmip_node_get_tag _)) with true. cbn [negb].
    cbn [kmip_node_get_structure_element_by_index kmip_node_get_structure_element_count node_value].
    by destruct (attrs !! Z.to_nat i).
Qed.
End Attributes.

(** Attributes that are a single node (src/libkmipclient/attribute.c).

    Each has a function that builds the node and one that reads it; the class
    [Attribute] says what the two promise to each other and to the translation
    between protocol versions, and every pair is an instance. *)

(** reading a value from a node that must have the tag *)
Definition get_tagged {A} (tag : Z) (get : option kmip_node → A) (node : option kmip_node) : Z + A :=
  match node with
  | None => inl (- EBADMSG)
  | Some n => if node_tag n =? tag then inr (get node) else inl (- EBADMSG)
  end.

(** ** The functions *)

Definition kmip_new_object_type (obj_type : Z) : option kmip_node :=
  kmip_node_new_enumeration KMIP_TAG_OBJECT_TYPE None obj_type.
Definition kmip_get_object_type (node : option kmip_node) : Z + Z :=
  get_tagged KMIP_TAG_OBJECT_TYPE kmip_node_get_enumeration node.

Definition kmip_new_cryptographic_algorithm (algo : Z) : option kmip_node :=
  kmip_node_new_enumeration KMIP_TAG_CRYPTOGRAPHIC_ALGORITHM None algo.
Definition kmip_get_cryptographic_algorithm (node : option kmip_node) : Z + Z :=
  get_tagged KMIP_TAG_CRYPTOGRAPHIC_ALGORITHM kmip_node_get_enumeration node.

Definition kmip_new_cryptographic_length (length : Z) : option kmip_node :=
  kmip_node_new_integer KMIP_TAG_CRYPTOGRAPHIC_LENGTH None length.
Definition kmip_get_cryptographic_length (node : option kmip_node) : Z + Z :=
  get_tagged KMIP_TAG_CRYPTOGRAPHIC_LENGTH kmip_node_get_integer node.

Definition kmip_new_certificate_type (typ : Z) : option kmip_node :=
  kmip_node_new_enumeration KMIP_TAG_CERTIFICATE_TYPE None typ.
Definition kmip_get_certificate_type (node : option kmip_node) : Z + Z :=
  get_tagged KMIP_TAG_CERTIFICATE_TYPE kmip_node_get_enumeration node.

Definition kmip_new_cryptographic_usage_mask (usage_mask : Z) : option kmip_node :=
  kmip_node_new_integer KMIP_TAG_CRYPTOGRAPHIC_USAGE_MASK None usage_mask.
Definition kmip_get_cryptographic_usage_mask (node : option kmip_node) : Z + Z :=
  get_tagged KMIP_TAG_CRYPTOGRAPHIC_USAGE_MASK kmip_node_get_integer node.

Definition kmip_new_state (state : Z) : option kmip_node :=
  kmip_node_new_enumeration KMIP_TAG_STATE None state.
Definition kmip_get_state (node : option kmip_node) : Z + Z :=
  get_tagged KMIP_TAG_STATE kmip_node_get_enumeration node.

Definition kmip_new_initial_date (date : Z) : option kmip_node :=
  kmip_node_new_date_time KMIP_TAG_INITIAL_DATE None date.
Definition kmip_get_initial_date (node : option kmip_node) : Z + Z :=
  get_tagged KMIP_TAG_INITIAL_DATE kmip_node_get_date_time node.

Definition kmip_new_activation_date (date : Z) : option kmip_node :=
  kmip_node_new_date_time KMIP_TAG_ACTIVATION_DATE None date.
Definition kmip_get_activation_date (node : option kmip_node) : Z + Z :=
  get_tagged KMIP_TAG_ACTIVATION_DATE kmip_node_get_date_time node.

Definition kmip_new_deactivation_date (date : Z) : option kmip_node :=
  kmip_node_new_date_time KMIP_TAG_DEACTIVATION_DATE None date.
Definition kmip_get_deactivation_date (node : option kmip_node) : Z + Z :=
  get_tagged KMIP_TAG_DEACTIVATION_DATE kmip_node_get_date_time node.

Definition kmip_new_destroy_date (date : Z) : option kmip_node :=
  kmip_node_new_date_time KMIP_TAG_DESTROY_DATE None date.
Definition kmip_get_destroy_date (node : option kmip_node) : Z + Z :=
  get_tagged KMIP_TAG_DESTROY_DATE kmip_node_get_date_time node.

Definition kmip_new_compromise_date (date : Z) : option kmip_node :=
  kmip_node_new_date_time KMIP_TAG_COMPROMIZE_DATE None date.
Definition kmip_get_compromise_date (node : option kmip_node) : Z + Z :=
  get_tagged KMIP_TAG_COMPROMIZE_DATE kmip_node_get_date_time node.

Definition kmip_new_compromise_occurrence_date (date : Z) : option kmip_node :=
  kmip_node_new_date_time KMIP_TAG_COMPROMISE_OCCURRENCE_DATE None date.
Definition kmip_get_compromise_occurrence_date (node : option kmip_node) : Z + Z :=
  get_tagged KMIP_TAG_COMPROMISE_OCCURRENCE_DATE kmip_node_get_date_time node.

Definition kmip_new_last_change_date (date : Z) : option kmip_node :=
  kmip_node_new_date_time KMIP_TAG_LAST_CHANGE_DATE None date.
Definition kmip_get_last_change_date (node : option kmip_node) : Z + Z :=
  get_tagged KMIP_TAG_LAST_CHANGE_DATE kmip_node_get_date_time node.

Definition kmip_new_original_creation_date (date : Z) : option kmip_node :=
  kmip_node_new_date_time KMIP_TAG_ORIGINAL_CREATION_DATE None date.
Definition kmip_get_original_creation_date (node : option kmip_node) : Z + Z :=
  get_tagged KMIP_TAG_ORIGINAL_CREATION_DATE kmip_node_get_date_time node.

Definition kmip_new_archive_date (date : Z) : option kmip_node :=
  kmip_node_new_date_time KMIP_TAG_ARCHIVE_DATE None date.
Definition kmip_get_archive_date (node : option kmip_node) : Z + Z :=
  get_tagged KMIP_TAG_ARCHIVE_DATE kmip_node_get_date_time node.

Definition kmip_new_process_start_date (date : Z) : option kmip_node :=
  kmip_node_new_date_time KMIP_TAG_PROCESS_START_DATE None date.
Definition kmip_get_process_start_date (node : option kmip_node) : Z + Z :=
  get_tagged KMIP_TAG_PROCESS_START_DATE kmip_node_get_date_time node.

Definition kmip_new_protect_stop_date (date : Z) : option kmip_node :=
  kmip_node_new_date_time KMIP_TAG_PROTECT_STOP_DATE None date.
Definition kmip_get_protect_stop_date (node : option kmip_node) : Z + Z :=
  get_tagged KMIP_TAG_PROTECT_STOP_DATE kmip_node_get_date_time node.

Definition kmip_new_digital_signature_algorithm (signature_algo : Z) : option kmip_node :=
  kmip_node_new_enumeration KMIP_TAG_DIGITAL_SIGNATURE_ALGORITHM None signature_algo.
Definition kmip_get_digital_signature_algorithm (node : option kmip_node) : Z + Z :=
  get_tagged KMIP_TAG_DIGITAL_SIGNATURE_ALGORITHM kmip_node_get_enumeration node.

Definition kmip_new_object_group (group : option (list Z)) : option kmip_node :=
  kmip_node_new_text_string KMIP_TAG_OBJECT_GROUP None group.
Definition kmip_get_object_group (node : option kmip_node) : Z + list Z :=
  s ← get_tagged KMIP_TAG_OBJECT_GROUP kmip_node_get_text_string node; need (- EBADMSG) s.

Definition kmip_new_contact_information (contact : option (list Z)) : option kmip_node :=
  kmip_node_new_text_string KMIP_TAG_CONTACT_INFORMATION None contact.
Definition kmip_get_contact_information (node : option kmip_node) : Z + list Z :=
  s ← get_tagged KMIP_TAG_CONTACT_INFORMATION kmip_node_get_text_string node; need (- EBADMSG) s.

Definition kmip_new_description (description : option (list Z)) : option kmip_node :=
  kmip_node_new_text_string KMIP_TAG_DESCRIPTION None description.
Definition kmip_get_description (node : option kmip_node) : Z + list Z :=
  s ← get_tagged KMIP_TAG_DESCRIPTION kmip_node_get_text_string node; need (- EBADMSG) s.

Definition kmip_new_comment (comment_text : option (list Z)) : option kmip_node :=
  kmip_node_new_text_string KMIP_TAG_COMMENT None comment_text.
Definition kmip_get_comment (node : option kmip_node) : Z + list Z :=
  s ← get_tagged KMIP_TAG_COMMENT kmip_node_get_text_string node; need (- EBADMSG) s.

Definition kmip_new_key_format_type (typ : Z) : option kmip_node :=
  kmip_node_new_enumeration KMIP_TAG_KEY_FORMAT_TYPE None typ.
Definition kmip_get_key_format_type (node : option kmip_node) : Z + Z :=
  get_tagged KMIP_TAG_KEY_FORMAT_TYPE kmip_node_get_enumeration node.

Definition kmip_new_protection_level (level : Z) : option kmip_node :=
  kmip_node_new_enumeration KMIP_TAG_PROTECTION_LEVEL None level.
Definition kmip_get_protection_level (node : option kmip_node) : Z + Z :=
  get_tagged KMIP_TAG_PROTECTION_LEVEL kmip_node_get_enumeration node.

Definition kmip_new_protection_period (period : Z) : option kmip_node :=
  kmip_node_new_interval KMIP_TAG_PROTECTION_PERIOD None period.
Definition kmip_get_protection_period (node : option kmip_node) : Z + Z :=
  get_tagged KMIP_TAG_PROTECTION_PERIOD kmip_node_get_interval node.

Definition kmip_new_protection_storage_mask (protection_mask : Z) : option kmip_node :=
  kmip_node_new_integer KMIP_TAG_PROTECTION_STORAGE_MASK None protection_mask.
Definition kmip_get_protection_storage_mask (node : option kmip_node) : Z + Z :=
  get_tagged KMIP_TAG_PROTECTION_STORAGE_MASK kmip_node_get_integer node.

Definition kmip_new_fresh (fresh : bool) : option kmip_node :=
  kmip_node_new_boolean KMIP_TAG_FRESH None fresh.
Definition kmip_get_fresh (node : option kmip_node) : Z + bool :=
  get_tagged KMIP_TAG_FRESH kmip_node_get_boolean node.

Definition kmip_new_key_value_present (present : bool) : option kmip_node :=
  kmip_node_new_boolean KMIP_TAG_KEY_VALUE_PRESENT None present.
Definition kmip_get_key_value_present (node : option kmip_node) : Z + bool :=
  get_tagged KMIP_TAG_KEY_VALUE_PRESENT kmip_node_get_boolean node.

Definition kmip_new_sensitive (sensitive : bool) : option kmip_node :=
  kmip_node_new_boolean KMIP_TAG_SENSITIVE None sensitive.
Definition kmip_get_sensitive (node : option kmip_node) : Z + bool :=
  get_tagged KMIP_TAG_SENSITIVE kmip_node_get_boolean node.

Definition kmip_new_always_sensitive (sensitive : bool) : option kmip_node :=
  kmip_node_new_boolean KMIP_TAG_ALWAYS_SENSITIVE None sensitive.
Definition kmip_get_always_sensitive (node : option kmip_node) : Z + bool :=
  get_tagged KMIP_TAG_ALWAYS_SENSITIVE kmip_node_get_boolean node.

Definition kmip_new_extractable (extractable : bool) : option kmip_node :=
  kmip_node_new_boolean KMIP_TAG_EXTRACTABLE None extractable.
Definition kmip_get_extractable (node : option kmip_node) : Z + bool :=
  get_tagged KMIP_TAG_EXTRACTABLE kmip_node_get_boolean node.

Definition kmip_new_never_extractable (extractable : bool) : option kmip_node :=
  kmip_node_new_boolean KMIP_TAG_NEVER_EXTRACTABLE None extractable.
Definition kmip_get_never_extractable (node : option kmip_node) : Z + bool :=
  get_tagged KMIP_TAG_NEVER_EXTRACTABLE kmip_node_get_boolean node.

Definition kmip_new_operation_policy_name (policy : option (list Z)) : option kmip_node :=
  kmip_node_new_text_string KMIP_TAG_OPERATION_POLICY_NAME None policy.
Definition kmip_get_operation_policy_name (node : option kmip_node) : Z + list Z :=
  s ← get_tagged KMIP_TAG_OPERATION_POLICY_NAME kmip_node_get_text_string node; need (- EBADMSG) s.

Definition kmip_new_lease_time (lease_time : Z) : option kmip_node :=
  kmip_node_new_interval KMIP_TAG_LEASE_TIME None lease_time.
Definition kmip_get_lease_time (node : option kmip_node) : Z + Z :=
  get_tagged KMIP_TAG_LEASE_TIME kmip_node_get_interval node.

(** ** What they promise *)

(** [new a] is a node that [get] reads as [a], that [get] refuses under any other
    tag, and that reads the same after it was copied. *)
Class Attribute {A B : Type} (tag : Z) (arg : A → B) (new : B → option kmip_node)
    (get : option kmip_node → Z + A) (ok : A → Prop) : Prop := {
  attribute_node a : ok a → ∃ n, new (arg a) = Some n ∧ node_tag n = tag ∧
    get (Some n) = inr a ∧ cloneable n = true ∧ get (Some (copy n)) = inr a;
  attribute_tag n : node_tag n ≠ tag → get (Some n) = inl (- EBADMSG);
}.

(** a string argument: any string without NUL *)
Definition no_nul (s : list Z) : Prop := Forall (λ c, c ≠ 0) s.

Ltac solve_scalar :=
  split;
  [ intros a _; eexists; split_and!; reflexivity
  | intros n Hn; apply Z.eqb_neq in Hn; unfold get_tagged; by rewrite Hn ].

Ltac solve_text :=
  split;
  [ intros a Ha; eexists; split_and!; [reflexivity|reflexivity| |reflexivity|];
    unfold no_nul in Ha; cbn; rewrite ?cstr_idem; by rewrite cstr_no_nul
  | intros n Hn; apply Z.eqb_neq in Hn; unfold get_tagged; by rewrite Hn ].

#[export] Instance object_type_attribute :
  Attribute KMIP_TAG_OBJECT_TYPE id kmip_new_object_type kmip_get_object_type (λ _, True).
Proof. unfold kmip_new_object_type, kmip_get_object_type. solve_scalar. Qed.

#[export] Instance cryptographic_algorithm_attribute :
  Attribute KMIP_TAG_CRYPTOGRAPHIC_ALGORITHM id kmip_new_cryptographic_algorithm kmip_get_cryptographic_algorithm (λ _, True).
Proof. unfold kmip_new_cryptographic_algorithm, kmip_get_cryptographic_algorithm. solve_scalar. Qed.

#[export] Instance cryptographic_length_attribute :
  Attribute KMIP_TAG_CRYPTOGRAPHIC_LENGTH id kmip_new_cryptographic_length kmip_get_cryptographic_length (λ _, True).
Proof. unfold kmip_new_cryptographic_length, kmip_get_cryptographic_length. solve_scalar. Qed.

#[export] Instance certificate_type_attribute :
  Attribute KMIP_TAG_CERTIFICATE_TYPE id kmip_new_certificate_type kmip_get_certificate_type (λ _, True).
Proof. unfold kmip_new_certificate_type, kmip_get_certificate_type. solve_scalar. Qed.

#[export] Instance cryptographic_usage_mask_attribute :
  Attribute KMIP_TAG_CRYPTOGRAPHIC_USAGE_MASK id kmip_new_cryptographic_usage_mask kmip_get_cryptographic_usage_mask (λ _, True).
Proof. unfold kmip_new_cryptographic_usage_mask, kmip_get_cryptographic_usage_mask. solve_scalar. Qed.

#[export] Instance state_attribute :
  Attribute KMIP_TAG_STATE id kmip_new_state kmip_get_state (λ _, True).
Proof. unfold kmip_new_state, kmip_get_state. solve_scalar. Qed.

#[export] Instance initial_date_attribute :
  Attribute KMIP_TAG_INITIAL_DATE id kmip_new_initial_date kmip_get_initial_date (λ _, True).
Proof. unfold kmip_new_initial_date, kmip_get_initial_date. solve_scalar. Qed.

#[export] Instance activation_date_attribute :
  Attribute KMIP_TAG_ACTIVATION_DATE id kmip_new_activation_date kmip_get_activation_date (λ _, True).
Proof. unfold kmip_new_activation_date, kmip_get_activation_date. solve_scalar. Qed.

#[export] Instance deactivation_date_attribute :
  Attribute KMIP_TAG_DEACTIVATION_DATE id kmip_new_deactivation_date kmip_get_deactivation_date (λ _, True).
Proof. unfold kmip_new_deactivation_date, kmip_get_deactivation_date. solve_scalar. Qed.

#[export] Instance destroy_date_attribute :
  Attribute KMIP_TAG_DESTROY_DATE id kmip_new_destroy_date kmip_get_destroy_date (λ _, True).
Proof. unfold kmip_new_destroy_date, kmip_get_destroy_date. solve_scalar. Qed.

#[export] Instance compromise_date_attribute :
  Attribute KMIP_TAG_COMPROMIZE_DATE id kmip_new_compromise_date kmip_get_compromise_date (λ _, True).
Proof. unfold kmip_new_compromise_date, kmip_get_compromise_date. solve_scalar. Qed.

#[export] Instance compromise_occurrence_date_attribute :
  Attribute KMIP_TAG_COMPROMISE_OCCURRENCE_DATE id kmip_new_compromise_occurrence_date kmip_get_compromise_occurrence_date (λ _, True).
Proof. unfold kmip_new_compromise_occurrence_date, kmip_get_compromise_occurrence_date. solve_scalar. Qed.

#[export] Instance last_change_date_attribute :
  Attribute KMIP_TAG_LAST_CHANGE_DATE id kmip_new_last_change_date kmip_get_last_change_date (λ _, True).
Proof. unfold kmip_new_last_change_date, kmip_get_last_change_date. solve_scalar. Qed.

#[export] Instance original_creation_date_attribute :
  Attribute KMIP_TAG_ORIGINAL_CREATION_DATE id kmip_new_original_creation_date kmip_get_original_creation_date (λ _, True).
Proof. unfold kmip_new_original_creation_date, kmip_get_original_creation_date. solve_scalar. Qed.

#[export] Instance archive_date_attribute :
  Attribute KMIP_TAG_ARCHIVE_DATE id kmip_new_archive_date kmip_get_archive_date (λ _, True).
Proof. unfold kmip_new_archive_date, kmip_get_archive_date. solve_scalar. Qed.

#[export] Instance process_start_date_attribute :
  Attribute KMIP_TAG_PROCESS_START_DATE id kmip_new_process_start_date kmip_get_process_start_date (λ _, True).
Proof. unfold kmip_new_process_start_date, kmip_get_process_start_date. solve_scalar. Qed.

#[export] Instance protect_stop_date_attribute :
  Attribute KMIP_TAG_PROTECT_STOP_DATE id kmip_new_protect_stop_date kmip_get_protect_stop_date (λ _, True).
Proof. unfold kmip_new_protect_stop_date, kmip_get_protect_stop_date. solve_scalar. Qed.

#[export] Instance digital_signature_algorithm_attribute :
  Attribute KMIP_TAG_DIGITAL_SIGNATURE_ALGORITHM id kmip_new_digital_signature_algorithm kmip_get_digital_signature_algorithm (λ _, True).
Proof. unfold kmip_new_digital_signature_algorithm, kmip_get_digital_signature_algorithm. solve_scalar. Qed.

#[export] Instance object_group_attribute :
  Attribute KMIP_TAG_OBJECT_GROUP Some kmip_new_object_group kmip_get_object_group no_nul.
Proof. unfold kmip_new_object_group, kmip_get_object_group. solve_text. Qed.

#[export] Instance contact_information_attribute :
  Attribute KMIP_TAG_CONTACT_INFORMATION Some kmip_new_contact_information kmip_get_contact_information no_nul.
Proof. unfold kmip_new_contact_information, kmip_get_contact_information. solve_text. Qed.

#[export] Instance description_attribute :
  Attribute KMIP_TAG_DESCRIPTION Some kmip_new_description kmip_get_description no_nul.
Proof. unfold kmip_new_description, kmip_get_description. solve_text. Qed.

#[export] Instance comment_attribute :
  Attribute KMIP_TAG_COMMENT Some kmip_new_comment kmip_get_comment no_nul.
Proof. unfold kmip_new_comment, kmip_get_comment. solve_text. Qed.

#[export] Instance key_format_type_attribute :
  Attribute KMIP_TAG_KEY_FORMAT_TYPE id kmip_new_key_format_type kmip_get_key_format_type (λ _, True).
Proof. unfold kmip_new_key_format_type, kmip_get_key_format_type. solve_scalar. Qed.

#[export] Instance protection_level_attribute :
  Attribute KMIP_TAG_PROTECTION_LEVEL id kmip_new_protection_level kmip_get_protection_level (λ _, True).
Proof. unfold kmip_new_protection_level, kmip_get_protection_level. solve_scalar. Qed.

#[export] Instance protection_period_attribute :
  Attribute KMIP_TAG_PROTECTION_PERIOD id kmip_new_protection_period kmip_get_protection_period (λ _, True).
Proof. unfold kmip_new_protection_period, kmip_get_protection_period. solve_scalar. Qed.

#[export] Instance protection_storage_mask_attribute :
  Attribute KMIP_TAG_PROTECTION_STORAGE_MASK id kmip_new_protection_storage_mask kmip_get_protection_storage_mask (λ _, True).
Proof. unfold kmip_new_protection_storage_mask, kmip_get_protection_storage_mask. solve_scalar. Qed.

#[export] Instance fresh_attribute :
  Attribute KMIP_TAG_FRESH id kmip_new_fresh kmip_get_fresh (λ _, True).
Proof. unfold kmip_new_fresh, kmip_get_fresh. solve_scalar. Qed.

#[export] Instance key_value_present_attribute :
  Attribute KMIP_TAG_KEY_VALUE_PRESENT id kmip_new_key_value_present kmip_get_key_value_present (λ _, True).
Proof. unfold kmip_new_key_value_present, kmip_get_key_value_present. solve_scalar. Qed.

#[export] Instance sensitive_attribute :
  Attribute KMIP_TAG_SENSITIVE id kmip_new_sensitive kmip_get_sensitive (λ _, True).
Proof. unfold kmip_new_sensitive, kmip_get_sensitive. solve_scalar. Qed.

#[export] Instance always_sensitive_attribute :
  Attribute KMIP_TAG_ALWAYS_SENSITIVE id kmip_new_always_sensitive kmip_get_always_sensitive (λ _, True).
Proof. unfold kmip_new_always_sensitive, kmip_get_always_sensitive. solve_scalar. Qed.

#[export] Instance extractable_attribute :
  Attribute KMIP_TAG_EXTRACTABLE id kmip_new_extractable kmip_get_extractable (λ _, True).
Proof. unfold kmip_new_extractable, kmip_get_extractable. solve_scalar. Qed.

#[export] Instance never_extractable_attribute :
  Attribute KMIP_TAG_NEVER_EXTRACTABLE id kmip_new_never_extractable kmip_get_never_extractable (λ _, True).
Proof. unfold kmip_new_never_extractable, kmip_get_never_extractable. solve_scalar. Qed.

#[export] Instance operation_policy_name_attribute :
  Attribute KMIP_TAG_OPERATION_POLICY_NAME Some kmip_new_operation_policy_name kmip_get_operation_policy_name no_nul.
Proof. unfold kmip_new_operation_policy_name, kmip_get_operation_policy_name. solve_text. Qed.

#[export] Instance lease_time_attribute :
  Attribute KMIP_TAG_LEASE_TIME id kmip_new_lease_time kmip_get_lease_time (λ _, True).
Proof. unfold kmip_new_lease_time, kmip_get_lease_time. solve_scalar. Qed.

(** An attribute whose tag has a name in v1.x reads the same after it was
    translated to v1.x and back. *)
Lemma attribute_translates {A B tag arg new get ok} `{!@Attribute A B tag arg new get ok} a name :
  kmip_v1_attr_name_by_tag tag = Some name → tag ≠ KMIP_TAG_ATTRIBUTE → ok a →
  ∃ n v1 n', new (arg a) = Some n ∧ kmip_v1_attr_from_v2_attr (Some n) = inr v1 ∧
    kmip_v2_attr_from_v1_attr (Some v1) = inr n' ∧ get (Some n') = inr a.
Proof.
  intros Hname Htag Hok. destruct (attribute_node a Hok) as (n & Hn & Ht & _ & Hc & Hg). subst tag.
  destruct (v2_v1_v2 n name Hname Htag Hc) as (v1 & H1 & _ & H2).
  by exists n, v1, (copy n).
Qed.
