(* ===== verification/KmipMessage.v ===== *)
(** Requests to a KMIP server (src/libkmipclient/request.c) and its responses
    (src/libkmipclient/response.c, in the second half).

    A request message is a header and batch items, each with the payload of its
    operation.  The functions build the nodes; an argument that is not to be sent
    is [None] (NULL) or 0, as in the code, and is left out of the structure.

    The default protocol version is a variable of the library that
    [kmip_set_default_protocol_version] changes; the functions that read it have
    it as the argument [dflt].  [now] is the time of day. *)
From S2P Require Import Prelude Codec Kmip KmipAttr KmipAttributes.

(** ** Versions *)

Definition KMIP_DEFAULT_PROTOCOL_VERSION : kmip_version := KmipVersion 1 0.

(** the new default version *)
Definition kmip_set_default_protocol_version (dflt : kmip_version) (version : option kmip_version)
    : kmip_version := default dflt version.

Definition kmip_new_protocol_version (version : option kmip_version) : option kmip_node :=
  match version with
  | None => None
  | Some v =>
      kmip_node_new_structure_va KMIP_TAG_PROTOCOL_VERSION None
        [kmip_node_new_integer KMIP_TAG_PROTOCOL_VERSION_MAJOR None (major v);
         kmip_node_new_integer KMIP_TAG_PROTOCOL_VERSION_MINOR None (minor v)]
  end.

Definition kmip_new_profile_version (version : option kmip_version) : option kmip_node :=
  match version with
  | None => None
  | Some v =>
      kmip_node_new_structure_va KMIP_TAG_PROFILE_VERSION None
        [kmip_node_new_integer KMIP_TAG_PROFILE_VERSION_MAJOR None (major v);
         kmip_node_new_integer KMIP_TAG_PROFILE_VERSION_MINOR None (minor v)]
  end.

Definition kmip_versions : list kmip_version :=
  [KmipVersion 1 0; KmipVersion 1 1; KmipVersion 1 2; KmipVersion 1 3; KmipVersion 1 4;
   KmipVersion 2 0; KmipVersion 2 1].

(** ** The message *)

(** what is only sent under a condition *)
Definition when {A} (b : bool) (o : option A) : option A := if b then o else None.

Definition kmip_new_request_header (dflt : kmip_version) (now : Z)
    (version : option kmip_version) (max_response_size : Z)
    (client_corr_value server_corr_value : option (list Z)) (asynchronous : bool)
    (authentication : option kmip_node) (batch_err_opt : Z) (batch_order_option : bool)
    (batch_count : Z) : option kmip_node :=
  let version := default dflt version in
  let ver := kmip_new_protocol_version (Some version) in
  let max := when (0 <? max_response_size)
               (kmip_node_new_integer KMIP_TAG_MAXIMUM_RESPONSE_SIZE None max_response_size) in
  let old := (major version =? 1) && (minor version <=? 3) in
  let text tag (s : option (list Z)) :=
    match when (negb old) s with
    | Some s => kmip_node_new_text_string tag None (Some s)
    | None => None
    end in
  let ccorr := text KMIP_TAG_CLIENT_CORRELATION_VALUE client_corr_value in
  let scorr := text KMIP_TAG_SERVER_CORRELATION_VALUE server_corr_value in
  let async := when asynchronous
                 (kmip_node_new_boolean KMIP_TAG_ASYNCHRONOUS_INDICATOR None asynchronous) in
  let err := when (negb (batch_err_opt =? 0) && (1 <? batch_count))
               (kmip_node_new_enumeration KMIP_TAG_BATCH_ERROR_CONTINUATION_OPTION None
                  batch_err_opt) in
  let ord := kmip_node_new_boolean KMIP_TAG_BATCH_ORDER_OPTION None batch_order_option in
  let tim := kmip_node_new_date_time KMIP_TAG_TIME_STAMP None now in
  let cnt := kmip_node_new_integer KMIP_TAG_BATCH_COUNT None batch_count in
  kmip_node_new_structure_va KMIP_TAG_REQUEST_HEADER None
    [ver; max; ccorr; scorr; authentication; async; err; ord; tim; cnt].

Definition kmip_new_request_batch_item (operation : Z) (batch_id : option (list Z))
    (batch_id_length : Z) (payload : option kmip_node) : option kmip_node :=
  match payload with
  | None => None
  | Some _ =>
      let op := kmip_node_new_enumeration KMIP_TAG_OPERATION None operation in
      let bid := match batch_id with
                 | Some _ => when (0 <? batch_id_length)
                     (kmip_node_new_byte_string KMIP_TAG_UNIQUE_BATCH_ITEM_ID None
                        batch_id batch_id_length)
                 | None => None
                 end in
      kmip_node_new_structure_va KMIP_TAG_BATCH_ITEM None [op; bid; payload]
  end.

Definition kmip_new_request (request_header : option kmip_node)
    (batch_items : list (option kmip_node)) : option kmip_node :=
  match request_header with
  | None => None
  | Some _ =>
      let ret := kmip_node_new_structure_va KMIP_TAG_REQUEST_MESSAGE None [request_header] in
      let '(rc, ret) := kmip_node_add_structure_elements ret batch_items in
      if rc =? 0 then ret else None
  end.

(** the batch items come as variable arguments *)
Definition kmip_new_request_va (request_header : option kmip_node)
    (batch_items : list (option kmip_node)) : option kmip_node :=
  match request_header with
  | None => None
  | Some _ => kmip_new_request request_header batch_items
  end.

(** ** Payloads *)

Definition kmip_new_query_request_payload (functions : list Z) : option kmip_node :=
  add_each (kmip_node_new_structure_va KMIP_TAG_REQUEST_PAYLOAD None [])
    (map (kmip_node_new_enumeration KMIP_TAG_QUERY_FUNCTION None) functions).

Definition kmip_new_query_request_payload_va (functions : list Z) : option kmip_node :=
  kmip_new_query_request_payload functions.

(** [None] for a negative count: all versions that the library knows *)
Definition kmip_new_discover_versions_payload (versions : option (list kmip_version))
    : option kmip_node :=
  add_each (kmip_node_new_structure_va KMIP_TAG_REQUEST_PAYLOAD None [])
    (map (λ v, kmip_new_protocol_version (Some v)) (default kmip_versions versions)).

Definition kmip_new_discover_versions_payload_va (versions : option (list kmip_version))
    : option kmip_node := kmip_new_discover_versions_payload versions.

Definition kmip_new_protection_storage_masks (masks : list Z) : option kmip_node :=
  add_each (kmip_node_new_structure_va KMIP_TAG_PROTECTION_STORAGE_MASKS None [])
    (map (kmip_node_new_integer KMIP_TAG_PROTECTION_STORAGE_MASK None) masks).

Definition kmip_new_protection_storage_masks_va (masks : list Z) : option kmip_node :=
  kmip_new_protection_storage_masks masks.

(** the loops over variable arguments that keep those that are not NULL *)
Definition va_nodes (args : list (option kmip_node)) : list (option kmip_node) :=
  filter is_Some args.

Section Payloads.
Variable dflt : kmip_version.

Definition kmip_new_create_request_payload (version : option kmip_version) (obj_type : Z)
    (prot_storage_masks : option kmip_node) (attrs : list (option kmip_node)) : option kmip_node :=
  let version := default dflt version in
  let otyp := kmip_new_object_type obj_type in
  let prot_storage_masks := if major version <? 2 then None else prot_storage_masks in
  match kmip_new_attributes version KMIP_TAG_ATTRIBUTES attrs with
  | None => None
  | att => kmip_node_new_structure_va KMIP_TAG_REQUEST_PAYLOAD None [otyp; att; prot_storage_masks]
  end.

Definition kmip_new_create_request_payload_va (version : option kmip_version) (obj_type : Z)
    (prot_storage_masks : option kmip_node) (attrs : list (option kmip_node)) : option kmip_node :=
  kmip_new_create_request_payload version obj_type prot_storage_masks (va_nodes attrs).

Definition kmip_new_get_attribute_list_request_payload (unique_id : option kmip_node)
    : option kmip_node :=
  kmip_node_new_structure_va KMIP_TAG_REQUEST_PAYLOAD None [unique_id].

(** the loop that adds the references, as names in v1.x *)
Fixpoint add_attr_refs (v1 : bool) (rpl : option kmip_node) (attr_refs : list (option kmip_node))
    : option kmip_node :=
  match attr_refs with
  | [] => rpl
  | None :: rest => add_attr_refs v1 rpl rest
  | ref :: rest =>
      if v1 then
        match kmip_new_attribute_name_v1 ref with
        | None => None
        | v1_attr_name =>
            let '(rc, rpl) := kmip_node_add_structure_element rpl v1_attr_name in
            if rc =? 0 then add_attr_refs v1 rpl rest else None
        end
      else
        let '(rc, rpl) := kmip_node_add_structure_element rpl ref in
        if rc =? 0 then add_attr_refs v1 rpl rest else None
  end.

Definition kmip_new_get_attributes_request_payload (version : option kmip_version)
    (unique_id : option kmip_node) (attr_refs : list (option kmip_node)) : option kmip_node :=
  let version := default dflt version in
  add_attr_refs (major version =? 1)
    (kmip_node_new_structure_va KMIP_TAG_REQUEST_PAYLOAD None [unique_id]) attr_refs.

Definition kmip_new_get_attributes_request_payload_va (version : option kmip_version)
    (unique_id : option kmip_node) (attr_refs : list (option kmip_node)) : option kmip_node :=
  kmip_new_get_attributes_request_payload version unique_id (va_nodes attr_refs).

Definition kmip_new_add_attribute_request_payload (version : option kmip_version)
    (unique_id v2_attr : option kmip_node) : option kmip_node :=
  match v2_attr with
  | None => None
  | Some _ =>
      let version := default dflt version in
      if major version =? 1 then
        match kmip_v1_attr_from_v2_attr v2_attr with
        | inl _ => None
        | inr v1_attr =>
            kmip_node_new_structure_va KMIP_TAG_REQUEST_PAYLOAD None [unique_id; Some v1_attr]
        end
      else
        match kmip_new_current_new_attribute true v2_attr with
        | None => None
        | new_attr =>
            kmip_node_new_structure_va KMIP_TAG_REQUEST_PAYLOAD None [unique_id; new_attr]
        end
  end.

Definition kmip_new_modify_attribute_request_payload (version : option kmip_version)
    (unique_id v2_current v2_attr : option kmip_node) : option kmip_node :=
  match v2_attr with
  | None => None
  | Some _ =>
      let version := default dflt version in
      if major version =? 1 then
        match kmip_v1_attr_from_v2_attr v2_attr with
        | inl _ => None
        | inr v1_attr =>
            kmip_node_new_structure_va KMIP_TAG_REQUEST_PAYLOAD None [unique_id; Some v1_attr]
        end
      else
        let new_attr := kmip_new_current_new_attribute true v2_attr in
        let cur_attr := kmip_new_current_new_attribute false v2_current in
        kmip_node_new_structure_va KMIP_TAG_REQUEST_PAYLOAD None [unique_id; cur_attr; new_attr]
  end.

Definition kmip_new_set_attribute_v2_request_payload (unique_id v2_attr : option kmip_node)
    : option kmip_node :=
  match kmip_new_current_new_attribute true v2_attr with
  | None => None
  | new_attr => kmip_node_new_structure_va KMIP_TAG_REQUEST_PAYLOAD None [unique_id; new_attr]
  end.

(** the name in v1.x of the attribute [v2_current]: the node has no text when the
    tag is not in the table *)
Definition current_attr_name_v1 (v2_current : option kmip_node) : option kmip_node :=
  if kmip_node_get_tag v2_current =? KMIP_TAG_ATTRIBUTE then
    match kmip_get_vendor_attribute v2_current with
    | inl _ => None
    | inr (vendor_id, attr_name, _) =>
        match kmip_build_v1_custom_attr_name (Some vendor_id) (Some attr_name) with
        | None => None
        | name => kmip_node_new_text_string KMIP_TAG_ATTRIBUTE_NAME None name
        end
    end
  else kmip_node_new_text_string KMIP_TAG_ATTRIBUTE_NAME None
         (kmip_v1_attr_name_by_tag (kmip_node_get_tag v2_current)).

Definition kmip_new_delete_attribute_request_payload (version : option kmip_version)
    (unique_id v2_current attr_ref : option kmip_node) : option kmip_node :=
  match v2_current, attr_ref with
  | Some _, Some _ => None
  | None, None => None
  | _, _ =>
      let version := default dflt version in
      if major version =? 1 then
        match (match v2_current with
               | Some _ => current_attr_name_v1 v2_current
               | None => kmip_new_attribute_name_v1 attr_ref
               end) with
        | None => None
        | nam => kmip_node_new_structure_va KMIP_TAG_REQUEST_PAYLOAD None [unique_id; nam]
        end
      else
        kmip_node_new_structure_va KMIP_TAG_REQUEST_PAYLOAD None
          [unique_id; kmip_new_current_new_attribute false v2_current; attr_ref]
  end.

Definition kmip_new_activate_request_payload (unique_id : option kmip_node) : option kmip_node :=
  kmip_node_new_structure_va KMIP_TAG_REQUEST_PAYLOAD None [unique_id].
Definition kmip_new_destroy_request_payload (unique_id : option kmip_node) : option kmip_node :=
  kmip_node_new_structure_va KMIP_TAG_REQUEST_PAYLOAD None [unique_id].
Definition kmip_new_archive_request_payload (unique_id : option kmip_node) : option kmip_node :=
  kmip_node_new_structure_va KMIP_TAG_REQUEST_PAYLOAD None [unique_id].
Definition kmip_new_recover_request_payload (unique_id : option kmip_node) : option kmip_node :=
  kmip_node_new_structure_va KMIP_TAG_REQUEST_PAYLOAD None [unique_id].

(** [compromise_date] is of type [uint64_t], a date of type [int64_t] *)
Definition kmip_new_revoke_request_payload (unique_id : option kmip_node) (rsn : Z)
    (message : option (list Z)) (compromise_date : Z) : option kmip_node :=
  let rsn_code := kmip_node_new_enumeration KMIP_TAG_REVOCATION_REASON_CODE None rsn in
  let rsn_msg := match message with
                 | Some _ => kmip_node_new_text_string KMIP_TAG_REVOCATION_MESSAGE None message
                 | None => None
                 end in
  match kmip_node_new_structure_va KMIP_TAG_REVOCATION_REASON None [rsn_code; rsn_msg] with
  | None => None
  | reason =>
      let compromise := (rsn =? KMIP_REVOK_RSN_KEY_COMPROMISE) ||
                        (rsn =? KMIP_REVOK_RSN_CA_COMPROMISE) in
      let date := when (compromise && negb (compromise_date =? 0))
                    (kmip_node_new_date_time KMIP_TAG_COMPROMISE_OCCURRENCE_DATE None
                       (twos_complement 8 compromise_date)) in
      kmip_node_new_structure_va KMIP_TAG_REQUEST_PAYLOAD None [unique_id; reason; date]
  end.

(** the attributes that are searched for, in the form of v1.x; NULL is skipped *)
Fixpoint add_v1_attrs (rpl : option kmip_node) (attrs : list (option kmip_node)) : option kmip_node :=
  match attrs with
  | [] => rpl
  | None :: rest => add_v1_attrs rpl rest
  | v2_attr :: rest =>
      match kmip_v1_attr_from_v2_attr v2_attr with
      | inl _ => None
      | inr v1_attr =>
          let '(rc, rpl) := kmip_node_add_structure_element rpl (Some v1_attr) in
          if rc =? 0 then add_v1_attrs rpl rest else None
      end
  end.

Definition kmip_new_locate_request_payload (version : option kmip_version)
    (max_items offset_items storage_status obj_group : Z) (attrs : list (option kmip_node))
    : option kmip_node :=
  let version := default dflt version in
  let max := when (0 <? max_items)
               (kmip_node_new_integer KMIP_TAG_MAXIMUM_ITEMS None max_items) in
  let ofs := when ((0 <? offset_items) &&
                   ((1 <? major version) || ((major version =? 1) && (2 <? minor version))))
               (kmip_node_new_integer KMIP_TAG_OFFSET_ITEMS None offset_items) in
  let stm := when (negb (storage_status =? 0))
               (kmip_node_new_integer KMIP_TAG_STORAGE_STATUS_MASK None storage_status) in
  let grp := when ((0 <? obj_group) && ((1 <? major version) || (1 <? minor version)))
               (kmip_node_new_enumeration KMIP_TAG_OBJECT_GROUP_MEMBER None obj_group) in
  if major version =? 1 then
    add_v1_attrs (kmip_node_new_structure_va KMIP_TAG_REQUEST_PAYLOAD None [max; ofs; stm; grp]) attrs
  else
    match kmip_new_attributes version KMIP_TAG_ATTRIBUTES attrs with
    | None => None
    | att => kmip_node_new_structure_va KMIP_TAG_REQUEST_PAYLOAD None [max; ofs; stm; grp; att]
    end.

Definition kmip_new_locate_request_payload_va (version : option kmip_version)
    (max_items offset_items storage_status obj_group : Z) (attrs : list (option kmip_node))
    : option kmip_node :=
  kmip_new_locate_request_payload version max_items offset_items storage_status obj_group
    (va_nodes attrs).

Definition kmip_new_register_request_payload (version : option kmip_version) (obj_type : Z)
    (object prot_storage_masks : option kmip_node) (attrs : list (option kmip_node))
    : option kmip_node :=
  match object with
  | None => None
  | Some _ =>
      let version := default dflt version in
      let otyp := kmip_new_object_type obj_type in
      let prot_storage_masks := if major version <? 2 then None else prot_storage_masks in
      match kmip_new_attributes version KMIP_TAG_ATTRIBUTES attrs with
      | None => None
      | att => kmip_node_new_structure_va KMIP_TAG_REQUEST_PAYLOAD None
                 [otyp; att; object; prot_storage_masks]
      end
  end.

Definition kmip_new_register_request_payload_va (version : option kmip_version) (obj_type : Z)
    (object prot_storage_masks : option kmip_node) (attrs : list (option kmip_node))
    : option kmip_node :=
  kmip_new_register_request_payload version obj_type object prot_storage_masks (va_nodes attrs).

Definition kmip_new_get_request_payload (version : option kmip_version)
    (unique_id : option kmip_node) (format_type wrap_type compr_type : Z)
    (wrap_specification : option kmip_node) : option kmip_node :=
  let version := default dflt version in
  let fmt := when (negb (format_type =? 0))
               (kmip_node_new_enumeration KMIP_TAG_KEY_FORMAT_TYPE None format_type) in
  let wt := when (negb (wrap_type =? 0) &&
                  ((1 <? major version) || ((major version =? 1) && (3 <? minor version))))
              (kmip_node_new_enumeration KMIP_TAG_KEY_WRAP_TYPE None wrap_type) in
  let cmpt := when (negb (compr_type =? 0))
                (kmip_node_new_enumeration KMIP_TAG_KEY_COMPRESSION_TYPE None compr_type) in
  kmip_node_new_structure_va KMIP_TAG_REQUEST_PAYLOAD None
    [unique_id; fmt; wt; cmpt; wrap_specification].
End Payloads.

(** Responses of a KMIP server (src/libkmipclient/response.c).

    The functions take a response apart.  Results that the caller does not ask for
    (a NULL pointer for them) are not looked for, so that they cannot fail either:
    a flag of the model says whether the pointer is there, and the result is an
    [option].  Where the code sets results before it finds an error, the error is
    all that its callers use, and all that the model returns. *)

(** a result that is only looked for when it is asked for *)
Definition want {A} (wanted : bool) (r : Z + A) : Z + option A :=
  if wanted then a ← r; inr (Some a) else inr None.

(** the first check of every function: the node is there and has the tag *)
Definition check_tag (node : option kmip_node) (tag : Z) : Z + unit :=
  match node with
  | None => inl (- EINVAL)
  | Some _ => if kmip_node_get_tag node =? tag then inr tt else inl (- EBADMSG)
  end.

(** an element that must be there *)
Definition element (node : option kmip_node) (tag : Z) : Z + option kmip_node :=
  match by_tag node tag 0 with None => inl (- EBADMSG) | n => inr n end.

(** ** Versions, header, batch items *)

Definition kmip_get_protocol_version (node : option kmip_node) : Z + kmip_version :=
  _ ← check_tag node KMIP_TAG_PROTOCOL_VERSION;
  maj ← element node KMIP_TAG_PROTOCOL_VERSION_MAJOR;
  min ← element node KMIP_TAG_PROTOCOL_VERSION_MINOR;
  inr (KmipVersion (kmip_node_get_integer maj) (kmip_node_get_integer min)).

Definition kmip_get_profile_version (node : option kmip_node) : Z + kmip_version :=
  _ ← check_tag node KMIP_TAG_PROFILE_VERSION;
  maj ← element node KMIP_TAG_PROFILE_VERSION_MAJOR;
  min ← element node KMIP_TAG_PROFILE_VERSION_MINOR;
  inr (KmipVersion (kmip_node_get_integer maj) (kmip_node_get_integer min)).

Record response_header := ResponseHeader {
  rh_version : option kmip_version;
  rh_time_stamp : option Z;
  rh_client_corr_value : option (list Z);
  rh_server_corr_value : option (list Z);
  rh_batch_count : option Z
}.

Definition kmip_get_response_header (node : option kmip_node)
    (version time_stamp client_corr_value server_corr_value batch_count : bool)
    : Z + response_header :=
  _ ← check_tag node KMIP_TAG_RESPONSE_HEADER;
  time ← want time_stamp
    (n ← element node KMIP_TAG_TIME_STAMP; inr (kmip_node_get_date_time n));
  count ← want batch_count
    (n ← element node KMIP_TAG_BATCH_COUNT; inr (kmip_node_get_integer n));
  ver ← want version
    (n ← element node KMIP_TAG_PROTOCOL_VERSION; kmip_get_protocol_version n);
  client ← want client_corr_value
    (n ← element node KMIP_TAG_CLIENT_CORRELATION_VALUE;
     need (- EBADMSG) (kmip_node_get_text_string n));
  server ← want server_corr_value
    (n ← element node KMIP_TAG_SERVER_CORRELATION_VALUE;
     need (- EBADMSG) (kmip_node_get_text_string n));
  inr (ResponseHeader ver time client server count).

Record response_item := ResponseItem {
  ri_operation : option Z;
  ri_batch_id : option (list Z);
  ri_batch_id_length : option Z;
  ri_status : option Z;
  ri_reason : Z;
  ri_message : option (list Z);
  ri_async_corr_value : option (list Z);
  ri_async_corr_value_len : option Z;
  ri_payload : option kmip_node
}.

(** a byte string that may be missing: the bytes and what is stored as length *)
Definition optional_bytes (n : option kmip_node) : option (list Z) * option Z :=
  match n with
  | None => (None, Some 0)
  | Some _ => kmip_node_get_byte_string n
  end.

(** The operation and the status are the only results that can fail. *)
Definition kmip_get_response_batch_item (node : option kmip_node) (operation status : bool)
    : Z + response_item :=
  _ ← check_tag node KMIP_TAG_BATCH_ITEM;
  op ← want operation
    (n ← element node KMIP_TAG_OPERATION; inr (kmip_node_get_enumeration n));
  let '(batch_id, batch_id_length) := optional_bytes (by_tag node KMIP_TAG_UNIQUE_BATCH_ITEM_ID 0) in
  st ← want status
    (n ← element node KMIP_TAG_RESULT_STATUS; inr (kmip_node_get_enumeration n));
  let reason := kmip_node_get_enumeration (by_tag node KMIP_TAG_RESULT_REASON 0) in
  let message := kmip_node_get_text_string (by_tag node KMIP_TAG_RESULT_MESSAGE 0) in
  let '(async, async_len) :=
    optional_bytes (by_tag node KMIP_TAG_ASYNCHRONOUS_CORRELATION_VALUE 0) in
  inr (ResponseItem op batch_id batch_id_length st reason message async async_len
         (by_tag node KMIP_TAG_RESPONSE_PAYLOAD 0)).

(** the header, if it is asked for, and the batch item (NULL when there is none at
    the index) *)
Definition kmip_get_response (node : option kmip_node) (response_header : bool) (batch_index : Z)
    : Z + option kmip_node * option kmip_node :=
  _ ← check_tag node KMIP_TAG_RESPONSE_MESSAGE;
  header ← want response_header (need (- EBADMSG) (by_tag node KMIP_TAG_RESPONSE_HEADER 0));
  inr (header, by_tag node KMIP_TAG_BATCH_ITEM batch_index).

(** ** Payloads *)

Definition query_info : list (Z * Z) :=
  [(KMIP_QUERY_OPERATIONS, KMIP_TAG_OPERATION);
   (KMIP_QUERY_OBJECTS, KMIP_TAG_OBJECT_TYPE);
   (KMIP_QUERY_SERVER_INFORMATION, KMIP_TAG_VENDOR_IDENTIFICATION);
   (KMIP_QUERY_SERVER_INFORMATION, KMIP_TAG_SERVER_INFORMATION);
   (KMIP_QUERY_APPLICATION_NAMESPACES, KMIP_TAG_APPLICATION_NAMESPACE);
   (KMIP_QUERY_EXTENSION_LIST, KMIP_TAG_EXTENSION_INFORMATION);
   (KMIP_QUERY_EXTENSION_MAP, KMIP_TAG_EXTENSION_INFORMATION);
   (KMIP_QUERY_ATTESTATION_TYPES, KMIP_TAG_ATTESTATION_TYPE);
   (KMIP_QUERY_QUERY_RNGS, KMIP_TAG_RNG_PARAMETERS);
   (KMIP_QUERY_VALIDATIONS, KMIP_TAG_VALIDATION_INFORMATION);
   (KMIP_QUERY_PROFILES, KMIP_TAG_PROFILE_INFORMATION);
   (KMIP_QUERY_CAPABILITIES, KMIP_TAG_CAPABILITY_INFORMATION);
   (KMIP_QUERY_CLIENT_REGISTRATION_METHODS, KMIP_TAG_CLIENT_REGISTRATION_METHOD);
   (KMIP_QUERY_DEFAULTS_INFORMATION, KMIP_TAG_DEFAULTS_INFORMATION);
   (KMIP_QUERY_STORAGE_PROTECTION_MASKS, KMIP_TAG_PROTECTION_STORAGE_MASKS)].

(** the number of results, and the one at the index if it is asked for *)
Definition kmip_get_query_response_payload (node : option kmip_node) (query_function : Z)
    (result_index : option Z) : Z + Z * option kmip_node :=
  _ ← check_tag node KMIP_TAG_RESPONSE_PAYLOAD;
  let result_tag := default 0 (snd <$> head (filter (λ e, fst e = query_function) query_info)) in
  if result_tag =? 0 then inl (- EBADMSG) else
  let server_info := query_function =? KMIP_QUERY_SERVER_INFORMATION in
  let count := kmip_node_get_structure_element_by_tag_count node in
  let num_results :=
    if server_info then u32 (count result_tag + count KMIP_TAG_SERVER_INFORMATION)
    else count result_tag in
  match result_index with
  | None => inr (num_results, None)
  | Some index =>
      match by_tag node result_tag index with
      | Some result => inr (num_results, Some result)
      | None =>
          if server_info then
            let index := if 0 <? index then index - 1 else index in
            match by_tag node KMIP_TAG_SERVER_INFORMATION index with
            | Some result => inr (num_results, Some result)
            | None => inl (- ENOENT)
            end
          else inl (- ENOENT)
      end
  end.

Definition kmip_get_discover_versions_response_payload (node : option kmip_node)
    (index : option Z) : Z + Z * option kmip_version :=
  _ ← check_tag node KMIP_TAG_RESPONSE_PAYLOAD;
  let num_versions := kmip_node_get_structure_element_count node in
  match index with
  | None => inr (num_versions, None)
  | Some index =>
      n ← need (- ENOENT) (kmip_node_get_structure_element_by_index node index);
      version ← kmip_get_protocol_version (Some n);
      inr (num_versions, Some version)
  end.

(** the attributes in the template of a payload: their number and the one at the
    index if it is asked for *)
Definition template_attributes (node : option kmip_node) (attr_index : option Z)
    : Z + Z * option kmip_node :=
  match by_tag node KMIP_TAG_TEMPLATE_ATTRIBUTE 0 with
  | None => match attr_index with None => inr (0, None) | Some _ => inl (- ENOENT) end
  | n => kmip_get_attributes n attr_index
  end.

(** object type, unique id, number of attributes and attribute *)
Definition kmip_get_create_response_payload (node : option kmip_node) (obj_type : bool)
    (attrs : bool) (attr_index : option Z)
    : Z + option Z * option kmip_node * Z * option kmip_node :=
  _ ← check_tag node KMIP_TAG_RESPONSE_PAYLOAD;
  typ ← want obj_type
    (n ← element node KMIP_TAG_OBJECT_TYPE; inr (kmip_node_get_enumeration n));
  let unique_id := by_tag node KMIP_TAG_UNIQUE_IDENTIFIER 0 in
  if attrs then
    '(num_attrs, attribute) ← template_attributes node attr_index;
    inr (typ, unique_id, num_attrs, attribute)
  else inr (typ, unique_id, 0, None).

Definition kmip_get_register_response_payload (node : option kmip_node) (attrs : bool)
    (attr_index : option Z) : Z + option kmip_node * Z * option kmip_node :=
  _ ← check_tag node KMIP_TAG_RESPONSE_PAYLOAD;
  let unique_id := by_tag node KMIP_TAG_UNIQUE_IDENTIFIER 0 in
  if attrs then
    '(num_attrs, attribute) ← template_attributes node attr_index;
    inr (unique_id, num_attrs, attribute)
  else inr (unique_id, 0, None).

Definition check_structure (node : option kmip_node) : Z + unit :=
  if kmip_node_get_type node =? kmip_type_code KMIP_TYPE_STRUCTURE then inr tt else inl (- EBADMSG).

(** The unique id, the number of references ([num]: asked for) and the reference
    at the index: the elements after the first one, names in v1.x. *)
Definition kmip_get_get_attribute_list_response_payload (node : option kmip_node)
    (num : bool) (index : option Z) : Z + option kmip_node * option Z * option kmip_node :=
  _ ← check_tag node KMIP_TAG_RESPONSE_PAYLOAD;
  _ ← check_structure node;
  let unique_id := by_tag node KMIP_TAG_UNIQUE_IDENTIFIER 0 in
  num_attr_refs ← want num
    (let n := kmip_node_get_structure_element_count node in
     if n =? 0 then inl (- EBADMSG) else inr (n - 1));
  match index with
  | None => inr (unique_id, num_attr_refs, None)
  | Some index =>
      n ← need (- ENOENT) (kmip_node_get_structure_element_by_index node (u32 (index + 1)));
      if node_tag n =? KMIP_TAG_ATTRIBUTE_REFERENCE then inr (unique_id, num_attr_refs, Some n)
      else
        attr_ref ← kmip_get_attribute_name_v1 (Some n);
        inr (unique_id, num_attr_refs, Some attr_ref)
  end.

(** The unique id, the number of attributes and the attribute at the index; in v1.x
    the attributes are the elements after the first one. *)
Definition kmip_get_get_attributes_response_payload (node : option kmip_node)
    (num : bool) (index : option Z) : Z + option kmip_node * option Z * option kmip_node :=
  _ ← check_tag node KMIP_TAG_RESPONSE_PAYLOAD;
  _ ← check_structure node;
  let unique_id := by_tag node KMIP_TAG_UNIQUE_IDENTIFIER 0 in
  match num, index with
  | false, None => inr (unique_id, None, None)
  | _, _ =>
      match kmip_node_get_structure_element_by_index node 1 with
      | None => match index with
                | None => inr (unique_id, Some 0, None)
                | Some _ => inl (- ENOENT)
                end
      | Some attr =>
          if node_tag attr =? KMIP_TAG_ATTRIBUTES then
            '(num_attrs, v2_attr) ← kmip_get_attributes (Some attr) index;
            inr (unique_id, Some num_attrs, v2_attr)
          else
            num_attrs ← want num
              (let n := kmip_node_get_structure_element_count node in
               if n =? 0 then inl (- EBADMSG) else inr (n - 1));
            match index with
            | None => inr (unique_id, num_attrs, None)
            | Some index =>
                attr ← need (- ENOENT)
                  (kmip_node_get_structure_element_by_index node (u32 (index + 1)));
                v2_attr ← kmip_v2_attr_from_v1_attr (Some attr);
                inr (unique_id, num_attrs, Some v2_attr)
            end
      end
  end.

(** the unique id, and the attribute that v1.x sends back *)
Definition kmip_get_unique_id_attribute_response_payload (node : option kmip_node)
    (v2_attr : bool) : Z + option kmip_node * option kmip_node :=
  _ ← check_tag node KMIP_TAG_RESPONSE_PAYLOAD;
  let unique_id := by_tag node KMIP_TAG_UNIQUE_IDENTIFIER 0 in
  match (if v2_attr then by_tag node KMIP_TAG_ATTRIBUTE 0 else None) with
  | None => inr (unique_id, None)
  | Some attr =>
      v2 ← kmip_v2_attr_from_v1_attr (Some attr);
      inr (unique_id, Some v2)
  end.

Definition kmip_get_add_attribute_response_payload (node : option kmip_node) (v2_attr : bool) :=
  kmip_get_unique_id_attribute_response_payload node v2_attr.
Definition kmip_get_modify_attribute_response_payload (node : option kmip_node) (v2_attr : bool) :=
  kmip_get_unique_id_attribute_response_payload node v2_attr.
Definition kmip_get_set_attribute_v2_response_payload (node : option kmip_node) :=
  kmip_get_unique_id_attribute_response_payload node false.
Definition kmip_get_delete_attribute_response_payload (node : option kmip_node) (v2_attr : bool) :=
  kmip_get_unique_id_attribute_response_payload node v2_attr.

Definition kmip_get_unique_id_response_payload (node : option kmip_node) : Z + option kmip_node :=
  _ ← check_tag node KMIP_TAG_RESPONSE_PAYLOAD;
  inr (by_tag node KMIP_TAG_UNIQUE_IDENTIFIER 0).

Definition kmip_get_activate_response_payload (node : option kmip_node) :=
  kmip_get_unique_id_response_payload node.
Definition kmip_get_destroy_response_payload (node : option kmip_node) :=
  kmip_get_unique_id_response_payload node.
Definition kmip_get_archive_response_payload (node : option kmip_node) :=
  kmip_get_unique_id_response_payload node.
Definition kmip_get_recover_response_payload (node : option kmip_node) :=
  kmip_get_unique_id_response_payload node.
Definition kmip_get_revoke_response_payload (node : option kmip_node) :=
  kmip_get_unique_id_response_payload node.

(** the number the server located (-1 when it does not say), the number of unique
    ids in the payload, and the unique id at the index if it is asked for *)
Definition kmip_get_locate_response_payload (node : option kmip_node) (index : option Z)
    : Z + Z * Z * option kmip_node :=
  _ ← check_tag node KMIP_TAG_RESPONSE_PAYLOAD;
  let located_items := match by_tag node KMIP_TAG_LOCATED_ITEMS 0 with
                       | None => -1
                       | n => kmip_node_get_integer n
                       end in
  let num_items := kmip_node_get_structure_element_by_tag_count node KMIP_TAG_UNIQUE_IDENTIFIER in
  match index with
  | None => inr (located_items, num_items, None)
  | Some index =>
      unique_id ← need (- ENOENT) (by_tag node KMIP_TAG_UNIQUE_IDENTIFIER index);
      inr (located_items, num_items, Some unique_id)
  end.

Definition is_object_tag (tag : Z) : bool :=
  bool_decide (tag ∈ [KMIP_TAG_CERTIFICATE; KMIP_TAG_CERTIFICATE_REQUEST;
                      KMIP_TAG_OPAQUE_OBJECT; KMIP_TAG_PGP_KEY; KMIP_TAG_PRIVATE_KEY;
                      KMIP_TAG_PUBLIC_KEY; KMIP_TAG_SECRET_DATA; KMIP_TAG_SYMMETRIC_KEY]).

(** object type, unique id and object (the third element) *)
Definition kmip_get_get_response_payload (node : option kmip_node)
    (obj_type unique_id object : bool)
    : Z + option Z * option kmip_node * option kmip_node :=
  _ ← check_tag node KMIP_TAG_RESPONSE_PAYLOAD;
  typ ← want obj_type
    (n ← element node KMIP_TAG_OBJECT_TYPE; inr (kmip_node_get_enumeration n));
  uid ← want unique_id (need (- EBADMSG) (by_tag node KMIP_TAG_UNIQUE_IDENTIFIER 0));
  obj ← want object
    (o ← need (- EBADMSG) (kmip_node_get_structure_element_by_index node 2);
     if is_object_tag (node_tag o) then inr o else inl (- EBADMSG));
  inr (typ, uid, obj).
