(* ===== verification/KmipKey.v ===== *)
(** Attributes that are structures, or of more than one type
    (src/libkmipclient/attribute.c), and keys (src/libkmipclient/key.c).

    As in KmipAttributes.v each attribute has a function that builds its node and one
    that reads it.  The readers of this file return everything they can find; a
    result that the caller does not ask for is left out with [want] where looking
    for it can fail. *)
From S2P Require Import Prelude Codec Kmip KmipTtlv KmipTtlvProofs KmipAttr KmipAttributes.
From S2P Require Import KmipMessage.

(** ** Identifiers *)

(** a text, an enumeration or a number *)
Definition new_identifier (tag : Z) (text_id : option (list Z)) (enum_id int_id : Z)
    : option kmip_node :=
  match text_id with
  | Some _ =>
      if negb (enum_id =? 0) then None else kmip_node_new_text_string tag None text_id
  | None =>
      if negb (enum_id =? 0) then kmip_node_new_enumeration tag None enum_id
      else kmip_node_new_integer tag None int_id
  end.

(** the three results; those that are not of the node's type are NULL or 0 *)
Definition get_identifier (tag : Z) (node : option kmip_node) : Z + option (list Z) * Z * Z :=
  match node with
  | None => inl (- EBADMSG)
  | Some n =>
      if negb (node_tag n =? tag) then inl (- EBADMSG) else
      let of_type (t : kmip_type) := bool_decide (node_type n = t) in
      inr (if of_type KMIP_TYPE_TEXT_STRING then kmip_node_get_text_string node else None,
           if of_type KMIP_TYPE_ENUMERATION then kmip_node_get_enumeration node else 0,
           if of_type KMIP_TYPE_INTEGER then kmip_node_get_integer node else 0)
  end.

Definition kmip_new_unique_identifier (text_id : option (list Z)) (enum_id int_id : Z) :=
  new_identifier KMIP_TAG_UNIQUE_IDENTIFIER text_id enum_id int_id.
Definition kmip_get_unique_identifier (node : option kmip_node) :=
  get_identifier KMIP_TAG_UNIQUE_IDENTIFIER node.

Definition kmip_new_linked_object_identifier (text_id : option (list Z)) (enum_id int_id : Z) :=
  new_identifier KMIP_TAG_LINKED_OBJECT_IDENTIFIER text_id enum_id int_id.
Definition kmip_get_linked_object_identifier (node : option kmip_node) :=
  get_identifier KMIP_TAG_LINKED_OBJECT_IDENTIFIER node.

Definition kmip_new_short_unique_identifier (short_uid : option (list Z)) (short_uid_len : Z) :=
  kmip_node_new_byte_string KMIP_TAG_SHORT_UNIQUE_IDENTIFIER None short_uid short_uid_len.
Definition kmip_get_short_unique_identifier (node : option kmip_node)
    : Z + option (list Z) * option Z :=
  get_tagged KMIP_TAG_SHORT_UNIQUE_IDENTIFIER kmip_node_get_byte_string node.

(** ** A text and its type *)

Definition new_typed_text (tag value_tag type_tag : Z) (value : option (list Z)) (type : Z)
    : option kmip_node :=
  match value with
  | None => None
  | Some _ =>
      let val := kmip_node_new_text_string value_tag None value in
      let typ := kmip_node_new_enumeration type_tag None type in
      kmip_node_new_structure_va tag None [val; typ]
  end.

Definition get_typed_text (tag value_tag type_tag : Z) (node : option kmip_node) (value : bool)
    : Z + option (list Z) * Z :=
  _ ← check_tag node tag;
  val ← element node value_tag;
  typ ← element node type_tag;
  v ← want value (need (- EBADMSG) (kmip_node_get_text_string val));
  inr (v, kmip_node_get_enumeration typ).

Definition kmip_new_name (value : option (list Z)) (type : Z) :=
  new_typed_text KMIP_TAG_NAME KMIP_TAG_NAME_VALUE KMIP_TAG_NAME_TYPE value type.
Definition kmip_get_name (node : option kmip_node) (value : bool) :=
  get_typed_text KMIP_TAG_NAME KMIP_TAG_NAME_VALUE KMIP_TAG_NAME_TYPE node value.

Definition kmip_new_alternative_name (value : option (list Z)) (type : Z) :=
  new_typed_text KMIP_TAG_ALTERNATE_NAME KMIP_TAG_ALTERNATE_NAME_VALUE
    KMIP_TAG_ALTERNATE_NAME_TYPE value type.
Definition kmip_get_alternative_name (node : option kmip_node) (value : bool) :=
  get_typed_text KMIP_TAG_ALTERNATE_NAME KMIP_TAG_ALTERNATE_NAME_VALUE
    KMIP_TAG_ALTERNATE_NAME_TYPE node value.

Definition kmip_new_key_value_location (value : option (list Z)) (type : Z) :=
  new_typed_text KMIP_TAG_KEY_VALUE_LOCATION KMIP_TAG_KEY_VALUE_LOCATION_VALUE
    KMIP_TAG_KEY_VALUE_LOCATION_TYPE value type.
Definition kmip_get_key_value_location (node : option kmip_node) (value : bool) :=
  get_typed_text KMIP_TAG_KEY_VALUE_LOCATION KMIP_TAG_KEY_VALUE_LOCATION_VALUE
    KMIP_TAG_KEY_VALUE_LOCATION_TYPE node value.

(** ** Cryptographic parameters *)

Record crypto_parameters := CryptoParameters {
  cp_mode : Z;
  cp_padding : Z;
  cp_hash_algo : Z;
  cp_key_role : Z;
  cp_signature_algo : Z;
  cp_crypto_algo : Z;
  cp_random_iv : option bool;
  cp_iv_length : option Z;
  cp_tag_length : option Z;
  cp_fixed_field_length : option Z;
  cp_invoc_field_length : option Z;
  cp_counter_length : option Z;
  cp_init_counter_value : option Z;
  cp_salt_length : option Z;
  cp_mgf : Z;
  cp_mgf_hash_algo : Z;
  cp_trailer_field : option Z
}.

(** an enumeration that is sent unless it is 0, and an integer unless it is NULL *)
Definition enum_unless_0 (tag v : Z) : option kmip_node :=
  if negb (v =? 0) then kmip_node_new_enumeration tag None v else None.
Definition integer_if (tag : Z) (v : option Z) : option kmip_node :=
  match v with Some v => kmip_node_new_integer tag None v | None => None end.
Definition boolean_if (tag : Z) (v : option bool) : option kmip_node :=
  match v with Some v => kmip_node_new_boolean tag None v | None => None end.

(** What the protocol version does not have is not sent. *)
Definition kmip_new_cryptographic_parameters (dflt : kmip_version) (version : option kmip_version)
    (p : crypto_parameters) : option kmip_node :=
  let version := default dflt version in
  let before_1_2 := (major version =? 1) && (minor version <? 2) in
  let before_1_4 := (major version =? 1) && (minor version <? 4) in
  let from_1_2 (n : option kmip_node) := when (negb before_1_2) n in
  let from_1_4 (n : option kmip_node) := when (negb before_1_2 && negb before_1_4) n in
  kmip_node_new_structure_va KMIP_TAG_CRYPTOGRAPHIC_PARAMETERS None
    [enum_unless_0 KMIP_TAG_BLOCK_CIPHER_MODE (cp_mode p);
     enum_unless_0 KMIP_TAG_PADDING_METHOD (cp_padding p);
     enum_unless_0 KMIP_TAG_HASHING_ALGORITHM (cp_hash_algo p);
     enum_unless_0 KMIP_TAG_KEY_ROLE_TYPE (cp_key_role p);
     from_1_2 (enum_unless_0 KMIP_TAG_DIGITAL_SIGNATURE_ALGORITHM (cp_signature_algo p));
     from_1_2 (enum_unless_0 KMIP_TAG_CRYPTOGRAPHIC_ALGORITHM (cp_crypto_algo p));
     from_1_2 (boolean_if KMIP_TAG_RANDOM_IV (cp_random_iv p));
     from_1_2 (integer_if KMIP_TAG_IV_LENGTH (cp_iv_length p));
     from_1_2 (integer_if KMIP_TAG_TAG_LENGTH (cp_tag_length p));
     from_1_2 (integer_if KMIP_TAG_FIXED_FIELD_LENGTH (cp_fixed_field_length p));
     from_1_2 (integer_if KMIP_TAG_INVOCATION_FIELD_LENGTH (cp_invoc_field_length p));
     from_1_2 (integer_if KMIP_TAG_COUNTER_LENGTH (cp_counter_length p));
     from_1_2 (integer_if KMIP_TAG_INITIAL_COUNTER_VALUE (cp_init_counter_value p));
     from_1_4 (integer_if KMIP_TAG_SALT_LENGTH (cp_salt_length p));
     from_1_4 (enum_unless_0 KMIP_TAG_MASK_GENERATOR (cp_mgf p));
     from_1_4 (enum_unless_0 KMIP_TAG_MASK_GENERATOR_HASHING_ALGORITHM (cp_mgf_hash_algo p));
     from_1_4 (integer_if KMIP_TAG_TRAILER_FIELD (cp_trailer_field p))].

(** a parameter as it is read, with the value for one that is not there *)
Definition enum_or_0 (node : option kmip_node) (tag : Z) : Z :=
  match by_tag node tag 0 with Some n => kmip_node_get_enumeration (Some n) | None => 0 end.
Definition integer_or (node : option kmip_node) (tag : Z) (absent : Z) : Z :=
  match by_tag node tag 0 with Some n => kmip_node_get_integer (Some n) | None => absent end.
Definition boolean_or_false (node : option kmip_node) (tag : Z) : bool :=
  match by_tag node tag 0 with Some n => kmip_node_get_boolean (Some n) | None => false end.

(** the results are all values: what is not there is 0, false or -1 *)
Record crypto_results := CryptoResults {
  cr_enums : Z * Z * Z * Z * Z * Z;
  cr_random_iv : bool;
  cr_lengths : Z * Z * Z * Z * Z;
  cr_init_counter_value : Z;
  cr_salt_length : Z;
  cr_mgf : Z;
  cr_mgf_hash_algo : Z;
  cr_trailer_field : Z
}.

Definition kmip_get_cryptographic_parameter (node : option kmip_node) : Z + crypto_results :=
  _ ← check_tag node KMIP_TAG_CRYPTOGRAPHIC_PARAMETERS;
  inr (CryptoResults
    (enum_or_0 node KMIP_TAG_BLOCK_CIPHER_MODE, enum_or_0 node KMIP_TAG_PADDING_METHOD,
     enum_or_0 node KMIP_TAG_HASHING_ALGORITHM, enum_or_0 node KMIP_TAG_KEY_ROLE_TYPE,
     enum_or_0 node KMIP_TAG_DIGITAL_SIGNATURE_ALGORITHM,
     enum_or_0 node KMIP_TAG_CRYPTOGRAPHIC_ALGORITHM)
    (boolean_or_false node KMIP_TAG_RANDOM_IV)
    (integer_or node KMIP_TAG_IV_LENGTH (-1), integer_or node KMIP_TAG_TAG_LENGTH (-1),
     integer_or node KMIP_TAG_FIXED_FIELD_LENGTH (-1),
     integer_or node KMIP_TAG_INVOCATION_FIELD_LENGTH (-1),
     integer_or node KMIP_TAG_COUNTER_LENGTH (-1))
    (integer_or node KMIP_TAG_INITIAL_COUNTER_VALUE 0)
    (integer_or node KMIP_TAG_SALT_LENGTH (-1))
    (enum_or_0 node KMIP_TAG_MASK_GENERATOR)
    (enum_or_0 node KMIP_TAG_MASK_GENERATOR_HASHING_ALGORITHM)
    (integer_or node KMIP_TAG_TRAILER_FIELD 0)).

Definition kmip_new_cryptographic_domain_parameters (qlength curve : Z) : option kmip_node :=
  let qlen := when (0 <? qlength) (kmip_node_new_integer KMIP_TAG_Q_LENGTH None qlength) in
  kmip_node_new_structure_va KMIP_TAG_CRYPTOGRAPHIC_DOMAIN_PARAMETERS None
    [qlen; enum_unless_0 KMIP_TAG_RECOMMENDED_CURVE curve].

Definition kmip_get_cryptographic_domain_parameters (node : option kmip_node) : Z + Z * Z :=
  _ ← check_tag node KMIP_TAG_CRYPTOGRAPHIC_DOMAIN_PARAMETERS;
  inr (integer_or node KMIP_TAG_Q_LENGTH (-1), enum_or_0 node KMIP_TAG_RECOMMENDED_CURVE).

(** ** Other structures *)

Definition kmip_new_revocation_reason (reason : Z) (message : option (list Z)) : option kmip_node :=
  let rsn := kmip_node_new_enumeration KMIP_TAG_REVOCATION_REASON_CODE None reason in
  let msg := match message with
             | Some _ => kmip_node_new_text_string KMIP_TAG_REVOCATION_MESSAGE None message
             | None => None
             end in
  kmip_node_new_structure_va KMIP_TAG_REVOCATION_REASON None [rsn; msg].

Definition kmip_get_revocation_reason (node : option kmip_node) : Z + Z * option (list Z) :=
  _ ← check_tag node KMIP_TAG_REVOCATION_REASON;
  n ← element node KMIP_TAG_REVOCATION_REASON_CODE;
  inr (kmip_node_get_enumeration n,
       kmip_node_get_text_string (by_tag node KMIP_TAG_REVOCATION_MESSAGE 0)).

Definition kmip_new_application_specific_information (name_space data : option (list Z))
    : option kmip_node :=
  match name_space with
  | None => None
  | Some _ =>
      let ns := kmip_node_new_text_string KMIP_TAG_APPLICATION_NAMESPACE None name_space in
      let d := match data with
               | Some _ => kmip_node_new_text_string KMIP_TAG_APPLICATION_DATA None data
               | None => None
               end in
      kmip_node_new_structure_va KMIP_TAG_APPLICATION_SPECIFIC_INFORMATION None [ns; d]
  end.

(** [data]: asked for *)
Definition kmip_get_application_specific_information (node : option kmip_node) (data : bool)
    : Z + list Z * option (list Z) :=
  _ ← check_tag node KMIP_TAG_APPLICATION_SPECIFIC_INFORMATION;
  n ← element node KMIP_TAG_APPLICATION_NAMESPACE;
  name_space ← need (- EBADMSG) (kmip_node_get_text_string n);
  d ← want data
    (n ← element node KMIP_TAG_APPLICATION_DATA;
     need (- EBADMSG) (kmip_node_get_text_string n));
  inr (name_space, d).

Definition kmip_new_digest (hash_algo : Z) (digest : option (list Z)) (digest_len : Z)
    : option kmip_node :=
  match digest with
  | None => None
  | Some _ =>
      if digest_len =? 0 then None else
      let algo := kmip_node_new_enumeration KMIP_TAG_HASHING_ALGORITHM None hash_algo in
      let val := kmip_node_new_byte_string KMIP_TAG_DIGEST_VALUE None digest digest_len in
      kmip_node_new_structure_va KMIP_TAG_DIGEST None [algo; val]
  end.

Definition kmip_get_digest (node : option kmip_node) : Z + Z * (option (list Z) * option Z) :=
  _ ← check_tag node KMIP_TAG_DIGEST;
  algo ← element node KMIP_TAG_HASHING_ALGORITHM;
  val ← element node KMIP_TAG_DIGEST_VALUE;
  inr (kmip_node_get_enumeration algo, kmip_node_get_byte_string val).

Definition kmip_new_link (type : Z) (obj_id : option kmip_node) : option kmip_node :=
  match obj_id with
  | None => None
  | Some _ =>
      let typ := kmip_node_new_enumeration KMIP_TAG_LINK_TYPE None type in
      kmip_node_new_structure_va KMIP_TAG_LINK None [typ; obj_id]
  end.

(** the tag of NULL is 0, so that NULL is refused as a wrong tag *)
Definition kmip_get_link (node : option kmip_node) : Z + Z * kmip_node :=
  if negb (kmip_node_get_tag node =? KMIP_TAG_LINK) then inl (- EBADMSG) else
  n ← element node KMIP_TAG_LINK_TYPE;
  obj_id ← need (- EBADMSG) (by_tag node KMIP_TAG_LINKED_OBJECT_IDENTIFIER 0);
  inr (kmip_node_get_enumeration n, obj_id).

(** ** What they promise *)

(** a string that is there, and one that may be missing *)
Definition given (s : option (list Z)) : Prop := match s with Some s => no_nul s | None => False end.
Definition maybe (s : option (list Z)) : Prop := match s with Some s => no_nul s | None => True end.

Lemma check_tag_other n tag : node_tag n ≠ tag → check_tag (Some n) tag = inl (- EBADMSG).
Proof. intros Hn. unfold check_tag. cbn [kmip_node_get_tag]. by rewrite (proj2 (Z.eqb_neq _ _)). Qed.

Lemma typed_text_attribute tag value_tag type_tag : value_tag ≠ type_tag →
  Attribute tag id (uncurry (new_typed_text tag value_tag type_tag))
    (λ n, get_typed_text tag value_tag type_tag n true) (λ a, given a.1).
Proof.
  intros Hne. split.
  - intros [[s|] t] Hs; [|done]. cbn in Hs. unfold no_nul in Hs. eexists. split_and!; try reflexivity.
    all: unfold get_typed_text, element; cbn; rewrite Z.eqb_refl; cbn.
    all: rewrite Z.eqb_refl, (proj2 (Z.eqb_neq value_tag type_tag)), Z.eqb_refl by done.
    all: cbn; rewrite ?cstr_idem; by rewrite cstr_no_nul.
  - intros n Hn. unfold get_typed_text. by rewrite check_tag_other.
Qed.

#[export] Instance name_attribute :
  Attribute KMIP_TAG_NAME id (uncurry kmip_new_name) (λ n, kmip_get_name n true) (λ a, given a.1).
Proof. by apply typed_text_attribute. Qed.

#[export] Instance alternative_name_attribute :
  Attribute KMIP_TAG_ALTERNATE_NAME id (uncurry kmip_new_alternative_name)
    (λ n, kmip_get_alternative_name n true) (λ a, given a.1).
Proof. by apply typed_text_attribute. Qed.

#[export] Instance key_value_location_attribute :
  Attribute KMIP_TAG_KEY_VALUE_LOCATION id (uncurry kmip_new_key_value_location)
    (λ n, kmip_get_key_value_location n true) (λ a, given a.1).
Proof. by apply typed_text_attribute. Qed.

#[export] Instance revocation_reason_attribute :
  Attribute KMIP_TAG_REVOCATION_REASON id (uncurry kmip_new_revocation_reason)
    kmip_get_revocation_reason (λ a, maybe a.2).
Proof.
  split.
  - intros [r [s|]] Hs; cbn in Hs; unfold no_nul in Hs; eexists; split_and!; try reflexivity.
    all: cbn; rewrite ?cstr_idem; by rewrite cstr_no_nul.
  - intros n Hn. unfold kmip_get_revocation_reason. by rewrite check_tag_other.
Qed.

#[export] Instance application_specific_information_attribute :
  Attribute KMIP_TAG_APPLICATION_SPECIFIC_INFORMATION
    (λ a : list Z * option (list Z), (Some a.1, a.2))
    (uncurry kmip_new_application_specific_information)
    (λ n, kmip_get_application_specific_information n true) (λ a, no_nul a.1 ∧ given a.2).
Proof.
  split.
  - intros [s [d|]] [Hs Hd]; [|done]. cbn in Hs, Hd. unfold no_nul in Hs, Hd.
    eexists; split_and!; try reflexivity.
    all: cbn; rewrite ?cstr_idem; by rewrite !cstr_no_nul.
  - intros n Hn. unfold kmip_get_application_specific_information. by rewrite check_tag_other.
Qed.

(** a digest with the length of its bytes *)
#[export] Instance digest_attribute :
  Attribute KMIP_TAG_DIGEST (λ a : Z * (option (list Z) * option Z), (a.1, a.2.1, default 0 a.2.2))
    (λ '(algo, digest, len), kmip_new_digest algo digest len) kmip_get_digest
    (λ a, ∃ d, a.2 = (Some d, Some (Z.of_nat (length d))) ∧ d ≠ []).
Proof.
  split.
  - intros [algo [digest len]] (d & [= -> ->] & Hd).
    assert (Hl : 0 < Z.of_nat (length d)) by (destruct d; [done|simpl; lia]).
    cbn [fst snd default from_option id]. unfold kmip_new_digest, kmip_node_new_byte_string.
    rewrite (proj2 (Z.eqb_neq _ _)), (proj2 (Z.ltb_lt _ _) Hl) by lia.
    rewrite Nat2Z.id, firstn_all. eexists; split_and!; try reflexivity.
    unfold kmip_get_digest. cbn -[Z.of_nat]. rewrite (proj2 (Z.ltb_lt _ _) Hl). cbn -[Z.of_nat].
    by rewrite Nat2Z.id, firstn_all.
  - intros n Hn. unfold kmip_get_digest. by rewrite check_tag_other.
Qed.

(** an identifier that is a text, an enumeration or a number *)
Definition one_identifier (a : option (list Z) * Z * Z) : Prop :=
  match a with
  | (Some s, e, i) => no_nul s ∧ e = 0 ∧ i = 0
  | (None, e, i) => e ≠ 0 → i = 0
  end.

Lemma identifier_attribute tag :
  Attribute tag id (λ '(text, enum_id, int_id), new_identifier tag text enum_id int_id)
    (get_identifier tag) one_identifier.
Proof.
  split.
  - intros [[[s|] e] i] Ha; cbn in Ha; cbn [id].
    + destruct Ha as (Hs & -> & ->). unfold no_nul in Hs. eexists; split_and!; try reflexivity.
      all: unfold get_identifier; cbn; rewrite Z.eqb_refl; cbn; rewrite ?cstr_idem; by rewrite cstr_no_nul.
    + unfold new_identifier. destruct (Z.eqb_spec e 0) as [->|He]; cbn [negb].
      * eexists; split_and!; try reflexivity; unfold get_identifier; cbn; by rewrite Z.eqb_refl.
      * rewrite (Ha He). eexists; split_and!; try reflexivity; unfold get_identifier; cbn; by rewrite Z.eqb_refl.
  - intros n Hn. unfold get_identifier. by rewrite (proj2 (Z.eqb_neq _ _)).
Qed.

#[export] Instance unique_identifier_attribute :
  Attribute KMIP_TAG_UNIQUE_IDENTIFIER id
    (λ '(text, enum_id, int_id), kmip_new_unique_identifier text enum_id int_id)
    kmip_get_unique_identifier one_identifier.
Proof. apply identifier_attribute. Qed.

#[export] Instance linked_object_identifier_attribute :
  Attribute KMIP_TAG_LINKED_OBJECT_IDENTIFIER id
    (λ '(text, enum_id, int_id), kmip_new_linked_object_identifier text enum_id int_id)
    kmip_get_linked_object_identifier one_identifier.
Proof. apply identifier_attribute. Qed.

(** ** Cryptographic parameters *)

(** what the reader returns for the parameters of a protocol version *)
Definition sent_parameters (version : kmip_version) (p : crypto_parameters) : crypto_results :=
  let v1_2 := negb ((major version =? 1) && (minor version <? 2)) in
  let v1_4 := v1_2 && negb ((major version =? 1) && (minor version <? 4)) in
  let enum (b : bool) (v : Z) := if b then v else 0 in
  let num (b : bool) (absent : Z) (v : option Z) := if b then default absent v else absent in
  CryptoResults
    (cp_mode p, cp_padding p, cp_hash_algo p, cp_key_role p,
     enum v1_2 (cp_signature_algo p), enum v1_2 (cp_crypto_algo p))
    (if v1_2 then default false (cp_random_iv p) else false)
    (num v1_2 (-1) (cp_iv_length p), num v1_2 (-1) (cp_tag_length p),
     num v1_2 (-1) (cp_fixed_field_length p), num v1_2 (-1) (cp_invoc_field_length p),
     num v1_2 (-1) (cp_counter_length p))
    (num v1_2 0 (cp_init_counter_value p))
    (num v1_4 (-1) (cp_salt_length p))
    (enum v1_4 (cp_mgf p)) (enum v1_4 (cp_mgf_hash_algo p))
    (num v1_4 0 (cp_trailer_field p)).

(** [f] changes no tag and no number: copying a node and sending it are like that *)
Definition keeps (f : kmip_node → kmip_node) : Prop :=
  ∀ n, node_tag (f n) = node_tag n ∧
    kmip_node_get_enumeration (Some (f n)) = kmip_node_get_enumeration (Some n) ∧
    kmip_node_get_integer (Some (f n)) = kmip_node_get_integer (Some n) ∧
    kmip_node_get_boolean (Some (f n)) = kmip_node_get_boolean (Some n).

Lemma keeps_copy : keeps copy.
Proof. intros [tag len name [| | |[]| | |[]|[]| | |]]; done. Qed.

(** an optional element has the tag, if it is there *)
Definition has_tag (o : option kmip_node) (tag : Z) : Prop := ∀ n, o = Some n → node_tag n = tag.

Lemma find_missing f tag os ts i : keeps f →
  Forall2 has_tag os ts → tag ∉ ts → find_by_tag tag i (map f (omap id os)) = None.
Proof.
  intros Hf Hos. revert i. induction Hos as [|o t os ts Ho _ IH]; intros i Hn; [done|].
  apply not_elem_of_cons in Hn as [Hne Hn]. destruct o as [n|]; [|by apply IH].
  cbn [omap list_omap id map find_by_tag]. destruct (Hf n) as (-> & _).
  rewrite (Ho n eq_refl), (proj2 (Z.eqb_neq _ _)) by done. by apply IH.
Qed.

(** In a structure of optional elements with different tags every look-up finds
    its element, or none if it was left out. *)
Lemma find_optional f os ts k o tag : keeps f →
  Forall2 has_tag os ts → NoDup ts → os !! k = Some o → ts !! k = Some tag →
  find_by_tag tag 0 (map f (omap id os)) = f <$> o.
Proof.
  intros Hf Hos. revert k. induction Hos as [|o' t os ts Ho Hos IH]; intros k Hnd Hk Ht; [done|].
  apply NoDup_cons in Hnd as [Hn Hnd]. destruct k as [|k].
  - injection Hk as ->. injection Ht as ->. destruct o as [n|].
    + cbn [omap list_omap id map find_by_tag]. destruct (Hf n) as (-> & _).
      by rewrite (Ho n eq_refl), Z.eqb_refl.
    + by apply (find_missing f tag os ts).
  - cbn in Hk, Ht. destruct o' as [n|]; [|by apply (IH k)].
    cbn [omap list_omap id map find_by_tag]. destruct (Hf n) as (-> & _).
    rewrite (Ho n eq_refl). destruct (Z.eqb_spec t tag) as [->|]; [|by apply (IH k)].
    exfalso. apply Hn. by apply list_elem_of_lookup_2 with k.
Qed.

Lemma enum_unless_0_tag tag v : has_tag (enum_unless_0 tag v) tag.
Proof. unfold enum_unless_0. intros n. destruct (v =? 0); [done|]. by intros [= <-]. Qed.
Lemma integer_if_tag tag v : has_tag (integer_if tag v) tag.
Proof. intros n. destruct v; [|done]. by intros [= <-]. Qed.
Lemma boolean_if_tag tag v : has_tag (boolean_if tag v) tag.
Proof. intros n. destruct v; [|done]. by intros [= <-]. Qed.
Lemma when_tag b o tag : has_tag o tag → has_tag (when b o) tag.
Proof. by destruct b. Qed.
#[local] Hint Resolve enum_unless_0_tag integer_if_tag boolean_if_tag when_tag : core.

Section Read.
Context (f : kmip_node → kmip_node) (Hf : keeps f) (tag' len : Z) (name : option (list Z)).
Context (os : list (option kmip_node)) (ts : list Z).
Context (Hos : Forall2 has_tag os ts) (Hts : NoDup ts).
Let node := Some (KmipNode tag' len name (StructureValue (map f (omap id os)))).

Lemma read_enum b k tag v :
  os !! k = Some (when b (enum_unless_0 tag v)) → ts !! k = Some tag →
  enum_or_0 node tag = if b then v else 0.
Proof.
  intros Hk Ht. unfold enum_or_0. cbn [kmip_node_get_structure_element_by_tag node_value node].
  rewrite (find_optional f os ts k _ tag Hf Hos Hts Hk Ht). destruct b; [|done]. cbn [when].
  unfold enum_unless_0. destruct (Z.eqb_spec v 0) as [->|]; [done|]. unfold kmip_node_new_enumeration.
  cbn [negb fmap option_fmap option_map].
  match goal with |- context [f ?x] => by destruct (Hf x) as (_ & -> & _) end.
Qed.

Lemma read_integer b k tag absent v :
  os !! k = Some (when b (integer_if tag v)) → ts !! k = Some tag →
  integer_or node tag absent = if b then default absent v else absent.
Proof.
  intros Hk Ht. unfold integer_or. cbn [kmip_node_get_structure_element_by_tag node_value node].
  rewrite (find_optional f os ts k _ tag Hf Hos Hts Hk Ht). destruct b; [|done]. cbn [when].
  destruct v as [v|]; [|done]. unfold integer_if, kmip_node_new_integer.
  cbn [fmap option_fmap option_map].
  match goal with |- context [f ?x] => by destruct (Hf x) as (_ & _ & -> & _) end.
Qed.

Lemma read_boolean b k tag v :
  os !! k = Some (when b (boolean_if tag v)) → ts !! k = Some tag →
  boolean_or_false node tag = if b then default false v else false.
Proof.
  intros Hk Ht. unfold boolean_or_false. cbn [kmip_node_get_structure_element_by_tag node_value node].
  rewrite (find_optional f os ts k _ tag Hf Hos Hts Hk Ht). destruct b; [|done]. cbn [when].
  destruct v as [v|]; [|done]. unfold boolean_if, kmip_node_new_boolean.
  cbn [fmap option_fmap option_map].
  match goal with |- context [f ?x] => by destruct (Hf x) as (_ & _ & _ & ->) end.
Qed.
End Read.

Definition parameter_tags : list Z :=
  [KMIP_TAG_BLOCK_CIPHER_MODE; KMIP_TAG_PADDING_METHOD; KMIP_TAG_HASHING_ALGORITHM;
   KMIP_TAG_KEY_ROLE_TYPE; KMIP_TAG_DIGITAL_SIGNATURE_ALGORITHM; KMIP_TAG_CRYPTOGRAPHIC_ALGORITHM;
   KMIP_TAG_RANDOM_IV; KMIP_TAG_IV_LENGTH; KMIP_TAG_TAG_LENGTH; KMIP_TAG_FIXED_FIELD_LENGTH;
   KMIP_TAG_INVOCATION_FIELD_LENGTH; KMIP_TAG_COUNTER_LENGTH; KMIP_TAG_INITIAL_COUNTER_VALUE;
   KMIP_TAG_SALT_LENGTH; KMIP_TAG_MASK_GENERATOR; KMIP_TAG_MASK_GENERATOR_HASHING_ALGORITHM;
   KMIP_TAG_TRAILER_FIELD].

(** The parameters are read as they were given, as far as the version has them,
    also from a copy of the node or at the other side. *)
Lemma cryptographic_parameters_read f dflt version p : keeps f →
  ∃ els, kmip_new_cryptographic_parameters dflt version p
    = Some (KmipNode KMIP_TAG_CRYPTOGRAPHIC_PARAMETERS 0 None (StructureValue els)) ∧
    ∀ len name, kmip_get_cryptographic_parameter
      (Some (KmipNode KMIP_TAG_CRYPTOGRAPHIC_PARAMETERS len name (StructureValue (map f els))))
      = inr (sent_parameters (default dflt version) p).
Proof.
  intros Hf. unfold kmip_new_cryptographic_parameters. set (v := default dflt version).
  set (b12 := (major v =? 1) && (minor v <? 2)). set (b14 := (major v =? 1) && (minor v <? 4)).
  eexists. split; [reflexivity|]. intros len name.
  match goal with |- context [omap id ?l] => set (os := l) end.
  assert (Hos : Forall2 has_tag os parameter_tags).
  { unfold os, parameter_tags. repeat constructor; auto. }
  assert (Hts : NoDup parameter_tags) by (apply (bool_decide_unpack _); by vm_compute).
  unfold kmip_get_cryptographic_parameter. change (check_tag _ _) with (@inr Z unit tt).
  cbn [mbind rc_bind]. unfold sent_parameters. fold b12 b14.
  rewrite (read_enum f Hf _ _ _ os _ Hos Hts true 0 _ (cp_mode p)) by done.
  rewrite (read_enum f Hf _ _ _ os _ Hos Hts true 1 _ (cp_padding p)) by done.
  rewrite (read_enum f Hf _ _ _ os _ Hos Hts true 2 _ (cp_hash_algo p)) by done.
  rewrite (read_enum f Hf _ _ _ os _ Hos Hts true 3 _ (cp_key_role p)) by done.
  rewrite (read_enum f Hf _ _ _ os _ Hos Hts (negb b12) 4 _ (cp_signature_algo p)) by done.
  rewrite (read_enum f Hf _ _ _ os _ Hos Hts (negb b12) 5 _ (cp_crypto_algo p)) by done.
  rewrite (read_boolean f Hf _ _ _ os _ Hos Hts (negb b12) 6 _ (cp_random_iv p)) by done.
  rewrite (read_integer f Hf _ _ _ os _ Hos Hts (negb b12) 7 _ _ (cp_iv_length p)) by done.
  rewrite (read_integer f Hf _ _ _ os _ Hos Hts (negb b12) 8 _ _ (cp_tag_length p)) by done.
  rewrite (read_integer f Hf _ _ _ os _ Hos Hts (negb b12) 9 _ _ (cp_fixed_field_length p)) by done.
  rewrite (read_integer f Hf _ _ _ os _ Hos Hts (negb b12) 10 _ _ (cp_invoc_field_length p)) by done.
  rewrite (read_integer f Hf _ _ _ os _ Hos Hts (negb b12) 11 _ _ (cp_counter_length p)) by done.
  rewrite (read_integer f Hf _ _ _ os _ Hos Hts (negb b12) 12 _ _ (cp_init_counter_value p)) by done.
  rewrite (read_integer f Hf _ _ _ os _ Hos Hts (negb b12 && negb b14) 13 _ _ (cp_salt_length p)) by done.
  rewrite (read_enum f Hf _ _ _ os _ Hos Hts (negb b12 && negb b14) 14 _ (cp_mgf p)) by done.
  rewrite (read_enum f Hf _ _ _ os _ Hos Hts (negb b12 && negb b14) 15 _ (cp_mgf_hash_algo p)) by done.
  rewrite (read_integer f Hf _ _ _ os _ Hos Hts (negb b12 && negb b14) 16 _ _ (cp_trailer_field p)) by done.
  done.
Qed.

(** ** A variable number of attributes *)

Definition kmip_new_attributes_va (version : kmip_version) (v2_tag : Z)
    (attrs : list (option kmip_node)) : option kmip_node :=
  kmip_new_attributes version v2_tag (va_nodes attrs).

(** Keys in KMIP messages (src/libkmipclient/key.c).

    A key object has a key block: the format and length of the key, and the key
    value, which holds the key material and attributes of the key, or is a byte
    string when the key is wrapped.  The functions build these nodes and read them.

    The encodings of public keys in OpenSSL are a parameter ([PkeyOps]) with the
    law that what is encoded is decoded again. *)

(** ** The key block *)

Definition kmip_new_key_block (format_type compr_type : Z) (key_value : option kmip_node)
    (algorithm length : Z) (wrapping_data : option kmip_node) : option kmip_node :=
  match key_value with
  | None => None
  | Some _ =>
      if format_type =? 0 then None else
      let fmt := kmip_node_new_enumeration KMIP_TAG_KEY_FORMAT_TYPE None format_type in
      let cmp := enum_unless_0 KMIP_TAG_KEY_COMPRESSION_TYPE compr_type in
      let algo := enum_unless_0 KMIP_TAG_CRYPTOGRAPHIC_ALGORITHM algorithm in
      let len := when (0 <? length)
                   (kmip_node_new_integer KMIP_TAG_CRYPTOGRAPHIC_LENGTH None length) in
      kmip_node_new_structure_va KMIP_TAG_KEY_BLOCK None
        [fmt; cmp; key_value; algo; len; wrapping_data]
  end.

Record key_block := KeyBlock {
  kb_format_type : option Z;
  kb_compr_type : Z;
  kb_key_value : option kmip_node;
  kb_algorithm : Z;
  kb_length : Z;
  kb_wrapping_data : option kmip_node
}.

(** [format_type] and [key_value] say whether these two results are asked for *)
Definition kmip_get_key_block (node : option kmip_node) (format_type key_value : bool)
    : Z + key_block :=
  _ ← check_tag node KMIP_TAG_KEY_BLOCK;
  fmt ← want format_type
    (n ← element node KMIP_TAG_KEY_FORMAT_TYPE; inr (kmip_node_get_enumeration n));
  val ← want key_value (need (- EBADMSG) (by_tag node KMIP_TAG_KEY_VALUE 0));
  inr (KeyBlock fmt (enum_or_0 node KMIP_TAG_KEY_COMPRESSION_TYPE) val
         (enum_or_0 node KMIP_TAG_CRYPTOGRAPHIC_ALGORITHM)
         (integer_or node KMIP_TAG_CRYPTOGRAPHIC_LENGTH (-1))
         (by_tag node KMIP_TAG_KEY_WRAPPING_DATA 0)).

(** ** The key value *)

(** attributes are elements of their own in v1.x, and one structure from v2.0 on *)
Definition kmip_new_key_value (dflt : kmip_version) (version : option kmip_version)
    (key_material : option kmip_node) (v2_attrs : list (option kmip_node)) : option kmip_node :=
  match key_material with
  | None => None
  | Some _ =>
      let version := default dflt version in
      if major version =? 1 then
        match kmip_node_new_structure_va KMIP_TAG_KEY_VALUE None [key_material] with
        | None => None
        | ret => add_v1_attrs ret v2_attrs
        end
      else
        match v2_attrs with
        | [] => kmip_node_new_structure_va KMIP_TAG_KEY_VALUE None [key_material; None]
        | _ =>
            match kmip_new_attributes version KMIP_TAG_ATTRIBUTES v2_attrs with
            | None => None
            | attrs => kmip_node_new_structure_va KMIP_TAG_KEY_VALUE None [key_material; attrs]
            end
        end
  end.

Definition kmip_new_key_value_va (dflt : kmip_version) (version : option kmip_version)
    (key_material : option kmip_node) (attrs : list (option kmip_node)) : option kmip_node :=
  kmip_new_key_value dflt version key_material (va_nodes attrs).

(** the key material: the node itself if it is wrapped, or its first element *)
Definition key_material_of (n : kmip_node) : Z + kmip_node :=
  match node_type n with
  | KMIP_TYPE_BYTE_STRING => inr n
  | KMIP_TYPE_STRUCTURE =>
      m ← need (- EBADMSG) (kmip_node_get_structure_element_by_index (Some n) 0);
      match node_type m with
      | KMIP_TYPE_BYTE_STRING => inr m
      | KMIP_TYPE_STRUCTURE =>
          if node_tag m =? KMIP_TAG_KEY_MATERIAL then inr m else inl (- EBADMSG)
      | _ => inl (- EBADMSG)
      end
  | _ => inl (- EBADMSG)
  end.

(** The key material ([key_material]: asked for), and with an index the number of
    attributes ([num_attrs]: asked for) and the attribute at the index.  Without an
    index, or for a wrapped key, the number is not set. *)
Definition kmip_get_key_value (node : option kmip_node) (key_material num_attrs : bool)
    (index : option Z) : Z + option kmip_node * option Z * option kmip_node :=
  match node with
  | None => inl (- EINVAL)
  | Some n =>
      if negb (node_tag n =? KMIP_TAG_KEY_VALUE) then inl (- EBADMSG) else
      material ← want key_material (key_material_of n);
      match index with
      | None => inr (material, None, None)
      | Some index =>
          if negb (bool_decide (node_type n = KMIP_TYPE_STRUCTURE))
          then inr (material, None, None) else
          attr ← need (- ENOENT) (kmip_node_get_structure_element_by_index node 1);
          if node_tag attr =? KMIP_TAG_ATTRIBUTES then
            '(num, v2_attr) ← kmip_get_attributes (Some attr) (Some index);
            inr (material, (if num_attrs then Some num else None), v2_attr)
          else
            num ← want num_attrs
              (let c := kmip_node_get_structure_element_count node in
               if c =? 0 then inl (- EBADMSG) else inr (c - 1));
            attr ← need (- ENOENT)
              (kmip_node_get_structure_element_by_index node (u32 (index + 1)));
            v2_attr ← kmip_v2_attr_from_v1_attr (Some attr);
            inr (material, num, Some v2_attr)
      end
  end.

(** ** Wrapped keys *)

(** bytes that are sent unless there are none *)
Definition bytes_if (tag : Z) (s : option (list Z)) (len : Z) : option kmip_node :=
  match s with
  | Some _ => when (0 <? len) (kmip_node_new_byte_string tag None s len)
  | None => None
  end.

(** the encoding option is sent from v1.2 on *)
Definition encoding_option (version : kmip_version) (encoding : Z) : option kmip_node :=
  when ((1 <? major version) || ((major version =? 1) && (1 <? minor version)))
    (enum_unless_0 KMIP_TAG_ENCODING_OPTION encoding).

Definition kmip_new_key_wrapping_data (dflt : kmip_version) (version : option kmip_version)
    (wrap_method : Z) (encr_key_info mac_sign_key_info : option kmip_node)
    (mac_signature : option (list Z)) (mac_signature_len : Z)
    (iv_counter_nonce : option (list Z)) (iv_counter_nonce_len encoding : Z) : option kmip_node :=
  if wrap_method =? 0 then None else
  let version := default dflt version in
  kmip_node_new_structure_va KMIP_TAG_KEY_WRAPPING_DATA None
    [kmip_node_new_enumeration KMIP_TAG_WRAPPING_METHOD None wrap_method;
     encr_key_info; mac_sign_key_info;
     bytes_if KMIP_TAG_MAC_SIGNATURE mac_signature mac_signature_len;
     bytes_if KMIP_TAG_IV_COUNTER_NONCE iv_counter_nonce iv_counter_nonce_len;
     encoding_option version encoding].

Record wrapping_data := WrappingData {
  wd_wrap_method : option Z;
  wd_encr_key_info : option kmip_node;
  wd_mac_sign_key_info : option kmip_node;
  wd_mac_signature : option (list Z) * option Z;
  wd_iv_counter_nonce : option (list Z) * option Z;
  wd_encoding : Z
}.

Definition kmip_get_key_wrapping_data (node : option kmip_node) (wrap_method : bool)
    : Z + wrapping_data :=
  _ ← check_tag node KMIP_TAG_KEY_WRAPPING_DATA;
  meth ← want wrap_method
    (n ← element node KMIP_TAG_WRAPPING_METHOD; inr (kmip_node_get_enumeration n));
  inr (WrappingData meth
         (by_tag node KMIP_TAG_ENCRYPTION_KEY_INFORMATION 0)
         (by_tag node KMIP_TAG_MAC_SIGNATURE_KEY_INFORMATION 0)
         (optional_bytes (by_tag node KMIP_TAG_MAC_SIGNATURE 0))
         (optional_bytes (by_tag node KMIP_TAG_IV_COUNTER_NONCE 0))
         (enum_or_0 node KMIP_TAG_ENCODING_OPTION)).

(** the loop over the names *)
Fixpoint add_attr_names (ret : option kmip_node) (attr_names : list (option (list Z)))
    : option kmip_node :=
  match attr_names with
  | [] => ret
  | None :: rest => add_attr_names ret rest
  | name :: rest =>
      let '(rc, ret) := kmip_node_add_structure_element ret
        (kmip_node_new_text_string KMIP_TAG_ATTRIBUTE_NAME None name) in
      if rc =? 0 then add_attr_names ret rest else None
  end.

Definition kmip_new_key_wrapping_specification (dflt : kmip_version)
    (version : option kmip_version) (wrap_method : Z)
    (encr_key_info mac_sign_key_info : option kmip_node) (encoding : Z)
    (attr_names : list (option (list Z))) : option kmip_node :=
  if wrap_method =? 0 then None else
  let version := default dflt version in
  let ret := kmip_node_new_structure_va KMIP_TAG_KEY_WRAPPING_SPECIFICATION None
    [kmip_node_new_enumeration KMIP_TAG_WRAPPING_METHOD None wrap_method;
     encr_key_info; mac_sign_key_info] in
  match add_attr_names ret attr_names with
  | None => None
  | ret =>
      match encoding_option version encoding with
      | None => ret
      | enc => let '(rc, ret) := kmip_node_add_structure_element ret enc in
               if rc =? 0 then ret else None
      end
  end.

Definition kmip_new_key_wrapping_specification_va (dflt : kmip_version)
    (version : option kmip_version) (wrap_method : Z)
    (encr_key_info mac_sign_key_info : option kmip_node) (encoding : Z)
    (names : list (option (list Z))) : option kmip_node :=
  kmip_new_key_wrapping_specification dflt version wrap_method encr_key_info mac_sign_key_info
    encoding names.

Record wrapping_specification := WrappingSpecification {
  ws_wrap_method : option Z;
  ws_encr_key_info : option kmip_node;
  ws_mac_sign_key_info : option kmip_node;
  ws_encoding : Z;
  ws_num_attr_names : Z;
  ws_attr_name : option (list Z)
}.

(** [attr_name_index]: the name that is asked for *)
Definition kmip_get_key_wrapping_specification (node : option kmip_node) (wrap_method : bool)
    (attr_name_index : option Z) : Z + wrapping_specification :=
  _ ← check_tag node KMIP_TAG_KEY_WRAPPING_SPECIFICATION;
  meth ← want wrap_method
    (n ← element node KMIP_TAG_WRAPPING_METHOD; inr (kmip_node_get_enumeration n));
  name ← match attr_name_index with
         | None => inr None
         | Some index =>
             n ← need (- ENOENT) (by_tag node KMIP_TAG_ATTRIBUTE_NAME index);
             name ← need (- EBADMSG) (kmip_node_get_text_string (Some n));
             inr (Some name)
         end;
  inr (WrappingSpecification meth
         (by_tag node KMIP_TAG_ENCRYPTION_KEY_INFORMATION 0)
         (by_tag node KMIP_TAG_MAC_SIGNATURE_KEY_INFORMATION 0)
         (enum_or_0 node KMIP_TAG_ENCODING_OPTION)
         (kmip_node_get_structure_element_by_tag_count node KMIP_TAG_ATTRIBUTE_NAME)
         name).

Definition kmip_new_key_info (mac_sign : bool) (unique_id crypto_params : option kmip_node)
    : option kmip_node :=
  match unique_id with
  | None => None
  | Some _ =>
      kmip_node_new_structure_va
        (if mac_sign then KMIP_TAG_MAC_SIGNATURE_KEY_INFORMATION
         else KMIP_TAG_ENCRYPTION_KEY_INFORMATION) None [unique_id; crypto_params]
  end.

Definition kmip_get_key_info (node : option kmip_node) (unique_id : bool)
    : Z + option kmip_node * option kmip_node :=
  match node with
  | None => inl (- EINVAL)
  | Some n =>
      if negb (node_tag n =? KMIP_TAG_ENCRYPTION_KEY_INFORMATION) &&
         negb (node_tag n =? KMIP_TAG_MAC_SIGNATURE_KEY_INFORMATION) then inl (- EBADMSG) else
      uid ← want unique_id (need (- EBADMSG) (by_tag node KMIP_TAG_UNIQUE_IDENTIFIER 0));
      inr (uid, by_tag node KMIP_TAG_CRYPTOGRAPHIC_PARAMETERS 0)
  end.

(** ** Key material *)

Definition kmip_new_transparent_symmetric_key (key : option (list Z)) (key_length : Z)
    : option kmip_node :=
  match key with
  | None => None
  | Some _ =>
      if key_length =? 0 then None else
      kmip_node_new_structure_va KMIP_TAG_KEY_MATERIAL None
        [kmip_node_new_byte_string KMIP_TAG_KEY None key key_length]
  end.

Definition kmip_get_transparent_symmetric_key (node : option kmip_node)
    : Z + option (list Z) * option Z :=
  _ ← check_tag node KMIP_TAG_KEY_MATERIAL;
  k ← element node KMIP_TAG_KEY;
  inr (kmip_node_get_byte_string k).

Definition kmip_new_transparent_rsa_public_key `{BnOps} (modulus pub_exp : option Z)
    : option kmip_node :=
  match modulus, pub_exp with
  | Some _, Some _ =>
      kmip_node_new_structure_va KMIP_TAG_KEY_MATERIAL None
        [kmip_node_new_bigint KMIP_TAG_MODULUS None modulus;
         kmip_node_new_bigint KMIP_TAG_PUBLIC_EXPONENT None pub_exp]
  | _, _ => None
  end.

Definition kmip_get_transparent_rsa_public_key (node : option kmip_node)
    : Z + option Z * option Z :=
  _ ← check_tag node KMIP_TAG_KEY_MATERIAL;
  m ← element node KMIP_TAG_MODULUS;
  e ← element node KMIP_TAG_PUBLIC_EXPONENT;
  inr (kmip_node_get_bigint m, kmip_node_get_bigint e).

Definition kmip_new_raw_key (key : option (list Z)) (key_len : Z) : option kmip_node :=
  match key with
  | None => None
  | Some _ => kmip_node_new_byte_string KMIP_TAG_KEY_MATERIAL None key key_len
  end.

Definition kmip_get_raw_key (node : option kmip_node) : Z + list Z * option Z :=
  _ ← check_tag node KMIP_TAG_KEY_MATERIAL;
  let '(key, len) := kmip_node_get_byte_string node in
  key ← need (- EBADMSG) key;
  inr (key, len).

(** ** Public keys of OpenSSL *)

Definition KMIP_CRYPTO_ALGO_RSA : Z := 4.
Definition KMIP_CRYPTO_ALGO_DSA : Z := 5.
Definition KMIP_CRYPTO_ALGO_ECDSA : Z := 6.

Inductive pkey_type := EVP_PKEY_RSA | EVP_PKEY_DSA | EVP_PKEY_EC.

(** [i2d_PublicKey] and [i2d_PUBKEY] give the encoding, or none when they fail;
    [d2i_PublicKey] needs the type of the key. *)
Class PkeyOps := {
  EVP_PKEY : Type;
  i2d_PublicKey : EVP_PKEY → option (list Z);
  d2i_PublicKey : pkey_type → list Z → option EVP_PKEY;
  i2d_PUBKEY : EVP_PKEY → option (list Z);
  d2i_PUBKEY : list Z → option EVP_PKEY;
}.

Section Pkey.
Context `{PkeyOps}.

(** the node with an encoding, if there is one *)
Definition encoded_key (der : option (list Z)) : option kmip_node :=
  match der with
  | None | Some [] => None
  | Some buf =>
      kmip_node_new_byte_string KMIP_TAG_KEY_MATERIAL None (Some buf) (Z.of_nat (length buf))
  end.

(** the encoding in a node; the length is that which the node has *)
Definition key_encoding (node : option kmip_node) : Z + list Z :=
  _ ← check_tag node KMIP_TAG_KEY_MATERIAL;
  match kmip_node_get_byte_string node with
  | (Some buf, Some len) => if len =? 0 then inl (- EBADMSG) else inr (take (Z.to_nat len) buf)
  | _ => inl (- EBADMSG)
  end.

Definition kmip_new_pkcs1_public_key (pub_key : option EVP_PKEY) : option kmip_node :=
  pub_key ≫= λ k, encoded_key (i2d_PublicKey k).

Definition kmip_get_pkcs1_public_key (node : option kmip_node) (algo : Z) : Z + EVP_PKEY :=
  buf ← key_encoding node;
  type ← (if algo =? KMIP_CRYPTO_ALGO_RSA then inr EVP_PKEY_RSA
          else if algo =? KMIP_CRYPTO_ALGO_DSA then inr EVP_PKEY_DSA
          else if algo =? KMIP_CRYPTO_ALGO_ECDSA then inr EVP_PKEY_EC
          else inl (- EINVAL));
  need (- EIO) (d2i_PublicKey type buf).

Definition kmip_new_pkcs8_public_key (pub_key : option EVP_PKEY) : option kmip_node :=
  pub_key ≫= λ k, encoded_key (i2d_PUBKEY k).

Definition kmip_get_pkcs8_public_key (node : option kmip_node) : Z + EVP_PKEY :=
  buf ← key_encoding node;
  need (- EIO) (d2i_PUBKEY buf).
End Pkey.

(** ** Key objects *)

Definition new_key_object (tag : Z) (keyblock : option kmip_node) : option kmip_node :=
  match keyblock with
  | None => None
  | Some _ => kmip_node_new_structure_va tag None [keyblock]
  end.
Definition get_key_object (tag : Z) (node : option kmip_node) : Z + kmip_node :=
  _ ← check_tag node tag;
  need (- EBADMSG) (by_tag node KMIP_TAG_KEY_BLOCK 0).

Definition kmip_new_symmetric_key (keyblock : option kmip_node) : option kmip_node :=
  new_key_object KMIP_TAG_SYMMETRIC_KEY keyblock.
Definition kmip_get_symmetric_key (node : option kmip_node) : Z + kmip_node :=
  get_key_object KMIP_TAG_SYMMETRIC_KEY node.
Definition kmip_new_public_key (keyblock : option kmip_node) : option kmip_node :=
  new_key_object KMIP_TAG_PUBLIC_KEY keyblock.
Definition kmip_get_public_key (node : option kmip_node) : Z + kmip_node :=
  get_key_object KMIP_TAG_PUBLIC_KEY node.

(** ** Keys that are sent *)

Section Sent.
Context `{BnOps}.

Lemma keeps_received : keeps received.
Proof. intros [tag len name [| | |[]| | |[]|[]| | |]]; done. Qed.

(** *** Parameters

    A node of a number, as the cryptographic parameters are, takes 16 bytes. *)
Definition small (n : kmip_node) : Prop :=
  transportable n = true ∧ Z.of_nat (length (ttlv n)) = 16 ∧ (node_depth n <= 1)%nat.
Definition small_if (o : option kmip_node) : Prop := ∀ n, o = Some n → small n.

Lemma enum_small tag v : between 0 tag 16777216 = true → between 0 v 4294967296 = true →
  small_if (enum_unless_0 tag v).
Proof.
  intros Ht Hv n. unfold enum_unless_0. destruct (v =? 0); [done|]. intros [= <-]. split; [|done].
  unfold transportable. cbn -[between]. unfold transportable_value. cbn -[between]. by rewrite Ht, Hv.
Qed.
Lemma integer_small tag v : between 0 tag 16777216 = true →
  between (-2147483648) (default 0 v) 2147483648 = true → small_if (integer_if tag v).
Proof. intros Ht Hv n. destruct v as [v|]; [|done]. intros [= <-]. split; [|done]. unfold transportable. cbn -[between] in *. unfold transportable_value. cbn -[between]. by rewrite Ht, Hv. Qed.
Lemma boolean_small tag v : between 0 tag 16777216 = true → small_if (boolean_if tag v).
Proof. intros Ht n. destruct v as [v|]; [|done]. intros [= <-]. split; [|done]. unfold transportable. cbn -[between]. unfold transportable_value. cbn -[between]. by rewrite Ht. Qed.
Lemma when_small b o : small_if o → small_if (when b o).
Proof. by destruct b. Qed.

Lemma small_structure tag len name els :
  between 0 tag 16777216 = true → Forall small els →
  transportable (KmipNode tag len name (StructureValue els)) = true ∧
  Z.of_nat (length (ttlv (KmipNode tag len name (StructureValue els)))) = 8 + 16 * Z.of_nat (length els) ∧
  (node_depth (KmipNode tag len name (StructureValue els)) <= 2)%nat.
Proof.
  intros Ht Hels.
  assert (Hall : forallb (node_all transportable_value) els = true).
  { apply forallb_forall. intros e He%list_elem_of_In. rewrite Forall_forall in Hels. by apply Hels. }
  assert (Hlen : Z.of_nat (length (concat (map ttlv els))) = 16 * Z.of_nat (length els)).
  { clear Hall. induction Hels as [|e els (_ & He & _) _ IH]; [done|]. cbn [map concat length].
    rewrite length_app. lia. }
  split; [|split].
  - unfold transportable. cbn [node_all]. rewrite Hall. unfold transportable_value. cbn -[between]. by rewrite Ht.
  - rewrite ttlv_frame. cbn [payload value_type]. rewrite length_frame, Hlen.
    rewrite pad8_zero; [lia|]. apply Z.mod_divide; [lia|]. exists (2 * Z.of_nat (length els)). lia.
  - cbn [node_depth]. clear Hall Hlen. enough (foldr (λ e d, Nat.max (node_depth e) d) 0%nat els <= 1)%nat by lia.
    induction Hels as [|e els (_ & _ & He) _ IH]; cbn [foldr]; lia.
Qed.

(** the numbers are in the ranges of their types *)
Definition parameters_ok (p : crypto_parameters) : bool :=
  forallb (λ v, between 0 v 4294967296)
    [cp_mode p; cp_padding p; cp_hash_algo p; cp_key_role p; cp_signature_algo p; cp_crypto_algo p;
     cp_mgf p; cp_mgf_hash_algo p] &&
  forallb (λ v, between (-2147483648) (default 0 v) 2147483648)
    [cp_iv_length p; cp_tag_length p; cp_fixed_field_length p; cp_invoc_field_length p;
     cp_counter_length p; cp_init_counter_value p; cp_salt_length p; cp_trailer_field p].

Lemma omap_small os : Forall small_if os → Forall small (omap id os).
Proof.
  induction 1 as [|[n|] os Ho _ IH]; [constructor| |done]. constructor; [by apply Ho|done].
Qed.
Lemma length_omap_id {A} (os : list (option A)) : (length (omap id os) <= length os)%nat.
Proof. induction os as [|[x|] os IH]; cbn; [done|lia..]. Qed.

(** The node of the parameters can always be sent. *)
Lemma parameters_transportable dflt version p n :
  parameters_ok p = true → kmip_new_cryptographic_parameters dflt version p = Some n →
  transportable n = true ∧ Z.of_nat (length (ttlv n)) <= INT_MAX ∧ (node_depth n <= 2)%nat.
Proof.
  unfold parameters_ok. cbn [forallb]. rewrite !andb_true_iff. intros Hok.
  destruct Hok as ((? & ? & ? & ? & ? & ? & ? & ? & _) & ? & ? & ? & ? & ? & ? & ? & ? & _).
  unfold kmip_new_cryptographic_parameters. set (v := default dflt version).
  match goal with |- kmip_node_new_structure_va ?t None ?l = Some n → _ => set (os := l) end.
  intros Hn.
  assert (Hnode : kmip_node_new_structure_va KMIP_TAG_CRYPTOGRAPHIC_PARAMETERS None os
    = Some (KmipNode KMIP_TAG_CRYPTOGRAPHIC_PARAMETERS 0 None (StructureValue (omap id os)))) by reflexivity.
  rewrite Hnode in Hn. apply (inj Some) in Hn. subst n. clear Hnode.
  assert (Hos : Forall small (omap id os)).
  { apply omap_small. unfold os.
    repeat (apply Forall_cons_2;
            [try lazymatch goal with |- small_if (when _ _) => apply when_small end;
             first [by apply enum_small|by apply integer_small|by apply boolean_small]|]).
    apply Forall_nil_2. }
  destruct (small_structure KMIP_TAG_CRYPTOGRAPHIC_PARAMETERS 0 None (omap id os)) as (Ht & Hl & Hd); [done|done|].
  split; [exact Ht|]. split; [|exact Hd]. rewrite Hl.
  pose proof (length_omap_id os) as Hle. change (length os) with 17%nat in Hle. unfold INT_MAX. lia.
Qed.

(** A key value is a structure whose first element is the key material, whatever
    attributes follow and however they are sent. *)
Lemma add_v1_attrs_first tag len name els rest n :
  add_v1_attrs (Some (KmipNode tag len name (StructureValue els))) rest = Some n →
  ∃ more, n = KmipNode tag len name (StructureValue (els ++ more)).
Proof.
  revert els. induction rest as [|[a|] rest IH]; intros els Hn; cbn [add_v1_attrs] in Hn.
  - injection Hn as <-. exists []. by rewrite app_nil_r.
  - destruct (kmip_v1_attr_from_v2_attr (Some a)) as [|v1]; [done|].
    cbn [kmip_node_add_structure_element kmip_node_add_structure_elements node_value omap list_omap
         id Z.eqb] in Hn. unfold set_value in Hn. cbn [node_tag node_length node_name] in Hn.
    destruct (IH _ Hn) as (more & ->). exists (v1 :: more). by rewrite <- app_assoc.
  - by apply IH.
Qed.

Lemma key_value_structure dflt version m attrs n :
  kmip_new_key_value dflt version (Some m) attrs = Some n →
  ∃ more, n = KmipNode KMIP_TAG_KEY_VALUE 0 None (StructureValue (m :: more)).
Proof.
  unfold kmip_new_key_value. destruct (major (default dflt version) =? 1).
  - apply (add_v1_attrs_first KMIP_TAG_KEY_VALUE 0 None [m]).
  - destruct attrs as [|a attrs]; [intros [= <-]; by exists []|].
    destruct (kmip_new_attributes _ _ _) as [s|]; [|done]. intros [= <-]. by exists [s].
Qed.

(** A key block that is sent is read with the same format, algorithm and length. *)
Lemma key_block_received format_type compr_type kv algorithm length :
  format_type ≠ 0 → node_tag kv = KMIP_TAG_KEY_VALUE →
  ∃ kb, kmip_new_key_block format_type compr_type (Some kv) algorithm length None = Some kb ∧
    node_tag kb = KMIP_TAG_KEY_BLOCK ∧
    kmip_get_key_block (Some (received kb)) true true
    = inr (KeyBlock (Some format_type) compr_type (Some (received kv)) algorithm
             (if 0 <? length then length else -1) None).
Proof.
  intros Hf Hkv. unfold kmip_new_key_block. rewrite (proj2 (Z.eqb_neq _ _)) by done.
  set (os := [kmip_node_new_enumeration KMIP_TAG_KEY_FORMAT_TYPE None format_type;
              enum_unless_0 KMIP_TAG_KEY_COMPRESSION_TYPE compr_type; Some kv;
              enum_unless_0 KMIP_TAG_CRYPTOGRAPHIC_ALGORITHM algorithm;
              when (0 <? length) (integer_if KMIP_TAG_CRYPTOGRAPHIC_LENGTH (Some length)); None]).
  set (ts := [KMIP_TAG_KEY_FORMAT_TYPE; KMIP_TAG_KEY_COMPRESSION_TYPE; KMIP_TAG_KEY_VALUE;
              KMIP_TAG_CRYPTOGRAPHIC_ALGORITHM; KMIP_TAG_CRYPTOGRAPHIC_LENGTH;
              KMIP_TAG_KEY_WRAPPING_DATA]).
  exists (KmipNode KMIP_TAG_KEY_BLOCK 0 None (StructureValue (omap id os))).
  split; [reflexivity|]. split; [done|].
  assert (Hos : Forall2 has_tag os ts).
  { unfold os, ts. repeat constructor; try apply enum_unless_0_tag; try apply when_tag, integer_if_tag.
    - by intros n [= <-].
    - by intros n [= <-].
    - done. }
  assert (Hts : NoDup ts) by (apply (bool_decide_unpack _); by vm_compute).
  rewrite received_structure. set (len := Z.of_nat _).
  unfold kmip_get_key_block, element. change (check_tag _ _) with (@inr Z unit tt).
  cbn [mbind rc_bind want].
  rewrite (read_enum received keeps_received _ _ _ os ts Hos Hts true 1 _ compr_type) by done.
  rewrite (read_enum received keeps_received _ _ _ os ts Hos Hts true 3 _ algorithm) by done.
  rewrite (read_integer received keeps_received _ _ _ os ts Hos Hts (0 <? length) 4 _ _ (Some length)) by done.
  cbn [kmip_node_get_structure_element_by_tag node_value].
  rewrite (find_optional received os ts 0 _ _ keeps_received Hos Hts eq_refl eq_refl).
  rewrite (find_optional received os ts 2 _ _ keeps_received Hos Hts eq_refl eq_refl).
  by rewrite (find_optional received os ts 5 _ _ keeps_received Hos Hts eq_refl eq_refl).
Qed.

(** the key in a key object that was received *)
Definition read_raw_key (object : kmip_node) : Z + key_block * list Z :=
  kb ← kmip_get_symmetric_key (Some object);
  b ← kmip_get_key_block (Some kb) true true;
  '(material, _, _) ← kmip_get_key_value (kb_key_value b) true false None;
  '(key, _) ← kmip_get_raw_key material;
  inr (b, key).

(** A key, wrapped up as the library does it *)
Definition symmetric_key_object (dflt : kmip_version) (version : option kmip_version)
    (format_type algorithm length : Z) (key : list Z) (attrs : list (option kmip_node))
    : option kmip_node :=
  kmip_new_symmetric_key
    (kmip_new_key_block format_type 0
       (kmip_new_key_value dflt version
          (kmip_new_raw_key (Some key) (Z.of_nat (List.length key))) attrs) algorithm length None).

(** The object is built if every attribute has a form in v1.x, or for v2.x. *)
Lemma add_v1_attrs_built tag len name els attrs :
  Forall (λ a, ∃ v1, kmip_v1_attr_from_v2_attr (Some a) = inr v1) (omap id attrs) →
  is_Some (add_v1_attrs (Some (KmipNode tag len name (StructureValue els))) attrs).
Proof.
  revert els. induction attrs as [|[a|] attrs IH]; intros els Hall; [done| |by apply IH].
  apply Forall_cons in Hall as [[v1 Hv1] Hall]. cbn [add_v1_attrs]. rewrite Hv1. by apply IH.
Qed.

Lemma symmetric_key_built dflt version format_type algorithm length key attrs :
  format_type ≠ 0 →
  (major (default dflt version) = 1 →
   Forall (λ a, ∃ v1, kmip_v1_attr_from_v2_attr (Some a) = inr v1) (omap id attrs)) →
  is_Some (symmetric_key_object dflt version format_type algorithm length key attrs).
Proof.
  intros Hf Hall. unfold symmetric_key_object, kmip_new_raw_key.
  set (m := kmip_node_new_byte_string _ _ _ _). assert (Hm : is_Some m) by (by eexists).
  assert (Hkv : is_Some (kmip_new_key_value dflt version m attrs)).
  { destruct Hm as [m' ->]. unfold kmip_new_key_value.
    destruct (Z.eqb_spec (major (default dflt version)) 1) as [Hv|Hv]; [by apply add_v1_attrs_built, Hall|].
    destruct attrs as [|a attrs]; [by eexists|]. unfold kmip_new_attributes.
    rewrite (proj2 (Z.eqb_neq _ _)) by done. by eexists. }
  destruct Hkv as [kv ->]. unfold kmip_new_key_block. rewrite (proj2 (Z.eqb_neq _ _)) by done. by eexists.
Qed.

Lemma read_raw_key_ok dflt version format_type algorithm length key attrs object :
  format_type ≠ 0 → key ≠ [] →
  symmetric_key_object dflt version format_type algorithm length key attrs = Some object →
  ∃ kv, read_raw_key (received object)
    = inr (KeyBlock (Some format_type) 0 (Some kv) algorithm
             (if 0 <? length then length else -1) None, key).
Proof.
  intros Hf Hkey Hobj. unfold symmetric_key_object in Hobj.
  assert (Hl : 0 < Z.of_nat (List.length key)) by (destruct key; [done|simpl; lia]).
  unfold kmip_new_raw_key, kmip_node_new_byte_string in Hobj.
  rewrite (proj2 (Z.ltb_lt _ _) Hl), Nat2Z.id, firstn_all in Hobj.
  set (m := set_length _ _) in Hobj.
  destruct (kmip_new_key_value dflt version (Some m) attrs) as [kv|] eqn:Ekv; [|done].
  destruct (key_value_structure _ _ _ _ _ Ekv) as (more & ->).
  destruct (key_block_received format_type 0
     (KmipNode KMIP_TAG_KEY_VALUE 0 None (StructureValue (m :: more))) algorithm length Hf eq_refl)
    as (kb & Hkb & Htag & Hget).
  rewrite Hkb in Hobj. injection Hobj as <-.
  exists (received (KmipNode KMIP_TAG_KEY_VALUE 0 None (StructureValue (m :: more)))).
  unfold read_raw_key, set_value. cbn [kmip_node_new node_tag node_length node_name].
  rewrite (received_structure KMIP_TAG_SYMMETRIC_KEY). unfold kmip_get_symmetric_key, get_key_object.
  change (check_tag _ _) with (@inr Z unit tt). cbn [mbind rc_bind].
  cbn [kmip_node_get_structure_element_by_tag node_value map find_by_tag].
  destruct (keeps_received kb) as (-> & _). rewrite Htag, !Z.eqb_refl. cbn [need mbind rc_bind].
  rewrite Hget. done.
Qed.
End Sent.
