(* ===== verification/KmipConn.v ===== *)
(** A request over a TLS connection (src/libkmipclient/tls.c), and what a message
    is after it has been sent.

    The connection's BIO is a parameter as in KmipTtlv.v, now in both directions:
    [BioPeer] says that what is read after a flush is the other side's answer to
    all that was written, and that reading and writing do not disturb each
    other. *)
From S2P Require Import Prelude Codec Kmip KmipTtlv KmipTtlvProofs.
From S2P Require Import KmipAttr KmipAttributes KmipMessage.

Definition ENOTCONN : Z := 107.

Class BioFlush (B : Type) := { BIO_flush : B → Z * B }.

Class BioPeer (B : Type) `{BioOps B, !BioReadLaws B, !BioWriteLaws B, !BioFlush B}
    (answer : list Z → list Z) : Prop := {
  BIO_flush_law b : (BIO_flush b).1 = 1 ∧ bio_out (BIO_flush b).2 = bio_out b ∧
    bio_in (BIO_flush b).2 = answer (bio_out b);
}.

(** ** The code *)

Section Perform.
Context `{BnOps} {B : Type} `{BioOps B, !BioFlush B}.

(** [bio] is the connection's BIO, NULL when it is not established.  The result
    code, the response, the connection's BIO afterwards (NULL after a failure: the
    connection is torn down), and the request with its updated lengths. *)
Definition kmip_connection_tls_perform (bio : option B) (request : kmip_node)
    : outcome (Z * option kmip_node * option B * kmip_node) :=
  match bio with
  | None => Done (- ENOTCONN, None, None, request)
  | Some bio =>
      '(rc, _, request, bio) ← kmip_encode_ttlv request bio;
      if negb (rc =? 0) then Done (rc, None, None, request) else
      let '(flushed, bio) := BIO_flush bio in
      if negb (flushed =? 1) then Done (- EIO, None, None, request) else
      '(r, _, bio) ← kmip_decode_ttlv KMIP_DECODE_MAX_NESTING_LEVEL None bio;
      match r with
      | inl rc => Done (rc, None, None, request)
      | inr response => Done (0, Some response, Some bio, request)
      end
  end.
End Perform.

(** ** Messages after they were sent *)

Section Wire.
Context `{BnOps}.

Lemma received_tag n : node_tag (received n) = node_tag n.
Proof. by destruct n. Qed.

(** looking up by tag commutes with sending *)
Lemma find_by_tag_received tag i els :
  find_by_tag tag i (map received els) = received <$> find_by_tag tag i els.
Proof.
  revert i. induction els as [|e els IH]; intros i; [done|]. cbn [map find_by_tag].
  rewrite received_tag. destruct (node_tag e =? tag); [|apply IH].
  destruct (i =? 0); [done|apply IH].
Qed.

Lemma find_by_tag_skip tag i e els : node_tag e ≠ tag →
  find_by_tag tag i (e :: els) = find_by_tag tag i els.
Proof. intros He. cbn [find_by_tag]. by rewrite (proj2 (Z.eqb_neq _ _)). Qed.
End Wire.

(** ** A connection whose other side is a function *)

Record duplex := Duplex { dx_out : list Z; dx_in : list Z }.
#[export] Instance duplex_ops : BioOps duplex := {
  BIO_read b n := (take (Z.to_nat n) (dx_in b), Duplex (dx_out b) (drop (Z.to_nat n) (dx_in b)));
  BIO_write b l := (Z.of_nat (length l), Duplex (dx_out b ++ l) (dx_in b));
}.
#[export] Instance duplex_read : BioReadLaws duplex.
Proof. refine {| bio_in := dx_in |}. done. Defined.
#[export] Instance duplex_write : BioWriteLaws duplex.
Proof. refine {| bio_out := dx_out |}. done. Defined.

Section Duplex.
Variable answer : list Z → list Z.
Definition duplex_flush : BioFlush duplex :=
  {| BIO_flush b := (1, Duplex (dx_out b) (answer (dx_out b))) |}.
Lemma duplex_peer : @BioPeer duplex _ _ _ duplex_flush answer.
Proof. split. done. Qed.
End Duplex.
