(* ===== verification/KmipHeap.v ===== *)
(** KMIP nodes in memory (src/libkmipclient/kmip.c).

    The library allocates its nodes, counts the references to them and chains the
    elements of a structure through the [next] fields of the elements themselves.
    Names, strings, byte strings and big numbers are allocations of their own.  This file
    runs the operations that touch these fields on a heap, and shows when they do what the
    functions on node values in Kmip.v say: [node_heap] relates a node to exactly the
    memory of its tree, the buffers included, in which every inner element has one
    reference, that of its structure.

    Reading or writing a node that is not allocated, and freeing what is not allocated, is
    a [Fault]; the loops have fuel, and the theorems name how much is enough. *)
From stdpp Require Import fin_maps gmap.
From S2P Require Import Prelude Codec Kmip.

Notation loc := positive.

(** [struct kmip_node]: the type and the value, of which strings, byte strings and
    big numbers are pointers to buffers of their own ... *)
Inductive hvalue : Type :=
  | HStructure (structure_value : option loc)
  | HBigInteger (big_integer_value : option loc)
  | HText (text_value : option loc)
  | HBytes (bytes_value : option loc)
  | HData (v : kmip_value kmip_node).

(** ... and so is the name *)
Record cell := Cell {
  c_tag : Z;
  c_length : Z;
  c_name : option loc;
  c_value : hvalue;
  c_parent : option loc;
  c_next : option loc;
  c_ref_count : Z
}.

(** what is allocated: nodes, buffers of [malloc] and [strdup], numbers of OpenSSL *)
Inductive hobject : Type :=
  | ONode (c : cell)
  | OBuffer (bytes : list Z)
  | OBignum (bn : Z).

Notation heap := (gmap positive hobject).

Definition set_c_value (v : hvalue) (c : cell) : cell :=
  Cell (c_tag c) (c_length c) (c_name c) v (c_parent c) (c_next c) (c_ref_count c).
Definition set_c_links (parent next : option loc) (c : cell) : cell :=
  Cell (c_tag c) (c_length c) (c_name c) (c_value c) parent next (c_ref_count c).
Definition set_c_next (next : option loc) (c : cell) : cell := set_c_links (c_parent c) next c.
Definition set_c_ref (r : Z) (c : cell) : cell :=
  Cell (c_tag c) (c_length c) (c_name c) (c_value c) (c_parent c) (c_next c) r.
Definition set_c_data (length : Z) (v : hvalue) (c : cell) : cell :=
  Cell (c_tag c) length (c_name c) v (c_parent c) (c_next c) (c_ref_count c).

(** the node at an address *)
Definition load (p : loc) (h : heap) : outcome cell :=
  match h !! p with Some (ONode c) => Done c | _ => Fault end.

(** a store through a pointer to a node *)
Definition store (p : loc) (f : cell → cell) (h : heap) : outcome heap :=
  c ← load p h; Done (<[p := ONode (f c)]> h).

(** ** Allocation *)

(** [malloc] and [strdup] return an address that is not in use *)
Definition alloc (o : hobject) (h : heap) : loc * heap :=
  let p := fresh (dom h) in (p, <[p := o]> h).

(** [free]: of NULL it does nothing; the address must be one that [malloc] returned
    and that has not been freed *)
Definition free (ptr : option loc) (h : heap) : outcome heap :=
  match ptr with
  | None => Done h
  | Some p => match h !! p with
              | Some (ONode _ | OBuffer _) => Done (delete p h)
              | _ => Fault
              end
  end.

(** The numbers are allocated and freed by OpenSSL: [BN_dup] and [BN_free] are
    parameters, and the laws are what its documentation says of them. *)
Class BnHeap := {
  BN_dup : Z → heap → loc * heap;
  BN_free : option loc → heap → outcome heap
}.

Class BnHeapLaws `{BnHeap} : Prop := {
  BN_dup_new v h : ∃ q, BN_dup v h = (q, <[q := OBignum v]> h) ∧ h !! q = None;
  BN_free_null h : BN_free None h = Done h;
  BN_free_number q v h : h !! q = Some (OBignum v) → BN_free (Some q) h = Done (delete q h)
}.

(** a string in memory ends with a NUL *)
Definition string_object (s : list Z) : hobject := OBuffer (s ++ [0]).

(** ** The operations *)

(** the zero value of a type: [calloc] has cleared the pointers *)
Definition zero_hvalue (type : kmip_type) : hvalue :=
  match type with
  | KMIP_TYPE_STRUCTURE => HStructure None
  | KMIP_TYPE_BIG_INTEGER => HBigInteger None
  | KMIP_TYPE_TEXT_STRING => HText None
  | KMIP_TYPE_BYTE_STRING => HBytes None
  | t => HData (zero_value t)
  end.

(** [kmip_node_new]: the new node and the heap with it *)
Definition heap_node_new (tag : Z) (name : option (list Z)) (type : kmip_type) (h : heap)
    : loc * heap :=
  let node np := ONode (Cell tag 0 np (zero_hvalue type) None None 1) in
  let '(p, h) := alloc (node None) h in
  match name with
  | None => (p, h)
  | Some s => let '(np, h) := alloc (string_object (cstr s)) h in (p, <[p := node (Some np)]> h)
  end.

(** the copy of the argument, if there is one, becomes the value of the new node *)
Definition heap_set_data (p : loc) (dup : option (heap → loc * heap)) (length : Z)
    (value : option loc → hvalue) (h : heap) : outcome (loc * heap) :=
  match dup with
  | None => Done (p, h)
  | Some dup =>
      let '(q, h) := dup h in
      h ← store p (set_c_data length (value (Some q))) h;
      Done (p, h)
  end.

Definition heap_node_new_bigint `{BnOps, BnHeap} (tag : Z) (name : option (list Z))
    (value : option Z) (h : heap) : outcome (loc * heap) :=
  let '(p, h) := heap_node_new tag name KMIP_TYPE_BIG_INTEGER h in
  heap_set_data p (BN_dup <$> value) (kmip_encode_bignum_length value) HBigInteger h.

Definition heap_node_new_text_string (tag : Z) (name value : option (list Z)) (h : heap)
    : outcome (loc * heap) :=
  let '(p, h) := heap_node_new tag name KMIP_TYPE_TEXT_STRING h in
  heap_set_data p (alloc <$> (string_object <$> (cstr <$> value)))
    (u32 (Z.of_nat (strlen (default [] value)))) HText h.

Definition heap_node_new_byte_string (tag : Z) (name value : option (list Z)) (length : Z)
    (h : heap) : outcome (loc * heap) :=
  let '(p, h) := heap_node_new tag name KMIP_TYPE_BYTE_STRING h in
  heap_set_data p
    (alloc <$> (s ← value; if 0 <? length then Some (OBuffer (take (Z.to_nat length) s)) else None))
    length HBytes h.

Definition heap_node_upref (node : option loc) (h : heap) : outcome heap :=
  match node with
  | None => Done h
  | Some p => store p (λ c, set_c_ref (u64 (c_ref_count c + 1)) c) h
  end.

(** the loop of [kmip_node_free] over the elements of a structure: each one is
    taken out of the chain before it is freed *)
Definition free_elements (nfree : option loc → heap → outcome heap) :=
  fix go (fuel : nat) (element : option loc) (h : heap) : outcome heap :=
    match element with
    | None => Done h
    | Some e =>
        match fuel with
        | O => OutOfFuel
        | S fuel =>
            c ← load e h;
            let next := c_next c in
            h ← store e (set_c_links None None) h;
            h ← nfree element h;
            go fuel next h
        end
    end.

Fixpoint heap_node_free `{BnHeap} (fuel : nat) (node : option loc) (h : heap) : outcome heap :=
  match node with
  | None => Done h
  | Some p =>
      match fuel with
      | O => OutOfFuel
      | S fuel =>
          c ← load p h;
          let '(ref_count, h) :=
            if 0 <? c_ref_count c
            then (u64 (c_ref_count c - 1), <[p := ONode (set_c_ref (u64 (c_ref_count c - 1)) c)]> h)
            else (0, h) in
          if 0 <? ref_count then Done h else
          h ← match c_value c with
              | HStructure element => free_elements (heap_node_free fuel) fuel element h
              | HBigInteger big_integer_value => BN_free big_integer_value h
              | HText text_value => free text_value h
              | HBytes bytes_value => free bytes_value h
              | HData _ => Done h
              end;
          h ← free (c_name c) h;
          free node h
      end
  end.

(** [while (last->next != NULL) last = last->next] *)
Fixpoint find_last (fuel : nat) (last : loc) (h : heap) : outcome loc :=
  match fuel with
  | O => OutOfFuel
  | S fuel =>
      c ← load last h;
      match c_next c with
      | None => Done last
      | Some next => find_last fuel next h
      end
  end.

(** the loop that appends the elements *)
Fixpoint append_elements (node : loc) (last : option loc) (elements : list (option loc))
    (h : heap) : outcome heap :=
  match elements with
  | [] => Done h
  | None :: rest => append_elements node last rest h
  | Some element :: rest =>
      h ← heap_node_upref (Some element) h;
      h ← store element (set_c_links (Some node) None) h;
      h ← match last with
          | None => store node (set_c_value (HStructure (Some element))) h
          | Some l => store l (set_c_next (Some element)) h
          end;
      append_elements node (Some element) rest h
  end.

Definition heap_add_structure_elements (fuel : nat) (node : option loc)
    (elements : list (option loc)) (h : heap) : outcome (Z * heap) :=
  match node with
  | None => Done (- EINVAL, h)
  | Some p =>
      c ← load p h;
      match c_value c with
      | HStructure first =>
          last ← match first with
                 | None => Done None
                 | Some e => l ← find_last fuel e h; Done (Some l)
                 end;
          h ← append_elements p last elements h;
          Done (0, h)
      | _ => Done (- EINVAL, h)
      end
  end.

(** the loop of [kmip_node_get_structure_element_by_tag] *)
Fixpoint heap_find_by_tag (fuel : nat) (tag index : Z) (e : option loc) (h : heap)
    : outcome (option loc * heap) :=
  match e with
  | None => Done (None, h)
  | Some p =>
      match fuel with
      | O => OutOfFuel
      | S fuel =>
          c ← load p h;
          if c_tag c =? tag then
            if index =? 0 then h ← heap_node_upref e h; Done (e, h)
            else heap_find_by_tag fuel tag (index - 1) (c_next c) h
          else heap_find_by_tag fuel tag index (c_next c) h
      end
  end.

Definition heap_get_structure_element_by_tag (fuel : nat) (node : option loc)
    (tag index : Z) (h : heap) : outcome (option loc * heap) :=
  match node with
  | None => Done (None, h)
  | Some p =>
      c ← load p h;
      match c_value c with
      | HStructure first => heap_find_by_tag fuel tag index first h
      | _ => Done (None, h)
      end
  end.

(** ** A tree in memory *)

(** [chain_heap nh els p first h]: [h] is the memory of the elements [els] of the
    structure at [p], chained from [first]; each has one reference, the
    structure's. *)
Definition chain_heap
    (nh : kmip_node → Z → loc → option loc → option loc → heap → Prop) :=
  fix go (els : list kmip_node) (p : loc) (first : option loc) (h : heap) : Prop :=
    match els with
    | [] => first = None ∧ h = ∅
    | e :: els =>
        ∃ q next h1 h2, first = Some q ∧ nh e 1 q (Some p) next h1 ∧ go els p next h2 ∧
          h1 ##ₘ h2 ∧ h = h1 ∪ h2
    end.

(** the memory behind a pointer that may be NULL *)
Definition own (o : option hobject) (ptr : option loc) (h : heap) : Prop :=
  match o, ptr with
  | None, None => h = ∅
  | Some o, Some q => h = {[q := o]}
  | _, _ => False
  end.

(** [node_heap n r p parent next h]: [h] is exactly the memory of the tree [n],
    whose root is at [p], has [r] references and the given links: the nodes, their
    names, and the strings, byte strings and numbers of their values. *)
Fixpoint node_heap (n : kmip_node) (r : Z) (p : loc) (parent next : option loc) (h : heap) : Prop :=
  let 'KmipNode tag len name v := n in
  ∃ np hn vp hv, own (string_object <$> name) np hn ∧
    match v with
    | StructureValue els => ∃ first, vp = HStructure first ∧ chain_heap node_heap els p first hv
    | BigIntegerValue bn => ∃ q, vp = HBigInteger q ∧ own (OBignum <$> bn) q hv
    | TextValue s => ∃ q, vp = HText q ∧ own (string_object <$> s) q hv
    | BytesValue s => ∃ q, vp = HBytes q ∧ own (OBuffer <$> s) q hv
    | v => vp = HData v ∧ hv = ∅
    end ∧
    hn ##ₘ hv ∧ (hn ∪ hv) !! p = None ∧
    h = <[p := ONode (Cell tag len np vp parent next r)]> (hn ∪ hv).

Fixpoint node_size (n : kmip_node) : nat :=
  let 'KmipNode _ _ _ v := n in
  match v with
  | StructureValue els => S (foldr (λ e a, node_size e + a)%nat 0%nat els)
  | _ => 1%nat
  end.
Definition nodes_size (els : list kmip_node) : nat :=
  foldr (λ e a, node_size e + a)%nat 0%nat els.

(** ** Stores and roots *)

Section Heap.
Context `{BnHeapLaws}.
Implicit Types (h hf hc : heap) (n e : kmip_node) (p q : loc).

Lemma load_at p c h : h !! p = Some (ONode c) → load p h = Done c.
Proof. intros Hc. unfold load. by rewrite Hc. Qed.

Lemma load_l p c h hf : h !! p = Some (ONode c) → load p (h ∪ hf) = Done c.
Proof. intros Hc. apply load_at. by apply lookup_union_Some_l. Qed.

Lemma store_l p f c h hf : h !! p = Some (ONode c) →
  store p f (h ∪ hf) = Done (<[p := ONode (f c)]> h ∪ hf).
Proof.
  intros Hc. unfold store. rewrite (load_l _ _ _ _ Hc), Done_bind. by rewrite insert_union_l.
Qed.

Lemma store_r p f c h hf : h ##ₘ hf → hf !! p = Some (ONode c) →
  store p f (h ∪ hf) = Done (h ∪ <[p := ONode (f c)]> hf).
Proof.
  intros Hd Hc. unfold store.
  rewrite (load_at p c), Done_bind by (by apply lookup_union_Some_r).
  rewrite insert_union_r; [done|]. by eapply map_disjoint_Some_r.
Qed.

Lemma set_c_ref_id r c : c_ref_count c = r → set_c_ref r c = c.
Proof. intros <-. by destruct c. Qed.

Lemma set_c_links_id par nx c : c_parent c = par → c_next c = nx → set_c_links par nx c = c.
Proof. intros <- <-. by destruct c. Qed.

(** The root of a tree: its fields, and what a change of its links or of its
    count makes of the tree's memory. *)
Lemma node_heap_root n r p par nx h : node_heap n r p par nx h →
  ∃ c, h !! p = Some (ONode c) ∧ c_next c = nx ∧ c_parent c = par ∧ c_ref_count c = r ∧
    c_tag c = node_tag n ∧
    ∀ r' par' nx', node_heap n r' p par' nx'
      (<[p := ONode (set_c_ref r' (set_c_links par' nx' c))]> h).
Proof.
  destruct n as [tag len name v]. intros (np & hn & vp & hv & Hn & Hv & Hd & Hp & ->).
  exists (Cell tag len np vp par nx r). rewrite lookup_insert_eq. split_and!; [done..|].
  intros r' par' nx'. exists np, hn, vp, hv. by rewrite insert_insert_eq.
Qed.

(** an update of the root keeps the rest of the memory apart *)
Lemma disjoint_root p c c' h hf : h !! p = Some c → h ##ₘ hf → <[p := c']> h ##ₘ hf.
Proof.
  intros Hc Hd. apply map_disjoint_insert_l_2; [|done]. by eapply map_disjoint_Some_l.
Qed.

(** ** Freeing *)

Lemma node_size_pos n : (0 < node_size n)%nat.
Proof. destruct n as [? ? ? []]; simpl; lia. Qed.

(** freeing what a pointer owns leaves the rest *)
Lemma free_own (mk : list Z → hobject) s ptr h hf :
  (∀ b, ∃ b', mk b = OBuffer b') → own (mk <$> s) ptr h → h ##ₘ hf → free ptr (h ∪ hf) = Done hf.
Proof.
  intros Hmk Ho Hd. destruct s as [s|], ptr as [q|]; simpl in Ho; subst; try done.
  - destruct (Hmk s) as [b Hb]. rewrite Hb in *. apply map_disjoint_singleton_l in Hd. cbn [free].
    rewrite <- insert_union_singleton_l, lookup_insert_eq. by rewrite delete_insert_id.
  - cbn [free]. by rewrite map_empty_union.
Qed.

Lemma BN_free_own bn ptr h hf :
  own (OBignum <$> bn) ptr h → h ##ₘ hf → BN_free ptr (h ∪ hf) = Done hf.
Proof.
  intros Ho Hd. destruct bn as [s|], ptr as [q|]; simpl in Ho; subst; try done.
  - apply map_disjoint_singleton_l in Hd. rewrite <- insert_union_singleton_l.
    by rewrite (BN_free_number q s), delete_insert_id by (done || apply lookup_insert_eq).
  - by rewrite BN_free_null, map_empty_union.
Qed.

(** [nfree] frees the tree [n] wherever it stands *)
Definition frees (nfree : option loc → heap → outcome heap) n : Prop :=
  ∀ p par nx h hf, node_heap n 1 p par nx h → h ##ₘ hf → nfree (Some p) (h ∪ hf) = Done hf.

Lemma free_elements_ok nfree els fuel p first hc hf :
  Forall (frees nfree) els → (length els <= fuel)%nat →
  chain_heap node_heap els p first hc → hc ##ₘ hf →
  free_elements nfree fuel first (hc ∪ hf) = Done hf.
Proof.
  intros Hels. revert fuel first hc hf. induction Hels as [|e els He _ IH]; intros fuel first hc hf Hf.
  { intros [-> ->] _. destruct fuel; simpl; by rewrite map_empty_union. }
  intros (q & next & h1 & h2 & -> & Hq & Hrest & H12 & ->) Hd.
  destruct fuel as [|fuel]; [simpl in Hf; lia|].
  apply map_disjoint_union_l in Hd as [Hd1 Hd2].
  destruct (node_heap_root _ _ _ _ _ _ Hq) as (c & Hc & Hnx & _ & Hr & _ & Hup).
  cbn [free_elements]. rewrite <- (map_union_assoc h1 h2 hf).
  rewrite (load_l _ _ _ _ Hc), Done_bind, (store_l _ _ c), Done_bind by done.
  specialize (Hup 1 None None). rewrite set_c_ref_id in Hup by done.
  rewrite (He q None None) by (done || by eapply disjoint_root, map_disjoint_union_r_2).
  rewrite Done_bind, Hnx. apply IH; [simpl in Hf; lia|done|done].
Qed.

Lemma nodes_size_length els : (length els <= nodes_size els)%nat.
Proof. induction els as [|e els IH]; [done|]. simpl. pose proof (node_size_pos e). lia. Qed.

Lemma nodes_size_element e els : e ∈ els → (node_size e <= nodes_size els)%nat.
Proof. induction 1; simpl; lia. Qed.

(** the end of [kmip_node_free]: the name and the node *)
Lemma free_node_end name np p c hn hf :
  own (string_object <$> name) np hn → hn ##ₘ hf → hn !! p = None → hf !! p = None →
  (h ← free np (hn ∪ <[p := ONode c]> hf); free (Some p) h) = Done hf.
Proof.
  intros Ho Hd Hp Hf. rewrite (free_own string_object name) by (eauto || by apply map_disjoint_insert_r_2).
  rewrite Done_bind. cbn [free]. rewrite lookup_insert_eq. by rewrite delete_insert_id.
Qed.

(** One call for the last reference: the value is freed in the memory where the count
    is 0 already, then the name, then the node. *)
Lemma free_last (fuel : nat) (free_value : heap → outcome heap) name np vp p par nx len tag hn hv hf :
  own (string_object <$> name) np hn → hn ##ₘ hv → (hn ∪ hv) !! p = None → hf !! p = None →
  hn ∪ hv ##ₘ hf →
  (∀ h, match vp with
        | HStructure element => free_elements (heap_node_free fuel) fuel element h
        | HBigInteger q => BN_free q h
        | HText q => free q h
        | HBytes q => free q h
        | HData _ => Done h
        end = free_value h) →
  (∀ m, hv ##ₘ m → free_value (hv ∪ m) = Done m) →
  heap_node_free (S fuel) (Some p) (<[p := ONode (Cell tag len np vp par nx 1)]> (hn ∪ hv) ∪ hf)
  = Done hf.
Proof.
  intros Hn Hd Hp Hpf Hf Hval Hfree. apply lookup_union_None in Hp as [Hpn Hpv].
  apply map_disjoint_union_l in Hf as [Hnf Hvf].
  cbn [heap_node_free]. rewrite (load_l _ _ _ _ (lookup_insert_eq _ _ _)), Done_bind.
  cbn [c_ref_count c_value c_name Z.ltb Z.compare]. change (u64 (1 - 1)) with 0. cbn [Z.ltb Z.compare].
  set (c := set_c_ref 0 _). rewrite Hval.
  replace (<[p := ONode c]> (<[p := _]> (hn ∪ hv) ∪ hf)) with (hv ∪ (hn ∪ <[p := ONode c]> hf)).
  - rewrite Hfree, Done_bind; [by eapply free_node_end|].
    apply map_disjoint_union_r_2; [done|]. by apply map_disjoint_insert_r_2.
  - rewrite <- insert_union_l, insert_insert_eq, map_union_assoc, (map_union_comm hv hn) by done.
    symmetry. apply insert_union_r. by apply lookup_union_None.
Qed.

Lemma free_ok n fuel : (node_size n <= fuel)%nat → frees (heap_node_free fuel) n.
Proof.
  revert fuel. induction n as [tag len name els IH|tag len name v Hv] using kmip_node_tree_ind;
    intros fuel Hf p par nx h hf (np & hn & vp & hv & Hn & Hval & Hnv & Hp & ->) Hd;
    apply map_disjoint_insert_l in Hd as [Hfp Hd];
    (destruct fuel as [|fuel];
     [match type of Hf with (node_size ?n <= _)%nat => pose proof (node_size_pos n) end; lia|]).
  - destruct Hval as (first & -> & Hc). eapply free_last; [done..|]. intros m Hm.
    apply (free_elements_ok _ els _ p); [rewrite Forall_forall in IH |- *; intros e He; apply IH; [done|]|..|done|done].
    + pose proof (nodes_size_element e els He). unfold nodes_size in *. simpl in Hf. lia.
    + pose proof (nodes_size_length els). unfold nodes_size in *. simpl in Hf. lia.
  - destruct v; try done; first [destruct Hval as [-> ->]|destruct Hval as (q & -> & Ho)];
      (eapply free_last; [done..|]; intros m Hm; cbn beta;
       first [by rewrite map_empty_union | eapply BN_free_own; eassumption | eapply free_own; eauto]).
Qed.

(** freeing a node that has other references takes one off and nothing else *)
Lemma free_shared n r fuel p par nx h hf :
  node_heap n r p par nx h → 1 < r < 18446744073709551616 → (0 < fuel)%nat →
  ∃ c, h !! p = Some (ONode c) ∧
    let h' := <[p := ONode (set_c_ref (r - 1) c)]> h in
    heap_node_free fuel (Some p) (h ∪ hf) = Done (h' ∪ hf) ∧ node_heap n (r - 1) p par nx h'.
Proof.
  intros Hn Hr Hf. destruct fuel as [|fuel]; [lia|].
  destruct (node_heap_root _ _ _ _ _ _ Hn) as (c & Hc & Hnx & Hpar & Href & _ & Hup).
  exists c. split; [done|]. cbv zeta. cbn [heap_node_free].
  rewrite (load_l _ _ _ _ Hc), Done_bind, Href.
  rewrite (proj2 (Z.ltb_lt 0 r)) by lia. rewrite u64_small, (proj2 (Z.ltb_lt 0 (r - 1))) by lia.
  rewrite insert_union_l. split; [done|].
  specialize (Hup (r - 1) par nx).
  by rewrite set_c_links_id in Hup.
Qed.

(** ** Appending *)

Lemma chain_singleton e p x h : node_heap e 1 x (Some p) None h →
  chain_heap node_heap [e] p (Some x) h.
Proof.
  intros He. exists x, None, h, ∅.
  split_and!; [done|done|by split|apply map_disjoint_empty_r|by rewrite map_union_empty].
Qed.

(** The walk along the chain ends at the last element, and a store of its [next]
    field appends. *)
Lemma append_chain els : ∀ p q hc fuel, chain_heap node_heap els p (Some q) hc →
  (length els <= fuel)%nat →
  ∃ l c, (∀ h, hc ⊆ h → find_last fuel q h = Done l) ∧ hc !! l = Some (ONode c) ∧
    ∀ x e he, node_heap e 1 x (Some p) None he → hc ##ₘ he →
      chain_heap node_heap (els ++ [e]) p (Some q) (<[l := ONode (set_c_next (Some x) c)]> hc ∪ he).
Proof.
  induction els as [|e1 els IH]; [intros ???? []; done|].
  intros p q hc fuel (q' & next & h1 & h2 & [= <-] & Hq & Hrest & H12 & ->) Hf.
  destruct fuel as [|fuel]; [simpl in Hf; lia|].
  destruct (node_heap_root _ _ _ _ _ _ Hq) as (c & Hc & Hnx & Hpar & Hr & _ & Hup).
  destruct next as [q2|].
  - destruct (IH p q2 h2 fuel Hrest) as (l & c2 & Hfind & Hl & Happ); [simpl in Hf; lia|].
    exists l, c2. split_and!.
    + intros h Hh. cbn [find_last].
      rewrite (load_at _ _ _ (lookup_weaken _ _ _ _ (lookup_union_Some_l _ h2 _ _ Hc) Hh)).
      rewrite Done_bind, Hnx. apply Hfind. etrans; [|exact Hh]. by apply map_union_subseteq_r.
    + by apply lookup_union_Some_r.
    + intros x e he Hx Hd. apply map_disjoint_union_l in Hd as [Hd1 Hd2].
      assert (h1 !! l = None) by exact (map_disjoint_Some_r _ _ _ _ H12 Hl).
      exists q, (Some q2), h1, (<[l := ONode (set_c_next (Some x) c2)]> h2 ∪ he). split_and!; [done|done|by apply Happ| |].
      * apply map_disjoint_union_r_2; [|done]. by apply map_disjoint_insert_r_2.
      * by rewrite insert_union_r, map_union_assoc.
  - destruct els as [|? ?]; [|by destruct Hrest as (? & ? & ? & ? & ? & _)].
    destruct Hrest as [_ ->]. rewrite map_union_empty in *.
    exists q, c. split_and!; [|done|].
    + intros h Hh. cbn [find_last]. rewrite (load_at _ _ _ (lookup_weaken _ _ _ _ Hc Hh)).
      by rewrite Done_bind, Hnx.
    + intros x e he Hx Hd. exists q, (Some x), (<[q := ONode (set_c_next (Some x) c)]> h1), he.
      split_and!; [done| |by apply chain_singleton|exact (disjoint_root _ _ _ _ _ Hc Hd)|done].
      specialize (Hup 1 (Some p) (Some x)). unfold set_c_next. rewrite Hpar.
      by rewrite set_c_ref_id in Hup.
Qed.

Lemma disjoint_root_iff p c c' h hf : h !! p = Some c → h ##ₘ hf ↔ <[p := c']> h ##ₘ hf.
Proof.
  intros Hc. split; [by eapply disjoint_root|]. rewrite map_disjoint_insert_l. tauto.
Qed.

(** One round of the loop [append_elements] for an element at [x], up to the store
    that links it: it has one reference more, and the structure as its parent. *)
Lemma link_element e x par nx he h p last :
  node_heap e 1 x par nx he → he ##ₘ h →
  ∃ he2, node_heap e 2 x (Some p) None he2 ∧ (∀ hf, he ##ₘ hf ↔ he2 ##ₘ hf) ∧
    append_elements p last [Some x] (he ∪ h)
    = match last with
      | None => store p (set_c_value (HStructure (Some x))) (he2 ∪ h)
      | Some l => store l (set_c_next (Some x)) (he2 ∪ h)
      end.
Proof.
  intros He Hd. destruct (node_heap_root _ _ _ _ _ _ He) as (c & Hc & _ & _ & Hr & _ & Hup).
  exists (<[x := ONode (set_c_links (Some p) None (set_c_ref 2 c))]> he). split_and!.
  - apply (Hup 2 (Some p) None).
  - intros hf. by eapply disjoint_root_iff.
  - cbn [append_elements heap_node_upref]. rewrite (store_l _ _ c) by done. rewrite Done_bind, Hr.
    change (u64 (1 + 1)) with 2. rewrite (store_l _ _ (set_c_ref 2 c)) by apply lookup_insert_eq.
    rewrite Done_bind, insert_insert_eq. destruct last; by destruct (store _ _ _).
Qed.

(** the memory of a structure, put together *)
Lemma structure_assemble p c hc he hf :
  hc ##ₘ he → hc !! p = None → he !! p = None →
  he ∪ (hc ∪ <[p := c]> hf) = <[p := c]> (hc ∪ he) ∪ hf.
Proof.
  intros Hd Hc He. rewrite <- insert_union_l, insert_union_r by (by apply lookup_union_None).
  by rewrite (map_union_comm hc he), map_union_assoc.
Qed.

(** The call appends: the element has two references now, and is chained behind
    the others. *)
Lemma add_links tag len name els r p par nx first hc e x epar enx he hf fuel :
  let c first := ONode (Cell tag len name (HStructure first) par nx r) in
  chain_heap node_heap els p first hc → hc !! p = None → he !! p = None →
  node_heap e 1 x epar enx he → hc ##ₘ he → hc ##ₘ hf → he ##ₘ hf → (length els <= fuel)%nat →
  ∃ he2 first' hc',
    heap_add_structure_elements fuel (Some p) [Some x] (he ∪ (hc ∪ <[p := c first]> hf))
    = Done (0, he2 ∪ (hc' ∪ <[p := c first']> hf)) ∧
    node_heap e 2 x (Some p) None he2 ∧ (∀ m, he ##ₘ m ↔ he2 ##ₘ m) ∧
    (∀ m, hc ##ₘ m ↔ hc' ##ₘ m) ∧
    (∀ he3, node_heap e 1 x (Some p) None he3 → hc ##ₘ he3 →
       chain_heap node_heap (els ++ [e]) p first' (hc' ∪ he3)).
Proof.
  intros c Hc Hp Hpe He Hce Hcf Hef Hf.
  assert (HcF : hc ##ₘ <[p := c first]> hf) by (by apply map_disjoint_insert_r_2).
  assert (HeF : he ##ₘ hc ∪ <[p := c first]> hf)
    by (apply map_disjoint_union_r_2; [done|by apply map_disjoint_insert_r_2]).
  assert (HpF : (hc ∪ <[p := c first]> hf) !! p = Some (c first))
    by (apply lookup_union_Some_r; [done|apply lookup_insert_eq]).
  unfold heap_add_structure_elements.
  rewrite (load_at _ _ _ (lookup_union_Some_r _ _ _ _ HeF HpF)), Done_bind. cbn [c_value]. destruct first as [q|].
  - destruct (append_chain els p q hc fuel Hc Hf) as (l & cl & Hfind & Hl & Happ).
    rewrite Hfind, !Done_bind by (etrans; [by apply (map_union_subseteq_l hc (<[p := c (Some q)]> hf))|by apply map_union_subseteq_r]).
    destruct (link_element e x epar enx he _ p (Some l) He HeF) as (he2 & He2 & Hdom & ->).
    exists he2, (Some q), (<[l := ONode (set_c_next (Some x) cl)]> hc).
    rewrite (store_r l _ cl) by (by apply Hdom || by apply lookup_union_Some_l).
    rewrite Done_bind, insert_union_l. split_and!; [done|done|done| |by apply Happ].
    intros m. by eapply disjoint_root_iff.
  - destruct els as [|? ?]; [|by destruct Hc as (? & ? & ? & ? & ? & _)]. destruct Hc as [_ ->].
    rewrite Done_bind.
    destruct (link_element e x epar enx he _ p None He HeF) as (he2 & He2 & Hdom & ->).
    exists he2, (Some x), ∅.
    rewrite (store_r p _ _ _ _ (proj1 (Hdom _) HeF) HpF).
    rewrite Done_bind, insert_union_r, insert_insert_eq by done. split_and!; [done..|].
    intros he3 H3 _. rewrite map_empty_union. by apply chain_singleton.
Qed.

(** [kmip_node_add_structure_element(p, x)] followed by [kmip_node_free(x)], as the
    library's functions do it: the structure has the new element at the end, and
    holds the only reference to it. *)
Lemma add_then_free tag len name els r p par nx hn e x epar enx he hf fuel fuel' :
  node_heap (KmipNode tag len name (StructureValue els)) r p par nx hn →
  node_heap e 1 x epar enx he → hn ##ₘ he → hn ##ₘ hf → he ##ₘ hf →
  (length els <= fuel)%nat → (0 < fuel')%nat →
  ∃ hn', ('(rc, h) ← heap_add_structure_elements fuel (Some p) [Some x] (he ∪ (hn ∪ hf));
          h ← heap_node_free fuel' (Some x) h;
          Done (rc, h)) = Done (0, hn' ∪ hf) ∧
    node_heap (KmipNode tag len name (StructureValue (els ++ [e]))) r p par nx hn' ∧ hn' ##ₘ hf.
Proof.
  intros (np & hm & vp & hc & Hm & (first & -> & Hc) & Hmc & Hp & ->) He Hne Hnf Hef Hf Hf'.
  apply lookup_union_None in Hp as [Hpm Hpc].
  apply map_disjoint_insert_l in Hne as [Hpe Hne]. apply map_disjoint_insert_l in Hnf as [Hpf Hnf].
  apply map_disjoint_union_l in Hne as [Hme Hce]. apply map_disjoint_union_l in Hnf as [Hmf Hcf].
  assert (HcF : hc ##ₘ hm ∪ hf) by (by apply map_disjoint_union_r_2).
  assert (HeF : he ##ₘ hm ∪ hf) by (by apply map_disjoint_union_r_2).
  assert (HpF : (hm ∪ hf) !! p = None) by (by apply lookup_union_None).
  rewrite <- insert_union_l, (map_union_comm hm hc), <- map_union_assoc, insert_union_r by done.
  destruct (add_links tag len np els r p par nx first hc e x epar enx he (hm ∪ hf) fuel)
    as (he2 & first' & hc' & -> & He2 & Hde & Hdc & Hchain); [done..|]. rewrite Done_bind.
  set (cp := ONode (Cell tag len np (HStructure first') par nx r)).
  destruct (free_shared e 2 fuel' x (Some p) None he2 (hc' ∪ <[p := cp]> (hm ∪ hf)) He2)
    as (cx & Hcx & -> & He3); [lia|done|]. rewrite Done_bind.
  set (he3 := <[x := ONode (set_c_ref (2 - 1) cx)]> he2) in *.
  assert (Hd3 : ∀ m, he ##ₘ m ↔ he3 ##ₘ m).
  { intros m. rewrite Hde. by eapply disjoint_root_iff. }
  assert (Hp' : ∀ h : heap, h ##ₘ {[p := cp]} ↔ h !! p = None) by (intros; by rewrite map_disjoint_singleton_r).
  assert (Hce3 : hc ##ₘ he3) by (by symmetry; apply Hd3).
  assert (Hpc3 : hc' !! p = None ∧ he3 !! p = None) by (by rewrite <- !Hp', <- Hdc, <- Hd3, !Hp').
  assert (Hm3 : hm ##ₘ hc' ∪ he3).
  { apply map_disjoint_union_r_2; [symmetry; by apply Hdc|symmetry; by apply Hd3]. }
  rewrite (structure_assemble p cp hc' he3 (hm ∪ hf)) by (by apply Hdc || tauto).
  exists (<[p := cp]> (hm ∪ (hc' ∪ he3))). split; [|split].
  - by rewrite (map_union_comm hm (hc' ∪ he3)), <- !insert_union_l, (map_union_assoc (hc' ∪ he3)).
  - exists np, hm, (HStructure first'), (hc' ∪ he3).
    split_and!; [done|by exists first'; split; [|apply Hchain]|done| |done].
    rewrite !lookup_union_None. tauto.
  - apply map_disjoint_insert_l_2; [done|].
    repeat apply map_disjoint_union_l_2; [done|by apply Hdc|by apply Hd3].
Qed.

(** ** Looking up *)

(** freeing what a look-up has returned gives the old heap back *)
Lemma upref_free p c h fuel : h !! p = Some (ONode c) → c_ref_count c = 1 → (0 < fuel)%nat →
  ∃ h', heap_node_upref (Some p) h = Done h' ∧ heap_node_free fuel (Some p) h' = Done h.
Proof.
  intros Hc Hr Hf. exists (<[p := ONode (set_c_ref 2 c)]> h). split.
  - cbn [heap_node_upref]. unfold store. by rewrite (load_at _ _ _ Hc), Done_bind, Hr.
  - destruct fuel as [|fuel]; [lia|]. cbn [heap_node_free].
    rewrite (load_at _ _ _ (lookup_insert_eq _ _ _)), Done_bind. cbn [c_ref_count set_c_ref Z.ltb Z.compare]. change (u64 (2 - 1)) with 1.
    cbn [Z.ltb Z.compare]. rewrite insert_insert_eq. f_equal. apply insert_id. rewrite Hc. f_equal.
    by destruct c; simpl in *; subst.
Qed.

(** The look-up finds the element that [find_by_tag] finds, with a reference for
    the caller. *)
Lemma heap_find_by_tag_ok els p first hc h fuel tag index :
  chain_heap node_heap els p first hc → hc ⊆ h → (length els <= fuel)%nat →
  match find_by_tag tag index els with
  | None => heap_find_by_tag fuel tag index first h = Done (None, h)
  | Some e =>
      ∃ x nx he h', heap_find_by_tag fuel tag index first h = Done (Some x, h') ∧
        node_heap e 1 x (Some p) nx he ∧ he ⊆ hc ∧
        ∀ fuel', (0 < fuel')%nat → heap_node_free fuel' (Some x) h' = Done h
  end.
Proof.
  revert first hc fuel index. induction els as [|e els IH]; intros first hc fuel index.
  { intros [-> ->] _ _. by destruct fuel. }
  intros (q & next & h1 & h2 & -> & Hq & Hrest & H12 & ->) Hh Hf.
  destruct fuel as [|fuel]; [simpl in Hf; lia|].
  destruct (node_heap_root _ _ _ _ _ _ Hq) as (c & Hc & Hnx & _ & Hr & Htag & _).
  assert (Hcq : h !! q = Some (ONode c)) by (eapply lookup_weaken; [|exact Hh]; by apply lookup_union_Some_l).
  assert (Hh2 : h2 ⊆ h) by (etrans; [|exact Hh]; by apply map_union_subseteq_r).
  assert (Hrec : ∀ i, match find_by_tag tag i els with
     | None => heap_find_by_tag fuel tag i (c_next c) h = Done (None, h)
     | Some e => ∃ x nx he h', heap_find_by_tag fuel tag i (c_next c) h = Done (Some x, h') ∧
        node_heap e 1 x (Some p) nx he ∧ he ⊆ h1 ∪ h2 ∧
        ∀ fuel', (0 < fuel')%nat → heap_node_free fuel' (Some x) h' = Done h
     end).
  { intros i. specialize (IH next h2 fuel i Hrest Hh2 ltac:(simpl in Hf; lia)). rewrite Hnx.
    destruct (find_by_tag tag i els); [|done].
    destruct IH as (x & nx & he & h' & ? & ? & ? & ?). exists x, nx, he, h'.
    split_and!; [done|done| |done]. etrans; [done|]. by apply map_union_subseteq_r. }
  cbn [find_by_tag heap_find_by_tag]. rewrite (load_at _ _ _ Hcq), Done_bind, Htag.
  destruct (node_tag e =? tag); [|apply Hrec]. destruct (index =? 0); [|apply Hrec].
  destruct (upref_free q c h 1 Hcq Hr) as (h' & Hup & _); [lia|].
  exists q, next, h1, h'. rewrite Hup, Done_bind. split_and!; [done|done|by apply map_union_subseteq_l|].
  intros fuel' Hf'. destruct (upref_free q c h fuel' Hcq Hr Hf') as (h'' & Hup' & Hfree).
  rewrite Hup in Hup'. by injection Hup' as <-.
Qed.
(** ** New nodes *)

Lemma fresh_dom h : h !! (fresh (dom h) : loc) = None.
Proof. apply not_elem_of_dom, is_fresh. Qed.

(** the memory of a new node: the node, and its name *)
Lemma heap_node_new_ok tag name type h :
  ∃ p np hm, let hn := <[p := ONode (Cell tag 0 np (zero_hvalue type) None None 1)]> hm in
    heap_node_new tag name type h = (p, hn ∪ h) ∧ hn ##ₘ h ∧
    own (string_object <$> (cstr <$> name)) np hm ∧ hm !! p = None.
Proof.
  pose proof (fresh_dom h) as Hp. unfold heap_node_new, alloc.
  generalize dependent (fresh (dom h) : loc). intros p Hp. destruct name as [s|].
  - pose proof (fresh_dom (<[p := ONode (Cell tag 0 None (zero_hvalue type) None None 1)]> h)) as Hq.
    generalize dependent (fresh (dom (<[p := ONode (Cell tag 0 None (zero_hvalue type) None None 1)]> h)) : loc).
    intros q [Hq Hpq]%lookup_insert_None.
    exists p, (Some q), {[q := string_object (cstr s)]}. split_and!.
    + f_equal. rewrite <- insert_union_l, <- insert_union_singleton_l.
      by rewrite (insert_insert_ne _ q p), insert_insert_eq by done.
    + apply map_disjoint_insert_l_2; [done|]. by apply map_disjoint_singleton_l_2.
    + done.
    + by apply lookup_singleton_ne.
  - exists p, None, ∅. split_and!; [|by apply map_disjoint_insert_l_2; [|apply map_disjoint_empty_l]|done|done].
    by rewrite <- insert_union_l, map_empty_union.
Qed.

(** [dup] allocates a copy of [o] *)
Definition allocates (dup : heap → loc * heap) (o : hobject) : Prop :=
  ∀ h, ∃ q, dup h = (q, <[q := o]> h) ∧ h !! q = None.

Lemma alloc_allocates o : option_Forall2 allocates (alloc <$> o) o.
Proof. destruct o as [o|]; constructor. intros h. exists (fresh (dom h)). split; [done|apply fresh_dom]. Qed.

Lemma BN_dup_allocates v : option_Forall2 allocates (BN_dup <$> v) (OBignum <$> v).
Proof. destruct v as [v|]; constructor. intros h. apply BN_dup_new. Qed.

(** the value that is allocated for a node *)
Lemma heap_set_data_ok tag np hm p dup o len (value : option loc → hvalue) h :
  let c len (q : option loc) := ONode (Cell tag len np (value q) None None 1) in
  option_Forall2 allocates dup o →
  hm !! p = None → <[p := c 0 None]> hm ##ₘ h →
  ∃ (q : option loc) hv, let hn := <[p := c (if o then len else 0) q]> (hm ∪ hv) in
    heap_set_data p dup len value (<[p := c 0 None]> hm ∪ h) = Done (p, hn ∪ h) ∧
    hn ##ₘ h ∧ own o q hv ∧ hm ##ₘ hv ∧ (hm ∪ hv) !! p = None.
Proof.
  intros c Hdup Hp Hd. destruct Hdup as [dup o Hdup|].
  - unfold heap_set_data. destruct (Hdup (<[p := c 0 None]> hm ∪ h)) as (q & -> & Hq).
    apply lookup_union_None in Hq as [[Hq Hpq]%lookup_insert_None Hqh].
    exists (Some q), {[q := o]}. split_and!; [| |done|by apply map_disjoint_singleton_r_2|].
    + rewrite insert_union_l, (store_l p _ (Cell tag 0 np (value None) None None 1))
        by (rewrite lookup_insert_ne by done; apply lookup_insert_eq).
      rewrite Done_bind, (insert_insert_ne hm q p), insert_insert_eq by done.
      by rewrite (insert_union_singleton_l hm), (map_union_comm {[q := o]} hm)
        by (by apply map_disjoint_singleton_l_2).
    + apply map_disjoint_insert_l in Hd as [Hph Hd]. apply map_disjoint_insert_l_2; [done|].
      apply map_disjoint_union_l_2; [done|by apply map_disjoint_singleton_l_2].
    + apply lookup_union_None. split; [done|by apply lookup_singleton_ne].
  - exists None, ∅. rewrite map_union_empty. split_and!; [done|done|done|apply map_disjoint_empty_r|done].
Qed.

(** Each function allocates exactly the memory of the node it makes. *)
Definition makes (new : heap → outcome (loc * heap)) (n : option kmip_node) : Prop :=
  ∀ h, ∃ n' p hn, n = Some n' ∧ new h = Done (p, hn ∪ h) ∧ hn ##ₘ h ∧ node_heap n' 1 p None None hn.

Lemma heap_new_data tag name type dup o len (value : option loc → hvalue) h :
  zero_hvalue type = value None → option_Forall2 allocates dup o →
  ∃ p np (q : option loc) hm hv,
    let hn := <[p := ONode (Cell tag (if o then len else 0) np (value q) None None 1)]> (hm ∪ hv) in
    (let '(p, h) := heap_node_new tag name type h in heap_set_data p dup len value h) = Done (p, hn ∪ h) ∧
    hn ##ₘ h ∧ own (string_object <$> (cstr <$> name)) np hm ∧ own o q hv ∧ hm ##ₘ hv ∧
    (hm ∪ hv) !! p = None.
Proof.
  intros Hz Hdup. destruct (heap_node_new_ok tag name type h) as (p & np & hm & -> & Hd & Hm & Hp).
  rewrite Hz in *.
  destruct (heap_set_data_ok tag np hm p dup o len value h Hdup Hp Hd) as (q & hv & Hrun & ? & ? & ? & ?).
  by exists p, np, q, hm, hv.
Qed.

Lemma node_new_makes tag name type :
  makes (λ h, Done (heap_node_new tag name type h)) (Some (kmip_node_new tag name type)).
Proof.
  intros h. destruct (heap_node_new_ok tag name type h) as (p & np & hm & -> & Hd & Hm & Hp).
  eexists _, p, _. split_and!; [done|done|done|].
  exists np, hm, (zero_hvalue type), ∅. rewrite map_union_empty.
  split_and!; [done| |apply map_disjoint_empty_r|done|done].
  destruct type; first [by split | by exists None].
Qed.

Lemma node_new_bigint_makes `{BnOps} tag name value :
  makes (heap_node_new_bigint tag name value) (kmip_node_new_bigint tag name value).
Proof.
  intros h. destruct (heap_new_data tag name KMIP_TYPE_BIG_INTEGER _ (OBignum <$> value)
    (kmip_encode_bignum_length value) HBigInteger h eq_refl (BN_dup_allocates value))
    as (p & np & q & hm & hv & Hrun & Hd & Hm & Hv & Hmv & Hp).
  eexists _, p, _. split; [done|]. split; [exact Hrun|]. split; [done|].
  destruct value; exists np, hm, (HBigInteger q), hv; split_and!; try done; by exists q.
Qed.

Lemma node_new_text_string_makes tag name value :
  makes (heap_node_new_text_string tag name value) (kmip_node_new_text_string tag name value).
Proof.
  intros h. destruct (heap_new_data tag name KMIP_TYPE_TEXT_STRING _ (string_object <$> (cstr <$> value))
    (u32 (Z.of_nat (strlen (default [] value)))) HText h eq_refl (alloc_allocates _))
    as (p & np & q & hm & hv & Hrun & Hd & Hm & Hv & Hmv & Hp).
  eexists _, p, _. split; [done|]. split; [exact Hrun|]. split; [done|].
  destruct value; exists np, hm, (HText q), hv; split_and!; try done; by exists q.
Qed.

Lemma node_new_byte_string_makes tag name value length :
  makes (heap_node_new_byte_string tag name value length) (kmip_node_new_byte_string tag name value length).
Proof.
  intros h. unfold heap_node_new_byte_string. set (o := s ← value; _).
  destruct (heap_new_data tag name KMIP_TYPE_BYTE_STRING _ o length HBytes h eq_refl (alloc_allocates o))
    as (p & np & q & hm & hv & Hrun & Hd & Hm & Hv & Hmv & Hp).
  eexists _, p, _. split; [done|]. split; [exact Hrun|]. split; [done|]. unfold o in *.
  destruct value as [s|]; simpl in *; [destruct (0 <? length)|];
    exists np, hm, (HBytes q), hv; split_and!; try done; by exists q.
Qed.

(** What a function has allocated, [kmip_node_free] gives back. *)
Lemma makes_freed new m h : makes new m →
  ∃ p h', new h = Done (p, h') ∧ heap_node_free (S (from_option node_size 0%nat m)) (Some p) h' = Done h.
Proof.
  intros Hm. destruct (Hm h) as (n' & p & hn & -> & Hrun & Hd & Hn). exists p, (hn ∪ h).
  split; [done|]. eapply free_ok; [|done..]. simpl. lia.
Qed.
End Heap.

(** an implementation of the parameters *)
#[export] Instance bn_heap : BnHeap := {|
  BN_dup v := alloc (OBignum v);
  BN_free ptr h :=
    match ptr with
    | None => Done h
    | Some q => match h !! q with Some (OBignum _) => Done (delete q h) | _ => Fault end
    end
|}.

#[export] Instance bn_heap_laws : BnHeapLaws.
Proof.
  split.
  - intros v h. exists (fresh (dom h)). split; [done|apply not_elem_of_dom, is_fresh].
  - done.
  - intros q v h Hq. cbn. by rewrite Hq.
Qed.

(** ** Sharing an element

    An element that is added to a second structure keeps its place in the chain of
    the first one, but its [next] field is cleared: the elements after it are lost
    to the first structure. *)
Definition sharing_example : outcome (option loc * option loc) :=
  let '(a, h) := heap_node_new 1 None KMIP_TYPE_STRUCTURE ∅ in
  let '(b, h) := heap_node_new 2 None KMIP_TYPE_STRUCTURE h in
  let '(x, h) := heap_node_new 10 None KMIP_TYPE_INTEGER h in
  let '(y, h) := heap_node_new 11 None KMIP_TYPE_INTEGER h in
  '(_, h) ← heap_add_structure_elements 10 (Some a) [Some x; Some y] h;
  '(before, _) ← heap_get_structure_element_by_tag 10 (Some a) 11 0 h;
  '(_, h) ← heap_add_structure_elements 10 (Some b) [Some x] h;
  '(after, _) ← heap_get_structure_element_by_tag 10 (Some a) 11 0 h;
  Done (before, after).

Lemma shared_element_cuts_chain : ∃ y, sharing_example = Done (Some y, None).
Proof. eexists. vm_compute. reflexivity. Qed.
