(* ===== verification/KmipProps.v ===== *)
(** The properties of the KMIP client library: the TTLV encoding, big integers,
    nodes in memory, attributes and messages. *)
From stdpp Require Import fin_maps gmap.
From S2P Require Import Prelude Codec Kmip KmipTtlv KmipTtlvProofs.
From S2P Require Import KmipAttr KmipAttributes KmipMessage KmipKey.
From S2P Require Import KmipConn KmipHeap.

Module KmipProps.

Notation bs := bytes_of_string.

(** ** A sample message *)

(** a node without name *)
Definition leaf (tag : Z) (v : kmip_value kmip_node) : kmip_node := KmipNode tag 0 None v.
Definition sample_id : kmip_node := KmipNode KMIP_TAG_UNIQUE_BATCH_ITEM_ID 3 None (BytesValue (Some [1; 0; 255])).
Definition sample_item : kmip_node :=
  leaf KMIP_TAG_BATCH_ITEM (StructureValue
    [leaf KMIP_TAG_OPERATION (EnumerationValue 24); sample_id;
     leaf KMIP_TAG_RESULT_STATUS (EnumerationValue 0);
     leaf KMIP_TAG_RESULT_MESSAGE (TextValue (Some (bs "done")));
     leaf KMIP_TAG_RESPONSE_PAYLOAD (StructureValue [leaf KMIP_TAG_MODULUS (BigIntegerValue (Some (-300)))])]).
Definition sample_header : kmip_node :=
  leaf KMIP_TAG_RESPONSE_HEADER (StructureValue
    [leaf KMIP_TAG_TIME_STAMP (DateTimeValue (-1)); leaf KMIP_TAG_BATCH_COUNT (IntegerValue 2);
     leaf KMIP_TAG_BATCH_ORDER_OPTION (BooleanValue true)]).
Definition sample_response : kmip_node :=
  leaf KMIP_TAG_RESPONSE_MESSAGE (StructureValue [sample_header; sample_item; sample_item]).

(** ** The TTLV encoding *)

(** C13: the encoder writes exactly the reference encoding of the node, every frame its
    header, its value and the padding to 8 bytes, returns the number of bytes, and leaves
    the node with the lengths of its values. *)
Theorem ttlv_encode_reference `{BnLaws} {B : Type} `{BioWriteLaws B} (n : kmip_node) (b : B) :
  encodable n = true → Z.of_nat (length (ttlv n)) <= INT_MAX →
  ∃ b', kmip_encode_ttlv n b = Done (0, Z.of_nat (length (ttlv n)), relength n, b') ∧
    bio_out b' = bio_out b ++ ttlv n.
Proof. apply encode_ref. Qed.
Lemma ttlv_encode_reference_witness :
  ∃ b', kmip_encode_ttlv sample_response [9] = Done (0, 256, relength sample_response, b') ∧
    b' = [9] ++ ttlv sample_response.
Proof.
  destruct (ttlv_encode_reference sample_response [9]) as (b' & He & Ho); [by vm_compute..|].
  exists b'. by split.
Defined.

(** C10: a message that the library encodes is decoded by the library to the same message,
    whatever follows it: every value, in every structure, at every depth within the limit of
    the decoder, big integers as [wire_bignum] says; the encoder returns the number of bytes
    and the decoder takes exactly those. The values are in the ranges of their types, and
    the encoding has at most INT_MAX bytes. *)
Theorem ttlv_roundtrip `{BnLaws} {B : Type} `{BioWriteLaws B} {R : Type} `{BioReadLaws R}
    (n : kmip_node) (k : nat) (b : B) (r : R) (rest : list Z) :
  transportable n = true → Z.of_nat (length (ttlv n)) <= INT_MAX → (node_depth n <= k)%nat →
  ∃ b' bytes, kmip_encode_ttlv n b = Done (0, Z.of_nat (length bytes), relength n, b') ∧
    bio_out b' = bio_out b ++ bytes ∧
    (bio_in r = bytes ++ rest →
     ∃ r', kmip_decode_ttlv k None r = Done (inr (received n), None, r') ∧ bio_in r' = rest).
Proof.
  intros Ht Hmax Hk. destruct (encode_ref n b (transportable_encodable n Ht) Hmax) as (b' & Hb & Ho).
  exists b', (ttlv n). split_and!; [done|done|]. intros Hr.
  destruct (decode_ref n k Ht Hmax Hk None r rest) as (r' & Hd & Hi); [done|done|]. by exists r'.
Qed.
Lemma ttlv_roundtrip_witness :
  kmip_decode_ttlv 4 None (ttlv sample_response ++ [7]) = Done (inr (received sample_response), None, [7]).
Proof.
  destruct (ttlv_roundtrip sample_response 4 ([] : list Z) (ttlv sample_response ++ [7]) [7])
    as (b' & bytes & He & Ho & Hd); [by vm_compute..| |].
  { vm_compute. lia. }
  simpl in Ho. subst bytes.
  assert (b' = ttlv sample_response) as -> by (vm_compute in He; vm_compute; congruence).
  destruct (Hd eq_refl) as (r' & -> & Hr). simpl in Hr. by subst.
Defined.

(** C12: the decoder returns for every input, whatever the BIO delivers and however it splits
    it, and never reads out of bounds: with one of its four errors, or with a node all of
    whose fields are in the range of their types, whose lengths add up, which is nested
    within the limit and for which the size that was left has been reduced by its frame. *)
Theorem ttlv_decode_total `{BnLaws} {B : Type} `{BioOps B} (k : nat) (size : option Z) (b : B) :
  match size with Some s => 0 <= s < 18446744073709551616 | None => True end →
  ∃ r size' b', kmip_decode_ttlv k size b = Done (r, size', b') ∧
    match r with
    | inl rc => rc ∈ [- E2BIG; - EMSGSIZE; - EIO; - EBADMSG]
    | inr n =>
        typed n = true ∧ (node_depth n <= k)%nat ∧
        size' = (λ s, s - frame_size n) <$> size ∧ size_below size (frame_size n) = false
    end.
Proof.
  intros Hs. apply decode_all. intros s ->. exact Hs.
Qed.
Lemma ttlv_decode_total_witness :
  ∃ r size' b', kmip_decode_ttlv 2 (Some 24) ([66; 0; 120; 1; 0; 0; 0; 8] : list Z) = Done (r, size', b') ∧
    r = inl (- EIO).
Proof.
  destruct (ttlv_decode_total 2 (Some 24) ([66; 0; 120; 1; 0; 0; 0; 8] : list Z)) as (r & size' & b' & Hd & _);
    [lia|].
  exists r, size', b'. split; [done|]. vm_compute in Hd. vm_compute. congruence.
Defined.

(** C28: a message that is nested deeper than the limit is refused with -E2BIG, and one that
    is cut off anywhere, however deep in its structures, with -EIO: neither is ever taken
    for a message. *)
Theorem ttlv_refuses `{BnLaws} {B : Type} `{BioReadLaws B} (n : kmip_node) (k : nat) (b : B) :
  transportable n = true → Z.of_nat (length (ttlv n)) <= INT_MAX →
  ((k < node_depth n)%nat → (∃ rest, bio_in b = ttlv n ++ rest) →
   ∃ s b', kmip_decode_ttlv k None b = Done (inl (- E2BIG), s, b')) ∧
  ((node_depth n <= k)%nat → (∃ cut, cut ≠ [] ∧ ttlv n = bio_in b ++ cut) →
   ∃ s b', kmip_decode_ttlv k None b = Done (inl (- EIO), s, b')).
Proof.
  intros Ht Hmax. split.
  - intros Hk [rest Hb]. by apply (too_deep n k rest).
  - intros Hk (cut & Hc & Hb). by apply (truncated n k (bio_in b) cut).
Qed.
Lemma ttlv_refuses_witness :
  (∃ s b', kmip_decode_ttlv 3 None (ttlv sample_response) = Done (inl (- E2BIG), s, b')) ∧
  (∃ s b', kmip_decode_ttlv 4 None (take 70 (ttlv sample_response)) = Done (inl (- EIO), s, b')).
Proof.
  split.
  - apply (ttlv_refuses sample_response 3 (ttlv sample_response)); [by vm_compute..|vm_compute; lia|].
    exists []. by rewrite app_nil_r.
  - apply (ttlv_refuses sample_response 4 (take 70 (ttlv sample_response))); [by vm_compute..|vm_compute; lia|].
    exists (drop 70 (ttlv sample_response)). split; [by vm_compute|]. symmetry. apply take_drop.
Defined.

(** C27: a big integer is sent in a number of bytes that is a multiple of 8, and is read back
    as itself if it is not positive or leaves the top bit free; a positive one that does not
    is read back as the negative number 256^L below it. *)
Theorem bignum_roundtrip `{BnLaws} (v : Z) :
  BN_num_bytes v < 268435455 →
  let L := bignum_block_length (kmip_encode_bignum_length (Some v)) in
  0 <= L <= INT_MAX ∧ L mod 8 = 0 ∧
  ∃ data, kmip_encode_bignum (Some v) L = inr data ∧ length data = Z.to_nat L ∧
    kmip_decode_bignum (Some (data ++ [0])) L
    = Done (inr (if (v <=? 0) || (v <? 128 * 256 ^ (L - 1)) then v else v - 256 ^ L)).
Proof.
  intros Hn L. destruct (encode_bignum_ref v Hn) as [HL He]. split; [done|]. split.
  - destruct (encode_bignum_length_spec v Hn) as [Hl _].
    destruct (BN_num_bytes_law v) as (Hn0 & _).
    destruct (bignum_block_length_ge (kmip_encode_bignum_length (Some v))) as [_ ?]; [lia|done].
  - eexists. split; [exact He|]. split; [apply be_enc_length|].
    change ((v <=? 0) || _) with (bignum_fits v). destruct (bignum_fits v) eqn:Ef.
    + by apply decode_bignum_fits.
    + by apply decode_bignum_wraps.
Qed.
Lemma bignum_roundtrip_witness :
  ∃ data, kmip_encode_bignum (Some (-300)) 8 = inr data ∧
    kmip_decode_bignum (Some (data ++ [0])) 8 = Done (inr (-300)).
Proof.
  destruct (bignum_roundtrip (-300)) as (_ & _ & data & He & _ & Hd); [by vm_compute|].
  by exists data.
Defined.

(** ** Nodes in memory *)

(** C22: freeing a node whose only reference is the caller's frees exactly the memory of its
    tree, once each: every node at every depth, with its name and the string, byte string or
    number of its value; all other memory is untouched. A node with more references only loses
    one. In the tree every inner element has one reference, the one its structure holds. *)
Theorem node_free_exact `{BnHeapLaws} (n : kmip_node) (r : Z) (p : loc) (parent next : option loc)
    (h rest : heap) (fuel : nat) :
  node_heap n r p parent next h → h ##ₘ rest → (node_size n <= fuel)%nat →
  (r = 1 → heap_node_free fuel (Some p) (h ∪ rest) = Done rest) ∧
  (1 < r < 18446744073709551616 →
   ∃ h', heap_node_free fuel (Some p) (h ∪ rest) = Done (h' ∪ rest) ∧
     node_heap n (r - 1) p parent next h').
Proof.
  intros Hn Hd Hf. split.
  - intros ->. by apply (free_ok n fuel Hf p parent next).
  - intros Hr. destruct (free_shared n r fuel p parent next h rest Hn Hr) as (c & _ & Hfree & Hn').
    + pose proof (node_size_pos n). lia.
    + by eexists.
Qed.

(** the memory of a structure of an integer and a string *)
Definition pair_node : kmip_node :=
  leaf 1 (StructureValue [leaf 10 (IntegerValue 4); leaf 11 (TextValue (Some [75; 49]))]).
Definition pair_heap (r : Z) : heap :=
  <[1%positive := ONode (Cell 1 0 None (HStructure (Some 2%positive)) None None r)]>
  (<[2%positive := ONode (Cell 10 0 None (HData (IntegerValue 4)) (Some 1%positive) (Some 3%positive) 1)]>
   (<[3%positive := ONode (Cell 11 0 None (HText (Some 4%positive)) (Some 1%positive) None 1)]>
    {[4%positive := OBuffer [75; 49; 0]]})).
Definition other_cell (tag : Z) : hobject :=
  ONode (Cell tag 0 None (HData (BooleanValue true)) None None 1).

Lemma boolean_heap tag b r p par nx :
  node_heap (leaf tag (BooleanValue b)) r p par nx
    {[p := ONode (Cell tag 0 None (HData (BooleanValue b)) par nx r)]}.
Proof.
  exists None, ∅, (HData (BooleanValue b)), ∅. rewrite map_union_empty.
  split_and!; [done|done|done|apply map_disjoint_empty_r|done|done].
Qed.

Lemma pair_heap_ok r : node_heap pair_node r 1 None None (pair_heap r).
Proof.
  exists None, ∅, (HStructure (Some 2%positive)).
  eexists. split; [done|]. split; [exists (Some 2%positive); split; [done|]|].
  { exists 2%positive, (Some 3%positive),
      {[2%positive := ONode (Cell 10 0 None (HData (IntegerValue 4)) (Some 1%positive) (Some 3%positive) 1)]}.
    eexists. split; [done|]. split; [|split; [|split; [|done]]].
    - exists None, ∅, (HData (IntegerValue 4)), ∅. rewrite map_union_empty.
      split_and!; [done|done|done|apply map_disjoint_empty_r|done|done].
    - apply (chain_singleton (leaf 11 (TextValue (Some [75; 49]))) 1 3).
      exists None, ∅, (HText (Some 4%positive)), {[4%positive := OBuffer [75; 49; 0]]}.
      split_and!; [done|by exists (Some 4%positive)|apply map_disjoint_empty_l|done|done].
    - apply map_disjoint_singleton_l. by vm_compute. }
  split_and!; [apply map_disjoint_empty_l|by vm_compute|].
  rewrite !map_empty_union. by rewrite <- insert_union_singleton_l.
Qed.

Lemma pair_heap_disjoint r p c : (4 < p)%positive → pair_heap r ##ₘ {[p := c]}.
Proof.
  intros Hp. apply map_disjoint_singleton_r. unfold pair_heap.
  by rewrite !lookup_insert_ne, lookup_singleton_ne by lia.
Qed.

Lemma node_free_exact_witness :
  heap_node_free 3 (Some 1%positive) (pair_heap 1 ∪ {[9%positive := other_cell 2]})
  = Done {[9%positive := other_cell 2]}.
Proof.
  apply (node_free_exact pair_node 1 1 None None (pair_heap 1) {[9%positive := other_cell 2]} 3);
    [apply pair_heap_ok|by apply pair_heap_disjoint|vm_compute; lia|done].
Defined.

(** C23: adding an element to a structure and releasing one's own reference to it, as the
    library's callers do, makes the memory of the structure that the function on node values
    returns, with the new element last, held by the structure alone, and disturbs nothing
    else. *)
Theorem node_append_refines `{BnHeap} (s : kmip_node) (els : list kmip_node) (r : Z) (p : loc)
    (parent next : option loc) (hs : heap) (e : kmip_node) (x : loc) (epar enx : option loc)
    (he rest : heap) (fuel : nat) :
  node_value s = StructureValue els →
  node_heap s r p parent next hs → node_heap e 1 x epar enx he →
  hs ##ₘ he → hs ##ₘ rest → he ##ₘ rest → (length els < fuel)%nat →
  ∃ rc s' hs', kmip_node_add_structure_element (Some s) (Some e) = (rc, Some s') ∧
    ('(rc, h) ← heap_add_structure_elements fuel (Some p) [Some x] (he ∪ (hs ∪ rest));
     h ← heap_node_free fuel (Some x) h;
     Done (rc, h)) = Done (rc, hs' ∪ rest) ∧
    node_heap s' r p parent next hs' ∧ hs' ##ₘ rest.
Proof.
  destruct s as [tag len name v]. cbn [node_value]. intros -> Hs He Hse Hsr Her Hf.
  destruct (add_then_free tag len name els r p parent next hs e x epar enx he rest fuel fuel)
    as (hs' & Hrun & Hs' & Hd); [done..|lia|lia|].
  by exists 0, (KmipNode tag len name (StructureValue (els ++ [e]))), hs'.
Qed.
Lemma node_append_refines_witness :
  ∃ rc s' hs', kmip_node_add_structure_element (Some pair_node) (Some (leaf 12 (BooleanValue true))) = (rc, Some s') ∧
    node_heap s' 1 1 None None hs'.
Proof.
  destruct (node_append_refines pair_node [leaf 10 (IntegerValue 4); leaf 11 (TextValue (Some [75; 49]))] 1 1
              None None (pair_heap 1) (leaf 12 (BooleanValue true)) 7
              None None {[7%positive := other_cell 12]} {[9%positive := other_cell 2]} 5)
    as (rc & s' & hs' & H1 & _ & H2 & _);
    [done|apply pair_heap_ok|apply boolean_heap|by apply pair_heap_disjoint..|by apply map_disjoint_singleton_l|simpl; lia|].
  by exists rc, s', hs'.
Defined.

(** A look-up by tag finds in memory the element that the function on node values finds,
    with a reference for the caller; when the caller releases it the memory is as before. *)
Theorem node_lookup_refines `{BnHeap} (s : kmip_node) (r : Z) (p : loc) (parent next : option loc)
    (h rest : heap) (tag index : Z) (fuel : nat) :
  node_heap s r p parent next h → (node_size s <= fuel)%nat →
  match kmip_node_get_structure_element_by_tag (Some s) tag index with
  | None => heap_get_structure_element_by_tag fuel (Some p) tag index (h ∪ rest) = Done (None, h ∪ rest)
  | Some e =>
      ∃ x nx he h', heap_get_structure_element_by_tag fuel (Some p) tag index (h ∪ rest)
        = Done (Some x, h') ∧
        node_heap e 1 x (Some p) nx he ∧ he ⊆ h ∧
        heap_node_free fuel (Some x) h' = Done (h ∪ rest)
  end.
Proof.
  destruct s as [stag len name v]. intros (np & hm & vp & hc & Hm & Hv & Hmc & Hp & ->) Hf.
  unfold heap_get_structure_element_by_tag. rewrite (load_l _ _ _ _ (lookup_insert_eq _ _ _)), Done_bind.
  cbn [c_value kmip_node_get_structure_element_by_tag node_value].
  destruct v as [els|?|?|?|?|?|?|?|?|?|?]; first [destruct Hv as [-> ->]|destruct Hv as (q & -> & Hc)];
    [|done..].
  set (c := ONode _).
  assert (Hsub : hc ⊆ <[p := c]> (hm ∪ hc)).
  { etrans; [by apply (map_union_subseteq_r hm hc)|by apply insert_subseteq]. }
  cbn [node_size] in Hf. pose proof (nodes_size_length els) as Hlen. unfold nodes_size in Hlen.
  pose proof (heap_find_by_tag_ok els p q hc (<[p := c]> (hm ∪ hc) ∪ rest) fuel tag index Hc) as Hfind.
  destruct (find_by_tag tag index els) as [e|];
    [|apply Hfind; [etrans; [exact Hsub|apply map_union_subseteq_l]|lia]].
  destruct Hfind as (x & nx & he & h' & Hrun & He & Hhe & Hfree);
    [etrans; [exact Hsub|apply map_union_subseteq_l]|lia|].
  exists x, nx, he, h'. split_and!; [done|done|by etrans|apply Hfree; lia].
Qed.
Lemma node_lookup_refines_witness :
  ∃ x nx he h', heap_get_structure_element_by_tag 3 (Some 1%positive) 11 0 (pair_heap 1 ∪ ∅) = Done (Some x, h') ∧
    node_heap (leaf 11 (TextValue (Some [75; 49]))) 1 x (Some 1%positive) nx he ∧ he ⊆ pair_heap 1 ∧
    heap_node_free 3 (Some x) h' = Done (pair_heap 1 ∪ ∅).
Proof.
  apply (node_lookup_refines pair_node 1 1 None None (pair_heap 1) ∅ 11 0 3); [apply pair_heap_ok|vm_compute; lia].
Defined.

(** ** Attributes *)

(** The attributes that have a form in v1.x which can be translated back: those of the
    library's table of v1.x names, and vendor attributes with no dash in the vendor id, nor in
    the name if the vendor id is "x" or "y" ([custom_names_shift] shows what happens to
    others). *)
Definition sendable (a : kmip_node) : Prop :=
  cloneable a = true ∧
  ((node_tag a ≠ KMIP_TAG_ATTRIBUTE ∧ ∃ name, kmip_v1_attr_name_by_tag (node_tag a) = Some name) ∨
   ∃ vendor name value, custom_ok vendor name ∧ node_tag value = KMIP_TAG_ATTRIBUTE_VALUE ∧
     kmip_new_vendor_attribute (Some vendor) (Some name) (Some value) = Some a).

Lemma sendable_translates a : sendable a → translates a (copy a).
Proof.
  intros [Hc [[Htag [name Hname]]|(vendor & name & value & Hok & Ht & Hnew)]].
  - by apply (v2_v1_v2 a name).
  - assert (Hcv : cloneable value = true).
    { injection Hnew as <-. change (true && (true && (true && (cloneable value && true))) = true) in Hc.
      by rewrite andb_true_r in Hc. }
    destruct (vendor_translates vendor name value Hok Ht Hcv) as (b & b' & Hb & Hb' & Htr).
    rewrite Hnew in Hb. injection Hb as <-. destruct Hok as (Hv0 & Hn0 & _).
    replace (copy a) with b'; [done|]. injection Hnew as <-. injection Hb' as <-.
    unfold set_length, set_value, strlen.
    cbn [copy map copy_length copy_value fmap option_fmap option_map kmip_node_new node_tag node_length
         node_name node_value]. unfold strlen. by rewrite !cstr_idem.
Qed.

(** C24: attributes that are put into a request are read back, each at its index and with
    their number, whichever protocol version carries them: in v2.x any attributes, as they
    are; in v1.x attributes that have a name there, or vendor attributes whose joined name is
    taken apart in the same place, as the copy that the translation to named attributes and
    back makes. Past the end the answer is -ENOENT. *)
Theorem attributes_roundtrip (version : kmip_version) (tag : Z) (attrs : list kmip_node) :
  is_attributes_tag tag = true → (major version = 1 → Forall sendable attrs) →
  ∃ n, kmip_new_attributes version tag (map Some attrs) = Some n ∧
    ∀ i, 0 <= i →
      kmip_get_attributes (Some n) (Some i) =
      match attrs !! Z.to_nat i with
      | Some a => inr (u32 (Z.of_nat (length attrs)),
                       Some (if major version =? 1 then copy a else a))
      | None => inl (- ENOENT)
      end.
Proof.
  intros Htag Hall. destruct (Z.eqb_spec (major version) 1) as [Hv|Hv].
  - destruct (attributes_v1 version tag attrs (map copy attrs) Hv Htag) as (n & Hn & Hget).
    { apply Forall2_fmap_r, Forall_Forall2_diag. eapply Forall_impl; [by apply Hall|apply sendable_translates]. }
    exists n. split; [done|]. intros i Hi. rewrite (Hget i Hi), list_lookup_fmap.
    by destruct (attrs !! Z.to_nat i).
  - destruct (attributes_v2 version tag attrs Hv Htag) as (n & Hn & Hget). by exists n.
Qed.

Definition sample_vendor : kmip_node :=
  leaf KMIP_TAG_ATTRIBUTE (StructureValue
    [KmipNode KMIP_TAG_VENDOR_IDENTIFICATION 5 None (TextValue (Some (bs "zkey1")));
     KmipNode KMIP_TAG_ATTRIBUTE_NAME 8 None (TextValue (Some (bs "key-type")));
     leaf KMIP_TAG_ATTRIBUTE_VALUE (IntegerValue 7)]).

Lemma sample_attributes_sendable :
  Forall sendable [leaf KMIP_TAG_STATE (EnumerationValue 2); sample_vendor].
Proof.
  constructor; [|constructor; [|constructor]]; (split; [by vm_compute|]).
  - left. split; [done|]. eexists. by vm_compute.
  - right. exists (bs "zkey1"), (bs "key-type"), (leaf KMIP_TAG_ATTRIBUTE_VALUE (IntegerValue 7)).
    split_and!; [|done|by vm_compute]. repeat split; try (by repeat constructor).
    by intros [?|?].
Qed.

Lemma attributes_roundtrip_witness :
  ∃ n, kmip_new_attributes (KmipVersion 1 2) KMIP_TAG_COMMON_ATTRIBUTES
         [Some (leaf KMIP_TAG_STATE (EnumerationValue 2)); Some sample_vendor] = Some n ∧
    kmip_get_attributes (Some n) (Some 1) = inr (2, Some sample_vendor).
Proof.
  destruct (attributes_roundtrip (KmipVersion 1 2) KMIP_TAG_COMMON_ATTRIBUTES
              [leaf KMIP_TAG_STATE (EnumerationValue 2); sample_vendor]) as (n & Hn & Hget);
    [done|intros _; apply sample_attributes_sendable|].
  exists n. split; [exact Hn|]. rewrite Hget by lia. by vm_compute.
Defined.

(** C25: cryptographic parameters whose numbers are in the ranges of their types are sent and
    received in every protocol version: their node is built and encoded, whatever is then
    sent behind it, and the reader gets from the decoded node every parameter that the
    version has as it was given, and 0, false or -1 for one that was not given or that
    came with a later version. *)
Theorem parameters_over_wire `{BnLaws} {W R : Type}
    `{BioOps W, !BioWriteLaws W, BioOps R, !BioReadLaws R} (dflt : kmip_version)
    (version : option kmip_version) (p : crypto_parameters) (w : W) (r : R) (rest : list Z) :
  parameters_ok p = true →
  ∃ n bytes n' w', kmip_new_cryptographic_parameters dflt version p = Some n ∧
    kmip_encode_ttlv n w = Done (0, Z.of_nat (length bytes), n', w') ∧ bio_out w' = bio_out w ++ bytes ∧
    (bio_in r = bytes ++ rest →
     ∃ m r', kmip_decode_ttlv KMIP_DECODE_MAX_NESTING_LEVEL None r = Done (inr m, None, r') ∧
       bio_in r' = rest ∧
       kmip_get_cryptographic_parameter (Some m) = inr (sent_parameters (default dflt version) p)).
Proof.
  intros Hok. destruct (cryptographic_parameters_read received dflt version p keeps_received)
    as (els & Hnew & Hread).
  destruct (parameters_transportable dflt version p _ Hok Hnew) as (Ht & Hmax & Hd).
  set (n := KmipNode _ _ _ _) in *.
  destruct (encode_ref n w (transportable_encodable _ Ht) Hmax) as (w' & Henc & Hout).
  exists n, (ttlv n), (relength n), w'. split_and!; [done|done|done|]. intros Hr.
  destruct (decode_ref n KMIP_DECODE_MAX_NESTING_LEVEL Ht Hmax) with (size := @None Z) (b := r) (rest := rest)
    as (r' & Hdec & Hr'); [unfold KMIP_DECODE_MAX_NESTING_LEVEL; lia|done|done|].
  exists (received n), r'. split_and!; [done|done|]. unfold n. rewrite received_structure. apply Hread.
Qed.

(** salt length and mask generator come with v1.4: from a v1.2 node they are read as missing *)
Definition sample_parameters : crypto_parameters :=
  CryptoParameters 1 3 6 0 0 3 (Some true) (Some 96) None None None None (Some 1) (Some 20) 1 6 None.

Lemma parameters_over_wire_witness :
  ∃ n bytes m r', kmip_new_cryptographic_parameters (KmipVersion 1 0) (Some (KmipVersion 1 2)) sample_parameters = Some n ∧
    bytes = ttlv n ∧
    kmip_decode_ttlv KMIP_DECODE_MAX_NESTING_LEVEL None (bytes ++ [9]) = Done (inr m, None, r') ∧
    kmip_get_cryptographic_parameter (Some m)
    = inr (CryptoResults (1, 3, 6, 0, 0, 3) true (96, -1, -1, -1, -1) 1 (-1) 0 0 0).
Proof.
  destruct (parameters_over_wire (W := list Z) (R := list Z) (KmipVersion 1 0) (Some (KmipVersion 1 2))
    sample_parameters [] (ttlv (default sample_response (kmip_new_cryptographic_parameters (KmipVersion 1 0)
      (Some (KmipVersion 1 2)) sample_parameters)) ++ [9]) [9])
    as (n & bytes & n' & w' & Hn & Henc & Hout & Hread); [by vm_compute|].
  exists n, bytes. pose proof Hn as Hn'. vm_compute in Hn'. injection Hn' as <-.
  vm_compute in Henc. injection Henc as _ _ <-. simpl in Hout. subst bytes.
  destruct Hread as (m & r' & Hdec & _ & Hget); [by vm_compute|].
  exists m, r'. split; [exact Hn|]. split; [by vm_compute|]. split; [exact Hdec|exact Hget].
Defined.

(** ** Keys *)

(** C26: a symmetric key can be wrapped up for a request in any protocol version, with any
    attributes in v2.x and with those that have a form there in v1.x; if the object's values
    are in the ranges of their types and it is within the limits of size and nesting, the
    other side reads from the decoded object the same bytes, format and algorithm, and the
    same length if it is positive, or -1 if it is not. *)
Theorem key_over_wire `{BnLaws} {R : Type} `{BioReadLaws R} (dflt : kmip_version)
    (version : option kmip_version) (format_type algorithm bits : Z) (key : list Z)
    (attrs : list (option kmip_node)) :
  format_type ≠ 0 → key ≠ [] →
  (major (default dflt version) = 1 → Forall sendable (omap id attrs)) →
  ∃ object, symmetric_key_object dflt version format_type algorithm bits key attrs = Some object ∧
    ∀ (k : nat) (r : R) (rest : list Z),
      transportable object = true → Z.of_nat (length (ttlv object)) <= INT_MAX →
      (node_depth object <= k)%nat → bio_in r = ttlv object ++ rest →
      ∃ object' r' kv, kmip_decode_ttlv k None r = Done (inr object', None, r') ∧ bio_in r' = rest ∧
        read_raw_key object'
        = inr (KeyBlock (Some format_type) 0 (Some kv) algorithm (if 0 <? bits then bits else -1) None, key).
Proof.
  intros Hf Hkey Hall.
  destruct (symmetric_key_built dflt version format_type algorithm bits key attrs Hf) as [object Hobj].
  { intros Hv. eapply Forall_impl; [by apply Hall|]. intros a Ha.
    destruct (sendable_translates a Ha) as (v1 & Hv1 & _). by exists v1. }
  exists object. split; [done|]. intros k r rest Ht Hmax Hd Hr.
  destruct (decode_ref object k Ht Hmax Hd None r rest) as (r' & Hdec & Hr'); [done|done|].
  destruct (read_raw_key_ok dflt version format_type algorithm bits key attrs object Hf Hkey Hobj)
    as (kv & Hread).
  by exists (received object), r', kv.
Qed.

Definition sample_key : option kmip_node :=
  symmetric_key_object (KmipVersion 1 0) (Some (KmipVersion 1 2)) 1 3 256 [1; 2; 254]
    [Some (leaf KMIP_TAG_STATE (EnumerationValue 2)); None; Some sample_vendor].

Lemma key_over_wire_witness :
  ∃ object object' r' kv, sample_key = Some object ∧
    kmip_decode_ttlv 32 None (ttlv object ++ [9]) = Done (inr object', None, r') ∧
    read_raw_key object' = inr (KeyBlock (Some 1) 0 (Some kv) 3 256 None, [1; 2; 254]).
Proof.
  destruct (key_over_wire (R := list Z) (KmipVersion 1 0) (Some (KmipVersion 1 2)) 1 3 256 [1; 2; 254]
    [Some (leaf KMIP_TAG_STATE (EnumerationValue 2)); None; Some sample_vendor]) as (object & Hobj & Hread);
    [done|done|intros _; apply sample_attributes_sendable|].
  exists object. pose proof Hobj as Hobj'. vm_compute in Hobj'. injection Hobj' as Hval.
  destruct (Hread 32%nat (ttlv object ++ [9]) [9]) as (object' & r' & kv & Hd & _ & Hk);
    [by rewrite <- Hval; vm_compute..|rewrite <- Hval; vm_compute; lia|done|].
  exists object', r', kv. split; [exact Hobj|]. split; [exact Hd|exact Hk].
Defined.

(** A number of a multiple of 8 bytes with the top bit set, as the modulus of every RSA key
    of 1024, 2048 or 4096 bits is one, arrives 256^n below. *)
Lemma wire_bignum_full `{BnLaws} (j n : Z) :
  0 < j < 33554431 → 2 ^ (64 * j - 1) <= n < 2 ^ (64 * j) → wire_bignum n = n - 2 ^ (64 * j).
Proof.
  intros Hj Hn. destruct (BN_num_bytes_law n) as (Hb0 & Hb1 & Hb2).
  assert (Hpos : 0 < 2 ^ (64 * j - 1)) by (apply Z.pow_pos_nonneg; lia).
  destruct Hb2 as [Hb2 Hb3]; [lia|]. rewrite Z.abs_eq in Hb1, Hb3 by lia.
  assert (H256 : ∀ a, 0 <= a → 256 ^ a = 2 ^ (8 * a)).
  { intros a Ha. rewrite Z.pow_mul_r by lia. done. }
  rewrite H256 in Hb1, Hb3 by lia.
  assert (Hlen : BN_num_bytes n = 8 * j).
  { assert (8 * (BN_num_bytes n - 1) < 64 * j) by (apply (Z.pow_lt_mono_r_iff 2); lia).
    assert (64 * j - 1 < 8 * BN_num_bytes n) by (apply (Z.pow_lt_mono_r_iff 2); lia). lia. }
  assert (HL : bignum_block_length (kmip_encode_bignum_length (Some n)) = 8 * j).
  { unfold kmip_encode_bignum_length. rewrite BN_is_negative_law, Hlen, (proj2 (Z.ltb_ge n 0)) by lia.
    cbn [andb]. rewrite u32_small by lia. unfold bignum_block_length, KMIP_BIG_INTEGER_BLOCK_LENGTH.
    by rewrite Z.mul_comm, Z.mod_mul. }
  unfold wire_bignum, bignum_fits. rewrite HL, !H256 by lia.
  change 128 with (2 ^ 7). rewrite <- Z.pow_add_r by lia.
  replace (7 + 8 * (8 * j - 1)) with (64 * j - 1) by lia. replace (8 * (8 * j)) with (64 * j) by lia.
  by rewrite (proj2 (Z.leb_gt n 0)), (proj2 (Z.ltb_ge n _)) by lia.
Qed.

Lemma rsa_modulus_turns_negative `{BnLaws} (j n e : Z) :
  0 < j < 33554431 → 2 ^ (64 * j - 1) <= n < 2 ^ (64 * j) →
  ∃ m, kmip_new_transparent_rsa_public_key (Some n) (Some e) = Some m ∧
    kmip_get_transparent_rsa_public_key (Some (received m))
    = inr (Some (n - 2 ^ (64 * j)), Some (wire_bignum e)) ∧ n - 2 ^ (64 * j) < 0.
Proof.
  intros Hj Hn. eexists. split; [reflexivity|]. split; [|lia].
  rewrite <- (wire_bignum_full j n Hj Hn). done.
Qed.

(** ** The exchange with a server *)

Section Exchange.
Context `{BnLaws} {B : Type} `{BioOps B, !BioReadLaws B, !BioWriteLaws B, !BioFlush B}.

(** [kmip_connection_tls_perform] past the request *)
Lemma perform_encoded b req b' :
  kmip_encode_ttlv req b = Done (0, Z.of_nat (length (ttlv req)), relength req, b') →
  (BIO_flush b').1 = 1 →
  kmip_connection_tls_perform (Some b) req
  = '(r, _, bio) ← kmip_decode_ttlv KMIP_DECODE_MAX_NESTING_LEVEL None (BIO_flush b').2;
    Done (match r with
          | inl rc => (rc, None, None, relength req)
          | inr response => (0, Some response, Some bio, relength req)
          end).
Proof.
  intros He Hfl. unfold kmip_connection_tls_perform. rewrite He, Done_bind. cbn [Z.eqb negb].
  destruct (BIO_flush b') as [fl b1]. cbn [fst snd] in *. subst fl. cbn [Z.eqb Pos.eqb negb].
  destruct (kmip_decode_ttlv _ _ _) as [[[[rc|n] s] b2]| | |]; done.
Qed.
End Exchange.

(** C11: when the server answers to what was sent before and the encoding of the request with
    the encoding of a response, the caller gets that response: its header, and every batch
    item at its index; the connection stays up, with what the server sent later unread. *)
Theorem tls_perform_exchange `{BnLaws} {B : Type}
    `{BioOps B, !BioReadLaws B, !BioWriteLaws B, !BioFlush B} (answer : list Z → list Z)
    `{!BioPeer B answer} (b : B) (req : kmip_node) (len : Z) (name : option (list Z))
    (header : kmip_node) (items : list kmip_node) (later : list Z) :
  let resp := KmipNode KMIP_TAG_RESPONSE_MESSAGE len name (StructureValue (header :: items)) in
  encodable req = true → Z.of_nat (length (ttlv req)) <= INT_MAX →
  transportable resp = true → Z.of_nat (length (ttlv resp)) <= INT_MAX →
  (node_depth resp <= KMIP_DECODE_MAX_NESTING_LEVEL)%nat →
  node_tag header = KMIP_TAG_RESPONSE_HEADER → Forall (λ e, node_tag e = KMIP_TAG_BATCH_ITEM) items →
  answer (bio_out b ++ ttlv req) = ttlv resp ++ later →
  ∃ r b', kmip_connection_tls_perform (Some b) req = Done (0, Some r, Some b', relength req) ∧
    bio_in b' = later ∧
    ∀ i, 0 <= i →
      kmip_get_response (Some r) true i
      = inr (Some (received header), received <$> items !! Z.to_nat i).
Proof.
  intros resp He Hm Ht Hmax Hd Hh Hi Hans. destruct (encode_ref req b He Hm) as (b1 & Henc & Ho1).
  destruct (BIO_flush_law b1) as (Hf1 & Hf2 & Hf3). rewrite Ho1, Hans in Hf3.
  destruct (decode_ref resp KMIP_DECODE_MAX_NESTING_LEVEL Ht Hmax Hd None (BIO_flush b1).2 later)
    as (b2 & Hdec & Hb2); [done|done|].
  exists (received resp), b2. split; [|split; [done|]].
  - by rewrite (perform_encoded b req b1 Henc Hf1), Hdec.
  - intros i Hi0. unfold kmip_get_response, resp. rewrite received_structure.
    change (check_tag _ _) with (@inr Z unit tt). cbn [mbind rc_bind want map].
    cbn [kmip_node_get_structure_element_by_tag node_value].
    rewrite (find_by_tag_skip KMIP_TAG_BATCH_ITEM) by (by rewrite received_tag, Hh).
    rewrite find_by_tag_received, find_by_tag_all by done.
    cbn [find_by_tag]. by rewrite received_tag, Hh.
Qed.

(** a server that sends the sample response and three bytes more to any request *)
Definition sample_answer (_ : list Z) : list Z := ttlv sample_response ++ [1; 2; 3].
#[local] Instance sample_flush : BioFlush duplex := duplex_flush sample_answer.
#[local] Instance sample_peer : BioPeer duplex sample_answer := duplex_peer sample_answer.
Definition sample_request : kmip_node :=
  leaf KMIP_TAG_REQUEST_MESSAGE (StructureValue [leaf KMIP_TAG_BATCH_COUNT (IntegerValue 1)]).

Lemma tls_perform_exchange_witness :
  ∃ r b', kmip_connection_tls_perform (Some (Duplex [] [])) sample_request
          = Done (0, Some r, Some b', relength sample_request) ∧
    kmip_get_response (Some r) true 1 = inr (Some (received sample_header), Some (received sample_item)).
Proof.
  destruct (tls_perform_exchange sample_answer (Duplex [] []) sample_request 0 None sample_header
              [sample_item; sample_item] [1; 2; 3]) as (r & b' & Hp & _ & Hget);
    [by vm_compute..|vm_compute; lia|done|by repeat constructor|done|].
  exists r, b'. split; [done|]. by rewrite Hget.
Defined.

(** C29: a request over TLS always returns, whatever the BIO of the connection answers to each
    read, write and flush: with a well-formed response and the connection up, if the request
    was encoded and flushed without an error; or else with the error of the encoder, of the
    flush or of the decoder, no response and the connection torn down. Without a connection
    nothing is sent. The request must not have a byte string that is shorter than its length
    field says; only its length fields change. *)
Theorem tls_perform_total `{BnLaws} {B : Type} `{BioOps B, !BioFlush B}
    (bio : option B) (req : kmip_node) :
  buffers_ok req = true →
  ∃ rc resp bio' req', kmip_connection_tls_perform bio req = Done (rc, resp, bio', req') ∧
    match bio with
    | None => rc = - ENOTCONN ∧ resp = None ∧ req' = req
    | Some b =>
        unsized req' = unsized req ∧
        ∃ e size b1, kmip_encode_ttlv req b = Done (e, size, req', b1) ∧
        ((e ∈ [- EIO; - EINVAL; - EOVERFLOW] ∧ rc = e ∧ resp = None ∧ bio' = None) ∨
         (e = 0 ∧ (BIO_flush b1).1 ≠ 1 ∧ rc = - EIO ∧ resp = None ∧ bio' = None) ∨
         (e = 0 ∧ (BIO_flush b1).1 = 1 ∧
          rc ∈ [- E2BIG; - EMSGSIZE; - EIO; - EBADMSG] ∧ resp = None ∧ bio' = None) ∨
         (e = 0 ∧ (BIO_flush b1).1 = 1 ∧ rc = 0 ∧ ∃ r b', resp = Some r ∧ bio' = Some b' ∧
          typed r = true ∧ (node_depth r <= KMIP_DECODE_MAX_NESTING_LEVEL)%nat))
    end.
Proof.
  intros Hbuf. destruct bio as [b|]; [|by eexists _, _, _, _].
  destruct (encode_always_returns req b Hbuf) as (e & size & req' & b1 & Henc & Hu & He).
  unfold kmip_connection_tls_perform. rewrite Henc, Done_bind.
  destruct (Z.eqb_spec e 0) as [->|Hne]; cbn [negb].
  2: { eexists _, _, _, _. split; [done|]. split; [done|]. exists e, size, b1. split; [done|]. left.
       by destruct He. }
  destruct (BIO_flush b1) as [fl b2] eqn:Ef. destruct (Z.eqb_spec fl 1) as [->|Hfl]; cbn [negb].
  2: { eexists _, _, _, _. split; [done|]. split; [done|]. exists 0, size, b1. rewrite Ef. split; [done|].
       right. by left. }
  destruct (decode_all KMIP_DECODE_MAX_NESTING_LEVEL None b2) as (r & s & b3 & -> & Hr); [done|].
  rewrite Done_bind. destruct r as [rc|n]; (eexists _, _, _, _; split; [done|]); (split; [done|]);
    exists 0, size, b1; rewrite Ef; (split; [done|]); right; right.
  - by left.
  - right. destruct Hr as (Ht & Hd & _). split_and!; [done..|]. by exists n, b3.
Qed.

(** a connection that is lost: every write fails *)
Definition broken_ops : BioOps duplex :=
  {| BIO_read b _ := ([], b); BIO_write b _ := (-1, b) |}.

Lemma tls_perform_total_witness :
  ∃ rc resp bio' req',
    @kmip_connection_tls_perform _ duplex broken_ops sample_flush (Some (Duplex [7] [])) sample_request
    = Done (rc, resp, bio', req') ∧ rc = - EIO ∧ bio' = None.
Proof.
  destruct (@tls_perform_total _ _ duplex broken_ops sample_flush (Some (Duplex [7] [])) sample_request)
    as (rc & resp & bio' & req' & Hp & _ & e & size & b1 & Henc & Hcases); [by vm_compute|].
  exists rc, resp, bio', req'. split; [exact Hp|]. vm_compute in Henc. injection Henc as <- <- _ _.
  destruct Hcases as [(_ & -> & _ & ->)|[(? & _)|[(? & _)|(? & _)]]]; done.
Defined.

(** ** What the modelling showed *)

(** 2^63 is sent as a negative number. *)
Lemma positive_becomes_negative :
  kmip_decode_ttlv 1 None (ttlv (leaf KMIP_TAG_MODULUS (BigIntegerValue (Some (2 ^ 63)))))
  = Done (inr (KmipNode KMIP_TAG_MODULUS 8 None (BigIntegerValue (Some (- 2 ^ 63)))), None, []).
Proof. by vm_compute. Qed.

(** A big integer without value can be made but neither sent nor cloned. *)
Lemma unset_bigint_is_stuck :
  ∃ n, kmip_node_new_bigint KMIP_TAG_MODULUS None None = Some n ∧
    (∃ size n' b, kmip_encode_ttlv n ([] : list Z) = Done (- EINVAL, size, n', b)) ∧
    kmip_node_clone n = None.
Proof. eexists. split; [by vm_compute|]. split; [|by vm_compute]. eexists _, _, _. vm_compute. reflexivity. Qed.

(** A key block without a length is read with the length -1. *)
Lemma missing_length_is_minus_one :
  (b ← kmip_get_key_block (kmip_new_key_block 1 0 (Some (leaf KMIP_TAG_KEY_VALUE (BytesValue (Some [7])))) 3 0 None)
         true true; inr (kb_length b)) = (inr (-1) : Z + Z).
Proof. by vm_compute. Qed.

(** The tag that is asked for is not the tag of the structure. *)
Lemma attributes_tag_ignored :
  node_tag <$> kmip_new_attributes (KmipVersion 2 0) KMIP_TAG_PRIVATE_KEY_ATTRIBUTES [] = Some KMIP_TAG_ATTRIBUTES ∧
  node_tag <$> kmip_new_attributes (KmipVersion 1 0) KMIP_TAG_PRIVATE_KEY_ATTRIBUTES []
  = Some KMIP_TAG_TEMPLATE_ATTRIBUTE.
Proof. by vm_compute. Qed.

(** Vendor attributes whose name is split in another place than it was joined. *)
Lemma custom_names_shift :
  (kmip_build_v1_custom_attr_name (Some (bs "x")) (Some (bs "key-type")) ≫=
     λ n, match kmip_split_v1_custom_attr_name n with inr p => Some p | inl _ => None end)
  = Some (bs "key", bs "type") ∧
  (kmip_build_v1_custom_attr_name (Some (bs "my-co")) (Some (bs "size")) ≫=
     λ n, match kmip_split_v1_custom_attr_name n with inr p => Some p | inl _ => None end)
  = Some (bs "my", bs "co-size").
Proof. by vm_compute. Qed.
End KmipProps.
